(* ===== verification/_CoqProject ===== *)
-Q . S2P
Prelude.v
Py.v
Floats.v
Clock.v
Isoformat.v
Model.v
World.v
Cache.v
AuditLog.v
Rbac.v
AuditCursor.v
Normalize.v
Messaging.v
Serializers.v
Store.v
Hosts.v
Organization.v
Networking.v
Tags.v
HostActions.v
Sha256.v
AgentStore.v
AgentBinaries.v
FileStore.v
Url.v
AgentInstall.v
Auth.v
Inventory.v
Reports.v
Response.v
VmInventory.v
Vms.v
Sweeper.v
Lifecycle.v
Consumers.v
FakeAgent.v
AgentShape.v
AgentLoop.v
Schemas.v
Subscriptions.v
Startup.v
Connection.v
Management.v
Supervisor.v
Ddl.v
Migrations.v
Metadata.v
Integrity.v
RoutesOrg.v
RoutesHosts.v
RoutesVms.v
Access.v
Program.v
History.v
Soundness.v
