(* ===== verification/Prelude.v ===== *)
(** * A verification development for ovc-backend

    ovc-backend is the API and the worker of a virtualization manager: it keeps
    clusters, hosts and VMs in Postgres, short-lived state and locks in Valkey,
    and talks to one agent per host through RabbitMQ queues.  An API call
    becomes a task and an agent request; the agent answers with responses and
    with periodic inventories, which the worker folds back into the rows.
    Everything is a shallow embedding of the Python under [src/app]: a handler
    is a function on an explicit [world] (database, cache, broker, clock, id
    stream) that returns or raises.

    ** The files

    Foundations.  [Prelude]: record updates, case-analysis tactics, [rows] and
    [keep] on tables, sorting.  [Py]: the Python values and methods the code
    uses (JSON values, [int], [float], [round], [str] methods, base64).
    [Clock], [Isoformat]: [datetime.fromisoformat] and [datetime.isoformat].
    [Model]: [app/config.py], [app/models], [messaging/protocol.py] - one record
    per table, foreign-key cascades.  [World]: exceptions ([api/errors.py]), the
    monad [M], the sessions of [app/db.py], column types, the [wp]/[keeps]
    reasoning.  [Store]: primary-key access, unique indexes, invariants through
    transactions.

    State and messages.  [Cache]: [app/cache.py] and [task_timeouts.py] - the
    state overlay, the per-VM lock (its contract is the class [VmMutex], which
    the clients are proved against) and the deleted-VM tombstones.
    [Messaging]: [messaging/queues.py], [publisher.py] and what
    [management.py] does to the broker's users.  [Connection]:
    [messaging/rabbit.py].  [Management]: [management.py] over HTTP, refining
    [Messaging] and [Startup], and [lifespan] of [main.py].  [AuditLog],
    [AuditCursor]: [services/audit.py] and its paging, cursor text included.

    Principals.  [Auth]: [api/deps.py], [services/auth.py].  [Rbac]:
    [services/rbac.py].

    Services.  [Hosts], [Organization], [Networking], [Tags], [HostActions],
    [Vms]: the modules of [app/services] of those names (with
    [schemas/vm.py] in [Vms]).  [AgentStore], [FileStore], [AgentBinaries],
    [AgentInstall], with [Sha256] and [Url] for the parts of [hmac] and
    [urllib.parse] they use: [services/agent_store.py] (its links, then its
    transfers over a file system and an object store), [agent_upgrade.py],
    [routes/agent_binaries.py] and the installer half of [services/hosts.py].

    The worker.  [Normalize]: the pure part of [services/inventory.py].
    [Inventory], [Response]: its handlers.  [Consumers]: [worker/consumers.py].
    [Subscriptions], [Sweeper]: the passes of [worker/main.py]; [Supervisor]:
    the process that runs them.  [VmInventory] and [Lifecycle] hold only
    theorems, about a snapshot and about a VM across the handlers.

    The API.  [Serializers]: [services/serializers.py].  [Schemas]: the
    hardware inventory of [schemas/host.py] and the response envelope of
    [messaging/protocol.py].  [RoutesOrg], [RoutesHosts], [RoutesVms]:
    [api/routes].  [Access]: every state-changing endpoint as one [request]
    type, one call as [serve].  [Startup]: [app/preflight.py],
    [routes/health.py], [app/logging.py].

    The schema.  [Ddl]: tables and the operations on them.  [Migrations]:
    [alembic/versions] and the schema check of [preflight.py].  [Metadata]: the
    tables the models declare.  [Integrity]: references between rows under
    deletion.

    The stand-in agent.  [FakeAgent]: [scripts/fake_agent.py].  [AgentShape]:
    the shape its state keeps.  [AgentLoop]: agent and worker together.

    The whole.  [Program]: every way the backend acts on its world as one step
    relation.  [History], [Soundness]: what every sequence of steps keeps.

    ** What the theorems show

    - VM operations: one mutating task per VM at a time, the exact effect of an
      accepted request, and what a failed publication leaves behind ([Vms]); the
      lock refines its mutex contract and outlives its task ([Cache]).
    - Access: a principal's scope is exactly what its grants say ([Rbac]);
      whatever a scoped principal sends, nothing outside its scope changes
      ([Access.scoped_requests_confined]); the VM listing is exact ([RoutesVms]).
    - The worker: a snapshot refines the set of reported GUIDs
      ([VmInventory]), a response ends its task once and frees its VM
      ([Response]), the sweep is exact ([Sweeper]), deleted VMs stay deleted
      while their tombstone lives ([Lifecycle]), every host ends up consumed and
      a stuck channel is dropped ([Subscriptions]), and a running worker is never
      cut off from the broker for long ([Supervisor]).
    - Any history of the backend: tasks move only forward, the audit log only
      grows or is settled or pruned ([History]), and the tables stay consistent
      ([Soundness]) - placement ([Organization]), VLAN scopes ([Networking]),
      tags ([Tags]); deletions leave no dangling reference ([Integrity]).
    - Reading: the pages of the audit log list every matching event once
      ([AuditCursor]); hardware inventories stay readable ([Schemas]).
    - Hosts and agents: registration and removal are inverse on the broker
      ([Hosts]), start-up repairs what is missing ([Startup]), over HTTP as
      specified ([Management]); host actions are exclusive ([HostActions]), one
      active build per hypervisor ([AgentBinaries]) whose bytes survive in the
      store ([FileStore]), links verify exactly until they expire ([AgentStore]),
      the agent's URL carries its credentials intact ([AgentInstall]), and a
      power action closes its loop through the agent ([AgentLoop]).
    - The schema: migrations are reversible ([Migrations]) and lead to what the
      models declare ([Metadata]).
    - Principals: one row per e-mail under concurrent first requests, bounded
      key-set downloads ([Auth]).
    - Defects are lemmas next to the behaviour they break, e.g.
      [Response.late_progress_fails_task], [Lifecycle.stale_snapshot_clears_tombstone],
      [Vms.create_failure_strands_lock], [AgentStore.sibling_escapes],
      [RoutesVms.unknown_filter_misses], [Startup.long_body_unredacted],
      [Supervisor.first_host_ends_worker], [Soundness.report_breaks_cluster].

    ** Bounds and fuel

    Recursion follows the data except for: [str_of_Z], with [log2_up] of the
    number as fuel (at least its decimal digits); [AuditLog.all_pages] and
    [AuditCursor.read_log], whose theorems fix the fuel by the number of events,
    since each page but the last holds [limit >= 1] of them; [FileStore.chunked], with the length of the
    content, of which each step takes at least one byte; [parse_clock], with one
    step per component of a time (three); and [blocks], with the number of
    words, sixteen of which each step takes.  [wait_for_schema] makes the thirty
    attempts of the code.  [int] of a string like Python rejects more than 4300
    digits.  Column widths are checked where a flush would ([col_str],
    [col_int], [wide]); SHA-256 words are [Z] reduced modulo 2^32.

    ** Conventions

    - The tables satisfy their schema: primary keys identify rows, ids given to
      a lookup are well formed (Postgres would answer an ill-formed UUID with an
      error the API maps to the same 404).  Postgres is reachable, except where
      [Supervisor] lets a pass fail; Valkey and RabbitMQ may be down
      ([w_cache_up], [w_broker_up]).
    - Strings are byte strings (UTF-8); [ORDER BY] on text compares bytes and
      [lower]/[strip] act on ASCII (and Latin-1 spaces).  Within one handler the
      clock does not advance; the monotonic clock reads as the wall clock.
    - A handler's database is the session's: it is put back when the handler
      raises, while cache writes and published messages stay.  Handlers run one
      after the other except where a theorem names an interleaving (the [race]
      of [Auth], the stale snapshots of [Lifecycle], two first callers of
      [Connection.get_connection]).
    - Pydantic has validated a body before its route runs; [VmCreate_valid] and
      [VmClone_valid] are that validation for the VM bodies.

    ** Not modelled

    Parameters, because their code is not part of the repository: PyJWT's
    verification, the HTTP download of the key set, the management server of
    RabbitMQ, boto3 and S3 presigning, Alembic, pydantic's validators of
    scalars, [json.loads]/[json.dumps] text, Python's [repr].  Left out as
    wiring: the engine of [db.py], the assembly of the application in [main.py]
    and its [__main__.py], the format of the log handlers, [env.py] of Alembic.
    The payload classes of the inventories in [messaging/protocol.py] are used
    nowhere.  A thumbnail's HTTP headers and the [acquired_at] text of a lock in
    error details are not rendered. *)
From stdpp Require Export base option list strings gmap.
From stdpp Require Import fin_maps.
From Stdlib Require Export ZArith Lia.
#[global] Open Scope Z_scope.

(** ** Functional record update

    [r <| f := v |>] and [r <| f ::= g |>] rebuild a record with one field
    changed.  A record opts in with an [Eta] instance listing its fields. *)
Class Eta (R : Type) := { eta : R → R }.
Class SetField {R E : Type} (proj : R → E) := { set_field : (E → E) → R → R }.

Ltac solve_set_field :=
  match goal with
  | |- @SetField ?R ?E ?p =>
      let e := constr:(@eta R _) in
      let e' := eval hnf in e in
      let f := fresh "f" in let r := fresh "r" in
      constructor; intros f r;
      let b := eval cbv beta in (e' r) in
      match b with
      | context C [p r] => let b' := context C [f (p r)] in exact b'
      end
  end.
#[export] Hint Extern 0 (SetField _) => solve_set_field : typeclass_instances.

Declare Scope record_scope.
Notation "r <| p := v |>" := (set_field (proj := p) (λ _, v) r)
  (at level 12, left associativity, p constr at level 1, v constr at level 99,
   format "r  <| p  :=  v |>") : record_scope.
Notation "r <| p ::= g |>" := (set_field (proj := p) g r)
  (at level 12, left associativity, p constr at level 1, g constr at level 99,
   format "r  <| p  ::=  g |>") : record_scope.
#[global] Open Scope record_scope.
Arguments set_field {R E} proj {SetField} _ _ /.
Arguments eta {R Eta} _ /.

(** ** Case analysis *)

(** Split every [match]/[if] of the goal or of the hypotheses, recording the
    equation, and discharge the contradictory branches. *)
Ltac split_match :=
  match goal with
  | |- context [match ?x with _ => _ end] =>
      lazymatch x with
      | context [match _ with _ => _ end] => fail
      | _ => let E := fresh "E" in destruct x eqn:E
      end
  end.
Ltac split_match_in H :=
  match type of H with
  | context [match ?x with _ => _ end] =>
      lazymatch x with
      | context [match _ with _ => _ end] => fail
      | _ => let E := fresh "E" in destruct x eqn:E
      end
  end.
Ltac split_all := repeat (split_match; simplify_eq/=; try done).
Ltac split_all_in H := repeat (split_match_in H; simplify_eq/=; try done).

(** Turn boolean hypotheses into propositions. *)
Ltac bool_prop :=
  repeat match goal with
  | H : _ && _ = true |- _ => apply andb_prop in H; destruct H
  | H : _ || _ = false |- _ => apply orb_false_elim in H; destruct H
  | H : negb _ = true |- _ => apply negb_true_iff in H
  | H : negb _ = false |- _ => apply negb_false_iff in H
  | H : bool_decide _ = true |- _ => apply bool_decide_eq_true in H
  | H : bool_decide _ = false |- _ => apply bool_decide_eq_false in H
  | H : Is_true _ |- _ => apply Is_true_true in H
  | H : (_ <? _) = true |- _ => apply Z.ltb_lt in H
  | H : (_ <? _) = false |- _ => apply Z.ltb_ge in H
  | H : (_ <=? _) = true |- _ => apply Z.leb_le in H
  | H : (_ <=? _) = false |- _ => apply Z.leb_gt in H
  end.

(** Case split on a decidable proposition tested in the goal. *)
Tactic Notation "by_cases" constr(P) "as" ident(H) :=
  destruct (decide P) as [H|H];
  [rewrite ?(bool_decide_eq_true_2 P H)|rewrite ?(bool_decide_eq_false_2 P H)].

(** ** Options *)

Definition is_some {A} (o : option A) : bool :=
  match o with Some _ => true | None => false end.
(** Python's [a or b] on an optional value whose truthiness is given. *)
Definition or_else {A} (o : option A) (d : option A) : option A :=
  match o with Some _ => o | None => d end.

Lemma is_some_true {A} (o : option A) : is_some o = true ↔ is_Some o.
Proof. destruct o; split; intros H; eauto; [done | by destruct H]. Qed.

(** ** Lists *)

(** [find] of the first element satisfying a test, as Python's
    [next((x for x in l if p(x)), None)]. *)
Fixpoint first_such {A} (p : A → bool) (l : list A) : option A :=
  match l with
  | [] => None
  | x :: l' => if p x then Some x else first_such p l'
  end.

Lemma first_such_Some {A} (p : A → bool) l x :
  first_such p l = Some x → x ∈ l ∧ p x = true.
Proof.
  induction l as [|y l IH]; simpl; [done|].
  destruct (p y) eqn:E; intros H.
  - simplify_eq. split; [apply list_elem_of_here | done].
  - destruct (IH H) as [? ?]. split; [by apply list_elem_of_further | done].
Qed.

Lemma first_such_None {A} (p : A → bool) l :
  first_such p l = None ↔ ∀ x, x ∈ l → p x = false.
Proof.
  induction l as [|y l IH]; simpl.
  - split; [intros _ x Hx; by apply not_elem_of_nil in Hx | done].
  - destruct (p y) eqn:E; split; intros H.
    + done.
    + specialize (H y (list_elem_of_here y l)). congruence.
    + intros x Hx. apply elem_of_cons in Hx as [->|Hx]; [done|].
      by apply IH.
    + apply IH. intros x Hx. apply H. by apply list_elem_of_further.
Qed.

(** Enumeration with positions, Python's [enumerate]. *)
Definition enumerate {A} (l : list A) : list (nat * A) := zip (seq 0 (length l)) l.

Lemma enumerate_length {A} (l : list A) : length (enumerate l) = length l.
Proof. unfold enumerate. rewrite length_zip_with, length_seq. lia. Qed.

(** [ORDER BY]/[sorted]: insertion sort *)
Fixpoint insert_by {A} (le : A → A → bool) (x : A) (l : list A) : list A :=
  match l with
  | [] => [x]
  | y :: l' => if le x y then x :: l else y :: insert_by le x l'
  end.
Definition sort_by {A} (le : A → A → bool) (l : list A) : list A := foldr (insert_by le) [] l.
Lemma elem_of_insert_by {A} (le : A → A → bool) x l y : y ∈ insert_by le x l ↔ y = x ∨ y ∈ l.
Proof.
  induction l as [|z l IH]; cbn; [set_solver|]. destruct (le x z); rewrite !elem_of_cons, ?IH; tauto.
Qed.
Lemma elem_of_sort_by {A} (le : A → A → bool) l x : x ∈ sort_by le l ↔ x ∈ l.
Proof. induction l as [|y l IH]; cbn; [done|]. rewrite elem_of_insert_by, elem_of_cons, IH. tauto. Qed.

(** ** Maps: the rows of a table selected by a test, in a fixed order *)
Definition rows {A} (p : A → bool) (m : gmap string A) : list A :=
  (map_to_list (filter (λ kv, p kv.2 = true) m)).*2.
Definition keep {A} (p : A → bool) (m : gmap string A) : gmap string A :=
  filter (λ kv, p kv.2 = true) m.

Lemma elem_of_rows {A} (p : A → bool) m x :
  x ∈ rows p m ↔ ∃ k, m !! k = Some x ∧ p x = true.
Proof.
  unfold rows. rewrite list_elem_of_fmap. split.
  - intros ([k y] & -> & H). apply elem_of_map_to_list in H.
    apply map_lookup_filter_Some in H as [H1 H2]. eauto.
  - intros (k & H1 & H2). exists (k, x). split; [done|].
    apply elem_of_map_to_list, map_lookup_filter_Some. done.
Qed.

Lemma lookup_keep {A} (p : A → bool) m k x :
  keep p m !! k = Some x ↔ m !! k = Some x ∧ p x = true.
Proof. unfold keep. by rewrite map_lookup_filter_Some. Qed.

Lemma rows_nil {A} (p : A → bool) (m : gmap string A) :
  rows p m = [] ↔ ∀ k x, m !! k = Some x → p x = false.
Proof.
  split.
  - intros Hr k x Hx. destruct (p x) eqn:E; [|done].
    assert (x ∈ rows p m) as Hin by (apply elem_of_rows; eauto).
    rewrite Hr in Hin. by apply not_elem_of_nil in Hin.
  - intros H. destruct (rows p m) as [|y l] eqn:E; [done|].
    assert (y ∈ rows p m) as Hin by (rewrite E; apply list_elem_of_here).
    apply elem_of_rows in Hin as (k & Hk & Hp). by rewrite (H k y Hk) in Hp.
Qed.

Create HintDb ovc.
#[export] Hint Resolve list_elem_of_here list_elem_of_further : ovc.

Lemma is_Some_insert {A} (m : gmap string A) i j x : is_Some (m !! j) → is_Some (<[i := x]> m !! j).
Proof. intros. destruct (decide (i = j)) as [->|N]; [by rewrite lookup_insert_eq|by rewrite lookup_insert_ne]. Qed.
(** a table in which at most one row passes the test *)
Lemma rows_unique {A} (p : A → bool) (m : gmap string A) k x :
  m !! k = Some x → p x = true → (∀ k' x', m !! k' = Some x' → p x' = true → k' = k) → rows p m = [x].
Proof.
  intros Hk Hp Hu. unfold rows. assert (filter (λ kv, p kv.2 = true) m = {[k := x]}) as ->.
  { apply map_eq. intros i. destruct (decide (i = k)) as [->|N].
    - rewrite lookup_singleton_eq. by apply map_lookup_filter_Some.
    - rewrite lookup_singleton_ne by done. apply map_lookup_filter_None. right. intros y Hy Hpy.
      apply N. by apply (Hu i y). }
  by rewrite map_to_list_singleton.
Qed.
