(* ===== verification/Py.v ===== *)
(** * Python values

    The fragment of Python the backend's payload handling uses: JSON values
    as [json.loads] builds them, truthiness, [==] against a constant, dict
    access, [str] methods, [int]/[float]/[round] with the exceptions they
    raise, and strict base64.  A Python [str] is a [string] with one character
    per code point (code points below 256); binary64 floats are the
    Standard Library's [spec_float] at precision 53, exponent bound 1024. *)
From S2P Require Import Prelude.
From Stdlib Require Import Floats.SpecFloat.
From Stdlib Require Import Ascii.
Open Scope string_scope.
Open Scope Z_scope.

(** ** JSON values.  A dict is an insertion-ordered association list. *)
Inductive json : Type :=
  | JNull
  | JBool (b : bool)
  | JInt (z : Z)
  | JFloat (f : spec_float)
  | JStr (s : string)
  | JList (l : list json)
  | JObj (d : list (string * json)).
Abbreviation dict := (list (string * json)).

(** ** Exceptions ([float] and [int] raise the first three) and the results of
    code that raises them *)
Inductive pyexn := TypeError | ValueError | OverflowError | AttributeError | KeyError.
Definition res (A : Type) : Type := (A + pyexn)%type.
#[export] Instance res_ret : MRet res := λ A a, inl a.
#[export] Instance res_bind : MBind res := λ A B k m,
  match m with inl a => k a | inr e => inr e end.
(** [try: r except (TypeError, ValueError): d] *)
Definition catch_value {A} (r : res A) (d : A) : res A :=
  match r with inr TypeError | inr ValueError => inl d | _ => r end.

(** ** Truthiness, [bool(v)] *)
Definition str_nonempty (s : string) : bool := match s with "" => false | _ => true end.
Definition float_is_zero (f : spec_float) : bool :=
  match f with S754_zero _ => true | _ => false end.
Definition truthy (v : json) : bool :=
  match v with
  | JNull => false
  | JBool b => b
  | JInt z => negb (z =? 0)
  | JFloat f => negb (float_is_zero f)
  | JStr s => str_nonempty s
  | JList l => match l with [] => false | _ => true end
  | JObj d => match d with [] => false | _ => true end
  end.
(** [a or b] *)
Definition py_or (a b : json) : json := if truthy a then a else b.
(** [a or None]: [None] when [a] is falsy *)
Definition or_none (a : json) : json := py_or a JNull.
Definition is_null (v : json) : bool := match v with JNull => true | _ => false end.

(** ** Dicts *)
Fixpoint dict_find (d : dict) (k : string) : option json :=
  match d with
  | [] => None
  | (k', v) :: d' => if String.eqb k k' then Some v else dict_find d' k
  end.
(** [d.get(k)] *)
Definition dget (d : dict) (k : string) : json := default JNull (dict_find d k).
(** [d.get(k, dflt)] *)
Definition dget_or (d : dict) (k : string) (dflt : json) : json := default dflt (dict_find d k).
(** [k in d] *)
Definition dmem (d : dict) (k : string) : bool := is_some (dict_find d k).
(** [d.pop(k, None)]: the dict left behind *)
Definition dpop (d : dict) (k : string) : dict :=
  List.filter (λ kv, negb (String.eqb k kv.1)) d.
(** [d[k] = v], in place when the key exists *)
Fixpoint dset (d : dict) (k : string) (v : json) : dict :=
  match d with
  | [] => [(k, v)]
  | (k', v') :: d' => if String.eqb k k' then (k, v) :: d' else (k', v') :: dset d' k v
  end.
Definition as_dict (v : json) : option dict := match v with JObj d => Some d | _ => None end.
(** [v if isinstance(v, dict) else {}] *)
Definition dict_or_empty (v : json) : dict := match v with JObj d => d | _ => [] end.

Lemma dict_find_dset d k v k' :
  dict_find (dset d k v) k' = if String.eqb k' k then Some v else dict_find d k'.
Proof.
  induction d as [|[k1 v1] d IH]; simpl; [done|].
  destruct (String.eqb_spec k k1) as [<-|Hne]; simpl.
  - by destruct (String.eqb k' k).
  - destruct (String.eqb_spec k' k1) as [->|]; [|done].
    destruct (String.eqb_spec k1 k); congruence.
Qed.

Lemma dict_find_dpop d k k' :
  dict_find (dpop d k) k' = if String.eqb k' k then None else dict_find d k'.
Proof.
  induction d as [|[k1 v1] d IH]; simpl; [by destruct (String.eqb k' k)|].
  destruct (String.eqb_spec k k1) as [<-|Hne]; simpl.
  - rewrite IH. by destruct (String.eqb k' k).
  - destruct (String.eqb_spec k' k1) as [->|]; [|done].
    destruct (String.eqb_spec k1 k); congruence.
Qed.

(** ** [str] methods *)

(** [str.isspace] / regex [\s], below 256 *)
Definition py_space (c : ascii) : bool :=
  let n := N_of_ascii c in
  ((9 <=? n) && (n <=? 13) || (28 <=? n) && (n <=? 32) || (n =? 133) || (n =? 160))%N.
Definition in_range (lo hi : N) (c : ascii) : bool :=
  ((lo <=? N_of_ascii c) && (N_of_ascii c <=? hi))%N.
Definition is_digit : ascii → bool := in_range 48 57.
Definition is_hex (c : ascii) : bool := is_digit c || in_range 97 102 c.
Definition is_upper : ascii → bool := in_range 65 90.
Definition is_lower : ascii → bool := in_range 97 122.
Definition up_char (c : ascii) : ascii :=
  if is_lower c then ascii_of_N (N_of_ascii c - 32) else c.
Definition low_char (c : ascii) : ascii :=
  if is_upper c then ascii_of_N (N_of_ascii c + 32) else c.
Fixpoint smap (f : ascii → ascii) (s : string) : string :=
  match s with "" => "" | String c s' => String (f c) (smap f s') end.
(** [s.upper()], [s.lower()] on ASCII letters *)
Definition upper : string → string := smap up_char.
Definition lower : string → string := smap low_char.

Fixpoint drop_while (p : ascii → bool) (s : string) : string :=
  match s with
  | "" => ""
  | String c s' => if p c then drop_while p s' else s
  end.
(** drop the longest suffix of characters satisfying [p] *)
Fixpoint drop_while_end (p : ascii → bool) (s : string) : string :=
  match s with
  | "" => ""
  | String c s' =>
      match drop_while_end p s' with
      | "" => if p c then "" else String c ""
      | r => String c r
      end
  end.
(** [s.strip()] *)
Definition strip (s : string) : string := drop_while_end py_space (drop_while py_space s).
(** [s.startswith(p)] *)
Fixpoint startswith (p s : string) : bool :=
  match p, s with
  | "", _ => true
  | String a p', String b s' => Ascii.eqb a b && startswith p' s'
  | _, _ => false
  end.
(** [s[n:]] *)
Fixpoint sdrop (n : nat) (s : string) : string :=
  match n, s with
  | O, _ => s
  | S n', String _ s' => sdrop n' s'
  | _, "" => ""
  end.
(** [s[:n]] *)
Fixpoint stake (n : nat) (s : string) : string :=
  match n, s with
  | S n', String c s' => String c (stake n' s')
  | _, _ => ""
  end.
(** [s.replace(a, b)] for one-character [a] *)
Definition replace_char (a b : ascii) : string → string :=
  smap (λ c, if Ascii.eqb c a then b else c).
(** split on the characters satisfying [p], [acc] being the current piece *)
Fixpoint split_on (p : ascii → bool) (s acc : string) : list string :=
  match s with
  | "" => [acc]
  | String c s' =>
      if p c then acc :: split_on p s' "" else split_on p s' (acc +:+ String c "")
  end.
(** [s.split(sep)] for a one-character separator *)
Definition split_char (sep : ascii) (s : string) : list string :=
  split_on (λ c, Ascii.eqb c sep) s "".
(** [sep.join(l)] *)
Fixpoint join (sep : string) (l : list string) : string :=
  match l with
  | [] => ""
  | [x] => x
  | x :: l' => x +:+ sep +:+ join sep l'
  end.
Fixpoint s_forallb (p : ascii → bool) (s : string) : bool :=
  match s with "" => true | String c s' => p c && s_forallb p s' end.

(** [s] without the characters that fail [p] *)
Fixpoint sfilter (p : ascii → bool) (s : string) : string :=
  match s with "" => "" | String c s' => if p c then String c (sfilter p s') else sfilter p s' end.

Lemma startswith_app p s : startswith p (p +:+ s) = true.
Proof. induction p as [|c p IH]; simpl; [done|]. by rewrite Ascii.eqb_refl, IH. Qed.

Lemma sdrop_app p s : sdrop (String.length p) (p +:+ s) = s.
Proof. induction p as [|c p IH]; simpl; [done|exact IH]. Qed.

Lemma sapp_assoc a b c : (a +:+ b) +:+ c = a +:+ (b +:+ c).
Proof.
  induction a as [|x a IH]; [done|].
  change (String x ((a +:+ b) +:+ c) = String x (a +:+ (b +:+ c))). by rewrite IH.
Qed.
Lemma sapp_inj p a b : p +:+ a = p +:+ b → a = b.
Proof. intros H. by rewrite <- (sdrop_app p a), H, sdrop_app. Qed.

Lemma sapp_nil_r s : s +:+ "" = s.
Proof. induction s as [|c s IH]; [done|]. change (String c (s +:+ "") = String c s). by rewrite IH. Qed.
Lemma sapp_cons c a b : String c a +:+ b = String c (a +:+ b).
Proof. done. Qed.
Lemma slength_app a b : String.length (a +:+ b) = (String.length a + String.length b)%nat.
Proof. induction a as [|c a IH]; [done|]. rewrite sapp_cons. cbn. by rewrite IH. Qed.
Lemma s_forallb_app p a b : s_forallb p (a +:+ b) = s_forallb p a && s_forallb p b.
Proof. induction a as [|c a IH]; [done|]. rewrite sapp_cons. cbn. by rewrite IH, andb_assoc. Qed.
Lemma s_forallb_weaken (p q : ascii → bool) s :
  (∀ c, p c = true → q c = true) → s_forallb p s = true → s_forallb q s = true.
Proof. intros H. induction s as [|c s IH]; cbn; [done|]. intros [? ?]%andb_prop. rewrite H, IH; done. Qed.

Lemma sfilter_all p s : s_forallb p s = true → sfilter p s = s.
Proof. induction s as [|c s IH]; [done|]. cbn. intros [Hc H]%andb_true_iff. by rewrite Hc, IH. Qed.
Lemma sfilter_app p a b : sfilter p (a +:+ b) = sfilter p a +:+ sfilter p b.
Proof.
  induction a as [|c a IH]; [done|]. rewrite sapp_cons. cbn [sfilter]. rewrite IH.
  destruct (p c); [by rewrite sapp_cons|done].
Qed.
Lemma drop_while_none p s : s_forallb (λ c, negb (p c)) s = true → drop_while p s = s.
Proof. destruct s as [|c s]; [done|]. cbn. intros [H _]%andb_prop. apply negb_true_iff in H. by rewrite H. Qed.
Lemma drop_while_end_none p s : s_forallb (λ c, negb (p c)) s = true → drop_while_end p s = s.
Proof.
  induction s as [|c s IH]; [done|]. cbn. intros [H Hs]%andb_prop. apply negb_true_iff in H.
  rewrite IH by done. destruct s; [by rewrite H|done].
Qed.

Lemma startswith_spec p s : startswith p s = true ↔ ∃ t, s = p +:+ t.
Proof.
  split.
  - revert s. induction p as [|c p IH]; intros s H; simpl in *; [eauto|].
    destruct s as [|c' s]; [done|]. bool_prop.
    apply Ascii.eqb_eq in H as ->. destruct (IH s H0) as [t ->]. eauto.
  - intros [t ->]. apply startswith_app.
Qed.

Lemma stake_length n s : (String.length (stake n s) ≤ n)%nat.
Proof. revert s; induction n as [|n IH]; intros [|c s]; simpl; try lia. specialize (IH s). lia. Qed.

(** ** [str(v)] for the values whose rendering is fixed; a float, list or dict
    goes through [repr], an argument. *)
Definition digit_char (d : Z) : ascii := ascii_of_N (48 + Z.to_N d).
Fixpoint digits_of (fuel : nat) (z : Z) (acc : string) : string :=
  match fuel with
  | O => acc
  | S f => let acc' := String (digit_char (z mod 10)) acc in
           if z <? 10 then acc' else digits_of f (z / 10) acc'
  end.
(** [str(z)]: [Z.log2_up] bounds the number of decimal digits *)
Definition str_of_Z (z : Z) : string :=
  let n := Z.abs z in
  let s := digits_of (S (Z.to_nat (Z.log2_up (n + 1)))) n "" in
  if z <? 0 then String "-" s else s.
Definition py_str (repr : json → string) (v : json) : string :=
  match v with
  | JNull => "None"
  | JBool true => "True"
  | JBool false => "False"
  | JInt z => str_of_Z z
  | JStr s => s
  | v => repr v
  end.

(** ** [v == n] for an integer constant: [True == 1] and [1.0 == 1] hold *)
Definition prec : Z := 53.
Definition emax : Z := 1024.
Definition float_of_Z_raw (z : Z) : spec_float := binary_normalize prec emax z 0 false.
Definition eq_int (v : json) (n : Z) : bool :=
  match v with
  | JInt z => z =? n
  | JBool b => (if b then 1 else 0) =? n
  | JFloat f => SFeqb f (float_of_Z_raw n)
  | _ => false
  end.

(** ** [float(v)] *)

(** correctly rounded quotient of two positive integers *)
Definition float_div_pos (neg : bool) (m d : positive) : spec_float :=
  let '(mz, ez, lz) := SFdiv_core_binary prec emax (Zpos m) 0 (Zpos d) 0 in
  binary_round_aux prec emax neg mz ez lz.
(** the decimal [± m * 10^e], correctly rounded (an overflow gives infinity) *)
Definition float_of_decimal (neg : bool) (m : Z) (e : Z) : spec_float :=
  match m with
  | Zpos p =>
      if 0 <=? e then binary_normalize prec emax ((if neg then -1 else 1) * m * 10 ^ e) 0 neg
      else match 10 ^ (- e) with
           | Zpos d => float_div_pos neg p d
           | _ => S754_nan
           end
  | _ => S754_zero neg
  end.

(** [digit (_? digit)*]: value, number of digits, rest *)
Fixpoint scan_digits (s : string) (v : Z) (n : nat) : Z * nat * string :=
  match s with
  | String c s' =>
      if is_digit c then scan_digits s' (10 * v + Z.of_N (N_of_ascii c - 48)) (S n)
      else match c, s' with
           | "_"%char, String c' _ =>
               if is_digit c' && (0 <? Z.of_nat n) then scan_digits s' v n else (v, n, s)
           | _, _ => (v, n, s)
           end
  | "" => (v, n, s)
  end.
Definition scan_sign (s : string) : bool * string :=
  match s with
  | String "-" s' => (true, s')
  | String "+" s' => (false, s')
  | _ => (false, s)
  end.
(** the exponent part, if any; [None] when it is malformed *)
Definition scan_exp (s : string) : option Z :=
  match s with
  | "" => Some 0
  | String c s' =>
      if Ascii.eqb (low_char c) "e" then
        let '(neg, s1) := scan_sign s' in
        let '(v, n, r) := scan_digits s1 0 0 in
        match n, r with
        | O, _ => None
        | _, "" => Some (if neg then - v else v)
        | _, _ => None
        end
      else None
  end.
(** [float(s)] on a string *)
Definition float_of_string (s : string) : res spec_float :=
  let '(neg, body) := scan_sign (strip s) in
  let w := lower body in
  if String.eqb w "inf" || String.eqb w "infinity" then inl (S754_infinity neg)
  else if String.eqb w "nan" then inl S754_nan
  else
    let '(ip, n1, r1) := scan_digits body 0 0 in
    let '(fp, n2, r2) :=
      match r1 with
      | String "." r =>
          match r with
          | String "_" _ => (ip, O, r)
          | _ => scan_digits r ip 0
          end
      | _ => (ip, O, r1)
      end in
    match (n1 + n2)%nat, scan_exp r2 with
    | O, _ => inr ValueError
    | _, Some e => inl (float_of_decimal neg fp (e - Z.of_nat n2))
    | _, None => inr ValueError
    end.
(** [float(z)]: an integer beyond the range raises [OverflowError] *)
Definition float_of_Z (z : Z) : res spec_float :=
  match float_of_Z_raw z with
  | S754_infinity _ => inr OverflowError
  | f => inl f
  end.
Definition py_float (v : json) : res spec_float :=
  match v with
  | JInt z => float_of_Z z
  | JBool b => inl (float_of_Z_raw (if b then 1 else 0))
  | JFloat f => inl f
  | JStr s => float_of_string s
  | JNull | JList _ | JObj _ => inr TypeError
  end.
Definition float_mul (a b : spec_float) : spec_float := SFmul prec emax a b.

(** ** [round(x)] on a float: to the nearest integer, ties to even *)
Definition round_shift (m : Z) (k : Z) : Z :=
  let q := m / 2 ^ k in
  let r := m mod 2 ^ k in
  let half := 2 ^ (k - 1) in
  if r <? half then q
  else if half <? r then q + 1
  else if Z.even q then q else q + 1.
Definition py_round (f : spec_float) : res Z :=
  match f with
  | S754_zero _ => inl 0
  | S754_infinity _ => inr OverflowError
  | S754_nan => inr ValueError
  | S754_finite s m e =>
      let n := if 0 <=? e then Zpos m * 2 ^ e else round_shift (Zpos m) (- e) in
      inl (if s then - n else n)
  end.
(** [int(x)] on a float: truncation *)
Definition float_trunc (f : spec_float) : res Z :=
  match f with
  | S754_zero _ => inl 0
  | S754_infinity _ => inr OverflowError
  | S754_nan => inr ValueError
  | S754_finite s m e =>
      let n := if 0 <=? e then Zpos m * 2 ^ e else Zpos m / 2 ^ (- e) in
      inl (if s then - n else n)
  end.
(** [int(s)] on a string: optional sign and at most 4300 decimal digits *)
Definition int_of_string (s : string) : res Z :=
  let '(neg, body) := scan_sign (strip s) in
  let '(v, n, r) := scan_digits body 0 0 in
  match n, r with
  | O, _ => inr ValueError
  | _, "" => if (n <=? 4300)%nat then inl (if neg then - v else v) else inr ValueError
  | _, _ => inr ValueError
  end.
(** [int(v)] *)
Definition py_int (v : json) : res Z :=
  match v with
  | JInt z => inl z
  | JBool b => inl (if b then 1 else 0)
  | JFloat f => float_trunc f
  | JStr s => int_of_string s
  | JNull | JList _ | JObj _ => inr TypeError
  end.

Example float_of_string_ok : py_float (JStr " 1_0.5e1 ") = inl (float_of_Z_raw 105).
Proof. vm_compute. reflexivity. Qed.
Example round_half_even :
  [py_round (float_of_decimal false 25 (-1)); py_round (float_of_decimal true 35 (-1));
   py_round (float_of_decimal false 1 (-1))] = [inl 2; inl (-4); inl 0].
Proof. vm_compute. reflexivity. Qed.
Example int_of_string_ok : [py_int (JStr " -1_2 "); py_int (JStr "1__2"); py_int (JStr "")]
  = [inl (-12); inr ValueError; inr ValueError].
Proof. vm_compute. reflexivity. Qed.
Example str_of_Z_ok : [str_of_Z 0; str_of_Z (-1207); str_of_Z 10] = ["0"; "-1207"; "10"].
Proof. vm_compute. reflexivity. Qed.

(** ** [base64.b64decode(s, validate=True)] *)
Definition b64_val (c : ascii) : option N :=
  let n := N_of_ascii c in
  if is_upper c then Some (n - 65)%N
  else if is_lower c then Some (n - 71)%N
  else if is_digit c then Some (n + 4)%N
  else if Ascii.eqb c "+" then Some 62%N
  else if Ascii.eqb c "/" then Some 63%N
  else None.
Definition byte_at (n : N) (sh : N) : ascii := ascii_of_N (N.modulo (N.shiftr n sh) 256).
(** groups of four characters, padding only in the last group; surplus ["="]
    after a complete group is accepted, [lead] while no group was read *)
Fixpoint b64_quads (lead : bool) (s : string) : option string :=
  if negb lead && s_forallb (Ascii.eqb "=") s then Some ""
  else
    match s with
    | "" => Some ""
    | String a (String b (String c (String d r))) =>
        match b64_val a, b64_val b, b64_val c, b64_val d with
        | Some x, Some y, Some z, Some w =>
            let n := (x * 262144 + y * 4096 + z * 64 + w)%N in
            t ← b64_quads false r;
            Some (String (byte_at n 16) (String (byte_at n 8) (String (byte_at n 0) t)))
        | Some x, Some y, Some z, None =>
            if Ascii.eqb d "=" && String.eqb r "" then
              let n := (x * 262144 + y * 4096 + z * 64)%N in
              Some (String (byte_at n 16) (String (byte_at n 8) ""))
            else None
        | Some x, Some y, None, None =>
            if Ascii.eqb c "=" && Ascii.eqb d "=" && String.eqb r "" then
              let n := (x * 262144 + y * 4096)%N in
              Some (String (byte_at n 16) "")
            else None
        | _, _, _, _ => None
        end
    | _ => None
    end.
Definition b64decode_strict : string → option string := b64_quads true.

Example b64_ok : b64decode_strict <$> ["TWFuTQ=="; "TWFu="; "TQ="; "="] =
  [Some "ManM"; Some "Man"; None; None].
Proof. vm_compute. reflexivity. Qed.

(** ** Total readings of a value for typed columns *)
Definition json_str (v : json) : option string := match v with JStr s => Some s | _ => None end.

(** ** Untyped access *)

(** the elements [for x in v] yields *)
Fixpoint chars (s : string) : list json :=
  match s with "" => [] | String c s' => JStr (String c "") :: chars s' end.
Definition py_iter (v : json) : res (list json) :=
  match v with
  | JList l => inl l
  | JObj d => inl (JStr <$> d.*1)
  | JStr s => inl (chars s)
  | _ => inr TypeError
  end.
(** [v.get(k)] on a value that may not be a dict *)
Definition py_get (v : json) (k : string) : res json :=
  match v with JObj d => inl (dget d k) | _ => inr AttributeError end.
(** [v.upper()], [v.lower()] *)
Definition py_upper (v : json) : res json :=
  match v with JStr s => inl (JStr (upper s)) | _ => inr AttributeError end.
Fixpoint res_map {A B} (f : A → res B) (l : list A) : res (list B) :=
  match l with
  | [] => inl []
  | x :: l' => y ← f x; ys ← res_map f l'; mret (y :: ys)
  end.

(** ** Reasoning about results *)
Lemma res_bind_inl {A B} (m : res A) (k : A → res B) b :
  m ≫= k = inl b → ∃ a, m = inl a ∧ k a = inl b.
Proof. destruct m as [a|e]; cbn; [eauto|done]. Qed.
Lemma res_ret_inl {A} (a b : A) : mret (M := res) a = inl b → a = b.
Proof. by intros [= ->]. Qed.
Lemma res_map_inl {A B} (f : A → res B) l ys :
  res_map f l = inl ys → Forall2 (λ x y, f x = inl y) l ys.
Proof.
  revert ys. induction l as [|x l IH]; intros ys; cbn; [by intros [= <-]; constructor|].
  intros (y & Hy & H)%res_bind_inl. apply res_bind_inl in H as (ys' & Hys & [= <-]).
  constructor; auto.
Qed.
(** invert a computation that returned *)
Ltac res_inv H :=
  repeat match type of H with
  | _ ≫= _ = inl _ =>
      let a := fresh "r" in let E := fresh "E" in
      apply res_bind_inl in H as (a & E & H); cbn beta in H
  end;
  try (apply res_ret_inl in H).
