(* ===== verification/Floats.v ===== *)
(** * Integers through binary64 ([float], [round])

    The agent's numbers reach the integer columns through [float(v)] and
    [round]: below 2^53 nothing is lost, nor when the float is scaled by a power
    of two (mebibytes, gibibytes). *)
From S2P Require Import Prelude Py.
From Stdlib Require Import Floats.SpecFloat.
Open Scope Z_scope.

(** ** Digits and shifts *)
Lemma digits_pow (m : positive) : 2 ^ Zpos (digits2_pos m) ≤ 2 * Zpos m ∧ Zpos m < 2 ^ Zpos (digits2_pos m).
Proof.
  induction m as [m IH|m IH|]; cbn [digits2_pos]; [| |done]; rewrite Pos2Z.inj_succ, Z.pow_succ_r by done; lia.
Qed.
Lemma digits_bound m n : Zpos m < 2 ^ n → 0 ≤ n → Zpos (digits2_pos m) ≤ n.
Proof.
  intros Hm Hn. destruct (Z.le_gt_cases (Zpos (digits2_pos m)) n) as [|Hlt]; [done|].
  pose proof (digits_pow m) as [H _].
  assert (2 ^ Z.succ n ≤ 2 ^ Zpos (digits2_pos m)) as H2 by (apply Z.pow_le_mono_r; lia).
  rewrite Z.pow_succ_r in H2 by done. lia.
Qed.
Definition shift_left (k m : positive) : positive := Pos.iter xO m k.
Lemma shift_digits k m : digits2_pos (shift_left k m) = (digits2_pos m + k)%positive.
Proof.
  unfold shift_left. induction k as [|k IH] using Pos.peano_ind; cbn; [lia|].
  rewrite Pos.iter_succ. cbn [digits2_pos]. rewrite IH. lia.
Qed.
Lemma shift_value k m : Zpos (shift_left k m) = Zpos m * 2 ^ Zpos k.
Proof.
  unfold shift_left. induction k as [|k IH] using Pos.peano_ind; [cbn; lia|].
  rewrite Pos.iter_succ, Pos2Z.inj_xO, IH, Pos2Z.inj_succ, Z.pow_succ_r by lia. lia.
Qed.
(** dropping the zeros that a shift appended loses nothing *)
Lemma iter_pos_iter {A} (f : A → A) n x : iter_pos f n x = Pos.iter f x n.
Proof.
  revert x. induction n as [n IH|n IH|]; intros x; cbn; [| |done].
  - rewrite !IH. rewrite <- !Pos.iter_swap. done.
  - by rewrite !IH.
Qed.
Lemma iter_swap {A} (f : A → A) n x : Pos.iter f x (Pos.succ n) = Pos.iter f (f x) n.
Proof. rewrite Pos.iter_succ. symmetry. apply Pos.iter_swap. Qed.
Lemma shr_shift k m :
  iter_pos shr_1 k (Build_shr_record (Zpos (shift_left k m)) false false) = Build_shr_record (Zpos m) false false.
Proof.
  rewrite iter_pos_iter. unfold shift_left. induction k as [|k IH] using Pos.peano_ind; [done|].
  rewrite iter_swap, Pos.iter_succ. exact IH.
Qed.

(** ** A 53-bit mantissa is a float as it stands *)
Lemma fexp_normal e : -1074 ≤ e → fexp prec emax (53 + e) - e = 0.
Proof. intros H. unfold fexp, emin, prec, emax. lia. Qed.
Lemma shr_fexp_normal m e :
  digits2_pos m = 53%positive → -1074 ≤ e →
  shr_fexp prec emax (Zpos m) e loc_Exact = (Build_shr_record (Zpos m) false false, e).
Proof. intros Hd He. unfold shr_fexp. cbn [Zdigits2]. rewrite Hd, fexp_normal by done. done. Qed.
Lemma round_normal s m e :
  digits2_pos m = 53%positive → -1074 ≤ e ≤ 971 →
  binary_round_aux prec emax s (Zpos m) e loc_Exact = S754_finite s m e.
Proof.
  intros Hd He. unfold binary_round_aux. rewrite shr_fexp_normal by lia. cbn [shr_m loc_of_shr_record round_nearest_even].
  rewrite shr_fexp_normal by lia. cbn [shr_m]. unfold emax, prec.
  assert (e <=? 1024 - 53 = true) as -> by (apply Z.leb_le; lia). done.
Qed.
(** a longer one, when the extra bits are zeros *)
Lemma round_shifted s k m e :
  digits2_pos m = 53%positive → -1074 ≤ e + Zpos k ≤ 971 →
  binary_round_aux prec emax s (Zpos (shift_left k m)) e loc_Exact = S754_finite s m (e + Zpos k).
Proof.
  intros Hd He. unfold binary_round_aux, shr_fexp at 1. cbn [Zdigits2]. rewrite shift_digits, Hd.
  replace (fexp prec emax (Z.pos (53 + k) + e) - e) with (Zpos k) by (unfold fexp, emin, prec, emax; lia).
  cbn [shr shr_record_of_loc]. rewrite shr_shift. cbn [shr_m loc_of_shr_record round_nearest_even].
  rewrite shr_fexp_normal by lia. cbn [shr_m]. unfold emax, prec.
  assert (e + Z.pos k <=? 1024 - 53 = true) as -> by (apply Z.leb_le; lia). done.
Qed.

(** the mantissa of an integer, its zeros appended *)
Definition mantissa (m : positive) : positive :=
  match (53 - Zpos (digits2_pos m))%Z with Zpos k => shift_left k m | _ => m end.
Lemma mantissa_spec m : Zpos (digits2_pos m) ≤ 53 →
  digits2_pos (mantissa m) = 53%positive ∧ Zpos (mantissa m) = Zpos m * 2 ^ (53 - Zpos (digits2_pos m)).
Proof.
  intros H. unfold mantissa. destruct (53 - Zpos (digits2_pos m)) as [|k|k] eqn:E; [cbn; lia| |lia].
  rewrite shift_digits, shift_value. lia.
Qed.
Lemma float_of_pos m : Zpos m < 2 ^ 53 →
  float_of_Z (Zpos m) = inl (S754_finite false (mantissa m) (Zpos (digits2_pos m) - 53)).
Proof.
  intros Hm%digits_bound; [|lia]. destruct (mantissa_spec m Hm) as [Hd _].
  assert (float_of_Z_raw (Zpos m) = S754_finite false (mantissa m) (Zpos (digits2_pos m) - 53)) as E;
    [|unfold float_of_Z; by rewrite E].
  unfold float_of_Z_raw, binary_normalize, binary_round, shl_align. rewrite Z.add_0_r, Z.sub_0_r.
  replace (fexp prec emax (Zpos (digits2_pos m))) with (Zpos (digits2_pos m) - 53) by (unfold fexp, emin, prec, emax; lia).
  unfold mantissa in *. destruct (Zpos (digits2_pos m) - 53) as [|k|k] eqn:Ek; [| lia|].
  - replace (53 - Zpos (digits2_pos m)) with 0 in * by lia. by apply round_normal.
  - replace (53 - Zpos (digits2_pos m)) with (Zpos k) in * by lia. apply round_normal; [exact Hd|lia].
Qed.

(** ** The way back *)
Lemma round_shift_exact z k : 0 < k → round_shift (z * 2 ^ k) k = z.
Proof.
  intros Hk. unfold round_shift. rewrite Z.div_mul, Z.mod_mul by (apply Z.pow_nonzero; lia).
  assert (0 <? 2 ^ (k - 1) = true) as -> by (apply Z.ltb_lt, Z.pow_pos_nonneg; lia). done.
Qed.
Lemma py_round_scaled (m : positive) j : Zpos (digits2_pos m) ≤ 53 → 0 ≤ j →
  py_round (S754_finite false (mantissa m) (Zpos (digits2_pos m) - 53 + j)) = inl (Zpos m * 2 ^ j).
Proof.
  intros Hm Hj. destruct (mantissa_spec m Hm) as [_ Hv]. unfold py_round. f_equal. rewrite Hv.
  destruct (Z.leb_spec 0 (Zpos (digits2_pos m) - 53 + j)) as [Hle|Hgt].
  - rewrite <- Z.mul_assoc, <- Z.pow_add_r by lia. do 2 f_equal. lia.
  - replace (Zpos m * 2 ^ (53 - Zpos (digits2_pos m)))
      with (Zpos m * 2 ^ j * 2 ^ (- (Zpos (digits2_pos m) - 53 + j))).
    + apply round_shift_exact. lia.
    + rewrite <- Z.mul_assoc, <- Z.pow_add_r by lia. do 2 f_equal. lia.
Qed.
(** [round(float(z)) == z], and a power of two as a factor is exact *)
Lemma round_float z : 0 ≤ z < 2 ^ 53 → (f ← float_of_Z z; py_round f) = inl z.
Proof.
  intros [H0 H]. destruct z as [|m|m]; [done| |lia]. rewrite (float_of_pos m H). cbn [mbind].
  apply digits_bound in H; [|lia]. pose proof (py_round_scaled m 0 H) as E.
  rewrite Z.add_0_r, Z.mul_1_r in E. apply E. done.
Qed.
Lemma float_of_pow2 j : 0 ≤ j ≤ 60 → float_of_Z_raw (2 ^ j) = S754_finite false (shift_left 52 1) (j - 52).
Proof.
  intros Hj. assert (∀ n, (n ≤ 60)%nat → float_of_Z_raw (2 ^ Z.of_nat n) = S754_finite false (shift_left 52 1) (Z.of_nat n - 52)) as Hall.
  { intros n Hn. do 61 (destruct n as [|n]; [vm_compute; reflexivity|]). lia. }
  specialize (Hall (Z.to_nat j)). rewrite Z2Nat.id in Hall by lia. apply Hall. lia.
Qed.
Lemma round_scaled z j : 0 ≤ z < 2 ^ 53 → 0 ≤ j ≤ 60 →
  (f ← float_of_Z z; py_round (float_mul f (float_of_Z_raw (2 ^ j)))) = inl (z * 2 ^ j).
Proof.
  intros [H0 H] Hj. destruct z as [|m|m]; [by rewrite float_of_pow2| |lia]. rewrite (float_of_pos m H). cbn [mbind res_bind].
  apply digits_bound in H; [|lia]. destruct (mantissa_spec m H) as [Hd _].
  rewrite float_of_pow2 by done. unfold float_mul, SFmul. cbn [xorb].
  replace (mantissa m * shift_left 52 1)%positive with (shift_left 52 (mantissa m)).
  2: { apply Pos2Z.inj. rewrite Pos2Z.inj_mul, !shift_value. lia. }
  rewrite round_shifted by (done || lia).
  replace (Zpos (digits2_pos m) - 53 + (j - 52) + 52) with (Zpos (digits2_pos m) - 53 + j) by lia.
  apply py_round_scaled; [done|lia].
Qed.
