(* ===== verification/Clock.v ===== *)
(** * Dates: [datetime] values and [datetime.fromisoformat]

    A [datetime] is its wall-clock time in microseconds since 1970-01-01 and,
    when aware, its UTC offset.  [fromisoformat] follows Python 3.11's parser:
    calendar and week dates, basic and extended times, fractions, offsets. *)
From S2P Require Import Prelude Py.
From Stdlib Require Import Ascii.
Open Scope string_scope.
Open Scope Z_scope.

Record datetime := mkDatetime {
  dt_us : Z;            (* wall clock, microseconds *)
  dt_off : option Z     (* tzinfo's utcoffset, microseconds; None = naive *)
}.
#[export] Instance datetime_eq_dec : EqDecision datetime.
Proof. solve_decision. Defined.

(** the instant compared by [<] between aware datetimes *)
Definition instant (d : datetime) : Z := dt_us d - default 0 (dt_off d).
(** [datetime.now(UTC)] for the clock reading [us] *)
Definition utc (us : Z) : datetime := mkDatetime us (Some 0).
Definition seconds (n : Z) : Z := n * 1000000.
Definition days (n : Z) : Z := seconds (n * 86400).

Lemma instant_utc us : instant (utc us) = us.
Proof. unfold instant; simpl. lia. Qed.

(** ** The proleptic Gregorian calendar *)
Definition leap (y : Z) : bool :=
  (y mod 4 =? 0) && (negb (y mod 100 =? 0) || (y mod 400 =? 0)).
Definition days_in_month (y m : Z) : Z :=
  if m =? 2 then (if leap y then 29 else 28)
  else if (m =? 4) || (m =? 6) || (m =? 9) || (m =? 11) then 30 else 31.
(** days from 1970-01-01 to the first day of year [y] *)
Definition days_before_year (y : Z) : Z :=
  let p := y - 1 in p * 365 + p / 4 - p / 100 + p / 400 - 719162.
Fixpoint days_before_month (y : Z) (m : nat) : Z :=
  match m with
  | O | S O => 0
  | S m' => days_before_month y m' + days_in_month y (Z.of_nat m')
  end.
Definition days_of_date (y m d : Z) : option Z :=
  if (1 <=? y) && (y <=? 9999) && (1 <=? m) && (m <=? 12) && (1 <=? d) && (d <=? days_in_month y m)
  then Some (days_before_year y + days_before_month y (Z.to_nat m) + (d - 1))
  else None.
(** Monday of ISO week 1 of [y] (day 0 of the epoch is a Thursday) *)
Definition iso_week1 (y : Z) : Z :=
  let jan4 := days_before_year y + 3 in jan4 - (jan4 + 3) mod 7.
Definition days_of_week_date (y w d : Z) : option Z :=
  let day := iso_week1 y + 7 * (w - 1) + (d - 1) in
  if (1 <=? y) && (y <=? 9999) && (1 <=? w) && (w <=? 53) && (1 <=? d) && (d <=? 7)
     && (negb (w =? 53) || (iso_week1 y + 364 <? iso_week1 (y + 1)))
  then Some day else None.

(** ** Parsing *)

(** exactly [n] decimal digits *)
Fixpoint fixed_digits (n : nat) (s : string) (v : Z) : option (Z * string) :=
  match n, s with
  | O, _ => Some (v, s)
  | S n', String c s' =>
      if is_digit c then fixed_digits n' s' (10 * v + Z.of_N (N_of_ascii c - 48)) else None
  | S _, "" => None
  end.
Definition char_at (n : nat) (s : string) : option ascii := String.get n s.
Definition is_char (c : ascii) (o : option ascii) : bool :=
  match o with Some c' => Ascii.eqb c c' | None => false end.
(** length of the run of digits at the head *)
Fixpoint digit_run (s : string) : nat :=
  match s with String c s' => if is_digit c then S (digit_run s') else O | "" => O end.

(** where the date ends, [_find_isoformat_datetime_separator] *)
Definition find_separator (s : string) : option nat :=
  let n := String.length s in
  if (n =? 7)%nat then Some 7%nat
  else if is_char "-" (char_at 4 s) then
    if is_char "W" (char_at 5 s) then
      if (n <? 8)%nat then None
      else if is_char "-" (char_at 8 s) then
        if (n =? 9)%nat then None
        else match char_at 10 s with
             | Some c => if is_digit c then Some 8%nat else Some 10%nat
             | None => Some 10%nat
             end
      else Some 8%nat
    else Some 10%nat
  else if is_char "W" (char_at 4 s) then
    let idx := (7 + digit_run (sdrop 7 s))%nat in
    if (idx <? 9)%nat then Some idx
    else if Nat.even idx then Some 7%nat else Some 8%nat
  else Some 8%nat.

(** optional separator character, required or forbidden by [sep] *)
Definition expect_sep (sep : bool) (c : ascii) (s : string) : option string :=
  match s with
  | String c' s' => if Ascii.eqb c c' then (if sep then Some s' else None)
                    else (if sep then None else Some s)
  | "" => if sep then None else Some s
  end.
Definition parse_date (s : string) : option Z :=
  '(y, r) ← fixed_digits 4 s 0;
  let has_sep := is_char "-" (char_at 0 r) in
  let r := if has_sep then sdrop 1 r else r in
  match r with
  | String "W" r1 =>
      '(w, r2) ← fixed_digits 2 r1 0;
      match r2 with
      | "" => days_of_week_date y w 1
      | _ => r3 ← expect_sep has_sep "-" r2;
             '(d, r4) ← fixed_digits 1 r3 0;
             if String.eqb r4 "" then days_of_week_date y w d else None
      end
  | _ =>
      '(m, r1) ← fixed_digits 2 r 0;
      r2 ← expect_sep has_sep "-" r1;
      '(d, r3) ← fixed_digits 2 r2 0;
      if String.eqb r3 "" then days_of_date y m d else None
  end.

(** the fraction of a second, in microseconds, truncated after six digits *)
Definition parse_fraction (s : string) : option Z :=
  let n := String.length s in
  let k := Nat.min n 6 in
  if (n =? 0)%nat then None
  else
    '(v, r) ← fixed_digits k s 0;
    if s_forallb is_digit r then Some (v * 10 ^ (6 - Z.of_nat k)) else None.
(** [HH[:MM[:SS[.f+]]]] or its basic form, in microseconds, unchecked ranges *)
Fixpoint parse_clock (fuel : nat) (comp : nat) (sep : bool) (s : string) (acc : list Z)
    : option (list Z * Z) :=
  match fuel with
  | O => None
  | S f =>
      '(v, r) ← fixed_digits 2 s 0;
      let acc := (acc ++ [v])%list in
      let sep := if (comp =? 0)%nat then is_char ":" (char_at 0 r) else sep in
      match r with
      | "" => Some (acc, 0)
      | String c r' =>
          if (comp =? 2)%nat then
            if Ascii.eqb c "." || Ascii.eqb c "," then us ← parse_fraction r'; Some (acc, us)
            else None
          else if sep then (if Ascii.eqb c ":" then parse_clock f (S comp) sep r' acc else None)
          else parse_clock f (S comp) sep r acc
      end
  end.
Definition hms (l : list Z) : Z * Z * Z :=
  match l with
  | [h] => (h, 0, 0) | [h; m] => (h, m, 0) | h :: m :: s :: _ => (h, m, s) | [] => (0, 0, 0)
  end.
Definition parse_time (s : string) : option Z :=
  '(l, us) ← parse_clock 3 0 false s [];
  let '(h, m, x) := hms l in
  if (h <=? 23) && (m <=? 59) && (x <=? 59) then Some (seconds (3600 * h + 60 * m + x) + us)
  else None.
(** an offset shorter than a day *)
Definition parse_offset (s : string) : option Z :=
  '(l, us) ← parse_clock 3 0 false s [];
  let '(h, m, x) := hms l in
  let o := seconds (3600 * h + 60 * m + x) + us in
  if o <? days 1 then Some o else None.

(** split at the first character satisfying [p] *)
Fixpoint split_at_char (p : ascii → bool) (s acc : string) : string * string :=
  match s with
  | "" => (acc, "")
  | String c s' => if p c then (acc, s) else split_at_char p s' (acc +:+ String c "")
  end.
Definition has_char (c : ascii) (s : string) : bool := negb (s_forallb (λ x, negb (Ascii.eqb x c)) s).
(** the sign that introduces the offset: the first ['-'], else ['+'], else ['Z'] *)
Definition tz_mark (s : string) : option ascii :=
  if has_char "-" s then Some "-"%char
  else if has_char "+" s then Some "+"%char
  else if has_char "Z" s then Some "Z"%char
  else None.
Definition parse_time_tz (s : string) : option (Z * option Z) :=
  match tz_mark s with
  | None => t ← parse_time s; Some (t, None)
  | Some c =>
      let '(ts, rest) := split_at_char (Ascii.eqb c) s "" in
      let tz := sdrop 1 rest in
      t ← parse_time ts;
      if Ascii.eqb c "Z" then (if String.eqb tz "" then Some (t, Some 0) else None)
      else o ← parse_offset tz; Some (t, Some (if Ascii.eqb c "-" then - o else o))
  end.

(** [datetime.fromisoformat(s)], [None] where it raises [ValueError] *)
Definition fromisoformat (s : string) : option datetime :=
  if (String.length s <? 7)%nat then None
  else
    k ← find_separator s;
    d ← parse_date (stake k s);
    match sdrop (S k) s with
    | "" => if (String.length s <=? k)%nat then Some (mkDatetime (days d) None) else None
    | ts => '(t, off) ← parse_time_tz ts; Some (mkDatetime (days d + t) off)
    end.

(** [s.replace("Z", "+00:00")] *)
Fixpoint replace_Z (s : string) : string :=
  match s with
  | "" => ""
  | String c s' => if Ascii.eqb c "Z" then "+00:00" +:+ replace_Z s' else String c (replace_Z s')
  end.

Example iso1 : fromisoformat "2026-09-27T00:00:01.5+02:00"
  = Some (mkDatetime 1790467201500000 (Some 7200000000)).
Proof. vm_compute. reflexivity. Qed.
Example iso2 : fromisoformat (replace_Z "20260927T0102Z") = Some (mkDatetime 1790470920000000 (Some 0)).
Proof. vm_compute. reflexivity. Qed.
Example iso3 : (fromisoformat "2026-W01-4", fromisoformat "2026-13-01", fromisoformat "1970-01-01")
  = (Some (mkDatetime 1767225600000000 None), None, Some (mkDatetime 0 None)).
Proof. vm_compute. reflexivity. Qed.
