(* ===== verification/Isoformat.v ===== *)
(** * [datetime.isoformat]

    The calendar read backwards - the date of a day number - and the text
    [isoformat] writes, with the proof that [fromisoformat] reads it back.
    Used by the audit cursor and by the agent's timestamps. *)
From S2P Require Import Prelude Py Clock.
From Stdlib Require Import Ascii.
Open Scope string_scope.
Open Scope Z_scope.

(** ** The date of a day number *)

(** the year a day falls in: an estimate from the mean Gregorian year, off by
    at most one *)
Definition year_of (n : Z) : Z :=
  let y := (n + 719162) * 400 / 146097 + 1 in
  if n <? days_before_year y then y - 1
  else if days_before_year (y + 1) <=? n then y + 1 else y.
Fixpoint month_search (y doy : Z) (k : nat) : nat :=
  match k with
  | O | S O => 1%nat
  | S k' => if days_before_month y k <=? doy then k else month_search y doy k'
  end.
Definition date_of_days (n : Z) : Z * Z * Z :=
  let y := year_of n in
  let doy := n - days_before_year y in
  let m := month_search y doy 12 in
  (y, Z.of_nat m, doy - days_before_month y m + 1).

Lemma year_of_spec n : days_before_year (year_of n) ≤ n < days_before_year (year_of n + 1).
Proof.
  unfold year_of. set (y := (n + 719162) * 400 / 146097 + 1).
  assert (days_before_year (y - 1) ≤ n < days_before_year (y + 2)) as [H1 H2].
  { unfold days_before_year, y. Z.to_euclidean_division_equations. lia. }
  destruct (Z.ltb_spec n (days_before_year y)) as [H|H].
  - replace (y - 1 + 1) with y by lia. lia.
  - destruct (Z.leb_spec (days_before_year (y + 1)) n) as [H'|H']; [|lia].
    replace (y + 1 + 1) with (y + 2) by lia. lia.
Qed.
Lemma days_before_year_step y : days_before_year (y + 1) = days_before_year y + (if leap y then 366 else 365).
Proof.
  unfold days_before_year, leap. replace (y + 1 - 1) with y by lia.
  destruct (Z.eqb_spec (y mod 4) 0), (Z.eqb_spec (y mod 100) 0), (Z.eqb_spec (y mod 400) 0); cbn [andb orb negb];
    Z.to_euclidean_division_equations; lia.
Qed.
Lemma days_before_year_mono a b : a ≤ b → days_before_year a ≤ days_before_year b.
Proof. intros. unfold days_before_year. Z.to_euclidean_division_equations. lia. Qed.
Lemma year_of_range n : days_before_year 1 ≤ n < days_before_year 10000 → 1 ≤ year_of n ≤ 9999.
Proof.
  intros [H1 H2]. pose proof (year_of_spec n) as [H3 H4]. split.
  - destruct (Z.le_gt_cases 1 (year_of n)); [done|].
    pose proof (days_before_year_mono (year_of n + 1) 1 ltac:(lia)). lia.
  - destruct (Z.le_gt_cases (year_of n) 9999); [done|].
    pose proof (days_before_year_mono 10000 (year_of n) ltac:(lia)). lia.
Qed.

Lemma days_in_month_range y m : 28 ≤ days_in_month y m ≤ 31.
Proof. unfold days_in_month. split_all; lia. Qed.
Lemma month_search_spec y doy k :
  0 ≤ doy → doy < days_before_month y (S k) → (1 ≤ k)%nat →
  let m := month_search y doy k in
  (1 ≤ m ≤ k)%nat ∧ days_before_month y m ≤ doy < days_before_month y (S m).
Proof.
  intros H0. induction k as [|k IH]; intros Hlt Hk; cbv zeta; [lia|].
  destruct k as [|k]; [cbn; split; [lia|]; cbn in Hlt; lia|].
  change (month_search y doy (S (S k))) with
    (if days_before_month y (S (S k)) <=? doy then S (S k) else month_search y doy (S k)).
  destruct (Z.leb_spec (days_before_month y (S (S k))) doy); [split; [lia|done]|].
  destruct IH as [IH1 IH2]; [lia|lia|]. split; [lia|done].
Qed.
Lemma days_before_month_13 y : days_before_month y 13 = if leap y then 366 else 365.
Proof. cbn. unfold days_in_month. cbn. destruct (leap y); reflexivity. Qed.

Lemma date_of_days_spec n :
  days_before_year 1 ≤ n < days_before_year 10000 →
  let '(y, m, d) := date_of_days n in
  days_of_date y m d = Some n ∧ 1 ≤ y ≤ 9999 ∧ 1 ≤ m ≤ 12 ∧ 1 ≤ d ≤ 31.
Proof.
  intros Hn. unfold date_of_days. pose proof (year_of_range n Hn) as Hy. pose proof (year_of_spec n) as [H1 H2].
  rewrite days_before_year_step, <- days_before_month_13 in H2.
  set (y := year_of n) in *. set (doy := n - days_before_year y).
  destruct (month_search_spec y doy 12) as [Hm [Hd1 Hd2]]; [lia|lia|lia|].
  set (m := month_search y doy 12) in *.
  assert (days_before_month y (S m) = days_before_month y m + days_in_month y (Z.of_nat m)) as Hs.
  { destruct m; [lia|done]. }
  pose proof (days_in_month_range y (Z.of_nat m)). clearbody m. subst doy. clearbody y.
  split; [|lia]. unfold days_of_date. rewrite Nat2Z.id, !(proj2 (Z.leb_le _ _)) by lia.
  cbn [andb]. f_equal. lia.
Qed.

(** ** The text *)

(** [f"{z:0kd}"], for [z] of at most [k] digits *)
Fixpoint pad (k : nat) (z : Z) : string :=
  match k with
  | O => ""
  | S k' => String (digit_char (z / 10 ^ Z.of_nat k')) (pad k' (z mod 10 ^ Z.of_nat k'))
  end.
Definition fraction_text (us : Z) : string := if us =? 0 then "" else "." +:+ pad 6 us.
(** [HH:MM[:SS[.ffffff]]]; the seconds are always written in a time, and in an
    offset when it has any *)
Definition clock_text (always : bool) (us : Z) : string :=
  let s := us / 1000000 in
  let f := us mod 1000000 in
  pad 2 (s / 3600) +:+ ":" +:+ pad 2 (s / 60 mod 60) +:+
  (if always || negb (us mod 60000000 =? 0) then ":" +:+ pad 2 (s mod 60) +:+ fraction_text f else "").
Definition offset_text (o : option Z) : string :=
  match o with
  | None => ""
  | Some o => (if o <? 0 then "-" else "+") +:+ clock_text false (Z.abs o)
  end.
Definition date_text (n : Z) : string :=
  let '(y, m, d) := date_of_days n in pad 4 y +:+ "-" +:+ pad 2 m +:+ "-" +:+ pad 2 d.
(** [d.isoformat()] *)
Definition isoformat (d : datetime) : string :=
  date_text (dt_us d / days 1) +:+ "T" +:+ clock_text true (dt_us d mod days 1) +:+ offset_text (dt_off d).

Example isoformat_ex :
  (isoformat (mkDatetime 1790467201500000 (Some 7200000000)), isoformat (utc 0),
   isoformat (mkDatetime (-1) (Some (-12600000001))))
  = ("2026-09-27T00:00:01.500000+02:00", "1970-01-01T00:00:00+00:00",
     "1969-12-31T23:59:59.999999-03:30:00.000001").
Proof. vm_compute. reflexivity. Qed.

(** what a [datetime] can hold: years 1 to 9999, offsets shorter than a day *)
Definition datetime_ok (d : datetime) : bool :=
  (days (days_before_year 1) <=? dt_us d) && (dt_us d <? days (days_before_year 10000)) &&
  match dt_off d with Some o => Z.abs o <? days 1 | None => true end.

(** ** Reading it back *)
Lemma digit_char_N z : 0 ≤ z < 10 → N_of_ascii (digit_char z) = (48 + Z.to_N z)%N.
Proof. intros. unfold digit_char. rewrite N_ascii_embedding; lia. Qed.
Lemma digit_char_is z : 0 ≤ z < 10 → is_digit (digit_char z) = true.
Proof.
  intros. unfold is_digit, in_range. rewrite digit_char_N by done.
  apply andb_true_iff. rewrite !N.leb_le. lia.
Qed.
Lemma digit_div z k : 0 ≤ z < 10 ^ Z.of_nat (S k) → 0 ≤ z / 10 ^ Z.of_nat k < 10.
Proof.
  intros H. rewrite Nat2Z.inj_succ, Z.pow_succ_r in H by lia.
  assert (0 < 10 ^ Z.of_nat k) by (apply Z.pow_pos_nonneg; lia).
  split; [apply Z.div_pos; lia|apply Z.div_lt_upper_bound; lia].
Qed.
Lemma mod_range z k : 0 ≤ z mod 10 ^ Z.of_nat k < 10 ^ Z.of_nat k.
Proof. apply Z.mod_pos_bound, Z.pow_pos_nonneg; lia. Qed.
Lemma fixed_digits_pad k z v r :
  0 ≤ z < 10 ^ Z.of_nat k → fixed_digits k (pad k z +:+ r) v = Some (v * 10 ^ Z.of_nat k + z, r).
Proof.
  revert z v. induction k as [|k IH]; intros z v H.
  - cbn. change (10 ^ 0) with 1 in *. repeat f_equal. lia.
  - cbn [pad fixed_digits].
    change (String ?c ?s +:+ r) with (String c (s +:+ r)). cbn [fixed_digits].
    rewrite digit_char_is, digit_char_N by (by apply digit_div).
    pose proof (digit_div z k H). rewrite IH by apply mod_range. do 2 f_equal.
    rewrite Nat2Z.inj_succ, Z.pow_succ_r by lia.
    pose proof (Z.div_mod z (10 ^ Z.of_nat k)). assert (0 < 10 ^ Z.of_nat k) by (apply Z.pow_pos_nonneg; lia).
    replace (Z.of_N (48 + Z.to_N (z / 10 ^ Z.of_nat k) - 48)) with (z / 10 ^ Z.of_nat k) by lia. nia.
Qed.
Lemma pad_digits k z : 0 ≤ z < 10 ^ Z.of_nat k → s_forallb is_digit (pad k z) = true.
Proof.
  revert z. induction k as [|k IH]; intros z H; cbn [pad s_forallb]; [done|].
  rewrite digit_char_is by (by apply digit_div). apply IH, mod_range.
Qed.
Lemma pad_length k z : String.length (pad k z) = k.
Proof. revert z. induction k as [|k IH]; intros z; cbn; [done|]. by rewrite IH. Qed.

Lemma parse_fraction_pad f : 0 ≤ f < 1000000 → parse_fraction (pad 6 f) = Some f.
Proof.
  intros H. unfold parse_fraction. rewrite pad_length. cbn [Nat.min Nat.eqb].
  rewrite <- (sapp_nil_r (pad 6 f)), fixed_digits_pad by done. cbn [mbind option_bind s_forallb].
  f_equal. cbn. lia.
Qed.
(** one step of [parse_clock] over two digits and a colon *)
Lemma parse_clock_colon fu v r acc sep comp :
  0 ≤ v < 100 → (comp = 0%nat ∨ (comp = 1%nat ∧ sep = true)) →
  parse_clock (S fu) comp sep (pad 2 v +:+ ":" +:+ r) acc
  = parse_clock fu (S comp) true r (acc ++ [v])%list.
Proof.
  intros H Hc. cbn [parse_clock]. rewrite fixed_digits_pad by done. cbn [mbind option_bind].
  change (":" +:+ r) with (String ":" r).
  destruct Hc as [->|[-> ->]]; done.
Qed.
Lemma parse_clock_last fu v f acc sep comp :
  0 ≤ v < 100 → 0 ≤ f < 1000000 → comp = 2%nat →
  parse_clock (S fu) comp sep (pad 2 v +:+ fraction_text f) acc = Some (acc ++ [v], f)%list.
Proof.
  intros H Hf ->. cbn [parse_clock]. rewrite fixed_digits_pad by done. cbn [mbind option_bind].
  unfold fraction_text. destruct (Z.eqb_spec f 0) as [->|]; [done|].
  change ("." +:+ pad 6 f) with (String "." (pad 6 f)).
  change (Ascii.eqb "." "." || _) with true. cbn [Nat.eqb]. by rewrite parse_fraction_pad.
Qed.
Lemma parse_clock_end fu v acc sep comp :
  0 ≤ v < 100 → parse_clock (S fu) comp sep (pad 2 v) acc = Some (acc ++ [v], 0)%list.
Proof.
  intros H. cbn [parse_clock]. rewrite <- (sapp_nil_r (pad 2 v)), fixed_digits_pad by done. done.
Qed.
Lemma clock_parts us :
  0 ≤ us < days 1 →
  let s := us / 1000000 in
  0 ≤ s / 3600 ≤ 23 ∧ 0 ≤ s / 60 mod 60 ≤ 59 ∧ 0 ≤ s mod 60 ≤ 59 ∧ 0 ≤ us mod 1000000 < 1000000 ∧
  seconds (3600 * (s / 3600) + 60 * (s / 60 mod 60) + s mod 60) + us mod 1000000 = us ∧
  (us mod 60000000 = 0 → s mod 60 = 0 ∧ us mod 1000000 = 0).
Proof.
  unfold days, seconds. intros H. cbv zeta. Z.to_euclidean_division_equations. lia.
Qed.
Lemma parse_clock_text always us :
  0 ≤ us < days 1 →
  ∃ l f, parse_clock 3 0 false (clock_text always us) [] = Some (l, f) ∧
    let '(h, m, x) := hms l in
    h ≤ 23 ∧ m ≤ 59 ∧ x ≤ 59 ∧ seconds (3600 * h + 60 * m + x) + f = us.
Proof.
  intros H. pose proof (clock_parts us H) as (H1 & H2 & H3 & H4 & H5 & H6). cbv zeta in *.
  unfold clock_text. cbv zeta. set (s := us / 1000000) in *.
  rewrite parse_clock_colon by (lia || auto). rewrite app_nil_l.
  destruct (always || negb (us mod 60000000 =? 0)) eqn:E.
  - rewrite parse_clock_colon by (lia || auto).
    rewrite parse_clock_last by (lia || done). eexists _, _. split; [done|]. cbn. lia.
  - rewrite sapp_nil_r, parse_clock_end by lia. eexists _, _. split; [done|]. cbn.
    apply orb_false_elim in E as [_ E]. apply negb_false_iff, Z.eqb_eq in E.
    destruct (H6 E) as [E1 E2]. rewrite E1, E2 in H5. lia.
Qed.

(** characters of a clock: digits, colons and the point *)
Definition clock_char (c : ascii) : bool := is_digit c || Ascii.eqb c ":" || Ascii.eqb c ".".
Lemma pad_clock_char k z : 0 ≤ z < 10 ^ Z.of_nat k → s_forallb clock_char (pad k z) = true.
Proof.
  intros H. apply (s_forallb_weaken is_digit); [|by apply pad_digits].
  intros c Hc. unfold clock_char. by rewrite Hc.
Qed.
Lemma clock_text_chars always us :
  0 ≤ us < days 1 → s_forallb clock_char (clock_text always us) = true.
Proof.
  intros H. pose proof (clock_parts us H) as (H1 & H2 & H3 & H4 & _). cbv zeta in *.
  unfold clock_text, fraction_text. cbv zeta.
  rewrite !s_forallb_app, !pad_clock_char by (cbn; lia). cbn [andb].
  destruct (always || _); [|done]. rewrite !s_forallb_app, !pad_clock_char by (cbn; lia). cbn [andb].
  destruct (_ =? 0); [done|]. by rewrite s_forallb_app, pad_clock_char by (cbn; lia).
Qed.

Lemma split_at_char_app p a b acc :
  s_forallb (λ c, negb (p c)) a = true → p (default " "%char (String.get 0 b)) = true → b ≠ "" →
  split_at_char p (a +:+ b) acc = (acc +:+ a, b).
Proof.
  revert acc. induction a as [|c a IH]; intros acc Ha Hb Hne.
  - change ("" +:+ b) with b. rewrite sapp_nil_r. destruct b as [|c b]; [done|]. cbn in *. by rewrite Hb.
  - rewrite sapp_cons. cbn in Ha. apply andb_prop in Ha as [Hc Ha]. cbn [split_at_char].
    apply negb_true_iff in Hc. rewrite Hc, IH by done. by rewrite sapp_assoc.
Qed.
Lemma has_char_none c a : s_forallb clock_char a = true → clock_char c = false → has_char c a = false.
Proof.
  intros Ha Hc. unfold has_char. apply negb_false_iff. eapply s_forallb_weaken; [|exact Ha].
  intros x Hx. cbn. destruct (Ascii.eqb_spec x c); [congruence|done].
Qed.
Lemma has_char_app c a b : has_char c (a +:+ b) = has_char c a || has_char c b.
Proof. unfold has_char. by rewrite s_forallb_app, negb_andb. Qed.

Lemma parse_time_tz_text t off :
  0 ≤ t < days 1 → (if off is Some o then Z.abs o < days 1 else True) →
  parse_time_tz (clock_text true t +:+ offset_text off) = Some (t, off).
Proof.
  intros Ht Ho. pose proof (clock_text_chars true t Ht) as Hc.
  assert (parse_time (clock_text true t) = Some t) as Hpt.
  { unfold parse_time. destruct (parse_clock_text true t Ht) as (l & f & -> & Hl). cbn [mbind option_bind].
    destruct (hms l) as [[h m] x]. rewrite !(proj2 (Z.leb_le _ _)) by lia. cbn. f_equal. lia. }
  destruct off as [o|]; cbn [offset_text].
  - set (sg := if o <? 0 then "-"%char else "+"%char).
    replace ((if o <? 0 then "-" else "+") +:+ clock_text false (Z.abs o))
      with (String sg (clock_text false (Z.abs o))) by (unfold sg; by destruct (o <? 0)).
    pose proof (clock_text_chars false (Z.abs o) ltac:(lia)) as Hc'.
    assert (tz_mark (clock_text true t +:+ String sg (clock_text false (Z.abs o))) = Some sg) as Hm.
    { unfold tz_mark. rewrite !has_char_app, !(has_char_none _ (clock_text true t)) by done.
      change (String sg ?x) with (String sg "" +:+ x).
      rewrite !has_char_app, !(has_char_none _ (clock_text false _)) by done.
      unfold sg. by destruct (o <? 0). }
    unfold parse_time_tz. rewrite Hm, split_at_char_app.
    + change ("" +:+ clock_text true t) with (clock_text true t). rewrite Hpt. cbn [mbind option_bind sdrop].
      unfold parse_offset. destruct (parse_clock_text false (Z.abs o) ltac:(lia)) as (l & f & -> & Hl).
      cbn [mbind option_bind]. destruct (hms l) as [[h m] x].
      replace (seconds (3600 * h + 60 * m + x) + f) with (Z.abs o) by lia.
      rewrite (proj2 (Z.ltb_lt _ _)) by done. unfold sg.
      destruct (Z.ltb_spec o 0); cbn; do 3 f_equal; lia.
    + eapply s_forallb_weaken; [|exact Hc]. intros c Hcc. unfold sg. cbn.
      destruct (o <? 0); match goal with |- context [Ascii.eqb ?a ?b] => destruct (Ascii.eqb_spec a b) as [<-|] end; done.
    + cbn. by rewrite Ascii.eqb_refl.
    + done.
  - rewrite sapp_nil_r. unfold parse_time_tz, tz_mark.
    rewrite !(has_char_none _ _ Hc) by done. by rewrite Hpt.
Qed.

(** ** The round trip *)
Lemma pad_head k z :
  0 ≤ z < 10 ^ Z.of_nat (S k) → ∃ c t, pad (S k) z = String c t ∧ is_digit c = true.
Proof. intros H. eexists _, _. split; [reflexivity|]. by apply digit_char_is, digit_div. Qed.
Lemma date_text_parse n :
  days_before_year 1 ≤ n < days_before_year 10000 →
  String.length (date_text n) = 10%nat ∧ parse_date (date_text n) = Some n ∧
  is_char "-" (char_at 4 (date_text n)) = true ∧ is_char "W" (char_at 5 (date_text n)) = false.
Proof.
  intros H. pose proof (date_of_days_spec n H) as Hs. unfold date_text.
  destruct (date_of_days n) as [[y m] d]. destruct Hs as (Hd & Hy & Hm & Hdd).
  split; [by rewrite !slength_app, !pad_length|].
  assert (∀ r, is_char "-" (char_at 0 ("-" +:+ r)) = true ∧ sdrop 1 ("-" +:+ r) = r) as Hdash by done.
  split; [|split].
  - unfold parse_date. rewrite fixed_digits_pad by (cbn; lia). cbn [mbind option_bind].
    destruct (Hdash (pad 2 m +:+ "-" +:+ pad 2 d)) as [-> ->]. cbn [Z.mul].
    destruct (pad_head 1 m ltac:(cbn; lia)) as (c & t & Heq & HW).
    assert (('(m0, r1) ← fixed_digits 2 (pad 2 m +:+ "-" +:+ pad 2 d) 0;
            r2 ← expect_sep true "-" r1;
            '(d0, r3) ← fixed_digits 2 r2 0;
            (if String.eqb r3 "" then days_of_date y m0 d0 else None)) = Some n) as Hres.
    { rewrite fixed_digits_pad by (cbn; lia). cbn [mbind option_bind].
      change (expect_sep true "-" ("-" +:+ pad 2 d)) with (Some (pad 2 d)). cbn [mbind option_bind].
      rewrite <- (sapp_nil_r (pad 2 d)), fixed_digits_pad by (cbn; lia). exact Hd. }
    change (0 + y) with y. rewrite Heq in Hres |- *. rewrite sapp_cons in Hres |- *.
    destruct c as [[] [] [] [] [] [] [] []]; try exact Hres; discriminate HW.
  - done.
  - destruct (pad_head 1 m ltac:(cbn; lia)) as (c & t & -> & HW).
    change (Ascii.eqb "W" c = false). destruct (Ascii.eqb_spec "W" c) as [<-|]; done.
Qed.

Lemma sdrop_app_exact n a b : String.length a = n → sdrop n (a +:+ b) = b.
Proof. intros <-. apply sdrop_app. Qed.
Lemma stake_app_exact n a b : String.length a = n → stake n (a +:+ b) = a.
Proof. intros <-. induction a as [|c a IH]; [by destruct b|]. rewrite sapp_cons. cbn. by rewrite IH. Qed.
Lemma get_app_l k a b : (k < String.length a)%nat → String.get k (a +:+ b) = String.get k a.
Proof.
  revert a. induction k as [|k IH]; intros [|c a] H; cbn in H; try lia; rewrite sapp_cons; cbn; [done|].
  apply IH. lia.
Qed.

(** [datetime.fromisoformat] reads back what [datetime.isoformat] wrote, to the
    microsecond and with its offset. *)
Lemma fromisoformat_isoformat d : datetime_ok d = true → fromisoformat (isoformat d) = Some d.
Proof.
  intros H. unfold datetime_ok in H. apply andb_prop in H as [H Ho]. bool_prop.
  destruct d as [us off]. cbn [dt_us dt_off] in *. unfold isoformat. cbn [dt_us dt_off].
  assert (0 < days 1) as Hday by done.
  pose proof (Z.mod_pos_bound us (days 1) Hday) as Ht. pose proof (Z.div_mod us (days 1) ltac:(lia)) as Hus.
  set (n := us / days 1) in *. set (t := us mod days 1) in *.
  assert (days_before_year 1 ≤ n < days_before_year 10000) as Hn.
  { unfold days, seconds in *. lia. }
  destruct (date_text_parse n Hn) as (Hlen & Hpd & Hc4 & Hc5).
  set (rest := clock_text true t +:+ offset_text off).
  set (s := date_text n +:+ "T" +:+ rest).
  assert (11 ≤ String.length s)%nat as Hls by (unfold s; rewrite !slength_app, Hlen; cbn; lia).
  unfold fromisoformat. rewrite (proj2 (Nat.ltb_ge _ _)) by lia.
  assert (find_separator s = Some 10%nat) as ->.
  { unfold find_separator. rewrite (proj2 (Nat.eqb_neq _ _)) by lia.
    unfold char_at, s in *. rewrite !get_app_l by lia. by rewrite Hc4, Hc5. }
  cbn [mbind option_bind]. unfold s. rewrite stake_app_exact by done. rewrite Hpd. cbn [mbind option_bind].
  replace (sdrop 11 (date_text n +:+ "T" +:+ rest)) with rest
    by (rewrite <- sapp_assoc, sdrop_app_exact; [done|by rewrite slength_app, Hlen]).
  assert (∃ c r, rest = String c r) as (c & r & Hr).
  { unfold rest, clock_text. cbv zeta. pose proof (clock_parts t Ht) as (H3 & _). cbv zeta in H3.
    destruct (pad_head 1 (t / 1000000 / 3600) ltac:(cbn; lia)) as (c & r & -> & _).
    rewrite !sapp_cons. eauto. }
  rewrite Hr, <- Hr. unfold rest. rewrite parse_time_tz_text.
  - cbn [mbind option_bind]. do 2 f_equal. unfold days, seconds in *. lia.
  - done.
  - destruct off; [by bool_prop|done].
Qed.
