(* ===== verification/World.v ===== *)
(** * The world a handler runs in, and the effect monad

    A handler reads and writes the database session, the Valkey cache and the
    broker, and may raise.  [M A] is state passing with an outcome: an
    exception keeps the state reached when it was raised, so cache writes and
    published messages survive it, while [session_scope]/[begin_nested] put the
    database back ([app/db.py]). *)
From S2P Require Import Prelude Py Clock Model.
From Stdlib Require Import Ascii.
Open Scope string_scope.
Open Scope Z_scope.

(** ** Exceptions *)
Record ApiError := mkApiError {
  err_code : string; err_message : string; err_status : Z; err_details : option dict
}.
Inductive exn :=
  | EApi (e : ApiError)
  | EPy (e : pyexn)
  | EData            (* a value the column's type rejects, at flush *)
  | EIntegrity       (* a constraint violated, at flush *)
  | EMultiple        (* scalar_one_or_none with several rows *)
  | EAssert
  | EBroker          (* RabbitMQ unreachable *)
  | ECache           (* Valkey unreachable *)
  | EStore (msg : string)   (* AgentStoreError *)
  | ERuntime.        (* RuntimeError *)

(** ** Cache entries (values are stored as text; a lock's JSON is kept parsed) *)
Record VmLock := mkVmLock {
  lk_task_id : string; lk_kind : string; lk_requested_by : string; lk_acquired_at : datetime
}.
Inductive cval := CText (s : string) | CLock (l : VmLock).
Record centry := mkEntry { ce_val : cval; ce_expires : Z }.

(** ** RabbitMQ: declared queues, agent users, published requests *)
Record RmqUser := mkRmqUser {
  ru_password : string; ru_configure : string; ru_write : string; ru_read : string
}.
Record broker := mkBroker {
  queues : gmap string (list (string * string));   (* queue name -> arguments *)
  rmq_users : gmap string RmqUser;
  published : list (string * AgentRequest)         (* (queue name, message), oldest first *)
}.

(** The local file system: absolute paths to files and directories, and the
    bytes still free. *)
Inductive node := NFile (content : string) | NDir.
Record disk := mkDisk { dk_nodes : gmap (list string) node; dk_free : Z }.

Record world := mkWorld {
  w_cfg : Settings;
  w_uuid4 : nat → string;        (* the uuid4 stream *)
  w_token : nat → string;        (* the secrets.token_urlsafe stream *)
  w_repr : json → string;        (* repr() of floats and containers *)
  w_now : Z;                     (* the clock, microseconds *)
  w_seq : nat;                   (* next position of the stream *)
  w_db : database;
  w_cache : gmap string centry;
  w_mq : broker;
  w_disk : disk;
  w_cache_up : bool;
  w_broker_up : bool
}.
#[export] Instance eta_broker : Eta broker :=
  Build_Eta _ (λ b, mkBroker (queues b) (rmq_users b) (published b)).
#[export] Instance eta_disk : Eta disk := Build_Eta _ (λ d, mkDisk (dk_nodes d) (dk_free d)).
#[export] Instance eta_world : Eta world :=
  Build_Eta _ (λ w,
  mkWorld (w_cfg w) (w_uuid4 w) (w_token w) (w_repr w) (w_now w) (w_seq w) (w_db w) (w_cache w) (w_mq w) (w_disk w)
    (w_cache_up w) (w_broker_up w)).

(** A concrete world for the examples: default settings, an empty database and
    cache, ids numbered by tally marks. *)
Fixpoint tally (n : nat) : string := match n with O => "" | S n' => String "i" (tally n') end.
Definition sample_world : world := {|
  w_cfg := default_settings;
  w_uuid4 := λ n, "id-" +:+ tally n;
  w_token := λ n, "token-" +:+ tally n;
  w_repr := λ _, "<repr>";
  w_now := 1790467200000000;
  w_seq := 0;
  w_db := empty_db;
  w_cache := ∅;
  w_mq := mkBroker ∅ ∅ [];
  w_disk := mkDisk ∅ 1000000000;
  w_cache_up := true;
  w_broker_up := true
|}.

Lemma sample_ids_distinct n m : w_uuid4 sample_world n = w_uuid4 sample_world m → n = m.
Proof.
  intros H%sapp_inj. revert m H. induction n as [|n IH]; intros [|m]; cbn; try done.
  intros [= H]. by rewrite (IH m).
Qed.

(** ** The monad *)
Inductive outcome (A : Type) := Ok (a : A) | Raise (e : exn).
Arguments Ok {A} a.
Arguments Raise {A} e.
Definition M (A : Type) : Type := world → outcome A * world.

#[export] Instance M_ret : MRet M := λ A a w, (Ok a, w).
#[export] Instance M_bind : MBind M := λ A B k m w,
  match m w with
  | (Ok a, w') => k a w'
  | (Raise e, w') => (Raise e, w')
  end.
Definition raise {A} (e : exn) : M A := λ w, (Raise e, w).
Definition gets {A} (f : world → A) : M A := λ w, (Ok (f w), w).
Definition modify (f : world → world) : M unit := λ w, (Ok tt, f w).
Definition query {A} (f : database → A) : M A := gets (λ w, f (w_db w)).
Definition exec (f : database → database) : M unit := modify (λ w, w <| w_db ::= f |>).
Definition when (b : bool) (m : M unit) : M unit := if b then m else mret tt.
Definition api_error {A} (code msg : string) (st : Z) : M A :=
  raise (EApi (mkApiError code msg st None)).
Definition lift_py {A} (r : res A) : M A :=
  match r with inl a => mret a | inr e => raise (EPy e) end.
(** [for x in l: body(x)] *)
Fixpoint for_each {A} (l : list A) (body : A → M unit) : M unit :=
  match l with
  | [] => mret tt
  | x :: l' => body x;; for_each l' body
  end.
(** a loop that threads local variables *)
Fixpoint fold_each {A S} (l : list A) (s : S) (body : S → A → M S) : M S :=
  match l with
  | [] => mret s
  | x :: l' => s' ← body s x; fold_each l' s' body
  end.
(** [[f(x) for x in l]] with an effectful body *)
Fixpoint map_each {A B} (f : A → M B) (l : list A) : M (list B) :=
  match l with
  | [] => mret []
  | x :: l' => y ← f x; ys ← map_each f l'; mret (y :: ys)
  end.
(** [try: m except Exception: h] *)
Definition try_except {A} (m : M A) (h : exn → M A) : M A := λ w,
  match m w with
  | (Ok a, w') => (Ok a, w')
  | (Raise e, w') => h e w'
  end.
(** [async with db.begin_nested()] / [session_scope()]: the database is rolled
    back when the body raises, nothing else is *)
Definition savepoint {A} (m : M A) : M A := λ w,
  match m w with
  | (Ok a, w') => (Ok a, w')
  | (Raise e, w') => (Raise e, w' <| w_db := w_db w |>)
  end.
Definition session_scope {A} (m : M A) : M A := savepoint m.

(** ** Primitive effects *)
Definition new_id : M string := λ w, (Ok (w_uuid4 w (w_seq w)), w <| w_seq ::= S |>).
(** [uuid4().hex[:10]] *)
Definition new_host_short_id : M string :=
  id ← new_id; mret (stake 10 (join "" (split_char "-"%char id))).
(** [secrets.token_urlsafe(24)] *)
Definition new_agent_rmq_password : M string := λ w,
  (Ok (w_token w (w_seq w)), w <| w_seq ::= S |>).
Definition now_utc : M datetime := gets (λ w, utc (w_now w)).
Definition get_settings : M Settings := gets w_cfg.
(** a Valkey command *)
Definition valkey {A} (f : gmap string centry → A * gmap string centry) : M A := λ w,
  if w_cache_up w then let '(a, c) := f (w_cache w) in (Ok a, w <| w_cache := c |>)
  else (Raise ECache, w).

(** ** API errors ([app/api/errors.py]) *)
Definition not_found {A} (what : string) : M A := api_error "NOT_FOUND" (what +:+ " not found") 404.
Definition forbidden {A} (msg : string) : M A := api_error "FORBIDDEN" msg 403.
Definition no_access : string := "You do not have access to this resource".
Definition unauthorized {A} (msg : string) : M A := api_error "UNAUTHENTICATED" msg 401.
Definition lock_json (l : VmLock) : dict :=
  [("task_id", JStr (lk_task_id l)); ("kind", JStr (lk_kind l));
   ("requested_by", JStr (lk_requested_by l))].
Definition vm_locked {A} (vm_name : string) (lock : option VmLock) : M A :=
  raise (EApi (mkApiError "VM_LOCKED"
    ("'" +:+ vm_name +:+ "' is busy - a " +:+
     default "operation" (lk_kind <$> lock) +:+
     " is already running on it. Wait for it to finish before trying again.")
    409 (Some [("lock", JObj (match lock with Some l => lock_json l | None => [] end))]))).

(** ** Columns: what a flush accepts.  A value of another type, a string longer
    than the column or an integer wider than it is rejected. *)
Definition col_str (width : nat) (v : json) : M (option string) :=
  match v with
  | JNull => mret None
  | JStr s => if (String.length s <=? width)%nat then mret (Some s) else raise EData
  | _ => raise EData
  end.
Definition fits (bits : Z) (z : Z) : bool := (- 2 ^ (bits - 1) <=? z) && (z <? 2 ^ (bits - 1)).
Definition col_int (bits : Z) (v : json) : M (option Z) :=
  match v with
  | JNull => mret None
  | JInt z => if fits bits z then mret (Some z) else raise EData
  | JBool b => mret (Some (if b then 1 else 0))
  | _ => raise EData
  end.
Definition col_bool (v : json) : M (option bool) :=
  match v with
  | JNull => mret None
  | JBool b => mret (Some b)
  | _ => if eq_int v 1 then mret (Some true) else if eq_int v 0 then mret (Some false) else raise EData
  end.
Definition not_null {A} (o : option A) : M A :=
  match o with Some a => mret a | None => raise EIntegrity end.
(** a text column without a width *)
Definition col_text (v : json) : M (option string) :=
  match v with JNull => mret None | JStr s => mret (Some s) | _ => raise EData end.
Definition wide (bits : Z) (o : option Z) : M (option Z) :=
  match o with
  | Some z => if fits bits z then mret o else raise EData
  | None => mret None
  end.

(** ** Reasoning *)

(** [wp m Q R w]: run from [w], [m] ends in [Q] when it returns and in [R] when
    it raises. *)
Definition wp {A} (m : M A) (Q : A → world → Prop) (R : exn → world → Prop) (w : world) : Prop :=
  match m w with (Ok a, w') => Q a w' | (Raise e, w') => R e w' end.

Lemma wp_bind {A B} (m : M A) (k : A → M B) Q R w :
  wp m (λ a w', wp (k a) Q R w') R w → wp (m ≫= k) Q R w.
Proof. unfold wp, mbind, M_bind. cbn. by destruct (m w) as [[a|e] w']. Qed.
Lemma wp_ret {A} (a : A) (Q : A → world → Prop) R w : Q a w → wp (mret a) Q R w.
Proof. done. Qed.
Lemma wp_mono {A} (m : M A) (Q Q' : A → world → Prop) (R R' : exn → world → Prop) w :
  wp m Q R w → (∀ a w', Q a w' → Q' a w') → (∀ e w', R e w' → R' e w') → wp m Q' R' w.
Proof. unfold wp. destruct (m w) as [[a|e] w']; auto. Qed.
Lemma wp_run {A} (m : M A) Q R w a w' : wp m Q R w → m w = (Ok a, w') → Q a w'.
Proof. unfold wp. intros H E. destruct (m w) as [o w1]. by simplify_eq. Qed.

(** [keeps T m]: whatever its outcome, [m] relates the worlds before and after
    by [T] - the frame and invariant statements. *)
Definition keeps {A} (T : world → world → Prop) (m : M A) : Prop := ∀ w, T w (m w).2.

Section keeps.
Context (T : world → world → Prop) `{!PreOrder T}.

Lemma keeps_ret {A} (a : A) : keeps T (mret a).
Proof. intros w. simpl. reflexivity. Qed.
Lemma keeps_raise {A} e : keeps T (raise (A := A) e).
Proof. intros w. simpl. reflexivity. Qed.
Lemma keeps_gets {A} (f : world → A) : keeps T (gets f).
Proof. intros w. simpl. reflexivity. Qed.
Lemma keeps_bind {A B} (m : M A) (k : A → M B) :
  keeps T m → (∀ a, keeps T (k a)) → keeps T (m ≫= k).
Proof.
  intros Hm Hk w. unfold mbind, M_bind. specialize (Hm w).
  destruct (m w) as [[a|e] w']; simpl in *; [|done]. etrans; [exact Hm|apply Hk].
Qed.
Lemma keeps_for_each {A} (l : list A) body :
  (∀ x, x ∈ l → keeps T (body x)) → keeps T (for_each l body).
Proof.
  induction l as [|x l IH]; intros H; simpl; [apply keeps_ret|].
  apply keeps_bind; [auto with ovc|]. intros _. apply IH. auto with ovc.
Qed.
Lemma keeps_fold_each {A S} (l : list A) (body : S → A → M S) (s : S) :
  (∀ s x, x ∈ l → keeps T (body s x)) → keeps T (fold_each l s body).
Proof.
  revert s. induction l as [|x l IH]; intros s H; simpl; [apply keeps_ret|].
  apply keeps_bind; [auto with ovc|]. intros s'. apply IH. auto with ovc.
Qed.
Lemma keeps_map_each {A B} (f : A → M B) (l : list A) :
  (∀ x, keeps T (f x)) → keeps T (map_each f l).
Proof.
  intros H. induction l as [|x l IH]; simpl; [apply keeps_ret|].
  apply keeps_bind; [done|]. intros y. apply keeps_bind; [done|]. intros ys. apply keeps_ret.
Qed.
Lemma keeps_try {A} (m : M A) h : keeps T m → (∀ e, keeps T (h e)) → keeps T (try_except m h).
Proof.
  intros Hm Hh w. unfold try_except. specialize (Hm w).
  destruct (m w) as [[a|e] w']; simpl in *; [done|]. etrans; [exact Hm|apply Hh].
Qed.
Lemma keeps_when b m : keeps T m → keeps T (when b m).
Proof. intros H. destruct b; [done|apply keeps_ret]. Qed.
End keeps.

(** ** Frames: what a computation leaves alone *)

(** The field [f] of the world is unchanged. *)
Definition same {B} (f : world → B) : world → world → Prop := λ w w', f w' = f w.
#[export] Instance same_preorder {B} (f : world → B) : PreOrder (same f).
Proof. split; [done|]. intros x y z. unfold same. congruence. Qed.

Lemma same_savepoint {A} {B} (f : world → B) (m : M A) :
  (∀ w d, f (w <| w_db := d |>) = f w) → keeps (same f) m → keeps (same f) (savepoint m).
Proof.
  intros Hf Hm w. unfold savepoint. specialize (Hm w). unfold same in *.
  destruct (m w) as [[a|e] w'] eqn:E; cbn in *; [done|]. by rewrite Hf.
Qed.

(** a savepoint restores the database: what depends on it alone is kept too *)
Lemma same_savepoint_db {A} {B} (g : database → B) (m : M A) :
  keeps (same (λ w, g (w_db w))) m → keeps (same (λ w, g (w_db w))) (savepoint m).
Proof.
  intros Hm w. unfold savepoint. specialize (Hm w). unfold same in *.
  destruct (m w) as [[a|e] w'] eqn:E; cbn in *; done.
Qed.

(** Resolve a [keeps (same f)] goal structurally. *)
Ltac keep_step :=
  lazymatch goal with
  | |- keeps _ (mret _) => apply keeps_ret; try apply _
  | |- keeps _ (raise _) => apply keeps_raise; try apply _
  | |- keeps _ (api_error _ _ _) => apply keeps_raise; try apply _
  | |- keeps _ (not_found _) => apply keeps_raise; try apply _
  | |- keeps _ (forbidden _) => apply keeps_raise; try apply _
  | |- keeps _ (vm_locked _ _) => apply keeps_raise; try apply _
  | |- keeps _ (gets _) => apply keeps_gets; try apply _
  | |- keeps _ (query _) => apply keeps_gets; try apply _
  | |- keeps _ now_utc => apply keeps_gets; try apply _
  | |- keeps _ get_settings => apply keeps_gets; try apply _
  | |- keeps _ (mbind _ _) => apply keeps_bind; [try apply _| |intros ?]
  | |- keeps _ (for_each _ _) => apply keeps_for_each; [try apply _|intros ? ?]
  | |- keeps _ (fold_each _ _ _) => apply keeps_fold_each; [try apply _|intros ? ? ?]
  | |- keeps _ (map_each _ _) => apply keeps_map_each; [try apply _|intros ?]
  | |- keeps _ (when _ _) => apply keeps_when; [try apply _|]
  | |- keeps _ (try_except _ _) => apply keeps_try; [try apply _| |intros ?]
  | |- keeps (same _) (savepoint _) =>
      first [apply same_savepoint; [done|] | apply same_savepoint_db]
  | |- keeps (same _) (session_scope _) =>
      first [apply same_savepoint; [done|] | apply same_savepoint_db]
  | |- keeps (same _) (exec _) => intros ?; reflexivity
  | |- keeps (same _) (modify _) => intros ?; reflexivity
  | |- keeps (same _) new_id => intros ?; reflexivity
  | |- keeps (same _) new_agent_rmq_password => intros ?; reflexivity
  | |- keeps _ (match ?x with _ => _ end) => destruct x
  end.
Create HintDb frame.
Ltac keep := repeat (first [solve [eauto with frame nocore] | keep_step]).

Lemma same_col_str {B} (f : world → B) n v : keeps (same f) (col_str n v).
Proof. unfold col_str. keep. Qed.
Lemma same_col_text {B} (f : world → B) v : keeps (same f) (col_text v).
Proof. unfold col_text. keep. Qed.
Lemma same_col_int {B} (f : world → B) n v : keeps (same f) (col_int n v).
Proof. unfold col_int. keep. Qed.
Lemma same_col_bool {B} (f : world → B) v : keeps (same f) (col_bool v).
Proof. unfold col_bool. keep. Qed.
Lemma same_wide {B} (f : world → B) n v : keeps (same f) (wide n v).
Proof. unfold wide. keep. Qed.
Lemma same_not_null {B A} (f : world → B) (o : option A) : keeps (same f) (not_null o).
Proof. unfold not_null. keep. Qed.
Lemma same_lift_py {B A} (f : world → B) (r : res A) : keeps (same f) (lift_py r).
Proof. unfold lift_py. keep. Qed.
Lemma same_valkey {B A} (f : world → B) (g : gmap string centry → A * gmap string centry) :
  (∀ w c, f (w <| w_cache := c |>) = f w) → keeps (same f) (valkey g).
Proof.
  intros Hf w. unfold valkey, same. destruct (w_cache_up w); [|done].
  destruct (g (w_cache w)) as [a c]. cbn. apply Hf.
Qed.
#[export] Hint Resolve same_col_str same_col_text same_col_int same_col_bool same_wide
  same_not_null same_lift_py : frame.
#[export] Hint Extern 1 (keeps (same _) (valkey _)) =>
  apply same_valkey; intros; reflexivity : frame.

(** ** Running a handler on a symbolic world: one rewrite per effect *)
Lemma run_ok {A B} (m : M A) (k : A → M B) w a w' :
  m w = (Ok a, w') → (m ≫= k) w = k a w'.
Proof. intros H. unfold mbind, M_bind. by rewrite H. Qed.
Lemma run_fail {A B} (m : M A) (k : A → M B) w e w' :
  m w = (Raise e, w') → (m ≫= k) w = (Raise e, w').
Proof. intros H. unfold mbind, M_bind. by rewrite H. Qed.
Lemma run_ret {A B} (a : A) (k : A → M B) w : (mret a ≫= k) w = k a w.
Proof. done. Qed.
Lemma run_gets {A B} (f : world → A) (k : A → M B) w : (gets f ≫= k) w = k (f w) w.
Proof. done. Qed.
Lemma run_query {A B} (f : database → A) (k : A → M B) w : (query f ≫= k) w = k (f (w_db w)) w.
Proof. done. Qed.
Lemma run_exec {B} (f : database → database) (k : unit → M B) w :
  (exec f ≫= k) w = k tt (w <| w_db ::= f |>).
Proof. done. Qed.
Lemma run_new_id {B} (k : string → M B) w :
  (new_id ≫= k) w = k (w_uuid4 w (w_seq w)) (w <| w_seq ::= S |>).
Proof. done. Qed.
Lemma run_now {B} (k : datetime → M B) w : (now_utc ≫= k) w = k (utc (w_now w)) w.
Proof. done. Qed.
Lemma run_settings {B} (k : Settings → M B) w : (get_settings ≫= k) w = k (w_cfg w) w.
Proof. done. Qed.
Lemma run_raise {A B} e (k : A → M B) w : (raise e ≫= k) w = (Raise e, w).
Proof. done. Qed.
Lemma run_assoc {A B C} (m : M A) (f : A → M B) (g : B → M C) w :
  ((m ≫= f) ≫= g) w = (m ≫= (λ a, f a ≫= g)) w.
Proof. unfold mbind, M_bind. by destruct (m w) as [[a|e] w']. Qed.
(** a concrete run, from its outcome *)
Lemma run_outcome {A} (m : M A) w a : (m w).1 = Ok a → m w = (Ok a, (m w).2).
Proof. destruct (m w). cbn. by intros ->. Qed.
(** inversion of a computation that returned *)
Lemma bind_inv {A B} (m : M A) (k : A → M B) w b w' :
  (m ≫= k) w = (Ok b, w') → ∃ a w1, m w = (Ok a, w1) ∧ k a w1 = (Ok b, w').
Proof. unfold mbind, M_bind. destruct (m w) as [[a|e] w1] eqn:E; [eauto|done]. Qed.
Lemma ret_inv {A} (a b : A) w w' : (mret a : M A) w = (Ok b, w') → a = b ∧ w = w'.
Proof. by intros [= -> ->]. Qed.
Lemma lift_py_inv {A} (r : res A) w a w' : lift_py r w = (Ok a, w') → r = inl a ∧ w = w'.
Proof. destruct r; cbn; [by intros [= -> ->]|done]. Qed.
(** a [fold_each] that returned, by an invariant on its state and the items done *)
Lemma fold_each_inv {A S} (body : S → A → M S) (I : list A → S → world → Prop) l s w s' w' :
  (∀ done_ x s w s' w', x ∈ l → I done_ s w → body s x w = (Ok s', w') → I (done_ ++ [x])%list s' w') →
  I [] s w → fold_each l s body w = (Ok s', w') → I l s' w'.
Proof.
  intros Hbody HI H. enough (∀ pre s w, I pre s w → fold_each l s body w = (Ok s', w') →
    I (pre ++ l)%list s' w') as Hgen by exact (Hgen [] s w HI H). clear s w HI H.
  induction l as [|x l IH]; intros pre s w HI; cbn.
  - intros (-> & ->)%ret_inv. by rewrite app_nil_r.
  - intros (s1 & w1 & Hx & Hl)%bind_inv.
    replace (pre ++ x :: l)%list with ((pre ++ [x]) ++ l)%list by (by rewrite <- app_assoc).
    eapply IH; [intros; eapply Hbody; [by right|done..]| |exact Hl].
    eapply Hbody; [by left|done..].
Qed.
Lemma for_each_inv {A} (body : A → M unit) (I : list A → world → Prop) l w w' :
  (∀ done_ x w w', x ∈ l → I done_ w → body x w = (Ok tt, w') → I (done_ ++ [x])%list w') →
  I [] w → for_each l body w = (Ok tt, w') → I l w'.
Proof.
  intros Hbody HI H. enough (∀ pre w, I pre w → for_each l body w = (Ok tt, w') →
    I (pre ++ l)%list w') as Hgen by exact (Hgen [] w HI H). clear w HI H.
  induction l as [|x l IH]; intros pre w HI; cbn.
  - intros (_ & ->)%ret_inv. by rewrite app_nil_r.
  - intros ([] & w1 & Hx & Hl)%bind_inv.
    replace (pre ++ x :: l)%list with ((pre ++ [x]) ++ l)%list by (by rewrite <- app_assoc).
    eapply IH; [intros; eapply Hbody; [by right|done..]| |exact Hl].
    eapply Hbody; [by left|done..].
Qed.
(** a loop none of whose steps raises, by an invariant on the items done *)
Lemma for_each_ok {A} (body : A → M unit) (I : list A → world → Prop) l w :
  (∀ done_ x w, x ∈ l → I done_ w → ∃ w', body x w = (Ok tt, w') ∧ I (done_ ++ [x])%list w') →
  I [] w → ∃ w', for_each l body w = (Ok tt, w') ∧ I l w'.
Proof.
  intros Hbody HI. enough (∀ pre w, I pre w → ∃ w', for_each l body w = (Ok tt, w') ∧ I (pre ++ l)%list w')
    as Hgen by exact (Hgen [] w HI). clear w HI.
  induction l as [|x l IH]; intros pre w HI; cbn [for_each].
  - exists w. by rewrite app_nil_r.
  - destruct (Hbody pre x w (list_elem_of_here x l) HI) as (w1 & Hx & HI1).
    rewrite (run_ok _ _ _ _ _ Hx).
    replace (pre ++ x :: l)%list with ((pre ++ [x]) ++ l)%list by (by rewrite <- app_assoc).
    apply IH; [|exact HI1]. intros. by apply Hbody; [right|].
Qed.
#[export] Hint Rewrite @run_ret @run_gets @run_query @run_exec @run_new_id @run_now @run_settings
  @run_raise @run_assoc : run.
Ltac run := autorewrite with run; cbn beta iota zeta.
