(* ===== verification/Cache.v ===== *)
(** * The Valkey cache ([app/cache.py]) and task deadlines ([app/task_timeouts.py])

    Three key families live in one key space: the VM-state overlay
    ([vm:state:<id>]), the per-VM operation lock ([vm:lock:<id>]) and the
    recently-deleted tombstones ([vm:deleted:<host>:<guid>]), each with a TTL.
    The lock's contract is stated as the class [VmMutex], which [Vms] and
    [Worker] use; the cache discharges it below. *)
From S2P Require Import Prelude Py Clock Model World.
From Stdlib Require Import Ascii.
Open Scope string_scope.
Open Scope Z_scope.

(** ** Task deadlines *)
Definition LONG_TASK_TIMEOUTS : list (string * Z) :=
  [("vm_shutdown", 900); ("vm_create", 2100); ("vm_move", 2100); ("vm_rename", 2100);
   ("vm_export_template", 2100); ("vm_batch_start", 2100); ("vm_batch_stop", 2100);
   ("vm_clone", 2100); ("vm_edit", 2100); ("host_update_agent", 1800)].
Fixpoint assoc {A} (l : list (string * A)) (k : string) : option A :=
  match l with
  | [] => None
  | (k', v) :: l' => if String.eqb k k' then Some v else assoc l' k
  end.
Definition task_timeout (cfg : Settings) (kind : string) : Z :=
  Z.max (default 0 (assoc LONG_TASK_TIMEOUTS kind)) (task_timeout_seconds cfg).
Definition max_task_timeout (cfg : Settings) : Z :=
  foldr Z.max (task_timeout_seconds cfg) (LONG_TASK_TIMEOUTS.*2).

(** ** Keys *)
Definition vm_state_key (vm_id : string) : string := "vm:state:" +:+ vm_id.
Definition vm_lock_key (vm_id : string) : string := "vm:lock:" +:+ vm_id.
Definition tombstone_prefix (host_id : string) : string := "vm:deleted:" +:+ host_id +:+ ":".
Definition vm_tombstone_key (host_id vm_uuid : string) : string :=
  "vm:deleted:" +:+ host_id +:+ ":" +:+ vm_uuid.

(** ** Valkey commands on the store [c] at time [now] *)
Definition live (now : Z) (e : centry) : bool := now <? ce_expires e.
Definition c_get (now : Z) (k : string) (c : gmap string centry) : option cval :=
  match c !! k with Some e => if live now e then Some (ce_val e) else None | None => None end.
(** [SET k v EX ttl] *)
Definition c_set (now : Z) (k : string) (v : cval) (ttl : Z) (c : gmap string centry)
    : gmap string centry := <[k := mkEntry v (now + seconds ttl)]> c.
(** [SET k v EX ttl NX]: nothing when a live entry is there *)
Definition c_set_nx (now : Z) (k : string) (v : cval) (ttl : Z) (c : gmap string centry)
    : bool * gmap string centry :=
  match c_get now k c with Some _ => (false, c) | None => (true, c_set now k v ttl c) end.
(** [DEL k]: whether a live entry was removed *)
Definition c_del (now : Z) (k : string) (c : gmap string centry) : bool * gmap string centry :=
  (is_some (c_get now k c), delete k c).
(** [SCAN MATCH prefix*]: ids hold no glob metacharacter *)
Definition c_scan (now : Z) (prefix : string) (c : gmap string centry) : list string :=
  (map_to_list (filter (λ kv, startswith prefix kv.1 && live now kv.2 = true) c)).*1.

(** a command at the current time *)
Definition at_now {A} (f : Z → gmap string centry → A * gmap string centry) : M A :=
  now ← gets w_now; valkey (f now).
Definition peek {A} (f : Z → gmap string centry → A) : M A := at_now (λ now c, (f now c, c)).

(** ** VM state overlay *)
Definition set_vm_state (vm_id state : string) : M unit :=
  ttl ← gets (λ w, vm_state_ttl_seconds (w_cfg w));
  at_now (λ now c, (tt, c_set now (vm_state_key vm_id) (CText state) ttl c)).
Definition text_of (v : option cval) : option string :=
  match v with Some (CText s) => Some s | _ => None end.
Definition get_vm_state (vm_id : string) : M (option string) :=
  peek (λ now c, text_of (c_get now (vm_state_key vm_id) c)).
(** the ids that have a (non-empty) overlay, with it *)
Definition get_vm_states (vm_ids : list string) : M (list (string * string)) :=
  match vm_ids with
  | [] => mret []
  | _ => peek (λ now c, omap (λ id,
           match text_of (c_get now (vm_state_key id) c) with
           | Some s => if str_nonempty s then Some (id, s) else None
           | None => None
           end) vm_ids)
  end.
Definition clear_vm_state (vm_id : string) : M unit :=
  at_now (λ now c, (tt, (c_del now (vm_state_key vm_id) c).2)).

(** ** VM lock *)
Definition lock_ttl (cfg : Settings) (kind : string) : Z := task_timeout cfg kind + 60.
Definition acquire_vm_lock (vm_id task_id kind requested_by : string) : M bool :=
  ttl ← gets (λ w, lock_ttl (w_cfg w) kind);
  acquired ← now_utc;
  at_now (λ now c,
    c_set_nx now (vm_lock_key vm_id) (CLock (mkVmLock task_id kind requested_by acquired)) ttl c).
(** [_RELEASE_LUA]: compare-and-delete *)
Definition release_script (now : Z) (key task_id : string) (c : gmap string centry)
    : bool * gmap string centry :=
  match c_get now key c with
  | Some (CLock l) => if String.eqb (lk_task_id l) task_id then (true, delete key c) else (false, c)
  | _ => (false, c)
  end.
Definition release_vm_lock (vm_id : string) (task_id : option string) : M bool :=
  match task_id with
  | None => at_now (λ now c, c_del now (vm_lock_key vm_id) c)
  | Some t => at_now (λ now c, release_script now (vm_lock_key vm_id) t c)
  end.
(** [json.loads(raw) if raw else None]; text that is no lock does not parse *)
Definition lock_of (v : option cval) : res (option VmLock) :=
  match v with
  | None => inl None
  | Some (CLock l) => inl (Some l)
  | Some (CText s) => if str_nonempty s then inr ValueError else inl None
  end.
Definition get_vm_lock (vm_id : string) : M (option VmLock) :=
  r ← peek (λ now c, lock_of (c_get now (vm_lock_key vm_id) c)); lift_py r.
Definition get_vm_locks (vm_ids : list string) : M (list (string * VmLock)) :=
  rs ← map_each (λ id, l ← get_vm_lock id; mret (id, l)) vm_ids;
  mret (omap (λ '(id, l), pair id <$> l) rs).
Record lock_row := mkLockRow { lr_vm_id : string; lr_lock : VmLock; lr_ttl : Z }.
(** [key.split(":", 2)[2]] of a [vm:lock:<id>] key *)
Definition lock_key_id (key : string) : string := sdrop 8 key.
Definition list_vm_locks : M (list lock_row) :=
  peek (λ now c, omap (λ key,
    match c !! key with
    | Some (mkEntry (CLock l) ex) =>
        Some (mkLockRow (lock_key_id key) l ((ex - now) / seconds 1))
    | _ => None
    end) (c_scan now "vm:lock:" c)).
Definition release_all_vm_locks : M nat :=
  at_now (λ now c,
    let keys := c_scan now "vm:lock:" c in
    (length keys, foldr delete c keys)).

(** ** Tombstones *)
Definition VM_TOMBSTONE_TTL : Z := 900.
Definition mark_vm_deleted (host_id vm_uuid : string) : M unit :=
  if str_nonempty vm_uuid then
    at_now (λ now c, (tt, c_set now (vm_tombstone_key host_id vm_uuid) (CText "now") VM_TOMBSTONE_TTL c))
  else mret tt.
Definition is_vm_deleted (host_id vm_uuid : string) : M bool :=
  peek (λ now c, is_some (c_get now (vm_tombstone_key host_id vm_uuid) c)).
Definition clear_vm_deleted (host_id vm_uuid : string) : M unit :=
  at_now (λ now c, (tt, (c_del now (vm_tombstone_key host_id vm_uuid) c).2)).
Definition list_deleted_vm_uuids (host_id : string) : M (gset string) :=
  peek (λ now c,
    let prefix := tombstone_prefix host_id in
    list_to_set (sdrop (String.length prefix) <$> c_scan now prefix c)).

(** ** The lock as the rest of the backend relies on it

    [lock_view w v] is the live lock on VM [v]. *)
Definition lock_view (w : world) (vm_id : string) : option VmLock :=
  match c_get (w_now w) (vm_lock_key vm_id) (w_cache w) with
  | Some (CLock l) => Some l
  | _ => None
  end.
(** every live entry under a lock key is a lock *)
Definition locks_wf (w : world) : Prop :=
  ∀ v s, c_get (w_now w) (vm_lock_key v) (w_cache w) ≠ Some (CText s).

(** ** Key families do not overlap *)
Lemma vm_lock_key_inj a b : vm_lock_key a = vm_lock_key b → a = b.
Proof. apply sapp_inj. Qed.
Lemma vm_state_key_inj a b : vm_state_key a = vm_state_key b → a = b.
Proof. apply sapp_inj. Qed.
Lemma vm_lock_state_key a b : vm_lock_key a ≠ vm_state_key b.
Proof. unfold vm_lock_key, vm_state_key. discriminate. Qed.
Lemma vm_lock_tombstone_key a h u : vm_lock_key a ≠ vm_tombstone_key h u.
Proof. unfold vm_lock_key, vm_tombstone_key. discriminate. Qed.
Lemma vm_state_tombstone_key a h u : vm_state_key a ≠ vm_tombstone_key h u.
Proof. unfold vm_state_key, vm_tombstone_key. discriminate. Qed.
Lemma tombstone_prefix_key h u : vm_tombstone_key h u = tombstone_prefix h +:+ u.
Proof.
  unfold vm_tombstone_key, tombstone_prefix. by rewrite !sapp_assoc.
Qed.

(** ** Store lemmas *)
Lemma c_get_set_eq now k v ttl c : 0 < ttl → c_get now k (c_set now k v ttl c) = Some v.
Proof.
  intros H. unfold c_get, c_set. rewrite lookup_insert_eq. unfold live, seconds. cbn.
  destruct (Z.ltb_spec now (now + ttl * 1000000)); [done|lia].
Qed.
Lemma c_get_set_ne now k k' v ttl c : k ≠ k' → c_get now k' (c_set now k v ttl c) = c_get now k' c.
Proof. intros H. unfold c_get, c_set. by rewrite lookup_insert_ne. Qed.
Lemma c_get_delete_eq now k c : c_get now k (delete k c) = None.
Proof. unfold c_get. by rewrite lookup_delete_eq. Qed.
Lemma c_get_delete_ne now k k' c : k ≠ k' → c_get now k' (delete k c) = c_get now k' c.
Proof. intros H. unfold c_get. by rewrite lookup_delete_ne. Qed.
Lemma elem_of_c_scan now p c k :
  k ∈ c_scan now p c ↔ startswith p k = true ∧ is_Some (c_get now k c).
Proof.
  unfold c_scan, c_get. rewrite list_elem_of_fmap. split.
  - intros ([k' e] & -> & H). apply elem_of_map_to_list in H.
    apply map_lookup_filter_Some in H as [H1 H2]. cbn in *. bool_prop.
    rewrite H1, H0. eauto.
  - intros [H1 [v H2]]. destruct (c !! k) as [e|] eqn:E; [|done].
    destruct (live now e) eqn:El; [|done]. exists (k, e). split; [done|].
    apply elem_of_map_to_list, map_lookup_filter_Some. split; [done|]. cbn. by rewrite H1, El.
Qed.

(** ** The contract of the lock, as an interface

    [ok w] says the store is reachable and well formed.  A successful
    acquisition of a free lock stores exactly the requested lock and touches no
    other VM; a held lock is refused and nothing changes; only the owner's
    release frees it. *)
Class VmMutex (acquire : string → string → string → string → M bool)
    (release : string → option string → M bool)
    (view : world → string → option VmLock) (ok : world → Prop) := {
  mutex_acquire_free w v t k u :
    ok w → view w v = None →
    ∃ c, acquire v t k u w = (Ok true, w <| w_cache := c |>) ∧
      view (w <| w_cache := c |>) v = Some (mkVmLock t k u (utc (w_now w))) ∧
      ok (w <| w_cache := c |>) ∧
      ∀ v', v' ≠ v → view (w <| w_cache := c |>) v' = view w v';
  mutex_acquire_held w v t k u l :
    ok w → view w v = Some l → acquire v t k u w = (Ok false, w);
  mutex_release_owner w v l :
    ok w → view w v = Some l →
    ∃ c, release v (Some (lk_task_id l)) w = (Ok true, w <| w_cache := c |>) ∧
      view (w <| w_cache := c |>) v = None ∧
      ok (w <| w_cache := c |>) ∧
      ∀ v', v' ≠ v → view (w <| w_cache := c |>) v' = view w v';
  mutex_release_other w v t :
    ok w → (∀ l, view w v = Some l → lk_task_id l ≠ t) →
    release v (Some t) w = (Ok false, w)
}.

Definition cache_ok (w : world) : Prop :=
  w_cache_up w = true ∧ locks_wf w ∧ 0 ≤ task_timeout_seconds (w_cfg w).

Lemma task_timeout_default cfg kind : task_timeout_seconds cfg ≤ task_timeout cfg kind.
Proof. unfold task_timeout. lia. Qed.
Lemma assoc_in {A} (l : list (string * A)) k v : assoc l k = Some v → v ∈ l.*2.
Proof.
  induction l as [|[k' v'] l IH]; cbn; [done|]. destruct (String.eqb k k').
  - intros [= ->]. apply list_elem_of_here.
  - intros H. apply list_elem_of_further. auto.
Qed.
Lemma foldr_max_le l x d : x ∈ l → x ≤ foldr Z.max d l.
Proof.
  induction l as [|y l IH]; intros H; [by apply not_elem_of_nil in H|].
  apply elem_of_cons in H as [->|H]; cbn; [lia|]. specialize (IH H). lia.
Qed.
Lemma foldr_max_ge l d : d ≤ foldr Z.max d l.
Proof. induction l as [|y l IH]; cbn; lia. Qed.

Lemma lock_ttl_pos w kind : cache_ok w → 0 < lock_ttl (w_cfg w) kind.
Proof. intros (_ & _ & H). unfold lock_ttl. pose proof (task_timeout_default (w_cfg w) kind). lia. Qed.

Lemma lock_view_free w v :
  locks_wf w → lock_view w v = None → c_get (w_now w) (vm_lock_key v) (w_cache w) = None.
Proof.
  unfold lock_view. intros H. specialize (H v). intros Hn.
  destruct (c_get _ _ _) as [[s|l]|] eqn:E; [|done..]. by destruct (H s).
Qed.
Lemma lock_view_held w v l :
  lock_view w v = Some l → c_get (w_now w) (vm_lock_key v) (w_cache w) = Some (CLock l).
Proof. unfold lock_view. destruct (c_get _ _ _) as [[s|l']|]; congruence. Qed.
(** writing or deleting one lock key leaves the other VMs' locks as they were *)
Lemma lock_view_frame w c v :
  (∀ k, k ≠ vm_lock_key v → c_get (w_now w) k c = c_get (w_now w) k (w_cache w)) →
  ∀ v', v' ≠ v → lock_view (w <| w_cache := c |>) v' = lock_view w v'.
Proof.
  intros H v' Hne. unfold lock_view. cbn. rewrite H; [done|].
  intros E. by apply vm_lock_key_inj in E.
Qed.
Lemma locks_wf_frame w c v :
  locks_wf w →
  (∀ k, k ≠ vm_lock_key v → c_get (w_now w) k c = c_get (w_now w) k (w_cache w)) →
  (∀ s, c_get (w_now w) (vm_lock_key v) c ≠ Some (CText s)) → locks_wf (w <| w_cache := c |>).
Proof.
  intros Hw Hf Hv v' s. cbn. destruct (decide (v' = v)) as [->|Hne]; [apply Hv|].
  rewrite Hf; [apply Hw|]. intros E. by apply vm_lock_key_inj in E.
Qed.

Section commands.
Context (w : world) (up : w_cache_up w = true).
Lemma at_now_run {A} (f : Z → gmap string centry → A * gmap string centry) :
  at_now f w = (Ok (f (w_now w) (w_cache w)).1, w <| w_cache := (f (w_now w) (w_cache w)).2 |>).
Proof using up.
  unfold at_now, valkey, gets, mbind, M_bind. cbn. rewrite up.
  by destruct (f (w_now w) (w_cache w)).
Qed.
Lemma peek_run {A} (f : Z → gmap string centry → A) :
  peek f w = (Ok (f (w_now w) (w_cache w)), w).
Proof using up. unfold peek. rewrite at_now_run. cbn. by destruct w. Qed.
End commands.

Lemma set_vm_state_run w v s :
  w_cache_up w = true →
  set_vm_state v s w = (Ok tt, w <| w_cache := c_set (w_now w) (vm_state_key v) (CText s)
                                     (vm_state_ttl_seconds (w_cfg w)) (w_cache w) |>).
Proof. intros H. unfold set_vm_state. rewrite run_gets. by rewrite at_now_run. Qed.
Lemma clear_vm_state_run w v :
  w_cache_up w = true →
  clear_vm_state v w = (Ok tt, w <| w_cache := delete (vm_state_key v) (w_cache w) |>).
Proof. intros H. unfold clear_vm_state. by rewrite at_now_run. Qed.
Lemma at_now_down {A} (f : Z → gmap string centry → A * gmap string centry) w :
  w_cache_up w = false → at_now f w = (Raise ECache, w).
Proof. intros H. unfold at_now. rewrite run_gets. unfold valkey. by rewrite H. Qed.
(** a cache command that returned: only the cache may have changed *)
Lemma at_now_inv {A} (f : Z → gmap string centry → A * gmap string centry) w a w' :
  at_now f w = (Ok a, w') →
  w_cache_up w = true ∧ a = (f (w_now w) (w_cache w)).1 ∧
  w' = w <| w_cache := (f (w_now w) (w_cache w)).2 |>.
Proof.
  destruct (w_cache_up w) eqn:E; [|by rewrite at_now_down]. rewrite at_now_run by done.
  by intros [= <- <-].
Qed.

Lemma acquire_run w v t k u :
  w_cache_up w = true →
  acquire_vm_lock v t k u w =
    let r := c_set_nx (w_now w) (vm_lock_key v)
               (CLock (mkVmLock t k u (utc (w_now w)))) (lock_ttl (w_cfg w) k) (w_cache w) in
    (Ok r.1, w <| w_cache := r.2 |>).
Proof.
  intros H. unfold acquire_vm_lock, now_utc, gets, mbind, M_bind. cbn.
  by rewrite at_now_run.
Qed.

#[export] Instance valkey_mutex : VmMutex acquire_vm_lock release_vm_lock lock_view cache_ok.
Proof.
  split.
  - intros w v t k u Hok Hfree. pose proof (lock_ttl_pos w k Hok) as Httl.
    destruct Hok as (Hup & Hwf & Hcfg). rewrite acquire_run by done.
    unfold c_set_nx. rewrite (lock_view_free w v Hwf Hfree). cbv zeta. cbn [fst snd].
    eexists. split; [done|]. split.
    { unfold lock_view. cbn. by rewrite c_get_set_eq. }
    split.
    { split; [done|split; [|done]]. apply (locks_wf_frame _ _ v); [done| |].
      - intros k' Hk'. by apply c_get_set_ne.
      - intros s. by rewrite c_get_set_eq. }
    apply lock_view_frame. intros k' Hk'. by apply c_get_set_ne.
  - intros w v t k u l (Hup & _) Hv. rewrite acquire_run by done. unfold c_set_nx.
    rewrite (lock_view_held _ _ _ Hv). cbn. by destruct w.
  - intros w v l (Hup & Hwf & Hcfg) Hv. cbn [release_vm_lock]. rewrite at_now_run by done.
    unfold release_script. rewrite (lock_view_held _ _ _ Hv), String.eqb_refl. cbn [fst snd].
    eexists. split; [done|]. split.
    { unfold lock_view. cbn. by rewrite c_get_delete_eq. }
    split.
    { split; [done|split; [|done]]. apply (locks_wf_frame _ _ v); [done| |].
      - intros k' Hk'. by apply c_get_delete_ne.
      - intros s. by rewrite c_get_delete_eq. }
    apply lock_view_frame. intros k' Hk'. by apply c_get_delete_ne.
  - intros w v t (Hup & Hwf & _) Hno. cbn [release_vm_lock]. rewrite at_now_run by done.
    unfold release_script. destruct (c_get _ _ _) as [[s|l]|] eqn:E; cbn.
    + by destruct (Hwf v s).
    + destruct (String.eqb_spec (lk_task_id l) t) as [<-|]; cbn; [|by destruct w].
      destruct (Hno l); [|done]. unfold lock_view. by rewrite E.
    + by destruct w.
Qed.

Lemma locks_wf_empty w : w_cache w = ∅ → locks_wf w.
Proof. intros H v s. unfold c_get. by rewrite H, lookup_empty. Qed.
Lemma sample_cache_ok : cache_ok sample_world.
Proof. split; [done|split; [by apply locks_wf_empty|by vm_compute]]. Qed.

(** Cache commands touch nothing but the cache. *)
Lemma same_at_now {B A} (f : world → B) (g : Z → gmap string centry → A * gmap string centry) :
  (∀ w c, f (w <| w_cache := c |>) = f w) → keeps (same f) (at_now g).
Proof.
  intros Hf. unfold at_now. apply keeps_bind; [apply _|by intros w|]. intros now. by apply same_valkey.
Qed.
#[export] Hint Extern 1 (keeps (same _) (at_now _)) => apply same_at_now; intros; reflexivity : frame.
#[export] Hint Extern 2 (keeps (same _) (set_vm_state _ _)) => unfold set_vm_state; keep : frame.
#[export] Hint Extern 2 (keeps (same _) (clear_vm_state _)) => unfold clear_vm_state; keep : frame.
#[export] Hint Extern 2 (keeps (same _) (mark_vm_deleted _ _)) => unfold mark_vm_deleted; keep : frame.
#[export] Hint Extern 2 (keeps (same _) (clear_vm_deleted _ _)) => unfold clear_vm_deleted; keep : frame.
#[export] Hint Extern 2 (keeps (same _) (release_vm_lock _ _)) => unfold release_vm_lock; keep : frame.

(** The overlay and the tombstones leave every lock alone. *)
Abbreviation locked_as v := (λ w, c_get (w_now w) (vm_lock_key v) (w_cache w)).
(** a command that leaves one entry alone *)
Lemma same_entry_at_now {A} (g : Z → gmap string centry → A * gmap string centry) k :
  (∀ now c, c_get now k (g now c).2 = c_get now k c) →
  keeps (same (λ w, c_get (w_now w) k (w_cache w))) (at_now g).
Proof.
  intros Hg w. unfold same. destruct (w_cache_up w) eqn:E; [|by rewrite at_now_down].
  rewrite at_now_run by done. cbn. by rewrite Hg.
Qed.
(** a release touches the lock's own entry at most *)
Lemma same_entry_release k v t :
  k ≠ vm_lock_key v → keeps (same (λ w, c_get (w_now w) k (w_cache w))) (release_vm_lock v t).
Proof.
  intros Hk.
  assert (∀ now c, c_get now k (delete (vm_lock_key v) c) = c_get now k c) as Hd.
  { intros now c. by apply c_get_delete_ne. }
  unfold release_vm_lock. destruct t as [t|]; apply same_entry_at_now; intros now c; cbn; [|apply Hd].
  unfold release_script. destruct (c_get now (vm_lock_key v) c) as [[]|]; try done.
  destruct (String.eqb _ _); [apply Hd|done].
Qed.
Lemma same_lock_at_now {A} (g : Z → gmap string centry → A * gmap string centry) v :
  (∀ now c, c_get now (vm_lock_key v) (g now c).2 = c_get now (vm_lock_key v) c) →
  keeps (same (locked_as v)) (at_now g).
Proof.
  intros Hg w. unfold same. destruct (w_cache_up w) eqn:E; [|by rewrite at_now_down].
  rewrite at_now_run by done. cbn. by rewrite Hg.
Qed.
Lemma same_lock_set_vm_state v id s : keeps (same (locked_as v)) (set_vm_state id s).
Proof.
  unfold set_vm_state. apply keeps_bind; [apply _|by intros w|]. intros ttl. apply same_lock_at_now.
  intros now c. apply c_get_set_ne. intros E. symmetry in E. by apply vm_lock_state_key in E.
Qed.
Lemma same_lock_clear_vm_state v id : keeps (same (locked_as v)) (clear_vm_state id).
Proof.
  unfold clear_vm_state. apply same_lock_at_now. intros now c. cbn. apply c_get_delete_ne.
  intros E. symmetry in E. by apply vm_lock_state_key in E.
Qed.
Lemma same_lock_mark_vm_deleted v h u : keeps (same (locked_as v)) (mark_vm_deleted h u).
Proof.
  unfold mark_vm_deleted. destruct (str_nonempty u); [|apply keeps_ret, _]. apply same_lock_at_now.
  intros now c. apply c_get_set_ne. intros E. symmetry in E. by apply vm_lock_tombstone_key in E.
Qed.
#[export] Hint Resolve same_lock_set_vm_state same_lock_clear_vm_state same_lock_mark_vm_deleted : frame.

Lemma cache_ok_same w w' :
  cache_ok w → w_cache_up w' = w_cache_up w → w_cfg w' = w_cfg w →
  (∀ v, same (locked_as v) w w') → cache_ok w' ∧ ∀ v, lock_view w' v = lock_view w v.
Proof.
  unfold same, lock_view. intros (Hup & Hwf & Hcfg) Hu Hc Hl. split.
  - split; [congruence|]. split; [|by rewrite Hc]. intros v s. rewrite Hl. apply Hwf.
  - intros v. by rewrite Hl.
Qed.

(** ** Properties *)
Section exclusion.
Context {acquire : string → string → string → string → M bool}
  {release : string → option string → M bool}
  {view : world → string → option VmLock} {ok : world → Prop}
  `{!VmMutex acquire release view ok}.

Lemma mutex_exclusive w v t k u t' k' u' :
  ok w → view w v = None → t ≠ t' →
  ∃ w1 w2, acquire v t k u w = (Ok true, w1) ∧
    acquire v t' k' u' w1 = (Ok false, w1) ∧
    release v (Some t') w1 = (Ok false, w1) ∧
    release v (Some t) w1 = (Ok true, w2) ∧ view w2 v = None ∧
    (∀ v', v' ≠ v → view w2 v' = view w v').
Proof.
  intros Hok Hfree Hne.
  destruct (mutex_acquire_free w v t k u Hok Hfree) as (c & Ha & Hv & Hok1 & Hf).
  destruct (mutex_release_owner _ v _ Hok1 Hv) as (c2 & Hr & Hv2 & _ & Hf2). cbn in Hr.
  eexists _, _. split; [exact Ha|]. split; [by eapply mutex_acquire_held|]. split.
  { apply mutex_release_other; [done|]. intros l Hl. rewrite Hv in Hl. by simplify_eq. }
  split; [exact Hr|]. split; [done|]. intros v' Hv'. rewrite Hf2 by done. by apply Hf.
Qed.
End exclusion.

(** C6: the VM lock is exclusive and owner-released.  On a reachable store,
    acquiring a free lock succeeds; until it is released no second task gets
    it, a release by any other task is a no-op, the owner's release frees it,
    and no other VM's lock is affected. *)
Theorem vm_lock_exclusive w v t k u t' k' u' :
  cache_ok w → lock_view w v = None → t ≠ t' →
  ∃ w1 w2, acquire_vm_lock v t k u w = (Ok true, w1) ∧
    acquire_vm_lock v t' k' u' w1 = (Ok false, w1) ∧
    release_vm_lock v (Some t') w1 = (Ok false, w1) ∧
    release_vm_lock v (Some t) w1 = (Ok true, w2) ∧ lock_view w2 v = None ∧
    (∀ v', v' ≠ v → lock_view w2 v' = lock_view w v').
Proof. apply mutex_exclusive. Qed.
Lemma vm_lock_exclusive_witness :
  ∃ w1 w2, acquire_vm_lock "v1" "t1" "vm_start" "op" sample_world = (Ok true, w1) ∧
    acquire_vm_lock "v1" "t2" "vm_stop" "op" w1 = (Ok false, w1) ∧
    release_vm_lock "v1" (Some "t2") w1 = (Ok false, w1) ∧
    release_vm_lock "v1" (Some "t1") w1 = (Ok true, w2) ∧ lock_view w2 "v1" = None ∧
    (∀ v', v' ≠ "v1" → lock_view w2 v' = lock_view sample_world v').
Proof. apply vm_lock_exclusive; [apply sample_cache_ok|reflexivity|discriminate]. Defined.

(** The lock outlives the task it protects.  A lock taken for a task of
    kind [k] is live exactly until one minute after the kind's deadline, so
    the sweeper can time the task out (and release it) while it is held, and a
    crashed worker strands it for at most that minute. *)
Theorem vm_lock_outlives_task w v t k u w1 :
  cache_ok w → lock_view w v = None → acquire_vm_lock v t k u w = (Ok true, w1) →
  ∀ now', lock_view (w1 <| w_now := now' |>) v =
    if now' <? w_now w + seconds (task_timeout (w_cfg w) k + 60)
    then Some (mkVmLock t k u (utc (w_now w))) else None.
Proof.
  intros (Hup & Hwf & _) Hfree. rewrite acquire_run by done. unfold c_set_nx.
  rewrite (lock_view_free w v Hwf Hfree). cbv zeta. intros [= <-] now'.
  unfold lock_view, c_get, c_set. cbn. rewrite lookup_insert_eq. unfold live, lock_ttl. cbn.
  by destruct (Z.ltb_spec now' (w_now w + seconds (task_timeout (w_cfg w) k + 60))).
Qed.
Lemma vm_lock_outlives_task_witness :
  let w1 := (acquire_vm_lock "v1" "t1" "vm_shutdown" "op" sample_world).2 in
  lock_view (w1 <| w_now := w_now sample_world + seconds 959 |>) "v1" =
    Some (mkVmLock "t1" "vm_shutdown" "op" (utc (w_now sample_world))).
Proof.
  cbv zeta. rewrite (vm_lock_outlives_task sample_world "v1" "t1" "vm_shutdown" "op");
    [reflexivity|apply sample_cache_ok|reflexivity|vm_compute; reflexivity].
Defined.

(** Every task kind's deadline lies between the configured default (the
    sweeper's SQL pre-filter) and [max_task_timeout_seconds]. *)
Theorem task_timeout_bounds cfg kind :
  task_timeout_seconds cfg ≤ task_timeout cfg kind ≤ max_task_timeout cfg.
Proof.
  split; [apply task_timeout_default|]. unfold task_timeout, max_task_timeout.
  apply Z.max_lub; [|apply foldr_max_ge].
  destruct (assoc _ kind) as [x|] eqn:E; cbn [default].
  - apply foldr_max_le. by eapply assoc_in.
  - etrans; [|apply (foldr_max_le _ 900); repeat constructor]. lia.
Qed.

Lemma tombstones_run w h :
  w_cache_up w = true →
  ∃ s, list_deleted_vm_uuids h w = (Ok s, w) ∧
    ∀ u, u ∈ s ↔ is_Some (c_get (w_now w) (vm_tombstone_key h u) (w_cache w)).
Proof.
  intros Hup. unfold list_deleted_vm_uuids. rewrite peek_run by done. eexists. split; [done|].
  intros u. rewrite elem_of_list_to_set, list_elem_of_fmap. split.
  - intros (k & -> & Hk). apply elem_of_c_scan in Hk as [Hp Hk].
    apply startswith_spec in Hp as [r ->]. by rewrite sdrop_app, tombstone_prefix_key.
  - intros Hu. exists (vm_tombstone_key h u). rewrite tombstone_prefix_key, sdrop_app.
    split; [done|]. apply elem_of_c_scan. rewrite startswith_app. by rewrite <- tombstone_prefix_key.
Qed.

(** Tombstones are exact.  On a reachable store the set a host's inventory
    consults is exactly the GUIDs [is_vm_deleted] reports; marking a (non-empty)
    GUID adds it, clearing removes it, and either leaves other GUIDs alone. *)
Theorem tombstone_set_exact w h u :
  w_cache_up w = true → u ≠ "" →
  ∃ s w1 s1 w2 s2,
    list_deleted_vm_uuids h w = (Ok s, w) ∧
    (∀ x, x ∈ s ↔ is_vm_deleted h x w = (Ok true, w)) ∧
    mark_vm_deleted h u w = (Ok tt, w1) ∧ list_deleted_vm_uuids h w1 = (Ok s1, w1) ∧
    s1 = {[u]} ∪ s ∧
    clear_vm_deleted h u w1 = (Ok tt, w2) ∧ list_deleted_vm_uuids h w2 = (Ok s2, w2) ∧
    s2 = s ∖ {[u]}.
Proof.
  intros Hup Hu.
  assert (∀ x, vm_tombstone_key h u = vm_tombstone_key h x → u = x) as Hinj.
  { intros x. rewrite !tombstone_prefix_key. apply sapp_inj. }
  assert (str_nonempty u = true) as Hne by (by destruct u).
  unfold mark_vm_deleted, clear_vm_deleted. rewrite Hne, at_now_run by done. cbn [fst snd].
  destruct (tombstones_run w h Hup) as (s & -> & Hs).
  set (w1 := w <| w_cache := c_set (w_now w) (vm_tombstone_key h u) (CText "now")
    VM_TOMBSTONE_TTL (w_cache w) |>).
  set (w2 := w1 <| w_cache := delete (vm_tombstone_key h u) (w_cache w1) |>).
  destruct (tombstones_run w1 h Hup) as (s1 & Hr1 & Hs1).
  destruct (tombstones_run w2 h Hup) as (s2 & Hr2 & Hs2).
  exists s, w1, s1, w2.
  exists s2. split; [done|]. split.
  { intros x. unfold is_vm_deleted. rewrite peek_run, Hs, <- is_some_true by done.
    split; [by intros ->|by intros [= ->]]. }
  split; [done|]. split; [exact Hr1|]. split.
  { apply set_eq. intros x. rewrite Hs1, elem_of_union, elem_of_singleton, Hs. cbn [w1 set_field w_now w_cache].
    destruct (decide (x = u)) as [->|Hx].
    - rewrite c_get_set_eq by done. split; [auto|eauto].
    - rewrite c_get_set_ne by (intros E; by apply Hinj in E). naive_solver. }
  rewrite (at_now_run w1 Hup). split; [done|]. split; [exact Hr2|].
  apply set_eq. intros x. rewrite Hs2, elem_of_difference, elem_of_singleton, Hs. cbn [w2 w1 set_field w_now w_cache].
  destruct (decide (x = u)) as [->|Hx].
  - rewrite c_get_delete_eq. split; [by intros [? ?]|by intros [? []]].
  - rewrite c_get_delete_ne, c_get_set_ne by (intros E; by apply Hinj in E). naive_solver.
Qed.
Lemma tombstone_set_exact_witness : ∃ s w1 s1 w2 s2,
    list_deleted_vm_uuids "h1" sample_world = (Ok s, sample_world) ∧
    (∀ x, x ∈ s ↔ is_vm_deleted "h1" x sample_world = (Ok true, sample_world)) ∧
    mark_vm_deleted "h1" "g1" sample_world = (Ok tt, w1) ∧
    list_deleted_vm_uuids "h1" w1 = (Ok s1, w1) ∧ s1 = {["g1"]} ∪ s ∧
    clear_vm_deleted "h1" "g1" w1 = (Ok tt, w2) ∧ list_deleted_vm_uuids "h1" w2 = (Ok s2, w2) ∧
    s2 = s ∖ {["g1"]}.
Proof. apply tombstone_set_exact; [reflexivity|discriminate]. Defined.
