(* ===== verification/AuditLog.v ===== *)
(** * The audit trail ([app/services/audit.py])

    [record] adds an event in the session of the change it audits, [changes]
    is the before/after diff, [settle_task_events] stamps the terminal status
    of an agent task, [prune_events] drops old events and [list_events] pages
    through the log, newest first, by keyset. *)
From S2P Require Import Prelude Py Clock Model World.
From Stdlib Require Import Ascii.
From stdpp Require Import sorting.
Open Scope string_scope.
Open Scope Z_scope.

Definition SYSTEM_ACTOR_NAME : string := "Open vCenter".

(** ** Targets *)
Inductive target :=
  | TVm (v : Vm) | THost (h : Host) | TCluster (c : Cluster) | TFolder (f : Folder)
  | TVlan (v : Vlan) | TTag (t : Tag) | TTagCategory (c : TagCategory) | TAgentBinary (b : AgentBinary).
Record target_ref := mkRef {
  tr_type : string; tr_id : option string; tr_name : option string;
  tr_host_id : option string; tr_cluster_id : option string
}.
Definition ref (t : target) : target_ref :=
  match t with
  | TVm v => mkRef "vm" (Some (v_id v)) (Some (v_name v)) (Some (v_host_id v)) (v_cluster_id v)
  | THost h => mkRef "host" (Some (h_id h)) (Some (h_name h)) (Some (h_id h)) (h_cluster_id h)
  | TCluster c => mkRef "cluster" (Some (cl_id c)) (Some (cl_name c)) None (Some (cl_id c))
  | TFolder f => mkRef "folder" (Some (f_id f)) (Some (f_name f)) (f_host_id f) (f_cluster_id f)
  | TVlan v => mkRef "vlan" (Some (vl_id v)) (Some (vl_name v)) (vl_host_id v) (vl_cluster_id v)
  | TTag t => mkRef "tag" (Some (tg_id t)) (Some (tg_name t)) None None
  | TTagCategory c => mkRef "tag_category" (Some (tc_id c)) (Some (tc_name c)) None None
  | TAgentBinary b => mkRef "agent_binary" (Some (b_id b)) (Some (b_version b)) None None
  end.

(** [x or None] on a dict, [x or y] on strings *)
Definition dict_or_none (d : option dict) : option dict :=
  match d with Some [] => None | _ => d end.
Definition str_or (a : option string) (b : string) : string :=
  match a with Some s => if str_nonempty s then s else b | None => b end.

(** ** Recording *)
Definition record (actor : option User) (action : string) (t : option target)
    (target_type : option string) (task : option Task) (details : option dict) : M AuditEvent :=
  let r := match t with Some t => ref t | None => mkRef (default "" target_type) None None None None end in
  if str_nonempty (tr_type r) then
    id ← new_id;
    now ← now_utc;
    let event := {|
      ae_id := id;
      ae_occurred_at := now;
      ae_actor_type := if actor then "user" else "system";
      ae_actor_email := u_email <$> actor;
      ae_actor_name := Some (match actor with
                             | Some u => str_or (u_display_name u) (u_email u)
                             | None => SYSTEM_ACTOR_NAME
                             end);
      ae_action := action;
      ae_target_type := tr_type r;
      ae_target_id := tr_id r;
      ae_target_name := tr_name r;
      ae_host_id := tr_host_id r;
      ae_cluster_id := tr_cluster_id r;
      ae_task_id := k_id <$> task;
      ae_outcome := if task then "pending" else "succeeded";
      ae_error := None;
      ae_details := dict_or_none details |} in
    exec (λ d, d <| audit_events ::= λ l, l ++ [event] |>)%list;;
    mret event
  else raise (EPy ValueError).

(** ** Diffs.  The audited fields hold strings, integers, booleans, [None],
    lists of strings or [{id, name}] dicts; [same_value] is their [==]. *)
Fixpoint same_value (a b : json) {struct a} : bool :=
  match a, b with
  | JNull, JNull => true
  | JBool x, JBool y => Bool.eqb x y
  | JBool x, JInt y | JInt y, JBool x => y =? (if x then 1 else 0)
  | JInt x, JInt y => x =? y
  | JFloat x, JFloat y => Floats.SpecFloat.SFeqb x y
  | JStr x, JStr y => String.eqb x y
  | JList x, JList y =>
      (fix eq_list (x y : list json) :=
         match x, y with
         | [], [] => true
         | a :: x', b :: y' => same_value a b && eq_list x' y'
         | _, _ => false
         end) x y
  | JObj x, JObj y =>
      (length x =? length y)%nat &&
      (fix sub (x : dict) :=
         match x with
         | [] => true
         | (k, v) :: x' =>
             match dict_find y k with Some v' => same_value v v' && sub x' | None => false end
         end) x
  | _, _ => false
  end.
Definition changed_keys (before after : dict) : list string :=
  List.filter (λ k, negb (same_value (dget before k) (dget after k))) (after.*1).
Definition changes (before after : dict) : option dict :=
  match changed_keys before after with
  | [] => None
  | ks => Some [("before", JObj ((λ k, (k, dget before k)) <$> ks));
                ("after", JObj ((λ k, (k, dget after k)) <$> ks))]
  end.

(** ** Settling and pruning *)
Definition settle_event (ids : list string) (outcome : string) (error : option string)
    (e : AuditEvent) : AuditEvent :=
  match ae_task_id e with
  | Some t => if bool_decide (t ∈ ids) && String.eqb (ae_outcome e) "pending"
              then e <| ae_outcome := outcome |> <| ae_error := error |> else e
  | None => e
  end.
Definition settle_task_events (ids : list string) (outcome : string) (error : option string) : M unit :=
  match ids with
  | [] => mret tt
  | _ => exec (λ d, d <| audit_events ::= fmap (settle_event ids outcome error) |>)
  end.
Definition prune_events (retention_days : Z) : M nat :=
  if retention_days <=? 0 then mret O
  else
    now ← now_utc;
    let old e := instant (ae_occurred_at e) <? instant now - days retention_days in
    n ← query (λ d, length (List.filter old (audit_events d)));
    exec (λ d, d <| audit_events ::= List.filter (λ e, negb (old e)) |>);;
    mret n.

(** ** Listing *)
Record AuditFilter := mkAuditFilter {
  af_actor : option string; af_action : option string; af_target_type : option string;
  af_target_id : option string; af_host_id : option string; af_cluster_id : option string;
  af_outcome : option string; af_since : option datetime; af_until : option datetime;
  af_q : option string
}.
Definition no_filter : AuditFilter := mkAuditFilter None None None None None None None None None None.

(** SQL [LIKE]: [%] any run, [_] any character, a backslash escapes *)
Fixpoint like (p s : string) : bool :=
  match p with
  | "" => String.eqb s ""
  | String "%" p' =>
      (fix any (s : string) : bool :=
         like p' s || match s with "" => false | String _ s' => any s' end) s
  | String "_" p' => match s with String _ s' => like p' s' | "" => false end
  | String "\" (String c p') =>
      match s with String c' s' => Ascii.eqb c c' && like p' s' | "" => false end
  | String c p' => match s with String c' s' => Ascii.eqb c c' && like p' s' | "" => false end
  end.
(** [col.ilike(f"%{s}%")] *)
Definition ilike (s : string) (col : option string) : bool :=
  match col with Some c => like (lower ("%" +:+ s +:+ "%")) (lower c) | None => false end.
(** a string filter applies only when non-empty *)
Definition given (f : option string) (test : string → bool) : bool :=
  match f with Some s => if str_nonempty s then test s else true | None => true end.
Definition col_is (s : string) (col : option string) : bool := bool_decide (col = Some s).
Definition matches (f : AuditFilter) (e : AuditEvent) : bool :=
  given (af_actor f) (λ s, ilike s (ae_actor_email e) || ilike s (ae_actor_name e)) &&
  given (af_action f) (String.eqb (ae_action e)) &&
  given (af_target_type f) (String.eqb (ae_target_type e)) &&
  given (af_target_id f) (λ s, col_is s (ae_target_id e)) &&
  given (af_host_id f) (λ s, col_is s (ae_host_id e)) &&
  given (af_cluster_id f) (λ s, col_is s (ae_cluster_id e)) &&
  given (af_outcome f) (String.eqb (ae_outcome e)) &&
  match af_since f with Some t => instant t <=? instant (ae_occurred_at e) | None => true end &&
  match af_until f with Some t => instant (ae_occurred_at e) <? instant t | None => true end &&
  given (af_q f) (λ s, ilike s (ae_target_name e) || ilike s (ae_actor_email e)
                       || ilike s (ae_actor_name e)).

(** The order of [(occurred_at, id)]; ids (lower-case UUIDs) compare as text. *)
Definition key : Type := Z * string.
Definition event_key (e : AuditEvent) : key := (instant (ae_occurred_at e), ae_id e).
Definition key_lt (a b : key) : bool :=
  (a.1 <? b.1) || ((a.1 =? b.1) && match String.compare a.2 b.2 with Lt => true | _ => false end).
(** descending insertion: newest first *)
Fixpoint insert_desc (e : AuditEvent) (l : list AuditEvent) : list AuditEvent :=
  match l with
  | [] => [e]
  | x :: l' => if key_lt (event_key e) (event_key x) then x :: insert_desc e l' else e :: l
  end.
Fixpoint sort_desc (l : list AuditEvent) : list AuditEvent :=
  match l with [] => [] | e :: l' => insert_desc e (sort_desc l') end.

(** [list_events] with the decoded cursor; the next cursor is the key of the
    last row, when there is a further row. *)
Definition list_events_at (l : list AuditEvent) (f : AuditFilter) (limit : nat) (cursor : option key)
    : list AuditEvent * option key :=
  let sel e := matches f e && match cursor with Some c => key_lt (event_key e) c | None => true end in
  let found := take (S limit) (sort_desc (List.filter sel l)) in
  if (limit <? length found)%nat then
    let page := take limit found in (page, event_key <$> last page)
  else (found, None).

(** following the cursors from page to page *)
Fixpoint all_pages (fuel : nat) (l : list AuditEvent) (f : AuditFilter) (limit : nat)
    (cursor : option key) : list AuditEvent :=
  match fuel with
  | O => []
  | S n =>
      let '(page, next) := list_events_at l f limit cursor in
      match next with
      | Some c => page ++ all_pages n l f limit (Some c)
      | None => page
      end
  end%list.

#[export] Hint Extern 2 (keeps (same _) (record _ _ _ _ _ _)) => unfold record; keep : frame.
#[export] Hint Extern 2 (keeps (same _) (settle_task_events _ _ _)) => unfold settle_task_events; keep : frame.

(** ** Keys: a strict total order *)
Lemma ascii_compare_N a b : Ascii.compare a b = (N_of_ascii a ?= N_of_ascii b)%N.
Proof. done. Qed.
Lemma scompare_trans a b c :
  String.compare a b = Lt → String.compare b c = Lt → String.compare a c = Lt.
Proof.
  revert b c. induction a as [|x a IH]; intros [|y b] [|z c]; cbn [String.compare]; try done.
  rewrite !ascii_compare_N.
  destruct (N.compare_spec (N_of_ascii x) (N_of_ascii y)) as [E|E|E]; [rewrite E| |done].
  - destruct (N_of_ascii y ?= N_of_ascii z)%N; try done. apply IH.
  - intros _ H. assert (N_of_ascii x < N_of_ascii z)%N as Hxz.
    { destruct (N.compare_spec (N_of_ascii y) (N_of_ascii z)); [|lia|done]. lia. }
    apply N.compare_lt_iff in Hxz. by rewrite Hxz.
Qed.
Lemma scompare_refl a : String.compare a a = Eq.
Proof. induction a as [|x a IH]; cbn [String.compare]; [done|]. by rewrite ascii_compare_N, N.compare_refl. Qed.

Lemma key_lt_irrefl k : key_lt k k = false.
Proof. unfold key_lt. by rewrite Z.ltb_irrefl, scompare_refl, andb_false_r. Qed.
Lemma key_lt_trans a b c : key_lt a b = true → key_lt b c = true → key_lt a c = true.
Proof.
  unfold key_lt. rewrite !orb_true_iff, !andb_true_iff, !Z.ltb_lt, !Z.eqb_eq.
  intros [H1|[H1 H2]] [H3|[H3 H4]]; try (left; lia). right. split; [lia|].
  destruct (String.compare a.2 b.2) eqn:E; try done.
  destruct (String.compare b.2 c.2) eqn:E'; try done. by rewrite (scompare_trans _ _ _ E E').
Qed.
Lemma key_lt_total a b : a ≠ b → key_lt a b = false → key_lt b a = true.
Proof.
  destruct a as [t i], b as [t' i']. unfold key_lt. cbn.
  destruct (Z.ltb_spec t t'); [done|]. destruct (Z.eqb_spec t t') as [->|]; cbn.
  - rewrite Z.eqb_refl, Z.ltb_irrefl. cbn. intros Hne.
    rewrite (String.compare_antisym i' i). destruct (String.compare i i') eqn:E; try done.
    apply String.compare_eq_iff in E. congruence.
  - intros _ _. destruct (Z.ltb_spec t' t); [done|lia].
Qed.

(** ** Sorting *)
Definition newer (a b : AuditEvent) : Prop := key_lt (event_key b) (event_key a) = true.
Abbreviation desc := (StronglySorted newer).

Lemma insert_desc_elem e l x : x ∈ insert_desc e l ↔ x = e ∨ x ∈ l.
Proof.
  induction l as [|y l IH]; cbn.
  - rewrite list_elem_of_singleton. split; [auto|]. intros [->|H]; [done|by apply not_elem_of_nil in H].
  - destruct (key_lt _ _); rewrite ?elem_of_cons, ?IH; rewrite ?elem_of_cons; tauto.
Qed.
Lemma sort_desc_elem l x : x ∈ sort_desc l ↔ x ∈ l.
Proof. induction l as [|y l IH]; cbn; [done|]. by rewrite insert_desc_elem, elem_of_cons, IH. Qed.
Lemma insert_desc_sorted e l :
  desc l → event_key e ∉ (event_key <$> l) → desc (insert_desc e l).
Proof.
  induction 1 as [|y l Hl IH Hy]; cbn; [repeat constructor|].
  rewrite not_elem_of_cons. intros [Hne Hnin]. destruct (key_lt (event_key e) (event_key y)) eqn:E.
  - constructor; [auto|]. apply Forall_forall. intros x Hx.
    apply insert_desc_elem in Hx as [->|Hx]; [exact E|]. rewrite Forall_forall in Hy. auto.
  - apply key_lt_total in E; [|done]. constructor; [by constructor|].
    constructor; [exact E|]. eapply Forall_impl; [exact Hy|]. intros x Hx.
    exact (key_lt_trans _ _ _ Hx E).
Qed.
Lemma sort_desc_sorted l : NoDup (event_key <$> l) → desc (sort_desc l).
Proof.
  induction l as [|e l IH]; cbn; [constructor|]. intros [H1 H2]%NoDup_cons.
  apply insert_desc_sorted; [auto|]. intros Hin. apply H1.
  apply list_elem_of_fmap in Hin as (x & Hx & Hin). apply list_elem_of_fmap.
  exists x. split; [done|]. by apply sort_desc_elem.
Qed.

(** ** Selection commutes with the order *)
Lemma insert_desc_head e l :
  Forall (newer e) l → insert_desc e l = e :: l.
Proof.
  destruct l as [|x l]; cbn; [done|]. intros H. apply Forall_cons in H as [H _].
  destruct (key_lt (event_key e) (event_key x)) eqn:E; [|done].
  pose proof (key_lt_trans _ _ _ H E) as Hbad. by rewrite key_lt_irrefl in Hbad.
Qed.
Lemma filter_insert_desc p e l :
  desc l → event_key e ∉ (event_key <$> l) →
  List.filter p (insert_desc e l) =
    if p e then insert_desc e (List.filter p l) else List.filter p l.
Proof.
  induction 1 as [|y l Hl IH Hy]; cbn; [done|]. rewrite not_elem_of_cons. intros [Hne Hnin].
  destruct (key_lt (event_key e) (event_key y)) eqn:E; cbn.
  - rewrite IH by done. destruct (p e) eqn:He, (p y) eqn:Hpy; cbn; rewrite ?E; done.
  - destruct (p e) eqn:He; [|done]. symmetry. rewrite <- (insert_desc_head e).
    + destruct (p y); done.
    + apply key_lt_total in E; [|done].
      assert (Forall (newer e) (y :: l)) as H.
      { constructor; [exact E|]. eapply Forall_impl; [exact Hy|]. intros x Hx.
        exact (key_lt_trans _ _ _ Hx E). }
      rewrite Forall_forall in *. intros x Hx. apply H.
      destruct (p y); [apply elem_of_cons in Hx as [->|Hx]|];
        rewrite elem_of_cons; [by left|right..]; by apply list_elem_of_In, filter_In in Hx as [?%list_elem_of_In _].
Qed.
Lemma elem_of_lfilter {A} (p : A → bool) l x : x ∈ List.filter p l ↔ x ∈ l ∧ p x = true.
Proof. by rewrite !list_elem_of_In, filter_In. Qed.
Lemma sort_desc_filter p l :
  NoDup (event_key <$> l) → sort_desc (List.filter p l) = List.filter p (sort_desc l).
Proof.
  induction l as [|e l IH]; cbn; [done|]. intros [H1 H2]%NoDup_cons.
  rewrite filter_insert_desc, <- IH; [by destruct (p e)|done|by apply sort_desc_sorted|].
  intros Hin. apply H1. apply list_elem_of_fmap in Hin as (x & Hx & Hin).
  apply list_elem_of_fmap. exists x. split; [done|]. by apply sort_desc_elem.
Qed.
(** the rows after the one a cursor names *)
Lemma filter_after pre x post :
  desc (pre ++ x :: post) →
  List.filter (λ e, key_lt (event_key e) (event_key x)) (pre ++ x :: post) = post.
Proof.
  induction pre as [|y pre IH]; cbn; intros H; inversion_clear H as [|? ? Hs Hf].
  - rewrite key_lt_irrefl. clear Hs. induction Hf as [|z l Hz Hf IH]; cbn; [done|].
    unfold newer in Hz. by rewrite Hz, IH.
  - rewrite Forall_app, Forall_cons in Hf. destruct Hf as (_ & Hx & _).
    destruct (key_lt (event_key y) (event_key x)) eqn:E; [|auto].
    pose proof (key_lt_trans _ _ _ Hx E) as Hbad. by rewrite key_lt_irrefl in Hbad.
Qed.

Section pages.
Context (l : list AuditEvent) (f : AuditFilter) (limit : nat).
Context (uniq : NoDup (event_key <$> l)) (pos : (0 < limit)%nat).
Let s : list AuditEvent := sort_desc (List.filter (matches f) l).
Let after (cursor : option key) (e : AuditEvent) : bool :=
  match cursor with Some c => key_lt (event_key e) c | None => true end.

Lemma keys_of_filter p : NoDup (event_key <$> List.filter p l).
Proof using uniq.
  clear -uniq. induction l as [|e l' IH]; cbn in *; [constructor|]. apply NoDup_cons in uniq as [H1 H2].
  destruct (p e); cbn; [|auto]. constructor; [|auto]. intros Hin. apply H1.
  apply list_elem_of_fmap in Hin as (x & Hx & Hin). apply list_elem_of_fmap.
  exists x. split; [done|]. by apply elem_of_lfilter in Hin as [? _].
Qed.
Lemma page_at cursor :
  list_events_at l f limit cursor =
    let rest := List.filter (after cursor) s in
    if (limit <? length rest)%nat
    then (take limit rest, event_key <$> last (take limit rest)) else (rest, None).
Proof using uniq pos.
  unfold list_events_at. cbv zeta.
  change (sort_desc (List.filter _ l))
    with (sort_desc (List.filter (λ e, matches f e && after cursor e) l)).
  assert (sort_desc (List.filter (λ e, matches f e && after cursor e) l)
          = List.filter (after cursor) s) as ->.
  { unfold s. rewrite <- sort_desc_filter by apply keys_of_filter. f_equal.
    clear. induction l as [|e l' IH]; cbn; [done|].
    destruct (matches f e); cbn; [|done]. by destruct (after cursor e); rewrite IH. }
  rewrite length_take, take_take, (Nat.min_l limit) by lia.
  destruct (Nat.ltb_spec limit (Nat.min (S limit) (length (List.filter (after cursor) s))));
  destruct (Nat.ltb_spec limit (length (List.filter (after cursor) s))); try lia; [done|].
  by rewrite take_ge by lia.
Qed.
Lemma all_pages_suffix fuel cursor pre rest :
  s = (pre ++ rest)%list → List.filter (after cursor) s = rest → (length rest < fuel)%nat →
  all_pages fuel l f limit cursor = rest.
Proof using uniq pos.
  revert cursor pre rest. induction fuel as [|n IH]; intros cursor pre rest Hs Hrest Hn; [lia|].
  cbn [all_pages]. rewrite page_at, Hrest. cbv zeta.
  destruct (Nat.ltb_spec limit (length rest)) as [Hlt|]; [|done].
  destruct (last (take limit rest)) as [x|] eqn:Hx; cbn [fmap option_fmap option_map].
  2:{ apply last_None in Hx. apply (f_equal length) in Hx. rewrite length_take in Hx. cbn in Hx. lia. }
  apply last_Some in Hx as [q Hq]. trans (take limit rest ++ drop limit rest)%list; [f_equal|apply take_drop].
  assert (s = ((pre ++ q) ++ x :: drop limit rest))%list as Hs'.
  { rewrite Hs, <- app_assoc. f_equal. rewrite <- (take_drop limit rest) at 1.
    by rewrite Hq, <- app_assoc. }
  apply (IH _ (pre ++ q ++ [x])%list).
  - by rewrite Hs', <- !app_assoc.
  - rewrite Hs'. cbn [after]. apply filter_after. rewrite <- Hs'.
    apply sort_desc_sorted, keys_of_filter.
  - rewrite length_drop. lia.
Qed.
End pages.

(** Paging through the audit log loses and repeats nothing.  When the
    [(occurred_at, id)] keys are distinct (ids are primary keys), following the
    cursors from the first page to the last yields the events that match the
    filter, each exactly once, strictly newest first, in pages of at most
    [limit] rows; one page per row is fuel enough. *)
Lemma all_pages_complete l f limit :
  NoDup (event_key <$> l) → (0 < limit)%nat →
  let seen := all_pages (S (length l)) l f limit None in
  (∀ e, e ∈ seen ↔ e ∈ l ∧ matches f e = true) ∧ desc seen ∧ NoDup (event_key <$> seen) ∧
  ∀ cursor, (length (list_events_at l f limit cursor).1 ≤ limit)%nat.
Proof.
  intros Huniq Hpos. cbv zeta.
  rewrite (all_pages_suffix l f limit Huniq Hpos _ None [] (sort_desc (List.filter (matches f) l))).
  - split; [intros e; by rewrite sort_desc_elem, elem_of_lfilter|].
    pose proof (sort_desc_sorted _ (keys_of_filter l Huniq (matches f))) as Hs.
    split; [done|]. split.
    + clear -Hs. induction Hs as [|e s Hs IH Hf]; cbn; constructor; [|done].
      rewrite list_elem_of_fmap. intros (x & Hx & Hin). rewrite Forall_forall in Hf.
      specialize (Hf _ Hin). unfold newer in Hf. by rewrite Hx, key_lt_irrefl in Hf.
    + intros cursor. rewrite page_at by done. cbv zeta.
      match goal with |- context [(limit <? length ?x)%nat] => destruct (Nat.ltb_spec limit (length x)) end;
        cbn [fst]; [rewrite length_take|]; lia.
  - done.
  - clear. induction (sort_desc _) as [|e s IH]; cbn; [done|]. by rewrite IH.
  - rewrite sort_desc_filter by done.
    apply (Nat.le_lt_trans _ (length (sort_desc l))); [apply filter_length_le|].
    clear. induction l as [|e l IH]; cbn; [lia|].
    assert (∀ s, length (insert_desc e s) = S (length s)) as ->; [|lia].
    intros s. induction s as [|y s IHs]; cbn; [done|]. destruct (key_lt _ _); cbn; lia.
Qed.
Definition sample_event (id : string) (t : Z) (task : option string) : AuditEvent :=
  mkAuditEvent id (utc t) "user" (Some "op@x") (Some "Op") "vm.start" "vm" (Some "v1") (Some "web")
    (Some "h1") None task (if task then "pending" else "succeeded") None None.

Lemma dict_find_map (g : string → json) ks k :
  dict_find ((λ k, (k, g k)) <$> ks) k = if bool_decide (k ∈ ks) then Some (g k) else None.
Proof.
  induction ks as [|x ks IH]; cbn; [done|]. destruct (String.eqb_spec k x) as [->|Hne].
  - rewrite bool_decide_eq_true_2; [done|]. apply list_elem_of_here.
  - rewrite IH. destruct (decide (k ∈ ks)).
    + rewrite !bool_decide_eq_true_2; [done|by right|done].
    + rewrite !bool_decide_eq_false_2; [done| |done]. rewrite elem_of_cons. tauto.
Qed.
Lemma elem_changed_keys b a k :
  k ∈ changed_keys b a ↔ k ∈ a.*1 ∧ same_value (dget b k) (dget a k) = false.
Proof. unfold changed_keys. rewrite elem_of_lfilter. by rewrite negb_true_iff. Qed.

(** The audited diff.  [changes] answers nothing exactly when every audited
    field kept its value; otherwise its [before] and [after] dicts hold exactly
    the fields whose value changed, with the old and the new value. *)
Theorem changes_exact b a :
  match changes b a with
  | None => ∀ k, k ∈ a.*1 → same_value (dget b k) (dget a k) = true
  | Some d =>
      ∃ old new, d = [("before", JObj old); ("after", JObj new)] ∧ new ≠ [] ∧
      ∀ k, let changed := bool_decide (k ∈ a.*1) && negb (same_value (dget b k) (dget a k)) in
        dict_find old k = (if changed then Some (dget b k) else None) ∧
        dict_find new k = (if changed then Some (dget a k) else None)
  end.
Proof.
  unfold changes. destruct (changed_keys b a) as [|k0 ks] eqn:E.
  - intros k Hk. destruct (same_value _ _) eqn:Hs; [done|].
    assert (k ∈ changed_keys b a) as Hin by (by apply elem_changed_keys).
    rewrite E in Hin. by apply not_elem_of_nil in Hin.
  - eexists _, _. split; [done|]. split; [done|]. intros k. cbv zeta.
    rewrite <- E, !dict_find_map.
    assert (bool_decide (k ∈ changed_keys b a)
            = bool_decide (k ∈ a.*1) && negb (same_value (dget b k) (dget a k))) as ->; [|done].
    apply eq_iff_eq_true. rewrite andb_true_iff, !bool_decide_eq_true, negb_true_iff.
    apply elem_changed_keys.
Qed.

Lemma settle_event_done ids o err ids' o' err' e :
  o ≠ "pending" → (∀ t, t ∈ ids' → t ∈ ids) →
  settle_event ids' o' err' (settle_event ids o err e) = settle_event ids o err e.
Proof.
  intros Ho Hsub. unfold settle_event. destruct (ae_task_id e) as [t|] eqn:Et; [|by rewrite Et].
  destruct (bool_decide (t ∈ ids)) eqn:Ei; cbn.
  - destruct (String.eqb_spec (ae_outcome e) "pending") as [Hp|Hp]; cbn; rewrite ?Et.
    + apply String.eqb_neq in Ho. by rewrite Ho, andb_false_r.
    + apply String.eqb_neq in Hp. by rewrite Hp, andb_false_r.
  - rewrite Et. apply bool_decide_eq_false in Ei.
    rewrite bool_decide_eq_false_2 by auto. done.
Qed.

(** The terminal status of a task is stamped once.  Settling touches
    nothing but the pending events of the given tasks, and an outcome other
    than [pending] sticks: settling the same tasks again - a late response
    after the sweeper's timeout - changes no event. *)
Theorem settle_sticks ids o err o' err' w :
  o ≠ "pending" →
  ∃ w1, settle_task_events ids o err w = (Ok tt, w1) ∧
    length (audit_events (w_db w1)) = length (audit_events (w_db w)) ∧
    (∀ i e, audit_events (w_db w) !! i = Some e →
       audit_events (w_db w1) !! i = Some
         (if (if ae_task_id e is Some t then bool_decide (t ∈ ids) else false) && String.eqb (ae_outcome e) "pending"
          then e <| ae_outcome := o |> <| ae_error := err |> else e)) ∧
    settle_task_events ids o' err' w1 = (Ok tt, w1) ∧
    w1 = w <| w_db := w_db w <| audit_events := audit_events (w_db w1) |> |>.
Proof.
  intros Ho.
  assert (∀ e, settle_event ids o err e =
    if (if ae_task_id e is Some t then bool_decide (t ∈ ids) else false) && String.eqb (ae_outcome e) "pending"
    then e <| ae_outcome := o |> <| ae_error := err |> else e) as Hev.
  { intros e. unfold settle_event. by destruct (ae_task_id e). }
  set (l := settle_event ids o err <$> audit_events (w_db w)).
  set (w1 := w <| w_db := w_db w <| audit_events := l |> |>).
  assert (settle_task_events ids o err w = (Ok tt, w1)) as ->.
  { destruct ids; [|done]. cbn. unfold w1, l.
    assert (settle_event [] o err <$> audit_events (w_db w) = audit_events (w_db w)) as ->;
      [|by destruct w as [?????? []]].
    rewrite <- list_fmap_id. apply list_fmap_ext. intros i e _. unfold settle_event.
    destruct (ae_task_id e); [|done]. by rewrite bool_decide_eq_false_2 by set_solver. }
  exists w1. split; [done|]. split; [apply length_fmap|]. split.
  { intros i e Hi. cbn. unfold l. by rewrite list_lookup_fmap, Hi, <- Hev. }
  split; [|done]. destruct ids as [|t ids]; [done|]. unfold settle_task_events, exec, modify. f_equal.
  assert (settle_event (t :: ids) o' err' <$> l = l) as Hl.
  { unfold l. rewrite <- list_fmap_compose. apply list_fmap_ext. intros i e _.
    by apply settle_event_done. }
  unfold w1. cbn. by rewrite Hl.
Qed.
Lemma settle_sticks_witness :
  let w := sample_world <| w_db := empty_db
             <| audit_events := [sample_event "a" 1 (Some "t1"); sample_event "b" 2 (Some "t2")] |> |> in
  ∃ w1, settle_task_events ["t1"] "timeout" None w = (Ok tt, w1) ∧
    settle_task_events ["t1"] "succeeded" None w1 = (Ok tt, w1) ∧
    ae_outcome <$> audit_events (w_db w1) = ["timeout"; "pending"].
Proof.
  cbv zeta. set (w := _ <| w_db := _ |>).
  destruct (settle_sticks ["t1"] "timeout" None "succeeded" None w) as (w1 & H & _ & _ & H' & _);
    [discriminate|].
  exists w1. split; [exact H|]. split; [exact H'|]. vm_compute in H. by injection H as <-.
Defined.
