(* ===== verification/Rbac.v ===== *)
(** * Visibility ([app/services/rbac.py])

    [resolve_scope] turns a principal's roles and grants into a [VisibleScope];
    [vm_visible] tests a VM in memory and [vm_visible_clause] is its SQL twin,
    evaluated in SQL's three-valued logic. *)
From S2P Require Import Prelude Py Clock Model World.
From Stdlib Require Import Ascii.
Open Scope string_scope.
Open Scope Z_scope.

Record VisibleScope := mkScope {
  sc_all : bool; sc_cluster_ids : gset string; sc_host_ids : gset string; sc_folder_ids : gset string
}.
#[export] Instance eta_scope : Eta VisibleScope :=
  Build_Eta _ (λ s, mkScope (sc_all s) (sc_cluster_ids s) (sc_host_ids s) (sc_folder_ids s)).
Definition empty_scope : VisibleScope := mkScope false ∅ ∅ ∅.

(** membership of a nullable id *)
Definition id_in (o : option string) (s : gset string) : bool :=
  match o with Some x => bool_decide (x ∈ s) | None => false end.
Definition sees_cluster (s : VisibleScope) (c : option string) : bool :=
  sc_all s || id_in c (sc_cluster_ids s).
Definition sees_host (s : VisibleScope) (h : string) : bool :=
  sc_all s || bool_decide (h ∈ sc_host_ids s).
Definition sees_folder (s : VisibleScope) (f : option string) : bool :=
  sc_all s || id_in f (sc_folder_ids s).
Definition vm_visible (s : VisibleScope) (v : Vm) : bool :=
  sc_all s || sees_host s (v_host_id v) || sees_folder s (v_folder_id v).

(** ** SQL conditions: [None] is [NULL], a row is kept on [Some true] *)
Definition sql_or (a b : option bool) : option bool :=
  match a, b with
  | Some true, _ | _, Some true => Some true
  | Some false, Some false => Some false
  | _, _ => None
  end.
(** [col IN (...)]; the empty list is SQLAlchemy's always-empty subquery *)
Definition sql_in (col : option string) (s : gset string) : option bool :=
  if bool_decide (s = ∅) then Some false
  else match col with Some x => Some (bool_decide (x ∈ s)) | None => None end.
Definition sql_true (c : option bool) : bool := match c with Some true => true | _ => false end.
Definition vm_visible_clause (s : VisibleScope) (v : Vm) : option bool :=
  if sc_all s then Some true
  else if bool_decide (sc_host_ids s = ∅) && bool_decide (sc_folder_ids s = ∅) then Some false
  else sql_or (sql_in (Some (v_host_id v)) (sc_host_ids s)) (sql_in (v_folder_id v) (sc_folder_ids s)).

(** ** Resolution *)

(** [user.roles.split(",") if user.roles else []] *)
Definition user_roles (u : User) : list string :=
  match u_roles u with
  | Some r => if str_nonempty r then split_char "," r else []
  | None => []
  end.
Record grant_sets := mkSets { gs_c : gset string; gs_h : gset string; gs_f : gset string }.
(** the loop over the grants: [None] when it meets a global one and returns *)
Fixpoint collect_grants (gs : list ScopeGrant) (acc : grant_sets) : option grant_sets :=
  match gs with
  | [] => Some acc
  | g :: gs' =>
      if String.eqb (g_level g) "global" then None
      else collect_grants gs'
        match g_scope_id g with
        | Some id =>
            if negb (str_nonempty id) then acc
            else if String.eqb (g_level g) "cluster" then mkSets ({[id]} ∪ gs_c acc) (gs_h acc) (gs_f acc)
            else if String.eqb (g_level g) "host" then mkSets (gs_c acc) ({[id]} ∪ gs_h acc) (gs_f acc)
            else if String.eqb (g_level g) "folder" then mkSets (gs_c acc) (gs_h acc) ({[id]} ∪ gs_f acc)
            else acc
        | None => acc
        end
  end.
Definition resolve_scope (u : User) : M VisibleScope :=
  cfg ← get_settings;
  if bool_decide (admin_role cfg ∈ user_roles u) then mret (empty_scope <| sc_all := true |>)
  else
    gs ← query (λ d, rows (λ g, String.eqb (g_user_id g) (u_id u)) (grants d));
    match collect_grants gs (mkSets ∅ ∅ ∅) with
    | None => mret (empty_scope <| sc_all := true |>)
    | Some s =>
        in_clusters ← query (λ d, h_id <$> rows (λ h, id_in (h_cluster_id h) (gs_c s)) (hosts d));
        let host_ids := gs_h s ∪ (if bool_decide (gs_c s = ∅) then ∅ else list_to_set in_clusters) in
        on_hosts ← query (λ d, f_id <$> rows (λ f, id_in (f_host_id f) host_ids) (folders d));
        let folder_ids := gs_f s ∪ (if bool_decide (host_ids = ∅) then ∅ else list_to_set on_hosts) in
        mret (mkScope false (gs_c s) host_ids folder_ids)
    end.

(** ** The SQL twin *)

(** Filtering VMs in SQL and in Python agree.  For every scope and VM the
    WHERE clause is true exactly when [vm_visible] is, [NULL] folders and empty
    id sets included. *)
Theorem vm_visible_clause_twin s v : sql_true (vm_visible_clause s v) = vm_visible s v.
Proof.
  unfold vm_visible_clause, vm_visible, sees_host, sees_folder, sql_in, id_in.
  destruct (sc_all s); [done|]. cbn.
  destruct (decide (sc_host_ids s = ∅)) as [Eh|Eh], (decide (sc_folder_ids s = ∅)) as [Ef|Ef];
    rewrite ?(bool_decide_eq_true_2 _ Eh), ?(bool_decide_eq_true_2 _ Ef),
      ?(bool_decide_eq_false_2 _ Eh), ?(bool_decide_eq_false_2 _ Ef); cbn;
    rewrite ?Eh, ?Ef; rewrite ?(bool_decide_eq_false_2 (_ ∈ ∅)) by set_solver; cbn;
    destruct (v_folder_id v) as [f|]; cbn;
    rewrite ?(bool_decide_eq_false_2 (_ ∈ ∅)) by set_solver; cbn; try done;
    repeat case_bool_decide; done.
Qed.

(** ** What a principal sees *)

(** the user has a grant of this level on this id *)
Definition granted (d : database) (uid level id : string) : Prop :=
  id ≠ "" ∧ ∃ k g, grants d !! k = Some g ∧ g_user_id g = uid ∧ g_level g = level ∧ g_scope_id g = Some id.
Definition global_grant (d : database) (uid : string) : Prop :=
  ∃ k g, grants d !! k = Some g ∧ g_user_id g = uid ∧ g_level g = "global".
Definition sees_all (w : world) (u : User) : Prop :=
  admin_role (w_cfg w) ∈ user_roles u ∨ global_grant (w_db w) (u_id u).
(** the declarative reading of the grants: down from clusters to hosts to folders *)
Definition host_granted (d : database) (uid h : string) : Prop :=
  granted d uid "host" h ∨
  ∃ k r c, hosts d !! k = Some r ∧ h_id r = h ∧ h_cluster_id r = Some c ∧ granted d uid "cluster" c.
Definition folder_granted (d : database) (uid f : string) : Prop :=
  granted d uid "folder" f ∨
  ∃ k r h, folders d !! k = Some r ∧ f_id r = f ∧ f_host_id r = Some h ∧ host_granted d uid h.

Lemma str_nonempty_ne s : str_nonempty s = true ↔ s ≠ "".
Proof. by destruct s. Qed.

Lemma collect_grants_None gs acc :
  collect_grants gs acc = None ↔ ∃ g, g ∈ gs ∧ g_level g = "global".
Proof.
  revert acc. induction gs as [|g gs IH]; intros acc; cbn.
  - split; [done|]. intros (g & H & _). by apply not_elem_of_nil in H.
  - destruct (String.eqb_spec (g_level g) "global") as [E|E].
    + split; [|done]. intros _. exists g. split; [by left|done].
    + rewrite IH. split; intros (g' & H & Hl).
      * exists g'. split; [by right|done].
      * apply elem_of_cons in H as [->|H]; [done|]. eauto.
Qed.
(** some grant of the list has this level and this (usable) id *)
Definition has_grant (gs : list ScopeGrant) (level id : string) : Prop :=
  id ≠ "" ∧ ∃ g, g ∈ gs ∧ g_level g = level ∧ g_scope_id g = Some id.
Lemma has_grant_nil level id : ¬ has_grant [] level id.
Proof. intros (_ & g & Hg & _). by apply not_elem_of_nil in Hg. Qed.
Lemma has_grant_cons g gs level id :
  has_grant (g :: gs) level id ↔
  (id ≠ "" ∧ g_level g = level ∧ g_scope_id g = Some id) ∨ has_grant gs level id.
Proof.
  unfold has_grant. split.
  - intros (Hn & g' & [->|Hg]%elem_of_cons & Hl & Hs); [by left|right; eauto].
  - intros [(Hn & Hl & Hs)|(Hn & g' & Hg & Hl & Hs)]; (split; [done|]).
    + exists g. split; [by left|done].
    + exists g'. split; [by right|done].
Qed.
Lemma collect_grants_Some gs acc s :
  collect_grants gs acc = Some s →
  (∀ x, x ∈ gs_c s ↔ x ∈ gs_c acc ∨ has_grant gs "cluster" x) ∧
  (∀ x, x ∈ gs_h s ↔ x ∈ gs_h acc ∨ has_grant gs "host" x) ∧
  (∀ x, x ∈ gs_f s ↔ x ∈ gs_f acc ∨ has_grant gs "folder" x).
Proof.
  revert acc. induction gs as [|g gs IH]; intros acc; cbn.
  - intros [= ->]. split_and!; intros x; pose proof (has_grant_nil "cluster" x);
      pose proof (has_grant_nil "host" x); pose proof (has_grant_nil "folder" x); tauto.
  - destruct (String.eqb_spec (g_level g) "global") as [E|E]; [done|].
    intros Hc. specialize (IH _ Hc). clear Hc. destruct IH as (I1 & I2 & I3).
    split_and!; intros x; rewrite ?I1, ?I2, ?I3, has_grant_cons; clear I1 I2 I3;
      (destruct (g_scope_id g) as [id|];
       [|cbn; split; [intros [?|?]; auto|intros [?|[(_ & _ & [=])|?]]; auto]]);
      (destruct (str_nonempty id) eqn:En; cbn;
       [apply str_nonempty_ne in En
       |destruct id; [|done]; split; [intros [?|?]; auto|intros [?|[(? & _ & [= <-])|?]]; auto; done]]);
      destruct (String.eqb_spec (g_level g) "cluster") as [El|El]; try rewrite El;
      try destruct (String.eqb_spec (g_level g) "host") as [El'|El']; try rewrite El';
      try destruct (String.eqb_spec (g_level g) "folder") as [El''|El'']; try rewrite El'';
      cbn; rewrite ?elem_of_union, ?elem_of_singleton;
      (split; [intros [[->|?]|?] || intros [?|?]; auto|intros [?|[(? & ? & [= ->])|?]]; auto; congruence]).
Qed.

Lemma id_in_true o s : id_in o s = true ↔ ∃ x, o = Some x ∧ x ∈ s.
Proof. destruct o; cbn; [rewrite bool_decide_eq_true|]; naive_solver. Qed.

Lemma elem_of_guarded_set {A} (p : A → bool) (f : A → string) m (s : gset string) x :
  (s = ∅ → ∀ y, p y = false) →
  x ∈ (if bool_decide (s = ∅) then ∅ else list_to_set (f <$> rows p m) : gset string) ↔
  ∃ k y, m !! k = Some y ∧ f y = x ∧ p y = true.
Proof.
  intros He. case_bool_decide as E.
  - specialize (He E). split; [set_solver|]. intros (k & y & _ & _ & Hy). by rewrite He in Hy.
  - rewrite elem_of_list_to_set, list_elem_of_fmap. setoid_rewrite elem_of_rows. naive_solver.
Qed.

(** the outcome of [resolve_scope], set by set *)
Lemma resolve_scope_run u w :
  ∃ s, resolve_scope u w = (Ok s, w) ∧
    (sc_all s = true ∧ sees_all w u ∨
     sc_all s = false ∧ ¬ sees_all w u ∧
     (∀ c, c ∈ sc_cluster_ids s ↔ granted (w_db w) (u_id u) "cluster" c) ∧
     (∀ h, h ∈ sc_host_ids s ↔ host_granted (w_db w) (u_id u) h) ∧
     (∀ f, f ∈ sc_folder_ids s ↔ folder_granted (w_db w) (u_id u) f)).
Proof.
  unfold resolve_scope, get_settings, query, gets, mbind, M_bind, mret, M_ret. cbn.
  case_bool_decide as Ha.
  { eexists. split; [done|]. left. split; [done|by left]. }
  set (gs := rows _ (grants (w_db w))).
  assert (∀ level id, has_grant gs level id ↔
            granted (w_db w) (u_id u) level id) as Hg.
  { intros level id. unfold granted, has_grant, gs. setoid_rewrite elem_of_rows.
    setoid_rewrite String.eqb_eq. naive_solver. }
  destruct (collect_grants gs (mkSets ∅ ∅ ∅)) as [s|] eqn:Ec.
  2:{ eexists. split; [done|]. left. split; [done|right].
      apply collect_grants_None in Ec as (g & Hin & Hl). unfold gs in Hin.
      apply elem_of_rows in Hin as (k & Hk & Hu%String.eqb_eq). by exists k, g. }
  eexists. split; [done|]. right. split; [done|].
  pose proof (collect_grants_Some _ _ _ Ec) as (H1 & H2 & H3). cbn in *.
  split.
  { intros [Hr|(k & g & Hk & Hu & Hl)]; [done|].
    assert (collect_grants gs (mkSets ∅ ∅ ∅) = None) as Hn; [|by rewrite Hn in Ec].
    apply collect_grants_None. exists g. split; [|done]. apply elem_of_rows.
    exists k. split; [done|by apply String.eqb_eq]. }
  assert (∀ c, c ∈ gs_c s ↔ granted (w_db w) (u_id u) "cluster" c) as Hc.
  { intros c. rewrite H1, Hg, elem_of_empty. tauto. }
  assert (∀ h, h ∈ gs_h s ∪ (if bool_decide (gs_c s = ∅) then ∅ else
      list_to_set (h_id <$> rows (λ h, id_in (h_cluster_id h) (gs_c s)) (hosts (w_db w))))
      ↔ host_granted (w_db w) (u_id u) h) as Hh.
  { intros h. rewrite elem_of_union, elem_of_guarded_set.
    - rewrite H2, Hg, elem_of_empty. unfold host_granted. setoid_rewrite id_in_true.
      setoid_rewrite <- Hc. clear. naive_solver.
    - intros -> y. destruct (h_cluster_id y); cbn; [|done]. apply bool_decide_eq_false_2. set_solver. }
  split; [exact Hc|]. split; [exact Hh|].
  intros f. rewrite elem_of_union, elem_of_guarded_set.
  - rewrite H3, Hg, elem_of_empty. unfold folder_granted. setoid_rewrite id_in_true.
    setoid_rewrite <- Hh. clear. naive_solver.
  - intros -> y. destruct (f_host_id y); cbn; [|done]. apply bool_decide_eq_false_2. set_solver.
Qed.

(** C7: a principal sees exactly what the grants say.  [resolve_scope] always
    answers and changes nothing; administrators and global grants see
    everything; otherwise a VM is visible exactly when its host is granted
    (directly or through a granted cluster) or its folder is (directly or
    through a visible host), and hosts, folders and clusters likewise. *)
Theorem resolve_scope_sound_complete u w :
  let d := w_db w in let uid := u_id u in
  ∃ s, resolve_scope u w = (Ok s, w) ∧
    (∀ v, vm_visible s v = true ↔
       sees_all w u ∨ host_granted d uid (v_host_id v) ∨
       ∃ f, v_folder_id v = Some f ∧ folder_granted d uid f) ∧
    (∀ h, sees_host s h = true ↔ sees_all w u ∨ host_granted d uid h) ∧
    (∀ f, sees_folder s (Some f) = true ↔ sees_all w u ∨ folder_granted d uid f) ∧
    (∀ c, sees_cluster s (Some c) = true ↔ sees_all w u ∨ granted d uid "cluster" c).
Proof.
  cbv zeta. destruct (resolve_scope_run u w) as (s & Hr & Hs). exists s. split; [exact Hr|].
  unfold vm_visible, sees_host, sees_folder, sees_cluster.
  destruct Hs as [[Ha Hall]|(Ha & Hn & Hc & Hh & Hf)]; rewrite Ha; cbn [orb].
  - naive_solver.
  - split_and!; intros x; rewrite ?orb_true_iff, ?id_in_true, ?bool_decide_eq_true.
    + rewrite Hh. setoid_rewrite Hf. naive_solver.
    + rewrite Hh. naive_solver.
    + setoid_rewrite Hf. naive_solver.
    + setoid_rewrite Hc. naive_solver.
Qed.
