(* ===== verification/AuditCursor.v ===== *)
(** * The text of an audit cursor, and the listing that uses it
    ([services/audit.py], [routes/audit.py])

    A page of the audit log names the next one by an opaque string: the
    [isoformat] of the last row's time and its id, in unpadded URL-safe base64.
    This file has both directions - the decoder with everything it tolerates -
    and the endpoint, and shows that a client who only ever sends back the
    strings it was given reads the whole log.  A payload that decodes to bytes
    outside ASCII is refused here; Python would first look for digits of other
    scripts in it. *)
From S2P Require Import Prelude Py Clock Isoformat Model World AuditLog Rbac.
From Stdlib Require Import Ascii.
From stdpp Require Import sorting.
Open Scope string_scope.
Open Scope Z_scope.

(** ** [base64.urlsafe_b64encode] *)
Definition b64_char (n : N) : ascii :=
  (if n <? 26 then ascii_of_N (n + 65)
   else if n <? 52 then ascii_of_N (n + 71)
   else if n <? 62 then ascii_of_N (n - 4)
   else if n =? 62 then "-"%char else "_"%char)%N.
Fixpoint urlsafe_b64encode (s : string) : string :=
  match s with
  | "" => ""
  | String a "" =>
      let a := N_of_ascii a in
      String (b64_char (a / 4)) (String (b64_char (a mod 4 * 16)) "==")
  | String a (String b "") =>
      let a := N_of_ascii a in let b := N_of_ascii b in
      String (b64_char (a / 4)) (String (b64_char (a mod 4 * 16 + b / 16)) (String (b64_char (b mod 16 * 4)) "="))
  | String a (String b (String c r)) =>
      let a := N_of_ascii a in let b := N_of_ascii b in let c := N_of_ascii c in
      String (b64_char (a / 4)) (String (b64_char (a mod 4 * 16 + b / 16))
        (String (b64_char (b mod 16 * 4 + c / 64)) (String (b64_char (c mod 64)) (urlsafe_b64encode r))))
  end%N.

(** ** [base64.urlsafe_b64decode]

    The lenient decoder: characters outside the alphabet are skipped, a
    complete padding ends the input, [quad] counts the characters of the
    current group and [left] holds their pending bits. *)
Definition urlsafe_val (c : ascii) : option N :=
  if Ascii.eqb c "-" then Some 62%N else if Ascii.eqb c "_" then Some 63%N else b64_val c.
Fixpoint a2b (s : string) (quad : nat) (left : N) (pads : nat) : option string :=
  match s with
  | "" => if (quad =? 0)%nat then Some "" else None
  | String c s' =>
      if Ascii.eqb c "=" then
        if (2 <=? quad)%nat then (if (4 <=? quad + S pads)%nat then Some "" else a2b s' quad left (S pads))
        else a2b s' quad left pads
      else
        match urlsafe_val c with
        | None => a2b s' quad left pads
        | Some v =>
            match quad with
            | O => a2b s' 1 v 0
            | 1%nat => String (ascii_of_N (left * 4 + v / 16)) <$> a2b s' 2 (v mod 16) 0
            | 2%nat => String (ascii_of_N (left * 16 + v / 4)) <$> a2b s' 3 (v mod 4) 0
            | _ => String (ascii_of_N (left * 64 + v)) <$> a2b s' 0 0 0
            end
        end
  end%N.
Definition is_ascii7 (s : string) : bool := s_forallb (λ c, (N_of_ascii c <? 128)%N) s.
(** [None] where it raises: [binascii.Error], or [ValueError] on a character
    outside ASCII *)
Definition urlsafe_b64decode (s : string) : option string :=
  if is_ascii7 s then a2b s 0 0 0 else None.

Example b64_cursor : (urlsafe_b64encode <$> ["Ma"; "M"; "Man?"; "~~~"],
                      urlsafe_b64decode <$> ["TWE="; "T!Q=="; "T=WE="; "TWE"; "fn5-"; "TQ==zz"])
  = (["TWE="; "TQ=="; "TWFuPw=="; "fn5-"], [Some "Ma"; Some "M"; Some "Ma"; None; Some "~~~"; Some "M"]).
Proof. vm_compute. reflexivity. Qed.

(** ** [str(UUID(s))] *)

(** [s.replace(p, "")] for a non-empty [p] *)
Fixpoint remove_sub (p s : string) (skip : nat) : string :=
  match s with
  | "" => ""
  | String c s' =>
      match skip with
      | S k => remove_sub p s' k
      | O => if startswith p s then remove_sub p s' (String.length p - 1) else String c (remove_sub p s' 0)
      end
  end.
Definition brace (c : ascii) : bool := Ascii.eqb c "{" || Ascii.eqb c "}".
Definition hex_val (c : ascii) : option Z :=
  let n := Z.of_N (N_of_ascii c) in
  if is_digit c then Some (n - 48)
  else if in_range 97 102 c then Some (n - 87)
  else if in_range 65 70 c then Some (n - 55) else None.
(** [digit (_? digit)*] in base 16, [n] digits so far *)
Fixpoint scan_hex (s : string) (v : Z) (n : nat) : Z * nat * string :=
  match s with
  | String c s' =>
      match hex_val c with
      | Some d => scan_hex s' (16 * v + d) (S n)
      | None =>
          match c, s' with
          | "_"%char, String c' _ =>
              if is_some (hex_val c') && (0 <? n)%nat then scan_hex s' v n else (v, n, s)
          | _, _ => (v, n, s)
          end
      end
  | "" => (v, n, s)
  end.
(** [int(s, 16)] of a non-negative text *)
Definition int16 (s : string) : option Z :=
  let '(_, body) := scan_sign (strip s) in
  let body := match body with
              | String "0" (String x r) =>
                  if Ascii.eqb x "x" || Ascii.eqb x "X" then
                    match r with String "_" r' => r' | _ => r end
                  else body
              | _ => body
              end in
  let '(v, n, r) := scan_hex body 0 0 in
  match n, r with O, _ => None | _, "" => Some v | _, _ => None end.
Definition hex_char (d : Z) : ascii := if d <? 10 then digit_char d else ascii_of_N (87 + Z.to_N d).
Fixpoint hex_pad (k : nat) (z : Z) : string :=
  match k with
  | O => ""
  | S k' => String (hex_char (z / 16 ^ Z.of_nat k')) (hex_pad k' (z mod 16 ^ Z.of_nat k'))
  end.
(** [str(u)] of the UUID with integer value [z] *)
Definition uuid_text (z : Z) : string :=
  hex_pad 8 (z / 16 ^ 24) +:+ "-" +:+ hex_pad 4 (z / 16 ^ 20 mod 16 ^ 4) +:+ "-" +:+
  hex_pad 4 (z / 16 ^ 16 mod 16 ^ 4) +:+ "-" +:+ hex_pad 4 (z / 16 ^ 12 mod 16 ^ 4) +:+ "-" +:+
  hex_pad 12 (z mod 16 ^ 12).
(** [UUID(s)], [None] on a [ValueError] *)
Definition parse_uuid (s : string) : option Z :=
  let h := remove_sub "uuid:" (remove_sub "urn:" s 0) 0 in
  let h := sfilter (λ c, negb (Ascii.eqb c "-")) (drop_while_end brace (drop_while brace h)) in
  if (String.length h =? 32)%nat then int16 h else None.

Example uuid_ok : (uuid_text <$> (parse_uuid "{urn:uuid:0F8FAD5B-D9CB-469F-A165-70867728950E}"),
                   parse_uuid "0f8fad5b-d9cb-469f-a165", uuid_text <$> parse_uuid "0x0f8fad5bd9cb469fa165708677289+")
  = (Some "0f8fad5b-d9cb-469f-a165-70867728950e", None, None).
Proof. vm_compute. reflexivity. Qed.

(** ** The cursor *)
Definition rstrip_pad : string → string := drop_while_end (Ascii.eqb "=").
Definition encode_cursor (event : AuditEvent) : string :=
  rstrip_pad (urlsafe_b64encode (isoformat (ae_occurred_at event) +:+ "|" +:+ ae_id event)).
(** ["=" * (-n % 4)] *)
Definition padding (n : nat) : string :=
  match (n mod 4)%nat with 1%nat => "===" | 2%nat => "==" | 3%nat => "=" | _ => "" end.
Definition decode_cursor (cursor : string) : M key :=
  let parsed :=
    raw ← urlsafe_b64decode (cursor +:+ padding (String.length cursor));
    if is_ascii7 raw && has_char "|" raw then
      let '(ts, rest) := split_at_char (Ascii.eqb "|") raw "" in
      at_ ← fromisoformat ts;
      u ← parse_uuid (sdrop 1 rest);
      Some (at_, uuid_text u)
    else None in
  match parsed with
  | Some (at_, event_id) =>
      if is_some (dt_off at_) then mret (instant at_, event_id) else api_error "INVALID" "Invalid audit cursor" 400
  | None => api_error "INVALID" "Invalid audit cursor" 400
  end.

(** ** The listing *)
Definition list_events (f : AuditFilter) (limit : nat) (cursor : option string)
  : M (list AuditEvent * option string) :=
  position ← match cursor with
             | Some c => if str_nonempty c then k ← decode_cursor c; mret (Some k) else mret None
             | None => mret None
             end;
  '(rows, next) ← query (λ d, list_events_at (audit_events d) f limit position);
  mret (rows, match next with Some _ => encode_cursor <$> last rows | None => None end).

(** a bound without an offset is taken as UTC *)
Definition aware (value : option datetime) : option datetime :=
  match value with
  | Some t => Some (match dt_off t with None => mkDatetime (dt_us t) (Some 0) | Some _ => t end)
  | None => None
  end.
Definition aware_bounds (f : AuditFilter) : AuditFilter :=
  mkAuditFilter (af_actor f) (af_action f) (af_target_type f) (af_target_id f) (af_host_id f)
    (af_cluster_id f) (af_outcome f) (aware (af_since f)) (aware (af_until f)) (af_q f).
(** an event as the API shows it has exactly the columns of its row *)
Record AuditEventPage := mkPage { ap_items : list AuditEvent; ap_next_cursor : option string }.
(** [limit] has been checked to lie in [1..200], the ids to be UUIDs *)
Definition get_audit_events (scope : VisibleScope) (f : AuditFilter) (limit : nat) (cursor : option string)
  : M AuditEventPage :=
  if negb (sc_all scope) then forbidden "Only an administrator can view the audit log"
  else
    '(rows, next_cursor) ← list_events (aware_bounds f) limit cursor;
    mret (mkPage rows next_cursor).

(** A client that asks for the first page and then follows [next_cursor]. *)
Fixpoint read_log (scope : VisibleScope) (fuel : nat) (f : AuditFilter) (limit : nat) (cursor : option string) : M (list AuditEvent) :=
  match fuel with
  | O => mret []
  | S n =>
      page ← get_audit_events scope f limit cursor;
      match ap_next_cursor page with
      | Some c => rest ← read_log scope n f limit (Some c); mret (ap_items page ++ rest)%list
      | None => mret (ap_items page)
      end
  end.

(** ** Base64 round trip *)
Definition alpha (c : ascii) : bool :=
  is_some (urlsafe_val c) && negb (Ascii.eqb "=" c) && (N_of_ascii c <? 128)%N.
Lemma b64_char_ok n : (n < 64)%N → urlsafe_val (b64_char n) = Some n ∧ alpha (b64_char n) = true.
Proof.
  intros H. assert (Forall (λ k, urlsafe_val (b64_char (N.of_nat k)) = Some (N.of_nat k)
                                 ∧ alpha (b64_char (N.of_nat k)) = true) (seq 0 64)) as Hall.
  { repeat constructor. }
  rewrite Forall_forall in Hall. specialize (Hall (N.to_nat n)). rewrite N2Nat.id in Hall.
  apply Hall, elem_of_seq. lia.
Qed.
Lemma alpha_char n : (n < 64)%N → alpha (b64_char n) = true.
Proof. intros H. by apply b64_char_ok. Qed.
Lemma N_of_ascii_byte c : (N_of_ascii c < 256)%N.
Proof. apply N_ascii_bounded. Qed.
(** one character of the alphabet read in state [quad] *)
Lemma a2b_char n s quad left pads :
  (n < 64)%N →
  a2b (String (b64_char n) s) quad left pads =
    match quad with
    | O => a2b s 1 n 0
    | 1%nat => String (ascii_of_N (left * 4 + n / 16)) <$> a2b s 2 (n mod 16) 0
    | 2%nat => String (ascii_of_N (left * 16 + n / 4)) <$> a2b s 3 (n mod 4) 0
    | _ => String (ascii_of_N (left * 64 + n)) <$> a2b s 0 0 0
    end%N.
Proof.
  intros H. destruct (b64_char_ok n H) as [Hv Ha]. cbn [a2b]. rewrite Hv.
  unfold alpha in Ha. bool_prop. rewrite Ascii.eqb_sym. by rewrite H2.
Qed.
Lemma bits_arith a b c :
  (a < 256)%N → (b < 256)%N → (c < 256)%N →
  (a / 4 < 64 ∧ a mod 4 * 16 < 64 ∧ a mod 4 * 16 + b / 16 < 64 ∧ b mod 16 * 4 < 64 ∧
   b mod 16 * 4 + c / 64 < 64 ∧ c mod 64 < 64 ∧
   a / 4 * 4 + a mod 4 * 16 / 16 = a ∧
   a / 4 * 4 + (a mod 4 * 16 + b / 16) / 16 = a ∧
   (a mod 4 * 16 + b / 16) mod 16 * 16 + b mod 16 * 4 / 4 = b ∧
   (a mod 4 * 16 + b / 16) mod 16 * 16 + (b mod 16 * 4 + c / 64) / 4 = b ∧
   (b mod 16 * 4 + c / 64) mod 4 * 64 + c mod 64 = c)%N.
Proof. intros. repeat split; zify; Z.to_euclidean_division_equations; lia. Qed.

Lemma string_ind3 (P : string → Prop) :
  P "" → (∀ a, P (String a "")) → (∀ a b, P (String a (String b ""))) →
  (∀ a b c r, P r → P (String a (String b (String c r)))) → ∀ s, P s.
Proof.
  intros H0 H1 H2 H3. assert (∀ n s, (String.length s < n)%nat → P s) as H.
  { induction n as [|n IH]; intros s Hs; [lia|].
    destruct s as [|a [|b [|c r]]]; auto. apply H3, IH. cbn in Hs. lia. }
  intros s. apply (H (S (String.length s))). lia.
Qed.

(** The encoder's output is a body over the alphabet and at most two pads; the
    decoder inverts it, and the length of the body tells the pads. *)
Lemma b64_round s :
  ∃ body, s_forallb alpha body = true ∧
    urlsafe_b64encode s = body +:+ padding (String.length body) ∧
    a2b (body +:+ padding (String.length body)) 0 0 0 = Some s.
Proof.
  induction s as [|a|a b|a b c r IH] using string_ind3.
  - by exists "".
  - destruct (bits_arith (N_of_ascii a) 0 0 (N_of_ascii_byte a) ltac:(done) ltac:(done))
      as (H1 & H2 & _ & _ & _ & _ & H7 & _).
    eexists (String (b64_char _) (String (b64_char _) "")). split; [|split; [reflexivity|]].
    + cbn [s_forallb]. by rewrite !alpha_char by done.
    + change (padding _) with "==". rewrite !sapp_cons. rewrite !a2b_char by done.
      change ("" +:+ "==") with "==". cbn [a2b Ascii.eqb]. cbn. by rewrite H7, ascii_N_embedding.
  - destruct (bits_arith (N_of_ascii a) (N_of_ascii b) 0 (N_of_ascii_byte a) (N_of_ascii_byte b) ltac:(done))
      as (H1 & H2 & H3 & H4 & _ & _ & _ & H8 & H9 & _).
    eexists (String (b64_char _) (String (b64_char _) (String (b64_char _) ""))). split; [|split; [reflexivity|]].
    + cbn [s_forallb]. by rewrite !alpha_char by done.
    + change (padding _) with "=". rewrite !sapp_cons. rewrite !a2b_char by done.
      change ("" +:+ "=") with "=". cbn [a2b Ascii.eqb]. cbn. by rewrite H8, H9, !ascii_N_embedding.
  - destruct IH as (body & Hb & He & Hd).
    destruct (bits_arith _ _ _ (N_of_ascii_byte a) (N_of_ascii_byte b) (N_of_ascii_byte c))
      as (H1 & _ & H3 & _ & H5 & H6 & _ & H8 & _ & H10 & H11).
    set (x := N_of_ascii a) in *. set (y := N_of_ascii b) in *. set (z := N_of_ascii c) in *.
    exists (String (b64_char (x / 4)) (String (b64_char (x mod 4 * 16 + y / 16))
             (String (b64_char (y mod 16 * 4 + z / 64)) (String (b64_char (z mod 64)) body)))).
    assert (∀ x y z w, padding (String.length (String x (String y (String z (String w body)))))
                       = padding (String.length body)) as Hpad.
    { intros. unfold padding. cbn [String.length].
      replace (S (S (S (S (String.length body))))) with (String.length body + 1 * 4)%nat by lia.
      by rewrite Nat.Div0.mod_add. }
    split; [|split].
    + cbn [s_forallb]. by rewrite !alpha_char, Hb by done.
    + cbn [urlsafe_b64encode]. rewrite He, Hpad, !sapp_cons. reflexivity.
    + rewrite Hpad, !sapp_cons, !a2b_char by done. rewrite Hd. cbn.
      unfold x, y, z in *. by rewrite H8, H10, H11, !ascii_N_embedding.
Qed.
Lemma rstrip_pad_body body k : s_forallb alpha body = true → rstrip_pad (body +:+ padding k) = body.
Proof.
  unfold rstrip_pad. induction body as [|c body IH]; cbn [s_forallb].
  - intros _. change ("" +:+ ?x) with x. unfold padding. by destruct (k mod 4)%nat as [|[|[|[]]]].
  - intros H. apply andb_prop in H as [Hc H]. rewrite sapp_cons. cbn [drop_while_end]. rewrite IH by done.
    unfold alpha in Hc. bool_prop. rewrite H2. by destruct body.
Qed.
Lemma alpha_ascii7 body : s_forallb alpha body = true → is_ascii7 body = true.
Proof. apply s_forallb_weaken. intros c Hc. unfold alpha in Hc. by bool_prop. Qed.
(** the text of a cursor decodes to the payload it was made from *)
Lemma b64_unpadded s :
  let c := rstrip_pad (urlsafe_b64encode s) in
  urlsafe_b64decode (c +:+ padding (String.length c)) = Some s.
Proof.
  cbv zeta. destruct (b64_round s) as (body & Hb & -> & Hd). rewrite rstrip_pad_body by done.
  unfold urlsafe_b64decode, is_ascii7. rewrite s_forallb_app. fold (is_ascii7 body).
  rewrite alpha_ascii7 by done. replace (s_forallb _ (padding _)) with true; [exact Hd|].
  unfold padding. by destruct (String.length body mod 4)%nat as [|[|[|[]]]].
Qed.

(** ** UUID round trip *)
Lemma hex_val_char d : 0 ≤ d < 16 → hex_val (hex_char d) = Some d ∧ is_hex (hex_char d) = true.
Proof.
  intros H. assert (Forall (λ k, hex_val (hex_char (Z.of_nat k)) = Some (Z.of_nat k)
                                 ∧ is_hex (hex_char (Z.of_nat k)) = true) (seq 0 16)) as Hall by repeat constructor.
  rewrite Forall_forall in Hall. specialize (Hall (Z.to_nat d)). rewrite Z2Nat.id in Hall by lia.
  apply Hall, elem_of_seq. lia.
Qed.
Lemma hex_div z k : 0 ≤ z < 16 ^ Z.of_nat (S k) → 0 ≤ z / 16 ^ Z.of_nat k < 16.
Proof.
  intros H. rewrite Nat2Z.inj_succ, Z.pow_succ_r in H by lia.
  assert (0 < 16 ^ Z.of_nat k) by (apply Z.pow_pos_nonneg; lia).
  split; [apply Z.div_pos; lia|apply Z.div_lt_upper_bound; lia].
Qed.
Lemma hex_mod z k : 0 ≤ z mod 16 ^ Z.of_nat k < 16 ^ Z.of_nat k.
Proof. apply Z.mod_pos_bound, Z.pow_pos_nonneg; lia. Qed.
Lemma scan_hex_pad k z v n r :
  0 ≤ z < 16 ^ Z.of_nat k →
  scan_hex (hex_pad k z +:+ r) v n = scan_hex r (v * 16 ^ Z.of_nat k + z) (n + k).
Proof.
  revert z v n. induction k as [|k IH]; intros z v n H.
  - cbn in *. change (16 ^ 0) with 1 in *. change ("" +:+ r) with r. f_equal; lia.
  - cbn [hex_pad]. rewrite sapp_cons. cbn [scan_hex].
    pose proof (hex_div z k H). rewrite (proj1 (hex_val_char _ H0)), IH by apply hex_mod.
    f_equal; [|lia]. rewrite Nat2Z.inj_succ, Z.pow_succ_r by lia.
    assert (0 < 16 ^ Z.of_nat k) by (apply Z.pow_pos_nonneg; lia).
    pose proof (Z.div_mod z (16 ^ Z.of_nat k) ltac:(lia)). nia.
Qed.
Lemma hex_pad_ok k z :
  0 ≤ z < 16 ^ Z.of_nat k → s_forallb is_hex (hex_pad k z) = true ∧ String.length (hex_pad k z) = k.
Proof.
  revert z. induction k as [|k IH]; intros z H; [done|]. cbn [hex_pad s_forallb String.length].
  destruct (IH (z mod 16 ^ Z.of_nat k) (hex_mod z k)) as [-> ->].
  by rewrite (proj2 (hex_val_char _ (hex_div z k H))).
Qed.
Lemma is_hex_not (p : ascii → bool) s :
  (∀ c, is_hex c = true → p c = false) → s_forallb is_hex s = true → s_forallb (λ c, negb (p c)) s = true.
Proof. intros H. apply s_forallb_weaken. intros c Hc. by rewrite (H c Hc). Qed.
(** [int(h, 16)] of plain hexadecimal digits is the scan *)
Lemma int16_plain h :
  s_forallb is_hex h = true → (2 ≤ String.length h)%nat →
  int16 h = let '(v, n, r) := scan_hex h 0 0 in match n, r with O, _ => None | _, "" => Some v | _, _ => None end.
Proof.
  intros Hh Hl. unfold int16, strip.
  assert (s_forallb (λ c, negb (py_space c)) h = true) as Hs.
  { apply is_hex_not; [|done]. intros c. destruct c as [[] [] [] [] [] [] [] []]; vm_compute; congruence. }
  rewrite drop_while_none, drop_while_end_none by done. clear Hs.
  destruct h as [|a [|b h]]; cbn in Hl; try lia. cbn in Hh. bool_prop.
  assert (scan_sign (String a (String b h)) = (false, String a (String b h))) as ->.
  { destruct a as [[] [] [] [] [] [] [] []]; first [done|discriminate]. }
  assert (Ascii.eqb b "x" || Ascii.eqb b "X" = false) as Hx.
  { destruct b as [[] [] [] [] [] [] [] []]; first [done|discriminate]. }
  rewrite Hx. destruct a as [[] [] [] [] [] [] [] []]; reflexivity.
Qed.
Lemma remove_sub_none c p s :
  s_forallb (λ x, negb (Ascii.eqb c x)) s = true → remove_sub (String c p) s 0 = s.
Proof.
  induction s as [|x s IH]; [done|]. cbn. intros [H Hs]%andb_prop. apply negb_true_iff in H.
  rewrite H. cbn. by rewrite IH.
Qed.
Definition uuid_char (c : ascii) : bool := is_hex c || Ascii.eqb c "-".
Lemma uuid_char_not (p : ascii → bool) s :
  (∀ c, uuid_char c = true → p c = false) → s_forallb uuid_char s = true → s_forallb (λ c, negb (p c)) s = true.
Proof. intros H. apply s_forallb_weaken. intros c Hc. by rewrite (H c Hc). Qed.
Lemma uuid_parts z :
  0 ≤ z < 16 ^ 32 →
  0 ≤ z / 16 ^ 24 < 16 ^ 8 ∧ 0 ≤ z / 16 ^ 20 mod 16 ^ 4 < 16 ^ 4 ∧ 0 ≤ z / 16 ^ 16 mod 16 ^ 4 < 16 ^ 4 ∧
  0 ≤ z / 16 ^ 12 mod 16 ^ 4 < 16 ^ 4 ∧ 0 ≤ z mod 16 ^ 12 < 16 ^ 12 ∧
  (((z / 16 ^ 24 * 16 ^ 4 + z / 16 ^ 20 mod 16 ^ 4) * 16 ^ 4 + z / 16 ^ 16 mod 16 ^ 4) * 16 ^ 4
   + z / 16 ^ 12 mod 16 ^ 4) * 16 ^ 12 + z mod 16 ^ 12 = z.
Proof.
  intros H.
  change (16 ^ 32) with (16 ^ 8 * 16 ^ 24) in H. change (16 ^ 24) with (16 ^ 4 * 16 ^ 20) in *.
  change (16 ^ 20) with (16 ^ 4 * 16 ^ 16) in *. change (16 ^ 16) with (16 ^ 4 * 16 ^ 12) in *.
  change (16 ^ 8) with 4294967296 in *. change (16 ^ 4) with 65536 in *. change (16 ^ 12) with 281474976710656 in *.
  Z.to_euclidean_division_equations. lia.
Qed.
Lemma uuid_text_chars z : 0 ≤ z < 16 ^ 32 → s_forallb uuid_char (uuid_text z) = true.
Proof.
  intros H. destruct (uuid_parts z H) as (H1 & H2 & H3 & H4 & H5 & _). unfold uuid_text.
  assert (∀ k v, 0 ≤ v < 16 ^ Z.of_nat k → s_forallb uuid_char (hex_pad k v) = true) as Hp.
  { intros k v Hv. eapply s_forallb_weaken; [|by apply hex_pad_ok]. intros c Hc. unfold uuid_char. by rewrite Hc. }
  rewrite !s_forallb_app, !Hp by done. done.
Qed.
Lemma parse_uuid_text z : 0 ≤ z < 16 ^ 32 → parse_uuid (uuid_text z) = Some z.
Proof.
  intros H. pose proof (uuid_text_chars z H) as Hc. destruct (uuid_parts z H) as (H1 & H2 & H3 & H4 & H5 & Hz).
  assert (∀ x, uuid_char x = false → s_forallb (λ y, negb (Ascii.eqb x y)) (uuid_text z) = true) as Hlack.
  { intros x Hx. apply uuid_char_not; [|done]. intros y Hy. destruct (Ascii.eqb_spec x y); [congruence|done]. }
  unfold parse_uuid. rewrite (remove_sub_none "u" "rn:"), (remove_sub_none "u" "uid:") by (by apply Hlack).
  assert (s_forallb (λ c, negb (brace c)) (uuid_text z) = true) as Hb.
  { apply uuid_char_not; [|done]. intros x Hx. unfold brace.
    destruct (Ascii.eqb_spec x "{") as [E|]; [by rewrite E in Hx|].
    destruct (Ascii.eqb_spec x "}") as [E|]; [by rewrite E in Hx|done]. }
  rewrite (drop_while_none brace), (drop_while_end_none brace) by done.
  unfold uuid_text. rewrite !sfilter_app. change (sfilter _ "-") with "". change ("" +:+ ?x) with x.
  assert (∀ k v, 0 ≤ v < 16 ^ Z.of_nat k → String.length (hex_pad k v) = k) as Hln by (by intros; apply hex_pad_ok).
  assert (∀ k v, 0 ≤ v < 16 ^ Z.of_nat k → s_forallb is_hex (hex_pad k v) = true) as Hhx by (by intros; apply hex_pad_ok).
  assert (∀ k v, 0 ≤ v < 16 ^ Z.of_nat k → sfilter (λ c, negb (Ascii.eqb c "-")) (hex_pad k v) = hex_pad k v) as Hf.
  { intros k v Hv. apply sfilter_all, is_hex_not; [|by apply hex_pad_ok].
    intros c Hcc. destruct (Ascii.eqb_spec c "-") as [->|]; done. }
  rewrite !Hf by done. clear Hf.
  set (h := hex_pad 8 _ +:+ _). assert (String.length h = 32%nat) as Hl.
  { unfold h. by rewrite !slength_app, !Hln. }
  rewrite Hl. cbn [Nat.eqb]. rewrite int16_plain by (rewrite ?Hl; try lia;
    unfold h; by rewrite !s_forallb_app, !Hhx).
  unfold h. clear h Hl. rewrite <- (sapp_nil_r (hex_pad 12 _)).
  repeat match goal with |- context ["" +:+ ?x] => change ("" +:+ x) with x end.
  rewrite !scan_hex_pad by done. cbn [scan_hex Nat.add]. f_equal.
  rewrite Z.mul_0_l, Z.add_0_l. exact Hz.
Qed.

(** ** Cursors *)

(** what every stored event satisfies: a time Postgres returned (aware, in
    range) and a UUID *)
Definition storable (e : AuditEvent) : Prop :=
  datetime_ok (ae_occurred_at e) = true ∧ is_some (dt_off (ae_occurred_at e)) = true ∧
  ∃ z, 0 ≤ z < 16 ^ 32 ∧ ae_id e = uuid_text z.

Definition payload_char (c : ascii) : bool :=
  clock_char c || Ascii.eqb c "-" || Ascii.eqb c "T" || Ascii.eqb c "+".
Lemma isoformat_chars d : datetime_ok d = true → s_forallb payload_char (isoformat d) = true.
Proof.
  intros H. unfold datetime_ok in H. apply andb_prop in H as [H Ho]. bool_prop.
  assert (0 < days 1) as Hday by done. pose proof (Z.mod_pos_bound (dt_us d) (days 1) Hday) as Ht.
  pose proof (Z.div_mod (dt_us d) (days 1) ltac:(lia)) as Hus.
  assert (∀ s, s_forallb clock_char s = true → s_forallb payload_char s = true) as Hc.
  { intros s. apply s_forallb_weaken. intros c Hcc. unfold payload_char. by rewrite Hcc. }
  unfold isoformat. rewrite !s_forallb_app, (Hc (clock_text true _)) by (by apply clock_text_chars).
  assert (s_forallb payload_char (date_text (dt_us d / days 1)) = true) as ->.
  { pose proof (date_of_days_spec (dt_us d / days 1) ltac:(unfold days, seconds in *; lia)) as Hs.
    unfold date_text. destruct (date_of_days _) as [[y m] dd]. destruct Hs as (_ & Hy & Hm & Hd).
    assert (∀ k v, 0 ≤ v < 10 ^ Z.of_nat k → s_forallb payload_char (pad k v) = true) as Hp
      by (intros; by apply Hc, pad_clock_char).
    rewrite !s_forallb_app, !Hp by (cbn; lia). done. }
  cbn [andb]. destruct (dt_off d) as [o|]; [|done]. bool_prop. cbn [offset_text].
  rewrite s_forallb_app, (Hc (clock_text _ _)) by (apply clock_text_chars; lia). by destruct (o <? 0).
Qed.

(** A cursor reads back to the key of the row it was made from. *)
Lemma decode_encode_cursor e w :
  storable e → decode_cursor (encode_cursor e) w = (Ok (event_key e), w) ∧ str_nonempty (encode_cursor e) = true.
Proof.
  intros (Hd & Ho & z & Hz & Hid). set (raw := isoformat (ae_occurred_at e) +:+ "|" +:+ ae_id e).
  pose proof (b64_unpadded raw) as Hb. cbv zeta in Hb.
  change (rstrip_pad (urlsafe_b64encode raw)) with (encode_cursor e) in Hb.
  pose proof (isoformat_chars _ Hd) as Hc. pose proof (uuid_text_chars z Hz) as Hu.
  split.
  - assert (is_ascii7 raw = true) as Ha.
    { unfold raw, is_ascii7. rewrite !s_forallb_app, Hid. apply andb_true_iff. split; [|apply andb_true_iff; split; [done|]].
      - eapply s_forallb_weaken; [|exact Hc]. intros c. destruct c as [[] [] [] [] [] [] [] []]; done.
      - eapply s_forallb_weaken; [|exact Hu]. intros c. destruct c as [[] [] [] [] [] [] [] []]; done. }
    assert (has_char "|" raw = true) as Hp.
    { unfold raw. rewrite !has_char_app. change (has_char "|" "|") with true. by rewrite orb_true_r. }
    unfold decode_cursor. cbv zeta. rewrite Hb. cbn [mbind option_bind]. rewrite Ha, Hp. cbn [andb].
    unfold raw. rewrite split_at_char_app.
    + change ("" +:+ ?x) with x. rewrite fromisoformat_isoformat by done. cbn [mbind option_bind].
      change (sdrop 1 ("|" +:+ ae_id e)) with (ae_id e). rewrite Hid, parse_uuid_text by done.
      cbn [mbind option_bind]. rewrite Ho. by rewrite <- Hid.
    + eapply s_forallb_weaken; [|exact Hc]. intros c. destruct c as [[] [] [] [] [] [] [] []]; done.
    + done.
    + done.
  - destruct (encode_cursor e) eqn:E; [|done]. exfalso. change (urlsafe_b64decode _) with (Some "") in Hb.
    injection Hb as Hb. apply (f_equal String.length) in Hb. unfold raw in Hb. rewrite !slength_app in Hb.
    cbn in Hb. lia.
Qed.
(** Whatever a client sends as a cursor, it is read or answered with INVALID. *)
Lemma decode_cursor_total c w :
  (∃ k, decode_cursor c w = (Ok k, w)) ∨
  decode_cursor c w = (Raise (EApi (mkApiError "INVALID" "Invalid audit cursor" 400 None)), w).
Proof.
  unfold decode_cursor. cbv zeta. destruct (_ ≫= _) as [[at_ id]|]; [|by right].
  destruct (is_some (dt_off at_)); [left; eauto|by right].
Qed.

Lemma list_events_at_elem l f limit cursor e : e ∈ (list_events_at l f limit cursor).1 → e ∈ l.
Proof.
  unfold list_events_at. cbv zeta. intros H.
  assert (∀ n p (x : AuditEvent), x ∈ take n (sort_desc (List.filter p l)) → x ∈ l) as Hs.
  { intros n p x Hx. apply elem_of_take in Hx as (i & Hx & _). apply list_elem_of_lookup_2 in Hx.
    apply sort_desc_elem, elem_of_lfilter in Hx. tauto. }
  destruct (limit <? _)%nat; cbn [fst] in H; [|by apply Hs in H].
  apply elem_of_take in H as (i & H & _). apply list_elem_of_lookup_2 in H. by apply Hs in H.
Qed.
(** the text cursors of [read_log] follow the keys of [all_pages] *)
Lemma read_log_pages scope fuel f limit w cursor position :
  sc_all scope = true →
  Forall storable (audit_events (w_db w)) →
  match cursor, position with
  | None, None => True
  | Some c, Some k => str_nonempty c = true ∧ decode_cursor c w = (Ok k, w)
  | _, _ => False
  end →
  read_log scope fuel f limit cursor w
  = (Ok (all_pages fuel (audit_events (w_db w)) (aware_bounds f) limit position), w).
Proof.
  intros Hall Hok. revert cursor position. induction fuel as [|n IH]; intros cursor position Hpos; [done|].
  cbn [read_log all_pages]. set (l := audit_events (w_db w)) in *.
  pose proof (list_events_at_elem l (aware_bounds f) limit position) as Hin.
  assert (get_audit_events scope f limit cursor w =
    (Ok (let '(rows, next) := list_events_at l (aware_bounds f) limit position in
         mkPage rows (match next with Some _ => encode_cursor <$> last rows | None => None end)), w)) as Hpage.
  { unfold get_audit_events, list_events. rewrite Hall. cbn [negb].
    destruct cursor as [c|], position as [k|]; try done.
    - destruct Hpos as [Hne Hd]. rewrite Hne. unfold mbind, M_bind. rewrite Hd. cbn.
      fold l. by destruct (list_events_at l _ limit (Some k)).
    - unfold mbind, M_bind. cbn. fold l. by destruct (list_events_at l _ limit None). }
  unfold mbind, M_bind. rewrite Hpage.
  assert (∀ k, (list_events_at l (aware_bounds f) limit position).2 = Some k →
    ∃ e, last (list_events_at l (aware_bounds f) limit position).1 = Some e ∧ event_key e = k) as Hnext.
  { intros k. unfold list_events_at. cbv zeta. destruct (limit <? _)%nat; cbn [fst snd]; [|done].
    destruct (last _) as [e|]; cbn; [|done]. intros [= <-]. eauto. }
  destruct (list_events_at l (aware_bounds f) limit position) as [rows [k|]]; cbn [fst snd] in *; [|done].
  destruct (Hnext k eq_refl) as (e & He & Hk). rewrite He. cbn [fmap option_fmap option_map ap_next_cursor ap_items].
  assert (storable e) as Hse.
  { rewrite Forall_forall in Hok. apply Hok, Hin. apply last_Some in He as [r ->]. set_solver. }
  destruct (decode_encode_cursor e w Hse) as [Hd Hne].
  rewrite (IH (Some (encode_cursor e)) (Some k)); [done|]. split; [done|]. by rewrite <- Hk.
Qed.

(** C8: a client reads the whole audit log through its cursors.  Asking for
    the first page and sending back each [next_cursor] as it came, it gets no
    error and terminates within one page per event; the pages together hold
    exactly the events that match the filter, each once, strictly newest
    first, and nothing is changed.  A caller without global rights is refused.
    Ids are distinct UUIDs and times are aware, as Postgres stores them. *)
Theorem audit_log_read scope f limit w :
  let l := audit_events (w_db w) in
  Forall storable l → NoDup (event_key <$> l) → (0 < limit)%nat →
  if sc_all scope then
    ∃ seen, read_log scope (S (length l)) f limit None w = (Ok seen, w) ∧
      (∀ e, e ∈ seen ↔ e ∈ l ∧ matches (aware_bounds f) e = true) ∧
      desc seen ∧ NoDup (event_key <$> seen)
  else read_log scope (S (length l)) f limit None w =
         (Raise (EApi (mkApiError "FORBIDDEN" "Only an administrator can view the audit log" 403 None)), w).
Proof.
  cbv zeta. intros Hok Hnd Hpos. destruct (sc_all scope) eqn:Hs.
  2:{ cbn [read_log]. unfold get_audit_events. rewrite Hs. done. }
  eexists. split; [by apply (read_log_pages _ _ _ _ _ None None)|].
  destruct (all_pages_complete _ (aware_bounds f) limit Hnd Hpos) as (H1 & H2 & H3 & _). done.
Qed.
(** the event with id [n], at time [t] *)
Definition logged (n t : Z) : AuditEvent := sample_event (uuid_text n) t None.
Lemma storable_logged n t : 0 ≤ n < 16 ^ 32 → datetime_ok (utc t) = true → storable (logged n t).
Proof. intros H1 H2. repeat split; [done|]. by exists n. Qed.
Lemma audit_log_read_witness :
  let w := sample_world <| w_db := empty_db
             <| audit_events := [logged 10 1; logged 300 3; logged (16 ^ 31) 3] |> |> in
  ∃ seen, read_log (empty_scope <| sc_all := true |>) 4 no_filter 2 None w = (Ok seen, w) ∧ seen = [logged (16 ^ 31) 3; logged 300 3; logged 10 1].
Proof.
  cbv zeta. set (w := _ <| w_db := _ |>).
  destruct (audit_log_read (empty_scope <| sc_all := true |>) no_filter 2 w) as (seen & Hr & _).
  - apply Forall_cons; split; [|apply Forall_cons; split; [|apply Forall_singleton]];
      apply storable_logged; first [lia|reflexivity].
  - repeat constructor; vm_compute; set_solver.
  - lia.
  - exists seen. split; [exact Hr|]. vm_compute in Hr. injection Hr as <-. vm_compute. reflexivity.
Defined.
