(* ===== verification/Normalize.v ===== *)
(** * Agent payloads to canonical items ([app/services/inventory.py], pure part)

    The functions that read an agent's JSON: dates, numbers, addresses,
    firmware, console thumbnails, the [VMInfo] and hardware normalisations and
    the response envelope helpers.  They run in [res]: an exception the code
    does not catch is the result. *)
From S2P Require Import Prelude Py Clock Model.
From Stdlib Require Import Floats.SpecFloat Ascii.
Open Scope string_scope.
Open Scope Z_scope.

Definition MIB : Z := 1024 * 1024.
Definition GIB : Z := 1024 * 1024 * 1024.

(** ** Scalars *)

(** [item.get] of the first key whose value is not [None] *)
Fixpoint first_of (item : dict) (keys : list string) : json :=
  match keys with
  | [] => JNull
  | k :: ks => match dget item k with JNull => first_of item ks | v => v end
  end.
Definition scaled (v : json) (factor : Z) : res Z :=
  f ← py_float v; py_round (float_mul f (float_of_Z_raw factor)).
Definition mib_to_bytes (v : json) : res (option Z) :=
  match v with
  | JNull => inl None
  | _ => catch_value (z ← scaled v MIB; mret (Some z)) None
  end.
Definition as_int (v : json) : res (option Z) :=
  match v with
  | JNull => inl None
  | _ => catch_value (f ← py_float v; z ← py_round f; mret (Some z)) None
  end.
Definition as_float (v : json) : res (option spec_float) :=
  match v with
  | JNull => inl None
  | _ => catch_value (f ← py_float v; mret (Some f)) None
  end.
Definition num (v : json) : res spec_float := catch_value (py_float v) (S754_zero false).
Definition access_vlan (v : json) : option json :=
  match v with
  | JInt z => if 0 <? z then Some v else None
  | JBool b => if b then Some v else None
  | _ => None
  end.
Definition ip_sep (c : ascii) : bool := Ascii.eqb c "," || Ascii.eqb c ";" || py_space c.

Definition of_int (o : option Z) : json := match o with Some z => JInt z | None => JNull end.
Definition of_float (o : option spec_float) : json :=
  match o with Some f => JFloat f | None => JNull end.
(** the dicts of a list, [for v in l if isinstance(v, dict)] *)
Definition dicts (l : list json) : list dict := omap as_dict l.

(** ** Console thumbnails *)
Definition MAX_THUMBNAIL_BYTES : nat := N.to_nat 262144.
Definition JPEG_MAGIC : string :=
  String (ascii_of_N 255) (String (ascii_of_N 216) (String (ascii_of_N 255) "")).
(** the decoded image and the item left behind *)
Definition pop_thumbnail (raw : dict) : option string * dict :=
  let image :=
    match dget raw "thumbnail" with
    | JStr s =>
        match b64decode_strict s with
        | Some image =>
            if str_nonempty s && (String.length image <=? MAX_THUMBNAIL_BYTES)%nat
               && startswith JPEG_MAGIC image
            then Some image else None
        | None => None
        end
    | _ => None
    end in
  (image, dpop raw "thumbnail").

Section normalize.
Context (repr : json → string).

Definition parse_dt (v : json) : option datetime :=
  if truthy v then fromisoformat (replace_Z (py_str repr v)) else None.
Definition split_ips (v : json) : list string :=
  match v with
  | JList l => py_str repr <$> List.filter truthy l
  | JStr s => List.filter str_nonempty (split_on ip_sep s "")
  | _ => []
  end.
Definition firmware_of (item : dict) : string :=
  let fw := upper (py_str repr (py_or (dget item "firmware") (JStr ""))) in
  if String.eqb fw "BIOS" || String.eqb fw "UEFI" then fw
  else if eq_int (dget item "generation") 1 then "BIOS" else "UEFI".

(** ** VM items *)
Definition vhd_disk (v : dict) : res json :=
  size ← scaled (py_or (dget v "sizeGb") (JInt 0)) GIB;
  used ← as_int (dget v "usedBytes");
  format ← py_upper (py_or (dget v "format") (JStr ""));
  mret (JObj
    [("id", py_or (py_or (dget v "diskId") (dget v "id")) (JStr ""));
     ("path", dget_or v "path" (JStr ""));
     ("controller", dget_or v "controller" (JStr ""));
     ("sizeBytes", JInt size);
     ("usedBytes", of_int used);
     ("type", py_or (dget v "type") (JStr ""));
     ("format", format)]).
Definition agent_nic (n : dict) : json := JObj
  [("id", dget_or n "id" (JStr ""));
   ("name", dget_or n "name" (JStr ""));
   ("switchName", py_or (py_or (dget n "switchName") (dget n "networkId")) (JStr ""));
   ("vlanId", dget n "vlanId");
   ("macAddress", dget_or n "macAddress" (JStr ""));
   ("ipAddresses", JList (JStr <$> split_ips (dget n "ipAddresses")));
   ("connected", JBool (truthy (dget_or n "connected" (JBool true))))].
Definition agent_snapshot (s : dict) : json := JObj
  [("id", py_or (py_or (dget s "id") (dget s "snapshotId")) (JStr ""));
   ("name", dget_or s "name" (JStr ""));
   ("parentId", py_or (dget s "parentId") (dget s "parentSnapshotId"));
   ("type", or_none (py_or (dget s "type") (dget s "snapshotType")));
   ("createdAt", py_or (dget s "createdAt") (dget s "creationTime"))].
(** [nics[0]] of a truthy value *)
Definition head_of (v : json) : res json :=
  match v with
  | JList (x :: _) => inl x
  | JStr (String c _) => inl (JStr (String c ""))
  | JObj _ => inr KeyError
  | _ => inr TypeError
  end.
Definition normalize_disks (item : dict) : res json :=
  match dget item "disks" with
  | JNull =>
      vhds ← py_iter (py_or (dget item "vhds") (JList []));
      l ← res_map vhd_disk (dicts vhds);
      mret (JList l)
  | disks => inl disks
  end.
Definition normalize_nics (item : dict) : res json :=
  let nics := py_or (dget item "nics") (JList []) in
  if truthy nics then
    first ← head_of nics;
    match first with
    | JObj d => if dmem d "switchName" then mret nics
                else l ← py_iter nics; mret (JList (agent_nic <$> dicts l))
    | _ => mret nics
    end
  else mret nics.
Definition normalize_snapshots (item : dict) : res json :=
  let snapshots := match dget item "snapshots" with JNull => JList [] | s => s end in
  l ← py_iter snapshots; mret (JList (agent_snapshot <$> dicts l)).

Definition normalize_vm (item : dict) : res dict :=
  let get := dget item in
  let vcpu := match get "vcpu" with
              | JNull => match get "cpu" with JObj c => dget c "vcpus" | _ => JNull end
              | v => v
              end in
  let mem_obj := dict_or_empty (get "memory") in
  let assigned := py_or (first_of item ["memoryBytes"]) (dget mem_obj "assignedBytes") in
  memory_bytes ←
    (if is_null assigned then
       m ← mib_to_bytes (first_of item ["memoryMb"; "memoryMB"]); mret (JInt (default 0 m))
     else mret assigned);
  let memory_min := py_or (first_of item ["memoryMinBytes"]) (dget mem_obj "minBytes") in
  let memory_max := py_or (first_of item ["memoryMaxBytes"]) (dget mem_obj "maxBytes") in
  let memory_dynamic := truthy (py_or (get "memoryDynamic") (dget mem_obj "dynamic")) in
  memory_demand ←
    (let demand := first_of item ["memoryDemandBytes"] in
     if is_null demand then m ← mib_to_bytes (first_of item ["memoryConsumedMb"]); mret (of_int m)
     else mret demand);
  let cpu_usage := first_of item ["cpuUsagePercent"; "cpuUsagePct"] in
  disks ← normalize_disks item;
  nics ← normalize_nics item;
  snapshots ← normalize_snapshots item;
  memory_bytes ← as_int memory_bytes;
  memory_min ← as_int memory_min;
  memory_max ← as_int memory_max;
  memory_demand ← as_int memory_demand;
  cpu_usage ← as_float cpu_usage;
  auto_start_delay ← as_int (first_of item ["autoStartDelaySec"; "automaticStartDelay"]);
  mret
    [("vmUuid", py_or (get "id") (get "vmId"));
     ("name", get "name");
     ("state", dget_or item "state" (JStr "Unknown"));
     ("metricsEnabled", get "metricsEnabled");
     ("firmware", JStr (firmware_of item));
     ("guestOs", get "guestOs");
     ("uptimeSec", get "uptimeSec");
     ("vcpu", vcpu);
     ("memoryBytes", JInt (default 0 memory_bytes));
     ("memoryMinBytes", of_int memory_min);
     ("memoryMaxBytes", of_int memory_max);
     ("memoryDynamic", JBool memory_dynamic);
     ("memoryDemandBytes", of_int memory_demand);
     ("cpuUsagePercent", of_float cpu_usage);
     ("secureBoot", get "secureBoot");
     ("secureBootTemplate", or_none (get "secureBootTemplate"));
     ("nestedVirtualization", JBool (truthy (first_of item ["nestedVirtualization"; "nested"])));
     ("autoStartAction", first_of item ["autoStartAction"; "automaticStart"]);
     ("autoStartDelaySec", of_int auto_start_delay);
     ("autoStopAction", first_of item ["autoStopAction"; "automaticStop"]);
     ("configPath", first_of item ["configPath"; "path"]);
     ("dvdPath", first_of item ["dvdPath"; "dvd"]);
     ("highlyAvailable", JBool (truthy (first_of item ["highlyAvailable"; "ha"])));
     ("disks", disks);
     ("nics", nics);
     ("snapshots", snapshots);
     ("notes", get "notes");
     ("createdAt", py_or (get "createdAt") (get "creationTime"))].

(** ** Host hardware *)
Definition C_DRIVE : list string := ["c:"; "c:\"; "c:/"].
Definition scaled_num (v : json) (factor : Z) : res Z :=
  f ← num v; py_round (float_mul f (float_of_Z_raw factor)).
Definition num_int (v : json) : res Z := f ← num v; float_trunc f.
Definition legacy_volume (vol : dict) : res dict :=
  total ← scaled_num (dget vol "totalGb") GIB;
  free ← scaled_num (dget vol "freeGb") GIB;
  mret [("path", py_or (py_or (dget vol "path") (dget vol "name")) (JStr ""));
        ("label", or_none (dget vol "name"));
        ("totalBytes", JInt total); ("freeBytes", JInt free)].
(** [any(v["path"].lower() in _C_DRIVE for v in storage)] *)
Fixpoint any_c_drive (storage : list dict) : res bool :=
  match storage with
  | [] => inl false
  | v :: l =>
      match dget v "path" with
      | JStr s => if bool_decide (lower s ∈ C_DRIVE) then inl true else any_c_drive l
      | _ => inr AttributeError
      end
  end.
Definition normalize_hardware (v : json) : res (option dict) :=
  match v with
  | JObj [] => inl None
  | JObj raw =>
      match dget raw "cpu" with
      | JObj _ => inl (Some raw)
      | _ =>
          vols ← py_iter (py_or (dget raw "storage") (JList []));
          storage ← res_map legacy_volume (dicts vols);
          storage ←
            match dget raw "diskC" with
            | JObj disk_c =>
                has ← any_c_drive storage;
                if (has : bool) then mret storage
                else
                  total ← scaled_num (dget disk_c "totalGb") GIB;
                  free ← scaled_num (dget disk_c "freeGb") GIB;
                  mret ([("path", JStr "C:\"); ("totalBytes", JInt total); ("freeBytes", JInt free)]
                        :: storage)
            | _ => mret storage
            end;
          let cpu_model := py_or (dget raw "cpuModel") (JStr "") in
          let os_name := py_or (dget raw "osName") (JStr "") in
          memory_bytes ← scaled_num (dget raw "memoryCapacityMB") MIB;
          if negb (truthy cpu_model || truthy os_name || negb (memory_bytes =? 0)
                   || match storage with [] => false | _ => true end) then inl None
          else
            logical ← num_int (dget raw "logicalProcessors");
            sockets ← num_int (dget raw "cpuSockets");
            cores ← num_int (dget raw "cpuCores");
            cpu_percent ← num (dget raw "cpuLoadPercent");
            memory_percent ← num (dget raw "memoryUsagePercent");
            let out : dict :=
              [("cpu", JObj
                  [("model", cpu_model);
                   ("sockets", JInt (if sockets =? 0 then (if logical =? 0 then 0 else 1) else sockets));
                   ("cores", JInt (if cores =? 0 then logical else cores));
                   ("logical", JInt logical)]);
               ("memoryBytes", JInt memory_bytes);
               ("storage", JList (JObj <$> storage));
               ("os", JObj [("caption", os_name); ("version", py_or (dget raw "osVersion") (JStr ""))]);
               ("network", JList []);
               ("vSwitches", JList []);
               ("load", JObj [("cpuPercent", JFloat cpu_percent);
                              ("memoryPercent", JFloat memory_percent)])] in
            let system :=
              if truthy (dget raw "hwManufacturer") || truthy (dget raw "hwModel") then
                [("system", JObj [("manufacturer", py_or (dget raw "hwManufacturer") (JStr ""));
                                  ("model", py_or (dget raw "hwModel") (JStr ""))])]
              else [] in
            let boot :=
              if truthy (dget raw "lastBootTime") then [("bootTime", dget raw "lastBootTime")] else [] in
            let cluster :=
              if truthy (dget raw "clusterState") || truthy (dget raw "isCluster") then
                [("cluster", JObj [("clustered", JBool (truthy (dget raw "isCluster")));
                                   ("name", or_none (dget raw "clusterName"));
                                   ("state", py_or (dget raw "clusterState") (JStr ""));
                                   ("nodes", py_or (dget raw "clusterNodes") (JList []))])]
              else [] in
            let hyperv :=
              if truthy (dget raw "defaultVmPath") || truthy (dget raw "defaultVhdPath") then
                [("hyperv", JObj [("defaultVmPath", or_none (dget raw "defaultVmPath"));
                                  ("defaultVhdPath", or_none (dget raw "defaultVhdPath"))])]
              else [] in
            mret (Some (out ++ system ++ boot ++ cluster ++ hyperv)%list)
      end
  | _ => inl None
  end.

(** ** Template items *)
Record template_fields := mkTF {
  tf_name : json; tf_path : json; tf_size_bytes : Z; tf_disk_size_bytes : Z; tf_notes : json;
  tf_cpu_count : Z; tf_memory_mb : Z; tf_guest_os : json; tf_image_created_at : option datetime
}.
Definition template_row_fields (item : dict) : res template_fields :=
  size ← py_int (dget_or item "sizeBytes" (JInt 0));
  disk ← py_int (dget_or item "diskSizeBytes" (JInt 0));
  cpus ← py_int (py_or (dget item "cpuCount") (JInt 0));
  mem ← py_int (py_or (dget item "memoryMb") (JInt 0));
  mret (mkTF (dget_or item "name" (JStr "")) (dget_or item "path" (JStr "")) size disk
          (or_none (dget item "notes")) cpus mem (dget item "guestOs")
          (parse_dt (dget item "createdAt"))).
End normalize.

(** ** Response envelopes *)
Definition vms_of (src : dict) : option (list dict) :=
  match dget src "vms" with
  | JList l => Some (dicts l)
  | _ => if truthy (dget src "id") || truthy (dget src "vmId") then Some [src] else None
  end.
(** [resp.vm_status], then [resp.result]: those that are dicts *)
Definition response_sources (r : AgentResponse) : list dict :=
  (match rs_vm_status r with Some d => [d] | None => [] end ++
   match rs_result r with RDict d => [d] | _ => [] end)%list.
Definition response_vm_items (r : AgentResponse) : list dict :=
  default [] (head (omap vms_of (response_sources r))).

Definition pop_thumb (v : json) : json :=
  match v with JObj d => JObj (dpop d "thumbnail") | _ => v end.
(** one source, popped in place; iterating a [vms] that is not iterable raises *)
Definition strip_thumbnails (src : dict) : res dict :=
  let src := dpop src "thumbnail" in
  match dget src "vms" with
  | JList l => inl (dset src "vms" (JList (pop_thumb <$> l)))
  | v => _ ← py_iter (py_or v (JList [])); mret src
  end.
Definition strip_response_thumbnails (r : AgentResponse) : res AgentResponse :=
  status ← match rs_vm_status r with
           | Some d => d' ← strip_thumbnails d; mret (Some d')
           | None => mret None
           end;
  result ← match rs_result r with
           | RDict d => d' ← strip_thumbnails d; mret (RDict d')
           | x => mret x
           end;
  mret (r <| rs_vm_status := status |> <| rs_result := result |>).

(** ** Properties *)

(** A console thumbnail is bounded and never stays in the item.
    [pop_thumbnail] takes the [thumbnail] key out and leaves every other key;
    an accepted image is the strict base64 decoding of that key, a JPEG of at
    most 256 KiB. *)
Theorem thumbnail_popped raw :
  let '(image, rest) := pop_thumbnail raw in
  (∀ k, dict_find rest k = if String.eqb k "thumbnail" then None else dict_find raw k) ∧
  ∀ b, image = Some b →
    (String.length b ≤ MAX_THUMBNAIL_BYTES)%nat ∧ startswith JPEG_MAGIC b = true ∧
    ∃ s, dget raw "thumbnail" = JStr s ∧ b64decode_strict s = Some b.
Proof.
  unfold pop_thumbnail. split; [intros k; apply dict_find_dpop|]. intros b.
  destruct (dget raw "thumbnail") as [| | | |s| |] eqn:Et; try done.
  destruct (b64decode_strict s) as [b'|] eqn:Ed; [|done].
  destruct (_ && _ && _) eqn:Ec; [|done]. intros [= ->]. bool_prop.
  apply Nat.leb_le in H1. eauto.
Qed.

Lemma dget_dset d k v k' : dget (dset d k v) k' = if String.eqb k' k then v else dget d k'.
Proof. unfold dget. rewrite dict_find_dset. by destruct (String.eqb k' k). Qed.
Lemma dget_dpop d k k' : dget (dpop d k) k' = if String.eqb k' k then JNull else dget d k'.
Proof. unfold dget. rewrite dict_find_dpop. by destruct (String.eqb k' k). Qed.

(** no thumbnail in a source or in a VM of its list *)
Definition no_thumbnail (src : dict) : Prop :=
  dmem src "thumbnail" = false ∧
  ∀ l v, dget src "vms" = JList l → v ∈ dicts l → dmem v "thumbnail" = false.

Lemma dmem_dpop d k : dmem (dpop d k) k = false.
Proof. unfold dmem. by rewrite dict_find_dpop, String.eqb_refl. Qed.
Lemma strip_thumbnails_clean src src' :
  strip_thumbnails src = inl src' →
  no_thumbnail src' ∧ ∀ k, k ≠ "thumbnail" → k ≠ "vms" → dget src' k = dget src k.
Proof.
  unfold strip_thumbnails. rewrite dget_dpop. change (String.eqb "vms" "thumbnail") with false. cbv iota.
  intros H. split; [split|].
  - destruct (dget src "vms").
    6: injection H as <-; by unfold dmem; rewrite dict_find_dset, dict_find_dpop.
    all: res_inv H; subst; apply dmem_dpop.
  - intros l v Hl Hv. destruct (dget src "vms") as [| | | | |l0|] eqn:Ev.
    6:{ injection H as <-. rewrite dget_dset in Hl. cbn in Hl. injection Hl as <-.
        unfold dicts in Hv. apply list_elem_of_omap in Hv as (x & Hx & Hd).
        apply list_elem_of_fmap in Hx as (y & -> & Hy).
        destruct y; cbn in Hd; simplify_eq. apply dmem_dpop. }
    all: res_inv H; subst; rewrite dget_dpop in Hl; cbn in Hl; congruence.
  - intros k Hk Hk'. apply String.eqb_neq in Hk, Hk'.
    destruct (dget src "vms") eqn:Ev.
    6: injection H as <-; by rewrite dget_dset, Hk', dget_dpop, Hk.
    all: res_inv H; subst; by rewrite dget_dpop, Hk.
Qed.

(** No console image reaches a task record.  When
    [strip_response_thumbnails] returns, neither the status nor the result
    dict of the envelope, nor any VM object in their lists, has a [thumbnail];
    the other keys of both dicts and the other envelope fields are kept. *)
Theorem response_thumbnails_stripped r r' :
  strip_response_thumbnails r = inl r' →
  (∀ src, src ∈ response_sources r' → no_thumbnail src) ∧
  r' = r <| rs_vm_status := rs_vm_status r' |> <| rs_result := rs_result r' |> ∧
  Forall2 (λ s s', ∀ k, k ≠ "thumbnail" → k ≠ "vms" → dget s' k = dget s k)
    (response_sources r) (response_sources r').
Proof.
  unfold strip_response_thumbnails, response_sources. intros H. res_inv H; subst. cbn.
  destruct (rs_vm_status r) as [d|], (rs_result r) as [d2|s|]; res_inv E; res_inv E0; simplify_eq/=;
    repeat match goal with
    | H : strip_thumbnails _ = inl _ |- _ => apply strip_thumbnails_clean in H as [? ?]
    end;
    (split; [intros src; rewrite ?elem_of_cons, ?elem_of_nil; naive_solver|]);
    (split; [done|]); repeat constructor; auto.
Qed.
Lemma response_thumbnails_stripped_witness :
  let vm := [("id", JStr "g1"); ("thumbnail", JStr "TWFu")] in
  let r := mkResponse "t1" "vm_status" "succeeded" None None (RDict [("vms", JList [JObj vm])])
             None None None (Some vm) None None in
  ∃ r', strip_response_thumbnails r = inl r' ∧ ∀ src, src ∈ response_sources r' → no_thumbnail src.
Proof.
  cbv zeta. eexists. split; [vm_compute; reflexivity|].
  apply (response_thumbnails_stripped
    (mkResponse "t1" "vm_status" "succeeded" None None
       (RDict [("vms", JList [JObj [("id", JStr "g1"); ("thumbnail", JStr "TWFu")]])])
       None None None (Some [("id", JStr "g1"); ("thumbnail", JStr "TWFu")]) None None)).
  vm_compute. reflexivity.
Defined.

(** the keys of a canonical item *)
Definition CANONICAL_KEYS : list string :=
  ["vmUuid"; "name"; "state"; "metricsEnabled"; "firmware"; "guestOs"; "uptimeSec"; "vcpu";
   "memoryBytes"; "memoryMinBytes"; "memoryMaxBytes"; "memoryDynamic"; "memoryDemandBytes";
   "cpuUsagePercent"; "secureBoot"; "secureBootTemplate"; "nestedVirtualization";
   "autoStartAction"; "autoStartDelaySec"; "autoStopAction"; "configPath"; "dvdPath";
   "highlyAvailable"; "disks"; "nics"; "snapshots"; "notes"; "createdAt"].
Definition int_or_null (v : json) : Prop := ∃ o, v = of_int o.
Definition is_bool (v : json) : Prop := ∃ b, v = JBool b.

Lemma firmware_of_cases repr item : firmware_of repr item ∈ ["BIOS"; "UEFI"].
Proof.
  unfold firmware_of. rewrite !elem_of_cons.
  destruct (String.eqb_spec (upper (py_str repr (py_or (dget item "firmware") (JStr "")))) "BIOS") as [->|];
    [by left|].
  destruct (String.eqb_spec (upper (py_str repr (py_or (dget item "firmware") (JStr "")))) "UEFI") as [->|];
    cbn; [by right; left|].
  destruct (eq_int _ _); auto.
Qed.

(** What [normalize_vm] returns.  Every canonical key is present, in order;
    the typed ones hold values of their type whatever the agent sent: byte
    counts and delays are integers or null, [memoryBytes] an integer, the flags
    booleans, the firmware BIOS or UEFI, the CPU usage a float or null and the
    snapshots a list of dicts. *)
Theorem normalize_vm_typed repr item d :
  normalize_vm repr item = inl d →
  d.*1 = CANONICAL_KEYS ∧
  (∃ z, dget d "memoryBytes" = JInt z) ∧
  (∃ s, dget d "firmware" = JStr s ∧ s ∈ ["BIOS"; "UEFI"]) ∧
  (∀ k, k ∈ ["memoryMinBytes"; "memoryMaxBytes"; "memoryDemandBytes"; "autoStartDelaySec"] →
     int_or_null (dget d k)) ∧
  (∀ k, k ∈ ["memoryDynamic"; "nestedVirtualization"; "highlyAvailable"] → is_bool (dget d k)) ∧
  (∃ o, dget d "cpuUsagePercent" = of_float o) ∧
  (∃ l, dget d "snapshots" = JList l ∧ ∀ x, x ∈ l → is_Some (as_dict x)).
Proof.
  unfold normalize_vm. cbv zeta. intros H. res_inv H; subst.
  split; [done|]. split; [by eexists|]. split.
  { eexists. split; [done|]. apply firmware_of_cases. }
  split. { intros k. rewrite !elem_of_cons, elem_of_nil. intros [->|[->|[->|[->|[]]]]]; eexists; done. }
  split. { intros k. rewrite !elem_of_cons, elem_of_nil. intros [->|[->|[->|[]]]]; eexists; done. }
  split; [by eexists|].
  match goal with H : normalize_snapshots _ = inl _ |- _ => rename H into Hs end.
  unfold normalize_snapshots in Hs. res_inv Hs; subst.
  eexists. split; [done|]. intros x (s & -> & _)%list_elem_of_fmap. by eexists.
Qed.
Lemma normalize_vm_typed_witness : ∃ d,
  normalize_vm (λ _, "") [("id", JStr "g1"); ("memoryMb", JInt 1024); ("generation", JInt 1);
                          ("cpu", JObj [("vcpus", JInt 4)])] = inl d ∧
  d.*1 = CANONICAL_KEYS ∧ dget d "memoryBytes" = JInt 1073741824 ∧ dget d "firmware" = JStr "BIOS".
Proof.
  eexists. split; [vm_compute; reflexivity|]. split; [|split; reflexivity].
  apply (normalize_vm_typed (λ _, "")
    [("id", JStr "g1"); ("memoryMb", JInt 1024); ("generation", JInt 1); ("cpu", JObj [("vcpus", JInt 4)])]).
  vm_compute. reflexivity.
Defined.

(** [normalize_vm] is not idempotent, contrary to its docstring: a second
    pass reads the GUID from [id]/[vmId], which the canonical form does not
    have, so the VM loses its identity. *)
Theorem normalize_vm_forgets_uuid repr item d d' :
  normalize_vm repr item = inl d → normalize_vm repr d = inl d' → dget d' "vmUuid" = JNull.
Proof.
  unfold normalize_vm at 1. cbv zeta. intros H. res_inv H; subst.
  unfold normalize_vm. cbv zeta. intros H. res_inv H; subst. reflexivity.
Qed.
Definition sample_normal : dict :=
  Eval vm_compute in
  match normalize_vm (λ _, "") [("id", JStr "g1")] with inl d => d | inr _ => [] end.
Lemma normalize_vm_forgets_uuid_witness : ∃ d',
  dget sample_normal "vmUuid" = JStr "g1" ∧
  normalize_vm (λ _, "") sample_normal = inl d' ∧ dget d' "vmUuid" = JNull.
Proof.
  eexists. split; [reflexivity|]. split; [vm_compute; reflexivity|].
  refine (normalize_vm_forgets_uuid (λ _, "") [("id", JStr "g1")] sample_normal _ _ _);
    vm_compute; reflexivity.
Defined.

(** Hardware payloads settle after one pass.  A canonical payload (its
    [cpu] is a dict) is returned unchanged, what a legacy payload is mapped to
    is canonical, and normalising a result again returns it unchanged. *)
Theorem normalize_hardware_idempotent v out :
  normalize_hardware v = inl (Some out) →
  (∃ c, dget out "cpu" = JObj c) ∧ normalize_hardware (JObj out) = inl (Some out) ∧
  (∀ raw c, v = JObj raw → dget raw "cpu" = JObj c → out = raw).
Proof.
  intros H.
  assert (∃ c, dget out "cpu" = JObj c) as Hc.
  { unfold normalize_hardware in H. destruct v as [| | | | | |[|kv raw]]; try done.
    destruct (dget (kv :: raw) "cpu") eqn:Ecpu.
    7: injection H as <-; eauto.
    all: res_inv H; match type of H with (if ?b then _ else _) = _ => destruct b; [done|] end;
      cbv zeta in H; res_inv H; simplify_eq; by eexists. }
  split; [done|]. destruct Hc as [c Hc]. split.
  - unfold normalize_hardware. destruct out; [done|]. by rewrite Hc.
  - intros raw c' -> Hraw. unfold normalize_hardware in H. destruct raw; [done|].
    rewrite Hraw in H. by injection H.
Qed.
Lemma normalize_hardware_idempotent_witness : ∃ out,
  normalize_hardware (JObj [("cpuModel", JStr "Xeon"); ("logicalProcessors", JInt 8);
    ("diskC", JObj [("totalGb", JInt 2)])]) = inl (Some out) ∧
  normalize_hardware (JObj out) = inl (Some out).
Proof.
  eexists. split; [vm_compute; reflexivity|].
  eapply (normalize_hardware_idempotent (JObj [("cpuModel", JStr "Xeon"); ("logicalProcessors", JInt 8);
    ("diskC", JObj [("totalGb", JInt 2)])])). vm_compute. reflexivity.
Defined.

(** ** Numbers that do not fit *)
Lemma as_int_infinite s : as_int (JFloat (S754_infinity s)) = inr OverflowError.
Proof. done. Qed.
Lemma normalize_infinite_memory repr item s :
  dget item "memoryDemandBytes" = JFloat (S754_infinity s) → ∀ d, normalize_vm repr item ≠ inl d.
Proof.
  intros Hm d H. unfold normalize_vm in H. cbv zeta in H. cbn [first_of] in H. rewrite Hm in H.
  cbn [is_null] in H. res_inv H.
  repeat match goal with E : mret _ = inl _ |- _ => apply res_ret_inl in E; subst end.
  match goal with E : as_int (JFloat (S754_infinity _)) = inl _ |- _ => discriminate E end.
Qed.
