(* ===== verification/Messaging.v ===== *)
(** * RabbitMQ: queues, requests, agent users ([app/messaging], [app/ids.py])

    Queue names and arguments per host and kind, the idempotent declarations,
    the request publisher, and the management calls that give a host's agent
    its user and permissions.  A declaration whose arguments differ from the
    existing queue's is rejected by the broker. *)
From S2P Require Import Prelude Py Clock Model World.
From Stdlib Require Import Ascii.
Open Scope string_scope.
Open Scope Z_scope.

(** ** Queues *)
Inductive QueueKind :=
  | REQUEST | RESPONSE | AGENT_STATUS | VM_INVENTORY | HOST_INVENTORY
  | TEMPLATE_INVENTORY | ISO_INVENTORY | VM_METRICS | HOST_METRICS.
#[export] Instance queue_kind_eq_dec : EqDecision QueueKind.
Proof. solve_decision. Defined.
Definition kind_value (k : QueueKind) : string :=
  match k with
  | REQUEST => "request"
  | RESPONSE => "response"
  | AGENT_STATUS => "agent_status"
  | VM_INVENTORY => "vm_inventory"
  | HOST_INVENTORY => "host_inventory"
  | TEMPLATE_INVENTORY => "template_inventory"
  | ISO_INVENTORY => "iso_inventory"
  | VM_METRICS => "vm_metrics"
  | HOST_METRICS => "host_metrics"
  end.
Definition CONSUMED_KINDS : list QueueKind :=
  [RESPONSE; AGENT_STATUS; VM_INVENTORY; HOST_INVENTORY; TEMPLATE_INVENTORY; ISO_INVENTORY;
   VM_METRICS; HOST_METRICS].
Definition LAST_VALUE_KINDS : list QueueKind :=
  [AGENT_STATUS; VM_INVENTORY; HOST_INVENTORY; TEMPLATE_INVENTORY; ISO_INVENTORY].
Definition ALL_KINDS : list QueueKind :=
  [REQUEST; RESPONSE; AGENT_STATUS; VM_INVENTORY; HOST_INVENTORY; TEMPLATE_INVENTORY;
   ISO_INVENTORY; VM_METRICS; HOST_METRICS].

Definition queue_name (host_ref : string) (k : QueueKind) : string :=
  host_ref +:+ "." +:+ kind_value k.
Definition queue_args (cfg : Settings) (k : QueueKind) : list (string * string) :=
  if bool_decide (k ∈ LAST_VALUE_KINDS) then
    [("x-max-length", str_of_Z (inventory_queue_max_length cfg)); ("x-overflow", "drop-head")]
  else [].

#[export] Instance args_eq_dec : EqDecision (list (string * string)) := _.
(** one broker operation; [None] is a refusal that closes the channel *)
Definition broker_op (f : broker → option broker) : M unit := λ w,
  if w_broker_up w then
    match f (w_mq w) with
    | Some b => (Ok tt, w <| w_mq := b |>)
    | None => (Raise EBroker, w)
    end
  else (Raise EBroker, w).
Definition declare_queue (name : string) (args : list (string * string)) : M unit :=
  broker_op (λ b,
    match queues b !! name with
    | None => Some (b <| queues ::= <[name := args]> |>)
    | Some a => if decide (a = args) then Some b else None
    end).
Definition declare_host_queues (host_ref : string) : M unit :=
  cfg ← get_settings;
  for_each ALL_KINDS (λ k, declare_queue (queue_name host_ref k) (queue_args cfg k)).
Definition delete_host_queues (host_ref : string) : M unit :=
  for_each ALL_KINDS (λ k,
    broker_op (λ b, Some (b <| queues ::= delete (queue_name host_ref k) |>))).

Definition QUEUE_BODY : string := "(request|response|agent_status|.*_inventory|.*_metrics)".
Definition agent_permission_pattern (host_ref : string) : string :=
  "^" +:+ host_ref +:+ "\." +:+ QUEUE_BODY +:+ "$".
Definition agent_write_pattern (host_ref : string) : string :=
  "^(" +:+ host_ref +:+ "\." +:+ QUEUE_BODY +:+ "|amq\.default|)$".

(** ** Requests *)
Definition mk_request (id fn : string) (params : dict) (requested_by : string) : M AgentRequest :=
  now ← now_utc; mret (mkRequest id fn params requested_by now).
(** the default exchange routes to the queue named by the routing key *)
Definition publish_request (host_ref : string) (request : AgentRequest) : M unit :=
  declare_queue (queue_name host_ref REQUEST) [];;
  broker_op (λ b, Some (b <| published ::= λ l, (l ++ [(queue_name host_ref REQUEST, request)])%list |>)).

(** ** Agent users (management API) *)
Definition new_agent_rmq_user (host_ref : string) : string := "agent-" +:+ host_ref.
Definition upsert_user (name password : string) : M unit :=
  broker_op (λ b, Some (b <| rmq_users ::= <[name :=
    match rmq_users b !! name with
    | Some u => mkRmqUser password (ru_configure u) (ru_write u) (ru_read u)
    | None => mkRmqUser password "" "" ""
    end]> |>)).
Definition set_permissions (name configure write read : string) : M unit :=
  broker_op (λ b,
    match rmq_users b !! name with
    | Some u => Some (b <| rmq_users ::= <[name := mkRmqUser (ru_password u) configure write read]> |>)
    | None => None
    end).
Definition delete_user (name : string) : M unit :=
  broker_op (λ b, Some (b <| rmq_users ::= delete name |>)).

(** ** Reasoning *)
Lemma kind_value_inj k k' : kind_value k = kind_value k' → k = k'.
Proof. destruct k, k'; by vm_compute. Qed.
Lemma all_kinds k : k ∈ ALL_KINDS.
Proof. apply (bool_decide_unpack _). by destruct k. Qed.
Lemma queue_name_inj h k k' : queue_name h k = queue_name h k' → k = k'.
Proof. unfold queue_name. intros H%sapp_inj. injection H as H. by apply kind_value_inj. Qed.

(** queue names of different hosts differ: a kind holds no dot *)
Definition no_dot (s : string) : bool := s_forallb (λ c, negb (Ascii.eqb c "."%char)) s.
Lemma dotted b y : no_dot (b +:+ "." +:+ y) = false.
Proof.
  induction b as [|c b IH]; [done|]. unfold no_dot in *.
  change (String c b +:+ "." +:+ y) with (String c (b +:+ "." +:+ y)). cbn [s_forallb].
  rewrite IH. apply andb_false_r.
Qed.
Lemma dot_inj a b x y :
  no_dot x = true → no_dot y = true → a +:+ "." +:+ x = b +:+ "." +:+ y → a = b ∧ x = y.
Proof.
  intros Hx Hy. revert b. induction a as [|c a IH]; intros [|c' b] H.
  - injection H as H. change (x = y) in H. by subst.
  - injection H as _ H. change (x = b +:+ "." +:+ y) in H. rewrite H in Hx. change (no_dot (b +:+ "." +:+ y) = true) in Hx. by rewrite dotted in Hx.
  - injection H as _ H. change (a +:+ "." +:+ x = y) in H. rewrite <- H in Hy. change (no_dot (a +:+ "." +:+ x) = true) in Hy. by rewrite dotted in Hy.
  - injection H as -> H. change (a +:+ "." +:+ x = b +:+ "." +:+ y) in H. by destruct (IH b H) as [-> ->].
Qed.
Lemma queue_name_inj2 h h' k k' : queue_name h k = queue_name h' k' → h = h' ∧ k = k'.
Proof.
  unfold queue_name. intros [? Hk]%dot_inj; [|by destruct k|by destruct k'].
  split; [done|]. by apply kind_value_inj.
Qed.

Lemma same_broker_op {B} (f : world → B) g :
  (∀ w b, f (w <| w_mq := b |>) = f w) → keeps (same f) (broker_op g).
Proof.
  intros Hf w. unfold broker_op, same. destruct (w_broker_up w); [|done].
  destruct (g (w_mq w)); cbn; [apply Hf|done].
Qed.
#[export] Hint Extern 1 (keeps (same _) (broker_op _)) =>
  apply same_broker_op; intros; reflexivity : frame.
Lemma same_publish {B} (f : world → B) h r :
  (∀ w b, f (w <| w_mq := b |>) = f w) → keeps (same f) (publish_request h r).
Proof.
  intros Hf. unfold publish_request, declare_queue.
  apply keeps_bind; [apply _| |intros _]; by apply same_broker_op.
Qed.
#[export] Hint Extern 1 (keeps (same _) (publish_request _ _)) =>
  apply same_publish; intros; reflexivity : frame.

(** a host's queues stand, each with its arguments *)
Definition host_queues_ok (w : world) (h : string) : Prop :=
  ∀ k, queues (w_mq w) !! queue_name h k = Some (queue_args (w_cfg w) k).

(** the request queue can be (re)declared: absent or declared without arguments *)
Definition request_queue_ok (w : world) (h : string) : Prop :=
  ∀ a, queues (w_mq w) !! queue_name h REQUEST = Some a → a = [].

(** what a publication does *)
Lemma publish_run w h r :
  w_broker_up w = true → request_queue_ok w h →
  ∃ b, publish_request h r w = (Ok tt, w <| w_mq := b |>) ∧
    published b = (published (w_mq w) ++ [(queue_name h REQUEST, r)])%list ∧
    queues b = <[queue_name h REQUEST := []]> (queues (w_mq w)) ∧
    rmq_users b = rmq_users (w_mq w).
Proof.
  intros Hup Hq. unfold publish_request, declare_queue, broker_op, mbind, M_bind. cbn.
  rewrite Hup. destruct (queues (w_mq w) !! queue_name h REQUEST) as [a|] eqn:E.
  - pose proof (Hq a E) as ->. rewrite decide_True by done. cbn. rewrite ?Hup.
    eexists. split; [by destruct w|]. cbn. by rewrite insert_id.
  - cbn. rewrite ?Hup. eexists. split; [done|]. done.
Qed.
Lemma publish_down w h r : w_broker_up w = false → publish_request h r w = (Raise EBroker, w).
Proof. intros H. unfold publish_request, declare_queue, broker_op, mbind, M_bind. cbn. by rewrite H. Qed.

(** declaring a list of distinct queues *)
Lemma declare_list h ks w :
  w_broker_up w = true →
  (∀ k a, k ∈ ks → queues (w_mq w) !! queue_name h k = Some a → a = queue_args (w_cfg w) k) →
  ∃ b, for_each ks (λ k, declare_queue (queue_name h k) (queue_args (w_cfg w) k)) w
         = (Ok tt, w <| w_mq := b |>) ∧
    (∀ k, k ∈ ks → queues b !! queue_name h k = Some (queue_args (w_cfg w) k)) ∧
    (∀ n, (∀ k, k ∈ ks → n ≠ queue_name h k) → queues b !! n = queues (w_mq w) !! n) ∧
    published b = published (w_mq w) ∧ rmq_users b = rmq_users (w_mq w).
Proof.
  revert w. induction ks as [|k ks IH]; intros w Hup Hok.
  { exists (w_mq w). split; [by destruct w|]. split; [intros k Hk; by apply not_elem_of_nil in Hk|done]. }
  cbn [for_each].
  assert (∃ b0, declare_queue (queue_name h k) (queue_args (w_cfg w) k) w = (Ok tt, w <| w_mq := b0 |>) ∧
    queues b0 = <[queue_name h k := queue_args (w_cfg w) k]> (queues (w_mq w)) ∧
    published b0 = published (w_mq w) ∧ rmq_users b0 = rmq_users (w_mq w)) as (b0 & Hd & Hq & Hp & Hu).
  { unfold declare_queue, broker_op. rewrite Hup.
    destruct (queues (w_mq w) !! queue_name h k) as [a|] eqn:E.
    - rewrite (Hok k a) by (done || by left). rewrite decide_True by done.
      exists (w_mq w). split; [done|]. rewrite (Hok k a) in E by (done || by left). by rewrite insert_id.
    - by eexists. }
  destruct (IH (w <| w_mq := b0 |>)) as (b & Hb & Hin & Hout & Hp' & Hu'); cbn in *.
  { done. }
  { intros k' a Hk' Ha. rewrite Hq in Ha. destruct (decide (k' = k)) as [->|Hne].
    - rewrite lookup_insert_eq in Ha. congruence.
    - rewrite lookup_insert_ne in Ha by (intros He; by apply queue_name_inj in He).
      apply (Hok k'); [by right|done]. }
  exists b. unfold mbind, M_bind at 1. rewrite Hd. cbn. rewrite Hb. split; [done|]. split.
  { intros k' [->|Hk']%elem_of_cons; [|auto].
    destruct (decide (k ∈ ks)); [auto|]. rewrite Hout, Hq.
    - apply lookup_insert_eq.
    - intros k' Hk' He. apply queue_name_inj in He as <-. done. }
  split; [|by rewrite Hp', Hu'].
  intros n Hn. rewrite Hout, Hq by (intros k' Hk'; apply Hn; by right).
  apply lookup_insert_ne. intros He. by apply (Hn k); [left|].
Qed.

Lemma delete_list h ks w :
  w_broker_up w = true →
  ∃ b, for_each ks (λ k, broker_op (λ b, Some (b <| queues ::= delete (queue_name h k) |>))) w
         = (Ok tt, w <| w_mq := b |>) ∧
    (∀ n, (n ∈ queue_name h <$> ks) → queues b !! n = None) ∧
    (∀ n, (n ∉ queue_name h <$> ks) → queues b !! n = queues (w_mq w) !! n) ∧
    rmq_users b = rmq_users (w_mq w) ∧ published b = published (w_mq w).
Proof.
  revert w. induction ks as [|k ks IH]; intros w Hup.
  { exists (w_mq w). split; [by destruct w|]. split; [intros n Hn; by apply not_elem_of_nil in Hn|done]. }
  cbn [for_each]. set (b0 := w_mq w <| queues ::= delete (queue_name h k) |>).
  destruct (IH (w <| w_mq := b0 |>)) as (b & Hb & Hin & Hout & Hrest); [exact Hup|].
  exists b. split.
  { unfold mbind, M_bind at 1. unfold broker_op at 1. rewrite Hup. exact Hb. }
  split; [|split; [|exact Hrest]]; intros n Hn; rewrite fmap_cons, elem_of_cons in Hn.
  - destruct (decide (n ∈ queue_name h <$> ks)) as [H|H]; [auto|].
    destruct Hn as [->|?]; [|done]. rewrite Hout by done. apply lookup_delete_eq.
  - rewrite Hout by tauto. apply lookup_delete_ne. intros <-. tauto.
Qed.

(** Declaring a host's queues is idempotent and never collides with the
    publisher.  When the broker is up and holds the host's queues either not at
    all or with their own arguments, [declare_host_queues] succeeds and leaves
    all nine declared with them, other queues alone; doing it again changes
    nothing; and [publish_request]'s own declaration of the request queue is
    accepted and adds exactly the request, last, to the host's request queue.
    [delete_host_queues] then removes the host's queues and no other. *)
Theorem host_queues_idempotent w h r :
  w_broker_up w = true →
  (∀ k a, queues (w_mq w) !! queue_name h k = Some a → a = queue_args (w_cfg w) k) →
  ∃ w1 w2, declare_host_queues h w = (Ok tt, w1) ∧ host_queues_ok w1 h ∧
    (∀ n, (∀ k, n ≠ queue_name h k) → queues (w_mq w1) !! n = queues (w_mq w) !! n) ∧
    declare_host_queues h w1 = (Ok tt, w1) ∧
    publish_request h r w1 = (Ok tt, w2) ∧ queues (w_mq w2) = queues (w_mq w1) ∧
    published (w_mq w2) = (published (w_mq w1) ++ [(queue_name h REQUEST, r)])%list ∧
    ∃ w3, delete_host_queues h w1 = (Ok tt, w3) ∧ (∀ k, queues (w_mq w3) !! queue_name h k = None) ∧
      ∀ n, (∀ k, n ≠ queue_name h k) → queues (w_mq w3) !! n = queues (w_mq w) !! n.
Proof.
  intros Hup Hok. pose proof all_kinds as Hall.
  unfold declare_host_queues, get_settings, gets, mbind, M_bind.
  destruct (declare_list h ALL_KINDS w Hup) as (b & Hb & Hin & Hout & Hp & Hu); [auto|].
  rewrite Hb. set (w1 := w <| w_mq := b |>).
  assert (host_queues_ok w1 h) as Hq1 by (intros k; apply Hin, all_kinds).
  destruct (publish_run w1 h r Hup) as (b2 & Hb2 & Hp2 & Hq2 & _).
  { intros a. rewrite (Hq1 REQUEST). by intros [= <-]. }
  exists w1. eexists. split; [done|]. split; [done|]. split.
  { intros n Hn. apply Hout. intros k _. apply Hn. }
  split.
  { assert (∀ ks, for_each ks (λ k, declare_queue (queue_name h k) (queue_args (w_cfg w1) k)) w1 = (Ok tt, w1))
      as Hnop; [|apply Hnop].
    intros ks. induction ks as [|k ks IH]; [done|]. cbn [for_each]. unfold mbind, M_bind.
    assert (declare_queue (queue_name h k) (queue_args (w_cfg w1) k) w1 = (Ok tt, w1)) as ->; [|exact IH].
    unfold declare_queue, broker_op. replace (w_broker_up w1) with true by done.
    rewrite (Hq1 k), decide_True by done. reflexivity. }
  split; [exact Hb2|]. split.
  { cbn [w_mq set_field]. cbn in Hq2 |- *. rewrite Hq2. apply insert_id. exact (Hq1 REQUEST). }
  split; [exact Hp2|]. destruct (delete_list h ALL_KINDS w1) as (b3 & Hb3 & Hin3 & Hout3 & _); [exact Hup|].
  eexists. split; [exact Hb3|]. split.
  - intros k. apply Hin3. apply list_elem_of_fmap. by exists k.
  - intros n Hn. etrans; [apply Hout3|apply Hout; intros k _; apply Hn].
    intros (k & Hk & _)%list_elem_of_fmap. by apply (Hn k).
Qed.
Lemma host_queues_idempotent_witness :
  let r := mkRequest "t1" "restart" [] "op" (utc 0) in
  ∃ w1 w2, declare_host_queues "abc" sample_world = (Ok tt, w1) ∧ host_queues_ok w1 "abc" ∧
    (∀ n, (∀ k, n ≠ queue_name "abc" k) → queues (w_mq w1) !! n = queues (w_mq sample_world) !! n) ∧
    declare_host_queues "abc" w1 = (Ok tt, w1) ∧
    publish_request "abc" r w1 = (Ok tt, w2) ∧ queues (w_mq w2) = queues (w_mq w1) ∧
    published (w_mq w2) = (published (w_mq w1) ++ [(queue_name "abc" REQUEST, r)])%list ∧
    ∃ w3, delete_host_queues "abc" w1 = (Ok tt, w3) ∧ (∀ k, queues (w_mq w3) !! queue_name "abc" k = None) ∧
      ∀ n, (∀ k, n ≠ queue_name "abc" k) → queues (w_mq w3) !! n = queues (w_mq sample_world) !! n.
Proof. cbv zeta. apply host_queues_idempotent; [reflexivity|]. intros k a. done. Defined.
