(* ===== verification/Serializers.v ===== *)
(** * Rows to API objects ([app/services/serializers.py], [app/schemas])

    Whether a host is online, and the outward form of hosts, VMs, folders,
    tags, VLANs, templates, ISOs and tasks.  Pydantic's re-validation of values
    already of their column's type is the identity. *)
From S2P Require Import Prelude Py Clock Model World Cache Normalize.
From Stdlib Require Import Floats.SpecFloat.
Open Scope string_scope.
Open Scope Z_scope.

(** ** Hosts *)
Definition agent_connected_at (cfg : Settings) (now : Z) (h : Host) : bool :=
  match h_agent_last_seen h with
  | None => false
  | Some last => now - seconds (agent_offline_after_seconds cfg) <=? instant last
  end.
Definition agent_connected (h : Host) : M bool :=
  gets (λ w, agent_connected_at (w_cfg w) (w_now w) h).

Record HostAgentStatus := mkAgentStatus {
  as_version : option string; as_last_seen : option datetime; as_connected : bool;
  as_refresh_intervals : option (Z * Z)          (* vm, host *)
}.
Definition agent_status (connected : bool) (h : Host) : HostAgentStatus :=
  mkAgentStatus (h_agent_version h) (h_agent_last_seen h) connected
    (match h_agent_refresh_vm h, h_agent_refresh_host h with
     | Some v, Some r => Some (v, r)
     | _, _ => None
     end).
Record HostOut := mkHostOut {
  ho_id : string; ho_short_id : string; ho_cluster_id : option string; ho_name : string;
  ho_fqdn : option string; ho_ip_address : option string; ho_hypervisor : string;
  ho_online : bool; ho_agent : HostAgentStatus; ho_vm_count : nat
}.
Definition host_out (h : Host) (vm_count : nat) : M HostOut :=
  connected ← agent_connected h;
  mret (mkHostOut (h_id h) (h_short_id h) (h_cluster_id h) (h_name h) (h_fqdn h)
          (h_ip_address h) (h_hypervisor h) connected (agent_status connected h) vm_count).

(** [HostDetailOut]: [model_validate] is the schema of the hardware inventory,
    [None] where it raises [ValidationError]; [Schemas] defines it *)
Section detail.
Context {hardware : Type} (model_validate : dict → option hardware).
Record HostDetailOut := mkHostDetail { hd_host : HostOut; hd_hardware : option hardware }.
Definition hardware_out (raw : option dict) : M (option hardware) :=
  canonical ← lift_py (normalize_hardware (match raw with Some d => JObj d | None => JNull end));
  mret (canonical ≫= model_validate).
Definition host_detail_out (h : Host) (vm_count : nat) : M HostDetailOut :=
  hardware ← hardware_out (h_hardware h);
  out ← host_out h vm_count;
  mret (mkHostDetail out hardware).
End detail.
Arguments HostDetailOut hardware : clear implicits.

(** ** VMs *)
Record VmMemory := mkVmMemory {
  me_assigned_bytes : Z; me_min_bytes : option Z; me_max_bytes : option Z; me_dynamic : bool;
  me_demand_bytes : option Z
}.
Record VmDiskOut := mkDiskOut {
  do_id : string; do_path : string; do_controller : string; do_size_bytes : Z;
  do_used_bytes : option Z; do_type : string; do_format : string
}.
Record VmNicOut := mkNicOut {
  no_id : string; no_name : string; no_switch_name : string; no_vlan_id : option Z;
  no_mac_address : string; no_ip_addresses : list json; no_connected : bool
}.
Record VmSnapshotOut := mkSnapshotOut {
  so_id : string; so_name : string; so_created_at : option datetime;
  so_parent_id : option string; so_type : option string
}.
Record VmOut := mkVmOut {
  vo_id : string; vo_vm_uuid : option string; vo_host_id : string; vo_folder_id : option string;
  vo_name : string; vo_state : string; vo_last_seen : option datetime; vo_firmware : string;
  vo_guest_os : option string; vo_uptime_sec : option Z; vo_vcpu : Z;
  vo_cpu_usage_percent : option spec_float; vo_memory : VmMemory; vo_disks : list VmDiskOut;
  vo_nics : list VmNicOut; vo_snapshots : list VmSnapshotOut; vo_secure_boot : option bool;
  vo_secure_boot_template : option string; vo_nested_virtualization : bool;
  vo_auto_start_action : option string; vo_auto_start_delay_sec : option Z;
  vo_auto_stop_action : option string; vo_config_path : option string; vo_dvd_path : option string;
  vo_highly_available : bool; vo_notes : option string; vo_tag_ids : list string;
  vo_metrics_enabled : bool; vo_created_at : option datetime; vo_lock : option VmLock
}.
Definition disk_out (d : VmDisk) : VmDiskOut :=
  mkDiskOut (default "" (d_disk_id d)) (default "" (d_path d)) (default "" (d_controller d))
    (default 0 (d_size_bytes d)) (d_used_bytes d) (default "" (d_type d)) (default "" (d_format d)).
Definition nic_out (n : VmNic) : VmNicOut :=
  mkNicOut (default "" (n_nic_id n)) (n_name n) (default "" (n_switch_name n)) (n_vlan_id n)
    (default "" (n_mac_address n)) (n_ip_addresses n) (n_connected n).
Definition snapshot_out (s : VmSnapshot) : VmSnapshotOut :=
  mkSnapshotOut (s_snapshot_id s) (s_name s) (s_created_at s) (s_parent_snapshot_id s)
    (s_snapshot_type s).

(** [sorted(t.id for t in vm.tags)] *)
Fixpoint insert_sorted (x : string) (l : list string) : list string :=
  match l with
  | [] => [x]
  | y :: l' => if String.leb x y then x :: l else y :: insert_sorted x l'
  end.
Definition sort_strings (l : list string) : list string := foldr insert_sorted [] l.
Definition tag_ids_of (d : database) (vm_id : string) : list string :=
  sort_strings ((elements (filter (λ vt, vt.1 = vm_id) (vm_tags d))).*2).

(** [state_override or vm.state] *)
Definition effective_state (state_override : option string) (host_offline : bool) (v : Vm) : string :=
  if host_offline then "Unknown"
  else match state_override with
       | Some s => if str_nonempty s then s else v_state v
       | None => v_state v
       end.
Definition vm_out (d : database) (v : Vm) (state_override : option string) (lock : option VmLock)
    (host_offline : bool) : VmOut := {|
  vo_id := v_id v; vo_vm_uuid := v_vm_uuid v; vo_host_id := v_host_id v;
  vo_folder_id := v_folder_id v; vo_name := v_name v;
  vo_state := effective_state state_override host_offline v;
  vo_last_seen := v_last_inventory_at v;
  vo_firmware := if str_nonempty (v_firmware v) then v_firmware v else "UEFI";
  vo_guest_os := v_guest_os v; vo_uptime_sec := v_uptime_sec v; vo_vcpu := v_vcpu v;
  vo_cpu_usage_percent := v_cpu_usage_percent v;
  vo_memory := mkVmMemory (v_memory_bytes v) (v_memory_min_bytes v) (v_memory_max_bytes v)
                 (v_memory_dynamic v) (v_memory_demand_bytes v);
  vo_disks := disk_out <$> v_disks v; vo_nics := nic_out <$> v_nics v;
  vo_snapshots := snapshot_out <$> v_snapshots v;
  vo_secure_boot := v_secure_boot v; vo_secure_boot_template := v_secure_boot_template v;
  vo_nested_virtualization := v_nested_virtualization v;
  vo_auto_start_action := v_auto_start_action v;
  vo_auto_start_delay_sec := v_auto_start_delay_sec v;
  vo_auto_stop_action := v_auto_stop_action v;
  vo_config_path := v_config_path v; vo_dvd_path := v_dvd_path v;
  vo_highly_available := v_highly_available v; vo_notes := v_notes v;
  vo_tag_ids := tag_ids_of d (v_id v);
  vo_metrics_enabled := v_metrics_enabled v; vo_created_at := v_created_at v; vo_lock := lock |}.

(** ** Tags *)
Record TagOut := mkTagOut {
  to_id : string; to_name : string; to_category_id : option string; to_color : string;
  to_vm_count : nat
}.
Definition tag_out (t : Tag) (vm_count : nat) : TagOut :=
  mkTagOut (tg_id t) (tg_name t) (tg_category_id t) (tg_color t) vm_count.

(** ** Folders, categories, VLANs, images, metrics *)
Record FolderOut := mkFolderOut {
  fo_id : string; fo_name : string; fo_cluster_id : option string; fo_host_id : option string
}.
Definition folder_out (f : Folder) : FolderOut :=
  mkFolderOut (f_id f) (f_name f) (f_cluster_id f) (f_host_id f).
Record TagCategoryOut := mkCategoryOut { co_id : string; co_name : string }.
Definition tag_category_out (c : TagCategory) : TagCategoryOut := mkCategoryOut (tc_id c) (tc_name c).
Record VlanOut := mkVlanOut {
  vlo_id : string; vlo_name : string; vlo_vlan_id : Z; vlo_description : option string;
  vlo_is_default : bool; vlo_cluster_id : option string; vlo_host_id : option string
}.
Definition vlan_out (v : Vlan) : VlanOut :=
  mkVlanOut (vl_id v) (vl_name v) (vl_vlan_id v) (vl_description v) (vl_is_default v)
    (vl_cluster_id v) (vl_host_id v).
Record TemplateOut := mkTemplateOut {
  tpo_id : string; tpo_host_id : string; tpo_name : string; tpo_path : string; tpo_size_bytes : Z;
  tpo_disk_size_bytes : Z; tpo_notes : option string; tpo_cpu_count : Z; tpo_memory_mb : Z;
  tpo_guest_os : option string; tpo_created_at : option datetime
}.
Definition template_out (t : Template) : TemplateOut :=
  mkTemplateOut (t_id t) (t_host_id t) (t_name t) (t_path t) (t_size_bytes t) (t_disk_size_bytes t)
    (t_notes t) (t_cpu_count t) (t_memory_mb t) (t_guest_os t) (t_image_created_at t).
Record IsoOut := mkIsoOut {
  io_id : string; io_host_id : string; io_name : string; io_path : string; io_size_bytes : Z;
  io_checksum : option string
}.
Definition iso_out (i : Iso) : IsoOut :=
  mkIsoOut (i_id i) (i_host_id i) (i_name i) (i_path i) (i_size_bytes i) (i_checksum i).
Record HostMetricSample := mkHostSample {
  hs_ts : datetime; hs_cpu_percent : option spec_float; hs_mem_percent : option spec_float;
  hs_disk_latency_ms : option spec_float; hs_net_rx_bps : option Z; hs_net_tx_bps : option Z;
  hs_detail : dict
}.
Definition host_metric_out (m : HostMetric) : HostMetricSample :=
  mkHostSample (hm_ts m) (hm_cpu_percent m) (hm_mem_percent m) (hm_disk_latency_ms m)
    (hm_net_rx_bps m) (hm_net_tx_bps m) (hm_detail m).
Record VmMetricSample := mkVmSample {
  ms_ts : datetime; ms_cpu_percent : option spec_float; ms_mem_bytes : option Z; ms_disk_bytes : option Z;
  ms_net_rx_bytes : option Z; ms_net_tx_bytes : option Z; ms_detail : dict
}.
Definition vm_metric_out (m : VmMetric) : VmMetricSample :=
  mkVmSample (vm_ts m) (vm_cpu_percent m) (vm_mem_bytes m) (vm_disk_bytes m) (vm_net_rx_bytes m)
    (vm_net_tx_bytes m) (vm_detail m).

(** ** Tasks *)
Record TaskOut := mkTaskOut {
  ko_id : string; ko_kind : string; ko_status : string; ko_target_type : string;
  ko_target_id : string; ko_target_name : option string; ko_requested_by : string;
  ko_progress : option Z; ko_progress_message : option string; ko_created_at : Z;
  ko_started_at : option datetime; ko_finished_at : option datetime; ko_result : option string;
  ko_error : option string; ko_correlation_id : option string
}.
Definition task_out (k : Task) : TaskOut :=
  mkTaskOut (k_id k) (k_kind k) (k_status k) (k_target_type k) (k_target_id k) (k_target_name k)
    (k_requested_by k) (k_progress k) (k_progress_message k) (k_created_at k) (k_started_at k)
    (k_finished_at k) (k_result k) (k_error k) (k_correlation_id k).
Record TaskDetailOut := mkTaskDetailOut {
  kd_task : TaskOut; kd_request_payload : option AgentRequest;
  kd_response_payload : option AgentResponse
}.
Definition task_detail_out (k : Task) : TaskDetailOut :=
  mkTaskDetailOut (task_out k) (k_request_payload k) (k_response_payload k).

Lemma same_agent_connected {B} (f : world → B) h : keeps (same f) (agent_connected h).
Proof. unfold agent_connected. keep. Qed.
#[export] Hint Resolve same_agent_connected : frame.
Lemma same_host_out {B} (f : world → B) h n : keeps (same f) (host_out h n).
Proof. unfold host_out. keep. Qed.
#[export] Hint Resolve same_host_out : frame.
Lemma same_host_detail {B hw} (f : world → B) (mv : dict → option hw) h n :
  keeps (same f) (host_detail_out mv h n).
Proof. unfold host_detail_out, hardware_out. keep. Qed.
#[export] Hint Resolve same_host_detail : frame.

(** ** Properties *)

(** A silent host never looks alive.  Once its agent's last report is older
    than [agent_offline_after_seconds] (or it never reported), the host reads
    offline and stays so while time passes, and its VMs are serialised as
    [Unknown] whatever the row or the state overlay says; while it is online
    the overlay wins over the row unless it is empty. *)
Theorem offline_host_hides_vm_state cfg h v overlay now d lock :
  let out t := vm_out d v overlay lock (negb (agent_connected_at cfg t h)) in
  match h_agent_last_seen h with
  | Some last =>
      (now ≤ instant last + seconds (agent_offline_after_seconds cfg) →
         vo_state (out now) = match overlay with
                              | Some s => if str_nonempty s then s else v_state v
                              | None => v_state v
                              end) ∧
      ∀ later, now ≤ later → instant last + seconds (agent_offline_after_seconds cfg) < now →
        vo_state (out later) = "Unknown"
  | None => vo_state (out now) = "Unknown"
  end.
Proof.
  cbv zeta. unfold vm_out, effective_state, agent_connected_at. cbn.
  destruct (h_agent_last_seen h) as [last|]; [|done]. split.
  - intros Hn. destruct (Z.leb_spec (now - seconds (agent_offline_after_seconds cfg)) (instant last)); [done|lia].
  - intros later Hl Hn.
    destruct (Z.leb_spec (later - seconds (agent_offline_after_seconds cfg)) (instant last)); [lia|done].
Qed.
