(* ===== verification/Store.v ===== *)
(** * Row access: primary-key reads, flushes and what the schema enforces on them

    [db.get], [db.add]/flush for the tables the services write, with the
    partial unique indexes on VM GUIDs ([app/models/vm.py]), primary keys the
    caller supplies and the foreign keys that can be violated. *)
From S2P Require Import Prelude Py Clock Model World.
Open Scope string_scope.
Open Scope Z_scope.

Definition get_cluster (id : string) : M (option Cluster) := query (λ d, clusters d !! id).
Definition get_host (id : string) : M (option Host) := query (λ d, hosts d !! id).
Definition get_folder (id : string) : M (option Folder) := query (λ d, folders d !! id).
Definition get_vm (id : string) : M (option Vm) := query (λ d, vms d !! id).
Definition get_task (id : string) : M (option Task) := query (λ d, tasks d !! id).

Definition put_cluster (c : Cluster) : M unit := exec (λ d, d <| clusters ::= <[cl_id c := c]> |>).
Definition put_host (h : Host) : M unit := exec (λ d, d <| hosts ::= <[h_id h := h]> |>).
Definition put_folder (f : Folder) : M unit := exec (λ d, d <| folders ::= <[f_id f := f]> |>).
(** [db.add(row)] of a new row: a primary key in use is rejected *)
Definition add_row {A} (table : database → gmap string A) (id : string) (put : M unit) : M unit :=
  taken ← query (λ d, is_some (table d !! id));
  if (taken : bool) then raise EIntegrity else put.
Definition add_cluster (c : Cluster) : M unit := add_row clusters (cl_id c) (put_cluster c).
Definition add_host (h : Host) : M unit := add_row hosts (h_id h) (put_host h).
Definition add_folder (f : Folder) : M unit := add_row folders (f_id f) (put_folder f).
Lemma add_row_run {A} (table : database → gmap string A) id put w :
  table (w_db w) !! id = None → add_row table id put w = put w.
Proof. intros H. unfold add_row. by rewrite run_query, H. Qed.
Definition put_task (k : Task) : M unit := exec (λ d, d <| tasks ::= <[k_id k := k]> |>).
Lemma add_row_taken {A} (table : database → gmap string A) id put w :
  is_Some (table (w_db w) !! id) → add_row table id put w = (Raise EIntegrity, w).
Proof. intros [x H]. unfold add_row. by rewrite run_query, H. Qed.

(** [uq_vms_cluster_vm_uuid] / [uq_vms_host_vm_uuid]: two rows in one slot *)
Definition same_slot (a b : Vm) : bool :=
  match v_vm_uuid a, v_vm_uuid b with
  | Some x, Some y =>
      String.eqb x y &&
      match v_cluster_id a, v_cluster_id b with
      | Some c, Some c' => String.eqb c c'
      | None, None => String.eqb (v_host_id a) (v_host_id b)
      | _, _ => false
      end
  | _, _ => false
  end.
Definition slot_taken (d : database) (v : Vm) : bool :=
  match rows (λ u, negb (String.eqb (v_id u) (v_id v)) && same_slot u v) (vms d) with
  | [] => false
  | _ => true
  end.
Definition put_vm (v : Vm) : M unit :=
  taken ← query (λ d, slot_taken d v);
  if (taken : bool) then raise EIntegrity else exec (λ d, d <| vms ::= <[v_id v := v]> |>).

Definition add_vm (v : Vm) : M unit := add_row vms (v_id v) (put_vm v).
Definition add_task (k : Task) : M unit := add_row tasks (k_id k) (put_task k).

(** an UPDATE that leaves GUID and placement alone *)
Definition save_vm (v : Vm) : M unit := exec (λ d, d <| vms ::= <[v_id v := v]> |>).

(** ** Reasoning *)
Lemma same_get_host {B} (f : world → B) id : keeps (same f) (get_host id).
Proof. unfold get_host. keep. Qed.
Lemma same_get_vm {B} (f : world → B) id : keeps (same f) (get_vm id).
Proof. unfold get_vm. keep. Qed.
Lemma same_get_folder {B} (f : world → B) id : keeps (same f) (get_folder id).
Proof. unfold get_folder. keep. Qed.
Lemma same_get_cluster {B} (f : world → B) id : keeps (same f) (get_cluster id).
Proof. unfold get_cluster. keep. Qed.
Lemma same_get_task {B} (f : world → B) id : keeps (same f) (get_task id).
Proof. unfold get_task. keep. Qed.
#[export] Hint Resolve same_get_host same_get_vm same_get_folder same_get_cluster same_get_task : frame.

Ltac keep_exec := lazymatch goal with |- keeps (same _) (exec _) => intros ?; reflexivity end.
#[export] Hint Extern 2 (keeps (same _) (put_vm _)) =>
  unfold put_vm; apply keeps_bind; [apply _| |]; intros; [reflexivity|]; keep : frame.
Lemma same_add_row {A B} (f : world → B) (table : database → gmap string A) id put :
  keeps (same f) put → keeps (same f) (add_row table id put).
Proof. intros H. unfold add_row. keep; try exact H. Qed.
#[export] Hint Extern 2 (keeps (same _) (add_vm _)) => unfold add_vm; apply same_add_row; keep : frame.
#[export] Hint Extern 2 (keeps (same _) (add_task _)) =>
  unfold add_task; apply same_add_row; intros ?; reflexivity : frame.
#[export] Hint Extern 2 (keeps (same _) (save_vm _)) => intros ?; reflexivity : frame.
#[export] Hint Extern 2 (keeps (same _) (put_task _)) => intros ?; reflexivity : frame.
#[export] Hint Extern 2 (keeps (same _) (put_host _)) => intros ?; reflexivity : frame.
#[export] Hint Extern 2 (keeps (same _) (put_folder _)) => intros ?; reflexivity : frame.
#[export] Hint Extern 2 (keeps (same _) (put_cluster _)) => intros ?; reflexivity : frame.

(** The tables are keyed by their primary keys. *)
Definition keyed (d : database) : Prop :=
  (∀ k v, vms d !! k = Some v → v_id v = k) ∧
  (∀ k h, hosts d !! k = Some h → h_id h = k) ∧
  (∀ k t, tasks d !! k = Some t → k_id t = k).
(** The GUID indexes hold. *)
Definition guids_unique (d : database) : Prop :=
  ∀ k k' v v', vms d !! k = Some v → vms d !! k' = Some v' → same_slot v v' = true → k = k'.
(** [vms.cluster_id] is its host's. *)
Definition placed (d : database) : Prop :=
  ∀ k v, vms d !! k = Some v →
    ∃ h, hosts d !! v_host_id v = Some h ∧ v_cluster_id v = h_cluster_id h.

Lemma same_slot_sym a b : same_slot a b = same_slot b a.
Proof.
  unfold same_slot. destruct (v_vm_uuid a), (v_vm_uuid b); try done.
  destruct (v_cluster_id a), (v_cluster_id b); f_equal; auto using String.eqb_sym.
Qed.
Lemma slot_taken_false d v :
  keyed d → slot_taken d v = false ↔
  ∀ k u, vms d !! k = Some u → same_slot u v = true → k = v_id v.
Proof.
  intros (Hk & _). unfold slot_taken.
  set (p := λ u, negb (String.eqb (v_id u) (v_id v)) && same_slot u v).
  assert ((match rows p (vms d) with [] => false | _ => true end = false) ↔ rows p (vms d) = []) as ->.
  { by destruct (rows p (vms d)). }
  rewrite rows_nil. unfold p. split; intros H k u Hu.
  - intros Hs. specialize (H k u Hu). rewrite Hs, andb_true_r in H.
    bool_prop. apply String.eqb_eq in H. rewrite <- H. symmetry. eauto.
  - apply andb_false_iff. destruct (same_slot u v) eqn:E; [left|by right].
    rewrite negb_false_iff. apply String.eqb_eq. rewrite (Hk k u Hu). eauto.
Qed.
Lemma put_vm_ok v w :
  slot_taken (w_db w) v = false →
  put_vm v w = (Ok tt, w <| w_db := w_db w <| vms ::= <[v_id v := v]> |> |>).
Proof. intros H. unfold put_vm, query, gets, mbind, M_bind. cbn. by rewrite H. Qed.

(** the row a route loads, or its 404 *)
Definition with_row {A} (get : M (option A)) (what : string) (op : A → M unit) : M unit :=
  row ← get; match row with Some r => op r | None => not_found what end.

(** ** Transactions and database invariants *)
(** [m] keeps [I] whenever it returns; in a transaction it then always does. *)
Definition upholds {A} (I : database → Prop) (m : M A) : Prop :=
  ∀ w, I (w_db w) → wp m (λ _ w', I (w_db w')) (λ _ _, True) w.
Section upholds.
Context (I : database → Prop).

Lemma upholds_scope {A} (m : M A) w :
  upholds I m → I (w_db w) → I (w_db (session_scope m w).2).
Proof.
  intros Hm W. specialize (Hm w W). unfold wp, session_scope, savepoint in *. by destruct (m w) as [[a|e] w'].
Qed.
Lemma upholds_then {A} (m : M A) : upholds I m → upholds I (m;; mret tt).
Proof. intros H w W. apply wp_bind. eapply wp_mono; [by apply H| |]; done. Qed.
Lemma upholds_row {A} (table : database → gmap string A) id what (op : A → M unit) :
  (∀ r w, I (w_db w) → table (w_db w) !! id = Some r →
    wp (op r) (λ _ w', I (w_db w')) (λ _ _, True) w) →
  upholds I (with_row (query (λ d, table d !! id)) what op).
Proof. intros H w W. unfold with_row, wp. rewrite run_query. destruct (_ !! id) eqn:E; [by apply H|done]. Qed.
(** an invariant through a computation, every intermediate state included *)
Definition safe (w w' : world) : Prop := I (w_db w) → I (w_db w').
#[export] Instance safe_preorder : PreOrder safe.
Proof. split; unfold safe; red; auto. Qed.
Lemma safe_same {A} (m : M A) : keeps (same w_db) m → keeps safe m.
Proof. intros H w. specialize (H w). unfold same, safe in *. by rewrite H. Qed.
Lemma safe_scope {A} (m : M A) : keeps safe m → keeps safe (session_scope m).
Proof. intros H w. specialize (H w). unfold session_scope, savepoint, safe in *. by destruct (m w) as [[a|e] w']. Qed.
Lemma safe_exec f : (∀ d, I d → I (f d)) → keeps safe (exec f).
Proof. intros H w V. by apply H. Qed.
Lemma safe_with_row {A} (get : M (option A)) what op :
  keeps (same w_db) get → (∀ r, keeps safe (op r)) → keeps safe (with_row get what op).
Proof.
  intros Hg Ho. unfold with_row. apply keeps_bind; [apply _|by apply safe_same|].
  intros [r|]; [apply Ho|]. by intros w.
Qed.
End upholds.

Section steps.
Context {A B : Type}.
(** a step that does not touch the database *)
Lemma wp_read (m : M A) (k : A → M B) Q w :
  keeps (same w_db) m → (∀ a w', m w = (Ok a, w') → w_db w' = w_db w → wp (k a) Q (λ _ _, True) w') →
  wp (m ≫= k) Q (λ _ _, True) w.
Proof.
  intros Hm Hk. specialize (Hm w). apply wp_bind. unfold wp at 1. unfold same in Hm.
  destruct (m w) as [[a|e] w'] eqn:E; [by apply Hk|done].
Qed.
Lemma wp_query (f : database → A) (k : A → M B) Q R w : wp (k (f (w_db w))) Q R w → wp (query f ≫= k) Q R w.
Proof. done. Qed.
Lemma wp_exec f (k : unit → M B) Q R w : wp (k tt) Q R (w <| w_db ::= f |>) → wp (exec f ≫= k) Q R w.
Proof. done. Qed.
Lemma wp_guard (b : bool) e (k : unit → M B) Q w :
  (b = false → wp (k tt) Q (λ _ _, True) w) → wp ((if b then raise e else mret tt) ≫= k) Q (λ _ _, True) w.
Proof. intros H. destruct b; [done|by apply H]. Qed.
End steps.
Lemma wp_add_row {A B} (table : database → gmap string A) id put (k : unit → M B) Q w :
  (table (w_db w) !! id = None → wp (put ≫= k) Q (λ _ _, True) w) →
  wp (add_row table id put ≫= k) Q (λ _ _, True) w.
Proof.
  intros H. unfold wp in *. unfold mbind, M_bind in *. unfold add_row. rewrite run_query.
  destruct (table (w_db w) !! id) as [x|]; [done|]. by apply H.
Qed.
Ltac step := lazymatch goal with
  | |- wp (query _ ≫= _) _ _ _ => apply wp_query; cbn beta
  | |- wp (exec _ ≫= _) _ _ _ => apply wp_exec
  | |- wp (mret _ ≫= _) _ _ _ => apply wp_bind, wp_ret; cbn beta
  | |- wp (mret _) _ _ _ => apply wp_ret
  | |- wp (raise _) _ _ _ => exact I
  | |- wp (api_error _ _ _) _ _ _ => exact I
  | |- wp (not_found _) _ _ _ => exact I
  | |- wp (_ ≫= _) _ _ _ => apply wp_read; [keep|intros ? ? ? ?]
  end.
Ltac safe := repeat first
  [ solve [apply safe_same; keep]
  | apply safe_scope
  | apply safe_with_row; [solve [keep]|intros ?]
  | lazymatch goal with
    | |- keeps _ (add_row _ _ _) => unfold add_row
    | |- keeps _ (exec _) => apply safe_exec; intros ?
    end
  | keep_step ].
