(* ===== verification/Hosts.v ===== *)
(** * Hosts: registration, agent credentials, messaging ([app/services/hosts.py])

    A host is a row, its queues and its agent's RabbitMQ user; the three are
    created together and torn down together. *)
From S2P Require Import Prelude Py Clock Model World Store Messaging.
From Stdlib Require Import Ascii.
Open Scope string_scope.
Open Scope Z_scope.

Definition provision_host_queues (host_ref : string) : M unit := declare_host_queues host_ref.
(** [for short_id in short_ids: declare_host_queues]; the count *)
Definition ensure_all_host_queues : M nat :=
  short_ids ← query (λ d, h_short_id <$> rows (λ _, true) (hosts d));
  for_each short_ids declare_host_queues;;
  mret (length short_ids).
Definition given_str (o : option string) : bool := match o with Some s => str_nonempty s | None => false end.
(** the row with its credentials filled in, and whether it changed *)
Definition ensure_host_agent_credentials (h : Host) : M (Host * bool) :=
  let user_missing := negb (given_str (h_agent_rmq_user h)) in
  let h := if user_missing then h <| h_agent_rmq_user := Some (new_agent_rmq_user (h_short_id h)) |> else h in
  if given_str (h_agent_rmq_password h) then mret (h, user_missing)
  else
    password ← new_agent_rmq_password;
    mret (h <| h_agent_rmq_password := Some password |>, true).
Definition ensure_host_agent_user (h : Host) : M unit :=
  match h_agent_rmq_user h, h_agent_rmq_password h with
  | Some user, Some password =>
      if str_nonempty user && str_nonempty password then
        upsert_user user password;;
        set_permissions user (agent_permission_pattern (h_short_id h)) (agent_write_pattern (h_short_id h))
          (agent_permission_pattern (h_short_id h))
      else raise EAssert
  | _, _ => raise EAssert
  end.
Definition provision_host_agent_user (h : Host) : M Host :=
  hc ← ensure_host_agent_credentials h;
  put_host hc.1;;
  ensure_host_agent_user hc.1;;
  mret hc.1.
(** best-effort: what the broker refuses is logged *)
Definition deprovision_host_messaging (host_ref : string) (agent_rmq_user : option string) : M unit :=
  try_except (delete_host_queues host_ref) (λ _, mret tt);;
  match agent_rmq_user with
  | Some user => if str_nonempty user then try_except (delete_user user) (λ _, mret tt) else mret tt
  | None => mret tt
  end.
Definition short_id_taken (d : database) (s : string) : bool :=
  negb (bool_decide (rows (λ h, String.eqb (h_short_id h) s) (hosts d) = [])).
Definition bare_host (id short_id : string) (cluster_id : option string) (name hypervisor : string) : Host :=
  mkHost id short_id cluster_id name None None hypervisor None None None None None None None.
Definition create_host (name : string) (cluster_id : option string) (hypervisor : string) : M Host :=
  cluster ← match cluster_id with Some c => get_cluster c | None => mret None end;
  if is_some cluster_id && negb (is_some cluster) then not_found "Cluster"
  else
    match cluster with
    | Some c =>
        if negb (String.eqb (cl_hypervisor c) hypervisor) then
          api_error "INVALID" ("Cluster runs " +:+ cl_hypervisor c +:+ "; cannot add a " +:+ hypervisor +:+ " host") 400
        else mret tt
    | None => mret tt
    end;;
    id ← new_id;
    name' ← col_str 255 (JStr (strip name)) ≫= not_null;
    short_id ← new_host_short_id;
    taken ← query (λ d, short_id_taken d short_id);
    (if taken : bool then raise EIntegrity else mret tt);;
    let h := bare_host id short_id cluster_id name' hypervisor in
    add_host h;;
    provision_host_queues short_id;;
    provision_host_agent_user h.
(** [app/services/organization.py] *)
Definition delete_host (h : Host) : M unit :=
  exec (delete_host_row (h_id h));;
  deprovision_host_messaging (h_short_id h) (h_agent_rmq_user h).

(** ** Provisioning *)

(** the agent's account: its password and the host's own queues *)
Definition agent_account (h : Host) (password : string) : RmqUser :=
  mkRmqUser password (agent_permission_pattern (h_short_id h)) (agent_write_pattern (h_short_id h))
    (agent_permission_pattern (h_short_id h)).
Lemma agent_user_run h user password w :
  w_broker_up w = true → h_agent_rmq_user h = Some user → h_agent_rmq_password h = Some password →
  user ≠ "" → password ≠ "" →
  ∃ b, ensure_host_agent_user h w = (Ok tt, w <| w_mq := b |>) ∧
    rmq_users b = <[user := agent_account h password]> (rmq_users (w_mq w)) ∧
    queues b = queues (w_mq w) ∧ published b = published (w_mq w).
Proof.
  intros Hup Hu Hp Nu Np. unfold ensure_host_agent_user. rewrite Hu, Hp.
  assert (str_nonempty user = true) as -> by (by destruct user).
  assert (str_nonempty password = true) as -> by (by destruct password). cbn [andb].
  unfold upsert_user, set_permissions, mbind, M_bind, broker_op. rewrite Hup. cbn. rewrite Hup, lookup_insert_eq.
  eexists. split; [reflexivity|]. cbn. split; [|done]. rewrite insert_insert_eq. f_equal.
  by destruct (rmq_users (w_mq w) !! user).
Qed.
Lemma deprovision_run h user w :
  w_broker_up w = true → user ≠ "" →
  ∃ b, deprovision_host_messaging h (Some user) w = (Ok tt, w <| w_mq := b |>) ∧
    (∀ kd, queues b !! queue_name h kd = None) ∧
    (∀ n, (∀ kd, n ≠ queue_name h kd) → queues b !! n = queues (w_mq w) !! n) ∧
    rmq_users b = delete user (rmq_users (w_mq w)) ∧ published b = published (w_mq w).
Proof.
  intros Hup Hne. unfold deprovision_host_messaging.
  assert (str_nonempty user = true) as -> by (by destruct user).
  destruct (delete_list h ALL_KINDS w Hup) as (b & Hb & Hin & Hout & Hru & Hpub).
  assert (try_except (delete_host_queues h) (λ _, mret tt) w = (Ok tt, w <| w_mq := b |>)) as H1.
  { unfold try_except, delete_host_queues. by rewrite Hb. }
  rewrite (run_ok _ _ _ _ _ H1). unfold try_except, delete_user, broker_op. cbn. rewrite Hup.
  eexists. split; [reflexivity|]. cbn. rewrite Hru, Hpub. split; [|split; [|done]].
  - intros kd. apply Hin, list_elem_of_fmap. exists kd. split; [done|]. apply all_kinds.
  - intros n Hn. apply Hout. intros (kd & E & _)%list_elem_of_fmap. by apply (Hn kd).
Qed.

(** the short id the next registration draws *)
Definition next_short_id (w : world) : string :=
  stake 10 (join "" (split_char "-"%char (w_uuid4 w (S (w_seq w))))).
(** the row a registration writes *)
Definition new_host (w : world) (name : string) (cluster_id : option string) (hypervisor : string) : Host :=
  bare_host (w_uuid4 w (w_seq w)) (next_short_id w) cluster_id (strip name) hypervisor
    <| h_agent_rmq_user := Some (new_agent_rmq_user (next_short_id w)) |>
    <| h_agent_rmq_password := Some (w_token w (S (S (w_seq w)))) |>.
Lemma create_host_run w name cluster_id hypervisor :
  w_broker_up w = true → (String.length (strip name) ≤ 255)%nat →
  (∀ c, cluster_id = Some c → ∃ r, clusters (w_db w) !! c = Some r ∧ cl_hypervisor r = hypervisor) →
  short_id_taken (w_db w) (next_short_id w) = false → w_token w (S (S (w_seq w))) ≠ "" →
  (∀ kd a, queues (w_mq w) !! queue_name (next_short_id w) kd = Some a → a = queue_args (w_cfg w) kd) →
  hosts (w_db w) !! w_uuid4 w (w_seq w) = None →
  let h := new_host w name cluster_id hypervisor in
  ∃ w', create_host name cluster_id hypervisor w = (Ok h, w') ∧
    w_db w' = w_db w <| hosts ::= <[h_id h := h]> |> ∧ w_cfg w' = w_cfg w ∧ w_broker_up w' = true ∧
    (∀ kd, queues (w_mq w') !! queue_name (h_short_id h) kd = Some (queue_args (w_cfg w) kd)) ∧
    (∀ n, (∀ kd, n ≠ queue_name (h_short_id h) kd) → queues (w_mq w') !! n = queues (w_mq w) !! n) ∧
    rmq_users (w_mq w') = <[new_agent_rmq_user (h_short_id h) := agent_account h (w_token w (S (S (w_seq w))))]>
                            (rmq_users (w_mq w)).
Proof.
  intros Hup Hname Hcl Hfree Htok Hq Hid. cbv zeta. unfold create_host.
  assert ((match cluster_id with Some c => get_cluster c | None => mret None end) w =
    (Ok (cluster_id ≫= λ c, clusters (w_db w) !! c), w)) as H1 by (by destruct cluster_id).
  rewrite (run_ok _ _ _ _ _ H1). set (row := cluster_id ≫= _).
  assert (is_some cluster_id && negb (is_some row) = false) as ->.
  { destruct cluster_id as [c|]; [|done]. destruct (Hcl c eq_refl) as (r & E & _). unfold row. cbn. by rewrite E. }
  assert ((match row with
    | Some c => if negb (String.eqb (cl_hypervisor c) hypervisor) then
        api_error "INVALID" ("Cluster runs " +:+ cl_hypervisor c +:+ "; cannot add a " +:+ hypervisor +:+ " host") 400
        else mret tt
    | None => mret tt end : M unit) w = (Ok tt, w)) as H2.
  { destruct cluster_id as [c|]; [|done]. destruct (Hcl c eq_refl) as (r & E & Hh). unfold row. cbn. rewrite E.
    by rewrite Hh, String.eqb_refl. }
  rewrite (run_ok _ _ _ _ _ H2), run_new_id. set (w1 := w <| w_seq ::= S |>).
  assert ((col_str 255 (JStr (strip name)) ≫= not_null) w1 = (Ok (strip name), w1)) as H3.
  { unfold col_str. apply Nat.leb_le in Hname. by rewrite Hname. }
  rewrite (run_ok _ _ _ _ _ H3). unfold new_host_short_id. rewrite run_assoc, run_new_id, run_ret, run_query.
  change (short_id_taken _ _) with (short_id_taken (w_db w) (next_short_id w)). rewrite Hfree.
  change (stake 10 _) with (next_short_id w). rewrite run_ret.
  set (h0 := bare_host _ _ _ _ _). set (w0 := _ <| w_seq ::= S |>).
  assert (add_host h0 w0 = (Ok tt, w0 <| w_db ::= λ d, d <| hosts ::= <[h_id h0 := h0]> |> |>)) as H0.
  { unfold add_host. by rewrite add_row_run. }
  rewrite (run_ok _ _ _ _ _ H0). clear H0. set (w2 := _ <| w_db ::= _ |>).
  unfold provision_host_queues, declare_host_queues. rewrite run_assoc, run_settings.
  destruct (declare_list (next_short_id w) ALL_KINDS w2 Hup) as (b & Hb & Hin & Hout & Hp & Hu).
  { intros kd a _. apply Hq. }
  rewrite (run_ok _ _ _ _ _ Hb). unfold provision_host_agent_user. set (w3 := w2 <| w_mq := b |>).
  assert (ensure_host_agent_credentials h0 w3 = (Ok (new_host w name cluster_id hypervisor, true), w3 <| w_seq ::= S |>))
    as H4 by reflexivity.
  rewrite (run_ok _ _ _ _ _ H4).
  cbn [fst]. unfold put_host. rewrite run_exec. set (w4 := _ <| w_db ::= _ |>).
  destruct (agent_user_run (new_host w name cluster_id hypervisor) (new_agent_rmq_user (next_short_id w))
    (w_token w (S (S (w_seq w)))) w4) as (b2 & Hr & Hu2 & Hq2 & _); [exact Hup|done|done|discriminate|done|].
  rewrite (run_ok _ _ _ _ _ Hr). eexists. split; [reflexivity|]. split.
  { cbn. unfold set_field; cbn. f_equal. by rewrite insert_insert_eq. }
  split; [done|]. split; [done|]. split; [|split].
  - intros kd. cbn. rewrite Hq2. apply Hin. apply all_kinds.
  - intros n Hn. cbn. rewrite Hq2. apply Hout. intros kd _. apply Hn.
  - cbn. rewrite Hu2. cbn. by rewrite Hu.
Qed.

(** C19: a host's messaging lives exactly as long as its row.  Registering a host
    (the broker up, the cluster of the same hypervisor, a free short id) adds
    its row, declares its nine queues with their arguments and gives its agent
    an account with the password stored on the row, confined to the host's own
    queues; deleting the host then removes the row, the nine queues and the
    account, and leaves every other queue and account as it was before. *)
Theorem host_messaging_roundtrip w name cluster_id hypervisor :
  w_broker_up w = true → (String.length (strip name) ≤ 255)%nat →
  (∀ c, cluster_id = Some c → ∃ r, clusters (w_db w) !! c = Some r ∧ cl_hypervisor r = hypervisor) →
  short_id_taken (w_db w) (next_short_id w) = false → w_token w (S (S (w_seq w))) ≠ "" →
  (∀ kd a, queues (w_mq w) !! queue_name (next_short_id w) kd = Some a → a = queue_args (w_cfg w) kd) →
  hosts (w_db w) !! w_uuid4 w (w_seq w) = None →
  ∃ h w1 w2 user password,
    create_host name cluster_id hypervisor w = (Ok h, w1) ∧
    hosts (w_db w1) = <[h_id h := h]> (hosts (w_db w)) ∧
    h_cluster_id h = cluster_id ∧ h_hypervisor h = hypervisor ∧
    h_agent_rmq_user h = Some user ∧ h_agent_rmq_password h = Some password ∧
    host_queues_ok w1 (h_short_id h) ∧
    rmq_users (w_mq w1) !! user = Some (agent_account h password) ∧
    delete_host h w1 = (Ok tt, w2) ∧
    hosts (w_db w2) = hosts (w_db w) ∧
    (∀ kd, queues (w_mq w2) !! queue_name (h_short_id h) kd = None) ∧ rmq_users (w_mq w2) !! user = None ∧
    (∀ n, (∀ kd, n ≠ queue_name (h_short_id h) kd) → queues (w_mq w2) !! n = queues (w_mq w) !! n) ∧
    (∀ u, u ≠ user → rmq_users (w_mq w2) !! u = rmq_users (w_mq w) !! u).
Proof.
  intros Hup Hname Hcl Hfree Htok Hq Hid.
  destruct (create_host_run w name cluster_id hypervisor) as (w1 & Hr & Hdb & Hcfg & Hup1 & Hq1 & Ho1 & Hu1); [done..|].
  set (h := new_host w name cluster_id hypervisor) in *. set (user := new_agent_rmq_user (h_short_id h)) in *.
  set (w1' := w1 <| w_db ::= delete_host_row (h_id h) |>).
  destruct (deprovision_run (h_short_id h) user w1' Hup1) as (b & Hd & Hq2 & Ho2 & Hu2 & _); [discriminate|].
  exists h, w1, (w1' <| w_mq := b |>), user, (w_token w (S (S (w_seq w)))).
  split; [exact Hr|]. split; [by rewrite Hdb|]. do 4 (split; [done|]).
  split; [intros kd; by rewrite Hcfg|]. split; [by rewrite Hu1, lookup_insert_eq|].
  split; [exact Hd|]. split.
  { change (delete (h_id h) (hosts (w_db w1)) = hosts (w_db w)). rewrite Hdb. cbn. by apply delete_insert_id. }
  split; [exact Hq2|]. split; [cbn; by rewrite Hu2, lookup_delete_eq|]. split.
  - intros n Hn. cbn. by rewrite Ho2, Ho1.
  - intros u Hne. cbn. rewrite Hu2, lookup_delete_ne by done. cbn. by rewrite Hu1, lookup_insert_ne.
Qed.
Lemma host_messaging_roundtrip_witness : ∃ h w1 w2,
  create_host " node-1 " None "hyperv" sample_world = (Ok h, w1) ∧ host_queues_ok w1 (h_short_id h) ∧
  delete_host h w1 = (Ok tt, w2) ∧ ∀ kd, queues (w_mq w2) !! queue_name (h_short_id h) kd = None.
Proof.
  destruct (host_messaging_roundtrip sample_world " node-1 " None "hyperv")
    as (h & w1 & w2 & user & password & Hr & _ & _ & _ & _ & _ & Hq & _ & Hd & _ & Hn & _).
  - reflexivity.
  - vm_compute. lia.
  - intros c Hc. discriminate Hc.
  - vm_compute. reflexivity.
  - discriminate.
  - intros kd a Ha. discriminate Ha.
  - reflexivity.
  - exists h, w1, w2. split; [exact Hr|]. split; [exact Hq|]. split; [exact Hd|exact Hn].
Defined.
