(* ===== verification/Organization.v ===== *)
(** * Clusters, hosts, folders ([app/services/organization.py])

    Where hosts and VMs live and how they are grouped.  [well_placed] is the
    invariant the rest of the backend relies on - RBAC follows folders to hosts
    to clusters, inventory scopes GUIDs by cluster - and every operation keeps
    it. *)
From S2P Require Import Prelude Py Clock Model World Store Messaging Hosts.
Open Scope string_scope.
Open Scope Z_scope.

(** ** Clusters *)
Definition name_column (name : string) : M string := col_str 255 (JStr (strip name)) ≫= not_null.
Definition create_cluster (name hypervisor : string) : M Cluster :=
  id ← new_id;
  name ← name_column name;
  let cluster := mkCluster id name hypervisor in
  add_cluster cluster;;
  mret cluster.
Definition rename_cluster (c : Cluster) (name : string) : M Cluster :=
  name ← name_column name;
  let cluster := c <| cl_name := name |> in
  put_cluster cluster;;
  mret cluster.
Definition delete_cluster (c : Cluster) : M unit :=
  host_count ← query (λ d, length (rows (λ h, bool_decide (h_cluster_id h = Some (cl_id c))) (hosts d)));
  if (host_count =? 0)%nat then exec (delete_cluster_row (cl_id c))
  else api_error "INVALID" "This cluster still has hosts - move or remove them first" 400.

(** ** Cluster membership *)

(** [UPDATE vms SET cluster_id, folder_id = NULL WHERE host_id] *)
Definition move_rows (hid : string) (cluster_id : option string) (d : database) : database :=
  d <| vms ::= fmap (λ v, if String.eqb (v_host_id v) hid
                          then v <| v_cluster_id := cluster_id |> <| v_folder_id := None |> else v) |>.
(** two rows in one GUID slot *)
Definition slot_clash (d : database) : bool :=
  existsb (λ v, slot_taken d v) (rows (λ _, true) (vms d)).
Definition move_host (h : Host) (cluster_id : option string) : M Host :=
  target ← match cluster_id with Some c => get_cluster c | None => mret None end;
  if is_some cluster_id && negb (is_some target) then not_found "Cluster"
  else
    match target with
    | Some c =>
        if negb (String.eqb (cl_hypervisor c) (h_hypervisor h)) then
          api_error "INVALID" ("This host runs " +:+ h_hypervisor h +:+ "; the cluster runs " +:+ cl_hypervisor c) 400
        else mret tt
    | None => mret tt
    end;;
    if bool_decide (h_cluster_id h = cluster_id) then mret h
    else
      let moved := h <| h_cluster_id := cluster_id |> in
      put_host moved;;
      exec (move_rows (h_id h) cluster_id);;
      clash ← query slot_clash;
      (if clash : bool then raise EIntegrity else mret tt);;
      exec (delete_folders (λ f, bool_decide (f_host_id f = Some (h_id h))));;
      mret moved.

(** ** Folders *)
Definition create_folder (name : string) (cluster_id host_id : option string) : M Folder :=
  if Bool.eqb (given_str cluster_id) (given_str host_id) then
    api_error "INVALID" "Provide exactly one of clusterId or hostId" 400
  else
    match cluster_id with
    | Some c => cluster ← get_cluster c; if is_some cluster then mret tt else not_found "Cluster"
    | None =>
        h ← get_host (default "" host_id);
        match h with
        | None => not_found "Host"
        | Some h =>
            if is_some (h_cluster_id h) then
              api_error "INVALID" "This host is in a cluster - create the folder on the cluster instead" 400
            else mret tt
        end
    end;;
    id ← new_id;
    name ← name_column name;
    let folder := mkFolder id cluster_id host_id name in
    (* the check constraint: exactly one scope *)
    (if Bool.eqb (is_some cluster_id) (is_some host_id) then raise EIntegrity else mret tt);;
    add_folder folder;;
    mret folder.
Definition rename_folder (f : Folder) (name : string) : M Folder :=
  name ← name_column name;
  let folder := f <| f_name := name |> in
  put_folder folder;;
  mret folder.
Definition delete_folder (f : Folder) : M nat :=
  detached ← query (λ d, length (rows (λ v, bool_decide (v_folder_id v = Some (f_id f))) (vms d)));
  exec (delete_folders (λ f', String.eqb (f_id f') (f_id f)));;
  mret detached.
Definition move_vm_to_folder (vm : Vm) (folder_id : option string) : M Vm :=
  match folder_id with
  | None => let vm := vm <| v_folder_id := None |> in save_vm vm;; mret vm
  | Some fid =>
      folder ← get_folder fid;
      match folder with
      | None => not_found "Folder"
      | Some f =>
          h ← get_host (v_host_id vm);
          match h with
          | None => raise EAssert
          | Some h =>
              match f_cluster_id f with
              | Some c =>
                  if negb (bool_decide (h_cluster_id h = Some c)) then
                    api_error "INVALID" "That folder belongs to a different cluster than this VM's host" 400
                  else mret tt
              | None =>
                  if is_some (h_cluster_id h) || negb (bool_decide (f_host_id f = Some (h_id h))) then
                    api_error "INVALID" "That folder does not belong to this VM's host" 400
                  else mret tt
              end;;
              let vm := vm <| v_folder_id := Some (f_id f) |> in
              save_vm vm;;
              mret vm
          end
      end
  end.
Definition cluster_host_ids (cluster_id : string) : M (list string) :=
  query (λ d, h_id <$> rows (λ h, bool_decide (h_cluster_id h = Some cluster_id)) (hosts d)).

(** ** The placement invariant *)

(** a folder hangs off one existing cluster, or off one existing standalone host *)
Definition folder_scoped (d : database) (f : Folder) : Prop :=
  match f_cluster_id f, f_host_id f with
  | Some c, None => is_Some (clusters d !! c)
  | None, Some h => ∃ r, hosts d !! h = Some r ∧ h_cluster_id r = None
  | _, _ => False
  end.
(** the folder belongs to where the VM runs *)
Definition folder_fits (f : Folder) (v : Vm) : Prop :=
  match f_cluster_id f with
  | Some c => v_cluster_id v = Some c
  | None => v_cluster_id v = None ∧ f_host_id f = Some (v_host_id v)
  end.
(** [agree]: what the hypervisors of a cluster and of its hosts have in common *)
Record placed_with (agree : string → string → Prop) (d : database) : Prop := {
  wp_cluster_key k c : clusters d !! k = Some c → cl_id c = k;
  wp_host_key k h : hosts d !! k = Some h → h_id h = k;
  wp_folder_key k f : folders d !! k = Some f → f_id f = k;
  wp_vm_key k v : vms d !! k = Some v → v_id v = k;
  wp_host_cluster k h c : hosts d !! k = Some h → h_cluster_id h = Some c →
    ∃ r, clusters d !! c = Some r ∧ agree (cl_hypervisor r) (h_hypervisor h);
  wp_vm_placed k v : vms d !! k = Some v →
    ∃ h, hosts d !! v_host_id v = Some h ∧ v_cluster_id v = h_cluster_id h;
  wp_folder_scoped k f : folders d !! k = Some f → folder_scoped d f;
  wp_vm_folder k v fid : vms d !! k = Some v → v_folder_id v = Some fid →
    ∃ f, folders d !! fid = Some f ∧ folder_fits f v
}.
Arguments wp_cluster_key {agree} d _.
Arguments wp_host_key {agree} d _.
Arguments wp_folder_key {agree} d _.
Arguments wp_vm_key {agree} d _.
Arguments wp_host_cluster {agree} d _.
Arguments wp_vm_placed {agree} d _.
Arguments wp_folder_scoped {agree} d _.
Arguments wp_vm_folder {agree} d _.
(** requests keep them equal; an agent reports the hypervisor it likes *)
Abbreviation well_placed := (placed_with eq).
Abbreviation sited := (placed_with (λ _ _, True)).
Lemma placed_weaken (R S : string → string → Prop) d : (∀ a b, R a b → S a b) → placed_with R d → placed_with S d.
Proof.
  intros H W. split; try apply W. intros k h c Hh Hc. destruct (wp_host_cluster d W k h c Hh Hc) as (r & Hr & E). eauto.
Qed.
Section placement.
Context {agree : string → string → Prop} `{!Reflexive agree}.
#[local] Abbreviation located := (placed_with agree).
Lemma well_placed_empty : located empty_db.
Proof. split; intros *; cbn; rewrite lookup_empty; done. Qed.

(** *** Clusters *)
Lemma put_cluster_wp d c :
  located d → (∀ o, clusters d !! cl_id c = Some o → cl_hypervisor o = cl_hypervisor c) →
  located (d <| clusters ::= <[cl_id c := c]> |>).
Proof.
  intros W Hhyp. split; cbn.
  - intros k c'. rewrite lookup_insert_Some. intros [[? ?]|[_ H]]; [congruence|by eapply wp_cluster_key].
  - apply (wp_host_key d W).
  - apply (wp_folder_key d W).
  - apply (wp_vm_key d W).
  - intros k h c' Hh Hc. destruct (wp_host_cluster d W k h c' Hh Hc) as (r & Hr & E).
    destruct (decide (cl_id c = c')) as [<-|N].
    + exists c. rewrite lookup_insert_eq. split; [done|]. rewrite <- (Hhyp r Hr). done.
    + exists r. by rewrite lookup_insert_ne.
  - apply (wp_vm_placed d W).
  - intros k f Hf. pose proof (wp_folder_scoped d W k f Hf) as S. unfold folder_scoped in *. cbn.
    destruct (f_cluster_id f) as [c'|], (f_host_id f); try done.
    destruct (decide (cl_id c = c')) as [<-|N]; [by rewrite lookup_insert_eq|by rewrite lookup_insert_ne].
  - apply (wp_vm_folder d W).
Qed.

(** *** Folders *)
Lemma put_folder_wp d f :
  located d → folder_scoped d f →
  (∀ o, folders d !! f_id f = Some o → f_cluster_id o = f_cluster_id f ∧ f_host_id o = f_host_id f) →
  located (d <| folders ::= <[f_id f := f]> |>).
Proof.
  intros W Sc Hold. split; cbn; try apply W.
  - intros k f'. rewrite lookup_insert_Some. intros [[? ?]|[_ H]]; [congruence|by eapply wp_folder_key].
  - intros k f'. rewrite lookup_insert_Some. intros [[_ <-]|[_ H]]; [exact Sc|apply (wp_folder_scoped d W k f' H)].
  - intros k v fid Hv Hf. destruct (wp_vm_folder d W k v fid Hv Hf) as (o & Ho & Fit).
    destruct (decide (f_id f = fid)) as [<-|N].
    + exists f. rewrite lookup_insert_eq. split; [done|]. destruct (Hold o Ho) as [E1 E2].
      unfold folder_fits in *. by rewrite <- E1, <- E2.
    + exists o. by rewrite lookup_insert_ne.
Qed.
Lemma delete_folders_vm d p k v' :
  vms (delete_folders p d) !! k = Some v' →
  ∃ v, vms d !! k = Some v ∧ v_id v' = v_id v ∧ v_host_id v' = v_host_id v ∧ v_cluster_id v' = v_cluster_id v ∧
    ∀ fid, v_folder_id v' = Some fid → v_folder_id v = Some fid ∧
      ∀ f, folders d !! fid = Some f → p f = false.
Proof.
  unfold delete_folders. cbn. rewrite lookup_fmap. intros H. apply fmap_Some in H as (v & Hv & ->).
  exists v. destruct (v_folder_id v) as [g|] eqn:Eg; [|by rewrite Eg].
  destruct (folders d !! g) as [fo|] eqn:Ef; [destruct (p fo) eqn:Ep|]; cbn; try done.
  all: split_and!; try done; intros fid E; simplify_eq; split; [done|]; intros f Hf; congruence.
Qed.
Lemma delete_folders_folder d p k f :
  folders (delete_folders p d) !! k = Some f ↔ folders d !! k = Some f ∧ p f = false.
Proof. unfold delete_folders. cbn. by rewrite lookup_keep, negb_true_iff. Qed.
Lemma delete_folders_wp d p : located d → located (delete_folders p d).
Proof.
  intros W. split; try apply (wp_cluster_key d W); try apply (wp_host_key d W); try apply (wp_host_cluster d W).
  - intros k f (H & _)%delete_folders_folder. by eapply wp_folder_key.
  - intros k v' (v & Hv & -> & _)%delete_folders_vm. by eapply wp_vm_key.
  - intros k v' (v & Hv & _ & -> & -> & _)%delete_folders_vm. apply (wp_vm_placed d W k v Hv).
  - intros k f (H & _)%delete_folders_folder. apply (wp_folder_scoped d W k f H).
  - intros k v' fid (v & Hv & _ & E1 & E2 & Hf)%delete_folders_vm H. destruct (Hf fid H) as [Hfid Hp].
    destruct (wp_vm_folder d W k v fid Hv Hfid) as (f & Hfo & Fit). exists f.
    split; [apply delete_folders_folder; auto|]. unfold folder_fits in *. by rewrite E1, E2.
Qed.

(** *** VMs *)
Lemma delete_vms_wp d p : located d → located (delete_vms p d).
Proof.
  intros W. split; try apply W; cbn; intros k v *.
  - rewrite lookup_keep. intros [H _]. by eapply wp_vm_key.
  - rewrite lookup_keep. intros [H _]. apply (wp_vm_placed d W k v H).
  - rewrite lookup_keep. intros [H _]. apply (wp_vm_folder d W k v _ H).
Qed.
Lemma save_vm_wp d v o :
  located d → vms d !! v_id v = Some o → v_host_id v = v_host_id o → v_cluster_id v = v_cluster_id o →
  (∀ fid, v_folder_id v = Some fid → ∃ f, folders d !! fid = Some f ∧ folder_fits f v) →
  located (d <| vms ::= <[v_id v := v]> |>).
Proof.
  intros W Ho Eh Ec Hf. split; try apply W; cbn; intros k v' *.
  - rewrite lookup_insert_Some. intros [[? ?]|[_ H]]; [congruence|by eapply wp_vm_key].
  - rewrite lookup_insert_Some. intros [[_ <-]|[_ H]]; [|apply (wp_vm_placed d W k v' H)].
    rewrite Eh, Ec. apply (wp_vm_placed d W _ o Ho).
  - rewrite lookup_insert_Some. intros [[_ <-]|[_ H]]; [apply Hf|apply (wp_vm_folder d W k v' _ H)].
Qed.

(** *** Hosts *)
Lemma add_host_wp d h :
  located d → hosts d !! h_id h = None →
  (∀ c, h_cluster_id h = Some c → ∃ r, clusters d !! c = Some r ∧ agree (cl_hypervisor r) (h_hypervisor h)) →
  located (d <| hosts ::= <[h_id h := h]> |>).
Proof.
  intros W Hnew Hc. split; try apply W; cbn.
  - intros k h'. rewrite lookup_insert_Some. intros [[? ?]|[_ H]]; [congruence|by eapply wp_host_key].
  - intros k h' c. rewrite lookup_insert_Some. intros [[_ <-]|[_ H]]; [apply Hc|apply (wp_host_cluster d W k h' c H)].
  - intros k v Hv. destruct (wp_vm_placed d W k v Hv) as (r & Hr & E). exists r.
    rewrite lookup_insert_ne; [done|congruence].
  - intros k f Hf. pose proof (wp_folder_scoped d W k f Hf) as S. unfold folder_scoped in *. cbn.
    destruct (f_cluster_id f), (f_host_id f) as [hid|]; try done. destruct S as (r & Hr & E).
    exists r. rewrite lookup_insert_ne; [done|congruence].
Qed.
Lemma delete_host_row_wp d hid : located d → located (delete_host_row hid d).
Proof.
  intros W0. unfold delete_host_row. set (d1 := delete_folders _ _).
  assert (located d1) as W by (by apply delete_folders_wp, delete_vms_wp).
  assert (∀ k v, vms d1 !! k = Some v → v_host_id v ≠ hid) as Hv.
  { intros k v' (v & H & _ & -> & _)%delete_folders_vm E. cbn in H. apply lookup_keep in H as [_ H].
    apply negb_true_iff, String.eqb_neq in H. done. }
  assert (∀ k f, folders d1 !! k = Some f → f_host_id f ≠ Some hid) as Hf.
  { intros k f [_ H]%delete_folders_folder. by apply bool_decide_eq_false in H. }
  clearbody d1. split; try apply W; cbn.
  - intros k h. rewrite lookup_delete_Some. intros [_ H]. by eapply wp_host_key.
  - intros k h c. rewrite lookup_delete_Some. intros [_ H]. apply (wp_host_cluster d1 W k h c H).
  - intros k v H. destruct (wp_vm_placed d1 W k v H) as (r & Hr & E). exists r.
    rewrite lookup_delete_ne; [done|]. intros ->. by apply (Hv k v H).
  - intros k f H. pose proof (wp_folder_scoped d1 W k f H) as S. unfold folder_scoped in *. cbn.
    destruct (f_cluster_id f), (f_host_id f) as [h|] eqn:Eh; try done. destruct S as (r & Hr & E).
    exists r. rewrite lookup_delete_ne; [done|]. intros ->. by apply (Hf k f H).
Qed.
Lemma delete_cluster_row_wp d cid : located d → located (delete_cluster_row cid d).
Proof.
  intros W0. unfold delete_cluster_row. set (d1 := delete_folders _ _).
  assert (located d1) as W by (by apply delete_folders_wp).
  assert (∀ k f, folders d1 !! k = Some f → f_cluster_id f ≠ Some cid) as Hf.
  { intros k f [_ H]%delete_folders_folder. by apply bool_decide_eq_false in H. }
  clearbody d1. split; cbn.
  - intros k c. rewrite lookup_delete_Some. intros [_ H]. by eapply wp_cluster_key.
  - intros k h. rewrite lookup_fmap. intros H. apply fmap_Some in H as (r & Hr & ->).
    case_bool_decide; cbn; by eapply wp_host_key.
  - apply (wp_folder_key d1 W).
  - intros k v. rewrite lookup_fmap. intros H. apply fmap_Some in H as (r & Hr & ->).
    case_bool_decide; cbn; by eapply wp_vm_key.
  - intros k h c. rewrite lookup_fmap. intros H. apply fmap_Some in H as (r & Hr & ->).
    case_bool_decide as E; cbn; [done|]. intros Hc. destruct (wp_host_cluster d1 W k r c Hr Hc) as (cl & Hcl & Ehv).
    exists cl. rewrite lookup_delete_ne; [done|congruence].
  - intros k v. rewrite lookup_fmap. intros H. apply fmap_Some in H as (u & Hu & ->).
    destruct (wp_vm_placed d1 W k u Hu) as (h & Hh & E).
    exists (if bool_decide (h_cluster_id h = Some cid) then h <| h_cluster_id := None |> else h).
    rewrite E. case_bool_decide; cbn; rewrite lookup_fmap, Hh; cbn; rewrite ?bool_decide_true, ?bool_decide_false by done; done.
  - intros k f H. pose proof (wp_folder_scoped d1 W k f H) as S. unfold folder_scoped in *. cbn.
    destruct (f_cluster_id f) as [c|] eqn:Ec, (f_host_id f) as [h|]; try done.
    + rewrite lookup_delete_ne; [done|]. intros ->. by apply (Hf k f H).
    + destruct S as (r & Hr & E). exists r. rewrite lookup_fmap, Hr. cbn. by rewrite E.
  - intros k v fid. rewrite lookup_fmap. intros H. apply fmap_Some in H as (u & Hu & ->). intros Hfid.
    assert (v_folder_id u = Some fid) as Hfu by (by revert Hfid; case_bool_decide).
    destruct (wp_vm_folder d1 W k u fid Hu Hfu) as (f & Hfo & Fit). exists f. split; [done|].
    unfold folder_fits in *. destruct (f_cluster_id f) as [c|] eqn:Ec.
    + assert (c ≠ cid) by (intros ->; by apply (Hf fid f Hfo)). rewrite bool_decide_false; congruence.
    + rewrite bool_decide_false; [done|]. destruct Fit. congruence.
Qed.

(** what [move_host] does to the tables *)
Definition relocate (h : Host) (cluster_id : option string) (d : database) : database :=
  delete_folders (λ f, bool_decide (f_host_id f = Some (h_id h)))
    (move_rows (h_id h) cluster_id (d <| hosts ::= <[h_id h := h <| h_cluster_id := cluster_id |>]> |>)).
Lemma relocate_vm d h c k v' :
  vms (relocate h c d) !! k = Some v' →
  ∃ v, vms d !! k = Some v ∧ v_id v' = v_id v ∧ v_host_id v' = v_host_id v ∧
    ((v_host_id v = h_id h ∧ v_cluster_id v' = c ∧ v_folder_id v' = None) ∨
     (v_host_id v ≠ h_id h ∧ v_cluster_id v' = v_cluster_id v ∧
      ∀ fid, v_folder_id v' = Some fid → v_folder_id v = Some fid ∧
        ∀ f, folders d !! fid = Some f → f_host_id f ≠ Some (h_id h))).
Proof.
  intros (u & Hu & -> & -> & -> & Hf)%delete_folders_vm. cbn in Hu.
  rewrite lookup_fmap in Hu. apply fmap_Some in Hu as (v & Hv & ->). exists v. split; [done|].
  destruct (String.eqb_spec (v_host_id v) (h_id h)) as [E|N]; cbn in *; split_and!; try done.
  - left. split_and!; try done. destruct (v_folder_id v') as [fid|]; [|done]. by destruct (Hf fid eq_refl).
  - right. split_and!; try done. intros fid E. destruct (Hf fid E) as [-> Hp]. split; [done|].
    intros f Hfo. by apply Hp, bool_decide_eq_false in Hfo.
Qed.
Lemma relocate_wp d h cluster_id :
  located d → hosts d !! h_id h = Some h →
  (∀ c, cluster_id = Some c → ∃ r, clusters d !! c = Some r ∧ agree (cl_hypervisor r) (h_hypervisor h)) →
  located (relocate h cluster_id d).
Proof.
  intros W Hh Hc. split.
  - apply (wp_cluster_key d W).
  - intros k r. cbn. rewrite lookup_insert_Some. intros [[<- <-]|[_ H]]; [done|by eapply wp_host_key].
  - intros k f [H _]%delete_folders_folder. by eapply wp_folder_key.
  - intros k v (u & Hu & -> & _)%relocate_vm. by eapply wp_vm_key.
  - intros k r c. cbn. rewrite lookup_insert_Some. intros [[_ <-]|[_ H]]; [apply Hc|apply (wp_host_cluster d W k r c H)].
  - intros k v (u & Hu & _ & -> & Hcase)%relocate_vm. cbn.
    destruct Hcase as [(-> & -> & _)|(N & -> & _)].
    + eexists. by rewrite lookup_insert_eq.
    + rewrite lookup_insert_ne by done. apply (wp_vm_placed d W k u Hu).
  - intros k f [H Hn]%delete_folders_folder. apply bool_decide_eq_false in Hn.
    pose proof (wp_folder_scoped d W k f H) as S. unfold folder_scoped in *. cbn.
    destruct (f_cluster_id f), (f_host_id f) as [hid|]; try done. rewrite lookup_insert_ne; [done|congruence].
  - intros k v fid (u & Hu & _ & Eh & Hcase)%relocate_vm Hfid.
    destruct Hcase as [(_ & _ & E)|(N & Ec & Hf)]; [congruence|]. destruct (Hf fid Hfid) as [Hfu Hn].
    destruct (wp_vm_folder d W k u fid Hu Hfu) as (f & Hfo & Fit). exists f. split.
    + apply delete_folders_folder. split; [done|]. apply bool_decide_eq_false. by apply Hn.
    + unfold folder_fits in *. by rewrite Eh, Ec.
Qed.

End placement.

(** ** Commands: one request each, in its own transaction *)
Inductive command :=
  | CreateCluster (name hypervisor : string)
  | RenameCluster (id name : string)
  | DeleteCluster (id : string)
  | CreateHost (name : string) (cluster_id : option string) (hypervisor : string)
  | MoveHost (id : string) (cluster_id : option string)
  | DeleteHost (id : string)
  | CreateFolder (name : string) (cluster_id host_id : option string)
  | RenameFolder (id name : string)
  | DeleteFolder (id : string)
  | MoveVm (id : string) (folder_id : option string).
Definition run_command (c : command) : M unit :=
  session_scope
    match c with
    | CreateCluster name hv => create_cluster name hv;; mret tt
    | RenameCluster id name => with_row (get_cluster id) "Cluster" (λ r, rename_cluster r name;; mret tt)
    | DeleteCluster id => with_row (get_cluster id) "Cluster" delete_cluster
    | CreateHost name c hv => create_host name c hv;; mret tt
    | MoveHost id c => with_row (get_host id) "Host" (λ r, move_host r c;; mret tt)
    | DeleteHost id => with_row (get_host id) "Host" delete_host
    | CreateFolder name c h => create_folder name c h;; mret tt
    | RenameFolder id name => with_row (get_folder id) "Folder" (λ r, rename_folder r name;; mret tt)
    | DeleteFolder id => with_row (get_folder id) "Folder" (λ r, delete_folder r;; mret tt)
    | MoveVm id f => with_row (get_vm id) "VM" (λ r, move_vm_to_folder r f;; mret tt)
    end.
(** requests served one after the other, whatever each answers *)
Definition run_commands (cs : list command) (w : world) : world :=
  fold_left (λ w c, (run_command c w).2) cs w.

Lemma same_name_column {B} (f : world → B) n : keeps (same f) (name_column n).
Proof. unfold name_column. keep. Qed.
#[export] Hint Resolve same_name_column : frame.
Lemma same_declare_queues r : keeps (same w_db) (declare_host_queues r).
Proof. unfold declare_host_queues, declare_queue. keep. Qed.
Lemma same_host_user h : keeps (same w_db) (ensure_host_agent_user h).
Proof. unfold ensure_host_agent_user, upsert_user, set_permissions. keep. Qed.
Lemma same_deprovision r u : keeps (same w_db) (deprovision_host_messaging r u).
Proof. unfold deprovision_host_messaging, delete_host_queues, delete_user. keep. Qed.
Lemma same_credentials h : keeps (same w_db) (ensure_host_agent_credentials h).
Proof. unfold ensure_host_agent_credentials. cbv zeta. repeat split_match; keep. Qed.
Lemma credentials_row h w h' b w' :
  ensure_host_agent_credentials h w = (Ok (h', b), w') →
  h_id h' = h_id h ∧ h_cluster_id h' = h_cluster_id h ∧ h_hypervisor h' = h_hypervisor h.
Proof.
  unfold ensure_host_agent_credentials. cbv zeta. intros H.
  destruct (negb (given_str (h_agent_rmq_user h))); split_match_in H; try (by injection H as <- _ _);
    apply bind_inv in H as (p & w1 & _ & H); by injection H as <- _ _.
Qed.
#[export] Hint Resolve same_declare_queues same_host_user same_deprovision same_credentials : frame.
Section placing.
Context {agree : string → string → Prop} `{!Reflexive agree}.
#[local] Abbreviation located := (placed_with agree).
Lemma create_cluster_places name hv : upholds located (create_cluster name hv).
Proof.
  intros w W. unfold create_cluster. step. step. apply wp_add_row. intros Hnew. cbn in Hnew.
  unfold put_cluster. step. step. cbn. replace (w_db w'0) with (w_db w) in * by congruence.
  pose proof (put_cluster_wp (w_db w) (mkCluster a a0 hv) W) as P. apply P. cbn. congruence.
Qed.
Lemma rename_cluster_places r name w :
  located (w_db w) → clusters (w_db w) !! cl_id r = Some r →
  wp (rename_cluster r name) (λ _ w', located (w_db w')) (λ _ _, True) w.
Proof.
  intros W Hr. unfold rename_cluster. step. unfold put_cluster. step. step. cbn.
  pose proof (put_cluster_wp (w_db w) (r <| cl_name := a |>) W) as P. cbn in P. rewrite H0. apply P.
  intros o Ho. congruence.
Qed.
Lemma delete_cluster_places r w :
  located (w_db w) → wp (delete_cluster r) (λ _ w', located (w_db w')) (λ _ _, True) w.
Proof.
  intros W. unfold delete_cluster. step. destruct (_ =? 0)%nat; [|step]. unfold wp. cbn. by apply delete_cluster_row_wp.
Qed.
Lemma create_host_places name c hv : upholds located (create_host name c hv).
Proof.
  intros w W. unfold create_host.
  assert ((match c with Some c => get_cluster c | None => mret None end) w = (Ok (c ≫= λ c, clusters (w_db w) !! c), w))
    as H1 by (by destruct c).
  unfold wp. rewrite (run_ok _ _ _ _ _ H1). set (row := c ≫= _).
  destruct (is_some c && negb (is_some row)) eqn:Enf; [done|]. apply wp_read.
  { destruct row; keep. } intros ? w1 Hck Hdb1.
  assert (∀ c', c = Some c' → ∃ r, clusters (w_db w) !! c' = Some r ∧ agree (cl_hypervisor r) hv) as Hc.
  { intros c' ->. unfold row in *. cbn in *. destruct (clusters (w_db w) !! c') as [r|]; [|done].
    exists r. split; [done|]. destruct (String.eqb_spec (cl_hypervisor r) hv) as [->|]; [done|discriminate Hck]. }
  step. step. unfold new_host_short_id. step. step. apply wp_guard. intros _.
  apply wp_add_row. intros Hnew. unfold put_host. step. step.
  assert (w_db w'2 = w_db w <| hosts ::= <[a0 := bare_host a0 a2 c a1 hv]> |>) as Hdb.
  { rewrite H7. cbn. rewrite H5, H3, H0, Hdb1. done. }
  assert (hosts (w_db w) !! a0 = None) as Hn by (cbn in Hnew; congruence).
  unfold provision_host_agent_user. apply wp_read; [keep|]. intros [h' b] w3 Hcred Hdb3. cbn [fst].
  apply credentials_row in Hcred as (Eid & Ec & Eh). cbn in Eid, Ec, Eh.
  unfold put_host. step. step. step. rewrite H9. cbn. rewrite Hdb3, Hdb. cbn. rewrite Eid.
  unfold set_field. cbn. rewrite insert_insert_eq.
  pose proof (add_host_wp (w_db w) h' W) as P. rewrite Eid, Ec, Eh in P. by apply P.
Qed.
Lemma move_host_places h c w :
  located (w_db w) → hosts (w_db w) !! h_id h = Some h →
  wp (move_host h c) (λ _ w', located (w_db w')) (λ _ _, True) w.
Proof.
  intros W Hh. unfold move_host.
  assert ((match c with Some c => get_cluster c | None => mret None end) w = (Ok (c ≫= λ c, clusters (w_db w) !! c), w))
    as H1 by (by destruct c).
  unfold wp. rewrite (run_ok _ _ _ _ _ H1). set (row := c ≫= _).
  destruct (is_some c && negb (is_some row)) eqn:Enf; [done|]. apply wp_read.
  { destruct row; keep. } intros ? w1 Hck Hdb1.
  assert (∀ c', c = Some c' → ∃ r, clusters (w_db w) !! c' = Some r ∧ agree (cl_hypervisor r) (h_hypervisor h)) as Hc.
  { intros c' ->. unfold row in *. cbn in *. destruct (clusters (w_db w) !! c') as [r|]; [|done].
    exists r. split; [done|]. destruct (String.eqb_spec (cl_hypervisor r) (h_hypervisor h)) as [->|]; [done|discriminate Hck]. }
  case_bool_decide; [step; congruence|]. unfold put_host. step. step. step. apply wp_guard. intros _.
  step. step. cbn. rewrite Hdb1. by apply (relocate_wp (w_db w) h c).
Qed.
Lemma delete_host_places h w :
  located (w_db w) → wp (delete_host h) (λ _ w', located (w_db w')) (λ _ _, True) w.
Proof.
  intros W. unfold delete_host. step.
  pose proof (same_deprovision (h_short_id h) (h_agent_rmq_user h) (w <| w_db ::= delete_host_row (h_id h) |>)) as F.
  unfold wp. unfold same in F. destruct (deprovision_host_messaging _ _ _) as [[[]|e] w']; [|done].
  cbn in F. rewrite F. by apply delete_host_row_wp.
Qed.
Lemma create_folder_places name c h : upholds located (create_folder name c h).
Proof.
  intros w W. unfold create_folder. destruct (Bool.eqb (given_str c) (given_str h)) eqn:Eg; [done|].
  apply wp_read. { destruct c; [keep|]. unfold not_found. keep. }
  intros ? w1 Hck Hdb1. step. step. apply wp_guard. intros Hx. apply wp_add_row. intros Hn. unfold put_folder. step. step. cbn.
  cbn in Hn. replace (w_db w'0) with (w_db w) in * by congruence.
  pose proof (put_folder_wp (w_db w) (mkFolder a0 c h a1) W) as P. apply P; [|cbn; congruence].
  unfold folder_scoped. cbn. destruct c as [c|], h as [h|]; try done.
  - unfold get_cluster in Hck. rewrite run_query in Hck. by destruct (clusters (w_db w) !! c) as [r|].
  - unfold get_host in Hck. rewrite run_query in Hck. cbn in Hck.
    destruct (hosts (w_db w) !! h) as [r|]; [|done]. exists r. split; [done|]. by destruct (h_cluster_id r).
Qed.
Lemma rename_folder_places f name w :
  located (w_db w) → folders (w_db w) !! f_id f = Some f →
  wp (rename_folder f name) (λ _ w', located (w_db w')) (λ _ _, True) w.
Proof.
  intros W Hf. unfold rename_folder. step. unfold put_folder. step. step. cbn. rewrite H0.
  pose proof (put_folder_wp (w_db w) (f <| f_name := a |>) W) as P. cbn in P. apply P.
  - apply (wp_folder_scoped _ W _ f Hf).
  - intros o Ho. simplify_eq. done.
Qed.
Lemma delete_folder_places f w :
  located (w_db w) → wp (delete_folder f) (λ _ w', located (w_db w')) (λ _ _, True) w.
Proof. intros W. unfold delete_folder. step. step. step. by apply delete_folders_wp. Qed.
Lemma move_vm_places v fid w :
  located (w_db w) → vms (w_db w) !! v_id v = Some v →
  wp (move_vm_to_folder v fid) (λ _ w', located (w_db w')) (λ _ _, True) w.
Proof.
  intros W Hv. destruct fid as [fid|]; cbn.
  2:{ unfold save_vm. step. step. cbn.
      pose proof (save_vm_wp (w_db w) (v <| v_folder_id := None |>) v W Hv) as P. by apply P. }
  unfold get_folder. step. destruct (folders (w_db w) !! fid) as [f|] eqn:Ef; [|step].
  unfold get_host. step. destruct (hosts (w_db w) !! v_host_id v) as [h|] eqn:Eh; [|step].
  apply wp_read. { destruct (f_cluster_id f); keep. } intros ? w1 Hck Hdb.
  unfold save_vm. step. step. cbn. rewrite Hdb.
  pose proof (save_vm_wp (w_db w) (v <| v_folder_id := Some (f_id f) |>) v W Hv) as P. apply P; [done..|].
  cbn. intros g [= <-]. pose proof (wp_folder_key _ W _ f Ef) as Ek. exists f. rewrite Ek. split; [done|].
  destruct (wp_vm_placed _ W _ v Hv) as (h' & Hh' & Ec). simplify_eq.
  unfold folder_fits. cbn. destruct (f_cluster_id f) as [c|].
  - rewrite Ec. destruct (negb (bool_decide (h_cluster_id h = Some c))) eqn:E; [done|]. by bool_prop.
  - rewrite (wp_host_key _ W _ h Eh) in Hck.
    destruct (is_some (h_cluster_id h) || negb (bool_decide (f_host_id f = Some (v_host_id v)))) eqn:E; [done|].
    bool_prop. rewrite Ec. split; [by destruct (h_cluster_id h)|done].
Qed.
Lemma run_command_places c w : located (w_db w) → located (w_db (run_command c w).2).
Proof.
  apply upholds_scope. destruct c.
  - apply upholds_then, create_cluster_places.
  - apply upholds_row. intros r w' W H. apply wp_bind. eapply wp_mono; [apply rename_cluster_places| |]; try done.
    by rewrite (wp_cluster_key _ W _ r H).
  - apply upholds_row. intros. by apply delete_cluster_places.
  - apply upholds_then, create_host_places.
  - apply upholds_row. intros r w' W H. apply wp_bind. eapply wp_mono; [apply move_host_places| |]; try done.
    by rewrite (wp_host_key _ W _ r H).
  - apply upholds_row. intros. by apply delete_host_places.
  - apply upholds_then, create_folder_places.
  - apply upholds_row. intros r w' W H. apply wp_bind. eapply wp_mono; [apply rename_folder_places| |]; try done.
    by rewrite (wp_folder_key _ W _ r H).
  - apply upholds_row. intros. apply wp_bind. eapply wp_mono; [by apply delete_folder_places| |]; done.
  - apply upholds_row. intros r w' W H. apply wp_bind. eapply wp_mono; [apply move_vm_places| |]; try done.
    by rewrite (wp_vm_key _ W _ r H).
Qed.

End placing.
(** What an invariant of another component must put up with from placement:
    the writes it makes. *)
Class PlacementStable (I : database → Prop) := {
  ps_cluster c d : I d → I (d <| clusters ::= <[cl_id c := c]> |>);
  ps_host h d : I d → I (d <| hosts ::= <[h_id h := h]> |>);
  ps_folder f d : I d → I (d <| folders ::= <[f_id f := f]> |>);
  ps_vm v d : I d → I (d <| vms ::= <[v_id v := v]> |>);
  ps_move hid c d : I d → I (move_rows hid c d);
  ps_delete_folders p d : I d → I (delete_folders p d);
  ps_delete_host hid d : I d → I (delete_host_row hid d);
  ps_delete_cluster cid d : I d → I (delete_cluster_row cid d)
}.
Lemma run_command_safe I `{!PlacementStable I} c : keeps (safe I) (run_command c).
Proof.
  unfold run_command. apply safe_scope. destruct c.
  - unfold create_cluster, add_cluster, put_cluster. safe. by apply ps_cluster.
  - unfold rename_cluster, put_cluster. safe. by apply (ps_cluster (r <| cl_name := a |>)).
  - unfold delete_cluster. safe. by apply ps_delete_cluster.
  - unfold create_host, new_host_short_id, add_host, put_host, provision_host_queues, provision_host_agent_user, put_host.
    safe; by apply ps_host.
  - unfold move_host, put_host. safe; [by apply (ps_host (r <| h_cluster_id := cluster_id |>))|by apply ps_move|].
    by apply ps_delete_folders.
  - unfold delete_host. safe. by apply ps_delete_host.
  - unfold create_folder, add_folder, put_folder. safe. by apply ps_folder.
  - unfold rename_folder, put_folder. safe. by apply (ps_folder (r <| f_name := a |>)).
  - unfold delete_folder. safe. by apply ps_delete_folders.
  - unfold move_vm_to_folder, save_vm. safe.
    + by apply (ps_vm (r <| v_folder_id := _ |>)).
    + by apply (ps_vm (r <| v_folder_id := None |>)).
Qed.

(** C17: whatever clusters, hosts and folders are created, renamed, moved and
    deleted and whatever VMs are moved between folders, in any order and with
    any request refused on the way, placement stays consistent: a host's
    cluster exists and runs the host's hypervisor, a VM's host exists and the
    VM's denormalised cluster is its host's, a folder hangs off exactly one
    existing cluster or existing standalone host, and a VM in a folder runs
    where the folder is. *)
Theorem placement_invariant cs w : well_placed (w_db w) → well_placed (w_db (run_commands cs w)).
Proof.
  unfold run_commands. revert w. induction cs as [|c cs IH]; intros w W; [done|]. cbn. by apply IH, run_command_places.
Qed.
Lemma placement_invariant_witness :
  let cs := [CreateCluster "east" "hyperv"; CreateHost "n1" (Some "id-") "hyperv"; MoveHost "id-i" None;
             CreateFolder "lab" None (Some "id-i"); MoveHost "id-i" (Some "id-"); DeleteCluster "id-"] in
  let w := run_commands cs sample_world in
  well_placed (w_db w) ∧ h_cluster_id <$> hosts (w_db w) !! "id-i" = Some (Some "id-") ∧ folders (w_db w) = ∅.
Proof.
  split; [|split].
  - apply (placement_invariant _ sample_world). apply well_placed_empty.
  - vm_compute. reflexivity.
  - vm_compute. reflexivity.
Defined.
