(* ===== verification/Networking.v ===== *)
(** * VLAN definitions ([app/services/networking.py], [app/models/vlan.py])

    A VLAN belongs to one cluster or to one host.  [vlans_ok] - a tag at most
    once and at most one default per scope - is kept by the VLAN operations and
    by everything that happens to clusters and hosts. *)
From S2P Require Import Prelude Py Clock Model World Store Messaging Hosts Organization.
Open Scope string_scope.
Open Scope Z_scope.

Definition get_vlan (id : string) : M (option Vlan) := query (λ d, vlans d !! id).
Definition put_vlan (v : Vlan) : M unit := exec (λ d, d <| vlans ::= <[vl_id v := v]> |>).

(** [ORDER BY vlan_id] *)
Definition by_tag : list Vlan → list Vlan := sort_by (λ u v, vl_vlan_id u <=? vl_vlan_id v).
Definition in_cluster (c : string) (v : Vlan) : bool := bool_decide (vl_cluster_id v = Some c).
Definition on_host (h : string) (v : Vlan) : bool := bool_decide (vl_host_id v = Some h).
(** [or_(Vlan.host_id == host.id, Vlan.cluster_id == host.cluster_id)] *)
Definition reachable_from (h : Host) (v : Vlan) : bool :=
  match h_cluster_id h with
  | Some c => on_host (h_id h) v || in_cluster c v
  | None => on_host (h_id h) v
  end.
Definition list_vlans (host_id cluster_id : option string) : M (list Vlan) :=
  match host_id with
  | Some hid =>
      h ← get_host hid;
      match h with
      | None => not_found "Host"
      | Some h => query (λ d, by_tag (rows (reachable_from h) (vlans d)))
      end
  | None =>
      match cluster_id with
      | Some c => query (λ d, by_tag (rows (in_cluster c) (vlans d)))
      | None => query (λ d, by_tag (rows (λ _, true) (vlans d)))
      end
  end.

(** the [WHERE] clause of one scope: the cluster when given, else the host *)
Definition in_scope (cluster_id host_id : option string) (v : Vlan) : bool :=
  match cluster_id with
  | Some c => if str_nonempty c then in_cluster c v
              else match host_id with Some h => on_host h v | None => bool_decide (vl_host_id v = None) end
  | None => match host_id with Some h => on_host h v | None => bool_decide (vl_host_id v = None) end
  end.
Definition clear_default (cluster_id host_id : option string) : M unit :=
  exec (λ d, d <| vlans ::= fmap (λ v, if in_scope cluster_id host_id v then v <| vl_is_default := false |> else v) |>).
(** [s.strip() or None] *)
Definition strip_or_none (s : string) : option string :=
  let s := strip s in if str_nonempty s then Some s else None.
Definition create_vlan (name : string) (vlan_id : Z) (description : option string) (is_default : bool)
    (cluster_id host_id : option string) : M Vlan :=
  if Bool.eqb (given_str cluster_id) (given_str host_id) then
    api_error "INVALID" "Provide exactly one of clusterId or hostId" 400
  else
    match cluster_id with
    | Some c => cluster ← get_cluster c; if is_some cluster then mret tt else not_found "Cluster"
    | None =>
        h ← get_host (default "" host_id);
        match h with
        | None => not_found "Host"
        | Some h =>
            if is_some (h_cluster_id h) then
              api_error "INVALID" "This host is in a cluster - create the VLAN on the cluster instead" 400
            else mret tt
        end
    end;;
    wide 32 (Some vlan_id);;                               (* the bind parameter *)
    existing ← query (λ d, rows (λ v, Z.eqb (vl_vlan_id v) vlan_id && in_scope cluster_id host_id v) (vlans d));
    match existing with
    | _ :: _ => api_error "INVALID" ("VLAN " +:+ str_of_Z vlan_id +:+ " is already defined in this scope") 400
    | [] =>
        when is_default (clear_default cluster_id host_id);;
        id ← new_id;
        name ← name_column name;
        let vlan := mkVlan id cluster_id host_id name vlan_id (strip_or_none (default "" description)) is_default in
        (* vlan_scope_exactly_one, vlan_tag_range *)
        (if Bool.eqb (is_some cluster_id) (is_some host_id) || negb ((1 <=? vlan_id) && (vlan_id <=? 4094))
         then raise EIntegrity else mret tt);;
        add_row vlans id (put_vlan vlan);;
        mret vlan
    end.
Definition update_vlan (vlan : Vlan) (name description : option string) (is_default : option bool) : M Vlan :=
  name' ← match name with Some n => name_column n | None => mret (vl_name vlan) end;
  let vlan := vlan <| vl_name := name' |> in
  let vlan := match description with Some d => vlan <| vl_description := strip_or_none d |> | None => vlan end in
  when (bool_decide (is_default = Some true)) (clear_default (vl_cluster_id vlan) (vl_host_id vlan));;
  let vlan := match is_default with Some b => vlan <| vl_is_default := b |> | None => vlan end in
  put_vlan vlan;;
  mret vlan.
Definition delete_vlan (vlan : Vlan) : M unit := exec (λ d, d <| vlans ::= delete (vl_id vlan) |>).
(** the first row the query returns *)
Definition resolve_host_vlan (h : Host) (tag : Z) : M Vlan :=
  wide 32 (Some tag);;
  found ← query (λ d, rows (λ v, (vl_vlan_id v =? tag) && reachable_from h v) (vlans d));
  match found with
  | v :: _ => mret v
  | [] => api_error "INVALID" ("VLAN " +:+ str_of_Z tag +:+ " is not defined for this host") 400
  end.

(** ** The VLAN invariant *)
Definition vlan_scope (v : Vlan) : option string * option string := (vl_cluster_id v, vl_host_id v).
Definition vlan_scoped (d : database) (v : Vlan) : Prop :=
  match vl_cluster_id v, vl_host_id v with
  | Some c, None => c ≠ "" ∧ is_Some (clusters d !! c)
  | None, Some h => h ≠ "" ∧ is_Some (hosts d !! h)
  | _, _ => False
  end.
Record vlans_ok (d : database) : Prop := {
  vo_key k v : vlans d !! k = Some v → vl_id v = k;
  vo_scoped k v : vlans d !! k = Some v → vlan_scoped d v;
  vo_range k v : vlans d !! k = Some v → 1 ≤ vl_vlan_id v ≤ 4094;
  vo_tag k k' v v' : vlans d !! k = Some v → vlans d !! k' = Some v' → vlan_scope v = vlan_scope v' →
    vl_vlan_id v = vl_vlan_id v' → k = k';
  vo_default k k' v v' : vlans d !! k = Some v → vlans d !! k' = Some v' → vlan_scope v = vlan_scope v' →
    vl_is_default v = true → vl_is_default v' = true → k = k'
}.
Lemma vlans_ok_empty : vlans_ok empty_db.
Proof. split; intros *; cbn; rewrite lookup_empty; done. Qed.

(** rows may only go, scopes only appear *)
Lemma vlans_ok_sub d d' :
  (∀ k v, vlans d' !! k = Some v → vlans d !! k = Some v) →
  (∀ k v, vlans d' !! k = Some v → vlan_scoped d v → vlan_scoped d' v) →
  vlans_ok d → vlans_ok d'.
Proof.
  intros Hsub Hsc V. split; intros *.
  - intros H. eapply (vo_key d V); eauto.
  - intros H. apply (Hsc _ _ H). eapply (vo_scoped d V); eauto.
  - intros H. eapply (vo_range d V); eauto.
  - intros H H'. eapply (vo_tag d V); eauto.
  - intros H H'. eapply (vo_default d V); eauto.
Qed.
Lemma vlan_scoped_mono d d' v :
  (∀ c, vl_cluster_id v = Some c → is_Some (clusters d !! c) → is_Some (clusters d' !! c)) →
  (∀ h, vl_host_id v = Some h → is_Some (hosts d !! h) → is_Some (hosts d' !! h)) →
  vlan_scoped d v → vlan_scoped d' v.
Proof.
  intros Hc Hh. unfold vlan_scoped. destruct (vl_cluster_id v), (vl_host_id v); try done.
  all: intros [? ?]; split; auto.
Qed.
(** two VLANs of one scope are told apart by its [WHERE] clause *)
Lemma in_scope_spec d u v :
  vlan_scoped d u → vlan_scoped d v → in_scope (vl_cluster_id u) (vl_host_id u) v = true ↔ vlan_scope v = vlan_scope u.
Proof.
  unfold vlan_scoped, in_scope, vlan_scope, in_cluster, on_host.
  destruct (vl_cluster_id u) as [c|], (vl_host_id u) as [h|]; try done; intros [Hne _].
  all: destruct (vl_cluster_id v) as [c'|], (vl_host_id v) as [h'|]; try done; intros [Hne' _].
  all: try (destruct c; [done|]); cbn [str_nonempty]; rewrite bool_decide_eq_true; intuition congruence.
Qed.

(** *** The three operations *)
Lemma clear_default_ok d u :
  vlan_scoped d u → vlans_ok d →
  let d' := d <| vlans ::= fmap (λ v, if in_scope (vl_cluster_id u) (vl_host_id u) v
                                      then v <| vl_is_default := false |> else v) |> in
  vlans_ok d' ∧
  (∀ k v', vlans d' !! k = Some v' → vlan_scope v' = vlan_scope u → vl_is_default v' = false) ∧
  (∀ k v', vlans d' !! k = Some v' → ∃ v, vlans d !! k = Some v ∧ vlan_scope v' = vlan_scope v ∧
     vl_vlan_id v' = vl_vlan_id v).
Proof.
  intros Hu V d'.
  assert (∀ k v', vlans d' !! k = Some v' → ∃ v, vlans d !! k = Some v ∧ vlan_scope v' = vlan_scope v ∧
    vl_id v' = vl_id v ∧ vl_vlan_id v' = vl_vlan_id v ∧
    (vl_is_default v' = true → vl_is_default v = true ∧ vlan_scope v' ≠ vlan_scope u)) as Hback.
  { intros k v'. cbn. rewrite lookup_fmap. intros H. apply fmap_Some in H as (v & Hv & ->).
    exists v. split; [done|]. pose proof (in_scope_spec d u v Hu (vo_scoped d V k v Hv)) as S.
    destruct (in_scope _ _ v); cbn; split_and!; try done. intros Hd. split; [done|]. intros E. by apply S in E. }
  split; [|split].
  - split; intros *.
    + intros (v0 & H & _ & -> & _)%Hback. by eapply vo_key.
    + intros (v0 & H & E & _)%Hback. apply (vo_scoped d V) in H. unfold vlan_scope in E.
      unfold vlan_scoped in *. injection E as -> ->. exact H.
    + intros (v0 & H & _ & _ & -> & _)%Hback. by eapply vo_range.
    + intros (v0 & H & E & _ & -> & _)%Hback (v1 & H' & E' & _ & -> & _)%Hback Es Et.
      eapply (vo_tag d V); eauto. congruence.
    + intros (v0 & H & E & _ & _ & D)%Hback (v1 & H' & E' & _ & _ & D')%Hback Es Hd Hd'.
      destruct (D Hd), (D' Hd'). eapply (vo_default d V); eauto. congruence.
  - intros k v' (v & _ & _ & _ & _ & D)%Hback E. destruct (vl_is_default v') eqn:Ed; [|done]. by destruct (D eq_refl).
  - intros k v' (v & ? & ? & _ & ? & _)%Hback. eauto.
Qed.
Lemma put_vlan_ok d v :
  vlans_ok d → vlan_scoped d v → 1 ≤ vl_vlan_id v ≤ 4094 →
  (∀ k u, vlans d !! k = Some u → k ≠ vl_id v → vlan_scope u = vlan_scope v →
     vl_vlan_id u ≠ vl_vlan_id v ∧ (vl_is_default v = true → vl_is_default u = false)) →
  vlans_ok (d <| vlans ::= <[vl_id v := v]> |>).
Proof.
  intros V Hs Hr Hother. split; cbn; intros *; rewrite ?lookup_insert_Some.
  - intros [[? ?]|[_ H]]; [congruence|by eapply vo_key].
  - intros [[_ <-]|[_ H]]; [exact Hs|apply (vo_scoped d V _ _ H)].
  - intros [[_ <-]|[_ H]]; [exact Hr|apply (vo_range d V _ _ H)].
  - intros [[<- <-]|[N H]] [[<- <-]|[N' H']] Es Et; [done| | |by eapply (vo_tag d V)].
    + exfalso. by destruct (Hother _ _ H' (not_eq_sym N') (eq_sym Es)).
    + exfalso. by destruct (Hother _ _ H (not_eq_sym N) Es).
  - intros [[<- <-]|[N H]] [[<- <-]|[N' H']] Es Ed Ed'; [done| | |by eapply (vo_default d V)].
    + exfalso. destruct (Hother _ _ H' (not_eq_sym N') (eq_sym Es)) as [_ F]. rewrite F in Ed'; done.
    + exfalso. destruct (Hother _ _ H (not_eq_sym N) Es) as [_ F]. rewrite F in Ed; done.
Qed.
Lemma create_vlan_ok name tag descr dflt c h : upholds vlans_ok (create_vlan name tag descr dflt c h).
Proof.
  intros w V. unfold create_vlan. destruct (Bool.eqb (given_str c) (given_str h)) eqn:Eg; [done|].
  apply wp_read. { destruct c; unfold not_found; keep. } intros ? w1 Hck Hdb1.
  step. step. set (found := rows _ _). destruct found eqn:Ef; [|done].
  assert (∀ k u, vlans (w_db w) !! k = Some u → vl_vlan_id u = tag → in_scope c h u = false) as Hfree.
  { intros k u Hu Et. unfold found in Ef. rewrite H0, Hdb1 in Ef.
    apply rows_nil with (k := k) (x := u) in Ef; [|done]. rewrite Et, Z.eqb_refl in Ef. done. }
  clear found Ef. pose (u0 := mkVlan "" c h "" tag None dflt).
  assert (Bool.eqb (is_some c) (is_some h) = false → vlan_scoped (w_db w) u0) as Hsc.
  { intros Hx. unfold vlan_scoped, u0. cbn. destruct c as [c|], h as [h|]; try done.
    - unfold get_cluster in Hck. rewrite run_query in Hck. destruct (clusters (w_db w) !! c); [|done].
      split; [by destruct c|done].
    - unfold get_host in Hck. rewrite run_query in Hck. cbn in Hck. destruct (hosts (w_db w) !! h); [|done].
      split; [by destruct h|done]. }
  apply wp_bind. eapply wp_mono with
    (Q := λ _ w', vlan_scoped (w_db w) u0 → vlans_ok (w_db w') ∧ vlan_scoped (w_db w') u0 ∧
       ∀ k u, vlans (w_db w') !! k = Some u → vlan_scope u = (c, h) →
         vl_vlan_id u ≠ tag ∧ (dflt = true → vl_is_default u = false))
    (R := λ _ _, True); [| |done].
  - unfold when, clear_default. assert (w_db w' = w_db w) as Hdb' by congruence. destruct dflt.
    + unfold wp. cbn. rewrite Hdb'. intros Hs.
      destruct (clear_default_ok (w_db w) u0 Hs V) as (V' & Hd & Hb). split; [exact V'|]. split; [exact Hs|].
      intros k u Hu Es. split; [|intros _; by apply (Hd k u Hu)].
      destruct (Hb k u Hu) as (v & Hv & Es' & Et). rewrite Et. intros Etag.
      assert (in_scope c h v = true); [|specialize (Hfree k v Hv Etag); congruence].
      apply (in_scope_spec (w_db w) u0 v Hs); [by eapply vo_scoped|]. unfold u0, vlan_scope at 2. cbn. congruence.
    + apply wp_ret. rewrite Hdb'. intros Hs. split; [done|]. split; [done|].
      intros k u Hu Es. split; [|done]. intros Etag. specialize (Hfree k u Hu Etag).
      assert (in_scope c h u = true); [|congruence].
      apply (in_scope_spec (w_db w) u0 u Hs); [by eapply vo_scoped|exact Es].
  - intros _ w2 Hw2. step. step. apply wp_guard. intros Hx. bool_prop.
    destruct (Hw2 (Hsc ltac:(assumption))) as (V2 & Sc2 & Ho). apply wp_add_row. intros Hn. unfold put_vlan. step. step.
    assert (w_db w'1 = w_db w2) as Hd by congruence. cbn. rewrite Hd.
    match goal with |- context [mkVlan ?i c h ?n tag ?s dflt] =>
      pose proof (put_vlan_ok (w_db w2) (mkVlan i c h n tag s dflt) V2 Sc2) as P end.
    apply P; cbn; [lia|]. intros k u Hu _ Es. apply (Ho k u Hu Es).
Qed.
Lemma update_vlan_ok v name descr dflt w :
  vlans_ok (w_db w) → vlans (w_db w) !! vl_id v = Some v →
  wp (update_vlan v name descr dflt) (λ _ w', vlans_ok (w_db w')) (λ _ _, True) w.
Proof.
  intros V Hv. unfold update_vlan. apply wp_read. { destruct name; keep. } intros n w1 _ Hdb.
  set (v1 := match descr with Some _ => _ | None => _ end).
  assert (vl_id v1 = vl_id v ∧ vlan_scope v1 = vlan_scope v ∧ vl_vlan_id v1 = vl_vlan_id v ∧
    vl_is_default v1 = vl_is_default v) as (Eid & Esc & Etag & Ed) by (unfold v1; by destruct descr).
  clearbody v1. injection Esc as Ec Eh. rewrite Ec, Eh.
  set (v2 := match dflt with Some _ => _ | None => _ end).
  assert (vl_id v2 = vl_id v ∧ vlan_scope v2 = vlan_scope v ∧ vl_vlan_id v2 = vl_vlan_id v ∧
    (vl_is_default v2 = true → dflt = Some true ∨ vl_is_default v = true)) as (Eid2 & Esc2 & Etag2 & Ed2).
  { unfold v2, vlan_scope. destruct dflt as [b|]; cbn; rewrite Ec, Eh; split_and!; try done.
    - intros ->. by left.
    - intros E. right. congruence. }
  clearbody v2. pose proof (vo_scoped _ V _ v Hv) as Sc. pose proof (vo_range _ V _ v Hv) as Hr.
  assert (∀ d, vlan_scoped d v → vlan_scoped d v2) as Sc2.
  { intros d. unfold vlan_scoped. injection Esc2 as -> ->. done. }
  apply wp_bind. eapply wp_mono with
    (Q := λ _ w', vlans_ok (w_db w') ∧ vlan_scoped (w_db w') v ∧
       ∀ k u, vlans (w_db w') !! k = Some u → k ≠ vl_id v → vlan_scope u = vlan_scope v →
         vl_vlan_id u ≠ vl_vlan_id v ∧ (vl_is_default v2 = true → vl_is_default u = false))
    (R := λ _ _, True); [| |done].
  - unfold when, clear_default. case_bool_decide as Hdf.
    + unfold wp. cbn. rewrite Hdb. destruct (clear_default_ok (w_db w) v Sc V) as (V' & Hd & Hb).
      split; [exact V'|]. split; [exact Sc|]. intros k u Hu Hk Es. split; [|intros _; by apply (Hd k u Hu)].
      destruct (Hb k u Hu) as (o & Ho & Es' & ->). intros Et. apply Hk. eapply (vo_tag _ V); eauto. congruence.
    + apply wp_ret. rewrite Hdb. split; [done|]. split; [done|]. intros k u Hu Hk Es. split.
      * intros Et. apply Hk. by eapply (vo_tag _ V).
      * intros D. destruct (Ed2 D) as [?|Dv]; [done|]. destruct (vl_is_default u) eqn:Du; [|done].
        exfalso. apply Hk. by eapply (vo_default _ V).
  - intros _ w2 (V2 & S2 & Ho). unfold put_vlan. step. step. cbn.
    apply (put_vlan_ok (w_db w2) v2 V2 (Sc2 _ S2)); [lia|]. rewrite Eid2, Esc2, Etag2. exact Ho.
Qed.

(** *** What happens to clusters and hosts *)

#[export] Instance vlans_placement_stable : PlacementStable vlans_ok.
Proof.
  assert (∀ (f : database → database),
    (∀ d k v, vlans (f d) !! k = Some v → vlans d !! k = Some v ∧
     (∀ c, vl_cluster_id v = Some c → is_Some (clusters d !! c) → is_Some (clusters (f d) !! c)) ∧
     (∀ h, vl_host_id v = Some h → is_Some (hosts d !! h) → is_Some (hosts (f d) !! h))) →
    ∀ d, vlans_ok d → vlans_ok (f d)) as Hsub.
  { intros f H d V. apply (vlans_ok_sub d); [|intros k v Hv|done].
    - intros k v Hv. by apply H.
    - destruct (H _ k v Hv) as (_ & Hc & Hh). by apply vlan_scoped_mono. }
  split; intros x.
  - apply (Hsub (λ d, d <| clusters ::= _ |>)); cbn; eauto using is_Some_insert.
  - apply (Hsub (λ d, d <| hosts ::= _ |>)); cbn; eauto using is_Some_insert.
  - apply (Hsub (λ d, d <| folders ::= _ |>)); cbn; eauto.
  - apply (Hsub (λ d, d <| vms ::= _ |>)); cbn; eauto.
  - intros c. apply (Hsub (move_rows x c)); cbn; eauto.
  - apply (Hsub (delete_folders x)); cbn; eauto.
  - apply (Hsub (delete_host_row x)). intros d k v. cbn. rewrite lookup_keep. intros [Hv Hn]. bool_prop.
    split_and!; try done. intros h Hh. rewrite lookup_delete_ne; [done|congruence].
  - apply (Hsub (delete_cluster_row x)). intros d k v. cbn. rewrite lookup_keep. intros [Hv Hn]. bool_prop.
    split_and!; try done.
    + intros c Hc. rewrite lookup_delete_ne; [done|congruence].
    + intros h _. rewrite lookup_fmap. intros [r ->]. cbn. eauto.
Qed.

(** ** Commands *)
Inductive vlan_command :=
  | CreateVlan (name : string) (tag : Z) (description : option string) (is_default : bool)
      (cluster_id host_id : option string)
  | UpdateVlan (id : string) (name description : option string) (is_default : option bool)
  | DeleteVlan (id : string)
  | Placement (c : command).
Definition run_vlan_command (c : vlan_command) : M unit :=
  match c with
  | CreateVlan name tag descr dflt c h => session_scope (create_vlan name tag descr dflt c h;; mret tt)
  | UpdateVlan id name descr dflt =>
      session_scope (with_row (get_vlan id) "VLAN" (λ v, update_vlan v name descr dflt;; mret tt))
  | DeleteVlan id => session_scope (with_row (get_vlan id) "VLAN" delete_vlan)
  | Placement c => run_command c
  end.
Definition run_vlan_commands (cs : list vlan_command) (w : world) : world :=
  fold_left (λ w c, (run_vlan_command c w).2) cs w.
Lemma run_vlan_command_ok c w : vlans_ok (w_db w) → vlans_ok (w_db (run_vlan_command c w).2).
Proof.
  destruct c; cbn [run_vlan_command].
  - apply upholds_scope, upholds_then, create_vlan_ok.
  - apply upholds_scope, upholds_row. intros v w' V Hv. apply wp_bind. eapply wp_mono; [apply update_vlan_ok| |]; try done.
    by rewrite (vo_key _ V _ v Hv).
  - apply upholds_scope, upholds_row. intros v w' V Hv. unfold delete_vlan, wp. cbn. revert V.
    apply vlans_ok_sub; cbn; [|done]. intros k u. rewrite lookup_delete_Some. by intros [_ H].
  - apply run_command_safe, _.
Qed.

(** Whatever VLANs are created, edited and deleted, and whatever happens to
    the clusters and hosts meanwhile, in any order and with any request refused
    on the way: every VLAN belongs to exactly one existing cluster or host, its
    tag is in 1-4094 and defined once in that scope, and a scope has at most one
    default VLAN - setting another clears the former. *)
Theorem vlan_invariant cs w : vlans_ok (w_db w) → vlans_ok (w_db (run_vlan_commands cs w)).
Proof.
  unfold run_vlan_commands. revert w. induction cs as [|c cs IH]; intros w V; [done|].
  cbn. by apply IH, run_vlan_command_ok.
Qed.
Lemma vlan_invariant_witness :
  let cs := [Placement (CreateCluster "east" "hyperv");
             CreateVlan "lab" 10 None true (Some "id-") None; CreateVlan "dup" 10 None false (Some "id-") None;
             CreateVlan "dmz" 20 (Some " perimeter ") true (Some "id-") None;
             CreateVlan "bad" 4095 None false (Some "id-") None] in
  let w := run_vlan_commands cs sample_world in
  vlans_ok (w_db w) ∧ (λ v, (vl_vlan_id v, vl_is_default v)) <$> by_tag (rows (λ _, true) (vlans (w_db w))) =
    [(10, false); (20, true)].
Proof.
  split.
  - apply (vlan_invariant _ sample_world). apply vlans_ok_empty.
  - vm_compute. reflexivity.
Defined.

(** A VLAN tag resolves for a host exactly when the VLANs listed for that host
    define it, and resolves to one of those. *)
Lemma resolve_listed h tag w :
  hosts (w_db w) !! h_id h = Some h → fits 32 tag = true →
  ∃ l, list_vlans (Some (h_id h)) None w = (Ok l, w) ∧
    match resolve_host_vlan h tag w with
    | (Ok v, w') => v ∈ l ∧ vl_vlan_id v = tag ∧ w' = w
    | (Raise e, w') => (∀ v, v ∈ l → vl_vlan_id v ≠ tag) ∧ w' = w
    end.
Proof.
  intros Hh Hf. unfold list_vlans, resolve_host_vlan, wide, get_host. rewrite run_query, Hh, Hf, run_ret, run_query.
  eexists. split; [reflexivity|]. set (found := rows _ _).
  assert (∀ v, v ∈ found ↔ v ∈ by_tag (rows (reachable_from h) (vlans (w_db w))) ∧ vl_vlan_id v = tag) as H.
  { intros v. unfold found. unfold by_tag. rewrite elem_of_sort_by, !elem_of_rows. setoid_rewrite andb_true_iff.
    setoid_rewrite Z.eqb_eq. naive_solver. }
  destruct found as [|v l]; cbn.
  - split; [|done]. intros v Hv E. by apply (not_elem_of_nil v), H.
  - destruct (proj1 (H v) (list_elem_of_here v l)). auto.
Qed.
