(* ===== verification/Tags.v ===== *)
(** * Tags and tag categories ([app/services/tags.py], [app/models/tag.py])

    Labels an operator attaches to VMs: standalone, or in a category of which a
    VM carries at most one.  [tags_ok] states the promises of the module -
    well-formed names unique up to case, one tag per category and VM - and
    every operation keeps it. *)
From S2P Require Import Prelude Py Clock Model World Store Rbac Messaging Hosts Organization.
From Stdlib Require Import Ascii.
Open Scope string_scope.
Open Scope Z_scope.

Definition get_tag (id : string) : M (option Tag) := query (λ d, tags d !! id).
Definition get_tag_category (id : string) : M (option TagCategory) := query (λ d, tag_categories d !! id).
Definition put_tag (t : Tag) : M unit := exec (λ d, d <| tags ::= <[tg_id t := t]> |>).
Definition put_category (c : TagCategory) : M unit := exec (λ d, d <| tag_categories ::= <[tc_id c := c]> |>).

(** ** Names and colours *)

(** [[A-Za-z0-9_-]] *)
Definition name_char (c : ascii) : bool :=
  is_lower c || is_upper c || is_digit c || Ascii.eqb c "_" || Ascii.eqb c "-".
Fixpoint sall (p : ascii → bool) (s : string) : bool :=
  match s with "" => true | String c s' => p c && sall p s' end.
(** [_NAME_RE.fullmatch] *)
Definition NAME_RE (s : string) : bool := str_nonempty s && sall name_char s.
Definition check_tag_name (what name : string) : M string :=
  let name := strip name in
  if negb (str_nonempty name) || (TAG_NAME_MAX_LENGTH <? String.length name)%nat || negb (NAME_RE name) then
    api_error "INVALID"
      (what +:+ " names use letters, digits, '_' and '-' only (1-" +:+ str_of_Z (Z.of_nat TAG_NAME_MAX_LENGTH) +:+
       " characters, no spaces)") 400
  else mret name.
Definition check_tag_color (color : string) : M string :=
  if bool_decide (color ∈ TAG_COLORS) then mret color
  else api_error "INVALID" ("Tag colors are one of: " +:+ join ", " TAG_COLORS) 400.
Definition duplicate {A} (message : string) : M A := api_error "DUPLICATE" message 409.
Definition conflict {A} (message : string) : M A := api_error "TAG_CONFLICT" message 409.

(** ** Categories *)
Definition list_categories : M (list TagCategory) :=
  query (λ d, sort_by (λ a b, String.leb (lower (tc_name a)) (lower (tc_name b))) (rows (λ _, true) (tag_categories d))).
(** [exclude_id is not None and id != exclude_id] *)
Definition not_excluded (exclude_id : option string) (id : string) : bool :=
  match exclude_id with Some e => negb (String.eqb id e) | None => true end.
Definition same_name (a b : string) : bool := String.eqb (lower a) (lower b).
Definition require_unique_category (name : string) (exclude_id : option string) : M unit :=
  found ← query (λ d, rows (λ c, same_name (tc_name c) name && not_excluded exclude_id (tc_id c)) (tag_categories d));
  match found with
  | [] => mret tt
  | _ => duplicate ("A category named '" +:+ name +:+ "' already exists")
  end.
Definition create_category (name : string) : M TagCategory :=
  name ← check_tag_name "Category" name;
  require_unique_category name None;;
  id ← new_id;
  let category := mkTagCategory id name in
  add_row tag_categories id (put_category category);;
  mret category.
Definition rename_category (category : TagCategory) (name : string) : M TagCategory :=
  name ← check_tag_name "Category" name;
  require_unique_category name (Some (tc_id category));;
  let category := category <| tc_name := name |> in
  put_category category;;
  mret category.
Definition delete_category (category : TagCategory) : M unit := exec (delete_category_row (tc_id category)).

(** ** Tags *)

(** [(TagCategory.name IS NULL, lower(TagCategory.name), lower(Tag.name))] *)
Definition tag_key (d : database) (t : Tag) : bool * string * string :=
  match tg_category_id t ≫= λ c, tag_categories d !! c with
  | Some c => (false, lower (tc_name c), lower (tg_name t))
  | None => (true, "", lower (tg_name t))
  end.
Definition tag_key_le (a b : bool * string * string) : bool :=
  let '(na, ca, ta) := a in let '(nb, cb, tb) := b in
  if Bool.eqb na nb then
    if String.eqb ca cb then String.leb ta tb else String.leb ca cb
  else nb.
(** VMs carrying the tag that [scope] can see *)
Definition visible_carriers (d : database) (scope : VisibleScope) (tag_id : string) : gset (string * string) :=
  filter (λ vt, vt.2 = tag_id ∧
    match vms d !! vt.1 with Some v => sql_true (vm_visible_clause scope v) | None => false end = true) (vm_tags d).
Definition tag_vm_count (scope : VisibleScope) (tag_id : string) : M nat :=
  query (λ d, size (visible_carriers d scope tag_id)).
Definition list_tags (scope : VisibleScope) : M (list (Tag * nat)) :=
  query (λ d, (λ t, (t, size (visible_carriers d scope (tg_id t)))) <$>
    sort_by (λ a b, tag_key_le (tag_key d a) (tag_key d b)) (rows (λ _, true) (tags d))).
Definition get_category (category_id : string) : M TagCategory :=
  category ← get_tag_category category_id;
  match category with Some c => mret c | None => not_found "Tag category" end.
(** the category of a falsy id is none *)
Definition category_of (category_id : option string) : M (option TagCategory) :=
  match category_id with
  | Some c => if str_nonempty c then c ← get_category c; mret (Some c) else mret None
  | None => mret None
  end.
Definition require_unique_tag (name : string) (category : option TagCategory) (exclude_id : option string) : M unit :=
  found ← query (λ d, rows (λ t, same_name (tg_name t) name && bool_decide (tg_category_id t = tc_id <$> category) &&
                                 not_excluded exclude_id (tg_id t)) (tags d));
  match found with
  | [] => mret tt
  | _ => duplicate ("A tag named '" +:+ name +:+ "' already exists in " +:+
           match category with Some c => "category '" +:+ tc_name c +:+ "'" | None => "the standalone tags" end)
  end.
Definition create_tag (name : string) (category_id : option string) (color : string) : M Tag :=
  name ← check_tag_name "Tag" name;
  color ← check_tag_color color;
  category ← category_of category_id;
  require_unique_tag name category None;;
  id ← new_id;
  let tag := mkTag id (tc_id <$> category) name color in
  add_row tags id (put_tag tag);;
  mret tag.
(** the VMs carrying [tag] and another tag of category [cid] *)
Definition category_clashes (d : database) (tag : Tag) (cid : string) : gset (string * string) :=
  filter (λ vt, vt.2 = tg_id tag ∧
    rows (λ t, bool_decide ((vt.1, tg_id t) ∈ vm_tags d) && bool_decide (tg_category_id t = Some cid) &&
               negb (String.eqb (tg_id t) (tg_id tag))) (tags d) ≠ []) (vm_tags d).
Definition update_tag (tag : Tag) (name category_id : option string) (category_given : bool) (color : option string)
  : M Tag :=
  new_name ← match name with Some n => check_tag_name "Tag" n | None => mret (tg_name tag) end;
  new_color ← match color with Some c => check_tag_color c | None => mret (tg_color tag) end;
  category ← category_of (if category_given then category_id else tg_category_id tag);
  require_unique_tag new_name category (Some (tg_id tag));;
  match category with
  | Some c =>
      if negb (bool_decide (tg_category_id tag = Some (tc_id c))) then
        clashes ← query (λ d, size (category_clashes d tag (tc_id c)));
        if (clashes =? 0)%nat then mret tt
        else conflict (str_of_Z (Z.of_nat clashes) +:+ " VM(s) with tag '" +:+ tg_name tag +:+
               "' already have a tag of category '" +:+ tc_name c +:+ "' - a VM holds one tag per category")
      else mret tt
  | None => mret tt
  end;;
  let tag := tag <| tg_name := new_name |> <| tg_color := new_color |> <| tg_category_id := tc_id <$> category |> in
  put_tag tag;;
  mret tag.
Definition delete_tag (tag : Tag) : M unit := exec (delete_tags (λ t, String.eqb (tg_id t) (tg_id tag))).

(** ** VM assignments *)

(** [list(dict.fromkeys(ids))] *)
Fixpoint fromkeys (l : list string) : list string :=
  match l with [] => [] | x :: l' => x :: List.filter (λ y, negb (String.eqb y x)) (fromkeys l') end.
(** [by_category.setdefault(c, []).append(t)] *)
Fixpoint group_add (c : string) (t : Tag) (g : list (string * list Tag)) : list (string * list Tag) :=
  match g with
  | [] => [(c, [t])]
  | (c', ts) :: g' => if String.eqb c' c then (c', (ts ++ [t])%list) :: g' else (c', ts) :: group_add c t g'
  end.
Definition by_category (ts : list Tag) : list (string * list Tag) :=
  fold_left (λ g t, match tg_category_id t with Some c => group_add c t g | None => g end) ts [].
Definition set_vm_tags (vm : Vm) (tag_ids : list string) : M Vm :=
  let wanted := fromkeys tag_ids in
  ts ← match wanted with
       | [] => mret []
       | _ => query (λ d, rows (λ t, bool_decide (tg_id t ∈ wanted)) (tags d))
       end;
  if negb (length ts =? length wanted)%nat then not_found "Tag"
  else
    for_each (by_category ts) (λ cg,
      if (1 <? length cg.2)%nat then
        category ← get_category cg.1;
        conflict ("A VM holds one tag per category - pick one of " +:+
          join ", " (sort_by String.leb (tg_name <$> cg.2)) +:+ " (category '" +:+ tc_name category +:+ "')")
      else mret tt);;
    exec (λ d, d <| vm_tags ::= λ s, filter (λ vt, vt.1 ≠ v_id vm) s ∪ list_to_set ((λ t, (v_id vm, tg_id t)) <$> ts) |>);;
    mret vm.

(** ** The invariant *)
Definition valid_name (s : string) : Prop := NAME_RE s = true ∧ (String.length s ≤ TAG_NAME_MAX_LENGTH)%nat.
Definition vms_keyed (d : database) : Prop := ∀ k v, vms d !! k = Some v → v_id v = k.
Record tags_ok (d : database) : Prop := {
  to_vm_key : vms_keyed d;
  to_cat_key k c : tag_categories d !! k = Some c → tc_id c = k;
  to_tag_key k t : tags d !! k = Some t → tg_id t = k;
  to_cat_name k c : tag_categories d !! k = Some c → valid_name (tc_name c);
  to_cat_unique k k' c c' : tag_categories d !! k = Some c → tag_categories d !! k' = Some c' →
    lower (tc_name c) = lower (tc_name c') → k = k';
  to_tag_ok k t : tags d !! k = Some t → valid_name (tg_name t) ∧ tg_color t ∈ TAG_COLORS ∧
    ∀ c, tg_category_id t = Some c → is_Some (tag_categories d !! c);
  to_tag_unique k k' t t' : tags d !! k = Some t → tags d !! k' = Some t' → tg_category_id t = tg_category_id t' →
    lower (tg_name t) = lower (tg_name t') → k = k';
  to_assigned v k : (v, k) ∈ vm_tags d → is_Some (tags d !! k) ∧ is_Some (vms d !! v);
  to_one_per_category v k k' t t' c : (v, k) ∈ vm_tags d → (v, k') ∈ vm_tags d →
    tags d !! k = Some t → tags d !! k' = Some t' → tg_category_id t = Some c → tg_category_id t' = Some c → k = k'
}.
Lemma tags_ok_empty : tags_ok empty_db.
Proof. split; [by intros k v|..]; intros *; cbn; try (rewrite lookup_empty; done); set_solver. Qed.

(** *** What the checks establish *)
Lemma check_tag_name_spec what name w n w' :
  check_tag_name what name w = (Ok n, w') → n = strip name ∧ valid_name n ∧ w' = w.
Proof.
  unfold check_tag_name. cbv zeta.
  destruct (negb (str_nonempty (strip name)) || _ || _) eqn:E; [done|]. intros [= <- <-]. bool_prop.
  split_and!; try done. split; [done|]. by apply Nat.ltb_ge.
Qed.
Lemma same_check_tag_name {B} (f : world → B) what name : keeps (same f) (check_tag_name what name).
Proof. unfold check_tag_name. keep. Qed.
Lemma same_check_tag_color {B} (f : world → B) c : keeps (same f) (check_tag_color c).
Proof. unfold check_tag_color. keep. Qed.
Lemma same_unique_category {B} (f : world → B) n e : keeps (same f) (require_unique_category n e).
Proof. unfold require_unique_category, duplicate. keep. Qed.
Lemma same_unique_tag {B} (f : world → B) n c e : keeps (same f) (require_unique_tag n c e).
Proof. unfold require_unique_tag, duplicate. keep. Qed.
Lemma same_get_category {B} (f : world → B) c : keeps (same f) (get_category c).
Proof. unfold get_category, get_tag_category. keep. Qed.
#[export] Hint Resolve same_get_category : frame.
Lemma same_category_of {B} (f : world → B) c : keeps (same f) (category_of c).
Proof. unfold category_of. keep. Qed.
#[export] Hint Resolve same_check_tag_name same_check_tag_color same_unique_category same_unique_tag same_category_of : frame.

Lemma unique_category_spec name e w w' :
  require_unique_category name e w = (Ok tt, w') →
  ∀ k c, tag_categories (w_db w) !! k = Some c → lower (tc_name c) = lower name → e = Some (tc_id c).
Proof.
  unfold require_unique_category. rewrite run_query. destruct (rows _ _) eqn:E; [|done]. intros _ k c Hc Hn.
  apply rows_nil with (k := k) (x := c) in E; [|done]. unfold same_name in E. rewrite Hn, String.eqb_refl in E.
  destruct e as [e|]; [|done]. cbn in E. apply negb_false_iff, String.eqb_eq in E. congruence.
Qed.
Lemma unique_tag_spec name cat e w w' :
  require_unique_tag name cat e w = (Ok tt, w') →
  ∀ k t, tags (w_db w) !! k = Some t → tg_category_id t = tc_id <$> cat → lower (tg_name t) = lower name →
    e = Some (tg_id t).
Proof.
  unfold require_unique_tag. rewrite run_query. destruct (rows _ _) eqn:E; [|done]. intros _ k t Ht Hc Hn.
  apply rows_nil with (k := k) (x := t) in E; [|done].
  unfold same_name in E. rewrite Hn, String.eqb_refl, bool_decide_true in E by done.
  destruct e as [e|]; [|done]. cbn in E. apply negb_false_iff, String.eqb_eq in E. congruence.
Qed.
Lemma category_of_spec cid w cat w' :
  category_of cid w = (Ok cat, w') → ∀ c, cat = Some c → ∃ k, tag_categories (w_db w) !! k = Some c.
Proof.
  unfold category_of, get_category, get_tag_category. intros H c ->.
  destruct cid as [k|]; [|done]. destruct (str_nonempty k); [|done]. rewrite run_assoc, run_query in H.
  destruct (tag_categories (w_db w) !! k) as [c'|] eqn:E; [|done]. injection H as <- _. eauto.
Qed.
Lemma check_color_spec color w c w' : check_tag_color color w = (Ok c, w') → c ∈ TAG_COLORS.
Proof. unfold check_tag_color. case_bool_decide; [|done]. by intros [= <- _]. Qed.

(** *** Writing one row *)
Lemma put_category_ok d c :
  tags_ok d → valid_name (tc_name c) →
  (∀ k o, tag_categories d !! k = Some o → lower (tc_name o) = lower (tc_name c) → k = tc_id c) →
  tags_ok (d <| tag_categories ::= <[tc_id c := c]> |>).
Proof.
  intros T Hn Hu. split; [exact (to_vm_key d T)|..]; cbn; intros *; rewrite ?lookup_insert_Some; try apply T.
  - intros [[? ?]|[_ H]]; [congruence|by eapply to_cat_key].
  - intros [[_ <-]|[_ H]]; [done|by eapply to_cat_name].
  - intros [[<- <-]|[N H]] [[<- <-]|[N' H']] E; [done| | |by eapply to_cat_unique].
    + symmetry. by eapply Hu.
    + by eapply Hu.
  - intros H. destruct (to_tag_ok d T _ _ H) as (? & ? & Hc). split_and!; try done.
    intros x Hx. apply is_Some_insert. by apply Hc.
Qed.
Lemma put_tag_ok d t :
  tags_ok d → valid_name (tg_name t) → tg_color t ∈ TAG_COLORS →
  (∀ c, tg_category_id t = Some c → is_Some (tag_categories d !! c)) →
  (∀ k o, tags d !! k = Some o → tg_category_id o = tg_category_id t → lower (tg_name o) = lower (tg_name t) →
     k = tg_id t) →
  (∀ v k o c, (v, tg_id t) ∈ vm_tags d → (v, k) ∈ vm_tags d → tags d !! k = Some o → k ≠ tg_id t →
     tg_category_id t = Some c → tg_category_id o ≠ Some c) →
  tags_ok (d <| tags ::= <[tg_id t := t]> |>).
Proof.
  intros T Hn Hcol Hcat Hu Hone. split; [exact (to_vm_key d T)|..]; cbn; intros *; rewrite ?lookup_insert_Some; try apply T.
  - intros [[? ?]|[_ H]]; [congruence|by eapply to_tag_key].
  - intros [[_ <-]|[_ H]]; [done|by eapply to_tag_ok].
  - intros [[<- <-]|[N H]] [[<- <-]|[N' H']] Ec E; [done| | |by eapply to_tag_unique].
    + symmetry. by eapply Hu.
    + by eapply Hu.
  - intros H. destruct (to_assigned d T _ _ H). split; [by apply is_Some_insert|done].
  - intros Hv Hv' [[<- <-]|[N H]] [[<- <-]|[N' H']] E E'; [done| | |by eapply (to_one_per_category d T)].
    + exfalso. by eapply (Hone v k').
    + exfalso. by eapply (Hone v k).
Qed.

(** *** Deletions, here and elsewhere *)
Lemma tags_ok_sub d d' :
  (vms_keyed d → vms_keyed d') →
  (∀ k c, tag_categories d' !! k = Some c → tag_categories d !! k = Some c) →
  (∀ k t, tags d' !! k = Some t → tags d !! k = Some t ∧
     ∀ c, tg_category_id t = Some c → is_Some (tag_categories d !! c) → is_Some (tag_categories d' !! c)) →
  (∀ v k, (v, k) ∈ vm_tags d' → (v, k) ∈ vm_tags d ∧ (is_Some (tags d !! k) → is_Some (tags d' !! k)) ∧
     (is_Some (vms d !! v) → is_Some (vms d' !! v))) →
  tags_ok d → tags_ok d'.
Proof.
  intros Hk Hc Ht Hv T. split; [by apply Hk, T|..]; intros *.
  - intros H. eapply to_cat_key; eauto.
  - intros [H _]%Ht. by eapply to_tag_key.
  - intros H. eapply to_cat_name; eauto.
  - intros H H'. eapply (to_cat_unique d T); eauto.
  - intros [H Hx]%Ht. destruct (to_tag_ok d T _ _ H) as (? & ? & ?). eauto 6.
  - intros [H _]%Ht [H' _]%Ht. eapply (to_tag_unique d T); eauto.
  - intros (H & ? & ?)%Hv. destruct (to_assigned d T _ _ H). auto.
  - intros (H & _)%Hv (H' & _)%Hv [? _]%Ht [? _]%Ht. eapply (to_one_per_category d T); eauto.
Qed.
Lemma delete_tags_ok p d : tags_ok d → tags_ok (delete_tags p d).
Proof.
  intros T. apply (tags_ok_sub d); [done|done| |intros v k|done].
  - intros k t. cbn. rewrite lookup_keep. by intros [? _].
  - cbn. rewrite elem_of_filter. cbn. intros [Hg Hv]. split_and!; try done.
    intros [t Ht]. rewrite Ht in Hg. exists t. apply lookup_keep. by rewrite Hg.
Qed.
Lemma delete_category_ok cid d : tags_ok d → tags_ok (delete_category_row cid d).
Proof.
  intros T. apply (tags_ok_sub (delete_tags (λ t, bool_decide (tg_category_id t = Some cid)) d));
    [done| | |done|by apply delete_tags_ok].
  - intros k c. cbn. rewrite lookup_delete_Some. by intros [_ ?].
  - intros k t Ht. cbn in Ht. split; [done|]. cbn. apply lookup_keep in Ht as [_ Hp]. bool_prop.
    intros c Hc. rewrite lookup_delete_ne; [done|congruence].
Qed.
Lemma tags_placement d d' :
  (vms_keyed d → vms_keyed d') →
  tag_categories d' = tag_categories d → tags d' = tags d →
  (∀ v k, (v, k) ∈ vm_tags d' → (v, k) ∈ vm_tags d ∧ (is_Some (vms d !! v) → is_Some (vms d' !! v))) →
  tags_ok d → tags_ok d'.
Proof.
  intros Hk Ec Et Hv. apply tags_ok_sub; rewrite ?Ec, ?Et; [done..|].
  intros v k H. destruct (Hv v k H). auto.
Qed.
#[export] Instance tags_placement_stable : PlacementStable tags_ok.
Proof.
  assert (∀ (g : Vm → Vm) (m : gmap string Vm) v, is_Some (m !! v) → is_Some ((g <$> m) !! v)) as Hmap.
  { intros g m v [x E]. rewrite lookup_fmap, E. by eexists. }
  assert (∀ (g : Vm → Vm) (m : gmap string Vm), (∀ v, v_id (g v) = v_id v) →
    (∀ k v, m !! k = Some v → v_id v = k) → ∀ k v, (g <$> m) !! k = Some v → v_id v = k) as Hkey.
  { intros g m Hg Hm k v. rewrite lookup_fmap. intros H. apply fmap_Some in H as (u & Hu & ->). rewrite Hg. eauto. }
  assert (∀ v : Vm, ∀ p, v_id (match v_folder_id v with Some f => if (p f : bool) then v <| v_folder_id := None |> else v
    | None => v end) = v_id v) as Hfold.
  { intros v p. destruct (v_folder_id v) as [f|]; [|done]. by destruct (p f). }
  split; intros x *; apply tags_placement; try done.
  - intros Hk k v. cbn. rewrite lookup_insert_Some. intros [[? ?]|[_ H]]; [congruence|eauto].
  - intros v k H. split; [exact H|]. apply is_Some_insert.
  - intros Hk. refine (Hkey _ _ _ Hk). intros v. by destruct (String.eqb (v_host_id v) x).
  - intros v k H. split; [exact H|]. apply Hmap.
  - intros Hk. refine (Hkey _ _ _ Hk). intros v. apply Hfold.
  - intros v k H. split; [exact H|]. apply Hmap.
  - intros Hk. refine (Hkey _ _ _ _); [intros v; apply Hfold|]. intros k v [H _]%lookup_keep. by apply Hk.
  - intros v k. cbn. rewrite elem_of_filter. cbn. intros [Hg H]. split; [exact H|]. intros [u E]. rewrite E in Hg.
    apply Hmap. exists u. apply lookup_keep. by rewrite Hg.
  - intros Hk. refine (Hkey _ _ _ _); [intros v; by case_bool_decide|]. refine (Hkey _ _ _ Hk). intros v. apply Hfold.
  - intros v k H. split; [exact H|]. intros S. by apply Hmap, Hmap.
Qed.

(** *** Assigning tags *)
Lemma fromkeys_elem l x : x ∈ fromkeys l ↔ x ∈ l.
Proof.
  induction l as [|y l IH]; cbn; [done|]. rewrite !elem_of_cons, !list_elem_of_In, filter_In, <- !list_elem_of_In, IH.
  rewrite negb_true_iff, String.eqb_neq. destruct (decide (x = y)); tauto.
Qed.
Fixpoint group_of (c : string) (g : list (string * list Tag)) : list Tag :=
  match g with [] => [] | (c', ts) :: g' => if String.eqb c' c then ts else group_of c g' end.
Lemma group_of_add c t g c' :
  group_of c' (group_add c t g) = if String.eqb c c' then (group_of c' g ++ [t])%list else group_of c' g.
Proof.
  induction g as [|[c0 ts0] g IH]; cbn; [by destruct (String.eqb c c')|].
  destruct (String.eqb_spec c0 c) as [->|N]; cbn; [by destruct (String.eqb c c')|].
  rewrite IH. destruct (String.eqb_spec c0 c') as [->|N']; [|done]. destruct (String.eqb_spec c c'); [by subst|done].
Qed.
Lemma group_of_in c g : group_of c g ≠ [] → (c, group_of c g) ∈ g.
Proof.
  induction g as [|[c0 ts0] g IH]; cbn; [done|]. destruct (String.eqb_spec c0 c) as [->|N]; intros H.
  - apply list_elem_of_here.
  - apply list_elem_of_further. auto.
Qed.
(** the group of a category holds the tags of that category *)
Lemma by_category_spec ts c t : t ∈ group_of c (by_category ts) ↔ t ∈ ts ∧ tg_category_id t = Some c.
Proof.
  unfold by_category. assert (∀ g, t ∈ group_of c (fold_left (λ g t, match tg_category_id t with
    Some c => group_add c t g | None => g end) ts g) ↔ t ∈ group_of c g ∨ t ∈ ts ∧ tg_category_id t = Some c) as H.
  { induction ts as [|u ts IH]; intros g; cbn; [set_solver|]. rewrite IH, elem_of_cons.
    destruct (tg_category_id u) as [cu|] eqn:Eu; [|naive_solver]. rewrite group_of_add.
    destruct (String.eqb_spec cu c) as [->|N]; [rewrite elem_of_app, list_elem_of_singleton|]; naive_solver. }
  rewrite H. cbn. set_solver.
Qed.
Lemma short_group {A} (l : list A) x y : (1 <? length l)%nat = false → x ∈ l → y ∈ l → x = y.
Proof.
  intros H%Nat.ltb_ge. destruct l as [|a [|b l]]; cbn in H; [set_solver|set_solver|lia].
Qed.
(** a loop body that raises on some elements returns only when there are none *)
Lemma for_each_guard {A} (l : list A) (body : A → M unit) (bad : A → bool) w w' :
  (∀ x w1 w2, body x w1 = (Ok tt, w2) → bad x = false) → for_each l body w = (Ok tt, w') →
  ∀ x, x ∈ l → bad x = false.
Proof.
  intros Hb. revert w. induction l as [|y l IH]; intros w H x Hx; [set_solver|].
  cbn in H. apply bind_inv in H as ([] & w1 & H1 & H2). apply elem_of_cons in Hx as [->|Hx]; [eauto|eauto].
Qed.
Lemma one_per_category ts w w' :
  for_each (by_category ts) (λ cg,
      if (1 <? length cg.2)%nat then
        category ← get_category cg.1;
        conflict ("A VM holds one tag per category - pick one of " +:+
          join ", " (sort_by String.leb (tg_name <$> cg.2)) +:+ " (category '" +:+ tc_name category +:+ "')")
      else mret tt) w = (Ok tt, w') →
  ∀ t t' c, t ∈ ts → t' ∈ ts → tg_category_id t = Some c → tg_category_id t' = Some c → t = t'.
Proof.
  intros H t t' c Ht Ht' Ec Ec'.
  assert (t ∈ group_of c (by_category ts)) as G by (by apply by_category_spec).
  assert (t' ∈ group_of c (by_category ts)) as G' by (by apply by_category_spec).
  apply (short_group (group_of c (by_category ts)) t t'); [|done|done].
  refine (for_each_guard _ _ (λ cg, (1 <? length cg.2)%nat) _ _ _ H (c, group_of c (by_category ts)) _).
  - intros x w1 w2 Hx. destruct (1 <? length x.2)%nat; [|done]. exfalso.
    apply bind_inv in Hx as (? & ? & _ & Hx). discriminate Hx.
  - apply group_of_in. intros E. rewrite E in G. set_solver.
Qed.
Lemma set_vm_tags_ok v ids w :
  tags_ok (w_db w) → vms (w_db w) !! v_id v = Some v →
  wp (set_vm_tags v ids) (λ _ w', tags_ok (w_db w')) (λ _ _, True) w.
Proof.
  intros T Hv. unfold set_vm_tags. cbv zeta. apply wp_read. { destruct (fromkeys ids); keep. }
  intros ts w1 Hts Hdb. destruct (negb _); [done|]. apply wp_read. { unfold conflict. keep. }
  intros [] w2 Hone Hdb2. pose proof (one_per_category ts w1 w2 Hone) as One. step. step. cbn. rewrite Hdb2, Hdb.
  assert (∀ t, t ∈ ts → tags (w_db w) !! tg_id t = Some t) as Hin.
  { intros t Ht. destruct (fromkeys ids).
    - injection Hts as <- _. set_solver.
    - injection Hts as <- _. apply elem_of_rows in Ht as (k & Hk & _). by rewrite (to_tag_key _ T _ t Hk). }
  assert (∀ u k, (u, k) ∈ filter (λ vt, vt.1 ≠ v_id v) (vm_tags (w_db w)) ∪ list_to_set ((λ t, (v_id v, tg_id t)) <$> ts) ↔
    (u ≠ v_id v ∧ (u, k) ∈ vm_tags (w_db w)) ∨ (u = v_id v ∧ ∃ t, t ∈ ts ∧ k = tg_id t)) as Hvt.
  { intros u k. rewrite elem_of_union, elem_of_filter, elem_of_list_to_set, list_elem_of_fmap. naive_solver. }
  split; [exact (to_vm_key _ T)|..]; cbn; intros *; try apply T.
  - rewrite Hvt. intros [[_ H]|(-> & t & Ht & ->)]; [by apply (to_assigned _ T)|]. split; [|eauto].
    exists t. by apply Hin.
  - rewrite !Hvt. intros [[N H]|(-> & u & Hu & ->)] [[N' H']|(Eu & u' & Hu' & ->)] Ht Ht' Ec Ec'; try done.
    + by eapply (to_one_per_category _ T).
    + rewrite (Hin _ Hu) in Ht. rewrite (Hin _ Hu') in Ht'. simplify_eq. f_equal. by eapply One.
Qed.

(** *** The other operations *)
Lemma create_category_ok name : upholds tags_ok (create_category name).
Proof.
  intros w T. unfold create_category. apply wp_read; [keep|]. intros n w1 (-> & Hn & ->)%check_tag_name_spec _.
  apply wp_read; [keep|]. intros [] w2 Hu Hdb. pose proof (unique_category_spec _ _ _ _ Hu) as U.
  step. apply wp_add_row. intros _. unfold put_category. step. step. cbn. replace (w_db w') with (w_db w) by congruence.
  apply (put_category_ok (w_db w) (mkTagCategory a (strip name)) T Hn). intros k o Ho E. by specialize (U k o Ho E).
Qed.
Lemma rename_category_ok c name w :
  tags_ok (w_db w) → tag_categories (w_db w) !! tc_id c = Some c →
  wp (rename_category c name) (λ _ w', tags_ok (w_db w')) (λ _ _, True) w.
Proof.
  intros T Hc. unfold rename_category. apply wp_read; [keep|]. intros n w1 (-> & Hn & ->)%check_tag_name_spec _.
  apply wp_read; [keep|]. intros [] w2 Hu Hdb. pose proof (unique_category_spec _ _ _ _ Hu) as U.
  unfold put_category. step. step. cbn. rewrite Hdb.
  pose proof (put_category_ok (w_db w) (c <| tc_name := strip name |>) T Hn) as P. apply P. cbn.
  intros k o Ho E. specialize (U k o Ho E). rewrite (to_cat_key _ T k o Ho) in U. congruence.
Qed.
Lemma create_tag_ok name cid color : upholds tags_ok (create_tag name cid color).
Proof.
  intros w T. unfold create_tag. apply wp_read; [keep|]. intros n w1 (-> & Hn & ->)%check_tag_name_spec _.
  apply wp_read; [keep|]. intros col w1 Hcol%check_color_spec Hdb1.
  apply wp_read; [keep|]. intros cat w2 Hcat Hdb2. pose proof (category_of_spec _ _ _ _ Hcat) as C.
  apply wp_read; [keep|]. intros [] w3 Hu Hdb3. pose proof (unique_tag_spec _ _ _ _ _ Hu) as U.
  step. apply wp_add_row. intros Hnew. unfold put_tag. step. step. cbn.
  replace (w_db w') with (w_db w) in * by congruence. rewrite Hdb2, Hdb1 in U. rewrite Hdb1 in C.
  apply (put_tag_ok (w_db w) (mkTag a (tc_id <$> cat) (strip name) col) T Hn Hcol); cbn.
  - intros c E. destruct cat as [c0|]; [|done]. injection E as <-. destruct (C c0 eq_refl) as (k & Hk).
    rewrite (to_cat_key _ T k c0 Hk). eauto.
  - intros k o Ho Ec En. by specialize (U k o Ho Ec En).
  - intros v k o c Hv. destruct (to_assigned _ T _ _ Hv) as [[x Hx] _]. cbn in Hnew. congruence.
Qed.
Lemma update_tag_ok t name cid given color w :
  tags_ok (w_db w) → tags (w_db w) !! tg_id t = Some t →
  wp (update_tag t name cid given color) (λ _ w', tags_ok (w_db w')) (λ _ _, True) w.
Proof.
  intros T Ht. destruct (to_tag_ok _ T _ t Ht) as (Vn & Vc & Vcat). unfold update_tag.
  apply wp_read. { destruct name; keep. } intros n w1 Hn Hdb1.
  assert (valid_name n) as Vn' by (destruct name; [by apply check_tag_name_spec in Hn as (_ & ? & _)|by injection Hn as <- _]).
  apply wp_read. { destruct color; keep. } intros col w2 Hcol Hdb2.
  assert (col ∈ TAG_COLORS) as Vc' by (destruct color; [by apply check_color_spec in Hcol|by injection Hcol as <- _]).
  apply wp_read; [keep|]. intros cat w3 Hcat Hdb3. pose proof (category_of_spec _ _ _ _ Hcat) as C.
  apply wp_read; [keep|]. intros [] w4 Hu Hdb4. pose proof (unique_tag_spec _ _ _ _ _ Hu) as U.
  apply wp_read. { unfold conflict. keep. } intros [] w5 Hcl Hdb5.
  assert (w_db w2 = w_db w ∧ w_db w3 = w_db w ∧ w_db w4 = w_db w ∧ w_db w5 = w_db w) as (E2 & E3 & E4 & E5)
    by (split_and!; congruence).
  unfold put_tag. step. step. cbn. rewrite E5. rewrite E3 in U. rewrite E2 in C.
  pose proof (put_tag_ok (w_db w) (t <| tg_name := n |> <| tg_color := col |> <| tg_category_id := tc_id <$> cat |>)
    T Vn' Vc') as P. apply P; cbn; clear P.
  - intros c E. destruct cat as [c0|]; [|done]. injection E as <-. destruct (C c0 eq_refl) as (k & Hk).
    rewrite (to_cat_key _ T k c0 Hk). eauto.
  - intros k o Ho Ec En. specialize (U k o Ho Ec En). rewrite (to_tag_key _ T k o Ho) in U. congruence.
  - intros v k o c Hv Hk Ho Nk Ec Eo. destruct cat as [c0|]; [|done]. injection Ec as <-.
    case_bool_decide as Esame; cbn [negb] in Hcl.
    + apply Nk. symmetry. by eapply (to_one_per_category _ T v).
    + rewrite run_query in Hcl. rewrite E4 in Hcl.
      destruct (size (category_clashes (w_db w) t (tc_id c0)) =? 0)%nat eqn:Ez; [|done].
      apply Nat.eqb_eq, size_empty_inv in Ez.
      apply (not_elem_of_empty (C := gset (string * string)) (v, tg_id t)), Ez, elem_of_filter. split; [|exact Hv].
      split; [done|]. cbn [fst]. intros En. apply rows_nil with (k := k) (x := o) in En; [|done].
      rewrite (to_tag_key _ T k o Ho), !bool_decide_true in En by done. cbn in En.
      apply negb_false_iff, String.eqb_eq in En. done.
Qed.

(** ** Commands *)
Inductive tag_command :=
  | CreateCategory (name : string) | RenameCategory (id name : string) | DeleteCategory (id : string)
  | CreateTag (name : string) (category_id : option string) (color : string)
  | UpdateTag (id : string) (name category_id : option string) (category_given : bool) (color : option string)
  | DeleteTag (id : string)
  | SetVmTags (vm_id : string) (tag_ids : list string)
  | TagPlacement (c : command).
Definition run_tag_command (c : tag_command) : M unit :=
  match c with
  | CreateCategory name => session_scope (create_category name;; mret tt)
  | RenameCategory id name =>
      session_scope (with_row (get_tag_category id) "Tag category" (λ c, rename_category c name;; mret tt))
  | DeleteCategory id => session_scope (with_row (get_tag_category id) "Tag category" delete_category)
  | CreateTag name cid color => session_scope (create_tag name cid color;; mret tt)
  | UpdateTag id name cid given color =>
      session_scope (with_row (get_tag id) "Tag" (λ t, update_tag t name cid given color;; mret tt))
  | DeleteTag id => session_scope (with_row (get_tag id) "Tag" delete_tag)
  | SetVmTags vm ids => session_scope (with_row (get_vm vm) "VM" (λ v, set_vm_tags v ids;; mret tt))
  | TagPlacement c => run_command c
  end.
Definition run_tag_commands (cs : list tag_command) (w : world) : world :=
  fold_left (λ w c, (run_tag_command c w).2) cs w.
Lemma run_tag_command_ok c w : tags_ok (w_db w) → tags_ok (w_db (run_tag_command c w).2).
Proof.
  destruct c; cbn [run_tag_command].
  - apply upholds_scope, upholds_then, create_category_ok.
  - apply upholds_scope, upholds_row. intros r w' T H. apply wp_bind. eapply wp_mono; [apply rename_category_ok| |]; try done.
    by rewrite (to_cat_key _ T _ r H).
  - apply upholds_scope, upholds_row. intros r w' T H. unfold wp. cbn. by apply delete_category_ok.
  - apply upholds_scope, upholds_then, create_tag_ok.
  - apply upholds_scope, upholds_row. intros r w' T H. apply wp_bind. eapply wp_mono; [apply update_tag_ok| |]; try done.
    by rewrite (to_tag_key _ T _ r H).
  - apply upholds_scope, upholds_row. intros r w' T H. unfold wp. cbn. by apply delete_tags_ok.
  - apply upholds_scope, upholds_row. intros r w' T H. apply wp_bind. eapply wp_mono; [apply set_vm_tags_ok| |]; try done.
    by rewrite (to_vm_key _ T _ r H).
  - apply run_command_safe, _.
Qed.

(** Whatever categories and tags are created, renamed, recoloured, moved
    and deleted, whatever tag sets VMs are given and whatever happens to their
    hosts, in any order and with any request refused: names consist of 1 to 64
    letters, digits, '_' and '-'; category names, and tag names within a
    category or among the standalone tags, are unique up to case; colours come
    from the palette; assignments relate existing tags to existing VMs; and no
    VM carries two tags of one category. *)
Theorem tag_invariant cs w : tags_ok (w_db w) → tags_ok (w_db (run_tag_commands cs w)).
Proof.
  unfold run_tag_commands. revert w. induction cs as [|c cs IH]; intros w T; [done|].
  cbn. by apply IH, run_tag_command_ok.
Qed.
Definition tagged_vm : Vm :=
  mkVm "v1" (Some "g1") "h1" None None "web" "Off" "UEFI" None None 2 4294967296 None None false
    None None None None false None None None None None false true None None None [] [] [].
Definition tags_sample : world := sample_world <| w_db := empty_db <| vms := {["v1" := tagged_vm]} |> |>.
Lemma tag_invariant_witness :
  let cs := [CreateCategory " env "; CreateCategory "ENV"; CreateTag "prod" (Some "id-") "red";
             CreateTag "test" (Some "id-") "blue"; CreateTag "Prod" (Some "id-") "red"; CreateTag "keep_1" None "gray";
             SetVmTags "v1" ["id-i"; "id-iii"; "id-i"]; SetVmTags "v1" ["id-i"; "id-ii"];
             UpdateTag "id-iii" None (Some "id-") true None; CreateTag "no spaces" None "gray"] in
  let w := run_tag_commands cs tags_sample in
  tags_ok (w_db w) ∧ (tg_name <$> rows (λ _, true) (tags (w_db w))) ≡ₚ ["prod"; "test"; "keep_1"] ∧
  vm_tags (w_db w) = {[("v1", "id-i"); ("v1", "id-iii")]}.
Proof.
  split; [|split].
  - apply (tag_invariant _ tags_sample). split; try apply tags_ok_empty.
    + intros k v. change (vms (w_db tags_sample)) with ({["v1" := tagged_vm]} : gmap string Vm).
      intros [<- <-]%lookup_singleton_Some. reflexivity.
    + intros v k H. apply not_elem_of_empty in H. destruct H.
  - apply (bool_decide_unpack _). vm_compute. exact I.
  - apply (bool_decide_unpack _). vm_compute. exact I.
Defined.
