(* ===== verification/HostActions.v ===== *)
(** * Host actions ([app/services/host_actions.py])

    Failover-cluster node maintenance, restart and refresh requests, and the
    node state folded back from a successful response. *)
From S2P Require Import Prelude Py Clock Model World Store Messaging Serializers.
Open Scope string_scope.
Open Scope Z_scope.

Definition NON_TERMINAL : list string := ["queued"; "running"].
Definition CLUSTER_NODE_ACTIONS : list string :=
  ["suspend"; "suspend_drain"; "resume"; "resume_fallback"].
Definition DISRUPTIVE_HOST_ACTIONS : list string := CLUSTER_NODE_ACTIONS ++ ["restart"].
Definition READ_ONLY_HOST_ACTIONS : list string := ["refresh_hardware"; "refresh_inventory"].
Definition HOST_ACTIONS : list string := DISRUPTIVE_HOST_ACTIONS ++ READ_ONLY_HOST_ACTIONS.

(** [((host.hardware or {}).get("cluster") or {}).get("clustered")]; a cluster
    that is not a dict has no [get] *)
Definition reported_clustered (h : Host) : res bool :=
  c ← py_get (py_or (dget (default [] (h_hardware h)) "cluster") (JObj [])) "clustered";
  mret (truthy c).
Definition host_is_clustered (h : Host) : res bool :=
  r ← reported_clustered h; mret (is_some (h_cluster_id h) || r).

(** a queued task on [target], its AMQP id its own *)
Definition queued_task (id kind target_type target_id : string) (target_name : option string)
    (host_id requested_by : string) (created : Z) (request : AgentRequest) : Task :=
  mkTask id kind "queued" target_type target_id target_name host_id requested_by (Some 0) None
    created None None None None (Some request) None (Some id).

(** [.scalars().first()] of the disruptive tasks in flight on the host *)
Definition disruptive_in_flight (host_id : string) (k : Task) : bool :=
  String.eqb (k_host_id k) host_id && String.eqb (k_target_type k) "host" &&
  bool_decide (k_kind k ∈ DISRUPTIVE_HOST_ACTIONS) && bool_decide (k_status k ∈ NON_TERMINAL).

Definition request_host_action (h : Host) (action requested_by : string) : M Task :=
  if negb (bool_decide (action ∈ HOST_ACTIONS)) then
    api_error "UNKNOWN_ACTION" ("Unknown host action '" +:+ action +:+ "'") 404
  else
    connected ← agent_connected h;
    if negb connected then
      api_error "HOST_OFFLINE" ("Host '" +:+ h_name h +:+
        "' agent is offline - host actions are unavailable until it reconnects") 409
    else
      not_node ← (if bool_decide (action ∈ CLUSTER_NODE_ACTIONS)
                  then c ← lift_py (host_is_clustered h); mret (negb c) else mret false);
      if (not_node : bool) then
        api_error "NOT_CLUSTERED" ("Host '" +:+ h_name h +:+ "' is not a Failover Cluster node") 409
      else
        existing ← (if bool_decide (action ∈ DISRUPTIVE_HOST_ACTIONS)
                    then query (λ d, head (rows (disruptive_in_flight (h_id h)) (tasks d)))
                    else mret None);
        match existing with
        | Some k =>
            raise (EApi (mkApiError "HOST_ACTION_IN_PROGRESS"
              ("A '" +:+ k_kind k +:+ "' operation is already running on '" +:+ h_name h +:+ "'")
              409 (Some [("taskId", JStr (k_id k))])))
        | None =>
            id ← new_id;
            request ← mk_request id action [] requested_by;
            created ← gets w_now;
            let task := queued_task id action "host" (h_id h) (Some (h_name h)) (h_id h)
                          requested_by created request in
            add_task task;;
            publish_request (h_short_id h) request;;
            mret task
        end.

Definition apply_host_action_response (task : Task) (resp : AgentResponse) : M unit :=
  if negb (bool_decide (k_kind task ∈ CLUSTER_NODE_ACTIONS)) || negb (String.eqb (k_status task) "succeeded")
  then mret tt
  else
    let state := match rs_result resp with RDict d => dget d "status" | _ => JNull end in
    if negb (truthy state) then mret tt
    else
      repr ← gets w_repr;
      h ← get_host (k_target_id task);
      match h with
      | Some h =>
          match h_hardware h with
          | Some ((_ :: _) as hardware) =>
              match py_or (dget hardware "cluster") (JObj []) with
              | JObj cluster =>
                  let cluster := dset cluster "state" (JStr (py_str repr state)) in
                  put_host (h <| h_hardware := Some (dset hardware "cluster" (JObj cluster)) |>)
              | _ => raise (EPy ValueError)
              end
          | _ => mret tt
          end
      | None => mret tt
      end.

(** ** Properties *)
(** a disruptive action that was queued on the host and has not ended *)
Definition disruptive_open (host_id : string) (k : Task) : Prop :=
  k_host_id k = host_id ∧ k_target_type k = "host" ∧
  (k_status k = "queued" ∨ k_status k = "running") ∧
  (k_kind k = "suspend" ∨ k_kind k = "suspend_drain" ∨ k_kind k = "resume" ∨
   k_kind k = "resume_fallback" ∨ k_kind k = "restart").
Definition one_disruptive (d : database) : Prop :=
  ∀ h i j t t', tasks d !! i = Some t → tasks d !! j = Some t' →
    disruptive_open h t → disruptive_open h t' → i = j.
Lemma disruptive_spec h k : disruptive_in_flight h k = true ↔ disruptive_open h k.
Proof.
  unfold disruptive_in_flight, disruptive_open. rewrite !andb_true_iff, !String.eqb_eq, !bool_decide_eq_true.
  unfold DISRUPTIVE_HOST_ACTIONS, CLUSTER_NODE_ACTIONS, NON_TERMINAL. rewrite elem_of_app.
  rewrite !elem_of_cons, !elem_of_nil. tauto.
Qed.

Lemma insert_disruptive d id t :
  one_disruptive d →
  (disruptive_open (k_host_id t) t →
     ∀ k u, tasks d !! k = Some u → ¬ disruptive_open (k_host_id t) u) →
  one_disruptive (d <| tasks ::= <[id := t]> |>).
Proof.
  intros Hone Hnew h i j a b Hi Hj Ha Hb. cbn in Hi, Hj.
  assert (∀ u, disruptive_open h u → k_host_id u = h) as Hh by (by intros u (? & _)).
  apply lookup_insert_Some in Hi as [[<- <-]|[Hi1 Hi2]], Hj as [[<- <-]|[Hj1 Hj2]].
  - done.
  - pose proof (Hh _ Ha) as <-. by destruct (Hnew Ha _ _ Hj2).
  - pose proof (Hh _ Hb) as <-. by destruct (Hnew Hb _ _ Hi2).
  - eauto.
Qed.

(** C9: host actions are exclusive and refused without a trace.  At most one
    disruptive action (node suspend, drain, resume, failback, or restart) is in flight
    per host, whatever [request_host_action] answers; when it refuses with an
    API error nothing at all has changed; when it accepts, the agent was
    online, the action known, a node action asked of a clustered host, and
    exactly one queued task and one request with its id were added. *)
Theorem host_action_exclusive w h action by_ :
  one_disruptive (w_db w) → request_queue_ok w (h_short_id h) →
  let r := request_host_action h action by_ w in
  one_disruptive (w_db r.2) ∧
  match r.1 with
  | Raise (EApi _) => r.2 = w
  | Raise _ => True
  | Ok t =>
      action ∈ HOST_ACTIONS ∧ agent_connected_at (w_cfg w) (w_now w) h = true ∧
      (action ∈ CLUSTER_NODE_ACTIONS → host_is_clustered h = inl true) ∧
      k_kind t = action ∧ k_status t = "queued" ∧ k_target_id t = h_id h ∧
      w_db r.2 = w_db w <| tasks ::= <[k_id t := t]> |> ∧
      ∃ rq, k_request_payload t = Some rq ∧ rq_id rq = k_id t ∧ rq_function rq = action ∧
        published (w_mq r.2) = (published (w_mq w) ++ [(queue_name (h_short_id h) REQUEST, rq)])%list
  end.
Proof.
  intros Hone Hq. cbv zeta. unfold request_host_action.
  destruct (bool_decide (action ∈ HOST_ACTIONS)) eqn:Ea; cbn [negb]; [|by split].
  unfold agent_connected. run.
  destruct (agent_connected_at (w_cfg w) (w_now w) h) eqn:Ec; cbn [negb]; [|by split].
  assert (∃ o, (if bool_decide (action ∈ CLUSTER_NODE_ACTIONS)
                then c ← lift_py (host_is_clustered h); mret (negb c) else mret false) w = (o, w) ∧
    (o = Ok false → action ∈ CLUSTER_NODE_ACTIONS → host_is_clustered h = inl true)) as (o & Ho & Hco).
  { by_cases (action ∈ CLUSTER_NODE_ACTIONS) as En; [|exists (Ok false); split; [done|]; by intros ?].
    destruct (host_is_clustered h) as [[]|e]; eexists; (split; [done|]); try done. }
  destruct o as [b|e].
  2:{ rewrite (run_fail _ _ _ _ _ Ho). split; [done|]. by destruct e. }
  rewrite (run_ok _ _ _ _ _ Ho). destruct b; [by split|].
  assert (∃ x, (if bool_decide (action ∈ DISRUPTIVE_HOST_ACTIONS)
                then query (λ d, head (rows (disruptive_in_flight (h_id h)) (tasks d)))
                else mret None) w = (Ok x, w) ∧
    (x = None → action ∈ DISRUPTIVE_HOST_ACTIONS →
       ∀ k u, tasks (w_db w) !! k = Some u → disruptive_in_flight (h_id h) u = false)) as (x & Hx & Hnone).
  { by_cases (action ∈ DISRUPTIVE_HOST_ACTIONS) as Ed; eexists; (split; [done|]); [|done].
    intros Hh _. apply rows_nil. by destruct (rows _ _). }
  rewrite (run_ok _ _ _ _ _ Hx). destruct x as [k|]; [by split|].
  unfold mk_request. run.
  set (rq := mkRequest _ _ _ _ _). set (task := queued_task _ _ _ _ _ _ _ _ _).
  set (w0 := w <| w_seq ::= S |>). unfold add_task.
  destruct (tasks (w_db w0) !! k_id task) as [old|] eqn:Eold.
  { rewrite (run_fail _ _ w0 EIntegrity w0) by (by apply add_row_taken; exists old). by split. }
  set (w1 := w0 <| w_db ::= λ d, d <| tasks ::= <[k_id task := task]> |> |>).
  rewrite (run_ok _ _ w0 tt w1) by (by rewrite add_row_run).
  assert (one_disruptive (w_db w1)) as Hone1.
  { apply (insert_disruptive (w_db w) (k_id task) task Hone). cbn. intros Ht%disruptive_spec k u Hk Hu%disruptive_spec.
    rewrite (Hnone eq_refl) with (k := k) in Hu; [done| |done].
    unfold disruptive_in_flight in Ht. bool_prop. done. }
  destruct (w_broker_up w) eqn:Eb.
  - destruct (publish_run w1 (h_short_id h) rq Eb Hq) as (b & Hb & Hp & _ & _).
    rewrite (run_ok _ _ _ _ _ Hb). cbn. split; [done|].
    split; [by apply bool_decide_eq_true in Ea|]. split; [done|]. split; [by apply Hco|].
    split_and!; try done. by exists rq.
  - rewrite (run_fail _ _ _ _ _ (publish_down w1 _ rq Eb)). by split.
Qed.
Definition sample_host : Host :=
  mkHost "h1" "abc" None "node-1" None None "hyperv" None None None (Some (utc 1790467200000000))
    None None None.
Lemma host_action_exclusive_witness :
  let r := request_host_action sample_host "restart" "op" sample_world in
  one_disruptive (w_db r.2) ∧ ∃ t, r.1 = Ok t ∧ w_db r.2 = empty_db <| tasks ::= <[k_id t := t]> |>.
Proof.
  cbv zeta.
  destruct (host_action_exclusive sample_world sample_host "restart" "op") as [H1 H2];
    [intros h i j t t' Hi; discriminate Hi|intros a Ha; discriminate Ha|].
  split; [exact H1|]. eexists. split; [vm_compute; reflexivity|vm_compute; reflexivity].
Defined.
