(* ===== verification/Sha256.v ===== *)
(** * HMAC-SHA256 ([hmac.new(secret, msg, hashlib.sha256).hexdigest()])

    What the signed URLs use of Python's [hashlib] and [hmac]: the digest on
    32-bit words kept as [Z], executable, checked against published vectors. *)
From S2P Require Import Prelude Py.
From Stdlib Require Import Ascii.
Open Scope string_scope.
Open Scope Z_scope.

(** ** 32-bit words *)
Definition word (z : Z) : Z := Z.land z 4294967295.
Definition add32 (a b : Z) : Z := word (a + b).
Definition rotr (x : Z) (n : Z) : Z := word (Z.lor (Z.shiftr x n) (Z.shiftl x (32 - n))).
Definition not32 (x : Z) : Z := Z.lxor x 4294967295.
Definition ch (x y z : Z) : Z := Z.lxor (Z.land x y) (Z.land (not32 x) z).
Definition maj (x y z : Z) : Z := Z.lxor (Z.land x y) (Z.lxor (Z.land x z) (Z.land y z)).
Definition bsig0 (x : Z) : Z := Z.lxor (rotr x 2) (Z.lxor (rotr x 13) (rotr x 22)).
Definition bsig1 (x : Z) : Z := Z.lxor (rotr x 6) (Z.lxor (rotr x 11) (rotr x 25)).
Definition ssig0 (x : Z) : Z := Z.lxor (rotr x 7) (Z.lxor (rotr x 18) (Z.shiftr x 3)).
Definition ssig1 (x : Z) : Z := Z.lxor (rotr x 17) (Z.lxor (rotr x 19) (Z.shiftr x 10)).

(** The constants of the standard: the first 32 bits of the fractional parts of
    the cube roots of the first 64 primes, and of the square roots of the first
    eight. *)
Definition is_prime (n : Z) : bool :=
  forallb (λ d, negb (n mod Z.of_nat d =? 0)) (seq 2 (Z.to_nat (Z.sqrt n) - 1)).
Definition primes_below (n : nat) : list Z := List.filter is_prime (Z.of_nat <$> seq 2 (n - 2)).
(** the largest [c < acc + 2^bits] of cube at most [n] *)
Fixpoint cube_root (bits : nat) (n acc : Z) : Z :=
  match bits with
  | O => acc
  | S b => let c := acc + 2 ^ Z.of_nat b in cube_root b n (if c ^ 3 <=? n then c else acc)
  end.
Definition K256 : list Z := Eval vm_compute in
  (λ p, cube_root 36 (Z.shiftl p 96) 0 mod 2 ^ 32) <$> primes_below 312.
Definition H256 : list Z := Eval vm_compute in
  (λ p, Z.sqrt (Z.shiftl p 64) mod 2 ^ 32) <$> take 8 (primes_below 20).

(** ** One block *)

(** the message schedule, latest word first *)
Fixpoint schedule (n : nat) (w : list Z) : list Z :=
  match n with
  | O => w
  | S n' =>
      let t k := nth k w 0 in
      schedule n' (add32 (add32 (ssig1 (t 1%nat)) (t 6%nat)) (add32 (ssig0 (t 14%nat)) (t 15%nat)) :: w)
  end.
Definition sha_round (s : list Z) (kw : Z * Z) : list Z :=
  match s with
  | [a; b; c; d; e; f; g; h] =>
      let t1 := add32 (add32 (add32 h (bsig1 e)) (add32 (ch e f g) kw.1)) kw.2 in
      let t2 := add32 (bsig0 a) (maj a b c) in
      [add32 t1 t2; a; b; c; add32 d t1; e; f; g]
  | _ => s
  end.
Definition compress (s : list Z) (block : list Z) : list Z :=
  zip_with add32 s (fold_left sha_round (zip K256 (rev (schedule 48 (rev block)))) s).

(** ** Messages: bytes as integers *)
Fixpoint bytes_of (s : string) : list Z :=
  match s with "" => [] | String c s' => Z.of_N (N_of_ascii c) :: bytes_of s' end.
Fixpoint be_bytes (n : nat) (z : Z) : list Z :=
  match n with O => [] | S n' => Z.land (Z.shiftr z (8 * Z.of_nat n')) 255 :: be_bytes n' z end.
Fixpoint words (l : list Z) : list Z :=
  match l with a :: b :: c :: d :: l' => ((a * 256 + b) * 256 + c) * 256 + d :: words l' | _ => [] end.
Definition pad (m : list Z) : list Z :=
  let n := length m in
  (m ++ [0x80] ++ repeat 0 (Z.to_nat ((55 - Z.of_nat n) mod 64)) ++ be_bytes 8 (8 * Z.of_nat n))%list.
Fixpoint blocks (fuel : nat) (l : list Z) : list (list Z) :=
  match fuel, l with
  | S f, _ :: _ => take 16 l :: blocks f (drop 16 l)
  | _, _ => []
  end.
Definition sha256 (m : list Z) : list Z :=
  let ws := words (pad m) in
  mjoin (be_bytes 4 <$> fold_left compress (blocks (length ws) ws) H256).
Definition hmac_sha256 (key msg : list Z) : list Z :=
  let key := if (64 <? length key)%nat then sha256 key else key in
  let key := (key ++ repeat 0 (64 - length key))%list in
  sha256 (((Z.lxor 0x5c) <$> key) ++ sha256 (((Z.lxor 0x36) <$> key) ++ msg))%list.
(** [hexdigest()] *)
Definition hex_digit (d : Z) : ascii := ascii_of_N (Z.to_N (if d <? 10 then 48 + d else 87 + d)).
Fixpoint hex (l : list Z) : string :=
  match l with
  | [] => ""
  | b :: l' => String (hex_digit (Z.shiftr b 4)) (String (hex_digit (Z.land b 15)) (hex l'))
  end.

Example sha256_abc :
  hex (sha256 (bytes_of "abc")) = "ba7816bf8f01cfea414140de5dae2223b00361a396177a9cb410ff61f20015ad".
Proof. vm_compute. reflexivity. Qed.
Example hmac_rfc4231_2 :
  hex (hmac_sha256 (bytes_of "Jefe") (bytes_of "what do ya want for nothing?")) =
  "5bdcc146bf60754e6a042426089575c75a003f089d2739839dec58b964ec3843".
Proof. vm_compute. reflexivity. Qed.

(** ** The digest is 64 hexadecimal characters *)
Lemma be_bytes_range n z : Forall (λ b, 0 ≤ b < 256) (be_bytes n z).
Proof.
  induction n as [|n IH]; cbn; constructor; [|exact IH].
  change 255 with (Z.ones 8). rewrite Z.land_ones by lia. apply Z.mod_pos_bound. lia.
Qed.
Lemma sha256_range m : Forall (λ b, 0 ≤ b < 256) (sha256 m).
Proof.
  unfold sha256. generalize (fold_left compress (blocks (length (words (pad m))) (words (pad m))) H256). intros l.
  induction l as [|x l IH]; [constructor|]. change (Forall (λ b, 0 ≤ b < 256) (be_bytes 4 x ++ mjoin (be_bytes 4 <$> l))%list).
  apply Forall_app. split; [apply be_bytes_range|exact IH].
Qed.
Lemma fold_compress_length bs s : length s = 8%nat → length (fold_left compress bs s) = 8%nat.
Proof.
  revert s. induction bs as [|b bs IH]; intros s Hs; [done|]. cbn [fold_left]. apply IH. unfold compress.
  rewrite length_zip_with, Hs.
  assert (∀ kw s', length s' = 8%nat → length (fold_left sha_round kw s') = 8%nat) as Hr.
  { induction kw as [|x kw IHk]; intros s' Hs'; [done|]. cbn [fold_left]. apply IHk. unfold sha_round.
    destruct s' as [|? [|? [|? [|? [|? [|? [|? [|? [|]]]]]]]]]; done. }
  by rewrite Hr.
Qed.
Lemma sha256_length m : length (sha256 m) = 32%nat.
Proof.
  unfold sha256. pose proof (fold_compress_length (blocks (length (words (pad m))) (words (pad m))) H256 eq_refl) as H.
  set (l := fold_left compress _ _) in *. clearbody l. destruct l as [|? [|? [|? [|? [|? [|? [|? [|? [|]]]]]]]]]; done.
Qed.
Lemma hex_digit_ok d : 0 ≤ d < 16 → is_hex (hex_digit d) = true.
Proof.
  intros H. assert (d = 0 ∨ d = 1 ∨ d = 2 ∨ d = 3 ∨ d = 4 ∨ d = 5 ∨ d = 6 ∨ d = 7 ∨ d = 8 ∨ d = 9 ∨ d = 10 ∨ d = 11 ∨
    d = 12 ∨ d = 13 ∨ d = 14 ∨ d = 15) as Hd by lia.
  repeat destruct Hd as [->|Hd]; try reflexivity. subst. reflexivity.
Qed.
Lemma hex_ok l : Forall (λ b, 0 ≤ b < 256) l → s_forallb is_hex (hex l) = true ∧ String.length (hex l) = (2 * length l)%nat.
Proof.
  induction 1 as [|b l Hb _ [IH1 IH2]]; [done|]. cbn [hex s_forallb String.length length].
  rewrite !hex_digit_ok, IH1; [split; [done|lia]| |].
  - change 15 with (Z.ones 4). rewrite Z.land_ones by lia. apply Z.mod_pos_bound. lia.
  - rewrite Z.shiftr_div_pow2 by lia. change (2 ^ 4) with 16. split; [apply Z.div_pos; lia|apply Z.div_lt_upper_bound; lia].
Qed.
Lemma hmac_hex_ok k m : s_forallb is_hex (hex (hmac_sha256 k m)) = true ∧ String.length (hex (hmac_sha256 k m)) = 64%nat.
Proof.
  unfold hmac_sha256. cbv zeta. set (x := (_ ++ sha256 _)%list). destruct (hex_ok (sha256 x) (sha256_range x)) as [H1 H2].
  by rewrite H1, H2, sha256_length.
Qed.
