(* ===== verification/AgentStore.v ===== *)
(** * Agent binary storage and signed links ([app/services/agent_store.py])

    The HMAC links that stand in for a login (download and install URLs), the
    key-to-path mapping of the local store and the choice of backend.  The
    transfers to a file system and to an object store are in [FileStore]. *)
From S2P Require Import Prelude Py Clock Model World Messaging Sha256.
From Stdlib Require Import Ascii.
Open Scope string_scope.
Open Scope Z_scope.

Definition object_key (binary_id filename : string) : string := binary_id +:+ "/" +:+ filename.

(** ** Signed links *)

(** [int(time.time())] *)
Definition epoch : M Z := gets (λ w, w_now w / 1000000).
Definition hmac_hex (msg : string) : M string :=
  cfg ← get_settings; mret (hex (hmac_sha256 (bytes_of (session_secret cfg)) (bytes_of msg))).
Definition download_msg (binary_id : string) (exp : Z) : string := binary_id +:+ "." +:+ str_of_Z exp.
Definition scope_msg (scope : string) (exp : Z) : string := "scope:" +:+ scope +:+ "." +:+ str_of_Z exp.
Definition download_mac (binary_id : string) (exp : Z) : M string := hmac_hex (download_msg binary_id exp).
Record signature := mkSignature { sg_exp : string; sg_token : string }.
Definition sign_download (binary_id : string) (ttl_seconds : option Z) : M signature :=
  cfg ← get_settings;
  let ttl := match ttl_seconds with
             | Some t => if t =? 0 then agent_download_url_ttl_seconds cfg else t
             | None => agent_download_url_ttl_seconds cfg
             end in
  now ← epoch;
  token ← download_mac binary_id (now + ttl);
  mret (mkSignature (str_of_Z (now + ttl)) token).
Definition is_ascii (s : string) : bool := s_forallb (λ c, (N_of_ascii c <? 128)%N) s.
(** [hmac.compare_digest] on [str] *)
Definition compare_digest (a b : string) : M bool :=
  if is_ascii a && is_ascii b then mret (String.eqb a b) else raise (EPy TypeError).
(** the checks shared by the two verifiers: [mac] is what the token must be *)
Definition verify_token (mac : Z → M string) (exp token : option string) : M bool :=
  match exp, token with
  | Some exp, Some token =>
      if negb (str_nonempty exp) || negb (str_nonempty token) then mret false
      else
        match int_of_string exp with
        | inr ValueError => mret false
        | inr e => raise (EPy e)
        | inl exp_i =>
            now ← epoch;
            if exp_i <? now then mret false
            else expected ← mac exp_i; compare_digest token expected
        end
  | _, _ => mret false
  end.
Definition verify_download (binary_id : string) (exp token : option string) : M bool :=
  verify_token (download_mac binary_id) exp token.
Definition sign_scope (scope : string) (ttl_seconds : Z) : M signature :=
  now ← epoch;
  token ← hmac_hex (scope_msg scope (now + ttl_seconds));
  mret (mkSignature (str_of_Z (now + ttl_seconds)) token).
Definition verify_scope (scope : string) (exp token : option string) : M bool :=
  verify_token (λ exp_i, hmac_hex (scope_msg scope exp_i)) exp token.
(** [urlencode] of the two fields: digits and hexadecimal need no quoting *)
Definition urlencode (s : signature) : string := "exp=" +:+ sg_exp s +:+ "&token=" +:+ sg_token s.

(** ** The local store: keys to paths

    Paths are absolute and without symbolic links, a path being its components. *)
Abbreviation path := (list string).
Definition path_str (p : path) : string := "/" +:+ join "/" p.
(** [resolve()]: empty and ["."] components vanish, [".."] drops the last one *)
Definition push (p : path) (c : string) : path :=
  if String.eqb c "" || String.eqb c "." then p
  else if String.eqb c ".." then removelast p
  else (p ++ [c])%list.
Definition resolve (p : path) (s : string) : path :=
  fold_left push (split_char "/"%char s) (if startswith "/" s then [] else p).
(** [LocalAgentStore._path] *)
Definition store_path (root : path) (key : string) : M path :=
  let p := resolve root key in
  if startswith (path_str root) (path_str p) then mret p
  else raise (EStore "path traversal in object key").

(** ** The backend *)
Inductive AgentStore :=
  | LocalAgentStore (root : path)
  | S3AgentStore (bucket prefix : string) (endpoint_url : option string) (region : string).
Definition backend (s : AgentStore) : string :=
  match s with LocalAgentStore _ => "local" | S3AgentStore _ _ _ _ => "s3" end.
Definition strip_char (c : ascii) (s : string) : string :=
  drop_while_end (Ascii.eqb c) (drop_while (Ascii.eqb c) s).
Definition s3_key (prefix key : string) : string := if str_nonempty prefix then prefix +:+ "/" +:+ key else key.
Definition describe (s : AgentStore) : string :=
  match s with
  | LocalAgentStore root => path_str root
  | S3AgentStore bucket prefix endpoint _ =>
      (if str_nonempty prefix then bucket +:+ "/" +:+ prefix else bucket) +:+ " (" +:+ default "aws" endpoint +:+ ")"
  end.

Section store.
(** the directory above the [app] package, and boto3's presigner: bucket, key,
    file name, lifetime *)
Context (repo_root : path) (presign : string → string → string → Z → string).

Definition get_agent_store : M AgentStore :=
  cfg ← get_settings;
  if String.eqb (agent_storage cfg) "s3" then
    if str_nonempty (agent_s3_bucket cfg) then
      mret (S3AgentStore (agent_s3_bucket cfg) (strip_char "/" (agent_s3_prefix cfg))
              (if str_nonempty (agent_s3_endpoint_url cfg) then Some (agent_s3_endpoint_url cfg) else None)
              (agent_s3_region cfg))
    else raise (EStore "OVC_AGENT_S3_BUCKET is required when OVC_AGENT_STORAGE=s3")
  else mret (LocalAgentStore (resolve repo_root (agent_storage_dir cfg))).
Definition public_base : M string :=
  cfg ← get_settings; mret (drop_while_end (Ascii.eqb "/") (public_base_url cfg)).
Definition download_url (s : AgentStore) (binary_id key filename : string) : M (option string) :=
  cfg ← get_settings;
  match s with
  | LocalAgentStore _ =>
      base ← public_base;
      if negb (str_nonempty base) then mret None
      else
        qs ← sign_download binary_id None;
        mret (Some (base +:+ api_prefix cfg +:+ "/agent-binaries/" +:+ binary_id +:+ "/download?" +:+ urlencode qs))
  | S3AgentStore bucket prefix _ _ =>
      mret (Some (presign bucket (s3_key prefix key) filename (agent_download_url_ttl_seconds cfg)))
  end.
End store.

(** ** Decimal numbers: [int(str(z)) = z] *)
Definition all_digits (s : string) : bool := s_forallb is_digit s.
Fixpoint decimal (s : string) (v : Z) : Z :=
  match s with "" => v | String c s' => decimal s' (10 * v + Z.of_N (N_of_ascii c - 48)) end.
Lemma digit_char_ok d : 0 ≤ d < 10 → is_digit (digit_char d) = true ∧ Z.of_N (N_of_ascii (digit_char d) - 48) = d.
Proof.
  intros H. assert (d = 0 ∨ d = 1 ∨ d = 2 ∨ d = 3 ∨ d = 4 ∨ d = 5 ∨ d = 6 ∨ d = 7 ∨ d = 8 ∨ d = 9) as Hd by lia.
  repeat destruct Hd as [->|Hd]; try (split; reflexivity). subst. split; reflexivity.
Qed.
Lemma decimal_app a b v : decimal (a +:+ b) v = decimal b (decimal a v).
Proof. revert v. induction a as [|c a IH]; intros v; [done|]. change (String c a +:+ b) with (String c (a +:+ b)). apply IH. Qed.
Lemma digits_of_spec f z acc :
  0 ≤ z < 10 ^ Z.of_nat f → (0 < f)%nat →
  ∃ s, digits_of f z acc = s +:+ acc ∧ s ≠ "" ∧ all_digits s = true ∧ (String.length s ≤ f)%nat ∧
    ∀ v, decimal s v = v * 10 ^ Z.of_nat (String.length s) + z.
Proof.
  revert z acc. induction f as [|f IH]; intros z acc Hz Hf; [lia|]. cbn [digits_of].
  destruct (digit_char_ok (z mod 10)) as [Hd Hv]; [apply Z.mod_pos_bound; lia|].
  destruct (Z.ltb_spec z 10) as [Hlt|Hge].
  - exists (String (digit_char (z mod 10)) ""). split_and!; try done.
    + unfold all_digits. cbn [s_forallb]. by rewrite Hd.
    + intros v. cbn [decimal String.length]. rewrite Hv, Z.mod_small by lia. lia.
  - assert (0 < f)%nat as Hf'. { destruct f; [|lia]. cbn in Hz. lia. }
    destruct (IH (z / 10) (String (digit_char (z mod 10)) acc)) as (s & Hs & Hne & Had & Hlen & Hdec); [|done|].
    { rewrite Nat2Z.inj_succ, Z.pow_succ_r in Hz by lia. split; [apply Z.div_pos; lia|apply Z.div_lt_upper_bound; lia]. }
    exists (s +:+ String (digit_char (z mod 10)) ""). split_and!.
    + rewrite Hs, sapp_assoc. done.
    + by destruct s.
    + unfold all_digits in *. rewrite s_forallb_app, Had. cbn [s_forallb]. by rewrite Hd.
    + rewrite slength_app. cbn [String.length]. lia.
    + intros v. rewrite decimal_app, slength_app, Hdec. cbn [decimal String.length].
      rewrite Hv, Nat2Z.inj_add, Z.pow_add_r by lia. pose proof (Z.div_mod z 10 ltac:(lia)). change (10 ^ Z.of_nat 1) with 10. lia.
Qed.
Lemma str_of_Z_spec z :
  0 ≤ z → ∃ s, str_of_Z z = s ∧ s ≠ "" ∧ all_digits s = true ∧
    (String.length s ≤ S (Z.to_nat (Z.log2_up (z + 1))))%nat ∧ ∀ v, decimal s v = v * 10 ^ Z.of_nat (String.length s) + z.
Proof.
  intros Hz. unfold str_of_Z. rewrite Z.abs_eq by done. destruct (Z.ltb_spec z 0); [lia|].
  destruct (digits_of_spec (S (Z.to_nat (Z.log2_up (z + 1)))) z "") as (s & Hs & Hne & Had & Hlen & Hdec); [|lia|].
  - split; [done|]. rewrite Nat2Z.inj_succ, Z2Nat.id by apply Z.log2_up_nonneg.
    destruct (decide (z = 0)) as [->|N]; [done|]. pose proof (Z.log2_up_spec (z + 1)) as [_ Hlog]; [lia|].
    assert (2 ^ Z.log2_up (z + 1) ≤ 10 ^ Z.succ (Z.log2_up (z + 1))); [|lia].
    etrans; [apply (Z.pow_le_mono_l 2 10)|apply Z.pow_le_mono_r]; lia.
  - cbv zeta. rewrite Hs. exists s. by rewrite sapp_nil_r.
Qed.
Lemma scan_all_digits s v n : all_digits s = true → scan_digits s v n = (decimal s v, (n + String.length s)%nat, "").
Proof.
  revert v n. induction s as [|c s IH]; intros v n H; cbn [scan_digits decimal String.length]; [by rewrite Nat.add_0_r|].
  unfold all_digits in *. cbn [s_forallb] in H. apply andb_true_iff in H as [-> H]. rewrite IH by done. f_equal. f_equal. lia.
Qed.
Lemma digit_not_space c : is_digit c = true → py_space c = false ∧ c ≠ "-"%char ∧ c ≠ "+"%char ∧ c ≠ "."%char.
Proof. destruct c as [[] [] [] [] [] [] [] []]; try done; intros _; split_and!; done. Qed.
Lemma strip_digits s : all_digits s = true → strip s = s.
Proof.
  intros H. unfold strip. assert (drop_while py_space s = s) as ->.
  { destruct s as [|c s]; [done|]. unfold all_digits in H. cbn [s_forallb] in H. apply andb_true_iff in H as [H _].
    cbn. by rewrite (proj1 (digit_not_space c H)). }
  induction s as [|c s IH]; [done|]. unfold all_digits in *. cbn [s_forallb] in H. apply andb_true_iff in H as [Hc H].
  cbn [drop_while_end]. rewrite IH by done. destruct s; [|done]. by rewrite (proj1 (digit_not_space c Hc)).
Qed.
(** a number of reasonable size reads back as itself *)
Lemma int_of_str z : 0 ≤ z < 2 ^ 4299 → int_of_string (str_of_Z z) = inl z.
Proof.
  intros Hz. destruct (str_of_Z_spec z) as (s & -> & Hne & Had & Hlen & Hdec); [lia|].
  unfold int_of_string. rewrite strip_digits by done.
  assert (scan_sign s = (false, s)) as ->.
  { destruct s as [|c s]; [done|]. unfold all_digits in Had. cbn [s_forallb] in Had. apply andb_true_iff in Had as [Hc _].
    by destruct c as [[] [] [] [] [] [] [] []]. }
  rewrite scan_all_digits, Hdec by done. cbn [Nat.add].
  assert (String.length s ≤ 4300)%nat as Hl.
  { etrans; [exact Hlen|]. assert (Z.log2_up (z + 1) ≤ 4299); [|lia].
    rewrite <- (Z.log2_up_pow2 4299) by lia. apply Z.log2_up_le_mono. lia. }
  apply Nat.leb_le in Hl. rewrite Hl. destruct (String.length s) eqn:E; [by destruct s|]. f_equal.
Qed.
Lemma str_of_Z_no_dot z : 0 ≤ z → no_dot (str_of_Z z) = true.
Proof.
  intros Hz. destruct (str_of_Z_spec z Hz) as (s & -> & _ & H & _). clear -H. unfold no_dot, all_digits in *.
  induction s as [|c s IH]; [done|]. cbn [s_forallb] in *. apply andb_true_iff in H as [Hc H]. rewrite IH by done.
  apply digit_not_space in Hc as (_ & _ & _ & Hc). apply Ascii.eqb_neq in Hc. by rewrite Hc.
Qed.

(** ** Links *)
Definition secs (w : world) : Z := w_now w / 1000000.
(** the token a download link must carry *)
Definition download_token (w : world) (id : string) (z : Z) : string :=
  hex (hmac_sha256 (bytes_of (session_secret (w_cfg w))) (bytes_of (download_msg id z))).
Definition effective_ttl (w : world) (ttl : option Z) : Z :=
  match ttl with
  | Some t => if t =? 0 then agent_download_url_ttl_seconds (w_cfg w) else t
  | None => agent_download_url_ttl_seconds (w_cfg w)
  end.
Lemma sign_download_run id ttl w :
  sign_download id ttl w =
    (Ok (mkSignature (str_of_Z (secs w + effective_ttl w ttl)) (download_token w id (secs w + effective_ttl w ttl))), w).
Proof. reflexivity. Qed.
Lemma hex_is_ascii s : s_forallb is_hex s = true → is_ascii s = true.
Proof.
  unfold is_ascii. induction s as [|c s IH]; [done|]. cbn [s_forallb]. intros [Hc H]%andb_true_iff.
  rewrite IH by done. destruct c as [[] [] [] [] [] [] [] []]; done.
Qed.
Lemma token_ok k m : let t := hex (hmac_sha256 k m) in is_ascii t = true ∧ t ≠ "".
Proof.
  cbv zeta. destruct (hmac_hex_ok k m) as [H Hl]. split; [by apply hex_is_ascii|]. intros E. rewrite E in Hl. discriminate Hl.
Qed.
Lemma str_of_Z_nonempty z : 0 ≤ z → str_nonempty (str_of_Z z) = true.
Proof. intros Hz. destruct (str_of_Z_spec z Hz) as (s & -> & Hne & _). by destruct s. Qed.
Lemma str_of_Z_inj a b : 0 ≤ a → 0 ≤ b → str_of_Z a = str_of_Z b → a = b.
Proof.
  intros Ha Hb E. destruct (str_of_Z_spec a Ha) as (s & E1 & _ & _ & _ & Hs).
  destruct (str_of_Z_spec b Hb) as (t & E2 & _ & _ & _ & Ht). rewrite E1, E2 in E. subst t.
  specialize (Hs 0). specialize (Ht 0). lia.
Qed.
Lemma download_msg_inj id id' z z' :
  0 ≤ z → 0 ≤ z' → download_msg id z = download_msg id' z' → id = id' ∧ z = z'.
Proof.
  intros Hz Hz' [-> E]%dot_inj; [|by apply str_of_Z_no_dot..]. split; [done|]. by apply str_of_Z_inj.
Qed.
Lemma verify_sound (m : Z → M string) (mac : Z → string) exp tok w w' :
  (∀ z, m z w = (Ok (mac z), w)) → verify_token m exp tok w = (Ok true, w') →
  ∃ e z, exp = Some e ∧ int_of_string e = inl z ∧ secs w ≤ z ∧ tok = Some (mac z).
Proof.
  intros Hm. unfold verify_token. destruct exp as [e|], tok as [t|]; try done.
  destruct (negb (str_nonempty e) || negb (str_nonempty t)); [done|].
  destruct (int_of_string e) as [z|[]] eqn:Ee; try done. unfold epoch. rewrite run_gets.
  change (w_now w / 1000000) with (secs w). destruct (Z.ltb_spec z (secs w)); [done|]. rewrite (run_ok _ _ _ _ _ (Hm z)). unfold compare_digest.
  destruct (is_ascii t && is_ascii (mac z)); [|done]. intros [= E%String.eqb_eq _]. subst. eauto 6.
Qed.

(** C20: download links.  A link signed for a binary verifies for that binary
    until its expiry second and never after; conversely a token is accepted
    only if it is the HMAC-SHA256, under the configured secret, of exactly this
    binary's id and the expiry presented, which has not passed; and the signed
    text determines both, so a link cannot be re-used for another binary or
    with a later expiry without a new HMAC. *)
Theorem signed_links_exact w id ttl :
  0 ≤ secs w + effective_ttl w ttl < 2 ^ 4299 →
  ∃ s, sign_download id ttl w = (Ok s, w) ∧
    (∀ w', w_cfg w' = w_cfg w →
       verify_download id (Some (sg_exp s)) (Some (sg_token s)) w' =
         (Ok (bool_decide (secs w' ≤ secs w + effective_ttl w ttl)), w')) ∧
    (∀ id' exp tok w' w'', verify_download id' exp tok w' = (Ok true, w'') →
       ∃ e z, exp = Some e ∧ int_of_string e = inl z ∧ secs w' ≤ z ∧ tok = Some (download_token w' id' z)) ∧
    (∀ id' z, 0 ≤ z → download_msg id' z = download_msg id (secs w + effective_ttl w ttl) →
       id' = id ∧ z = secs w + effective_ttl w ttl).
Proof.
  intros Hr. set (z := secs w + effective_ttl w ttl) in *. rewrite sign_download_run. eexists. split; [reflexivity|].
  split; [|split].
  - intros w' Hcfg. cbn [sg_exp sg_token]. change (secs w + effective_ttl w ttl) with z.
    unfold verify_download, verify_token. rewrite str_of_Z_nonempty by lia.
    destruct (token_ok (bytes_of (session_secret (w_cfg w))) (bytes_of (download_msg id z))) as [Hasc Hne].
    change (hex _) with (download_token w id z) in Hasc, Hne.
    assert (str_nonempty (download_token w id z) = true) as -> by (by destruct (download_token w id z)). cbn [negb orb].
    rewrite int_of_str by lia. unfold epoch. rewrite run_gets. change (w_now w' / 1000000) with (secs w').
    destruct (Z.ltb_spec z (secs w')) as [Hlt|Hge]; [by rewrite bool_decide_false by lia|].
    rewrite bool_decide_true by lia. unfold download_mac, hmac_hex. rewrite run_assoc, run_settings, run_ret, Hcfg.
    change (hex _) with (download_token w id z). unfold compare_digest. rewrite Hasc. cbn [andb].
    by rewrite String.eqb_refl.
  - intros id' exp tok w' w''. by apply verify_sound.
  - intros id' z' Hz' E. apply download_msg_inj in E; [exact E|done|lia].
Qed.
Lemma signed_links_exact_witness :
  ∃ s, sign_download "bin-1" None sample_world = (Ok s, sample_world) ∧
    verify_download "bin-1" (Some (sg_exp s)) (Some (sg_token s)) (sample_world <| w_now ::= Z.add 900000000 |>) =
      (Ok true, sample_world <| w_now ::= Z.add 900000000 |>) ∧
    verify_download "bin-1" (Some (sg_exp s)) (Some (sg_token s)) (sample_world <| w_now ::= Z.add 901000000 |>) =
      (Ok false, sample_world <| w_now ::= Z.add 901000000 |>).
Proof.
  destruct (signed_links_exact sample_world "bin-1" None) as (s & Hs & Hv & _).
  - change (0 ≤ 1790468100 < 2 ^ 4299). split; [lia|]. apply Z.lt_le_trans with (2 ^ 64); [lia|]. apply Z.pow_le_mono_r; lia.
  - exists s. split; [exact Hs|]. split; (rewrite Hv; [|reflexivity]); f_equal; f_equal; vm_compute; reflexivity.
Defined.

(** A token with a character outside ASCII is not refused: [compare_digest]
    raises, and the request ends in an internal error. *)
Lemma foreign_token_raises w :
  secs w ≤ 9999999999 →
  verify_download "bin-1" (Some "9999999999") (Some "é") w = (Raise (EPy TypeError), w).
Proof.
  intros H. unfold verify_download, verify_token. change (int_of_string "9999999999") with (inl (A := Z) (B := pyexn) 9999999999).
  cbn [str_nonempty negb orb]. unfold epoch. rewrite run_gets. change (w_now w / 1000000) with (secs w).
  destruct (Z.ltb_spec 9999999999 (secs w)); [lia|]. unfold download_mac, hmac_hex. by rewrite run_assoc, run_settings, run_ret.
Qed.

(** ** Object keys *)
Definition no_slash (s : string) : bool := s_forallb (λ c, negb (Ascii.eqb c "/")) s.
Definition plain_name (s : string) : Prop := no_slash s = true ∧ s ≠ "" ∧ s ≠ "." ∧ s ≠ "..".
Lemma split_no_slash s acc : no_slash s = true → split_on (λ c, Ascii.eqb c "/") s acc = [acc +:+ s].
Proof.
  revert acc. induction s as [|c s IH]; intros acc H; cbn; [by rewrite sapp_nil_r|].
  unfold no_slash in *. cbn [s_forallb] in H. apply andb_true_iff in H as [Hc H]. apply negb_true_iff in Hc.
  rewrite Hc, IH by done. f_equal. by rewrite sapp_assoc.
Qed.
Lemma split_slash a b acc :
  no_slash a = true → split_on (λ c, Ascii.eqb c "/") (a +:+ "/" +:+ b) acc = (acc +:+ a) :: split_on (λ c, Ascii.eqb c "/") b "".
Proof.
  revert acc. induction a as [|c a IH]; intros acc H.
  - change ("" +:+ "/" +:+ b) with (String "/" b). cbn. by rewrite sapp_nil_r.
  - change (String c a +:+ "/" +:+ b) with (String c (a +:+ "/" +:+ b)). unfold no_slash in *. cbn [s_forallb split_on] in *.
    apply andb_true_iff in H as [Hc H]. apply negb_true_iff in Hc. rewrite Hc, IH by done. f_equal. by rewrite sapp_assoc.
Qed.
Lemma push_plain p c : plain_name c → push p c = (p ++ [c])%list.
Proof.
  intros (_ & H1 & H2 & H3). unfold push. apply String.eqb_neq in H1, H2, H3. by rewrite H1, H2, H3.
Qed.
Lemma join_prefix p q : ∃ t, join "/" (p ++ q) = join "/" p +:+ t.
Proof.
  induction p as [|c p [t IH]]; [by exists (join "/" q)|]. destruct p as [|c' p].
  - destruct q as [|d q]; [exists ""; by rewrite sapp_nil_r|]. by exists ("/" +:+ join "/" (d :: q)).
  - exists t. change (c +:+ "/" +:+ join "/" ((c' :: p) ++ q) = (c +:+ "/" +:+ join "/" (c' :: p)) +:+ t).
    by rewrite IH, !sapp_assoc.
Qed.
(** the keys the backend makes stay under the store's root *)
Lemma object_key_path root id filename w :
  plain_name id → plain_name filename →
  store_path root (object_key id filename) w = (Ok (root ++ [id; filename])%list, w).
Proof.
  intros Hi Hf. unfold store_path, resolve, object_key, split_char.
  assert (startswith "/" (id +:+ "/" +:+ filename) = false) as ->.
  { destruct Hi as (H & Hne & _). destruct id as [|c id]; [done|]. unfold no_slash in H. cbn [s_forallb] in H.
    apply andb_true_iff in H as [Hc _]. apply negb_true_iff, Ascii.eqb_neq in Hc. change (Ascii.eqb "/" c && true = false).
    rewrite andb_true_r. apply Ascii.eqb_neq. congruence. }
  rewrite split_slash, split_no_slash by (by destruct Hi, Hf). cbn [fold_left].
  change ("" +:+ id) with id. change ("" +:+ filename) with filename. rewrite !push_plain by done. rewrite <- app_assoc.
  cbn [app]. unfold path_str. destruct (join_prefix root [id; filename]) as [t ->].
  rewrite <- sapp_assoc, startswith_app. done.
Qed.
(** The containment test compares text, not components: a key that leaves the
    root for a sibling directory whose name extends it is accepted. *)
Lemma sibling_escapes w :
  store_path ["app"; "uploads"] "../uploads-old/x.exe" w = (Ok ["app"; "uploads-old"; "x.exe"], w).
Proof. reflexivity. Qed.
