(* ===== verification/AgentBinaries.v ===== *)
(** * Agent builds ([app/api/routes/agent_binaries.py], [app/services/agent_upgrade.py])

    The catalogue of uploaded agent builds - at most one active per hypervisor -
    and the upgrade tasks that roll a build out to hosts. *)
From S2P Require Import Prelude Py Clock Model World Store AuditLog Rbac Messaging Serializers.
From S2P Require Import HostActions Sha256 AgentStore.
From Stdlib Require Import Ascii.
Open Scope string_scope.
Open Scope Z_scope.

Definition get_agent_binary (id : string) : M (option AgentBinary) := query (λ d, agent_binaries d !! id).
(** the unique constraints: (version, hypervisor), and one active row per hypervisor *)
Definition clashes (b b' : AgentBinary) : bool :=
  String.eqb (b_hypervisor b) (b_hypervisor b') &&
  (String.eqb (b_version b) (b_version b') || b_is_active b && b_is_active b').
Definition flush_binary (b : AgentBinary) : M unit :=
  taken ← query (λ d, rows (λ b', negb (String.eqb (b_id b') (b_id b)) && clashes b b') (agent_binaries d));
  match taken with
  | [] => exec (λ d, d <| agent_binaries ::= <[b_id b := b]> |>)
  | _ => raise EIntegrity
  end.

(** ** Upgrades *)
Definition is_active_for (hypervisor : string) (b : AgentBinary) : bool :=
  String.eqb (b_hypervisor b) hypervisor && b_is_active b.
Definition active_agent_binary (hypervisor : string) : M (option AgentBinary) :=
  found ← query (λ d, rows (is_active_for hypervisor) (agent_binaries d));
  match found with [] => mret None | [b] => mret (Some b) | _ => raise EMultiple end.
Definition resolve_upgrade_binary (h : Host) (binary_id : option string) : M AgentBinary :=
  b ← match binary_id with
      | Some id =>
          b ← get_agent_binary id;
          match b with Some b => mret b | None => api_error "NOT_FOUND" "Agent binary not found" 404 end
      | None =>
          b ← active_agent_binary (h_hypervisor h);
          match b with
          | Some b => mret b
          | None => api_error "NO_ACTIVE_AGENT_BINARY" ("No active agent binary for hypervisor '" +:+
              h_hypervisor h +:+ "' - upload one in Agent Management first") 409
          end
      end;
  if String.eqb (b_hypervisor b) (h_hypervisor h) then mret b
  else api_error "INVALID" ("Agent binary is for '" +:+ b_hypervisor b +:+ "', host runs '" +:+
         h_hypervisor h +:+ "'") 400.
Definition upgrade_in_flight (host_id : string) (k : Task) : bool :=
  String.eqb (k_host_id k) host_id && String.eqb (k_kind k) "host_update_agent" &&
  bool_decide (k_status k ∈ NON_TERMINAL).

Section upgrade.
Context (repo_root : path) (presign : string → string → string → Z → string).

Definition request_agent_upgrade (h : Host) (binary : AgentBinary) (requested_by : string) : M Task :=
  connected ← agent_connected h;
  if negb connected then
    api_error "HOST_OFFLINE" ("Host '" +:+ h_name h +:+
      "' agent is offline - it can't receive an upgrade until it reconnects") 409
  else if bool_decide (Some (b_version binary) = h_agent_version h) then
    api_error "AGENT_ALREADY_CURRENT" ("Host '" +:+ h_name h +:+ "' already runs agent " +:+ b_version binary) 409
  else
    existing ← query (λ d, rows (upgrade_in_flight (h_id h)) (tasks d));
    match existing with
    | _ :: _ :: _ => raise EMultiple
    | [k] =>
        raise (EApi (mkApiError "AGENT_UPGRADE_IN_PROGRESS"
          ("An agent upgrade is already running on '" +:+ h_name h +:+ "'")
          409 (Some [("taskId", JStr (k_id k))])))
    | [] =>
        store ← get_agent_store repo_root;
        url ← download_url presign store (b_id binary) (b_storage_key binary) (b_filename binary);
        match url with
        | Some url =>
            if str_nonempty url then
              id ← new_id;
              request ← mk_request id "host_update_agent"
                          [("download_url", JStr url); ("checksum_sha256", JStr (b_checksum_sha256 binary));
                           ("version", JStr (b_version binary))] requested_by;
              created ← gets w_now;
              let task := queued_task id "host_update_agent" "host" (h_id h) (Some (h_name h)) (h_id h)
                            requested_by created request in
              add_task task;;
              publish_request (h_short_id h) request;;
              mret task
            else api_error "AGENT_DOWNLOAD_UNAVAILABLE"
              "Local agent storage has no public download URL - set OVC_PUBLIC_BASE_URL so hosts can reach this API" 409
        | None => api_error "AGENT_DOWNLOAD_UNAVAILABLE"
            "Local agent storage has no public download URL - set OVC_PUBLIC_BASE_URL so hosts can reach this API" 409
        end
    end.
End upgrade.

(** ** The catalogue *)
Definition require_admin {A} (scope : VisibleScope) (m : M A) : M A :=
  if sc_all scope then m else forbidden "Only an administrator can manage agent binaries".
(** demote the current build, flush, then promote; the promotion is flushed by
    the caller *)
Definition set_active (b : AgentBinary) : M AgentBinary :=
  current ← query (λ d, rows (λ c, is_active_for (b_hypervisor b) c && negb (String.eqb (b_id c) (b_id b)))
                           (agent_binaries d));
  for_each current (λ c, flush_binary (c <| b_is_active := false |>));;
  mret (b <| b_is_active := true |>).
Definition list_agent_binaries (scope : VisibleScope) (hypervisor : option string) : M (list AgentBinary) :=
  require_admin scope
    (query (λ d, sort_by (λ a b, b_created_at b <=? b_created_at a)
       (rows (λ b, match hypervisor with
                   | Some h => if str_nonempty h then String.eqb (b_hypervisor b) h else true
                   | None => true
                   end) (agent_binaries d)))).
Record AgentStorageInfoOut := mkStorageInfo {
  si_backend : string; si_location : string; si_download_url_ttl_seconds : Z; si_downloads_enabled : bool
}.
Definition get_agent_storage (repo_root : path) (scope : VisibleScope) : M AgentStorageInfoOut :=
  require_admin scope
    (cfg ← get_settings;
     store ← get_agent_store repo_root;
     mret (mkStorageInfo (backend store) (describe store) (agent_download_url_ttl_seconds cfg)
             (String.eqb (backend store) "s3" || str_nonempty (public_base_url cfg)))).

(** *** Upload *)
Definition MAX_UPLOAD_BYTES : Z := 128 * 1024 * 1024.
(** [while chunk := await file.read(_CHUNK)]: the bytes kept, in order *)
Fixpoint read_chunks (chunks : list string) (acc : string) : M string :=
  match chunks with
  | [] | "" :: _ => mret acc
  | chunk :: rest =>
      if negb (str_nonempty acc) && negb (startswith "MZ" chunk) then
        api_error "INVALID" "uploaded file is not a Windows executable" 400
      else
        let acc := acc +:+ chunk in
        if MAX_UPLOAD_BYTES <? Z.of_nat (String.length acc) then
          api_error "TOO_LARGE" ("Agent binary exceeds the " +:+ str_of_Z (MAX_UPLOAD_BYTES / (1024 * 1024)) +:+
            " MiB limit") 413
        else read_chunks rest acc
  end.
(** [Path(s).name] *)
Definition path_name (s : string) : string :=
  default "" (last (List.filter (λ c, negb (String.eqb c "" || String.eqb c ".")) (split_char "/"%char s))).
Fixpoint srev (s acc : string) : string := match s with "" => acc | String c s' => srev s' (String c acc) end.
Definition endswith (suffix s : string) : bool := startswith (srev suffix "") (srev s "").
Record Upload := mkUpload {
  up_filename : option string; up_content_type : option string; up_chunks : list string;
  up_version : string; up_hypervisor : string; up_notes : option string; up_make_active : bool
}.

Section catalogue.
Context (repo_root : path) (presign : string → string → string → Z → string).
(** the transfer of a key's bytes with their content type, and their removal
    ([FileStore] has both) *)
Context (put_file : AgentStore → string → string → string → M unit) (remove_file : AgentStore → string → M unit).

(** [try: m except AgentStoreError as exc: h] *)
Definition catch_store {A} (m : M A) (h : string → M A) : M A := λ w,
  match m w with (Raise (EStore msg), w') => h msg w' | r => r end.
Definition catch_api {A} (m : M A) (h : ApiError → M A) : M A := λ w,
  match m w with (Raise (EApi e), w') => h e w' | r => r end.

Definition upload_agent_binary (scope : VisibleScope) (user : User) (up : Upload) : M AgentBinary :=
  require_admin scope
    (let version := strip (up_version up) in
     let filename := default "" (up_filename up) in
     if negb (str_nonempty version) then api_error "INVALID" "version is required" 400
     else if negb (endswith ".exe" (lower filename)) then
       api_error "INVALID" "agent binary must be an .exe file" 400
     else
       dup ← query (λ d, rows (λ b, String.eqb (b_version b) version && String.eqb (b_hypervisor b) (up_hypervisor up))
                           (agent_binaries d));
       match dup with
       | _ :: _ :: _ => raise EMultiple
       | [_] => api_error "DUPLICATE" ("Agent binary " +:+ version +:+ " (" +:+ up_hypervisor up +:+
                  ") already exists") 409
       | [] =>
           content ← read_chunks (up_chunks up) "";
           if negb (str_nonempty content) then api_error "INVALID" "uploaded file is empty" 400
           else
             store ← get_agent_store repo_root;
             id ← new_id;
             version ← col_str 64 (JStr version) ≫= not_null;
             hypervisor ← col_str 32 (JStr (up_hypervisor up)) ≫= not_null;
             filename ← col_str 255 (JStr (path_name filename)) ≫= not_null;
             content_type ← col_str 128 (JStr (str_or (up_content_type up) "application/octet-stream")) ≫= not_null;
             created ← gets w_now;
             let b := mkAgentBinary id version hypervisor filename (Z.of_nat (String.length content))
                        (hex (sha256 (bytes_of content))) content_type (backend store) ""
                        (match up_notes up with Some n => if str_nonempty n then Some n else None | None => None end)
                        false (u_email user) created in
             flush_binary b;;
             key ← col_str 512 (JStr (object_key id filename)) ≫= not_null;
             let b := b <| b_storage_key := key |> in
             catch_store (put_file store key content content_type) (λ msg, api_error "STORAGE_ERROR" msg 502);;
             b ← (if up_make_active up then set_active b else mret b);
             flush_binary b;;
             record (Some user) "agent_binary.upload" (Some (TAgentBinary b)) None None
               (Some [("hypervisor", JStr (b_hypervisor b)); ("sizeBytes", JInt (b_size_bytes b));
                      ("sha256", JStr (b_checksum_sha256 b)); ("makeActive", JBool (up_make_active up))]);;
             mret b
       end).
(** [notes]/[is_active]: outer [None] when the field is not in the body *)
Definition binary_fields (b : AgentBinary) : dict :=
  [("notes", match b_notes b with Some n => JStr n | None => JNull end); ("isActive", JBool (b_is_active b))].
Definition update_agent_binary (scope : VisibleScope) (user : User) (binary_id : string)
    (notes : option (option string)) (is_active : option (option bool)) : M AgentBinary :=
  require_admin scope
    (b ← get_agent_binary binary_id;
     match b with
     | None => not_found "Agent binary"
     | Some b =>
         let before := binary_fields b in
         let b := match notes with
                  | Some (Some n) => b <| b_notes := if str_nonempty n then Some n else None |>
                  | Some None => b <| b_notes := None |>
                  | None => b
                  end in
         b ← match is_active with
             | Some (Some true) => set_active b
             | Some (Some false) => mret (b <| b_is_active := false |>)
             | _ => mret b
             end;
         flush_binary b;;
         match changes before (binary_fields b) with
         | Some diff => record (Some user) "agent_binary.update" (Some (TAgentBinary b)) None None (Some diff);; mret tt
         | None => mret tt
         end;;
         mret b
     end).
Definition delete_agent_binary (scope : VisibleScope) (user : User) (binary_id : string) : M unit :=
  require_admin scope
    (b ← get_agent_binary binary_id;
     match b with
     | None => not_found "Agent binary"
     | Some b =>
         if b_is_active b then
           api_error "ACTIVE_BINARY" "Promote another build to active before deleting this one" 409
         else
           record (Some user) "agent_binary.delete" (Some (TAgentBinary b)) None None
             (Some [("hypervisor", JStr (b_hypervisor b))]);;
           store ← get_agent_store repo_root;
           catch_store (remove_file store (b_storage_key b)) (λ _, mret tt);;
           exec (λ d, d <| agent_binaries ::= delete (b_id b) |>)
     end).
(** the row whose stored bytes are streamed *)
Definition download_agent_binary (binary_id : string) (exp token : option string) : M AgentBinary :=
  b ← get_agent_binary binary_id;
  match b with
  | None => not_found "Agent binary"
  | Some b =>
      store ← get_agent_store repo_root;
      if negb (String.eqb (backend store) "local") then not_found "Agent binary"
      else
        ok ← verify_download binary_id exp token;
        if ok : bool then mret b
        else api_error "FORBIDDEN" "Invalid or expired download token" 403
  end.

(** *** Rollout *)
Record AgentRolloutSkip := mkSkip { rsk_host_id : string; rsk_host_name : string; rsk_reason : string }.
Definition rollout_host (user : User) (b : AgentBinary) (acc : list TaskOut * list AgentRolloutSkip) (h : Host)
  : M (list TaskOut * list AgentRolloutSkip) :=
  let skip reason := (acc.1, (acc.2 ++ [mkSkip (h_id h) (h_name h) reason])%list) in
  connected ← agent_connected h;
  if negb connected then mret (skip "offline")
  else if bool_decide (h_agent_version h = Some (b_version b)) then mret (skip "already up to date")
  else
    catch_api
      (task ← request_agent_upgrade repo_root presign h b (u_email user);
       record (Some user) "host.update_agent" (Some (THost h)) None (Some task)
         (Some [("version", JStr (b_version b)); ("rollout", JBool true)]);;
       mret ((acc.1 ++ [task_out task])%list, acc.2))
      (λ e, mret (skip (err_message e))).
Definition rollout_targets (d : database) (b : AgentBinary) (host_ids : option (list string)) : list Host :=
  sort_by (λ x y, String.leb (h_name x) (h_name y))
    (rows (λ h, String.eqb (h_hypervisor h) (b_hypervisor b) &&
                match host_ids with
                | Some ((_ :: _) as ids) => bool_decide (h_id h ∈ ids)
                | _ => true
                end) (hosts d)).
Definition rollout_agent_binary (scope : VisibleScope) (user : User) (binary_id : string)
    (host_ids : option (list string)) : M (list TaskOut * list AgentRolloutSkip) :=
  require_admin scope
    (b ← get_agent_binary binary_id;
     match b with
     | None => not_found "Agent binary"
     | Some b =>
         targets ← query (λ d, rollout_targets d b host_ids);
         fold_each targets ([], []) (rollout_host user b)
     end).
End catalogue.

(** ** Promotion *)
Record binaries_ok (d : database) : Prop := {
  bo_key k b : agent_binaries d !! k = Some b → b_id b = k;
  bo_version k k' b b' : agent_binaries d !! k = Some b → agent_binaries d !! k' = Some b' →
    b_hypervisor b = b_hypervisor b' → b_version b = b_version b' → k = k';
  bo_active k k' b b' : agent_binaries d !! k = Some b → agent_binaries d !! k' = Some b' →
    b_hypervisor b = b_hypervisor b' → b_is_active b = true → b_is_active b' = true → k = k'
}.
Lemma binaries_clash d k b k' b' :
  binaries_ok d → agent_binaries d !! k = Some b → agent_binaries d !! k' = Some b' → clashes b b' = true → k = k'.
Proof.
  intros B Hk Hk'. unfold clashes. intros [Hh Hc]%andb_true_iff. apply String.eqb_eq in Hh.
  apply orb_true_iff in Hc as [Hv%String.eqb_eq|[Ha Ha']%andb_true_iff].
  - by eapply (bo_version d B).
  - by eapply (bo_active d B).
Qed.
Lemma flush_binary_run b w :
  (∀ k b', agent_binaries (w_db w) !! k = Some b' → b_id b' ≠ b_id b → clashes b b' = false) →
  flush_binary b w = (Ok tt, w <| w_db ::= λ d, d <| agent_binaries ::= <[b_id b := b]> |> |>).
Proof.
  intros H. unfold flush_binary. rewrite run_query.
  assert (rows (λ b', negb (String.eqb (b_id b') (b_id b)) && clashes b b') (agent_binaries (w_db w)) = []) as ->; [|done].
  apply rows_nil. intros k b' Hb'. destruct (String.eqb_spec (b_id b') (b_id b)) as [E|N]; [done|]. cbn. by apply (H k).
Qed.
(** writing a row that clashes with no other keeps the constraints *)
Lemma put_binary_ok d b :
  binaries_ok d → (∀ k b', agent_binaries d !! k = Some b' → k ≠ b_id b → clashes b b' = false) →
  binaries_ok (d <| agent_binaries ::= <[b_id b := b]> |>).
Proof.
  intros B Hc. assert (∀ k b', agent_binaries d !! k = Some b' → k ≠ b_id b → b_hypervisor b = b_hypervisor b' →
    b_version b ≠ b_version b' ∧ (b_is_active b = true → b_is_active b' = true → False)) as Hn.
  { intros k b' Hk N Eh. specialize (Hc k b' Hk N). unfold clashes in Hc. rewrite Eh, String.eqb_refl in Hc.
    apply orb_false_iff in Hc as [Hv Ha]. split; [by apply String.eqb_neq|]. intros H1 H2. by rewrite H1, H2 in Ha. }
  split; cbn; intros *; rewrite ?lookup_insert_Some.
  - intros [[? ?]|[_ H]]; [congruence|by eapply bo_key].
  - intros [[<- <-]|[N H]] [[<- <-]|[N' H']] Eh Ev; [done| | |by eapply (bo_version d B)].
    + exfalso. destruct (Hn _ _ H' (not_eq_sym N') Eh). congruence.
    + exfalso. destruct (Hn _ _ H (not_eq_sym N) (eq_sym Eh)). congruence.
  - intros [[<- <-]|[N H]] [[<- <-]|[N' H']] Eh Ea Ea'; [done| | |by eapply (bo_active d B)].
    + exfalso. destruct (Hn _ _ H' (not_eq_sym N') Eh). auto.
    + exfalso. destruct (Hn _ _ H (not_eq_sym N) (eq_sym Eh)). auto.
Qed.
Lemma set_active_run b w :
  binaries_ok (w_db w) → agent_binaries (w_db w) !! b_id b = Some b →
  ∃ d, set_active b w = (Ok (b <| b_is_active := true |>), w <| w_db := d |>) ∧ binaries_ok d ∧
    agent_binaries d !! b_id b = Some b ∧
    (∀ k c, k ≠ b_id b → agent_binaries d !! k = Some c → b_hypervisor c = b_hypervisor b → b_is_active c = false) ∧
    (∀ k, agent_binaries d !! k = agent_binaries (w_db w) !! k ∨ ∃ c, agent_binaries (w_db w) !! k = Some c ∧
       b_hypervisor c = b_hypervisor b ∧ agent_binaries d !! k = Some (c <| b_is_active := false |>)).
Proof.
  intros B Hb. unfold set_active. rewrite run_query. set (p := λ c, is_active_for _ c && _).
  destruct (rows p (agent_binaries (w_db w))) as [|c l] eqn:Er.
  - exists (w_db w). pose proof (proj1 (rows_nil p _) Er) as Hnone. split_and!; try done.
    + by destruct w.
    + intros k c N Hc Eh. specialize (Hnone k c Hc). unfold p, is_active_for in Hnone.
      rewrite Eh, String.eqb_refl in Hnone. cbn in Hnone. apply andb_false_iff in Hnone as [?|E]; [done|].
      apply negb_false_iff, String.eqb_eq in E. rewrite (bo_key _ B k c Hc) in E. done.
    + auto.
  - assert (c ∈ rows p (agent_binaries (w_db w))) as (k & Hk & Hp)%elem_of_rows by (rewrite Er; apply list_elem_of_here).
    assert (b_hypervisor c = b_hypervisor b ∧ b_is_active c = true ∧ k ≠ b_id b) as (Eh & Ea & Nk).
    { unfold p, is_active_for in Hp. bool_prop. apply String.eqb_eq in H. apply String.eqb_neq in H0.
      rewrite (bo_key _ B k c Hk) in H0. done. }
    assert (∀ k' x', agent_binaries (w_db w) !! k' = Some x' → b_hypervisor x' = b_hypervisor b → b_is_active x' = true →
      k' = k) as Hu by (intros k' x' Hx' E1 E2; eapply (bo_active _ B); eauto; congruence).
    rewrite (rows_unique p _ k c Hk Hp) in Er by
      (intros k' x' Hx' Hpx; unfold p, is_active_for in Hpx; bool_prop; apply String.eqb_eq in H; by apply (Hu k' x')).
    injection Er as <-. cbn [for_each]. set (c' := c <| b_is_active := false |>).
    assert (b_id c' = k) as Ek by (exact (bo_key _ B k c Hk)).
    assert (∀ i b', agent_binaries (w_db w) !! i = Some b' → i ≠ k → clashes c' b' = false) as Hcl.
    { intros i b' Hi N. destruct (clashes c' b') eqn:E; [|done]. exfalso. apply N. symmetry.
      apply (binaries_clash _ k c i b' B Hk Hi). unfold clashes in *. cbn in E. rewrite orb_false_r in E.
      apply andb_true_iff in E as [-> ->]. done. }
    assert (flush_binary c' w = (Ok tt, w <| w_db ::= λ d, d <| agent_binaries ::= <[b_id c' := c']> |> |>)) as Hf.
    { apply flush_binary_run. intros i b' Hi N. apply (Hcl i b' Hi). rewrite (bo_key _ B i b' Hi) in N. congruence. }
    rewrite run_assoc, (run_ok _ _ _ _ _ Hf), run_ret. exists (w_db w <| agent_binaries ::= <[b_id c' := c']> |>).
    split; [done|]. rewrite Ek. split.
    { rewrite <- Ek. apply (put_binary_ok (w_db w) c' B). rewrite Ek. exact Hcl. }
    cbn. split_and!.
    + by rewrite lookup_insert_ne.
    + intros i x N. rewrite lookup_insert_Some. intros [[<- <-]|[N' Hx]] E; [done|].
      destruct (b_is_active x) eqn:Ex; [|done]. exfalso. by apply N', eq_sym, (Hu i x).
    + intros i. destruct (decide (i = k)) as [->|N]; [|left; by rewrite lookup_insert_ne by done].
      right. exists c. by rewrite lookup_insert_eq.
Qed.
Lemma record_run actor action t tt' task details w :
  str_nonempty (tr_type (match t with Some t => ref t | None => mkRef (default "" tt') None None None None end)) = true →
  ∃ e, record actor action t tt' task details w =
    (Ok e, w <| w_seq ::= S |> <| w_db ::= λ d, d <| audit_events ::= λ l, (l ++ [e])%list |> |>).
Proof. intros H. unfold record. rewrite H. eexists. reflexivity. Qed.

(** C23: promoting a build.  When an administrator makes a catalogued build
    active, the request succeeds - the demotion is flushed first, so the
    one-active-per-hypervisor index never sees two - and afterwards this build
    is the one an upgrade or an installer picks for its hypervisor, every other
    build of that hypervisor is inactive, builds of other hypervisors are
    untouched and the catalogue's constraints still hold. *)
Theorem promotion_exact scope user b w :
  sc_all scope = true → binaries_ok (w_db w) → agent_binaries (w_db w) !! b_id b = Some b →
  let b' := b <| b_is_active := true |> in
  ∃ w', update_agent_binary scope user (b_id b) None (Some (Some true)) w = (Ok b', w') ∧
    binaries_ok (w_db w') ∧
    (∀ h, h_hypervisor h = b_hypervisor b → resolve_upgrade_binary h None w' = (Ok b', w')) ∧
    (∀ k c, k ≠ b_id b → agent_binaries (w_db w) !! k = Some c →
       agent_binaries (w_db w') !! k =
         Some (if String.eqb (b_hypervisor c) (b_hypervisor b) then c <| b_is_active := false |> else c)).
Proof.
  intros Hall B Hb b'. unfold update_agent_binary, require_admin. rewrite Hall.
  unfold get_agent_binary. rewrite run_query, Hb.
  destruct (set_active_run b w B Hb) as (d & Hrun & B' & Hbd & Hinact & Hdiff).
  cbv zeta. rewrite (run_ok _ _ _ _ _ Hrun). set (w1 := w <| w_db := d |>). change (b <| b_is_active := true |>) with b'.
  assert (∀ k c, agent_binaries d !! k = Some c → k ≠ b_id b → clashes b' c = false) as Hcl.
  { intros k c Hk N. destruct (clashes b' c) eqn:E; [|done]. unfold clashes in E. cbn in E.
    apply andb_true_iff in E as [Eh%String.eqb_eq E]. apply orb_true_iff in E as [Ev%String.eqb_eq|Ea].
    - exfalso. apply N. eapply (bo_version d B'); eauto.
    - by rewrite (Hinact k c N Hk (eq_sym Eh)) in Ea. }
  assert (flush_binary b' w1 = (Ok tt, w1 <| w_db ::= λ d, d <| agent_binaries ::= <[b_id b' := b']> |> |>)) as Hf.
  { apply flush_binary_run. intros k c Hk N. apply (Hcl k c Hk). by rewrite <- (bo_key d B' k c Hk). }
  rewrite (run_ok _ _ _ _ _ Hf). set (w2 := _ <| w_db ::= _ |>).
  assert (binaries_ok (w_db w2)) as B2 by (exact (put_binary_ok d b' B' Hcl)).
  assert (agent_binaries (w_db w2) = <[b_id b := b']> (agent_binaries d)) as E2 by done. clearbody w2. clear Hf.
  assert (∃ w3, (match changes (binary_fields b) (binary_fields b') with
    | Some diff => record (Some user) "agent_binary.update" (Some (TAgentBinary b')) None None (Some diff);; mret tt
    | None => mret tt end) w2 = (Ok tt, w3) ∧ agent_binaries (w_db w3) = agent_binaries (w_db w2)) as (w3 & Hrec & E3).
  { destruct (changes _ _) as [diff|]; [|by exists w2].
    destruct (record_run (Some user) "agent_binary.update" (Some (TAgentBinary b')) None None (Some diff) w2) as (e & He); [done|].
    eexists. rewrite (run_ok _ _ _ _ _ He). by split. }
  rewrite (run_ok _ _ _ _ _ Hrec). exists w3. split; [done|].
  assert (binaries_ok (w_db w3)) as B3.
  { destruct B2 as [H1 H2 H3]. split; rewrite E3; [exact H1|exact H2|exact H3]. }
  assert (agent_binaries (w_db w3) !! b_id b = Some b') as Hb3 by (by rewrite E3, E2, lookup_insert_eq).
  split; [exact B3|]. split.
  - intros h Eh. unfold resolve_upgrade_binary, active_agent_binary. rewrite run_assoc, run_assoc, run_query.
    rewrite (rows_unique _ _ (b_id b) b' Hb3).
    + rewrite Eh, run_ret. cbv beta iota. rewrite run_ret. change (b_hypervisor b') with (b_hypervisor b).
      by rewrite String.eqb_refl.
    + unfold is_active_for. rewrite Eh. cbn. by rewrite String.eqb_refl.
    + intros k c Hk. unfold is_active_for. intros [E%String.eqb_eq Ha]%andb_true_iff.
      eapply (bo_active _ B3); eauto. rewrite E, Eh. done.
  - intros k c N Hk. rewrite E3, E2, lookup_insert_ne by done.
    destruct (Hdiff k) as [E|(c0 & Hc0 & Eh & ->)].
    + rewrite E, Hk. f_equal. destruct (String.eqb_spec (b_hypervisor c) (b_hypervisor b)) as [Eh|]; [|done].
      assert (b_is_active c = false) as Ha by (apply (Hinact k c N); [by rewrite E|done]).
      destruct c; cbn in *. by subst.
    + simplify_eq. by rewrite Eh, String.eqb_refl.
Qed.
Definition sample_build (id version : string) (active : bool) : AgentBinary :=
  mkAgentBinary id version "hyperv" "ovc-agent.exe" 2 "00" "application/octet-stream" "local" (id +:+ "/ovc-agent.exe")
    None active "root@ovc" 0.
Definition builds_world : world :=
  sample_world <| w_db := empty_db <| agent_binaries :=
    {["b1" := sample_build "b1" "1.0" true; "b2" := sample_build "b2" "1.1" false]} |> |>.
Definition build_admin : User := mkUser "u1" "root@ovc" None true None.
Lemma builds_world_ok : binaries_ok (w_db builds_world).
Proof.
  assert (∀ k b, agent_binaries (w_db builds_world) !! k = Some b →
    k = "b1" ∧ b = sample_build "b1" "1.0" true ∨ k = "b2" ∧ b = sample_build "b2" "1.1" false) as H.
  { intros k b. change (agent_binaries (w_db builds_world)) with
      ({["b1" := sample_build "b1" "1.0" true; "b2" := sample_build "b2" "1.1" false]} : gmap string AgentBinary).
    rewrite lookup_insert_Some, lookup_singleton_Some. intros [[<- <-]|[_ [<- <-]]]; auto. }
  split; intros *.
  - intros [[-> ->]|[-> ->]]%H; reflexivity.
  - intros [[-> ->]|[-> ->]]%H [[-> ->]|[-> ->]]%H; try reflexivity; intros _ E; discriminate E.
  - intros [[-> ->]|[-> ->]]%H [[-> ->]|[-> ->]]%H; try reflexivity; intros _ E E'; discriminate.
Qed.
Lemma promotion_exact_witness :
  ∃ w', update_agent_binary (empty_scope <| sc_all := true |>) build_admin "b2" None (Some (Some true)) builds_world =
      (Ok (sample_build "b2" "1.1" true), w') ∧
    b_is_active <$> agent_binaries (w_db w') !! "b1" = Some false.
Proof.
  destruct (promotion_exact (empty_scope <| sc_all := true |>) build_admin (sample_build "b2" "1.1" false) builds_world)
    as (w' & Hr & _ & _ & Ho).
  - reflexivity.
  - exact builds_world_ok.
  - reflexivity.
  - exists w'. split; [exact Hr|]. rewrite (Ho "b1" (sample_build "b1" "1.0" true)); [reflexivity|discriminate|reflexivity].
Defined.

(** ** Uploaded names *)
Lemma split_pieces s acc : no_slash acc = true → Forall (λ c, no_slash c = true) (split_on (λ c, Ascii.eqb c "/") s acc).
Proof.
  revert acc. induction s as [|c s IH]; intros acc Ha; cbn; [by constructor|].
  destruct (Ascii.eqb c "/") eqn:E; [constructor; [done|by apply IH]|]. apply IH. unfold no_slash in *.
  rewrite s_forallb_app, Ha. cbn. by rewrite E.
Qed.
(** the stored file name has no directory part: with an id of one component,
    its key stays in the binary's own directory of the store *)
Lemma uploaded_key_contained root id filename w :
  plain_name id → path_name filename ≠ "" → path_name filename ≠ ".." →
  store_path root (object_key id (path_name filename)) w = (Ok (root ++ [id; path_name filename])%list, w).
Proof.
  intros Hid Hne Hdd. apply object_key_path; [done|]. unfold path_name in *. set (l := List.filter _ _) in *.
  destruct (last l) as [c|] eqn:El; [|done]. cbn in *.
  assert (c ∈ l) as Hc. { apply last_Some in El as [l' ->]. set_solver. }
  unfold l in Hc. apply list_elem_of_In, filter_In in Hc as [Hc Hp]. apply list_elem_of_In in Hc.
  apply negb_true_iff, orb_false_iff in Hp as [_ Hdot]. apply String.eqb_neq in Hdot. split_and!; try done.
  pose proof (split_pieces filename "" eq_refl) as F. rewrite Forall_forall in F. by apply F.
Qed.
