(* ===== verification/FileStore.v ===== *)
(** * Storing the agent builds ([app/services/agent_store.py])

    What [LocalAgentStore] does to the file system - directories, a temporary
    file, the atomic rename, streaming, removal - and the S3 backend over its
    client's three calls.  The contract both keep is [ObjectStore]: a stored
    key reads back, and no operation on one key disturbs another. *)
From S2P Require Import Prelude Py Clock Model World AuditLog Rbac Sha256 AgentStore AgentBinaries.
From Stdlib Require Import Ascii.
Open Scope string_scope.
Open Scope Z_scope.

(** ** The operating system's calls

    [OSError], and its subclass for a missing file. *)
Inductive os_error := FileNotFound | OtherOSError.
Definition D (A : Type) : Type := disk → (A + os_error) * disk.
#[export] Instance D_ret : MRet D := λ A a d, (inl a, d).
#[export] Instance D_bind : MBind D := λ A B k m d,
  match m d with (inl a, d') => k a d' | (inr e, d') => (inr e, d') end.
Definition os_raise {A} (e : os_error) : D A := λ d, (inr e, d).
Definition os_get {A} (f : disk → A) : D A := λ d, (inl (f d), d).
Definition os_set (f : disk → disk) : D unit := λ d, (inl tt, f d).

Definition is_dir_at (d : disk) (p : path) : bool :=
  match p with [] => true | _ => match dk_nodes d !! p with Some NDir => true | _ => false end end.
Definition file_at (d : disk) (p : path) : option string :=
  match dk_nodes d !! p with Some (NFile s) => Some s | _ => None end.
Definition parent (p : path) : path := removelast p.
(** [p.mkdir(parents=True, exist_ok=True)], down from [done_] *)
Fixpoint mkdir (done_ rest : path) : D unit :=
  match rest with
  | [] => mret tt
  | c :: rest' =>
      let p := (done_ ++ [c])%list in
      there ← os_get (λ d, is_dir_at d p);
      (if there : bool then mret tt
       else
         taken ← os_get (λ d, is_some (dk_nodes d !! p));
         if taken : bool then os_raise OtherOSError else os_set (λ d, d <| dk_nodes ::= <[p := NDir]> |>));;
      mkdir p rest'
  end.
(** [open(p, "wb")]: the file exists and is empty *)
Definition open_write (p : path) : D unit :=
  ok ← os_get (λ d, is_dir_at d (parent p) && negb (is_dir_at d p));
  if negb ok then os_raise OtherOSError
  else os_set (λ d, d <| dk_nodes ::= <[p := NFile ""]> |>
                      <| dk_free ::= λ n, n + Z.of_nat (String.length (default "" (file_at d p))) |>).
(** appending to an open file; the disk may be full *)
Definition write_chunk (p : path) (chunk : string) : D unit :=
  room ← os_get (λ d, Z.of_nat (String.length chunk) <=? dk_free d);
  if negb room then os_raise OtherOSError
  else os_set (λ d, d <| dk_nodes ::= <[p := NFile (default "" (file_at d p) +:+ chunk)]> |>
                      <| dk_free ::= λ n, n - Z.of_nat (String.length chunk) |>).
Fixpoint write_all (p : path) (chunks : list string) : D unit :=
  match chunks with [] => mret tt | c :: cs => write_chunk p c;; write_all p cs end.
(** [os.replace(a, b)] *)
Definition replace_file (a b : path) : D unit :=
  src ← os_get (λ d, file_at d a);
  match src with
  | None => os_raise FileNotFound
  | Some s =>
      ok ← os_get (λ d, is_dir_at d (parent b) && negb (is_dir_at d b));
      if negb ok then os_raise OtherOSError
      else os_set (λ d, d <| dk_nodes ::= λ m, <[b := NFile s]> (delete a m) |>
                          <| dk_free ::= λ n, n + Z.of_nat (String.length (default "" (file_at d b))) |>)
  end.
Definition unlink (p : path) : D unit :=
  n ← os_get (λ d, dk_nodes d !! p);
  match n with
  | None => os_raise FileNotFound
  | Some NDir => os_raise OtherOSError
  | Some (NFile s) => os_set (λ d, d <| dk_nodes ::= delete p |> <| dk_free ::= λ n, n + Z.of_nat (String.length s) |>)
  end.
(** something lies below the directory *)
Definition occupied (d : disk) (p : path) : bool :=
  existsb (λ kv, bool_decide (parent kv.1 = p) && negb (bool_decide (kv.1 = []))) (map_to_list (dk_nodes d)).
Definition rmdir (p : path) : D unit :=
  ok ← os_get (λ d, negb (bool_decide (p = [])) && is_dir_at d p && negb (occupied d p));
  if negb ok then os_raise OtherOSError else os_set (λ d, d <| dk_nodes ::= delete p |>).

(** [except FileNotFoundError: pass] and [contextlib.suppress(OSError)] *)
Definition except_missing (m : D unit) : D unit := λ d,
  match m d with (inr FileNotFound, d') => (inl tt, d') | r => r end.
Definition suppress (m : D unit) : D unit := λ d, match m d with (_, d') => (inl tt, d') end.

(** ** The local store *)
Definition CHUNK : nat := Pos.to_nat 1048576.
(** [while chunk := await f.read(_CHUNK)]: the non-empty chunks of a content *)
Fixpoint chunked (fuel n : nat) (s : string) : list string :=
  match fuel, s with
  | S f, String _ _ => stake n s :: chunked f n (sdrop n s)
  | _, _ => []
  end.
Definition chunks_of (s : string) : list string := chunked (String.length s) CHUNK s.
(** [try: m except OSError as exc: raise AgentStoreError(msg)] *)
Definition on_disk {A} (m : D A) (msg : os_error → string) : M A := λ w,
  match m (w_disk w) with
  | (inl a, d) => (Ok a, w <| w_disk := d |>)
  | (inr e, d) => (Raise (EStore (msg e)), w <| w_disk := d |>)
  end.

Section local.
(** [os.getpid()] and the text of an [OSError] *)
Context (pid : Z) (os_text : os_error → string).
(** [dst.with_suffix(dst.suffix + f".{pid}.tmp")] *)
Definition tmp_path (dst : path) : path :=
  (parent dst ++ [default "" (last dst) +:+ "." +:+ str_of_Z pid +:+ ".tmp"])%list.
Definition write_file (dst : path) (content : string) : D unit :=
  mkdir [] (parent dst);;
  open_write (tmp_path dst);;
  write_all (tmp_path dst) (chunks_of content);;
  replace_file (tmp_path dst) dst.
Definition local_put (root : path) (key content : string) : M unit :=
  dst ← store_path root key;
  on_disk (write_file dst content)
    (λ e, "cannot write to agent storage dir " +:+ path_str root +:+ ": " +:+ os_text e).
(** the chunks the response body yields; nothing runs before the first is asked for *)
Definition local_stream (root : path) (key : string) : M (list string) :=
  p ← store_path root key;
  content ← gets (λ w, file_at (w_disk w) p);
  match content with
  | Some s => mret (chunks_of s)
  | None => raise (EStore ("agent binary not found: " +:+ key))
  end.
Definition remove_stored (root p : path) : D unit :=
  except_missing (unlink p);;
  if bool_decide (parent p = root) then mret tt else suppress (rmdir (parent p)).
Definition local_delete (root : path) (key : string) : M unit :=
  p ← store_path root key;
  on_disk (remove_stored root p) (λ e, "cannot delete " +:+ key +:+ ": " +:+ os_text e).
End local.

(** ** The S3 store, over the client's calls *)
Section s3.
Context (put_object : string → string → string → string → M unit).   (* bucket, key, body, content type *)
Context (get_object : string → string → M (list string)) (delete_object : string → string → M unit).
Context (exc_text : exn → string).   (* [str(exc)] *)
(** reading lets an [AgentStoreError] through as it is *)
Definition wrap {A} (what : string) (m : M A) : M A := λ w,
  match m w with
  | (Raise (EStore msg), w') => (Raise (EStore msg), w')
  | (Raise e, w') => (Raise (EStore (what +:+ exc_text e)), w')
  | r => r
  end.
(** the two writing operations wrap every exception *)
Definition wrap_all {A} (what : string) (m : M A) : M A := λ w,
  match m w with (Raise e, w') => (Raise (EStore (what +:+ exc_text e)), w') | r => r end.
Definition s3_put (bucket prefix key content content_type : string) : M unit :=
  wrap_all "S3 put failed: " (put_object bucket (s3_key prefix key) content content_type).
Definition s3_stream (bucket prefix key : string) : M (list string) :=
  wrap "S3 get failed: " (get_object bucket (s3_key prefix key)).
Definition s3_delete (bucket prefix key : string) : M unit :=
  wrap_all "S3 delete failed: " (delete_object bucket (s3_key prefix key)).

(** ** The store of the settings *)
Context (pid : Z) (os_text : os_error → string).
Definition put_file (s : AgentStore) (key content content_type : string) : M unit :=
  match s with
  | LocalAgentStore root => local_put pid os_text root key content
  | S3AgentStore bucket prefix _ _ => s3_put bucket prefix key content content_type
  end.
Definition open_stream (s : AgentStore) (key : string) : M (list string) :=
  match s with
  | LocalAgentStore root => local_stream root key
  | S3AgentStore bucket prefix _ _ => s3_stream bucket prefix key
  end.
Definition remove_file (s : AgentStore) (key : string) : M unit :=
  match s with
  | LocalAgentStore root => local_delete os_text root key
  | S3AgentStore bucket prefix _ _ => s3_delete bucket prefix key
  end.
End s3.
Lemma CHUNK_pos : (0 < CHUNK)%nat.
Proof. exact (Pos2Nat.is_pos 1048576). Qed.
#[global] Opaque CHUNK.

(** ** The contract of a store *)
Definition glue (chunks : list string) : string := foldr String.append "" chunks.
Class ObjectStore (s : AgentStore) (key_ok : string → Prop) (content : world → string → option string)
    (put : string → string → string → M unit) (stream : string → M (list string)) (remove : string → M unit) : Prop := {
  (** what is stored does not depend on the database or on the ids drawn *)
  content_frame : ∀ w f n k, content (w <| w_db := f |> <| w_seq := n |>) k = content w k;
  (** all or nothing, and nothing else *)
  put_spec : ∀ k c t w, key_ok k →
    (match put k c t w with
     | (Ok _, w') => content w' k = Some c
     | (Raise e, w') => (∃ msg, e = EStore msg) ∧ content w' k = content w k
     end) ∧
    (∀ k', key_ok k' → k' ≠ k → content (put k c t w).2 k' = content w k') ∧
    w_db (put k c t w).2 = w_db w ∧ w_cfg (put k c t w).2 = w_cfg w;
  stream_spec : ∀ k w, key_ok k →
    match content w k with
    | Some c => ∃ chunks, stream k w = (Ok chunks, w) ∧ glue chunks = c
    | None => ∃ msg, stream k w = (Raise (EStore msg), w)
    end;
  remove_spec : ∀ k w, key_ok k →
    (match remove k w with
     | (Ok _, w') => content w' k = None
     | (Raise e, w') => (∃ msg, e = EStore msg) ∧ content w' k = content w k
     end) ∧
    (∀ k', key_ok k' → k' ≠ k → content (remove k w).2 k' = content w k') ∧
    w_db (remove k w).2 = w_db w ∧ w_cfg (remove k w).2 = w_cfg w
}.

(** ** The file system calls *)
Lemma stake_sdrop n s : stake n s +:+ sdrop n s = s.
Proof. revert s. induction n as [|n IH]; intros [|c s]; cbn; try done. rewrite sapp_cons. by rewrite IH. Qed.
Lemma sdrop_length n s : String.length (sdrop n s) = (String.length s - n)%nat.
Proof. revert s. induction n as [|n IH]; intros [|c s]; cbn; try lia; try apply IH. Qed.
Lemma chunked_glue fuel n s : (0 < n)%nat → (String.length s ≤ fuel)%nat → glue (chunked fuel n s) = s.
Proof.
  intros Hn. revert s. induction fuel as [|f IH]; intros s Hs; [destruct s; [done|cbn in Hs; lia]|].
  destruct s as [|c s]; [done|]. cbn [chunked glue foldr]. fold (glue (chunked f n (sdrop n (String c s)))).
  rewrite IH; [apply stake_sdrop|]. rewrite sdrop_length. cbn in *. lia.
Qed.
Lemma chunks_of_glue s : glue (chunks_of s) = s.
Proof. apply chunked_glue; [exact CHUNK_pos|done]. Qed.

(** a call that leaves the files other than [p] alone *)
Definition files_but (ps : list path) (d d' : disk) : Prop := ∀ q, q ∉ ps → file_at d' q = file_at d q.
Lemma file_insert_dir d (p q : path) f :
  dk_nodes d !! p = None → file_at (mkDisk (<[p := NDir]> (dk_nodes d)) f) q = file_at d q.
Proof.
  intros H. unfold file_at. cbn [dk_nodes]. destruct (decide (p = q)) as [<-|N].
  - rewrite lookup_insert_eq. by rewrite H.
  - by rewrite lookup_insert_ne.
Qed.
Lemma mkdir_files done_ rest d : files_but [] d (mkdir done_ rest d).2.
Proof.
  revert done_ d. induction rest as [|c rest IH]; intros done_ d q _; [done|].
  cbn [mkdir]. cbv zeta. unfold mbind, D_bind, os_get. destruct (is_dir_at d (done_ ++ [c])%list); cbn.
  - apply IH. set_solver.
  - destruct (dk_nodes d !! (done_ ++ [c])%list) eqn:E; cbn; [done|].
    rewrite IH by set_solver. by apply file_insert_dir.
Qed.
Lemma open_write_spec p d :
  files_but [p] d (open_write p d).2 ∧
  match (open_write p d).1 with inl _ => file_at (open_write p d).2 p = Some "" | inr _ => (open_write p d).2 = d end.
Proof.
  unfold open_write, mbind, D_bind, os_get. destruct (negb _); cbn; [by split|]. split.
  - intros q Hq. unfold file_at. cbn. rewrite lookup_insert_ne by set_solver. done.
  - unfold file_at. cbn. by rewrite lookup_insert_eq.
Qed.
Lemma write_chunk_spec p c d s :
  file_at d p = Some s →
  match write_chunk p c d with
  | (inl _, d1) => file_at d1 p = Some (s +:+ c) ∧ files_but [p] d d1
  | (inr _, d1) => d1 = d
  end.
Proof.
  intros H. unfold write_chunk, mbind, D_bind, os_get. destruct (negb _); cbn; [done|]. split.
  - unfold file_at at 1. cbn. by rewrite lookup_insert_eq, H.
  - intros q Hq. unfold file_at. cbn. by rewrite lookup_insert_ne by set_solver.
Qed.
Lemma write_all_spec p cs d s :
  file_at d p = Some s →
  files_but [p] d (write_all p cs d).2 ∧
  match (write_all p cs d).1 with inl _ => file_at (write_all p cs d).2 p = Some (s +:+ glue cs) | inr _ => True end.
Proof.
  revert d s. induction cs as [|c cs IH]; intros d s H; cbn [write_all].
  - split; [done|]. cbn. by rewrite sapp_nil_r.
  - unfold mbind, D_bind. pose proof (write_chunk_spec p c d s H) as Hc.
    destruct (write_chunk p c d) as [[?|?] d1]; [|by subst]. destruct Hc as [H1 Hb].
    destruct (IH d1 _ H1) as [IH1 IH2]. split.
    + intros q Hq. by rewrite IH1, Hb.
    + change (glue (c :: cs)) with (c +:+ glue cs). by rewrite <- sapp_assoc.
Qed.
Lemma replace_file_spec a b d s :
  a ≠ b → file_at d a = Some s →
  files_but [a; b] d (replace_file a b d).2 ∧
  match (replace_file a b d).1 with
  | inl _ => file_at (replace_file a b d).2 b = Some s
  | inr _ => (replace_file a b d).2 = d
  end.
Proof.
  intros Hab H. unfold replace_file, mbind, D_bind, os_get. rewrite H. destruct (negb _); cbn; [by split|]. split.
  - intros q Hq. unfold file_at. cbn. by rewrite lookup_insert_ne, lookup_delete_ne by set_solver.
  - unfold file_at. cbn. by rewrite lookup_insert_eq.
Qed.

(** ** The local store keeps the contract *)
Section local_store.
Context (pid : Z) (root : path).

Lemma write_file_spec dst c d :
  tmp_path pid dst ≠ dst →
  files_but [tmp_path pid dst; dst] d (write_file pid dst c d).2 ∧
  match (write_file pid dst c d).1 with
  | inl _ => file_at (write_file pid dst c d).2 dst = Some c
  | inr _ => file_at (write_file pid dst c d).2 dst = file_at d dst
  end.
Proof.
  intros Hne. set (t := tmp_path pid dst) in *. unfold write_file, mbind, D_bind. fold t.
  pose proof (mkdir_files [] (parent dst) d) as H0.
  destruct (mkdir [] (parent dst) d) as [[?|?] d0]; cbn [fst snd] in *.
  2:{ split; [intros q Hq|]; apply H0; set_solver. }
  pose proof (open_write_spec t d0) as [H1 H1'].
  destruct (open_write t d0) as [[?|?] d1]; cbn [fst snd] in *.
  2:{ subst. split; [intros q Hq|]; apply H0; set_solver. }
  pose proof (write_all_spec t (chunks_of c) d1 "" H1') as [H2 H2'].
  destruct (write_all t (chunks_of c) d1) as [[?|?] d2]; cbn [fst snd] in *.
  2:{ split; [intros q Hq|]; rewrite H2, H1, H0 by set_solver; done. }
  rewrite chunks_of_glue in H2'. change ("" +:+ c) with c in H2'.
  pose proof (replace_file_spec t dst d2 c Hne H2') as [H3 H3'].
  destruct (replace_file t dst d2) as [[?|?] d3]; cbn [fst snd] in *.
  - split; [|done]. intros q Hq. rewrite H3, H2, H1, H0 by set_solver. done.
  - subst. split; [intros q Hq|]; rewrite H2, H1, H0 by set_solver; done.
Qed.
Lemma remove_stored_spec p d :
  files_but [p] d (remove_stored root p d).2 ∧
  match (remove_stored root p d).1 with
  | inl _ => file_at (remove_stored root p d).2 p = None
  | inr _ => file_at (remove_stored root p d).2 p = file_at d p
  end.
Proof.
  assert (∀ q r e, file_at (suppress (rmdir q) e).2 r = file_at e r ∧ (suppress (rmdir q) e).1 = inl tt) as Hr.
  { intros q r e. unfold suppress, rmdir, mbind, D_bind, os_get.
    case_bool_decide as Hq; cbn; [done|].
    destruct (is_dir_at e q) eqn:Hd; cbn; [|done]. destruct (occupied e q); cbn; [done|]. split; [|done].
    unfold file_at. cbn. destruct (decide (q = r)) as [<-|N]; [|by rewrite lookup_delete_ne].
    rewrite lookup_delete_eq. unfold is_dir_at in Hd. destruct q; [done|].
    by destruct (dk_nodes e !! _) as [[]|]. }
  unfold remove_stored, mbind, D_bind, except_missing, unlink. unfold mbind, D_bind, os_get.
  assert (∀ d0 : disk, files_but [p] d d0 → file_at d0 p = None →
    let r := (if bool_decide (parent p = root) then mret () else suppress (rmdir (parent p))) d0 in
    files_but [p] d r.2 ∧ match r.1 with inl _ => file_at r.2 p = None | inr _ => file_at r.2 p = file_at d p end) as Hend.
  { intros d0 Hb Hn. cbv zeta. case_bool_decide; [by split|]. split.
    - intros q Hq. rewrite (proj1 (Hr _ q d0)). by apply Hb.
    - rewrite (proj2 (Hr _ p d0)). by rewrite (proj1 (Hr _ p d0)). }
  destruct (dk_nodes d !! p) as [[s|]|] eqn:E; cbn.
  - apply Hend; [|unfold file_at; cbn; by rewrite lookup_delete_eq].
    intros q Hq. unfold file_at. cbn. by rewrite lookup_delete_ne by set_solver.
  - by split.
  - apply Hend; [done|]. unfold file_at. by rewrite E.
Qed.

(** the keys uploads use: an id, and a name ending in [.exe] *)
Definition local_key_ok (k : string) : Prop :=
  ∃ id name, k = object_key id name ∧ plain_name id ∧ plain_name name ∧ endswith ".exe" (lower name) = true.
Definition local_content (w : world) (k : string) : option string := file_at (w_disk w) (resolve root k).

Lemma srev_app a b acc : srev (a +:+ b) acc = srev b (srev a acc).
Proof. revert acc. induction a as [|c a IH]; intros acc; [done|]. rewrite sapp_cons. cbn. apply IH. Qed.
Lemma smap_app f a b : smap f (a +:+ b) = smap f a +:+ smap f b.
Proof. induction a as [|c a IH]; [done|]. rewrite !sapp_cons. cbn. by rewrite IH. Qed.
Lemma tmp_not_exe a : endswith ".exe" (lower (a +:+ ".tmp")) = false.
Proof. unfold endswith, lower. rewrite smap_app, srev_app. reflexivity. Qed.
Lemma key_resolves k :
  local_key_ok k → (∀ w, store_path root k w = (Ok (resolve root k), w)) ∧
  ∃ id name, k = object_key id name ∧ resolve root k = (root ++ [id; name])%list ∧ endswith ".exe" (lower name) = true.
Proof.
  intros (id & name & -> & Hi & Hn & He). pose proof (object_key_path root id name sample_world Hi Hn) as H.
  unfold store_path in H. cbv zeta in H. destruct (startswith _ _) eqn:E; [|done].
  assert (resolve root (object_key id name) = (root ++ [id; name])%list) as Hp by (by injection H).
  split; [intros w; unfold store_path; cbv zeta; by rewrite E|]. eauto 6.
Qed.
Lemma tmp_of id name :
  tmp_path pid (root ++ [id; name]) = (root ++ [id; name +:+ "." +:+ str_of_Z pid +:+ ".tmp"])%list.
Proof.
  unfold tmp_path, parent. replace (root ++ [id; name])%list with ((root ++ [id]) ++ [name])%list by (by rewrite <- app_assoc).
  by rewrite removelast_last, last_snoc, <- app_assoc.
Qed.
Lemma two_inj id name id' name' : (root ++ [id; name] = root ++ [id'; name'])%list → id = id' ∧ name = name'.
Proof. intros H. apply app_inv_head in H. by injection H. Qed.
(** the temporary file of one key is no key's file *)
Lemma tmp_no_key k k' : local_key_ok k → local_key_ok k' → resolve root k' ≠ tmp_path pid (resolve root k).
Proof.
  intros Hk Hk'. destruct (key_resolves k Hk) as (_ & id & name & _ & -> & _).
  destruct (key_resolves k' Hk') as (_ & id' & name' & _ & -> & He). rewrite tmp_of.
  intros [_ E]%two_inj. rewrite E, <- !sapp_assoc in He. by rewrite tmp_not_exe in He.
Qed.
Lemma paths_distinct k k' : local_key_ok k → local_key_ok k' → k' ≠ k → resolve root k' ≠ resolve root k.
Proof.
  intros Hk Hk' Hne. destruct (key_resolves k Hk) as (_ & id & name & -> & -> & _).
  destruct (key_resolves k' Hk') as (_ & id' & name' & -> & -> & _). intros [-> ->]%two_inj. done.
Qed.

Context (os_text : os_error → string).
#[export] Instance local_store :
  ObjectStore (LocalAgentStore root) local_key_ok local_content
    (λ k c _, local_put pid os_text root k c) (local_stream root) (local_delete os_text root).
Proof.
  split.
  - done.
  - intros k c t w Hk. destruct (key_resolves k Hk) as [Hp _]. unfold local_put, on_disk.
    rewrite (run_ok _ _ _ _ _ (Hp w)).
    assert (tmp_path pid (resolve root k) ≠ resolve root k) as Hne by (intros E; by apply (tmp_no_key k k Hk Hk)).
    pose proof (write_file_spec (resolve root k) c (w_disk w) Hne) as [Hb Hf].
    destruct (write_file pid (resolve root k) c (w_disk w)) as [[[]|e] d]; cbn [fst snd] in *.
    all: split; [first [exact Hf|split; [eauto|exact Hf]]|split; [|done]].
    all: intros k' Hk' Hkk; unfold local_content; cbn; apply Hb; rewrite !not_elem_of_cons; split_and!;
      [by apply (tmp_no_key k k')|by apply (paths_distinct k k')|apply not_elem_of_nil].
  - intros k w Hk. destruct (key_resolves k Hk) as [Hp _]. unfold local_stream, local_content.
    rewrite (run_ok _ _ _ _ _ (Hp w)), run_gets. destruct (file_at _ _) as [s|]; [|eauto].
    exists (chunks_of s). split; [done|]. apply chunks_of_glue.
  - intros k w Hk. destruct (key_resolves k Hk) as [Hp _]. unfold local_delete, on_disk.
    rewrite (run_ok _ _ _ _ _ (Hp w)). pose proof (remove_stored_spec (resolve root k) (w_disk w)) as [Hb Hf].
    destruct (remove_stored root (resolve root k) (w_disk w)) as [[[]|e] d]; cbn [fst snd] in *.
    all: split; [first [exact Hf|split; [eauto|exact Hf]]|split; [|done]].
    all: intros k' Hk' Hkk; unfold local_content; cbn; apply Hb; rewrite !not_elem_of_cons; split;
      [by apply (paths_distinct k k')|apply not_elem_of_nil].
Qed.
End local_store.

(** ** The uploads, against the contract *)

(** everything but the database and the position of the id stream *)
Definition rest (w : world) :=
  (w_cfg w, w_uuid4 w, w_token w, w_repr w, w_now w, w_cache w, w_mq w, w_disk w, w_cache_up w, w_broker_up w).
Lemma rest_same w w' : rest w' = rest w → w' = w <| w_db := w_db w' |> <| w_seq := w_seq w' |>.
Proof. destruct w, w'. unfold rest. cbn. by intros [= -> -> -> -> -> -> -> -> -> ->]. Qed.
Lemma wp_ok {A B} (m : M A) (k : A → M B) Q R w a w' : m w = (Ok a, w') → wp (k a) Q R w' → wp (m ≫= k) Q R w.
Proof. intros E H. apply wp_bind. unfold wp at 1. by rewrite E. Qed.
Lemma wp_fail {A B} (m : M A) (k : A → M B) Q (R : exn → world → Prop) w e w' : m w = (Raise e, w') → R e w' → wp (m ≫= k) Q R w.
Proof. intros E H. apply wp_bind. unfold wp at 1. by rewrite E. Qed.
Lemma wp_keep {A B} (m : M A) (k : A → M B) Q R w :
  keeps (same rest) m →
  (∀ a w', m w = (Ok a, w') → rest w' = rest w → wp (k a) Q R w') →
  (∀ e w', rest w' = rest w → R e w') → wp (m ≫= k) Q R w.
Proof.
  intros Hm Hk Hr. specialize (Hm w). apply wp_bind. unfold wp at 1. unfold same in Hm.
  destruct (m w) as [[a|e] w'] eqn:E; [by apply Hk|by apply Hr].
Qed.
(** the bytes of an upload: its chunks up to the first empty one *)
Fixpoint body_of (chunks : list string) : string :=
  match chunks with [] | "" :: _ => "" | c :: cs => c +:+ body_of cs end.
Lemma read_chunks_run chunks acc w :
  read_chunks chunks acc w = (Ok (acc +:+ body_of chunks), w) ∨ ∃ e, read_chunks chunks acc w = (Raise e, w).
Proof.
  revert acc. induction chunks as [|c cs IH]; intros acc; cbn [read_chunks body_of].
  - left. by rewrite sapp_nil_r.
  - destruct c as [|x c]; [left; by rewrite sapp_nil_r|].
    destruct (negb (str_nonempty acc) && _); [right; by eexists|]. cbv zeta.
    destruct (_ <? _); [right; by eexists|]. destruct (IH (acc +:+ String x c)) as [->|H]; [|by right].
    left. by rewrite sapp_assoc.
Qed.
Lemma col_str_run n s w :
  (col_str n (JStr s) ≫= not_null) w = (Ok s, w) ∨ (col_str n (JStr s) ≫= not_null) w = (Raise EData, w).
Proof. unfold col_str. destruct (String.length s <=? n)%nat; [by left|by right]. Qed.
Lemma wp_col {B} n s (k : string → M B) Q (R : exn → world → Prop) w :
  R EData w → wp (k s) Q R w → wp (s' ← col_str n (JStr s) ≫= not_null; k s') Q R w.
Proof. intros Hr Hk. destruct (col_str_run n s w) as [E|E]; [by eapply wp_ok|by eapply wp_fail]. Qed.
Lemma set_active_result b w b' w' : set_active b w = (Ok b', w') → b' = b <| b_is_active := true |>.
Proof.
  unfold set_active. rewrite run_query. unfold mbind, M_bind. destruct (for_each _ _ w) as [[?|?] ?]; [|done].
  by intros [= <- _].
Qed.
Lemma rest_flush b : keeps (same rest) (flush_binary b).
Proof. unfold flush_binary. keep. Qed.
Lemma rest_set_active b : keeps (same rest) (set_active b).
Proof. unfold set_active. keep. apply rest_flush. Qed.
(** what the catalogue records of each build's bytes: its id, its key, their number and digest *)
Definition fact (b : AgentBinary) : string * string * Z * string :=
  (b_id b, b_storage_key b, b_size_bytes b, b_checksum_sha256 b).
Definition facts (w : world) : gmap string (string * string * Z * string) := fact <$> agent_binaries (w_db w).
Definition keyed (m : gmap string (string * string * Z * string)) : Prop := ∀ id f, m !! id = Some f → f.1.1.1 = id.
Lemma flush_stored b w w' :
  flush_binary b w = (Ok tt, w') →
  agent_binaries (w_db w') !! b_id b = Some b ∧ facts w' = <[b_id b := fact b]> (facts w).
Proof.
  unfold flush_binary. rewrite run_query. destruct (rows _ _); [|done]. intros [= <-].
  split; [cbn; by rewrite lookup_insert_eq|]. unfold facts. cbn. by rewrite fmap_insert.
Qed.
(** rows catalogued with these facts *)
Definition listed (l : list AgentBinary) (w : world) : Prop := ∀ b, b ∈ l → facts w !! b_id b = Some (fact b).
Definition refact (l : list AgentBinary) (w w' : world) : Prop := listed l w → facts w' = facts w.
#[export] Instance refact_preorder l : PreOrder (refact l).
Proof.
  split; [done|]. intros x y z H1 H2 Hl. rewrite H2; [by apply H1|]. intros b Hb. rewrite H1 by done. by apply Hl.
Qed.
Lemma flush_refact l b b' : b ∈ l → fact b' = fact b → keeps (refact l) (flush_binary b').
Proof.
  intros Hb E w Hl. destruct (flush_binary b' w) as [[[]|e] w'] eqn:F; cbn.
  - apply flush_stored in F as [_ ->]. apply insert_id. rewrite E. assert (b_id b' = b_id b) as -> by (by injection E). by apply Hl.
  - unfold flush_binary in F. rewrite run_query in F. destruct (rows _ _); [done|by injection F as <- <-].
Qed.
Lemma set_active_facts b w : keyed (facts w) → facts (set_active b w).2 = facts w.
Proof.
  intros Hk. unfold set_active. rewrite run_query. set (l := rows _ _).
  assert (keeps (refact l) (for_each l (λ c, flush_binary (c <| b_is_active := false |>)))) as Hf.
  { apply keeps_for_each; [apply _|]. intros c Hc. by eapply flush_refact. }
  assert (listed l w) as Hl.
  { intros c (k & Hc & _)%elem_of_rows. assert (facts w !! k = Some (fact c)) as F by (unfold facts; by rewrite lookup_fmap, Hc).
    pose proof (Hk _ _ F) as E. cbn in E. by rewrite E. }
  specialize (Hf w Hl). unfold mbind, M_bind. by destruct (for_each _ _ w) as [[?|?] ?].
Qed.

Section uploads.
Context (repo_root : path) (s : AgentStore).
Context (put_file' : AgentStore → string → string → string → M unit) (stream : string → M (list string))
  (remove : string → M unit) (key_ok : string → Prop) (content : world → string → option string).
Context `{!ObjectStore s key_ok content (put_file' s) stream remove}.

Lemma content_rest w w' k : rest w' = rest w → content w' k = content w k.
Proof. intros H. rewrite (rest_same w w' H). apply content_frame. Qed.
(** the contents under the other keys *)
Definition others (k : string) (w w' : world) : Prop := ∀ k', key_ok k' → k' ≠ k → content w' k' = content w k'.
Lemma others_rest k w w1 w' : others k w w1 → rest w' = rest w1 → others k w w'.
Proof. intros H E k' Hk Hne. rewrite (content_rest w1 w' k' E). by apply H. Qed.
Lemma others_refl k w w' : rest w' = rest w → others k w w'.
Proof. intros E k' _ _. by apply content_rest. Qed.
Lemma wp_store {B} k c t api (next : unit → M B) Q (R : exn → world → Prop) w :
  key_ok k →
  (∀ w', content w' k = Some c → others k w w' → w_db w' = w_db w → w_cfg w' = w_cfg w → wp (next tt) Q R w') →
  (∀ e w', others k w w' → w_cfg w' = w_cfg w → R e w') →
  wp (catch_store (put_file' s k c t) (λ msg, raise (api msg)) ≫= next) Q R w.
Proof.
  intros Hk Hn Hr. destruct (put_spec k c t w Hk) as (Hp & Ho & Hd & Hc). unfold catch_store.
  apply wp_bind. unfold wp at 1. destruct (put_file' s k c t w) as [[[]|e] w']; [by apply Hn|].
  destruct Hp as [[msg ->] _]. by apply Hr.
Qed.
(** what the registered row says of the stored bytes *)
Definition describes (id k body : string) (b : AgentBinary) : Prop :=
  fact b = (id, k, Z.of_nat (String.length body), hex (sha256 (bytes_of body))).
Lemma wp_activate id k body (make : bool) b w :
  describes id k body b →
  wp (if make then set_active b else mret b)
    (λ b' w', describes id k body b' ∧ rest w' = rest w ∧ (keyed (facts w) → facts w' = facts w))
    (λ _ w', rest w' = rest w) w.
Proof.
  intros Hb. destruct make; [|done]. unfold wp. pose proof (rest_set_active b w) as Hr. unfold same in Hr.
  pose proof (set_active_facts b w) as Hf.
  destruct (set_active b w) as [[b'|e] w'] eqn:E; [|done]. split; [|done]. by apply set_active_result in E as ->.
Qed.
Lemma keyed_insert m id f : keyed m → f.1.1.1 = id → keyed (<[id := f]> m).
Proof. intros H E i g. rewrite lookup_insert_Some. intros [[<- <-]|[_ ?]]; [done|by apply H]. Qed.

Lemma upload_run scope user up w :
  get_agent_store repo_root w = (Ok s, w) →
  let id := w_uuid4 w (w_seq w) in
  let k := object_key id (path_name (default "" (up_filename up))) in
  let body := body_of (up_chunks up) in
  key_ok k →
  wp (upload_agent_binary repo_root put_file' scope user up)
    (λ b w', agent_binaries (w_db w') !! id = Some b ∧ describes id k body b ∧ content w' k = Some body ∧
       (keyed (facts w) → facts w' = <[id := fact b]> (facts w)) ∧ others k w w' ∧ w_cfg w' = w_cfg w)
    (λ _ w', others k w w' ∧ w_cfg w' = w_cfg w) w.
Proof.
  intros Hs id k body Hk.
  set (R := λ w', others k w w' ∧ w_cfg w' = w_cfg w).
  assert (∀ w', rest w' = rest w → R w') as Hrr by (intros w' E; split; [by apply others_refl|by injection E]).
  assert (∀ e Q, wp (raise (A := AgentBinary) e) Q (λ _ w', R w') w) as Hr by (intros ? ?; by apply Hrr).
  unfold upload_agent_binary, require_admin. destruct (sc_all scope); [|apply Hr]. cbv zeta.
  destruct (negb _); [apply Hr|]. destruct (negb _); [apply Hr|].
  eapply wp_ok; [done|]. destruct (rows _ _) as [|? [|? ?]]; [|apply Hr..].
  destruct (read_chunks_run (up_chunks up) "" w) as [E|[e E]]; [eapply wp_ok; [exact E|]|eapply wp_fail; [exact E|by apply Hrr]].
  clear E. change ("" +:+ body_of (up_chunks up)) with body. destruct (negb _); [apply Hr|].
  eapply wp_ok; [exact Hs|]. eapply wp_ok; [done|].
  set (w1 := w <| w_seq ::= S |>). assert (rest w1 = rest w) as H1 by done. assert (facts w1 = facts w) as F1 by done.
  clearbody w1. do 4 (apply wp_col; [by apply Hrr|]). eapply wp_ok; [done|]. cbv zeta.
  apply wp_keep; [apply rest_flush|intros [] w2 F2 E2|intros e w' E; apply Hrr; congruence].
  apply flush_stored in F2 as [_ F2]. cbn [b_id] in F2. fold id in F2. rewrite F1 in F2.
  apply wp_col; [apply Hrr; congruence|]. fold id k.
  assert (∀ w3, others k w2 w3 → others k w w3) as Hoo.
  { intros w3 Ho k' Hk' Hne. rewrite Ho by done. apply content_rest. congruence. }
  assert (w_cfg w2 = w_cfg w) as C2. { rewrite H1 in E2. by injection E2. }
  apply wp_store; [done|intros w3 Hc Ho%Hoo D3 C3|intros e w3 Ho%Hoo C3; split; [done|congruence]].
  assert (∀ w4, rest w4 = rest w3 → R w4) as HR3.
  { intros w4 E. split; [by eapply others_rest|]. injection E. congruence. }
  apply wp_bind. eapply wp_mono; [eapply (wp_activate id k body); done| |]; [|intros e w4 E4; by apply HR3].
  intros b w4 (Hb & E4 & F4).
  apply wp_keep; [apply rest_flush|intros [] w5 F5 E5|intros e w5 E5; apply HR3; congruence].
  apply flush_stored in F5 as [Hrow F5]. assert (b_id b = id) as Hid by (by injection Hb). rewrite Hid in Hrow, F5.
  edestruct record_run as [e Er]; [|eapply wp_ok; [exact Er|]]; [done|]. set (w6 := w5 <| w_seq ::= S |> <| w_db ::= _ |>).
  assert (rest w6 = rest w3) as E6 by (change (rest w6) with (rest w5); congruence).
  destruct (HR3 w6 E6) as [Ho6 C6]. split_and!; try done; [by rewrite (content_rest w3 w6 k E6)|]. intros Hkd.
  change (facts w6) with (facts w5). assert (facts w3 = facts w2) as F3 by (unfold facts; by rewrite D3).
  rewrite F5, F4, F3, F2 by (rewrite F3, F2; by apply keyed_insert). apply insert_insert_eq.
Qed.

(** C22: an uploaded build keeps its bytes.  Against any store that keeps its
    contract - the local one does - an upload that succeeds leaves, under the
    key of its own id, exactly the bytes received, which stream back in chunks;
    the row registered carries that key, their number and their SHA-256 digest;
    and whatever the outcome, no build stored under another key is touched. *)
Theorem uploaded_bytes_survive scope user up w :
  get_agent_store repo_root w = (Ok s, w) →
  let id := w_uuid4 w (w_seq w) in
  let k := object_key id (path_name (default "" (up_filename up))) in
  let body := body_of (up_chunks up) in
  key_ok k →
  match upload_agent_binary repo_root put_file' scope user up w with
  | (Ok b, w') =>
      agent_binaries (w_db w') !! id = Some b ∧ describes id k body b ∧
      (∃ chunks, stream (b_storage_key b) w' = (Ok chunks, w') ∧ glue chunks = body) ∧ others k w w'
  | (Raise _, w') => others k w w'
  end.
Proof.
  intros Hs id k body Hk. pose proof (upload_run scope user up w Hs Hk) as H. unfold wp in H. cbv zeta in H.
  destruct (upload_agent_binary _ _ _ _ _ _) as [[b|e] w']; [|apply H]. destruct H as (Hrow & Hd & Hc & _ & Ho & _).
  split_and!; try done. pose proof (stream_spec k w' Hk) as Hst. fold id k body in Hc. rewrite Hc in Hst.
  assert (b_storage_key b = k) as -> by (by injection Hd). done.
Qed.

(** ** The catalogue's bytes, through any history of requests *)
Lemma object_key_inj id id' name name' :
  no_slash id = true → no_slash id' = true → object_key id name = object_key id' name' → id = id'.
Proof.
  unfold object_key. revert id'. induction id as [|c id IH]; intros [|c' id'] H H' E; try done.
  - injection E as <- _. by unfold no_slash in H'.
  - injection E as -> _. by unfold no_slash in H.
  - rewrite !sapp_cons in E. injection E as <- E. unfold no_slash in *. cbn [s_forallb] in H, H'.
    apply andb_true_iff in H as [_ H], H' as [_ H']. f_equal. by apply IH.
Qed.
Lemma update_run scope user id notes act w :
  keyed (facts w) → facts (update_agent_binary scope user id notes act w).2 = facts w.
Proof.
  intros Hk. unfold update_agent_binary, require_admin. destruct (sc_all scope); [|done]. unfold get_agent_binary.
  rewrite run_query. destruct (agent_binaries (w_db w) !! id) as [b|] eqn:Eb; [|done]. cbv zeta.
  assert (facts w !! id = Some (fact b)) as Fb by (unfold facts; by rewrite lookup_fmap, Eb).
  pose proof (Hk _ _ Fb) as Hid. cbn in Hid. set (b1 := match notes with Some _ => _ | None => b end).
  assert (fact b1 = fact b) as E1 by (unfold b1; by destruct notes as [[?|]|]). clearbody b1.
  unfold mbind, M_bind.
  set (m := match act with Some (Some true) => set_active b1 | _ => _ end).
  assert (match m w with (Ok b2, w1) => fact b2 = fact b ∧ facts w1 = facts w | (Raise _, w1) => facts w1 = facts w end) as Hm.
  { subst m. destruct act as [[[]|]|]; [|by split..]. pose proof (set_active_facts b1 w Hk) as Hf.
    destruct (set_active b1 w) as [[b2|e] w1] eqn:E; [|done]. split; [|done]. by apply set_active_result in E as ->. }
  clearbody m. destruct (m w) as [[b2|e] w1]; [|done]. destruct Hm as [E2 F1].
  assert (keeps (refact [b]) (flush_binary b2)) as Hfl by (by apply flush_refact with b; [apply list_elem_of_here|congruence]).
  specialize (Hfl w1). unfold refact, listed in Hfl. rewrite <- F1.
  assert (facts (flush_binary b2 w1).2 = facts w1) as F2.
  { apply Hfl. intros x ->%list_elem_of_singleton. by rewrite F1, Hid. }
  destruct (flush_binary b2 w1) as [[[]|e] w2]; [|done]. destruct (changes _ _); [|done].
  edestruct record_run as [e ->]; done.
Qed.
Lemma update_rest scope user id notes act : keeps (same rest) (update_agent_binary scope user id notes act).
Proof.
  unfold update_agent_binary, require_admin, get_agent_binary. keep.
  all: first [apply rest_set_active|apply rest_flush].
Qed.
(** a build is deleted with its bytes, or nothing happens to either *)
Lemma delete_run scope user id w :
  (∀ w0, rest w0 = rest w → get_agent_store repo_root w0 = (Ok s, w0)) → keyed (facts w) →
  (∀ f, facts w !! id = Some f → key_ok f.1.1.2) →
  wp (delete_agent_binary repo_root (λ _, remove) scope user id)
    (λ _ w', ∃ f, facts w !! id = Some f ∧ facts w' = delete id (facts w) ∧ others f.1.1.2 w w' ∧ w_cfg w' = w_cfg w)
    (λ _ w', facts w' = facts w ∧ rest w' = rest w) w.
Proof.
  intros Hs Hk Hok. unfold delete_agent_binary, require_admin. destruct (sc_all scope); [|done]. unfold get_agent_binary.
  eapply wp_ok; [done|]. destruct (agent_binaries (w_db w) !! id) as [b|] eqn:Eb; [|done].
  assert (facts w !! id = Some (fact b)) as Fb by (unfold facts; by rewrite lookup_fmap, Eb).
  pose proof (Hk _ _ Fb) as Hid. cbn in Hid. specialize (Hok _ Fb). cbn in Hok. destruct (b_is_active b); [done|].
  edestruct record_run as [e Er]; [|eapply wp_ok; [exact Er|]]; [done|]. set (w1 := w <| w_seq ::= S |> <| w_db ::= _ |>).
  eapply wp_ok; [by apply Hs|]. destruct (remove_spec (b_storage_key b) w1 Hok) as (Hp & Ho & Hd & Hc).
  apply wp_bind. unfold wp, catch_store. set (r := remove (b_storage_key b) w1) in *.
  assert (∀ w2, r.2 = w2 → ∃ f, facts w !! id = Some f ∧
    facts (w2 <| w_db ::= λ d, d <| agent_binaries ::= delete (b_id b) |> |>) = delete id (facts w) ∧
    others f.1.1.2 w (w2 <| w_db ::= λ d, d <| agent_binaries ::= delete (b_id b) |> |>) ∧ w_cfg w2 = w_cfg w) as Hend.
  { intros w2 <-. exists (fact b). split_and!; [done| | |by rewrite Hc].
    - unfold facts. cbn. by rewrite Hd, fmap_delete, Hid.
    - intros k' Hk' Hne. change (content (r.2 <| w_db := (w_db r.2) <| agent_binaries ::= delete (b_id b) |> |> <| w_seq := w_seq r.2 |>) k' = content w k').
      rewrite content_frame, Ho by done. by apply content_rest. }
  destruct r as [[?|e'] w2]; cbn [snd] in *; [exact (Hend _ eq_refl)|]. destruct Hp as [[msg ->] _]. exact (Hend _ eq_refl).
Qed.

Inductive build_request :=
  | UploadBuild (up : Upload)
  | UpdateBuild (id : string) (notes : option (option string)) (is_active : option (option bool))
  | DeleteBuild (id : string).
Definition serve_build (scope : VisibleScope) (user : User) (r : build_request) : M unit :=
  session_scope
    match r with
    | UploadBuild up => upload_agent_binary repo_root put_file' scope user up;; mret tt
    | UpdateBuild id notes act => update_agent_binary scope user id notes act;; mret tt
    | DeleteBuild id => delete_agent_binary repo_root (λ _, remove) scope user id
    end.
(** an upload draws an id of one path component no build has, under a key the store takes *)
Definition admissible (r : build_request) (w : world) : Prop :=
  match r with
  | UploadBuild up =>
      let id := w_uuid4 w (w_seq w) in
      facts w !! id = None ∧ no_slash id = true ∧ key_ok (object_key id (path_name (default "" (up_filename up))))
  | _ => True
  end.
Inductive build_step : world → world → Prop :=
  BuildStep scope user r w : admissible r w → build_step w (serve_build scope user r w).2.
(** the store holds, under each catalogued key, bytes of the number and digest on record *)
Definition row_backed (w : world) (id : string) (f : string * string * Z * string) : Prop :=
  f.1.1.1 = id ∧ no_slash id = true ∧ key_ok f.1.1.2 ∧ (∃ name, f.1.1.2 = object_key id name) ∧
  ∃ c, content w f.1.1.2 = Some c ∧ f.1.2 = Z.of_nat (String.length c) ∧ f.2 = hex (sha256 (bytes_of c)).
Definition backed (w : world) : Prop := map_Forall (row_backed w) (facts w).
(** the settings choose this store: they are read anew by every request *)
Definition chosen (w : world) : Prop := ∀ w', w_cfg w' = w_cfg w → get_agent_store repo_root w' = (Ok s, w').

Lemma backed_keyed w : backed w → keyed (facts w).
Proof. intros H id f Hf. by apply (H id f Hf). Qed.
(** rows on record stay backed when only another key's content may have changed *)
Lemma backed_others k id w w' :
  backed w → others k w w' → (∃ name, k = object_key id name) → no_slash id = true →
  ∀ i f, facts w !! i = Some f → i ≠ id → row_backed w' i f.
Proof.
  intros H Ho [n ->] Hid i f Hf Hne. destruct (H i f Hf) as (? & Hi & Hk & [n' E] & c & Hc & ?).
  split_and!; eauto. exists c. split_and!; try tauto. rewrite Ho; [done|done|].
  rewrite E. intros EE. by apply object_key_inj in EE.
Qed.
Lemma row_backed_frame w w' i f : (∀ k, content w' k = content w k) → row_backed w i f → row_backed w' i f.
Proof. intros E (? & ? & ? & ? & c & Hc & ?). split_and!; eauto. exists c. by rewrite E. Qed.
Lemma rolled_back w w1 k : content (w1 <| w_db := w_db w |>) k = content w1 k.
Proof. exact (content_frame w1 (w_db w) (w_seq w1) k). Qed.
Lemma backed_same w w' : facts w' = facts w → rest w' = rest w → backed w → backed w' ∧ w_cfg w' = w_cfg w.
Proof.
  intros Hf Hr Hb. split; [|by injection Hr]. intros i f. rewrite Hf. intros Hi.
  eapply row_backed_frame; [intros k; by apply content_rest|by apply Hb].
Qed.
Lemma build_step_backed w w' : build_step w w' → chosen w → backed w → backed w' ∧ w_cfg w' = w_cfg w.
Proof.
  intros [scope user r w0 Hadm] Hch Hb. pose proof (backed_keyed _ Hb) as Hkd. unfold serve_build, session_scope, savepoint.
  destruct r as [up|id notes act|id].
  - destruct Hadm as (Hfresh & Hns & Hk). pose proof (upload_run scope user up w0 (Hch w0 eq_refl) Hk) as H.
    unfold wp in H. cbv zeta in H. unfold mbind, M_bind.
    destruct (upload_agent_binary _ _ _ _ _ _) as [[b|e] w1]; cbn.
    + destruct H as (Hrow & Hd & Hc & Hf & Ho & Hcfg). split; [|done]. intros i f. rewrite Hf by done.
      rewrite lookup_insert_Some. intros [[<- <-]|[Hne Hi]].
      * unfold describes in Hd. rewrite Hd. split_and!; cbn; eauto.
      * eapply backed_others; eauto.
    + destruct H as (Ho & Hcfg). split; [|done]. intros i f Hf. change (facts w0 !! i = Some f) in Hf.
      eapply row_backed_frame; [intros k; apply rolled_back|].
      eapply backed_others; eauto. by intros ->; simplify_eq.
  - pose proof (update_run scope user id notes act w0 Hkd) as Hf. pose proof (update_rest scope user id notes act w0) as Hr.
    unfold same in Hr. unfold mbind, M_bind. destruct (update_agent_binary _ _ _ _ _ _) as [[b|e] w1]; cbn;
      [by apply backed_same|exact (backed_same w0 (w1 <| w_db := w_db w0 |>) eq_refl Hr Hb)].
  - assert (∀ f, facts w0 !! id = Some f → key_ok f.1.1.2) as Hok by (intros f Hf; by apply (Hb id f Hf)).
    pose proof (delete_run scope user id w0) as H. unfold wp in H.
    destruct (delete_agent_binary _ _ _ _ _ _) as [[[]|e] w1]; cbn.
    + destruct H as (f & Hf & Hf' & Ho & Hcfg); [intros w2 E; apply Hch; by injection E|done|done|]. split; [|done].
      destruct (Hb id f Hf) as (_ & Hns & _ & Hkey & _).
      intros i g. rewrite Hf'. intros [Hne Hi]%lookup_delete_Some. eapply backed_others; eauto.
    + destruct H as [_ Hr]; [intros w2 E; apply Hch; by injection E|done|done|].
      exact (backed_same w0 (w1 <| w_db := w_db w0 |>) eq_refl Hr Hb).
Qed.

(** C21: no build in the catalogue without its bytes.  Start from a catalogue
    whose builds are all stored (an empty one, say) and serve any sequence of
    uploads, edits and deletions, each in its session, refused, failed half way
    or not: afterwards every catalogued build still streams from the store, with
    exactly the size and the SHA-256 digest its row promises to the agents. *)
Theorem catalogue_backed w w' :
  chosen w → backed w → rtc build_step w w' →
  ∀ id b, agent_binaries (w_db w') !! id = Some b →
    ∃ chunks, stream (b_storage_key b) w' = (Ok chunks, w') ∧
      Z.of_nat (String.length (glue chunks)) = b_size_bytes b ∧
      hex (sha256 (bytes_of (glue chunks))) = b_checksum_sha256 b.
Proof.
  intros Hch Hb Hst. assert (backed w') as Hb'.
  { induction Hst as [w|w w1 w' Hs1 _ IH]; [done|]. destruct (build_step_backed w w1 Hs1 Hch Hb) as [Hb1 Hc].
    apply IH; [|done]. intros w2 E. apply Hch. congruence. }
  intros id b E. destruct (Hb' id (fact b)) as (_ & _ & Hk & _ & c & Hc & Hn & Hh);
    [unfold facts; by rewrite lookup_fmap, E|]. cbn in *.
  pose proof (stream_spec (b_storage_key b) w' Hk) as Hst'. rewrite Hc in Hst'. destruct Hst' as (chunks & ? & <-). eauto.
Qed.
End uploads.

(** a first upload to a fresh volume *)
Definition store_world : world :=
  sample_world <| w_disk := mkDisk {[ ["app"] := NDir; ["app"; "uploads"] := NDir ]} 4096 |>.
Definition sample_upload : Upload :=
  mkUpload (Some "agent.exe") None ["MZ"; "payload"] "1.0" "hyperv" None true.
Definition to_store (s : AgentStore) : string → string → string → M unit :=
  put_file (λ _ _ _ _, mret tt) (λ _, "") 7 (λ _, "") s.
Definition upload_admin : VisibleScope := mkScope true ∅ ∅ ∅.
Definition sample_root : path := ["app"; "uploads"; "agent-binaries"].
Lemma sample_key_ok : local_key_ok (object_key "id-" "agent.exe").
Proof. exists "id-", "agent.exe". unfold plain_name. by repeat split. Qed.
Lemma uploaded_bytes_survive_witness :
  ∃ b w', upload_agent_binary ["app"] to_store upload_admin build_admin sample_upload store_world = (Ok b, w') ∧
    ∃ chunks, local_stream sample_root (b_storage_key b) w' = (Ok chunks, w') ∧ glue chunks = "MZpayload".
Proof.
  pose proof (uploaded_bytes_survive ["app"] (LocalAgentStore sample_root) to_store (local_stream sample_root)
    (local_delete (λ _, "") sample_root) local_key_ok (local_content sample_root)
    upload_admin build_admin sample_upload store_world eq_refl sample_key_ok) as H.
  destruct (upload_agent_binary _ _ _ _ _ _) as [[b|e] w'] eqn:E; [|by vm_compute in E].
  exists b, w'. split; [done|]. apply H.
Defined.
(** the upload, then a rejected one (the version exists), then the deletion of the active build, refused *)
Definition store_history : list build_request := [UploadBuild sample_upload; UploadBuild sample_upload; DeleteBuild "id-"].
Definition store_world' : world :=
  foldl (λ w r, (serve_build ["app"] to_store (local_delete (λ _, "") sample_root) upload_admin build_admin r w).2)
    store_world store_history.
Lemma catalogue_backed_witness :
  ∃ b chunks, agent_binaries (w_db store_world') !! "id-" = Some b ∧
    local_stream sample_root (b_storage_key b) store_world' = (Ok chunks, store_world') ∧
    hex (sha256 (bytes_of (glue chunks))) = b_checksum_sha256 b.
Proof.
  destruct (agent_binaries (w_db store_world') !! "id-") as [b|] eqn:E; [|by vm_compute in E].
  edestruct (catalogue_backed ["app"] (LocalAgentStore sample_root) to_store (local_stream sample_root)
    (local_delete (λ _, "") sample_root) local_key_ok (local_content sample_root) store_world store_world') as (chunks & ? & _ & ?);
    [intros w Ew; unfold get_agent_store; by rewrite run_settings, Ew| | |exact E|eauto].
  - by intros i f Hf.
  - unfold store_world', store_history. cbn [foldl].
    eapply rtc_l; [apply (BuildStep _ _ _ _ upload_admin build_admin (UploadBuild sample_upload))|].
    { split_and!; [reflexivity|reflexivity|exact sample_key_ok]. }
    eapply rtc_l; [apply (BuildStep _ _ _ _ upload_admin build_admin (UploadBuild sample_upload))|].
    { split_and!; [by vm_compute|by vm_compute|exists "id-ii", "agent.exe"; split_and!; [by vm_compute|..]; unfold plain_name; by repeat split]. }
    eapply rtc_l; [by apply (BuildStep _ _ _ _ upload_admin build_admin (DeleteBuild "id-"))|]. done.
Defined.
