(* ===== verification/AgentInstall.v ===== *)
(** * Installing an agent ([app/services/hosts.py], [app/messaging/management.py])

    The agent's broker URL, its [config.ini], the PowerShell installer served
    to a host and the signed one-liner that fetches it. *)
From S2P Require Import Prelude Py Clock Model World Store Messaging Sha256 AgentStore AgentBinaries Url.
From Stdlib Require Import Ascii.
Open Scope string_scope.
Open Scope Z_scope.

Definition NL : string := String (ascii_of_N 10) EmptyString.
Definition DQ : string := String (ascii_of_N 34) EmptyString.
(** [a or b] on strings *)
Definition sor (a b : string) : string := if str_nonempty a then a else b.

(** ** The agent's broker URL *)

(** scheme, host and port, virtual host, from the settings *)
Definition agent_endpoint (cfg : Settings) : res (string * string * string) :=
  parts ← urlsplit (sor (agent_rabbitmq_url cfg) (rabbitmq_url cfg));
  p ← port parts;
  let host := sor (default "" (hostname parts)) "localhost" in
  let netloc := match p with
                | Some n => if n =? 0 then host else host +:+ ":" +:+ str_of_Z n
                | None => host
                end in
  mret (sor (sp_scheme parts) "amqp", netloc, sor (sp_path parts) "/").
Definition agent_amqp_url (h : Host) : M string :=
  cfg ← get_settings;
  e ← lift_py (agent_endpoint cfg);
  let '(scheme, netloc, vhost) := e in
  mret (scheme +:+ "://" +:+ quote (default "" (h_agent_rmq_user h)) +:+ ":" +:+
        quote (default "" (h_agent_rmq_password h)) +:+ "@" +:+ netloc +:+ vhost).
(** [_amqp_parts]: user, password and virtual host read back from such a URL *)
Definition amqp_parts (url : string) : res (string * string * string) :=
  parts ← urlsplit url;
  let '(username, password) := userinfo parts in
  let vhost := match sp_path parts with String "/" p => p | p => p end in
  mret (if str_nonempty (default "" username) then unquote (default "" username) else "guest",
        if str_nonempty (default "" password) then unquote (default "" password) else "guest",
        sor (unquote vhost) "/").

(** ** [config.ini] *)
Definition render_agent_config (h : Host) : M string :=
  url ← agent_amqp_url h;
  mret (join NL
    ["[agent]";
     "host_id = " +:+ h_short_id h;
     "rabbitmq_url = " +:+ url;
     EmptyString;
     "log_level = info";
     "task_timeout = 60";
     "refresh_interval_vms = 180";
     "refresh_interval_host = 600";
     "metrics_interval = 300";
     "max_concurrent_jobs = 4";
     EmptyString;
     "; Required - point these at real directories on this host:";
     "template_path = D:\HyperV\TEMPLATES";
     "local_iso_path = D:\HyperV\ISOS";
     EmptyString;
     "; Optional - extra VM storage roots, semicolon-separated:";
     "; aditional_vm_storage = E:\HyperV";
     EmptyString]).

(** ** The installer *)
Definition INSTALL_DIR : string := "C:\Program Files\ovc-agent".
(** [s.splitlines()]: the line boundaries of Python, those outside ASCII in UTF-8 *)
Definition line_break (c : ascii) : bool :=
  let n := N_of_ascii c in ((10 <=? n) && (n <=? 13) || (28 <=? n) && (n <=? 30))%N.
(** the length of the boundary at the head of the string, 0 when there is none *)
Definition break_length (s : string) : nat :=
  match s with
  | String "013" (String "010" _) => 2
  | String "194" (String "133" _) => 2
  | String "226" (String "128" (String "168" _)) | String "226" (String "128" (String "169" _)) => 3
  | String c _ => if line_break c then 1 else 0
  | EmptyString => 0
  end.
(** [skip] characters of a boundary are still to be dropped *)
Fixpoint splitlines_from (s : string) (acc : string) (skip : nat) : list string :=
  match s with
  | EmptyString => if str_nonempty acc then [acc] else []
  | String c s' =>
      match skip with
      | S k => splitlines_from s' acc k
      | O => match break_length s with
             | O => splitlines_from s' (acc +:+ String c EmptyString) 0
             | S k => acc :: splitlines_from s' EmptyString k
             end
      end
  end.
Definition splitlines (s : string) : list string := splitlines_from s EmptyString 0.
Definition safe_line (ln : string) : string := if startswith "'@" ln then " " +:+ ln else ln.
Definition ps_body (body : string) : string := join NL (safe_line <$> splitlines body).
Definition ps_here_string (body : string) : string := "@'" +:+ NL +:+ ps_body body +:+ NL +:+ "'@".
Definition install_script_lines (h : Host) (download_url checksum_sha256 version config_ini : string) : list string :=
  ["#Requires -RunAsAdministrator";
   "$ErrorActionPreference = 'Stop'";
   "$ProgressPreference = 'SilentlyContinue'";
   "# ovc-agent installer for host '" +:+ h_name h +:+ "' (" +:+ h_short_id h +:+ ")";
   "# agent " +:+ version +:+ "  SHA-256 " +:+ checksum_sha256;
   EmptyString;
   "$InstallDir  = '" +:+ INSTALL_DIR +:+ "'";
   "$ExePath     = Join-Path $InstallDir 'ovc-agent.exe'";
   "$ConfigPath  = Join-Path $InstallDir 'config.ini'";
   "$ServiceName = 'ovc-agent'";
   "$DownloadUrl = '" +:+ download_url +:+ "'";
   "$Checksum    = '" +:+ upper checksum_sha256 +:+ "'";
   EmptyString;
   "Write-Host " +:+ DQ +:+ "Installing ovc-agent into $InstallDir ..." +:+ DQ;
   "New-Item -ItemType Directory -Force -Path $InstallDir | Out-Null";
   EmptyString;
   "$svc = Get-Service -Name $ServiceName -ErrorAction SilentlyContinue";
   "if ($svc -and $svc.Status -ne 'Stopped') {";
   "    Write-Host 'Stopping the running ovc-agent service so the binary can be replaced...'";
   "    Stop-Service -Name $ServiceName -Force";
   "}";
   EmptyString;
   "Write-Host 'Downloading the agent binary...'";
   "[Net.ServicePointManager]::SecurityProtocol = [Net.SecurityProtocolType]::Tls12";
   "$tmp = " +:+ DQ +:+ "$ExePath.download" +:+ DQ;
   "Invoke-WebRequest -Uri $DownloadUrl -OutFile $tmp -UseBasicParsing";
   "$hash = (Get-FileHash $tmp -Algorithm SHA256).Hash";
   "if ($hash -ne $Checksum) {";
   "    Remove-Item $tmp -Force";
   "    throw " +:+ DQ +:+ "checksum mismatch: got $hash, expected $Checksum" +:+ DQ;
   "}";
   "Move-Item $tmp $ExePath -Force";
   "Write-Host " +:+ DQ +:+ "Agent binary written to $ExePath" +:+ DQ;
   EmptyString;
   "$ConfigBody = " +:+ ps_here_string config_ini;
   "if (Test-Path $ConfigPath) {";
   "    Write-Host " +:+ DQ +:+ "config.ini already exists at $ConfigPath - keeping it (not overwritten)." +:+ DQ;
   "} else {";
   "    Set-Content -Path $ConfigPath -Value $ConfigBody -Encoding UTF8";
   "    Write-Host " +:+ DQ +:+ "Wrote $ConfigPath" +:+ DQ;
   "}";
   EmptyString;
   "if (-not (Get-Service -Name $ServiceName -ErrorAction SilentlyContinue)) {";
   "    Write-Host 'Installing the ovc-agent Windows service...'";
   "    & $ExePath install";
   "    if ($LASTEXITCODE -ne 0) { throw " +:+ DQ +:+ "ovc-agent.exe install failed (exit $LASTEXITCODE)" +:+ DQ +:+ " }";
   "} else {";
   "    Write-Host 'ovc-agent Windows service already installed.'";
   "}";
   EmptyString;
   "try { Start-Process notepad.exe $ConfigPath } catch {";
   "    Write-Host " +:+ DQ +:+ "Could not open Notepad - edit $ConfigPath by hand." +:+ DQ;
   "}";
   EmptyString;
   "Write-Host ''";
   "Write-Host '============================================================'";
   "Write-Host ' ovc-agent is installed but NOT started yet.'";
   "Write-Host ''";
   "Write-Host " +:+ DQ +:+ " 1. Edit  $ConfigPath  (opened in Notepad) and set:" +:+ DQ;
   "Write-Host '      template_path   = existing folder for exported VM templates'";
   "Write-Host '      local_iso_path  = existing folder that holds your ISO files'";
   "Write-Host '    then save the file.'";
   "Write-Host ''";
   "Write-Host ' 2. Start the service:'";
   "Write-Host " +:+ DQ +:+ "      Start-Service $ServiceName" +:+ DQ;
   "Write-Host ''";
   "Write-Host '    Confirm it is running:'";
   "Write-Host " +:+ DQ +:+ "      Get-Service $ServiceName" +:+ DQ;
   "Write-Host ''";
   "Write-Host '    Follow the agent log:'";
   "Write-Host " +:+ DQ +:+ "      Get-Content '$InstallDir\agent.log' -Wait -Tail 20" +:+ DQ;
   "Write-Host '============================================================'";
   EmptyString].
Definition render_agent_install_script (h : Host) (download_url checksum_sha256 version config_ini : string) : string :=
  join NL (install_script_lines h download_url checksum_sha256 version config_ini).
Definition install_script_filename (h : Host) : string := "ovc-agent-install-" +:+ h_short_id h +:+ ".ps1".
Definition no_active_binary {A} (h : Host) : M A :=
  api_error "NO_ACTIVE_AGENT_BINARY" ("No active agent binary for hypervisor '" +:+ h_hypervisor h +:+
    "' - upload one in Agent Management first") 409.

Section install.
Context (repo_root : path) (presign : string → string → string → Z → string).

Definition build_agent_install_script (h : Host) : M (string * string) :=
  b ← active_agent_binary (h_hypervisor h);
  match b with
  | None => no_active_binary h
  | Some b =>
      store ← get_agent_store repo_root;
      url ← download_url presign store (b_id b) (b_storage_key b) (b_filename b);
      if str_nonempty (default "" url) then
        config ← render_agent_config h;
        mret (render_agent_install_script h (default "" url) (b_checksum_sha256 b) (b_version b) config,
              install_script_filename h)
      else api_error "AGENT_DOWNLOAD_UNAVAILABLE" ("Local agent storage has no public download URL - set " +:+
             "OVC_PUBLIC_BASE_URL so the Hyper-V host can reach this API") 409
  end.
(** the URL, the one-liner and the expiry *)
Definition build_agent_install_url (h : Host) : M (string * string * datetime) :=
  b ← active_agent_binary (h_hypervisor h);
  match b with
  | None => no_active_binary h
  | Some _ =>
      cfg ← get_settings;
      base ← public_base;
      if negb (str_nonempty base) then
        api_error "AGENT_DOWNLOAD_UNAVAILABLE" ("Set OVC_PUBLIC_BASE_URL (the URL a Hyper-V host uses to reach this " +:+
          "API) to hand out an install-script URL") 409
      else
        let ttl := agent_install_url_ttl_seconds cfg in
        qs ← sign_scope ("host-install:" +:+ h_id h) ttl;
        let filename := install_script_filename h in
        let url := base +:+ api_prefix cfg +:+ "/hosts/" +:+ h_id h +:+ "/agent-install.ps1?" +:+ urlencode qs in
        now ← gets w_now;
        mret (url,
              "iwr '" +:+ url +:+ "' -OutFile " +:+ DQ +:+ "$env:TEMP\" +:+ filename +:+ DQ +:+ " -UseBasicParsing; & " +:+
              DQ +:+ "$env:TEMP\" +:+ filename +:+ DQ,
              utc (now + ttl * 1000000))
  end.
End install.

(** ** The broker URL round trip *)
Definition starts_slash (s : string) : bool := match s with String "/" _ => true | _ => false end.
(** C26: the broker URL handed to an agent carries its credentials intact.
    Whatever characters the host's RabbitMQ user and password hold, the URL
    built for it - on a configured endpoint with a lower-case scheme, a host
    and port without brackets and an absolute virtual-host path - splits back
    into exactly that endpoint and decodes to exactly that user, password and
    virtual host. *)
Theorem agent_url_roundtrip h w scheme netloc vhost user password :
  agent_endpoint (w_cfg w) = inl (scheme, netloc, String "/" vhost) →
  str_nonempty scheme = true → s_forallb is_lower scheme = true →
  s_forallb netloc_char netloc = true → s_forallb path_char vhost = true →
  h_agent_rmq_user h = Some user → h_agent_rmq_password h = Some password → user ≠ "" → password ≠ "" →
  ∃ url, agent_amqp_url h w = (Ok url, w) ∧
    urlsplit url = inl (mkSplit scheme (quote user +:+ ":" +:+ quote password +:+ "@" +:+ netloc) (String "/" vhost)) ∧
    amqp_parts url = inl (user, password, sor (unquote vhost) "/").
Proof.
  intros He Hne Hs Hn Hp Hu Hpw Une Pne. unfold agent_amqp_url. rewrite run_settings, He.
  unfold lift_py. rewrite run_ret. rewrite Hu, Hpw.
  exists (scheme +:+ "://" +:+ quote user +:+ ":" +:+ quote password +:+ "@" +:+ netloc +:+ String "/" vhost).
  split; [reflexivity|].
  destruct (urlsplit_glue scheme (quote user) (quote password) netloc vhost) as [Hsplit Hinfo];
    [done|done|apply quote_chars|apply quote_chars|done|done|].
  rewrite Hsplit. split; [done|]. unfold amqp_parts. rewrite Hsplit. cbn [mbind res_bind]. rewrite Hinfo.
  assert (∀ s, s ≠ "" → str_nonempty (quote s) = true) as Q.
  { intros s Hne'. apply quote_nonempty in Hne'. by destruct (quote s). }
  cbv beta iota delta [from_option id sp_path]. rewrite !Q by done. by rewrite !unquote_quote.
Qed.
Definition agent_host : Host :=
  mkHost "h1" "abc123" None "node-1" None None "hyperv" (Some "agent-abc123") (Some "p@ss:/w%rd#?") None None None None None.
Lemma agent_url_roundtrip_witness :
  ∃ url, agent_amqp_url agent_host sample_world = (Ok url, sample_world) ∧
    amqp_parts url = inl ("agent-abc123", "p@ss:/w%rd#?", "/").
Proof.
  destruct (agent_url_roundtrip agent_host sample_world "amqp" "localhost:5672" "" "agent-abc123" "p@ss:/w%rd#?")
    as (url & Hu & _ & Hp); try reflexivity; try discriminate.
  exists url. split; [exact Hu|exact Hp].
Defined.
(** An IPv6 broker address loses its brackets, and the URL its meaning. *)
Lemma ipv6_brackets_lost cfg :
  agent_rabbitmq_url cfg = "amqp://[fd00::5]:5672/" →
  agent_endpoint cfg = inl ("amqp", "fd00::5:5672", "/") ∧
  hostname (mkSplit "amqp" "u:p@fd00::5:5672" "/") = Some "fd00".
Proof. intros E. unfold agent_endpoint. rewrite E. split; reflexivity. Qed.

(** ** The here-string is sealed *)
Definition is_nl (c : ascii) : bool := Ascii.eqb c (ascii_of_N 10).
Definition nl_free (s : string) : bool := s_forallb (λ c, negb (is_nl c)) s.
(** the lines PowerShell reads *)
Definition ps_lines (s : string) : list string := split_on is_nl s EmptyString.
Lemma splitlines_nl_free s acc k : nl_free acc = true → Forall (λ l, nl_free l = true) (splitlines_from s acc k).
Proof.
  revert acc k. induction s as [|c s IH]; intros acc k Ha; cbn [splitlines_from].
  - destruct (str_nonempty acc); [by constructor|constructor].
  - destruct k as [|k]; [|by apply IH].
    destruct (break_length (String c s)) as [|k] eqn:E; [|constructor; [done|by apply IH]].
    apply IH. unfold nl_free. rewrite s_forallb_app. fold (nl_free acc). rewrite Ha. cbn.
    assert (is_nl c = false) as ->; [|done]. clear -E. by destruct c as [[] [] [] [] [] [] [] []].
Qed.
Lemma split_nl_free l acc : nl_free l = true → split_on is_nl l acc = [acc +:+ l].
Proof.
  revert acc. induction l as [|c l IH]; intros acc H; cbn; [by rewrite sapp_nil_r|].
  unfold nl_free in *. cbn [s_forallb] in H. apply andb_true_iff in H as [Hc H]. apply negb_true_iff in Hc.
  rewrite Hc, IH by done. f_equal. by rewrite sapp_assoc.
Qed.
Lemma split_nl l rest acc : nl_free l = true → split_on is_nl (l +:+ NL +:+ rest) acc = (acc +:+ l) :: ps_lines rest.
Proof.
  revert acc. induction l as [|c l IH]; intros acc H.
  - change (EmptyString +:+ NL +:+ rest) with (String (ascii_of_N 10) rest). cbn. by rewrite sapp_nil_r.
  - change (String c l +:+ NL +:+ rest) with (String c (l +:+ NL +:+ rest)). unfold nl_free in *. cbn [s_forallb split_on] in *.
    apply andb_true_iff in H as [Hc H]. apply negb_true_iff in Hc. rewrite Hc, IH by done. f_equal. by rewrite sapp_assoc.
Qed.
Lemma ps_lines_cons l rest : nl_free l = true → ps_lines (l +:+ NL +:+ rest) = l :: ps_lines rest.
Proof. intros H. unfold ps_lines. by rewrite split_nl. Qed.
Lemma ps_lines_join ls rest :
  Forall (λ l, nl_free l = true) ls → ls ≠ [] → ps_lines (join NL ls +:+ NL +:+ rest) = (ls ++ ps_lines rest)%list.
Proof.
  induction 1 as [|l ls Hl Hls IH]; [done|]. intros _. destruct ls as [|l' ls]; [by apply ps_lines_cons|].
  change (join NL (l :: l' :: ls)) with (l +:+ NL +:+ join NL (l' :: ls)). rewrite !sapp_assoc, ps_lines_cons by done.
  by rewrite IH.
Qed.
Lemma ps_lines_join_last ls : Forall (λ l, nl_free l = true) ls → ls ≠ [] → ps_lines (join NL ls) = ls.
Proof.
  induction 1 as [|l ls Hl Hls IH]; [done|]. intros _. destruct ls as [|l' ls].
  - cbn. unfold ps_lines. by rewrite split_nl_free.
  - change (join NL (l :: l' :: ls)) with (l +:+ NL +:+ join NL (l' :: ls)). rewrite ps_lines_cons by done. by rewrite IH.
Qed.
Lemma safe_line_ok l : nl_free l = true → nl_free (safe_line l) = true ∧ startswith "'@" (safe_line l) = false.
Proof. unfold safe_line. intros H. destruct (startswith "'@" l) eqn:E; [|done]. split; [exact H|done]. Qed.
(** [config_ini] cannot end the PowerShell literal that carries it: the lines
    between the opener and the terminator never start with the terminator *)
Lemma here_string_sealed body :
  ∃ ls, ps_lines (ps_here_string body) = ("@'" :: ls ++ ["'@"])%list ∧ Forall (λ l, startswith "'@" l = false) ls.
Proof.
  assert (Forall (λ l, nl_free l = true ∧ startswith "'@" l = false) (safe_line <$> splitlines body)) as F.
  { rewrite Forall_fmap. pose proof (splitlines_nl_free body EmptyString 0 eq_refl) as S.
    eapply Forall_impl; [exact S|]. intros l Hl. by apply safe_line_ok. }
  unfold ps_here_string, ps_body. rewrite ps_lines_cons by done.
  destruct (safe_line <$> splitlines body) as [|l ls] eqn:E.
  - exists [EmptyString]. split; [done|]. by repeat constructor.
  - apply Forall_and in F as [F1 F2]. exists (l :: ls). by rewrite ps_lines_join.
Qed.
(** A host name is not sealed: one with a line break - [create_host] only strips
    its ends - puts a line of its own into the script the operator runs
    elevated. *)
Lemma host_name_injects h payload url sum version config :
  nl_free payload = true →
  payload ∈ ps_lines (render_agent_install_script (h <| h_name := "node" +:+ NL +:+ payload +:+ NL +:+ "#" |>)
    url sum version config).
Proof.
  intros Hp. unfold render_agent_install_script, install_script_lines. change (h_name (h <| h_name := ?n |>)) with n.
  match goal with |- context [join NL (?a :: ?b :: ?c :: ?l4 :: ?l5 :: ?ls)] =>
    set (tail := join NL (l5 :: ls));
    change (join NL (a :: b :: c :: l4 :: l5 :: ls)) with (a +:+ NL +:+ b +:+ NL +:+ c +:+ NL +:+ l4 +:+ NL +:+ tail) end.
  rewrite !ps_lines_cons by done. do 3 apply list_elem_of_further.
  rewrite !sapp_assoc.
  match goal with |- context [?a +:+ "node" +:+ ?x] =>
    change (a +:+ "node" +:+ x) with ("# ovc-agent installer for host 'node" +:+ x) end.
  rewrite ps_lines_cons by done. apply list_elem_of_further. rewrite ps_lines_cons by done. apply list_elem_of_here.
Qed.
