(* ===== verification/Auth.v ===== *)
(** * Principals ([app/api/deps.py], [app/services/auth.py])

    Who is calling: the bearer token, the signing keys and their cache, the
    roles claim, and the user row provisioned on first sight. *)
From S2P Require Import Prelude Py Clock Model World Store.
From Stdlib Require Import Ascii.
Open Scope string_scope.
Open Scope Z_scope.

(** ** Tokens *)

(** the [authorization] header, "" when absent *)
Definition bearer_token (header : string) : option string :=
  if startswith "bearer " (lower header) then Some (strip (sdrop 7 header)) else None.

(** *** The JWKS cache: times in microseconds of the monotonic clock *)
Definition JWKS_MIN_REFRESH_SECONDS : Z := 60.
Record jwks_cache (doc : Type) := mkJwks { jw_at : Z; jw_doc : option doc }.
Arguments mkJwks {doc} jw_at jw_doc.
Arguments jw_at {doc} _.
Arguments jw_doc {doc} _.
(** [_get_jwks] up to its [await]: the cached document, or [None] when it has
    to be downloaded; [store_jwks] is the rest, once the provider has answered:
    the entry bears the time at which the download began *)
Definition get_jwks {doc} (ttl_seconds : Z) (force : bool) (now : Z) (c : jwks_cache doc) : option doc :=
  let age := now - jw_at c in
  let ttl := (if force then JWKS_MIN_REFRESH_SECONDS else ttl_seconds) * 1000000 in
  match jw_doc c with
  | Some d => if age <? ttl then Some d else None
  | None => None
  end.
Definition store_jwks {doc} (began : Z) (d : doc) : jwks_cache doc := mkJwks began (Some d).

(** *** The key of a token, found by checks that overlap *)
Section verify.
Context {doc key : Type}.
(** [PyJWKSet.from_dict]: the usable keys, or why there are none; [key_id] *)
Context (from_dict : doc → list key + string) (key_id : key → option string).
(** [oidc_jwks_ttl_seconds] *)
Context (ttl : Z).

Definition find_key (jwks : doc) (kid : option string) : option key + string :=
  match from_dict jwks with
  | inr msg => inr msg
  | inl keys =>
      inl match kid with
          | None => match keys with [k] => Some k | _ => None end
          | Some kid => first_such (λ k, bool_decide (key_id k = Some kid)) keys
          end
  end.

(** where a check is: it has its key, is refused (401), failed (an error of the
    provider is not caught) or waits for a download *)
Inductive verdict := FoundKey (k : key) | Refused (msg : string) | ProviderFailed | Waiting.
(** a download a check waits for: forced or not, when it began, the [kid] *)
Record checks := mkChecks { ck_cache : jwks_cache doc; ck_pending : gmap nat (bool * Z * option string) }.
Inductive jwks_event := DownloadStarted (t : Z) | DownloadStored (t : Z).
Definition download (i : nat) (force : bool) (kid : option string) (now : Z) (st : checks)
  : verdict * checks * list jwks_event :=
  (Waiting, mkChecks (ck_cache st) (<[i := (force, now, kid)]> (ck_pending st)), [DownloadStarted now]).
Definition verdict_of (found : option key + string) : verdict :=
  match found with
  | inl (Some k) => FoundKey k
  | inl None => Refused "Token signing key not found"
  | inr msg => Refused ("Invalid token: " +:+ msg)
  end.
(** the lookup in [_verify_oidc], by check [i] of a token that names [kid]: its
    second half, what it does with a document, its beginning, and the moment a
    download ends ([None]: with an error) *)
Definition refresh_and_find (i : nat) (kid : option string) (now : Z) (st : checks) : verdict * checks * list jwks_event :=
  match get_jwks ttl true now (ck_cache st) with
  | Some d => (verdict_of (find_key d kid), st, [])
  | None => download i true kid now st
  end.
Definition with_document (forced : bool) (i : nat) (kid : option string) (now : Z) (d : doc) (st : checks)
  : verdict * checks * list jwks_event :=
  match find_key d kid with
  | inl None => if forced then (verdict_of (inl None), st, []) else refresh_and_find i kid now st
  | found => (verdict_of found, st, [])
  end.
Definition begin_check (i : nat) (kid : option string) (now : Z) (st : checks) : verdict * checks * list jwks_event :=
  match get_jwks ttl false now (ck_cache st) with
  | Some d => with_document false i kid now d st
  | None => download i false kid now st
  end.
Definition end_download (i : nat) (answer : option doc) (now : Z) (st : checks)
  : option (verdict * checks * list jwks_event) :=
  match ck_pending st !! i with
  | None => None
  | Some (forced, began, kid) =>
      let pending := delete i (ck_pending st) in
      Some match answer with
           | None => (ProviderFailed, mkChecks (ck_cache st) pending, [])
           | Some d =>
               let '(v, st, log) := with_document forced i kid now d (mkChecks (store_jwks began d) pending) in
               (v, st, DownloadStored now :: log)
           end
  end.
End verify.
Arguments checks doc : clear implicits.
Arguments verdict key : clear implicits.

(** ** Claims *)
Fixpoint claim_at (node : json) (path : list string) : json :=
  match path with
  | [] => node
  | part :: rest => match node with JObj d => claim_at (dget d part) rest | _ => JNull end
  end.
Definition claim_by_path (claims : dict) (path : string) : json := claim_at (JObj claims) (split_char "."%char path).
(** [s.replace(old, new)] for a non-empty [old]: [skip] characters of a match
    are still to be dropped *)
Fixpoint replace_from (old new s : string) (skip : nat) : string :=
  match s with
  | "" => ""
  | String c s' =>
      match skip with
      | S k => replace_from old new s' k
      | O => if startswith old s then new +:+ replace_from old new s' (String.length old - 1)
             else String c (replace_from old new s' 0)
      end
  end.
Definition replace (old new s : string) : string := replace_from old new s 0.
(** [s.split()] *)
Definition split_ws (s : string) : list string := List.filter str_nonempty (split_on py_space s "").
Definition token_roles (claims : dict) : M (list string) :=
  cfg ← get_settings;
  repr ← gets w_repr;
  match claim_by_path claims (replace "${client_id}" (oidc_client_id cfg) (oidc_roles_claim cfg)) with
  | JList l => mret (py_str repr <$> l)
  | JStr s => mret (split_ws s)
  | _ => mret []
  end.

(** ** Users *)
Definition lookup_user (email : string) : M (option User) :=
  found ← query (λ d, rows (λ u, String.eqb (u_email u) email) (users d));
  match found with [] => mret None | [u] => mret (Some u) | _ => raise EMultiple end.
Definition put_user (u : User) : M unit := exec (λ d, d <| users ::= <[u_id u := u]> |>).
Definition put_grant (g : ScopeGrant) : M unit := exec (λ d, d <| grants ::= <[g_id g := g]> |>).
(** a new row: the primary key and [users.email] are unique *)
Definition add_user (u : User) : M unit :=
  taken ← query (λ d, rows (λ o, String.eqb (u_email o) (u_email u)) (users d));
  match taken with [] => add_row users (u_id u) (put_user u) | _ => raise EIntegrity end.
(** [user_level_scope]: a NULL scope id equals no other *)
Definition same_grant (a b : ScopeGrant) : bool :=
  String.eqb (g_user_id a) (g_user_id b) && String.eqb (g_level a) (g_level b) &&
  match g_scope_id a, g_scope_id b with Some x, Some y => String.eqb x y | _, _ => false end.
Definition add_grant (g : ScopeGrant) : M unit :=
  taken ← query (λ d, rows (same_grant g) (grants d));
  match taken with [] => add_row grants (g_id g) (put_grant g) | _ => raise EIntegrity end.
(** [try: m except IntegrityError: h] *)
Definition catch_integrity {A} (m h : M A) : M A := λ w,
  match m w with (Raise EIntegrity, w') => h w' | r => r end.
Definition grants_of (user_id : string) : M (list ScopeGrant) :=
  query (λ d, rows (λ g, String.eqb (g_user_id g) user_id) (grants d)).

(** [display_name or email.split("@")[0]] *)
Definition display_of (display_name : json) (email : string) : json :=
  if truthy display_name then display_name else JStr (hd "" (split_char "@"%char email)).
(** [",".join(roles) if roles else None] *)
Definition roles_column (roles : option (list string)) : json :=
  match roles with Some ((_ :: _) as rs) => JStr (join "," rs) | _ => JNull end.

Section provision.
(** what concurrent transactions commit between a lookup and the insert *)
Context (race : database → database).

Definition get_or_create_user (email : string) (display_name : json) (roles : option (list string)) (grant_global : bool)
  : M User :=
  found ← lookup_user email;
  user ← match found with
         | Some u => mret (Some u)
         | None =>
             exec race;;
             id ← new_id;
             catch_integrity
               (savepoint
                  (email' ← col_str 255 (JStr email) ≫= not_null;
                   name ← col_str 255 (display_of display_name email);
                   roles' ← col_str 512 (roles_column roles);
                   let u := mkUser id email' name true roles' in
                   add_user u;; mret (Some u)))
               (lookup_user email)
         end;
  match user with
  | None => raise ERuntime
  | Some user =>
      user ← match roles with
             | Some rs =>
                 r ← col_str 512 (JStr (join "," rs));
                 let user := mkUser (u_id user) (u_email user) (u_display_name user) (u_is_active user) r in
                 put_user user;; mret user
             | None => mret user
             end;
      (if grant_global then
         gs ← grants_of (u_id user);
         if existsb (λ g, String.eqb (g_level g) "global") gs then mret tt
         else
           exec race;;
           id ← new_id;
           catch_integrity (savepoint (add_grant (mkScopeGrant id (u_id user) "global" None))) (mret tt)
       else mret tt);;
      mret user
  end.
Definition resolve_stub_user : M User :=
  cfg ← get_settings;
  get_or_create_user (stub_user_email cfg) JNull (Some [admin_role cfg]) true.

(** ** The caller *)
(** [verify]: the claims of a token, or the reason it is refused *)
Definition get_current_user (verify : string → dict + string) (header : string) : M User :=
  cfg ← get_settings;
  if String.eqb (auth_mode cfg) "stub" then resolve_stub_user
  else
    match bearer_token header with
    | Some token =>
        if str_nonempty token then
          match verify token with
          | inr msg => unauthorized msg
          | inl claims =>
              email ← (if truthy (dget claims "email") then mret (dget claims "email")
                       else if dmem claims "sub" then mret (dget claims "sub") else raise (EPy KeyError));
              match email with
              | JStr email =>
                  roles ← token_roles claims;
                  get_or_create_user email (dget claims "name") (Some roles) false
              | _ => raise EData
              end
          end
        else unauthorized "Authentication required"
    | None => unauthorized "Authentication required"
    end.
End provision.

(** ** Downloads of the signing keys *)
Section jwks.
Context {doc key : Type} (from_dict : doc → list key + string) (key_id : key → option string).
(** the cache lifetime, and how long a download may take, error or not *)
Context (ttl limit : Z).
#[local] Abbreviation begin_check := (begin_check from_dict key_id ttl).
#[local] Abbreviation end_download := (end_download from_dict key_id ttl).

(** the process: checks begin and downloads end in any order; the log is in
    the order of the events *)
Inductive key_run : Z → checks doc → list jwks_event → Prop :=
  | run_start t : key_run t (mkChecks (mkJwks 0 None) ∅) []
  | run_wait t t' st log : key_run t st log → t ≤ t' →
      (∀ i f began kid, ck_pending st !! i = Some (f, began, kid) → t' ≤ began + limit) → key_run t' st log
  | run_check t st log i kid v st' ev : key_run t st log → ck_pending st !! i = None →
      begin_check i kid t st = (v, st', ev) → key_run t st' (log ++ ev)%list
  | run_end t st log i answer v st' ev : key_run t st log →
      end_download i answer t st = Some (v, st', ev) → key_run t st' (log ++ ev)%list.

Definition min_gap : Z := Z.min JWKS_MIN_REFRESH_SECONDS ttl * 1000000.
(** what a stored document promises while its successors come in *)
Definition guarded (t : Z) (st : checks doc) (log : list jwks_event) : Prop :=
  (∀ i f began kid, ck_pending st !! i = Some (f, began, kid) → t - limit ≤ began ≤ t) ∧
  (∀ m, DownloadStored m ∈ log → m ≤ t ∧ is_Some (jw_doc (ck_cache st)) ∧ m - limit ≤ jw_at (ck_cache st)).
Definition spaced (log : list jwks_event) : Prop :=
  ∀ l1 m l2 b l3, log = (l1 ++ DownloadStored m :: l2 ++ DownloadStarted b :: l3)%list → m + min_gap - limit ≤ b.
Lemma spaced_snoc log e :
  spaced log → (∀ m b, DownloadStored m ∈ log → e = DownloadStarted b → m + min_gap - limit ≤ b) →
  spaced (log ++ [e])%list.
Proof.
  intros Hs He l1 m l2 b l3 E. destruct l3 as [|x l3 _] using rev_ind.
  - change (l1 ++ DownloadStored m :: l2 ++ [DownloadStarted b])%list
      with (l1 ++ (DownloadStored m :: l2) ++ [DownloadStarted b])%list in E.
    rewrite app_assoc in E. apply app_inj_tail in E as [-> ->]. apply (He m b); [|done].
    apply elem_of_app. right. left.
  - replace (l1 ++ DownloadStored m :: l2 ++ DownloadStarted b :: l3 ++ [x])%list
      with ((l1 ++ DownloadStored m :: l2 ++ DownloadStarted b :: l3) ++ [x])%list in E
      by (rewrite <- app_assoc; cbn; by rewrite <- app_assoc).
    apply app_inj_tail in E as [-> _]. by eapply Hs.
Qed.
(** a check, or what is left of it, starts at most one download, and only when
    no young document is cached *)
Definition waits_or_ends (i : nat) (now : Z) (st st' : checks doc) (ev : list jwks_event) : Prop :=
  (st' = st ∧ ev = []) ∨
  (∃ f kid, st' = mkChecks (ck_cache st) (<[i := (f, now, kid)]> (ck_pending st)) ∧ ev = [DownloadStarted now] ∧
     (is_Some (jw_doc (ck_cache st)) → jw_at (ck_cache st) + min_gap ≤ now)).
Lemma get_jwks_none force now (c : jwks_cache doc) :
  get_jwks ttl force now c = None → is_Some (jw_doc c) → jw_at c + min_gap ≤ now.
Proof.
  unfold get_jwks, min_gap. intros H [d Hd]. rewrite Hd in H. destruct (Z.ltb_spec (now - jw_at c) ((if force then JWKS_MIN_REFRESH_SECONDS else ttl) * 1000000)); [done|].
  destruct force; lia.
Qed.
Lemma refresh_step i kid now st v st' ev :
  refresh_and_find from_dict key_id ttl i kid now st = (v, st', ev) → waits_or_ends i now st st' ev.
Proof.
  unfold refresh_and_find. destruct (get_jwks ttl true now (ck_cache st)) eqn:E; intros [= <- <- <-]; [by left|].
  right. exists true, kid. split; [done|]. split; [done|]. by apply (get_jwks_none true).
Qed.
Lemma document_step f i kid now d st v st' ev :
  with_document from_dict key_id ttl f i kid now d st = (v, st', ev) → waits_or_ends i now st st' ev.
Proof.
  unfold with_document. destruct (find_key from_dict key_id d kid) as [[k|]|msg]; [intros [= <- <- <-]; by left| |intros [= <- <- <-]; by left].
  destruct f; [intros [= <- <- <-]; by left|apply refresh_step].
Qed.
Lemma check_step i kid now st v st' ev : begin_check i kid now st = (v, st', ev) → waits_or_ends i now st st' ev.
Proof.
  unfold Auth.begin_check. destruct (get_jwks ttl false now (ck_cache st)) eqn:E; [apply document_step|].
  intros [= <- <- <-]. right. exists false, kid. split; [done|]. split; [done|]. by apply (get_jwks_none false).
Qed.
Lemma guarded_step i t st st' log ev :
  0 ≤ limit → guarded t st log → spaced log → waits_or_ends i t st st' ev →
  guarded t st' (log ++ ev)%list ∧ spaced (log ++ ev)%list.
Proof.
  intros Hl [Hp Hm] Hs [[-> ->]|(f & kid & -> & -> & Hgap)]; [by rewrite app_nil_r|].
  split.
  - split; cbn.
    + intros j g began k. rewrite lookup_insert_Some. intros [[_ [= _ <- _]]|[_ H]]; [lia|by eapply Hp].
    + intros m [H|[=]%list_elem_of_singleton]%elem_of_app. by apply Hm.
  - apply spaced_snoc; [done|]. intros m b H [= <-]. destruct (Hm m H) as (_ & Hd & Hat). specialize (Hgap Hd). lia.
Qed.
Lemma key_run_guarded t st log : 0 ≤ limit → key_run t st log → guarded t st log ∧ spaced log.
Proof.
  intros Hl. induction 1 as [t|t t' st log Hr [[Hp Hm] Hs] Ht Hd|t st log i kid v st' ev Hr [Hg Hs] Hi Hc|t st log i answer v st' ev Hr [Hg Hs] He].
  - split; [split|].
    + intros i f b k. cbn. by rewrite lookup_empty.
    + intros m H. by apply not_elem_of_nil in H.
    + intros l1 m l2 b l3 E. by apply (f_equal length) in E; rewrite length_app in E; cbn in E; lia.
  - split; [|done]. split.
    + intros i f b k H. specialize (Hp i f b k H). specialize (Hd i f b k H). lia.
    + intros m H. destruct (Hm m H) as (? & ? & ?). split; [lia|done].
  - by eapply guarded_step, check_step.
  - unfold Auth.end_download in He. destruct (ck_pending st !! i) as [[[f began] kid]|] eqn:Ei; [|done].
    destruct Hg as [Hp Hm]. pose proof (Hp i f began kid Ei) as Hb. destruct answer as [d|].
    + destruct (with_document _ _ _ _ _ _ _ _ _) as [[v1 st1] ev1] eqn:Ed. injection He as <- <- <-.
      apply document_step in Ed. change (DownloadStored t :: ev1) with ([DownloadStored t] ++ ev1)%list.
      rewrite app_assoc. eapply guarded_step; [done| | |exact Ed].
      * split; cbn.
        -- intros j g b k. rewrite lookup_delete_Some. intros [_ H]. by eapply Hp.
        -- intros m [H|H%list_elem_of_singleton]%elem_of_app.
           ++ destruct (Hm m H) as (? & _ & _). split; [done|]. split; [by eexists|]. lia.
           ++ injection H as ->. split; [done|]. split; [by eexists|]. lia.
      * apply spaced_snoc; [done|]. by intros m b _ [=].
    + injection He as <- <- <-. rewrite app_nil_r. split; [|done]. split; cbn; [|done].
      intros j g b k. rewrite lookup_delete_Some. intros [_ H]. by eapply Hp.
Qed.
End jwks.

(** C25: a stored key set spares the identity provider, and rotated keys are
    picked up.  Let checks of any tokens - whatever key ids they name, known,
    rotated or bogus - begin and overlap in any way, with a provider that
    answers, late, wrongly or not at all, within [limit] microseconds.  Once a
    download has stored a document, at [m], no download starts for a minute (or
    the cache lifetime, if shorter) from the moment that document may have been
    asked for, [m - limit].  And a token that names a key the cached document
    does not have starts a download as soon as that document is a minute old,
    and is verified with the key of that id once it is in the answer. *)
Theorem jwks_downloads_spaced {doc key} (from_dict : doc → list key + string) key_id ttl limit t st log :
  0 ≤ limit → key_run from_dict key_id ttl limit t st log →
  (∀ l1 m l2 b l3, log = (l1 ++ DownloadStored m :: l2 ++ DownloadStarted b :: l3)%list →
     m + Z.min JWKS_MIN_REFRESH_SECONDS ttl * 1000000 - limit ≤ b) ∧
  (∀ i kid d keys, jw_doc (ck_cache st) = Some d → from_dict d = inl keys → (∀ k, k ∈ keys → key_id k ≠ Some kid) →
     jw_at (ck_cache st) + JWKS_MIN_REFRESH_SECONDS * 1000000 ≤ t →
     ∃ st1, begin_check from_dict key_id ttl i (Some kid) t st = (Waiting, st1, [DownloadStarted t]) ∧
     ∀ t2 d2 keys2 k, from_dict d2 = inl keys2 → k ∈ keys2 → key_id k = Some kid →
     ∃ k' st2, end_download from_dict key_id ttl i (Some d2) t2 st1 = Some (FoundKey k', st2, [DownloadStored t2]) ∧
       k' ∈ keys2 ∧ key_id k' = Some kid ∧ ck_cache st2 = mkJwks t (Some d2)).
Proof.
  intros Hl Hr. split; [by apply (key_run_guarded from_dict key_id ttl limit t st log)|].
  intros i kid d keys Hd Hk Hno Hage.
  assert (find_key from_dict key_id d (Some kid) = inl None) as Hf.
  { unfold find_key. rewrite Hk. f_equal. apply first_such_None. intros k Hin. by apply bool_decide_eq_false, Hno. }
  assert (∃ f, begin_check from_dict key_id ttl i (Some kid) t st = download i f (Some kid) t st) as [f Hb].
  { unfold begin_check, with_document, refresh_and_find, get_jwks. rewrite Hd.
    assert (t - jw_at (ck_cache st) <? JWKS_MIN_REFRESH_SECONDS * 1000000 = false) as Hno2 by (apply Z.ltb_ge; lia).
    destruct (_ <? ttl * 1000000); [|by exists false]. rewrite Hf, Hno2. by exists true. }
  rewrite Hb. eexists. split; [reflexivity|]. intros t2 d2 keys2 k Hk2 Hin Hid.
  destruct (first_such (λ k, bool_decide (key_id k = Some kid)) keys2) as [k'|] eqn:Hf2.
  2: { apply first_such_None with (x := k) in Hf2; [|done]. by apply bool_decide_eq_false in Hf2. }
  pose proof (first_such_Some _ _ _ Hf2) as [Hin2 Hid2]. apply bool_decide_eq_true in Hid2.
  unfold end_download, ck_pending. rewrite lookup_insert_eq. unfold with_document, find_key. rewrite Hk2, Hf2.
  do 2 eexists. split; [reflexivity|]. done.
Qed.
(** an example: the set of a provider that rotates its key after the first token *)
Definition key_set (l : list string) : list string + string :=
  match l with [] => inr "The JWK Set did not contain any keys" | _ => inl l end.
#[local] Abbreviation some_run := (key_run key_set (λ k, Some k) 3600 5000000).
Definition rotated : checks (list string) := mkChecks (mkJwks 1 (Some ["k1"])) ∅.
Lemma rotation_run : some_run 61000000 rotated [DownloadStarted 1; DownloadStored 2000001].
Proof.
  assert (some_run 1 (mkChecks (mkJwks 0 None) {[0%nat := (false, 1, Some "k1")]}) [DownloadStarted 1]) as H1.
  { eapply (run_check _ _ _ _ 1 _ [] 0%nat (Some "k1")); [apply run_start|reflexivity|reflexivity]. }
  eapply (run_wait _ _ _ _ _ 2000001) in H1; [|lia|].
  2: { intros i f b k H. cbn in H. apply lookup_singleton_Some in H as [_ [= _ <- _]]. lia. }
  assert (some_run 2000001 (mkChecks (mkJwks 1 (Some ["k1"])) ∅) [DownloadStarted 1; DownloadStored 2000001]) as H2.
  { eapply (run_end _ _ _ _ _ _ [DownloadStarted 1] 0%nat (Some ["k1"])); [exact H1|vm_compute; reflexivity]. }
  eapply (run_wait _ _ _ _ _ 61000000) in H2; [|lia|].
  2: { intros i f b k H. cbn in H. by rewrite lookup_empty in H. }
  exact H2.
Qed.
Lemma jwks_downloads_spaced_witness : ∃ st1 st2,
  begin_check key_set (λ k, Some k) 3600 1 (Some "k2") 61000000 rotated = (Waiting, st1, [DownloadStarted 61000000]) ∧
  end_download key_set (λ k, Some k) 3600 1 (Some ["k1"; "k2"]) 61500000 st1 =
    Some (FoundKey "k2", st2, [DownloadStored 61500000]) ∧
  2000001 + 60 * 1000000 - 5000000 ≤ 61000000.
Proof.
  destruct (jwks_downloads_spaced key_set (λ k, Some k) 3600 5000000 61000000 rotated _ ltac:(lia) rotation_run) as [_ Hrot].
  destruct (Hrot 1%nat "k2" ["k1"] ["k1"]) as (st1 & Hb & Hend); [reflexivity|reflexivity| |vm_compute; discriminate|].
  { intros k ->%list_elem_of_singleton. discriminate. }
  destruct (Hend 61500000 ["k1"; "k2"] ["k1"; "k2"] "k2") as (k' & st2 & He & _ & [= ->] & _);
    [reflexivity|right; left|reflexivity|].
  assert (some_run 61000000 st1 ([DownloadStarted 1; DownloadStored 2000001] ++ [DownloadStarted 61000000])%list) as Hr1.
  { eapply run_check; [exact rotation_run|reflexivity|exact Hb]. }
  destruct (jwks_downloads_spaced key_set (λ k, Some k) 3600 5000000 61000000 st1 _ ltac:(lia) Hr1) as [Hsp _].
  exists st1, st2. split; [exact Hb|]. split; [exact He|].
  apply (Hsp [DownloadStarted 1] 2000001 [] 61000000 []). reflexivity.
Defined.

(** ** What the floor does not cover *)
Section uncovered.
Context {doc key : Type} (from_dict : doc → list key + string) (key_id : key → option string) (ttl limit : Z).
#[local] Abbreviation run := (key_run from_dict key_id ttl limit).
(** Nothing stored, nothing spared: while the provider fails, every token is a
    download - the time of a failed one is not kept. *)
Lemma failing_provider_hammered n t :
  run t (mkChecks (mkJwks 0 None) ∅) (repeat (DownloadStarted t) n).
Proof using Type.
  induction n as [|n IH]; [apply run_start|].
  set (st := mkChecks (mkJwks 0 None) {[0%nat := (false, t, None)]} : checks doc).
  assert (run t st (repeat (DownloadStarted t) n ++ [DownloadStarted t])%list) as H1.
  { eapply (run_check _ _ _ _ t _ _ 0%nat None Waiting); [exact IH|apply lookup_empty|reflexivity]. }
  rewrite <- repeat_cons in H1. rewrite <- (app_nil_r (repeat _ (S n))).
  eapply (run_end _ _ _ _ t st _ 0%nat None ProviderFailed); [exact H1|].
  unfold end_download, st, ck_pending. rewrite lookup_singleton_eq. cbn. by rewrite delete_singleton_eq.
Qed.
(** Checks that find the cache empty together each download the set. *)
Lemma concurrent_checks_download n t : ∃ st,
  run t st (repeat (DownloadStarted t) n) ∧ ck_cache st = mkJwks 0 None ∧
  ∀ i, (n ≤ i)%nat → ck_pending st !! i = None.
Proof using Type.
  induction n as [|n (st & Hr & Hc & Hp)].
  - exists (mkChecks (mkJwks 0 None) ∅). split; [apply run_start|]. split; [done|]. intros i _. apply lookup_empty.
  - exists (mkChecks (ck_cache st) (<[n := (false, t, None)]> (ck_pending st))). split; [|split; [done|]].
    + change (repeat (DownloadStarted t) (S n)) with (DownloadStarted t :: repeat (DownloadStarted t) n).
      rewrite repeat_cons. eapply (run_check _ _ _ _ t st _ n None Waiting); [exact Hr|by apply Hp|].
      unfold begin_check, get_jwks, download. rewrite Hc. reflexivity.
    + intros i Hi. cbn. rewrite lookup_insert_ne by lia. apply Hp. lia.
Qed.
(** An answer that is no key set is kept for the whole lifetime: [from_dict]
    raises before the refresh for an unknown key is tried, so every token is
    refused until the entry expires, although the provider may have recovered
    at once. *)
Lemma error_answer_locks_out d msg c p i kid now :
  from_dict d = inr msg → jw_doc c = Some d → now - jw_at c < ttl * 1000000 →
  begin_check from_dict key_id ttl i kid now (mkChecks c p) =
    (Refused ("Invalid token: " +:+ msg), mkChecks c p, []).
Proof using Type.
  intros Hd Hc Ht. unfold begin_check, with_document, get_jwks, find_key. cbn [ck_cache]. rewrite Hc.
  assert (now - jw_at c <? ttl * 1000000 = true) as -> by (by apply Z.ltb_lt). by rewrite Hd.
Qed.
End uncovered.

(** ** Provisioning *)
Record users_ok (d : database) : Prop := {
  us_key k u : users d !! k = Some u → u_id u = k;
  us_email k k' u u' : users d !! k = Some u → users d !! k' = Some u' → u_email u = u_email u' → k = k'
}.
Lemma lookup_user_run email w :
  users_ok (w_db w) →
  (∃ k u, users (w_db w) !! k = Some u ∧ u_email u = email ∧ lookup_user email w = (Ok (Some u), w)) ∨
  ((∀ k u, users (w_db w) !! k = Some u → u_email u ≠ email) ∧ lookup_user email w = (Ok None, w)).
Proof.
  intros U. unfold lookup_user. rewrite run_query. destruct (rows _ _) as [|u l] eqn:E.
  - right. split; [|done]. intros k u Hu Ee. apply rows_nil with (k := k) (x := u) in E; [|done].
    by apply String.eqb_neq in E.
  - left. assert (u ∈ rows (λ u, String.eqb (u_email u) email) (users (w_db w))) as (k & Hk & Ek)%elem_of_rows
      by (rewrite E; apply list_elem_of_here).
    rewrite (rows_unique _ _ k u Hk Ek) in E.
    + injection E as <-. exists k, u. split_and!; try done. by apply String.eqb_eq.
    + intros k' u' Hk' Ek'. eapply (us_email _ U); eauto. apply String.eqb_eq in Ek, Ek'. congruence.
Qed.
Lemma put_user_ok d u :
  users_ok d → (∀ k o, users d !! k = Some o → u_email o = u_email u → k = u_id u) →
  users_ok (d <| users ::= <[u_id u := u]> |>).
Proof.
  intros U Hu. split; cbn; intros *; rewrite ?lookup_insert_Some.
  - intros [[? ?]|[_ H]]; [congruence|by eapply us_key].
  - intros [[<- <-]|[N H]] [[<- <-]|[N' H']] E; [done| | |by eapply (us_email d U)].
    + symmetry. by eapply Hu.
    + by eapply Hu.
Qed.
(** a transaction that commits in between adds users and keeps the constraints *)
Definition fair_race (race : database → database) : Prop :=
  ∀ d, users_ok d → users_ok (race d) ∧ ∀ k u, users d !! k = Some u → users (race d) !! k = Some u.

Definition fits_column (n : nat) (v : json) : Prop :=
  match v with JNull => True | JStr s => (String.length s ≤ n)%nat | _ => False end.
Lemma col_str_fits n v w : fits_column n v → ∃ o, col_str n v w = (Ok o, w) ∧ (o = match v with JStr s => Some s | _ => None end).
Proof. unfold col_str. destruct v; try done; cbn; [by eexists|]. intros H%Nat.leb_le. rewrite H. by eexists. Qed.
(** inserting a user: the row, or the one that got there first *)
Lemma insert_user race email dn roles w :
  fair_race race → users_ok (w_db w) → (String.length email ≤ 255)%nat → fits_column 255 (display_of dn email) →
  fits_column 512 (roles_column roles) → users (race (w_db w)) !! w_uuid4 w (w_seq w) = None →
  ∃ u w', (exec race;;
        id ← new_id;
        catch_integrity
          (savepoint
             (email' ← col_str 255 (JStr email) ≫= not_null;
              name ← col_str 255 (display_of dn email);
              roles' ← col_str 512 (roles_column roles);
              let u := mkUser id email' name true roles' in
              add_user u;; mret (Some u)))
          (lookup_user email)) w = (Ok (Some u), w') ∧
    users_ok (w_db w') ∧ users (w_db w') !! u_id u = Some u ∧ u_email u = email.
Proof.
  intros Hrace U He Hdn Hro Hfree. rewrite run_exec, run_new_id. set (w1 := _ <| w_seq ::= S |>).
  destruct (Hrace (w_db w) U) as [U1 _]. change (race (w_db w)) with (w_db w1) in U1, Hfree.
  destruct (col_str_fits 255 _ w1 Hdn) as (name & Hname & _). destruct (col_str_fits 512 _ w1 Hro) as (roles' & Hroles & _).
  set (u := mkUser (w_uuid4 w (w_seq w)) email name true roles').
  unfold catch_integrity, savepoint.
  assert ((col_str 255 (JStr email) ≫= not_null) w1 = (Ok email, w1)) as H1.
  { unfold col_str. apply Nat.leb_le in He. by rewrite He. }
  rewrite (run_ok _ _ _ _ _ H1), (run_ok _ _ _ _ _ Hname), (run_ok _ _ _ _ _ Hroles). cbv zeta. fold u.
  unfold add_user. rewrite run_assoc, run_query. destruct (rows _ _) as [|o l] eqn:E.
  - unfold put_user. unfold mbind at 1, M_bind at 1. rewrite add_row_run by done. cbn.
    exists u. eexists. split; [reflexivity|]. split; [|split; [cbn; by rewrite lookup_insert_eq|done]].
    apply (put_user_ok (w_db w1) u U1). intros k x Hx Ex. apply rows_nil with (k := k) (x := x) in E; [|done].
    apply String.eqb_neq in E. done.
  - change (raise EIntegrity ≫= _) with (raise (A := option User) EIntegrity). unfold raise. cbv beta iota.
    destruct (lookup_user_run email w1 U1) as [(k & x & Hk & Ex & Hl)|[Hno _]].
    + replace (w1 <| w_db := w_db w1 |>) with w1 by (by destruct w1). rewrite Hl. exists x, w1.
      split_and!; try done. by rewrite (us_key _ U1 k x Hk).
    + exfalso. assert (o ∈ o :: l) as Hin by apply list_elem_of_here. rewrite <- E in Hin.
      apply elem_of_rows in Hin as (k & Hk & Ek). apply (Hno k o Hk). by apply String.eqb_eq in Ek.
Qed.
(** C24: one row per e-mail.  Provisioning the caller of a token - with any
    concurrent transactions committing users in between, the same user
    included - succeeds and returns the row that holds the e-mail, with the
    roles of this token; e-mails stay unique; and a later request for the same
    e-mail, whatever its roles, gets the same row. *)
Theorem provisioning_unique race email dn roles w :
  fair_race race → users_ok (w_db w) → (String.length email ≤ 255)%nat → fits_column 255 (display_of dn email) →
  (String.length (join "," roles) ≤ 512)%nat → users (race (w_db w)) !! w_uuid4 w (w_seq w) = None →
  ∃ u w', get_or_create_user race email dn (Some roles) false w = (Ok u, w') ∧
    users_ok (w_db w') ∧ users (w_db w') !! u_id u = Some u ∧ u_email u = email ∧ u_roles u = Some (join "," roles) ∧
    ∀ race' dn' roles', (String.length (join "," roles') ≤ 512)%nat →
      ∃ u' w2, get_or_create_user race' email dn' (Some roles') false w' = (Ok u', w2) ∧ u_id u' = u_id u ∧
        u_roles u' = Some (join "," roles').
Proof.
  intros Hrace U He Hdn Hro Hfree.
  (* once the row is there *)
  assert (∀ race' dn' rs w1 u, users_ok (w_db w1) → users (w_db w1) !! u_id u = Some u → u_email u = email →
    (String.length (join "," rs) ≤ 512)%nat →
    (get_or_create_user race' email dn' (Some rs) false w1 =
      let u' := mkUser (u_id u) (u_email u) (u_display_name u) (u_is_active u) (Some (join "," rs)) in
      (Ok u', w1 <| w_db ::= λ d, d <| users ::= <[u_id u' := u']> |> |>))) as Hlater.
  { intros race' dn' rs w1 u U1 Hu Eu L. unfold get_or_create_user.
    destruct (lookup_user_run email w1 U1) as [(k & x & Hk & Ex & Hl)|[Hno _]]; [|by destruct (Hno _ _ Hu)].
    assert (x = u) as ->.
    { assert (k = u_id u) as E by (eapply (us_email _ U1); eauto; congruence). rewrite E in Hk. congruence. }
    rewrite (run_ok _ _ _ _ _ Hl), run_ret. rewrite run_assoc. unfold col_str. apply Nat.leb_le in L. by rewrite L. }
  assert (∀ w1 u, users_ok (w_db w1) → users (w_db w1) !! u_id u = Some u → u_email u = email →
    let u' := mkUser (u_id u) (u_email u) (u_display_name u) (u_is_active u) (Some (join "," roles)) in
    let w2 := w1 <| w_db ::= λ d, d <| users ::= <[u_id u' := u']> |> |> in
    users_ok (w_db w2) ∧ users (w_db w2) !! u_id u' = Some u') as Hput.
  { intros w1 u U1 Hu Eu u' w2. split; [|cbn; by rewrite lookup_insert_eq]. apply (put_user_ok (w_db w1) u' U1).
    intros k o Ho Eo. eapply (us_email _ U1); eauto. }
  destruct (lookup_user_run email w U) as [(k & u & Hk & Eu & Hl)|[Hno Hl]].
  - assert (users (w_db w) !! u_id u = Some u) as Hu by (by rewrite (us_key _ U k u Hk)).
    destruct (Hput w u U Hu Eu) as [U2 Hu2]. do 2 eexists. split; [by apply (Hlater race dn roles w u)|].
    split; [exact U2|]. split; [exact Hu2|]. split; [done|]. split; [done|]. intros race' dn' rs L.
    do 2 eexists. split; [exact (Hlater race' dn' rs _ _ U2 Hu2 Eu L)|]. done.
  - destruct (insert_user race email dn (Some roles) w) as (u & w1 & Hins & U1 & Hu & Eu); try done.
    { clear -Hro. destruct roles as [|r roles]; [done|exact Hro]. }
    destruct (Hput w1 u U1 Hu Eu) as [U2 Hu2].
    exists (mkUser (u_id u) (u_email u) (u_display_name u) (u_is_active u) (Some (join "," roles))). eexists. split.
    { unfold get_or_create_user. rewrite (run_ok _ _ _ _ _ Hl), (run_ok _ _ _ _ _ Hins). rewrite run_assoc.
      unfold col_str. apply Nat.leb_le in Hro. rewrite Hro. reflexivity. }
    split; [exact U2|]. split; [exact Hu2|]. split; [done|]. split; [done|]. intros race' dn' rs L.
    do 2 eexists. split; [exact (Hlater race' dn' rs _ _ U2 Hu2 Eu L)|]. done.
Qed.
(** another request for the same user commits in between *)
Definition rival (d : database) : database :=
  match rows (λ o, String.eqb (u_email o) "ops@example.org") (users d), users d !! "other" with
  | [], None => d <| users ::= <["other" := mkUser "other" "ops@example.org" (Some "ops") true None]> |>
  | _, _ => d
  end.
Lemma rival_fair : fair_race rival.
Proof.
  intros d U. unfold rival. destruct (rows _ _) eqn:E; [|done]. destruct (users d !! "other") eqn:Eo; [done|]. split.
  - apply (put_user_ok d (mkUser "other" "ops@example.org" (Some "ops") true None) U). intros k o Ho Ee.
    apply rows_nil with (k := k) (x := o) in E; [|done]. by apply String.eqb_neq in E.
  - intros k u Hk. cbn. rewrite lookup_insert_ne; [done|congruence].
Qed.
Lemma provisioning_unique_witness :
  ∃ u w', get_or_create_user rival "ops@example.org" JNull (Some ["VIEWER"]) false sample_world = (Ok u, w') ∧
    u_id u = "other" ∧ u_roles u = Some "VIEWER" ∧ users_ok (w_db w').
Proof.
  destruct (provisioning_unique rival "ops@example.org" JNull ["VIEWER"] sample_world)
    as (u & w' & Hr & U & _ & _ & Hroles & _).
  - exact rival_fair.
  - split; intros *; cbn; rewrite lookup_empty; done.
  - vm_compute. lia.
  - vm_compute. lia.
  - vm_compute. lia.
  - reflexivity.
  - exists u, w'. split; [exact Hr|]. split; [|split; [exact Hroles|exact U]].
    assert ((get_or_create_user rival "ops@example.org" JNull (Some ["VIEWER"]) false sample_world).1 =
      Ok (mkUser "other" "ops@example.org" (Some "ops") true (Some "VIEWER"))) as E by (vm_compute; reflexivity).
    rewrite Hr in E. injection E as ->. reflexivity.
Defined.

(** A global grant has no scope id, and NULLs never collide: of two concurrent
    first requests of the stub user each adds its own grant. *)
Definition rival_grant (d : database) : database :=
  match rows (λ g, String.eqb (g_id g) "g-other") (grants d), rows (λ _, true) (users d) with
  | [], [u] => d <| grants ::= <["g-other" := mkScopeGrant "g-other" (u_id u) "global" None]> |>
  | _, _ => d
  end.
Lemma global_grant_duplicated :
  (λ g, (g_level g, g_scope_id g)) <$> rows (λ _, true) (grants (w_db (resolve_stub_user rival_grant sample_world).2)) =
    [("global", None); ("global", None)].
Proof. vm_compute. reflexivity. Qed.
