(* ===== verification/Inventory.v ===== *)
(** * Agent reports into the database ([app/services/inventory.py])

    The status, inventory and metrics handlers: each takes the reporting host
    and the decoded payload, inside the session the worker opened.  A value its
    column rejects raises when it is assigned (the session raises at the next
    flush; either way the whole message is rolled back). *)
From S2P Require Import Prelude Py Clock Model World Store Cache AuditLog Normalize.
From Stdlib Require Import Floats.SpecFloat.
Open Scope string_scope.
Open Scope Z_scope.

(** ** [agent_status] *)
Definition parse_dt_or_now (v : json) : M datetime :=
  repr ← gets w_repr; now ← now_utc; mret (default now (parse_dt repr v)).
(** an assignment guarded by [if (x := ...)] *)
Definition if_truthy {A} (v : json) (old : A) (set : json → M A) : M A :=
  if truthy v then set v else mret old.

Definition apply_agent_status (host_id : string) (payload : dict) : M unit :=
  h ← get_host host_id;
  match h with
  | None => mret tt
  | Some h =>
      let get := dget payload in
      version ← col_str 64 (get "version");
      refresh_vm ← col_int 32 (py_or (get "vm_refresh_interval") (get "vmRefreshInterval"));
      refresh_host ← col_int 32 (py_or (get "host_refresh_interval") (get "hostRefreshInterval"));
      hypervisor ← if_truthy (get "hypervisor") (h_hypervisor h)
        (λ v, s ← col_str 32 v; not_null s);
      fqdn ← if_truthy (py_or (get "fqdn") (get "hostname")) (h_fqdn h) (col_str 255);
      ip ← if_truthy (py_or (py_or (get "ip") (get "ipAddress")) (get "primaryIp"))
             (h_ip_address h) (col_str 64);
      seen ← parse_dt_or_now (get "reported_at");
      put_host (h <| h_agent_version := version |> <| h_agent_refresh_vm := refresh_vm |>
                  <| h_agent_refresh_host := refresh_host |> <| h_hypervisor := hypervisor |>
                  <| h_fqdn := fqdn |> <| h_ip_address := ip |> <| h_agent_last_seen := Some seen |>)
  end.

(** ** VM rows *)
Definition upsert_thumbnails (thumbs : list (string * string)) (captured_at : datetime) : M unit :=
  exec (λ d, d <| thumbnails ::= λ m, foldl (λ m '(vm_id, image),
    <[vm_id := mkVmThumbnail vm_id image "image/jpeg" captured_at]> m) m thumbs |>).

Definition inventory_scope_host_ids (h : Host) : M (list string) :=
  match h_cluster_id h with
  | None => mret [h_id h]
  | Some c => query (λ d, h_id <$> rows (λ h', bool_decide (h_cluster_id h' = Some c)) (hosts d))
  end.

(** [d.get(k) or None] into a text column *)
Definition opt_str (width : nat) (v : json) : M (option string) := col_str width (or_none v).
Definition str_or_empty (width : nat) (v : json) : M string :=
  s ← col_str width (py_or v (JStr "")); not_null s.
(** the elements of [enumerate(v)], each with a [get] *)
Definition items_of (v : json) : M (list (nat * dict)) :=
  l ← lift_py (py_iter v);
  ds ← map_each (λ x, match x with JObj d => mret d | _ => raise (EPy AttributeError) end) l;
  mret (enumerate ds).
Definition sync_disks (disks : json) : M (list VmDisk) :=
  l ← items_of disks;
  map_each (λ '(i, d),
    disk_id ← opt_str 128 (dget d "id");
    path ← opt_str 1024 (dget d "path");
    controller ← opt_str 64 (dget d "controller");
    size ← lift_py (as_int (dget d "sizeBytes")) ≫= wide 64;
    used ← lift_py (as_int (dget d "usedBytes")) ≫= wide 64;
    type ← opt_str 32 (dget d "type");
    format ← opt_str 16 (dget d "format");
    mret (mkVmDisk i disk_id path controller size used type format)) l.
Definition sync_nics (nics : json) : M (list VmNic) :=
  l ← items_of nics;
  map_each (λ '(i, n),
    nic_id ← opt_str 128 (dget n "id");
    name ← str_or_empty 255 (dget n "name");
    switch ← opt_str 255 (dget n "switchName");
    vlan ← col_int 32 (default JNull (access_vlan (dget n "vlanId")));
    mac ← opt_str 64 (dget n "macAddress");
    ips ← lift_py (py_iter (py_or (dget n "ipAddresses") (JList [])));
    mret (mkVmNic i nic_id name switch vlan mac ips (truthy (dget_or n "connected" (JBool true))))) l.
Definition sync_snapshots (snapshots : json) : M (list VmSnapshot) :=
  repr ← gets w_repr;
  l ← items_of snapshots;
  map_each (λ '(i, s),
    id ← str_or_empty 128 (dget s "id");
    name ← str_or_empty 255 (dget s "name");
    parent ← opt_str 128 (dget s "parentId");
    type ← opt_str 32 (dget s "type");
    mret (mkVmSnapshot i id name parent type (parse_dt repr (dget s "createdAt")))) l.

(** [setattr(vm, column, v)] for the columns of the table *)
Definition set_uptime_sec (v : json) (vm : Vm) : M Vm :=
  x ← col_int 32 v; mret (vm <| v_uptime_sec := x |>).
Definition set_memory_bytes (v : json) (vm : Vm) : M Vm :=
  x ← col_int 64 v; z ← not_null x; mret (vm <| v_memory_bytes := z |>).
Definition set_memory_min_bytes (v : json) (vm : Vm) : M Vm :=
  x ← col_int 64 v; mret (vm <| v_memory_min_bytes := x |>).
Definition set_memory_max_bytes (v : json) (vm : Vm) : M Vm :=
  x ← col_int 64 v; mret (vm <| v_memory_max_bytes := x |>).
Definition set_memory_demand_bytes (v : json) (vm : Vm) : M Vm :=
  x ← col_int 64 v; mret (vm <| v_memory_demand_bytes := x |>).
Definition set_cpu_usage_percent (v : json) (vm : Vm) : M Vm :=
  match v with
  | JNull => mret (vm <| v_cpu_usage_percent := None |>)
  | JFloat f => mret (vm <| v_cpu_usage_percent := Some f |>)
  | _ => raise EData
  end.
Definition set_secure_boot (v : json) (vm : Vm) : M Vm :=
  x ← col_bool v; mret (vm <| v_secure_boot := x |>).
Definition set_secure_boot_template (v : json) (vm : Vm) : M Vm :=
  x ← col_str 64 v; mret (vm <| v_secure_boot_template := x |>).
Definition set_auto_start_action (v : json) (vm : Vm) : M Vm :=
  x ← col_str 32 v; mret (vm <| v_auto_start_action := x |>).
Definition set_auto_start_delay_sec (v : json) (vm : Vm) : M Vm :=
  x ← col_int 32 v; mret (vm <| v_auto_start_delay_sec := x |>).
Definition set_auto_stop_action (v : json) (vm : Vm) : M Vm :=
  x ← col_str 32 v; mret (vm <| v_auto_stop_action := x |>).
Definition set_config_path (v : json) (vm : Vm) : M Vm :=
  x ← col_str 1024 v; mret (vm <| v_config_path := x |>).
Definition set_dvd_path (v : json) (vm : Vm) : M Vm :=
  x ← col_str 1024 v; mret (vm <| v_dvd_path := x |>).
Definition set_notes (v : json) (vm : Vm) : M Vm :=
  x ← col_text v; mret (vm <| v_notes := x |>).
(** column, key of the normalized item, raw keys that signal it *)
Definition VM_SCALAR_FIELDS : list ((json → Vm → M Vm) * string * list string) :=
  [(set_uptime_sec, "uptimeSec", ["uptimeSec"]);
   (set_memory_bytes, "memoryBytes", ["memoryBytes"; "memoryMb"; "memoryMB"; "memory"]);
   (set_memory_min_bytes, "memoryMinBytes", ["memoryMinBytes"; "memory"]);
   (set_memory_max_bytes, "memoryMaxBytes", ["memoryMaxBytes"; "memory"]);
   (set_memory_demand_bytes, "memoryDemandBytes", ["memoryDemandBytes"; "memoryConsumedMb"]);
   (set_cpu_usage_percent, "cpuUsagePercent", ["cpuUsagePercent"; "cpuUsagePct"]);
   (set_secure_boot, "secureBoot", ["secureBoot"]);
   (set_secure_boot_template, "secureBootTemplate", ["secureBootTemplate"]);
   (set_auto_start_action, "autoStartAction", ["autoStartAction"; "automaticStart"]);
   (set_auto_start_delay_sec, "autoStartDelaySec", ["autoStartDelaySec"; "automaticStartDelay"]);
   (set_auto_stop_action, "autoStopAction", ["autoStopAction"; "automaticStop"]);
   (set_config_path, "configPath", ["configPath"; "path"]);
   (set_dvd_path, "dvdPath", ["dvdPath"; "dvd"]);
   (set_notes, "notes", ["notes"])].

(** a text column of a row's own: not null *)
Definition req_str (width : nat) (v : json) : M string := s ← col_str width v; not_null s.
(** [guest_os.strip()[:255]] when that is not blank *)
Definition guest_os_of (item : dict) (old : option string) : option string :=
  match dget item "guestOs" with
  | JStr s => if str_nonempty (strip s) then Some (stake 255 (strip s)) else old
  | _ => old
  end.
Definition write_name (partial has : bool) (item : dict) (vm : Vm) : M string :=
  if has && truthy (dget item "name") then req_str 255 (dget item "name")
  else if negb partial then
    req_str 255 (py_or (py_or (dget item "name") (JStr (v_name vm)))
                  (match v_vm_uuid vm with Some u => JStr u | None => JNull end))
  else mret (v_name vm).
Definition write_state (partial has : bool) (item : dict) (vm : Vm) : M string :=
  if has then
    req_str 16 (py_or (dget item "state") (JStr (if partial then v_state vm else "Unknown")))
  else mret (v_state vm).
(** the normalised firmware is never empty *)
Definition write_firmware (partial has : bool) (item : dict) (vm : Vm) : M string :=
  if has && truthy (dget item "firmware") then req_str 8 (dget item "firmware")
  else if negb partial then req_str 8 (py_or (dget item "firmware") (JStr "UEFI"))
  else mret (v_firmware vm).
Definition write_vcpu (partial has : bool) (item : dict) (vm : Vm) : M Z :=
  if has then
    n ← lift_py (py_int (py_or (py_or (dget item "vcpu")
                           (if partial then JInt (v_vcpu vm) else JInt 1)) (JInt 1)));
    x ← wide 32 (Some n); not_null x
  else mret (v_vcpu vm).
Definition write_flag (has : bool) (v : json) (old : bool) : bool := if has then truthy v else old.

Definition write_vm_row (vm : Vm) (raw item : dict) (host_id : string) (cluster_id : option string)
    (partial : bool) : M Vm :=
  let has keys := negb partial || existsb (dmem raw) keys in
  let vm := vm <| v_host_id := host_id |> <| v_cluster_id := cluster_id |> in
  name ← write_name partial (has ["name"]) item vm;
  state ← write_state partial (has ["state"; "powerState"]) item vm;
  let metrics := if is_null (dget raw "metricsEnabled") then v_metrics_enabled vm
                 else truthy (dget item "metricsEnabled") in
  firmware ← write_firmware partial (has ["firmware"; "generation"]) item vm;
  vcpu ← write_vcpu partial (has ["vcpu"; "cpu"]) item vm;
  let vm := vm <| v_name := name |> <| v_state := state |> <| v_metrics_enabled := metrics |>
               <| v_guest_os := guest_os_of item (v_guest_os vm) |>
               <| v_firmware := firmware |> <| v_vcpu := vcpu |>
               <| v_memory_dynamic :=
                    write_flag (has ["memoryDynamic"; "memory"]) (dget item "memoryDynamic") (v_memory_dynamic vm) |>
               <| v_nested_virtualization :=
                    write_flag (has ["nestedVirtualization"; "nested"]) (dget item "nestedVirtualization")
                      (v_nested_virtualization vm) |>
               <| v_highly_available :=
                    write_flag (has ["highlyAvailable"; "ha"]) (dget item "highlyAvailable") (v_highly_available vm) |> in
  vm ← fold_each VM_SCALAR_FIELDS vm (λ vm '(setattr, item_key, raw_keys),
         if has raw_keys then setattr (dget item item_key) vm else mret vm);
  repr ← gets w_repr;
  let created := if has ["createdAt"; "creationTime"] && truthy (dget item "createdAt")
                 then parse_dt repr (dget item "createdAt") else v_created_at vm in
  disks ← (if has ["disks"; "vhds"] then sync_disks (dget item "disks") else mret (v_disks vm));
  nics ← (if has ["nics"] then sync_nics (dget item "nics") else mret (v_nics vm));
  snapshots ← (if has ["snapshots"] then sync_snapshots (dget item "snapshots") else mret (v_snapshots vm));
  now ← now_utc;
  mret (vm <| v_created_at := created |> <| v_disks := disks |> <| v_nics := nics |>
           <| v_snapshots := snapshots |> <| v_last_inventory_at := Some now |>).

(** ** [vm_inventory] *)
Definition delete_in_flight (vm_id : string) : M bool :=
  query (λ d, match rows (λ k, String.eqb (k_target_id k) vm_id && String.eqb (k_kind k) "vm_delete"
                          && bool_decide (k_status k ∈ ["queued"; "running"])) (tasks d) with
              | [] => false | _ => true end).

(** a row the inventory inserts: everything but its keys still unset *)
Definition fresh_vm (id host_id vm_uuid : string) (now : Z) : Vm :=
  mkVm id (Some vm_uuid) host_id None None "" "Unknown" "UEFI" None None 1 0 None None false None
    None None None false None None None None None false false None None None [] [] [].

(** a Python dict keyed by strings *)
Fixpoint aset {A} (l : list (string * A)) (k : string) (v : A) : list (string * A) :=
  match l with
  | [] => [(k, v)]
  | (k', v') :: l' => if String.eqb k k' then (k, v) :: l' else (k', v') :: aset l' k v
  end.

Record inv_state := mkInv {
  in_existing : list (string * string);     (* GUID -> vm id *)
  in_seen : gset string;
  in_thumbs : list (string * string)        (* vm id -> image *)
}.
Definition existing_vms (scope : list string) (d : database) : list (string * string) :=
  foldl (λ acc v, match v_vm_uuid v with Some u => aset acc u (v_id v) | None => acc end) []
    (rows (λ v, bool_decide (v_host_id v ∈ scope) && is_some (v_vm_uuid v)) (vms d)).

(** one item of the snapshot; a GUID that is not a string cannot be stored *)
Definition inventory_guid (item : dict) : M (option string) :=
  match dget item "vmUuid" with
  | JStr "" => mret None
  | JStr u => if (String.length u <=? 64)%nat then mret (Some u) else raise EData
  | v => if truthy v then raise EData else mret None
  end.
Definition inventory_item (h : Host) (tombstoned : gset string) (st : inv_state) (raw : json)
    : M inv_state :=
  match raw with
  | JObj raw =>
      repr ← gets w_repr;
      let '(thumbnail, raw) := pop_thumbnail raw in
      item ← lift_py (normalize_vm repr raw);
      guid ← inventory_guid item;
      match guid with
      | None => mret st
      | Some u =>
          let known := assoc (in_existing st) u in
          if negb (is_some known) && bool_decide (u ∈ tombstoned) then mret st
          else
            found ← match known with Some id => get_vm id | None => mret None end;
            vm ← match found with
                 | Some vm => mret vm
                 | None => id ← new_id; now ← gets w_now; mret (fresh_vm id (h_id h) u now)
                 end;
            vm ← write_vm_row vm raw item (h_id h) (h_cluster_id h) false;
            set_vm_state (v_id vm) (v_state vm);;
            put_vm vm;;
            mret (mkInv (aset (in_existing st) u (v_id vm)) ({[u]} ∪ in_seen st)
                    match thumbnail with
                    | Some image => aset (in_thumbs st) (v_id vm) image
                    | None => in_thumbs st
                    end)
      end
  | _ => raise (EPy AttributeError)
  end.
(** a row this host owned and no longer reports *)
Definition remove_unreported (host_id : string) (seen : gset string) (vm_id : string) : M unit :=
  found ← get_vm vm_id;
  match found with
  | Some vm =>
      if String.eqb (v_host_id vm) host_id && negb (bool_decide (default "" (v_vm_uuid vm) ∈ seen)) then
        in_flight ← delete_in_flight vm_id;
        (if (in_flight : bool) then mret tt
         else record None "vm.inventory_remove" (Some (TVm vm)) None None
                (Some [("reason", JStr "no longer reported by its host agent")]);; mret tt);;
        clear_vm_state vm_id;;
        exec (delete_vms (λ v, String.eqb (v_id v) vm_id))
      else mret tt
  | None => mret tt
  end.
Definition apply_vm_inventory (host_id : string) (payload : dict) : M unit :=
  h ← get_host host_id;
  match h with
  | None => mret tt
  | Some h =>
      scope ← inventory_scope_host_ids h;
      existing ← query (existing_vms scope);
      tombstoned ← list_deleted_vm_uuids host_id;
      items ← lift_py (py_iter (dget_or payload "vms" (JList [])));
      st ← fold_each items (mkInv existing ∅ []) (inventory_item h tombstoned);
      for_each ((in_existing st).*2) (remove_unreported host_id (in_seen st));;
      for_each (elements (tombstoned ∖ in_seen st)) (clear_vm_deleted host_id);;
      match in_thumbs st with
      | [] => mret tt
      | thumbs => at_ ← parse_dt_or_now (dget payload "reported_at"); upsert_thumbnails thumbs at_
      end
  end.

(** ** [host_inventory], metrics *)
Definition apply_host_inventory (host_id : string) (payload : dict) : M unit :=
  h ← get_host host_id;
  match h with
  | None => mret tt
  | Some h =>
      let raw := if dmem payload "hardware" then dget payload "hardware" else JObj payload in
      normalized ← lift_py (normalize_hardware raw);
      match normalized with
      | None => mret tt
      | Some hw => put_host (h <| h_hardware := Some hw |>)
      end
  end.

Definition metrics_cutoff : M Z :=
  gets (λ w, w_now w - seconds (metrics_retention_seconds (w_cfg w))).
Definition apply_host_metrics (host_id : string) (payload : dict) : M unit :=
  h ← get_host host_id;
  match h with
  | None => mret tt
  | Some _ =>
      let get := dget payload in
      ts ← parse_dt_or_now (py_or (get "reportedAt") (get "reported_at"));
      cpu ← lift_py (as_float (get "cpuPercent"));
      mem ← lift_py (as_float (get "memPercent"));
      lat ← lift_py (as_float (get "diskLatencyMs"));
      rx ← lift_py (as_int (get "netRxBps")) ≫= wide 64;
      tx ← lift_py (as_int (get "netTxBps")) ≫= wide 64;
      exec (λ d, d <| host_metrics ::= λ l, (l ++ [mkHostMetric host_id ts cpu mem lat rx tx payload])%list |>);;
      cutoff ← metrics_cutoff;
      exec (λ d, d <| host_metrics ::= List.filter (λ m,
        negb (String.eqb (hm_host_id m) host_id && (instant (hm_ts m) <? cutoff))) |>)
  end.
(** metered VMs of the host by (non-empty) GUID *)
Definition metered_vms (host_id : string) (d : database) : list (string * string) :=
  foldl (λ acc v, match v_vm_uuid v with
                  | Some u => if str_nonempty u then aset acc u (v_id v) else acc
                  | None => acc
                  end) []
    (rows (λ v, String.eqb (v_host_id v) host_id && v_metrics_enabled v) (vms d)).
Definition vm_metric_item (by_uuid : list (string * string)) (ts : datetime) (v : json) : M unit :=
  match v with
  | JObj item =>
      let get := dget item in
      match py_or (get "id") (get "vmId") with
      | JList _ | JObj _ => raise (EPy TypeError)
      | guid =>
          match json_str guid ≫= assoc by_uuid with
          | None => mret tt
          | Some vm_id =>
              cpu ← lift_py (as_float (get "cpuPercent"));
              mem ← lift_py (as_int (get "memBytes")) ≫= wide 64;
              disk ← lift_py (as_int (get "diskBytes")) ≫= wide 64;
              rx ← lift_py (as_int (get "netRxBytes")) ≫= wide 64;
              tx ← lift_py (as_int (get "netTxBytes")) ≫= wide 64;
              exec (λ d, d <| vm_metrics ::= λ l, (l ++ [mkVmMetric vm_id ts cpu mem disk rx tx item])%list |>)
          end
      end
  | _ => raise (EPy AttributeError)
  end.
Definition apply_vm_metrics (host_id : string) (payload : dict) : M unit :=
  ts ← parse_dt_or_now (py_or (dget payload "reportedAt") (dget payload "reported_at"));
  by_uuid ← query (metered_vms host_id);
  items ← lift_py (py_iter (dget_or payload "vms" (JList [])));
  for_each items (vm_metric_item by_uuid ts);;
  cutoff ← metrics_cutoff;
  exec (λ d, d <| vm_metrics ::= List.filter (λ m,
    negb ((instant (vm_ts m) <? cutoff) &&
          match vms d !! vm_vm_id m with
          | Some v => String.eqb (v_host_id v) host_id
          | None => false
          end)) |>).

(** ** Templates and ISOs *)

(** the row of one item; ids are text primary keys of at most 64 characters *)
Definition template_row (id : string) (host_id : string) (f : template_fields) : M Template :=
  name ← req_str 255 (tf_name f);
  path ← req_str 1024 (tf_path f);
  size ← wide 64 (Some (tf_size_bytes f)) ≫= not_null;
  disk ← wide 64 (Some (tf_disk_size_bytes f)) ≫= not_null;
  notes ← col_text (tf_notes f);
  cpus ← wide 32 (Some (tf_cpu_count f)) ≫= not_null;
  mem ← wide 64 (Some (tf_memory_mb f)) ≫= not_null;
  os ← col_str 255 (tf_guest_os f);
  mret (mkTemplate id host_id name path size disk notes cpus mem os (tf_image_created_at f)).
(** [item.get("id") or new_id()] *)
Definition template_id (item : dict) : M string :=
  if truthy (dget item "id") then req_str 64 (dget item "id") else new_id.
Definition host_exists (host_id : string) : M unit :=
  h ← get_host host_id; match h with Some _ => mret tt | None => raise EIntegrity end.
Definition upsert_template (host_id : string) (item : dict) : M unit :=
  tid ← template_id item;
  repr ← gets w_repr;
  fields ← lift_py (template_row_fields repr item);
  row ← template_row tid host_id fields;
  host_exists host_id;;
  exec (λ d, d <| templates ::= <[tid := row]> |>).
Definition add_template (host_id : string) (v : json) : M unit :=
  match v with
  | JObj item =>
      tid ← template_id item;
      repr ← gets w_repr;
      fields ← lift_py (template_row_fields repr item);
      row ← template_row tid host_id fields;
      host_exists host_id;;
      taken ← query (λ d, is_some (templates d !! tid));
      if (taken : bool) then raise EIntegrity
      else exec (λ d, d <| templates ::= <[tid := row]> |>)
  | _ => raise (EPy AttributeError)
  end.
Definition apply_template_inventory (host_id : string) (payload : dict) : M unit :=
  exec (λ d, d <| templates ::= keep (λ t, negb (String.eqb (t_host_id t) host_id)) |>);;
  items ← lift_py (py_iter (dget_or payload "items" (JList [])));
  for_each items (add_template host_id).
Definition add_iso (host_id : string) (v : json) : M unit :=
  match v with
  | JObj item =>
      id ← new_id;
      name ← req_str 255 (dget_or item "name" (JStr ""));
      path ← req_str 1024 (dget_or item "path" (JStr ""));
      size ← lift_py (py_int (dget_or item "sizeBytes" (JInt 0)));
      size ← wide 64 (Some size) ≫= not_null;
      checksum ← opt_str 64 (dget item "checksum");
      host_exists host_id;;
      exec (λ d, d <| isos ::= <[id := mkIso id host_id name path size checksum]> |>)
  | _ => raise (EPy AttributeError)
  end.
Definition apply_iso_inventory (host_id : string) (payload : dict) : M unit :=
  exec (λ d, d <| isos ::= keep (λ i, negb (String.eqb (i_host_id i) host_id)) |>);;
  items ← lift_py (py_iter (dget_or payload "items" (JList [])));
  for_each items (add_iso host_id).

(** ** Frames: inventory messages publish nothing and never move the clock *)
Lemma same_parse_dt_or_now {B} (f : world → B) v : keeps (same f) (parse_dt_or_now v).
Proof. unfold parse_dt_or_now. keep. Qed.
Lemma same_req_str {B} (f : world → B) n v : keeps (same f) (req_str n v).
Proof. unfold req_str. keep. Qed.
Lemma same_opt_str {B} (f : world → B) n v : keeps (same f) (opt_str n v).
Proof. unfold opt_str. keep. Qed.
Lemma same_str_or_empty {B} (f : world → B) n v : keeps (same f) (str_or_empty n v).
Proof. unfold str_or_empty. keep. Qed.
#[export] Hint Resolve same_parse_dt_or_now same_req_str same_opt_str same_str_or_empty : frame.
Lemma same_items_of {B} (f : world → B) v : keeps (same f) (items_of v).
Proof. unfold items_of. keep. Qed.
#[export] Hint Resolve same_items_of : frame.
Lemma same_sync_disks {B} (f : world → B) v : keeps (same f) (sync_disks v).
Proof. unfold sync_disks. keep. Qed.
Lemma same_sync_nics {B} (f : world → B) v : keeps (same f) (sync_nics v).
Proof. unfold sync_nics. keep. Qed.
Lemma same_sync_snapshots {B} (f : world → B) v : keeps (same f) (sync_snapshots v).
Proof. unfold sync_snapshots. keep. Qed.
#[export] Hint Resolve same_sync_disks same_sync_nics same_sync_snapshots : frame.
(** every setter of the table is a computation on the row *)
Lemma same_setattr {B} (f : world → B) x v vm :
  x ∈ VM_SCALAR_FIELDS → keeps (same f) (x.1.1 v vm).
Proof.
  unfold VM_SCALAR_FIELDS. rewrite !elem_of_cons, elem_of_nil.
  intros Hx. repeat destruct Hx as [->|Hx]; [..|done]; cbn;
    unfold set_uptime_sec, set_memory_bytes, set_memory_min_bytes, set_memory_max_bytes,
      set_memory_demand_bytes, set_cpu_usage_percent, set_secure_boot, set_secure_boot_template,
      set_auto_start_action, set_auto_start_delay_sec, set_auto_stop_action, set_config_path,
      set_dvd_path, set_notes; keep.
Qed.
(** writing a row is a computation on the row: the world is only read *)
Lemma same_write_vm_row {B} (f : world → B) vm raw item h c p :
  keeps (same f) (write_vm_row vm raw item h c p).
Proof.
  unfold write_vm_row, write_name, write_state, write_firmware, write_vcpu. cbv zeta. keep.
  match goal with H : ?y ∈ VM_SCALAR_FIELDS |- _ => by apply (same_setattr f y) end.
Qed.
#[export] Hint Resolve same_write_vm_row : frame.

(** ** What writing a row keeps *)

(** identity and placement by the application *)
Definition vm_keys (v : Vm) : string * option string * option string :=
  (v_id v, v_vm_uuid v, v_folder_id v).
Definition vm_home (v : Vm) : string * option string := (v_host_id v, v_cluster_id v).

Lemma setattr_keys x v vm w vm' w' :
  x ∈ VM_SCALAR_FIELDS → x.1.1 v vm w = (Ok vm', w') → vm_keys vm' = vm_keys vm ∧ vm_home vm' = vm_home vm.
Proof.
  unfold VM_SCALAR_FIELDS. rewrite !elem_of_cons, elem_of_nil. intros Hx.
  repeat destruct Hx as [->|Hx]; [..|done]; cbn [fst];
    unfold set_uptime_sec, set_memory_bytes, set_memory_min_bytes, set_memory_max_bytes,
      set_memory_demand_bytes, set_cpu_usage_percent, set_secure_boot, set_secure_boot_template,
      set_auto_start_action, set_auto_start_delay_sec, set_auto_stop_action, set_config_path,
      set_dvd_path, set_notes; intros H;
    repeat match type of H with
    | (match ?x with _ => _ end) _ = _ => destruct x
    | (_ ≫= _) _ = _ => apply bind_inv in H as (? & ? & _ & H)
    | mret _ _ = _ => apply ret_inv in H as [<- <-]
    | raise _ _ = _ => discriminate H
    end; done.
Qed.
Lemma write_vm_row_keys vm raw item h c p w vm' w' :
  write_vm_row vm raw item h c p w = (Ok vm', w') →
  w' = w ∧ vm_keys vm' = vm_keys vm ∧ vm_home vm' = (h, c).
Proof.
  intros H. split.
  { pose proof (same_write_vm_row (λ w, w) vm raw item h c p w) as Hs. unfold same in Hs.
    by rewrite H in Hs. }
  unfold write_vm_row in H. cbv zeta in H.
  do 4 (apply bind_inv in H as (? & ? & _ & H)).
  apply bind_inv in H as (vm1 & w1 & Hf & H).
  apply (fold_each_inv _ (λ _ v _, vm_keys v = vm_keys vm ∧ vm_home v = (h, c))) in Hf as [Hk Hh].
  - do 5 (apply bind_inv in H as (? & ? & _ & H)). apply ret_inv in H as [<- _]. done.
  - intros _ [[setattr k] raws] v w2 v' w2' Hin [Hk Hh]. match goal with |- (if ?b then _ else _) _ = _ → _ => destruct b end.
    + intros [H1 H2]%(setattr_keys (setattr, k, raws)); [by rewrite H1, H2|done].
    + by intros [<- <-]%ret_inv.
  - done.
Qed.
