(* ===== verification/Reports.v ===== *)
(** * From the agent's report to the row

    The typed reading of [vm_inventory]: what [normalize_vm] and [_write_vm_row]
    ([app/services/inventory.py]) do, together, to an item that reports a given
    machine, in either of the spellings the code accepts. *)
From S2P Require Import Prelude Py Clock Isoformat Model World Store Normalize Inventory Floats.
From Stdlib Require Import Floats.SpecFloat Ascii.
Open Scope string_scope.
Open Scope Z_scope.

(** ** Values *)
Definition of_str (o : option string) : json := match o with Some s => JStr s | None => JNull end.
Definition of_bool (o : option bool) : json := match o with Some b => JBool b | None => JNull end.
Definition of_date (o : option datetime) : json := match o with Some d => JStr (isoformat d) | None => JNull end.
(** a text of at most [n] characters, not empty; an integer a float holds *)
Definition text_ok (n : nat) (s : string) : Prop := s ≠ "" ∧ (String.length s ≤ n)%nat.
Definition opt_text_ok (n : nat) (o : option string) : Prop := match o with Some s => text_ok n s | None => True end.
Definition opt_width_ok (n : nat) (o : option string) : Prop :=
  match o with Some s => (String.length s ≤ n)%nat | None => True end.
Definition exact (z : Z) : Prop := 0 ≤ z < 2 ^ 53.
Definition opt_ok (P : Z → Prop) (o : option Z) : Prop := match o with Some z => P z | None => True end.
Definition whole (unit_ z : Z) : Prop := ∃ k, z = k * unit_ ∧ exact k ∧ exact z.

Lemma as_int_exact z : exact z → as_int (JInt z) = inl (Some z).
Proof.
  intros H. unfold as_int, py_float. pose proof (round_float z H) as E.
  destruct (float_of_Z z) as [f|e]; cbn [mbind res_bind] in *; [|done]. by rewrite E.
Qed.
Lemma as_int_of o : opt_ok exact o → as_int (of_int o) = inl o.
Proof. destruct o as [z|]; [apply as_int_exact|done]. Qed.
Lemma scaled_exact k j : exact k → 0 ≤ j ≤ 60 → scaled (JInt k) (2 ^ j) = inl (k * 2 ^ j).
Proof. intros H Hj. exact (round_scaled k j H Hj). Qed.
Lemma mib_exact z : whole MIB z → mib_to_bytes (JInt (z / MIB)) = inl (Some z).
Proof.
  intros (k & -> & Hk & _). rewrite Z.div_mul by done. unfold mib_to_bytes.
  assert (scaled (JInt k) MIB = inl (k * MIB)) as -> by (apply (scaled_exact k 20); [done|lia]). done.
Qed.
Lemma gib_exact z : whole GIB z → scaled (JInt (z / GIB)) GIB = inl z.
Proof.
  intros (k & -> & Hk & _). rewrite Z.div_mul by done. apply (scaled_exact k 30); [done|lia].
Qed.
Lemma exact_fits z : exact z → fits 64 z = true.
Proof. unfold exact, fits. intros H. apply andb_true_iff. rewrite Z.leb_le, Z.ltb_lt. lia. Qed.

(** dates: the text [isoformat] writes is read back *)
Lemma replace_Z_id s : has_char "Z"%char s = false → replace_Z s = s.
Proof.
  unfold has_char. induction s as [|c s IH]; [done|]. cbn. destruct (Ascii.eqb c "Z"%char); [done|].
  cbn. intros H. by rewrite IH.
Qed.
Lemma isoformat_no_Z d : datetime_ok d = true → has_char "Z"%char (isoformat d) = false.
Proof.
  intros H. unfold datetime_ok in H. apply andb_true_iff in H as [H Ho]. apply andb_true_iff in H as [H1 H2].
  apply Z.leb_le in H1. apply Z.ltb_lt in H2. unfold isoformat. rewrite !has_char_app.
  assert (∀ k z, 0 ≤ z < 10 ^ Z.of_nat k → has_char "Z"%char (pad k z) = false) as Hpad.
  { intros k z Hz. apply has_char_none; [by apply pad_clock_char|done]. }
  assert (has_char "Z"%char (date_text (dt_us d / days 1)) = false) as ->.
  { unfold date_text. pose proof (date_of_days_spec (dt_us d / days 1)) as Hs.
    destruct (date_of_days _) as [[y m] dd]. rewrite !has_char_app.
    destruct Hs as (? & ? & ? & ?).
    { split; [apply Z.div_le_lower_bound; unfold days, seconds in *; lia|apply Z.div_lt_upper_bound; unfold days, seconds in *; lia]. }
    rewrite !Hpad; [done|..]; cbn; lia. }
  assert (∀ b us, 0 ≤ us < days 1 → has_char "Z"%char (clock_text b us) = false) as Hclock.
  { intros b us Hus. apply has_char_none; [by apply clock_text_chars|done]. }
  rewrite Hclock by (apply Z.mod_pos_bound; done). cbn.
  unfold offset_text. destruct (dt_off d) as [o|]; [|done]. apply Z.ltb_lt in Ho.
  rewrite has_char_app, Hclock by lia. by destruct (o <? 0).
Qed.
Lemma parse_dt_of repr d : datetime_ok d = true → parse_dt repr (JStr (isoformat d)) = Some d.
Proof.
  intros H. unfold parse_dt. change (py_str repr (JStr (isoformat d))) with (isoformat d).
  rewrite replace_Z_id by (by apply isoformat_no_Z). pose proof (fromisoformat_isoformat d H) as E.
  destruct (isoformat d) eqn:Ei; [|done]. by rewrite <- Ei in E.
Qed.

(** addresses: a list, or the text [a, b] the agent sends *)
Definition ip_ok (s : string) : Prop := s ≠ "" ∧ s_forallb (λ c, negb (ip_sep c)) s = true.
Lemma split_no_sep p a acc : s_forallb (λ c, negb (p c)) a = true → split_on p a acc = [acc +:+ a].
Proof.
  revert acc. induction a as [|c a IH]; intros acc; cbn; [by rewrite sapp_nil_r|].
  intros [Hc Ha]%andb_true_iff. apply negb_true_iff in Hc. rewrite Hc, IH by done. by rewrite sapp_assoc.
Qed.
Lemma split_sep p a c s acc : s_forallb (λ c, negb (p c)) a = true → p c = true →
  split_on p (a +:+ String c s) acc = (acc +:+ a) :: split_on p s "".
Proof.
  revert acc. induction a as [|x a IH]; intros acc.
  - intros _ Hc. change ("" +:+ String c s) with (String c s). cbn. by rewrite Hc, sapp_nil_r.
  - rewrite sapp_cons. cbn. intros [Hx Ha]%andb_true_iff Hc. apply negb_true_iff in Hx.
    rewrite Hx, IH by done. by rewrite sapp_assoc.
Qed.
Lemma split_ips_join repr l : Forall ip_ok l → split_ips repr (JStr (join ", " l)) = l.
Proof.
  unfold split_ips. induction l as [|a l IH]; [done|]. intros [[Hne Ha] Hl]%Forall_cons. destruct l as [|b l].
  - cbn [join]. rewrite split_no_sep by done. cbn. by destruct a.
  - assert (join ", " (a :: b :: l) = a +:+ String "," (String " " (join ", " (b :: l)))) as -> by done.
    rewrite split_sep by done. set (x := join ", " (b :: l)) in *.
    change (split_on ip_sep (String " " x) "") with ("" :: split_on ip_sep x "").
    change ("" +:+ a) with a. destruct a as [|c a]; [done|].
    change (List.filter str_nonempty (String c a :: "" :: split_on ip_sep x ""))
      with (String c a :: List.filter str_nonempty (split_on ip_sep x "")). by rewrite IH.
Qed.
Lemma split_ips_list repr l : Forall ip_ok l → split_ips repr (JList (JStr <$> l)) = l.
Proof.
  unfold split_ips. induction l as [|a l IH]; [done|]. intros [[Hne _] Hl]%Forall_cons. cbn. destruct a as [|c a]; [done|].
  cbn. by rewrite IH.
Qed.

(** ** An item that reports a machine *)

(** what the agent sends ([vhds], [memoryMb], [automaticStart], ...), and the
    spelling of the stored form, which passes through *)
Inductive spelling := AGENT | CANONICAL.
Section item.
Context (sp : spelling).
Definition key (agent canonical : string) : string := match sp with AGENT => agent | CANONICAL => canonical end.
Definition disk_item (d : VmDisk) : dict :=
  [(key "diskId" "id", of_str (d_disk_id d)); ("path", of_str (d_path d)); ("controller", of_str (d_controller d));
   match sp with
   | AGENT => ("sizeGb", of_int ((λ z, z / GIB) <$> d_size_bytes d))
   | CANONICAL => ("sizeBytes", of_int (d_size_bytes d))
   end;
   ("usedBytes", of_int (d_used_bytes d)); ("type", of_str (d_type d)); ("format", of_str (d_format d))].
Definition texts_of (l : list json) : list string := omap (λ v, match v with JStr s => Some s | _ => None end) l.
Definition nic_item (n : VmNic) : dict :=
  [("id", of_str (n_nic_id n)); ("name", JStr (n_name n)); (key "networkId" "switchName", of_str (n_switch_name n));
   ("vlanId", JInt (default 0 (n_vlan_id n))); ("macAddress", of_str (n_mac_address n));
   ("ipAddresses", match sp with
                   | AGENT => JStr (join ", " (texts_of (n_ip_addresses n)))
                   | CANONICAL => JList (n_ip_addresses n)
                   end);
   ("connected", JBool (n_connected n))].
Definition snapshot_item (s : VmSnapshot) : dict :=
  [(key "snapshotId" "id", JStr (s_snapshot_id s)); ("name", JStr (s_name s));
   (key "parentSnapshotId" "parentId", of_str (s_parent_snapshot_id s));
   (key "snapshotType" "type", of_str (s_snapshot_type s)); (key "creationTime" "createdAt", of_date (s_created_at s))].
Definition vm_item (v : Vm) : dict :=
  ([(key "id" "vmId", of_str (v_vm_uuid v)); ("name", JStr (v_name v)); ("state", JStr (v_state v));
    ("metricsEnabled", JBool (v_metrics_enabled v)); ("firmware", JStr (v_firmware v));
    ("guestOs", of_str (v_guest_os v)); ("uptimeSec", of_int (v_uptime_sec v))] ++
   match sp with
   | AGENT =>
       [("cpu", JObj [("vcpus", JInt (v_vcpu v))]);
        ("memoryMb", JInt (v_memory_bytes v / MIB));
        ("memoryMinBytes", of_int (v_memory_min_bytes v)); ("memoryMaxBytes", of_int (v_memory_max_bytes v));
        ("memoryDynamic", JBool (v_memory_dynamic v));
        ("memoryConsumedMb", of_int ((λ z, z / MIB) <$> v_memory_demand_bytes v))]
   | CANONICAL =>
       [("vcpu", JInt (v_vcpu v));
        ("memory", JObj [("assignedBytes", JInt (v_memory_bytes v)); ("minBytes", of_int (v_memory_min_bytes v));
                         ("maxBytes", of_int (v_memory_max_bytes v)); ("dynamic", JBool (v_memory_dynamic v))]);
        ("memoryDemandBytes", of_int (v_memory_demand_bytes v))]
   end ++
   [(key "cpuUsagePct" "cpuUsagePercent", of_float (v_cpu_usage_percent v));
    ("secureBoot", of_bool (v_secure_boot v)); ("secureBootTemplate", of_str (v_secure_boot_template v));
    (key "nested" "nestedVirtualization", JBool (v_nested_virtualization v));
    (key "automaticStart" "autoStartAction", of_str (v_auto_start_action v));
    (key "automaticStartDelay" "autoStartDelaySec", of_int (v_auto_start_delay_sec v));
    (key "automaticStop" "autoStopAction", of_str (v_auto_stop_action v));
    (key "path" "configPath", of_str (v_config_path v)); (key "dvd" "dvdPath", of_str (v_dvd_path v));
    (key "ha" "highlyAvailable", JBool (v_highly_available v));
    (key "vhds" "disks", JList (JObj ∘ disk_item <$> v_disks v)); ("nics", JList (JObj ∘ nic_item <$> v_nics v));
    ("snapshots", JList (JObj ∘ snapshot_item <$> v_snapshots v)); ("notes", of_str (v_notes v));
    (key "creationTime" "createdAt", of_date (v_created_at v))])%list.
End item.

(** *** What a report can say: the widths of the columns, whole units in the
    agent's spelling, and values the code does not take for missing ones *)
Definition date_ok (o : option datetime) : Prop := match o with Some d => datetime_ok d = true | None => True end.
Definition in_units (sp : spelling) (unit_ z : Z) : Prop :=
  match sp with AGENT => whole unit_ z | CANONICAL => exact z end.
Record disk_ok (sp : spelling) (d : VmDisk) : Prop := {
  do_id : opt_text_ok 128 (d_disk_id d); do_path : opt_text_ok 1024 (d_path d);
  do_controller : opt_text_ok 64 (d_controller d); do_type : opt_text_ok 32 (d_type d);
  do_format : opt_text_ok 16 (d_format d) ∧ match d_format d with Some f => upper f = f | None => True end;
  do_size : ∃ z, d_size_bytes d = Some z ∧ in_units sp GIB z;
  do_used : opt_ok exact (d_used_bytes d)
}.
Record nic_ok (n : VmNic) : Prop := {
  no_id : opt_text_ok 128 (n_nic_id n); no_name : (String.length (n_name n) ≤ 255)%nat;
  no_switch : opt_text_ok 255 (n_switch_name n); no_mac : opt_text_ok 64 (n_mac_address n);
  no_vlan : opt_ok (λ z, 0 < z < 2 ^ 31) (n_vlan_id n);
  no_ips : ∃ l, n_ip_addresses n = JStr <$> l ∧ Forall ip_ok l
}.
Record snapshot_ok (s : VmSnapshot) : Prop := {
  so_id : (String.length (s_snapshot_id s) ≤ 128)%nat; so_name : (String.length (s_name s) ≤ 255)%nat;
  so_parent : opt_text_ok 128 (s_parent_snapshot_id s); so_type : opt_text_ok 32 (s_snapshot_type s);
  so_created : date_ok (s_created_at s)
}.
(** the position of a part is its place in the list *)
Definition placed_in {A} (position : A → nat) (l : list A) : Prop := ∀ i x, l !! i = Some x → position x = i.
Record reportable (sp : spelling) (v : Vm) : Prop := {
  rp_guid : opt_text_ok 64 (v_vm_uuid v);
  rp_name : text_ok 255 (v_name v); rp_state : text_ok 16 (v_state v);
  rp_firmware : v_firmware v ∈ ["BIOS"; "UEFI"];
  rp_guest : opt_text_ok 255 (v_guest_os v) ∧ match v_guest_os v with Some s => strip s = s | None => True end;
  rp_uptime : opt_ok (λ z, fits 32 z = true) (v_uptime_sec v); rp_vcpu : 0 < v_vcpu v < 2 ^ 31;
  rp_memory : in_units sp MIB (v_memory_bytes v);
  rp_min : opt_ok (λ z, z ≠ 0 ∧ exact z) (v_memory_min_bytes v);
  rp_max : opt_ok (λ z, z ≠ 0 ∧ exact z) (v_memory_max_bytes v);
  rp_demand : opt_ok (in_units sp MIB) (v_memory_demand_bytes v);
  rp_template : opt_text_ok 64 (v_secure_boot_template v);
  rp_start : opt_width_ok 32 (v_auto_start_action v); rp_delay : opt_ok (λ z, 0 ≤ z < 2 ^ 31) (v_auto_start_delay_sec v);
  rp_stop : opt_width_ok 32 (v_auto_stop_action v); rp_path : opt_width_ok 1024 (v_config_path v);
  rp_dvd : opt_width_ok 1024 (v_dvd_path v); rp_created : date_ok (v_created_at v);
  rp_disks : Forall (disk_ok sp) (v_disks v) ∧ placed_in d_position (v_disks v);
  rp_nics : Forall nic_ok (v_nics v) ∧ placed_in n_position (v_nics v);
  rp_snapshots : Forall snapshot_ok (v_snapshots v) ∧ placed_in s_position (v_snapshots v)
}.
(** the row after the report of [v]: everything but the keys and the folder,
    and what a report leaves out for a machine that is off *)
Definition reported (base v : Vm) (host_id : string) (cluster_id : option string) (now : datetime) : Vm :=
  v <| v_id := v_id base |> <| v_vm_uuid := v_vm_uuid base |> <| v_folder_id := v_folder_id base |>
    <| v_host_id := host_id |> <| v_cluster_id := cluster_id |> <| v_last_inventory_at := Some now |>
    <| v_guest_os := match v_guest_os v with Some s => Some s | None => v_guest_os base end |>
    <| v_created_at := match v_created_at v with Some d => Some d | None => v_created_at base end |>.

(** ** Columns *)
Lemma col_str_of n o w : opt_width_ok n o → col_str n (of_str o) w = (Ok o, w).
Proof. destruct o as [s|]; [|done]. cbn. intros H%Nat.leb_le. by rewrite H. Qed.
Lemma text_width n o : opt_text_ok n o → opt_width_ok n o.
Proof. destruct o; [by intros [_ H]|done]. Qed.
Lemma or_none_of n o : opt_text_ok n o → or_none (of_str o) = of_str o.
Proof. destruct o as [s|]; [|done]. intros [H _]. unfold or_none, py_or. by destruct s. Qed.
Lemma opt_str_of n o w : opt_text_ok n o → opt_str n (of_str o) w = (Ok o, w).
Proof. intros H. unfold opt_str. rewrite (or_none_of n) by done. by apply col_str_of, text_width. Qed.
(** [x or ""] in the item, [... or None] for the row *)
Lemma opt_str_blank n o w : opt_text_ok n o → opt_str n (py_or (of_str o) (JStr "")) w = (Ok o, w).
Proof.
  intros H. destruct o as [s|]; [|done]. destruct H as [Hne Hl]. unfold py_or. destruct s as [|c s]; [done|].
  apply (opt_str_of n (Some (String c s))). by split.
Qed.
Lemma str_or_empty_of n s w : (String.length s ≤ n)%nat → str_or_empty n (JStr s) w = (Ok s, w).
Proof.
  intros H%Nat.leb_le. unfold str_or_empty, py_or, col_str. destruct s as [|c s]; [done|].
  cbn [truthy str_nonempty]. by rewrite H.
Qed.
Lemma req_str_of n s w : (String.length s ≤ n)%nat → req_str n (JStr s) w = (Ok s, w).
Proof. intros H%Nat.leb_le. unfold req_str, col_str. by rewrite H. Qed.
Lemma col_int_of bits o w : opt_ok (λ z, fits bits z = true) o → col_int bits (of_int o) w = (Ok o, w).
Proof. destruct o as [z|]; [|done]. cbn. by intros ->. Qed.
Lemma wide_exact o w : opt_ok exact o → wide 64 o w = (Ok o, w).
Proof. destruct o as [z|]; [|done]. cbn. intros H. by rewrite exact_fits. Qed.
Lemma col_bool_of o w : col_bool (of_bool o) w = (Ok o, w).
Proof. by destruct o. Qed.
Lemma col_text_of o w : col_text (of_str o) w = (Ok o, w).
Proof. by destruct o. Qed.
Lemma small_fits z : 0 ≤ z < 2 ^ 31 → fits 32 z = true.
Proof. intros H. unfold fits. apply andb_true_iff. rewrite Z.leb_le, Z.ltb_lt. cbn. lia. Qed.
Lemma date_of repr o : date_ok o → parse_dt repr (of_date o) = o.
Proof. destruct o as [d|]; [apply parse_dt_of|done]. Qed.

(** ** The lists of a row *)
Ltac dgets := unfold dget, dget_or, dmem; cbn [dict_find String.eqb Ascii.eqb Bool.eqb default from_option is_some id].
Lemma dget_found d k v : dict_find d k = Some v → dget d k = v.
Proof. unfold dget. by intros ->. Qed.
Lemma items_run {A} (f : A → dict) l w : items_of (JList (JObj ∘ f <$> l)) w = (Ok (enumerate (f <$> l)), w).
Proof.
  unfold items_of. cbn [py_iter lift_py]. rewrite run_ret.
  assert (map_each (λ x, match x with JObj d => mret d | _ => raise (EPy AttributeError) end)
    (JObj ∘ f <$> l) w = (Ok (f <$> l), w)) as H.
  { induction l as [|x l IH]; [done|]. cbn [fmap list_fmap map_each]. unfold compose. rewrite run_ret.
    by rewrite (run_ok _ _ _ _ _ IH). }
  by rewrite (run_ok _ _ _ _ _ H).
Qed.
Lemma map_each_places {A B} (f : A → B) (body : nat * B → M A) l w :
  (∀ i x, l !! i = Some x → body (i, f x) w = (Ok x, w)) →
  map_each body (enumerate (f <$> l)) w = (Ok l, w).
Proof.
  unfold enumerate. rewrite length_fmap. assert (∀ k, (∀ i x, l !! i = Some x → body ((k + i)%nat, f x) w = (Ok x, w)) →
    map_each body (zip (seq k (length l)) (f <$> l)) w = (Ok l, w)) as Hgen; [|apply (Hgen 0%nat)].
  induction l as [|x l IH]; intros k H; [done|]. cbn [fmap list_fmap length seq zip_with map_each].
  pose proof (H 0%nat x eq_refl) as Hx. rewrite Nat.add_0_r in Hx. rewrite (run_ok _ _ _ _ _ Hx).
  rewrite (run_ok _ _ w l w); [done|]. apply IH. intros i y Hy. rewrite Nat.add_succ_comm. by apply (H (S i)).
Qed.

(** disks *)
Definition vhd_fields (d : VmDisk) : dict :=
  [("id", py_or (of_str (d_disk_id d)) (JStr "")); ("path", of_str (d_path d)); ("controller", of_str (d_controller d));
   ("sizeBytes", of_int (d_size_bytes d)); ("usedBytes", of_int (d_used_bytes d));
   ("type", py_or (of_str (d_type d)) (JStr "")); ("format", py_or (of_str (d_format d)) (JStr ""))].
Definition disk_fields (sp : spelling) (d : VmDisk) : dict :=
  match sp with AGENT => vhd_fields d | CANONICAL => disk_item CANONICAL d end.
Lemma vhd_disk_run d : disk_ok AGENT d → vhd_disk (disk_item AGENT d) = inl (JObj (vhd_fields d)).
Proof.
  intros [Hid _ _ _ [Hf Hup] (z & Hz & Hw) Hused]. unfold vhd_disk, disk_item, vhd_fields, key. rewrite Hz. dgets. cbn [fmap option_fmap option_map of_int].
  assert (py_or (JInt (z / GIB)) (JInt 0) = JInt (z / GIB)) as ->.
  { unfold py_or. cbn [truthy]. by destruct (Z.eqb_spec (z / GIB) 0) as [->|]. }
  rewrite (gib_exact z Hw). cbn [mbind res_bind]. rewrite (as_int_of _ Hused). cbn [mbind res_bind].
  assert (py_upper (py_or (of_str (d_format d)) (JStr "")) = inl (py_or (of_str (d_format d)) (JStr ""))) as ->.
  { destruct (d_format d) as [f|]; [|done]. destruct Hf as [Hne _]. unfold py_or. destruct f as [|c f]; [done|].
    cbn [truthy str_nonempty of_str]. unfold py_upper. by rewrite Hup. }
  cbn [mbind res_bind]. unfold mret, res_ret. do 3 f_equal. unfold py_or. by destruct (d_disk_id d) as [[|? ?]|].
Qed.
Lemma normalize_disks_run sp v rest :
  Forall (disk_ok sp) (v_disks v) →
  dict_find rest (key sp "vhds" "disks") = Some (JList (JObj ∘ disk_item sp <$> v_disks v)) →
  (sp = AGENT → dict_find rest "disks" = None) →
  normalize_disks rest = inl (JList (JObj ∘ disk_fields sp <$> v_disks v)).
Proof.
  intros Hd Hf Hno. unfold normalize_disks. destruct sp; cbn [key] in Hf.
  - rewrite (dget_found rest _ _ Hf). unfold dget. rewrite Hno by done. cbn [default from_option].
    assert (py_iter (py_or (JList (JObj ∘ disk_item AGENT <$> v_disks v)) (JList [])) =
      inl (JObj ∘ disk_item AGENT <$> v_disks v)) as -> by (by destruct (v_disks v)).
    cbn [mbind res_bind]. clear -Hd. assert (∀ l, Forall (disk_ok AGENT) l →
      res_map vhd_disk (dicts (JObj ∘ disk_item AGENT <$> l)) = inl (JObj ∘ disk_fields AGENT <$> l)) as H.
    { induction 1 as [|d l Hd' Hl IH]; [done|]. cbn [fmap list_fmap]. unfold compose, dicts. cbn [omap list_omap as_dict res_map].
      rewrite vhd_disk_run by done. cbn [mbind res_bind]. unfold dicts, compose in IH. by rewrite IH. }
    by rewrite H.
  - by rewrite (dget_found rest _ _ Hf).
Qed.
Lemma sync_disks_run sp v w : Forall (disk_ok sp) (v_disks v) → placed_in d_position (v_disks v) →
  sync_disks (JList (JObj ∘ disk_fields sp <$> v_disks v)) w = (Ok (v_disks v), w).
Proof.
  intros Hd Hp. unfold sync_disks. rewrite (run_ok _ _ _ _ _ (items_run _ _ _)). apply map_each_places.
  intros i d Hi. pose proof (Forall_lookup_1 _ _ _ _ Hd Hi) as [Hid Hpa Hco Hty [Hfo _] (z & Hz & Hw) Hu].
  assert (exact z) as Hz' by (destruct sp; [by destruct Hw as (? & _ & _ & ?)|done]).
  rewrite <- (Hp i d Hi). destruct d as [pos id path ctl size used type format]. cbn in *. subst size.
  destruct sp; unfold disk_fields, vhd_fields, disk_item, key; dgets; cbn [d_disk_id d_path d_controller d_size_bytes d_used_bytes d_type d_format d_position].
  all: rewrite ?(run_ok _ _ _ _ _ (opt_str_blank 128 id w Hid)), ?(run_ok _ _ _ _ _ (opt_str_of 128 id w Hid)),
    (run_ok _ _ _ _ _ (opt_str_of 1024 path w Hpa)), (run_ok _ _ _ _ _ (opt_str_of 64 ctl w Hco)).
  all: cbn [of_int]; rewrite (as_int_exact z Hz'), run_assoc by done; cbn [lift_py]; rewrite run_ret, (run_ok _ _ _ _ _ (wide_exact (Some z) w Hz')).
  all: rewrite (as_int_of used), run_assoc by done; cbn [lift_py]; rewrite run_ret, (run_ok _ _ _ _ _ (wide_exact used w Hu)).
  all: rewrite ?(run_ok _ _ _ _ _ (opt_str_blank 32 type w Hty)), ?(run_ok _ _ _ _ _ (opt_str_of 32 type w Hty)).
  all: rewrite ?(run_ok _ _ _ _ _ (opt_str_blank 16 format w Hfo)), ?(run_ok _ _ _ _ _ (opt_str_of 16 format w Hfo)); done.
Qed.

(** adapters *)
Definition nic_fields (sp : spelling) (n : VmNic) : dict :=
  [("id", of_str (n_nic_id n)); ("name", JStr (n_name n));
   ("switchName", match sp with AGENT => py_or (of_str (n_switch_name n)) (JStr "") | CANONICAL => of_str (n_switch_name n) end);
   ("vlanId", JInt (default 0 (n_vlan_id n))); ("macAddress", of_str (n_mac_address n));
   ("ipAddresses", JList (n_ip_addresses n)); ("connected", JBool (n_connected n))].
Lemma texts_of_strs l : texts_of (JStr <$> l) = l.
Proof. unfold texts_of. induction l as [|s l IH]; [done|]. cbn. by rewrite IH. Qed.
Lemma agent_nic_run repr n : nic_ok n → agent_nic repr (nic_item AGENT n) = JObj (nic_fields AGENT n).
Proof.
  intros [_ _ _ _ _ (l & Hl & Hips)]. unfold agent_nic, nic_item, nic_fields, key. dgets. rewrite Hl, texts_of_strs, split_ips_join by done.
  unfold py_or. destruct (n_switch_name n) as [[|? ?]|]; by destruct (n_connected n).
Qed.
Lemma normalize_nics_run repr sp v item :
  Forall nic_ok (v_nics v) → dict_find item "nics" = Some (JList (JObj ∘ nic_item sp <$> v_nics v)) →
  normalize_nics repr item = inl (JList (JObj ∘ nic_fields sp <$> v_nics v)).
Proof.
  intros Hn Hf. unfold normalize_nics. rewrite (dget_found item _ _ Hf).
  destruct (v_nics v) as [|n l] eqn:E; [done|]. unfold py_or. cbn [fmap list_fmap truthy]. unfold head_of. cbn [mbind res_bind].
  destruct sp; unfold compose at 1; [|done]. cbn [py_iter mbind res_bind]. unfold nic_item at 1, key at 1, dmem.
  cbn [dict_find String.eqb Ascii.eqb Bool.eqb is_some]. rewrite <- E in Hn. clear Hf.
  change (JObj ∘ nic_item AGENT) with (λ x, JObj (nic_item AGENT x)).
  assert (∀ l, Forall nic_ok l → agent_nic repr <$> dicts ((λ x, JObj (nic_item AGENT x)) <$> l) = (λ x, JObj (nic_fields AGENT x)) <$> l) as H.
  { induction 1 as [|x k Hx Hk IH]; [done|]. cbn [fmap list_fmap]. unfold dicts. cbn [omap list_omap as_dict].
    cbn [fmap list_fmap]. rewrite agent_nic_run by done. unfold dicts in IH. by rewrite <- IH. }
  rewrite E in Hn. specialize (H (n :: l) Hn). cbn [fmap list_fmap] in H. unfold mret, res_ret. do 2 f_equal. exact H.
Qed.
Lemma sync_nics_run sp v w : Forall nic_ok (v_nics v) → placed_in n_position (v_nics v) →
  sync_nics (JList (JObj ∘ nic_fields sp <$> v_nics v)) w = (Ok (v_nics v), w).
Proof.
  intros Hn Hp. unfold sync_nics. rewrite (run_ok _ _ _ _ _ (items_run _ _ _)). apply map_each_places.
  intros i n Hi. pose proof (Forall_lookup_1 _ _ _ _ Hn Hi) as [Hid Hna Hsw Hma Hvl (ips & Hl & _)].
  rewrite <- (Hp i n Hi). destruct n as [pos nid name sw vlan mac ips' conn]. cbn in *. subst ips'.
  unfold nic_fields. cbn [n_nic_id n_name n_switch_name n_vlan_id n_mac_address n_ip_addresses n_connected n_position]. dgets.
  rewrite (run_ok _ _ _ _ _ (opt_str_of 128 nid w Hid)), (run_ok _ _ _ _ _ (str_or_empty_of 255 name w Hna)).
  assert (opt_str 255 (match sp with AGENT => py_or (of_str sw) (JStr "") | CANONICAL => of_str sw end) w = (Ok sw, w)) as Hs
    by (destruct sp; [by apply opt_str_blank|by apply opt_str_of]).
  rewrite (run_ok _ _ _ _ _ Hs).
  assert (col_int 32 (default JNull (access_vlan (JInt (default 0 vlan)))) w = (Ok vlan, w)) as Hv.
  { destruct vlan as [z|]; [|done]. cbn in Hvl. unfold access_vlan. cbn [default from_option id].
    assert (0 <? z = true) as -> by (apply Z.ltb_lt; lia). apply (col_int_of 32 (Some z)). apply small_fits. lia. }
  rewrite (run_ok _ _ _ _ _ Hv), (run_ok _ _ _ _ _ (opt_str_of 64 mac w Hma)).
  assert (py_iter (py_or (JList (JStr <$> ips)) (JList [])) = inl (JStr <$> ips)) as -> by (by destruct ips).
  cbn [lift_py]. rewrite run_ret. by destruct conn.
Qed.

(** snapshots *)
Definition snapshot_fields (s : VmSnapshot) : dict :=
  [("id", JStr (s_snapshot_id s)); ("name", JStr (s_name s)); ("parentId", of_str (s_parent_snapshot_id s));
   ("type", of_str (s_snapshot_type s)); ("createdAt", of_date (s_created_at s))].
Lemma isoformat_nonempty d : datetime_ok d = true → isoformat d ≠ "".
Proof. intros H E. pose proof (fromisoformat_isoformat d H) as F. by rewrite E in F. Qed.
Lemma of_date_or o x : date_ok o → py_or (of_date o) x = match o with Some d => JStr (isoformat d) | None => x end.
Proof.
  destruct o as [d|]; [|done]. intros H%isoformat_nonempty. unfold py_or. cbn [of_date truthy]. by destruct (isoformat d).
Qed.
Lemma agent_snapshot_run sp s : snapshot_ok s → agent_snapshot (snapshot_item sp s) = JObj (snapshot_fields s).
Proof.
  intros [_ _ Hpa Hty Hda]. unfold agent_snapshot, snapshot_item, snapshot_fields, key.
  assert (py_or (JStr (s_snapshot_id s)) (JStr "") = JStr (s_snapshot_id s)) as E1
    by (unfold py_or; by destruct (s_snapshot_id s)).
  assert (∀ n o, opt_text_ok n o → py_or (of_str o) JNull = of_str o) as E2 by exact or_none_of.
  assert (py_or (of_date (s_created_at s)) JNull = of_date (s_created_at s)) as E3
    by (rewrite of_date_or by done; by destruct (s_created_at s)).
  destruct sp; dgets; unfold or_none.
  - change (py_or JNull (JStr (s_snapshot_id s))) with (JStr (s_snapshot_id s)).
    change (py_or JNull (of_str (s_snapshot_type s))) with (of_str (s_snapshot_type s)).
    by rewrite E1, (E2 32%nat) by done.
  - rewrite !(E2 32%nat _ Hty), (E2 128%nat _ Hpa), E3. unfold py_or. by destruct (s_snapshot_id s).
Qed.
Lemma normalize_snapshots_run sp v item :
  Forall snapshot_ok (v_snapshots v) → dict_find item "snapshots" = Some (JList (JObj ∘ snapshot_item sp <$> v_snapshots v)) →
  normalize_snapshots item = inl (JList (JObj ∘ snapshot_fields <$> v_snapshots v)).
Proof.
  intros Hs Hf. unfold normalize_snapshots. rewrite (dget_found item _ _ Hf). cbn [py_iter mbind res_bind].
  unfold mret, res_ret. do 2 f_equal. clear Hf. induction Hs as [|s l Hx Hl IH]; [done|]. cbn [fmap list_fmap]. unfold compose, dicts.
  cbn [omap list_omap as_dict fmap list_fmap]. rewrite agent_snapshot_run by done. f_equal. exact IH.
Qed.
Lemma sync_snapshots_run v w : Forall snapshot_ok (v_snapshots v) → placed_in s_position (v_snapshots v) →
  sync_snapshots (JList (JObj ∘ snapshot_fields <$> v_snapshots v)) w = (Ok (v_snapshots v), w).
Proof.
  intros Hs Hp. unfold sync_snapshots. rewrite run_gets, (run_ok _ _ _ _ _ (items_run _ _ _)). apply map_each_places.
  intros i s Hi. pose proof (Forall_lookup_1 _ _ _ _ Hs Hi) as [Hid Hna Hpa Hty Hda].
  rewrite <- (Hp i s Hi). destruct s as [pos sid name parent type created]. cbn in *.
  unfold snapshot_fields. cbn [s_snapshot_id s_name s_parent_snapshot_id s_snapshot_type s_created_at s_position]. dgets.
  rewrite (run_ok _ _ _ _ _ (str_or_empty_of 128 sid w Hid)), (run_ok _ _ _ _ _ (str_or_empty_of 255 name w Hna)),
    (run_ok _ _ _ _ _ (opt_str_of 128 parent w Hpa)), (run_ok _ _ _ _ _ (opt_str_of 32 type w Hty)).
  by rewrite date_of.
Qed.

(** ** The item *)
Lemma first_one item k : first_of item [k] = dget item k.
Proof. cbn. by destruct (dget item k). Qed.
Lemma first_left item a b : dict_find item b = None → first_of item [a; b] = dget item a.
Proof. intros H. cbn. unfold dget at 2. rewrite H. by destruct (dget item a). Qed.
Lemma first_right item a b : dict_find item a = None → first_of item [a; b] = dget item b.
Proof. intros H. cbn. unfold dget at 1. rewrite H. cbn. by destruct (dget item b). Qed.
Lemma of_int_or o x : opt_ok (λ z, z ≠ 0 ∧ exact z) o → py_or (of_int o) x = match o with Some z => JInt z | None => x end.
Proof. destruct o as [z|]; [|done]. intros [H _]. unfold py_or. cbn. by destruct (Z.eqb_spec z 0). Qed.
Lemma as_float_of o : as_float (of_float o) = inl o.
Proof. by destruct o. Qed.
Lemma firmware_read repr v item :
  dict_find item "firmware" = Some (JStr v) → v ∈ ["BIOS"; "UEFI"] → firmware_of repr item = v.
Proof.
  intros H Hv. unfold firmware_of. rewrite (dget_found _ _ _ H).
  apply elem_of_cons in Hv as [->|Hv]; [done|]. by apply list_elem_of_singleton in Hv as ->.
Qed.
(** the canonical item of a machine *)
Definition canonical (sp : spelling) (v : Vm) : dict :=
  [("vmUuid", of_str (v_vm_uuid v)); ("name", JStr (v_name v)); ("state", JStr (v_state v));
   ("metricsEnabled", JBool (v_metrics_enabled v)); ("firmware", JStr (v_firmware v)); ("guestOs", of_str (v_guest_os v));
   ("uptimeSec", of_int (v_uptime_sec v)); ("vcpu", JInt (v_vcpu v)); ("memoryBytes", JInt (v_memory_bytes v));
   ("memoryMinBytes", of_int (v_memory_min_bytes v)); ("memoryMaxBytes", of_int (v_memory_max_bytes v));
   ("memoryDynamic", JBool (v_memory_dynamic v)); ("memoryDemandBytes", of_int (v_memory_demand_bytes v));
   ("cpuUsagePercent", of_float (v_cpu_usage_percent v)); ("secureBoot", of_bool (v_secure_boot v));
   ("secureBootTemplate", of_str (v_secure_boot_template v)); ("nestedVirtualization", JBool (v_nested_virtualization v));
   ("autoStartAction", of_str (v_auto_start_action v)); ("autoStartDelaySec", of_int (v_auto_start_delay_sec v));
   ("autoStopAction", of_str (v_auto_stop_action v)); ("configPath", of_str (v_config_path v)); ("dvdPath", of_str (v_dvd_path v));
   ("highlyAvailable", JBool (v_highly_available v)); ("disks", JList (JObj ∘ disk_fields sp <$> v_disks v));
   ("nics", JList (JObj ∘ nic_fields sp <$> v_nics v)); ("snapshots", JList (JObj ∘ snapshot_fields <$> v_snapshots v));
   ("notes", of_str (v_notes v)); ("createdAt", of_date (v_created_at v))].
Lemma in_units_exact sp u z : in_units sp u z → exact z.
Proof. destruct sp; [by intros (? & _ & _ & ?)|done]. Qed.
Lemma small_exact z : 0 ≤ z < 2 ^ 31 → exact z.
Proof. unfold exact. cbn. lia. Qed.
Lemma normalize_report repr sp v : reportable sp v → normalize_vm repr (vm_item sp v) = inl (canonical sp v).
Proof.
  intros [Hg Hna Hst Hfw [Hos _] Hup Hvc Hme Hmi Hma Hde Hte Hsta Hdel Hsto Hpa Hdv Hcr [Hdi _] [Hni _] [Hsn _]].
  assert (firmware_of repr (vm_item sp v) = v_firmware v) as Efw by (apply firmware_read; [by destruct sp|done]).
  assert (normalize_disks (vm_item sp v) = inl (JList (JObj ∘ disk_fields sp <$> v_disks v))) as Edi
    by (apply normalize_disks_run; by destruct sp).
  assert (normalize_nics repr (vm_item sp v) = inl (JList (JObj ∘ nic_fields sp <$> v_nics v))) as Eni
    by (apply normalize_nics_run; [done|by destruct sp]).
  assert (normalize_snapshots (vm_item sp v) = inl (JList (JObj ∘ snapshot_fields <$> v_snapshots v))) as Esn
    by (apply (normalize_snapshots_run sp); [done|by destruct sp]).
  assert (as_int (JInt (v_memory_bytes v)) = inl (Some (v_memory_bytes v))) as Eme by (by eapply as_int_exact, in_units_exact).
  assert (as_int (of_int (v_memory_min_bytes v)) = inl (v_memory_min_bytes v)) as Emi
    by (apply as_int_of; destruct (v_memory_min_bytes v); [by destruct Hmi|done]).
  assert (as_int (of_int (v_memory_max_bytes v)) = inl (v_memory_max_bytes v)) as Ema
    by (apply as_int_of; destruct (v_memory_max_bytes v); [by destruct Hma|done]).
  assert (as_int (of_int (v_memory_demand_bytes v)) = inl (v_memory_demand_bytes v)) as Ede
    by (apply as_int_of; destruct (v_memory_demand_bytes v); [by eapply in_units_exact|done]).
  assert (as_int (of_int (v_auto_start_delay_sec v)) = inl (v_auto_start_delay_sec v)) as Edel
    by (apply as_int_of; destruct (v_auto_start_delay_sec v); [by apply small_exact|done]).
  assert (or_none (of_str (v_secure_boot_template v)) = of_str (v_secure_boot_template v)) as Ete by (by apply (or_none_of 64)).
  assert (py_or (of_str (v_vm_uuid v)) JNull = of_str (v_vm_uuid v)) as Eg by (by apply (or_none_of 64)).
  assert (∀ o x, (o = v_memory_min_bytes v ∨ o = v_memory_max_bytes v) → x = JNull ∨ x = of_int o → py_or (of_int o) x = of_int o ∧ py_or JNull (of_int o) = of_int o) as Emm.
  { intros o x Ho Hx. split; [|done]. rewrite of_int_or by (by destruct Ho as [->| ->]). destruct o; [done|]. by destruct Hx as [->| ->]. }
  assert (py_or (of_date (v_created_at v)) JNull = of_date (v_created_at v)) as Ecr
    by (rewrite of_date_or by done; by destruct (v_created_at v)).
  set (item := vm_item sp v) in *.
  assert ((match dget item "vcpu" with
           | JNull => match dget item "cpu" with JObj c => dget c "vcpus" | _ => JNull end
           | v => v
           end) = JInt (v_vcpu v)) as E1 by (unfold item; by destruct sp).
  assert ((if is_null (py_or (first_of item ["memoryBytes"]) (dget (dict_or_empty (dget item "memory")) "assignedBytes"))
           then m ← mib_to_bytes (first_of item ["memoryMb"; "memoryMB"]); mret (JInt (default 0 m))
           else mret (py_or (first_of item ["memoryBytes"]) (dget (dict_or_empty (dget item "memory")) "assignedBytes")))
          = (inl (JInt (v_memory_bytes v)) : res json)) as E2.
  { unfold item. destruct sp; [|done].
    change (first_of (vm_item AGENT v) ["memoryMb"; "memoryMB"]) with (JInt (v_memory_bytes v / MIB)).
    by rewrite (mib_exact _ Hme). }
  assert (py_or (first_of item ["memoryMinBytes"]) (dget (dict_or_empty (dget item "memory")) "minBytes")
          = of_int (v_memory_min_bytes v)) as E3.
  { rewrite first_one. unfold item. destruct sp; apply (Emm _ JNull); auto. }
  assert (py_or (first_of item ["memoryMaxBytes"]) (dget (dict_or_empty (dget item "memory")) "maxBytes")
          = of_int (v_memory_max_bytes v)) as E4.
  { rewrite first_one. unfold item. destruct sp; apply (Emm _ JNull); auto. }
  assert (truthy (py_or (dget item "memoryDynamic") (dget (dict_or_empty (dget item "memory")) "dynamic"))
          = v_memory_dynamic v) as E5.
  { unfold item. destruct sp; unfold vm_item; cbn [app]; dgets; unfold py_or; by destruct (v_memory_dynamic v). }
  assert ((if is_null (first_of item ["memoryDemandBytes"])
           then m ← mib_to_bytes (first_of item ["memoryConsumedMb"]); mret (of_int m)
           else mret (first_of item ["memoryDemandBytes"])) = (inl (of_int (v_memory_demand_bytes v)) : res json)) as E6.
  { rewrite !first_one. unfold item. destruct sp.
    - change (dget (vm_item AGENT v) "memoryDemandBytes") with JNull.
      change (dget (vm_item AGENT v) "memoryConsumedMb") with (of_int ((λ z, z / MIB) <$> v_memory_demand_bytes v)).
      destruct (v_memory_demand_bytes v) as [z|]; [|done]. cbn [is_null fmap option_fmap option_map of_int].
      by rewrite (mib_exact z Hde).
    - change (dget (vm_item CANONICAL v) "memoryDemandBytes") with (of_int (v_memory_demand_bytes v)).
      by destruct (v_memory_demand_bytes v). }
  assert (first_of item ["cpuUsagePercent"; "cpuUsagePct"] = of_float (v_cpu_usage_percent v)) as F1
    by (unfold item; destruct sp; [by rewrite first_right|by rewrite first_left]).
  assert (first_of item ["autoStartDelaySec"; "automaticStartDelay"] = of_int (v_auto_start_delay_sec v)) as F2
    by (unfold item; destruct sp; [by rewrite first_right|by rewrite first_left]).
  assert (first_of item ["autoStartAction"; "automaticStart"] = of_str (v_auto_start_action v)) as F3
    by (unfold item; destruct sp; [by rewrite first_right|by rewrite first_left]).
  assert (first_of item ["autoStopAction"; "automaticStop"] = of_str (v_auto_stop_action v)) as F4
    by (unfold item; destruct sp; [by rewrite first_right|by rewrite first_left]).
  assert (first_of item ["configPath"; "path"] = of_str (v_config_path v)) as F5
    by (unfold item; destruct sp; [by rewrite first_right|by rewrite first_left]).
  assert (first_of item ["dvdPath"; "dvd"] = of_str (v_dvd_path v)) as F6
    by (unfold item; destruct sp; [by rewrite first_right|by rewrite first_left]).
  assert (first_of item ["highlyAvailable"; "ha"] = JBool (v_highly_available v)) as F7
    by (unfold item; destruct sp; [by rewrite first_right|by rewrite first_left]).
  assert (first_of item ["nestedVirtualization"; "nested"] = JBool (v_nested_virtualization v)) as F8
    by (unfold item; destruct sp; [by rewrite first_right|by rewrite first_left]).
  unfold normalize_vm. cbv zeta. rewrite E1, E2, E3, E4, E5, E6, F1, F2, F3, F4, F5, F6, F7, F8, Efw, Edi, Eni, Esn.
  cbn [mbind res_bind]. rewrite Eme. cbn [mbind res_bind]. rewrite Emi. cbn [mbind res_bind]. rewrite Ema. cbn [mbind res_bind].
  rewrite Ede. cbn [mbind res_bind]. rewrite as_float_of. cbn [mbind res_bind]. rewrite Edel. cbn [mbind res_bind].
  assert (py_or (dget item "id") (dget item "vmId") = of_str (v_vm_uuid v)) as G1 by (unfold item; by destruct sp).
  assert (py_or (dget item "createdAt") (dget item "creationTime") = of_date (v_created_at v)) as G2 by (unfold item; by destruct sp).
  rewrite G1, G2. unfold canonical, mret, res_ret. f_equal. rewrite <- Ete.
  unfold item; by destruct sp.
Qed.

(** ** The row *)
Lemma scalar_fields_run sp base v w : reportable sp v →
  fold_each VM_SCALAR_FIELDS base (λ vm '(setattr, item_key, _), setattr (dget (canonical sp v) item_key) vm) w =
    (Ok (base <| v_uptime_sec := v_uptime_sec v |> <| v_memory_bytes := v_memory_bytes v |>
              <| v_memory_min_bytes := v_memory_min_bytes v |> <| v_memory_max_bytes := v_memory_max_bytes v |>
              <| v_memory_demand_bytes := v_memory_demand_bytes v |> <| v_cpu_usage_percent := v_cpu_usage_percent v |>
              <| v_secure_boot := v_secure_boot v |> <| v_secure_boot_template := v_secure_boot_template v |>
              <| v_auto_start_action := v_auto_start_action v |> <| v_auto_start_delay_sec := v_auto_start_delay_sec v |>
              <| v_auto_stop_action := v_auto_stop_action v |> <| v_config_path := v_config_path v |>
              <| v_dvd_path := v_dvd_path v |> <| v_notes := v_notes v |>), w).
Proof.
  intros [_ _ _ _ _ Hup _ Hme Hmi Hma Hde Hte Hsta Hdel Hsto Hpa Hdv _ _ _ _].
  assert (∀ o, opt_ok exact o → opt_ok (λ z, fits 64 z = true) o) as Hfit by (intros [z|]; [apply exact_fits|done]).
  unfold VM_SCALAR_FIELDS. cbn [fold_each]. unfold canonical. dgets.
  unfold set_uptime_sec at 1. rewrite run_assoc, (run_ok _ _ _ _ _ (col_int_of 32 _ w Hup)), run_ret.
  unfold set_memory_bytes at 1. rewrite run_assoc.
  rewrite (run_ok _ _ _ _ _ (col_int_of 64 (Some (v_memory_bytes v)) w (exact_fits _ (in_units_exact _ _ _ Hme)))).
  rewrite run_assoc. cbn [not_null]. rewrite run_ret, run_ret.
  unfold set_memory_min_bytes at 1. rewrite run_assoc, (run_ok _ _ _ _ _ (col_int_of 64 (v_memory_min_bytes v) w
    ltac:(destruct (v_memory_min_bytes v); [by apply exact_fits, Hmi|done]))), run_ret.
  unfold set_memory_max_bytes at 1. rewrite run_assoc, (run_ok _ _ _ _ _ (col_int_of 64 (v_memory_max_bytes v) w
    ltac:(destruct (v_memory_max_bytes v); [by apply exact_fits, Hma|done]))), run_ret.
  unfold set_memory_demand_bytes at 1. rewrite run_assoc, (run_ok _ _ _ _ _ (col_int_of 64 (v_memory_demand_bytes v) w
    ltac:(destruct (v_memory_demand_bytes v); [by eapply exact_fits, in_units_exact|done]))), run_ret.
  assert (∀ vm, set_cpu_usage_percent (of_float (v_cpu_usage_percent v)) vm w =
    (Ok (vm <| v_cpu_usage_percent := v_cpu_usage_percent v |>), w)) as Hcpu by (intros vm; by destruct (v_cpu_usage_percent v)).
  rewrite (run_ok _ _ _ _ _ (Hcpu _)).
  unfold set_secure_boot at 1. rewrite run_assoc, (run_ok _ _ _ _ _ (col_bool_of _ w)), run_ret.
  unfold set_secure_boot_template at 1. rewrite run_assoc, (run_ok _ _ _ _ _ (col_str_of 64 _ w (text_width _ _ Hte))), run_ret.
  unfold set_auto_start_action at 1. rewrite run_assoc, (run_ok _ _ _ _ _ (col_str_of 32 _ w Hsta)), run_ret.
  unfold set_auto_start_delay_sec at 1. rewrite run_assoc, (run_ok _ _ _ _ _ (col_int_of 32 (v_auto_start_delay_sec v) w
    ltac:(destruct (v_auto_start_delay_sec v); [by apply small_fits|done]))), run_ret.
  unfold set_auto_stop_action at 1. rewrite run_assoc, (run_ok _ _ _ _ _ (col_str_of 32 _ w Hsto)), run_ret.
  unfold set_config_path at 1. rewrite run_assoc, (run_ok _ _ _ _ _ (col_str_of 1024 _ w Hpa)), run_ret.
  unfold set_dvd_path at 1. rewrite run_assoc, (run_ok _ _ _ _ _ (col_str_of 1024 _ w Hdv)), run_ret.
  unfold set_notes at 1. rewrite run_assoc, (run_ok _ _ _ _ _ (col_text_of _ w)), run_ret. reflexivity.
Qed.

Lemma stake_short n s : (String.length s ≤ n)%nat → stake n s = s.
Proof.
  revert n. induction s as [|c s IH]; intros [|n] H; cbn in *; [done..|lia|]. f_equal. apply IH. lia.
Qed.
(** C27: the row shows what the agent reports.  For any machine the report can
    express - in the agent's spelling or in the stored one, with any number of
    disks, adapters and snapshots - [normalize_vm] accepts the item, and writing
    the result to a row, whatever the row held before, succeeds and gives the
    machine field by field: names and state, CPU and the five memory columns in
    bytes, dates, the boot and start policies, every disk, adapter and snapshot
    in order.  Kept from the row are its id, GUID and folder; the host and the
    cluster are the reporting host's; a machine without a guest system or a
    creation date in the report keeps the ones it had. *)
Theorem report_reaches_row sp v base host_id cluster_id w :
  reportable sp v →
  ∃ item, normalize_vm (w_repr w) (vm_item sp v) = inl item ∧
    write_vm_row base (vm_item sp v) item host_id cluster_id false w =
      (Ok (reported base v host_id cluster_id (utc (w_now w))), w).
Proof.
  intros Hr. exists (canonical sp v). split; [by apply normalize_report|].
  pose proof Hr as [_ [Hna1 Hna] [Hst1 Hst] Hfw [Hos Hos2] _ Hvc _ _ _ _ _ _ _ _ _ _ Hcr [Hdi Hdp] [Hni Hnp] [Hsn Hsp]].
  unfold write_vm_row. cbv zeta. cbn [negb orb].
  set (b1 := base <| v_host_id := host_id |> <| v_cluster_id := cluster_id |>).
  assert (write_name false true (canonical sp v) b1 w = (Ok (v_name v), w)) as E1.
  { unfold write_name. change (dget (canonical sp v) "name") with (JStr (v_name v)).
    assert (truthy (JStr (v_name v)) = true) as -> by (by destruct (v_name v)). by apply req_str_of. }
  assert (write_state false true (canonical sp v) b1 w = (Ok (v_state v), w)) as E2.
  { unfold write_state. change (dget (canonical sp v) "state") with (JStr (v_state v)).
    assert (py_or (JStr (v_state v)) (JStr "Unknown") = JStr (v_state v)) as -> by (unfold py_or; by destruct (v_state v)).
    by apply req_str_of. }
  assert (write_firmware false true (canonical sp v) b1 w = (Ok (v_firmware v), w)) as E3.
  { unfold write_firmware. change (dget (canonical sp v) "firmware") with (JStr (v_firmware v)).
    apply elem_of_cons in Hfw as [->|Hfw]; [done|]. by apply list_elem_of_singleton in Hfw as ->. }
  assert (write_vcpu false true (canonical sp v) b1 w = (Ok (v_vcpu v), w)) as E4.
  { unfold write_vcpu. change (dget (canonical sp v) "vcpu") with (JInt (v_vcpu v)).
    assert (py_or (py_or (JInt (v_vcpu v)) (JInt 1)) (JInt 1) = JInt (v_vcpu v)) as ->.
    { unfold py_or. cbn [truthy]. destruct (Z.eqb_spec (v_vcpu v) 0) as [|Hz]; [lia|]. cbn [negb truthy].
      apply Z.eqb_neq in Hz. by rewrite Hz. }
    cbn [py_int lift_py]. rewrite run_ret. unfold wide. rewrite small_fits by lia. done. }
  rewrite (run_ok _ _ _ _ _ E1), (run_ok _ _ _ _ _ E2), (run_ok _ _ _ _ _ E3), (run_ok _ _ _ _ _ E4).
  etrans; [eapply run_ok; exact (scalar_fields_run sp _ v w Hr)|]. rewrite run_gets.
  change (dget (canonical sp v) "disks") with (JList (JObj ∘ disk_fields sp <$> v_disks v)).
  change (dget (canonical sp v) "nics") with (JList (JObj ∘ nic_fields sp <$> v_nics v)).
  change (dget (canonical sp v) "snapshots") with (JList (JObj ∘ snapshot_fields <$> v_snapshots v)).
  rewrite (run_ok _ _ _ _ _ (sync_disks_run sp v w Hdi Hdp)), (run_ok _ _ _ _ _ (sync_nics_run sp v w Hni Hnp)),
    (run_ok _ _ _ _ _ (sync_snapshots_run v w Hsn Hsp)), run_now.
  assert (is_null (dget (vm_item sp v) "metricsEnabled") = false) as -> by (by destruct sp).
  assert (guest_os_of (canonical sp v) (v_guest_os b1) = match v_guest_os v with Some s => Some s | None => v_guest_os base end) as ->.
  { unfold guest_os_of. change (dget (canonical sp v) "guestOs") with (of_str (v_guest_os v)).
    destruct (v_guest_os v) as [s|]; [|done]. cbn [of_str]. rewrite Hos2. destruct Hos as [Hne Hl].
    rewrite stake_short by done. by destruct s. }
  change (dget (canonical sp v) "createdAt") with (of_date (v_created_at v)). rewrite date_of by done.
  unfold mret, M_ret, reported. do 2 f_equal.
  change (dget (canonical sp v) "metricsEnabled") with (JBool (v_metrics_enabled v)).
  change (dget (canonical sp v) "memoryDynamic") with (JBool (v_memory_dynamic v)).
  change (dget (canonical sp v) "nestedVirtualization") with (JBool (v_nested_virtualization v)).
  change (dget (canonical sp v) "highlyAvailable") with (JBool (v_highly_available v)).
  assert (truthy (of_date (v_created_at v)) = is_some (v_created_at v)) as ->.
  { destruct (v_created_at v) as [d|]; [|done]. cbn in Hcr. apply isoformat_nonempty in Hcr. cbn. by destruct (isoformat d). }
  destruct v; cbn. by destruct v_created_at.
Qed.

(** an example: a running machine with a disk, a tagged adapter and a snapshot *)
Definition sample_machine : Vm :=
  mkVm "" (Some "g1") "" None None "web" "Running" "UEFI" (Some "Rocky Linux 9") (Some 3600) 4 (4096 * MIB)
    (Some (2 * GIB)) (Some (16 * GIB)) true (Some (S754_zero false)) (Some (3072 * MIB)) (Some true) (Some "Windows") false
    (Some "Start") (Some 30) (Some "Save") (Some "D:\VMs\web") None true true None (Some (utc 1790467200000000)) None
    [mkVmDisk 0 (Some "d0") (Some "D:\VMs\web.vhdx") (Some "SCSI 0:0") (Some (127 * GIB)) (Some 42949672960) (Some "Dynamic") (Some "VHDX")]
    [mkVmNic 0 (Some "n0") "Network Adapter" (Some "vSwitch") (Some 100) (Some "00:15:5D:01:0A:01") [JStr "10.0.0.1"; JStr "10.0.0.2"] true]
    [mkVmSnapshot 0 "s0" "before update" None (Some "Standard") (Some (utc 1790467200000000))].
Lemma sample_reportable : reportable AGENT sample_machine.
Proof.
  assert (∀ k u, 0 ≤ k < 2 ^ 20 → 0 < u ≤ 2 ^ 30 → whole u (k * u)) as Hw.
  { intros k u H1 H2. exists k. unfold exact. split; [done|]. nia. }
  split.
  all: try (split; [discriminate|apply Nat.leb_le; vm_compute; reflexivity]).
  all: try (apply Nat.leb_le; vm_compute; reflexivity).
  all: try exact I.
  - right. left.
  - split; [|vm_compute; reflexivity]. split; [discriminate|apply Nat.leb_le; vm_compute; reflexivity].
  - vm_compute. reflexivity.
  - cbn. lia.
  - apply Hw; unfold MIB; lia.
  - split; [discriminate|]. unfold exact, GIB. lia.
  - split; [discriminate|]. unfold exact, GIB. lia.
  - apply Hw; unfold MIB; lia.
  - cbn. lia.
  - vm_compute. reflexivity.
  - split; [|intros [|i] x H; [by injection H as <-|done]]. constructor; [|constructor].
    split; try (split; [discriminate|apply Nat.leb_le; vm_compute; reflexivity]).
    + split; [|vm_compute; reflexivity]. split; [discriminate|apply Nat.leb_le; vm_compute; reflexivity].
    + eexists. split; [reflexivity|]. apply Hw; unfold GIB; lia.
    + cbn. unfold exact. lia.
  - split; [|intros [|i] x H; [by injection H as <-|done]]. constructor; [|constructor].
    split; try (split; [discriminate|apply Nat.leb_le; vm_compute; reflexivity]).
    + apply Nat.leb_le. vm_compute. reflexivity.
    + cbn. lia.
    + exists ["10.0.0.1"; "10.0.0.2"]. split; [done|]. repeat constructor; discriminate.
  - split; [|intros [|i] x H; [by injection H as <-|done]]. constructor; [|constructor].
    split; try (apply Nat.leb_le; vm_compute; reflexivity); [done| |vm_compute; reflexivity].
    split; [discriminate|apply Nat.leb_le; vm_compute; reflexivity].
Qed.
Lemma report_reaches_row_witness : ∃ item row,
  normalize_vm (w_repr sample_world) (vm_item AGENT sample_machine) = inl item ∧
  write_vm_row (fresh_vm "v1" "h1" "g1" 0) (vm_item AGENT sample_machine) item "h1" (Some "c1") false sample_world = (Ok row, sample_world) ∧
  v_id row = "v1" ∧ v_memory_min_bytes row = Some (2 * GIB) ∧ v_memory_max_bytes row = Some (16 * GIB) ∧
  v_memory_bytes row = 4 * GIB ∧ v_nics row = v_nics sample_machine.
Proof.
  destruct (report_reaches_row AGENT sample_machine (fresh_vm "v1" "h1" "g1" 0) "h1" (Some "c1") sample_world sample_reportable)
    as (item & Hn & Hw).
  eexists item, _. split; [exact Hn|]. split; [exact Hw|]. repeat split.
Defined.
