(* ===== verification/Response.v ===== *)
(** * The task lifecycle ([app/services/inventory.py], [apply_response])

    An agent's response moves its task from queued/running to a terminal
    status, settles the audit events, folds the fresh VM object into the row
    and releases the VM's lock.  The row refresh is best effort: it runs in a
    savepoint and cannot undo the terminal status. *)
From S2P Require Import Prelude Py Clock Model World Store Cache AuditLog Normalize Messaging.
From S2P Require Import Serializers HostActions Inventory.
Open Scope string_scope.
Open Scope Z_scope.

Definition TRANSITIONAL_STATE : list (string * string) :=
  [("vm_start", "Starting"); ("vm_stop", "Stopping"); ("vm_shutdown", "Stopping");
   ("vm_restart", "Restarting"); ("vm_pause", "Pausing")].
Definition FAILED_STATE_REVERT : list (string * string) :=
  [("vm_start", "Off"); ("vm_stop", "Running"); ("vm_shutdown", "Running");
   ("vm_restart", "Running"); ("vm_pause", "Running")].

(** [scalar_one_or_none] *)
Definition one_or_none {A} (l : list A) : M (option A) :=
  match l with [] => mret None | [x] => mret (Some x) | _ => raise EMultiple end.
Definition vm_by_guid (host_id guid : string) : M (option Vm) :=
  l ← query (λ d, rows (λ v, bool_decide (v_vm_uuid v = Some guid) && String.eqb (v_host_id v) host_id) (vms d));
  one_or_none l.

(** ** The VM objects of a response *)
Definition response_item (h : Host) (updated : bool) (raw : dict) : M bool :=
  repr ← gets w_repr;
  item ← lift_py (normalize_vm repr raw);
  match dget item "vmUuid" with
  | JStr "" => mret updated
  | JStr guid =>
      found ← vm_by_guid (h_id h) guid;
      match found with
      | None => mret updated
      | Some vm =>
          vm ← write_vm_row vm raw item (h_id h) (h_cluster_id h) true;
          set_vm_state (v_id vm) (v_state vm);;
          put_vm vm;;
          mret true
      end
  | v => if truthy v then raise EData else mret updated
  end.
Definition apply_response_vm_status (host_id : string) (resp : AgentResponse) : M bool :=
  match response_vm_items resp with
  | [] => mret false
  | items =>
      h ← get_host host_id;
      match h with
      | None => mret false
      | Some h => fold_each items false (response_item h)
      end
  end.

(** [x if x else d] on an optional string *)
Definition given_str (o : option string) : option string :=
  match o with Some s => if str_nonempty s then Some s else None | None => None end.

(** the placeholder of a create or a clone *)
Definition apply_create_state (host_id : string) (resp : AgentResponse) (task : Task) : M unit :=
  placeholder ← get_vm (k_target_id task);
  match placeholder with
  | None => mret tt
  | Some vm =>
      if String.eqb (k_status task) "succeeded" then
        let state := default "Off" (given_str (rs_vm_state resp)) in
        set_vm_state (v_id vm) state;;
        state' ← req_str 16 (JStr state);
        guid ← match given_str (rs_vm_id resp) with
               | Some g => col_str 64 (JStr g)
               | None => mret (v_vm_uuid vm)
               end;
        put_vm (vm <| v_vm_uuid := guid |> <| v_state := state' |>);;
        apply_response_vm_status host_id resp;;
        mret tt
      else
        exec (delete_vms (λ v, String.eqb (v_id v) (v_id vm)));;
        clear_vm_state (v_id vm)
  end.
Definition apply_delete_state (host_id : string) (task : Task) : M unit :=
  gone ← get_vm (k_target_id task);
  match gone with
  | Some vm => match v_vm_uuid vm with
               | Some u => if str_nonempty u then mark_vm_deleted host_id u else mret tt
               | None => mret tt
               end
  | None => mret tt
  end;;
  exec (delete_vms (λ v, String.eqb (v_id v) (k_target_id task)));;
  clear_vm_state (k_target_id task).
Definition apply_succeeded_state (host_id : string) (resp : AgentResponse) : M unit :=
  applied ← apply_response_vm_status host_id resp;
  match given_str (rs_vm_id resp), given_str (rs_vm_state resp), applied with
  | Some guid, Some state, false =>
      vm ← vm_by_guid host_id guid;
      match vm with
      | Some vm =>
          set_vm_state (v_id vm) state;;
          state ← req_str 16 (JStr state);
          save_vm (vm <| v_state := state |>)
      | None => mret tt
      end
  | _, _, _ => mret tt
  end.
Definition apply_failed_state (task : Task) : M unit :=
  match assoc FAILED_STATE_REVERT (k_kind task) with
  | Some revert =>
      if String.eqb (k_target_type task) "vm" then
        vm ← get_vm (k_target_id task);
        match vm with
        | Some vm =>
            if bool_decide (Some (v_state vm) = assoc TRANSITIONAL_STATE (k_kind task)) then
              set_vm_state (v_id vm) revert;;
              save_vm (vm <| v_state := revert |>)
            else mret tt
        | None => mret tt
        end
      else mret tt
  | None => mret tt
  end.
Definition apply_response_state (host_id : string) (resp : AgentResponse) (task : Task) : M unit :=
  if bool_decide (k_kind task ∈ ["vm_create"; "vm_clone"]) then apply_create_state host_id resp task
  else if String.eqb (k_kind task) "vm_delete" && String.eqb (k_status task) "succeeded" then
    apply_delete_state host_id task
  else if String.eqb (k_status task) "succeeded" then apply_succeeded_state host_id resp
  else if String.eqb (k_status task) "failed" then apply_failed_state task
  else mret tt.

(** ** The lifecycle *)

(** [try: async with db.begin_nested(): m except Exception: log] *)
Definition best_effort (m : M unit) : M unit := try_except (savepoint m) (λ _, mret tt).
(** [try: m except Exception: log] *)
Definition attempt (m : M unit) : M unit := try_except m (λ _, mret tt).

Definition running_progress (resp : AgentResponse) (task : Task) (now : datetime) : Task :=
  task <| k_status := "running" |>
       <| k_started_at := Some (default now (k_started_at task)) |>
       <| k_progress := match rs_progress resp with Some p => Some p | None => k_progress task end |>
       <| k_progress_message := match given_str (rs_progress_message resp) with
                                | Some m => Some m
                                | None => k_progress_message task
                                end |>.
(** a [warning] left in the result of a task that succeeded without an error *)
Definition result_warning (repr : json → string) (resp : AgentResponse) (status : string)
    (error : option string) : option string :=
  match rs_result resp with
  | RDict d =>
      if String.eqb status "succeeded" && negb (is_some (given_str error)) && truthy (dget d "warning")
      then Some (py_str repr (dget d "warning")) else error
  | _ => error
  end.
Definition finish_task (repr : json → string) (resp : AgentResponse) (task : Task) (now : datetime) : Task :=
  let status := if String.eqb (rs_status resp) "succeeded" then "succeeded" else "failed" in
  let finished := match rs_finished_at resp with
                  | Some s => default now (parse_dt repr (JStr s)) | None => now end in
  task <| k_status := status |> <| k_finished_at := Some finished |>
       <| k_progress := if String.eqb status "succeeded" then Some 100 else k_progress task |>
       <| k_progress_message := None |>
       <| k_result := match rs_result resp with RStr s => Some s | _ => None end |>
       <| k_error := result_warning repr resp status (rs_error resp) |>.
(** the column widths of the task row *)
Definition check_task (task : Task) : M unit :=
  _ ← wide 32 (k_progress task);
  _ ← match k_progress_message task with Some m => col_str 255 (JStr m) | None => mret None end;
  mret tt.
Definition stamp_agent_version (host_id : string) (task : Task) (resp : AgentResponse) : M unit :=
  let version := match rs_result resp with RDict d => dget d "version" | _ => JNull end in
  if String.eqb (k_kind task) "host_update_agent" && String.eqb (k_status task) "succeeded" && truthy version
  then
    repr ← gets w_repr;
    h ← get_host host_id;
    match h with
    | Some h => s ← col_str 64 (JStr (py_str repr version)); put_host (h <| h_agent_version := s |>)
    | None => mret tt
    end
  else mret tt.
Definition release_task_lock (task : Task) : M unit :=
  if String.eqb (k_target_type task) "vm" then
    attempt (release_vm_lock (k_target_id task) (Some (k_id task));; mret tt)
  else mret tt.
(** what follows the flushed terminal status *)
Definition after_terminal (host_id : string) (task : Task) (resp : AgentResponse) : M unit :=
  stamp_agent_version host_id task resp;;
  (if String.eqb (k_target_type task) "host" then best_effort (apply_host_action_response task resp)
   else mret tt);;
  (match rs_template resp with
   | Some t => if String.eqb (k_status task) "succeeded" && String.eqb (k_kind task) "vm_export_template"
               then best_effort (upsert_template (k_host_id task) t) else mret tt
   | None => mret tt
   end);;
  best_effort (apply_response_state host_id resp task);;
  release_task_lock task.

Definition apply_response (host_id : string) (resp : AgentResponse) : M unit :=
  found ← get_task (rs_id resp);
  match found with
  | None => mret tt
  | Some task =>
      if negb (String.eqb (k_host_id task) host_id) then mret tt
      else
        resp ← lift_py (strip_response_thumbnails resp);
        let task := task <| k_response_payload := Some resp |> in
        now ← now_utc;
        if String.eqb (rs_status resp) "running" && bool_decide (k_status task ∈ ["queued"; "running"]) then
          let task := running_progress resp task now in
          check_task task;; put_task task
        else
          repr ← gets w_repr;
          let task := finish_task repr resp task now in
          check_task task;; put_task task;;
          settle_task_events [k_id task] (k_status task) (k_error task);;
          after_terminal host_id task resp
  end.

(** ** Frames *)

(** what the best-effort refresh may not touch: tasks, audit events, locks *)
Abbreviation all_tasks := (λ w, (λ d, tasks d) (w_db w)).
Abbreviation all_events := (λ w, (λ d, audit_events d) (w_db w)).

Lemma same_one_or_none {B A} (f : world → B) (l : list A) : keeps (same f) (one_or_none l).
Proof. unfold one_or_none. keep. Qed.
#[export] Hint Resolve same_one_or_none : frame.

Ltac refresh_frame :=
  unfold apply_response_state, apply_create_state, apply_delete_state, apply_succeeded_state,
    apply_failed_state, apply_response_vm_status, response_item, vm_by_guid, put_vm,
    stamp_agent_version, apply_host_action_response, upsert_template, template_id, template_row,
    host_exists, best_effort, put_host;
  keep.
Lemma refresh_tasks host_id resp task : keeps (same all_tasks) (apply_response_state host_id resp task).
Proof. refresh_frame. Qed.
Lemma refresh_events host_id resp task : keeps (same all_events) (apply_response_state host_id resp task).
Proof. refresh_frame. Qed.
Lemma refresh_locks host_id resp task v :
  keeps (same (locked_as v)) (apply_response_state host_id resp task).
Proof. refresh_frame. Qed.
Lemma refresh_up host_id resp task : keeps (same w_cache_up) (apply_response_state host_id resp task).
Proof. refresh_frame. Qed.
Lemma refresh_cfg host_id resp task : keeps (same w_cfg) (apply_response_state host_id resp task).
Proof. refresh_frame. Qed.
#[export] Hint Resolve refresh_tasks refresh_events refresh_locks refresh_up refresh_cfg : frame.

(** The lifecycle's own data: task rows, audit events, locks. *)
Definition kept (w w' : world) : Prop :=
  same all_tasks w w' ∧ same all_events w w' ∧ same w_cache_up w w' ∧ same w_cfg w w' ∧
  ∀ v, same (locked_as v) w w'.
#[export] Instance kept_preorder : PreOrder kept.
Proof.
  split; [by intros w|]. intros x y z (A1 & A2 & A3 & A4 & A5) (B1 & B2 & B3 & B4 & B5).
  unfold kept, same in *. split_and!; try congruence.
Qed.
(** a best-effort step returns, whatever its body does, and keeps what the body keeps *)
Lemma best_effort_kept m w :
  keeps (same all_tasks) m → keeps (same all_events) m → keeps (same w_cache_up) m →
  keeps (same w_cfg) m → (∀ v, keeps (same (locked_as v)) m) →
  ∃ w', best_effort m w = (Ok tt, w') ∧ kept w w'.
Proof.
  intros H1 H2 H3 H4 H5. unfold best_effort, try_except, savepoint.
  specialize (H1 w). specialize (H2 w). specialize (H3 w). specialize (H4 w).
  assert (∀ v, same (locked_as v) w (m w).2) as H6 by (intros v; apply H5).
  unfold kept, same in *. destruct (m w) as [[[]|e] w1]; eexists; (split; [done|]); split_and!; done.
Qed.
Lemma refresh_kept host_id task resp w :
  ∃ w', best_effort (apply_response_state host_id resp task) w = (Ok tt, w') ∧ kept w w'.
Proof. apply best_effort_kept; intros; refresh_frame. Qed.
Lemma host_refresh_kept task resp w :
  ∃ w', (if String.eqb (k_target_type task) "host" then best_effort (apply_host_action_response task resp)
         else mret tt) w = (Ok tt, w') ∧ kept w w'.
Proof.
  destruct (String.eqb _ _); [|by exists w]. apply best_effort_kept; intros; refresh_frame.
Qed.
Lemma template_refresh_kept task resp w :
  ∃ w', (match rs_template resp with
         | Some t => if String.eqb (k_status task) "succeeded" && String.eqb (k_kind task) "vm_export_template"
                     then best_effort (upsert_template (k_host_id task) t) else mret tt
         | None => mret tt
         end) w = (Ok tt, w') ∧ kept w w'.
Proof.
  destruct (rs_template resp); [|by exists w]. destruct (_ && _); [|by exists w].
  apply best_effort_kept; intros; refresh_frame.
Qed.

(** the release frees the task's own lock and no other *)
Lemma release_task_run task w :
  cache_ok w →
  ∃ w', release_task_lock task w = (Ok tt, w') ∧ w_db w' = w_db w ∧
    ∀ v, lock_view w' v =
      match lock_view w v with
      | Some l => if String.eqb (k_target_type task) "vm" && String.eqb v (k_target_id task) &&
                     String.eqb (lk_task_id l) (k_id task) then None else Some l
      | None => None
      end.
Proof.
  intros Hok. unfold release_task_lock. destruct (String.eqb (k_target_type task) "vm"); cbn [andb].
  2:{ exists w. split; [done|]. split; [done|]. intros v. by destruct (lock_view w v). }
  unfold attempt, try_except.
  destruct (lock_view w (k_target_id task)) as [l|] eqn:El;
    [destruct (String.eqb_spec (lk_task_id l) (k_id task)) as [Ht|Ht]|].
  - destruct (mutex_release_owner w (k_target_id task) l Hok El) as (c & Hr & Hv & _ & Ho).
    rewrite <- Ht, (run_ok _ _ _ _ _ Hr). eexists. split; [done|]. split; [done|]. intros v.
    destruct (String.eqb_spec v (k_target_id task)) as [->|Hne]; cbn [andb].
    + rewrite Hv, El. by rewrite String.eqb_refl.
    + rewrite Ho by done. by destruct (lock_view w v).
  - rewrite (run_ok _ _ _ _ _ (mutex_release_other w (k_target_id task) (k_id task) Hok
      ltac:(intros l'; rewrite El; intros [= <-]; done))).
    exists w. split; [done|]. split; [done|]. intros v.
    destruct (String.eqb_spec v (k_target_id task)) as [->|Hne]; cbn [andb].
    + rewrite El. apply String.eqb_neq in Ht. by rewrite Ht.
    + by destruct (lock_view w v).
  - rewrite (run_ok _ _ _ _ _ (mutex_release_other w (k_target_id task) (k_id task) Hok
      ltac:(intros l'; rewrite El; done))).
    exists w. split; [done|]. split; [done|]. intros v.
    destruct (String.eqb_spec v (k_target_id task)) as [->|Hne]; cbn [andb].
    + by rewrite El.
    + by destruct (lock_view w v).
Qed.

(** ** Properties *)

(** the response ends its task: not a progress report of a live task *)
Definition ends_task (k : Task) (resp : AgentResponse) : bool :=
  negb (String.eqb (rs_status resp) "running" && bool_decide (k_status k ∈ ["queued"; "running"])).

(** the world right after the terminal status is flushed *)
Definition finished_world (w : world) (k' : Task) : world :=
  w <| w_db := w_db w <| tasks := <[k_id k' := k']> (tasks (w_db w)) |>
                      <| audit_events := settle_event [k_id k'] (k_status k') (k_error k')
                                           <$> audit_events (w_db w) |> |>.
(** the version an upgrade reports fits its column, or none is stamped *)
Definition upgrade_stamps (repr : json → string) (k : Task) (resp : AgentResponse) : bool :=
  let version := match rs_result resp with RDict d => dget d "version" | _ => JNull end in
  if String.eqb (k_kind k) "host_update_agent" && String.eqb (rs_status resp) "succeeded" && truthy version
  then (String.length (py_str repr version) <=? 64)%nat else true.
Lemma finished_status repr resp k now :
  k_status (finish_task repr resp k now) = if String.eqb (rs_status resp) "succeeded" then "succeeded" else "failed".
Proof. done. Qed.
Lemma finished_succeeded repr resp k now :
  String.eqb (k_status (finish_task repr resp k now)) "succeeded" = String.eqb (rs_status resp) "succeeded".
Proof. rewrite finished_status. by destruct (String.eqb (rs_status resp) "succeeded"). Qed.
Lemma stamp_run w host_id resp k p now :
  let k' := finish_task (w_repr w) resp (k <| k_response_payload := p |>) now in
  upgrade_stamps (w_repr w) k resp = true →
  ∃ w', stamp_agent_version host_id k' resp w = (Ok tt, w') ∧ kept w w' ∧
    (k_kind k ≠ "host_update_agent" → w' = w).
Proof.
  intros k' Hs. unfold stamp_agent_version, upgrade_stamps in *.
  change (k_kind k') with (k_kind k). unfold k'. rewrite finished_succeeded.
  set (version := match rs_result resp with RDict d => dget d "version" | _ => JNull end) in *.
  destruct (String.eqb_spec (k_kind k) "host_update_agent") as [E|E]; cbn [andb] in *; [|by exists w].
  destruct (String.eqb (rs_status resp) "succeeded" && truthy version) eqn:Et; [|by exists w].
  rewrite run_gets. unfold get_host. rewrite run_query.
  destruct (hosts (w_db w) !! host_id) as [h|]; [|by exists w].
  unfold col_str. rewrite Hs, run_ret. unfold put_host. eexists. split; [done|]. done.
Qed.
(** what makes the response fail after the terminal status is flushed *)
Lemma stamp_raises w host_id resp k p now h :
  let k' := finish_task (w_repr w) resp (k <| k_response_payload := p |>) now in
  upgrade_stamps (w_repr w) k resp = false → hosts (w_db w) !! host_id = Some h →
  stamp_agent_version host_id k' resp w = (Raise EData, w).
Proof.
  intros k' Hs Hh. unfold stamp_agent_version, upgrade_stamps in *.
  change (k_kind k') with (k_kind k). unfold k'. rewrite finished_succeeded.
  set (version := match rs_result resp with RDict d => dget d "version" | _ => JNull end) in *.
  destruct (_ && truthy version); [|done].
  rewrite run_gets. unfold get_host. rewrite run_query, Hh. unfold col_str. by rewrite Hs.
Qed.
(** up to the terminal status *)
Lemma response_flushed w host_id resp resp' k :
  tasks (w_db w) !! rs_id resp = Some k → k_host_id k = host_id →
  strip_response_thumbnails resp = inl resp' → ends_task k resp' = true →
  (∀ p, k_progress k = Some p → fits 32 p = true) →
  let k' := finish_task (w_repr w) resp' (k <| k_response_payload := Some resp' |>) (utc (w_now w)) in
  apply_response host_id resp w = after_terminal host_id k' resp' (finished_world w k').
Proof.
  intros Hk Hhost Hstrip Hends Hfits. cbv zeta.
  set (k' := finish_task _ _ _ _). unfold apply_response, get_task. rewrite run_query, Hk.
  rewrite (proj2 (String.eqb_eq _ _) Hhost). cbn [negb]. rewrite Hstrip. cbn [lift_py]. rewrite run_ret.
  rewrite run_now. unfold ends_task in Hends. apply negb_true_iff in Hends.
  change (k_status k) with (k_status (k <| k_response_payload := Some resp' |>)) in Hends.
  rewrite Hends, run_gets. fold k'.
  assert (check_task k' w = (Ok tt, w)) as Hcheck.
  { unfold check_task, k', finish_task. cbn.
    destruct (String.eqb (rs_status resp') "succeeded"); cbn; [done|].
    destruct (k_progress k) as [p|]; cbn; [|done]. by rewrite (Hfits p). }
  rewrite (run_ok _ _ _ _ _ Hcheck). unfold put_task, settle_task_events. by rewrite !run_exec.
Qed.
(** the shape of a run that ends a task *)
Lemma response_run_any w host_id resp resp' k :
  tasks (w_db w) !! rs_id resp = Some k → k_id k = rs_id resp → k_host_id k = host_id →
  strip_response_thumbnails resp = inl resp' → ends_task k resp' = true →
  (∀ p, k_progress k = Some p → fits 32 p = true) → upgrade_stamps (w_repr w) k resp' = true → cache_ok w →
  let k' := finish_task (w_repr w) resp' (k <| k_response_payload := Some resp' |>) (utc (w_now w)) in
  ∃ w3 w4 w', apply_response host_id resp w = (Ok tt, w') ∧
    kept (finished_world w k') w3 ∧
    (k_target_type k = "vm" → k_kind k ≠ "vm_export_template" → k_kind k ≠ "host_update_agent" → w3 = finished_world w k') ∧
    best_effort (apply_response_state host_id resp' k') w3 = (Ok tt, w4) ∧ kept w3 w4 ∧
    release_task_lock k' w4 = (Ok tt, w') ∧ w_db w' = w_db w4 ∧
    ∀ v, lock_view w' v =
      match lock_view w v with
      | Some l => if String.eqb (k_target_type k) "vm" && String.eqb v (k_target_id k) &&
                     String.eqb (lk_task_id l) (k_id k) then None else Some l
      | None => None
      end.
Proof.
  intros Hk Hid Hhost Hstrip Hends Hfits Hkind Hok. cbv zeta.
  rewrite (response_flushed w host_id resp resp' k) by done.
  set (k' := finish_task _ _ _ _). unfold after_terminal. set (w1 := finished_world w k').
  destruct (stamp_run w1 host_id resp' k (Some resp') (utc (w_now w)) Hkind) as (w1' & Hst & K1 & Hsame).
  change (finish_task (w_repr w1) _ _ _) with k' in Hst. rewrite (run_ok _ _ _ _ _ Hst).
  destruct (host_refresh_kept k' resp' w1') as (w2 & H2 & K2). rewrite (run_ok _ _ _ _ _ H2).
  destruct (template_refresh_kept k' resp' w2) as (w3 & H3 & K3). rewrite (run_ok _ _ _ _ _ H3).
  destruct (refresh_kept host_id k' resp' w3) as (w4 & H4 & K4). rewrite (run_ok _ _ _ _ _ H4).
  assert (kept w1 w3) as K13 by (etrans; [exact K1|etrans; [exact K2|exact K3]]).
  assert (kept w1 w4) as (T & A & U & C & L) by (etrans; [exact K13|exact K4]).
  destruct (cache_ok_same w w4 Hok U C L) as [Hok4 Hview].
  destruct (release_task_run k' w4 Hok4) as (w' & Hr & Hdb & Hlocks).
  exists w3, w4, w'. split_and!; try done.
  - intros Htt Hke Hku. rewrite (Hsame Hku) in H2.
    change (k_target_type k') with (k_target_type k) in H2. rewrite Htt in H2.
    injection H2 as <-. change (k_kind k') with (k_kind k) in H3.
    apply String.eqb_neq in Hke. rewrite Hke, andb_false_r in H3.
    destruct (rs_template resp'); by injection H3.
  - intros v. by rewrite Hlocks, Hview.
Qed.
Lemma stamps_other repr k resp : k_kind k ≠ "host_update_agent" → upgrade_stamps repr k resp = true.
Proof. intros H%String.eqb_neq. unfold upgrade_stamps. by rewrite H. Qed.
Lemma response_run w host_id resp resp' k :
  tasks (w_db w) !! rs_id resp = Some k → k_id k = rs_id resp → k_host_id k = host_id →
  strip_response_thumbnails resp = inl resp' → ends_task k resp' = true →
  (∀ p, k_progress k = Some p → fits 32 p = true) → k_kind k ≠ "host_update_agent" → cache_ok w →
  let k' := finish_task (w_repr w) resp' (k <| k_response_payload := Some resp' |>) (utc (w_now w)) in
  ∃ w3 w4 w', apply_response host_id resp w = (Ok tt, w') ∧
    kept (finished_world w k') w3 ∧
    (k_target_type k = "vm" → k_kind k ≠ "vm_export_template" → w3 = finished_world w k') ∧
    best_effort (apply_response_state host_id resp' k') w3 = (Ok tt, w4) ∧ kept w3 w4 ∧
    release_task_lock k' w4 = (Ok tt, w') ∧ w_db w' = w_db w4 ∧
    ∀ v, lock_view w' v =
      match lock_view w v with
      | Some l => if String.eqb (k_target_type k) "vm" && String.eqb v (k_target_id k) &&
                     String.eqb (lk_task_id l) (k_id k) then None else Some l
      | None => None
      end.
Proof.
  intros Hk Hid Hhost Hstrip Hends Hfits Hkind Hok. cbv zeta.
  destruct (response_run_any w host_id resp resp' k) as (w3 & w4 & w' & H1 & H2 & H3 & H4); [done..| |done|].
  { by apply stamps_other. }
  exists w3, w4, w'. split; [exact H1|]. split; [exact H2|]. split; [|exact H4]. intros. by apply H3.
Qed.

(** C4: a terminal response ends the task and frees its VM, whatever objects
    it carries for the rows.  For a task of the responding host, [apply_response]
    returns when two things hold of the payload: the thumbnails can be stripped
    (a [vms] list that can be iterated, or none) and, for an agent upgrade, the
    reported version fits its column.  Then the task row is the finished one
    (succeeded or failed, with a finish time), its pending audit events carry
    that status and error, no other task or event changed, the lock the task
    held on its VM is gone and every other lock is as it was (the cache being
    reachable) - even when the attached VM, host or template object is
    malformed.  [Consumers.malformed_response_strands_task] is what happens
    when one of the two conditions fails. *)
Theorem response_ends_task w host_id resp resp' k :
  tasks (w_db w) !! rs_id resp = Some k → k_id k = rs_id resp → k_host_id k = host_id →
  strip_response_thumbnails resp = inl resp' → ends_task k resp' = true →
  (∀ p, k_progress k = Some p → fits 32 p = true) → upgrade_stamps (w_repr w) k resp' = true → cache_ok w →
  let k' := finish_task (w_repr w) resp' (k <| k_response_payload := Some resp' |>) (utc (w_now w)) in
  ∃ w', apply_response host_id resp w = (Ok tt, w') ∧
    k_status k' = (if String.eqb (rs_status resp') "succeeded" then "succeeded" else "failed") ∧
    tasks (w_db w') = <[k_id k := k']> (tasks (w_db w)) ∧
    audit_events (w_db w') =
      settle_event [k_id k] (k_status k') (k_error k') <$> audit_events (w_db w) ∧
    ∀ v, lock_view w' v =
      match lock_view w v with
      | Some l => if String.eqb (k_target_type k) "vm" && String.eqb v (k_target_id k) &&
                     String.eqb (lk_task_id l) (k_id k) then None else Some l
      | None => None
      end.
Proof.
  intros Hk Hid Hhost Hstrip Hends Hfits Hkind Hok. cbv zeta.
  destruct (response_run_any w host_id resp resp' k) as (w3 & w4 & w' & Hr & K1 & _ & _ & K2 & _ & Hdb & Hl);
    [done..|].
  set (k' := finish_task _ _ _ _) in *. assert (k_id k' = k_id k) as Hidk by done.
  assert (kept (finished_world w k') w4) as (T & A & _) by (etrans; [exact K1|exact K2]).
  exists w'. split; [exact Hr|]. split; [done|]. rewrite Hdb, <- Hidk.
  split; [exact T|]. split; [exact A|]. rewrite Hidk. exact Hl.
Qed.

(** an example: a start task holding its VM's lock *)
Definition sample_task (kind status : string) : Task :=
  mkTask "t1" kind status "vm" "v1" (Some "web") "h1" "op" (Some 0) None 0 None None None None None None (Some "t1").
Definition sample_response (status : string) : AgentResponse :=
  mkResponse "t1" "vm_start" status None None RNone None None None None None None.
Definition task_world (kind status : string) : world :=
  let w := sample_world <| w_db := empty_db <| tasks := {["t1" := sample_task kind status]} |> |> in
  (acquire_vm_lock "v1" "t1" kind "op" w).2.
Lemma task_world_ok kind status : cache_ok (task_world kind status).
Proof.
  unfold task_world. set (w := _ <| w_db := _ |>).
  assert (cache_ok w) as Hok.
  { split; [done|split; [by apply locks_wf_empty|by vm_compute]]. }
  destruct (mutex_acquire_free w "v1" "t1" kind "op" Hok) as (c & Ha & _ & Hok' & _); [done|].
  by rewrite Ha.
Qed.
Lemma response_ends_task_witness :
  let w := task_world "vm_start" "running" in
  ∃ w', apply_response "h1" (sample_response "succeeded") w = (Ok tt, w') ∧
    (k_status <$> tasks (w_db w') !! "t1") = Some "succeeded" ∧
    is_some (lock_view w "v1") = true ∧ lock_view w' "v1" = None.
Proof.
  cbv zeta.
  destruct (response_ends_task (task_world "vm_start" "running") "h1" (sample_response "succeeded")
    (sample_response "succeeded") (sample_task "vm_start" "running")) as (w' & Hr & Hs & Ht & _ & Hl);
    try reflexivity; [by intros p [= <-]|apply task_world_ok|].
  exists w'. split; [exact Hr|]. split; [rewrite Ht, lookup_insert_eq; reflexivity|].
  split; [vm_compute; reflexivity|]. rewrite Hl. vm_compute. reflexivity.
Defined.

(** ** The branches of the refresh *)
Lemma best_effort_ok (m : M unit) w w' : m w = (Ok tt, w') → best_effort m w = (Ok tt, w').
Proof. intros H. unfold best_effort, try_except, savepoint. by rewrite H. Qed.

(** a create or clone that failed drops its placeholder *)
Lemma create_failed_run host_id resp k' w :
  w_cache_up w = true → k_kind k' ∈ ["vm_create"; "vm_clone"] → k_status k' = "failed" →
  (∀ k v, vms (w_db w) !! k = Some v → v_id v = k) →
  ∃ w', apply_response_state host_id resp k' w = (Ok tt, w') ∧ vms (w_db w') !! k_target_id k' = None.
Proof.
  intros Hup Hkind Hst Hkey. unfold apply_response_state. rewrite bool_decide_eq_true_2 by done.
  unfold apply_create_state, get_vm. rewrite run_query.
  destruct (vms (w_db w) !! k_target_id k') as [v|] eqn:Ev; [|by exists w].
  rewrite Hst. change (String.eqb "failed" "succeeded") with false. cbv iota.
  rewrite run_exec, clear_vm_state_run by done. eexists. split; [done|]. cbn. unfold delete_vms. cbn.
  destruct (keep _ _ !! k_target_id k') as [u|] eqn:Eu; [|done].
  apply lookup_keep in Eu as [Eu Hp]. rewrite Ev in Eu. injection Eu as <-.
  by rewrite (Hkey _ _ Ev), String.eqb_refl in Hp.
Qed.

(** A progress report that arrives late fails a finished task.  The branch
    for [running] needs a live task, so a [running] response for a task that
    already ended (the queue redelivered it, or the sweeper timed the task out)
    takes the terminal branch: the task, even a succeeded one, is marked
    [failed], and for a create or clone the VM row itself is deleted. *)
Theorem late_progress_fails_task w host_id resp resp' k :
  tasks (w_db w) !! rs_id resp = Some k → k_id k = rs_id resp → k_host_id k = host_id →
  strip_response_thumbnails resp = inl resp' →
  k_status k ∈ TERMINAL_TASK_STATUSES → rs_status resp' = "running" →
  (∀ p, k_progress k = Some p → fits 32 p = true) → k_kind k ≠ "host_update_agent" → cache_ok w →
  keyed (w_db w) →
  ∃ w' k', apply_response host_id resp w = (Ok tt, w') ∧
    tasks (w_db w') !! rs_id resp = Some k' ∧ k_status k' = "failed" ∧
    (k_kind k ∈ ["vm_create"; "vm_clone"] → k_target_type k = "vm" →
     vms (w_db w') !! k_target_id k = None).
Proof.
  intros Hk Hid Hhost Hstrip Hterm Hrun Hfits Hkind Hok (Hkv & _).
  assert (ends_task k resp' = true) as Hends.
  { unfold ends_task. rewrite Hrun. cbn. apply negb_true_iff, bool_decide_eq_false.
    unfold TERMINAL_TASK_STATUSES in Hterm. intros Hq. clear -Hterm Hq.
    rewrite !elem_of_cons, elem_of_nil in *. naive_solver congruence. }
  destruct (response_run w host_id resp resp' k) as (w3 & w4 & w' & Hr & K1 & H3 & H4 & K2 & _ & Hdb & _);
    [done..|].
  set (k' := finish_task _ _ _ _) in *.
  assert (k_status k' = "failed") as Hfail by (unfold k', finish_task; cbn; by rewrite Hrun).
  exists w', k'. split; [done|]. rewrite Hdb. split; [|split; [done|]].
  - assert (kept (finished_world w k') w4) as (T & _) by (etrans; [exact K1|exact K2]).
    unfold same in T. cbn in T. rewrite T, <- Hid. apply lookup_insert_eq.
  - intros Hc Htt.
    assert (k_kind k ≠ "vm_export_template") as Hne.
    { intros He. rewrite He in Hc. clear -Hc. rewrite !elem_of_cons, elem_of_nil in Hc. naive_solver congruence. }
    rewrite (H3 Htt Hne) in H4. destruct Hok as (Hup & _).
    destruct (create_failed_run host_id resp' k' (finished_world w k') Hup Hc Hfail Hkv) as (w5 & H5 & Hn).
    apply best_effort_ok in H5. rewrite H5 in H4. by injection H4 as <-.
Qed.
Lemma late_progress_fails_task_witness :
  let w := task_world "vm_create" "succeeded" <| w_db ::= λ d, d <| vms := {["v1" :=
    mkVm "v1" (Some "g1") "h1" None None "web" "Running" "UEFI" None None 1 0 None None false None
      None None None false None None None None None false false None None None [] [] []]} |> |> in
  ∃ w' k', apply_response "h1" (sample_response "running") w = (Ok tt, w') ∧
    (k_status <$> tasks (w_db w) !! "t1") = Some "succeeded" ∧
    tasks (w_db w') !! "t1" = Some k' ∧ k_status k' = "failed" ∧ vms (w_db w') !! "v1" = None.
Proof.
  cbv zeta. set (w := _ <| w_db ::= _ |>).
  destruct (late_progress_fails_task w "h1" (sample_response "running") (sample_response "running")
    (sample_task "vm_create" "succeeded")) as (w' & k' & Hr & Ht & Hs & Hv).
  - vm_compute. reflexivity.
  - reflexivity.
  - reflexivity.
  - reflexivity.
  - by left.
  - reflexivity.
  - by intros p [= <-].
  - discriminate.
  - apply (task_world_ok "vm_create" "succeeded").
  - assert (hosts (w_db w) = ∅) as Hh by (vm_compute; reflexivity).
    assert (tasks (w_db w) = {["t1" := sample_task "vm_create" "succeeded"]}) as Ht
      by (vm_compute; reflexivity).
    split; [|split]; intros k v; rewrite ?Hh, ?Ht, ?lookup_empty, ?lookup_singleton_Some; [|done|].
    + cbn. rewrite lookup_singleton_Some. by intros [<- <-].
    + by intros [<- <-].
  - exists w', k'. split; [exact Hr|]. split; [vm_compute; reflexivity|]. split; [exact Ht|].
    split; [exact Hs|]. apply Hv; [by left|reflexivity].
Defined.
