(* ===== verification/VmInventory.v ===== *)
(** * What a full VM snapshot does to the database

    Refinement of [Inventory.apply_vm_inventory]: the rows of a host after a
    snapshot, against the set of GUIDs the snapshot reports. *)
From S2P Require Import Prelude Py Clock Model World Store Cache AuditLog Normalize Inventory.
Open Scope string_scope.
Open Scope Z_scope.

(** ** Association lists as dicts *)
Lemma assoc_aset {A} (l : list (string * A)) k v k' :
  assoc (aset l k v) k' = if String.eqb k' k then Some v else assoc l k'.
Proof.
  induction l as [|[k1 v1] l IH]; cbn; [done|].
  destruct (String.eqb_spec k k1) as [<-|Hne]; cbn.
  - by destruct (String.eqb k' k).
  - rewrite IH. destruct (String.eqb_spec k' k1) as [->|]; [|done].
    destruct (String.eqb_spec k1 k); congruence.
Qed.

Lemma elem_of_aset {A} (l : list (string * A)) k v p : p ∈ aset l k v → p = (k, v) ∨ p ∈ l.
Proof.
  induction l as [|[k1 v1] l IH]; cbn; [rewrite list_elem_of_singleton; auto|].
  destruct (String.eqb k k1); rewrite !elem_of_cons; naive_solver.
Qed.

(** the GUID an item of the snapshot reports *)
Definition reported_guid (repr : json → string) (raw : json) : option string :=
  match raw with
  | JObj d =>
      match normalize_vm repr (pop_thumbnail d).2 with
      | inl item => match dget item "vmUuid" with
                    | JStr u => if str_nonempty u then Some u else None
                    | _ => None
                    end
      | inr _ => None
      end
  | _ => None
  end.
Definition reports (repr : json → string) (items : list json) (u : string) : Prop :=
  ∃ raw, raw ∈ items ∧ reported_guid repr raw = Some u.

Lemma inventory_guid_inv item w o w' :
  inventory_guid item w = (Ok o, w') →
  w' = w ∧ o = match dget item "vmUuid" with
               | JStr u => if str_nonempty u then Some u else None
               | _ => None
               end.
Proof.
  unfold inventory_guid. destruct (dget item "vmUuid") as [|[]|z|f|[|c s]|[|]|[|]] eqn:E;
    repeat match goal with |- (if ?b then _ else _) _ = _ → _ => destruct b end;
    try (intros [<- <-]%ret_inv; done); done.
Qed.

(** the hosts whose VMs a snapshot of [h] may claim *)
Definition scope_ids (h : Host) (d : database) : list string :=
  match h_cluster_id h with
  | None => [h_id h]
  | Some c => h_id <$> rows (λ h', bool_decide (h_cluster_id h' = Some c)) (hosts d)
  end.
Lemma scope_run h w : inventory_scope_host_ids h w = (Ok (scope_ids h (w_db w)), w).
Proof. unfold inventory_scope_host_ids, scope_ids. by destruct (h_cluster_id h). Qed.

(** ** The rows no longer reported *)
Definition unreported (host_id : string) (seen : gset string) (v : Vm) : bool :=
  String.eqb (v_host_id v) host_id && negb (bool_decide (default "" (v_vm_uuid v) ∈ seen)).
Definition rows_tags (w : world) : gmap string Vm * gset (string * string) * gmap string Host :=
  (vms (w_db w), vm_tags (w_db w), hosts (w_db w)).

Definition gone_at (host_id : string) (seen : gset string) (id : string) (d : database) (k : string) : bool :=
  match vms d !! k with
  | Some v => String.eqb k id && unreported host_id seen v
  | None => false
  end.
Lemma remove_unreported_inv host_id seen id w w' :
  (∀ k v, vms (w_db w) !! k = Some v → v_id v = k) →
  remove_unreported host_id seen id w = (Ok tt, w') →
  rows_tags w' =
    (let gone := gone_at host_id seen id (w_db w) in
     (filter (λ kv, gone kv.1 = false) (vms (w_db w)),
      filter (λ vt, gone vt.1 = false) (vm_tags (w_db w)), hosts (w_db w))).
Proof.
  intros Hkey H. unfold remove_unreported in H. apply bind_inv in H as (found & w1 & Hf & H).
  injection Hf as <- <-. cbv zeta.
  assert (∀ gone : string → bool, (∀ k, gone k = false) →
    (filter (λ kv, gone kv.1 = false) (vms (w_db w)), filter (λ vt, gone vt.1 = false) (vm_tags (w_db w)),
     hosts (w_db w)) = rows_tags w) as Hnone.
  { intros gone Hg. unfold rows_tags. f_equal. f_equal.
    - apply map_eq. intros k. apply option_eq. intros v. rewrite map_lookup_filter_Some. naive_solver.
    - apply set_eq. intros vt. rewrite elem_of_filter. naive_solver. }
  destruct (vms (w_db w) !! id) as [vm|] eqn:Evm.
  2:{ apply ret_inv in H as [_ <-]. symmetry. apply Hnone. intros k. unfold gone_at.
      destruct (vms (w_db w) !! k) eqn:Ek; [|done]. destruct (String.eqb_spec k id); [congruence|done]. }
  fold (unreported host_id seen vm) in H. destruct (unreported host_id seen vm) eqn:Eu.
  2:{ apply ret_inv in H as [_ <-]. symmetry. apply Hnone. intros k. unfold gone_at.
      destruct (vms (w_db w) !! k) as [v|] eqn:Ek; [|done].
      destruct (String.eqb_spec k id) as [->|]; [|done]. rewrite Evm in Ek. injection Ek as <-. done. }
  apply bind_inv in H as (fl & w1 & Hfl & H). injection Hfl as _ <-.
  apply bind_inv in H as ([] & w1 & Hrec & H). apply bind_inv in H as ([] & w2 & Hc & H).
  assert (rows_tags w1 = rows_tags w) as H1.
  { assert (keeps (same rows_tags) (if fl : bool then mret tt
      else record None "vm.inventory_remove" (Some (TVm vm)) None None
             (Some [("reason", JStr "no longer reported by its host agent")]);; mret tt)) as Hs by keep.
    specialize (Hs w). rewrite Hrec in Hs. exact Hs. }
  assert (rows_tags w2 = rows_tags w1) as H2.
  { assert (keeps (same rows_tags) (clear_vm_state id)) as Hs by keep.
    specialize (Hs w1). rewrite Hc in Hs. exact Hs. }
  rewrite H1 in H2. unfold rows_tags in H2. injection H2 as Hv Ht Hh.
  injection H as <-. unfold rows_tags, delete_vms. cbn. rewrite Hv, Ht, Hh. f_equal. f_equal.
  - apply map_eq. intros k. apply option_eq. intros v. unfold keep. rewrite !map_lookup_filter_Some. cbn.
    unfold gone_at. split; intros [Hk Hg]; (split; [done|]); rewrite Hk in *; pose proof (Hkey _ _ Hk) as Hid; rewrite Hid in *.
    + destruct (String.eqb k id); done.
    + destruct (String.eqb_spec k id) as [->|]; [|done]. rewrite Evm in Hk. injection Hk as <-.
      by rewrite Eu in Hg.
  - apply set_eq. intros [k t]. rewrite !elem_of_filter. cbn. unfold gone_at.
    destruct (vms (w_db w) !! k) as [v|] eqn:Ek; [|done]. rewrite (Hkey _ _ Ek).
    destruct (String.eqb_spec k id) as [->|]; [|done]. rewrite Evm in Ek. injection Ek as <-. by rewrite Eu.
Qed.

Lemma remove_all host_id seen ids w w' :
  (∀ k v, vms (w_db w) !! k = Some v → v_id v = k) →
  for_each ids (remove_unreported host_id seen) w = (Ok tt, w') →
  let gone k v := bool_decide (k ∈ ids) && unreported host_id seen v in
  hosts (w_db w') = hosts (w_db w) ∧
  (∀ k v, vms (w_db w') !! k = Some v ↔ vms (w_db w) !! k = Some v ∧ gone k v = false) ∧
  (∀ k t v, vms (w_db w') !! k = Some v → (k, t) ∈ vm_tags (w_db w') ↔ (k, t) ∈ vm_tags (w_db w)).
Proof.
  intros Hkey H. cbv zeta.
  apply (for_each_inv _ (λ done_ w1,
    (hosts (w_db w1) = hosts (w_db w) ∧
    (∀ k v, vms (w_db w1) !! k = Some v ↔
       vms (w_db w) !! k = Some v ∧ bool_decide (k ∈ done_) && unreported host_id seen v = false) ∧
    (∀ k t v, vms (w_db w1) !! k = Some v → (k, t) ∈ vm_tags (w_db w1) ↔ (k, t) ∈ vm_tags (w_db w))))) in H; [done| |].
  - clear H. intros done_ id w1 w2 _ (Hh & Hr & Ht) H.
    apply remove_unreported_inv in H; [|intros k v Hv; apply Hr in Hv as [Hv _]; eauto].
    unfold rows_tags in H. cbv zeta in H. injection H as Hv2 Ht2 Hh2. rewrite Hv2, Ht2, Hh2.
    split; [done|]. split.
    + intros k v. rewrite map_lookup_filter_Some. cbn. unfold gone_at. rewrite Hr. split.
      * intros [[Hk Hd] Hg]. split; [done|]. rewrite (proj2 (Hr k v) (conj Hk Hd)) in Hg.
        destruct (unreported host_id seen v); [|by rewrite andb_false_r].
        rewrite andb_true_r in *. bool_prop. apply bool_decide_eq_false_2.
        rewrite elem_of_app, list_elem_of_singleton. intros [?| ->]; [done|].
        by rewrite String.eqb_refl in Hg.
      * intros [Hk Hd]. assert (bool_decide (k ∈ done_) && unreported host_id seen v = false) as Hd'.
        { destruct (unreported host_id seen v); [|by rewrite andb_false_r].
          rewrite andb_true_r in *. bool_prop. apply bool_decide_eq_false_2. set_solver. }
        split; [done|]. rewrite (proj2 (Hr k v) (conj Hk Hd')).
        destruct (unreported host_id seen v); [|by rewrite andb_false_r].
        rewrite andb_true_r in *. bool_prop. apply String.eqb_neq. intros ->. apply Hd. set_solver.
    + intros k t v Hv. apply map_lookup_filter_Some in Hv as [Hk Hg]. cbn in Hg.
      rewrite elem_of_filter. cbn. rewrite <- (Ht k t v Hk). naive_solver.
  - split; [done|]. split; [|done]. intros k v. rewrite bool_decide_eq_false_2 by apply not_elem_of_nil.
    naive_solver.
Qed.

(** the GUID map of a list of rows: its entries, and the GUIDs it has *)
Lemma guid_map_spec u l acc :
  let r := foldl (λ acc v, match v_vm_uuid v with Some u => aset acc u (v_id v) | None => acc end) acc l in
  (∀ k, assoc r u = Some k → assoc acc u = Some k ∨ ∃ v, v ∈ l ∧ v_vm_uuid v = Some u ∧ v_id v = k) ∧
  (is_Some (assoc acc u) ∨ (∃ v, v ∈ l ∧ v_vm_uuid v = Some u) → is_Some (assoc r u)).
Proof.
  revert acc. induction l as [|v l IH]; intros acc; cbn.
  - split; [auto|]. intros [?|(v & Hv & _)]; [done|by apply not_elem_of_nil in Hv].
  - destruct (v_vm_uuid v) as [x|] eqn:Ex; cbn in IH |- *.
    + destruct (IH (aset acc x (v_id v))) as [I1 I2]. rewrite assoc_aset in I1, I2. split.
      * intros k Hk. destruct (I1 k Hk) as [Ha|(v' & Hv' & ? & ?)].
        -- destruct (String.eqb_spec u x) as [->|]; [|by left].
           right. exists v. split; [by left|]. split; congruence.
        -- right. exists v'. split; [by right|done].
      * intros Hor. apply I2. destruct (String.eqb_spec u x) as [->|Hne]; [by left; eexists|].
        destruct Hor as [?|(v' & Hv' & Hu')]; [by left|].
        apply elem_of_cons in Hv' as [->|Hv']; [congruence|]. right. eauto.
    + destruct (IH acc) as [I1 I2]. split.
      * intros k Hk. destruct (I1 k Hk) as [Ha|(v' & Hv' & ? & ?)]; [by left|].
        right. exists v'. split; [by right|done].
      * intros Hor. apply I2. destruct Hor as [?|(v' & Hv' & Hu')]; [by left|].
        apply elem_of_cons in Hv' as [->|Hv']; [congruence|]. right. eauto.
Qed.

Section snapshot.
Context (w0 : world) (host_id : string) (h : Host).
Context (Hh : hosts (w_db w0) !! host_id = Some h).
Context (Hkeyed : keyed (w_db w0)) (Hguid : guids_unique (w_db w0)) (Hplaced : placed (w_db w0)).
(** uuid4 never repeats itself nor an id in use *)
Context (Hfresh : ∀ n, (w_seq w0 ≤ n)%nat → vms (w_db w0) !! w_uuid4 w0 n = None)
        (Hinj : ∀ n m, w_uuid4 w0 n = w_uuid4 w0 m → n = m).

#[local] Abbreviation scope := (scope_ids h (w_db w0)).
#[local] Abbreviation existing0 := (existing_vms (scope_ids h (w_db w0)) (w_db w0)).

Lemma hid_eq : h_id h = host_id.
Proof. destruct Hkeyed as (_ & Hk & _). eauto. Qed.
(** a row of a host of the scope has the reporting host's cluster *)
Lemma scope_cluster k v :
  vms (w_db w0) !! k = Some v → v_host_id v ∈ scope → v_cluster_id v = h_cluster_id h ∧
  (h_cluster_id h = None → v_host_id v = host_id).
Proof.
  intros Hv Hs. destruct (Hplaced k v Hv) as (h' & Hh' & Hc). unfold scope_ids in Hs.
  destruct (h_cluster_id h) as [c|] eqn:Ec.
  - apply list_elem_of_fmap in Hs as (h2 & He & H2). apply elem_of_rows in H2 as (k2 & H2 & Hb).
    apply bool_decide_eq_true in Hb. destruct Hkeyed as (_ & Hk & _). rewrite (Hk _ _ H2) in He. subst.
    split; [congruence|done].
  - apply list_elem_of_singleton in Hs. rewrite hid_eq in Hs. rewrite Hs in Hh'. split; congruence.
Qed.
Lemma host_in_scope : host_id ∈ scope.
Proof.
  unfold scope_ids. destruct (h_cluster_id h) as [c|] eqn:Ec.
  - rewrite <- hid_eq. apply list_elem_of_fmap. exists h. split; [done|].
    apply elem_of_rows. exists host_id. split; [done|]. by apply bool_decide_eq_true.
  - rewrite hid_eq. by apply list_elem_of_singleton.
Qed.

(** [known u]: a row of the scope carries the GUID *)
Definition known_at (u k : string) : Prop :=
  ∃ v, vms (w_db w0) !! k = Some v ∧ v_host_id v ∈ scope ∧ v_vm_uuid v = Some u.
Lemma known_unique u k k' : known_at u k → known_at u k' → k = k'.
Proof.
  intros (v & Hv & Hs & Hu) (v' & Hv' & Hs' & Hu'). apply (Hguid k k' v v' Hv Hv').
  unfold same_slot. rewrite Hu, Hu', String.eqb_refl. cbn.
  destruct (scope_cluster _ _ Hv Hs) as [-> H1], (scope_cluster _ _ Hv' Hs') as [-> H2].
  destruct (h_cluster_id h); [apply String.eqb_refl|].
  rewrite H1, H2 by done. apply String.eqb_refl.
Qed.
Lemma existing0_spec u k : assoc existing0 u = Some k ↔ known_at u k.
Proof.
  unfold existing_vms.
  set (l := rows _ (vms (w_db w0))). destruct (guid_map_spec u l []) as [H1 H2]. cbn in H1, H2.
  assert (∀ v, v ∈ l → ∃ k, vms (w_db w0) !! k = Some v ∧ v_id v = k ∧ v_host_id v ∈ scope) as Hl.
  { intros v Hv. apply elem_of_rows in Hv as (k' & Hv & Hp). bool_prop.
    exists k'. split; [done|]. split; [|done]. destruct Hkeyed as (Hk & _). eauto. }
  assert (∀ k, assoc (foldl (λ acc v, match v_vm_uuid v with Some u => aset acc u (v_id v) | None => acc end) [] l) u
            = Some k → known_at u k) as Hto.
  { intros k' Hk'. destruct (H1 _ Hk') as [?|(v & Hv & Hu & <-)]; [done|].
    destruct (Hl v Hv) as (k2 & ? & -> & ?). by exists v. }
  split; [apply Hto|]. intros Hk. destruct H2 as [k' Hk'].
  { right. destruct Hk as (v & Hv & Hs & Hu). exists v. split; [|done].
    apply elem_of_rows. exists k. split; [done|]. rewrite bool_decide_eq_true_2 by done. by rewrite Hu. }
  by rewrite Hk', (known_unique _ _ _ (Hto _ Hk') Hk).
Qed.

(** ** The loop over the items *)
#[local] Abbreviation home := (host_id, h_cluster_id h).
Definition untouched (w : world) : Prop :=
  hosts (w_db w) = hosts (w_db w0) ∧ tasks (w_db w) = tasks (w_db w0) ∧
  vm_tags (w_db w) = vm_tags (w_db w0) ∧ w_uuid4 w = w_uuid4 w0 ∧ w_cache_up w = w_cache_up w0 ∧
  w_repr w = w_repr w0 ∧ (w_seq w0 ≤ w_seq w)%nat.
Record loop_inv (tomb : gset string) (done_ : list json) (st : inv_state) (w : world) : Prop := {
  li_untouched : untouched w;
  li_keyed k v : vms (w_db w) !! k = Some v → v_id v = k;
  li_unique : guids_unique (w_db w);
  li_old k v : vms (w_db w0) !! k = Some v →
    ∃ v', vms (w_db w) !! k = Some v' ∧ vm_keys v' = vm_keys v ∧
      (v' = v ∨ known_at (default "" (v_vm_uuid v)) k ∧ vm_home v' = home ∧
                ∃ u, v_vm_uuid v = Some u ∧ u ∈ in_seen st);
  li_new k v : vms (w_db w) !! k = Some v → vms (w_db w0) !! k = None →
    vm_home v = home ∧ (∃ u, v_vm_uuid v = Some u ∧ u ∈ in_seen st) ∧
    ∃ n, k = w_uuid4 w0 n ∧ (n < w_seq w)%nat;
  li_known u k : assoc existing0 u = Some k → assoc (in_existing st) u = Some k;
  li_row u k : assoc (in_existing st) u = Some k →
    (assoc existing0 u = Some k ∨ u ∈ in_seen st ∧ vms (w_db w0) !! k = None) ∧
    ∃ v, vms (w_db w) !! k = Some v ∧ v_vm_uuid v = Some u;
  li_pairs p : p ∈ in_existing st →
    ∃ v, vms (w_db w) !! p.2 = Some v ∧ v_vm_uuid v = Some p.1;
  li_seen u : u ∈ in_seen st ↔
    reports (w_repr w0) done_ u ∧ (is_Some (assoc existing0 u) ∨ u ∉ tomb);
  li_mine u : u ∈ in_seen st →
    ∃ k v, assoc (in_existing st) u = Some k ∧ vms (w_db w) !! k = Some v ∧ vm_home v = home
}.

Lemma reports_snoc repr l x u :
  reports repr (l ++ [x])%list u ↔ reports repr l u ∨ reported_guid repr x = Some u.
Proof.
  unfold reports. setoid_rewrite elem_of_app. setoid_rewrite list_elem_of_singleton. naive_solver.
Qed.

(** one row written: the state overlay changes only the cache *)
Lemma put_row_inv vm w w' :
  (set_vm_state (v_id vm) (v_state vm);; put_vm vm) w = (Ok tt, w') →
  (∀ k, vms (w_db w') !! k = if decide (k = v_id vm) then Some vm else vms (w_db w) !! k) ∧
  w_seq w' = w_seq w ∧ (untouched w → untouched w') ∧
  ((∀ k v, vms (w_db w) !! k = Some v → v_id v = k) → guids_unique (w_db w) → guids_unique (w_db w')).
Proof.
  intros ([] & w1 & Hs & Hp)%bind_inv. unfold set_vm_state in Hs. rewrite run_gets in Hs.
  apply at_now_inv in Hs as (_ & _ & ->).
  unfold put_vm in Hp. apply bind_inv in Hp as (taken & w2 & Hq & Hp). injection Hq as <- <-.
  change (slot_taken (w_db _) vm) with (slot_taken (w_db w) vm) in Hp.
  destruct (slot_taken (w_db w) vm) eqn:Etaken; [done|].
  injection Hp as <-. cbn.
  assert (∀ k, <[v_id vm:=vm]> (vms (w_db w)) !! k
    = if decide (k = v_id vm) then Some vm else vms (w_db w) !! k) as Hrows.
  { intros k. destruct (decide (k = v_id vm)) as [->|Hne]; [apply lookup_insert_eq|].
    by apply lookup_insert_ne. }
  split; [exact Hrows|]. split; [done|]. split; [done|]. intros Hk Hg k k' v v'. cbn. rewrite !Hrows.
  assert (∀ k u, vms (w_db w) !! k = Some u → same_slot u vm = true → k = v_id vm) as Hfree.
  { intros k0 u Hu Hs. unfold slot_taken in Etaken.
    destruct (rows _ (vms (w_db w))) eqn:Er in Etaken; [|done].
    rewrite rows_nil in Er. specialize (Er k0 u Hu). rewrite Hs, andb_true_r in Er.
    bool_prop. apply String.eqb_eq in Er. rewrite <- Er. symmetry. eauto. }
  destruct (decide (k = v_id vm)) as [->|Hne], (decide (k' = v_id vm)) as [->|Hne']; try done.
  - intros [= <-] Hv' Hs. symmetry. apply (Hfree k' v' Hv'). by rewrite same_slot_sym.
  - intros Hv [= <-] Hs. by apply (Hfree k v Hv).
  - apply Hg.
Qed.

(** what an item does when it is not skipped *)
Lemma inventory_item_inv tomb st raw w st' w' :
  w_repr w = w_repr w0 → inventory_item h tomb st raw w = (Ok st', w') →
  match reported_guid (w_repr w0) raw with
  | None => st' = st ∧ w' = w
  | Some u =>
      (assoc (in_existing st) u = None ∧ u ∈ tomb ∧ st' = st ∧ w' = w) ∨
      (∃ base vm w1, (is_Some (assoc (in_existing st) u) ∨ u ∉ tomb) ∧
        (∃ k, assoc (in_existing st) u = Some k ∧ vms (w_db w) !! k = Some base ∧ w1 = w ∨
              (∀ k, assoc (in_existing st) u = Some k → vms (w_db w) !! k = None) ∧
              base = fresh_vm (w_uuid4 w (w_seq w)) (h_id h) u (w_now w) ∧
              w1 = w <| w_seq := S (w_seq w) |>) ∧
        vm_keys vm = vm_keys base ∧ vm_home vm = (h_id h, h_cluster_id h) ∧
        (set_vm_state (v_id vm) (v_state vm);; put_vm vm) w1 = (Ok tt, w') ∧
        in_existing st' = aset (in_existing st) u (v_id vm) ∧ in_seen st' = {[u]} ∪ in_seen st)
  end.
Proof.
  intros Hr H. unfold inventory_item, reported_guid in *. destruct raw as [| | | | | |d]; try done.
  rewrite run_gets, Hr in H. destruct (pop_thumbnail d) as [thumb rest] eqn:Et. cbn [snd].
  apply bind_inv in H as (item & w1 & Hi & H). apply lift_py_inv in Hi as [Hi <-]. rewrite Hi.
  apply bind_inv in H as (guid & w1 & Hg & H). apply inventory_guid_inv in Hg as [-> ->].
  set (g := match dget item "vmUuid" with JStr u => if str_nonempty u then Some u else None | _ => None end) in *.
  destruct g as [u|]; [|by apply ret_inv in H as [-> ->]].
  destruct (negb (is_some (assoc (in_existing st) u)) && bool_decide (u ∈ tomb)) eqn:Esk.
  { left. bool_prop. destruct (assoc (in_existing st) u); [done|]. by apply ret_inv in H as [-> ->]. }
  right. apply bind_inv in H as (found & w1 & Hf & H). apply bind_inv in H as (base & w2 & Hb & H).
  apply bind_inv in H as (vm & w3 & Hw & H). apply write_vm_row_keys in Hw as (-> & Hk & Hhome).
  assert (((set_vm_state (v_id vm) (v_state vm);; put_vm vm) ≫= λ _,
    mret (mkInv (aset (in_existing st) u (v_id vm)) ({[u]} ∪ in_seen st)
      match thumb with Some image => aset (in_thumbs st) (v_id vm) image | None => in_thumbs st end)) w2
    = (Ok st', w')) as H'.
  { rewrite run_assoc. exact H. }
  apply bind_inv in H' as ([] & w4 & Hp & H'). apply ret_inv in H' as [<- <-].
  exists base, vm, w2. split.
  { apply andb_false_iff in Esk as [Esk|Esk]; bool_prop; [left|by right].
    by apply is_some_true. }
  split; [|done].
  destruct (assoc (in_existing st) u) as [k|] eqn:Ea.
  - injection Hf as <- <-. destruct (vms (w_db w) !! k) as [v|] eqn:Ev.
    + apply ret_inv in Hb as [-> ->]. exists k. left. done.
    + rewrite run_new_id, run_gets in Hb. apply ret_inv in Hb as [<- <-]. exists k. right.
      split; [by intros ? [= ->]|]. done.
  - apply ret_inv in Hf as [<- <-]. rewrite run_new_id, run_gets in Hb. apply ret_inv in Hb as [<- <-].
    exists u. right. done.
Qed.

Lemma vm_keys_eq a b :
  vm_keys a = vm_keys b → v_id a = v_id b ∧ v_vm_uuid a = v_vm_uuid b ∧ v_folder_id a = v_folder_id b.
Proof. unfold vm_keys. by intros [= -> -> ->]. Qed.

(** the step on a row the loop already knows *)
Lemma loop_update tomb done_ st w u k base vm w' st' x :
  loop_inv tomb done_ st w → reported_guid (w_repr w0) x = Some u →
  assoc (in_existing st) u = Some k → vms (w_db w) !! k = Some base →
  vm_keys vm = vm_keys base → vm_home vm = home →
  (∀ k', vms (w_db w') !! k' = if decide (k' = v_id vm) then Some vm else vms (w_db w) !! k') →
  w_seq w' = w_seq w → untouched w' → guids_unique (w_db w') →
  in_existing st' = aset (in_existing st) u (v_id vm) → in_seen st' = {[u]} ∪ in_seen st →
  loop_inv tomb (done_ ++ [x])%list st' w'.
Proof.
  intros [I1 I2 Iu I3 I4 I5 I6 Ip I7 I8] Hx Ha Hb Hkeys Hhome Hrows Hseq Hun Hgu He Hs.
  pose proof (I2 _ _ Hb) as Hbid.
  apply vm_keys_eq in Hkeys as (Hid & Hu & Hf). rewrite Hbid in Hid.
  destruct (I6 u k Ha) as [Hkn (v0 & Hv0 & Hu0)]. rewrite Hb in Hv0. injection Hv0 as <-.
  rewrite Hu0 in Hu. rewrite Hid in Hrows, He.
  assert (∀ u' k', assoc (in_existing st') u' = Some k' ↔ assoc (in_existing st) u' = Some k') as Hex.
  { intros u' k'. rewrite He, assoc_aset. destruct (String.eqb_spec u' u) as [->|]; [|done]. by rewrite Ha. }
  split.
  - done.
  - intros k' v'. rewrite Hrows. destruct (decide (k' = k)) as [->|]; [|eauto]. by intros [= <-].
  - done.
  - intros k' v Hv. destruct (I3 k' v Hv) as (v' & Hv' & Hk' & Hor). rewrite Hrows.
    destruct (decide (k' = k)) as [->|Hne].
    + exists vm. rewrite Hb in Hv'. injection Hv' as <-. apply vm_keys_eq in Hk' as (K1 & K2 & K3).
      split; [done|]. split; [unfold vm_keys; congruence|]. right. rewrite <- K2, Hu0. cbn.
      split; [|split; [done|]; exists u; set_solver].
      destruct Hkn as [Hkn|[_ Hnone]]; [by apply existing0_spec|congruence].
    + exists v'. split; [done|]. split; [done|].
      destruct Hor as [?|(? & ? & u' & ? & ?)]; [by left|].
      right. split; [done|]. split; [done|]. exists u'. set_solver.
  - intros k' v Hv Hn. rewrite Hrows in Hv. rewrite Hseq, Hs. destruct (decide (k' = k)) as [->|Hne].
    + injection Hv as <-. destruct (I4 k base Hb Hn) as (_ & _ & Hfr).
      split; [done|]. split; [|done]. exists u. set_solver.
    + destruct (I4 k' v Hv Hn) as (? & (u' & ? & ?) & ?). split; [done|]. split; [|done].
      exists u'. set_solver.
  - intros u' k' Hk'. by apply Hex, I5.
  - intros u' k' Hk'. apply Hex in Hk'. destruct (I6 _ _ Hk') as [Hor (v & Hv & Hvu)].
    split; [rewrite Hs; set_solver|]. rewrite Hrows. destruct (decide (k' = k)) as [->|]; [|eauto].
    exists vm. split; [done|]. rewrite Hb in Hv. congruence.
  - intros [u' k'] Hp. rewrite He in Hp. apply elem_of_aset in Hp as [[= -> ->]|Hp]; cbn; rewrite Hrows.
    + exists vm. by rewrite decide_True.
    + destruct (Ip _ Hp) as (v & Hv & Hvu). cbn in *. destruct (decide (k' = k)) as [->|]; [|eauto].
      exists vm. split; [done|]. rewrite Hb in Hv. congruence.
  - intros u'. rewrite Hs, elem_of_union, elem_of_singleton, I7, reports_snoc, Hx.
    assert (is_Some (assoc existing0 u) ∨ u ∉ tomb) as Hok.
    { destruct Hkn as [Hkn|[Hkn _]]; [left; by eexists|by apply I7 in Hkn as [_ ?]]. }
    split; [|naive_solver]. intros [->|[? ?]]; auto.
  - intros u'. rewrite Hs, elem_of_union, elem_of_singleton. intros Hor.
    destruct (decide (u' = u)) as [->|Hne].
    + exists k, vm. split; [by apply Hex|]. split; [|done]. rewrite Hrows. by rewrite decide_True.
    + destruct (I8 u') as (k' & v & H1 & H2 & H3); [by destruct Hor|].
      exists k'. rewrite Hrows. destruct (decide (k' = k)) as [->|].
      * destruct (I6 _ _ H1) as [_ (v2 & Hv2 & Hu2)]. rewrite Hb in Hv2. congruence.
      * exists v. split; [by apply Hex|done].
Qed.

(** the step that inserts a row *)
Lemma loop_insert tomb done_ st w u vm w' st' x :
  loop_inv tomb done_ st w → reported_guid (w_repr w0) x = Some u →
  assoc (in_existing st) u = None → u ∉ tomb →
  vm_keys vm = vm_keys (fresh_vm (w_uuid4 w (w_seq w)) (h_id h) u (w_now w)) → vm_home vm = home →
  (∀ k', vms (w_db w') !! k' = if decide (k' = v_id vm) then Some vm else vms (w_db w) !! k') →
  w_seq w' = S (w_seq w) → untouched w' → guids_unique (w_db w') →
  in_existing st' = aset (in_existing st) u (v_id vm) → in_seen st' = {[u]} ∪ in_seen st →
  loop_inv tomb (done_ ++ [x])%list st' w'.
Proof.
  intros [I1 I2 Iu I3 I4 I5 I6 Ip I7 I8] Hx Ha Hnt Hkeys Hhome Hrows Hseq Hun Hgu He Hs.
  apply vm_keys_eq in Hkeys as (Hid & Hu & Hf). cbn in Hid, Hu, Hf.
  pose proof I1 as (_ & _ & _ & Hu4 & _ & _ & Hle). rewrite Hu4 in Hid.
  set (k := w_uuid4 w0 (w_seq w)) in *. rewrite Hid in Hrows, He.
  assert (vms (w_db w0) !! k = None) as Hk0 by (apply Hfresh; lia).
  assert (vms (w_db w) !! k = None) as Hkw.
  { destruct (vms (w_db w) !! k) as [v|] eqn:E; [|done].
    destruct (I4 k v E Hk0) as (_ & _ & n & Hn & Hlt). apply Hinj in Hn. lia. }
  assert (∀ u' k', u' ≠ u → assoc (in_existing st') u' = Some k' ↔ assoc (in_existing st) u' = Some k') as Hex.
  { intros u' k' Hne. rewrite He, assoc_aset. by destruct (String.eqb_spec u' u). }
  assert (assoc (in_existing st') u = Some k) as Hexu by (by rewrite He, assoc_aset, String.eqb_refl).
  assert (∀ k' v, vms (w_db w) !! k' = Some v → vms (w_db w') !! k' = Some v) as Hkeep.
  { intros k' v Hv. rewrite Hrows. destruct (decide (k' = k)) as [->|]; congruence. }
  split.
  - done.
  - intros k' v'. rewrite Hrows. destruct (decide (k' = k)) as [->|]; [|eauto]. by intros [= <-].
  - done.
  - intros k' v Hv. destruct (I3 k' v Hv) as (v' & Hv' & Hk' & Hor). exists v'.
    split; [by apply Hkeep|]. split; [done|]. destruct Hor as [?|(? & ? & u' & ? & ?)]; [by left|].
    right. split; [done|]. split; [done|]. exists u'. set_solver.
  - intros k' v Hv Hn. rewrite Hrows in Hv. rewrite Hseq, Hs. destruct (decide (k' = k)) as [->|Hne].
    + injection Hv as <-. split; [done|]. split; [exists u; set_solver|]. exists (w_seq w). split; [done|lia].
    + destruct (I4 k' v Hv Hn) as (? & (u' & ? & ?) & n & ? & ?). split; [done|]. split; [exists u'; set_solver|].
      exists n. split; [done|lia].
  - intros u' k' Hk'. apply I5 in Hk'. destruct (decide (u' = u)) as [->|]; [congruence|by apply Hex].
  - intros u' k' Hk'. destruct (decide (u' = u)) as [->|Hne].
    + rewrite Hexu in Hk'. injection Hk' as <-. split; [right; split; [set_solver|done]|].
      exists vm. rewrite Hrows. by rewrite decide_True.
    + apply Hex in Hk'; [|done]. destruct (I6 _ _ Hk') as [Hor (v & Hv & Hvu)].
      split; [rewrite Hs; set_solver|]. exists v. auto.
  - intros [u' k'] Hp. rewrite He in Hp. apply elem_of_aset in Hp as [[= -> ->]|Hp]; cbn; rewrite Hrows.
    + exists vm. by rewrite decide_True.
    + destruct (Ip _ Hp) as (v & Hv & Hvu). cbn in *. destruct (decide (k' = k)) as [->|]; [congruence|eauto].
  - intros u'. rewrite Hs, elem_of_union, elem_of_singleton, I7, reports_snoc, Hx. naive_solver.
  - intros u'. rewrite Hs, elem_of_union, elem_of_singleton. intros Hor.
    destruct (decide (u' = u)) as [->|Hne].
    + exists k, vm. split; [done|]. split; [|done]. rewrite Hrows. by rewrite decide_True.
    + destruct (I8 u') as (k' & v & H1 & H2 & H3); [by destruct Hor|].
      exists k', v. split; [by apply Hex|]. auto.
Qed.

Lemma loop_step tomb done_ st raw w st' w' :
  loop_inv tomb done_ st w → inventory_item h tomb st raw w = (Ok st', w') →
  loop_inv tomb (done_ ++ [raw])%list st' w'.
Proof.
  intros HI H. pose proof (li_untouched _ _ _ _ HI) as Hun.
  apply inventory_item_inv in H; [|by destruct Hun as (_ & _ & _ & _ & _ & ? & _)].
  assert (∀ P : string → Prop, (∀ u, reported_guid (w_repr w0) raw = Some u → assoc (in_existing st) u = None ∧ u ∈ tomb) →
    loop_inv tomb (done_ ++ [raw])%list st w) as Hskip.
  { intros _ Hs. destruct HI as [I1 I2 Iu I3 I4 I5 I6 Ip I7 I8]. split; try done.
    intros u. rewrite I7, reports_snoc. split; [naive_solver|]. intros [[?|Hr] Hor]; [done|].
    exfalso. destruct (Hs u Hr) as [Hn Ht]. destruct Hor as [[k Hk]|]; [|done].
    apply I5 in Hk. congruence. }
  destruct (reported_guid (w_repr w0) raw) as [u|] eqn:Er.
  2:{ destruct H as [-> ->]. by apply (Hskip (λ _, True)). }
  destruct H as [(Hn & Ht & -> & ->)|(base & vm & w1 & Hor & (k & Hbase) & Hkeys & Hhome & Hput & He & Hs)].
  { apply (Hskip (λ _, True)). by intros u' [= <-]. }
  rewrite hid_eq in Hhome. apply put_row_inv in Hput as (Hrows & Hseq & Hun' & Hgu).
  destruct Hbase as [(Ha & Hb & ->)|(Hnone & -> & ->)].
  - assert (guids_unique (w_db w')) as Hgu' by (apply Hgu; eauto using li_keyed, li_unique).
    eapply loop_update; eauto.
  - assert (assoc (in_existing st) u = None) as Ha.
    { destruct (assoc (in_existing st) u) as [k'|] eqn:Ea; [|done].
      destruct (li_row _ _ _ _ HI u k' Ea) as [_ (v & Hv & _)]. rewrite (Hnone k' eq_refl) in Hv. done. }
    assert (guids_unique (w_db w')) as Hgu'.
    { apply Hgu; [exact (li_keyed _ _ _ _ HI)|exact (li_unique _ _ _ _ HI)]. }
    eapply loop_insert; eauto.
    + destruct Hor as [[? Hsome]|]; [congruence|done].
    + apply Hun'. destruct Hun as (? & ? & ? & ? & ? & ? & ?). split_and!; try done. cbn. lia.
Qed.
End snapshot.

(** The schema holds, and uuid4 yields ids that are fresh and distinct. *)
Record inventory_ready (w : world) (host_id : string) (h : Host) : Prop := {
  ir_host : hosts (w_db w) !! host_id = Some h;
  ir_keyed : keyed (w_db w);
  ir_unique : guids_unique (w_db w);
  ir_placed : placed (w_db w);
  ir_fresh n : (w_seq w ≤ n)%nat → vms (w_db w) !! w_uuid4 w n = None;
  ir_inj n m : w_uuid4 w n = w_uuid4 w m → n = m
}.
(** a row of the scope carries the GUID *)
Definition known (w : world) (h : Host) (u : string) : Prop :=
  ∃ k v, vms (w_db w) !! k = Some v ∧ v_host_id v ∈ scope_ids h (w_db w) ∧ v_vm_uuid v = Some u.

Lemma start_inv w host_id h tomb (R : inventory_ready w host_id h) :
  loop_inv w host_id h tomb [] (mkInv (existing_vms (scope_ids h (w_db w)) (w_db w)) ∅ []) w.
Proof.
  destruct R as [Hh Hk Hu Hp Hf Hi]. split; cbn; try done.
  - apply Hk.
  - intros k v Hv. exists v. auto.
  - intros k v Hv Hn. congruence.
  - intros u k Ha. split; [by left|].
    apply (existing0_spec w host_id h Hh Hk Hu Hp) in Ha as (v & Hv & _ & Hvu). eauto.
  - unfold existing_vms.
    assert (∀ l acc p, p ∈ foldl (λ acc v, match v_vm_uuid v with Some u => aset acc u (v_id v) | None => acc end) acc l →
      p ∈ acc ∨ ∃ v, v ∈ l ∧ v_vm_uuid v = Some p.1 ∧ v_id v = p.2) as Hf2.
    { clear. intros l. induction l as [|v l IH]; intros acc p; cbn; [auto|]. intros Hin.
      apply IH in Hin as [Hin|(v' & ? & ?)]; [|right; exists v'; by rewrite elem_of_cons; auto].
      destruct (v_vm_uuid v) eqn:E; [|auto]. apply elem_of_aset in Hin as [->|]; [|auto].
      right. exists v. split; [left|done]. }
    intros p Hin. apply Hf2 in Hin as [Hin|(v & Hv & Hvu & Hid)]; [by apply not_elem_of_nil in Hin|].
    apply elem_of_rows in Hv as (k & Hv & _). destruct Hk as [Hk _]. rewrite <- Hid, (Hk _ _ Hv). eauto.
  - intros u. split; [set_solver|]. intros [(raw & Hraw & _) _]. by apply not_elem_of_nil in Hraw.
Qed.

(** the tail of the handler touches neither rows nor assignments *)
Lemma snapshot_tail host_id tomb_left thumbs v w w' :
  (for_each tomb_left (clear_vm_deleted host_id);;
   match thumbs with
   | [] => mret tt
   | p :: l => at_ ← parse_dt_or_now v; upsert_thumbnails (p :: l) at_
   end) w = (Ok tt, w') → rows_tags w' = rows_tags w.
Proof.
  intros H.
  assert (keeps (same rows_tags) (for_each tomb_left (clear_vm_deleted host_id);;
   match thumbs with
   | [] => mret tt
   | p :: l => at_ ← parse_dt_or_now v; upsert_thumbnails (p :: l) at_
   end)) as Hs by (unfold upsert_thumbnails; keep).
  specialize (Hs w). rewrite H in Hs. exact Hs.
Qed.

(** and it forgets the tombstones it is given *)
Lemma clear_tombs host_id l w w' u :
  for_each l (clear_vm_deleted host_id) w = (Ok tt, w') → u ∈ l →
  c_get (w_now w') (vm_tombstone_key host_id u) (w_cache w') = None.
Proof.
  intros H. revert u. pattern l, w'. revert H. apply for_each_inv.
  - intros done_ x w1 w2 _ I H u Hu. unfold clear_vm_deleted in H. apply at_now_inv in H as (_ & _ & ->). cbn.
    destruct (decide (u = x)) as [->|Hne]; [apply c_get_delete_eq|].
    apply elem_of_app in Hu as [Hu|Hu%list_elem_of_singleton]; [|done].
    rewrite c_get_delete_ne; [by apply I|]. rewrite !tombstone_prefix_key. intros E%sapp_inj. congruence.
  - intros u Hu. by apply not_elem_of_nil in Hu.
Qed.
Lemma snapshot_tail_tombs host_id tomb_left thumbs v w w' u :
  (for_each tomb_left (clear_vm_deleted host_id);;
   match thumbs with
   | [] => mret tt
   | p :: l => at_ ← parse_dt_or_now v; upsert_thumbnails (p :: l) at_
   end) w = (Ok tt, w') → u ∈ tomb_left →
  c_get (w_now w') (vm_tombstone_key host_id u) (w_cache w') = None.
Proof.
  intros ([] & w1 & H & Ht)%bind_inv Hu. pose proof (clear_tombs _ _ _ _ _ H Hu) as Hn.
  assert (keeps (same (λ w, c_get (w_now w) (vm_tombstone_key host_id u) (w_cache w)))
    (match thumbs with
     | [] => mret tt
     | p :: l => at_ ← parse_dt_or_now v; upsert_thumbnails (p :: l) at_
     end)) as Hs by (unfold upsert_thumbnails; keep).
  specialize (Hs w1). rewrite Ht in Hs. unfold same in Hs. cbn [snd] in Hs. by rewrite Hs.
Qed.

(** the whole effect of an accepted snapshot *)
Lemma snapshot_spec w host_id h payload items tomb w' :
  inventory_ready w host_id h →
  py_iter (dget_or payload "vms" (JList [])) = inl items →
  list_deleted_vm_uuids host_id w = (Ok tomb, w) →
  apply_vm_inventory host_id payload w = (Ok tt, w') →
  (∀ u, (∃ k v, vms (w_db w') !! k = Some v ∧ v_host_id v = host_id ∧ v_vm_uuid v = Some u) ↔
     reports (w_repr w) items u ∧ (known w h u ∨ u ∉ tomb)) ∧
  (∀ k v, vms (w_db w) !! k = Some v → v_host_id v ∉ scope_ids h (w_db w) ∨ v_vm_uuid v = None →
     vms (w_db w') !! k = Some v) ∧
  (∀ k v v', vms (w_db w) !! k = Some v → vms (w_db w') !! k = Some v' →
     vm_keys v' = vm_keys v ∧ ∀ t, (k, t) ∈ vm_tags (w_db w') ↔ (k, t) ∈ vm_tags (w_db w)) ∧
  guids_unique (w_db w') ∧
  (∀ k v u, vms (w_db w) !! k = Some v → v_host_id v ∈ scope_ids h (w_db w) → v_vm_uuid v = Some u →
     (reports (w_repr w) items u → ∃ v', vms (w_db w') !! k = Some v' ∧ v_host_id v' = host_id) ∧
     (¬ reports (w_repr w) items u →
        vms (w_db w') !! k = if String.eqb (v_host_id v) host_id then None else Some v)) ∧
  (∀ k v', vms (w_db w') !! k = Some v' → vms (w_db w) !! k = None → v_host_id v' = host_id) ∧
  ∀ u, u ∈ tomb → ¬ (reports (w_repr w) items u ∧ known w h u) →
    c_get (w_now w') (vm_tombstone_key host_id u) (w_cache w') = None.
Proof.
  intros R Hitems Htomb H. pose proof R as [Hh Hkeyed Hguid Hplaced Hfresh Hinj].
  unfold apply_vm_inventory, get_host in H. rewrite run_query, Hh in H.
  rewrite (run_ok _ _ _ _ _ (scope_run h w)), run_query in H. rewrite (run_ok _ _ _ _ _ Htomb), Hitems in H.
  cbn [lift_py] in H. rewrite run_ret in H.
  apply bind_inv in H as (st & w1 & Hloop & H). apply bind_inv in H as ([] & w2 & Hrem & H).
  pose proof (λ u, snapshot_tail_tombs _ _ _ _ _ _ u H) as Htail.
  apply snapshot_tail in H. injection H as Hv Ht _. rewrite Hv, Ht.
  apply (fold_each_inv _ (loop_inv w host_id h tomb)) in Hloop; [|by intros; eapply loop_step|by apply start_inv].
  destruct Hloop as [(Hhosts & _ & Htags & _) I2 Iu I3 I4 I5 I6 Ip I7 I8].
  destruct (remove_all _ _ _ _ _ I2 Hrem) as (Hh2 & Hr & Htg). cbv zeta in Hr.
  assert (∀ u k, assoc (existing_vms (scope_ids h (w_db w)) (w_db w)) u = Some k ↔ known_at w h u k) as Hex
    by (intros; by apply (existing0_spec w host_id)).
  assert (∀ u, is_Some (assoc (existing_vms (scope_ids h (w_db w)) (w_db w)) u) ↔ known w h u) as Hkn.
  { intros u. split.
    - intros [k Hk]. apply Hex in Hk as (v & ? & ? & ?). by exists k, v.
    - intros (k & v & ? & ? & ?). exists k. apply Hex. by exists v. }
  assert (∀ u k, assoc (in_existing st) u = Some k → k ∈ (in_existing st).*2) as Hin by (intros; by eapply assoc_in).
  assert (∀ k v, k ∈ (in_existing st).*2 → vms (w_db w1) !! k = Some v → True) as _ by done.
  assert (∀ u k, known_at w h u k → k ∈ (in_existing st).*2 ∧
    (u ∈ in_seen st ↔ reports (w_repr w) items u)) as Hsk.
  { intros u k Hk. apply Hex in Hk. split; [by eapply Hin, I5|]. rewrite I7, Hk.
    split; [by intros [? _]|]. intros ?. split; [done|]. left. by eexists. }
  split; [|split; [|split; [|split; [|split; [|split]]]]].
  - intros u. rewrite <- Hkn, <- I7. split.
    + intros (k & v & Hk & Hhv & Huv). apply Hr in Hk as [Hk Hgone].
      destruct (decide (u ∈ in_seen st)) as [|Hns]; [done|exfalso].
      assert (k ∈ (in_existing st).*2) as Hki.
      { destruct (vms (w_db w) !! k) as [v0|] eqn:E0.
        - destruct (I3 k v0 E0) as (v1 & Hv1 & Hks & Hor). rewrite Hk in Hv1. injection Hv1 as <-.
          apply vm_keys_eq in Hks as (_ & Hks & _). rewrite Huv in Hks.
          destruct Hor as [->|(_ & _ & u' & Hu' & Hs')]; [|congruence].
          apply (Hin u). apply I5, Hex. exists v0. split; [done|]. split; [|done].
          rewrite Hhv. by apply (host_in_scope w host_id h).
        - destruct (I4 k v Hk E0) as (_ & (u' & Hu' & Hs') & _). congruence. }
      rewrite bool_decide_eq_true_2 in Hgone by done. unfold unreported in Hgone.
      rewrite Hhv, String.eqb_refl, Huv in Hgone. cbn in Hgone. bool_prop. done.
    + intros Hs. destruct (I8 u Hs) as (k & v & Ha & Hk & Hhome).
      destruct (I6 u k Ha) as [_ (v1 & Hv1 & Huv)]. rewrite Hk in Hv1. injection Hv1 as <-.
      exists k, v. split; [|split; [|done]].
      * apply Hr. split; [done|]. unfold unreported. rewrite Huv. cbn.
        rewrite (bool_decide_eq_true_2 _ Hs). by rewrite !andb_false_r.
      * by injection Hhome.
  - intros k v Hk Hor. destruct (I3 k v Hk) as (v' & Hv' & _ & Hc).
    assert (v' = v) as ->.
    { destruct Hc as [|((v1 & Hv1 & Hs1 & Hu1) & _ & u & Hu & _)]; [done|].
      rewrite Hk in Hv1. injection Hv1 as <-. destruct Hor; [done|congruence]. }
    apply Hr. split; [done|]. destruct (bool_decide (k ∈ (in_existing st).*2)) eqn:Ein; [|done].
    unfold unreported. destruct Hor as [Hns|Hnu].
    + destruct (String.eqb_spec (v_host_id v) host_id) as [He|]; [|done].
      destruct Hns. rewrite He. by apply (host_in_scope w host_id h).
    + exfalso. apply bool_decide_eq_true in Ein. apply list_elem_of_fmap in Ein as (p & -> & Hin').
      destruct (Ip p Hin') as (v2 & Hv2 & Hu2). congruence.
  - intros k v v' Hk Hk'. pose proof Hk' as Hk2. apply Hr in Hk' as [Hk' _].
    destruct (I3 k v Hk) as (v1 & Hv1 & Hks & _). rewrite Hk' in Hv1. injection Hv1 as <-.
    split; [done|]. intros t. by rewrite (Htg k t v' Hk2), Htags.
  - intros k k' v v'. rewrite Hv. intros Hk Hk'. apply Hr in Hk as [Hk _], Hk' as [Hk' _]. by apply Iu.
  - intros k v u Hk Hs Hu. destruct (Hsk u k) as [Hki Hse]; [by exists v|].
    destruct (I3 k v Hk) as (v' & Hv' & Hks & Hor). apply vm_keys_eq in Hks as (_ & Hu' & _). rewrite Hu in Hu'.
    assert (unreported host_id (in_seen st) v' = String.eqb (v_host_id v') host_id && negb (bool_decide (u ∈ in_seen st)))
      as Hun by (unfold unreported; by rewrite Hu').
    split; intros Hrep.
    + apply Hse in Hrep. destruct (I8 u Hrep) as (k2 & v2 & Ha & Hv2 & Hhome).
      rewrite (I5 u k) in Ha by (apply Hex; by exists v). injection Ha as <-. rewrite Hv2 in Hv'. injection Hv' as <-.
      exists v2. split; [|by injection Hhome]. apply Hr. split; [done|].
      rewrite Hun, (bool_decide_eq_true_2 _ Hrep). by rewrite !andb_false_r.
    + rewrite <- Hse in Hrep. rewrite (bool_decide_eq_false_2 _ Hrep), andb_true_r in Hun.
      assert (v' = v) as ->.
      { destruct Hor as [|(_ & _ & u2 & Hu2 & Hs2)]; [done|]. congruence. }
      destruct (String.eqb_spec (v_host_id v) host_id) as [He|He].
      * apply eq_None_not_Some. intros [v2 H2]. apply Hr in H2 as [H2 Hg]. rewrite Hv' in H2. injection H2 as <-.
        by rewrite (bool_decide_eq_true_2 _ Hki), Hun in Hg.
      * apply Hr. split; [done|]. rewrite Hun. by rewrite andb_false_r.
  - intros k v' Hk Hn. apply Hr in Hk as [Hk _]. destruct (I4 k v' Hk Hn) as ([= ? _] & _). done.
  - intros u Hu Hno. apply Htail, elem_of_elements, elem_of_difference. split; [done|].
    rewrite I7. intros [Hrep [Hk|?]]; [|done]. apply Hno. by rewrite <- Hkn.
Qed.

(** C3: after a VM snapshot the host owns exactly what it reported.  From a
    database that satisfies the schema, when [apply_vm_inventory] accepts the
    payload of host [h]: (1) a GUID has a row on the host exactly when the
    snapshot reports it and it is either already known in the host's scope (its
    cluster, or itself) or not tombstoned - a just-deleted VM is not
    resurrected, and a VM that migrated within the cluster keeps its row;
    (2) rows of hosts outside the scope, and placeholders without a GUID, are
    untouched; (3) a row that survives keeps its id, GUID, folder and tags;
    (4) the GUID indexes hold again; (5) a row of the scope whose GUID is
    reported stays, owned by the host now, and one whose GUID is not reported
    is deleted when the host owned it and kept as it was when another node of
    the cluster owns it - that node's snapshot decides; (6) the rows that
    appear are the host's. *)
Theorem vm_snapshot_exact w host_id h payload items tomb w' :
  inventory_ready w host_id h →
  py_iter (dget_or payload "vms" (JList [])) = inl items →
  list_deleted_vm_uuids host_id w = (Ok tomb, w) →
  apply_vm_inventory host_id payload w = (Ok tt, w') →
  (∀ u, (∃ k v, vms (w_db w') !! k = Some v ∧ v_host_id v = host_id ∧ v_vm_uuid v = Some u) ↔
     reports (w_repr w) items u ∧ (known w h u ∨ u ∉ tomb)) ∧
  (∀ k v, vms (w_db w) !! k = Some v → v_host_id v ∉ scope_ids h (w_db w) ∨ v_vm_uuid v = None →
     vms (w_db w') !! k = Some v) ∧
  (∀ k v v', vms (w_db w) !! k = Some v → vms (w_db w') !! k = Some v' →
     vm_keys v' = vm_keys v ∧ ∀ t, (k, t) ∈ vm_tags (w_db w') ↔ (k, t) ∈ vm_tags (w_db w)) ∧
  guids_unique (w_db w') ∧
  (∀ k v u, vms (w_db w) !! k = Some v → v_host_id v ∈ scope_ids h (w_db w) → v_vm_uuid v = Some u →
     (reports (w_repr w) items u → ∃ v', vms (w_db w') !! k = Some v' ∧ v_host_id v' = host_id) ∧
     (¬ reports (w_repr w) items u →
        vms (w_db w') !! k = if String.eqb (v_host_id v) host_id then None else Some v)) ∧
  (∀ k v', vms (w_db w') !! k = Some v' → vms (w_db w) !! k = None → v_host_id v' = host_id).
Proof.
  intros R Hi Ht H.
  destruct (snapshot_spec w host_id h payload items tomb w' R Hi Ht H) as (? & ? & ? & ? & ? & ? & _). done.
Qed.

(** a snapshot of a standalone host: one known VM reported, one gone *)
Definition snap_world : world :=
  sample_world <| w_db := empty_db
    <| hosts := {["h1" := mkHost "h1" "abc" None "node-1" None None "hyperv" None None None None None None None]} |>
    <| vms := {["v1" := fresh_vm "v1" "h1" "g1" 0 <| v_folder_id := Some "f1" |>;
               "v2" := fresh_vm "v2" "h1" "g2" 0]} |> |>.
Definition snap_payload : dict :=
  [("vms", JList [JObj [("id", JStr "g1"); ("name", JStr "web"); ("state", JStr "Running")];
                  JObj [("id", JStr "g3"); ("name", JStr "db")]])].
Lemma snap_ready : inventory_ready snap_world "h1"
  (mkHost "h1" "abc" None "node-1" None None "hyperv" None None None None None None None).
Proof.
  split; [done| | | | |apply sample_ids_distinct].
  - split; [|split].
    + intros k v. cbn. rewrite lookup_insert_Some, lookup_singleton_Some. naive_solver.
    + intros k v. cbn. rewrite lookup_singleton_Some. naive_solver.
    + intros k v. cbn. by rewrite lookup_empty.
  - intros k k' v v'. cbn. rewrite !lookup_insert_Some, !lookup_singleton_Some.
    intros [[<- <-]|[_ [<- <-]]] [[<- <-]|[_ [<- <-]]]; done.
  - intros k v. cbn. rewrite lookup_insert_Some, lookup_singleton_Some.
    intros [[<- <-]|[_ [<- <-]]]; cbn; rewrite lookup_singleton_eq; eauto.
  - intros n _. cbn. by rewrite lookup_insert_ne, lookup_singleton_ne.
Qed.
Lemma vm_snapshot_exact_witness :
  let w' := (apply_vm_inventory "h1" snap_payload snap_world).2 in
  guids_unique (w_db w') ∧
  ∃ k v, vms (w_db w') !! k = Some v ∧ v_host_id v = "h1" ∧ v_vm_uuid v = Some "g3".
Proof.
  cbv zeta.
  refine (match vm_snapshot_exact snap_world "h1" _ snap_payload _ ∅
    (apply_vm_inventory "h1" snap_payload snap_world).2 snap_ready eq_refl _ _ with
    | conj Hex (conj _ (conj _ (conj Hg _))) => conj Hg _ end).
  - vm_compute. reflexivity.
  - apply run_outcome. vm_compute. reflexivity.
  - apply Hex. split; [|right; apply not_elem_of_empty].
    exists (JObj [("id", JStr "g3"); ("name", JStr "db")]). split; [right; left|vm_compute; reflexivity].
Defined.
