(* ===== verification/Vms.v ===== *)
(** * VM operations ([app/services/vms.py], [app/schemas/vm.py])

    Placement rules, the queueing of a VM task (lock, optimistic state, agent
    request), the actions, the creation and cloning of VMs through a
    placeholder row, and the removal of a row from the inventory. *)
From S2P Require Import Prelude Py Clock Model World Store Cache Normalize Messaging Serializers.
From S2P Require Import HostActions.
From Stdlib Require Import Ascii.
Open Scope string_scope.
Open Scope Z_scope.

Definition require_host_online (h : Host) : M unit :=
  connected ← agent_connected h;
  if connected : bool then mret tt
  else api_error "HOST_OFFLINE" ("Host '" +:+ h_name h +:+
    "' agent is offline - VM actions are unavailable until it reconnects") 409.

(** ** Placement *)

(** [(path or "").strip().replace("/", "\").rstrip("\")] *)
Definition norm_path (path : string) : string :=
  drop_while_end (Ascii.eqb "\") (replace_char "/" "\" (strip path)).
Definition norm_path_json (v : json) : res string :=
  match py_or v (JStr "") with JStr s => inl (norm_path s) | _ => inr AttributeError end.
(** [^[a-z]:\\clusterstorage\\[^\\]+], ignoring case *)
Definition is_csv_path (path : string) : bool :=
  match path with
  | String d rest =>
      (is_lower (low_char d)) && startswith ":\clusterstorage\" (lower rest) &&
      match sdrop 17 rest with String c _ => negb (Ascii.eqb c "\") | "" => false end
  | "" => false
  end.
Definition is_system_drive (path : string) : bool :=
  String.eqb (lower (stake 2 path)) "c:" && negb (is_csv_path path).
Definition str_nonempty_or (s d : string) : string := if str_nonempty s then s else d.
Definition default_vm_path (h : Host) : res string :=
  v ← py_get (py_or (dget (default [] (h_hardware h)) "hyperv") (JObj [])) "defaultVmPath";
  norm_path_json v.
Definition require_vm_storage_allowed (h : Host) (destination : string) : M unit :=
  clustered ← lift_py (host_is_clustered h);
  default_path ← lift_py (default_vm_path h);
  let dest := str_nonempty_or (norm_path destination) default_path in
  if clustered : bool then
    if is_csv_path dest then mret tt
    else api_error "STORAGE_NOT_ALLOWED" ("Host '" +:+ h_name h +:+
      "' is in a cluster - VMs must be placed on a Cluster Shared Volume, not '" +:+
      str_nonempty_or dest "the default VM path" +:+ "'") 400
  else if str_nonempty dest && is_system_drive dest && negb (is_system_drive default_path) then
    api_error "STORAGE_NOT_ALLOWED" ("VMs cannot be placed on the system drive ('" +:+ dest +:+
      "') - it is not the host's Hyper-V default VM path") 400
  else mret tt.

(** ** Actions *)
Definition ACTION_MAP : list (string * (string * option string)) :=
  [("start", ("vm_start", Some "Starting"));
   ("stop", ("vm_stop", Some "Stopping"));
   ("shutdown", ("vm_shutdown", Some "Stopping"));
   ("restart", ("vm_restart", Some "Restarting"));
   ("pause", ("vm_pause", Some "Pausing"));
   ("delete", ("vm_delete", Some "Deleting"));
   ("enable_metrics", ("vm_enable_metrics", None));
   ("disable_metrics", ("vm_disable_metrics", None));
   ("rename", ("vm_rename", None));
   ("edit", ("vm_edit", None));
   ("migrate", ("vm_migrate", None));
   ("move_storage", ("vm_move", None));
   ("startup_change", ("vm_startup_change", None));
   ("mount_dvd", ("mount_dvd", None));
   ("eject_dvd", ("eject_dvd", None));
   ("enable_ha", ("enable_ha", None));
   ("disable_ha", ("disable_ha", None));
   ("export_template", ("vm_export_template", None));
   ("notes_edit", ("notes_edit", None));
   ("snapshot_create", ("snapshot_create", None));
   ("snapshot_remove", ("snapshot_remove", None));
   ("snapshot_restore", ("snapshot_restore", None));
   ("refresh", ("refresh_status", None))].
Definition READ_ONLY_VM_ACTIONS : list string := ["refresh"].

Definition count_host_vms (host_id : string) : M nat :=
  query (λ d, length (rows (λ v, String.eqb (v_host_id v) host_id) (vms d))).

(** the guarded part of [_queue_vm_task] *)
Definition submit_vm_task (vm : Vm) (h : Host) (task_id fn : string) (params : dict)
    (requested_by : string) (transitional : option string) (guid : string) : M Task :=
  request ← mk_request task_id fn (dset params "vm_id" (JStr guid)) requested_by;
  created ← gets w_now;
  let task := queued_task task_id fn "vm" (v_id vm) (Some (v_name vm)) (v_host_id vm)
                requested_by created request in
  add_task task;;
  match transitional with
  | Some s => save_vm (vm <| v_state := s |>);; set_vm_state (v_id vm) s
  | None => mret tt
  end;;
  publish_request (h_short_id h) request;;
  mret task.
Definition queue_vm_task (vm : Vm) (fn : string) (params : dict) (requested_by : string)
    (transitional : option string) (lock : bool) : M Task :=
  match v_vm_uuid vm with
  | None | Some "" =>
      api_error "VM_NOT_READY" "This VM has not been reported by its host agent yet" 409
  | Some guid =>
      h ← get_host (v_host_id vm);
      match h with
      | None => raise EAssert
      | Some h =>
          require_host_online h;;
          task_id ← new_id;
          acquired ← (if lock then acquire_vm_lock (v_id vm) task_id fn requested_by else mret true);
          if negb acquired then
            held ← get_vm_lock (v_id vm);
            vm_locked (v_name vm) held
          else
            try_except (submit_vm_task vm h task_id fn params requested_by transitional guid)
              (λ e, when lock (release_vm_lock (v_id vm) (Some task_id);; mret tt);; raise e)
      end
  end.

Definition request_vm_action (vm : Vm) (action requested_by : string) (params : dict) : M Task :=
  match assoc ACTION_MAP action with
  | None => raise (EPy KeyError)
  | Some (fn, transitional) =>
      if String.eqb action "migrate" && negb (v_highly_available vm) then
        api_error "HA_REQUIRED" ("'" +:+ v_name vm +:+
          "' does not have High Availability enabled - enable HA before migrating it to another cluster node") 409
      else
        (if String.eqb action "move_storage" then
           dest ← lift_py (norm_path_json (dget params "destination_storage"));
           if negb (str_nonempty dest) then
             api_error "VALIDATION_ERROR" "destination_storage is required" 400
           else
             h ← get_host (v_host_id vm);
             match h with
             | None => raise EAssert
             | Some h => require_vm_storage_allowed h dest
             end
         else mret tt);;
        queue_vm_task vm fn params requested_by transitional
          (negb (bool_decide (action ∈ READ_ONLY_VM_ACTIONS)))
  end.

(** ** Bodies *)
Definition name_char (c : ascii) : bool :=
  is_digit c || is_upper c || is_lower c || Ascii.eqb c "_" || Ascii.eqb c "-".
Definition between (lo hi z : Z) : bool := (lo <=? z) && (z <=? hi).
Definition opt_between (lo hi : Z) (o : option Z) : bool :=
  match o with Some z => between lo hi z | None => true end.
Definition name_ok (s : string) : bool :=
  (1 <=? String.length s)%nat && (String.length s <=? 255)%nat && s_forallb name_char s.

Record VmDiskSpec := mkDiskSpec { ds_name : string; ds_type : string; ds_size_gb : Z }.
Definition VmDiskSpec_valid (d : VmDiskSpec) : bool :=
  (1 <=? String.length (ds_name d))%nat && (String.length (ds_name d) <=? 6)%nat &&
  s_forallb (λ c, is_digit c || is_upper c || is_lower c) (ds_name d) &&
  bool_decide (ds_type d ∈ ["Fixed"; "Dynamic"]) && between 1 65536 (ds_size_gb d).
Record VmCreate := mkCreate {
  vc_name : string; vc_host_id : string; vc_os : string; vc_firmware : string;
  vc_cpu_count : Z; vc_memory_mb : Z; vc_memory_dynamic : bool;
  vc_memory_min_mb : option Z; vc_memory_max_mb : option Z;
  vc_destination_storage : option string; vc_notes : option string; vc_vlan_id : option Z;
  vc_switch_name : option string; vc_nested_virtualization : bool; vc_ha_enabled : bool;
  vc_dvd : option string; vc_start_now : bool; vc_disks : list VmDiskSpec
}.
Definition check_dynamic_memory (b : VmCreate) : bool :=
  if negb (vc_memory_dynamic b) then true
  else
    negb (match vc_memory_min_mb b with Some lo => vc_memory_mb b <? lo | None => false end) &&
    negb (match vc_memory_max_mb b with Some hi => hi <? vc_memory_mb b | None => false end) &&
    negb (match vc_memory_min_mb b, vc_memory_max_mb b with
          | Some lo, Some hi => hi <? lo | _, _ => false end).
Definition VmCreate_valid (b : VmCreate) : bool :=
  name_ok (vc_name b) && bool_decide (vc_os b ∈ ["windows"; "linux"; "other"]) &&
  bool_decide (vc_firmware b ∈ ["BIOS"; "UEFI"]) && between 1 256 (vc_cpu_count b) &&
  between 256 4194304 (vc_memory_mb b) && opt_between 256 4194304 (vc_memory_min_mb b) &&
  opt_between 256 4194304 (vc_memory_max_mb b) && opt_between 1 4094 (vc_vlan_id b) &&
  forallb VmDiskSpec_valid (vc_disks b) && check_dynamic_memory b.
Record VmClone := mkClone {
  vn_name : string; vn_host_id : string; vn_source : string; vn_source_vm_id : option string;
  vn_template_id : option string; vn_cpu_count : option Z; vn_memory_mb : option Z;
  vn_destination_storage : option string; vn_notes : option string; vn_vlan_id : option Z;
  vn_nested_virtualization : bool; vn_ha_enabled : bool; vn_start_now : bool; vn_expand_disks : bool
}.
Definition given_some (o : option string) : bool := str_nonempty (default "" o).
Definition check_source (b : VmClone) : bool :=
  negb (String.eqb (vn_source b) "vm" && negb (given_some (vn_source_vm_id b))) &&
  negb (String.eqb (vn_source b) "template" && negb (given_some (vn_template_id b))).
Definition VmClone_valid (b : VmClone) : bool :=
  name_ok (vn_name b) && bool_decide (vn_source b ∈ ["vm"; "template"]) &&
  opt_between 1 256 (vn_cpu_count b) && opt_between 256 4194304 (vn_memory_mb b) &&
  opt_between 1 4094 (vn_vlan_id b) && check_source b.

(** ** Placeholders *)
Definition opt_json_str (o : option string) : json := match o with Some s => JStr s | None => JNull end.
Definition blank_none (o : option string) : option string :=
  let s := strip (default "" o) in if str_nonempty s then Some s else None.
Definition placeholder_vm (id : string) (h : Host) (name firmware : string) (vcpu memory : Z)
    (dynamic nested ha : bool) (notes : option string) (nics : list VmNic) : Vm :=
  mkVm id None (h_id h) (h_cluster_id h) None name "Unknown" firmware None None vcpu memory None None
    dynamic None None None None nested None None None None None ha false notes None None [] nics [].
(** the adapter of a VLAN; it takes an id of its own *)
Definition vlan_nics (vlan : option Z) : M (list VmNic) :=
  match vlan with
  | Some v => _ ← new_id; mret [mkVmNic 0 None "Network Adapter" None (Some v) None [] true]
  | None => mret []
  end.
(** the common tail: lock, task row, request *)
Definition submit_new_vm (vm : Vm) (h : Host) (fn : string) (params : dict) (requested_by : string)
    : M (Vm * Task) :=
  add_vm vm;;
  task_id ← new_id;
  _ ← acquire_vm_lock (v_id vm) task_id fn requested_by;
  request ← mk_request task_id fn params requested_by;
  created ← gets w_now;
  let task := queued_task task_id fn "vm" (v_id vm) (Some (v_name vm)) (h_id h)
                requested_by created request in
  add_task task;;
  publish_request (h_short_id h) request;;
  mret (vm, task).

Definition create_params (h : Host) (b : VmCreate) (destination : string) (notes : option string) : dict :=
  [("name", JStr (vc_name b));
   ("destination_storage", JStr destination);
   ("os", JStr (vc_os b));
   ("notes", JStr (default "" notes));
   ("firmware", JStr (vc_firmware b));
   ("cpu_count", JInt (vc_cpu_count b));
   ("memory_mb", JInt (vc_memory_mb b));
   ("memory_dynamic", JBool (vc_memory_dynamic b));
   ("memory_min_mb", of_int (vc_memory_min_mb b));
   ("memory_max_mb", of_int (vc_memory_max_mb b));
   ("nested_virtualization", JBool (vc_nested_virtualization b));
   ("vlan_id", of_int (vc_vlan_id b));
   ("switch_name", or_none (opt_json_str (vc_switch_name b)));
   ("dvd", or_none (opt_json_str (vc_dvd b)));
   ("ha_enabled", JBool (vc_ha_enabled b && is_some (h_cluster_id h)));
   ("cluster", if vc_ha_enabled b then opt_json_str (h_cluster_id h) else JNull);
   ("start_now", JBool (vc_start_now b));
   ("disks", JList ((λ d, JObj [("name", JStr (ds_name d)); ("type", JStr (ds_type d));
                                ("size_gb", JInt (ds_size_gb d))]) <$> vc_disks b))].
Definition request_vm_create (h : Host) (b : VmCreate) (requested_by : string) : M (Vm * Task) :=
  require_host_online h;;
  let destination := strip (default "" (vc_destination_storage b)) in
  require_vm_storage_allowed h destination;;
  id ← new_id;
  nics ← vlan_nics (vc_vlan_id b);
  let notes := blank_none (vc_notes b) in
  let vm := placeholder_vm id h (vc_name b) (vc_firmware b) (vc_cpu_count b)
              (vc_memory_mb b * 1024 * 1024) (vc_memory_dynamic b) (vc_nested_virtualization b)
              (vc_ha_enabled b) notes nics in
  submit_new_vm vm h "vm_create" (create_params h b destination notes) requested_by.

(** [a or b] on numbers *)
Definition num_or (a : option Z) (b : Z) : Z :=
  match a with Some z => if z =? 0 then b else z | None => b end.
Record clone_source := mkSource {
  cs_firmware : string; cs_cpu_count : Z; cs_memory_mb : Z; cs_vlan_id : option Z;
  cs_notes : option string; cs_params : dict
}.
Definition clone_from_vm (h : Host) (b : VmClone) : M clone_source :=
  src ← get_vm (default "" (vn_source_vm_id b));
  match src with
  | None => api_error "NOT_FOUND" "Source VM not found" 404
  | Some s =>
      if negb (String.eqb (v_host_id s) (h_id h)) then
        api_error "CROSS_HOST_CLONE" "The source VM and the target host must be the same host" 409
      else if negb (String.eqb (v_state s) "Off") then
        api_error "SOURCE_NOT_OFF" ("'" +:+ v_name s +:+ "' must be powered off to clone it") 409
      else if negb (given_some (v_vm_uuid s)) then
        api_error "VM_NOT_READY" "The source VM has not been reported by its host agent yet" 409
      else
        mret (mkSource (str_nonempty_or (v_firmware s) "UEFI")
          (num_or (vn_cpu_count b) (v_vcpu s))
          (num_or (vn_memory_mb b) (v_memory_bytes s / (1024 * 1024)))
          (match vn_vlan_id b, v_nics s with
           | None, n :: _ => n_vlan_id n
           | o, _ => o
           end)
          (match blank_none (vn_notes b) with None => v_notes s | o => o end)
          [("clone_type", JStr "imported"); ("source_vm_name", JStr (v_name s))])
  end.
Definition clone_from_template (h : Host) (b : VmClone) : M clone_source :=
  t ← query (λ d, templates d !! default "" (vn_template_id b));
  match t with
  | None => api_error "NOT_FOUND" "Template not found" 404
  | Some t =>
      tpl_host ← get_host (t_host_id t);
      let same_cluster :=
        match tpl_host with
        | Some th => is_some (h_cluster_id h) && bool_decide (h_cluster_id th = h_cluster_id h)
        | None => false
        end in
      if negb (String.eqb (t_host_id t) (h_id h)) && negb same_cluster then
        api_error "TEMPLATE_UNREACHABLE" "The template is not on the target host or its cluster" 409
      else
        mret (mkSource "UEFI"
          (num_or (vn_cpu_count b) (num_or (Some (t_cpu_count t)) 2))
          (num_or (vn_memory_mb b) (num_or (Some (t_memory_mb t)) 4096))
          (vn_vlan_id b)
          (match blank_none (vn_notes b) with None => t_notes t | o => o end)
          [("clone_type", JStr "exported"); ("source_export_path", JStr (t_path t));
           ("expand_disks", JBool (vn_expand_disks b))])
  end.
Definition clone_params (h : Host) (b : VmClone) (s : clone_source) : dict :=
  (cs_params s ++
   [("name", JStr (vn_name b));
    ("destination_storage", JStr (strip (default "" (vn_destination_storage b))));
    ("cpu_count", JInt (num_or (Some (cs_cpu_count s)) 2));
    ("memory_mb", JInt (num_or (Some (cs_memory_mb s)) 4096));
    ("notes", JStr (default "" (cs_notes s)));
    ("vlan_id", of_int (cs_vlan_id s));
    ("nested_virtualization", JBool (vn_nested_virtualization b));
    ("ha_enabled", JBool (vn_ha_enabled b && is_some (h_cluster_id h)));
    ("start_now", JBool (vn_start_now b))])%list.
Definition request_vm_clone (b : VmClone) (h : Host) (requested_by : string) : M (Vm * Task) :=
  require_host_online h;;
  require_vm_storage_allowed h (default "" (vn_destination_storage b));;
  s ← (if String.eqb (vn_source b) "vm" then clone_from_vm h b else clone_from_template h b);
  id ← new_id;
  nics ← vlan_nics (cs_vlan_id s);
  memory ← wide 64 (Some (num_or (Some (cs_memory_mb s)) 4096 * 1024 * 1024)) ≫= not_null;
  let vm := placeholder_vm id h (vn_name b) (cs_firmware s) (num_or (Some (cs_cpu_count s)) 2) memory
              false (vn_nested_virtualization b) (vn_ha_enabled b && is_some (h_cluster_id h))
              (cs_notes s) nics in
  submit_new_vm vm h "vm_clone" (clone_params h b s) requested_by.

(** ** Removal without the agent *)
Definition remove_vm_from_inventory (vm : Vm) : M unit :=
  h ← get_host (v_host_id vm);
  online ← match h with Some h => agent_connected h | None => mret false end;
  if is_some h && is_some (v_vm_uuid vm) && online then
    api_error "HOST_ONLINE" ("Host '" +:+ default "" (h_name <$> h) +:+
      "' is online - use Delete to remove the VM, or it will reappear on the next inventory refresh") 409
  else
    _ ← release_vm_lock (v_id vm) None;
    clear_vm_state (v_id vm);;
    exec (delete_vms (λ v, String.eqb (v_id v) (v_id vm))).

(** ** Reasoning: the queueing of a task *)

(** the row and the overlay an action stamps *)
Definition stamped (vm : Vm) (transitional : option string) (d : database) : database :=
  match transitional with
  | Some s => d <| vms ::= <[v_id vm := vm <| v_state := s |>]> |>
  | None => d
  end.

(** a VM that can take a task: reported, its host known, online *)
Record can_queue (w : world) (vm : Vm) (h : Host) (guid : string) : Prop := {
  cq_guid : v_vm_uuid vm = Some guid;
  cq_guid_ne : guid ≠ "";
  cq_host : hosts (w_db w) !! v_host_id vm = Some h;
  cq_online : agent_connected_at (w_cfg w) (w_now w) h = true
}.

Lemma same_lock_submit vm h id fn params by_ tr guid v :
  keeps (same (locked_as v)) (submit_vm_task vm h id fn params by_ tr guid).
Proof. unfold submit_vm_task, mk_request. keep. Qed.
Lemma same_up_submit vm h id fn params by_ tr guid :
  keeps (same w_cache_up) (submit_vm_task vm h id fn params by_ tr guid).
Proof. unfold submit_vm_task, mk_request. keep. Qed.
Lemma same_cfg_submit vm h id fn params by_ tr guid :
  keeps (same w_cfg) (submit_vm_task vm h id fn params by_ tr guid).
Proof. unfold submit_vm_task, mk_request. keep. Qed.
Lemma submit_cache_ok w vm h id fn params by_ tr guid :
  cache_ok w →
  cache_ok (submit_vm_task vm h id fn params by_ tr guid w).2 ∧
  ∀ v, lock_view (submit_vm_task vm h id fn params by_ tr guid w).2 v = lock_view w v.
Proof.
  intros Hok. apply cache_ok_same; [done|apply same_up_submit|apply same_cfg_submit|].
  intros v. apply same_lock_submit.
Qed.

Lemma online_run w h :
  agent_connected_at (w_cfg w) (w_now w) h = true → require_host_online h w = (Ok tt, w).
Proof. intros H. unfold require_host_online, agent_connected. rewrite run_gets. by rewrite H. Qed.

(** the task and the request of one submission *)
Definition task_request (id fn : string) (params : dict) (by_ guid : string) (now : Z) : AgentRequest :=
  mkRequest id fn (dset params "vm_id" (JStr guid)) by_ (utc now).
Definition vm_task (vm : Vm) (id fn : string) (params : dict) (by_ guid : string) (now : Z) : Task :=
  queued_task id fn "vm" (v_id vm) (Some (v_name vm)) (v_host_id vm) by_ now
    (task_request id fn params by_ guid now).

(** the next id drawn names no task yet *)
Definition fresh_task (w : world) : Prop := tasks (w_db w) !! w_uuid4 w (w_seq w) = None.

(** the submission up to the publication *)
Lemma submit_run vm h id fn params by_ tr guid w :
  w_cache_up w = true → tasks (w_db w) !! id = None →
  ∃ c, let w1 := w <| w_db := stamped vm tr (w_db w <| tasks ::= <[id := vm_task vm id fn params by_ guid (w_now w)]> |>) |>
                 <| w_cache := c |> in
    submit_vm_task vm h id fn params by_ tr guid w =
      (publish_request (h_short_id h) (task_request id fn params by_ guid (w_now w));;
       mret (vm_task vm id fn params by_ guid (w_now w))) w1 ∧
    c = match tr with
        | Some s => c_set (w_now w) (vm_state_key (v_id vm)) (CText s) (vm_state_ttl_seconds (w_cfg w)) (w_cache w)
        | None => w_cache w
        end.
Proof.
  intros Hup Hnew. unfold submit_vm_task, mk_request, add_task. run.
  rewrite (run_ok _ _ w tt _ (add_row_run tasks id (put_task _) w Hnew)).
  destruct tr as [s|].
  - unfold save_vm. run.
    match goal with |- context [(set_vm_state ?a ?b ≫= _) ?x] =>
      rewrite (run_ok _ _ _ _ _ (set_vm_state_run x a b Hup)) end.
    eexists. split; [|done]. reflexivity.
  - rewrite run_ret. eexists. split; [|done]. by destruct w.
Qed.

Lemma submit_taken vm h id fn params by_ tr guid w old :
  tasks (w_db w) !! id = Some old → submit_vm_task vm h id fn params by_ tr guid w = (Raise EIntegrity, w).
Proof.
  intros Hold. unfold submit_vm_task, mk_request, add_task. run.
  apply (run_fail _ _ w EIntegrity w), add_row_taken. by exists old.
Qed.

(** the queueing of a task on a free VM *)
Lemma queue_run w vm h guid fn params by_ tr :
  can_queue w vm h guid → cache_ok w → lock_view w (v_id vm) = None →
  let id := w_uuid4 w (w_seq w) in
  ∃ c, let w1 := w <| w_seq := S (w_seq w) |> <| w_cache := c |> in
    queue_vm_task vm fn params by_ tr true w =
      try_except (submit_vm_task vm h id fn params by_ tr guid)
        (λ e, (release_vm_lock (v_id vm) (Some id);; mret tt);; raise e) w1 ∧
    lock_view w1 (v_id vm) = Some (mkVmLock id fn by_ (utc (w_now w))) ∧ cache_ok w1 ∧
    (∀ v, v ≠ v_id vm → lock_view w1 v = lock_view w v).
Proof.
  intros [Hg Hne Hh Hon] Hok Hfree. cbv zeta.
  set (w0 := w <| w_seq := S (w_seq w) |>).
  destruct (mutex_acquire_free w0 (v_id vm) (w_uuid4 w (w_seq w)) fn by_) as (c & Ha & Hv & Hok' & Ho); [done..|].
  exists c. split; [|done].
  unfold queue_vm_task. rewrite Hg. destruct guid as [|a g]; [done|].
  unfold get_host. rewrite run_query, Hh, (run_ok _ _ _ _ _ (online_run w h Hon)), run_new_id.
  change (w <| w_seq ::= S |>) with w0. rewrite (run_ok _ _ _ _ _ Ha). reflexivity.
Qed.

(** queueing on a free VM, and the cache left well formed *)
Lemma queue_accepts w vm h guid fn params by_ tr :
  can_queue w vm h guid → cache_ok w → lock_view w (v_id vm) = None → w_broker_up w = true →
  request_queue_ok w (h_short_id h) → fresh_task w →
  let id := w_uuid4 w (w_seq w) in
  let t := vm_task vm id fn params by_ guid (w_now w) in
  let rq := task_request id fn params by_ guid (w_now w) in
  ∃ w', queue_vm_task vm fn params by_ tr true w = (Ok t, w') ∧
    w_db w' = stamped vm tr (w_db w <| tasks ::= <[id := t]> |>) ∧
    lock_view w' (v_id vm) = Some (mkVmLock id fn by_ (utc (w_now w))) ∧
    (∀ v, v ≠ v_id vm → lock_view w' v = lock_view w v) ∧
    published (w_mq w') = (published (w_mq w) ++ [(queue_name (h_short_id h) REQUEST, rq)])%list ∧
    dget (rq_params rq) "vm_id" = JStr guid ∧
    (∀ k, k ≠ "vm_id" → dget (rq_params rq) k = dget params k) ∧
    (∀ s, tr = Some s → 0 < vm_state_ttl_seconds (w_cfg w) → get_vm_state (v_id vm) w' = (Ok (Some s), w')) ∧
    cache_ok w'.
Proof.
  intros Hq Hok Hfree Hbr Hrq Hnew. cbv zeta.
  destruct (queue_run w vm h guid fn params by_ tr Hq Hok Hfree) as (c & Hrun & Hlock & Hok1 & Hother).
  set (id := w_uuid4 w (w_seq w)) in *. set (w1 := w <| w_seq := S (w_seq w) |> <| w_cache := c |>) in *.
  destruct (submit_run vm h id fn params by_ tr guid w1 (proj1 Hok1) Hnew) as (c2 & Hs & Hc2). cbv zeta in Hs.
  set (w2 := w1 <| w_db := _ |> <| w_cache := c2 |>) in Hs.
  destruct (publish_run w2 (h_short_id h) (task_request id fn params by_ guid (w_now w1)) Hbr Hrq)
    as (b & Hb & Hp & _ & _).
  rewrite (run_ok _ _ _ _ _ Hb) in Hs.
  destruct (submit_cache_ok w1 vm h id fn params by_ tr guid Hok1) as [_ Hl]. rewrite Hs in Hl. cbn [snd] in Hl.
  destruct (submit_cache_ok w1 vm h id fn params by_ tr guid Hok1) as [Hok2 _]. rewrite Hs in Hok2. cbn [snd] in Hok2.
  exists (w2 <| w_mq := b |>). split.
  { rewrite Hrun. unfold try_except. rewrite Hs. reflexivity. }
  split; [done|]. split; [by rewrite Hl|]. split; [intros v Hv; by rewrite Hl, Hother|].
  split; [exact Hp|]. unfold task_request. cbn [rq_params]. split; [by rewrite dget_dset|].
  split; [intros k Hk; rewrite dget_dset; apply String.eqb_neq in Hk; by rewrite Hk|].
  split; [|exact Hok2]. intros s -> Httl. subst c2. unfold get_vm_state.
  rewrite peek_run by exact (proj1 Hok1). cbn. by rewrite c_get_set_eq.
Qed.

(** C5: queueing a VM task.  On a reported VM whose host is online, whose lock
    is free and whose broker is up, a mutating task is accepted: the VM is now
    locked by exactly this task (other locks alone), one queued task with that
    id is added, the row and the cache show the transitional state, and one
    request with the task's id is published to the host - its [vm_id] is the
    VM's GUID whatever the caller put in the parameters. *)
Theorem queue_task_accepts w vm h guid fn params by_ tr :
  can_queue w vm h guid → cache_ok w → lock_view w (v_id vm) = None → w_broker_up w = true →
  request_queue_ok w (h_short_id h) → fresh_task w →
  let id := w_uuid4 w (w_seq w) in
  let t := vm_task vm id fn params by_ guid (w_now w) in
  let rq := task_request id fn params by_ guid (w_now w) in
  ∃ w', queue_vm_task vm fn params by_ tr true w = (Ok t, w') ∧
    w_db w' = stamped vm tr (w_db w <| tasks ::= <[id := t]> |>) ∧
    lock_view w' (v_id vm) = Some (mkVmLock id fn by_ (utc (w_now w))) ∧
    (∀ v, v ≠ v_id vm → lock_view w' v = lock_view w v) ∧
    published (w_mq w') = (published (w_mq w) ++ [(queue_name (h_short_id h) REQUEST, rq)])%list ∧
    dget (rq_params rq) "vm_id" = JStr guid ∧
    (∀ k, k ≠ "vm_id" → dget (rq_params rq) k = dget params k) ∧
    (∀ s, tr = Some s → 0 < vm_state_ttl_seconds (w_cfg w) → get_vm_state (v_id vm) w' = (Ok (Some s), w')).
Proof.
  intros Hq Hok Hfree Hbr Hrq Hnew. cbv zeta.
  destruct (queue_accepts w vm h guid fn params by_ tr Hq Hok Hfree Hbr Hrq Hnew) as (w' & H). exists w'. tauto.
Qed.

(** an example: a running VM on an online host *)
Definition sample_vm : Vm :=
  mkVm "v1" (Some "g1") "h1" None (Some "f1") "web" "Off" "UEFI" None None 2 4294967296 None None false
    None None None None false None None None None None false false None None None [] [] [].
Definition vm_world : world :=
  sample_world <| w_db := empty_db <| hosts := {["h1" := sample_host]} |>
                                   <| vms := {["v1" := sample_vm]} |> |>.
Lemma vm_world_ok : cache_ok vm_world.
Proof. split; [done|split; [by apply locks_wf_empty|by vm_compute]]. Qed.
Lemma vm_world_queue : can_queue vm_world sample_vm sample_host "g1".
Proof. split; [reflexivity|discriminate|vm_compute; reflexivity|vm_compute; reflexivity]. Qed.
Lemma queue_task_accepts_witness : ∃ w' t,
  queue_vm_task sample_vm "vm_start" [("vm_id", JStr "evil")] "op" (Some "Starting") true vm_world
    = (Ok t, w') ∧
  lk_task_id <$> lock_view w' "v1" = Some (k_id t) ∧ (v_state <$> vms (w_db w') !! "v1") = Some "Starting".
Proof.
  destruct (queue_task_accepts vm_world sample_vm sample_host "g1" "vm_start" [("vm_id", JStr "evil")] "op"
    (Some "Starting") vm_world_queue vm_world_ok) as (w' & Hr & Hdb & Hl & _);
    [reflexivity|reflexivity|intros a Ha; discriminate Ha|reflexivity|].
  eexists w', _. split; [exact Hr|]. split; [exact (f_equal (fmap (M:=option) lk_task_id) Hl)|].
  rewrite Hdb. vm_compute. reflexivity.
Defined.

(** the refusal while another task holds the VM *)
Lemma queue_busy w vm h guid fn params by_ tr l :
  can_queue w vm h guid → cache_ok w → lock_view w (v_id vm) = Some l →
  queue_vm_task vm fn params by_ tr true w =
    vm_locked (v_name vm) (Some l) (w <| w_seq := S (w_seq w) |>).
Proof.
  intros [Hg Hne Hh Hon] Hok Hheld.
  unfold queue_vm_task. rewrite Hg. destruct guid as [|a g]; [done|].
  unfold get_host. rewrite run_query, Hh, (run_ok _ _ _ _ _ (online_run w h Hon)), run_new_id.
  set (w0 := w <| w_seq ::= S |>).
  assert (cache_ok w0) as Hok0 by exact Hok.
  rewrite (run_ok _ _ _ _ _ (mutex_acquire_held w0 (v_id vm) _ fn by_ l Hok0 Hheld)). cbn [negb].
  unfold get_vm_lock. rewrite run_assoc.
  rewrite (run_ok _ _ _ _ _ (peek_run w0 (proj1 Hok0) _)).
  by rewrite (lock_view_held w0 (v_id vm) l Hheld).
Qed.

(** C1: one mutating task per VM.  While a task holds the VM's lock every
    further mutating request is refused with [VM_LOCKED], naming the task that
    holds it, and changes nothing but the id counter - no task, no state, no
    message; in particular a second request right after an accepted one is. *)
Theorem mutating_tasks_exclusive w vm h guid fn params by_ tr fn' params' by' tr' :
  can_queue w vm h guid → cache_ok w →
  (∀ l, lock_view w (v_id vm) = Some l →
     queue_vm_task vm fn params by_ tr true w =
       (Raise (EApi (mkApiError "VM_LOCKED"
          ("'" +:+ v_name vm +:+ "' is busy - a " +:+ lk_kind l +:+
           " is already running on it. Wait for it to finish before trying again.") 409
          (Some [("lock", JObj (lock_json l))]))), w <| w_seq := S (w_seq w) |>)) ∧
  (∀ t w', queue_vm_task vm fn params by_ tr true w = (Ok t, w') →
     lk_task_id <$> lock_view w' (v_id vm) = Some (k_id t) ∧
     ∃ e, queue_vm_task vm fn' params' by' tr' true w' = (Raise (EApi e), w' <| w_seq := S (w_seq w') |>) ∧
       err_code e = "VM_LOCKED").
Proof.
  intros Hq Hok. split.
  { intros l Hl. by rewrite (queue_busy w vm h guid fn params by_ tr l Hq Hok Hl). }
  intros t w' Ht. destruct (lock_view w (v_id vm)) as [l|] eqn:El.
  { by rewrite (queue_busy w vm h guid fn params by_ tr l Hq Hok El) in Ht. }
  destruct (queue_run w vm h guid fn params by_ tr Hq Hok El) as (c & Hrun & Hlock & Hok1 & _).
  set (w1 := w <| w_seq := S (w_seq w) |> <| w_cache := c |>) in *.
  rewrite Hrun in Ht. unfold try_except in Ht.
  destruct (submit_cache_ok w1 vm h (w_uuid4 w (w_seq w)) fn params by_ tr guid Hok1) as [Hok2 Hl].
  destruct (tasks (w_db w1) !! w_uuid4 w (w_seq w)) as [old|] eqn:Hnew.
  { rewrite (submit_taken vm h _ fn params by_ tr guid w1 old Hnew) in Ht.
    repeat (apply bind_inv in Ht as (? & ? & _ & Ht)). done. }
  destruct (submit_run vm h (w_uuid4 w (w_seq w)) fn params by_ tr guid w1 (proj1 Hok1) Hnew) as (c2 & Hs & _).
  cbv zeta in Hs. set (w2 := w1 <| w_db := _ |> <| w_cache := c2 |>) in Hs.
  destruct (submit_vm_task vm h (w_uuid4 w (w_seq w)) fn params by_ tr guid w1) as [[t'|e] w3] eqn:Esub;
    cbn [snd] in Hok2, Hl.
  2:{ repeat (apply bind_inv in Ht as (? & ? & _ & Ht)). done. }
  injection Ht as -> ->. symmetry in Hs. apply bind_inv in Hs as ([] & w4 & Hpub & Hret).
  apply ret_inv in Hret as [<- <-].
  assert (lock_view w4 (v_id vm) = Some (mkVmLock (w_uuid4 w (w_seq w)) fn by_ (utc (w_now w)))) as Hl4
    by (by rewrite Hl).
  split; [by rewrite Hl4|].
  assert (can_queue w4 vm h guid) as Hq4.
  { pose proof (same_publish (λ w, (hosts (w_db w), w_cfg w, w_now w)) (h_short_id h)
      (task_request (w_uuid4 w (w_seq w)) fn params by_ guid (w_now w1)) ltac:(done) w2) as Hsame.
    unfold same in Hsame. rewrite Hpub in Hsame. cbn [snd] in Hsame. injection Hsame as E1 E2 E3.
    destruct Hq as [G1 G2 G3 G4]. split; [done|done| |].
    - rewrite E1. unfold w2, stamped. destruct tr; exact G3.
    - rewrite E2, E3. exact G4. }
  rewrite (queue_busy w4 vm h guid fn' params' by' tr' _ Hq4 Hok2 Hl4).
  unfold vm_locked, raise. eexists. split; [reflexivity|done].
Qed.
Lemma mutating_tasks_exclusive_witness : ∃ t w' e,
  queue_vm_task sample_vm "vm_start" [] "op" (Some "Starting") true vm_world = (Ok t, w') ∧
  queue_vm_task sample_vm "vm_stop" [] "op2" (Some "Stopping") true w' = (Raise (EApi e), w' <| w_seq := S (w_seq w') |>) ∧
  err_code e = "VM_LOCKED".
Proof.
  destruct (queue_vm_task sample_vm "vm_start" [] "op" (Some "Starting") true vm_world) as [[t|e] w'] eqn:E.
  - destruct (mutating_tasks_exclusive vm_world sample_vm sample_host "g1" "vm_start" [] "op" (Some "Starting")
      "vm_stop" [] "op2" (Some "Stopping") vm_world_queue vm_world_ok) as [_ H].
    destruct (H t w' E) as (_ & e & He & Hc). exists t, w', e. split; [reflexivity|]. split; [exact He|exact Hc].
  - exfalso. assert ((queue_vm_task sample_vm "vm_start" [] "op" (Some "Starting") true vm_world).1
      = Raise e) as H by (by rewrite E). vm_compute in H. discriminate H.
Defined.

(** C10: a request that cannot be published leaves no lock behind, but its
    optimistic state.  When the broker is down the queueing raises; with the
    session rolled back the database is as before, every lock is as before and
    nothing was published - yet the cache overlay keeps the transitional state
    it had already been given, so the VM is shown e.g. [Starting] until the
    next inventory or the overlay's expiry. *)
Theorem publish_failure_frees_lock w vm h guid fn params by_ tr :
  can_queue w vm h guid → cache_ok w → lock_view w (v_id vm) = None → w_broker_up w = false → fresh_task w →
  ∃ w', session_scope (queue_vm_task vm fn params by_ tr true) w = (Raise EBroker, w') ∧
    w_db w' = w_db w ∧ w_mq w' = w_mq w ∧ (∀ v, lock_view w' v = lock_view w v) ∧
    (∀ s, tr = Some s → 0 < vm_state_ttl_seconds (w_cfg w) →
       c_get (w_now w') (vm_state_key (v_id vm)) (w_cache w') = Some (CText s)).
Proof.
  intros Hq Hok Hfree Hbr Hnew.
  destruct (queue_run w vm h guid fn params by_ tr Hq Hok Hfree) as (c & Hrun & Hlock & Hok1 & Hother).
  set (id := w_uuid4 w (w_seq w)) in *. set (w1 := w <| w_seq := S (w_seq w) |> <| w_cache := c |>) in *.
  destruct (submit_run vm h id fn params by_ tr guid w1 (proj1 Hok1) Hnew) as (c2 & Hs & Hc2). cbv zeta in Hs.
  set (w2 := w1 <| w_db := _ |> <| w_cache := c2 |>) in Hs.
  assert (w_broker_up w2 = false) as Hbr2 by exact Hbr.
  rewrite (run_fail _ _ _ _ _ (publish_down w2 (h_short_id h) _ Hbr2)) in Hs.
  destruct (submit_cache_ok w1 vm h id fn params by_ tr guid Hok1) as [Hok2 Hl]. rewrite Hs in Hok2, Hl.
  cbn [snd] in Hok2, Hl.
  assert (lock_view w2 (v_id vm) = Some (mkVmLock id fn by_ (utc (w_now w)))) as Hl2 by (by rewrite Hl).
  destruct (mutex_release_owner w2 (v_id vm) _ Hok2 Hl2) as (c3 & Hr & Hv & _ & Ho).
  pose proof (same_entry_release (vm_state_key (v_id vm)) (v_id vm) (Some id)) as Hent.
  specialize (Hent ltac:(intros E; symmetry in E; by apply vm_lock_state_key in E) w2).
  cbn [lk_task_id] in Hr. unfold same in Hent. rewrite Hr in Hent. cbn [snd] in Hent.
  eexists. split.
  { unfold session_scope, savepoint. rewrite Hrun. unfold try_except. rewrite Hs, run_assoc.
    rewrite (run_ok _ _ _ _ _ Hr), run_ret. reflexivity. }
  split; [done|]. split; [done|]. split.
  - intros v. change (lock_view (_ <| w_db := _ |>) v) with (lock_view (w2 <| w_cache := c3 |>) v).
    destruct (decide (v = v_id vm)) as [->|Hne]; [by rewrite Hv|]. rewrite Ho by done. by rewrite Hl, Hother.
  - intros s -> Httl. etrans; [exact Hent|]. subst c2. cbn. by rewrite c_get_set_eq.
Qed.
Definition vm_world_down : world := vm_world <| w_broker_up := false |>.
Lemma vm_world_down_ok : cache_ok vm_world_down.
Proof. split; [done|split; [by apply locks_wf_empty|by vm_compute]]. Qed.
Lemma vm_world_down_queue : can_queue vm_world_down sample_vm sample_host "g1".
Proof. split; [reflexivity|discriminate|vm_compute; reflexivity|vm_compute; reflexivity]. Qed.
Lemma publish_failure_frees_lock_witness : ∃ w',
  session_scope (queue_vm_task sample_vm "vm_start" [] "op" (Some "Starting") true)
    vm_world_down = (Raise EBroker, w') ∧
  lock_view w' "v1" = None ∧ (v_state <$> vms (w_db w') !! "v1") = Some "Off" ∧
  c_get (w_now w') (vm_state_key "v1") (w_cache w') = Some (CText "Starting").
Proof.
  destruct (publish_failure_frees_lock vm_world_down sample_vm sample_host "g1"
    "vm_start" [] "op" (Some "Starting")) as (w' & Hr & Hdb & _ & Hl & Hs);
    [apply vm_world_down_queue|apply vm_world_down_ok|reflexivity|reflexivity|reflexivity|].
  exists w'. split; [exact Hr|]. split; [exact (Hl "v1")|].
  split; [rewrite Hdb; vm_compute; reflexivity|]. apply (Hs "Starting"); [reflexivity|vm_compute; reflexivity].
Defined.

(** ** Creation *)
Lemma put_placeholder w id h name fw vcpu mem dyn nested ha notes nics :
  vms (w_db w) !! id = None →
  add_vm (placeholder_vm id h name fw vcpu mem dyn nested ha notes nics) w =
    (Ok tt, w <| w_db := w_db w <| vms ::=
       <[id := placeholder_vm id h name fw vcpu mem dyn nested ha notes nics]> |> |>).
Proof.
  intros Hnew. etrans; [by apply add_row_run|]. apply put_vm_ok. unfold slot_taken. set (p := λ u, _).
  destruct (rows p (vms (w_db w))) as [|u l] eqn:E; [done|].
  assert (u ∈ rows p (vms (w_db w))) as Hin by (rewrite E; left).
  apply elem_of_rows in Hin as (k & _ & Hp). unfold p, same_slot in Hp. cbn in Hp.
  destruct (v_vm_uuid u); by rewrite andb_false_r in Hp.
Qed.

(** A creation that cannot be published strands its lock.  Unlike
    [_queue_vm_task], [request_vm_create] has no handler around the
    publication: with the broker down it raises and the session drops the
    placeholder row, but the lock it took on the placeholder's id stays in the
    cache for the whole TTL of a create task. *)
Theorem create_failure_strands_lock w h b by_ :
  agent_connected_at (w_cfg w) (w_now w) h = true → cache_ok w → w_broker_up w = false →
  require_vm_storage_allowed h (strip (default "" (vc_destination_storage b))) w = (Ok tt, w) →
  vc_vlan_id b = None →
  let id := w_uuid4 w (w_seq w) in let tid := w_uuid4 w (S (w_seq w)) in
  vms (w_db w) !! id = None → tasks (w_db w) !! tid = None →
  lock_view w id = None →
  ∃ w', session_scope (request_vm_create h b by_) w = (Raise EBroker, w') ∧
    w_db w' = w_db w ∧
    ∀ later, lock_view (w' <| w_now := later |>) id =
      if later <? w_now w + seconds (task_timeout (w_cfg w) "vm_create" + 60)
      then Some (mkVmLock tid "vm_create" by_ (utc (w_now w))) else None.
Proof.
  intros Hon Hok Hbr Hst Hvlan. cbv zeta. intros Hnew Htask Hfree.
  unfold session_scope, savepoint, request_vm_create, submit_new_vm, vlan_nics, mk_request, add_task.
  rewrite (run_ok _ _ _ _ _ (online_run w h Hon)), (run_ok _ _ _ _ _ Hst), run_new_id, Hvlan, run_ret.
  set (w0 := w <| w_seq ::= S |>).
  rewrite (run_ok _ _ _ _ _ (put_placeholder w0 _ _ _ _ _ _ _ _ _ _ _ Hnew)), run_new_id.
  set (vm := placeholder_vm _ _ _ _ _ _ _ _ _ _ _).
  match goal with |- context [(acquire_vm_lock _ _ _ _ ≫= _) ?x] => set (w1 := x) end.
  assert (w_cache_up w1 = true) as Hup1 by exact (proj1 Hok).
  rewrite (run_ok _ _ _ _ _ (acquire_run w1 _ _ _ _ Hup1)).
  assert (c_get (w_now w1) (vm_lock_key (v_id vm)) (w_cache w1) = None) as Hc
    by exact (lock_view_free w _ (proj1 (proj2 Hok)) Hfree).
  unfold c_set_nx. rewrite Hc. cbn [fst snd]. run.
  match goal with |- context [(add_row tasks ?k ?p ≫= _) ?x] =>
    rewrite (run_ok (add_row tasks k p) _ x tt _ (add_row_run tasks k p x Htask)) end.
  match goal with |- context [(publish_request ?a ?r ≫= _) ?x] =>
    rewrite (run_fail _ _ _ _ _ (publish_down x a r Hbr)) end.
  eexists. split; [reflexivity|]. split; [done|]. intros later.
  unfold lock_view, c_get, c_set. cbn. rewrite lookup_insert_eq. unfold live, lock_ttl. cbn.
  by destruct (later <? _).
Qed.

Definition sample_vm_create : VmCreate :=
  mkCreate "web2" "h1" "linux" "UEFI" 2 4096 false None None None None None None false false None false [].
Lemma create_failure_strands_lock_witness : ∃ w',
  session_scope (request_vm_create sample_host sample_vm_create "op") vm_world_down = (Raise EBroker, w') ∧
  w_db w' = w_db vm_world_down ∧
  lk_kind <$> lock_view (w' <| w_now := w_now vm_world_down |>) (w_uuid4 vm_world_down 0) = Some "vm_create".
Proof.
  destruct (create_failure_strands_lock vm_world_down sample_host sample_vm_create "op")
    as (w' & Hr & Hdb & Hl);
    [vm_compute; reflexivity|apply vm_world_down_ok|reflexivity|vm_compute; reflexivity|reflexivity
    |vm_compute; reflexivity|vm_compute; reflexivity|vm_compute; reflexivity|].
  exists w'. split; [exact Hr|]. split; [exact Hdb|].
  etrans; [exact (f_equal (fmap (M:=option) lk_kind) (Hl (w_now vm_world_down)))|]. vm_compute. reflexivity.
Defined.
