(* ===== verification/Sweeper.v ===== *)
(** * The worker's sweepers ([app/worker/main.py])

    The deadline sweep over the tasks - one session that times tasks out,
    settles their audit events, frees the VMs they held and drops placeholder
    VMs - and the retention sweeps over metrics and audit events. *)
From S2P Require Import Prelude Py Clock Model World Store Cache AuditLog.
Open Scope string_scope.
Open Scope Z_scope.

Definition TIMEOUT_ERROR : string := "Agent did not respond in time".

(** the SQL pre-filter: not terminal, and past the shortest deadline *)
Definition sweep_candidate (cfg : Settings) (now : Z) (k : Task) : bool :=
  negb (bool_decide (k_status k ∈ TERMINAL_TASK_STATUSES)) &&
  (k_created_at k <? now - seconds (task_timeout_seconds cfg)).
(** the check in Python: past the deadline of its own kind *)
Definition past_deadline (cfg : Settings) (now : Z) (k : Task) : bool :=
  k_created_at k <? now - seconds (task_timeout cfg (k_kind k)).
Definition stale_tasks (cfg : Settings) (now : Z) (d : database) : list Task :=
  List.filter (past_deadline cfg now) (rows (sweep_candidate cfg now) (tasks d)).
Definition timed_out (at_ : datetime) (k : Task) : Task :=
  k <| k_status := "timeout" |> <| k_finished_at := Some at_ |> <| k_error := Some TIMEOUT_ERROR |>.
Definition release_tasks (stale : list Task) : M unit :=
  for_each stale (λ t,
    if String.eqb (k_target_type t) "vm" then release_vm_lock (k_target_id t) (Some (k_id t));; mret tt
    else mret tt).
Definition expire_tasks (stale : list Task) : M unit :=
  match stale with
  | [] => mret tt
  | _ =>
      let ids := k_id <$> stale in
      at_ ← now_utc;
      exec (λ d, d <| tasks ::= fmap (λ k, if bool_decide (k_id k ∈ ids) then timed_out at_ k else k) |>);;
      settle_task_events ids "timeout" (Some TIMEOUT_ERROR);;
      release_tasks stale
  end.
(** a placeholder whose creation ended without a VM *)
Definition failed_creation (k : Task) : bool :=
  bool_decide (k_kind k ∈ ["vm_create"; "vm_clone"]) && bool_decide (k_status k ∈ ["timeout"; "failed"]).
Definition orphan (d : database) (v : Vm) : bool :=
  negb (is_some (v_vm_uuid v)) && bool_decide (v_id v ∈ k_target_id <$> rows failed_creation (tasks d)).
Definition sweep_stale_tasks : M unit :=
  now ← now_utc;
  cfg ← get_settings;
  session_scope (
    stale ← query (stale_tasks cfg (instant now));
    expire_tasks stale;;
    exec (λ d, delete_vms (orphan d) d)).
(** one pass of the loop: a failing sweep is logged and retried later *)
Definition timeout_sweeper_pass : M unit := try_except sweep_stale_tasks (λ _, mret tt).

Definition metrics_retention_pass : M unit :=
  now ← now_utc;
  cfg ← get_settings;
  let cutoff := instant now - seconds (metrics_retention_seconds cfg) in
  session_scope (exec (λ d,
    d <| host_metrics ::= List.filter (λ m, negb (instant (hm_ts m) <? cutoff)) |>
      <| vm_metrics ::= List.filter (λ m, negb (instant (vm_ts m) <? cutoff)) |>)).
Definition audit_retention_pass : M unit :=
  cfg ← get_settings;
  if audit_retention_days cfg <=? 0 then mret tt
  else try_except (session_scope (prune_events (audit_retention_days cfg));; mret tt) (λ _, mret tt).

(** ** Releasing the locks of a list of tasks, against the lock's interface *)

(** task [t] is the holder of the lock [lk] on [v] *)
Definition holds (t : Task) (v : string) (lk : option VmLock) : bool :=
  String.eqb (k_target_type t) "vm" && String.eqb (k_target_id t) v &&
  match lk with Some l => String.eqb (lk_task_id l) (k_id t) | None => false end.
Definition after_release (l : list Task) (v : string) (lk : option VmLock) : option VmLock :=
  if existsb (λ t, holds t v lk) l then None else lk.

Section release.
Context {acquire : string → string → string → string → M bool}
  {release : string → option string → M bool} {view : world → string → option VmLock}
  {ok : world → Prop} {mutex : VmMutex acquire release view ok}.

Lemma release_one w t v :
  ok w →
  ∃ c b, release v (Some t) w = (Ok b, w <| w_cache := c |>) ∧ ok (w <| w_cache := c |>) ∧
    view (w <| w_cache := c |>) v =
      match view w v with Some l => if String.eqb (lk_task_id l) t then None else Some l | None => None end ∧
    ∀ v', v' ≠ v → view (w <| w_cache := c |>) v' = view w v'.
Proof using mutex.
  intros Hok. destruct (view w v) as [l|] eqn:Ev.
  - destruct (String.eqb_spec (lk_task_id l) t) as [<-|Hne].
    + destruct (mutex_release_owner w v l Hok Ev) as (c & Hr & Hv & Hok' & Ho). exists c, true. done.
    + exists (w_cache w), false. replace (w <| w_cache := w_cache w |>) with w by (by destruct w).
      split; [|done]. apply mutex_release_other; [done|]. intros l' Hl'. congruence.
  - exists (w_cache w), false. replace (w <| w_cache := w_cache w |>) with w by (by destruct w).
    split; [|done]. apply mutex_release_other; [done|]. intros l' Hl'. congruence.
Qed.
Lemma release_list l w :
  ok w →
  ∃ c, for_each l (λ t, if String.eqb (k_target_type t) "vm"
                        then release (k_target_id t) (Some (k_id t));; mret tt else mret tt) w
         = (Ok tt, w <| w_cache := c |>) ∧ ok (w <| w_cache := c |>) ∧
    ∀ v, view (w <| w_cache := c |>) v = after_release l v (view w v).
Proof using mutex.
  revert w. induction l as [|t l IH]; intros w Hok; cbn [for_each].
  { exists (w_cache w). replace (w <| w_cache := w_cache w |>) with w by (by destruct w). done. }
  destruct (String.eqb_spec (k_target_type t) "vm") as [Et|Et].
  - destruct (release_one w (k_id t) (k_target_id t) Hok) as (c & b & Hr & Hok1 & Hv & Ho).
    destruct (IH _ Hok1) as (c' & Hl & Hok2 & Hv2). exists c'.
    rewrite run_assoc, (run_ok _ _ _ _ _ Hr), run_ret. split; [exact Hl|]. split; [exact Hok2|].
    intros v. etrans; [apply Hv2|]. unfold after_release. cbn [existsb].
    assert (∀ lk, holds t v lk = String.eqb (k_target_id t) v &&
      match lk with Some l => String.eqb (lk_task_id l) (k_id t) | None => false end) as Hh
      by (intros lk; unfold holds; by rewrite Et).
    rewrite !Hh. clear Hh. destruct (String.eqb_spec (k_target_id t) v) as [<-|Hne]; cbn [andb].
    + rewrite Hv. destruct (view w (k_target_id t)) as [lk|]; [|by destruct (existsb _ _)].
      destruct (String.eqb_spec (lk_task_id lk) (k_id t)); cbn [orb]; [by destruct (existsb _ _)|done].
    + rewrite Ho by done. done.
  - destruct (IH w Hok) as (c' & Hl & Hok2 & Hv2). exists c'. rewrite run_ret. split; [exact Hl|].
    split; [exact Hok2|]. intros v. rewrite Hv2. unfold after_release. cbn [existsb].
    apply String.eqb_neq in Et.
    by replace (holds t v (view w v)) with false by (unfold holds; by rewrite Et).
Qed.
End release.

(** ** What a sweep is to do *)

(** not ended, and older than the deadline of its kind *)
Definition overdue (w : world) (k : Task) : bool :=
  negb (bool_decide (k_status k ∈ TERMINAL_TASK_STATUSES)) &&
  (k_created_at k + seconds (task_timeout (w_cfg w) (k_kind k)) <? w_now w).
Definition overdue_id (w : world) (id : string) : bool :=
  match tasks (w_db w) !! id with Some k => overdue w k | None => false end.
(** the audit event of an overdue task *)
Definition settled_late (w : world) (e : AuditEvent) : AuditEvent :=
  match ae_task_id e with
  | Some t => if overdue_id w t && String.eqb (ae_outcome e) "pending"
              then e <| ae_outcome := "timeout" |> <| ae_error := Some TIMEOUT_ERROR |> else e
  | None => e
  end.
(** the lock on [v] is held by an overdue task on [v] *)
Definition held_overdue (w : world) (v : string) (l : VmLock) : bool :=
  match tasks (w_db w) !! lk_task_id l with
  | Some k => overdue w k && String.eqb (k_target_type k) "vm" && String.eqb (k_target_id k) v
  | None => false
  end.
(** a placeholder row whose creation failed or timed out *)
Definition abandoned (d : database) (v : Vm) : Prop :=
  v_vm_uuid v = None ∧ ∃ id k, tasks d !! id = Some k ∧ k_target_id k = v_id v ∧
    k_kind k ∈ ["vm_create"; "vm_clone"] ∧ k_status k ∈ ["timeout"; "failed"].

(** the pre-filter loses no overdue task *)
Lemma elem_of_stale w t :
  t ∈ stale_tasks (w_cfg w) (w_now w) (w_db w) ↔ ∃ id, tasks (w_db w) !! id = Some t ∧ overdue w t = true.
Proof.
  unfold stale_tasks. rewrite elem_of_lfilter, elem_of_rows. unfold past_deadline, sweep_candidate, overdue.
  pose proof (task_timeout_default (w_cfg w) (k_kind t)) as Hd. split.
  - intros [(id & Hid & Hc) Hp]. exists id. split; [done|]. bool_prop. apply andb_true_iff.
    split; [by apply negb_true_iff, bool_decide_eq_false|]. apply Z.ltb_lt. lia.
  - intros (id & Hid & Ho). bool_prop. split; [|apply Z.ltb_lt; lia]. exists id. split; [done|].
    apply andb_true_iff. split; [by apply negb_true_iff, bool_decide_eq_false|].
    apply Z.ltb_lt. unfold seconds in *. lia.
Qed.
Lemma stale_ids w id :
  keyed (w_db w) →
  bool_decide (id ∈ k_id <$> stale_tasks (w_cfg w) (w_now w) (w_db w)) = overdue_id w id.
Proof.
  intros (_ & _ & Hk). unfold overdue_id. apply eq_bool_prop_intro. rewrite bool_decide_spec.
  rewrite list_elem_of_fmap. split.
  - intros (t & -> & (i & Hi & Ho)%elem_of_stale). rewrite (Hk _ _ Hi), Hi. by apply Is_true_true.
  - destruct (tasks (w_db w) !! id) as [t|] eqn:E; [|done]. intros Ho%Is_true_true. exists t.
    split; [symmetry; eauto|]. apply elem_of_stale. eauto.
Qed.
Lemma stale_holders w v l :
  keyed (w_db w) →
  existsb (λ t, holds t v (Some l)) (stale_tasks (w_cfg w) (w_now w) (w_db w)) = held_overdue w v l.
Proof.
  intros (_ & _ & Hk). unfold held_overdue. apply eq_bool_prop_intro. rewrite !Is_true_true, existsb_exists.
  split.
  - intros (t & Hin & Hh). apply list_elem_of_In, elem_of_stale in Hin as (i & Hi & Ho).
    unfold holds in Hh. bool_prop. apply String.eqb_eq in H0. rewrite H0, (Hk _ _ Hi), Hi, Ho. cbn.
    by rewrite H, H1.
  - destruct (tasks (w_db w) !! lk_task_id l) as [t|] eqn:E; [|done]. intros Hh. bool_prop. exists t. split.
    + apply list_elem_of_In, elem_of_stale. eauto.
    + unfold holds. rewrite H0, H1, (Hk _ _ E), String.eqb_refl. done.
Qed.

(** the database after the expiry of a list of tasks *)
Definition expired_db (stale : list Task) (at_ : datetime) (d : database) : database :=
  let ids := k_id <$> stale in
  d <| tasks ::= fmap (λ k, if bool_decide (k_id k ∈ ids) then timed_out at_ k else k) |>
    <| audit_events ::= fmap (settle_event ids "timeout" (Some TIMEOUT_ERROR)) |>.
Lemma expired_db_nil at_ d : expired_db [] at_ d = d.
Proof.
  unfold expired_db. destruct d. unfold set_field. cbn. f_equal.
  - apply map_fmap_id.
  - etrans; [|apply list_fmap_id]. apply list_fmap_ext. intros _ e _. unfold settle_event.
    by destruct (ae_task_id e).
Qed.
Lemma expire_run w stale :
  cache_ok w →
  ∃ c, let w' := w <| w_db := expired_db stale (utc (w_now w)) (w_db w) |> <| w_cache := c |> in
    expire_tasks stale w = (Ok tt, w') ∧ cache_ok w' ∧
    ∀ v, lock_view w' v = after_release stale v (lock_view w v).
Proof.
  intros Hok. set (w1 := w <| w_db := expired_db stale (utc (w_now w)) (w_db w) |>).
  assert (cache_ok w1) as Hok1 by exact Hok.
  destruct (release_list stale w1 Hok1) as (c & Hr & Hok2 & Hv).
  exists c. cbv zeta. split; [|split; [exact Hok2|exact Hv]].
  unfold expire_tasks. destruct stale as [|t l]; [|exact Hr].
  assert (w_cache w = c) as <- by exact (f_equal (λ r : outcome unit * world, w_cache r.2) Hr).
  unfold w1. rewrite expired_db_nil. by destruct w.
Qed.

(** C11: the deadline sweep does exactly what the deadlines say.  With the cache
    reachable it succeeds; a task is timed out iff it has not ended and is past
    the deadline of its kind - the SQL pre-filter loses none and none is left
    over; pending audit events of exactly those tasks are settled; a VM's lock
    is freed iff such a task on that VM holds it; and exactly the placeholder
    rows whose creation failed or timed out (now or earlier) are dropped. *)
Theorem sweep_exact w :
  keyed (w_db w) → cache_ok w →
  ∃ w', sweep_stale_tasks w = (Ok tt, w') ∧
    tasks (w_db w') =
      (λ k, if overdue w k then timed_out (utc (w_now w)) k else k) <$> tasks (w_db w) ∧
    (∀ id k, tasks (w_db w') !! id = Some k → overdue w' k = false) ∧
    audit_events (w_db w') = settled_late w <$> audit_events (w_db w) ∧
    (∀ v, lock_view w' v =
       match lock_view w v with Some l => if held_overdue w v l then None else Some l | None => None end) ∧
    (∀ id v, vms (w_db w') !! id = Some v ↔ vms (w_db w) !! id = Some v ∧ ¬ abandoned (w_db w') v).
Proof.
  intros Hkey Hok. unfold sweep_stale_tasks. run. unfold session_scope, savepoint. run.
  change (instant (utc (w_now w))) with (w_now w - 0). rewrite Z.sub_0_r.
  destruct (expire_run w (stale_tasks (w_cfg w) (w_now w) (w_db w)) Hok) as (c & Hr & _ & Hl).
  rewrite (run_ok _ _ _ _ _ Hr). clear Hr. set (stale := stale_tasks _ _ _) in *.
  set (d1 := expired_db stale _ _) in *.
  assert (tasks d1 = (λ k, if overdue w k then timed_out (utc (w_now w)) k else k) <$> tasks (w_db w)) as Ht.
  { apply map_eq. intros i. unfold d1, expired_db. cbn. rewrite !lookup_fmap.
    destruct (tasks (w_db w) !! i) as [k|] eqn:E; [|done]. cbn. f_equal.
    unfold stale. rewrite stale_ids by done. unfold overdue_id.
    pose proof (proj2 (proj2 Hkey) _ _ E) as ->. by rewrite E. }
  eexists. split; [reflexivity|]. split; [exact Ht|]. split.
  { intros i k. change (tasks _) with (tasks d1) at 1. rewrite Ht, lookup_fmap.
    destruct (tasks (w_db w) !! i) as [t|]; [|done]. intros [= <-].
    destruct (overdue w t) eqn:E; [done|exact E]. }
  split.
  { unfold d1, expired_db. cbn. apply list_fmap_ext. intros _ e _. unfold settle_event, settled_late.
    destruct (ae_task_id e) as [t|]; [|done]. unfold stale. by rewrite stale_ids. }
  split.
  { intros v. etrans; [apply Hl|]. unfold after_release. destruct (lock_view w v) as [l|]; [|by destruct (existsb _ _)].
    unfold stale. by rewrite stale_holders. }
  intros id v. cbn. rewrite lookup_keep. apply and_iff_compat_l. rewrite negb_true_iff.
  rewrite <- not_true_iff_false. apply not_iff_compat. unfold orphan, abandoned.
  change (tasks _) with (tasks d1). rewrite andb_true_iff, bool_decide_eq_true, list_elem_of_fmap.
  setoid_rewrite elem_of_rows. unfold failed_creation. setoid_rewrite andb_true_iff.
  setoid_rewrite bool_decide_eq_true. split.
  - intros [Hn (k & Hk & i & Hi & Hkind & Hst)]. split; [by destruct (v_vm_uuid v)|]. by exists i, k.
  - intros [-> (i & k & Hi & Hk & Hkind & Hst)]. split; [done|]. exists k. split; [done|]. by exists i.
Qed.
(** an example: a lost start task on [v1], a lost creation with placeholder [v2] *)
Definition lost_task (id kind vm_id : string) : Task :=
  mkTask id kind "queued" "vm" vm_id None "h1" "op" (Some 0) None 0 None None None None None None (Some id).
Definition bare_vm (id : string) (guid : option string) : Vm :=
  mkVm id guid "h1" None None "vm" "Unknown" "UEFI" None None 1 0 None None false
    None None None None false None None None None None false false None None None [] [] [].
Definition lost_world : world :=
  sample_world <| w_db := empty_db <| tasks := {["t1" := lost_task "t1" "vm_start" "v1"; "t2" := lost_task "t2" "vm_create" "v2"]} |>
                                   <| vms := {["v1" := bare_vm "v1" (Some "g1"); "v2" := bare_vm "v2" None]} |> |>
               <| w_cache := {[vm_lock_key "v1" := mkEntry (CLock (mkVmLock "t1" "vm_start" "op" (utc 0))) 1790467300000000]} |>.
Lemma lost_world_ok : keyed (w_db lost_world) ∧ cache_ok lost_world.
Proof.
  split.
  - split_and!; intros k x; cbn; rewrite ?lookup_insert_Some, ?lookup_singleton_Some, ?lookup_empty; naive_solver.
  - split; [done|split; [|by vm_compute]]. intros v s. unfold c_get. cbn.
    destruct (decide (v = "v1")) as [->|Hne]; [by vm_compute|].
    rewrite lookup_singleton_ne; [done|]. intros E%vm_lock_key_inj. congruence.
Qed.
Lemma sweep_exact_witness : ∃ w', sweep_stale_tasks lost_world = (Ok tt, w') ∧
  k_status <$> tasks (w_db w') !! "t1" = Some "timeout" ∧ lock_view w' "v1" = None ∧ vms (w_db w') !! "v2" = None.
Proof.
  destruct (sweep_exact lost_world (proj1 lost_world_ok) (proj2 lost_world_ok))
    as (w' & Hr & Ht & _ & _ & Hl & Hv).
  exists w'. split; [exact Hr|]. split; [rewrite Ht; vm_compute; reflexivity|].
  split; [rewrite Hl; vm_compute; reflexivity|].
  destruct (vms (w_db w') !! "v2") as [v|] eqn:E; [|reflexivity]. exfalso.
  apply Hv in E as [E Hna]. vm_compute in E. injection E as <-. apply Hna. split; [reflexivity|].
  exists "t2", (timed_out (utc (w_now lost_world)) (lost_task "t2" "vm_create" "v2")).
  split; [rewrite Ht; vm_compute; reflexivity|]. split; [reflexivity|].
  split; apply (bool_decide_unpack _); vm_compute; exact I.
Defined.
