(* ===== verification/Lifecycle.v ===== *)
(** * The life of a VM across the handlers

    What the task responses ([Response]), the periodic snapshots
    ([VmInventory]) and the requests ([Vms]) promise together: a deleted VM
    stays deleted while its tombstone lives, a failed power action puts the row
    back, and where these promises end. *)
From S2P Require Import Prelude Py Clock Model World Store Cache AuditLog Normalize Inventory.
From S2P Require Import Messaging HostActions Response VmInventory Vms.
Open Scope string_scope.
Open Scope Z_scope.

(** [resp] ends the task [k] of [host_id]; [resp'] is the stripped envelope *)
Record ends (w : world) (host_id : string) (resp resp' : AgentResponse) (k : Task) : Prop := {
  en_task : tasks (w_db w) !! rs_id resp = Some k;
  en_id : k_id k = rs_id resp;
  en_host : k_host_id k = host_id;
  en_vm : k_target_type k = "vm";
  en_strip : strip_response_thumbnails resp = inl resp';
  en_live : ends_task k resp' = true;
  en_progress p : k_progress k = Some p → fits 32 p = true;
  en_cache : cache_ok w
}.
Definition finished (w : world) (resp' : AgentResponse) (k : Task) : Task :=
  finish_task (w_repr w) resp' (k <| k_response_payload := Some resp' |>) (utc (w_now w)).

(** a response to a VM task that is no export or upgrade: the refresh of the
    row runs right after the terminal status, then the lock is released *)
Lemma vm_response_run w host_id resp resp' k :
  ends w host_id resp resp' k → k_kind k ≠ "vm_export_template" → k_kind k ≠ "host_update_agent" →
  let k' := finished w resp' k in
  ∃ w4 w', best_effort (apply_response_state host_id resp' k') (finished_world w k') = (Ok tt, w4) ∧
    release_task_lock k' w4 = (Ok tt, w') ∧ apply_response host_id resp w = (Ok tt, w') ∧
    w_db w' = w_db w4 ∧ cache_ok w4.
Proof.
  intros [] H1 H2. cbv zeta.
  destruct (response_run w host_id resp resp' k) as (w3 & w4 & w' & Hr & K1 & H3 & H4 & K2 & H5 & Hdb & _); [done..|].
  rewrite (H3 en_vm0 H1) in *. exists w4, w'. split_and!; try done.
  destruct K2 as (_ & _ & U & C & L). by eapply (cache_ok_same _ _ en_cache0).
Qed.

Lemma same_release_task {B} (f : world → B) task :
  (∀ w c, f (w <| w_cache := c |>) = f w) → keeps (same f) (release_task_lock task).
Proof.
  intros Hf. unfold release_task_lock, attempt, release_vm_lock.
  destruct (String.eqb _ _); [|apply keeps_ret, _].
  apply keeps_try; [apply _| |intros e; apply keeps_ret, _].
  apply keeps_bind; [apply _|by apply same_at_now|intros b; apply keeps_ret, _].
Qed.
(** the release of a lock leaves every other entry alone, expired or not *)
Lemma release_task_raw task key :
  key ≠ vm_lock_key (k_target_id task) → keeps (same (λ w, w_cache w !! key)) (release_task_lock task).
Proof.
  intros Hkey. unfold release_task_lock, attempt. destruct (String.eqb _ _); [|apply keeps_ret, _].
  apply keeps_try; [apply _| |intros e; apply keeps_ret, _].
  apply keeps_bind; [apply _| |intros b; apply keeps_ret, _].
  intros w0. unfold same, release_vm_lock. destruct (w_cache_up w0) eqn:Eup; [|by rewrite at_now_down].
  rewrite at_now_run by done. cbn. unfold release_script.
  destruct (c_get _ _ _) as [[]|]; try done. destruct (String.eqb _ _); [|done].
  by apply lookup_delete_ne.
Qed.

(** ** Deletion *)
Lemma delete_state_run host_id task v u w :
  w_cache_up w = true → vms (w_db w) !! k_target_id task = Some v → v_vm_uuid v = Some u → u ≠ "" →
  apply_delete_state host_id task w =
    (Ok tt, w <| w_db ::= delete_vms (λ v, String.eqb (v_id v) (k_target_id task)) |>
              <| w_cache := delete (vm_state_key (k_target_id task))
                   (c_set (w_now w) (vm_tombstone_key host_id u) (CText "now") VM_TOMBSTONE_TTL (w_cache w)) |>).
Proof.
  intros Hup Hv Hu Hne. unfold apply_delete_state, get_vm. rewrite run_query, Hv, Hu.
  assert (str_nonempty u = true) as -> by (by destruct u).
  unfold mark_vm_deleted. assert (str_nonempty u = true) as -> by (by destruct u).
  match goal with |- context [(at_now ?f ≫= ?k) w] =>
    rewrite (run_ok (at_now f) k w _ _ (at_now_run w Hup f)) end.
  rewrite run_exec. unfold clear_vm_state. by rewrite at_now_run.
Qed.
(** dropping rows keeps the schema's invariants *)
Lemma delete_vms_ready w host_id h p later c q :
  inventory_ready w host_id h →
  hosts (w_db q) = hosts (w_db w) → (∀ k t, tasks (w_db q) !! k = Some t → k_id t = k) →
  w_uuid4 q = w_uuid4 w → w_seq q = w_seq w → vms (w_db q) = keep p (vms (w_db w)) →
  inventory_ready (q <| w_now := later |> <| w_cache := c |>) host_id h.
Proof.
  intros [Hh (K1 & K2 & _) Hu Hp Hf Hi] Eh Et Eu Es Ev.
  split; cbn; rewrite ?Eh, ?Eu, ?Es; try done.
  - split; [|split; [|done]]; cbn; rewrite ?Eh; [|done]. rewrite Ev. intros k v [Hk _]%lookup_keep. eauto.
  - intros k k' v v'. cbn. rewrite Ev. intros [Hk _]%lookup_keep [Hk' _]%lookup_keep. by apply (Hu k k' v v').
  - intros k v. cbn. rewrite Ev, Eh. intros [Hk _]%lookup_keep. by apply (Hp k v).
  - intros n Hn. rewrite Ev. destruct (keep p _ !! _) as [v|] eqn:E; [|done].
    apply lookup_keep in E as [E _]. by rewrite Hf in E.
Qed.

(** the response to a successful deletion: the row goes, the tombstone comes *)
Lemma delete_response_run w host_id resp resp' k v u :
  ends w host_id resp resp' k → k_kind k = "vm_delete" → rs_status resp' = "succeeded" →
  vms (w_db w) !! k_target_id k = Some v → v_vm_uuid v = Some u → u ≠ "" →
  ∃ w1, apply_response host_id resp w = (Ok tt, w1) ∧
    vms (w_db w1) = keep (λ v, negb (String.eqb (v_id v) (k_target_id k))) (vms (w_db w)) ∧
    hosts (w_db w1) = hosts (w_db w) ∧
    tasks (w_db w1) = <[k_id k := finished w resp' k]> (tasks (w_db w)) ∧
    same (λ w, (w_uuid4 w, w_seq w, w_cache_up w)) w w1 ∧
    w_cache w1 !! vm_tombstone_key host_id u =
      Some (mkEntry (CText "now") (w_now w + seconds VM_TOMBSTONE_TTL)).
Proof.
  intros Hends Hkind Hst Hv Hvu Hne.
  destruct (vm_response_run w host_id resp resp' k Hends) as (w4 & w1 & H4 & H5 & Hr & Hdb & _);
    [by rewrite Hkind..|].
  set (k' := finished w resp' k) in *.
  assert (k_kind k' = "vm_delete" ∧ k_status k' = "succeeded" ∧ k_target_id k' = k_target_id k) as (E1 & E2 & E3).
  { unfold k', finished, finish_task. cbn. by rewrite Hst, Hkind. }
  pose proof (delete_state_run host_id k' v u (finished_world w k')
    (proj1 (en_cache _ _ _ _ _ Hends)) ltac:(by rewrite E3) Hvu Hne) as Hd.
  rewrite E3 in Hd. set (wd := _ <| w_cache := _ |>) in Hd.
  assert (w4 = wd) as Hw4.
  { assert (apply_response_state host_id resp' k' = apply_delete_state host_id k') as Hs
      by (unfold apply_response_state; by rewrite E1, E2).
    rewrite Hs, (best_effort_ok _ _ _ Hd) in H4. by injection H4. }
  subst w4. exists w1. rewrite Hdb. split_and!; try done.
  - pose proof (same_release_task (λ w, (w_uuid4 w, w_seq w, w_cache_up w)) k' ltac:(done) wd) as Hs.
    by rewrite H5 in Hs.
  - pose proof (release_task_raw k' (vm_tombstone_key host_id u)
      ltac:(intros E; symmetry in E; by apply vm_lock_tombstone_key in E) wd) as Hs.
    rewrite H5 in Hs. unfold same in Hs. cbn [snd] in Hs. rewrite Hs. unfold wd. cbn.
    rewrite lookup_delete_ne by apply vm_state_tombstone_key. apply lookup_insert_eq.
Qed.

(** C15: a deleted VM stays deleted while its tombstone lives.  When the agent
    reports a [vm_delete] as succeeded, the row of the VM - and no other - is
    dropped; and a snapshot the worker then applies within the next 900 seconds,
    even one taken before the deletion that still lists the GUID, does not
    bring the VM back on its host. *)
Theorem deleted_vm_stays_deleted w host_id resp resp' k v u h :
  ends w host_id resp resp' k → k_kind k = "vm_delete" → rs_status resp' = "succeeded" →
  inventory_ready w host_id h →
  vms (w_db w) !! k_target_id k = Some v → v_host_id v = host_id → v_vm_uuid v = Some u → u ≠ "" →
  ∃ w1, apply_response host_id resp w = (Ok tt, w1) ∧
    (∀ id x, vms (w_db w1) !! id = Some x ↔ vms (w_db w) !! id = Some x ∧ id ≠ k_target_id k) ∧
    ∀ later payload items w2,
      later < w_now w + seconds VM_TOMBSTONE_TTL →
      py_iter (dget_or payload "vms" (JList [])) = inl items →
      apply_vm_inventory host_id payload (w1 <| w_now := later |>) = (Ok tt, w2) →
      ∀ id x, vms (w_db w2) !! id = Some x → v_host_id x = host_id → v_vm_uuid x ≠ Some u.
Proof.
  intros Hends Hkind Hst Hready Hv Hvh Hvu Hne.
  destruct (delete_response_run w host_id resp resp' k v u) as (w1 & Hr & Hvms & Hh1 & Ht1 & Hs & He); [done..|].
  injection Hs as S1 S2 S3. pose proof Hready as [Hh Hkey Hu Hp _ _].
  assert (∀ id x, vms (w_db w1) !! id = Some x ↔ vms (w_db w) !! id = Some x ∧ id ≠ k_target_id k) as Hrows.
  { intros id x. rewrite Hvms, lookup_keep, negb_true_iff, String.eqb_neq.
    split; intros [Hx Hn]; (split; [done|]); pose proof (proj1 Hkey _ _ Hx) as Hid; congruence. }
  exists w1. split; [exact Hr|]. split; [exact Hrows|].
  intros later payload items w2 Hlater Hitems Hinv id x Hx Hxh Hxu.
  set (wl := w1 <| w_now := later |>) in *.
  assert (inventory_ready wl host_id h) as Hrl.
  { replace wl with (w1 <| w_now := later |> <| w_cache := w_cache w1 |>) by (unfold wl; by destruct w1).
    eapply (delete_vms_ready w host_id h); try done. rewrite Ht1.
    intros i t [[<- <-]|[_ Ht]]%lookup_insert_Some; [done|]. by apply (proj2 (proj2 Hkey)). }
  assert (w_cache_up wl = true) as Hup by (etrans; [exact S3|exact (proj1 (en_cache _ _ _ _ _ Hends))]).
  destruct (tombstones_run wl host_id Hup) as (tomb & Ht & Htomb).
  assert (u ∈ tomb) as Hut.
  { apply Htomb. exists (CText "now"). unfold c_get. cbn. rewrite He. unfold live. cbn.
    by destruct (Z.ltb_spec later (w_now w + seconds VM_TOMBSTONE_TTL)); [|lia]. }
  destruct (snapshot_spec wl host_id h payload items tomb w2 Hrl Hitems Ht Hinv) as (Hex & _).
  destruct (proj1 (Hex u)) as [_ [(id' & y & Hy & Hyh & Hyu)|Hn]]; [by exists id, x| |done].
  apply Hrows in Hy as [Hy Hyn]. apply Hyn.
  apply (known_unique w host_id h Hh Hkey Hu Hp u).
  - exists y. split; [done|]. split; [|done]. revert Hyh. unfold scope_ids. cbn. by rewrite Hh1.
  - exists v. split; [done|]. split; [|done]. rewrite Hvh. by apply (host_in_scope w host_id h).
Qed.
(** an example: [v1] is deleted while a snapshot that lists it is queued *)
Definition deletion_world : world :=
  snap_world <| w_db ::= λ d, d <| tasks := {["t1" := sample_task "vm_delete" "running"]} |> |>.
Definition snap_host : Host :=
  mkHost "h1" "abc" None "node-1" None None "hyperv" None None None None None None None.
Lemma deletion_ready : inventory_ready deletion_world "h1" snap_host.
Proof.
  destruct snap_ready as [Hh (K1 & K2 & _) Hu Hp Hf Hi]. split; try done.
  split; [exact K1|split; [exact K2|]]. intros k t. cbn. rewrite lookup_singleton_Some. by intros [<- <-].
Qed.
Lemma deletion_ends :
  ends deletion_world "h1" (sample_response "succeeded") (sample_response "succeeded") (sample_task "vm_delete" "running").
Proof.
  split; try reflexivity; [by intros p [= <-]|]. split; [done|split; [by apply locks_wf_empty|by vm_compute]].
Qed.
Lemma deleted_vm_stays_deleted_witness :
  let w1 := (apply_response "h1" (sample_response "succeeded") deletion_world).2 in
  let w2 := (apply_vm_inventory "h1" snap_payload w1).2 in
  vms (w_db deletion_world) !! "v1" ≠ None ∧ vms (w_db w1) !! "v1" = None ∧
  (∀ id x, vms (w_db w2) !! id = Some x → v_host_id x = "h1" → v_vm_uuid x ≠ Some "g1").
Proof.
  cbv zeta. split; [discriminate|].
  destruct (deleted_vm_stays_deleted deletion_world "h1" (sample_response "succeeded") (sample_response "succeeded")
    (sample_task "vm_delete" "running") (fresh_vm "v1" "h1" "g1" 0 <| v_folder_id := Some "f1" |>) "g1" snap_host
    deletion_ends eq_refl eq_refl deletion_ready eq_refl eq_refl eq_refl) as (w1 & Hr & Hrows & Hlater); [discriminate|].
  rewrite Hr. cbn [snd]. split.
  { destruct (vms (w_db w1) !! "v1") as [x|] eqn:E; [|reflexivity]. by apply Hrows in E as [_ []]. }
  assert (w1 = w1 <| w_now := w_now deletion_world |>) as Hw1.
  { assert (w1 = (apply_response "h1" (sample_response "succeeded") deletion_world).2) as -> by (by rewrite Hr).
    vm_compute. reflexivity. }
  eapply (Hlater (w_now deletion_world) snap_payload _ _).
  - vm_compute. reflexivity.
  - vm_compute. reflexivity.
  - rewrite <- Hw1. apply run_outcome.
    assert (w1 = (apply_response "h1" (sample_response "succeeded") deletion_world).2) as -> by (by rewrite Hr).
    vm_compute. reflexivity.
Defined.

(** A stale snapshot forgets the tombstone that protects against it.  The
    tombstones a snapshot clears are those not among the GUIDs it accepted, and
    a tombstoned GUID without a row is not accepted even when the snapshot
    lists it.  So the first snapshot that still lists a deleted VM is ignored
    but drops the tombstone - although it does not confirm the deletion - and
    the next one like it re-creates the row. *)
Theorem stale_snapshot_clears_tombstone w host_id h payload items tomb u w' :
  inventory_ready w host_id h →
  py_iter (dget_or payload "vms" (JList [])) = inl items →
  list_deleted_vm_uuids host_id w = (Ok tomb, w) →
  apply_vm_inventory host_id payload w = (Ok tt, w') →
  reports (w_repr w) items u → u ∈ tomb → ¬ known w h u →
  (∀ id x, vms (w_db w') !! id = Some x → v_host_id x = host_id → v_vm_uuid x ≠ Some u) ∧
  c_get (w_now w') (vm_tombstone_key host_id u) (w_cache w') = None.
Proof.
  intros R Hi Ht H Hrep Hu Hk.
  destruct (snapshot_spec w host_id h payload items tomb w' R Hi Ht H) as (Hex & _ & _ & _ & _ & _ & Hforget).
  split; [|apply Hforget; [done|by intros [_ ?]]]. intros id x Hx Hxh Hxu.
  by destruct (proj1 (Hex u)) as [_ [?|?]]; [exists id, x| |].
Qed.
Definition tombstoned_world : world :=
  snap_world <| w_cache := {[vm_tombstone_key "h1" "g3" := mkEntry (CText "now") 1790468000000000]} |>.
Lemma stale_snapshot_clears_tombstone_witness :
  let w1 := (apply_vm_inventory "h1" snap_payload tombstoned_world).2 in
  let w2 := (apply_vm_inventory "h1" snap_payload w1).2 in
  (∀ id x, vms (w_db w1) !! id = Some x → v_host_id x = "h1" → v_vm_uuid x ≠ Some "g3") ∧
  c_get (w_now w1) (vm_tombstone_key "h1" "g3") (w_cache w1) = None ∧
  (vms (w_db w2) !! w_uuid4 w1 (w_seq w1) ≫= v_vm_uuid) = Some "g3".
Proof.
  cbv zeta.
  destruct (stale_snapshot_clears_tombstone tombstoned_world "h1" snap_host snap_payload
    [JObj [("id", JStr "g1"); ("name", JStr "web"); ("state", JStr "Running")];
     JObj [("id", JStr "g3"); ("name", JStr "db")]] {["g3"]} "g3"
    (apply_vm_inventory "h1" snap_payload tombstoned_world).2) as [H1 H2].
  - destruct snap_ready as [? ? ? ? ? ?]. split; assumption.
  - vm_compute. reflexivity.
  - vm_compute. reflexivity.
  - apply run_outcome. vm_compute. reflexivity.
  - eexists. split; [right; left|vm_compute; reflexivity].
  - apply elem_of_singleton. reflexivity.
  - intros (k & v & Hv & _ & Hu). revert Hv. cbn. rewrite lookup_insert_Some, lookup_singleton_Some.
    intros [[_ <-]|[_ [_ <-]]]; discriminate Hu.
  - split; [exact H1|]. split; [exact H2|]. vm_compute. reflexivity.
Defined.

(** ** Failed actions *)

(** the state a power action is meant for *)
Definition meant_for (action state : string) : Prop :=
  (action = "start" ∧ state = "Off") ∨ (action ∈ ["stop"; "shutdown"; "restart"; "pause"] ∧ state = "Running").
(** the task [k] is the task [t], perhaps further on *)
Definition same_job (t k : Task) : Prop :=
  k_id k = k_id t ∧ k_kind k = k_kind t ∧ k_host_id k = k_host_id t ∧
  k_target_type k = k_target_type t ∧ k_target_id k = k_target_id t ∧
  ∀ p, k_progress k = Some p → fits 32 p = true.

Lemma transitional_actions action fn s :
  (action, (fn, Some s)) ∈ ACTION_MAP →
  assoc ACTION_MAP action = Some (fn, Some s) ∧ action ∉ ["migrate"; "move_storage"; "refresh"] ∧
  fn ∉ ["vm_create"; "vm_clone"; "vm_export_template"; "host_update_agent"] ∧
  (action ≠ "delete" → assoc TRANSITIONAL_STATE fn = Some s ∧ ∃ r, assoc FAILED_STATE_REVERT fn = Some r ∧
     (∀ st, meant_for action st → st = r) ∧ (action = "start" → r = "Off")) ∧
  (action = "delete" → assoc FAILED_STATE_REVERT fn = None).
Proof.
  intros H. unfold ACTION_MAP in H. rewrite !elem_of_cons, elem_of_nil in H.
  repeat (destruct H as [H|H]; [simplify_eq|]); [..|done];
    (split; [done|]; split; [by apply (bool_decide_unpack _)|]; split; [by apply (bool_decide_unpack _)|]);
    (split; [intros N; try done; (split; [done|]; eexists; split; [done|]; split;
        [intros st [[? ->]|[Hin ->]]; [done|revert Hin; by rewrite !elem_of_cons, elem_of_nil; naive_solver]|done])|done]).
Qed.
(** a request for an action that stamps a state *)
Lemma request_stamps vm h guid action fn s by_ params w :
  (action, (fn, Some s)) ∈ ACTION_MAP →
  can_queue w vm h guid → cache_ok w → lock_view w (v_id vm) = None → w_broker_up w = true →
  request_queue_ok w (h_short_id h) → fresh_task w →
  let t := vm_task vm (w_uuid4 w (w_seq w)) fn params by_ guid (w_now w) in
  ∃ w1, request_vm_action vm action by_ params w = (Ok t, w1) ∧ tasks (w_db w1) !! k_id t = Some t ∧
    vms (w_db w1) = <[v_id vm := vm <| v_state := s |>]> (vms (w_db w)).
Proof.
  intros Hin Hq Hok Hl Hbr Hrq Hnew. cbv zeta.
  destruct (transitional_actions action fn s Hin) as (Ha & Hno & _). rewrite !not_elem_of_cons in Hno.
  destruct Hno as (N1 & N2 & N3 & _).
  destruct (queue_accepts w vm h guid fn params by_ (Some s) Hq Hok Hl Hbr Hrq Hnew) as (w1 & Hr & Hdb & _).
  exists w1. split; [|rewrite Hdb; split; [|done]; cbn; by rewrite lookup_insert_eq].
  unfold request_vm_action. rewrite Ha, (proj2 (String.eqb_neq _ _) N1). cbn [andb].
  rewrite (proj2 (String.eqb_neq _ _) N2), run_ret, bool_decide_eq_false_2; [exact Hr|].
  unfold READ_ONLY_VM_ACTIONS. rewrite elem_of_cons, elem_of_nil. tauto.
Qed.
Lemma failed_state_run task v s w :
  w_cache_up w = true → vms (w_db w) !! k_target_id task = Some v → k_target_type task = "vm" →
  assoc FAILED_STATE_REVERT (k_kind task) = Some s → assoc TRANSITIONAL_STATE (k_kind task) = Some (v_state v) →
  apply_failed_state task w =
    (Ok tt, w <| w_cache := c_set (w_now w) (vm_state_key (v_id v)) (CText s) (vm_state_ttl_seconds (w_cfg w)) (w_cache w) |>
              <| w_db ::= λ d, d <| vms ::= <[v_id v := v <| v_state := s |>]> |> |>).
Proof.
  intros Hup Hv Ht Hr Htr. unfold apply_failed_state, get_vm. rewrite Hr, Ht, String.eqb_refl, run_query, Hv, Htr, bool_decide_eq_true_2 by done.
  rewrite (run_ok _ _ _ _ _ (set_vm_state_run w (v_id v) s Hup)). reflexivity.
Qed.
(** the response that reports the failure of the action *)
Lemma failed_response_run w host_id resp resp' k v action s :
  ends w host_id resp resp' k → (action, (k_kind k, Some s)) ∈ ACTION_MAP → rs_status resp' ≠ "succeeded" →
  vms (w_db w) !! k_target_id k = Some v → v_id v = k_target_id k → v_state v = s →
  ∃ w' st, apply_response host_id resp w = (Ok tt, w') ∧
    vms (w_db w') = <[k_target_id k := v <| v_state := st |>]> (vms (w_db w)) ∧
    match assoc FAILED_STATE_REVERT (k_kind k) with
    | Some old => st = old ∧ (0 < vm_state_ttl_seconds (w_cfg w) →
        c_get (w_now w') (vm_state_key (k_target_id k)) (w_cache w') = Some (CText old))
    | None => st = s
    end.
Proof.
  intros Hends Hact Hst Hv Hid Hs.
  destruct (transitional_actions action (k_kind k) s Hact) as (_ & _ & Hno & Hrev & Hdel).
  rewrite !not_elem_of_cons in Hno. destruct Hno as (N1 & N2 & N3 & N4 & _).
  destruct (vm_response_run w host_id resp resp' k Hends N3 N4) as (w4 & w' & H4 & H5 & Hr & Hdb & _).
  set (k' := finished w resp' k) in *. exists w'.
  assert (k_status k' = "failed") as Hfail.
  { unfold k', finished, finish_task. cbn. apply String.eqb_neq in Hst. by rewrite Hst. }
  assert (apply_response_state host_id resp' k' = apply_failed_state k') as Happ.
  { unfold apply_response_state. rewrite Hfail. change (k_kind k') with (k_kind k).
    rewrite bool_decide_eq_false_2; [by rewrite andb_false_r|]. rewrite !elem_of_cons, elem_of_nil. tauto. }
  rewrite Happ in H4. destruct (decide (action = "delete")) as [Hd|Hd].
  - rewrite (Hdel Hd). exists s. split; [exact Hr|]. rewrite Hdb.
    assert (apply_failed_state k' (finished_world w k') = (Ok tt, finished_world w k')) as Hf.
    { unfold apply_failed_state. change (k_kind k') with (k_kind k). by rewrite (Hdel Hd). }
    rewrite (best_effort_ok _ _ _ Hf) in H4. injection H4 as <-. split; [|done].
    cbn. rewrite insert_id; [done|]. rewrite Hv. f_equal. rewrite <- Hs. by destruct v.
  - destruct (Hrev Hd) as (Htr & old & Hold & _). rewrite Hold. exists old. split; [exact Hr|]. rewrite Hdb.
    pose proof (failed_state_run k' v old (finished_world w k') (proj1 (en_cache _ _ _ _ _ Hends)) Hv
      (en_vm _ _ _ _ _ Hends) Hold ltac:(by rewrite Hs)) as Hf.
    set (wf := _ <| w_db ::= _ |>) in Hf. rewrite (best_effort_ok _ _ _ Hf) in H4. injection H4 as <-.
    rewrite <- Hid. split; [done|]. split; [done|]. intros Httl.
    pose proof (same_entry_release (vm_state_key (v_id v)) (k_target_id k') (Some (k_id k'))) as Hent.
    assert (keeps (same (λ w, c_get (w_now w) (vm_state_key (v_id v)) (w_cache w))) (release_task_lock k')) as Hk.
    { unfold release_task_lock, attempt. destruct (String.eqb _ _); [|apply keeps_ret, _].
      apply keeps_try; [apply _| |intros e; apply keeps_ret, _].
      apply keeps_bind; [apply _| |intros b; apply keeps_ret, _].
      apply Hent. intros E. symmetry in E. by apply vm_lock_state_key in E. }
    specialize (Hk wf). rewrite H5 in Hk. unfold same in Hk. cbn [snd] in Hk. rewrite Hk.
    unfold wf. cbn. by apply c_get_set_eq.
Qed.
(** the request and, later, its failure *)
Lemma failed_action_run w vm h guid action fn s by_ params :
  (action, (fn, Some s)) ∈ ACTION_MAP →
  can_queue w vm h guid → cache_ok w → lock_view w (v_id vm) = None → w_broker_up w = true →
  request_queue_ok w (h_short_id h) → fresh_task w →
  ∃ t w1, request_vm_action vm action by_ params w = (Ok t, w1) ∧
    vms (w_db w1) = <[v_id vm := vm <| v_state := s |>]> (vms (w_db w)) ∧
    ∀ w2 k resp resp', tasks (w_db w2) !! k_id t = Some k → same_job t k → cache_ok w2 →
      vms (w_db w2) !! v_id vm = Some (vm <| v_state := s |>) →
      rs_id resp = k_id t → strip_response_thumbnails resp = inl resp' → ends_task k resp' = true →
      rs_status resp' ≠ "succeeded" →
    ∃ w3 st, apply_response (v_host_id vm) resp w2 = (Ok tt, w3) ∧
      vms (w_db w3) = <[v_id vm := vm <| v_state := st |>]> (vms (w_db w2)) ∧
      (action = "delete" → st = s) ∧
      (action ≠ "delete" → assoc FAILED_STATE_REVERT fn = Some st ∧ (0 < vm_state_ttl_seconds (w_cfg w2) →
         c_get (w_now w3) (vm_state_key (v_id vm)) (w_cache w3) = Some (CText st))).
Proof.
  intros Hin Hq Hok Hl Hbr Hrq Hnew.
  destruct (request_stamps vm h guid action fn s by_ params w Hin Hq Hok Hl Hbr Hrq Hnew) as (w1 & Hr & Ht & Hv).
  set (t := vm_task _ _ _ _ _ _ _) in *. exists t, w1. split; [exact Hr|]. split; [exact Hv|].
  intros w2 k resp resp' Hk (J1 & J2 & J3 & J4 & J5 & J6) Hok2 Hv2 Hid Hstrip Hends Hst.
  destruct (failed_response_run w2 (v_host_id vm) resp resp' k (vm <| v_state := s |>) action s)
    as (w3 & st & Hr3 & Hv3 & Hcase).
  - split; try done; congruence.
  - by rewrite J2.
  - done.
  - by rewrite J5.
  - by rewrite J5.
  - done.
  - change (k_kind t) with fn in J2. change (k_target_id t) with (v_id vm) in J5. rewrite J2, J5 in *.
    exists w3, st. split; [exact Hr3|]. split; [exact Hv3|].
    destruct (transitional_actions action fn s Hin) as (_ & _ & _ & Hrev & Hdel). split.
    + intros Hd. by rewrite (Hdel Hd) in Hcase.
    + intros Hd. destruct (Hrev Hd) as (_ & old & Hold & _). rewrite Hold in Hcase |- *. by destruct Hcase as [-> ?].
Qed.

(** C16: a failed power action puts the VM back.  Take a request to start, stop,
    shut down, restart, pause or delete a reported VM of an online host; it is
    accepted and the row shows the optimistic state.  However the task moved on
    and whatever else changed since, when the agent reports its failure while
    the row still shows that state: if the VM was [Off] before a start, or
    [Running] before a stop, shutdown, restart or pause, its row is the very row
    it had before the request and the cache shows that state too; a failed
    delete leaves the row [Deleting]; in every case no other row changes.  The
    state before is not remembered: [failed_start_forgets_pause]. *)
Theorem failed_action_reverts w vm h guid action fn s by_ params :
  (action, (fn, Some s)) ∈ ACTION_MAP →
  can_queue w vm h guid → cache_ok w → lock_view w (v_id vm) = None → w_broker_up w = true →
  request_queue_ok w (h_short_id h) → fresh_task w →
  ∃ t w1, request_vm_action vm action by_ params w = (Ok t, w1) ∧
    vms (w_db w1) = <[v_id vm := vm <| v_state := s |>]> (vms (w_db w)) ∧
    ∀ w2 k resp resp', tasks (w_db w2) !! k_id t = Some k → same_job t k → cache_ok w2 →
      vms (w_db w2) !! v_id vm = Some (vm <| v_state := s |>) →
      rs_id resp = k_id t → strip_response_thumbnails resp = inl resp' → ends_task k resp' = true →
      rs_status resp' ≠ "succeeded" →
    ∃ w3, apply_response (v_host_id vm) resp w2 = (Ok tt, w3) ∧
      (∀ i, i ≠ v_id vm → vms (w_db w3) !! i = vms (w_db w2) !! i) ∧
      (meant_for action (v_state vm) → vms (w_db w3) !! v_id vm = Some vm ∧
         (0 < vm_state_ttl_seconds (w_cfg w2) →
          c_get (w_now w3) (vm_state_key (v_id vm)) (w_cache w3) = Some (CText (v_state vm)))) ∧
      (action = "delete" → vms (w_db w3) !! v_id vm = Some (vm <| v_state := "Deleting" |>)).
Proof.
  intros Hin Hq Hok Hl Hbr Hrq Hnew.
  destruct (failed_action_run w vm h guid action fn s by_ params Hin Hq Hok Hl Hbr Hrq Hnew) as (t & w1 & H1 & H2 & H3).
  exists t, w1. split; [exact H1|]. split; [exact H2|]. intros w2 k resp resp' Hk Hj Hok2 Hv2 Hid Hstrip Hends Hst.
  destruct (H3 w2 k resp resp' Hk Hj Hok2 Hv2 Hid Hstrip Hends Hst) as (w3 & st & Hr & Hv & Hdel & Hrev).
  exists w3. split; [exact Hr|]. rewrite Hv. split; [intros i Hi; by rewrite lookup_insert_ne|].
  rewrite lookup_insert_eq. destruct (transitional_actions action fn s Hin) as (Ha & _ & _ & Hmap & _). split.
  - intros Hm. assert (action ≠ "delete") as Hd.
    { intros ->. destruct Hm as [[? _]|[Hm _]]; [done|]. by rewrite !elem_of_cons, elem_of_nil in Hm; naive_solver. }
    destruct (Hmap Hd) as (_ & r & Hr' & Hmr & _). destruct (Hrev Hd) as [Hst' Hc]. rewrite Hr' in Hst'.
    injection Hst' as <-. rewrite <- (Hmr _ Hm) in *. split; [by destruct vm|exact Hc].
  - intros ->. injection Ha as _ <-. by rewrite Hdel.
Qed.
(** A failed start forgets that the VM was paused or saved.  The state to go
    back to is a constant per action: whatever the VM was before a start that
    fails, it is shown [Off] until its next snapshot. *)
Theorem failed_start_forgets_pause w vm h guid by_ params :
  can_queue w vm h guid → cache_ok w → lock_view w (v_id vm) = None → w_broker_up w = true →
  request_queue_ok w (h_short_id h) → fresh_task w → v_state vm ∈ ["Paused"; "Saved"] →
  ∃ t w1, request_vm_action vm "start" by_ params w = (Ok t, w1) ∧
    ∀ w2 k resp resp', tasks (w_db w2) !! k_id t = Some k → same_job t k → cache_ok w2 →
      vms (w_db w2) = vms (w_db w1) →
      rs_id resp = k_id t → strip_response_thumbnails resp = inl resp' → ends_task k resp' = true →
      rs_status resp' ≠ "succeeded" →
    ∃ w3, apply_response (v_host_id vm) resp w2 = (Ok tt, w3) ∧
      (v_state <$> vms (w_db w3) !! v_id vm) = Some "Off" ∧ v_state vm ≠ "Off".
Proof.
  intros Hq Hok Hl Hbr Hrq Hnew Hp.
  assert (("start", ("vm_start", Some "Starting")) ∈ ACTION_MAP) as Hin by left.
  destruct (failed_action_run w vm h guid "start" _ _ by_ params Hin Hq Hok Hl Hbr Hrq Hnew) as (t & w1 & H1 & H2 & H3).
  exists t, w1. split; [exact H1|]. intros w2 k resp resp' Hk Hj Hok2 Hv2 Hid Hstrip Hends Hst.
  destruct (H3 w2 k resp resp' Hk Hj Hok2) as (w3 & st & Hr & Hv & _ & Hrev); [|done..|].
  { by rewrite Hv2, H2, lookup_insert_eq. }
  exists w3. split; [exact Hr|]. rewrite Hv, lookup_insert_eq. destruct Hrev as [[= <-] _]; [done|].
  split; [done|]. intros E. rewrite E, !elem_of_cons, elem_of_nil in Hp. naive_solver.
Qed.
(** an example: a start of a machine that is off fails, its lock already gone *)
Lemma failed_action_reverts_witness : ∃ t w1 w3,
  request_vm_action sample_vm "start" "op" [] vm_world = (Ok t, w1) ∧
  (v_state <$> vms (w_db w1) !! "v1") = Some "Starting" ∧
  apply_response "h1" (sample_response "failed" <| rs_id := k_id t |>) (w1 <| w_cache := ∅ |>) = (Ok tt, w3) ∧
  vms (w_db w3) !! "v1" = Some sample_vm.
Proof.
  destruct (failed_action_reverts vm_world sample_vm sample_host "g1" "start" "vm_start" "Starting" "op" [])
    as (t & w1 & Hr & Hv & Hfail);
    [left|exact vm_world_queue|exact vm_world_ok|reflexivity|reflexivity|by intros a Ha|reflexivity|].
  set (run := request_vm_action sample_vm "start" "op" [] vm_world) in *.
  assert (w1 = run.2 ∧ Some t = match run.1 with Ok t => Some t | _ => None end) as [Ew Et] by (by rewrite Hr).
  destruct (Hfail (w1 <| w_cache := ∅ |>) t (sample_response "failed" <| rs_id := k_id t |>)
    (sample_response "failed" <| rs_id := k_id t |>)) as (w3 & Hr3 & _ & Hback & _).
  - rewrite Ew. vm_compute in Et. injection Et as ->. vm_compute. reflexivity.
  - split_and!; try reflexivity. vm_compute in Et. injection Et as ->. by intros p [= <-].
  - rewrite Ew. split; [reflexivity|split; [by apply locks_wf_empty|by vm_compute]].
  - change (w_db (w1 <| w_cache := ∅ |>)) with (w_db w1). rewrite Hv. apply lookup_insert_eq.
  - reflexivity.
  - reflexivity.
  - reflexivity.
  - discriminate.
  - exists t, w1, w3. split; [exact Hr|]. split; [rewrite Hv; vm_compute; reflexivity|]. split; [exact Hr3|].
    apply Hback. left. split; reflexivity.
Defined.
