(* ===== verification/Consumers.v ===== *)
(** * Message handling in the worker ([app/worker/consumers.py])

    One message is parsed, dispatched on its queue's kind and applied in one
    session; the consumer callback of [app/worker/main.py] logs whatever the
    handling raises and acknowledges the message. *)
From S2P Require Import Prelude Py Clock Model World Store Cache AuditLog Normalize Messaging Inventory.
From S2P Require Import Response.
From Stdlib Require Import Floats.SpecFloat.
Open Scope string_scope.
Open Scope Z_scope.

Fixpoint contains (p s : string) : bool :=
  startswith p s || match s with "" => false | String _ s' => contains p s' end.

(** [json.loads(body.decode())] ([None]: not JSON) is library code;
    [model_validate] is the schema of the response envelope, in [Schemas]. *)
Section consumers.
Context (loads : string → option json) (model_validate : json → option AgentResponse).

(** a handler that needs [payload.get] of a payload that is no object *)
Definition no_get {A} : M A := raise (EPy AttributeError).
Definition for_known_host (host_id : string) (m : M unit) : M unit :=
  h ← get_host host_id;
  match h with None => mret tt | Some _ => m end.
(** ["hardware" in payload], and [payload["hardware"]] when it is *)
Definition hardware_of_other (payload : json) : M unit :=
  match payload with
  | JStr s => if contains "hardware" s then raise (EPy TypeError) else mret tt
  | JList l => if existsb (λ v, match v with JStr "hardware" => true | _ => false end) l
               then raise (EPy TypeError) else mret tt
  | _ => raise (EPy TypeError)
  end.
Definition dispatch (host_id : string) (kind : QueueKind) (payload : json) : M unit :=
  match kind with
  | RESPONSE =>
      match model_validate payload with
      | Some resp => apply_response host_id resp
      | None => raise (EPy ValueError)
      end
  | AGENT_STATUS =>
      match payload with JObj p => apply_agent_status host_id p | _ => for_known_host host_id no_get end
  | VM_INVENTORY =>
      match payload with JObj p => apply_vm_inventory host_id p | _ => for_known_host host_id no_get end
  | HOST_INVENTORY =>
      match payload with
      | JObj p => apply_host_inventory host_id p
      | _ => for_known_host host_id (hardware_of_other payload)
      end
  | TEMPLATE_INVENTORY => match payload with JObj p => apply_template_inventory host_id p | _ => no_get end
  | ISO_INVENTORY => match payload with JObj p => apply_iso_inventory host_id p | _ => no_get end
  | HOST_METRICS =>
      match payload with JObj p => apply_host_metrics host_id p | _ => for_known_host host_id no_get end
  | VM_METRICS => match payload with JObj p => apply_vm_metrics host_id p | _ => no_get end
  | REQUEST => mret tt
  end.
Definition handle_message (host_id : string) (kind : QueueKind) (body : string) : M unit :=
  match loads body with
  | None => mret tt
  | Some payload => session_scope (dispatch host_id kind payload)
  end.
(** the body of [_on_message]: one bad message never ends the consumer *)
Definition deliver (host_id : string) (kind : QueueKind) (body : string) : M unit :=
  try_except (handle_message host_id kind body) (λ _, mret tt).

(** all or nothing, and no message stops the consumer *)
Lemma deliver_atomic host_id kind body w :
  ∃ w', deliver host_id kind body w = (Ok tt, w') ∧
    (w_db w' = w_db w ∨
     ∃ payload, loads body = Some payload ∧ dispatch host_id kind payload w = (Ok tt, w')).
Proof using.
  unfold deliver, try_except, handle_message. destruct (loads body) as [p|]; [|by exists w; split; [|left]].
  unfold session_scope, savepoint. destruct (dispatch host_id kind p w) as [[[]|e] w'] eqn:E.
  - exists w'. split; [done|]. right. by exists p.
  - eexists. split; [done|]. by left.
Qed.

(** A response that cannot be applied leaves its task open.  The thumbnails
    are stripped before the terminal status is written and the agent version is
    stamped after it without a savepoint, so a [vms] that cannot be iterated
    (a number) in a terminal response, or an upgrade that reports a version
    longer than its column, fails the whole message: the session is rolled
    back, the message acknowledged, and task, audit events and lock stay as
    they were until the sweeper times the task out - although the comment
    above the flush says that a malformed payload cannot undo the lifecycle
    change. *)
Theorem malformed_response_strands_task host_id body payload resp k w :
  loads body = Some payload → model_validate payload = Some resp →
  tasks (w_db w) !! rs_id resp = Some k → k_host_id k = host_id → k_id k = rs_id resp →
  (∀ p, k_progress k = Some p → fits 32 p = true) →
  (∃ e, strip_response_thumbnails resp = inr e) ∨
  (∃ resp' h, strip_response_thumbnails resp = inl resp' ∧ ends_task k resp' = true ∧
     hosts (w_db w) !! host_id = Some h ∧ upgrade_stamps (w_repr w) k resp' = false) →
  deliver host_id RESPONSE body w = (Ok tt, w).
Proof using.
  intros Hl Hv Hk Hh Hid Hfits Hor.
  assert (∃ e w', apply_response host_id resp w = (Raise e, w') ∧ w' <| w_db := w_db w |> = w) as (e & w' & Hr & Hw).
  { destruct Hor as [[e He]|(resp' & h & Hs & Hends & Hhost & Hst)].
    - exists (EPy e), w. split; [|by destruct w]. unfold apply_response, get_task. rewrite run_query, Hk.
      rewrite (proj2 (String.eqb_eq _ _) Hh). cbn [negb]. by rewrite He.
    - rewrite (response_flushed w host_id resp resp' k) by done. set (k' := finish_task _ _ _ _).
      exists EData, (finished_world w k'). split; [|by destruct w]. unfold after_terminal.
      by rewrite (run_fail _ _ _ _ _ (stamp_raises (finished_world w k') host_id resp' k (Some resp')
        (utc (w_now w)) h Hst Hhost)). }
  unfold deliver, try_except, handle_message. rewrite Hl. cbn [dispatch]. rewrite Hv.
  unfold session_scope, savepoint. by rewrite Hr, Hw.
Qed.

(** an item of a loop that returned *)
Lemma fold_each_item {A S} (body : S → A → M S) l s w s' w' x :
  fold_each l s body w = (Ok s', w') → x ∈ l → ∃ s1 w1 s2 w2, body s1 x w1 = (Ok s2, w2).
Proof using.
  revert s w. induction l as [|y l IH]; intros s w H Hx; [by apply not_elem_of_nil in Hx|].
  cbn in H. apply bind_inv in H as (s1 & w1 & H1 & H2). apply elem_of_cons in Hx as [->|Hx]; eauto.
Qed.
Lemma infinite_item_raises h tomb st d s w st' w' :
  dget d "memoryDemandBytes" = JFloat (S754_infinity s) →
  inventory_item h tomb st (JObj d) w ≠ (Ok st', w').
Proof using.
  intros Hd H. unfold inventory_item in H. rewrite run_gets in H.
  destruct (pop_thumbnail d) as [t raw] eqn:Ep.
  apply bind_inv in H as (item & w1 & H & _). apply lift_py_inv in H as [H _].
  refine (normalize_infinite_memory _ raw s _ _ H).
  unfold pop_thumbnail in Ep. assert (raw = dpop d "thumbnail") as -> by (by repeat case_match; simplify_eq).
  rewrite dget_dpop. exact Hd.
Qed.

(** One number that does not fit drops the whole snapshot.  A [vm_inventory]
    message with an infinite number ([1e400], which [json.loads] accepts) in one
    item does not stop the consumer but changes no row at all, whatever the
    other items report: the [OverflowError] of [int()] is not among the errors
    [_as_int] catches, and the session is rolled back as a whole. *)
Theorem overflow_drops_snapshot host_id body payload items d s w :
  loads body = Some (JObj payload) → py_iter (dget_or payload "vms" (JList [])) = inl items →
  JObj d ∈ items → dget d "memoryDemandBytes" = JFloat (S754_infinity s) →
  ∃ w', deliver host_id VM_INVENTORY body w = (Ok tt, w') ∧ w_db w' = w_db w.
Proof using.
  intros Hl Hi Hd Hinf. destruct (deliver_atomic host_id VM_INVENTORY body w) as (w' & Hr & Hdb).
  exists w'. split; [exact Hr|]. destruct Hdb as [|(p & Hp & H)]; [done|].
  rewrite Hl in Hp. injection Hp as <-. cbn [dispatch] in H. unfold apply_vm_inventory, get_host in H.
  rewrite run_query in H. destruct (hosts (w_db w) !! host_id) as [h|]; [|by apply ret_inv in H as [_ <-]].
  exfalso. apply bind_inv in H as (scope & w1 & _ & H). apply bind_inv in H as (ex & w2 & _ & H).
  apply bind_inv in H as (tomb & w3 & _ & H). rewrite Hi in H. cbn [lift_py] in H. rewrite run_ret in H.
  apply bind_inv in H as (st & w4 & H & _).
  destruct (fold_each_item _ _ _ _ _ _ _ H Hd) as (s1 & w5 & s2 & w6 & Hx).
  by apply (infinite_item_raises _ _ _ _ _ _ _ _ Hinf) in Hx.
Qed.
End consumers.
Lemma overflow_drops_snapshot_witness :
  let body := "..." in
  let payload := [("vms", JList [JObj [("id", JStr "g1")];
                                 JObj [("id", JStr "g2"); ("memoryDemandBytes", JFloat (S754_infinity false))]])] in
  let w := sample_world in
  ∃ w', deliver (λ _, Some (JObj payload)) (λ _, None) "h1" VM_INVENTORY body w = (Ok tt, w') ∧ w_db w' = w_db w.
Proof.
  cbv zeta. eapply overflow_drops_snapshot with (s := false); [reflexivity|reflexivity| |].
  - right. left.
  - reflexivity.
Defined.

(** a result whose [vms] is a number: the start stays running, with its lock *)
Lemma malformed_response_strands_task_witness :
  let resp := sample_response "succeeded" <| rs_result := RDict [("vms", JInt 5)] |> in
  let w := task_world "vm_start" "running" in
  deliver (λ _, Some JNull) (λ _, Some resp) "h1" RESPONSE "..." w = (Ok tt, w) ∧
  (k_status <$> tasks (w_db w) !! "t1") = Some "running" ∧ is_some (lock_view w "v1") = true.
Proof.
  cbv zeta. set (resp := _ <| rs_result := _ |>).
  split; [|split; vm_compute; reflexivity].
  apply (malformed_response_strands_task (λ _, Some JNull) (λ _, Some resp) "h1" "..." JNull resp
    (sample_task "vm_start" "running")); try reflexivity; [by intros p [= <-]|].
  left. eexists. vm_compute. reflexivity.
Defined.
