(* ===== verification/FakeAgent.v ===== *)
(** * The stand-in agent ([scripts/fake_agent.py])

    The program that plays the agents of all hosts: a JSON state kept in a file,
    one handler per request that simulates the operation and answers it, and the
    periodic inventories.  Objects of the state are mutated in place, so a
    handler that fails half way keeps what it has changed. *)
From S2P Require Import Prelude Py Clock Isoformat Model World Cache Normalize Messaging.
From Stdlib Require Import Floats.SpecFloat Ascii.
Open Scope string_scope.
Open Scope Z_scope.

(** ** Code that mutates an object and may raise *)
Definition SE (S A : Type) : Type := S → (A + pyexn) * S.
#[export] Instance SE_ret S : MRet (SE S) := λ A a s, (inl a, s).
#[export] Instance SE_bind S : MBind (SE S) := λ A B k m s,
  match m s with (inl a, s') => k a s' | (inr e, s') => (inr e, s') end.
Definition throw {S A} (e : pyexn) : SE S A := λ s, (inr e, s).
Definition pure {S A} (r : res A) : SE S A := λ s, (r, s).
Definition look {S A} (f : S → A) : SE S A := λ s, (inl (f s), s).
Definition change {S} (f : S → S) : SE S unit := λ s, (inl tt, f s).
Fixpoint each {S A} (l : list A) (body : A → SE S unit) : SE S unit :=
  match l with [] => mret tt | x :: l' => body x;; each l' body end.
Definition only_if {S} (b : bool) (m : SE S unit) : SE S unit := if b then m else mret tt.

(** ** Python on JSON values *)

(** [v[k]] *)
Definition item (v : json) (k : string) : res json :=
  match v with
  | JObj d => match dict_find d k with Some x => inl x | None => inr KeyError end
  | _ => inr TypeError
  end.
(** [a == b] *)
Fixpoint py_eq (a b : json) {struct a} : bool :=
  match a, b with
  | JNull, JNull => true
  | JStr s, JStr t => String.eqb s t
  | JList l, JList m =>
      (fix go l m := match l, m with
                     | [], [] => true
                     | x :: l', y :: m' => py_eq x y && go l' m'
                     | _, _ => false
                     end) l m
  | JObj d, JObj e =>
      Nat.eqb (length d) (length e) &&
      (fix go d := match d with
                   | [] => true
                   | (k, x) :: d' => match dict_find e k with Some y => py_eq x y | None => false end && go d'
                   end) d
  | JFloat f, JFloat g => SFeqb f g
  | JBool p, _ => eq_int b (if p then 1 else 0)
  | JInt z, _ => eq_int b z
  | JFloat _, JBool q => eq_int a (if q then 1 else 0)
  | JFloat _, JInt z => eq_int a z
  | _, _ => false
  end.
(** [v.get("k")] on what should be an object *)
Definition get {S} (v : json) (k : string) : SE S json := pure (py_get v k).
Definition int_of {S} (v : json) : SE S Z := pure (py_int v).
(** [v or []] iterated *)
Definition iter_or_empty {S} (v : json) : SE S (list json) := pure (py_iter (py_or v (JList []))).
(** [v * n] for a positive constant *)
Definition times (v : json) (n : Z) : res json :=
  match v with
  | JInt z => inl (JInt (z * n))
  | JBool b => inl (JInt (if b then n else 0))
  | JFloat f => inl (JFloat (float_mul f (float_of_Z_raw n)))
  | JStr s => inl (JStr (Z.iter n (String.append s) ""))
  | JList l => inl (JList (Z.iter n (app l) []))
  | JNull | JObj _ => inr TypeError
  end.
(** mutating the object under a key *)
Definition on_key {A} (k : string) (m : SE json A) : SE dict A := λ d,
  match dict_find d k with
  | Some v => match m v with (r, v') => (r, dset d k v') end
  | None => (inr KeyError, d)
  end.
(** a value used as an object, or as a list: a handler dies of any exception alike *)
Definition as_obj {A} (m : SE dict A) : SE json A := λ v,
  match v with JObj d => match m d with (r, d') => (r, JObj d') end | _ => (inr TypeError, v) end.
Definition as_list {A} (m : SE (list json) A) : SE json A := λ v,
  match v with JList l => match m l with (r, l') => (r, JList l') end | _ => (inr TypeError, v) end.
Definition put (k : string) (v : json) : SE dict unit := change (λ d, dset d k v).
(** [for x in l: body], mutating the elements in place *)
Fixpoint on_items (body : SE json unit) (l : list json) : (unit + pyexn) * list json :=
  match l with
  | [] => (inl tt, [])
  | x :: l' => match body x with
               | (inl _, x') => match on_items body l' with (r, l'') => (r, x' :: l'') end
               | (inr e, x') => (inr e, x' :: l')
               end
  end.
Definition on_nth {A} (i : nat) (m : SE json A) : SE (list json) A := λ l,
  match l !! i with
  | Some x => match m x with (r, x') => (r, <[i := x']> l) end
  | None => (inr KeyError, l)
  end.
(** [next((x for x in l if p(x)), None)], as a position *)
Fixpoint find_pos (p : json → res bool) (l : list json) : res (option nat) :=
  match l with
  | [] => inl None
  | x :: l' => b ← p x; if b : bool then inl (Some O) else o ← find_pos p l'; mret (S <$> o)
  end.
(** [[x for x in l if p(x)]] *)
Fixpoint filter_res (p : json → res bool) (l : list json) : res (list json) :=
  match l with
  | [] => inl []
  | x :: l' => b ← p x; ys ← filter_res p l'; mret (if b : bool then x :: ys else ys)
  end.
(** [x[k] == y] *)
Definition has (k : string) (y : res json) (x : json) : res bool := v ← item x k; w ← y; mret (py_eq v w).
Definition lacks (k : string) (y : res json) (x : json) : res bool := b ← has k y x; mret (negb b).
Definition rstrip (p : ascii → bool) : string → string := drop_while_end p.
Definition nth_char (n : nat) (s : string) : string := stake 1 (sdrop n s).

(** ** The process *)
Record agent := mkAgent {
  ag_state : dict;                       (* [_state] *)
  ag_file : option (option json);        (* the state file: absent, not JSON, or its content *)
  ag_uuid4 : nat → string; ag_random : nat → nat; ag_uniform : nat → spec_float;
  ag_hash : string → Z; ag_repr : json → string;
  ag_now : Z; ag_seq : nat;
  ag_out : list (string * json)          (* published: routing key and payload *)
}.
#[export] Instance eta_agent : Eta agent := Build_Eta _ (λ a,
  mkAgent (ag_state a) (ag_file a) (ag_uuid4 a) (ag_random a) (ag_uniform a) (ag_hash a) (ag_repr a)
    (ag_now a) (ag_seq a) (ag_out a)).
Definition F : Type → Type := SE agent.
Definition GiB : Z := 1024 * 1024 * 1024.
Definition now_text : F string := look (λ a, isoformat (utc (ag_now a))).
Definition uuid4 : F string := λ a, (inl (ag_uuid4 a (ag_seq a)), a <| ag_seq ::= S |>).
(** the random stream: one draw per call *)
Definition draw : F nat := λ a, (inl (ag_random a (ag_seq a)), a <| ag_seq ::= S |>).
Definition choice (l : list json) : F json := n ← draw; mret (nth (n mod length l) l JNull).
Definition randint (lo hi : Z) : F Z := n ← draw; mret (lo + Z.of_nat n mod (hi - lo + 1)).
(** [round(random.uniform(a, b), digits)] *)
Definition uniform : F spec_float := λ a, (inl (ag_uniform a (ag_seq a)), a <| ag_seq ::= S |>).
Definition flip (of_ten : nat) : F bool := n ← draw; mret (n mod 10 <? of_ten)%nat.
Definition JInts (l : list Z) : list json := map JInt l.
Definition JStrs (l : list string) : list json := map JStr l.
Definition if_running (state : json) (m : F Z) (other : json) : F json :=
  if py_eq state (JStr "Running") then z ← m; mret (JInt z) else mret other.

(** ** Generated inventory *)
Definition hardware : json := JObj
  [("cpu", JObj [("model", JStr "Intel Xeon Gold 6338"); ("sockets", JInt 2); ("cores", JInt 32); ("logical", JInt 64)]);
   ("memoryBytes", JInt (512 * GiB));
   ("storage", JList
      [JObj [("path", JStr "C:\"); ("totalBytes", JInt (480 * GiB)); ("freeBytes", JInt (120 * GiB))];
       JObj [("path", JStr "D:\HyperV"); ("totalBytes", JInt (8192 * GiB)); ("freeBytes", JInt (3300 * GiB))];
       JObj [("path", JStr "E:\"); ("totalBytes", JInt (4096 * GiB)); ("freeBytes", JInt (4000 * GiB))]]);
   ("hyperv", JObj [("defaultVmPath", JStr "D:\HyperV\VMS"); ("defaultVhdPath", JStr "D:\HyperV\VHDS")]);
   ("os", JObj [("caption", JStr "Windows Server 2022 Datacenter"); ("version", JStr "10.0.20348")]);
   ("network", JList
      [JObj [("name", JStr "Team-Prod"); ("description", JStr "Intel(R) Ethernet Converged Network Adapter X710 #1");
             ("mac", JStr "00:15:5D:01:0A:01"); ("speedBps", JInt 25000000000); ("connected", JBool true)];
       JObj [("name", JStr "Team-Prod #2"); ("description", JStr "Intel(R) Ethernet Converged Network Adapter X710 #2");
             ("mac", JStr "00:15:5D:01:0A:02"); ("speedBps", JInt 25000000000); ("connected", JBool true)];
       JObj [("name", JStr "Mgmt"); ("description", JStr "Broadcom NetXtreme Gigabit Ethernet");
             ("mac", JStr "00:15:5D:01:0A:03"); ("speedBps", JInt 1000000000); ("connected", JBool false)]]);
   ("vSwitches", JList
      [JObj [("name", JStr "vSwitch-Prod"); ("type", JStr "External"); ("netAdapter", JStr "Team-Prod")];
       JObj [("name", JStr "vSwitch-Mgmt"); ("type", JStr "Internal"); ("netAdapter", JNull)]])].
Definition gen_vm (host_id name base : string) (i : Z) : F json :=
  let vm_id := host_id +:+ "-" +:+ pad 4 i +:+ "-vm00-0000-000000000000" in
  let folder := "D:\HyperV\VMs\" +:+ base +:+ str_of_Z i in
  state ← choice (JStrs ["Running"; "Running"; "Off"; "Paused"]);
  firmware ← choice (JStrs ["UEFI"; "UEFI"; "BIOS"]);
  uptime ← if_running state (randint 0 400000) JNull;
  vcpu ← choice (JInts [2; 4; 8]);
  mem ← choice (JInts [4 * 1024; 8 * 1024; 16 * 1024]);
  consumed ← if_running state (z ← randint 1 8; mret (z * 1024)) (JInt 0);
  cpu ← if_running state (randint 0 40) (JInt 0);
  secure ← choice [JBool true; JBool false];
  template ← choice (JStrs ["Windows"; "Linux"; "Others"]);
  nested ← choice [JBool true; JBool false; JBool false];
  start ← choice (JStrs ["Nothing"; "StartIfRunning"; "Start"]);
  delay ← choice (JInts [0; 0; 30; 120]);
  stop ← choice (JStrs ["Save"; "ShutDown"; "TurnOff"]);
  dvd ← choice [JNull; JNull; JStr "D:\HyperV\ISOS\Rocky-9.7-x86_64-minimal.iso"];
  ha ← choice [JBool true; JBool false];
  vlan ← choice (JInts [0; 0; 100; 200]);
  snap ← flip 4;
  now ← now_text;
  mret (JObj
    [("id", JStr vm_id); ("name", JStr (name +:+ "-VM" +:+ pad 2 i)); ("state", state); ("firmware", firmware);
     ("folderId", JNull); ("uptimeSec", uptime); ("vcpu", vcpu); ("memoryMb", mem);
     ("memoryMinBytes", JInt (2 * GiB)); ("memoryMaxBytes", JInt (16 * GiB)); ("memoryDynamic", JBool true);
     ("memoryConsumedMb", consumed); ("cpuUsagePct", cpu); ("secureBoot", secure); ("secureBootTemplate", template);
     ("nestedVirtualization", nested); ("automaticStart", start); ("automaticStartDelay", delay);
     ("automaticStop", stop); ("path", JStr folder); ("dvd", dvd); ("ha", ha);
     ("disks", JList [JObj
        [("id", JStr (vm_id +:+ "-os")); ("path", JStr (folder +:+ "\" +:+ base +:+ str_of_Z i +:+ ".vhdx"));
         ("controller", JStr "SCSI 0:0"); ("sizeBytes", JInt (127 * GiB)); ("usedBytes", JInt (40 * GiB));
         ("type", JStr "Dynamic"); ("format", JStr "VHDX")]]);
     ("nics", JList [JObj
        [("id", JStr (vm_id +:+ "-nic0")); ("name", JStr "Network Adapter"); ("switchName", JStr "vSwitch-Prod");
         ("vlanId", vlan); ("macAddress", JStr ("00:15:5D:01:0A:" +:+ pad 2 i));
         ("ipAddresses", JList (if py_eq state (JStr "Running") then [JStr ("10.20.0." +:+ str_of_Z (10 + i))] else []));
         ("connected", JBool true)]]);
     ("snapshots", JList (if snap : bool then [JObj
        [("id", JStr (vm_id +:+ "-snap0")); ("name", JStr "before-update"); ("parentId", JNull);
         ("type", JStr "Standard"); ("createdAt", JStr now)]] else []));
     ("notes", JNull); ("createdAt", JStr now)]).
(** [for i in range(first, first + count)] *)
Fixpoint gen_range (host_id name base : string) (first : Z) (count : nat) : F (list json) :=
  match count with
  | O => mret []
  | S n => vm ← gen_vm host_id name base first; vms ← gen_range host_id name base (first + 1) n; mret (vm :: vms)
  end.
Definition gen_vms (host_id name : string) : F (list json) :=
  last_ ← randint 3 6;
  gen_range host_id name (default "" (last (split_char "-"%char name))) 1 (Z.to_nat (last_ - 1)).

(** ** The state and its file *)
Definition load_state : F unit :=
  file ← look ag_file;
  match file with
  | None | Some None => change (λ a, a <| ag_state := [("hosts", JObj [])] |>)
  | Some (Some (JObj d)) => change (λ a, a <| ag_state := if dmem d "hosts" then d else dset d "hosts" (JObj []) |>)
  | Some (Some _) => throw AttributeError
  end.
Definition save_state : F unit := change (λ a, a <| ag_file := Some (Some (JObj (ag_state a))) |>).
(** [_state["hosts"].get(host_id)] *)
Definition find_host (host_id : string) : F json :=
  st ← look ag_state;
  hosts ← pure (item (JObj st) "hosts");
  get hosts host_id.
Definition set_host (host_id : string) (hs : json) (st : dict) : dict :=
  dset st "hosts" (JObj (dset (dict_or_empty (dget st "hosts")) host_id hs)).
(** the object of a host, mutated where it is *)
Definition in_host {A} (host_id : string) (m : SE dict A) : F A := λ a,
  match dget (dict_or_empty (dget (ag_state a) "hosts")) host_id with
  | JObj hs => match m hs with (r, hs') => (r, a <| ag_state ::= set_host host_id (JObj hs') |>) end
  | _ => (inr TypeError, a)
  end.
Definition gen_host (host_id name : string) : F json :=
  vms ← gen_vms host_id name;
  now ← now_text;
  mret (JObj
    [("name", JStr name); ("hardware", hardware); ("vms", JList vms);
     ("templates", JList [JObj
        [("id", JStr (host_id +:+ "-tpl-1")); ("name", JStr "W2022-Base");
         ("path", JStr "D:\HyperV\TEMPLATES\w2022.vhdx"); ("sizeBytes", JInt (18 * GiB));
         ("diskSizeBytes", JInt (6 * GiB)); ("notes", JStr "Sysprepped Windows Server 2022 base image.");
         ("cpuCount", JInt 4); ("memoryMb", JInt 8192); ("guestOs", JStr "Windows Server 2022"); ("createdAt", JStr now)]]);
     ("isos", JList [JObj
        [("id", JStr (host_id +:+ "-iso-1")); ("name", JStr "WinServer2022.iso");
         ("path", JStr "D:\HyperV\ISOS\ws2022.iso"); ("sizeBytes", JInt (5 * GiB))]])]).
Definition host_state (host_id name : string) : F json :=
  hs ← find_host host_id;
  if is_null hs then
    hs ← gen_host host_id name;
    change (λ a, a <| ag_state ::= set_host host_id hs |>);;
    mret hs
  else mret hs.

(** ** Folders *)
Definition slash (c : ascii) : bool := Ascii.eqb c "\" || Ascii.eqb c "/".
Definition is_letter (c : ascii) : bool := is_upper c || is_lower c.
Definition back (c : ascii) : bool := Ascii.eqb c "\".
(** [^([a-zA-Z]:\\ClusterStorage\\[^\\]+)], ignoring case: the group *)
Definition csv_volume (s : string) : option string :=
  match s with
  | String c rest =>
      if is_letter c && startswith ":\clusterstorage\" (lower rest) then
        let vol := List.hd "" (split_on back (sdrop 17 rest) "") in
        if str_nonempty vol then Some (String c (stake 17 rest) +:+ vol) else None
      else None
  | "" => None
  end.
(** ["C:"] of ["C:..."] *)
Definition drive_of (s : string) : option string :=
  if String.eqb (nth_char 1 s) ":" then Some (stake 2 s) else None.
Definition resolve_vm_folder (default_vm_path destination_storage name : string) : string :=
  let dflt := rstrip slash default_vm_path in
  let dest := rstrip slash destination_storage in
  if negb (str_nonempty dest) then dflt +:+ "\" +:+ name
  else
    match csv_volume dest with
    | Some vol => vol +:+ "\VMS\" +:+ name
    | None =>
        let dv := match drive_of dflt with Some d => lower d | None => "" end in
        if str_nonempty dv && String.eqb (lower (stake 2 dest)) dv then dflt +:+ "\" +:+ name
        else default dest (drive_of dest) +:+ "\HyperV\VMS\" +:+ name
    end.

(** ** Simulated actions *)
(** [for vm in hs["vms"]: if vm["id"] == vm_id: body] *)
Definition each_vm (vm_id : json) (body : SE dict unit) : SE dict unit :=
  on_key "vms" (as_list (on_items (as_obj (
    vm ← look JObj;
    same ← pure (has "id" (inl vm_id) vm);
    only_if same body)))).
Definition run_vm (final_state : string) : SE dict unit :=
  put "state" (JStr final_state);;
  if String.eqb final_state "Running" then
    up ← look (λ vm, dget vm "uptimeSec");
    put "uptimeSec" (py_or up (JInt 0))
  else
    put "uptimeSec" JNull;;
    nics ← look (λ vm, dmem vm "nics");
    only_if nics (on_key "nics" (as_list (on_items (as_obj (put "ipAddresses" (JList [])))))).
Definition apply_action (host_id : string) (vm_id : json) (fn : string) (final_state : option string) : F unit :=
  hs ← find_host host_id;
  if is_null hs || is_null vm_id then mret tt
  else
    in_host host_id
      (if String.eqb fn "vm_delete" then
         on_key "vms" (as_list (l ← look id; l ← pure (filter_res (lacks "id" (inl vm_id)) l); change (λ _, l)))
       else if bool_decide (fn ∈ ["vm_enable_metrics"; "vm_disable_metrics"]) then
         each_vm vm_id (put "metricsEnabled" (JBool (String.eqb fn "vm_enable_metrics")))
       else
         match final_state with
         | None => mret tt
         | Some s => each_vm vm_id (run_vm s)
         end).

(** ** [vm_edit] *)
(** [obj.setdefault(k, [])] *)
Definition setdefault_list (k : string) : SE dict unit :=
  there ← look (λ d, dmem d k); only_if (negb there) (put k (JList [])).
(** [spec["vlan_id"]] as an integer, zero being no VLAN *)
Definition vlan_or_none {S} (spec : json) : SE S json :=
  v ← pure (item spec "vlan_id"); z ← int_of v; mret (if z =? 0 then JNull else JInt z).
Definition edit_nic (spec : json) : SE dict unit :=
  v ← get spec "name";
  only_if (truthy v) (put "name" v);;
  v ← get spec "vlan_id";
  only_if (negb (is_null v)) (x ← vlan_or_none spec; put "vlanId" x);;
  v ← get spec "switch_name";
  only_if (truthy v) (put "switchName" v).
Definition hex_digit (n : Z) : string :=
  stake 1 (sdrop (Z.to_nat n) "0123456789ABCDEF").
(** ["%02X" % (n & 0xFF)] *)
Definition hex2 (n : Z) : string := let b := Z.land n 255 in hex_digit (b / 16) +:+ hex_digit (b mod 16).
Section edit.
Context (repr : json → string).
Let str := py_str repr.

Definition add_nic (vm_id default_switch : json) (i : nat) (spec : json) : SE (list json) unit :=
  len ← look (λ l, Z.of_nat (length l));
  name ← get spec "name";
  sw ← get spec "switch_name";
  vlan ← get spec "vlan_id";
  x ← (if truthy vlan then vlan_or_none spec else mret JNull);
  change (λ l, l ++ [JObj
    [("id", JStr (str vm_id +:+ "-nic" +:+ str_of_Z (len + Z.of_nat i + 1)));
     ("name", py_or name (JStr ("Network Adapter " +:+ str_of_Z (len + 1)))); ("switchName", py_or sw default_switch);
     ("vlanId", x); ("macAddress", JStr ("00:15:5D:0A:0B:" +:+ hex2 (len + Z.of_nat i)));
     ("ipAddresses", JList []); ("connected", JBool true)]])%list.
(** [int(float(v) * GiB)] *)
Definition gib_bytes {S} (v : json) : SE S Z :=
  f ← pure (py_float v); pure (float_trunc (float_mul f (float_of_Z_raw GiB))).
Definition edit_disk (spec : json) : SE dict unit :=
  v ← get spec "size_gb";
  only_if (truthy v) (z ← gib_bytes v; put "sizeBytes" (JInt z)).
Definition add_disk (vm_id : json) (vm_name : res json) (i : nat) (spec : json) : SE (list json) unit :=
  len ← look (λ l, Z.of_nat (length l));
  path ← get spec "path";
  name ← pure (if truthy path then inl JNull else vm_name);
  size ← get spec "size_gb";
  z ← gib_bytes (py_or size (JInt 60));
  type ← get spec "type";
  change (λ l, l ++ [JObj
    [("id", JStr (str vm_id +:+ "-disk" +:+ str_of_Z (len + Z.of_nat i)));
     ("path", py_or path (JStr ("D:\HyperV" +:+ str name +:+ "-extra" +:+ str_of_Z (Z.of_nat i) +:+ ".vhdx")));
     ("controller", JStr ("SCSI 0:" +:+ str_of_Z (len + Z.of_nat i))); ("sizeBytes", JInt z); ("usedBytes", JInt 0);
     ("type", py_or type (JStr "Dynamic")); ("format", JStr "VHDX")]])%list.
(** the scalar settings *)
Definition edit_settings (params : dict) : SE dict unit :=
  let p := dget params in
  only_if (truthy (p "cpu_count")) (z ← int_of (p "cpu_count"); put "vcpu" (JInt z));;
  only_if (truthy (p "memory_mb"))
    (z ← int_of (p "memory_mb"); put "memoryMb" (JInt z);; put "memoryBytes" (JInt (z * 1024 * 1024)));;
  only_if (negb (is_null (p "notes"))) (put "notes" (p "notes"));;
  only_if (negb (is_null (p "nested_virtualization")))
    (put "nestedVirtualization" (JBool (truthy (p "nested_virtualization"))));;
  only_if (negb (is_null (p "secure_boot"))) (put "secureBoot" (JBool (truthy (p "secure_boot"))));;
  only_if (truthy (p "secure_boot_template")) (put "secureBootTemplate" (p "secure_boot_template"));;
  only_if (truthy (p "automatic_start")) (put "autoStartAction" (p "automatic_start"));;
  only_if (negb (is_null (p "automatic_start_delay")))
    (z ← int_of (p "automatic_start_delay"); put "autoStartDelaySec" (JInt z));;
  only_if (truthy (p "automatic_stop")) (put "autoStopAction" (p "automatic_stop")).
(** drop the elements whose [k] is the spec's [k'], edit the first of them *)
Definition remove_by (k k' : string) (spec : json) : SE (list json) unit :=
  l ← look id; l ← pure (filter_res (lacks k (py_get spec k')) l); change (λ _, l).
Definition edit_by (k k' : string) (edit : json → SE dict unit) (spec : json) : SE (list json) unit :=
  l ← look id;
  pos ← pure (find_pos (has k (py_get spec k')) l);
  match pos with None => mret tt | Some i => on_nth i (as_obj (edit spec)) end.
Definition edit_nics (vm_id : json) (params : dict) (default_switch : json) : SE (list json) unit :=
  l ← iter_or_empty (dget params "remove_nic"); each l (remove_by "id" "nic_id");;
  l ← iter_or_empty (dget params "edit_nic"); each l (edit_by "id" "nic_id" edit_nic);;
  l ← iter_or_empty (dget params "add_nic"); each (enumerate l) (λ x, add_nic vm_id default_switch x.1 x.2).
Definition edit_disks (vm_id : json) (vm_name : res json) (params : dict) : SE (list json) unit :=
  l ← iter_or_empty (dget params "remove_disk"); each l (remove_by "path" "path");;
  l ← iter_or_empty (dget params "edit_disk"); each l (edit_by "path" "path" edit_disk);;
  l ← iter_or_empty (dget params "add_disk"); each (enumerate l) (λ x, add_disk vm_id vm_name x.1 x.2).
Definition default_switch (hs : dict) : res json :=
  hw ← item (JObj hs) "hardware";
  v ← py_get hw "vSwitches";
  first ← head_of (py_or v (JList [JObj []]));
  name ← py_get first "name";
  mret (py_or name (JStr "vSwitch")).
Definition edit_vm (vm_id : json) (params : dict) (switch : res json) : SE dict unit :=
  edit_settings params;;
  setdefault_list "nics";;
  sw ← pure switch;
  on_key "nics" (as_list (edit_nics vm_id params sw));;
  setdefault_list "disks";;
  name ← look (λ vm, item (JObj vm) "name");
  on_key "disks" (as_list (edit_disks vm_id name params)).
(** the VM edited, or [None] *)
Definition edit_host_vm (vm_id : json) (params : dict) : SE dict json :=
  hs ← look id;
  vms ← pure (item (JObj hs) "vms");
  l ← pure (py_iter vms);
  pos ← pure (find_pos (has "id" (inl vm_id)) l);
  match pos with
  | None => mret JNull
  | Some i => on_key "vms" (as_list (on_nth i (as_obj (edit_vm vm_id params (default_switch hs);; look JObj))))
  end.
Definition apply_vm_edit (host_id : string) (vm_id : json) (params : dict) : F json :=
  hs ← find_host host_id;
  if is_null hs || is_null vm_id then mret JNull else in_host host_id (edit_host_vm vm_id params).
End edit.

(** ** Requests *)
Definition publish (host_id : string) (kind : QueueKind) (payload : dict) : F unit :=
  change (λ a, a <| ag_out ::= λ l, (l ++ [(queue_name host_id kind, JObj payload)])%list |>).
Definition FAKE_PROGRESS_STEPS : list (string * list (Z * string)) :=
  [("vm_create", [(10, "Creating VM"); (40, "Creating disk 1/1: OS.vhdx"); (75, "Configuring VM settings");
                  (95, "Starting VM")]);
   ("vm_clone", [(10, "Exporting source VM (0%)"); (45, "Importing VM and copying disks");
                 (82, "Expanding disks to fixed"); (85, "Configuring VM settings")]);
   ("vm_export_template", [(20, "Exporting VM (35%)"); (60, "Exporting VM (80%)");
                           (87, "Converting fixed disks to dynamic"); (90, "Reading template details")]);
   ("vm_edit", [(30, "Applying changes"); (70, "Expanding disk 1/1: DATA.vhdx")]);
   ("vm_move", [(20, "Moving VM storage (this may take a while)")])].
Definition FINAL_STATE : list (string * string) :=
  [("vm_start", "Running"); ("vm_restart", "Running"); ("vm_stop", "Off"); ("vm_shutdown", "Off");
   ("vm_pause", "Paused"); ("vm_delete", "Off")].
Definition steps_of (fn : string) : list (Z * string) := default [(30, "Working…")] (assoc FAKE_PROGRESS_STEPS fn).
Definition progress (host_id : string) (task_id fn : json) (step : Z * string) : F unit :=
  publish host_id RESPONSE
    [("id", task_id); ("function", fn); ("status", JStr "running"); ("progress", JInt step.1);
     ("progress_message", JStr step.2)];;
  _ ← uniform; mret tt.
(** the terminal response: its own fields between the common ones *)
Definition succeed (host_id : string) (task_id fn : json) (result : string) (fields : dict) : F unit :=
  now ← now_text;
  publish host_id RESPONSE
    ([("id", task_id); ("function", fn); ("status", JStr "succeeded"); ("progress", JInt 100); ("result", JStr result)]
     ++ fields ++ [("finished_at", JStr now)])%list.
Section handler.
Context (repr : json → string).
Let str := py_str repr.

(** [(hs["hardware"].get("hyperv") or {}).get("defaultVmPath") or "D:\HyperV\VMS"] *)
Definition default_vm_folder (hs : dict) : res json :=
  hw ← item (JObj hs) "hardware";
  hv ← py_get hw "hyperv";
  p ← py_get (py_or hv (JObj [])) "defaultVmPath";
  mret (py_or p (JStr "D:\HyperV\VMS")).
(** [v.rstrip(...)] of a value that may be no string *)
Definition folder_of (default_path dest : json) (name : string) : res string :=
  match default_path, dest with
  | JStr d, JStr t => inl (resolve_vm_folder d t name)
  | _, _ => inr AttributeError
  end.
Definition hosted {A} (host_id : string) (r : dict → res A) : F A :=
  in_host host_id (hs ← look id; pure (r hs)).
Definition append_vm (host_id : string) (vm : dict) : F unit :=
  in_host host_id (on_key "vms" (as_list (change (λ l, l ++ [JObj vm])%list))).
Definition created_state (params : dict) : string := if truthy (dget params "start_now") then "Running" else "Off".
(** [int(vlan) if isinstance(vlan, int) else 0] *)
Definition int_vlan (v : json) : Z := match v with JInt z => z | JBool true => 1 | _ => 0 end.
Definition vm_name_of (params : dict) (guid : string) : json :=
  py_or (dget params "name") (JStr ("vm-" +:+ stake 8 guid)).
Definition new_nic (guid mac : string) (switch vlan : json) : json := JObj
  [("id", JStr (guid +:+ "-nic0")); ("name", JStr "Network Adapter"); ("switchName", switch);
   ("vlanId", JInt (int_vlan vlan)); ("macAddress", JStr mac); ("ipAddresses", JList []); ("connected", JBool true)].
Definition new_disk (guid base name : string) (di : nat) (d : json) : res json :=
  match d with
  | JObj o =>
      let dname := str (dget_or o "name" (JStr "OS")) in
      size ← py_int (py_or (dget o "size_gb") (JInt 60));
      mret (JObj
        [("id", JStr (guid +:+ "-" +:+ dname));
         ("path", JStr (base +:+ "\Virtual Hard Disks\" +:+ name +:+ "-" +:+ dname +:+ ".vhdx"));
         ("controller", JStr ("SCSI 0:" +:+ str_of_Z (Z.of_nat di))); ("sizeBytes", JInt (size * GiB));
         ("usedBytes", JInt 0); ("type", py_or (dget o "type") (JStr "Fixed")); ("format", JStr "VHDX")])
  | _ => inr AttributeError
  end.
(** [v * 1024 * 1024 if v else None] *)
Definition mib (v : json) : res json :=
  if truthy v then k ← times v 1024; times k 1024 else inl JNull.
Definition handle_create (host_id : string) (task_id fn : json) (params : dict) : F unit :=
  let p := dget params in
  guid ← uuid4;
  mem ← int_of (py_or (p "memory_mb") (JInt 4096));
  let dynamic := truthy (p "memory_dynamic") in
  let mem_min := py_or (p "memory_min_mb") (if dynamic then JInt mem else JNull) in
  let mem_max := py_or (p "memory_max_mb") (if dynamic then JInt (mem * 4) else JNull) in
  let name := vm_name_of params guid in
  path ← hosted host_id default_vm_folder;
  base ← pure (folder_of path (py_or (p "destination_storage") (JStr "")) (str name));
  specs ← iter_or_empty (py_or (p "disks") (JList [JObj [("name", JStr "OS")]]));
  disks ← pure (res_map (λ x, new_disk guid base (str name) x.1 x.2) (enumerate specs));
  cpus ← int_of (py_or (p "cpu_count") (JInt 2));
  min_bytes ← pure (mib mem_min);
  max_bytes ← pure (mib mem_max);
  now ← now_text;
  append_vm host_id
    [("id", JStr guid); ("name", name); ("state", JStr (created_state params));
     ("firmware", py_or (p "firmware") (JStr "UEFI")); ("folderId", JNull);
     ("uptimeSec", if String.eqb (created_state params) "Running" then JInt 0 else JNull); ("vcpu", JInt cpus);
     ("memoryMb", JInt mem); ("memoryMinBytes", min_bytes); ("memoryMaxBytes", max_bytes);
     ("memoryDynamic", JBool dynamic); ("nestedVirtualization", JBool (truthy (p "nested_virtualization")));
     ("ha", JBool (truthy (p "ha_enabled"))); ("path", JStr base); ("dvd", p "dvd"); ("disks", JList disks);
     ("nics", JList [new_nic guid "00:15:5D:0A:0B:0C" (py_or (p "switch_name") (JStr "vSwitch-Prod")) (p "vlan_id")]);
     ("snapshots", JList []); ("notes", p "notes"); ("metricsEnabled", JBool false); ("createdAt", JStr now)];;
  save_state;;
  succeed host_id task_id fn "created" [("vm_id", JStr guid); ("vm_state", JStr (created_state params))].
Definition handle_clone (host_id : string) (task_id fn : json) (params : dict) : F unit :=
  let p := dget params in
  guid ← uuid4;
  mem ← int_of (py_or (p "memory_mb") (JInt 4096));
  let name := vm_name_of params guid in
  path ← hosted host_id default_vm_folder;
  base ← pure (folder_of path (py_or (p "destination_storage") (JStr "")) (str name));
  cpus ← int_of (py_or (p "cpu_count") (JInt 2));
  now ← now_text;
  append_vm host_id
    [("id", JStr guid); ("name", name); ("state", JStr (created_state params)); ("firmware", JStr "UEFI");
     ("folderId", JNull); ("uptimeSec", if String.eqb (created_state params) "Running" then JInt 0 else JNull);
     ("vcpu", JInt cpus); ("memoryMb", JInt mem); ("memoryDynamic", JBool false);
     ("nestedVirtualization", JBool (truthy (p "nested_virtualization"))); ("ha", JBool (truthy (p "ha_enabled")));
     ("path", JStr base); ("dvd", JNull);
     ("disks", JList [JObj
        [("id", JStr (guid +:+ "-OS"));
         ("path", JStr (base +:+ "\Virtual Hard Disks\" +:+ str name +:+ "-OS.vhdx"));
         ("controller", JStr "SCSI 0:0"); ("sizeBytes", JInt (60 * GiB)); ("usedBytes", JInt 0);
         ("type", JStr "Dynamic"); ("format", JStr "VHDX")]]);
     ("nics", JList [new_nic guid "00:15:5D:0A:0B:0D" (JStr "vSwitch-Prod") (p "vlan_id")]);
     ("snapshots", JList []); ("notes", p "notes"); ("metricsEnabled", JBool false); ("createdAt", JStr now)];;
  save_state;;
  succeed host_id task_id fn "cloned" [("vm_id", JStr guid); ("vm_state", JStr (created_state params))].
Definition handle_export (host_id : string) (task_id fn vm_id : json) (params : dict) : F unit :=
  let name := py_or (dget params "template_name") (JStr "TEMPLATE") in
  src ← hosted host_id (λ hs,
    vms ← item (JObj hs) "vms";
    l ← py_iter vms;
    pos ← find_pos (has "id" (inl vm_id)) l;
    mret (match pos with Some i => nth i l JNull | None => JNull end));
  id ← uuid4;
  let src := py_or src (JObj []) in
  cpus ← get src "vcpu";
  mem ← get src "memoryMb";
  now ← now_text;
  let tpl := JObj
    [("id", JStr id); ("name", name); ("path", JStr ("D:\HyperV\TEMPLATES\" +:+ str name)); ("sizeBytes", JInt (18 * GiB));
     ("diskSizeBytes", JInt (6 * GiB)); ("notes", or_none (dget params "notes")); ("cpuCount", py_or cpus (JInt 2));
     ("memoryMb", py_or mem (JInt 4096)); ("guestOs", JNull); ("createdAt", JStr now)] in
  in_host host_id (setdefault_list "templates";; on_key "templates" (as_list (change (λ l, l ++ [tpl])%list)));;
  save_state;;
  succeed host_id task_id fn "exported" [("vm_id", vm_id); ("template", tpl)].
Definition handle_edit (host_id : string) (task_id fn vm_id : json) (params : dict) : F unit :=
  vm_status ← apply_vm_edit repr host_id vm_id params;
  save_state;;
  succeed host_id task_id fn "ok" [("vm_id", vm_id); ("vm_status", vm_status)].
Definition handle_other (host_id : string) (task_id fn vm_id : json) : F unit :=
  let name := match fn with JStr s => s | _ => "" end in
  let final_state := assoc FINAL_STATE name in
  apply_action host_id vm_id name final_state;;
  save_state;;
  succeed host_id task_id fn "ok"
    [("vm_id", vm_id); ("vm_state", match final_state with Some s => JStr s | None => JNull end)].
Definition handle_body (host_id : string) (req : json) : F unit :=
  fn ← pure (item req "function");
  task_id ← pure (item req "id");
  params ← pure (match req with JObj d => inl (dget_or d "params" (JObj [])) | _ => inr AttributeError end);
  vm_id ← get params "vm_id";
  let params := dict_or_empty params in
  match fn with
  | JList _ | JObj _ => throw TypeError
  | _ =>
      let name := match fn with JStr s => s | _ => "" end in
      each (steps_of name) (progress host_id task_id fn);;
      if String.eqb name "vm_create" then handle_create host_id task_id fn params
      else if String.eqb name "vm_clone" then handle_clone host_id task_id fn params
      else if String.eqb name "vm_edit" then handle_edit host_id task_id fn vm_id params
      else if String.eqb name "vm_export_template" then handle_export host_id task_id fn vm_id params
      else handle_other host_id task_id fn vm_id
  end.
(** [async with message.process()]: a failed handler drops the message *)
Definition handle_request (host_id : string) (req : json) : F unit := λ a,
  match handle_body host_id req a with (_, a') => (inl tt, a') end.
End handler.

(** ** Periodic reports *)
Definition disk_metrics (x : nat * string) : F json :=
  r ← uniform; w ← uniform; q ← uniform;
  mret (JObj [("name", JStr (str_of_Z (Z.of_nat x.1) +:+ " " +:+ x.2)); ("readLatencyMs", JFloat r);
              ("writeLatencyMs", JFloat w); ("queueLength", JFloat q)]).
Fixpoint collect {A} (f : A → F json) (l : list A) : F (list json) :=
  match l with [] => mret [] | x :: l' => y ← f x; ys ← collect f l'; mret (y :: ys) end.
Definition vm_metrics (vm : json) : F (list json) :=
  on ← get vm "metricsEnabled";
  if negb (truthy on) then mret []
  else
    vid ← pure (item vm "id");
    cpu ← uniform;
    mem ← randint 1 8;
    dsk ← randint 10 120;
    rx ← randint 0 500000000;
    tx ← randint 0 500000000;
    mret [JObj [("id", vid); ("cpuPercent", JFloat cpu); ("memBytes", JInt (mem * GiB)); ("diskBytes", JInt (dsk * GiB));
                ("netRxBytes", JInt rx); ("netTxBytes", JInt tx)]].
Fixpoint all_vm_metrics (l : list json) : F (list json) :=
  match l with [] => mret [] | vm :: l' => m ← vm_metrics vm; ms ← all_vm_metrics l'; mret (m ++ ms)%list end.
(** [hs[k]] of the host's object *)
Definition part (host_id k : string) : F json := in_host host_id (hs ← look id; pure (item (JObj hs) k)).
Definition report_field (host_id : string) (kind : QueueKind) (field key : string) : F unit :=
  now ← now_text; v ← part host_id key; publish host_id kind [("reported_at", JStr now); (field, v)].
Definition report_metrics (host_id : string) : F unit :=
  let mem_total := 512 * GiB in
  mem_pct ← uniform;
  now ← now_text;
  cpu ← uniform;
  used ← pure (t ← float_of_Z mem_total; float_trunc (SFdiv prec emax (float_mul t mem_pct) (float_of_Z_raw 100)));
  lat ← uniform;
  rx ← randint 10000 5000000;
  tx ← randint 10000 5000000;
  disks ← collect disk_metrics (enumerate ["C:"; "D:"]);
  nrx ← randint 10000 4000000;
  ntx ← randint 10000 4000000;
  publish host_id HOST_METRICS
    [("reported_at", JStr now); ("cpuPercent", JFloat cpu); ("memPercent", JFloat mem_pct); ("memUsedBytes", JInt used);
     ("memTotalBytes", JInt mem_total); ("diskLatencyMs", JFloat lat); ("netRxBps", JInt rx); ("netTxBps", JInt tx);
     ("disks", JList disks);
     ("net", JList [JObj [("name", JStr "Team-Prod"); ("rxBps", JInt nrx); ("txBps", JInt ntx)]])].
(** one round of the reporting loop *)
Definition report (host_id name : string) : F unit :=
  now ← now_text;
  h ← look (λ a, ag_hash a host_id);
  publish host_id AGENT_STATUS
    [("version", JStr "0.4.1"); ("vm_refresh_interval", JInt 180); ("host_refresh_interval", JInt 600);
     ("reported_at", JStr now); ("hypervisor", JStr "hyperv"); ("agent_type", JStr "ovc-agent-hyperv");
     ("hostname", JStr name); ("fqdn", JStr (name +:+ ".lab.local"));
     ("ip", JStr ("10.20.0." +:+ str_of_Z (h mod 200 + 10)))];;
  report_field host_id HOST_INVENTORY "hardware" "hardware";;
  report_field host_id VM_INVENTORY "vms" "vms";;
  report_field host_id TEMPLATE_INVENTORY "items" "templates";;
  report_field host_id ISO_INVENTORY "items" "isos";;
  report_metrics host_id;;
  now ← now_text;
  vms ← part host_id "vms";
  l ← pure (py_iter vms);
  ms ← all_vm_metrics l;
  publish host_id VM_METRICS [("reported_at", JStr now); ("vms", JList ms)].

(** ** Start *)
Definition start (hosts : list (string * string)) : F unit :=
  load_state;;
  each hosts (λ h, _ ← host_state h.1 h.2; mret tt);;
  save_state.
Definition main (hosts : list (string * string)) : F unit :=
  match hosts with [] => mret tt | _ => start hosts end.
