(* ===== verification/AgentShape.v ===== *)
(** * The state of the stand-in agent stays well formed and survives restarts

    A frame calculus for code that mutates objects and may raise, the shape of
    the state, and what a second process reads back from the state file. *)
From S2P Require Import Prelude Py Clock Isoformat Model World Cache Normalize Messaging FakeAgent.
From Stdlib Require Import Floats.SpecFloat Ascii.
Open Scope string_scope.
Open Scope Z_scope.

Lemma se_run {S A B} (m : SE S A) (k : A → SE S B) s v s' : m s = (inl v, s') → (m ≫= k) s = k v s'.
Proof. intros H. unfold mbind, SE_bind. by rewrite H. Qed.

(** ** What a computation keeps, whether it returns or raises *)
Definition stable {S A} (P : S → Prop) (m : SE S A) : Prop := ∀ s, P s → P (m s).2.
Section stable.
Context {S : Type} (P : S → Prop).
Lemma stable_ret {A} (a : A) : stable P (mret a).
Proof. by intros s. Qed.
Lemma stable_throw {A} e : stable P (throw (A := A) e).
Proof. by intros s. Qed.
Lemma stable_pure {A} (r : res A) : stable P (pure r).
Proof. by intros s. Qed.
Lemma stable_look {A} (f : S → A) : stable P (look f).
Proof. by intros s. Qed.
Lemma stable_change f : (∀ s, P s → P (f s)) → stable P (change f).
Proof. intros H s Hs. by apply H. Qed.
Lemma stable_bind {A B} (m : SE S A) (k : A → SE S B) : stable P m → (∀ a, stable P (k a)) → stable P (m ≫= k).
Proof.
  intros Hm Hk s Hs. unfold mbind, SE_bind. specialize (Hm s Hs). destruct (m s) as [[a|e] s']; [by apply Hk|done].
Qed.
Lemma stable_only_if b (m : SE S unit) : stable P m → stable P (only_if b m).
Proof. by destruct b; [|intros _; apply stable_ret]. Qed.
Lemma stable_each {A} (l : list A) body : (∀ x, stable P (body x)) → stable P (each l body).
Proof. intros H. induction l as [|x l IH]; [apply stable_ret|]. apply stable_bind; [done|]. by intros _. Qed.
End stable.
(** resolve a [stable] goal structurally, leaving the writes *)
Ltac stab_step :=
  match goal with
  | |- stable _ (mret _) => apply stable_ret
  | |- stable _ (throw _) => apply stable_throw
  | |- stable _ (pure _) => apply stable_pure
  | |- stable _ (look _) => apply stable_look
  | |- stable _ (get _ _) => apply stable_pure
  | |- stable _ (int_of _) => apply stable_pure
  | |- stable _ (iter_or_empty _) => apply stable_pure
  | |- stable _ (mbind _ _) => apply stable_bind; [|intros ?]
  | |- stable _ (only_if _ _) => apply stable_only_if
  | |- stable _ (each _ _) => apply stable_each; intros ?
  | |- stable _ (match ?x with _ => _ end) => destruct x
  end.
Create HintDb stab discriminated.
Ltac stab := repeat (first [solve [eauto with stab nocore] | stab_step]).

(** the values of a list under a mutation of its elements, or of one of them *)
Section parts.
Context (P : json → Prop).
Lemma stable_items (body : SE json unit) : stable P body → stable (Forall P) (on_items body).
Proof.
  intros H l. induction l as [|x l IH]; intros Hl; [done|]. inversion_clear Hl as [|? ? Hx Hr]. cbn.
  specialize (H x Hx). specialize (IH Hr). destruct (body x) as [[?|?] x']; cbn in *; [|by constructor].
  destruct (on_items body l). by constructor.
Qed.
Lemma stable_nth {A} i (m : SE json A) : stable P m → stable (Forall P) (on_nth i m).
Proof.
  intros H l Hl. unfold on_nth. destruct (l !! i) as [x|] eqn:E; [|done]. rewrite Forall_lookup in Hl.
  specialize (H x (Hl _ _ E)). destruct (m x) as [? x']. cbn in *. rewrite Forall_lookup. intros j y.
  rewrite list_lookup_insert_Some. naive_solver.
Qed.
Lemma filter_res_sub p l ys : filter_res p l = inl ys → ∀ y, y ∈ ys → y ∈ l.
Proof.
  revert ys. induction l as [|x l IH]; cbn; intros ys H y Hy; [by injection H as <-|].
  apply res_bind_inl in H as (b & _ & H). apply res_bind_inl in H as (zs & Hz & [= <-]).
  destruct b; [|by apply list_elem_of_further, (IH _ Hz)]. apply elem_of_cons in Hy as [->|Hy]; [apply list_elem_of_here|].
  by apply list_elem_of_further, (IH _ Hz).
Qed.
Lemma stable_filter p : stable (Forall P) (l ← look id; l' ← pure (filter_res p l); change (λ _, l')).
Proof.
  intros l Hl. unfold mbind, SE_bind, look, pure, change. cbn. destruct (filter_res p l) as [ys|e] eqn:E; [|done].
  cbn. rewrite Forall_forall in *. intros y Hy. by eapply Hl, filter_res_sub.
Qed.
Lemma stable_append x : P x → stable (Forall P) (change (λ l, l ++ [x])%list).
Proof. intros Hx. apply stable_change. intros l Hl. apply Forall_app. by split; [|constructor]. Qed.
(** an object whose [k], when present, is a list of such values *)
Definition holds_list (k : string) (d : dict) : Prop :=
  ∀ v, dict_find d k = Some v → ∃ l, v = JList l ∧ Forall P l.
Lemma stable_list {A} k (m : SE (list json) A) : stable (Forall P) m → stable (holds_list k) (on_key k (as_list m)).
Proof.
  intros Hm d Hd. unfold on_key. destruct (dict_find d k) as [v|] eqn:E; [|done]. destruct (Hd v E) as (l & -> & Hl).
  cbn. specialize (Hm l Hl). destruct (m l) as [r l']. cbn in *. intros v. rewrite dict_find_dset, String.eqb_refl.
  intros [= <-]. eauto.
Qed.
End parts.

(** what an object has under a key is only changed by writing that key *)
Lemma stable_put (Q : option json → Prop) k k' v : k ≠ k' → stable (λ d, Q (dict_find d k)) (put k' v).
Proof.
  intros Hne. apply stable_change. intros d Hd. rewrite dict_find_dset. apply String.eqb_neq in Hne. by rewrite Hne.
Qed.
Lemma stable_on_other {A} (Q : option json → Prop) k k' (m : SE json A) :
  k ≠ k' → stable (λ d, Q (dict_find d k)) (on_key k' m).
Proof.
  intros Hne d Hd. unfold on_key. destruct (dict_find d k') as [v|]; [|done]. destruct (m v) as [r v']. cbn.
  rewrite dict_find_dset. apply String.eqb_neq in Hne. by rewrite Hne.
Qed.
Lemma stable_and {S A} (P Q : S → Prop) (m : SE S A) : stable P m → stable Q m → stable (λ s, P s ∧ Q s) m.
Proof. intros HP HQ s []. split; auto. Qed.
Definition obj (P : dict → Prop) (v : json) : Prop := ∃ d, v = JObj d ∧ P d.
Lemma stable_obj {A} (P : dict → Prop) (m : SE dict A) : stable P m → stable (obj P) (as_obj m).
Proof. intros H v (d & -> & Hd). cbn. specialize (H d Hd). destruct (m d) as [r d']. by exists d'. Qed.

(** ** The shape of the state *)
Definition any_object : json → Prop := obj (λ _, True).
Record good_vm (d : dict) : Prop := {
  gv_id : ∃ s, dict_find d "id" = Some (JStr s);
  gv_nics : holds_list any_object "nics" d
}.
Record good_host (hs : dict) : Prop := {
  gh_vms : ∃ l, dict_find hs "vms" = Some (JList l) ∧ Forall (obj good_vm) l
}.
(** every host well formed, the ones named present *)
Definition good (N : list string) (a : agent) : Prop :=
  ∃ hosts, dict_find (ag_state a) "hosts" = Some (JObj hosts) ∧
    (∀ id v, dict_find hosts id = Some v → obj good_host v) ∧ ∀ id, id ∈ N → is_Some (dict_find hosts id).

Lemma good_vm_stable {A} (m : SE dict A) :
  (∀ Q : option json → Prop, stable (λ d, Q (dict_find d "id")) m) → stable (holds_list any_object "nics") m →
  stable good_vm m.
Proof.
  intros Hid Hn d []. split; [|by apply Hn].
  by apply (Hid (λ o, ∃ s, o = Some (JStr s))).
Qed.
Lemma put_vm k v : k ∉ ["id"; "nics"] → stable good_vm (put k v).
Proof.
  rewrite !not_elem_of_cons. intros (N1 & N2 & _). apply good_vm_stable; [intros Q; by apply stable_put|].
  by apply (stable_put (λ o, ∀ v, o = Some v → ∃ l, v = JList l ∧ Forall any_object l)).
Qed.
Lemma on_key_vm {A} k (m : SE json A) : k ∉ ["id"; "nics"] → stable good_vm (on_key k m).
Proof.
  rewrite !not_elem_of_cons. intros (N1 & N2 & _). apply good_vm_stable; [intros Q; by apply stable_on_other|].
  by apply (stable_on_other (λ o, ∀ v, o = Some v → ∃ l, v = JList l ∧ Forall any_object l)).
Qed.
Lemma on_nics_vm {A} (m : SE (list json) A) : stable (Forall any_object) m → stable good_vm (on_key "nics" (as_list m)).
Proof.
  intros Hm. apply good_vm_stable; [intros Q; by apply stable_on_other|]. by apply stable_list.
Qed.
Lemma obj_any {A} (m : SE dict A) : stable any_object (as_obj m).
Proof. by apply stable_obj. Qed.
#[export] Hint Extern 1 (stable good_vm (put _ _)) => apply put_vm; set_solver : stab.
#[export] Hint Resolve obj_any : stab.
Lemma run_vm_good s : stable good_vm (run_vm s).
Proof. unfold run_vm. stab. apply on_nics_vm, stable_items. stab. Qed.
Lemma setdefault_good k : k ≠ "id" → stable good_vm (setdefault_list k).
Proof.
  intros Hk. unfold setdefault_list. destruct (decide (k = "nics")) as [->|Hn]; [|stab; apply put_vm; set_solver].
  apply good_vm_stable; [intros Q; stab; by apply stable_put|]. intros d Hd. cbn.
  unfold mbind, SE_bind, look, dmem. cbn. destruct (dict_find d "nics") as [v|] eqn:E; cbn; [done|].
  intros v. rewrite dict_find_dset. cbn. intros [= <-]. by exists [].
Qed.
Lemma edit_settings_good params : stable good_vm (edit_settings params).
Proof. unfold edit_settings. stab. Qed.
Lemma remove_by_objects k k' spec : stable (Forall any_object) (remove_by k k' spec).
Proof. apply stable_filter. Qed.
Lemma edit_by_objects k k' edit spec : stable (Forall any_object) (edit_by k k' edit spec).
Proof. unfold edit_by. stab. apply stable_nth. stab. Qed.
Lemma add_nic_objects repr vm_id sw i spec : stable (Forall any_object) (add_nic repr vm_id sw i spec).
Proof. unfold add_nic, vlan_or_none. stab. all: apply stable_append; eexists; split; [done|done]. Qed.
#[export] Hint Resolve run_vm_good edit_settings_good remove_by_objects edit_by_objects add_nic_objects : stab.
Lemma edit_vm_good repr vm_id params sw : stable good_vm (edit_vm repr vm_id params sw).
Proof.
  unfold edit_vm. stab; try (by apply setdefault_good).
  - apply on_nics_vm. unfold edit_nics. stab.
  - apply on_key_vm. set_solver.
Qed.
#[export] Hint Resolve edit_vm_good : stab.

Lemma good_host_vms {A} (m : SE (list json) A) :
  stable (Forall (obj good_vm)) m → stable good_host (on_key "vms" (as_list m)).
Proof.
  intros Hm hs [(l & E & Hl)]. unfold on_key. rewrite E. cbn. specialize (Hm l Hl). destruct (m l) as [r l'].
  split. cbn. rewrite dict_find_dset. by exists l'.
Qed.
Lemma good_host_other {A} k (m : SE json A) : k ≠ "vms" → stable good_host (on_key k m).
Proof.
  intros Hk hs [H]. split. by apply (stable_on_other (λ o, ∃ l, o = Some (JList l) ∧ Forall (obj good_vm) l)).
Qed.
Lemma good_host_put k v : k ≠ "vms" → stable good_host (put k v).
Proof.
  intros Hk hs [H]. split. by apply (stable_put (λ o, ∃ l, o = Some (JList l) ∧ Forall (obj good_vm) l)).
Qed.
Lemma each_vm_good vm_id body : stable good_vm body → stable good_host (each_vm vm_id body).
Proof. intros H. apply good_host_vms, stable_items, stable_obj. stab. Qed.
Lemma edit_host_good repr vm_id params : stable good_host (edit_host_vm repr vm_id params).
Proof. unfold edit_host_vm. stab. apply good_host_vms, stable_nth, stable_obj. stab. Qed.

(** agents *)
Section agents.
Context (N : list string).
Lemma good_hosts a : good N a → ∀ id hs, dget (dict_or_empty (dget (ag_state a) "hosts")) id = JObj hs → good_host hs.
Proof.
  intros (hosts & E & H & _) id hs. unfold dget at 2. rewrite E. cbn. unfold dget. destruct (dict_find hosts id) as [v|] eqn:Ev; [|done].
  cbn. intros ->. by destruct (H _ _ Ev) as (? & [= ->] & ?).
Qed.
Lemma good_set_host a id hs : good N a → good_host hs → good (id :: N) (a <| ag_state ::= set_host id (JObj hs) |>).
Proof.
  intros (hosts & E & H & HN) Hh. exists (dset hosts id (JObj hs)). cbn. unfold set_host, dget. rewrite dict_find_dset, E. cbn.
  split_and!; [done| |].
  - intros i v. rewrite dict_find_dset. destruct (String.eqb i id); [|by apply H]. intros [= <-]. by exists hs.
  - intros i [->|Hi]%elem_of_cons; rewrite dict_find_dset; [by rewrite String.eqb_refl|].
    destruct (String.eqb i id); [done|by apply HN].
Qed.
Lemma good_weaken id a : good (id :: N) a → good N a.
Proof. intros (hosts & E & H & HN). exists hosts. split_and!; [done|done|]. intros i Hi. by apply HN, list_elem_of_further. Qed.
Lemma in_host_good {A} id (m : SE dict A) : stable good_host m → stable (good N) (in_host id m).
Proof.
  intros Hm a Ha. unfold in_host. destruct (dget _ id) eqn:E; try done.
  specialize (Hm _ (good_hosts a Ha id _ E)). destruct (m _) as [r hs']. by eapply good_weaken, good_set_host.
Qed.
(** what does not touch the state keeps it good *)
Lemma frame_good {A} (m : F A) : (∀ a, ag_state (m a).2 = ag_state a) → stable (good N) m.
Proof. intros H a Ha. unfold good. by rewrite H. Qed.
Lemma publish_good h k p : stable (good N) (publish h k p).
Proof. by apply frame_good. Qed.
Lemma uniform_good : stable (good N) uniform.
Proof. by apply frame_good. Qed.
Lemma uuid4_good : stable (good N) uuid4.
Proof. by apply frame_good. Qed.
Lemma draw_good : stable (good N) draw.
Proof. by apply frame_good. Qed.
Lemma save_good : stable (good N) save_state.
Proof. by apply frame_good. Qed.
#[local] Hint Resolve publish_good uniform_good uuid4_good draw_good save_good edit_host_good each_vm_good : stab.
Lemma choice_good l : stable (good N) (choice l).
Proof. unfold choice. stab. Qed.
Lemma randint_good lo hi : stable (good N) (randint lo hi).
Proof. unfold randint. stab. Qed.
Lemma flip_good n : stable (good N) (flip n).
Proof. unfold flip. stab. Qed.
#[local] Hint Resolve choice_good randint_good flip_good : stab.
Lemma find_host_good h : stable (good N) (find_host h).
Proof. unfold find_host. stab. Qed.
Lemma hosted_good {A} h (r : dict → res A) : stable (good N) (hosted h r).
Proof. unfold hosted. apply in_host_good. stab. Qed.
Lemma now_good : stable (good N) now_text.
Proof. unfold now_text. stab. Qed.
#[local] Hint Resolve find_host_good hosted_good now_good : stab.
Lemma progress_good h t fn s : stable (good N) (progress h t fn s).
Proof. unfold progress. stab. Qed.
Lemma succeed_good h t fn r l : stable (good N) (succeed h t fn r l).
Proof. unfold succeed. stab. Qed.
#[local] Hint Resolve progress_good succeed_good : stab.
(** a machine created with an identifier that is text *)
Lemma append_good h vm : good_vm vm → stable (good N) (append_vm h vm).
Proof. intros Hv. apply in_host_good, good_host_vms, stable_append. by exists vm. Qed.
Lemma handle_create_good repr h t fn params : stable (good N) (handle_create repr h t fn params).
Proof.
  unfold handle_create. stab. apply append_good. split; [by eexists|]. intros v. cbn. intros [= <-].
  eexists. split; [done|]. repeat constructor. by eexists.
Qed.
Lemma handle_clone_good repr h t fn params : stable (good N) (handle_clone repr h t fn params).
Proof.
  unfold handle_clone. stab. apply append_good. split; [by eexists|]. intros v. cbn. intros [= <-].
  eexists. split; [done|]. repeat constructor. by eexists.
Qed.
Lemma handle_export_good repr h t fn vm_id params : stable (good N) (handle_export repr h t fn vm_id params).
Proof.
  unfold handle_export. stab. apply in_host_good. unfold setdefault_list. stab; [by apply good_host_put|by apply good_host_other].
Qed.
Lemma handle_edit_good repr h t fn vm_id params : stable (good N) (handle_edit repr h t fn vm_id params).
Proof. unfold handle_edit, apply_vm_edit. stab. apply in_host_good. stab. Qed.
Lemma handle_other_good h t fn vm_id : stable (good N) (handle_other h t fn vm_id).
Proof.
  unfold handle_other, apply_action. stab; apply in_host_good; stab. all: try (apply each_vm_good; stab).
  all: apply good_host_vms, stable_filter.
Qed.
#[local] Hint Resolve handle_create_good handle_clone_good handle_export_good handle_edit_good handle_other_good : stab.
Lemma handle_request_good repr h req : stable (good N) (handle_request repr h req).
Proof.
  assert (stable (good N) (handle_body repr h req)) as Hb by (unfold handle_body; stab).
  intros a Ha. unfold handle_request. specialize (Hb a Ha). by destruct (handle_body repr h req a).
Qed.

(** ** What a computation returns *)
Definition returns {S A} (Q : A → Prop) (m : SE S A) : Prop := ∀ s, match (m s).1 with inl a => Q a | inr _ => True end.
Lemma answers_ret {S A} (Q : A → Prop) (a : A) : Q a → returns Q (mret a : SE S A).
Proof. by intros H s. Qed.
Lemma answers_bind {S A B} (Q' : A → Prop) (Q : B → Prop) (m : SE S A) (k : A → SE S B) :
  returns Q' m → (∀ a, Q' a → returns Q (k a)) → returns Q (m ≫= k).
Proof.
  intros Hm Hk s. unfold mbind, SE_bind. specialize (Hm s). destruct (m s) as [[a|e] s']; [by apply Hk|done].
Qed.
Lemma answers_any {S A} (m : SE S A) : returns (λ _, True) m.
Proof. intros s. by destruct (m s).1. Qed.
Lemma gen_vm_good h name base i : returns (obj good_vm) (gen_vm h name base i) ∧ stable (good N) (gen_vm h name base i).
Proof.
  split; [|unfold gen_vm, if_running; cbv zeta; stab].
  unfold gen_vm. cbv zeta. repeat (eapply answers_bind; [apply answers_any|intros ? _]). apply answers_ret.
  eexists. split; [done|]. split; [by eexists|]. intros v. cbn. intros [= <-].
  eexists. split; [done|]. repeat constructor. by eexists.
Qed.
Lemma gen_range_good h name base first n :
  returns (Forall (obj good_vm)) (gen_range h name base first n) ∧ stable (good N) (gen_range h name base first n).
Proof.
  revert first. induction n as [|n IH]; intros first; cbn [gen_range]; [split; [by apply answers_ret|apply stable_ret]|].
  destruct (gen_vm_good h name base first) as [G1 G2], (IH (first + 1)) as [I1 I2]. split; [|stab].
  eapply answers_bind; [exact G1|]. intros vm Hvm. eapply answers_bind; [exact I1|]. intros vms Hvms.
  apply answers_ret. by constructor.
Qed.
Lemma gen_host_good h name : returns (obj good_host) (gen_host h name) ∧ stable (good N) (gen_host h name).
Proof.
  unfold gen_host, gen_vms. split.
  - eapply answers_bind; [eapply answers_bind; [apply answers_any|intros z _; apply gen_range_good]|].
    intros vms Hvms. eapply answers_bind; [apply answers_any|intros now _]. apply answers_ret.
    eexists. split; [done|]. split. exists vms. by split.
  - stab. apply gen_range_good.
Qed.
Lemma host_state_good h name : stable (good N) (host_state h name).
Proof.
  unfold host_state. apply stable_bind; [stab|]. intros hs. destruct (is_null hs); [|stab].
  intros a Ha. destruct (gen_host_good h name) as [G1 G2]. specialize (G1 a). specialize (G2 a Ha).
  unfold mbind, SE_bind. destruct (gen_host h name a) as [[v|e] a']; [|done]. destruct G1 as (d & -> & Hd).
  by eapply good_weaken, good_set_host.
Qed.
#[local] Hint Resolve host_state_good : stab.
Lemma report_good h name : stable (good N) (report h name).
Proof.
  assert (∀ k, stable (good N) (part h k)) as Hpart by (intros k; apply in_host_good; stab).
  assert (∀ k f key, stable (good N) (report_field h k f key)) as Hfield by (intros *; unfold report_field; stab).
  assert (∀ l, stable (good N) (collect disk_metrics l)) as Hdisk.
  { intros l. induction l as [|x l IH]; cbn; [stab|]. unfold disk_metrics at 1. stab. }
  assert (∀ l, stable (good N) (all_vm_metrics l)) as Hvm.
  { intros l. induction l as [|x l IH]; cbn; [stab|]. unfold vm_metrics. stab. }
  unfold report, report_metrics. cbv zeta. stab.
Qed.
End agents.
(** the file a process may find: none, an unreadable one, or a good state *)
Definition good_file (N : list string) (a : agent) : Prop :=
  match ag_file a with
  | Some (Some v) => ∃ d, v = JObj d ∧ good N (a <| ag_state := d |>)
  | _ => N = []
  end.
Lemma load_good N a : good_file N a → ∃ a', load_state a = (inl tt, a') ∧ good N a'.
Proof.
  unfold good_file, load_state, mbind, SE_bind, look. destruct (ag_file a) as [[v|]|].
  2,3: intros ->; eexists; (split; [done|]); exists []; split_and!; [done|done|set_solver].
  intros (d & -> & hosts & E & H). cbn in *. unfold dmem. rewrite E. eexists. split; [done|]. by exists hosts.
Qed.

(** ** Restarts *)
Lemma find_host_run N id a :
  good N a → ∃ v, find_host id a = (inl v, a) ∧ (is_null v = true ∨ obj good_host v) ∧ (id ∈ N → is_null v = false).
Proof.
  intros (hosts & E & H & HN). unfold find_host, mbind, SE_bind, look, pure, item. cbn. rewrite E. cbn.
  eexists. split; [done|]. unfold dget. destruct (dict_find hosts id) as [v|] eqn:Ev; cbn.
  - destruct (H _ _ Ev) as (hs & -> & Hh). split; [right; by exists hs|done].
  - split; [by left|]. intros Hi. apply HN in Hi. rewrite Ev in Hi. by destruct Hi.
Qed.
(** a host on record is not generated again *)
Lemma host_state_known N id name a : good N a → id ∈ N → ∃ v, host_state id name a = (inl v, a).
Proof.
  intros Ha Hi. destruct (find_host_run N id a Ha) as (v & E & _ & Hn). specialize (Hn Hi). exists v.
  unfold host_state, mbind, SE_bind. rewrite E, Hn. done.
Qed.
(** computations that never raise *)
Definition total {S A} (m : SE S A) : Prop := ∀ s, ∃ v s', m s = (inl v, s').
Lemma total_bind {S A B} (m : SE S A) (k : A → SE S B) : total m → (∀ a, total (k a)) → total (m ≫= k).
Proof. intros Hm Hk s. unfold mbind, SE_bind. destruct (Hm s) as (v & s' & ->). apply Hk. Qed.
Lemma total_ret {S A} (v : A) : total (mret v : SE S A).
Proof. by intros s; eexists _, _. Qed.
Lemma total_look {S A} (f : S → A) : total (look f).
Proof. by intros s; eexists _, _. Qed.
Lemma total_draw : total draw.
Proof. by intros s; eexists _, _. Qed.
Ltac tot := repeat match goal with
  | |- total (mret _) => apply total_ret
  | |- total (look _) => apply total_look
  | |- total now_text => apply total_look
  | |- total draw => apply total_draw
  | |- total (choice _) => unfold choice
  | |- total (randint _ _) => unfold randint
  | |- total (flip _) => unfold flip
  | |- total (if_running _ _ _) => unfold if_running
  | |- total (if ?b then _ else _) => destruct b
  | |- total (mbind _ _) => apply total_bind; [|intros ?]
  end.
Lemma gen_range_total h name base n i : total (gen_range h name base i n).
Proof. revert i. induction n as [|n IH]; intros i; cbn [gen_range]; unfold gen_vm; cbv zeta; tot. apply IH. Qed.
Lemma gen_host_total h name : total (gen_host h name).
Proof. unfold gen_host, gen_vms. tot. apply gen_range_total. Qed.
(** a host seen for the first time is recorded *)
Lemma host_state_adds N id name a :
  good N a → ∃ v a', host_state id name a = (inl v, a') ∧ good (id :: N) a'.
Proof.
  intros Ha. destruct (find_host_run N id a Ha) as (v & E & Hv & _). unfold host_state, mbind, SE_bind at 1. rewrite E.
  destruct (is_null v) eqn:En.
  - destruct (gen_host_total id name a) as (g & a1 & Eg). unfold mbind, SE_bind. rewrite Eg. eexists _, _. split; [done|].
    destruct (gen_host_good N id name) as [G1 G2]. specialize (G1 a). specialize (G2 a Ha). rewrite Eg in G1, G2. cbn in G1, G2.
    destruct G1 as (hs & -> & Hh). by apply good_set_host.
  - eexists _, _. split; [done|]. destruct Ha as (hosts & Eh & H & HN). exists hosts. split_and!; [done|done|].
    intros i [->|Hi]%elem_of_cons; [|by apply HN]. revert E. unfold find_host, mbind, SE_bind, look, pure, item. cbn.
    rewrite Eh. cbn. intros [= <-]. unfold dget in En. by destruct (dict_find hosts id).
Qed.
Lemma start_hosts hosts N a :
  good N a → ∃ a', each hosts (λ h, _ ← host_state h.1 h.2; mret tt) a = (inl tt, a') ∧ good (hosts.*1 ++ N) a'.
Proof.
  revert N a. induction hosts as [|[h name] hosts IH]; intros N a Ha; [by exists a|]. cbn [each fst snd].
  destruct (host_state_adds N h name a Ha) as (v & a1 & E1 & H1). destruct (IH _ _ H1) as (a2 & E2 & hs & Eh & H & HN).
  exists a2. unfold mbind, SE_bind. rewrite E1. split; [exact E2|]. exists hs. split_and!; [done|done|].
  intros i Hi. apply HN. set_solver.
Qed.
Lemma start_known hosts N a :
  good N a → hosts.*1 ⊆ N → each hosts (λ h, _ ← host_state h.1 h.2; mret tt) a = (inl tt, a).
Proof.
  intros Ha. induction hosts as [|[h name] hosts IH]; intros Hs; [done|]. cbn [each fst snd].
  destruct (host_state_known N h name a Ha) as (v & E); [set_solver|]. unfold mbind, SE_bind. rewrite E.
  apply IH. set_solver.
Qed.
(** the file holds the state *)
Definition saved (a : agent) : Prop := ag_file a = Some (Some (JObj (ag_state a))).
Lemma start_good hosts a :
  good_file [] a → ∃ a', start hosts a = (inl tt, a') ∧ good (hosts.*1) a' ∧ saved a'.
Proof.
  intros Hf. destruct (load_good [] a Hf) as (a1 & E1 & H1). destruct (start_hosts hosts [] a1 H1) as (a2 & E2 & H2).
  rewrite app_nil_r in H2. eexists. unfold start. rewrite (se_run _ _ _ _ _ E1), (se_run _ _ _ _ _ E2).
  split; [done|]. split; [exact H2|done].
Qed.

(** an answered request ends with the state saved *)
Definition ends_saved {A} (m : F A) : Prop := ∀ a, match m a with (inl _, a') => saved a' | (inr _, _) => True end.
Lemma ends_saved_bind {A B} (m : F A) (k : A → F B) : (∀ x, ends_saved (k x)) → ends_saved (m ≫= k).
Proof. intros Hk a. unfold mbind, SE_bind. destruct (m a) as [[x|e] a']; [apply Hk|done]. Qed.
Lemma save_succeed h t fn r l : ends_saved (save_state;; succeed h t fn r l).
Proof. by intros a. Qed.
Lemma answered_saved repr h req : ends_saved (handle_body repr h req).
Proof.
  assert (∀ A, ends_saved (throw (A := A) TypeError)) as Ht by done.
  unfold handle_body, handle_create, handle_clone, handle_edit, handle_export, handle_other. cbv zeta.
  repeat match goal with
  | |- ends_saved (save_state;; succeed _ _ _ _ _) => apply save_succeed
  | |- ends_saved (throw _) => done
  | |- ends_saved (mbind _ _) => apply ends_saved_bind; intros ?
  | |- ends_saved (match ?x with _ => _ end) => destruct x
  end.
Qed.

(** ** Histories of one process *)
Inductive agent_event := Request (host_id : string) (req : json) | Report (host_id name : string).
Definition run_event (repr : json → string) (e : agent_event) (a : agent) : agent :=
  match e with Request h req => (handle_request repr h req a).2 | Report h name => (report h name a).2 end.
Lemma run_events_good repr N evs a : good N a → good N (foldl (λ a e, run_event repr e a) a evs).
Proof.
  revert a. induction evs as [|e evs IH]; intros a Ha; [done|]. apply IH.
  destruct e; [by apply handle_request_good|by apply report_good].
Qed.

(** C37: restarting the stand-in keeps its inventory.  Start on no file, on an
    unreadable one or on a well-formed state; serve any history of requests and
    reports, malformed requests included, up to a request that is answered.  A
    second process that finds the file so written, with other random numbers,
    starts without generating anything: its state is exactly the first one's,
    and the file is as it was. *)
Theorem restart_keeps_inventory repr hosts a evs h req a' b :
  good_file [] a →
  handle_body repr h req (foldl (λ a e, run_event repr e a) (start hosts a).2 evs) = (inl tt, a') →
  ag_file b = ag_file a' →
  start hosts b = (inl tt, b <| ag_state := ag_state a' |>).
Proof.
  intros Hf Hb Hfile. destruct (start_good hosts a Hf) as (a1 & E1 & G1 & _). rewrite E1 in Hb. cbn [snd] in Hb.
  pose proof (run_events_good repr _ evs a1 G1) as G2. set (a2 := foldl _ a1 evs) in *.
  pose proof (handle_request_good (hosts.*1) repr h req a2 G2) as G3. unfold handle_request in G3. rewrite Hb in G3. cbn in G3.
  pose proof (answered_saved repr h req a2) as Hs. rewrite Hb in Hs.
  assert (load_state b = (inl tt, b <| ag_state := ag_state a' |>)) as El.
  { unfold load_state, mbind, SE_bind, look. rewrite Hfile, Hs. destruct G3 as (hs & Eh & _). unfold dmem. by rewrite Eh. }
  unfold start. rewrite (se_run _ _ _ _ _ El).
  assert (good (hosts.*1) (b <| ag_state := ag_state a' |>)) as Gb by exact G3.
  rewrite (se_run _ _ _ _ _ (start_known hosts _ _ Gb ltac:(done))).
  unfold save_state, change. cbn. f_equal. unfold saved in Hs. rewrite <- Hs, <- Hfile. by destruct b.
Qed.

(** one host, a creation, a malformed request, a stop *)
Definition sample_agent (k : nat) : agent :=
  mkAgent [] None (λ n, "uuid-" +:+ tally n) (λ n, (n * k)%nat) (λ _, S754_zero false) (λ _, 0) (λ _, "<repr>")
    1790467200000000 0 [].
Definition sample_request (fn : string) (params : dict) : json :=
  JObj [("id", JStr "t1"); ("function", JStr fn); ("params", JObj params)].
Definition is_inl {A B} (x : A + B) : bool := match x with inl _ => true | inr _ => false end.
Definition sample_hosts : list (string * string) := [("h1", "lab-HV01")].
Definition sample_history : list agent_event :=
  [Report "h1" "lab-HV01"; Request "h1" (sample_request "vm_create" [("name", JStr "new"); ("start_now", JBool true)]);
   Request "h1" (sample_request "vm_create" [("cpu_count", JStr "two")])].
Lemma restart_keeps_inventory_witness :
  let a := foldl (λ a e, run_event (λ _, "<repr>") e a) (start sample_hosts (sample_agent 7)).2 sample_history in
  let a' := (handle_request (λ _, "<repr>") "h1" (sample_request "vm_stop" [("vm_id", JStr "h1-0001-vm00-0000-000000000000")]) a).2 in
  let b := sample_agent 5 <| ag_file := ag_file a' |> in
  ag_seq a' ≠ O ∧ start sample_hosts b = (inl tt, b <| ag_state := ag_state a' |>).
Proof.
  intros a. set (req := sample_request "vm_stop" _).
  assert (is_inl (handle_body (λ _, "<repr>") "h1" req a).1 = true) as Hok by (vm_compute; reflexivity).
  unfold handle_request. destruct (handle_body _ _ _ _) as [[[]|e] a'] eqn:E; [|done]. cbn [snd]. split.
  - change (ag_seq a') with (ag_seq (inl (B := pyexn) tt, a').2). rewrite <- E. vm_compute. discriminate.
  - exact (restart_keeps_inventory (λ _, "<repr>") sample_hosts (sample_agent 7) sample_history "h1" req a'
      (sample_agent 5 <| ag_file := ag_file a' |>) eq_refl E eq_refl).
Defined.

(** an adapter is numbered by the length of the list, so one added after a
    removal can take the identifier of one that is left *)
Lemma added_nic_collides :
  let nic k := JObj [("id", JStr ("vm-nic" +:+ str_of_Z k))] in
  ∃ l, edit_nics (λ _, "") (JStr "vm") [("remove_nic", JList [JObj [("nic_id", JStr "vm-nic1")]]); ("add_nic", JList [JObj []])]
         (JStr "sw") [nic 1; nic 2] = (inl tt, l) ∧
    map (λ n, dget (dict_or_empty n) "id") l = [JStr "vm-nic2"; JStr "vm-nic2"].
Proof. eexists. split; vm_compute; reflexivity. Qed.
