(* ===== verification/AgentLoop.v ===== *)
(** * A power action, from the request to the agent and back

    The backend queues an action, the stand-in agent serves the published
    request, and the worker consumes the answers: what both sides hold then. *)
From S2P Require Import Prelude Py Clock Isoformat Model World Store Cache AuditLog Normalize Messaging Inventory.
From S2P Require Import Response HostActions Vms Lifecycle Consumers FakeAgent AgentShape.
Open Scope string_scope.
Open Scope Z_scope.

(** ** The agent's side *)
Definition host_vms (a : agent) (h : string) : list json :=
  match dget (dict_or_empty (dget (dict_or_empty (dget (ag_state a) "hosts")) h)) "vms" with JList l => l | _ => [] end.
(** the power state of each machine, by identifier *)
Definition power_states (a : agent) (h : string) : list (json * json) :=
  map (λ v, (dget (dict_or_empty v) "id", dget (dict_or_empty v) "state")) (host_vms a h).
(** [AgentRequest.model_dump_json()], as the agent's [json.loads] reads it *)
Definition wire (rq : AgentRequest) : json := JObj
  [("id", JStr (rq_id rq)); ("function", JStr (rq_function rq)); ("params", JObj (rq_params rq));
   ("requested_by", JStr (rq_requested_by rq)); ("issued_at", JStr (isoformat (rq_issued_at rq)))].
Definition working (id fn : string) : dict :=
  [("id", JStr id); ("function", JStr fn); ("status", JStr "running"); ("progress", JInt 30);
   ("progress_message", JStr "Working…")].
Definition done_payload (id fn guid s now : string) : dict :=
  [("id", JStr id); ("function", JStr fn); ("status", JStr "succeeded"); ("progress", JInt 100); ("result", JStr "ok");
   ("vm_id", JStr guid); ("vm_state", JStr s); ("finished_at", JStr now)].

Lemma on_items_total body (P : json → Prop) l :
  Forall P l → (∀ x, P x → (body x).1 = inl tt) → on_items body l = (inl tt, map (λ x, (body x).2) l).
Proof.
  intros Hl Hb. induction Hl as [|x l Hx Hl IH]; [done|]. cbn. specialize (Hb x Hx). destruct (body x) as [r x']. cbn in *.
  subst. by rewrite IH.
Qed.
Lemma run_vm_total s d : good_vm d → (run_vm s d).1 = inl tt.
Proof.
  intros [_ Hn]. unfold run_vm. rewrite (se_run (put _ _) _ _ tt (dset d "state" (JStr s))) by done.
  destruct (String.eqb s "Running"); [done|]. rewrite (se_run (put _ _) _ _ tt (dset (dset d "state" (JStr s)) "uptimeSec" JNull)) by done.
  unfold mbind, SE_bind, look, dmem. rewrite !dict_find_dset. cbn. destruct (dict_find d "nics") as [v|] eqn:E; [|done].
  destruct (Hn v E) as (l & -> & Hl). cbn. unfold on_key. rewrite !dict_find_dset. cbn. rewrite E. cbn.
  rewrite (on_items_total _ any_object l Hl); [done|]. by intros x (o & -> & _).
Qed.
Lemma run_vm_state s d : dict_find (run_vm s d).2 "state" = Some (JStr s).
Proof.
  unfold run_vm. rewrite (se_run (put _ _) _ _ tt (dset d "state" (JStr s))) by done.
  set (m := if String.eqb s "Running" then _ else _).
  assert (stable (λ d', dict_find d' "state" = Some (JStr s)) m) as Hm.
  { unfold m. destruct (String.eqb s "Running"); stab.
    1,2: by apply (stable_put (λ o, o = Some (JStr s))). by apply (stable_on_other (λ o, o = Some (JStr s))). }
  apply Hm. rewrite dict_find_dset. done.
Qed.
Lemma run_vm_id s d : dict_find (run_vm s d).2 "id" = dict_find d "id".
Proof.
  assert (stable (λ d', dict_find d' "id" = dict_find d "id") (run_vm s)) as Hm; [|by apply Hm].
  unfold run_vm. stab.
  1-3: by apply (stable_put (λ o, o = dict_find d "id")). by apply (stable_on_other (λ o, o = dict_find d "id")).
Qed.
(** switching one machine of a well-formed host *)
Lemma each_vm_run guid s hs l :
  dict_find hs "vms" = Some (JList l) → Forall (obj good_vm) l →
  ∃ l', each_vm (JStr guid) (run_vm s) hs = (inl tt, dset hs "vms" (JList l')) ∧
    map (λ v, (dget (dict_or_empty v) "id", dget (dict_or_empty v) "state")) l' =
    map (λ p, if py_eq p.1 (JStr guid) then (p.1, JStr s) else p)
      (map (λ v, (dget (dict_or_empty v) "id", dget (dict_or_empty v) "state")) l).
Proof.
  intros E Hl. unfold each_vm, on_key. rewrite E. unfold as_list at 1.
  set (body := as_obj _).
  assert (∀ d, good_vm d → body (JObj d) = (inl tt, JObj (if py_eq (dget d "id") (JStr guid) then (run_vm s d).2 else d))) as Hb.
  { intros d Hd. pose proof (run_vm_total s d Hd) as Ht. destruct Hd as [[sid Hid] _]. unfold body. cbn.
    unfold mbind, SE_bind, look, pure, has, item, dget. rewrite Hid. cbn.
    destruct (String.eqb sid guid); [|done]. cbn. revert Ht. destruct (run_vm s d) as [r d']. cbn. by intros ->. }
  rewrite (on_items_total body (obj good_vm) l Hl) by (intros x (d & -> & Hd); by rewrite Hb).
  eexists. split; [done|]. rewrite !map_map. apply map_ext_in. intros v Hv%list_elem_of_In.
  rewrite Forall_forall in Hl. destruct (Hl v Hv) as (d & -> & Hd). rewrite Hb by done. cbn [fst snd dict_or_empty].
  destruct (py_eq (dget d "id") (JStr guid)); [|done]. unfold dget. by rewrite run_vm_id, run_vm_state.
Qed.

Definition powers (fn : string) : Prop := is_Some (assoc FINAL_STATE fn) ∧ fn ≠ "vm_delete".
Lemma powers_cases fn s :
  assoc FINAL_STATE fn = Some s → fn ≠ "vm_delete" →
  steps_of fn = [(30, "Working…")] ∧ fn ∉ ["vm_create"; "vm_clone"; "vm_edit"; "vm_export_template"] ∧
  fn ∉ ["vm_enable_metrics"; "vm_disable_metrics"] ∧ str_nonempty fn = true.
Proof.
  intros H Hd.
  assert (fn ∈ ["vm_start"; "vm_restart"; "vm_stop"; "vm_shutdown"; "vm_pause"]) as Hin.
  { revert H. cbn. repeat match goal with |- context [String.eqb fn ?t] =>
      destruct (String.eqb_spec fn t) as [->|]; [intros _; first [done|set_solver]|] end. done. }
  rewrite !elem_of_cons, elem_of_nil in Hin.
  destruct Hin as [->|[->|[->|[->|[->|[]]]]]]; (split_and!; [reflexivity| | |reflexivity]); by apply (bool_decide_unpack _); vm_compute.
Qed.

Lemma assoc_str fn s : assoc FINAL_STATE fn = Some s → str_nonempty s = true ∧ (String.length s <= 16)%nat.
Proof.
  cbn. repeat match goal with |- context [String.eqb fn ?t] => destruct (String.eqb fn t); [intros [= <-]; split; [done|cbn; lia]|] end.
  done.
Qed.
(** the agent answers a power action: a progress report, then success, and the
    machine named is in the final state *)
Lemma power_run repr h rq guid s a :
  good [h] a → assoc FINAL_STATE (rq_function rq) = Some s → rq_function rq ≠ "vm_delete" →
  dget (rq_params rq) "vm_id" = JStr guid →
  ∃ a', handle_body repr h (wire rq) a = (inl tt, a') ∧
    ag_out a' = (ag_out a ++
      [(queue_name h RESPONSE, JObj (working (rq_id rq) (rq_function rq)));
       (queue_name h RESPONSE, JObj (done_payload (rq_id rq) (rq_function rq) guid s (isoformat (utc (ag_now a)))))])%list ∧
    power_states a' h = map (λ p, if py_eq p.1 (JStr guid) then (p.1, JStr s) else p) (power_states a h) ∧ saved a'.
Proof.
  intros Ha Hf Hd Hvm. destruct (powers_cases _ _ Hf Hd) as (Hst & Hno & Hmet & Hne).
  rewrite !not_elem_of_cons in Hno. destruct Hno as (N1 & N2 & N3 & N4 & _).
  unfold handle_body. cbn [wire item dict_find String.eqb Ascii.eqb Bool.eqb].
  rewrite (se_run (pure _) _ a (JStr (rq_function rq)) a) by done.
  rewrite (se_run (pure _) _ a (JStr (rq_id rq)) a) by done.
  rewrite (se_run (pure _) _ a (JObj (rq_params rq)) a) by done.
  rewrite (se_run (get _ _) _ a (JStr guid) a) by (unfold get, pure; cbn; by rewrite Hvm).
  rewrite Hst. cbv zeta.
  rewrite (proj2 (String.eqb_neq _ _) N1), (proj2 (String.eqb_neq _ _) N2), (proj2 (String.eqb_neq _ _) N3), (proj2 (String.eqb_neq _ _) N4).
  set (a1 := a <| ag_out ::= λ l, (l ++ [(queue_name h RESPONSE, JObj (working (rq_id rq) (rq_function rq)))])%list |> <| ag_seq ::= S |>).
  rewrite (se_run (each _ _) _ a tt a1) by done.
  unfold handle_other. cbv zeta. rewrite Hf.
  destruct Ha as (hosts & Eh & Hg & HN). destruct (HN h ltac:(set_solver)) as [hv Ehv].
  destruct (Hg _ _ Ehv) as (hs & -> & [(l & El & Hl)]).
  destruct (each_vm_run guid s hs l El Hl) as (l' & Er & Hmap).
  set (a2 := a1 <| ag_state ::= set_host h (JObj (dset hs "vms" (JList l'))) |>).
  assert (apply_action h (JStr guid) (rq_function rq) (Some s) a1 = (inl tt, a2)) as Hact.
  { unfold apply_action. rewrite (se_run _ _ a1 (JObj hs) a1).
    2:{ unfold find_host, mbind, SE_bind, look, pure, get, item. cbn. rewrite Eh. cbn. unfold dget. by rewrite Ehv. }
    cbn [is_null orb]. rewrite (proj2 (String.eqb_neq _ _) Hd), bool_decide_eq_false_2 by done.
    unfold in_host. change (ag_state a1) with (ag_state a).
    assert (dget (dict_or_empty (dget (ag_state a) "hosts")) h = JObj hs) as ->; [|by rewrite Er].
    unfold dget at 2. rewrite Eh. cbn. unfold dget. by rewrite Ehv. }
  rewrite (se_run _ _ a1 tt a2 Hact). eexists. split; [done|]. split; [|split; [|done]].
  - cbn. by rewrite <- app_assoc.
  - unfold power_states, host_vms. cbn. unfold set_host, dget. rewrite !dict_find_dset, Eh. cbn.
    rewrite !dict_find_dset, String.eqb_refl, Ehv. cbn. rewrite dict_find_dset. cbn. rewrite El. exact Hmap.
Qed.

(** ** The worker's side *)
(** a JSON object that spells out an envelope: every entry has its declared type *)
Definition spells (p : dict) (r : AgentResponse) : Prop :=
  let text k o := dget p k = match o with Some s => JStr s | None => JNull end in
  let object k o := dget p k = match o with Some d => JObj d | None => JNull end in
  dget p "id" = JStr (rs_id r) ∧ dget p "function" = JStr (rs_function r) ∧ dget p "status" = JStr (rs_status r) ∧
  dget p "progress" = match rs_progress r with Some z => JInt z | None => JNull end ∧
  text "progress_message" (rs_progress_message r) ∧
  dget p "result" = match rs_result r with RDict d => JObj d | RStr s => JStr s | RNone => JNull end ∧
  text "error" (rs_error r) ∧ text "vm_id" (rs_vm_id r) ∧ text "vm_state" (rs_vm_state r) ∧
  object "vm_status" (rs_vm_status r) ∧ object "template" (rs_template r) ∧ text "finished_at" (rs_finished_at r).
Definition working_response (id fn : string) : AgentResponse :=
  mkResponse id fn "running" (Some 30) (Some "Working…") RNone None None None None None None.
Definition done_response (id fn guid s now : string) : AgentResponse :=
  mkResponse id fn "succeeded" (Some 100) None (RStr "ok") None (Some guid) (Some s) None None (Some now).
Lemma working_spells id fn : spells (working id fn) (working_response id fn).
Proof. by repeat split. Qed.
Lemma done_spells id fn guid s now : spells (done_payload id fn guid s now) (done_response id fn guid s now).
Proof. by repeat split. Qed.

(** a progress report of a queued task is stored on its row and nowhere else *)
Lemma progress_run w host_id id fn k :
  tasks (w_db w) !! id = Some k → k_host_id k = host_id → k_status k = "queued" →
  ∃ k1, apply_response host_id (working_response id fn) w =
      (Ok tt, w <| w_db ::= λ d, d <| tasks ::= <[k_id k := k1]> |> |>) ∧
    k_id k1 = k_id k ∧ k_kind k1 = k_kind k ∧ k_host_id k1 = k_host_id k ∧ k_target_type k1 = k_target_type k ∧
    k_target_id k1 = k_target_id k ∧ k_status k1 = "running" ∧ k_progress k1 = Some 30.
Proof.
  intros Hk Hh Hs. unfold apply_response, get_task. rewrite run_query. cbn [rs_id working_response]. rewrite Hk.
  rewrite (proj2 (String.eqb_eq _ _) Hh). cbn [negb].
  change (strip_response_thumbnails (working_response id fn)) with (inl (B := pyexn) (working_response id fn)).
  cbn [lift_py]. rewrite run_ret, run_now. cbn [rs_status working_response k_status set_field].
  change (String.eqb "running" "running") with true. rewrite bool_decide_eq_true_2 by (cbn; rewrite Hs; set_solver).
  cbn [andb]. eexists. split; [reflexivity|]. by repeat split.
Qed.
(** success of a task that names the machine and its state *)
Lemma succeeded_run w host_id id fn guid s now k v :
  ends w host_id (done_response id fn guid s now) (done_response id fn guid s now) k →
  k_kind k = fn → assoc FINAL_STATE fn = Some s → fn ≠ "vm_delete" → guid ≠ "" →
  vms (w_db w) !! k_target_id k = Some v → v_id v = k_target_id k → v_vm_uuid v = Some guid → v_host_id v = host_id →
  (∀ i u, vms (w_db w) !! i = Some u → v_vm_uuid u = Some guid → v_host_id u = host_id → i = k_target_id k) →
  ∃ w', apply_response host_id (done_response id fn guid s now) w = (Ok tt, w') ∧
    vms (w_db w') = <[k_target_id k := v <| v_state := s |>]> (vms (w_db w)) ∧
    k_status <$> tasks (w_db w') !! k_id k = Some "succeeded" ∧
    ∀ x, lock_view w' x = match lock_view w x with
                          | Some l => if String.eqb x (k_target_id k) && String.eqb (lk_task_id l) (k_id k) then None else Some l
                          | None => None
                          end.
Proof.
  intros [Et Eid Eh Evm Estrip Elive Eprog Ec] Hkind Hf Hd Hg Hv Hid Hu Hh Huniq. destruct (powers_cases fn s Hf Hd) as (_ & Hno & _ & _).
  rewrite !not_elem_of_cons in Hno. destruct Hno as (N1 & N2 & _ & N4 & _).
  assert (fn ≠ "host_update_agent") as N5 by (intros ->; done).
  set (resp := done_response id fn guid s now) in *. rewrite <- Hkind in N1, N2, N4, N5.
  destruct (response_run w host_id resp resp k) as (w3 & w4 & w' & Hr & _ & H3 & H4 & (T & _) & _ & Hdb & Hl); [done..|].
  rewrite (H3 Evm N4) in *. set (k' := finish_task _ _ _ _) in *. set (wf := finished_world w k') in *.
  assert (apply_response_state host_id resp k' wf =
    (Ok tt, wf <| w_cache := c_set (w_now wf) (vm_state_key (v_id v)) (CText s) (vm_state_ttl_seconds (w_cfg wf)) (w_cache wf) |>
               <| w_db ::= λ d, d <| vms ::= <[v_id v := v <| v_state := s |>]> |> |>)) as Ha.
  { destruct (assoc_str fn s Hf) as [Hs1 Hs2].
    unfold apply_response_state. change (k_kind k') with (k_kind k). change (k_status k') with "succeeded".
    rewrite bool_decide_eq_false_2 by (rewrite !elem_of_cons, elem_of_nil; tauto).
    rewrite (proj2 (String.eqb_neq (k_kind k) "vm_delete")) by (by rewrite Hkind). cbn [andb].
    change (String.eqb "succeeded" "succeeded") with true. cbv iota. unfold apply_succeeded_state.
    rewrite (run_ok _ _ wf false wf) by done. cbn [rs_vm_id rs_vm_state resp done_response]. unfold given_str.
    assert (str_nonempty guid = true) as -> by (by destruct guid). rewrite Hs1.
    unfold vm_by_guid. rewrite run_assoc, run_query.
    rewrite (rows_unique _ _ (k_target_id k) v Hv); [|by rewrite Hu, Hh, bool_decide_eq_true_2, String.eqb_refl|].
    2:{ intros i u Hi Hp. apply andb_true_iff in Hp as [Hp1 Hp2]. apply bool_decide_eq_true in Hp1. apply String.eqb_eq in Hp2. eauto. }
    cbn [one_or_none]. rewrite run_ret, (run_ok _ _ _ _ _ (set_vm_state_run wf (v_id v) s (proj1 Ec))).
    unfold req_str, col_str. apply Nat.leb_le in Hs2. rewrite run_assoc, Hs2. reflexivity. }
  rewrite (best_effort_ok _ _ _ Ha) in H4. injection H4 as <-. exists w'. split; [exact Hr|]. rewrite Hdb. split_and!.
  - cbn. by rewrite Hid.
  - cbn. change (k_id k) with (k_id k'). by rewrite lookup_insert_eq.
  - intros x. rewrite Hl, Evm. done.
Qed.

(** ** Both sides together *)
(** the messages published between two points of the agent's run *)
Definition sent (a a' : agent) : list (string * json) := drop (length (ag_out a)) (ag_out a').
(** pydantic's reading of an object that spells out an envelope *)
Class Validates (model_validate : json → option AgentResponse) : Prop :=
  validates : ∀ p r, spells p r → model_validate (JObj p) = Some r.

Lemma power_actions action fn tr s :
  assoc ACTION_MAP action = Some (fn, tr) → assoc FINAL_STATE fn = Some s → fn ≠ "vm_delete" →
  action ∉ ["migrate"; "move_storage"; "refresh"].
Proof.
  intros Ha Hf Hd. rewrite !not_elem_of_cons. split_and!; [..|apply not_elem_of_nil]; intros ->; cbn in Ha; by simplify_eq/=.
Qed.
Lemma request_power vm action fn tr s by_ params w :
  assoc ACTION_MAP action = Some (fn, tr) → assoc FINAL_STATE fn = Some s → fn ≠ "vm_delete" →
  request_vm_action vm action by_ params w = queue_vm_task vm fn params by_ tr true w.
Proof.
  intros Ha Hf Hd. pose proof (power_actions action fn tr s Ha Hf Hd) as Hno. rewrite !not_elem_of_cons in Hno.
  destruct Hno as (N1 & N2 & N3 & _). unfold request_vm_action. rewrite Ha, (proj2 (String.eqb_neq _ _) N1). cbn [andb].
  rewrite (proj2 (String.eqb_neq _ _) N2), run_ret, bool_decide_eq_false_2; [done|].
  unfold READ_ONLY_VM_ACTIONS. rewrite elem_of_cons, elem_of_nil. tauto.
Qed.

Section loop.
Context (loads : string → option json) (model_validate : json → option AgentResponse) `{!Validates model_validate}.

Lemma deliver_response host_id body p r w w' :
  loads body = Some (JObj p) → spells p r → apply_response host_id r w = (Ok tt, w') →
  deliver loads model_validate host_id RESPONSE body w = (Ok tt, w').
Proof.
  intros Hl Hs Hr. unfold deliver, try_except, handle_message. rewrite Hl. unfold session_scope, savepoint, dispatch.
  rewrite (validates p r Hs). by rewrite Hr.
Qed.
(** the worker hears the progress report and then the success *)
Lemma power_responses w host_id bodies id fn guid s now k v :
  Forall2 (λ p b, loads b = Some (JObj p)) [working id fn; done_payload id fn guid s now] bodies →
  tasks (w_db w) !! id = Some k → k_id k = id → k_host_id k = host_id → k_target_type k = "vm" → k_status k = "queued" →
  cache_ok w → k_kind k = fn → assoc FINAL_STATE fn = Some s → fn ≠ "vm_delete" → guid ≠ "" →
  vms (w_db w) !! k_target_id k = Some v → v_id v = k_target_id k → v_vm_uuid v = Some guid → v_host_id v = host_id →
  (∀ i u, vms (w_db w) !! i = Some u → v_vm_uuid u = Some guid → v_host_id u = host_id → i = k_target_id k) →
  ∃ w', for_each bodies (deliver loads model_validate host_id RESPONSE) w = (Ok tt, w') ∧
    vms (w_db w') = <[k_target_id k := v <| v_state := s |>]> (vms (w_db w)) ∧
    k_status <$> tasks (w_db w') !! id = Some "succeeded" ∧
    ∀ x, lock_view w' x = match lock_view w x with
                          | Some l => if String.eqb x (k_target_id k) && String.eqb (lk_task_id l) id then None else Some l
                          | None => None
                          end.
Proof.
  intros Hb Hk Hid Hh Hvm Hq Hok Hkind Hf Hd Hg Hv Hvid Hu Hvh Huniq.
  apply Forall2_cons_inv_l in Hb as (b1 & bs & L1 & Hb & ->). apply Forall2_cons_inv_l in Hb as (b2 & ? & L2 & ->%Forall2_nil_inv_l & ->).
  destruct (progress_run w host_id id fn k Hk Hh Hq) as (k1 & E1 & I1 & I2 & I3 & I4 & I5 & I6 & I7).
  set (w1 := w <| w_db ::= _ |>) in E1.
  assert (tasks (w_db w1) !! id = Some k1) as Hk1 by (cbn; by rewrite Hid, lookup_insert_eq).
  destruct (succeeded_run w1 host_id id fn guid s now k1 v) as (w2 & E2 & V2 & T2 & Lk); try congruence.
  { split; cbn [rs_id done_response]; try congruence; try done. rewrite I7. by intros p [= <-]. }
  { rewrite I5. exact Hv. } { rewrite I5. exact Huniq. }
  exists w2. cbn [for_each]. rewrite (run_ok _ _ w tt w1) by (eapply deliver_response; [exact L1|apply working_spells|exact E1]).
  rewrite (run_ok _ _ w1 tt w2) by (eapply deliver_response; [exact L2|apply done_spells|exact E2]).
  rewrite I1, Hid in T2. rewrite I5 in V2. split_and!; [done|done|done|]. intros x. rewrite Lk, I5, I1, Hid. done.
Qed.

(** C36: a power action closes its loop.  Take a reported VM of an online host,
    free and known under one GUID, and an agent whose state is well formed and
    has the host.  A request to start, stop, shut down, restart or pause it is
    accepted and published; the agent serves what was published and answers; and
    once the worker has consumed the answers - any bodies that decode to them -
    the task has succeeded, the VM is free again, its row shows the final state
    of the action, no other row has changed, and the agent's own machine of that
    GUID is in the same state, the others as they were. *)
Theorem power_action_closes repr w a vm h guid action fn tr s by_ params :
  assoc ACTION_MAP action = Some (fn, tr) → assoc FINAL_STATE fn = Some s → fn ≠ "vm_delete" →
  can_queue w vm h guid → cache_ok w → lock_view w (v_id vm) = None → w_broker_up w = true →
  request_queue_ok w (h_short_id h) → fresh_task w →
  vms (w_db w) !! v_id vm = Some vm →
  (∀ i u, vms (w_db w) !! i = Some u → v_vm_uuid u = Some guid → v_host_id u = v_host_id vm → i = v_id vm) →
  good [h_short_id h] a →
  ∃ t w1 rq a', request_vm_action vm action by_ params w = (Ok t, w1) ∧
    published (w_mq w1) = (published (w_mq w) ++ [(queue_name (h_short_id h) REQUEST, rq)])%list ∧
    handle_request repr (h_short_id h) (wire rq) a = (inl tt, a') ∧
    power_states a' (h_short_id h) =
      map (λ p, if py_eq p.1 (JStr guid) then (p.1, JStr s) else p) (power_states a (h_short_id h)) ∧
    (∀ m, m ∈ sent a a' → m.1 = queue_name (h_short_id h) RESPONSE) ∧
    ∀ bodies, Forall2 (λ m b, loads b = Some m.2) (sent a a') bodies →
    ∃ w', for_each bodies (deliver loads model_validate (v_host_id vm) RESPONSE) w1 = (Ok tt, w') ∧
      k_status <$> tasks (w_db w') !! k_id t = Some "succeeded" ∧ lock_view w' (v_id vm) = None ∧
      vms (w_db w') !! v_id vm = Some (vm <| v_state := s |>) ∧
      ∀ i, i ≠ v_id vm → vms (w_db w') !! i = vms (w_db w) !! i.
Proof.
  intros Ha Hf Hd Hq Hok Hfree Hbr Hrq Hnew Hv Huniq Hgood.
  destruct (queue_accepts w vm h guid fn params by_ tr Hq Hok Hfree Hbr Hrq Hnew)
    as (w1 & E1 & D1 & L1 & _ & P1 & G1 & _ & _ & O1).
  set (id := w_uuid4 w (w_seq w)) in *. set (t := vm_task _ _ _ _ _ _ _) in *. set (rq := task_request _ _ _ _ _ _) in *.
  destruct (power_run repr (h_short_id h) rq guid s a Hgood Hf Hd G1) as (a' & Eb & Ho & Hp & _).
  exists t, w1, rq, a'. split; [rewrite (request_power vm action fn tr s) by done; exact E1|]. split; [exact P1|].
  split; [unfold handle_request; by rewrite Eb|]. split; [exact Hp|]. unfold sent. rewrite Ho, drop_app_length.
  split; [by intros m [->|[->|Hm%elem_of_nil]%elem_of_cons]%elem_of_cons|]. intros bodies Hb.
  set (v1 := match tr with Some x => vm <| v_state := x |> | None => vm end).
  assert (vms (w_db w1) !! v_id vm = Some v1 ∧ (∀ i, i ≠ v_id vm → vms (w_db w1) !! i = vms (w_db w) !! i) ∧
    tasks (w_db w1) !! id = Some t) as (V1 & Vo & T1).
  { rewrite D1. unfold stamped, v1. destruct tr; cbn; rewrite ?lookup_insert_eq; (split_and!; [done| |done]); intros i Hi;
      by rewrite ?lookup_insert_ne by done. }
  destruct (power_responses w1 (v_host_id vm) bodies id fn guid s (isoformat (utc (ag_now a))) t v1) as (w2 & E2 & V2 & T2 & L2);
    try done.
  all: try (by destruct tr). all: try (by apply Hq).
  - inversion Hb as [|m1 b1 ? ? B1 Hb']; subst. inversion Hb' as [|m2 b2 ? ? B2 Hb'']; subst. inversion Hb''; subst.
    by repeat constructor.
  - destruct tr; by apply Hq.
  - intros i u Hi Hu Hh. destruct (decide (i = v_id vm)) as [->|N]; [done|]. rewrite Vo in Hi by done. eauto.
  - exists w2. split; [exact E2|]. split; [exact T2|]. change (k_target_id t) with (v_id vm) in *.
    split_and!.
    + rewrite L2, L1, String.eqb_refl. cbn. by rewrite String.eqb_refl.
    + rewrite V2, lookup_insert_eq. by destruct tr.
    + intros i Hi. by rewrite V2, lookup_insert_ne, Vo.
Qed.
End loop.

(** an instance: the envelope read field by field *)
Definition text_field (v : json) : option (option string) :=
  match v with JStr s => Some (Some s) | JNull => Some None | _ => None end.
Definition object_field (v : json) : option (option dict) :=
  match v with JObj d => Some (Some d) | JNull => Some None | _ => None end.
Definition int_field (v : json) : option (option Z) :=
  match v with JInt z => Some (Some z) | JNull => Some None | _ => None end.
Definition result_field (v : json) : option result_value :=
  match v with JObj d => Some (RDict d) | JStr s => Some (RStr s) | JNull => Some RNone | _ => None end.
Definition read_envelope (v : json) : option AgentResponse :=
  match v with
  | JObj p =>
      match dget p "id", dget p "function", dget p "status" with
      | JStr id, JStr fn, JStr st =>
          pr ← int_field (dget p "progress"); msg ← text_field (dget p "progress_message");
          res ← result_field (dget p "result"); err ← text_field (dget p "error");
          vid ← text_field (dget p "vm_id"); vst ← text_field (dget p "vm_state");
          vms ← object_field (dget p "vm_status"); tpl ← object_field (dget p "template");
          fin ← text_field (dget p "finished_at");
          Some (mkResponse id fn st pr msg res err vid vst vms tpl fin)
      | _, _, _ => None
      end
  | _ => None
  end.
#[export] Instance read_envelope_validates : Validates read_envelope.
Proof.
  intros p [] (H1 & H2 & H3 & H4 & H5 & H6 & H7 & H8 & H9 & H10 & H11 & H12). cbn in *.
  unfold read_envelope. rewrite H1, H2, H3, H4, H5, H6, H7, H8, H9, H10, H11, H12.
  repeat match goal with |- context [match ?o with _ => _ end] => is_var o; destruct o end; done.
Qed.

(** a machine of the sample host, switched on *)
Definition loop_agent : agent := sample_agent 7 <| ag_state :=
  [("hosts", JObj [(h_short_id sample_host, JObj [("vms", JList
     [JObj [("id", JStr "g0"); ("state", JStr "Off")]; JObj [("id", JStr "g1"); ("state", JStr "Off")]])])])] |>.
Lemma loop_agent_good : good [h_short_id sample_host] loop_agent.
Proof.
  eexists. split; [done|]. split.
  - intros id v H. cbn in H. destruct (String.eqb id _); [|done]. injection H as <-. eexists. split; [done|]. split.
    eexists. split; [done|]. repeat constructor; (eexists; split; [done|]); (split; [by eexists|]); intros v; done.
  - intros id ->%list_elem_of_singleton. by eexists.
Qed.
Lemma power_action_closes_witness :
  ∃ t w1 a' loads bodies w', request_vm_action sample_vm "start" "op" [] vm_world = (Ok t, w1) ∧
    power_states a' (h_short_id sample_host) = [(JStr "g0", JStr "Off"); (JStr "g1", JStr "Running")] ∧
    for_each bodies (deliver loads read_envelope "h1" RESPONSE) w1 = (Ok tt, w') ∧
    k_status <$> tasks (w_db w') !! k_id t = Some "succeeded" ∧ (v_state <$> vms (w_db w') !! "v1") = Some "Running".
Proof.
  set (id := w_uuid4 vm_world (w_seq vm_world)).
  set (now := isoformat (utc (ag_now loop_agent))).
  set (loads := λ b : string, if String.eqb b "1" then Some (JObj (working id "vm_start"))
                             else Some (JObj (done_payload id "vm_start" "g1" "Running" now))).
  destruct (power_action_closes loads read_envelope (λ _, "") vm_world loop_agent sample_vm sample_host "g1" "start" "vm_start"
    (Some "Starting") "Running" "op" []) as (t & w1 & rq & a' & E & P & A & S & _ & C); try done.
  - intros i u Hi _ _. cbn in Hi. by apply lookup_singleton_Some in Hi as [<- _].
  - exact loop_agent_good.
  - assert (t = default t (match (request_vm_action sample_vm "start" "op" [] vm_world).1 with Ok t => Some t | _ => None end) ∧
      w1 = (request_vm_action sample_vm "start" "op" [] vm_world).2) as [Et Ew] by (by rewrite E).
    assert (rq = task_request id "vm_start" [] "op" "g1" (w_now vm_world)) as Erq.
    { rewrite Ew in P. vm_compute in P. by injection P as <-. }
    assert (a' = (handle_request (λ _, "") (h_short_id sample_host) (wire rq) loop_agent).2) as Ea by (by rewrite A).
    destruct (C ["1"; "2"]) as (w' & D & T & _ & V & _).
    { rewrite Ea, Erq. repeat constructor. }
    exists t, w1, a', loads, ["1"; "2"], w'. split_and!; [exact E| |exact D|exact T|change (v_id sample_vm) with "v1" in V; by rewrite V].
    rewrite S. by vm_compute.
Defined.
