(* ===== verification/Schemas.v ===== *)
(** * Schemas of what agents send ([app/schemas/host.py], [app/messaging/protocol.py])

    [HostHardwareInventory] and its parts, and [AgentResponse], as records with
    the validation pydantic derives from their declarations and the JSON the
    API shows.  The validators of scalars are pydantic's own: a record of
    functions, with what its documentation says of them in [Lax].  [Serializers]
    and [Consumers] take these validations as parameters. *)
From S2P Require Import Prelude Py Clock Model World Isoformat Normalize Serializers AgentLoop.
From Stdlib Require Import Floats.SpecFloat.
Open Scope string_scope.
Open Scope Z_scope.

(** ** pydantic *)
Record scalars := mkScalars {
  px_str : json → option string;
  px_int : json → option Z;
  px_float : json → option spec_float;
  px_bool : json → option bool;
  px_datetime : json → option datetime;
  px_show : datetime → string            (* a datetime in JSON *)
}.
(** values of the declared type are kept *)
Class Lax (px : scalars) : Prop := {
  lax_str s : px_str px (JStr s) = Some s;
  lax_int z : px_int px (JInt z) = Some z;
  lax_float f : px_float px (JFloat f) = Some f;
  lax_bool b : px_bool px (JBool b) = Some b;
  lax_datetime t : datetime_ok t = true → px_datetime px (JStr (px_show px t)) = Some t
}.
(** [T | None], [list[T]], a nested model *)
Definition or_none_of {A} (v : json → option A) (x : json) : option (option A) :=
  match x with JNull => Some None | _ => Some <$> v x end.
Definition list_of {A} (v : json → option A) (x : json) : option (list A) :=
  match x with JList l => mapM v l | _ => None end.
Definition nested {A} (v : dict → option A) (x : json) : option A :=
  match x with JObj d => v d | _ => None end.
(** a field by its alias, else by its name ([populate_by_name]) *)
Definition entry (d : dict) (alias name : string) : option json :=
  match dict_find d alias with Some x => Some x | None => dict_find d name end.
Definition required {A} (d : dict) (alias name : string) (v : json → option A) : option A :=
  entry d alias name ≫= v.
Definition defaulted {A} (d : dict) (alias name : string) (v : json → option A) (dflt : A) : option A :=
  match entry d alias name with Some x => v x | None => Some dflt end.

(** ** The hardware of a host *)
Record CpuInfo := mkCpuInfo { ci_model : string; ci_sockets : Z; ci_cores : Z; ci_logical : Z }.
Record StorageVolume := mkVolume { sv_path : string; sv_label : option string; sv_total_bytes : Z; sv_free_bytes : Z }.
Record OsInfo := mkOsInfo { oi_caption : string; oi_version : string }.
Record NetworkAdapter := mkAdapter {
  na_name : string; na_mac : string; na_speed_bps : Z; na_connected : bool; na_description : string;
  na_status : option string; na_link_speed : option string; na_driver_version : option string;
  na_driver_date : option string; na_driver_provider : option string; na_firmware_version : option string
}.
Record VirtualSwitch := mkSwitch {
  vs_name : string; vs_id : option string; vs_type : string; vs_net_adapter : option string;
  vs_allow_management_os : option bool; vs_embedded_teaming : option bool; vs_team_members : list string;
  vs_load_balancing_algorithm : option string; vs_bandwidth_reservation_mode : option string
}.
Record FibreChannelHba := mkHba {
  hb_manufacturer : string; hb_model : string; hb_model_description : string; hb_serial_number : string;
  hb_driver_version : string; hb_firmware_version : string; hb_hardware_version : string; hb_node_wwn : string;
  hb_port_wwn : string; hb_state : string; hb_speed : string; hb_connection_type : string
}.
Record SystemInfo := mkSystemInfo { si_manufacturer : string; si_model : string }.
Record LoadSnapshot := mkLoad { ls_cpu_percent : option spec_float; ls_memory_percent : option spec_float }.
Record FailoverCluster := mkFailover { fc_clustered : bool; fc_name : option string; fc_state : string; fc_nodes : list string }.
Record HyperVPaths := mkPaths { hp_default_vm_path : option string; hp_default_vhd_path : option string }.
Record HostHardwareInventory := mkInventory {
  hh_cpu : CpuInfo; hh_memory_bytes : Z; hh_storage : list StorageVolume; hh_os : OsInfo;
  hh_network : list NetworkAdapter; hh_v_switches : list VirtualSwitch; hh_hbas : list FibreChannelHba;
  hh_system : option SystemInfo; hh_boot_time : option datetime; hh_load : option LoadSnapshot;
  hh_cluster : option FailoverCluster; hh_hyperv : option HyperVPaths
}.

Section schemas.
Context (px : scalars).
Definition text (d : dict) (alias name : string) : option string := defaulted d alias name (px_str px) "".
Definition number (d : dict) (alias name : string) : option Z := defaulted d alias name (px_int px) 0.
Definition flag (d : dict) (alias name : string) : option bool := defaulted d alias name (px_bool px) false.
Definition optional {A} (d : dict) (alias name : string) (v : json → option A) : option (option A) :=
  defaulted d alias name (or_none_of v) None.
Definition opt_text (d : dict) (alias name : string) : option (option string) := optional d alias name (px_str px).

Definition cpu_info (d : dict) : option CpuInfo :=
  model ← text d "model" "model";
  sockets ← number d "sockets" "sockets";
  cores ← number d "cores" "cores";
  logical ← number d "logical" "logical";
  mret (mkCpuInfo model sockets cores logical).
Definition storage_volume (d : dict) : option StorageVolume :=
  path ← required d "path" "path" (px_str px);
  label ← opt_text d "label" "label";
  total ← number d "totalBytes" "total_bytes";
  free ← number d "freeBytes" "free_bytes";
  mret (mkVolume path label total free).
Definition os_info (d : dict) : option OsInfo :=
  caption ← text d "caption" "caption";
  version ← text d "version" "version";
  mret (mkOsInfo caption version).
Definition network_adapter (d : dict) : option NetworkAdapter :=
  name ← required d "name" "name" (px_str px);
  mac ← required d "mac" "mac" (px_str px);
  speed ← number d "speedBps" "speed_bps";
  connected ← flag d "connected" "connected";
  description ← text d "description" "description";
  status ← opt_text d "status" "status";
  link_speed ← opt_text d "linkSpeed" "link_speed";
  driver_version ← opt_text d "driverVersion" "driver_version";
  driver_date ← opt_text d "driverDate" "driver_date";
  driver_provider ← opt_text d "driverProvider" "driver_provider";
  firmware_version ← opt_text d "firmwareVersion" "firmware_version";
  mret (mkAdapter name mac speed connected description status link_speed driver_version driver_date
          driver_provider firmware_version).
Definition virtual_switch (d : dict) : option VirtualSwitch :=
  name ← required d "name" "name" (px_str px);
  id ← opt_text d "id" "id";
  type ← text d "type" "type";
  net_adapter ← opt_text d "netAdapter" "net_adapter";
  allow ← optional d "allowManagementOS" "allow_management_os" (px_bool px);
  teaming ← optional d "embeddedTeaming" "embedded_teaming" (px_bool px);
  members ← defaulted d "teamMembers" "team_members" (list_of (px_str px)) [];
  algorithm ← opt_text d "loadBalancingAlgorithm" "load_balancing_algorithm";
  mode ← opt_text d "bandwidthReservationMode" "bandwidth_reservation_mode";
  mret (mkSwitch name id type net_adapter allow teaming members algorithm mode).
Definition fibre_channel_hba (d : dict) : option FibreChannelHba :=
  manufacturer ← text d "manufacturer" "manufacturer";
  model ← text d "model" "model";
  model_description ← text d "modelDescription" "model_description";
  serial_number ← text d "serialNumber" "serial_number";
  driver_version ← text d "driverVersion" "driver_version";
  firmware_version ← text d "firmwareVersion" "firmware_version";
  hardware_version ← text d "hardwareVersion" "hardware_version";
  node_wwn ← text d "nodeWWN" "node_wwn";
  port_wwn ← text d "portWWN" "port_wwn";
  state ← text d "state" "state";
  speed ← text d "speed" "speed";
  connection_type ← text d "connectionType" "connection_type";
  mret (mkHba manufacturer model model_description serial_number driver_version firmware_version hardware_version
          node_wwn port_wwn state speed connection_type).
Definition system_info (d : dict) : option SystemInfo :=
  manufacturer ← text d "manufacturer" "manufacturer";
  model ← text d "model" "model";
  mret (mkSystemInfo manufacturer model).
Definition load_snapshot (d : dict) : option LoadSnapshot :=
  cpu ← optional d "cpuPercent" "cpu_percent" (px_float px);
  memory ← optional d "memoryPercent" "memory_percent" (px_float px);
  mret (mkLoad cpu memory).
Definition failover_cluster (d : dict) : option FailoverCluster :=
  clustered ← flag d "clustered" "clustered";
  name ← opt_text d "name" "name";
  state ← text d "state" "state";
  nodes ← defaulted d "nodes" "nodes" (list_of (px_str px)) [];
  mret (mkFailover clustered name state nodes).
Definition hyperv_paths (d : dict) : option HyperVPaths :=
  vm ← opt_text d "defaultVmPath" "default_vm_path";
  vhd ← opt_text d "defaultVhdPath" "default_vhd_path";
  mret (mkPaths vm vhd).
Definition host_hardware_inventory (d : dict) : option HostHardwareInventory :=
  cpu ← defaulted d "cpu" "cpu" (nested cpu_info) (mkCpuInfo "" 0 0 0);
  memory ← number d "memoryBytes" "memory_bytes";
  storage ← defaulted d "storage" "storage" (list_of (nested storage_volume)) [];
  os ← defaulted d "os" "os" (nested os_info) (mkOsInfo "" "");
  network ← defaulted d "network" "network" (list_of (nested network_adapter)) [];
  v_switches ← defaulted d "vSwitches" "v_switches" (list_of (nested virtual_switch)) [];
  hbas ← defaulted d "hbas" "hbas" (list_of (nested fibre_channel_hba)) [];
  system ← optional d "system" "system" (nested system_info);
  boot_time ← optional d "bootTime" "boot_time" (px_datetime px);
  load ← optional d "load" "load" (nested load_snapshot);
  cluster ← optional d "cluster" "cluster" (nested failover_cluster);
  hyperv ← optional d "hyperv" "hyperv" (nested hyperv_paths);
  mret (mkInventory cpu memory storage os network v_switches hbas system boot_time load cluster hyperv).

(** ** The response envelope: [dict | str | None] takes the type of the value *)
Definition response_result (x : json) : option result_value :=
  match x with
  | JObj d => Some (RDict d)
  | JStr s => Some (RStr s)
  | JNull => Some RNone
  | _ => None
  end.
Definition agent_response (d : dict) : option AgentResponse :=
  id ← required d "id" "id" (px_str px);
  function ← required d "function" "function" (px_str px);
  status ← required d "status" "status" (px_str px);
  progress ← optional d "progress" "progress" (px_int px);
  progress_message ← opt_text d "progress_message" "progress_message";
  result ← defaulted d "result" "result" response_result RNone;
  error ← opt_text d "error" "error";
  vm_id ← opt_text d "vm_id" "vm_id";
  vm_state ← opt_text d "vm_state" "vm_state";
  vm_status ← optional d "vm_status" "vm_status" as_dict;
  template ← optional d "template" "template" as_dict;
  finished_at ← opt_text d "finished_at" "finished_at";
  mret (mkResponse id function status progress progress_message result error vm_id vm_state vm_status template finished_at).
Definition validate_response (x : json) : option AgentResponse := nested agent_response x.
End schemas.

(** ** What the API shows: every field, by its alias *)
Definition or_null {A} (f : A → json) (o : option A) : json := match o with Some a => f a | None => JNull end.
Definition show_cpu_info (x : CpuInfo) : dict :=
  [("model", JStr (ci_model x)); ("sockets", JInt (ci_sockets x)); ("cores", JInt (ci_cores x));
   ("logical", JInt (ci_logical x))].
Definition show_storage_volume (x : StorageVolume) : dict :=
  [("path", JStr (sv_path x)); ("label", or_null JStr (sv_label x)); ("totalBytes", JInt (sv_total_bytes x));
   ("freeBytes", JInt (sv_free_bytes x))].
Definition show_os_info (x : OsInfo) : dict :=
  [("caption", JStr (oi_caption x)); ("version", JStr (oi_version x))].
Definition show_network_adapter (x : NetworkAdapter) : dict :=
  [("name", JStr (na_name x)); ("mac", JStr (na_mac x)); ("speedBps", JInt (na_speed_bps x));
   ("connected", JBool (na_connected x)); ("description", JStr (na_description x));
   ("status", or_null JStr (na_status x)); ("linkSpeed", or_null JStr (na_link_speed x));
   ("driverVersion", or_null JStr (na_driver_version x)); ("driverDate", or_null JStr (na_driver_date x));
   ("driverProvider", or_null JStr (na_driver_provider x));
   ("firmwareVersion", or_null JStr (na_firmware_version x))].
Definition show_virtual_switch (x : VirtualSwitch) : dict :=
  [("name", JStr (vs_name x)); ("id", or_null JStr (vs_id x)); ("type", JStr (vs_type x));
   ("netAdapter", or_null JStr (vs_net_adapter x));
   ("allowManagementOS", or_null JBool (vs_allow_management_os x));
   ("embeddedTeaming", or_null JBool (vs_embedded_teaming x));
   ("teamMembers", JList (JStr <$> vs_team_members x));
   ("loadBalancingAlgorithm", or_null JStr (vs_load_balancing_algorithm x));
   ("bandwidthReservationMode", or_null JStr (vs_bandwidth_reservation_mode x))].
Definition show_fibre_channel_hba (x : FibreChannelHba) : dict :=
  [("manufacturer", JStr (hb_manufacturer x)); ("model", JStr (hb_model x));
   ("modelDescription", JStr (hb_model_description x)); ("serialNumber", JStr (hb_serial_number x));
   ("driverVersion", JStr (hb_driver_version x)); ("firmwareVersion", JStr (hb_firmware_version x));
   ("hardwareVersion", JStr (hb_hardware_version x)); ("nodeWWN", JStr (hb_node_wwn x));
   ("portWWN", JStr (hb_port_wwn x)); ("state", JStr (hb_state x)); ("speed", JStr (hb_speed x));
   ("connectionType", JStr (hb_connection_type x))].
Definition show_system_info (x : SystemInfo) : dict :=
  [("manufacturer", JStr (si_manufacturer x)); ("model", JStr (si_model x))].
Definition show_load_snapshot (x : LoadSnapshot) : dict :=
  [("cpuPercent", or_null JFloat (ls_cpu_percent x));
   ("memoryPercent", or_null JFloat (ls_memory_percent x))].
Definition show_failover_cluster (x : FailoverCluster) : dict :=
  [("clustered", JBool (fc_clustered x)); ("name", or_null JStr (fc_name x)); ("state", JStr (fc_state x));
   ("nodes", JList (JStr <$> fc_nodes x))].
Definition show_hyperv_paths (x : HyperVPaths) : dict :=
  [("defaultVmPath", or_null JStr (hp_default_vm_path x));
   ("defaultVhdPath", or_null JStr (hp_default_vhd_path x))].
Definition show_inventory (px : scalars) (x : HostHardwareInventory) : dict :=
  [("cpu", JObj (show_cpu_info (hh_cpu x))); ("memoryBytes", JInt (hh_memory_bytes x));
   ("storage", JList (JObj ∘ show_storage_volume <$> hh_storage x)); ("os", JObj (show_os_info (hh_os x)));
   ("network", JList (JObj ∘ show_network_adapter <$> hh_network x));
   ("vSwitches", JList (JObj ∘ show_virtual_switch <$> hh_v_switches x));
   ("hbas", JList (JObj ∘ show_fibre_channel_hba <$> hh_hbas x));
   ("system", or_null (JObj ∘ show_system_info) (hh_system x));
   ("bootTime", or_null (JStr ∘ px_show px) (hh_boot_time x));
   ("load", or_null (JObj ∘ show_load_snapshot) (hh_load x));
   ("cluster", or_null (JObj ∘ show_failover_cluster) (hh_cluster x));
   ("hyperv", or_null (JObj ∘ show_hyperv_paths) (hh_hyperv x))].

(** ** Reading back what is shown *)
Section read.
Context (px : scalars) {L : Lax px}.
Lemma mapM_shown {A} (v : json → option A) (f : A → json) (l : list A) :
  (∀ a, v (f a) = Some a) → mapM v (f <$> l) = Some l.
Proof using Type. intros H. induction l as [|a l IH]; [done|]. cbn. by rewrite H, IH. Qed.
Lemma or_none_of_shown {A} (v : json → option A) (f : A → json) (o : option A) :
  (∀ a, v (f a) = Some a) → (∀ a, f a ≠ JNull) → or_none_of v (or_null f o) = Some o.
Proof using Type.
  intros H N. destruct o as [a|]; [|done]. cbn. specialize (N a). specialize (H a). unfold or_none_of.
  destruct (f a); try done; by rewrite H.
Qed.
Lemma opt_text_shown o : or_none_of (px_str px) (or_null JStr o) = Some o.
Proof using L. apply or_none_of_shown; [apply lax_str|done]. Qed.
Lemma opt_flag_shown o : or_none_of (px_bool px) (or_null JBool o) = Some o.
Proof using L. apply or_none_of_shown; [apply lax_bool|done]. Qed.
Lemma opt_float_shown o : or_none_of (px_float px) (or_null JFloat o) = Some o.
Proof using L. apply or_none_of_shown; [apply lax_float|done]. Qed.
Lemma texts_shown l : mapM (px_str px) (JStr <$> l) = Some l.
Proof using L. apply mapM_shown, lax_str. Qed.
(** each field of a shown object is read back *)
Ltac reads := intros x; destruct x; unfold required, defaulted, optional, opt_text, text, number, flag, entry; cbn -[or_none_of mapM or_null];
  rewrite ?lax_str, ?lax_int, ?lax_bool, ?opt_text_shown, ?opt_flag_shown, ?opt_float_shown, ?texts_shown;
  cbn -[or_none_of mapM or_null];
  repeat (rewrite ?lax_str, ?lax_int, ?lax_bool, ?opt_text_shown, ?opt_flag_shown, ?opt_float_shown, ?texts_shown;
          cbn -[or_none_of mapM or_null]); reflexivity.
Lemma cpu_info_shown : ∀ x, cpu_info px (show_cpu_info x) = Some x.
Proof using L. unfold cpu_info, show_cpu_info. reads. Qed.
Lemma storage_volume_shown : ∀ x, storage_volume px (show_storage_volume x) = Some x.
Proof using L. unfold storage_volume, show_storage_volume. reads. Qed.
Lemma os_info_shown : ∀ x, os_info px (show_os_info x) = Some x.
Proof using L. unfold os_info, show_os_info. reads. Qed.
Lemma network_adapter_shown : ∀ x, network_adapter px (show_network_adapter x) = Some x.
Proof using L. unfold network_adapter, show_network_adapter. reads. Qed.
Lemma virtual_switch_shown : ∀ x, virtual_switch px (show_virtual_switch x) = Some x.
Proof using L. unfold virtual_switch, show_virtual_switch. reads. Qed.
Lemma fibre_channel_hba_shown : ∀ x, fibre_channel_hba px (show_fibre_channel_hba x) = Some x.
Proof using L. unfold fibre_channel_hba, show_fibre_channel_hba. reads. Qed.
Lemma system_info_shown : ∀ x, system_info px (show_system_info x) = Some x.
Proof using L. unfold system_info, show_system_info. reads. Qed.
Lemma load_snapshot_shown : ∀ x, load_snapshot px (show_load_snapshot x) = Some x.
Proof using L. unfold load_snapshot, show_load_snapshot. reads. Qed.
Lemma failover_cluster_shown : ∀ x, failover_cluster px (show_failover_cluster x) = Some x.
Proof using L. unfold failover_cluster, show_failover_cluster. reads. Qed.
Lemma hyperv_paths_shown : ∀ x, hyperv_paths px (show_hyperv_paths x) = Some x.
Proof using L. unfold hyperv_paths, show_hyperv_paths. reads. Qed.
Lemma list_shown {A} (v : dict → option A) (f : A → dict) (l : list A) :
  (∀ a, v (f a) = Some a) → list_of (nested v) (JList (JObj ∘ f <$> l)) = Some l.
Proof using Type. intros H. exact (mapM_shown (nested v) (JObj ∘ f) l H). Qed.
Lemma part_shown {A} (v : dict → option A) (f : A → dict) (o : option A) :
  (∀ a, v (f a) = Some a) → or_none_of (nested v) (or_null (JObj ∘ f) o) = Some o.
Proof using Type. intros H. apply or_none_of_shown; [exact H|done]. Qed.
(** a date a Python datetime can hold *)
Definition showable (x : HostHardwareInventory) : Prop := ∀ t, hh_boot_time x = Some t → datetime_ok t = true.
Lemma inventory_shown x : showable x → host_hardware_inventory px (show_inventory px x) = Some x.
Proof using L.
  destruct x as [cpu mem sto os net vsw hba sys boot load clu hv]. intros Hb.
  assert (or_none_of (px_datetime px) (or_null (JStr ∘ px_show px) boot) = Some boot) as Hboot.
  { destruct boot as [t|]; [|done]. cbn. by rewrite lax_datetime by (by apply Hb). }
  unfold host_hardware_inventory, show_inventory, defaulted, number, optional, defaulted, entry.
  cbn [dict_find String.eqb Ascii.eqb Bool.eqb hh_cpu hh_memory_bytes hh_storage hh_os hh_network hh_v_switches hh_hbas
    hh_system hh_boot_time hh_load hh_cluster hh_hyperv].
  rewrite (list_shown _ _ sto storage_volume_shown), (list_shown _ _ net network_adapter_shown),
    (list_shown _ _ vsw virtual_switch_shown), (list_shown _ _ hba fibre_channel_hba_shown),
    (part_shown _ _ sys system_info_shown), (part_shown _ _ load load_snapshot_shown),
    (part_shown _ _ clu failover_cluster_shown), (part_shown _ _ hv hyperv_paths_shown), Hboot.
  cbn [nested]. rewrite cpu_info_shown, os_info_shown by done. by rewrite lax_int.
Qed.
End read.

(** an object that spells out an envelope validates to it *)
#[export] Instance response_validates px `{Lax px} : Validates (validate_response px).
Proof.
  assert (∀ {A} (d : dict) k (v : json → option A) (f : A → json) (o : option A),
    dget d k = or_null f o → (∀ a, v (f a) = Some a) → (∀ a, f a ≠ JNull) → optional d k k v = Some o) as Ho.
  { intros A d k v f o Hd Hv Hf. unfold optional, defaulted, entry. unfold dget in Hd.
    destruct (dict_find d k) as [x|]; cbn in Hd; [|destruct o as [a|]; [by destruct (Hf a)|done]].
    subst x. by apply or_none_of_shown. }
  assert (∀ d k s, dget d k = JStr s → required d k k (px_str px) = Some s) as Hr.
  { intros d k s Hd. unfold required, entry. unfold dget in Hd. destruct (dict_find d k) as [x|]; [|done]. cbn in Hd.
    subst x. apply lax_str. }
  intros d r S. destruct S as (S1 & S2 & S3 & S4 & S5 & S6 & S7 & S8 & S9 & S10 & S11 & S12).
  unfold validate_response, nested, agent_response, opt_text.
  rewrite (Hr d "id" _ S1), (Hr d "function" _ S2), (Hr d "status" _ S3).
  rewrite (Ho _ d "progress" (px_int px) JInt (rs_progress r)) by (done || apply lax_int).
  rewrite (Ho _ d "progress_message" (px_str px) JStr (rs_progress_message r)) by (done || apply lax_str).
  rewrite (Ho _ d "error" (px_str px) JStr (rs_error r)), (Ho _ d "vm_id" (px_str px) JStr (rs_vm_id r)),
    (Ho _ d "vm_state" (px_str px) JStr (rs_vm_state r)), (Ho _ d "finished_at" (px_str px) JStr (rs_finished_at r))
    by (done || apply lax_str).
  rewrite (Ho _ d "vm_status" as_dict JObj (rs_vm_status r)), (Ho _ d "template" as_dict JObj (rs_template r)) by done.
  assert (defaulted d "result" "result" response_result RNone = Some (rs_result r)) as ->.
  { unfold defaulted, entry. unfold dget in S6. destruct (dict_find d "result") as [x|]; cbn in S6.
    - subst x. by destruct (rs_result r).
    - by destruct (rs_result r). }
  by destruct r.
Qed.

(** ** Rows of an older agent *)

(** text, or nothing *)
Definition textual (v : json) : Prop := truthy v = false ∨ ∃ s, v = JStr s.
Lemma textual_or v : textual v → ∃ s, py_or v (JStr "") = JStr s.
Proof. unfold py_or. intros [->|[s ->]]; [by exists ""|]. by destruct (truthy (JStr s)); eexists. Qed.
Lemma textual_none v : textual v → ∃ o, or_none v = or_null JStr o.
Proof.
  unfold or_none, py_or. intros [->|[s ->]]; [by exists None|].
  destruct (truthy (JStr s)); [by exists (Some s)|by exists None].
Qed.
Definition LEGACY_TEXTS : list string :=
  ["cpuModel"; "osName"; "osVersion"; "hwManufacturer"; "hwModel"; "clusterState"; "clusterName"; "defaultVmPath";
   "defaultVhdPath"].
(** what the flat payload holds where the schema wants text, a list of names or a date *)
Record legacy_ok (px : scalars) (raw : dict) : Prop := {
  lo_text k : k ∈ LEGACY_TEXTS → textual (dget raw k);
  lo_volume l vol : dget raw "storage" = JList l → JObj vol ∈ l → textual (dget vol "path") ∧ textual (dget vol "name");
  lo_nodes : truthy (dget raw "clusterNodes") = false ∨ ∃ l, dget raw "clusterNodes" = JList (JStr <$> l);
  lo_boot : truthy (dget raw "lastBootTime") = true → is_Some (px_datetime px (dget raw "lastBootTime"));
  lo_flat c : dget raw "cpu" ≠ JObj c
}.
Section legacy.
Context (px : scalars) {L : Lax px}.
Lemma legacy_volume_reads vol v :
  textual (dget vol "path") → textual (dget vol "name") → legacy_volume vol = inl v → is_Some (storage_volume px v).
Proof using L.
  intros P N H. unfold legacy_volume in H. apply res_bind_inl in H as (total & _ & H). apply res_bind_inl in H as (free & _ & H).
  injection H as <-. assert (∃ s, py_or (py_or (dget vol "path") (dget vol "name")) (JStr "") = JStr s) as [s ->].
  { apply textual_or. unfold py_or. by destruct (truthy (dget vol "path")). }
  destruct (textual_none _ N) as [o ->]. exists (mkVolume s o total free). apply (storage_volume_shown px (mkVolume s o total free)).
Qed.
Lemma legacy_volumes_read l vs :
  (∀ vol, JObj vol ∈ l → textual (dget vol "path") ∧ textual (dget vol "name")) →
  res_map legacy_volume (dicts l) = inl vs → ∃ xs, mapM (nested (storage_volume px)) (JObj <$> vs) = Some xs.
Proof using L.
  revert vs. induction l as [|x l IH]; intros vs Hl H; [injection H as <-; by exists []|].
  assert (∀ vol, JObj vol ∈ l → textual (dget vol "path") ∧ textual (dget vol "name")) as Hl' by (intros vol Hv; apply Hl; by right).
  unfold dicts in H. destruct x as [| | | | | |d]; cbn [omap list_omap as_dict] in H; try (by apply (IH vs Hl')).
  cbn [res_map] in H. apply res_bind_inl in H as (v & Hv & H). apply res_bind_inl in H as (vs' & Hvs & H). injection H as <-.
  destruct (Hl d) as [P N]; [by left|]. destruct (legacy_volume_reads d v P N Hv) as [y Hy].
  destruct (IH vs' Hl' Hvs) as [ys Hys]. exists (y :: ys). cbn. by rewrite Hy, Hys.
Qed.
Lemma drive_reads total free : is_Some (storage_volume px [("path", JStr "C:\"); ("totalBytes", JInt total); ("freeBytes", JInt free)]).
Proof using L.
  exists (mkVolume "C:\" None total free). unfold storage_volume, required, opt_text, optional, number, defaulted, entry.
  cbn -[mret]. rewrite lax_str. cbn -[mret]. by rewrite !lax_int.
Qed.
Lemma volumes_textual raw vols vol :
  legacy_ok px raw → py_iter (py_or (dget raw "storage") (JList [])) = inl vols → JObj vol ∈ vols →
  textual (dget vol "path") ∧ textual (dget vol "name").
Proof using Type.
  intros Ok H Hin. unfold py_or in H. destruct (truthy (dget raw "storage")); [|injection H as <-; by apply not_elem_of_nil in Hin].
  destruct (dget raw "storage") as [| | | |s|l|d] eqn:E; cbn in H; try done; injection H as <-.
  - exfalso. clear E. revert Hin. induction s as [|c s IH]; cbn; [by intros ?%not_elem_of_nil|].
    intros [?|?]%elem_of_cons; [done|auto].
  - by apply (lo_volume px raw Ok l).
  - by apply list_elem_of_fmap in Hin as (k & ? & _).
Qed.
(** the optional parts of a mapped row *)
Definition opt_part {A} (k : string) (f : A → json) (o : option A) : dict := match o with Some a => [(k, f a)] | None => [] end.
Lemma legacy_shape raw out :
  legacy_ok px raw → normalize_hardware (JObj raw) = inl (Some out) →
  ∃ cpu mem vs os load sys boot clu hv xs,
    out = ([("cpu", JObj (show_cpu_info cpu)); ("memoryBytes", JInt mem); ("storage", JList (JObj <$> vs));
            ("os", JObj (show_os_info os)); ("network", JList []); ("vSwitches", JList []);
            ("load", JObj (show_load_snapshot load))] ++
           opt_part "system" (JObj ∘ show_system_info) sys ++ opt_part "bootTime" id boot ++
           opt_part "cluster" (JObj ∘ show_failover_cluster) clu ++ opt_part "hyperv" (JObj ∘ show_hyperv_paths) hv)%list ∧
    mapM (nested (storage_volume px)) (JObj <$> vs) = Some xs ∧
    (∀ b, boot = Some b → b ≠ JNull ∧ is_Some (px_datetime px b)).
Proof using L.
  intros Ok H. assert (∀ k, k ∈ LEGACY_TEXTS → ∃ s, py_or (dget raw k) (JStr "") = JStr s) as Tx by (intros k Hk; apply textual_or; exact (lo_text px raw Ok k Hk)).
  assert (∀ k, k ∈ LEGACY_TEXTS → ∃ o, or_none (dget raw k) = or_null JStr o) as To by (intros k Hk; apply textual_none; exact (lo_text px raw Ok k Hk)).
  unfold normalize_hardware in H. destruct raw as [|kv raw0] eqn:Eraw; [done|]. rewrite <- Eraw in *. clear Eraw kv raw0.
  assert (∀ A (x y : A), match dget raw "cpu" with JObj _ => x | _ => y end = y) as Hcpu.
  { intros A x y. destruct (dget raw "cpu") eqn:E; try done. by apply (lo_flat px raw Ok) in E. }
  rewrite Hcpu in H. clear Hcpu.
  apply res_bind_inl in H as (vols & Hv & H). apply res_bind_inl in H as (vs0 & Hvs & H). apply res_bind_inl in H as (vs & Hd & H).
  destruct (legacy_volumes_read vols vs0 (λ vol, volumes_textual raw vols vol Ok Hv) Hvs) as [xs0 Hxs0].
  assert (∃ xs, mapM (nested (storage_volume px)) (JObj <$> vs) = Some xs) as [xs Hxs].
  { destruct (dget raw "diskC"); try (injection Hd as <-; by exists xs0).
    apply res_bind_inl in Hd as (has & _ & Hd). destruct has; [injection Hd as <-; by exists xs0|].
    apply res_bind_inl in Hd as (total & _ & Hd). apply res_bind_inl in Hd as (free & _ & Hd). injection Hd as <-.
    destruct (drive_reads total free) as [y Hy]. exists (y :: xs0). cbn -[storage_volume]. by rewrite Hy, Hxs0. }
  apply res_bind_inl in H as (mem & _ & H).
  destruct (negb _); [done|]. apply res_bind_inl in H as (logical & _ & H). apply res_bind_inl in H as (sockets & _ & H).
  apply res_bind_inl in H as (cores & _ & H). apply res_bind_inl in H as (cpu & _ & H). apply res_bind_inl in H as (memory & _ & H).
  injection H as <-.
  destruct (Tx "cpuModel") as [t1 E1]; [apply (bool_decide_unpack _); vm_compute; exact I|]. destruct (Tx "osName") as [t2 E2]; [apply (bool_decide_unpack _); vm_compute; exact I|].
  destruct (Tx "osVersion") as [t3 E3]; [apply (bool_decide_unpack _); vm_compute; exact I|]. destruct (Tx "hwManufacturer") as [t4 E4]; [apply (bool_decide_unpack _); vm_compute; exact I|].
  destruct (Tx "hwModel") as [t5 E5]; [apply (bool_decide_unpack _); vm_compute; exact I|]. destruct (Tx "clusterState") as [t6 E6]; [apply (bool_decide_unpack _); vm_compute; exact I|].
  destruct (To "clusterName") as [o7 E7]; [apply (bool_decide_unpack _); vm_compute; exact I|]. destruct (To "defaultVmPath") as [o8 E8]; [apply (bool_decide_unpack _); vm_compute; exact I|].
  destruct (To "defaultVhdPath") as [o9 E9]; [apply (bool_decide_unpack _); vm_compute; exact I|].
  assert (∃ nodes, py_or (dget raw "clusterNodes") (JList []) = JList (JStr <$> nodes)) as [nodes E10].
  { unfold py_or. destruct (lo_nodes px raw Ok) as [->|[l ->]]; [by exists []|]. exists l. by destruct l. }
  exists (mkCpuInfo t1 (if sockets =? 0 then (if logical =? 0 then 0 else 1) else sockets) (if cores =? 0 then logical else cores) logical),
    mem, vs, (mkOsInfo t2 t3), (mkLoad (Some cpu) (Some memory)),
    (if truthy (dget raw "hwManufacturer") || truthy (dget raw "hwModel") then Some (mkSystemInfo t4 t5) else None),
    (if truthy (dget raw "lastBootTime") then Some (dget raw "lastBootTime") else None),
    (if truthy (dget raw "clusterState") || truthy (dget raw "isCluster")
     then Some (mkFailover (truthy (dget raw "isCluster")) o7 t6 nodes) else None),
    (if truthy (dget raw "defaultVmPath") || truthy (dget raw "defaultVhdPath") then Some (mkPaths o8 o9) else None), xs.
  split; [|split; [exact Hxs|]].
  - rewrite E1, E2, E3, E4, E5, E6, E7, E8, E9, E10.
    destruct (_ || truthy (dget raw "hwModel")), (truthy (dget raw "lastBootTime")), (_ || truthy (dget raw "isCluster")),
      (_ || truthy (dget raw "defaultVhdPath")); reflexivity.
  - destruct (truthy (dget raw "lastBootTime")) eqn:Eb; [|done]. intros b [= <-]. split; [by intros Hn; rewrite Hn in Eb|].
    by apply (lo_boot px raw Ok).
Qed.

(** a mapped row validates: the page shows what the older agent reported *)
Lemma legacy_reads raw out :
  legacy_ok px raw → normalize_hardware (JObj raw) = inl (Some out) →
  ∃ x, host_hardware_inventory px out = Some x ∧ hh_network x = [] ∧ hh_v_switches x = [] ∧ hh_hbas x = [].
Proof using L.
  intros Ok H. destruct (legacy_shape raw out Ok H) as (cpu & mem & vs & os & load & sys & boot & clu & hv & xs & -> & Hxs & Hb).
  assert (∃ t, match boot with Some b => or_none_of (px_datetime px) b | None => Some None end = Some t) as [t Ht].
  { destruct boot as [b|]; [|by exists None]. destruct (Hb b eq_refl) as [Nb [t Hdt]]. exists (Some t). unfold or_none_of.
    destruct b; try done; by rewrite Hdt. }
  exists (mkInventory cpu mem xs os [] [] [] sys t (Some load) clu hv). split; [|done].
  assert (∀ A (v : dict → option A) (f : A → dict) a, (∀ a, v (f a) = Some a) → or_none_of (nested v) (JObj (f a)) = Some (Some a)) as P.
  { intros A v f a Hf. cbn. by rewrite Hf. }
  assert (list_of (nested (storage_volume px)) (JList (JObj <$> vs)) = Some xs) as Hl by exact Hxs.
  unfold host_hardware_inventory, number, optional, defaulted, entry.
  destruct sys as [sy|], boot as [b|], clu as [cl|], hv as [h|];
    cbn [opt_part app dict_find String.eqb Ascii.eqb Bool.eqb id compose];
    change (nested (cpu_info px) (JObj (show_cpu_info cpu))) with (cpu_info px (show_cpu_info cpu));
    change (nested (os_info px) (JObj (show_os_info os))) with (os_info px (show_os_info os));
    rewrite (cpu_info_shown px), lax_int, Hl, (os_info_shown px); cbn [mbind option_bind list_of mapM];
    rewrite ?(P _ _ _ sy (system_info_shown px)), ?(P _ _ _ load (load_snapshot_shown px)),
      ?(P _ _ _ cl (failover_cluster_shown px)), ?(P _ _ _ h (hyperv_paths_shown px)), ?Ht;
    by simplify_eq.
Qed.
End legacy.

(** C32: the hardware of a host stays readable.  The inventory an API answer shows
    validates back to itself.  A row an older agent wrote, flat, maps to the
    current shape and validates whenever its texts are texts, its cluster nodes
    names and its boot time a date - so the host page shows it, and goes on
    showing the same once the mapped row has been stored in its place. *)
Theorem hardware_readable px w :
  Lax px →
  (∀ x, showable x →
     hardware_out (host_hardware_inventory px) (Some (show_inventory px x)) w = (Ok (Some x), w)) ∧
  (∀ raw out, legacy_ok px raw → normalize_hardware (JObj raw) = inl (Some out) →
     ∃ x, hardware_out (host_hardware_inventory px) (Some raw) w = (Ok (Some x), w) ∧
       hardware_out (host_hardware_inventory px) (Some out) w = (Ok (Some x), w) ∧
       hh_network x = [] ∧ hh_v_switches x = [] ∧ hh_hbas x = []).
Proof.
  intros L. unfold hardware_out. split.
  - intros x Hx. change (normalize_hardware (JObj (show_inventory px x))) with (inl (B := pyexn) (Some (show_inventory px x))).
    cbn [lift_py]. rewrite run_ret. cbn [mbind option_bind]. by rewrite inventory_shown.
  - intros raw out Ok H. destruct (legacy_reads px raw out Ok H) as (x & Hx & Hn). exists x. rewrite H.
    destruct (legacy_shape px raw out Ok H) as (cpu & mem & vs & os & load & sys & boot & clu & hv & xs & Eo & _).
    assert (normalize_hardware (JObj out) = inl (Some out)) as -> by (by rewrite Eo).
    cbn [lift_py]. rewrite run_ret. cbn [mbind option_bind]. by rewrite Hx.
Qed.
(** the declared types, no coercion, and ISO dates *)
Definition strict : scalars := mkScalars
  (λ v, match v with JStr s => Some s | _ => None end) (λ v, match v with JInt z => Some z | _ => None end)
  (λ v, match v with JFloat f => Some f | _ => None end) (λ v, match v with JBool b => Some b | _ => None end)
  (λ v, match v with JStr s => fromisoformat s | _ => None end) isoformat.
#[export] Instance strict_lax : Lax strict.
Proof. split; [done..|]. intros t Ht. cbn. by apply fromisoformat_isoformat. Qed.
Definition flat_row : dict :=
  [("cpuModel", JStr "Xeon"); ("logicalProcessors", JInt 16); ("memoryCapacityMB", JInt 65536);
   ("osName", JStr "Windows Server"); ("storage", JList [JObj [("name", JStr "D:"); ("totalGb", JInt 100)]]);
   ("diskC", JObj [("totalGb", JInt 50)]); ("clusterState", JStr "Up"); ("clusterNodes", JList [JStr "n1"])].
Lemma hardware_readable_witness : ∃ x,
  hardware_out (host_hardware_inventory strict) (Some flat_row) sample_world = (Ok (Some x), sample_world) ∧ hh_network x = [].
Proof.
  destruct (normalize_hardware (JObj flat_row)) as [[out|]|e] eqn:E; [|vm_compute in E; discriminate E..].
  destruct (proj2 (hardware_readable strict sample_world strict_lax) flat_row out) as (x & H & _ & Hn & _); [|exact E|].
  - split.
    + intros k Hk. repeat (apply elem_of_cons in Hk as [->|Hk]; [first [left; reflexivity|right; eexists; reflexivity]|]).
      by apply not_elem_of_nil in Hk.
    + intros l vol [= <-] [[= ->]|[]%not_elem_of_nil]%elem_of_cons. split; [left; reflexivity|right; eexists; reflexivity].
    + right. by exists ["n1"].
    + discriminate.
    + discriminate.
  - exists x. split; [exact H|exact Hn].
Defined.
