(* ===== verification/Subscriptions.v ===== *)
(** * The worker's subscriptions ([app/worker/main.py])

    Which hosts the worker consumes, on which channels, and the watchdogs that
    repair it.  A process state [(worker, world)] is passed explicitly: the
    module's globals and the locals of [run] are the record [worker]; a channel
    is a number, open or closed, with the consumers registered on it.
    [time.monotonic] is read as the world's clock: only differences count. *)
From S2P Require Import Prelude Py Clock Model World Store Messaging.
From Stdlib Require Import Ascii.
Open Scope string_scope.
Open Scope Z_scope.

Definition RABBITMQ_MAX_DOWNTIME_SECONDS : Z := 120.
Definition CONSUMER_ZOMBIE_THRESHOLD : Z := 600.
Definition HOST_CONSUMER_SILENCE_THRESHOLD : Z := 300.

Record worker := mkWorker {
  host_channels : gmap string nat;          (* short_id -> the channel it owns *)
  host_last_message_at : gmap string Z;
  last_message_processed_at : Z;
  rabbitmq_lost_at : option Z;              (* [None]: healthy *)
  ch_next : nat;                            (* channels opened so far *)
  ch_open : gset nat;
  ch_consumers : gset (nat * string)        (* live consumers: channel, queue *)
}.
#[export] Instance eta_worker : Eta worker :=
  Build_Eta _ (λ k, mkWorker (host_channels k) (host_last_message_at k) (last_message_processed_at k)
    (rabbitmq_lost_at k) (ch_next k) (ch_open k) (ch_consumers k)).
Definition start_worker (now : Z) : worker := mkWorker ∅ ∅ now None 0 ∅ ∅.

(** ** The process monad *)
Definition W (A : Type) : Type := worker → world → outcome A * (worker * world).
#[export] Instance W_ret : MRet W := λ A a k w, (Ok a, (k, w)).
#[export] Instance W_bind : MBind W := λ A B f m k w,
  match m k w with
  | (Ok a, (k', w')) => f a k' w'
  | (Raise e, p) => (Raise e, p)
  end.
Definition wraise {A} (e : exn) : W A := λ k w, (Raise e, (k, w)).
Definition on_world {A} (m : M A) : W A := λ k w, let '(o, w') := m w in (o, (k, w')).
Definition wgets {A} (f : worker → world → A) : W A := λ k w, (Ok (f k w), (k, w)).
Definition wmodify (f : worker → worker) : W unit := λ k w, (Ok tt, (f k, w)).
Definition wtry {A} (m : W A) (h : W A) : W A := λ k w,
  match m k w with
  | (Ok a, p) => (Ok a, p)
  | (Raise _, (k', w')) => h k' w'
  end.
Fixpoint wfor_each {A} (l : list A) (body : A → W unit) : W unit :=
  match l with
  | [] => mret tt
  | x :: l' => body x;; wfor_each l' body
  end.

(** ** Channels: an exception of the broker kills the channel it ran on, and
    the consumers registered there *)
Definition drop_channel (c : nat) (k : worker) : worker :=
  k <| ch_open ::= λ s, s ∖ {[c]} |> <| ch_consumers ::= filter (λ p, p.1 ≠ c) |>.
Definition open_channel : W nat := λ k w,
  if w_broker_up w then
    (Ok (ch_next k), (k <| ch_next ::= S |> <| ch_open ::= λ s, {[ch_next k]} ∪ s |>, w))
  else (Raise EBroker, (k, w)).
Definition close_channel (c : nat) : W unit := wmodify (drop_channel c).
Definition on_channel {A} (c : nat) (m : M A) : W A := λ k w,
  if bool_decide (c ∈ ch_open k) then
    match m w with
    | (Ok a, w') => (Ok a, (k, w'))
    | (Raise e, w') => (Raise e, (drop_channel c k, w'))
    end
  else (Raise EBroker, (k, w)).
Definition consume (c : nat) (queue : string) : W unit :=
  wgets (λ k w, w_broker_up w && bool_decide (c ∈ ch_open k)) ≫= (λ up : bool,
  if up then wmodify (λ k, k <| ch_consumers ::= λ s, {[(c, queue)]} ∪ s |>) else wraise EBroker).

(** [channel.set_qos]; the window itself is not state of the model *)
Definition PREFETCH_COUNT : nat := 16.
Definition set_qos (c prefetch_count : nat) : W unit := on_channel c (broker_op Some).
(** A consumer can vanish while its channel stays open (the broker cancels it
    with the queue), and the library reopens the channels of a connection that
    came back, with the consumers it could register again. *)
Definition cancel_consumer (c : nat) (queue : string) (k : worker) : worker :=
  k <| ch_consumers ::= λ s, s ∖ {[(c, queue)]} |>.
Definition restore_channel (c : nat) (queues : list string) (k : worker) : worker :=
  k <| ch_open ::= λ o, {[c]} ∪ o |> <| ch_consumers ::= λ s, list_to_set ((λ q, (c, q)) <$> queues) ∪ s |>.

(** ** Discovery *)
Definition known_hosts : M (list (string * string)) :=
  session_scope (query (λ d, (λ h, (h_id h, h_short_id h)) <$> rows (λ _, true) (hosts d))).
Definition subscribe_host (host_id short_id : string) : W (option nat) :=
  channel ← open_channel;
  wtry (set_qos channel PREFETCH_COUNT;;
        on_channel channel (declare_host_queues short_id);;
        wfor_each CONSUMED_KINDS (λ kind, consume channel (queue_name short_id kind));;
        now ← wgets (λ _ w, w_now w);
        wmodify (λ k, k <| host_last_message_at ::= <[short_id := now]> |>);;
        mret (Some channel))
       (close_channel channel;; mret None).
Definition unsubscribe_host (short_id : string) : W unit :=
  channel ← wgets (λ k _, host_channels k !! short_id);
  wmodify (λ k, k <| host_last_message_at ::= delete short_id |> <| host_channels ::= delete short_id |>);;
  match channel with Some c => close_channel c | None => mret tt end.
(** a pending host is recorded only once its subscription succeeded *)
Definition subscribe_pending (h : string * string) : W unit :=
  channel ← subscribe_host h.1 h.2;
  match channel with
  | Some c => wmodify (λ k, k <| host_channels ::= <[h.2 := c]> |>)
  | None => mret tt
  end.
Definition refresh_subscriptions : W unit :=
  hosts ← on_world known_hosts;
  gone ← wgets (λ k _, elements (dom (host_channels k) ∖ list_to_set (hosts.*2)));
  wfor_each gone unsubscribe_host;;
  pending ← wgets (λ k _, List.filter (λ h, negb (is_some (host_channels k !! h.2))) hosts);
  wfor_each pending subscribe_pending.

(** ** Messages and watchdogs *)

(** the bookkeeping of [_on_message] *)
Definition on_message (short_id : string) : W unit :=
  now ← wgets (λ _ w, w_now w);
  wmodify (λ k, k <| last_message_processed_at := now |> <| host_last_message_at ::= <[short_id := now]> |>).
Definition on_connection_close : W unit :=
  now ← wgets (λ _ w, w_now w);
  wmodify (λ k, k <| rabbitmq_lost_at ::= λ o, Some (default now o) |>).
Definition on_connection_reconnect : W unit := wmodify (λ k, k <| rabbitmq_lost_at := None |>).
(** one pass of [check_rabbitmq_health] / [check_consumer_health]: exit? *)
Definition rabbitmq_lost_for_good (k : worker) (now : Z) : bool :=
  match rabbitmq_lost_at k with
  | Some t => seconds RABBITMQ_MAX_DOWNTIME_SECONDS <=? now - t
  | None => false
  end.
Definition consumer_zombie (k : worker) (now : Z) : bool :=
  negb (bool_decide (host_channels k = ∅)) &&
  (seconds CONSUMER_ZOMBIE_THRESHOLD <=? now - last_message_processed_at k).
(** one host of one pass of [check_host_consumers]; [message_count] is what the
    broker answers for a queue *)
Definition probe_host (message_count : string → nat) (now : Z) (short_id : string) (channel : nat) : W unit :=
  last ← wgets (λ k _, default now (host_last_message_at k !! short_id));
  if now - last <? seconds HOST_CONSUMER_SILENCE_THRESHOLD then mret tt
  else
    is_closed ← wgets (λ k _, negb (bool_decide (channel ∈ ch_open k)));
    stuck ← (if is_closed : bool then mret true
             else wtry (on_channel channel (declare_queue (queue_name short_id RESPONSE) []);;
                        mret (negb (message_count (queue_name short_id RESPONSE) =? 0)%nat))
                       (mret true));
    if stuck : bool then unsubscribe_host short_id else mret tt.
Definition check_host_consumers (message_count : string → nat) : W unit :=
  now ← wgets (λ _ w, w_now w);
  monitored ← wgets (λ k _, map_to_list (host_channels k));
  wfor_each monitored (λ sc, probe_host message_count now sc.1 sc.2).

(** ** Running the process monad *)
Lemma wrun_ok {A B} (m : W A) (f : A → W B) k w a k' w' :
  m k w = (Ok a, (k', w')) → (m ≫= f) k w = f a k' w'.
Proof. intros H. unfold mbind, W_bind. by rewrite H. Qed.
Lemma wrun_fail {A B} (m : W A) (f : A → W B) k w e p :
  m k w = (Raise e, p) → (m ≫= f) k w = (Raise e, p).
Proof. intros H. unfold mbind, W_bind. by rewrite H. Qed.
Lemma wrun_gets {A B} (g : worker → world → A) (f : A → W B) k w : (wgets g ≫= f) k w = f (g k w) k w.
Proof. done. Qed.
Lemma wrun_modify {B} g (f : unit → W B) k w : (wmodify g ≫= f) k w = f tt (g k) w.
Proof. done. Qed.
Lemma wrun_assoc {A B C} (m : W A) (f : A → W B) (g : B → W C) k w :
  ((m ≫= f) ≫= g) k w = (m ≫= (λ a, f a ≫= g)) k w.
Proof. unfold mbind, W_bind. by destruct (m k w) as [[a|e] [k' w']]. Qed.

(** ** The invariant of the process *)

(** every monitored host owns a channel of its own; a live consumer sits on the
    open channel of the host whose queue it consumes; a monitored host whose
    channel is open is consumed on every kind, but for the consumers [lost]
    while their channel stayed open *)
Section invariant.
Context (lost : gset (nat * string)).
Record worker_ok (k : worker) : Prop := {
  wo_own s s' c : host_channels k !! s = Some c → host_channels k !! s' = Some c → s = s';
  wo_fresh_host s c : host_channels k !! s = Some c → (c < ch_next k)%nat;
  wo_fresh_open c : c ∈ ch_open k → (c < ch_next k)%nat;
  wo_consumer c q : (c, q) ∈ ch_consumers k →
    c ∈ ch_open k ∧ ∃ s kd, host_channels k !! s = Some c ∧ kd ∈ CONSUMED_KINDS ∧ q = queue_name s kd;
  wo_full s c kd : host_channels k !! s = Some c → c ∈ ch_open k → kd ∈ CONSUMED_KINDS →
    (c, queue_name s kd) ∈ ch_consumers k ∨ (c, queue_name s kd) ∈ lost
}.
(** the channel is a fresh one *)
Lemma wo_next k : worker_ok k → ch_next k ∉ ch_open k ∧ ∀ q, (ch_next k, q) ∉ ch_consumers k.
Proof.
  intros Hk. split.
  - intros H%(wo_fresh_open k Hk). lia.
  - intros q [H%(wo_fresh_open k Hk) _]%(wo_consumer k Hk). lia.
Qed.
Lemma start_ok now : worker_ok (start_worker now).
Proof. split; cbn; intros *; rewrite ?lookup_empty, ?elem_of_empty; done. Qed.

(** what the API and the broker allow: the host's queues can be declared *)
Definition subscribable (w : world) (s : string) : Prop :=
  ∀ kd a, queues (w_mq w) !! queue_name s kd = Some a → a = queue_args (w_cfg w) kd.

Lemma declare_queue_run n a w :
  w_broker_up w = true →
  ∃ b o, declare_queue n a w = (o, w <| w_mq := b |>) ∧ (o = Ok tt ∨ o = Raise EBroker) ∧
    ∀ n', n' ≠ n → queues b !! n' = queues (w_mq w) !! n'.
Proof.
  intros Hup. unfold declare_queue, broker_op. rewrite Hup.
  destruct (queues (w_mq w) !! n) as [a'|].
  - exists (w_mq w). destruct (decide (a' = a)); eexists; (split; [by destruct w|]); auto.
  - eexists _, _. split; [done|]. split; [by left|]. intros n' Hn. cbn. by rewrite lookup_insert_ne.
Qed.
Lemma declare_run h w :
  w_broker_up w = true →
  ∃ b o, declare_host_queues h w = (o, w <| w_mq := b |>) ∧ (o = Ok tt ∨ o = Raise EBroker) ∧
    (subscribable w h → o = Ok tt) ∧
    ∀ n, (∀ kd, n ≠ queue_name h kd) → queues b !! n = queues (w_mq w) !! n.
Proof.
  intros Hup. unfold declare_host_queues. rewrite run_settings.
  assert (∀ cfg ks w, w_broker_up w = true → ∃ b o,
    for_each ks (λ k, declare_queue (queue_name h k) (queue_args cfg k)) w = (o, w <| w_mq := b |>) ∧
    (o = Ok tt ∨ o = Raise EBroker) ∧
    ∀ n, (∀ kd, n ≠ queue_name h kd) → queues b !! n = queues (w_mq w) !! n) as Hgen.
  { clear. intros cfg ks. induction ks as [|kd ks IH]; intros w Hup; cbn [for_each].
    { exists (w_mq w), (Ok tt). split; [by destruct w|]. split; [by left|done]. }
    destruct (declare_queue_run (queue_name h kd) (queue_args cfg kd) w Hup) as (b & o & Hd & [-> | ->] & Hf).
    - destruct (IH (w <| w_mq := b |>)) as (b' & o & Hl & Ho & Hf'); [exact Hup|].
      exists b', o. rewrite (run_ok _ _ _ _ _ Hd). split; [exact Hl|]. split; [done|].
      intros n Hn. rewrite Hf' by done. by apply Hf.
    - exists b, (Raise EBroker). rewrite (run_fail _ _ _ _ _ Hd). split; [done|]. split; [by right|].
      intros n Hn. by apply Hf. }
  destruct (Hgen (w_cfg w) ALL_KINDS w Hup) as (b & o & Hr & Ho & Hf). exists b, o.
  split; [exact Hr|]. split; [done|]. split; [|done]. intros Hs.
  destruct (declare_list h ALL_KINDS w Hup) as (b' & Hb & _); [intros kd a _; apply Hs|].
  rewrite Hr in Hb. by injection Hb as -> _.
Qed.

(** registering consumers on an open channel *)
Lemma consume_all c s ks k w :
  w_broker_up w = true → c ∈ ch_open k →
  ∃ cons, wfor_each ks (λ kd, consume c (queue_name s kd)) k w = (Ok tt, (k <| ch_consumers := cons |>, w)) ∧
    ∀ p, p ∈ cons ↔ p ∈ ch_consumers k ∨ ∃ kd, kd ∈ ks ∧ p = (c, queue_name s kd).
Proof.
  intros Hup. revert k. induction ks as [|kd ks IH]; intros k Hc; cbn [wfor_each].
  { exists (ch_consumers k). split; [by destruct k|]. intros p. split; [auto|].
    intros [?|(kd & Hkd & _)]; [done|]. by apply not_elem_of_nil in Hkd. }
  set (k1 := k <| ch_consumers ::= λ s0, {[(c, queue_name s kd)]} ∪ s0 |>).
  assert (consume c (queue_name s kd) k w = (Ok tt, (k1, w))) as H1.
  { unfold consume. rewrite wrun_gets, Hup, bool_decide_eq_true_2 by done. done. }
  destruct (IH k1 Hc) as (cons & Hl & Hp). exists cons. rewrite (wrun_ok _ _ _ _ _ _ _ H1).
  split; [exact Hl|]. intros p. rewrite Hp. unfold k1. cbn. rewrite elem_of_union, elem_of_singleton.
  setoid_rewrite elem_of_cons. naive_solver.
Qed.

(** ** One host *)

(** dropping a channel that is closed does nothing; dropping the channel just
    opened undoes the opening *)
Lemma drop_closed c k : c ∉ ch_open k → (∀ q, (c, q) ∉ ch_consumers k) → drop_channel c k = k.
Proof.
  intros Ho Hc. unfold drop_channel. destruct k as [hc hl lp lo nx op cs]. cbn in *. f_equal.
  - apply set_eq. intros x. rewrite elem_of_difference, elem_of_singleton. naive_solver.
  - apply set_eq. intros [x q]. rewrite elem_of_filter. cbn. split; [naive_solver|].
    intros Hx. split; [|done]. intros ->. by destruct (Hc q).
Qed.
Lemma drop_opened k :
  worker_ok k →
  drop_channel (ch_next k) (k <| ch_next ::= S |> <| ch_open ::= λ o, {[ch_next k]} ∪ o |>) = k <| ch_next ::= S |>.
Proof.
  intros Hk. destruct (wo_next k Hk) as [Ho Hc]. unfold drop_channel. destruct k as [hc hl lp lo nx op cs].
  cbn in *. f_equal.
  - apply set_eq. intros x. rewrite elem_of_difference, elem_of_union, !elem_of_singleton. naive_solver.
  - apply set_eq. intros [x q]. rewrite elem_of_filter. cbn. split; [naive_solver|].
    intros Hx. split; [|done]. intros ->. by destruct (Hc q).
Qed.
Definition subscribed (k : worker) (s : string) (cons : gset (nat * string)) (now : Z) : worker :=
  k <| ch_next ::= S |> <| ch_open ::= λ o, {[ch_next k]} ∪ o |> <| ch_consumers := cons |>
    <| host_last_message_at ::= <[s := now]> |>.
Lemma subscribe_run k w id s :
  worker_ok k → w_broker_up w = true →
  ∃ b cons, let w' := w <| w_mq := b |> in
    (subscribe_host id s k w = (Ok (Some (ch_next k)), (subscribed k s cons (w_now w), w')) ∨
     ¬ subscribable w s ∧ subscribe_host id s k w = (Ok None, (k <| ch_next ::= S |>, w'))) ∧
    (∀ p, p ∈ cons ↔ p ∈ ch_consumers k ∨ ∃ kd, kd ∈ CONSUMED_KINDS ∧ p = (ch_next k, queue_name s kd)) ∧
    ∀ n, (∀ kd, n ≠ queue_name s kd) → queues b !! n = queues (w_mq w) !! n.
Proof.
  intros Hk Hup.
  destruct (declare_run s w Hup) as (b & o & Hd & Ho & Hs & Hf).
  set (k1 := k <| ch_next ::= S |> <| ch_open ::= λ o, {[ch_next k]} ∪ o |>).
  assert (ch_next k ∈ ch_open k1) as Hin by (unfold k1; cbn; set_solver).
  destruct (consume_all (ch_next k) s CONSUMED_KINDS k1 (w <| w_mq := b |>)) as (cons & Hc & Hp); [exact Hup|done|].
  exists b, cons. split; [|split; [exact Hp|exact Hf]].
  assert (open_channel k w = (Ok (ch_next k), (k1, w))) as Hopen by (unfold open_channel; by rewrite Hup).
  assert (set_qos (ch_next k) PREFETCH_COUNT k1 w = (Ok tt, (k1, w))) as Hqos.
  { unfold set_qos, on_channel. rewrite bool_decide_eq_true_2 by done. unfold broker_op. rewrite Hup. by destruct w. }
  unfold subscribe_host. rewrite (wrun_ok _ _ _ _ _ _ _ Hopen). unfold wtry. rewrite (wrun_ok _ _ _ _ _ _ _ Hqos).
  destruct Ho as [-> | ->]; [left|right].
  - assert (on_channel (ch_next k) (declare_host_queues s) k1 w = (Ok tt, (k1, w <| w_mq := b |>))) as Hon.
    { unfold on_channel. rewrite bool_decide_eq_true_2 by done. by rewrite Hd. }
    rewrite (wrun_ok _ _ _ _ _ _ _ Hon), (wrun_ok _ _ _ _ _ _ _ Hc). reflexivity.
  - split; [intros Hsub; by discriminate Hs|].
    assert (on_channel (ch_next k) (declare_host_queues s) k1 w =
      (Raise EBroker, (drop_channel (ch_next k) k1, w <| w_mq := b |>))) as Hon.
    { unfold on_channel. rewrite bool_decide_eq_true_2 by done. by rewrite Hd. }
    rewrite (wrun_fail _ _ _ _ _ _ Hon). unfold close_channel. rewrite wrun_modify.
    pose proof (drop_opened k Hk) as E. fold k1 in E. rewrite E. destruct (wo_next k Hk) as [Hno Hnc].
    by rewrite drop_closed.
Qed.
(** a host recorded with the channel it was just subscribed on *)
Lemma adopt_ok k s cons now :
  worker_ok k → host_channels k !! s = None →
  (∀ p, p ∈ cons ↔ p ∈ ch_consumers k ∨ ∃ kd, kd ∈ CONSUMED_KINDS ∧ p = (ch_next k, queue_name s kd)) →
  worker_ok (subscribed k s cons now <| host_channels ::= <[s := ch_next k]> |>).
Proof.
  intros Hk Hs Hp. destruct (wo_next k Hk) as [Hno Hnc]. destruct Hk as [Own Fh Fo Cons Full].
  split; cbn.
  - intros s1 s2 c. rewrite !lookup_insert_Some.
    intros [[<- <-]|[Hn1 H1]] [[<- E]|[Hn2 H2]]; try done; [apply Fh in H2; lia|subst; apply Fh in H1; lia|eauto].
  - intros s1 c. rewrite lookup_insert_Some. intros [[<- <-]|[_ H1]]; [lia|]. apply Fh in H1. lia.
  - intros c. rewrite elem_of_union, elem_of_singleton. intros [->|H1]; [lia|]. apply Fo in H1. lia.
  - intros c q. rewrite Hp, elem_of_union, elem_of_singleton.
    intros [H1|(kd & Hkd & [= -> ->])].
    + apply Cons in H1 as (H1 & s1 & kd & Hs1 & Hkd & ->). split; [by right|]. exists s1, kd.
      split; [|done]. apply lookup_insert_Some. right. split; [congruence|done].
    + split; [by left|]. exists s, kd. split; [|done]. by rewrite lookup_insert_eq.
  - intros s1 c kd. rewrite lookup_insert_Some, elem_of_union, elem_of_singleton, Hp.
    intros [[<- <-]|[Hn H1]] Hc Hkd; [left; right; by exists kd|].
    destruct (Full s1 c kd H1) as [?|?]; [|done|auto|auto].
    destruct Hc as [->|]; [|done]. apply Fh in H1. lia.
Qed.
(** forgetting a host, with its channel closed *)
Definition forgotten (k : worker) (s : string) : worker :=
  let k' := k <| host_last_message_at ::= delete s |> <| host_channels ::= delete s |> in
  match host_channels k !! s with Some c => drop_channel c k' | None => k' end.
Lemma unsubscribe_run k w s : unsubscribe_host s k w = (Ok tt, (forgotten k s, w)).
Proof. unfold unsubscribe_host, forgotten. rewrite wrun_gets, wrun_modify. by destruct (host_channels k !! s). Qed.
Lemma forgotten_channels k s : host_channels (forgotten k s) = delete s (host_channels k).
Proof. unfold forgotten. by destruct (host_channels k !! s). Qed.
Lemma forgotten_open k s c :
  c ∈ ch_open (forgotten k s) ↔ c ∈ ch_open k ∧ host_channels k !! s ≠ Some c.
Proof.
  unfold forgotten. destruct (host_channels k !! s) as [c'|]; cbn; [|naive_solver].
  rewrite elem_of_difference, elem_of_singleton. naive_solver.
Qed.
Lemma forgotten_consumers k s c q :
  (c, q) ∈ ch_consumers (forgotten k s) ↔ (c, q) ∈ ch_consumers k ∧ host_channels k !! s ≠ Some c.
Proof.
  unfold forgotten. destruct (host_channels k !! s) as [c'|]; cbn; [|naive_solver].
  rewrite elem_of_filter. cbn. naive_solver.
Qed.
Lemma forgotten_ok k s : worker_ok k → worker_ok (forgotten k s).
Proof.
  intros [Own Fh Fo Cons Full].
  assert (ch_next (forgotten k s) = ch_next k) as Hn by (unfold forgotten; by destruct (host_channels k !! s)).
  split; rewrite ?forgotten_channels, ?Hn; try setoid_rewrite forgotten_open.
  - intros s1 s2 c. rewrite !lookup_delete_Some. naive_solver.
  - intros s1 c. rewrite lookup_delete_Some. naive_solver.
  - intros c [H1 _]. auto.
  - intros c q [H1 H2]%forgotten_consumers. apply Cons in H1 as (H1 & s1 & kd & Hs1 & Hkd & ->).
    split; [done|]. exists s1, kd. split; [|done]. apply lookup_delete_Some. split; [congruence|done].
  - intros s1 c kd [Hne H1]%lookup_delete_Some [H2 H3] Hkd. rewrite forgotten_consumers.
    destruct (Full s1 c kd H1 H2 Hkd); auto.
Qed.
(** a closed channel takes its consumers with it, and nothing else *)
Lemma drop_ok k c : worker_ok k → worker_ok (drop_channel c k).
Proof.
  intros [Own Fh Fo Cons Full]. split; cbn; [done|done| | |].
  - intros c'. rewrite elem_of_difference. naive_solver.
  - intros c' q. rewrite elem_of_filter, elem_of_difference, elem_of_singleton. cbn. intros [Hne H1].
    apply Cons in H1 as (H1 & H2). auto.
  - intros s c' kd Hs. rewrite elem_of_filter, elem_of_difference, elem_of_singleton. cbn.
    intros [H1 H2] Hkd. destruct (Full s c' kd Hs H1 Hkd); auto.
Qed.

(** ** A discovery pass *)
Lemma pending_run k w h :
  worker_ok k → w_broker_up w = true → host_channels k !! h.2 = None →
  ∃ k' b, subscribe_pending h k w = (Ok tt, (k', w <| w_mq := b |>)) ∧ worker_ok k' ∧
    (host_channels k' = host_channels k ∧ ¬ subscribable w h.2 ∨
     ∃ c, host_channels k' = <[h.2 := c]> (host_channels k) ∧ c ∈ ch_open k' ∧
       ∀ kd, kd ∈ CONSUMED_KINDS → (c, queue_name h.2 kd) ∈ ch_consumers k') ∧
    ch_open k ⊆ ch_open k' ∧ ch_consumers k ⊆ ch_consumers k' ∧
    ∀ n, (∀ kd, n ≠ queue_name h.2 kd) → queues b !! n = queues (w_mq w) !! n.
Proof.
  intros Hk Hup Hs. destruct (subscribe_run k w h.1 h.2 Hk Hup) as (b & cons & Hr & Hp & Hf). cbv zeta in Hr.
  destruct Hr as [Hr|[Hno Hr]].
  - exists (subscribed k h.2 cons (w_now w) <| host_channels ::= <[h.2 := ch_next k]> |>), b.
    unfold subscribe_pending. rewrite (wrun_ok _ _ _ _ _ _ _ Hr). split; [reflexivity|].
    split; [by apply adopt_ok|].
    split; [right; exists (ch_next k); cbn; split; [done|split; [set_solver|]]; intros kd Hkd; apply Hp; right; by exists kd|].
    split; [cbn; set_solver|]. split; [|done]. cbn. intros p Hin. apply Hp. by left.
  - exists (k <| ch_next ::= S |>), b. unfold subscribe_pending. rewrite (wrun_ok _ _ _ _ _ _ _ Hr).
    split; [reflexivity|]. split; [|split; [by left|done]].
    destruct Hk as [Own Fh Fo Cons Full]. split; cbn; try done.
    + intros s c H. apply Fh in H. lia.
    + intros c H. apply Fo in H. lia.
Qed.
Lemma pending_all l k w :
  worker_ok k → w_broker_up w = true → NoDup (l.*2) → (∀ s, s ∈ l.*2 → host_channels k !! s = None) →
  ∃ k' b, wfor_each l subscribe_pending k w = (Ok tt, (k', w <| w_mq := b |>)) ∧ worker_ok k' ∧
    (∀ s c, host_channels k !! s = Some c → host_channels k' !! s = Some c) ∧
    (∀ s, is_Some (host_channels k' !! s) → is_Some (host_channels k !! s) ∨ s ∈ l.*2) ∧
    (∀ s, s ∈ l.*2 → subscribable w s → ∃ c, host_channels k' !! s = Some c ∧
       ∀ kd, kd ∈ CONSUMED_KINDS → (c, queue_name s kd) ∈ ch_consumers k') ∧
    ch_open k ⊆ ch_open k' ∧ ch_consumers k ⊆ ch_consumers k'.
Proof.
  revert k w. induction l as [|h l IH]; intros k w Hk Hup Hnd Hnone; cbn [wfor_each].
  { exists k, (w_mq w). split; [by destruct w|]. split; [done|]. split; [done|]. split; [auto|].
    split; [|done]. intros s Hs. by apply not_elem_of_nil in Hs. }
  rewrite fmap_cons in Hnd. apply NoDup_cons in Hnd as [Hnh Hnd].
  destruct (pending_run k w h Hk Hup) as (k1 & b1 & Hr & Hk1 & Hch & Ho & Hc & Hf); [apply Hnone; by left|].
  assert (∀ s, s ∈ l.*2 → host_channels k1 !! s = None) as Hnone1.
  { intros s Hs. specialize (Hnone s ltac:(by right)).
    destruct Hch as [[-> _]|(c & -> & _ & _)]; [done|]. rewrite lookup_insert_ne; [done|]. intros E. by subst s. }
  destruct (IH k1 (w <| w_mq := b1 |>)) as (k' & b & Hl & Hk' & P1 & P2 & P3 & P4 & P5); [done|exact Hup|done|done|].
  exists k', b. rewrite (wrun_ok _ _ _ _ _ _ _ Hr). split; [exact Hl|]. split; [done|].
  assert (∀ s c, host_channels k !! s = Some c → host_channels k1 !! s = Some c) as P0.
  { intros s c Hs. destruct Hch as [[-> _]|(c' & -> & _)]; [done|]. rewrite lookup_insert_ne; [done|].
    intros E. rewrite <- E, (Hnone h.2) in Hs; [done|by left]. }
  split; [auto|]. split; [|split; [|split; set_solver]].
  - intros s [Hs|Hs]%P2; [|right; by right].
    destruct Hch as [[E _]|(c & E & _ & _)]; rewrite E in Hs; [by left|].
    destruct (decide (s = h.2)) as [->|Hne]; [right; by left|]. rewrite lookup_insert_ne in Hs by done. by left.
  - intros s [->|Hs]%elem_of_cons Hsub.
    + destruct Hch as [[_ Hno]|(c & E & _ & Hco)]; [done|]. exists c. split; [|auto]. apply P1. by rewrite E, lookup_insert_eq.
    + apply P3; [done|]. intros kd a. cbn. rewrite Hf; [apply Hsub|].
      intros kd' [E _]%queue_name_inj2. by subst s.
Qed.
Lemma forget_all l k w :
  worker_ok k →
  ∃ k', wfor_each l unsubscribe_host k w = (Ok tt, (k', w)) ∧ worker_ok k' ∧
    (∀ s, host_channels k' !! s = if bool_decide (s ∈ l) then None else host_channels k !! s) ∧
    (∀ s c, s ∉ l → host_channels k !! s = Some c → c ∈ ch_open k → c ∈ ch_open k') ∧
    (∀ s c q, s ∉ l → host_channels k !! s = Some c → (c, q) ∈ ch_consumers k → (c, q) ∈ ch_consumers k') ∧
    (∀ s, s ∉ l → host_last_message_at k' !! s = host_last_message_at k !! s).
Proof.
  revert k. induction l as [|x l IH]; intros k Hk; cbn [wfor_each].
  { exists k. split_and!; try done. }
  destruct (IH (forgotten k x) (forgotten_ok k x Hk)) as (k' & Hr & Hk' & H1 & H2 & H4 & H3).
  exists k'. rewrite (wrun_ok _ _ _ _ _ _ _ (unsubscribe_run k w x)). split; [exact Hr|]. split; [done|]. split_and!.
  - intros s. rewrite H1, forgotten_channels. destruct (decide (s = x)) as [->|Hne].
    + rewrite lookup_delete_eq, (bool_decide_eq_true_2 (x ∈ x :: l)) by left. by case_bool_decide.
    + rewrite lookup_delete_ne by done. rewrite (bool_decide_ext (s ∈ x :: l) (s ∈ l)); [done|].
      rewrite elem_of_cons. naive_solver.
  - intros s c [Hne Hs]%not_elem_of_cons Hc Ho. apply (H2 s); [done| |].
    + rewrite forgotten_channels. by rewrite lookup_delete_ne.
    + apply forgotten_open. split; [done|]. intros E. apply Hne. by apply (wo_own k Hk s x c).
  - intros s c q [Hne Hs]%not_elem_of_cons Hc Ho. apply (H4 s); [done| |].
    + rewrite forgotten_channels. by rewrite lookup_delete_ne.
    + apply forgotten_consumers. split; [done|]. intros E. apply Hne. by apply (wo_own k Hk s x c).
  - intros s [Hne Hs]%not_elem_of_cons. rewrite H3 by done. unfold forgotten.
    destruct (host_channels k !! x); cbn; by rewrite lookup_delete_ne.
Qed.

(** the short ids of the registered hosts; the column is unique *)
Definition registered (w : world) (s : string) : Prop :=
  ∃ i h, hosts (w_db w) !! i = Some h ∧ h_short_id h = s.
Definition short_ids (w : world) : list string := h_short_id <$> rows (λ _, true) (hosts (w_db w)).
Lemma elem_of_short_ids w s : s ∈ short_ids w ↔ registered w s.
Proof.
  unfold short_ids, registered. rewrite list_elem_of_fmap. setoid_rewrite elem_of_rows. naive_solver.
Qed.
Lemma NoDup_snd_filter {A B} (p : A * B → bool) (l : list (A * B)) :
  NoDup (l.*2) → NoDup ((List.filter p l).*2).
Proof.
  induction l as [|x l IH]; cbn; [done|]. intros [Hx Hl]%NoDup_cons. destruct (p x); cbn; [|auto].
  apply NoDup_cons. split; [|auto]. intros (y & E & Hy)%list_elem_of_fmap.
  apply Hx, list_elem_of_fmap. exists y. split; [done|]. by apply list_elem_of_In, filter_In, proj1, list_elem_of_In in Hy.
Qed.

(** the whole pass, for the theorems that run it *)
Lemma refresh_run k w :
  worker_ok k → w_broker_up w = true → NoDup (short_ids w) →
  ∃ k' w', refresh_subscriptions k w = (Ok tt, (k', w')) ∧ worker_ok k' ∧ w_db w' = w_db w ∧
    (∀ s, is_Some (host_channels k' !! s) → registered w s) ∧
    (∀ s c, registered w s → host_channels k !! s = Some c →
       host_channels k' !! s = Some c ∧ (c ∈ ch_open k → c ∈ ch_open k') ∧
       ∀ q, (c, q) ∈ ch_consumers k → (c, q) ∈ ch_consumers k') ∧
    (∀ s kd, registered w s → host_channels k !! s = None → subscribable w s → kd ∈ CONSUMED_KINDS →
       ∃ c, host_channels k' !! s = Some c ∧ (c, queue_name s kd) ∈ ch_consumers k').
Proof.
  intros Hk Hup Hnd. unfold refresh_subscriptions.
  set (hs := (λ h, (h_id h, h_short_id h)) <$> rows (λ _, true) (hosts (w_db w))).
  assert (on_world known_hosts k w = (Ok hs, (k, w))) as Hh by done.
  assert (hs.*2 = short_ids w) as Hhs.
  { unfold hs, short_ids. by rewrite <- list_fmap_compose. }
  rewrite (wrun_ok _ _ _ _ _ _ _ Hh), wrun_gets, Hhs.
  set (gone := elements _).
  assert (∀ s, s ∈ gone ↔ is_Some (host_channels k !! s) ∧ ¬ registered w s) as Hgone.
  { intros s. unfold gone. by rewrite elem_of_elements, elem_of_difference, elem_of_dom, elem_of_list_to_set, elem_of_short_ids. }
  destruct (forget_all gone k w Hk) as (k1 & H1 & Hk1 & C1 & O1 & Q1 & _).
  rewrite (wrun_ok _ _ _ _ _ _ _ H1), wrun_gets.
  set (pending := List.filter _ hs).
  assert (∀ s, s ∈ pending.*2 ↔ registered w s ∧ host_channels k1 !! s = None) as Hpend.
  { intros s. unfold pending. rewrite list_elem_of_fmap. setoid_rewrite list_elem_of_In. setoid_rewrite filter_In.
    rewrite <- elem_of_short_ids, <- Hhs, list_elem_of_fmap. setoid_rewrite list_elem_of_In.
    split.
    - intros (h & -> & Hin & Hn). split; [by exists h|]. by destruct (host_channels k1 !! h.2).
    - intros [(h & -> & Hin) Hn]. exists h. split; [done|]. by rewrite Hn. }
  destruct (pending_all pending k1 w Hk1 Hup) as (k' & b & Hr & Hk' & P1 & P2 & P3 & P4 & P5).
  { apply NoDup_snd_filter. by rewrite Hhs. }
  { intros s Hs. by apply Hpend in Hs as [_ ?]. }
  exists k', (w <| w_mq := b |>). split; [exact Hr|]. split; [done|]. split; [done|].
  assert (∀ s, registered w s → host_channels k1 !! s = host_channels k !! s) as Hkeep.
  { intros s Hs. rewrite C1, bool_decide_eq_false_2; [done|]. by intros [_ ?]%Hgone. }
  split; [|split].
  - intros s [Hs|Hs]%P2; [|by apply Hpend in Hs as [? _]]. rewrite C1 in Hs.
    case_bool_decide as Hg; [by destruct Hs|]. destruct (decide (s ∈ short_ids w)) as [Hin|Hin].
    + by apply elem_of_short_ids.
    + destruct Hg. apply Hgone. split; [done|]. by rewrite <- elem_of_short_ids.
  - intros s c Hreg Hc. assert (host_channels k1 !! s = Some c) as Hc1 by (by rewrite Hkeep).
    assert (s ∉ gone) as Hng by (by intros [_ ?]%Hgone).
    split; [auto|]. split; [intros Ho; by apply P4, (O1 s)|]. intros q Hq. by apply P5, (Q1 s).
  - intros s kd Hreg Hn Hsub Hkd. destruct (P3 s) as (c & Hc & Ho); [apply Hpend; split; [done|by rewrite Hkeep]|done|].
    exists c. split; [done|]. by apply Ho.
Qed.

(** C13: a discovery pass subscribes every host it can.  From a well-formed
    process, with the broker reachable, [refresh_subscriptions] returns; the
    hosts monitored afterwards are registered ones; a registered host that was
    monitored keeps its channel, open if it was, and its consumers; and every other registered host whose queues can be declared is monitored and
    consumed on all its queues - whatever happens to the other hosts: one host
    the broker refuses never blocks the rest. *)
Theorem refresh_subscribes_all k w :
  worker_ok k → w_broker_up w = true → NoDup (short_ids w) →
  ∃ k' w', refresh_subscriptions k w = (Ok tt, (k', w')) ∧ worker_ok k' ∧ w_db w' = w_db w ∧
    (∀ s, is_Some (host_channels k' !! s) → registered w s) ∧
    (∀ s c, registered w s → host_channels k !! s = Some c →
       host_channels k' !! s = Some c ∧ (c ∈ ch_open k → c ∈ ch_open k') ∧
       ∀ q, (c, q) ∈ ch_consumers k → (c, q) ∈ ch_consumers k') ∧
    (∀ s kd, registered w s → host_channels k !! s = None → subscribable w s → kd ∈ CONSUMED_KINDS →
       ∃ c, host_channels k' !! s = Some c ∧ (c, queue_name s kd) ∈ ch_consumers k').
Proof. intros. by apply refresh_run. Qed.

(** ** What keeps the invariant *)

(** a computation that keeps the invariant, whatever its outcome *)
Definition wkeeps {A} (m : W A) : Prop := ∀ k w, worker_ok k → worker_ok (m k w).2.1.
Lemma wkeeps_bind {A B} (m : W A) (f : A → W B) : wkeeps m → (∀ a, wkeeps (f a)) → wkeeps (m ≫= f).
Proof.
  intros Hm Hf k w Hk. unfold mbind, W_bind. specialize (Hm k w Hk).
  destruct (m k w) as [[a|e] [k' w']]; [by apply Hf|done].
Qed.
Lemma wkeeps_for_each {A} (l : list A) body : (∀ x, wkeeps (body x)) → wkeeps (wfor_each l body).
Proof. intros H. induction l as [|x l IH]; [by intros k w|]. cbn. by apply wkeeps_bind. Qed.
Lemma wkeeps_try {A} (m h : W A) : wkeeps m → wkeeps h → wkeeps (wtry m h).
Proof.
  intros Hm Hh k w Hk. unfold wtry. specialize (Hm k w Hk).
  destruct (m k w) as [[a|e] [k' w']]; [done|by apply Hh].
Qed.
Lemma wkeeps_gets {A} (f : worker → world → A) : wkeeps (wgets f).
Proof. by intros k w. Qed.
Lemma wkeeps_ret {A} (a : A) : wkeeps (mret a).
Proof. by intros k w. Qed.
Lemma wkeeps_on_channel {A} c (m : M A) : wkeeps (on_channel c m).
Proof.
  intros k w Hk. unfold on_channel. case_bool_decide; [|done].
  destruct (m w) as [[a|e] w']; [done|by apply drop_ok].
Qed.
Lemma wkeeps_unsubscribe s : wkeeps (unsubscribe_host s).
Proof. intros k w Hk. rewrite unsubscribe_run. by apply forgotten_ok. Qed.
Lemma wkeeps_probe count now s c : wkeeps (probe_host count now s c).
Proof.
  unfold probe_host. apply wkeeps_bind; [apply wkeeps_gets|intros last].
  destruct (_ <? _); [apply wkeeps_ret|]. apply wkeeps_bind; [apply wkeeps_gets|intros dead].
  apply wkeeps_bind; [|intros [|]; [apply wkeeps_unsubscribe|apply wkeeps_ret]].
  destruct dead; [apply wkeeps_ret|]. apply wkeeps_try; [|apply wkeeps_ret].
  apply wkeeps_bind; [apply wkeeps_on_channel|intros _; apply wkeeps_ret].
Qed.
Lemma wkeeps_clock f : (∀ k, host_channels (f k) = host_channels k ∧ ch_next (f k) = ch_next k ∧
    ch_open (f k) = ch_open k ∧ ch_consumers (f k) = ch_consumers k) → wkeeps (wmodify f).
Proof.
  intros Hf k w [Own Fh Fo Cons Full]. destruct (Hf k) as (E1 & E2 & E3 & E4). cbn.
  split; rewrite ?E1, ?E2, ?E3, ?E4; done.
Qed.

Lemma refresh_ok k w : NoDup (short_ids w) → worker_ok k → worker_ok (refresh_subscriptions k w).2.1.
Proof.
  intros Hnd Hk. unfold refresh_subscriptions.
  set (hs := (λ h, (h_id h, h_short_id h)) <$> rows (λ _, true) (hosts (w_db w))).
  assert (on_world known_hosts k w = (Ok hs, (k, w))) as Hh by done.
  assert (hs.*2 = short_ids w) as Hhs by (unfold hs, short_ids; by rewrite <- list_fmap_compose).
  rewrite (wrun_ok _ _ _ _ _ _ _ Hh), wrun_gets. set (gone := elements _).
  destruct (forget_all gone k w Hk) as (k1 & H1 & Hk1 & _).
  rewrite (wrun_ok _ _ _ _ _ _ _ H1), wrun_gets. set (pending := List.filter _ hs).
  destruct (w_broker_up w) eqn:Hup.
  - destruct (pending_all pending k1 w Hk1 Hup) as (k' & b & -> & Hk' & _); [|..|exact Hk'].
    + apply NoDup_snd_filter. by rewrite Hhs.
    + intros s (h & -> & Hin)%list_elem_of_fmap. unfold pending in Hin.
      apply list_elem_of_In, filter_In in Hin as [_ Hn]. by destruct (host_channels k1 !! h.2).
  - destruct pending as [|h l]; [done|]. cbn [wfor_each].
    assert (subscribe_pending h k1 w = (Raise EBroker, (k1, w))) as Hf.
    { unfold subscribe_pending, subscribe_host. assert (open_channel k1 w = (Raise EBroker, (k1, w))) as Ho
        by (unfold open_channel; by rewrite Hup).
      by rewrite (wrun_fail _ _ _ _ _ _ (wrun_fail _ _ _ _ _ _ Ho)). }
    by rewrite (wrun_fail _ _ _ _ _ _ Hf).
Qed.

(** ** The per-host watchdog *)
Definition silent (k : worker) (now : Z) (s : string) : bool :=
  seconds HOST_CONSUMER_SILENCE_THRESHOLD <=? now - default now (host_last_message_at k !! s).
(** the channel is dead, cannot be probed, or responses are piling up *)
Definition stuck (count : string → nat) (k : worker) (w : world) (s : string) (c : nat) : bool :=
  negb (bool_decide (c ∈ ch_open k)) ||
  match queues (w_mq w) !! queue_name s RESPONSE with Some a => negb (bool_decide (a = [])) | None => false end ||
  negb (count (queue_name s RESPONSE) =? 0)%nat.
(** nothing another host relies on has changed *)
Definition others_alone (s : string) (k k' : worker) (w w' : world) : Prop :=
  (∀ s', s' ≠ s → host_channels k' !! s' = host_channels k !! s') ∧
  (∀ s', s' ≠ s → host_last_message_at k' !! s' = host_last_message_at k !! s') ∧
  (∀ s' c', s' ≠ s → host_channels k !! s' = Some c' → c' ∈ ch_open k' ↔ c' ∈ ch_open k) ∧
  (∀ s', s' ≠ s → queues (w_mq w') !! queue_name s' RESPONSE = queues (w_mq w) !! queue_name s' RESPONSE).
Lemma forgotten_alone k s w b :
  worker_ok k → (∀ s', s' ≠ s → queues b !! queue_name s' RESPONSE = queues (w_mq w) !! queue_name s' RESPONSE) →
  others_alone s k (forgotten k s) w (w <| w_mq := b |>).
Proof.
  intros Hk Hb. split_and!; [| | |done].
  - intros s' Hne. by rewrite forgotten_channels, lookup_delete_ne.
  - intros s' Hne. unfold forgotten. destruct (host_channels k !! s); cbn; by rewrite lookup_delete_ne.
  - intros s' c' Hne Hc. rewrite forgotten_open. split; [by intros [? _]|]. intros Ho. split; [done|].
    intros E. apply Hne. by apply (wo_own k Hk s' s c').
Qed.
Lemma drop_forgotten k s c : host_channels k !! s = Some c → forgotten (drop_channel c k) s = forgotten k s.
Proof.
  intros Hc. unfold forgotten. cbn. rewrite Hc. unfold drop_channel. destruct k as [hc hl lp lo nx op cs]. cbn. f_equal.
  - set_solver.
  - apply set_eq. intros p. rewrite !elem_of_filter. tauto.
Qed.
(** the probe of an open channel answers whether the host is stuck *)
Lemma probe_answer count k w s c :
  w_broker_up w = true → c ∈ ch_open k →
  ∃ (dead : bool) b,
    wtry (on_channel c (declare_queue (queue_name s RESPONSE) []);;
          mret (negb (count (queue_name s RESPONSE) =? 0)%nat)) (mret true) k w =
      (Ok (stuck count k w s c), (if dead then drop_channel c k else k, w <| w_mq := b |>)) ∧
    (dead = true → stuck count k w s c = true) ∧
    ∀ s', s' ≠ s → queues b !! queue_name s' RESPONSE = queues (w_mq w) !! queue_name s' RESPONSE.
Proof.
  intros Hup Ho. unfold stuck. rewrite bool_decide_eq_true_2 by done. cbn [negb orb].
  destruct (declare_queue_run (queue_name s RESPONSE) [] w Hup) as (b & o & Hd & Hor & Hf).
  assert (∀ s', s' ≠ s → queues b !! queue_name s' RESPONSE = queues (w_mq w) !! queue_name s' RESPONSE) as Hb.
  { intros s' Hne. apply Hf. intros [E _]%queue_name_inj2. done. }
  assert (o = match queues (w_mq w) !! queue_name s RESPONSE with
              | Some a => if bool_decide (a = []) then Ok tt else Raise EBroker | None => Ok tt end) as Eo.
  { unfold declare_queue, broker_op in Hd. rewrite Hup in Hd.
    destruct (queues (w_mq w) !! queue_name s RESPONSE) as [a|]; [|by injection Hd as <- _].
    case_bool_decide as E; [rewrite decide_True in Hd by done|rewrite decide_False in Hd by done]; by injection Hd as <- _. }
  unfold wtry. destruct Hor as [Hok|Hfail].
  - exists false, b. rewrite (wrun_ok _ _ k w tt k (w <| w_mq := b |>)).
    2:{ unfold on_channel. by rewrite bool_decide_eq_true_2, Hd, Hok by done. }
    split; [|done]. rewrite Hok in Eo. unfold mret, W_ret. do 2 f_equal.
    destruct (queues (w_mq w) !! queue_name s RESPONSE) as [a|]; [|done]. by case_bool_decide.
  - exists true, b. rewrite (wrun_fail _ _ k w EBroker (drop_channel c k, w <| w_mq := b |>)).
    2:{ unfold on_channel. by rewrite bool_decide_eq_true_2, Hd, Hfail by done. }
    rewrite Hfail in Eo. destruct (queues (w_mq w) !! queue_name s RESPONSE) as [a|]; [|done].
    case_bool_decide; [done|]. done.
Qed.
Lemma probe_run count k w now s c :
  worker_ok k → w_broker_up w = true → host_channels k !! s = Some c →
  ∃ k' b, probe_host count now s c k w = (Ok tt, (k', w <| w_mq := b |>)) ∧ worker_ok k' ∧
    host_channels k' !! s = (if silent k now s && stuck count k w s c then None else Some c) ∧
    others_alone s k k' w (w <| w_mq := b |>).
Proof.
  intros Hk Hup Hc.
  assert (host_channels (forgotten k s) !! s = None) as Hgone by (by rewrite forgotten_channels, lookup_delete_eq).
  unfold probe_host. rewrite wrun_gets.
  assert (silent k now s = negb (now - default now (host_last_message_at k !! s) <? seconds HOST_CONSUMER_SILENCE_THRESHOLD))
    as -> by (unfold silent; by rewrite Z.leb_antisym).
  destruct (_ <? _) eqn:Es; cbn [negb andb].
  { exists k, (w_mq w). split; [by destruct w|]. split; [done|]. split; [done|]. split_and!; done. }
  rewrite wrun_gets. by_cases (c ∈ ch_open k) as Ho; cbn [negb].
  - destruct (probe_answer count k w s c Hup Ho) as (dead & b & Hp & Hdead & Hb).
    rewrite (wrun_ok _ _ _ _ _ _ _ Hp). destruct (stuck count k w s c).
    + rewrite unsubscribe_run. exists (forgotten k s), b. split; [by destruct dead; rewrite ?drop_forgotten|].
      split; [by apply forgotten_ok|]. split; [done|]. by apply forgotten_alone.
    + destruct dead; [by discriminate Hdead|]. exists k, b. split; [done|]. split; [done|]. split; [done|].
      split_and!; done.
  - rewrite (wrun_ok (mret true) _ k w true k w), unsubscribe_run by done. exists (forgotten k s), (w_mq w).
    unfold stuck. rewrite bool_decide_eq_false_2 by done. split; [by destruct w|]. split; [by apply forgotten_ok|].
    split; [done|]. by apply forgotten_alone.
Qed.

Lemma probe_all count now l k w :
  worker_ok k → w_broker_up w = true → NoDup (l.*1) → (∀ s c, (s, c) ∈ l → host_channels k !! s = Some c) →
  ∃ k' b, wfor_each l (λ sc, probe_host count now sc.1 sc.2) k w = (Ok tt, (k', w <| w_mq := b |>)) ∧ worker_ok k' ∧
    (∀ s c, (s, c) ∈ l → host_channels k' !! s = if silent k now s && stuck count k w s c then None else Some c) ∧
    (∀ s, s ∉ l.*1 → host_channels k' !! s = host_channels k !! s).
Proof.
  revert k w. induction l as [|[s c] l IH]; intros k w Hk Hup Hnd Hl; cbn [wfor_each].
  { exists k, (w_mq w). split; [by destruct w|]. split; [done|]. split; [|done].
    intros s c H. by apply not_elem_of_nil in H. }
  apply NoDup_cons in Hnd as [Hs Hnd]. cbn [fst snd].
  destruct (probe_run count k w now s c Hk Hup) as (k1 & b1 & Hr & Hk1 & Hs1 & A1 & A2 & A3 & A4); [apply Hl; left|].
  assert (∀ s' c', (s', c') ∈ l → s' ≠ s) as Hne.
  { intros s' c' Hin ->. apply Hs, list_elem_of_fmap. by exists (s, c'). }
  destruct (IH k1 (w <| w_mq := b1 |>)) as (k' & b & Hl' & Hk' & C1 & C2); [done|exact Hup|done| |].
  { intros s' c' Hin. rewrite A1 by eauto. apply Hl. by right. }
  exists k', b. rewrite (wrun_ok _ _ _ _ _ _ _ Hr). split; [exact Hl'|]. split; [done|]. split.
  - intros s' c' [[= -> ->]|Hin]%elem_of_cons; [by rewrite C2|]. rewrite (C1 s' c') by done.
    assert (s' ≠ s) as Hn by eauto. unfold silent, stuck. rewrite A2, A4 by done.
    rewrite (bool_decide_ext (c' ∈ ch_open k1) (c' ∈ ch_open k)); [done|]. apply (A3 s'); [done|]. apply Hl. by right.
  - intros s' Hs'. rewrite fmap_cons, not_elem_of_cons in Hs'. destruct Hs' as [Hn Hs']. rewrite C2 by done. by apply A1.
Qed.

(** the whole pass, for the theorems that run it *)
Lemma watch_run count k w :
  worker_ok k → w_broker_up w = true →
  ∃ k' w', check_host_consumers count k w = (Ok tt, (k', w')) ∧ worker_ok k' ∧ w_db w' = w_db w ∧
    ∀ s c, host_channels k' !! s = Some c ↔
      host_channels k !! s = Some c ∧ silent k (w_now w) s && stuck count k w s c = false.
Proof.
  intros Hk Hup. unfold check_host_consumers. rewrite !wrun_gets.
  destruct (probe_all count (w_now w) (map_to_list (host_channels k)) k w) as (k' & b & Hr & Hk' & C1 & C2); [done|done| | |].
  - apply NoDup_fst_map_to_list.
  - intros s c. by rewrite elem_of_map_to_list.
  - exists k', (w <| w_mq := b |>). split; [exact Hr|]. split; [done|]. split; [done|]. intros s c.
    destruct (host_channels k !! s) as [c0|] eqn:E.
    + rewrite (C1 s c0) by (by apply elem_of_map_to_list). destruct (silent k (w_now w) s && stuck count k w s c0) eqn:Es.
      * split; [done|]. intros [[= ->] H]. by rewrite Es in H.
      * split; [|by intros [? _]]. intros [= ->]. done.
    + rewrite C2, E; [naive_solver|]. intros ([s' c'] & -> & H)%list_elem_of_fmap.
      apply elem_of_map_to_list in H. cbn in E. congruence.
Qed.

(** C14: the watchdog drops exactly the stuck hosts.  A pass of
    [check_host_consumers] forgets a monitored host - so that the next discovery
    pass subscribes it afresh - exactly when it has been silent for 300 seconds
    and its channel is closed, its response queue cannot be probed, or responses
    are waiting there; silence alone (the host may be offline) is no reason, and
    no other host is touched. *)
Theorem watchdog_drops_stuck count k w :
  worker_ok k → w_broker_up w = true →
  ∃ k' w', check_host_consumers count k w = (Ok tt, (k', w')) ∧ worker_ok k' ∧ w_db w' = w_db w ∧
    ∀ s c, host_channels k' !! s = Some c ↔
      host_channels k !! s = Some c ∧ silent k (w_now w) s && stuck count k w s c = false.
Proof. apply watch_run. Qed.
End invariant.

(** ** The process as a transition system *)

(** growing [lost] weakens the invariant *)
Lemma worker_ok_mono l l' k : worker_ok l k → l ⊆ l' → worker_ok l' k.
Proof.
  intros [Own Fh Fo Cons Full] Hl. split; [done..|]. intros s c kd Hs Hc Hkd.
  destruct (Full s c kd Hs Hc Hkd); [by left|right; by apply Hl].
Qed.
Lemma cancel_ok lost c q k : worker_ok lost k → worker_ok (lost ∪ {[(c, q)]}) (cancel_consumer c q k).
Proof.
  intros [Own Fh Fo Cons Full]. split; cbn; [done..| |].
  - intros c' q' [H1 _]%elem_of_difference. by apply Cons.
  - intros s c' kd Hs Hc Hkd. rewrite elem_of_difference, elem_of_union, elem_of_singleton.
    destruct (Full s c' kd Hs Hc Hkd); [|by right; left].
    destruct (decide ((c', queue_name s kd) = (c, q))); [by right; right|by left].
Qed.
(** the consumers of a host that are not registered again *)
Definition not_restored (c : nat) (s : string) (kinds : list QueueKind) : gset (nat * string) :=
  list_to_set ((λ kd, (c, queue_name s kd)) <$> filter (λ kd, kd ∉ kinds) CONSUMED_KINDS).
Lemma restore_ok lost s c kinds k :
  worker_ok lost k → host_channels k !! s = Some c → kinds ⊆ CONSUMED_KINDS →
  worker_ok (lost ∪ not_restored c s kinds) (restore_channel c (queue_name s <$> kinds) k).
Proof.
  intros [Own Fh Fo Cons Full] Hs Hk.
  assert (∀ p, p ∈ ch_consumers (restore_channel c (queue_name s <$> kinds) k) ↔
    p ∈ ch_consumers k ∨ ∃ kd, kd ∈ kinds ∧ p = (c, queue_name s kd)) as Hp.
  { intros p. cbn. rewrite elem_of_union, elem_of_list_to_set, <- list_fmap_compose, list_elem_of_fmap.
    cbn. naive_solver. }
  split; [done|done| | |].
  - intros c'. cbn. rewrite elem_of_union, elem_of_singleton. intros [->|H]; eauto.
  - intros c' q. rewrite Hp. cbn. rewrite elem_of_union, elem_of_singleton.
    intros [H|(kd & Hkd & [= -> ->])]; [apply Cons in H as (? & ?); auto|]. split; [by left|]. exists s, kd. auto.
  - intros s' c' kd Hs' Hc Hkd. rewrite Hp, elem_of_union. cbn in Hs', Hc.
    rewrite elem_of_union, elem_of_singleton in Hc. destruct (decide (c' = c)) as [->|Hne].
    + assert (s' = s) as -> by eauto. destruct (decide (kd ∈ kinds)) as [Hin|Hout]; [left; right; by exists kd|].
      right. right. unfold not_restored. apply elem_of_list_to_set, list_elem_of_fmap. exists kd.
      split; [done|]. by apply list_elem_of_filter.
    + destruct Hc as [|Hc]; [done|]. destruct (Full s' c' kd Hs' Hc Hkd); auto.
Qed.

Definition proc : Type := worker * world.
(** one step, and the consumers it loses while their channel is open *)
Inductive step : proc → gset (nat * string) → proc → Prop :=
  | step_discover k w o p : NoDup (short_ids w) → refresh_subscriptions k w = (o, p) → step (k, w) ∅ p
  | step_message s k w o p : on_message s k w = (o, p) → step (k, w) ∅ p
  | step_watch count k w o p : check_host_consumers count k w = (o, p) → step (k, w) ∅ p
  | step_close k w o p : on_connection_close k w = (o, p) → step (k, w) ∅ p
  | step_reconnect k w o p : on_connection_reconnect k w = (o, p) → step (k, w) ∅ p
  (* the broker closes a channel, or cancels one consumer of an open one *)
  | step_channel_lost c k w : step (k, w) ∅ (drop_channel c k, w)
  | step_consumer_lost c q k w : step (k, w) {[(c, q)]} (cancel_consumer c q k, w)
  (* the library reopens the channel of a host, with some of its consumers *)
  | step_restored s c kinds k w : host_channels k !! s = Some c → kinds ⊆ CONSUMED_KINDS →
      step (k, w) (not_restored c s kinds) (restore_channel c (queue_name s <$> kinds) k, w)
  (* the API, the agents and the clock move on; [hosts.short_id] is unique *)
  | step_environment k w w' : step (k, w) ∅ (k, w').
Inductive reachable : gset (nat * string) → proc → Prop :=
  | reach_start now w : reachable ∅ (start_worker now, w)
  | reach_step lost p l q : reachable lost p → step p l q → reachable (lost ∪ l) q.

Lemma step_ok lost p l q : worker_ok lost p.1 → step p l q → worker_ok (lost ∪ l) q.1.
Proof.
  intros IH Hstep.
  destruct Hstep as [k w o p Hnd Hs|s k w o p Hs|count k w o p Hs|k w o p Hs|k w o p Hs|c k w|c q k w|s c kinds k w Hs Hk|k w w'];
    cbn [fst] in *; try (apply (f_equal snd) in Hs; cbn [snd] in Hs; subst p);
    rewrite ?union_empty_r_L.
  - by apply refresh_ok.
  - assert (wkeeps lost (on_message s)) as Hk; [|by apply Hk].
    apply wkeeps_bind; [apply wkeeps_gets|intros t]. by apply wkeeps_clock.
  - assert (wkeeps lost (check_host_consumers count)) as Hk; [|by apply Hk].
    unfold check_host_consumers. do 2 (apply wkeeps_bind; [apply wkeeps_gets|intros ?]).
    apply wkeeps_for_each. intros sc. apply wkeeps_probe.
  - assert (wkeeps lost on_connection_close) as Hk; [|by apply Hk].
    apply wkeeps_bind; [apply wkeeps_gets|intros t]. by apply wkeeps_clock.
  - assert (wkeeps lost on_connection_reconnect) as Hk; [|by apply Hk]. by apply wkeeps_clock.
  - by apply drop_ok.
  - by apply cancel_ok.
  - by apply restore_ok.
  - done.
Qed.
Lemma reachable_ok lost p : reachable lost p → worker_ok lost p.1.
Proof. induction 1 as [now w|lost p l q Hp IH Hstep]; [apply start_ok|by apply (step_ok lost p l)]. Qed.

(** C12: the process keeps track of its channels, and repairs a host it has
    gone deaf to.  However discovery passes, messages, watchdog passes,
    connection losses, channels closed or reopened, consumers cancelled on an
    open channel and changes of the environment are interleaved: every
    monitored host owns a channel no other host has, so losing one host's
    channel cannot take another's consumers; a consumer is live only on the open
    channel of the host it serves; a monitored host whose channel is open is
    consumed on every kind of queue the agent writes, but for the consumers
    lost while that channel was open; and a monitored host that has been silent
    for 300 seconds, with its channel dead or responses waiting, is forgotten by
    the next watchdog pass and consumed on every kind again, on a channel of
    its own, after the next discovery pass that can declare its queues. *)
Theorem worker_invariant lost k w :
  reachable lost (k, w) →
  (∀ s s' c, host_channels k !! s = Some c → host_channels k !! s' = Some c → s = s') ∧
  (∀ c q, (c, q) ∈ ch_consumers k →
     c ∈ ch_open k ∧ ∃ s kd, host_channels k !! s = Some c ∧ kd ∈ CONSUMED_KINDS ∧ q = queue_name s kd) ∧
  (∀ s c kd, host_channels k !! s = Some c → c ∈ ch_open k → kd ∈ CONSUMED_KINDS →
     (c, queue_name s kd) ∉ lost → (c, queue_name s kd) ∈ ch_consumers k) ∧
  (∀ count s c, w_broker_up w = true → host_channels k !! s = Some c →
     silent k (w_now w) s = true → stuck count k w s c = true →
     ∃ k1 w1, check_host_consumers count k w = (Ok tt, (k1, w1)) ∧ host_channels k1 !! s = None ∧
     ∀ w2, w_broker_up w2 = true → NoDup (short_ids w2) → registered w2 s → subscribable w2 s →
       ∃ k2 w3 c', refresh_subscriptions k1 w2 = (Ok tt, (k2, w3)) ∧ host_channels k2 !! s = Some c' ∧
         ∀ kd, kd ∈ CONSUMED_KINDS → (c', queue_name s kd) ∈ ch_consumers k2).
Proof.
  intros Hr%reachable_ok. cbn [fst] in Hr. pose proof Hr as [Own _ _ Cons Full].
  split; [exact Own|]. split; [exact Cons|]. split.
  { intros s c kd Hs Hc Hkd Hn. by destruct (Full s c kd Hs Hc Hkd). }
  intros count s c Hup Hc Hsil Hst.
  destruct (watch_run lost count k w Hr Hup) as (k1 & w1 & Hw & Hk1 & _ & Hch).
  assert (host_channels k1 !! s = None) as Hn.
  { destruct (host_channels k1 !! s) as [c1|] eqn:E; [|done]. apply Hch in E as [E Hno].
    rewrite Hc in E. injection E as <-. by rewrite Hsil, Hst in Hno. }
  exists k1, w1. split; [exact Hw|]. split; [exact Hn|]. intros w2 Hup2 Hnd Hreg Hsub.
  destruct (refresh_run lost k1 w2 Hk1 Hup2 Hnd) as (k2 & w3 & Hf & _ & _ & _ & _ & Hnew).
  destruct (Hnew s RESPONSE Hreg Hn Hsub) as (c' & Hc' & _); [by apply (bool_decide_unpack _); vm_compute|].
  exists k2, w3, c'. split; [exact Hf|]. split; [exact Hc'|]. intros kd Hkd.
  destruct (Hnew s kd Hreg Hn Hsub Hkd) as (c2 & Hc2 & Hin). rewrite Hc' in Hc2. by injection Hc2 as <-.
Qed.

(** examples: two hosts, the queues of one declared with other arguments *)
Definition two_hosts : world :=
  sample_world <| w_db := empty_db <| hosts := {[
      "h1" := mkHost "h1" "abc" None "node-1" None None "hyperv" None None None None None None None;
      "h2" := mkHost "h2" "def" None "node-2" None None "hyperv" None None None None None None None]} |> |>
    <| w_mq := mkBroker {[queue_name "abc" VM_INVENTORY := []]} ∅ [] |>.
Lemma two_hosts_unique : NoDup (short_ids two_hosts).
Proof. apply (bool_decide_unpack _). vm_compute. exact I. Qed.
Lemma refresh_subscribes_all_witness : ∃ k' w' c,
  refresh_subscriptions (start_worker 0) two_hosts = (Ok tt, (k', w')) ∧
  (c, "def.vm_inventory") ∈ ch_consumers k' ∧ host_channels k' !! "abc" = None.
Proof.
  destruct (refresh_subscribes_all ∅ (start_worker 0) two_hosts (start_ok ∅ 0) eq_refl two_hosts_unique)
    as (k' & w' & Hr & _ & _ & _ & _ & Hnew).
  destruct (Hnew "def" VM_INVENTORY) as (c & _ & Hc).
  - exists "h2". eexists. split; [vm_compute; reflexivity|reflexivity].
  - reflexivity.
  - intros kd a. destruct kd; vm_compute; discriminate.
  - apply (bool_decide_unpack _). vm_compute. exact I.
  - exists k', w', c. split; [exact Hr|]. split; [exact Hc|].
    assert (k' = (refresh_subscriptions (start_worker 0) two_hosts).2.1) as -> by (by rewrite Hr).
    vm_compute. reflexivity.
Defined.
(** the broker cancels a consumer of an open channel; 400 seconds later a
    response waits, and the host is consumed again after the two passes *)
Definition cancelled_worker : worker :=
  cancel_consumer 1%nat "def.response" (refresh_subscriptions (start_worker (w_now two_hosts)) two_hosts).2.1.
Definition later_world : world :=
  (refresh_subscriptions (start_worker (w_now two_hosts)) two_hosts).2.2 <| w_now ::= Z.add (seconds 400) |>.
Lemma cancelled_reachable : reachable {[(1%nat, "def.response")]} (cancelled_worker, later_world).
Proof.
  set (p := refresh_subscriptions (start_worker (w_now two_hosts)) two_hosts).
  assert (reachable (∅ ∪ ∅) p.2) as H1.
  { eapply reach_step; [apply (reach_start (w_now two_hosts) two_hosts)|].
    eapply step_discover; [apply two_hosts_unique|]. apply surjective_pairing. }
  assert (reachable (∅ ∪ ∅ ∪ {[(1%nat, "def.response")]}) (cancelled_worker, p.2.2)) as H2.
  { apply (reach_step _ (p.2.1, p.2.2)); [by rewrite <- surjective_pairing|]. apply step_consumer_lost. }
  replace {[(1%nat, "def.response")]} with (∅ ∪ ∅ ∪ {[(1%nat, "def.response")]} ∪ ∅ : gset (nat * string)) by set_solver.
  eapply reach_step; [exact H2|apply step_environment].
Qed.
Lemma worker_invariant_witness :
  (1%nat, "def.response") ∉ ch_consumers cancelled_worker ∧ 1%nat ∈ ch_open cancelled_worker ∧
  ∃ k1 w1 k2 w2 c, check_host_consumers (λ _, 1%nat) cancelled_worker later_world = (Ok tt, (k1, w1)) ∧
    refresh_subscriptions k1 later_world = (Ok tt, (k2, w2)) ∧ (c, "def.response") ∈ ch_consumers k2.
Proof.
  split; [apply (bool_decide_unpack _); vm_compute; exact I|].
  split; [apply (bool_decide_unpack _); vm_compute; exact I|].
  destruct (worker_invariant _ _ _ cancelled_reachable) as (_ & _ & _ & Hrepair).
  destruct (Hrepair (λ _, 1%nat) "def" 1%nat) as (k1 & w1 & Hw & _ & Hnext);
    [reflexivity|vm_compute; reflexivity..|].
  destruct (Hnext later_world) as (k2 & w2 & c & Hr & _ & Hc).
  - reflexivity.
  - apply (bool_decide_unpack _). vm_compute. exact I.
  - exists "h2". eexists. split; [vm_compute; reflexivity|reflexivity].
  - intros kd a. destruct kd; vm_compute; congruence.
  - exists k1, w1, k2, w2, c. split; [exact Hw|]. split; [exact Hr|].
    apply (Hc RESPONSE). apply (bool_decide_unpack _). vm_compute. exact I.
Defined.
(** A host that lost one consumer but still sends on another queue is not
    repaired: the watchdog keeps one time of the last message for all the
    queues of a host, so the status reports hide the lost [vm_inventory]. *)
Definition half_deaf_worker : worker :=
  cancel_consumer 1%nat "def.vm_inventory" (on_message "def"
    (refresh_subscriptions (start_worker (w_now two_hosts)) two_hosts).2.1 later_world).2.1.
Lemma partial_outage_unrepaired :
  let p1 := (check_host_consumers (λ _, 100%nat) half_deaf_worker later_world).2 in
  let k2 := (refresh_subscriptions p1.1 p1.2).2.1 in
  host_channels k2 !! "def" = Some 1%nat ∧ 1%nat ∈ ch_open k2 ∧ (1%nat, "def.agent_status") ∈ ch_consumers k2 ∧
  ∀ c, (c, "def.vm_inventory") ∉ ch_consumers k2.
Proof.
  cbv zeta.
  split; [vm_compute; reflexivity|]. split; [apply (bool_decide_unpack _); vm_compute; exact I|].
  split; [apply (bool_decide_unpack _); vm_compute; exact I|]. intros c Hc.
  match type of Hc with _ ∈ ?s => assert (Forall (λ p, p.2 ≠ "def.vm_inventory") (elements s)) as Hall
    by (apply (bool_decide_unpack _); vm_compute; exact I) end.
  rewrite Forall_forall in Hall. by apply (Hall (c, "def.vm_inventory")); [apply elem_of_elements|].
Qed.
Definition deaf_worker : worker := mkWorker {["abc" := 0%nat]} {["abc" := 0]} 0 None 1 ∅ ∅.
Lemma deaf_worker_ok : worker_ok ∅ deaf_worker.
Proof.
  split; cbn; intros *; rewrite ?elem_of_empty, ?lookup_singleton_Some; try done; [naive_solver|].
  intros [<- <-]. lia.
Qed.
Lemma watchdog_drops_stuck_witness : ∃ k' w',
  check_host_consumers (λ _, 0%nat) deaf_worker two_hosts = (Ok tt, (k', w')) ∧ host_channels k' !! "abc" = None.
Proof.
  destruct (watchdog_drops_stuck ∅ (λ _, 0%nat) deaf_worker two_hosts deaf_worker_ok eq_refl) as (k' & w' & Hr & _ & _ & H).
  exists k', w'. split; [exact Hr|]. destruct (host_channels k' !! "abc") as [c|] eqn:E; [|reflexivity].
  apply H in E as [E Hs]. exfalso. cbn in E. injection E as <-. vm_compute in Hs. discriminate Hs.
Defined.
