(* ===== verification/Startup.v ===== *)
(** * Start-up checks and the development request log ([app/preflight.py], [app/logging.py])

    [run_preflight] probes the stores and repairs what the hosts need on the
    broker before the process serves; [log_entry] is the line the development
    middleware writes for a request body. *)
From S2P Require Import Prelude Py Clock Model World Store Cache Messaging Hosts Consumers.
From Stdlib Require Import Ascii.
Open Scope string_scope.
Open Scope Z_scope.

(** ** Preflight *)
Definition PROBE_KEY : string := "__ovc_preflight__".
Definition check_valkey : M unit :=
  valkey (λ c, (tt, c));;                                  (* PING *)
  at_now (λ now c, (tt, c_set now PROBE_KEY (CText "1") 10 c));;
  v ← peek (λ now c, c_get now PROBE_KEY c);
  (if bool_decide (text_of v = Some "1") then mret tt else raise ERuntime);;
  at_now (λ now c, (tt, (c_del now PROBE_KEY c).2)).
(** an answer of the broker *)
Definition ask_broker {A} (f : broker → A) : M A := λ w,
  if w_broker_up w then (Ok (f (w_mq w)), w) else (Raise EBroker, w).
Definition check_rabbitmq : M unit := ask_broker (λ _, tt).
Definition list_queue_names : M (gset string) := ask_broker (λ b, dom (queues b)).
(** the user's permissions; a user given none has empty patterns *)
Definition get_permissions (name : string) : M (option (string * string * string)) :=
  ask_broker (λ b,
    match rmq_users b !! name with
    | Some u => if String.eqb (ru_configure u) "" && String.eqb (ru_write u) "" && String.eqb (ru_read u) "" then None
                else Some (ru_configure u, ru_write u, ru_read u)
    | None => None
    end).
Definition missing_queues (hs : list Host) (present : gset string) : list string :=
  List.filter (λ q, negb (bool_decide (q ∈ present)))
    (hs ≫= λ h, queue_name (h_short_id h) <$> ALL_KINDS).
Definition check_agent_user (h : Host) : M unit :=
  ensure_host_agent_user h;;
  p ← get_permissions (default "" (h_agent_rmq_user h));
  if is_some p then mret tt else raise ERuntime.
Definition check_hosts_messaging : M unit :=
  session_scope
    (hs ← query (λ d, rows (λ _, true) (hosts d));
     match hs with
     | [] => mret tt
     | _ =>
         for_each hs (λ h, declare_host_queues (h_short_id h));;
         present ← list_queue_names;
         match missing_queues hs present with
         | _ :: _ => raise ERuntime
         | [] =>
             cfg ← get_settings;
             if preflight_manage_rabbitmq_users cfg then
               hs ← map_each (λ h, hc ← ensure_host_agent_credentials h; mret hc.1) hs;
               for_each hs put_host;;                      (* flush *)
               for_each hs check_agent_user
             else mret tt
         end
     end).

(** [select_1]: opening a connection of the engine and executing [SELECT 1] *)
Definition check_database (select_1 : M unit) : M unit := try_except select_1 (λ _, raise ERuntime).

Section preflight.
(** the checks of Postgres and of its schema ([Migrations]) *)
Context (check_database check_schema : M unit).

Definition steps : list (M unit) :=
  [check_valkey; check_database; check_schema; check_rabbitmq; check_hosts_messaging].
(** any failure is a [PreflightError] *)
Definition run_preflight : M unit :=
  cfg ← get_settings;
  if negb (Model.preflight cfg) then mret tt
  else for_each steps (λ step, try_except step (λ _, raise ERuntime)).
End preflight.

(** ** Health ([app/api/routes/health.py]): an exception of a probe is a failure *)
Record HealthOut := mkHealth { he_ok : bool; he_db : bool; he_cache : bool; he_rabbit : bool }.
Definition probe (m : M bool) : M bool := try_except m (λ _, mret false).
Definition health (check_db : M unit) : M HealthOut :=
  db ← probe (check_db;; mret true);
  cache ← probe (valkey (λ c, (true, c)));
  rabbit ← probe (ask_broker (λ _, true));
  mret (mkHealth (db && cache && rabbit) db cache rabbit).

(** ** The request log *)
Definition REDACT_KEYS : list string :=
  ["password"; "secret"; "token"; "access_token"; "refresh_token"; "authorization"; "client_secret";
   "session_secret"; "api_key"].
Definition MAX_BODY : nat := Z.to_nat 16384.
Definition secret_key (k : string) : bool := bool_decide (lower k ∈ REDACT_KEYS).
Fixpoint redact (value : json) : json :=
  match value with
  | JObj d => JObj ((fix entries (d : dict) : dict :=
                       match d with
                       | [] => []
                       | (k, v) :: d' => (k, if secret_key k then JStr "***" else redact v) :: entries d'
                       end) d)
  | JList l => JList ((fix items (l : list json) :=
                         match l with [] => [] | v :: l' => redact v :: items l' end) l)
  | _ => value
  end.
Record http_call := mkCall {
  hc_method : string; hc_path : string; hc_query : string; hc_ctype : string; hc_body : string
}.
#[export] Instance eta_http_call : Eta http_call :=
  Build_Eta _ (λ r, mkCall (hc_method r) (hc_path r) (hc_query r) (hc_ctype r) (hc_body r)).
Section log.
(** [json.loads] ([None] when it raises [ValueError]) and [json.dumps(indent=2)] *)
Context (loads : string → option json) (dumps : json → string).
(** the rendered body of a request and the mark of a longer one *)
Definition log_entry (ctype raw : string) : string :=
  let body := stake MAX_BODY raw in
  let truncated := if (MAX_BODY <? String.length raw)%nat then " …(truncated)" else "" in
  let rendered :=
    if contains "application/json" ctype then
      match loads body with Some v => dumps (redact v) | None => body end
    else body in
  rendered +:+ truncated.
Definition request_line (r : http_call) : string :=
  hc_method r +:+ " " +:+ hc_path r +:+ (if str_nonempty (hc_query r) then "?" +:+ hc_query r else "") +:+
  String (ascii_of_N 10) (log_entry (hc_ctype r) (hc_body r)).
(** [dispatch]: the lines logged, and the body the handler then receives ([_replay]) *)
Definition log_dispatch (r : http_call) : list string * string :=
  if bool_decide (hc_method r ∈ ["POST"; "PUT"; "PATCH"; "DELETE"]) then
    (if str_nonempty (hc_body r) then [request_line r] else [], hc_body r)
  else ([], hc_body r).
(** [install_request_logging]: only in the development environment *)
Definition request_logging (cfg : Settings) (r : http_call) : list string * string :=
  if String.eqb (env cfg) "dev" then log_dispatch r else ([], hc_body r).
End log.

(** ** What preflight repairs *)

(** the agent account a host should have on the broker *)
Definition agent_user (h : Host) : string :=
  match h_agent_rmq_user h with
  | Some u => if str_nonempty u then u else new_agent_rmq_user (h_short_id h)
  | None => new_agent_rmq_user (h_short_id h)
  end.
(** [h'] is [h] with its credentials filled in, those it had kept *)
Definition credited (h h' : Host) : Prop :=
  ∃ p, h' = h <| h_agent_rmq_user := Some (agent_user h) |> <| h_agent_rmq_password := Some p |> ∧ p ≠ "" ∧
    (given_str (h_agent_rmq_password h) = true → h_agent_rmq_password h = Some p).
(** the queues and the account of a credited host stand on the broker *)
Definition messaging_ok (w : world) (h : Host) : Prop :=
  host_queues_ok w (h_short_id h) ∧
  ∃ p, h_agent_rmq_password h = Some p ∧ rmq_users (w_mq w) !! agent_user h = Some (agent_account h p).

Lemma agent_user_ne h : agent_user h ≠ "".
Proof. unfold agent_user, new_agent_rmq_user. destruct (h_agent_rmq_user h) as [[]|]; done. Qed.
Lemma credentials_ok h w :
  (∀ n, w_token w n ≠ "") →
  ∃ h' b n, ensure_host_agent_credentials h w = (Ok (h', b), w <| w_seq := n |>) ∧ credited h h'.
Proof.
  intros Ht. unfold ensure_host_agent_credentials. cbv zeta. unfold credited, agent_user.
  assert (w = w <| w_seq := w_seq w |>) as Ew by (by destruct w).
  destruct h as [i si ci nm fq ip hv u p av al rv rh hw]. cbn.
  destruct u as [[|c u]|]; cbn; destruct p as [[|pc p]|]; cbn.
  all: eexists _, _, _; split;
    [first [rewrite Ew at 1; reflexivity|reflexivity]|eexists; split; [reflexivity|split; [first [apply Ht|done]|done]]].
Qed.

(** the four passes over the hosts *)
Section passes.
Context (hs : list Host) (w0 : world) (Up : w_broker_up w0 = true).

(** [w] is [w0] but for its queues, those of the hosts [l] alone *)
Definition only_queues (l : list Host) (w : world) : Prop :=
  w = w0 <| w_mq := w_mq w |> ∧ rmq_users (w_mq w) = rmq_users (w_mq w0) ∧ published (w_mq w) = published (w_mq w0) ∧
  (∀ q, (∀ h k, h ∈ l → q ≠ queue_name (h_short_id h) k) → queues (w_mq w) !! q = queues (w_mq w0) !! q).
Definition declared (done_ : list Host) (w : world) : Prop :=
  only_queues hs w ∧
  (∀ h, h ∈ done_ → host_queues_ok w (h_short_id h)) ∧
  (∀ h k a, h ∈ hs → queues (w_mq w) !! queue_name (h_short_id h) k = Some a → a = queue_args (w_cfg w) k).
Lemma declare_pass :
  (∀ h k a, h ∈ hs → queues (w_mq w0) !! queue_name (h_short_id h) k = Some a → a = queue_args (w_cfg w0) k) →
  ∃ w, for_each hs (λ h, declare_host_queues (h_short_id h)) w0 = (Ok tt, w) ∧ declared hs w.
Proof using Up.
  intros Hq. apply (for_each_ok _ declared).
  2: { split; [by split_and!; [destruct w0|..]|]. split; [intros h Hh; by apply not_elem_of_nil in Hh|done]. }
  intros done_ h w Hh ((W & Ru & Pu & Oq) & Hd & Ha). unfold declare_host_queues. rewrite run_settings.
  assert (w_broker_up w = true) as U by (by rewrite W).
  destruct (declare_list (h_short_id h) ALL_KINDS w U) as (b & Hb & Hin & Hout & Hp & Hu).
  { intros k a _ E. by apply (Ha h k a Hh). }
  eexists. split; [exact Hb|]. split; [split_and!|split].
  - rewrite W at 1. done.
  - by rewrite <- Ru.
  - by rewrite <- Pu.
  - intros q Nq. cbn. rewrite Hout; [by apply Oq|]. intros k _. by apply Nq.
  - intros h' Hh' k. cbn. destruct (decide (h_short_id h' = h_short_id h)) as [E|N].
    + rewrite E. apply Hin. apply all_kinds.
    + apply elem_of_app in Hh' as [Hh'|Hh']; [|apply list_elem_of_singleton in Hh' as ->; done].
      rewrite Hout; [by apply Hd|]. intros k' _ E. by apply queue_name_inj2 in E as [? _].
  - intros h' k a Hh' E. cbn in E. destruct (decide (h_short_id h' = h_short_id h)) as [E'|N].
    + rewrite E', Hin in E by (apply all_kinds). by injection E as <-.
    + rewrite Hout in E; [by apply (Ha h' k a Hh')|]. intros k' _ E'. by apply queue_name_inj2 in E' as [? _].
Qed.
Lemma nothing_missing w : declared hs w → missing_queues hs (dom (queues (w_mq w))) = [].
Proof using Type.
  intros (_ & Hd & _). unfold missing_queues.
  destruct (List.filter _ _) as [|q l] eqn:E; [done|]. exfalso.
  assert (q ∈ q :: l) as Hq by left. rewrite <- E in Hq.
  apply list_elem_of_In, filter_In in Hq as [Hq Hn]. apply list_elem_of_In, list_elem_of_bind in Hq as (h & Hq & Hh).
  apply list_elem_of_fmap in Hq as (k & -> & _). apply negb_true_iff, bool_decide_eq_false in Hn.
  apply Hn, elem_of_dom. exists (queue_args (w_cfg w) k). by apply Hd.
Qed.
Lemma credit_pass l w :
  (∀ n, w_token w n ≠ "") →
  ∃ l' n, map_each (λ h, hc ← ensure_host_agent_credentials h; mret hc.1) l w = (Ok l', w <| w_seq := n |>) ∧
    Forall2 credited l l'.
Proof using Type.
  revert w. induction l as [|h l IH]; intros w Ht; cbn [map_each].
  - exists [], (w_seq w). split; [by destruct w|constructor].
  - destruct (credentials_ok h w Ht) as (h' & b & n & Hc & Hcr).
    pose proof (IH (w <| w_seq := n |>)) as IH'. cbn in IH'. destruct (IH' Ht) as (l' & n' & Hl & Hf). exists (h' :: l'), n'. split; [|by constructor].
    rewrite run_assoc, (run_ok _ _ _ _ _ Hc), run_ret. by rewrite (run_ok _ _ _ _ _ Hl).
Qed.
Definition stored (done_ : list Host) (w w' : world) : Prop :=
  w' = w <| w_db := w_db w <| hosts := foldl (λ m h, <[h_id h := h]> m) (hosts (w_db w)) done_ |> |>.
Lemma store_pass l w : ∃ w', for_each l put_host w = (Ok tt, w') ∧ stored l w w'.
Proof using Type.
  apply (for_each_ok _ (λ done_, stored done_ w)); [|by destruct w as [? ? ? ? ? ? [] ? ? ? ? ?]].
  intros done_ h w' _ ->. eexists. split; [reflexivity|]. unfold stored. by rewrite foldl_app.
Qed.
End passes.
Lemma check_user_run h h' w :
  credited h h' → w_broker_up w = true →
  ∃ b p, check_agent_user h' w = (Ok tt, w <| w_mq := b |>) ∧ h_agent_rmq_password h' = Some p ∧
    rmq_users b = <[agent_user h := agent_account h p]> (rmq_users (w_mq w)) ∧ queues b = queues (w_mq w) ∧
    published b = published (w_mq w).
Proof.
  intros (p & -> & Hp & _) Up. unfold check_agent_user.
  destruct (agent_user_run (h <| h_agent_rmq_user := Some (agent_user h) |> <| h_agent_rmq_password := Some p |>)
    (agent_user h) p w Up) as (b & Hb & Hu & Hq & Hm); [done|done|apply agent_user_ne|done|].
  rewrite (run_ok _ _ _ _ _ Hb). unfold get_permissions, ask_broker, mbind, M_bind. cbn. rewrite Up, Hu, lookup_insert_eq.
  exists b, p. split; [|done]. done.
Qed.
Lemma user_pass hs hs' w :
  Forall2 credited hs hs' → w_broker_up w = true → NoDup (agent_user <$> hs) →
  ∃ b, for_each hs' check_agent_user w = (Ok tt, w <| w_mq := b |>) ∧ queues b = queues (w_mq w) ∧
    published b = published (w_mq w) ∧ (∀ u, u ∉ agent_user <$> hs → rmq_users b !! u = rmq_users (w_mq w) !! u) ∧
    Forall2 (λ h h', ∃ p, h_agent_rmq_password h' = Some p ∧ rmq_users b !! agent_user h = Some (agent_account h p)) hs hs'.
Proof.
  intros F. revert w. induction F as [|h h' hs hs' Hc F IH]; intros w Up Nd.
  - exists (w_mq w). split; [by destruct w|]. by split_and!; [..|constructor].
  - cbn [for_each]. rewrite fmap_cons in *. apply NoDup_cons in Nd as [Hni Nd].
    destruct (check_user_run h h' w Hc Up) as (b & p & Hr & Hpw & Hu & Hq & Hm). rewrite (run_ok _ _ _ _ _ Hr).
    pose proof (IH (w <| w_mq := b |>)) as IH'. cbn in IH'. destruct (IH' Up Nd) as (b' & Hr' & Hq' & Hm' & Ho & Hf). exists b'.
    split; [exact Hr'|]. split; [congruence|]. split; [congruence|]. split.
    + intros u Hu'. rewrite Ho by set_solver. rewrite Hu, lookup_insert_ne; [done|set_solver].
    + constructor; [|exact Hf]. exists p. split; [done|]. rewrite Ho by done. rewrite Hu. apply lookup_insert_eq.
Qed.

(** *** The tables *)
Lemma rows_keys {A} (key : A → string) (p : A → bool) (m : gmap string A) :
  (∀ k x, m !! k = Some x → key x = k) → NoDup (key <$> rows p m).
Proof.
  intros K. unfold rows. rewrite <- list_fmap_compose.
  replace (key ∘ snd <$> map_to_list _) with ((map_to_list (filter (λ kv, p kv.2 = true) m)).*1).
  - apply NoDup_fst_map_to_list.
  - apply list_fmap_ext. intros i [k x] H%list_elem_of_lookup_2%elem_of_map_to_list. cbn.
    apply map_lookup_filter_Some in H as [H _]. by rewrite (K k x H).
Qed.
Lemma foldl_insert_other (l : list Host) (m : gmap string Host) k :
  k ∉ h_id <$> l → foldl (λ m h, <[h_id h := h]> m) m l !! k = m !! k.
Proof.
  revert m. induction l as [|h l IH]; intros m Hk; cbn; [done|]. rewrite fmap_cons in Hk.
  rewrite IH by set_solver. apply lookup_insert_ne. set_solver.
Qed.
Lemma foldl_insert_in (l : list Host) (m : gmap string Host) h :
  NoDup (h_id <$> l) → h ∈ l → foldl (λ m h, <[h_id h := h]> m) m l !! h_id h = Some h.
Proof.
  revert m. induction l as [|x l IH]; intros m Nd Hh; [by apply not_elem_of_nil in Hh|].
  rewrite fmap_cons in Nd. apply NoDup_cons in Nd as [Hx Nd]. cbn.
  apply elem_of_cons in Hh as [->|Hh]; [|by apply IH].
  rewrite foldl_insert_other by done. apply lookup_insert_eq.
Qed.
Lemma credited_ids hs hs' : Forall2 credited hs hs' → h_id <$> hs' = h_id <$> hs.
Proof. induction 1 as [|h h' hs hs' (p & -> & _) _ IH]; cbn; [done|]. by rewrite IH. Qed.

(** C18: start-up leaves every host able to talk, and touches nothing else.
    With the broker up, user management on, and no queue of a host declared with
    other arguments than today's settings give (RabbitMQ refuses to redeclare
    it: [stale_queue_fails_preflight]), no two hosts on one agent account, and
    random tokens never empty, whatever queues, accounts and credentials were
    missing, the check succeeds; afterwards each host has its nine queues,
    a row whose credentials are filled in - those it had are kept - and exactly
    the account of that row on the broker, restricted to its own queues.  Every
    queue and every account that is no host's, every message published, every
    other row of every table and everything outside the database and the broker
    (but the next random token) are what they were. *)
Theorem preflight_repairs_messaging w :
  w_broker_up w = true → preflight_manage_rabbitmq_users (w_cfg w) = true → (∀ n, w_token w n ≠ "") →
  (∀ k h, hosts (w_db w) !! k = Some h → h_id h = k) →
  (∀ k h kd a, hosts (w_db w) !! k = Some h →
     queues (w_mq w) !! queue_name (h_short_id h) kd = Some a → a = queue_args (w_cfg w) kd) →
  (∀ k k' h h', hosts (w_db w) !! k = Some h → hosts (w_db w) !! k' = Some h' → agent_user h = agent_user h' → k = k') →
  ∃ w', check_hosts_messaging w = (Ok tt, w') ∧
    (∀ k h, hosts (w_db w) !! k = Some h → ∃ h' p, hosts (w_db w') !! k = Some h' ∧ credited h h' ∧
       h_agent_rmq_password h' = Some p ∧ rmq_users (w_mq w') !! agent_user h = Some (agent_account h p) ∧
       host_queues_ok w' (h_short_id h)) ∧
    (∀ k, hosts (w_db w) !! k = None → hosts (w_db w') !! k = None) ∧
    (∀ q, (∀ k h kd, hosts (w_db w) !! k = Some h → q ≠ queue_name (h_short_id h) kd) →
       queues (w_mq w') !! q = queues (w_mq w) !! q) ∧
    (∀ u, (∀ k h, hosts (w_db w) !! k = Some h → u ≠ agent_user h) →
       rmq_users (w_mq w') !! u = rmq_users (w_mq w) !! u) ∧
    published (w_mq w') = published (w_mq w) ∧
    w' = w <| w_db := w_db w <| hosts := hosts (w_db w') |> |> <| w_mq := w_mq w' |> <| w_seq := w_seq w' |>.
Proof.
  intros Up Mg Tk Key Qa Du. unfold check_hosts_messaging, session_scope, savepoint. rewrite run_query.
  set (hs := rows (λ _, true) (hosts (w_db w))).
  assert (∀ h, h ∈ hs ↔ ∃ k, hosts (w_db w) !! k = Some h) as Hin.
  { intros h. unfold hs. rewrite elem_of_rows. naive_solver. }
  assert (NoDup (h_id <$> hs)) as Nd by (by apply rows_keys).
  assert (NoDup (agent_user <$> hs)) as Nu.
  { apply NoDup_fmap_2_strong; [|by eapply NoDup_fmap_1]. intros x y [k Hx]%Hin [k' Hy]%Hin E.
    pose proof (Du k k' x y Hx Hy E) as <-. congruence. }
  destruct (decide (hs = [])) as [E|N].
  { rewrite E. exists w. split; [done|]. split_and!; try done; [|by destruct w as [? ? ? ? ? ? [] ? ? ? ? ?]].
    intros k h Hh. assert (h ∈ hs) as H by (apply Hin; eauto). rewrite E in H. by apply not_elem_of_nil in H. }
  destruct (declare_pass hs w Up) as (w1 & Hd & D).
  { intros h kd a [k Hk]%Hin. by eapply Qa. }
  pose proof D as ((W1 & Ru & Pu & Oq) & Q1 & _).
  assert (w_broker_up w1 = true) as Up1 by (by rewrite W1). assert (w_cfg w1 = w_cfg w) as C1 by (by rewrite W1).
  assert (w_db w1 = w_db w) as D1 by (by rewrite W1).
  destruct (credit_pass hs w1) as (hs' & n & Hc & Fc); [by rewrite W1|].
  destruct (store_pass hs' (w1 <| w_seq := n |>)) as (w2 & Hs & ->). cbn [w_db] in Hs.
  set (w2 := w1 <| w_seq := n |> <| w_db := _ |>) in Hs.
  destruct (user_pass hs hs' w2 Fc Up1 Nu) as (b & Hu & Qb & Pb & Ob & Fu).
  exists (w2 <| w_mq := b |>). split.
  { destruct hs as [|h0 hs0]; [done|]. rewrite (run_ok _ _ _ _ _ Hd).
    unfold list_queue_names at 1. unfold mbind, M_bind at 1, ask_broker. rewrite Up1.
    rewrite (nothing_missing _ _ w1 D). rewrite run_settings, C1, Mg.
    rewrite (run_ok _ _ _ _ _ Hc), (run_ok _ _ _ _ _ Hs). by rewrite Hu. }
  assert (NoDup (h_id <$> hs')) as Nd' by (by rewrite (credited_ids _ _ Fc)).
  split_and!.
  - intros k h Hk. assert (h ∈ hs) as Hh by (apply Hin; eauto).
    apply list_elem_of_lookup in Hh as [i Hi]. destruct (Forall2_lookup_l _ _ _ _ _ Fc Hi) as (h' & Hi' & Hcr).
    destruct (Forall2_lookup_l _ _ _ _ _ Fu Hi) as (h'' & Hi'' & p & Hp & Hru). simplify_eq.
    exists h', p. assert (h_id h' = k) as Eid by (destruct Hcr as (? & -> & _); cbn; by apply (Key k)).
    split; [|split_and!; try done].
    + cbn. rewrite <- Eid. apply foldl_insert_in; [done|]. by eapply list_elem_of_lookup_2.
    + intros kd. cbn. rewrite Qb. apply Q1. apply Hin. eauto.
  - intros k Hk. cbn. rewrite foldl_insert_other, D1; [done|]. rewrite (credited_ids _ _ Fc).
    intros (h & -> & [k' Hh]%Hin)%list_elem_of_fmap. rewrite (Key k' h Hh) in Hk. congruence.
  - intros q Nq. cbn. rewrite Qb. apply Oq. intros h kd [k Hk]%Hin. by eapply Nq.
  - intros u Nu'. cbn. rewrite Ob; [cbn; by rewrite Ru|]. intros (h & -> & [k Hk]%Hin)%list_elem_of_fmap. by apply (Nu' k h Hk).
  - cbn. by rewrite Pb.
  - cbn. unfold w2. rewrite W1. by destruct w.
Qed.
(** one step of a pass raises, whatever the others do *)
Lemma for_each_keeps {A} (P : world → Prop) (body : A → M unit) l w :
  (∀ x w, P w → (∃ e w', body x w = (Raise e, w')) ∨ ∃ w', body x w = (Ok tt, w') ∧ P w') → P w →
  (∃ e w', for_each l body w = (Raise e, w')) ∨ ∃ w', for_each l body w = (Ok tt, w') ∧ P w'.
Proof.
  intros Hb. revert w. induction l as [|x l IH]; intros w Hw; cbn [for_each]; [right; by exists w|].
  destruct (Hb x w Hw) as [(e & w' & E)|(w' & E & Hw')].
  - left. eexists _, _. by rewrite (run_fail _ _ _ _ _ E).
  - rewrite (run_ok _ _ _ _ _ E). by apply IH.
Qed.
Lemma for_each_fails {A} (P : world → Prop) (body : A → M unit) x l w :
  x ∈ l → P w →
  (∀ x w, P w → (∃ e w', body x w = (Raise e, w')) ∨ ∃ w', body x w = (Ok tt, w') ∧ P w') →
  (∀ w, P w → ∃ e w', body x w = (Raise e, w')) →
  ∃ e w', for_each l body w = (Raise e, w').
Proof.
  intros Hx Hw Hb Hf. revert w Hw. induction l as [|y l IH]; intros w Hw; [by apply not_elem_of_nil in Hx|].
  cbn [for_each]. apply elem_of_cons in Hx as [->|Hx].
  - destruct (Hf w Hw) as (e & w' & E). eexists _, _. by rewrite (run_fail _ _ _ _ _ E).
  - destruct (Hb y w Hw) as [(e & w' & E)|(w' & E & Hw')].
    + eexists _, _. by rewrite (run_fail _ _ _ _ _ E).
    + rewrite (run_ok _ _ _ _ _ E). by apply IH.
Qed.
Lemma declare_refused q a b w : queues (w_mq w) !! q = Some a → a ≠ b → declare_queue q b w = (Raise EBroker, w).
Proof. intros Q N. unfold declare_queue, broker_op. rewrite Q. by destruct (w_broker_up w); [case_decide|]. Qed.
Lemma declare_keeps q a q' b w :
  queues (w_mq w) !! q = Some a →
  (∃ e w', declare_queue q' b w = (Raise e, w')) ∨
  ∃ w', declare_queue q' b w = (Ok tt, w') ∧ w_cfg w' = w_cfg w ∧ queues (w_mq w') !! q = Some a.
Proof.
  intros Q. unfold declare_queue, broker_op. destruct (w_broker_up w); [|left; by eexists _, _].
  destruct (queues (w_mq w) !! q') as [c|] eqn:E; [case_decide; [|left; by eexists _, _]|]; right; eexists; (split; [done|]).
  - done.
  - split; [done|]. cbn. rewrite lookup_insert_ne; [done|congruence].
Qed.
(** a queue declared with other arguments - a TTL changed since - is refused by
    the broker, and start-up with it *)
Lemma stale_queue_fails_preflight w k h kd a :
  hosts (w_db w) !! k = Some h → queues (w_mq w) !! queue_name (h_short_id h) kd = Some a →
  a ≠ queue_args (w_cfg w) kd → ∃ e w', check_hosts_messaging w = (Raise e, w').
Proof.
  intros Hh Hq Na. unfold check_hosts_messaging, session_scope, savepoint. rewrite run_query.
  set (hs := rows (λ _, true) (hosts (w_db w))). assert (h ∈ hs) as Hin by (apply elem_of_rows; eauto).
  clearbody hs. destruct hs as [|h0 hs0]; [by apply not_elem_of_nil in Hin|].
  set (stale := λ w', w_cfg w' = w_cfg w ∧ queues (w_mq w') !! queue_name (h_short_id h) kd = Some a).
  destruct (for_each_fails stale (λ x, declare_host_queues (h_short_id x)) h (h0 :: hs0) w) as (e & w' & E); [done|done| | |].
  - intros x w1 S1. unfold declare_host_queues. rewrite run_settings. destruct S1 as [C1 Q1]. rewrite C1.
    assert (stale w1) as S1 by done. clear C1 Q1.
    apply for_each_keeps; [|done]. intros kd' w2 [C2 Q2].
    destruct (declare_keeps _ a (queue_name (h_short_id x) kd') (queue_args (w_cfg w) kd') w2 Q2) as [?|(w3 & ? & C3 & ?)]; [by left|].
    right. exists w3. by rewrite C2 in C3.
  - intros w1 S1. unfold declare_host_queues. rewrite run_settings. destruct S1 as [C1 Q1]. rewrite C1.
    apply (for_each_fails stale _ kd); [apply all_kinds|done| |].
    + intros kd' w2 [C2 Q2].
      destruct (declare_keeps _ a (queue_name (h_short_id h) kd') (queue_args (w_cfg w) kd') w2 Q2) as [?|(w3 & ? & C3 & ?)]; [by left|].
      right. exists w3. by rewrite C2 in C3.
    + intros w2 [_ Q2]. eexists _, _. by apply (declare_refused _ a).
  - eexists _, _. by rewrite (run_fail _ _ _ _ _ E).
Qed.
Lemma preflight_repairs_messaging_witness : ∃ w' h',
  check_hosts_messaging (sample_world <| w_db := empty_db <| hosts := {["h1" := bare_host "h1" "abc" None "n" "hyperv"]} |> |>)
    = (Ok tt, w') ∧ hosts (w_db w') !! "h1" = Some h' ∧ h_agent_rmq_user h' = Some "agent-abc" ∧
  host_queues_ok w' "abc".
Proof.
  destruct (preflight_repairs_messaging
    (sample_world <| w_db := empty_db <| hosts := {["h1" := bare_host "h1" "abc" None "n" "hyperv"]} |> |>))
    as (w' & Hr & Hh & _); [reflexivity|reflexivity|discriminate| | | |].
  - intros k h H. cbn in H. apply lookup_singleton_Some in H as [<- <-]. reflexivity.
  - intros k h kd a _ H. discriminate H.
  - intros k k' h h' H H' _. cbn in H, H'. apply lookup_singleton_Some in H as [<- _], H' as [<- _]. reflexivity.
  - destruct (Hh "h1" (bare_host "h1" "abc" None "n" "hyperv")) as (h' & p & H1 & H2 & _ & _ & H3); [vm_compute; reflexivity|].
    exists w', h'. split; [exact Hr|]. split; [exact H1|]. split; [|exact H3].
    destruct H2 as (q & -> & _). reflexivity.
Defined.

(** ** What the request log reveals *)

(** the two values differ under secret keys only *)
Inductive same_public : json → json → Prop :=
  | sp_eq v : same_public v v
  | sp_list l l' : Forall2 same_public l l' → same_public (JList l) (JList l')
  | sp_obj d d' : same_entries d d' → same_public (JObj d) (JObj d')
with same_entries : dict → dict → Prop :=
  | se_nil : same_entries [] []
  | se_secret k v v' d d' : secret_key k = true → same_entries d d' → same_entries ((k, v) :: d) ((k, v') :: d')
  | se_public k v v' d d' : same_public v v' → same_entries d d' → same_entries ((k, v) :: d) ((k, v') :: d').
Lemma redact_public : ∀ v v', same_public v v' → redact v = redact v'.
Proof.
  fix IH 3. intros v v' [|l l' H|d d' H]; [done|..]; cbn; f_equal.
  - induction H as [|x y l l' Hx _ IHl]; [done|]. by rewrite (IH x y Hx), IHl.
  - revert d d' H. fix IHd 3. intros d d' [|k x x' d1 d1' Hk Hd|k x x' d1 d1' Hx Hd]; [done|..].
    + by rewrite Hk, (IHd d1 d1' Hd).
    + by rewrite (IH x x' Hx), (IHd d1 d1' Hd).
Qed.
Lemma stake_all n s : (String.length s ≤ n)%nat → stake n s = s.
Proof. revert n. induction s as [|c s IH]; intros [|n] H; cbn in *; try done; [lia|]. rewrite IH; [done|lia]. Qed.

Lemma log_entry_public loads dumps ctype raw raw' v v' :
  contains "application/json" ctype = true →
  (String.length raw ≤ MAX_BODY)%nat → (String.length raw' ≤ MAX_BODY)%nat →
  loads raw = Some v → loads raw' = Some v' → same_public v v' →
  log_entry loads dumps ctype raw = log_entry loads dumps ctype raw'.
Proof.
  intros Hc Hl Hl' Hv Hv' Hp. unfold log_entry. rewrite Hc, !stake_all, Hv, Hv', (redact_public v v' Hp) by done.
  apply Nat.ltb_ge in Hl, Hl'. by rewrite Hl, Hl'.
Qed.
(** C28: the request log keeps secrets - up to its size bound.  Two requests
    alike but for their JSON bodies, each of at most 16384 characters, that
    differ only in values under redacted keys, at whatever depth and in whatever
    case the keys are written, are logged alike, in every environment: what is
    logged is a function of the rest of the body.  The handler still receives
    the body it was sent, and outside development nothing is logged. *)
Theorem log_hides_secrets (loads : string → option json) (dumps : json → string) cfg r raw v v' :
  contains "application/json" (hc_ctype r) = true → loads "" = None →
  (String.length (hc_body r) ≤ MAX_BODY)%nat → (String.length raw ≤ MAX_BODY)%nat →
  loads (hc_body r) = Some v → loads raw = Some v' → same_public v v' →
  let r' := r <| hc_body := raw |> in
  (request_logging loads dumps cfg r).1 = (request_logging loads dumps cfg r').1 ∧
  (request_logging loads dumps cfg r).2 = hc_body r ∧ (request_logging loads dumps cfg r').2 = raw ∧
  (env cfg ≠ "dev" → (request_logging loads dumps cfg r).1 = []).
Proof.
  intros Hc H0 Hl Hl' Hv Hv' Hp r'.
  assert (str_nonempty (hc_body r) = true ∧ str_nonempty raw = true) as [N N'] by (destruct (hc_body r), raw; simplify_eq; done).
  assert (request_line loads dumps r = request_line loads dumps r') as E.
  { unfold request_line. by rewrite (log_entry_public loads dumps (hc_ctype r) (hc_body r) raw v v'). }
  assert (∀ q, str_nonempty (hc_body q) = true → log_dispatch loads dumps q =
    (if bool_decide (hc_method q ∈ ["POST"; "PUT"; "PATCH"; "DELETE"]) then [request_line loads dumps q] else [], hc_body q)) as D.
  { intros q Nq. unfold log_dispatch. rewrite Nq. by case_bool_decide. }
  unfold request_logging. rewrite !D, E by done. destruct (String.eqb_spec (env cfg) "dev"); by split_and!.
Qed.
Definition sample_loads (s : string) : option json :=
  if String.eqb s "a" then Some (JObj [("Password", JStr "one"); ("name", JStr "x")])
  else if String.eqb s "b" then Some (JObj [("Password", JStr "two"); ("name", JStr "x")]) else None.
Definition sample_call (body : string) : http_call := mkCall "POST" "/api/users" "" "application/json" body.
Lemma log_hides_secrets_witness :
  (request_logging sample_loads (λ _, "") default_settings (sample_call "a")).1 =
    (request_logging sample_loads (λ _, "") default_settings (sample_call "b")).1.
Proof.
  apply (log_hides_secrets sample_loads (λ _, "") default_settings (sample_call "a") "b"
    (JObj [("Password", JStr "one"); ("name", JStr "x")]) (JObj [("Password", JStr "two"); ("name", JStr "x")]));
    [reflexivity|reflexivity|apply (bool_decide_unpack _); vm_compute; exact Logic.I|apply (bool_decide_unpack _); vm_compute; exact Logic.I
    |reflexivity|reflexivity|].
  apply sp_obj, se_secret; [vm_compute; reflexivity|]. apply se_public; [apply sp_eq|apply se_nil].
Defined.
(** A longer body is cut before it is parsed: the prefix does not parse, and is
    logged as it was sent, passwords included. *)
Lemma long_body_unredacted (loads : string → option json) dumps ctype raw :
  (MAX_BODY < String.length raw)%nat → loads (stake MAX_BODY raw) = None →
  log_entry loads dumps ctype raw = stake MAX_BODY raw +:+ " …(truncated)".
Proof.
  intros Hl Hn. unfold log_entry. rewrite Hn. apply Nat.ltb_lt in Hl. rewrite Hl. by destruct (contains _ _).
Qed.
