(* ===== verification/Connection.v ===== *)
(** * The process-wide RabbitMQ connection ([app/messaging/rabbit.py])

    The module keeps one connection per process in a global, opened on first
    use and reopened once it is closed.  A connection is a number; [lk_open]
    holds those still open on the broker, the one the global names or not. *)
From S2P Require Import Prelude Py Clock Model World Startup.
Open Scope Z_scope.

Record link_state := mkLinks {
  lk_connection : option nat;     (* the global [_connection] *)
  lk_open : gset nat;
  lk_next : nat
}.
#[export] Instance eta_links : Eta link_state :=
  Build_Eta _ (λ l, mkLinks (lk_connection l) (lk_open l) (lk_next l)).
Definition no_links : link_state := mkLinks None ∅ 0.

(** [aio_pika.connect_robust(url)]: raises while the broker is down *)
Definition connect_robust (l : link_state) : M (nat * link_state) :=
  ask_broker (λ _, (lk_next l, l <| lk_next ::= S |> <| lk_open ::= λ s, {[lk_next l]} ∪ s |>)).
Definition is_closed (l : link_state) (c : nat) : bool := negb (bool_decide (c ∈ lk_open l)).
(** what [get_connection] decides before it awaits *)
Definition must_connect (l : link_state) : bool :=
  match lk_connection l with None => true | Some c => is_closed l c end.
Definition get_connection (l : link_state) : M (nat * link_state) :=
  match lk_connection l with
  | Some c =>
      if is_closed l c then
        r ← connect_robust l; mret (r.1, r.2 <| lk_connection := Some r.1 |>)
      else mret (c, l)
  | None => r ← connect_robust l; mret (r.1, r.2 <| lk_connection := Some r.1 |>)
  end.
(** [conn.channel()]: raises while the broker is down *)
Definition get_channel (l : link_state) : M link_state :=
  r ← get_connection l;
  ask_broker (λ _, r.2).
Definition close_connection (l : link_state) : link_state :=
  (match lk_connection l with
   | Some c => if is_closed l c then l else l <| lk_open ::= λ s, s ∖ {[c]} |>
   | None => l
   end) <| lk_connection := None |>.
Definition rabbit_healthy (l : link_state) : M (bool * link_state) :=
  try_except (r ← get_connection l; mret (negb (is_closed r.2 r.1), r.2)) (λ _, mret (false, l)).

(** ** One connection *)

(** every open connection is the one the global names *)
Record single (l : link_state) : Prop := {
  single_named : ∀ c, c ∈ lk_open l → lk_connection l = Some c;
  single_fresh : ∀ c, c ∈ lk_open l → (c < lk_next l)%nat
}.
Lemma single_start : single no_links.
Proof. by split; intros c; cbn; rewrite elem_of_empty. Qed.

Lemma closed_spec l c : is_closed l c = true ↔ c ∉ lk_open l.
Proof. unfold is_closed. rewrite negb_true_iff. apply bool_decide_eq_false. Qed.
Lemma not_closed_spec l c : is_closed l c = false ↔ c ∈ lk_open l.
Proof. unfold is_closed. rewrite negb_false_iff. apply bool_decide_eq_true. Qed.
Lemma none_open l : single l → must_connect l = true → lk_open l = ∅.
Proof.
  intros [N _] H. apply set_eq. intros c. split; [intros Hc|by intros ?%elem_of_empty].
  unfold must_connect in H. rewrite (N c Hc) in H. by apply closed_spec in H.
Qed.

(** the connection of an open process is shared; otherwise one is opened, if the broker is up *)
Lemma get_connection_run l w :
  get_connection l w =
    if must_connect l then
      if w_broker_up w then
        (Ok (lk_next l, l <| lk_connection := Some (lk_next l) |> <| lk_open ::= λ s, {[lk_next l]} ∪ s |> <| lk_next ::= S |>), w)
      else (Raise EBroker, w)
    else (Ok (default 0%nat (lk_connection l), l), w).
Proof.
  unfold get_connection, must_connect, connect_robust, ask_broker, mbind, M_bind.
  destruct l as [[c|] o n]; cbn; [destruct (is_closed _ c)|]; destruct (w_broker_up w); done.
Qed.
Lemma get_connection_single l w c l' w' :
  single l → get_connection l w = (Ok (c, l'), w') → single l' ∧ lk_open l' = {[c]} ∧ lk_connection l' = Some c ∧ w' = w.
Proof.
  intros S H. rewrite get_connection_run in H. destruct (must_connect l) eqn:E.
  - pose proof (none_open l S E) as O. destruct (w_broker_up w); [|done]. injection H as <- <- <-. cbn. rewrite O, union_empty_r_L.
    split; [|done]. split; cbn; intros c ->%elem_of_singleton; [done|lia].
  - injection H as <- <- <-. unfold must_connect in E. destruct (lk_connection l) as [c|] eqn:Ec; [|done]. cbn.
    apply not_closed_spec in E. split; [done|]. split; [|done]. apply set_eq. intros c'. rewrite elem_of_singleton.
    split; [intros H; pose proof (single_named l S c' H); congruence|by intros ->].
Qed.
Lemma close_connection_single l : single l → single (close_connection l) ∧ lk_open (close_connection l) = ∅.
Proof.
  intros S. assert (lk_open (close_connection l) = ∅) as O.
  { unfold close_connection. destruct (lk_connection l) as [c|] eqn:E.
    - destruct (is_closed l c) eqn:C; cbn.
      + apply (none_open l S). unfold must_connect. by rewrite E.
      + apply set_eq. intros c'. split; [|by intros ?%elem_of_empty]. intros [H N]%elem_of_difference.
        pose proof (single_named l S c' H) as H'. set_solver.
    - apply (none_open l S). unfold must_connect. by rewrite E. }
  split; [|done]. by split; intros c; rewrite O, elem_of_empty.
Qed.

(** a health probe never raises, and answers whether the broker can be used *)
Lemma rabbit_healthy_run l w :
  ∃ l', rabbit_healthy l w = (Ok (negb (must_connect l) || w_broker_up w, l'), w) ∧ (single l → single l').
Proof.
  unfold rabbit_healthy, try_except, mbind, M_bind. rewrite get_connection_run.
  assert (∀ c l', get_connection l w = (Ok (c, l'), w) → single l → single l') as K.
  { intros c l' H S. by destruct (get_connection_single l w c l' w S H). }
  rewrite get_connection_run in K. destruct (must_connect l) eqn:E.
  - assert (∀ l', lk_open l' = {[lk_next l]} ∪ lk_open l → negb (is_closed l' (lk_next l)) = true) as B.
    { intros l' H. apply negb_true_iff, not_closed_spec. rewrite H. set_solver. }
    destruct (w_broker_up w); [|by exists l].
    eexists. split; [cbn [fst snd]; rewrite B by reflexivity; reflexivity|by eauto].
  - eexists. split; [|done]. cbn [fst snd]. unfold must_connect in E.
    destruct (lk_connection l) as [c|]; [|done]. cbn. by rewrite E.
Qed.

(** ** Two callers: [get_connection] awaits between its test and its assignment *)
Definition connected (c : nat) (l : link_state) : link_state := l <| lk_connection := Some c |>.
(** both see no connection, then both open one; the second assignment wins *)
Definition concurrent_get_connection (l : link_state) : M (nat * nat * link_state) :=
  if must_connect l then
    a ← connect_robust l;
    b ← connect_robust a.2;
    mret (a.1, b.1, connected b.1 (connected a.1 b.2))
  else
    a ← get_connection l; mret (a.1, a.1, a.2).
(** ... so the first connection stays open and no name is left to close it *)
Lemma concurrent_connect_leaks w :
  w_broker_up w = true →
  ∃ a b l, concurrent_get_connection no_links w = (Ok (a, b, l), w) ∧ a ≠ b ∧
    a ∈ lk_open l ∧ b ∈ lk_open l ∧ a ∈ lk_open (close_connection l) ∧ ¬ single l.
Proof.
  intros Up. unfold concurrent_get_connection, connect_robust, ask_broker, mbind, M_bind. cbn. rewrite !Up.
  eexists _, _, _. split; [reflexivity|]. split_and!; [done|vm_compute; done..|].
  intros [N _]. specialize (N 0%nat). cbn in N. discriminate N. set_solver.
Qed.
Lemma concurrent_connect_leaks_example :
  ∃ a b l, concurrent_get_connection no_links sample_world = (Ok (a, b, l), sample_world) ∧
    a ∈ lk_open (close_connection l).
Proof. destruct (concurrent_connect_leaks sample_world) as (a & b & l & H); [reflexivity|]. naive_solver. Defined.
