(* ===== verification/Management.v ===== *)
(** * The management client over HTTP ([app/messaging/management.py])

    [Messaging] and [Startup] speak of the broker's users and queues directly.
    Here is the client that reaches them: the requests it sends, the way it
    reads the answers, and the start-up checks written over it.  The server is
    a parameter; [ManagementApi] states what its documentation promises for
    each request, and a server routing on the path of a request satisfies it. *)
From S2P Require Import Prelude Py Clock Model World Store Cache Messaging Hosts Url AgentInstall Startup Connection.
From Stdlib Require Import Ascii.
Open Scope string_scope.
Open Scope Z_scope.

(** ** The client *)
Record client := mkClient { mc_vhost : string; mc_base : string; mc_auth : string * string }.
(** [RabbitManagement()] *)
Definition client_of (cfg : Settings) : res client :=
  parts ← amqp_parts (rabbitmq_url cfg);
  let '(user, password, vhost) := parts in
  mret (mkClient vhost (drop_while_end (Ascii.eqb "/") (rabbitmq_mgmt_url cfg)) (user, password)).
Definition rabbit_management : M client := cfg ← get_settings; lift_py (client_of cfg).

Inductive http_method := GET | PUT | DELETE.
Record http_request := mkHttpRequest {
  hq_base : string; hq_auth : string * string; hq_method : http_method; hq_path : string;
  hq_params : list (string * string); hq_json : option json
}.
(** the body is [None] where [response.json()] would raise *)
Record http_response := mkHttpResponse { status_code : Z; hp_json : option json }.
Definition response_json (r : http_response) : M json :=
  match hp_json r with Some v => mret v | None => raise (EPy ValueError) end.

Definition user_path (name : string) : string := "/api/users/" +:+ quote name.
Definition permissions_path (vhost name : string) : string :=
  "/api/permissions/" +:+ quote vhost +:+ "/" +:+ quote name.
Definition queues_path (vhost : string) : string := "/api/queues/" +:+ quote vhost.
Definition aliveness_path (vhost : string) : string := "/api/aliveness-test/" +:+ quote vhost.
Definition call (c : client) (method : http_method) (path : string) (params : list (string * string))
    (body : option json) : http_request :=
  mkHttpRequest (mc_base c) (mc_auth c) method path params body.

(** one element of [{q["name"] for q in resp.json()}]: only strings can equal a queue's name *)
Definition queue_item (names : gset string) (q : json) : res (gset string) :=
  match q with
  | JObj d =>
      match dict_find d "name" with
      | Some (JStr s) => inl ({[s]} ∪ names)
      | Some (JList _) | Some (JObj _) => inr TypeError
      | Some _ => inl names
      | None => inr KeyError
      end
  | _ => inr TypeError
  end.
Fixpoint queue_items (names : gset string) (qs : list json) : res (gset string) :=
  match qs with
  | [] => inl names
  | q :: qs' => names' ← queue_item names q; queue_items names' qs'
  end.
Definition queue_names_of (v : json) : res (gset string) :=
  match v with
  | JList qs => queue_items ∅ qs
  | JObj [] | JStr "" => inl ∅
  | _ => inr TypeError
  end.

Section operations.
(** the server, on the broker it manages *)
Context (http : http_request → broker → http_response * broker).

(** [self._client.request]: [httpx.HTTPError] while the server cannot be reached *)
Definition send (r : http_request) : M http_response := λ w,
  if w_broker_up w then
    let '(resp, b) := http r (w_mq w) in (Ok resp, w <| w_mq := b |>)
  else (Raise EBroker, w).
(** [_request]: [RabbitManagementError] (a [RuntimeError]) instead, and for an error status *)
Definition mgmt_request (c : client) (method : http_method) (path : string) (params : list (string * string))
    (body : option json) : M http_response :=
  resp ← try_except (send (call c method path params body)) (λ _, raise ERuntime);
  if 400 <=? status_code resp then raise ERuntime else mret resp.

Definition check_alive (c : client) : M unit :=
  mgmt_request c GET "/api/overview" [] None;;
  resp ← mgmt_request c GET (aliveness_path (mc_vhost c)) [] None;
  v ← response_json resp;
  match v with
  | JObj d => match dget d "status" with JStr "ok" => mret tt | _ => raise ERuntime end
  | _ => raise (EPy AttributeError)
  end.
Definition mgmt_list_queue_names (c : client) : M (gset string) :=
  resp ← mgmt_request c GET (queues_path (mc_vhost c)) [("columns", "name"); ("disable_stats", "true")] None;
  v ← response_json resp;
  lift_py (queue_names_of v).
Definition user_exists (c : client) (name : string) : M bool :=
  resp ← send (call c GET (user_path name) [] None);
  if status_code resp =? 404 then mret false
  else if 400 <=? status_code resp then raise ERuntime
  else mret true.
Definition mgmt_upsert_user (c : client) (name password : string) : M unit :=
  mgmt_request c PUT (user_path name) []
    (Some (JObj [("password", JStr password); ("tags", JStr "")]));;
  mret tt.
Definition mgmt_delete_user (c : client) (name : string) : M unit :=
  resp ← send (call c DELETE (user_path name) [] None);
  if (status_code resp =? 204) || (status_code resp =? 404) then mret tt else raise ERuntime.
Definition mgmt_set_permissions (c : client) (name configure write read : string) : M unit :=
  mgmt_request c PUT (permissions_path (mc_vhost c) name) []
    (Some (JObj [("configure", JStr configure); ("write", JStr write); ("read", JStr read)]));;
  mret tt.
Definition mgmt_get_permissions (c : client) (name : string) : M (option json) :=
  resp ← send (call c GET (permissions_path (mc_vhost c) name) [] None);
  if status_code resp =? 404 then mret None
  else if 400 <=? status_code resp then raise ERuntime
  else v ← response_json resp; mret (Some v).

(** ** What is written over the client *)

(** [services/hosts.py] *)
Definition ensure_host_agent_user_http (c : client) (h : Host) : M unit :=
  match h_agent_rmq_user h, h_agent_rmq_password h with
  | Some user, Some password =>
      if str_nonempty user && str_nonempty password then
        mgmt_upsert_user c user password;;
        mgmt_set_permissions c user (agent_permission_pattern (h_short_id h)) (agent_write_pattern (h_short_id h))
          (agent_permission_pattern (h_short_id h))
      else raise EAssert
  | _, _ => raise EAssert
  end.
Definition provision_host_agent_user_http (h : Host) : M Host :=
  hc ← ensure_host_agent_credentials h;
  put_host hc.1;;
  c ← rabbit_management;
  ensure_host_agent_user_http c hc.1;;
  mret hc.1.
Definition deprovision_host_messaging_http (host_ref : string) (agent_rmq_user : option string) : M unit :=
  try_except (delete_host_queues host_ref) (λ _, mret tt);;
  match agent_rmq_user with
  | Some user =>
      if str_nonempty user then try_except (c ← rabbit_management; mgmt_delete_user c user) (λ _, mret tt)
      else mret tt
  | None => mret tt
  end.
(** [preflight.py] *)
Definition check_rabbitmq_http (l : link_state) : M link_state :=
  r ← try_except (get_connection l) (λ _, raise ERuntime);
  (if is_closed r.2 r.1 then raise ERuntime else mret tt);;
  try_except (c ← rabbit_management; check_alive c) (λ _, raise ERuntime);;
  mret r.2.
Definition check_agent_user_http (c : client) (h : Host) : M unit :=
  ensure_host_agent_user_http c h;;
  p ← mgmt_get_permissions c (default "" (h_agent_rmq_user h));
  if is_some p then mret tt else raise ERuntime.
Definition check_hosts_messaging_http : M unit :=
  session_scope
    (hs ← query (λ d, rows (λ _, true) (hosts d));
     match hs with
     | [] => mret tt
     | _ =>
         for_each hs (λ h, declare_host_queues (h_short_id h));;
         c ← rabbit_management;
         present ← mgmt_list_queue_names c;
         match missing_queues hs present with
         | _ :: _ => raise ERuntime
         | [] =>
             cfg ← get_settings;
             if preflight_manage_rabbitmq_users cfg then
               hs ← map_each (λ h, hc ← ensure_host_agent_credentials h; mret hc.1) hs;
               for_each hs put_host;;
               for_each hs (check_agent_user_http c)
             else mret tt
         end
     end).
Definition run_preflight_http (check_database check_schema : M unit) (l : link_state) : M link_state :=
  cfg ← get_settings;
  if negb (Model.preflight cfg) then mret l
  else
    fold_each
      [λ l, check_valkey;; mret l; λ l, check_database;; mret l; λ l, check_schema;; mret l;
       check_rabbitmq_http; λ l, check_hosts_messaging_http;; mret l]
      l (λ l step, try_except (step l) (λ _, raise ERuntime)).
(** [lifespan] ([main.py]): [None] is [SystemExit(1)]; [serving] is the life of the application *)
Definition lifespan (check_database check_schema : M unit) (serving : link_state → M link_state) : M (option link_state) :=
  r ← try_except (l ← run_preflight_http check_database check_schema no_links; mret (Some l)) (λ _, mret None);
  match r with
  | None => mret None
  | Some l => l' ← serving l; mret (Some (close_connection l'))
  end.
End operations.

(** ** Paths: what a server reads of a path are its decoded segments *)
Definition segments (path : string) : list string := unquote <$> split_char "/" path.
(** a quoted name is one segment, whatever it holds *)
Lemma split_on_none p s acc : s_forallb (λ c, negb (p c)) s = true → split_on p s acc = [acc +:+ s].
Proof.
  revert acc. induction s as [|c s IH]; intros acc H; cbn [s_forallb split_on] in *; [by rewrite sapp_nil_r|].
  apply andb_true_iff in H as [Hc H]. apply negb_true_iff in Hc. by rewrite Hc, IH, sapp_assoc.
Qed.
Lemma split_on_cut p a x b acc :
  s_forallb (λ c, negb (p c)) a = true → p x = true →
  split_on p (a +:+ String x b) acc = (acc +:+ a) :: split_on p b "".
Proof.
  intros H Hx. revert acc H. induction a as [|c a IH]; intros acc H; cbn [s_forallb] in *.
  - change ("" +:+ String x b) with (String x b). cbn [split_on]. by rewrite Hx, sapp_nil_r.
  - apply andb_true_iff in H as [Hc H]. apply negb_true_iff in Hc. rewrite sapp_cons. cbn [split_on].
    by rewrite Hc, IH, sapp_assoc.
Qed.
Lemma quote_no_slash s : s_forallb (λ c, negb (Ascii.eqb c "/")) (quote s) = true.
Proof.
  apply (s_forallb_weaken quoted_char); [|apply quote_chars]. intros c Hc. destruct (Ascii.eqb_spec c "/"); [by subst|done].
Qed.
Lemma segment_quoted s : unquote <$> split_char "/" (quote s) = [s].
Proof. unfold split_char. rewrite split_on_none by apply quote_no_slash. change ([unquote (quote s)] = [s]). by rewrite unquote_quote. Qed.
Lemma segments_user v : segments (user_path v) = [""; "api"; "users"; v].
Proof.
  change (unquote <$> "" :: "api" :: "users" :: split_char "/" (quote v) = [""; "api"; "users"; v]).
  by rewrite !fmap_cons, segment_quoted.
Qed.
Lemma segments_queues v : segments (queues_path v) = [""; "api"; "queues"; v].
Proof.
  change (unquote <$> "" :: "api" :: "queues" :: split_char "/" (quote v) = [""; "api"; "queues"; v]).
  by rewrite !fmap_cons, segment_quoted.
Qed.
Lemma segments_aliveness v : segments (aliveness_path v) = [""; "api"; "aliveness-test"; v].
Proof.
  change (unquote <$> "" :: "api" :: "aliveness-test" :: split_char "/" (quote v) = [""; "api"; "aliveness-test"; v]).
  by rewrite !fmap_cons, segment_quoted.
Qed.
Lemma segments_permissions v name : segments (permissions_path v name) = [""; "api"; "permissions"; v; name].
Proof.
  change (unquote <$> "" :: "api" :: "permissions" :: split_char "/" (quote v +:+ String "/" (quote name)) =
    [""; "api"; "permissions"; v; name]).
  unfold split_char at 1. rewrite split_on_cut by (done || apply quote_no_slash).
  fold (split_char "/" (quote name)). rewrite !fmap_cons, segment_quoted. change ("" +:+ quote v) with (quote v). by rewrite unquote_quote.
Qed.

(** ** What the server's documentation promises *)

(** a name that is one segment of a path: [httpx] removes dot segments *)
Definition segment (name : string) : bool :=
  str_nonempty name && negb (String.eqb name ".") && negb (String.eqb name "..").
Definition answers (r : http_response) : Prop := status_code r < 400.
(** what the permissions [p] of a user are shown as *)
Definition permissions_json (u : RmqUser) : json :=
  JObj [("configure", JStr (ru_configure u)); ("write", JStr (ru_write u)); ("read", JStr (ru_read u))].
(** a user that was never given permissions has empty patterns *)
Definition unpermitted (u : RmqUser) : bool :=
  String.eqb (ru_configure u) "" && String.eqb (ru_write u) "" && String.eqb (ru_read u) "".
Definition with_password (o : option RmqUser) (password : string) : RmqUser :=
  match o with
  | Some u => mkRmqUser password (ru_configure u) (ru_write u) (ru_read u)
  | None => mkRmqUser password "" "" ""
  end.

Definition USERS (name : string) : list string := [""; "api"; "users"; name].
Definition PERMISSIONS (vhost name : string) : list string := [""; "api"; "permissions"; vhost; name].
(** [c] is how the server is reached: its address, an administrator's credentials and the virtual host *)
Class ManagementApi (http : http_request → broker → http_response * broker) (c : client) : Prop := {
  api_overview path b : segments path = [""; "api"; "overview"] →
    ∃ r, http (call c GET path [] None) b = (r, b) ∧ answers r;
  api_alive path b : segments path = [""; "api"; "aliveness-test"; mc_vhost c] →
    ∃ r d, http (call c GET path [] None) b = (r, b) ∧ answers r ∧
      hp_json r = Some (JObj d) ∧ dget d "status" = JStr "ok";
  api_queues path b : segments path = [""; "api"; "queues"; mc_vhost c] →
    ∃ r names, http (call c GET path [("columns", "name"); ("disable_stats", "true")] None) b = (r, b) ∧
      answers r ∧ hp_json r = Some (JList ((λ q, JObj [("name", JStr q)]) <$> names)) ∧
      list_to_set names = dom (queues b);
  api_put_user path name password b : segments path = USERS name → segment name = true →
    ∃ r, http (call c PUT path [] (Some (JObj [("password", JStr password); ("tags", JStr "")]))) b =
      (r, b <| rmq_users ::= <[name := with_password (rmq_users b !! name) password]> |>) ∧ answers r;
  api_get_user path name b : segments path = USERS name → segment name = true →
    ∃ r, http (call c GET path [] None) b = (r, b) ∧
      match rmq_users b !! name with Some _ => answers r | None => status_code r = 404 end;
  api_delete_user path name b : segments path = USERS name → segment name = true →
    ∃ r, http (call c DELETE path [] None) b = (r, b <| rmq_users ::= delete name |>) ∧
      status_code r = match rmq_users b !! name with Some _ => 204 | None => 404 end;
  api_put_permissions path name x y z b : segments path = PERMISSIONS (mc_vhost c) name → segment name = true →
    ∃ r b', http (call c PUT path []
        (Some (JObj [("configure", JStr x); ("write", JStr y); ("read", JStr z)]))) b = (r, b') ∧
      match rmq_users b !! name with
      | Some u => answers r ∧ b' = b <| rmq_users ::= <[name := mkRmqUser (ru_password u) x y z]> |>
      | None => ¬ answers r ∧ b' = b
      end;
  api_get_permissions path name b : segments path = PERMISSIONS (mc_vhost c) name → segment name = true →
    ∃ r, http (call c GET path [] None) b = (r, b) ∧
      match rmq_users b !! name with
      | Some u => if unpermitted u then status_code r = 404
                  else answers r ∧ status_code r ≠ 404 ∧ hp_json r = Some (permissions_json u)
      | None => status_code r = 404
      end
}.

(** ** Refinement *)

(** [m] does what [m'] does from [w]: the same world, results related by [R],
    and an exception - not always the same one - exactly where [m'] raises *)
Definition agree {A B} (R : A → B → Prop) (m : M A) (m' : M B) (w : world) : Prop :=
  match m' w with
  | (Ok b, w') => ∃ a, m w = (Ok a, w') ∧ R a b
  | (Raise _, w') => ∃ e, m w = (Raise e, w')
  end.
Lemma agree_refl {A} (m : M A) w : agree eq m m w.
Proof. unfold agree. destruct (m w) as [[a|e] w']; eauto. Qed.
Lemma agree_bind {A B C D} (R : A → B → Prop) (S : C → D → Prop) m m' (f : A → M C) (g : B → M D) w :
  agree R m m' w →
  (∀ a b w', m' w = (Ok b, w') → R a b → agree S (f a) (g b) w') →
  agree S (m ≫= f) (m' ≫= g) w.
Proof.
  unfold agree, mbind, M_bind. destruct (m' w) as [[b|e] w'].
  - intros (a & -> & Hab) H. exact (H a b w' eq_refl Hab).
  - intros (e' & ->) _. by exists e'.
Qed.
Lemma agree_try {A B} (R : A → B → Prop) m m' h h' w :
  agree R m m' w → (∀ e e' w', agree R (h e) (h' e') w') → agree R (try_except m h) (try_except m' h') w.
Proof.
  unfold agree, try_except. destruct (m' w) as [[b|e] w'].
  - intros (a & -> & Hab) _. by exists a.
  - intros (e' & ->) H. apply H.
Qed.
Lemma agree_scope {A B} (R : A → B → Prop) m m' w : agree R m m' w → agree R (session_scope m) (session_scope m') w.
Proof.
  unfold agree, session_scope, savepoint. destruct (m' w) as [[b|e] w'].
  - intros (a & -> & Hab). by exists a.
  - intros (e' & ->). by exists e'.
Qed.
Lemma agree_for_each {A} (l : list A) f g (I : world → Prop) w :
  (∀ x v, x ∈ l → I v → agree eq (f x) (g x) v) → (∀ x v, I v → I (g x v).2) → I w →
  agree eq (for_each l f) (for_each l g) w.
Proof.
  intros H K. revert w. induction l as [|x l IH]; intros w Hw; [by apply agree_refl|]. cbn [for_each].
  apply (agree_bind eq); [by apply H; [left|]|]. intros _ [] w' E _. apply IH.
  - intros y v Hy. apply H. by right.
  - specialize (K x w Hw). by rewrite E in K.
Qed.
Lemma agree_raise {A B} (R : A → B → Prop) e e' w : agree R (raise e) (raise e') w.
Proof. by exists e. Qed.

Lemma same_mq w : w <| w_mq := w_mq w |> = w.
Proof. by destruct w. Qed.

Lemma queue_items_names (names : list string) (s : gset string) :
  queue_items s ((λ q, JObj [("name", JStr q)]) <$> names) = inl (list_to_set names ∪ s).
Proof.
  revert s. induction names as [|q names IH]; intros s; cbn; [by rewrite union_empty_l_L|].
  rewrite IH. f_equal. set_solver.
Qed.

Section refinement.
Context {http : http_request → broker → http_response * broker} {c : client} {Api : ManagementApi http c}.

Lemma send_up r w resp b :
  w_broker_up w = true → http r (w_mq w) = (resp, b) → send http r w = (Ok resp, w <| w_mq := b |>).
Proof using Type. intros Up H. unfold send. by rewrite Up, H. Qed.
Lemma send_down r w : w_broker_up w = false → send http r w = (Raise EBroker, w).
Proof using Type. intros Up. unfold send. by rewrite Up. Qed.
Lemma request_up m path ps j w resp b :
  w_broker_up w = true → http (call c m path ps j) (w_mq w) = (resp, b) →
  mgmt_request http c m path ps j w =
    (if 400 <=? status_code resp then Raise ERuntime else Ok resp, w <| w_mq := b |>).
Proof using Type.
  intros Up H. unfold mgmt_request, try_except, mbind, M_bind. rewrite (send_up _ _ _ _ Up H).
  by destruct (400 <=? status_code resp).
Qed.
Lemma request_ok m path ps j w resp b :
  w_broker_up w = true → http (call c m path ps j) (w_mq w) = (resp, b) → answers resp →
  mgmt_request http c m path ps j w = (Ok resp, w <| w_mq := b |>).
Proof using Type. intros Up H A. rewrite (request_up _ _ _ _ _ _ _ Up H). unfold answers in A. by destruct (Z.leb_spec 400 (status_code resp)); [lia|]. Qed.
Lemma request_down m path ps j w : w_broker_up w = false → mgmt_request http c m path ps j w = (Raise ERuntime, w).
Proof using Type. intros Up. unfold mgmt_request, try_except, mbind, M_bind. by rewrite send_down. Qed.

Lemma upsert_user_agrees name password w :
  segment name = true → agree eq (mgmt_upsert_user http c name password) (Messaging.upsert_user name password) w.
Proof using Api.
  intros N. unfold mgmt_upsert_user, Messaging.upsert_user, agree, broker_op. destruct (w_broker_up w) eqn:Up.
  - destruct (api_put_user _ name password (w_mq w) (segments_user name) N) as (r & H & A).
    rewrite (run_ok _ _ _ _ _ (request_ok _ _ _ _ _ _ _ Up H A)). by exists tt.
  - rewrite (run_fail _ _ _ _ _ (request_down _ _ _ _ _ Up)). by eexists.
Qed.
Lemma set_permissions_agrees name x y z w :
  segment name = true → agree eq (mgmt_set_permissions http c name x y z) (Messaging.set_permissions name x y z) w.
Proof using Api.
  intros N. unfold mgmt_set_permissions, Messaging.set_permissions, agree, broker_op. destruct (w_broker_up w) eqn:Up.
  - destruct (api_put_permissions _ name x y z (w_mq w) (segments_permissions _ name) N) as (r & b' & H & A).
    destruct (rmq_users (w_mq w) !! name) as [u|] eqn:E.
    + destruct A as [A ->]. rewrite (run_ok _ _ _ _ _ (request_ok _ _ _ _ _ _ _ Up H A)). by exists tt.
    + destruct A as [A ->]. unfold mbind, M_bind. rewrite (request_up _ _ _ _ _ _ _ Up H), same_mq. unfold answers in A.
      destruct (Z.leb_spec 400 (status_code r)); [by eexists|lia].
  - rewrite (run_fail _ _ _ _ _ (request_down _ _ _ _ _ Up)). by eexists.
Qed.
Lemma delete_user_agrees name w :
  segment name = true → agree eq (mgmt_delete_user http c name) (Messaging.delete_user name) w.
Proof using Api.
  intros N. unfold mgmt_delete_user, Messaging.delete_user, agree, broker_op. destruct (w_broker_up w) eqn:Up.
  - destruct (api_delete_user _ name (w_mq w) (segments_user name) N) as (r & H & A).
    rewrite (run_ok _ _ _ _ _ (send_up _ _ _ _ Up H)). exists tt. rewrite A. by destruct (rmq_users (w_mq w) !! name).
  - rewrite (run_fail _ _ _ _ _ (send_down _ _ Up)). by eexists.
Qed.
Lemma user_exists_agrees name w :
  segment name = true → agree eq (user_exists http c name) (ask_broker (λ b, is_some (rmq_users b !! name))) w.
Proof using Api.
  intros N. unfold user_exists, agree, ask_broker. destruct (w_broker_up w) eqn:Up.
  - destruct (api_get_user _ name (w_mq w) (segments_user name) N) as (r & H & A).
    rewrite (run_ok _ _ _ _ _ (send_up _ _ _ _ Up H)), same_mq. unfold answers in A.
    destruct (rmq_users (w_mq w) !! name); eexists; (split; [|reflexivity]); [|by rewrite A].
    destruct (Z.eqb_spec (status_code r) 404); [lia|]. by destruct (Z.leb_spec 400 (status_code r)); [lia|].
  - rewrite (run_fail _ _ _ _ _ (send_down _ _ Up)). by eexists.
Qed.
Lemma get_permissions_agrees name w :
  segment name = true →
  agree (λ p q, is_some p = is_some q) (mgmt_get_permissions http c name) (Startup.get_permissions name) w.
Proof using Api.
  intros N. unfold mgmt_get_permissions, Startup.get_permissions, agree, ask_broker. destruct (w_broker_up w) eqn:Up.
  - destruct (api_get_permissions _ name (w_mq w) (segments_permissions _ name) N) as (r & H & A).
    rewrite (run_ok _ _ _ _ _ (send_up _ _ _ _ Up H)), same_mq. unfold unpermitted, answers in A.
    destruct (rmq_users (w_mq w) !! name) as [u|]; [|exists None; by rewrite A].
    destruct (_ && _); [exists None; by rewrite A|]. destruct A as (A1 & A2 & A3). exists (Some (permissions_json u)).
    destruct (Z.eqb_spec (status_code r) 404); [lia|]. destruct (Z.leb_spec 400 (status_code r)); [lia|].
    unfold response_json. by rewrite A3.
  - rewrite (run_fail _ _ _ _ _ (send_down _ _ Up)). by eexists.
Qed.
Lemma list_queue_names_agrees w : agree eq (mgmt_list_queue_names http c) Startup.list_queue_names w.
Proof using Api.
  unfold mgmt_list_queue_names, Startup.list_queue_names, agree, ask_broker. destruct (w_broker_up w) eqn:Up.
  - destruct (api_queues _ (w_mq w) (segments_queues _)) as (r & names & H & A & J & D).
    rewrite (run_ok _ _ _ _ _ (request_ok _ _ _ _ _ _ _ Up H A)), same_mq. unfold response_json. rewrite J, run_ret.
    cbn [queue_names_of]. rewrite queue_items_names, union_empty_r_L, D. by eexists.
  - rewrite (run_fail _ _ _ _ _ (request_down _ _ _ _ _ Up)). by eexists.
Qed.
Lemma check_alive_agrees w : agree eq (check_alive http c) Startup.check_rabbitmq w.
Proof using Api.
  unfold check_alive, Startup.check_rabbitmq, agree, ask_broker. destruct (w_broker_up w) eqn:Up.
  - destruct (api_overview "/api/overview" (w_mq w) eq_refl) as (r & H & A). destruct (api_alive _ (w_mq w) (segments_aliveness _)) as (r' & d & H' & A' & J & S).
    rewrite (run_ok _ _ _ _ _ (request_ok _ _ _ _ _ _ _ Up H A)), same_mq.
    rewrite (run_ok _ _ _ _ _ (request_ok _ _ _ _ _ _ _ Up H' A')), same_mq.
    unfold response_json. rewrite J, run_ret, S. by exists tt.
  - rewrite (run_fail _ _ _ _ _ (request_down _ _ _ _ _ Up)). by eexists.
Qed.

(** *** Hosts *)
Definition addressable (h : Host) : Prop := ∀ u, h_agent_rmq_user h = Some u → u ≠ "." ∧ u ≠ "..".
Lemma segment_name u : str_nonempty u = true → u ≠ "." → u ≠ ".." → segment u = true.
Proof using Type. intros N P1%String.eqb_neq P2%String.eqb_neq. unfold segment. by rewrite N, P1, P2. Qed.
Lemma ensure_user_agrees h w :
  addressable h → agree eq (ensure_host_agent_user_http http c h) (Hosts.ensure_host_agent_user h) w.
Proof using Api.
  intros N. unfold ensure_host_agent_user_http, Hosts.ensure_host_agent_user. unfold addressable in N.
  destruct (h_agent_rmq_user h) as [u|]; [|apply agree_raise]. destruct (h_agent_rmq_password h) as [p|]; [|apply agree_raise].
  destruct (str_nonempty u) eqn:E; [|apply agree_raise]. destruct (str_nonempty p); [|apply agree_raise].
  destruct (N u eq_refl). assert (segment u = true) by (by apply segment_name).
  eapply agree_bind; [by apply upsert_user_agrees|]. intros _ _ v _ _. by apply set_permissions_agrees.
Qed.
Lemma credentials_addressable h w h' b w' :
  ensure_host_agent_credentials h w = (Ok (h', b), w') → addressable h → addressable h' ∧ w_cfg w' = w_cfg w.
Proof using Type.
  unfold ensure_host_agent_credentials, new_agent_rmq_password, mbind, M_bind, addressable. intros H A.
  assert (∀ u, Some (new_agent_rmq_user (h_short_id h)) = Some u → u ≠ "." ∧ u ≠ "..") as A0.
  { intros u [= <-]. unfold new_agent_rmq_user. by destruct (h_short_id h). }
  destruct h as [? ? ? ? ? ? ? u p ? ? ? ? ?]; cbn in *. destruct (given_str u); cbn in H; destruct (given_str p); by injection H as <- _ <-.
Qed.
Lemma with_client {A} (f : client → M A) w : client_of (w_cfg w) = inl c → (rabbit_management ≫= f) w = f c w.
Proof using Type. intros H. unfold rabbit_management. by rewrite run_assoc, run_settings, H. Qed.
Lemma agree_client {A B} (R : A → B → Prop) f (m' : M B) w :
  client_of (w_cfg w) = inl c → agree R (f c) m' w → agree R (rabbit_management ≫= f) m' w.
Proof using Type. intros H. unfold agree. by rewrite with_client. Qed.
Lemma provision_agrees h w :
  client_of (w_cfg w) = inl c → addressable h →
  agree eq (provision_host_agent_user_http http h) (Hosts.provision_host_agent_user h) w.
Proof using Api.
  intros C N. eapply agree_bind; [apply agree_refl|]. intros [h' b] _ w' E <-.
  destruct (credentials_addressable h w h' b w' E N) as [N' C'].
  eapply agree_bind; [apply agree_refl|]. intros _ [] w2 E2 _. apply agree_client.
  - rewrite <- C, <- C'. unfold put_host, exec, modify in E2. by injection E2 as <-.
  - eapply agree_bind; [by apply ensure_user_agrees|]. intros _ [] v _ _. apply agree_refl.
Qed.
Lemma keeps_cfg_delete_queues h : keeps (same w_cfg) (delete_host_queues h).
Proof using Type. unfold delete_host_queues. keep. Qed.
Lemma keeps_cfg_declare h : keeps (same w_cfg) (declare_host_queues h).
Proof using Type. unfold declare_host_queues, declare_queue. keep. Qed.
Lemma deprovision_agrees ref user w :
  client_of (w_cfg w) = inl c → (∀ u, user = Some u → u ≠ "." ∧ u ≠ "..") →
  agree eq (deprovision_host_messaging_http http ref user) (Hosts.deprovision_host_messaging ref user) w.
Proof using Api.
  intros C N. eapply agree_bind; [apply agree_refl|]. intros _ [] w' E _.
  destruct user as [u|]; [|apply agree_refl]. destruct (str_nonempty u) eqn:Ne; [|apply agree_refl].
  destruct (N u eq_refl). apply agree_try; [|intros; apply agree_refl]. apply agree_client; [|by apply delete_user_agrees, segment_name].
  rewrite <- C. f_equal.
  assert (keeps (same w_cfg) (try_except (delete_host_queues ref) (λ _, mret tt))) as K by (apply keeps_try; [apply _|apply keeps_cfg_delete_queues|intros; keep]).
  specialize (K w). by rewrite E in K.
Qed.
Lemma check_agent_user_agrees h w :
  addressable h → agree eq (check_agent_user_http http c h) (Startup.check_agent_user h) w.
Proof using Api.
  intros N. unfold check_agent_user_http, Startup.check_agent_user. destruct (h_agent_rmq_user h) as [u|] eqn:U.
  2: { unfold ensure_host_agent_user_http, Hosts.ensure_host_agent_user. rewrite U. by exists EAssert. }
  destruct (str_nonempty u) eqn:Ne.
  2: { unfold ensure_host_agent_user_http, Hosts.ensure_host_agent_user. rewrite U, Ne. by destruct (h_agent_rmq_password h); exists EAssert. }
  eapply agree_bind; [by apply ensure_user_agrees|]. intros _ _ w' _ _. destruct (N u U).
  eapply agree_bind; [by apply get_permissions_agrees, segment_name|]. cbv beta. intros p q v _ ->. apply agree_refl.
Qed.
Lemma credit_all_addressable hs w hs' w' :
  map_each (λ h, hc ← ensure_host_agent_credentials h; mret hc.1) hs w = (Ok hs', w') →
  (∀ h, h ∈ hs → addressable h) → ∀ h, h ∈ hs' → addressable h.
Proof using Type.
  revert w hs'. induction hs as [|x hs IH]; intros w hs' E N.
  { injection E as <- <-. by intros h H%elem_of_nil. }
  cbn [map_each] in E. unfold mbind, M_bind in E.
  destruct (ensure_host_agent_credentials x w) as [[[x' b]|e] w1] eqn:Ex; [|done]. cbn in E.
  destruct (map_each _ hs w1) as [[hs1|e] w2] eqn:El; [|done]. injection E as <- <-.
  intros h [->|H]%elem_of_cons.
  - apply (credentials_addressable x w x' b w1 Ex). apply N. by left.
  - apply (IH w1 hs1 El); [|done]. intros y Hy. apply N. by right.
Qed.

(** *** The start-up *)
Definition hosts_addressable (w : world) : Prop := ∀ k h, hosts (w_db w) !! k = Some h → addressable h.
Lemma check_hosts_messaging_agrees w :
  client_of (w_cfg w) = inl c → hosts_addressable w →
  agree eq (check_hosts_messaging_http http) Startup.check_hosts_messaging w.
Proof using Api.
  intros C N. apply agree_scope. eapply (agree_bind eq); [apply agree_refl|]. intros _ hs w1 E ->.
  injection E as <- <-. set (hs := rows _ _).
  assert (∀ h, h ∈ hs → addressable h) as Nh by (intros h (k & Hk & _)%elem_of_rows; by apply (N k)).
  destruct hs as [|h0 hs0] eqn:Eh; [apply agree_refl|]. rewrite <- Eh in *.
  eapply (agree_bind eq); [apply agree_refl|]. intros _ [] w2 E2 _.
  assert (keeps (same w_cfg) (for_each hs (λ h, declare_host_queues (h_short_id h)))) as K.
  { apply keeps_for_each; [apply _|]. intros h _. apply keeps_cfg_declare. }
  specialize (K w). rewrite E2 in K. apply agree_client; [by rewrite <- C; f_equal|].
  eapply agree_bind; [apply list_queue_names_agrees|]. intros _ present w3 _ ->.
  destruct (missing_queues hs present); [|apply agree_raise].
  eapply (agree_bind eq); [apply agree_refl|]. intros _ cfg w4 _ ->. destruct (preflight_manage_rabbitmq_users cfg); [|apply agree_refl].
  eapply (agree_bind eq); [apply agree_refl|]. intros _ hs' w5 E5 ->.
  pose proof (credit_all_addressable _ _ _ _ E5 Nh) as Nh'.
  eapply (agree_bind eq); [apply agree_refl|]. intros _ [] w6 _ _.
  apply (agree_for_each _ _ _ (λ _, True)); [|done|done]. intros h v Hh _. apply check_agent_user_agrees. by apply Nh'.
Qed.
Lemma check_rabbitmq_agrees l w :
  client_of (w_cfg w) = inl c → agree (λ l' _, single l → single l') (check_rabbitmq_http http l) Startup.check_rabbitmq w.
Proof using Api.
  intros C.
  assert (must_connect l = true ∧ w_broker_up w = false ∨
    ∃ n l', get_connection l w = (Ok (n, l'), w) ∧ is_closed l' n = false ∧ (single l → single l')) as [[M Up]|(n & l' & G & O & S)].
  { rewrite get_connection_run. destruct (must_connect l) eqn:M.
    - destruct (w_broker_up w) eqn:Up; [right|by left]. eexists _, _. split; [done|]. split; [apply not_closed_spec; cbn; set_solver|].
      intros S. eapply (get_connection_single l w). { done. } rewrite get_connection_run, M, Up. done.
    - right. exists (default 0%nat (lk_connection l)), l. split; [done|]. split; [|done]. unfold must_connect in M.
      by destruct (lk_connection l). }
  - unfold agree, Startup.check_rabbitmq, check_rabbitmq_http, ask_broker. rewrite Up. exists ERuntime. apply run_fail. unfold try_except.
    by rewrite get_connection_run, M, Up.
  - assert (try_except (get_connection l) (λ _, raise ERuntime) w = (Ok (n, l'), w)) as T by (unfold try_except; by rewrite G).
    assert (check_rabbitmq_http http l w =
      match check_alive http c w with (Ok _, w') => (Ok l', w') | (Raise _, w') => (Raise ERuntime, w') end) as X.
    { unfold check_rabbitmq_http. rewrite (run_ok _ _ _ _ _ T). cbn [fst snd]. rewrite O, run_ret.
      assert (try_except (c0 ← rabbit_management; check_alive http c0) (λ _, raise ERuntime) w =
        match check_alive http c w with (Ok a, w') => (Ok a, w') | (Raise _, w') => (Raise ERuntime, w') end) as A
        by (unfold try_except; by rewrite with_client).
      destruct (check_alive http c w) as [[[]|e] w'].
      - by rewrite (run_ok _ _ _ _ _ A).
      - by rewrite (run_fail _ _ _ _ _ A). }
    pose proof (check_alive_agrees w) as A. unfold agree in *. rewrite X.
    destruct (Startup.check_rabbitmq w) as [[[]|e] w'].
    + destruct A as (? & -> & _). by exists l'.
    + destruct A as (? & ->). by eexists.
Qed.

(** what the checks need of a world *)
Definition ready (w : world) : Prop := client_of (w_cfg w) = inl c ∧ hosts_addressable w.
Definition view (w : world) : Settings * gmap string Host := (w_cfg w, hosts (w_db w)).
Lemma ready_view w w' : view w' = view w → ready w → ready w'.
Proof using Type. unfold view, ready, hosts_addressable. intros [= -> ->]. done. Qed.
Definition one_link (l : link_state) (_ : unit) : Prop := single l.
Lemma agree_step (f : link_state → M link_state) g fs gs l w :
  agree one_link (f l) g w →
  (∀ l' w', single l' → g w = (Ok tt, w') →
     agree one_link (fold_each fs l' (λ l step, try_except (step l) (λ _, raise ERuntime)))
       (for_each gs (λ step, try_except step (λ _, raise ERuntime))) w') →
  agree one_link (fold_each (f :: fs) l (λ l step, try_except (step l) (λ _, raise ERuntime)))
    (for_each (g :: gs) (λ step, try_except step (λ _, raise ERuntime))) w.
Proof using Type.
  intros A H. cbn [fold_each for_each]. eapply agree_bind; [apply agree_try; [exact A|intros; apply agree_raise]|].
  cbv beta. intros l' [] w' E S. apply H; [exact S|]. unfold try_except, raise in E. destruct (g w) as [[[]|e] v]; [exact E|discriminate E].
Qed.
Lemma agree_lift {R : unit → unit → Prop} (m g : M unit) l w :
  single l → agree R m g w → agree one_link (m;; mret l) g w.
Proof using Type.
  intros S. unfold agree, mbind, M_bind. destruct (g w) as [[[]|e] w'].
  - intros (a & -> & _). by exists l.
  - intros (e' & ->). by exists e'.
Qed.
Lemma run_preflight_agrees cd cs l w :
  keeps (same view) cd → keeps (same view) cs → ready w → single l →
  agree one_link (run_preflight_http http cd cs l) (Startup.run_preflight cd cs) w.
Proof using Api.
  intros Kd Ks R S. assert (keeps (same view) check_valkey) as Kv by (unfold check_valkey, peek; keep).
  assert (∀ (g : M unit) v v', keeps (same view) g → g v = (Ok tt, v') → ready v → ready v') as P.
  { intros g v v' K E. specialize (K v). rewrite E in K. by apply ready_view. }
  eapply (agree_bind eq); [apply agree_refl|]. intros _ cfg w0 [= <- <-] ->.
  destruct (Model.preflight (w_cfg w)); [cbn [negb]|by exists l].
  apply agree_step; [by apply (agree_lift (R := eq)), agree_refl|]. intros l1 w1 S1 E1. pose proof (P _ _ _ Kv E1 R) as R1.
  apply agree_step; [by apply (agree_lift (R := eq)), agree_refl|]. intros l2 w2 S2 E2. pose proof (P _ _ _ Kd E2 R1) as R2.
  apply agree_step; [by apply (agree_lift (R := eq)), agree_refl|]. intros l3 w3 S3 E3. pose proof (P _ _ _ Ks E3 R2) as R3.
  apply agree_step.
  { destruct R3 as [C _]. pose proof (check_rabbitmq_agrees l3 w3 C) as A. unfold agree in *.
    destruct (Startup.check_rabbitmq w3) as [[[]|e] v]; [|exact A]. destruct A as (l4 & A & S4). exists l4. split; [exact A|by apply S4]. }
  intros l4 w4 S4 E4. assert (w4 = w3) as -> by (unfold Startup.check_rabbitmq, ask_broker in E4; destruct (w_broker_up w3); by injection E4).
  apply agree_step; [|intros l5 w5 S5 _; by exists l5]. destruct R3 as [C N].
  by apply (agree_lift (R := eq)), check_hosts_messaging_agrees.
Qed.
Lemma lifespan_serves cd cs serving w :
  keeps (same view) cd → keeps (same view) cs → ready w →
  match Startup.run_preflight cd cs w with
  | (Ok _, w') => ∃ l, single l ∧
      lifespan http cd cs serving w = (l' ← serving l; mret (Some (close_connection l'))) w'
  | (Raise _, w') => lifespan http cd cs serving w = (Ok None, w')
  end.
Proof using Api.
  intros Kd Ks R. pose proof (run_preflight_agrees cd cs no_links w Kd Ks R single_start) as A. unfold agree in A.
  destruct (Startup.run_preflight cd cs w) as [[[]|e] w'].
  - destruct A as (l & A & S). exists l. split; [exact S|].
    assert (try_except (l ← run_preflight_http http cd cs no_links; mret (Some l)) (λ _, mret None) w = (Ok (Some l), w')) as T
      by (unfold try_except; by rewrite (run_ok _ _ _ _ _ A)).
    unfold lifespan. by rewrite (run_ok _ _ _ _ _ T).
  - destruct A as (e' & A).
    assert (try_except (l ← run_preflight_http http cd cs no_links; mret (Some l)) (λ _, mret None) w = (Ok None, w')) as T
      by (unfold try_except; by rewrite (run_fail _ _ _ _ _ A)).
    unfold lifespan. by rewrite (run_ok _ _ _ _ _ T).
Qed.
End refinement.

(** ** A server with these answers: it routes on the segments of the path *)
Definition ok_json (v : json) : http_response := mkHttpResponse 200 (Some v).
Definition bare (status : Z) : http_response := mkHttpResponse status None.
Definition json_text (d : dict) (k : string) : option string :=
  match dget d k with JStr s => Some s | _ => None end.
Section server.
Context (auth : string * string) (vhost : string).
Definition get_resource (b : broker) (path : list string) : http_response :=
  match path with
  | ["overview"] => ok_json (JObj [])
  | ["aliveness-test"; v] => if String.eqb v vhost then ok_json (JObj [("status", JStr "ok")]) else bare 404
  | ["queues"; v] =>
      if String.eqb v vhost then ok_json (JList ((λ q, JObj [("name", JStr q)]) <$> elements (dom (queues b)))) else bare 404
  | ["users"; name] => match rmq_users b !! name with Some _ => ok_json (JObj [("name", JStr name)]) | None => bare 404 end
  | ["permissions"; v; name] =>
      match rmq_users b !! name with
      | Some u => if unpermitted u || negb (String.eqb v vhost) then bare 404 else ok_json (permissions_json u)
      | None => bare 404
      end
  | _ => bare 404
  end.
Definition put_resource (b : broker) (path : list string) (d : dict) : http_response * broker :=
  match path with
  | ["users"; name] =>
      match json_text d "password" with
      | Some p => (bare 201, b <| rmq_users ::= <[name := with_password (rmq_users b !! name) p]> |>)
      | None => (bare 400, b)
      end
  | ["permissions"; v; name] =>
      match rmq_users b !! name, json_text d "configure", json_text d "write", json_text d "read" with
      | Some u, Some x, Some y, Some z =>
          if String.eqb v vhost then (bare 201, b <| rmq_users ::= <[name := mkRmqUser (ru_password u) x y z]> |>)
          else (bare 400, b)
      | _, _, _, _ => (bare 400, b)
      end
  | _ => (bare 405, b)
  end.
Definition delete_resource (b : broker) (path : list string) : http_response * broker :=
  match path with
  | ["users"; name] =>
      (bare (match rmq_users b !! name with Some _ => 204 | None => 404 end), b <| rmq_users ::= delete name |>)
  | _ => (bare 405, b)
  end.
Definition management_server (r : http_request) (b : broker) : http_response * broker :=
  if negb (bool_decide (hq_auth r = auth)) then (bare 401, b)
  else
    match segments (hq_path r), hq_method r, hq_json r with
    | "" :: "api" :: path, GET, _ => (get_resource b path, b)
    | "" :: "api" :: path, PUT, Some (JObj d) => put_resource b path d
    | "" :: "api" :: path, DELETE, _ => delete_resource b path
    | _, _, _ => (bare 404, b)
    end.
End server.

#[export] Instance management_server_api c : ManagementApi (management_server (mc_auth c) (mc_vhost c)) c.
Proof.
  split; intros * Hp; intros; unfold management_server, call; cbn [hq_auth hq_path hq_method hq_json];
    rewrite bool_decide_true by done; cbn [negb]; rewrite Hp; try unfold USERS; try unfold PERMISSIONS.
  - by eexists.
  - cbn. rewrite String.eqb_refl. by eexists _, _.
  - cbn. rewrite String.eqb_refl. eexists _, _. split_and!; [done..|]. apply list_to_set_elements_L.
  - by eexists.
  - eexists. split; [done|]. cbn. by destruct (rmq_users b !! name).
  - eexists. split; [done|]. cbn. by destruct (rmq_users b !! name).
  - cbn. destruct (rmq_users b !! name) as [u|]; [rewrite String.eqb_refl|]; eexists _, _; (split; [done|]); split; done.
  - eexists. split; [done|]. cbn. destruct (rmq_users b !! name) as [u|]; [|done]. rewrite String.eqb_refl, orb_false_r.
    by destruct (unpermitted u).
Qed.

(** ** The client implements the broker operations *)

(** C31: what the rest of the backend is proved against - operations on the
    broker's users, permissions and queues - is what the HTTP client does.
    Over any server that answers as documented, reached with the configured
    address, credentials and virtual host: giving a host its agent account,
    tearing a host's messaging down and the whole start-up sequence reach the
    same database, cache and broker as their abstract counterparts and fail
    exactly when those fail.  The process serves only from the world a
    successful start-up leaves, over its single connection, and exits otherwise.
    Names and virtual hosts may hold any character, slashes and percent signs
    included; only a stored account name that is a dot segment is excluded. *)
Theorem client_refines_broker http c check_database check_schema serving w :
  ManagementApi http c → client_of (w_cfg w) = inl c → hosts_addressable w →
  keeps (same view) check_database → keeps (same view) check_schema →
  (∀ k h, hosts (w_db w) !! k = Some h →
     agree eq (provision_host_agent_user_http http h) (Hosts.provision_host_agent_user h) w ∧
     agree eq (deprovision_host_messaging_http http (h_short_id h) (h_agent_rmq_user h))
       (Hosts.deprovision_host_messaging (h_short_id h) (h_agent_rmq_user h)) w) ∧
  match Startup.run_preflight check_database check_schema w with
  | (Ok _, w') => ∃ l, single l ∧
      lifespan http check_database check_schema serving w = (l' ← serving l; mret (Some (close_connection l'))) w'
  | (Raise _, w') => lifespan http check_database check_schema serving w = (Ok None, w')
  end.
Proof.
  intros Api C N Kd Ks. split; [|by apply (lifespan_serves (c := c))].
  intros k h Hk. pose proof (N k h Hk) as Nh. split; [by apply (provision_agrees (c := c))|by apply (deprovision_agrees (c := c))].
Qed.
(** the default virtual host, ["/"], and an account name that need quoting *)
Definition slashed_agent : Host := bare_host "h1" "abc" None "n" "hyperv" <| h_agent_rmq_user := Some "eu/agent %1" |>.
Definition quoted_world : world := sample_world <| w_db := empty_db <| hosts := {["h1" := slashed_agent]} |> |>.
Definition quoted_client : client := mkClient "/" "http://localhost:15672" ("ovc", "ovc123").
Lemma client_refines_broker_witness :
  agree eq (provision_host_agent_user_http (management_server ("ovc", "ovc123") "/") slashed_agent)
    (Hosts.provision_host_agent_user slashed_agent) quoted_world ∧
  is_some (rmq_users (w_mq (lifespan (management_server ("ovc", "ovc123") "/") (mret tt) (mret tt) mret quoted_world).2)
    !! "eu/agent %1") = true.
Proof.
  split; [|vm_compute; reflexivity].
  refine (proj1 (proj1 (client_refines_broker (management_server ("ovc", "ovc123") "/") quoted_client
    (mret tt) (mret tt) mret quoted_world _ _ _ _ _) "h1" slashed_agent _)).
  - exact (management_server_api quoted_client).
  - vm_compute. reflexivity.
  - intros k h H. cbn in H. apply lookup_singleton_Some in H as [<- <-]. intros u [= <-]. done.
  - intros v. reflexivity.
  - intros v. reflexivity.
  - vm_compute. reflexivity.
Defined.
