(* ===== verification/Supervisor.v ===== *)
(** * The life of the worker process ([run] in [app/worker/main.py])

    [Subscriptions] and [Sweeper] hold what the worker's loops do in one pass.
    Here is the process that runs them: the start-up that waits for the schema,
    then seven coroutines, each asleep until it is due, the callbacks of the
    connection, and the exits.  A coroutine that is due runs before time moves
    on (the event loop is not starved) and its pass takes no time. *)
From S2P Require Import Prelude Py Clock Model World Store Cache AuditLog Messaging Sweeper Subscriptions Startup Connection.
Open Scope string_scope.
Open Scope Z_scope.

Definition HOST_SCAN_INTERVAL : Z := 15.
Definition TIMEOUT_SWEEP_INTERVAL : Z := 30.
Definition METRICS_SWEEP_INTERVAL : Z := 300.
Definition AUDIT_SWEEP_INTERVAL : Z := 3600.
Definition CONSUMER_ZOMBIE_STARTUP_GRACE : Z := 300.

(** ** The process *)
Inductive coroutine := SCAN | TIMEOUTS | METRICS | AUDIT | RABBIT_HEALTH | CONSUMER_HEALTH | HOST_CONSUMERS.
#[export] Instance coroutine_eq_dec : EqDecision coroutine.
Proof. solve_decision. Defined.
(** what each sleeps between two passes *)
Definition period (c : coroutine) : Z :=
  seconds match c with
          | SCAN => HOST_SCAN_INTERVAL
          | TIMEOUTS => TIMEOUT_SWEEP_INTERVAL
          | METRICS => METRICS_SWEEP_INTERVAL
          | AUDIT => AUDIT_SWEEP_INTERVAL
          | RABBIT_HEALTH => 15
          | CONSUMER_HEALTH | HOST_CONSUMERS => 60
          end.
Record process := mkProcess {
  p_worker : worker;
  p_world : world;
  p_links : link_state;
  p_due : coroutine → option Z;      (* when it wakes; [None]: it has ended *)
  p_exit : option Z                  (* the exit status *)
}.
#[export] Instance eta_process : Eta process :=
  Build_Eta _ (λ p, mkProcess (p_worker p) (p_world p) (p_links p) (p_due p) (p_exit p)).
Definition p_now (p : process) : Z := w_now (p_world p).
Definition rearm (c : coroutine) (o : option Z) (due : coroutine → option Z) : coroutine → option Z :=
  λ c', if decide (c' = c) then o else due c'.

(** [for attempt in range(attempts): try: refresh; break; except: sleep(2)]:
    [elsewhere] is what happens to the world during the pause *)
Fixpoint wait_for_schema (elsewhere : nat → world → world) (attempts : nat) : W unit :=
  match attempts with
  | O => mret tt
  | S n => wtry refresh_subscriptions (λ k w, wait_for_schema elsewhere n k (elsewhere n w))
  end.
(** the coroutines as they are created: the audit sweeper, unless it is
    disabled, starts with a pass; the zombie detector with its grace period *)
Definition first_due (cfg : Settings) (now : Z) (c : coroutine) : option Z :=
  match c with
  | AUDIT => if audit_retention_days cfg <=? 0 then None else Some now
  | CONSUMER_HEALTH => Some (now + seconds CONSUMER_ZOMBIE_STARTUP_GRACE + period CONSUMER_HEALTH)
  | c => Some (now + period c)
  end.
(** [run] up to its main loop; an exception ends the process *)
Definition boot (elsewhere : nat → world → world) (w : world) : outcome process :=
  match get_connection no_links w with
  | (Raise e, _) => Raise e
  | (Ok (_, l'), w1) =>
      let '(_, (k, w2)) := wait_for_schema elsewhere 30 (start_worker (w_now w1)) w1 in
      Ok (mkProcess k w2 l' (first_due (w_cfg w2) (w_now w2)) None)
  end.

(** ** One pass of a coroutine *)

(** [sys.exit(status)], and the [finally] of [run] *)
Definition leave (status : Z) (p : process) : process :=
  p <| p_exit := Some status |> <| p_due := λ _, None |> <| p_links ::= close_connection |>.
(** the loops whose pass is inside a [try] *)
Definition catches (c : coroutine) : bool :=
  match c with METRICS | HOST_CONSUMERS => false | _ => true end.
(** a pass, then sleep; an exception the loop does not catch ends the coroutine *)
Definition after {A} (c : coroutine) (p : process) (r : outcome A * (worker * world)) : process :=
  let '(o, (k, w)) := r in
  let again := match o with Ok _ => true | Raise _ => catches c end in
  p <| p_worker := k |> <| p_world := w |>
    <| p_due ::= rearm c (if again then Some (p_now p + period c) else None) |>.
Definition run_pass (count : string → nat) (c : coroutine) (p : process) : process :=
  let k := p_worker p in
  let w := p_world p in
  match c with
  | SCAN => after c p (refresh_subscriptions k w)
  | TIMEOUTS => after c p (on_world timeout_sweeper_pass k w)
  | METRICS => after c p (on_world metrics_retention_pass k w)
  | AUDIT => after c p (on_world audit_retention_pass k w)
  | RABBIT_HEALTH => if rabbitmq_lost_for_good k (p_now p) then leave 1 p else after c p (Ok tt, (k, w))
  | CONSUMER_HEALTH => if consumer_zombie k (p_now p) then leave 1 p else after c p (Ok tt, (k, w))
  | HOST_CONSUMERS => after c p (check_host_consumers count k w)
  end.
(** the loops that open a database session *)
Definition uses_database (c : coroutine) : bool :=
  match c with SCAN | TIMEOUTS | METRICS | AUDIT => true | _ => false end.

(** ** The process as a transition system *)
Definition callback {A} (m : W A) (p : process) : process :=
  let '(_, (k, w)) := m (p_worker p) (p_world p) in p <| p_worker := k |> <| p_world := w |>.
Inductive turn : process → process → Prop :=
  (* a coroutine whose sleep is over *)
  | turn_pass count c p : p_due p c = Some (p_now p) → turn p (run_pass count c p)
  (* time passes, not beyond the next wake-up *)
  | turn_sleep d p : 0 < d → (∀ c t, p_due p c = Some t → p_now p + d ≤ t) →
      turn p (p <| p_world ::= λ w, w <| w_now ::= Z.add d |> |>)
  (* callbacks and messages *)
  | turn_message s p : turn p (callback (on_message s) p)
  | turn_close p : turn p (callback on_connection_close p)
  | turn_reconnect p : turn p (callback on_connection_reconnect p)
  | turn_channel_lost c p : turn p (p <| p_worker ::= drop_channel c |>)
  | turn_consumer_lost c q p : turn p (p <| p_worker ::= cancel_consumer c q |>)
  | turn_restored c qs p : turn p (p <| p_worker ::= restore_channel c qs |>)
  (* the API, the agents and the handling of a message change the world *)
  | turn_elsewhere w' p : w_now w' = p_now p → turn p (p <| p_world := w' |>)
  (* Postgres cannot be reached: the pass raises at once *)
  | turn_database c p : uses_database c = true → p_due p c = Some (p_now p) →
      turn p (after c p (Raise (A := unit) ERuntime, (p_worker p, p_world p))).
Inductive alive (p0 : process) : process → Prop :=
  | alive_start : p_exit p0 = None → alive p0 p0
  | alive_turn p q : alive p0 p → turn p q → p_exit q = None → alive p0 q.

(** ** What the passes leave alone *)

(** [f] of the state is unchanged *)
Definition wstill {S A} (f : worker → world → S) (m : W A) : Prop := ∀ k w, f (m k w).2.1 (m k w).2.2 = f k w.
Section still.
Context {S : Type} (f : worker → world → S).
Lemma wstill_bind {A B} (m : W A) (g : A → W B) : wstill f m → (∀ a, wstill f (g a)) → wstill f (m ≫= g).
Proof using Type.
  intros Hm Hg k w. unfold mbind, W_bind. specialize (Hm k w).
  destruct (m k w) as [[a|e] [k' w']]; cbn in Hm; [|done]. by rewrite Hg.
Qed.
Lemma wstill_ret {A} (a : A) : wstill f (mret a).
Proof using Type. by intros k w. Qed.
Lemma wstill_gets {A} (g : worker → world → A) : wstill f (wgets g).
Proof using Type. by intros k w. Qed.
Lemma wstill_for_each {A} (l : list A) body : (∀ x, wstill f (body x)) → wstill f (wfor_each l body).
Proof using Type. intros H. induction l as [|x l IH]; [by intros k w|]. cbn. by apply wstill_bind. Qed.
Lemma wstill_try {A} (m h : W A) : wstill f m → wstill f h → wstill f (wtry m h).
Proof using Type.
  intros Hm Hh k w. unfold wtry. specialize (Hm k w).
  destruct (m k w) as [[a|e] [k' w']]; cbn in Hm; [done|]. by rewrite Hh.
Qed.
End still.

(** the clock and the time the connection was lost *)
Definition hours (k : worker) (w : world) : Z * option Z := (w_now w, rabbitmq_lost_at k).
Lemma times_modify g : (∀ k, rabbitmq_lost_at (g k) = rabbitmq_lost_at k) → wstill hours (wmodify g).
Proof. intros H k w. unfold hours, wmodify. cbn. by rewrite H. Qed.
Lemma times_world {A} (m : M A) : keeps (same w_now) m → wstill hours (on_world m).
Proof. intros H k w. unfold on_world. specialize (H w). destruct (m w) as [o w']. unfold hours. cbn in *. by rewrite H. Qed.
Lemma times_channel {A} c (m : M A) : keeps (same w_now) m → wstill hours (on_channel c m).
Proof.
  intros H k w. unfold on_channel. case_bool_decide; [|done]. specialize (H w).
  destruct (m w) as [[a|e] w']; unfold hours; cbn in *; by rewrite H.
Qed.
Lemma times_open : wstill hours open_channel.
Proof. intros k w. unfold open_channel. by destruct (w_broker_up w). Qed.
Ltac still := repeat first
  [ apply wstill_bind; [|intros ?] | apply wstill_for_each; intros ? | apply wstill_try | apply wstill_ret
  | apply wstill_gets | apply times_open | (apply times_modify; intros; reflexivity)
  | (apply times_channel; solve [unfold declare_host_queues, declare_queue; keep])
  | (apply times_world; solve [keep])
  | match goal with |- wstill _ (if ?b then _ else _) => destruct b
                  | |- wstill _ (match ?x with _ => _ end) => destruct x end ].
Lemma times_consume c q : wstill hours (consume c q).
Proof. unfold consume. still; by intros k w. Qed.
Lemma times_qos c n : wstill hours (set_qos c n).
Proof. apply times_channel. by apply same_broker_op. Qed.
Lemma times_unsubscribe s : wstill hours (unsubscribe_host s).
Proof. unfold unsubscribe_host, close_channel. still. Qed.
Lemma times_refresh : wstill hours refresh_subscriptions.
Proof.
  unfold refresh_subscriptions, known_hosts, subscribe_pending, subscribe_host, close_channel.
  still; solve [apply times_unsubscribe | apply times_consume | apply times_qos | still].
Qed.
Lemma times_hosts count : wstill hours (check_host_consumers count).
Proof. unfold check_host_consumers, probe_host. still; apply times_unsubscribe. Qed.
Lemma times_sweeps :
  wstill hours (on_world timeout_sweeper_pass) ∧ wstill hours (on_world metrics_retention_pass) ∧
  wstill hours (on_world audit_retention_pass).
Proof.
  split_and!; apply times_world.
  - unfold timeout_sweeper_pass, sweep_stale_tasks, expire_tasks, release_tasks, settle_task_events. keep.
  - unfold metrics_retention_pass. keep.
  - unfold audit_retention_pass, prune_events. keep.
Qed.

(** ** Passes that cannot raise *)
Definition wreturns {A} (m : W A) : Prop := ∀ k w, ∃ a, (m k w).1 = Ok a.
Lemma wreturns_bind {A B} (m : W A) (f : A → W B) : wreturns m → (∀ a, wreturns (f a)) → wreturns (m ≫= f).
Proof.
  intros Hm Hf k w. unfold mbind, W_bind. destruct (Hm k w) as [a Ha].
  destruct (m k w) as [o [k' w']]; cbn in Ha. subst o. apply Hf.
Qed.
Lemma wreturns_for_each {A} (l : list A) body : (∀ x, wreturns (body x)) → wreturns (wfor_each l body).
Proof. intros H. induction l as [|x l IH]; [by intros k w; exists tt|]. cbn. by apply wreturns_bind. Qed.
Lemma wreturns_try {A} (m h : W A) : wreturns h → wreturns (wtry m h).
Proof. intros Hh k w. unfold wtry. destruct (m k w) as [[a|e] [k' w']]; [by exists a|apply Hh]. Qed.
Ltac returns := repeat first
  [ apply wreturns_bind; [|intros ?] | apply wreturns_for_each; intros ? | apply wreturns_try
  | (intros ? ?; eexists; reflexivity)
  | match goal with |- wreturns (if ?b then _ else _) => destruct b
                  | |- wreturns (match ?x with _ => _ end) => destruct x end ].
Lemma hosts_return count : wreturns (check_host_consumers count).
Proof. unfold check_host_consumers, probe_host, unsubscribe_host, close_channel. returns. Qed.

(** ** The process keeps its hours *)
Lemma rearm_same c o due : rearm c o due c = o.
Proof. unfold rearm. by rewrite decide_True. Qed.
Lemma rearm_other c c' o due : c' ≠ c → rearm c o due c' = due c'.
Proof. intros N. unfold rearm. by rewrite decide_False. Qed.

(** how far ahead a coroutine's next pass can be *)
Definition span (c : coroutine) : Z :=
  match c with CONSUMER_HEALTH => seconds CONSUMER_ZOMBIE_STARTUP_GRACE + period c | _ => period c end.
(** the loops no exception can end *)
Definition lasting (c : coroutine) : bool := match c with METRICS | AUDIT => false | _ => true end.
Record timely (p : process) : Prop := {
  tm_due c t : p_due p c = Some t → p_now p ≤ t ≤ p_now p + span c;
  tm_lasting c : lasting c = true → p_due p c ≠ None;
  (* the last health check came less than the maximal downtime after the loss *)
  tm_lost t r : rabbitmq_lost_at (p_worker p) = Some t → p_due p RABBIT_HEALTH = Some r →
    r - period RABBIT_HEALTH < t + seconds RABBITMQ_MAX_DOWNTIME_SECONDS;
  tm_single : single (p_links p)
}.
Lemma period_pos c : 0 < period c.
Proof. by destruct c. Qed.
Lemma period_span c : period c ≤ span c.
Proof. by destruct c. Qed.

(** a change of the worker or the world that moves neither the clock nor the time of loss *)
Lemma timely_same p q :
  timely p → p_due q = p_due p → p_links q = p_links p →
  hours (p_worker q) (p_world q) = hours (p_worker p) (p_world p) → timely q.
Proof.
  intros [D L T S] Ed El [= En Er]. unfold p_now in *. split; rewrite ?Ed, ?El, ?Er; unfold p_now; rewrite ?En; auto.
Qed.
Lemma callback_times {A} (m : W A) p :
  p_due (callback m p) = p_due p ∧ p_links (callback m p) = p_links p ∧
  p_worker (callback m p) = (m (p_worker p) (p_world p)).2.1 ∧ p_world (callback m p) = (m (p_worker p) (p_world p)).2.2.
Proof. unfold callback. by destruct (m (p_worker p) (p_world p)) as [o [k w]]. Qed.
(** a coroutine that was due has run and sleeps again *)
Lemma timely_after {A} c p (r : outcome A * (worker * world)) :
  timely p → c ≠ RABBIT_HEALTH → hours r.2.1 r.2.2 = hours (p_worker p) (p_world p) →
  (lasting c = true → catches c = true ∨ ∃ a, r.1 = Ok a) → timely (after c p r).
Proof.
  intros [D L T S] N. destruct r as [o [k w]]. cbn. intros [= En Er] Ha.
  set (again := match o with Ok _ => true | Raise _ => catches c end).
  split; unfold p_now in *; cbn; rewrite ?En, ?Er.
  - intros c' t. destruct (decide (c' = c)) as [->|Nc]; [rewrite rearm_same|rewrite rearm_other by done; auto].
    destruct again; intros [= <-]. pose proof (period_pos c). pose proof (period_span c). lia.
  - intros c' Hl. destruct (decide (c' = c)) as [->|Nc]; [rewrite rearm_same|rewrite rearm_other by done; auto].
    destruct (Ha Hl) as [Hc|[a ->]]; [|done]. unfold again. by destruct o; rewrite ?Hc.
  - intros t r. rewrite rearm_other by done. apply T.
  - exact S.
Qed.
Lemma timely_health p : timely p → rabbitmq_lost_for_good (p_worker p) (p_now p) = false →
  timely (after (A := unit) RABBIT_HEALTH p (Ok tt, (p_worker p, p_world p))).
Proof.
  intros [D L T S] G. split; unfold p_now in *; cbn.
  - intros c' t. destruct (decide (c' = RABBIT_HEALTH)) as [->|Nc]; [|rewrite rearm_other by done; auto].
    rewrite rearm_same. intros [= <-]. unfold p_now, span, period, seconds. lia.
  - intros c' Hl. destruct (decide (c' = RABBIT_HEALTH)) as [->|Nc]; [by rewrite rearm_same|rewrite rearm_other by done; auto].
  - intros t r Hl. rewrite rearm_same. intros [= <-]. unfold rabbitmq_lost_for_good in G. rewrite Hl in G.
    apply Z.leb_gt in G. unfold p_now. lia.
  - exact S.
Qed.
Lemma timely_sleep d p : 0 < d → (∀ c t, p_due p c = Some t → p_now p + d ≤ t) → timely p →
  timely (p <| p_world ::= λ w, w <| w_now ::= Z.add d |> |>).
Proof.
  intros Hd Hl [D L T S]. split; [|done..]. intros c t H. specialize (Hl c t H). specialize (D c t H).
  match goal with |- ?n ≤ _ ≤ _ => assert (n = d + p_now p) as -> by reflexivity end. lia.
Qed.
Lemma timely_close p : timely p → timely (callback on_connection_close p).
Proof.
  intros [D L T S]. split; [done..| |done]. unfold p_now in *. cbn. intros t r [= <-] Hr.
  destruct (rabbitmq_lost_at (p_worker p)) as [t0|] eqn:E; cbn; [by apply (T t0 r)|].
  pose proof (D RABBIT_HEALTH r Hr) as [_ H]. unfold span, period, RABBITMQ_MAX_DOWNTIME_SECONDS, seconds in *. lia.
Qed.
Lemma timely_turn p q : timely p → turn p q → p_exit q = None → timely q.
Proof.
  intros Ht Hq He. destruct Hq as [count c p Hd|d p Hd Hl|s p|p|p|c p|c q p|c qs p|w' p Hw|c p Hc Hd].
  - destruct times_sweeps as (K1 & K2 & K3). destruct c; cbn [run_pass] in *.
    1: apply timely_after; [done|done|apply times_refresh|by left].
    1: apply timely_after; [done|done|apply K1|by left].
    1: apply timely_after; [done|done|apply K2|done].
    1: apply timely_after; [done|done|apply K3|by left].
    + destruct (rabbitmq_lost_for_good _ _) eqn:G; [done|]. by apply timely_health.
    + destruct (consumer_zombie _ _); [done|]. apply timely_after; [done..|by left].
    + apply timely_after; [done|done|apply times_hosts|]. intros _. right. apply hosts_return.
  - by apply timely_sleep.
  - destruct (callback_times (on_message s) p) as (E1 & E2 & E3 & E4). by apply (timely_same p).
  - by apply timely_close.
  - destruct Ht as [D L T S]. split; [done..| |done]. intros t r Hn. discriminate Hn.
  - by apply (timely_same p).
  - by apply (timely_same p).
  - by apply (timely_same p).
  - apply (timely_same p); [done..|]. unfold hours. cbn. by rewrite Hw.
  - apply timely_after; [done|by destruct c|done|]. by destruct c; left || intros [=].
Qed.

(** the start-up waits at most [attempts] pauses *)
Lemma wait_lost elsewhere n k w :
  rabbitmq_lost_at (wait_for_schema elsewhere n k w).2.1 = rabbitmq_lost_at k.
Proof.
  revert k w. induction n as [|n IH]; intros k w; [done|]. cbn [wait_for_schema]. unfold wtry.
  pose proof (times_refresh k w) as H. destruct (refresh_subscriptions k w) as [[a|e] [k' w']]; cbn in H; injection H as _ H.
  - done.
  - by rewrite IH.
Qed.
Lemma boot_run elsewhere w :
  w_broker_up w = true → ∃ k w2 l,
    boot elsewhere w = Ok (mkProcess k w2 l (first_due (w_cfg w2) (w_now w2)) None) ∧
    rabbitmq_lost_at k = None ∧ single l.
Proof.
  intros Up. unfold boot. rewrite get_connection_run. cbn [must_connect lk_connection no_links]. rewrite Up.
  pose proof (wait_lost elsewhere 30 (start_worker (w_now w)) w) as Hl.
  destruct (wait_for_schema _ _ _ _) as [o [k w2]]. cbn in Hl. eexists k, w2, _. split; [done|]. split; [done|].
  split; cbn; intros c; set_solver.
Qed.
Lemma boot_timely elsewhere w p : boot elsewhere w = Ok p → timely p ∧ p_exit p = None ∧ w_broker_up w = true.
Proof.
  intros Hb. destruct (w_broker_up w) eqn:Up.
  2: { unfold boot in Hb. rewrite get_connection_run in Hb. cbn in Hb. by rewrite Up in Hb. }
  destruct (boot_run elsewhere w Up) as (k & w2 & l & Hr & Hl & Hs). rewrite Hr in Hb. injection Hb as <-.
  split; [|done]. split; cbn; [| |by rewrite Hl|exact Hs].
  - unfold p_now. cbn. intros c t Hc. pose proof (period_pos c). pose proof (period_span c).
    destruct c; unfold first_due in Hc; repeat case_match; simplify_eq; unfold span, period, seconds in *; lia.
  - by intros [].
Qed.
Lemma alive_timely p0 p : timely p0 → alive p0 p → timely p ∧ p_exit p = None.
Proof. intros H0. induction 1 as [He|p q Ha [IH _] Ht He]; [done|]. split; [|done]. by apply (timely_turn p). Qed.

(** ** Leaving *)
Lemma turn_exit p q s :
  turn p q → p_exit p = None → p_exit q = Some s →
  q = leave 1 p ∧ s = 1 ∧
  (rabbitmq_lost_for_good (p_worker p) (p_now p) = true ∨ consumer_zombie (p_worker p) (p_now p) = true).
Proof.
  assert (∀ (A : Type) c (r : outcome A * (worker * world)) p, p_exit (after c p r) = p_exit p) as Ka
    by (intros A c [o [k w]] p'; done).
  assert (∀ (A : Type) (m : W A) p, p_exit (callback m p) = p_exit p) as Kc
    by (intros A m p'; unfold callback; by destruct (m (p_worker p') (p_world p')) as [o [k w]]).
  intros Ht Hp Hq. destruct Ht as [count c p Hd|d p Hd Hl|s' p|p|p|c p|c q p|c qs p|w' p Hw|c p Hc Hd];
    try (cbn in Hq; rewrite ?Ka, ?Kc in Hq; congruence).
  destruct c; cbn [run_pass] in *; try (rewrite Ka in Hq; congruence).
  - destruct (rabbitmq_lost_for_good _ _); [|cbn in Hq; congruence]. injection Hq as <-. auto.
  - destruct (consumer_zombie _ _); [|cbn in Hq; congruence]. injection Hq as <-. auto.
Qed.
Lemma lost_spec k now : rabbitmq_lost_for_good k now = true ↔
  ∃ t, rabbitmq_lost_at k = Some t ∧ seconds RABBITMQ_MAX_DOWNTIME_SECONDS ≤ now - t.
Proof.
  unfold rabbitmq_lost_for_good. destruct (rabbitmq_lost_at k) as [t|]; [|by split; [|intros (? & [=] & _)]].
  rewrite Z.leb_le. split; [by exists t|]. by intros (t' & [= <-] & H).
Qed.
Lemma zombie_spec k now : consumer_zombie k now = true ↔
  host_channels k ≠ ∅ ∧ seconds CONSUMER_ZOMBIE_THRESHOLD ≤ now - last_message_processed_at k.
Proof. unfold consumer_zombie. by rewrite andb_true_iff, negb_true_iff, bool_decide_eq_false, Z.leb_le. Qed.

(** C30: the worker watches itself.  From a start-up that connected, through
    any interleaving of passes, callbacks, messages, lost and restored channels,
    cancelled consumers, database failures and changes made elsewhere: a running
    worker has never been disconnected from the broker for 135 seconds; its
    discovery passes, deadline sweeps and watchdogs each keep their period, and
    no exception ends them; and it leaves only with status 1, for a connection lost two minutes or for
    monitored hosts silent for ten, its connection closed and its loops
    cancelled. *)
Theorem worker_watched elsewhere w p0 p :
  boot elsewhere w = Ok p0 → alive p0 p →
  (∀ t, rabbitmq_lost_at (p_worker p) = Some t → p_now p < t + seconds 135) ∧
  (∀ c, lasting c = true → ∃ t, p_due p c = Some t ∧ p_now p ≤ t ≤ p_now p + span c) ∧
  (∀ q s, turn p q → p_exit q = Some s →
     s = 1 ∧ lk_open (p_links q) = ∅ ∧ (∀ c, p_due q c = None) ∧
     ((∃ t, rabbitmq_lost_at (p_worker p) = Some t ∧ seconds 120 ≤ p_now p - t) ∨
      (host_channels (p_worker p) ≠ ∅ ∧ seconds 600 ≤ p_now p - last_message_processed_at (p_worker p)))).
Proof.
  intros Hb Ha. destruct (boot_timely _ _ _ Hb) as (H0 & _). destruct (alive_timely _ _ H0 Ha) as [[D L T S] He].
  assert (∀ c, lasting c = true → ∃ t, p_due p c = Some t ∧ p_now p ≤ t ≤ p_now p + span c) as Dl.
  { intros c Hc. destruct (p_due p c) as [t|] eqn:E; [|by apply L in Hc]. exists t. split; [done|by apply D]. }
  split_and!; [|done|].
  - intros t Ht. destruct (Dl RABBIT_HEALTH eq_refl) as (r & Hr & Hle). pose proof (T t r Ht Hr).
    unfold period, RABBITMQ_MAX_DOWNTIME_SECONDS, seconds in *. lia.
  - intros q s Ht Hs. destruct (turn_exit p q s Ht He Hs) as (-> & -> & Hc).
    destruct (close_connection_single _ S) as [_ Hl]. split_and!; [done|exact Hl|done|].
    destruct Hc as [Hc%lost_spec|Hc%zombie_spec]; auto.
Qed.

(** a first host is registered with a worker that has been idle for an hour *)
Definition idle_process (w : world) : process :=
  mkProcess (start_worker 0) (w <| w_now := seconds 3600 |>
    <| w_db := empty_db <| hosts := {["h1" := mkHost "h1" "abc" None "n" None None "hyperv" None None None None None None None]} |> |>)
    no_links (λ _, Some (seconds 3600)) None.
(** ... discovery subscribes it, and the next zombie check, within a minute,
    ends the process: nothing has arrived since the worker started, but nothing
    could have *)
Lemma first_host_ends_worker :
  let p := run_pass (λ _, 0%nat) SCAN (idle_process sample_world) in
  is_some (host_channels (p_worker p) !! "abc") = true ∧
  host_last_message_at (p_worker p) !! "abc" = Some (p_now p) ∧
  p_exit p = None ∧ p_exit (run_pass (λ _, 0%nat) CONSUMER_HEALTH p) = Some 1.
Proof. vm_compute. done. Qed.

(** a database error during a retention pass ends that sweeper for good, the
    others go on *)
Lemma metrics_sweeper_dies p q :
  alive (after METRICS p (Raise (A := unit) ERuntime, (p_worker p, p_world p))) q → p_due q METRICS = None.
Proof.
  induction 1 as [He|q r Ha IH Ht He]; [done|].
  assert (∀ (A : Type) c (x : outcome A * (worker * world)) p, p_due p METRICS = None → c ≠ METRICS →
    p_due (after c p x) METRICS = None) as Ka.
  { intros A c [o [k w]] p' Hp N. cbn. by rewrite rearm_other. }
  destruct Ht as [count c p' Hd|d p' Hd Hl|s p'|p'|p'|c p'|c x p'|c qs p'|w' p' Hw|c p' Hc Hd]; try done.
  - destruct c; cbn [run_pass]; try (apply Ka; done); try congruence.
    + destruct (rabbitmq_lost_for_good _ _); [done|by apply Ka].
    + destruct (consumer_zombie _ _); [done|by apply Ka].
  - apply Ka; [done|]. intros ->. congruence.
Qed.

Lemma worker_watched_witness : ∃ p0 p,
  boot (λ _ w, w) sample_world = Ok p0 ∧ alive p0 p ∧
  rabbitmq_lost_at (p_worker p) = Some (p_now p) ∧ p_now p < p_now p + seconds 135 ∧
  ∃ t, p_due p SCAN = Some t ∧ p_now p ≤ t ≤ p_now p + seconds 15.
Proof.
  destruct (boot_run (λ _ w, w) sample_world eq_refl) as (k & w & l & E & Hl & _).
  set (p0 := mkProcess k w l _ None) in E. pose (p := callback on_connection_close p0).
  assert (alive p0 p) as Ha by (eapply alive_turn; [apply alive_start; reflexivity|apply turn_close|reflexivity]).
  assert (rabbitmq_lost_at (p_worker p) = Some (p_now p)) as Hp by (change (Some (default (w_now w) (rabbitmq_lost_at k)) = Some (w_now w)); rewrite Hl; reflexivity).
  destruct (worker_watched (λ _ w, w) sample_world p0 p E Ha) as (H1 & H2 & _).
  exists p0, p. split; [exact E|]. split; [exact Ha|]. split; [exact Hp|]. split; [exact (H1 _ Hp)|].
  exact (H2 SCAN eq_refl).
Defined.
