(* ===== verification/Ddl.v ===== *)
(** * The schema of a database and the DDL that changes it

    Tables, constraints and indexes as PostgreSQL keeps them, the operations
    the migrations are written in ([op.create_table], [op.create_index],
    [op.add_column] and their inverses) with the errors that make them fail,
    and the general fact that undoing an operation restores the schema. *)
From S2P Require Import Prelude.
From stdpp Require Import fin_maps.
Open Scope string_scope.
Open Scope Z_scope.

(** ** Schemas *)
Inductive coltype :=
  | Uuid | String_ (length : nat) | Text | Boolean | Integer | BigInteger | Float | DateTime | JSONB | LargeBinary.
(** [server_default] is the SQL default, quoted or not; [now()] for the clock *)
Record column := mkColumn {
  co_name : string; co_type : coltype; co_nullable : bool; co_server_default : option string; co_autoincrement : bool
}.
Inductive ondelete := CASCADE | SET_NULL.
Inductive constraint_kind :=
  | PrimaryKey
  | Unique
  | Check_ (sql : string)
  | ForeignKey (table : string) (column : string) (action : ondelete).
Record constraint := mkConstraint { cn_name : string; cn_columns : list string; cn_kind : constraint_kind }.
(** an index key: a column, or [lower] of one *)
Inductive index_key := Key (c : string) | KeyLower (c : string).
Definition key_column (k : index_key) : string := match k with Key c | KeyLower c => c end.
Record index := mkIndex {
  ix_name : string; ix_table : string; ix_keys : list index_key; ix_unique : bool; ix_where : option string
}.
Record table := mkTable { tb_columns : gmap string column; tb_constraints : gmap string constraint }.
Record schema := mkSchema { sch_tables : gmap string table; sch_indexes : gmap string index }.
Definition empty_schema : schema := mkSchema ∅ ∅.
#[export] Instance eta_table : Eta table := Build_Eta _ (λ t, mkTable (tb_columns t) (tb_constraints t)).
#[export] Instance eta_schema : Eta schema := Build_Eta _ (λ s, mkSchema (sch_tables s) (sch_indexes s)).

#[export] Instance coltype_eq_dec : EqDecision coltype.
Proof. solve_decision. Defined.
#[export] Instance column_eq_dec : EqDecision column.
Proof. solve_decision. Defined.
#[export] Instance ondelete_eq_dec : EqDecision ondelete.
Proof. solve_decision. Defined.
#[export] Instance constraint_kind_eq_dec : EqDecision constraint_kind.
Proof. solve_decision. Defined.
#[export] Instance constraint_eq_dec : EqDecision constraint.
Proof. solve_decision. Defined.
#[export] Instance index_key_eq_dec : EqDecision index_key.
Proof. solve_decision. Defined.
#[export] Instance index_eq_dec : EqDecision index.
Proof. solve_decision. Defined.
#[export] Instance table_eq_dec : EqDecision table.
Proof. solve_decision. Defined.
#[export] Instance schema_eq_dec : EqDecision schema.
Proof. solve_decision. Defined.

(** [l] as a map from its names *)
Definition named {A} (name : A → string) (l : list A) : gmap string A :=
  list_to_map ((λ x, (name x, x)) <$> l).

(** ** Operations *)
Inductive ddl :=
  | create_table (name : string) (columns : list column) (constraints : list constraint)
  | drop_table (name : string)
  | add_column (table : string) (c : column)
  | drop_column (table : string) (column : string)
  | create_index (ix : index)
  | drop_index (name : string).

(** the table a constraint refers to, if any *)
Definition referred (c : constraint) : option string :=
  match cn_kind c with ForeignKey t _ _ => Some t | _ => None end.
(** a foreign key of [s] points to a primary key of one column *)
Definition fk_target (s : schema) (c : constraint) : bool :=
  match cn_kind c with
  | ForeignKey t col _ =>
      match sch_tables s !! t with
      | Some tb => existsb (λ kc, bool_decide (cn_kind kc.2 = PrimaryKey) && bool_decide (cn_columns kc.2 = [col]))
                     (map_to_list (tb_constraints tb))
      | None => false
      end
  | _ => true
  end.
Definition columns_exist (cols : gmap string column) (l : list string) : bool :=
  forallb (λ c, is_some (cols !! c)) l.
(** some table of [s] other than [t] has a foreign key to [t] *)
Definition referenced (s : schema) (t : string) : bool :=
  existsb (λ nt, negb (String.eqb nt.1 t) &&
                 existsb (λ kc, bool_decide (referred kc.2 = Some t)) (map_to_list (tb_constraints nt.2)))
    (map_to_list (sch_tables s)).
(** tables and indexes share a name space *)
Definition name_free (s : schema) (n : string) : bool :=
  negb (is_some (sch_tables s !! n)) && negb (is_some (sch_indexes s !! n)).
Definition mentions_column (c : string) (cn : constraint) : bool := bool_decide (c ∈ cn_columns cn).
Definition index_on (t c : string) (ix : index) : bool :=
  String.eqb (ix_table ix) t && bool_decide (c ∈ key_column <$> ix_keys ix).

(** [None] where PostgreSQL refuses the statement *)
Definition run_op (op : ddl) (s : schema) : option schema :=
  match op with
  | create_table n cols cns =>
      let cm := named co_name cols in
      if name_free s n && bool_decide (NoDup (co_name <$> cols)) && bool_decide (NoDup (cn_name <$> cns)) &&
         forallb (λ cn, columns_exist cm (cn_columns cn) && fk_target s cn) cns
      then Some (s <| sch_tables ::= insert n (mkTable cm (named cn_name cns)) |>)
      else None
  | drop_table n =>
      if is_some (sch_tables s !! n) && negb (referenced s n)
      then Some (s <| sch_tables ::= delete n |> <| sch_indexes ::= keep (λ ix, negb (String.eqb (ix_table ix) n)) |>)
      else None
  | add_column t c =>
      match sch_tables s !! t with
      | Some tb => if is_some (tb_columns tb !! co_name c) then None
                   else Some (s <| sch_tables ::= insert t (tb <| tb_columns ::= insert (co_name c) c |>) |>)
      | None => None
      end
  | drop_column t c =>
      match sch_tables s !! t with
      | Some tb => if is_some (tb_columns tb !! c)
                   then Some (s <| sch_tables ::= insert t (tb <| tb_columns ::= delete c |>
                                     <| tb_constraints ::= keep (λ cn, negb (mentions_column c cn)) |>) |>
                                <| sch_indexes ::= keep (λ ix, negb (index_on t c ix)) |>)
                   else None
      | None => None
      end
  | create_index ix =>
      match sch_tables s !! ix_table ix with
      | Some tb => if name_free s (ix_name ix) && columns_exist (tb_columns tb) (key_column <$> ix_keys ix)
                   then Some (s <| sch_indexes ::= insert (ix_name ix) ix |>) else None
      | None => None
      end
  | drop_index n => if is_some (sch_indexes s !! n) then Some (s <| sch_indexes ::= delete n |>) else None
  end.
Fixpoint run_ops (ops : list ddl) (s : schema) : option schema :=
  match ops with [] => Some s | op :: ops' => s' ← run_op op s; run_ops ops' s' end.

Lemma run_ops_app a b s : run_ops (a ++ b) s = (s' ← run_ops a s; run_ops b s').
Proof. revert s. induction a as [|op a IH]; intros s; cbn; [done|]. destruct (run_op op s); [apply IH|done]. Qed.

(** ** Undoing *)
Definition undo (op : ddl) : ddl :=
  match op with
  | create_table n _ _ => drop_table n
  | add_column t c => drop_column t (co_name c)
  | create_index ix => drop_index (ix_name ix)
  | op => op
  end.
Definition constructive (op : ddl) : bool :=
  match op with create_table _ _ _ | add_column _ _ | create_index _ => true | _ => false end.

(** constraints and indexes rest on columns that exist, foreign keys on tables *)
Record schema_ok (s : schema) : Prop := {
  ok_constraint : ∀ n t k c, sch_tables s !! n = Some t → tb_constraints t !! k = Some c →
    (∀ x, x ∈ cn_columns c → is_Some (tb_columns t !! x)) ∧
    (∀ r, referred c = Some r → is_Some (sch_tables s !! r));
  ok_index : ∀ i ix, sch_indexes s !! i = Some ix →
    ∃ t, sch_tables s !! ix_table ix = Some t ∧ ∀ x, x ∈ key_column <$> ix_keys ix → is_Some (tb_columns t !! x)
}.
Lemma empty_schema_ok : schema_ok empty_schema.
Proof. split; intros *; cbn; by rewrite lookup_empty. Qed.

Lemma columns_exist_spec cols l x : columns_exist cols l = true → x ∈ l → is_Some (cols !! x).
Proof.
  unfold columns_exist. rewrite forallb_forall. intros H Hx. apply is_some_true. apply (H x). by apply list_elem_of_In.
Qed.
Lemma name_free_spec s n : name_free s n = true → sch_tables s !! n = None ∧ sch_indexes s !! n = None.
Proof. unfold name_free. intros H. bool_prop. by destruct (sch_tables s !! n), (sch_indexes s !! n). Qed.
Lemma named_lookup {A} (name : A → string) l k x : named name l !! k = Some x → x ∈ l ∧ name x = k.
Proof.
  unfold named. intros H. apply elem_of_list_to_map_2 in H.
  apply list_elem_of_fmap in H as (y & [= -> ->] & Hy). done.
Qed.
Lemma fk_target_some s c r : fk_target s c = true → referred c = Some r → is_Some (sch_tables s !! r).
Proof.
  unfold fk_target, referred. destruct (cn_kind c) as [| | |r0 col0 act]; try done. intros H [= <-].
  destruct (sch_tables s !! r0) eqn:E; [eauto|done].
Qed.
Lemma not_referenced s n :
  schema_ok s → sch_tables s !! n = None → ∀ tb, referenced (s <| sch_tables ::= insert n tb |>) n = false.
Proof.
  intros Hok Hn tb. unfold referenced. apply not_true_is_false. intros H. apply existsb_exists in H as ([m t] & Hin & H).
  cbn in H. apply andb_prop in H as [Hm H]. apply negb_true_iff, String.eqb_neq in Hm.
  apply list_elem_of_In, elem_of_map_to_list in Hin. cbn in Hin. rewrite lookup_insert_ne in Hin by done.
  apply existsb_exists in H as ([k c] & Hc & H). apply bool_decide_eq_true in H. cbn in H.
  apply list_elem_of_In, elem_of_map_to_list in Hc.
  destruct (ok_constraint s Hok _ _ _ _ Hin Hc) as [_ Hr]. destruct (Hr _ H) as [? E]. congruence.
Qed.
(** a filter that drops nothing *)
Lemma keep_all {A} (p : A → bool) (m : gmap string A) : (∀ k x, m !! k = Some x → p x = true) → keep p m = m.
Proof.
  intros H. apply map_eq. intros k. apply option_eq. intros x. rewrite lookup_keep. split; [tauto|]. eauto.
Qed.

Lemma undo_create_table n cols cns s s' :
  schema_ok s → run_op (create_table n cols cns) s = Some s' → schema_ok s' ∧ run_op (drop_table n) s' = Some s.
Proof.
  intros Hok. cbn [run_op]. cbv zeta. destruct (_ && _) eqn:E; [|done]. intros [= <-].
  apply andb_prop in E as [E Hc]. apply andb_prop in E as [E _]. apply andb_prop in E as [Hf _].
  apply name_free_spec in Hf as [Hn Hi]. set (tb := mkTable _ _).
  rewrite forallb_forall in Hc. split.
  - split.
    + intros m t k c. cbn. intros Hm Hk. destruct (decide (n = m)) as [<-|Hne].
      * rewrite lookup_insert_eq in Hm. injection Hm as <-. apply named_lookup in Hk as [Hk _].
        apply list_elem_of_In, Hc in Hk. apply andb_prop in Hk as [Hk1 Hk2]. split.
        { intros x. by apply columns_exist_spec. }
        intros r Hr. apply is_Some_insert. by eapply fk_target_some.
      * rewrite lookup_insert_ne in Hm by done. destruct (ok_constraint s Hok _ _ _ _ Hm Hk) as [H1 H2].
        split; [done|]. intros r Hr. apply is_Some_insert. auto.
    + intros i ix Hix. cbn in *. destruct (ok_index s Hok _ _ Hix) as (t & Ht & Hx).
      exists t. split; [|done]. rewrite lookup_insert_ne; [done|]. intros ->. congruence.
  - pose proof (not_referenced s n Hok Hn tb) as Hr. cbn in Hr |- *. rewrite lookup_insert_eq, Hr. cbn.
    rewrite delete_insert_id by done. rewrite keep_all; [by destruct s|].
    intros i ix Hix. destruct (ok_index s Hok _ _ Hix) as (t & Ht & _). apply negb_true_iff, String.eqb_neq. congruence.
Qed.
Lemma undo_add_column t c s s' :
  schema_ok s → run_op (add_column t c) s = Some s' → schema_ok s' ∧ run_op (drop_column t (co_name c)) s' = Some s.
Proof.
  intros Hok. cbn [run_op]. destruct (sch_tables s !! t) as [tb|] eqn:Ht; [|done].
  destruct (tb_columns tb !! co_name c) eqn:Hcol; [done|]. intros [= <-]. split.
  - split.
    + intros m t' k cn. cbn. intros Hm Hk. destruct (decide (t = m)) as [<-|Hne].
      * rewrite lookup_insert_eq in Hm. injection Hm as <-. cbn in *.
        destruct (ok_constraint s Hok _ _ _ _ Ht Hk) as [H1 H2]. split.
        { intros x Hx. apply is_Some_insert. auto. }
        intros r Hr. apply is_Some_insert. auto.
      * rewrite lookup_insert_ne in Hm by done. destruct (ok_constraint s Hok _ _ _ _ Hm Hk) as [H1 H2].
        split; [done|]. intros r Hr. apply is_Some_insert. auto.
    + intros i ix Hix. cbn in *. destruct (ok_index s Hok _ _ Hix) as (t' & Ht' & Hx).
      destruct (decide (t = ix_table ix)) as [->|Hne].
      * eexists. split; [apply lookup_insert_eq|]. cbn. rewrite Ht in Ht'. injection Ht' as <-.
        intros x Hxx. apply is_Some_insert. auto.
      * exists t'. by rewrite lookup_insert_ne.
  - cbn. rewrite lookup_insert_eq. cbn. rewrite lookup_insert_eq. cbn.
    rewrite insert_insert_eq, delete_insert_id by done.
    rewrite (keep_all (λ cn, negb (mentions_column _ cn))).
    2:{ intros k cn Hk. destruct (ok_constraint s Hok _ _ _ _ Ht Hk) as [H1 _]. apply negb_true_iff.
        apply bool_decide_eq_false. intros Hx. destruct (H1 _ Hx). congruence. }
    rewrite (keep_all (λ ix, negb (index_on _ _ ix))).
    2:{ intros i ix Hix. destruct (ok_index s Hok _ _ Hix) as (t' & Ht' & Hx). apply negb_true_iff. unfold index_on.
        destruct (String.eqb_spec (ix_table ix) t) as [E|]; [|done]. cbn. apply bool_decide_eq_false. intros Hxx.
        rewrite E, Ht in Ht'. injection Ht' as <-. destruct (Hx _ Hxx). congruence. }
    destruct s as [tbs ixs], tb as [tc tn]. cbn in *. by rewrite insert_id.
Qed.
Lemma undo_create_index ix s s' :
  schema_ok s → run_op (create_index ix) s = Some s' → schema_ok s' ∧ run_op (drop_index (ix_name ix)) s' = Some s.
Proof.
  intros Hok. cbn [run_op]. destruct (sch_tables s !! ix_table ix) as [tb|] eqn:Ht; [|done].
  destruct (_ && _) eqn:E; [|done]. intros [= <-]. apply andb_prop in E as [Hf Hc].
  apply name_free_spec in Hf as [Hn Hi]. split.
  - split; [exact (ok_constraint s Hok)|]. cbn. intros i ix' Hix. destruct (decide (ix_name ix = i)) as [<-|Hne].
    + rewrite lookup_insert_eq in Hix. injection Hix as <-. exists tb. split; [done|].
      intros x. by apply columns_exist_spec.
    + rewrite lookup_insert_ne in Hix by done. by apply (ok_index s Hok i).
  - cbn. rewrite lookup_insert_eq. cbn. rewrite delete_insert_id by done. by destruct s.
Qed.
(** Undoing an operation that was accepted gives the schema back. *)
Lemma undo_op op s s' :
  schema_ok s → constructive op = true → run_op op s = Some s' → schema_ok s' ∧ run_op (undo op) s' = Some s.
Proof.
  intros Hok Hc H. destruct op; try done;
    eauto using undo_create_table, undo_add_column, undo_create_index.
Qed.
Lemma undo_ops ops s s' :
  schema_ok s → forallb constructive ops = true → run_ops ops s = Some s' →
  schema_ok s' ∧ run_ops (rev (undo <$> ops)) s' = Some s.
Proof.
  revert s. induction ops as [|op ops IH]; cbn [run_ops fmap list_fmap rev forallb]; intros s Hok Hc H.
  - by injection H as <-.
  - apply andb_prop in Hc as [Hc1 Hc2]. destruct (run_op op s) as [s1|] eqn:E; [|done]. cbn in H.
    destruct (undo_op op s s1 Hok Hc1 E) as [Hok1 Hu]. destruct (IH s1 Hok1 Hc2 H) as [Hok2 Hr].
    split; [done|]. rewrite run_ops_app, Hr. cbn. by rewrite Hu.
Qed.

(** Dropping indexes commutes: the order of a block of drops does not matter. *)
Lemma drop_indexes_perm l l' s :
  Permutation l l' → NoDup l → run_ops (drop_index <$> l) s = run_ops (drop_index <$> l') s.
Proof.
  intros Hp. revert s. induction Hp as [|n l l' Hp IH|a b l|l1 l2 l3 Hp1 IH1 Hp2 IH2]; intros s Hnd.
  - done.
  - cbn. apply NoDup_cons in Hnd as [_ Hnd]. destruct (is_some _); cbn; [|done]. by apply IH.
  - apply NoDup_cons in Hnd as [Hne _]. rewrite elem_of_cons in Hne. cbn [fmap list_fmap run_ops run_op].
    assert (a ≠ b) as Hab by naive_solver.
    destruct (sch_indexes s !! a) eqn:Ea, (sch_indexes s !! b) eqn:Eb; cbn [is_some mbind option_bind];
      cbn; rewrite ?lookup_delete_ne, ?Ea, ?Eb by done; cbn; try done.
    by rewrite delete_delete.
  - rewrite IH1 by done. apply IH2. by rewrite <- Hp1.
Qed.
