(* ===== verification/Migrations.v ===== *)
(** * The migrations ([src/alembic/versions])

    Each migration's [upgrade] and [downgrade] as the list of operations it
    performs, their chain of revisions, and the schema half of the start-up
    check ([app/preflight.py]).  Rows are not followed: a column added with a
    server default fills the rows that exist. *)
From S2P Require Import Prelude Ddl.
Open Scope string_scope.
Open Scope Z_scope.
Open Scope list_scope.

(** ** Constructors, named as in the migrations *)
Definition Column (n : string) (t : coltype) (nullable : bool) (server_default : option string) : column :=
  mkColumn n t nullable server_default false.
(** [autoincrement=True] *)
Definition Serial (n : string) (t : coltype) (nullable : bool) (server_default : option string) : column :=
  mkColumn n t nullable server_default true.
Definition PrimaryKeyConstraint (cols : list string) (name : string) : constraint := mkConstraint name cols PrimaryKey.
Definition UniqueConstraint (cols : list string) (name : string) : constraint := mkConstraint name cols Unique.
(** the columns a check reads are not needed: none is ever dropped *)
Definition CheckConstraint (sql name : string) : constraint := mkConstraint name [] (Check_ sql).
Definition ForeignKeyConstraint (col table ref : string) (name : string) (action : ondelete) : constraint :=
  mkConstraint name [col] (ForeignKey table ref action).
Definition timestamps : list column :=
  [Column "created_at" DateTime false (Some "now()"); Column "updated_at" DateTime false (Some "now()")].
(** a row belongs to a host or to a cluster, not to both *)
Definition scope_sql : string :=
  "(host_id IS NOT NULL AND cluster_id IS NULL) " +:+ "OR (host_id IS NULL AND cluster_id IS NOT NULL)".

(** ** 0001 *)
Definition create_clusters : list ddl :=
  [create_table "clusters"
    ([Column "id" Uuid false None;
     Column "name" (String_ 255) false None;
     Column "hypervisor" (String_ 32) false (Some "hyperv")] ++ timestamps)
    [PrimaryKeyConstraint ["id"] "pk_clusters"]].

Definition create_users : list ddl :=
  [create_table "users"
    ([Column "id" Uuid false None;
     Column "email" (String_ 255) false None;
     Column "display_name" (String_ 255) true None;
     Column "is_active" Boolean false None;
     Column "roles" (String_ 512) true None] ++ timestamps)
    [PrimaryKeyConstraint ["id"] "pk_users";
     UniqueConstraint ["email"] "uq_users_email"]].

Definition create_hosts : list ddl :=
  [create_table "hosts"
    ([Column "id" Uuid false None;
     Column "short_id" (String_ 16) false None;
     Column "cluster_id" Uuid true None;
     Column "name" (String_ 255) false None;
     Column "fqdn" (String_ 255) true None;
     Column "ip_address" (String_ 64) true None;
     Column "hypervisor" (String_ 32) false (Some "hyperv");
     Column "agent_rmq_user" (String_ 64) true None;
     Column "agent_rmq_password" (String_ 128) true None;
     Column "agent_version" (String_ 64) true None;
     Column "agent_last_seen" DateTime true None;
     Column "agent_refresh_vm" Integer true None;
     Column "agent_refresh_host" Integer true None;
     Column "hardware" JSONB true None] ++ timestamps)
    [ForeignKeyConstraint "cluster_id" "clusters" "id" "fk_hosts_cluster_id_clusters" SET_NULL;
     PrimaryKeyConstraint ["id"] "pk_hosts";
     UniqueConstraint ["short_id"] "uq_hosts_short_id"];
   create_index (mkIndex "ix_hosts_cluster_id" "hosts" [Key "cluster_id"] false None)].

Definition create_scope_grants : list ddl :=
  [create_table "scope_grants"
    ([Column "id" Uuid false None;
     Column "user_id" Uuid false None;
     Column "level" (String_ 16) false None;
     Column "scope_id" Uuid true None] ++ timestamps)
    [ForeignKeyConstraint "user_id" "users" "id" "fk_scope_grants_user_id_users" CASCADE;
     PrimaryKeyConstraint ["id"] "pk_scope_grants";
     UniqueConstraint ["user_id"; "level"; "scope_id"] "user_level_scope"];
   create_index (mkIndex "ix_scope_grants_user_id" "scope_grants" [Key "user_id"] false None)].

Definition create_folders : list ddl :=
  [create_table "folders"
    ([Column "id" Uuid false None;
     Column "cluster_id" Uuid true None;
     Column "host_id" Uuid true None;
     Column "name" (String_ 255) false None] ++ timestamps)
    [CheckConstraint scope_sql "ck_folders_folder_scope_exactly_one";
     ForeignKeyConstraint "cluster_id" "clusters" "id" "fk_folders_cluster_id_clusters" CASCADE;
     ForeignKeyConstraint "host_id" "hosts" "id" "fk_folders_host_id_hosts" CASCADE;
     PrimaryKeyConstraint ["id"] "pk_folders"];
   create_index (mkIndex "ix_folders_cluster_id" "folders" [Key "cluster_id"] false None);
   create_index (mkIndex "ix_folders_host_id" "folders" [Key "host_id"] false None)].

Definition create_host_metrics : list ddl :=
  [create_table "host_metrics"
    [Serial "id" BigInteger false None;
     Column "host_id" Uuid false None;
     Column "ts" DateTime false (Some "now()");
     Column "cpu_percent" Float true None;
     Column "mem_percent" Float true None;
     Column "disk_latency_ms" Float true None;
     Column "net_rx_bps" BigInteger true None;
     Column "net_tx_bps" BigInteger true None;
     Column "detail" JSONB true None]
    [ForeignKeyConstraint "host_id" "hosts" "id" "fk_host_metrics_host_id_hosts" CASCADE;
     PrimaryKeyConstraint ["id"] "pk_host_metrics"];
   create_index (mkIndex "ix_host_metrics_host_id" "host_metrics" [Key "host_id"] false None);
   create_index (mkIndex "ix_host_metrics_ts" "host_metrics" [Key "ts"] false None)].

Definition create_isos : list ddl :=
  [create_table "isos"
    ([Column "id" (String_ 64) false None;
     Column "host_id" Uuid false None;
     Column "name" (String_ 255) false None;
     Column "path" (String_ 1024) false None;
     Column "size_bytes" BigInteger false None;
     Column "checksum" (String_ 64) true None] ++ timestamps)
    [ForeignKeyConstraint "host_id" "hosts" "id" "fk_isos_host_id_hosts" CASCADE;
     PrimaryKeyConstraint ["id"] "pk_isos"];
   create_index (mkIndex "ix_isos_host_id" "isos" [Key "host_id"] false None);
   create_index (mkIndex "ix_isos_checksum" "isos" [Key "checksum"] false None)].

Definition create_tasks : list ddl :=
  [create_table "tasks"
    ([Column "id" Uuid false None;
     Column "kind" (String_ 64) false None;
     Column "status" (String_ 16) false None;
     Column "target_type" (String_ 16) false None;
     Column "target_id" Uuid false None;
     Column "target_name" (String_ 255) true None;
     Column "host_id" Uuid false None;
     Column "requested_by" (String_ 255) false None;
     Column "progress" Integer true None;
     Column "progress_message" (String_ 255) true None;
     Column "started_at" DateTime true None;
     Column "finished_at" DateTime true None;
     Column "result" Text true None;
     Column "error" Text true None;
     Column "correlation_id" Uuid true None;
     Column "request_payload" JSONB true None;
     Column "response_payload" JSONB true None] ++ timestamps)
    [ForeignKeyConstraint "host_id" "hosts" "id" "fk_tasks_host_id_hosts" CASCADE;
     PrimaryKeyConstraint ["id"] "pk_tasks"];
   create_index (mkIndex "ix_tasks_correlation_id" "tasks" [Key "correlation_id"] false None);
   create_index (mkIndex "ix_tasks_host_id" "tasks" [Key "host_id"] false None);
   create_index (mkIndex "ix_tasks_target_id" "tasks" [Key "target_id"] false None)].

Definition create_templates : list ddl :=
  [create_table "templates"
    ([Column "id" (String_ 64) false None;
     Column "host_id" Uuid false None;
     Column "name" (String_ 255) false None;
     Column "path" (String_ 1024) false None;
     Column "size_bytes" BigInteger false None;
     Column "disk_size_bytes" BigInteger false (Some "0");
     Column "cpu_count" Integer false (Some "0");
     Column "memory_mb" BigInteger false (Some "0");
     Column "guest_os" (String_ 255) true None;
     Column "notes" Text true None;
     Column "image_created_at" DateTime true None] ++ timestamps)
    [ForeignKeyConstraint "host_id" "hosts" "id" "fk_templates_host_id_hosts" CASCADE;
     PrimaryKeyConstraint ["id"] "pk_templates"];
   create_index (mkIndex "ix_templates_host_id" "templates" [Key "host_id"] false None)].

Definition create_agent_binaries : list ddl :=
  [create_table "agent_binaries"
    [Column "id" Uuid false None;
     Column "version" (String_ 64) false None;
     Column "hypervisor" (String_ 32) false (Some "hyperv");
     Column "filename" (String_ 255) false None;
     Column "size_bytes" BigInteger false None;
     Column "checksum_sha256" (String_ 64) false None;
     Column "content_type" (String_ 128) false None;
     Column "storage_backend" (String_ 16) false None;
     Column "storage_key" (String_ 512) false None;
     Column "notes" Text true None;
     Column "is_active" Boolean false (Some "false");
     Column "uploaded_by" (String_ 255) false None;
     Column "created_at" DateTime false (Some "now()")]
    [PrimaryKeyConstraint ["id"] "pk_agent_binaries";
     UniqueConstraint ["version"; "hypervisor"] "uq_agent_binaries_version_hypervisor"];
   create_index (mkIndex "uq_agent_binaries_active_per_hypervisor" "agent_binaries" [Key "hypervisor"] true (Some "is_active"))].

Definition create_vlans : list ddl :=
  [create_table "vlans"
    ([Column "id" Uuid false None;
     Column "cluster_id" Uuid true None;
     Column "host_id" Uuid true None;
     Column "name" (String_ 255) false None;
     Column "vlan_id" Integer false None;
     Column "description" Text true None;
     Column "is_default" Boolean false (Some "false")] ++ timestamps)
    [CheckConstraint scope_sql "ck_vlans_vlan_scope_exactly_one";
     CheckConstraint "vlan_id BETWEEN 1 AND 4094" "ck_vlans_vlan_tag_range";
     ForeignKeyConstraint "cluster_id" "clusters" "id" "fk_vlans_cluster_id_clusters" CASCADE;
     ForeignKeyConstraint "host_id" "hosts" "id" "fk_vlans_host_id_hosts" CASCADE;
     PrimaryKeyConstraint ["id"] "pk_vlans"];
   create_index (mkIndex "ix_vlans_cluster_id" "vlans" [Key "cluster_id"] false None);
   create_index (mkIndex "ix_vlans_host_id" "vlans" [Key "host_id"] false None);
   create_index (mkIndex "uq_vlans_cluster_tag" "vlans" [Key "cluster_id"; Key "vlan_id"] true (Some "cluster_id IS NOT NULL"));
   create_index (mkIndex "uq_vlans_host_tag" "vlans" [Key "host_id"; Key "vlan_id"] true (Some "host_id IS NOT NULL"))].

Definition create_vms : list ddl :=
  [create_table "vms"
    ([Column "id" Uuid false None;
     Column "vm_uuid" (String_ 64) true None;
     Column "host_id" Uuid false None;
     Column "cluster_id" Uuid true None;
     Column "folder_id" Uuid true None;
     Column "name" (String_ 255) false None;
     Column "state" (String_ 16) false None;
     Column "firmware" (String_ 8) false (Some "UEFI");
     Column "uptime_sec" Integer true None;
     Column "vcpu" Integer false None;
     Column "memory_bytes" BigInteger false (Some "0");
     Column "memory_min_bytes" BigInteger true None;
     Column "memory_max_bytes" BigInteger true None;
     Column "memory_dynamic" Boolean false (Some "false");
     Column "memory_demand_bytes" BigInteger true None;
     Column "cpu_usage_percent" Float true None;
     Column "secure_boot" Boolean true None;
     Column "secure_boot_template" (String_ 64) true None;
     Column "nested_virtualization" Boolean false (Some "false");
     Column "auto_start_action" (String_ 32) true None;
     Column "auto_start_delay_sec" Integer true None;
     Column "auto_stop_action" (String_ 32) true None;
     Column "config_path" (String_ 1024) true None;
     Column "dvd_path" (String_ 1024) true None;
     Column "highly_available" Boolean false (Some "false");
     Column "metrics_enabled" Boolean false (Some "false");
     Column "notes" Text true None;
     Column "vm_created_at" DateTime true None;
     Column "last_inventory_at" DateTime true None] ++ timestamps)
    [ForeignKeyConstraint "cluster_id" "clusters" "id" "fk_vms_cluster_id_clusters" SET_NULL;
     ForeignKeyConstraint "folder_id" "folders" "id" "fk_vms_folder_id_folders" SET_NULL;
     ForeignKeyConstraint "host_id" "hosts" "id" "fk_vms_host_id_hosts" CASCADE;
     PrimaryKeyConstraint ["id"] "pk_vms"];
   create_index (mkIndex "ix_vms_cluster_id" "vms" [Key "cluster_id"] false None);
   create_index (mkIndex "ix_vms_folder_id" "vms" [Key "folder_id"] false None);
   create_index (mkIndex "ix_vms_host_id" "vms" [Key "host_id"] false None);
   create_index (mkIndex "ix_vms_vm_uuid" "vms" [Key "vm_uuid"] false None);
   create_index (mkIndex "uq_vms_cluster_vm_uuid" "vms" [Key "cluster_id"; Key "vm_uuid"] true (Some "cluster_id IS NOT NULL AND vm_uuid IS NOT NULL"));
   create_index (mkIndex "uq_vms_host_vm_uuid" "vms" [Key "host_id"; Key "vm_uuid"] true (Some "cluster_id IS NULL AND vm_uuid IS NOT NULL"))].

Definition create_vm_disks : list ddl :=
  [create_table "vm_disks"
    [Column "id" Uuid false None;
     Column "vm_id" Uuid false None;
     Column "position" Integer false None;
     Column "disk_id" (String_ 128) true None;
     Column "path" (String_ 1024) true None;
     Column "controller" (String_ 64) true None;
     Column "size_bytes" BigInteger true None;
     Column "used_bytes" BigInteger true None;
     Column "type" (String_ 32) true None;
     Column "format" (String_ 16) true None]
    [ForeignKeyConstraint "vm_id" "vms" "id" "fk_vm_disks_vm_id_vms" CASCADE;
     PrimaryKeyConstraint ["id"] "pk_vm_disks"];
   create_index (mkIndex "ix_vm_disks_vm_id" "vm_disks" [Key "vm_id"] false None)].

Definition create_vm_nics : list ddl :=
  [create_table "vm_nics"
    [Column "id" Uuid false None;
     Column "vm_id" Uuid false None;
     Column "position" Integer false None;
     Column "nic_id" (String_ 128) true None;
     Column "name" (String_ 255) false None;
     Column "switch_name" (String_ 255) true None;
     Column "mac_address" (String_ 64) true None;
     Column "ip_addresses" JSONB false None;
     Column "connected" Boolean false (Some "true");
     Column "vlan_id" Integer true None]
    [ForeignKeyConstraint "vm_id" "vms" "id" "fk_vm_nics_vm_id_vms" CASCADE;
     PrimaryKeyConstraint ["id"] "pk_vm_nics"];
   create_index (mkIndex "ix_vm_nics_vm_id" "vm_nics" [Key "vm_id"] false None)].

Definition create_vm_snapshots : list ddl :=
  [create_table "vm_snapshots"
    [Column "id" Uuid false None;
     Column "vm_id" Uuid false None;
     Column "position" Integer false None;
     Column "snapshot_id" (String_ 128) false None;
     Column "name" (String_ 255) false None;
     Column "parent_snapshot_id" (String_ 128) true None;
     Column "snapshot_type" (String_ 32) true None;
     Column "snapshot_created_at" DateTime true None]
    [ForeignKeyConstraint "vm_id" "vms" "id" "fk_vm_snapshots_vm_id_vms" CASCADE;
     PrimaryKeyConstraint ["id"] "pk_vm_snapshots"];
   create_index (mkIndex "ix_vm_snapshots_vm_id" "vm_snapshots" [Key "vm_id"] false None)].

Definition create_vm_metrics : list ddl :=
  [create_table "vm_metrics"
    [Serial "id" BigInteger false None;
     Column "vm_id" Uuid false None;
     Column "ts" DateTime false (Some "now()");
     Column "cpu_percent" Float true None;
     Column "mem_bytes" BigInteger true None;
     Column "disk_bytes" BigInteger true None;
     Column "net_rx_bytes" BigInteger true None;
     Column "net_tx_bytes" BigInteger true None;
     Column "detail" JSONB true None]
    [ForeignKeyConstraint "vm_id" "vms" "id" "fk_vm_metrics_vm_id_vms" CASCADE;
     PrimaryKeyConstraint ["id"] "pk_vm_metrics"];
   create_index (mkIndex "ix_vm_metrics_ts" "vm_metrics" [Key "ts"] false None);
   create_index (mkIndex "ix_vm_metrics_vm_id" "vm_metrics" [Key "vm_id"] false None)].

Definition upgrade_0001 : list ddl :=
  create_clusters ++ create_users ++ create_hosts ++ create_scope_grants ++ create_folders ++
  create_host_metrics ++ create_isos ++ create_tasks ++ create_templates ++ create_agent_binaries ++
  create_vlans ++ create_vms ++ create_vm_disks ++ create_vm_nics ++ create_vm_snapshots ++
  create_vm_metrics.
Definition downgrade_0001 : list ddl :=
  [drop_index "ix_vm_metrics_vm_id"; drop_index "ix_vm_metrics_ts"; drop_table "vm_metrics";
   drop_index "ix_vm_snapshots_vm_id"; drop_table "vm_snapshots"; drop_index "ix_vm_nics_vm_id";
   drop_table "vm_nics"; drop_index "ix_vm_disks_vm_id"; drop_table "vm_disks"; drop_index "uq_vms_host_vm_uuid";
   drop_index "uq_vms_cluster_vm_uuid"; drop_index "ix_vms_vm_uuid"; drop_index "ix_vms_host_id";
   drop_index "ix_vms_folder_id"; drop_index "ix_vms_cluster_id"; drop_table "vms";
   drop_index "uq_vlans_host_tag"; drop_index "uq_vlans_cluster_tag"; drop_index "ix_vlans_host_id";
   drop_index "ix_vlans_cluster_id"; drop_table "vlans"; drop_index "uq_agent_binaries_active_per_hypervisor";
   drop_table "agent_binaries"; drop_index "ix_templates_host_id"; drop_table "templates";
   drop_index "ix_tasks_target_id"; drop_index "ix_tasks_host_id"; drop_index "ix_tasks_correlation_id";
   drop_table "tasks"; drop_index "ix_isos_checksum"; drop_index "ix_isos_host_id"; drop_table "isos";
   drop_index "ix_host_metrics_ts"; drop_index "ix_host_metrics_host_id"; drop_table "host_metrics";
   drop_index "ix_folders_host_id"; drop_index "ix_folders_cluster_id"; drop_table "folders";
   drop_index "ix_scope_grants_user_id"; drop_table "scope_grants"; drop_index "ix_hosts_cluster_id";
   drop_table "hosts"; drop_table "users"; drop_table "clusters"].

(** ** 0002 *)
Definition create_tag_categories : list ddl :=
  [create_table "tag_categories"
    ([Column "id" Uuid false None;
     Column "name" (String_ 64) false None] ++ timestamps)
    [PrimaryKeyConstraint ["id"] "pk_tag_categories"];
   create_index (mkIndex "uq_tag_categories_name" "tag_categories" [KeyLower "name"] true None)].

Definition create_tags : list ddl :=
  [create_table "tags"
    ([Column "id" Uuid false None;
     Column "category_id" Uuid true None;
     Column "name" (String_ 64) false None] ++ timestamps)
    [ForeignKeyConstraint "category_id" "tag_categories" "id" "fk_tags_category_id_tag_categories" CASCADE;
     PrimaryKeyConstraint ["id"] "pk_tags"];
   create_index (mkIndex "ix_tags_category_id" "tags" [Key "category_id"] false None);
   create_index (mkIndex "uq_tags_category_name" "tags" [Key "category_id"; KeyLower "name"] true (Some "category_id IS NOT NULL"));
   create_index (mkIndex "uq_tags_standalone_name" "tags" [KeyLower "name"] true (Some "category_id IS NULL"))].

Definition create_vm_tags : list ddl :=
  [create_table "vm_tags"
    [Column "vm_id" Uuid false None;
     Column "tag_id" Uuid false None]
    [ForeignKeyConstraint "vm_id" "vms" "id" "fk_vm_tags_vm_id_vms" CASCADE;
     ForeignKeyConstraint "tag_id" "tags" "id" "fk_vm_tags_tag_id_tags" CASCADE;
     PrimaryKeyConstraint ["vm_id"; "tag_id"] "pk_vm_tags"];
   create_index (mkIndex "ix_vm_tags_tag_id" "vm_tags" [Key "tag_id"] false None)].

Definition upgrade_0002 : list ddl :=
  create_tag_categories ++ create_tags ++ create_vm_tags.
Definition downgrade_0002 : list ddl :=
  [drop_index "ix_vm_tags_tag_id"; drop_table "vm_tags"; drop_index "uq_tags_standalone_name";
   drop_index "uq_tags_category_name"; drop_index "ix_tags_category_id"; drop_table "tags";
   drop_index "uq_tag_categories_name"; drop_table "tag_categories"].

(** ** 0003 *)
Definition upgrade_0003 : list ddl := [add_column "tags" (Column "color" (String_ 16) false (Some "gray"))].
Definition downgrade_0003 : list ddl :=
  [drop_column "tags" "color"].

(** ** 0004 *)
Definition create_vm_thumbnails : list ddl :=
  [create_table "vm_thumbnails"
    [Column "vm_id" Uuid false None;
     Column "image" LargeBinary false None;
     Column "content_type" (String_ 32) false (Some "image/jpeg");
     Column "captured_at" DateTime false None]
    [ForeignKeyConstraint "vm_id" "vms" "id" "fk_vm_thumbnails_vm_id_vms" CASCADE;
     PrimaryKeyConstraint ["vm_id"] "pk_vm_thumbnails"]].

Definition upgrade_0004 : list ddl :=
  [add_column "vms" (Column "guest_os" (String_ 255) true None)] ++ create_vm_thumbnails.
Definition downgrade_0004 : list ddl :=
  [drop_table "vm_thumbnails"; drop_column "vms" "guest_os"].

(** ** 0005 *)
Definition INDEXED : list string :=
  ["occurred_at"; "actor_email"; "action"; "target_id"; "host_id"; "cluster_id"; "task_id"].
Definition create_audit_events : list ddl :=
  [create_table "audit_events"
    [Column "id" Uuid false None;
     Column "occurred_at" DateTime false (Some "now()");
     Column "actor_type" (String_ 16) false None;
     Column "actor_email" (String_ 255) true None;
     Column "actor_name" (String_ 255) true None;
     Column "action" (String_ 64) false None;
     Column "target_type" (String_ 32) false None;
     Column "target_id" Uuid true None;
     Column "target_name" (String_ 255) true None;
     Column "host_id" Uuid true None;
     Column "cluster_id" Uuid true None;
     Column "task_id" Uuid true None;
     Column "outcome" (String_ 16) false None;
     Column "error" Text true None;
     Column "details" JSONB true None]
    [PrimaryKeyConstraint ["id"] "pk_audit_events"]].
Definition audit_index (column : string) : index :=
  mkIndex ("ix_audit_events_" +:+ column) "audit_events" [Key column] false None.
Definition upgrade_0005 : list ddl := create_audit_events ++ ((λ c, create_index (audit_index c)) <$> INDEXED).
Definition downgrade_0005 : list ddl :=
  ((λ c, drop_index (ix_name (audit_index c))) <$> INDEXED) ++ [drop_table "audit_events"].

(** ** The chain of revisions *)
Record revision := mkRevision {
  rv_id : string; rv_down_revision : option string; rv_upgrade : list ddl; rv_downgrade : list ddl
}.
Definition versions : list revision :=
  [mkRevision "0001_initial" None upgrade_0001 downgrade_0001;
   mkRevision "0002_tags" (Some "0001_initial") upgrade_0002 downgrade_0002;
   mkRevision "0003_tag_color" (Some "0002_tags") upgrade_0003 downgrade_0003;
   mkRevision "0004_vm_guest_os_thumbnails" (Some "0003_tag_color") upgrade_0004 downgrade_0004;
   mkRevision "0005_audit_events" (Some "0004_vm_guest_os_thumbnails") upgrade_0005 downgrade_0005].
(** a database: the content of [alembic_version] ([None] before the table
    exists, [Some None] while it is empty) and the schema *)
Record installation := mkInstallation { in_version : option (option string); in_schema : schema }.
(** how many revisions a stamp stands for *)
Fixpoint position_in (l : list revision) (v : string) : option nat :=
  match l with
  | [] => None
  | r :: l' => if String.eqb (rv_id r) v then Some 1%nat else S <$> position_in l' v
  end.
Definition applied (stamp : option (option string)) : option nat :=
  match stamp with Some (Some v) => position_in versions v | _ => Some O end.
(** the schema after the first [n] revisions *)
Definition schema_at (n : nat) : option schema := run_ops (take n versions ≫= rv_upgrade) empty_schema.

(** ** The schema check of the start-up *)
Inductive schema_error :=
  | UpgradeFailed | VersionUnreadable | NeverCreated | NotAtHead (current head : string) | NoCoreTable.
Section check.
(** Alembic: [command.upgrade(cfg, "head")], [None] when it raises, and
    [ScriptDirectory.get_current_head()] *)
Context (upgrade_head : installation → option installation) (get_current_head : option string).
Definition check_schema (run_migrations : bool) (db : installation) : (installation + schema_error) :=
  let checked (db : installation) : (installation + schema_error) :=
    match in_version db with
    | None => inr VersionUnreadable
    | Some None => inr NeverCreated
    | Some (Some current) =>
        match get_current_head with
        | Some head => if negb (String.eqb current head) then inr (NotAtHead current head)
                       else if is_some (sch_tables (in_schema db) !! "hosts") then inl db else inr NoCoreTable
        | None => if is_some (sch_tables (in_schema db) !! "hosts") then inl db else inr NoCoreTable
        end
    end in
  if run_migrations then
    match upgrade_head db with Some db' => checked db' | None => inr UpgradeFailed end
  else checked db.
End check.

(** ** Reversibility *)
Lemma versions_constructive r : r ∈ versions → forallb constructive (rv_upgrade r) = true.
Proof. intros H. repeat (apply elem_of_cons in H as [->|H]; [reflexivity|]). by apply not_elem_of_nil in H. Qed.
(** dropping an index block in another order, then the rest *)
Lemma drops_reordered l l' rest s s' :
  Permutation l l' → NoDup l → run_ops ((drop_index <$> l) ++ rest) s = Some s' →
  run_ops ((drop_index <$> l') ++ rest) s = Some s'.
Proof. intros Hp Hn. by rewrite !run_ops_app, (drop_indexes_perm l l' s Hp Hn). Qed.

(** C35: every migration can be taken back.  Whatever database a migration is
    applied to - with tables of other applications in it, as long as its
    constraints and indexes rest on existing columns and tables - if the
    upgrade succeeds then the downgrade succeeds on the result and restores the
    schema exactly. *)
Theorem migrations_reversible r s s' :
  r ∈ versions → schema_ok s → run_ops (rv_upgrade r) s = Some s' →
  run_ops (rv_downgrade r) s' = Some s ∧ schema_ok s'.
Proof.
  intros Hr Hok H. destruct (undo_ops _ s s' Hok (versions_constructive r Hr) H) as [Hok' Hu].
  split; [|done]. repeat (apply elem_of_cons in Hr as [->|Hr]; [try exact Hu|]); [|by apply not_elem_of_nil in Hr].
  change (rv_downgrade _) with
    ((drop_index <$> ((λ c, "ix_audit_events_" +:+ c) <$> INDEXED)) ++ [drop_table "audit_events"]).
  refine (drops_reordered (rev ((λ c, "ix_audit_events_" +:+ c) <$> INDEXED)) _ _ _ _ _ _ _).
  - symmetry. apply Permutation_rev.
  - apply (bool_decide_unpack _). vm_compute. exact I.
  - exact Hu.
Qed.
(** the tag migration over a database that also holds a foreign table *)
Lemma migrations_reversible_witness :
  ∃ s s', run_ops (upgrade_0001 ++ [create_table "other_app" [Column "id" Integer false None] []]) empty_schema = Some s ∧
    run_ops upgrade_0002 s = Some s' ∧ run_ops downgrade_0002 s' = Some s ∧ s ≠ s'.
Proof.
  set (ops := upgrade_0001 ++ _).
  assert (is_Some (run_ops ops empty_schema)) as [s E] by (apply is_some_true; vm_compute; reflexivity).
  assert (is_Some (run_ops upgrade_0002 s)) as [s' E'].
  { apply is_some_true. assert (is_some (s ← run_ops ops empty_schema; run_ops upgrade_0002 s) = true) as H by (vm_compute; reflexivity).
    rewrite E in H. exact H. }
  exists s, s'. split; [exact E|]. split; [exact E'|].
  destruct (undo_ops ops empty_schema s empty_schema_ok eq_refl E) as [Hok _].
  destruct (migrations_reversible (mkRevision "0002_tags" (Some "0001_initial") upgrade_0002 downgrade_0002) s s')
    as [H _]; [right; left|exact Hok|exact E'|]. split; [exact H|].
  intros <-. assert (is_some (s ← run_ops ops empty_schema; sch_tables s !! "tags") = false) as Ht by (vm_compute; reflexivity).
  assert (is_some (s ← run_ops (ops ++ upgrade_0002) empty_schema; sch_tables s !! "tags") = true) as Ht' by (vm_compute; reflexivity).
  rewrite run_ops_app, E in Ht'. rewrite E in Ht. cbn [mbind option_bind] in Ht, Ht'. rewrite E' in Ht'. cbn [mbind option_bind] in Ht'. congruence.
Defined.
