(* ===== verification/Metadata.v ===== *)
(** * The schema the models declare ([src/app/models])

    Every mapped class with its columns, keys and table arguments, the naming
    convention of [models/base.py], and the schema they stand for - what
    [Base.metadata] tells Alembic the database should be. *)
From S2P Require Import Prelude Ddl Migrations.
Open Scope string_scope.
Open Scope Z_scope.
Open Scope list_scope.

(** ** Mapped columns *)
Record mapped_column := mkMapped {
  mc_column : column; mc_primary_key : bool; mc_unique : bool; mc_index : bool;
  mc_reference : option (string * string * ondelete)
}.
(** [mapped_column(t, nullable=False)] and its options *)
Definition mapped (n : string) (t : coltype) : mapped_column :=
  mkMapped (mkColumn n t false None false) false false false None.
Definition nullable (m : mapped_column) : mapped_column :=
  let c := mc_column m in
  mkMapped (mkColumn (co_name c) (co_type c) true (co_server_default c) (co_autoincrement c))
    (mc_primary_key m) (mc_unique m) (mc_index m) (mc_reference m).
Definition server_default (d : string) (m : mapped_column) : mapped_column :=
  let c := mc_column m in
  mkMapped (mkColumn (co_name c) (co_type c) (co_nullable c) (Some d) (co_autoincrement c))
    (mc_primary_key m) (mc_unique m) (mc_index m) (mc_reference m).
Definition autoincrement (m : mapped_column) : mapped_column :=
  let c := mc_column m in
  mkMapped (mkColumn (co_name c) (co_type c) (co_nullable c) (co_server_default c) true)
    (mc_primary_key m) (mc_unique m) (mc_index m) (mc_reference m).
Definition primary_key (m : mapped_column) : mapped_column :=
  mkMapped (mc_column m) true (mc_unique m) (mc_index m) (mc_reference m).
Definition unique (m : mapped_column) : mapped_column :=
  mkMapped (mc_column m) (mc_primary_key m) true (mc_index m) (mc_reference m).
Definition indexed (m : mapped_column) : mapped_column :=
  mkMapped (mc_column m) (mc_primary_key m) (mc_unique m) true (mc_reference m).
Definition references (table col : string) (action : ondelete) (m : mapped_column) : mapped_column :=
  mkMapped (mc_column m) (mc_primary_key m) (mc_unique m) (mc_index m) (Some (table, col, action)).

(** [__table_args__] *)
Inductive table_arg :=
  | ArgUnique (cols : list string) (name : string)
  | ArgCheck (sql name : string)
  | ArgIndex (name : string) (keys : list index_key) (unique : bool) (where_ : option string).
Record orm_table := mkOrm { ot_name : string; ot_columns : list mapped_column; ot_args : list table_arg }.
Definition TimestampMixin : list mapped_column :=
  [server_default "now()" (mapped "created_at" DateTime); server_default "now()" (mapped "updated_at" DateTime)].

(** ** The naming convention *)
Definition ix_name_of (t c : string) : string := "ix_" +:+ t +:+ "_" +:+ c.
Definition uq_name_of (t c : string) : string := "uq_" +:+ t +:+ "_" +:+ c.
Definition ck_name_of (t name : string) : string := "ck_" +:+ t +:+ "_" +:+ name.
Definition fk_name_of (t c referred : string) : string := "fk_" +:+ t +:+ "_" +:+ c +:+ "_" +:+ referred.
Definition pk_name_of (t : string) : string := "pk_" +:+ t.

Definition column_constraints (t : string) (m : mapped_column) : list constraint :=
  let c := co_name (mc_column m) in
  match mc_reference m with
  | Some (r, rc, action) => [mkConstraint (fk_name_of t c r) [c] (ForeignKey r rc action)]
  | None => []
  end ++
  (if mc_unique m then [mkConstraint (uq_name_of t c) [c] Unique] else []).
Definition arg_constraints (t : string) (a : table_arg) : list constraint :=
  match a with
  | ArgUnique cols name => [mkConstraint name cols Unique]
  | ArgCheck sql name => [mkConstraint (ck_name_of t name) [] (Check_ sql)]
  | ArgIndex _ _ _ _ => []
  end.
Definition table_indexes (o : orm_table) : list index :=
  let t := ot_name o in
  (ot_columns o ≫= λ m, let c := co_name (mc_column m) in
     if mc_index m then [mkIndex (ix_name_of t c) t [Key c] false None] else []) ++
  (ot_args o ≫= λ a, match a with ArgIndex n keys u w => [mkIndex n t keys u w] | _ => [] end).
Definition table_of (o : orm_table) : table :=
  let t := ot_name o in
  let pk := mkConstraint (pk_name_of t)
              (co_name ∘ mc_column <$> List.filter mc_primary_key (ot_columns o)) PrimaryKey in
  mkTable (named co_name (mc_column <$> ot_columns o))
    (named cn_name (pk :: (ot_columns o ≫= column_constraints t) ++ (ot_args o ≫= arg_constraints t))).
Definition schema_of (l : list orm_table) : schema :=
  mkSchema (list_to_map ((λ o, (ot_name o, table_of o)) <$> l)) (named ix_name (l ≫= table_indexes)).

(** ** The models *)
Definition Cluster_table : orm_table :=
  mkOrm "clusters"
    ([primary_key (mapped "id" Uuid);
     mapped "name" (String_ 255);
     server_default "hyperv" (mapped "hypervisor" (String_ 32))] ++ TimestampMixin)
    [].
Definition User_table : orm_table :=
  mkOrm "users"
    ([primary_key (mapped "id" Uuid);
     unique (mapped "email" (String_ 255));
     nullable (mapped "display_name" (String_ 255));
     mapped "is_active" Boolean;
     nullable (mapped "roles" (String_ 512))] ++ TimestampMixin)
    [].
Definition ScopeGrant_table : orm_table :=
  mkOrm "scope_grants"
    ([primary_key (mapped "id" Uuid);
     indexed (references "users" "id" CASCADE (mapped "user_id" Uuid));
     mapped "level" (String_ 16);
     nullable (mapped "scope_id" Uuid)] ++ TimestampMixin)
    [ArgUnique ["user_id"; "level"; "scope_id"] "user_level_scope"].
Definition Host_table : orm_table :=
  mkOrm "hosts"
    ([primary_key (mapped "id" Uuid);
     unique (mapped "short_id" (String_ 16));
     indexed (nullable (references "clusters" "id" SET_NULL (mapped "cluster_id" Uuid)));
     mapped "name" (String_ 255);
     nullable (mapped "fqdn" (String_ 255));
     nullable (mapped "ip_address" (String_ 64));
     server_default "hyperv" (mapped "hypervisor" (String_ 32));
     nullable (mapped "agent_rmq_user" (String_ 64));
     nullable (mapped "agent_rmq_password" (String_ 128));
     nullable (mapped "agent_version" (String_ 64));
     nullable (mapped "agent_last_seen" DateTime);
     nullable (mapped "agent_refresh_vm" Integer);
     nullable (mapped "agent_refresh_host" Integer);
     nullable (mapped "hardware" JSONB)] ++ TimestampMixin)
    [].
Definition Folder_table : orm_table :=
  mkOrm "folders"
    ([primary_key (mapped "id" Uuid);
     indexed (nullable (references "clusters" "id" CASCADE (mapped "cluster_id" Uuid)));
     indexed (nullable (references "hosts" "id" CASCADE (mapped "host_id" Uuid)));
     mapped "name" (String_ 255)] ++ TimestampMixin)
    [ArgCheck scope_sql "folder_scope_exactly_one"].
Definition HostMetric_table : orm_table :=
  mkOrm "host_metrics"
    [primary_key (autoincrement (mapped "id" BigInteger));
     indexed (references "hosts" "id" CASCADE (mapped "host_id" Uuid));
     indexed (server_default "now()" (mapped "ts" DateTime));
     nullable (mapped "cpu_percent" Float);
     nullable (mapped "mem_percent" Float);
     nullable (mapped "disk_latency_ms" Float);
     nullable (mapped "net_rx_bps" BigInteger);
     nullable (mapped "net_tx_bps" BigInteger);
     nullable (mapped "detail" JSONB)]
    [].
Definition VmMetric_table : orm_table :=
  mkOrm "vm_metrics"
    [primary_key (autoincrement (mapped "id" BigInteger));
     indexed (references "vms" "id" CASCADE (mapped "vm_id" Uuid));
     indexed (server_default "now()" (mapped "ts" DateTime));
     nullable (mapped "cpu_percent" Float);
     nullable (mapped "mem_bytes" BigInteger);
     nullable (mapped "disk_bytes" BigInteger);
     nullable (mapped "net_rx_bytes" BigInteger);
     nullable (mapped "net_tx_bytes" BigInteger);
     nullable (mapped "detail" JSONB)]
    [].
Definition Template_table : orm_table :=
  mkOrm "templates"
    ([primary_key (mapped "id" (String_ 64));
     indexed (references "hosts" "id" CASCADE (mapped "host_id" Uuid));
     mapped "name" (String_ 255);
     mapped "path" (String_ 1024);
     mapped "size_bytes" BigInteger;
     mapped "disk_size_bytes" BigInteger;
     nullable (mapped "notes" Text);
     mapped "cpu_count" Integer;
     mapped "memory_mb" BigInteger;
     nullable (mapped "guest_os" (String_ 255));
     nullable (mapped "image_created_at" DateTime)] ++ TimestampMixin)
    [].
Definition Iso_table : orm_table :=
  mkOrm "isos"
    ([primary_key (mapped "id" (String_ 64));
     indexed (references "hosts" "id" CASCADE (mapped "host_id" Uuid));
     mapped "name" (String_ 255);
     mapped "path" (String_ 1024);
     mapped "size_bytes" BigInteger;
     indexed (nullable (mapped "checksum" (String_ 64)))] ++ TimestampMixin)
    [].
Definition Task_table : orm_table :=
  mkOrm "tasks"
    ([primary_key (mapped "id" Uuid);
     mapped "kind" (String_ 64);
     mapped "status" (String_ 16);
     mapped "target_type" (String_ 16);
     indexed (mapped "target_id" Uuid);
     nullable (mapped "target_name" (String_ 255));
     indexed (references "hosts" "id" CASCADE (mapped "host_id" Uuid));
     mapped "requested_by" (String_ 255);
     nullable (mapped "progress" Integer);
     nullable (mapped "progress_message" (String_ 255));
     nullable (mapped "started_at" DateTime);
     nullable (mapped "finished_at" DateTime);
     nullable (mapped "result" Text);
     nullable (mapped "error" Text);
     nullable (mapped "request_payload" JSONB);
     nullable (mapped "response_payload" JSONB);
     indexed (nullable (mapped "correlation_id" Uuid))] ++ TimestampMixin)
    [].
Definition AgentBinary_table : orm_table :=
  mkOrm "agent_binaries"
    [primary_key (mapped "id" Uuid);
     mapped "version" (String_ 64);
     server_default "hyperv" (mapped "hypervisor" (String_ 32));
     mapped "filename" (String_ 255);
     mapped "size_bytes" BigInteger;
     mapped "checksum_sha256" (String_ 64);
     mapped "content_type" (String_ 128);
     mapped "storage_backend" (String_ 16);
     mapped "storage_key" (String_ 512);
     nullable (mapped "notes" Text);
     server_default "false" (mapped "is_active" Boolean);
     mapped "uploaded_by" (String_ 255);
     server_default "now()" (mapped "created_at" DateTime)]
    [ArgUnique ["version"; "hypervisor"] "uq_agent_binaries_version_hypervisor"].
Definition Vlan_table : orm_table :=
  mkOrm "vlans"
    ([primary_key (mapped "id" Uuid);
     indexed (nullable (references "clusters" "id" CASCADE (mapped "cluster_id" Uuid)));
     indexed (nullable (references "hosts" "id" CASCADE (mapped "host_id" Uuid)));
     mapped "name" (String_ 255);
     mapped "vlan_id" Integer;
     nullable (mapped "description" Text);
     server_default "false" (mapped "is_default" Boolean)] ++ TimestampMixin)
    [ArgCheck scope_sql "vlan_scope_exactly_one";
     ArgCheck "vlan_id BETWEEN 1 AND 4094" "vlan_tag_range";
     ArgIndex "uq_vlans_cluster_tag" [Key "cluster_id"; Key "vlan_id"] true (Some "cluster_id IS NOT NULL");
     ArgIndex "uq_vlans_host_tag" [Key "host_id"; Key "vlan_id"] true (Some "host_id IS NOT NULL")].
Definition Vm_table : orm_table :=
  mkOrm "vms"
    ([primary_key (mapped "id" Uuid);
     indexed (nullable (mapped "vm_uuid" (String_ 64)));
     indexed (references "hosts" "id" CASCADE (mapped "host_id" Uuid));
     indexed (nullable (references "clusters" "id" SET_NULL (mapped "cluster_id" Uuid)));
     indexed (nullable (references "folders" "id" SET_NULL (mapped "folder_id" Uuid)));
     mapped "name" (String_ 255);
     mapped "state" (String_ 16);
     server_default "UEFI" (mapped "firmware" (String_ 8));
     nullable (mapped "guest_os" (String_ 255));
     nullable (mapped "uptime_sec" Integer);
     mapped "vcpu" Integer;
     server_default "0" (mapped "memory_bytes" BigInteger);
     nullable (mapped "memory_min_bytes" BigInteger);
     nullable (mapped "memory_max_bytes" BigInteger);
     server_default "false" (mapped "memory_dynamic" Boolean);
     nullable (mapped "cpu_usage_percent" Float);
     nullable (mapped "memory_demand_bytes" BigInteger);
     nullable (mapped "secure_boot" Boolean);
     nullable (mapped "secure_boot_template" (String_ 64));
     server_default "false" (mapped "nested_virtualization" Boolean);
     nullable (mapped "auto_start_action" (String_ 32));
     nullable (mapped "auto_start_delay_sec" Integer);
     nullable (mapped "auto_stop_action" (String_ 32));
     nullable (mapped "config_path" (String_ 1024));
     nullable (mapped "dvd_path" (String_ 1024));
     server_default "false" (mapped "highly_available" Boolean);
     server_default "false" (mapped "metrics_enabled" Boolean);
     nullable (mapped "notes" Text);
     nullable (mapped "vm_created_at" DateTime);
     nullable (mapped "last_inventory_at" DateTime)] ++ TimestampMixin)
    [ArgIndex "uq_vms_cluster_vm_uuid" [Key "cluster_id"; Key "vm_uuid"] true (Some "cluster_id IS NOT NULL AND vm_uuid IS NOT NULL");
     ArgIndex "uq_vms_host_vm_uuid" [Key "host_id"; Key "vm_uuid"] true (Some "cluster_id IS NULL AND vm_uuid IS NOT NULL")].
Definition VmDisk_table : orm_table :=
  mkOrm "vm_disks"
    [primary_key (mapped "id" Uuid);
     indexed (references "vms" "id" CASCADE (mapped "vm_id" Uuid));
     mapped "position" Integer;
     nullable (mapped "disk_id" (String_ 128));
     nullable (mapped "path" (String_ 1024));
     nullable (mapped "controller" (String_ 64));
     nullable (mapped "size_bytes" BigInteger);
     nullable (mapped "used_bytes" BigInteger);
     nullable (mapped "type" (String_ 32));
     nullable (mapped "format" (String_ 16))]
    [].
Definition VmSnapshot_table : orm_table :=
  mkOrm "vm_snapshots"
    [primary_key (mapped "id" Uuid);
     indexed (references "vms" "id" CASCADE (mapped "vm_id" Uuid));
     mapped "position" Integer;
     mapped "snapshot_id" (String_ 128);
     mapped "name" (String_ 255);
     nullable (mapped "parent_snapshot_id" (String_ 128));
     nullable (mapped "snapshot_type" (String_ 32));
     nullable (mapped "snapshot_created_at" DateTime)]
    [].
Definition VmNic_table : orm_table :=
  mkOrm "vm_nics"
    [primary_key (mapped "id" Uuid);
     indexed (references "vms" "id" CASCADE (mapped "vm_id" Uuid));
     mapped "position" Integer;
     nullable (mapped "nic_id" (String_ 128));
     mapped "name" (String_ 255);
     nullable (mapped "switch_name" (String_ 255));
     nullable (mapped "vlan_id" Integer);
     nullable (mapped "mac_address" (String_ 64));
     mapped "ip_addresses" JSONB;
     server_default "true" (mapped "connected" Boolean)]
    [].
Definition VmThumbnail_table : orm_table :=
  mkOrm "vm_thumbnails"
    [primary_key (references "vms" "id" CASCADE (mapped "vm_id" Uuid));
     mapped "image" LargeBinary;
     server_default "image/jpeg" (mapped "content_type" (String_ 32));
     mapped "captured_at" DateTime]
    [].
Definition TagCategory_table : orm_table :=
  mkOrm "tag_categories"
    ([primary_key (mapped "id" Uuid);
     mapped "name" (String_ 64)] ++ TimestampMixin)
    [ArgIndex "uq_tag_categories_name" [KeyLower "name"] true None].
Definition Tag_table : orm_table :=
  mkOrm "tags"
    ([primary_key (mapped "id" Uuid);
     indexed (nullable (references "tag_categories" "id" CASCADE (mapped "category_id" Uuid)));
     mapped "name" (String_ 64);
     server_default "gray" (mapped "color" (String_ 16))] ++ TimestampMixin)
    [ArgIndex "uq_tags_category_name" [Key "category_id"; KeyLower "name"] true (Some "category_id IS NOT NULL");
     ArgIndex "uq_tags_standalone_name" [KeyLower "name"] true (Some "category_id IS NULL")].
Definition AuditEvent_table : orm_table :=
  mkOrm "audit_events"
    [primary_key (mapped "id" Uuid);
     indexed (server_default "now()" (mapped "occurred_at" DateTime));
     mapped "actor_type" (String_ 16);
     indexed (nullable (mapped "actor_email" (String_ 255)));
     nullable (mapped "actor_name" (String_ 255));
     indexed (mapped "action" (String_ 64));
     mapped "target_type" (String_ 32);
     indexed (nullable (mapped "target_id" Uuid));
     nullable (mapped "target_name" (String_ 255));
     indexed (nullable (mapped "host_id" Uuid));
     indexed (nullable (mapped "cluster_id" Uuid));
     indexed (nullable (mapped "task_id" Uuid));
     mapped "outcome" (String_ 16);
     nullable (mapped "error" Text);
     nullable (mapped "details" JSONB)]
    [].
(** the assignment table is declared directly *)
Definition vm_tags_table : orm_table :=
  mkOrm "vm_tags"
    [primary_key (references "vms" "id" CASCADE (mapped "vm_id" Uuid));
     indexed (primary_key (references "tags" "id" CASCADE (mapped "tag_id" Uuid)))]
    [].
Definition metadata : schema :=
  schema_of
    [Cluster_table; User_table; ScopeGrant_table; Host_table; Folder_table;
     HostMetric_table; VmMetric_table; Template_table; Iso_table; Task_table;
     AgentBinary_table; Vlan_table; Vm_table; VmDisk_table; VmSnapshot_table;
     VmNic_table; VmThumbnail_table; TagCategory_table; Tag_table; AuditEvent_table; vm_tags_table].

(** ** The models and the migrated database *)

(** where the migrations say more than the models: three defaults of
    [templates], and the index that keeps one active build per hypervisor *)
Definition with_default (t c d : string) (s : schema) : schema :=
  s <| sch_tables ::= alter (λ tb, tb <| tb_columns ::=
         alter (λ co, mkColumn (co_name co) (co_type co) (co_nullable co) (Some d) (co_autoincrement co)) c |>) t |>.
Definition only_in_migrations (s : schema) : schema :=
  with_default "templates" "disk_size_bytes" "0"
    (with_default "templates" "cpu_count" "0" (with_default "templates" "memory_mb" "0" s))
  <| sch_indexes ::= insert "uq_agent_binaries_active_per_hypervisor"
       (mkIndex "uq_agent_binaries_active_per_hypervisor" "agent_binaries" [Key "hypervisor"] true (Some "is_active")) |>.
Definition head : string := "0005_audit_events".

(** The migrations, run from nothing, build what the models declare. *)
Lemma migrated_models : schema_at 5 = Some (only_in_migrations metadata).
Proof. apply (bool_decide_unpack _). vm_compute. exact I. Qed.
Lemma schema_at_step n s : schema_at n = Some s →
  run_ops (drop n versions ≫= rv_upgrade) s = Some (only_in_migrations metadata).
Proof.
  intros Hs. pose proof migrated_models as H. unfold schema_at in H, Hs.
  change (take 5 versions) with versions in H. rewrite <- (take_drop n versions), bind_app, run_ops_app, Hs in H.
  exact H.
Qed.
Lemma applied_head v : applied (Some (Some v)) = Some 5%nat → v = head.
Proof.
  unfold applied, versions. cbn [position_in rv_id].
  repeat match goal with |- context [String.eqb ?a v] =>
    destruct (String.eqb_spec a v) as [E|_]; [subst v; try done; intros [=]|] end. done.
Qed.

Section startup.
Context (upgrade_head : installation → option installation).
(** Alembic's [upgrade head]: run the upgrades of the revisions that are not
    yet applied, in order, and stamp the last one *)
Hypothesis upgrades_in_order : ∀ db n, applied (in_version db) = Some n →
  upgrade_head db = (s ← run_ops (drop n versions ≫= rv_upgrade) (in_schema db);
                     Some (mkInstallation (Some (Some head)) s)).

(** C33: starting the backend brings any earlier database to the schema of the
    models.  From a database that has the first [n] revisions - none, all five,
    or any in between - the start-up check with migrations enabled succeeds and
    leaves the schema the mapped classes declare, but for three defaults of
    [templates] and the partial index on active agent builds, which only the
    migrations have.  With migrations disabled it changes nothing, and accepts
    the database exactly when it is already at the last revision. *)
Theorem startup_schema_matches_models n v s :
  schema_at n = Some s → applied v = Some n →
  check_schema upgrade_head (Some head) true (mkInstallation v s)
    = inl (mkInstallation (Some (Some head)) (only_in_migrations metadata)) ∧
  check_schema upgrade_head (Some head) false (mkInstallation v s)
    = match v with
      | None => inr VersionUnreadable
      | Some None => inr NeverCreated
      | Some (Some current) => if (n =? 5)%nat then inl (mkInstallation v (only_in_migrations metadata))
                               else inr (NotAtHead current head)
      end.
Proof using upgrades_in_order.
  intros Hs Hv. unfold check_schema. split.
  - rewrite (upgrades_in_order (mkInstallation v s) n Hv). cbn [in_schema]. rewrite (schema_at_step n s Hs).
    cbn [mbind option_bind in_version in_schema]. rewrite String.eqb_refl. cbn [negb].
    replace (is_some _) with true by (vm_compute; reflexivity). done.
  - destruct v as [[v|]|]; cbn [in_version in_schema]; try done. destruct (Nat.eqb_spec n 5) as [->|Hne].
    + apply applied_head in Hv as ->. rewrite String.eqb_refl. cbn [negb].
      rewrite migrated_models in Hs. injection Hs as <-.
      replace (is_some _) with true by (vm_compute; reflexivity). done.
    + destruct (String.eqb_spec v head) as [->|]; [|done]. exfalso. vm_compute in Hv. congruence.
Qed.
End startup.
(** Alembic as documented *)
Definition upgrade_in_order (db : installation) : option installation :=
  n ← applied (in_version db);
  s ← run_ops (drop n versions ≫= rv_upgrade) (in_schema db);
  Some (mkInstallation (Some (Some head)) s).
Lemma startup_schema_matches_models_witness :
  ∃ s, schema_at 2 = Some s ∧
  check_schema upgrade_in_order (Some head) true (mkInstallation (Some (Some "0002_tags")) s)
    = inl (mkInstallation (Some (Some head)) (only_in_migrations metadata)).
Proof.
  assert (is_Some (schema_at 2)) as [s E] by (apply is_some_true; vm_compute; reflexivity). exists s. split; [exact E|].
  apply (startup_schema_matches_models upgrade_in_order) with (n := 2%nat); [|exact E|reflexivity].
  intros db n H. unfold upgrade_in_order. rewrite H. reflexivity.
Defined.
