(* ===== verification/Integrity.v ===== *)
(** * Referential integrity: the migrated schema and the cascades of the model

    The data model deletes rows with hand-written cascades ([Model]); the
    migrations declare, for every foreign key, what PostgreSQL does with the
    rows that refer to a deleted one.  [gone], [nulled] and [remains] are what
    PostgreSQL documents for those declarations, read from any schema; each
    deletion of the model is shown to leave, in every table, exactly the rows
    they leave, and no reference dangling. *)
From S2P Require Import Prelude Model World Hosts Ddl Migrations Metadata.
From stdpp Require Import fin_maps.
Open Scope string_scope.
Open Scope Z_scope.
Open Scope list_scope.

(** ** The foreign keys of a schema *)
Record foreign_key := mkFk { fk_table : string; fk_column : string; fk_refers : string; fk_action : ondelete }.
#[export] Instance foreign_key_eq_dec : EqDecision foreign_key.
Proof. solve_decision. Defined.
Definition table_keys (t : string) (tb : table) : list foreign_key :=
  map_to_list (tb_constraints tb) ≫= λ kc,
    match cn_kind kc.2, cn_columns kc.2 with
    | ForeignKey r _ a, [c] => [mkFk t c r a]
    | _, _ => []
    end.
Definition foreign_keys (s : schema) : list foreign_key :=
  map_to_list (sch_tables s) ≫= λ nt, table_keys nt.1 nt.2.

(** ** The rows of a table *)

(** the content of a row; an element of the lists a VM embeds has the id of the VM *)
Inductive data :=
  | DCluster (x : Cluster) | DUser (x : User) | DGrant (x : ScopeGrant) | DHost (x : Host) | DFolder (x : Folder)
  | DHostMetric (x : HostMetric) | DVmMetric (x : VmMetric) | DTemplate (x : Template) | DIso (x : Iso) | DTask (x : Task)
  | DAgentBinary (x : AgentBinary) | DVlan (x : Vlan) | DVm (x : Vm) | DDisk (vm : string) (x : VmDisk)
  | DSnapshot (vm : string) (x : VmSnapshot) | DNic (vm : string) (x : VmNic) | DThumbnail (x : VmThumbnail)
  | DTagCategory (x : TagCategory) | DTag (x : Tag) | DAuditEvent (x : AuditEvent) | DVmTag (vm tag : string).
(** a row is its primary key - empty where nothing refers to the table - and its content *)
Abbreviation row := (string * data)%type.
Definition keyed {A} (D : A → data) (m : gmap string A) : list row := (λ kv, (kv.1, D kv.2)) <$> map_to_list m.
Definition unkeyed {A} (D : A → data) (l : list A) : list row := (λ x, ("", D x)) <$> l.
Definition embedded {A} (D : string → A → data) (children : Vm → list A) (m : gmap string Vm) : list row :=
  map_to_list m ≫= λ kv, unkeyed (D kv.1) (children kv.2).
Definition table_rows (t : string) (d : database) : list row :=
  match t with
  | "clusters" => keyed DCluster (clusters d)
  | "users" => keyed DUser (users d)
  | "scope_grants" => keyed DGrant (grants d)
  | "hosts" => keyed DHost (hosts d)
  | "folders" => keyed DFolder (folders d)
  | "host_metrics" => unkeyed DHostMetric (host_metrics d)
  | "vm_metrics" => unkeyed DVmMetric (vm_metrics d)
  | "templates" => keyed DTemplate (templates d)
  | "isos" => keyed DIso (isos d)
  | "tasks" => keyed DTask (tasks d)
  | "agent_binaries" => keyed DAgentBinary (agent_binaries d)
  | "vlans" => keyed DVlan (vlans d)
  | "vms" => keyed DVm (vms d)
  | "vm_disks" => embedded DDisk v_disks (vms d)
  | "vm_snapshots" => embedded DSnapshot v_snapshots (vms d)
  | "vm_nics" => embedded DNic v_nics (vms d)
  | "vm_thumbnails" => keyed DThumbnail (thumbnails d)
  | "tag_categories" => keyed DTagCategory (tag_categories d)
  | "tags" => keyed DTag (tags d)
  | "audit_events" => unkeyed DAuditEvent (audit_events d)
  | "vm_tags" => unkeyed (λ a, DVmTag a.1 a.2) (elements (vm_tags d))
  | _ => []
  end%string.
(** the foreign-key columns of a row; a null cell is [None] *)
Definition cell (x : data) (c : string) : option string :=
  match x, c with
  | DHost h, "cluster_id" => h_cluster_id h
  | DGrant g, "user_id" => Some (g_user_id g)
  | DFolder f, "cluster_id" => f_cluster_id f
  | DFolder f, "host_id" => f_host_id f
  | DHostMetric m, "host_id" => Some (hm_host_id m)
  | DIso i, "host_id" => Some (i_host_id i)
  | DTask k, "host_id" => Some (k_host_id k)
  | DTemplate t, "host_id" => Some (t_host_id t)
  | DVlan v, "cluster_id" => vl_cluster_id v
  | DVlan v, "host_id" => vl_host_id v
  | DVm v, "cluster_id" => v_cluster_id v
  | DVm v, "folder_id" => v_folder_id v
  | DVm v, "host_id" => Some (v_host_id v)
  | DDisk vm _, "vm_id" | DNic vm _, "vm_id" | DSnapshot vm _, "vm_id" => Some vm
  | DVmMetric m, "vm_id" => Some (vm_vm_id m)
  | DThumbnail t, "vm_id" => Some (th_vm_id t)
  | DTag t, "category_id" => tg_category_id t
  | DVmTag vm _, "vm_id" => Some vm
  | DVmTag _ tag, "tag_id" => Some tag
  | _, _ => None
  end%string.
(** the columns [q] of the row set to null, where they can be *)
Definition erase (q : string → bool) (x : data) : data :=
  let null c (v : option string) := if q c then None else v in
  match x with
  | DHost h => DHost (h <| h_cluster_id ::= null "cluster_id" |>)
  | DFolder f => DFolder (f <| f_cluster_id ::= null "cluster_id" |> <| f_host_id ::= null "host_id" |>)
  | DVlan v => DVlan (v <| vl_cluster_id ::= null "cluster_id" |> <| vl_host_id ::= null "host_id" |>)
  | DVm v => DVm (v <| v_cluster_id ::= null "cluster_id" |> <| v_folder_id ::= null "folder_id" |>)
  | DTag t => DTag (t <| tg_category_id ::= null "category_id" |>)
  | _ => x
  end.

(** ** What PostgreSQL does on [DELETE FROM T WHERE p], read from the keys of the schema *)
Section delete.
Context (s : schema) (d : database) (T : string) (p : string → data → bool).
(** the rows that go: those asked for, and those a [CASCADE] takes along *)
Inductive gone : string → row → Prop :=
  | gone_target x : x ∈ table_rows T d → p x.1 x.2 = true → gone T x
  | gone_cascade t c r x y :
      mkFk t c r CASCADE ∈ foreign_keys s → x ∈ table_rows t d → cell x.2 c = Some y.1 → gone r y → gone t x.
(** the column of a row that [SET NULL] clears *)
Definition nulled (t : string) (x : data) (c : string) : Prop :=
  ∃ r y, mkFk t c r SET_NULL ∈ foreign_keys s ∧ cell x c = Some y.1 ∧ gone r y.
(** the rows of [t] afterwards: those not gone, their dangling cells nulled *)
Definition remains (t : string) (x : row) : Prop :=
  ∃ y q, (x.1, y) ∈ table_rows t d ∧ ¬ gone t (x.1, y) ∧ (∀ c, q c = true ↔ nulled t y c) ∧ x.2 = erase q y.
End delete.

Definition cells (t c : string) (d : database) : list string := omap (λ x, cell x.2 c) (table_rows t d).
Definition has_row (t : string) (d : database) (id : string) : bool := existsb (λ x, String.eqb x.1 id) (table_rows t d).
(** no foreign key of the schema dangles *)
Definition references_ok (s : schema) (d : database) : Prop :=
  ∀ k, k ∈ foreign_keys s →
    ∀ v, v ∈ cells (fk_table k) (fk_column k) d → has_row (fk_refers k) d v = true.

(** the foreign keys of the migrations, in one list *)
Definition all_keys : list foreign_key :=
  [mkFk "hosts" "cluster_id" "clusters" SET_NULL; mkFk "scope_grants" "user_id" "users" CASCADE;
   mkFk "folders" "cluster_id" "clusters" CASCADE; mkFk "folders" "host_id" "hosts" CASCADE;
   mkFk "host_metrics" "host_id" "hosts" CASCADE; mkFk "isos" "host_id" "hosts" CASCADE;
   mkFk "tasks" "host_id" "hosts" CASCADE; mkFk "templates" "host_id" "hosts" CASCADE;
   mkFk "vlans" "cluster_id" "clusters" CASCADE; mkFk "vlans" "host_id" "hosts" CASCADE;
   mkFk "vms" "cluster_id" "clusters" SET_NULL; mkFk "vms" "folder_id" "folders" SET_NULL;
   mkFk "vms" "host_id" "hosts" CASCADE; mkFk "vm_disks" "vm_id" "vms" CASCADE; mkFk "vm_nics" "vm_id" "vms" CASCADE;
   mkFk "vm_snapshots" "vm_id" "vms" CASCADE; mkFk "vm_metrics" "vm_id" "vms" CASCADE;
   mkFk "vm_thumbnails" "vm_id" "vms" CASCADE; mkFk "tags" "category_id" "tag_categories" CASCADE;
   mkFk "vm_tags" "vm_id" "vms" CASCADE; mkFk "vm_tags" "tag_id" "tags" CASCADE].
Lemma foreign_keys_known x : x ∈ foreign_keys (only_in_migrations metadata) ↔ x ∈ all_keys.
Proof.
  set (l := foreign_keys _).
  assert (forallb (λ y, bool_decide (y ∈ all_keys)) l && forallb (λ y, bool_decide (y ∈ l)) all_keys = true) as H.
  { apply Is_true_true. vm_compute. exact I. }
  clearbody l. apply andb_prop in H as [H1 H2]. rewrite forallb_forall in H1, H2.
  rewrite list_elem_of_In. split; intros H.
  - apply H1 in H. by apply bool_decide_eq_true in H.
  - apply list_elem_of_In in H. apply H2, bool_decide_eq_true in H. by apply list_elem_of_In.
Qed.
Definition tables : list string :=
  ["scope_grants"; "clusters"; "users"; "isos"; "agent_binaries"; "audit_events"; "vm_snapshots"; "vm_metrics";
   "vm_nics"; "vm_tags"; "vm_thumbnails"; "vm_disks"; "vms"; "vlans"; "folders"; "templates"; "tag_categories"; "tags";
   "tasks"; "host_metrics"; "hosts"].
(** every table of the schema is one the model keeps *)
Lemma tables_known t : is_Some (sch_tables (only_in_migrations metadata) !! t) → t ∈ tables.
Proof.
  set (m := sch_tables _). assert (forallb (λ y, bool_decide (y ∈ tables)) (map_to_list m).*1 = true) as H.
  { apply Is_true_true. vm_compute. exact I. }
  clearbody m. rewrite forallb_forall in H. intros [x Hx]. apply (bool_decide_eq_true_1 (t ∈ tables)), H, list_elem_of_In.
  apply list_elem_of_fmap. exists (t, x). split; [done|]. by apply elem_of_map_to_list.
Qed.

(** ** The same, table by table *)
Record links (d : database) : Prop := {
  lk_host_cluster : ∀ k h c, hosts d !! k = Some h → h_cluster_id h = Some c → is_Some (clusters d !! c);
  lk_grant_user : ∀ k g, grants d !! k = Some g → is_Some (users d !! g_user_id g);
  lk_folder_cluster : ∀ k f c, folders d !! k = Some f → f_cluster_id f = Some c → is_Some (clusters d !! c);
  lk_folder_host : ∀ k f h, folders d !! k = Some f → f_host_id f = Some h → is_Some (hosts d !! h);
  lk_host_metric : ∀ m, m ∈ host_metrics d → is_Some (hosts d !! hm_host_id m);
  lk_iso : ∀ k i, isos d !! k = Some i → is_Some (hosts d !! i_host_id i);
  lk_task : ∀ k t, tasks d !! k = Some t → is_Some (hosts d !! k_host_id t);
  lk_template : ∀ k t, templates d !! k = Some t → is_Some (hosts d !! t_host_id t);
  lk_vlan_cluster : ∀ k v c, vlans d !! k = Some v → vl_cluster_id v = Some c → is_Some (clusters d !! c);
  lk_vlan_host : ∀ k v h, vlans d !! k = Some v → vl_host_id v = Some h → is_Some (hosts d !! h);
  lk_vm_cluster : ∀ k v c, vms d !! k = Some v → v_cluster_id v = Some c → is_Some (clusters d !! c);
  lk_vm_folder : ∀ k v f, vms d !! k = Some v → v_folder_id v = Some f → is_Some (folders d !! f);
  lk_vm_host : ∀ k v, vms d !! k = Some v → is_Some (hosts d !! v_host_id v);
  lk_vm_metric : ∀ m, m ∈ vm_metrics d → is_Some (vms d !! vm_vm_id m);
  lk_thumbnail : ∀ k t, thumbnails d !! k = Some t → is_Some (vms d !! th_vm_id t);
  lk_tag_category : ∀ k t c, tags d !! k = Some t → tg_category_id t = Some c → is_Some (tag_categories d !! c);
  lk_vm_tag_vm : ∀ a, a ∈ vm_tags d → is_Some (vms d !! a.1);
  lk_vm_tag_tag : ∀ a, a ∈ vm_tags d → is_Some (tags d !! a.2)
}.
Lemma elem_of_keyed {A} (D : A → data) (m : gmap string A) x :
  x ∈ keyed D m ↔ ∃ a, m !! x.1 = Some a ∧ x.2 = D a.
Proof.
  unfold keyed. rewrite list_elem_of_fmap. split.
  - intros ([k a] & -> & H%elem_of_map_to_list). by exists a.
  - intros (a & H & E). exists (x.1, a). cbn. split; [by destruct x; cbn in *; subst|]. by apply elem_of_map_to_list.
Qed.
Lemma elem_of_unkeyed {A} (D : A → data) (l : list A) x :
  x ∈ unkeyed D l ↔ ∃ a, a ∈ l ∧ x = ("", D a).
Proof. unfold unkeyed. rewrite list_elem_of_fmap. naive_solver. Qed.
Lemma elem_of_embedded {A} (D : string → A → data) (children : Vm → list A) (m : gmap string Vm) x :
  x ∈ embedded D children m ↔ ∃ k v a, m !! k = Some v ∧ a ∈ children v ∧ x = ("", D k a).
Proof.
  unfold embedded. rewrite list_elem_of_bind. setoid_rewrite elem_of_unkeyed. split.
  - intros ([k v] & (a & Ha & ->) & H%elem_of_map_to_list). by exists k, v, a.
  - intros (k & v & a & H & Ha & ->). exists (k, v). split; [by exists a|by apply elem_of_map_to_list].
Qed.
(** the cells of a table, by its rows *)
Lemma all_keyed {A} (D : A → data) (m : gmap string A) c (P : string → Prop) :
  (∀ v, v ∈ omap (λ x, cell x.2 c) (keyed D m) → P v) ↔ ∀ k a v, m !! k = Some a → cell (D a) c = Some v → P v.
Proof.
  setoid_rewrite list_elem_of_omap. setoid_rewrite elem_of_keyed. split.
  - intros H k a v Hk Hc. apply H. exists (k, D a). eauto.
  - intros H v ([k y] & (a & Hk & E) & Hc). cbn in *. subst y. eauto.
Qed.
Lemma all_unkeyed {A} (D : A → data) (l : list A) c (P : string → Prop) :
  (∀ v, v ∈ omap (λ x, cell x.2 c) (unkeyed D l) → P v) ↔ ∀ a v, a ∈ l → cell (D a) c = Some v → P v.
Proof.
  setoid_rewrite list_elem_of_omap. setoid_rewrite elem_of_unkeyed. split.
  - intros H a v Ha Hc. apply H. exists ("", D a). eauto.
  - intros H v (x & (a & Ha & ->) & Hc). eauto.
Qed.
Lemma keyed_row {A} (D : A → data) (m : gmap string A) v :
  existsb (λ x, String.eqb x.1 v) (keyed D m) = true ↔ is_Some (m !! v).
Proof.
  rewrite existsb_exists. setoid_rewrite <- list_elem_of_In. setoid_rewrite elem_of_keyed. split.
  - intros ([k y] & (a & H & _) & E%String.eqb_eq). cbn in *. subst k. by exists a.
  - intros [a H]. exists (v, D a). split; [by exists a|apply String.eqb_refl].
Qed.
Lemma embedded_owner {A} (D : string → A → data) (children : Vm → list A) (d : database) v :
  (∀ k a, cell (D k a) "vm_id" = Some k) →
  v ∈ omap (λ x, cell x.2 "vm_id") (embedded D children (vms d)) → is_Some (vms d !! v).
Proof.
  intros HD (x & (k & y & a & Hk & _ & ->)%elem_of_embedded & E)%list_elem_of_omap. cbn in E. rewrite HD in E. by simplify_eq.
Qed.
Lemma references_links d : references_ok (only_in_migrations metadata) d ↔ links d.
Proof.
  assert (references_ok (only_in_migrations metadata) d ↔ Forall (λ k, ∀ v, v ∈ cells (fk_table k) (fk_column k) d → has_row (fk_refers k) d v = true) all_keys) as ->.
  { rewrite Forall_forall. unfold references_ok. by setoid_rewrite foreign_keys_known. }
  unfold all_keys, cells, has_row. rewrite !Forall_cons, Forall_nil. cbn [fk_table fk_column fk_refers table_rows].
  setoid_rewrite keyed_row. rewrite !all_keyed, !all_unkeyed. split.
  - intros (H1 & H2 & H3 & H4 & H5 & H6 & H7 & H8 & H9 & H10 & H11 & H12 & H13 & _ & _ & _ & H17 & H18 & H19 & H20 & H21 & _).
    split; cbn [cell] in *; eauto; intros a Ha; [apply (H20 a)|apply (H21 a)]; first [by apply elem_of_elements|done].
  - intros []. split_and!; cbn [cell]; try done; try (intros v; by apply embedded_owner); try (intros a v Ha%elem_of_elements [= <-]; auto);
      try (intros * H [= <-]; eauto); eauto.
Qed.

(** ** Deletions *)
Lemma keep_some {A} (p : A → bool) (m : gmap string A) k x :
  keep p m !! k = Some x → m !! k = Some x ∧ p x = true.
Proof. apply lookup_keep. Qed.
Lemma keep_is_some {A} (p : A → bool) (m : gmap string A) k :
  is_Some (m !! k) → (∀ x, m !! k = Some x → p x = true) → is_Some (keep p m !! k).
Proof. intros [x Hx] H. exists x. apply lookup_keep. auto. Qed.
Lemma fmap_some {A} (f : A → A) (m : gmap string A) k y : (f <$> m) !! k = Some y → ∃ x, y = f x ∧ m !! k = Some x.
Proof. intros H. rewrite lookup_fmap in H. destruct (m !! k) as [x|]; [|done]. injection H as <-. by exists x. Qed.
Lemma fmap_is_some {A} (f : A → A) (m : gmap string A) k : is_Some (m !! k) → is_Some ((f <$> m) !! k).
Proof. rewrite lookup_fmap. by intros [x ->]. Qed.
Lemma delete_some {A} (m : gmap string A) i k x : delete i m !! k = Some x → i ≠ k ∧ m !! k = Some x.
Proof. intros H. by apply lookup_delete_Some in H. Qed.
Lemma delete_is_some {A} (m : gmap string A) i k : is_Some (m !! k) → i ≠ k → is_Some (delete i m !! k).
Proof. intros H N. by rewrite lookup_delete_ne. Qed.

Lemma delete_vms_links p d : links d → links (delete_vms p d).
Proof.
  intros L. set (gone := λ id, match vms d !! id with Some v => p v | None => false end).
  assert (∀ id, is_Some (vms d !! id) → gone id = false → is_Some (keep (λ v, negb (p v)) (vms d) !! id)) as Hk.
  { intros id Hs Hg. apply keep_is_some; [done|]. intros v Hv. unfold gone in Hg. rewrite Hv in Hg. by rewrite Hg. }
  destruct L. split; cbn; try assumption.
  - intros k v c [H _]%keep_some. eauto.
  - intros k v f [H _]%keep_some. eauto.
  - intros k v [H _]%keep_some. eauto.
  - intros m [Hm Hg]%list_elem_of_In%filter_In. apply negb_true_iff in Hg. apply list_elem_of_In in Hm. auto.
  - intros k t [H Hg]%keep_some. apply negb_true_iff in Hg. eauto.
  - intros a [Hg Ha]%elem_of_filter. auto.
  - intros a [_ Ha]%elem_of_filter. auto.
Qed.
Lemma delete_folders_links p d : links d → links (delete_folders p d).
Proof.
  intros L. destruct L. split; cbn; try assumption; intros *.
  - intros [H _]%keep_some. eauto.
  - intros [H _]%keep_some. eauto.
  - intros (x & -> & H)%fmap_some E. apply (lk_vm_cluster0 k x c H). destruct (v_folder_id x) as [f|]; [|done].
    by destruct (match folders d !! f with Some _ => _ | None => _ end).
  - intros (x & -> & H)%fmap_some E. destruct (v_folder_id x) as [g|] eqn:Eg; [|congruence].
    destruct (folders d !! g) as [fo|] eqn:Ef.
    + destruct (p fo) eqn:Hp; [done|]. rewrite Eg in E. injection E as <-. exists fo. apply lookup_keep. by rewrite Hp.
    + rewrite Eg in E. injection E as <-. destruct (lk_vm_folder0 k x g H Eg). congruence.
  - intros (x & -> & H)%fmap_some. specialize (lk_vm_host0 k x H). destruct (v_folder_id x) as [f|]; [|done].
    by destruct (match folders d !! f with Some _ => _ | None => _ end).
  - intros Hm. apply fmap_is_some. auto.
  - intros Ht. apply fmap_is_some. eauto.
  - intros Ha. apply fmap_is_some. auto.
Qed.
(** once nothing on a host remains, its row and the rows that name it can go *)
Lemma delete_host_links hid d : links d → links (delete_host_row hid d).
Proof.
  intros L. unfold delete_host_row. cbv zeta.
  set (d1 := delete_vms _ d). set (d2 := delete_folders _ d1).
  assert (links d2) as L2 by (by apply delete_folders_links, delete_vms_links).
  assert (∀ k v, vms d2 !! k = Some v → v_host_id v ≠ hid) as Hv.
  { intros k v H. unfold d2, delete_folders in H. cbn in H. apply fmap_some in H as (x & -> & H).
    apply keep_some in H as [_ H]. apply negb_true_iff, String.eqb_neq in H.
    destruct (v_folder_id x) as [f|]; [|done]. by destruct (match _ !! f with Some _ => _ | None => _ end). }
  assert (∀ k f, folders d2 !! k = Some f → f_host_id f ≠ Some hid) as Hf.
  { intros k f [_ H]%keep_some. apply negb_true_iff in H. by apply bool_decide_eq_false in H. }
  clearbody d2. clear L d1. destruct L2. split; cbn; try assumption; intros *.
  - intros [_ H]%delete_some. eauto.
  - intros H E. apply delete_is_some; [eauto|]. intros ->. by apply (Hf k f).
  - intros [Hm E]%list_elem_of_In%filter_In. apply list_elem_of_In in Hm.
    apply negb_true_iff, String.eqb_neq in E. apply delete_is_some; [auto|done].
  - intros [H E]%keep_some. apply negb_true_iff, String.eqb_neq in E. apply delete_is_some; [eauto|done].
  - intros [H E]%keep_some. apply negb_true_iff, String.eqb_neq in E. apply delete_is_some; [eauto|done].
  - intros [H E]%keep_some. apply negb_true_iff, String.eqb_neq in E. apply delete_is_some; [eauto|done].
  - intros [H _]%keep_some. eauto.
  - intros [H E]%keep_some Ev. apply negb_true_iff, bool_decide_eq_false in E.
    apply delete_is_some; [eauto|]. congruence.
  - intros H. apply delete_is_some; [eauto|]. intros E. by apply (Hv k v).
Qed.
Lemma delete_cluster_links cid d : links d → links (delete_cluster_row cid d).
Proof.
  intros L. unfold delete_cluster_row. cbv zeta. set (d1 := delete_folders _ d).
  assert (links d1) as L1 by (by apply delete_folders_links).
  assert (∀ k f, folders d1 !! k = Some f → f_cluster_id f ≠ Some cid) as Hf.
  { intros k f [_ H]%keep_some. apply negb_true_iff in H. by apply bool_decide_eq_false in H. }
  clearbody d1. clear L. destruct L1. split; cbn; try assumption; intros *.
  - intros (x & -> & H)%fmap_some. case_bool_decide as E; [done|]. intros Ec. apply delete_is_some; [eauto|]. congruence.
  - intros H E. apply delete_is_some; [eauto|]. intros ->. by apply (Hf k f).
  - intros H E. apply fmap_is_some. eauto.
  - intros Hm. apply fmap_is_some. auto.
  - intros H. apply fmap_is_some. eauto.
  - intros H. apply fmap_is_some. eauto.
  - intros H. apply fmap_is_some. eauto.
  - intros [H E]%keep_some Ec. apply negb_true_iff, bool_decide_eq_false in E. apply delete_is_some; [eauto|]. congruence.
  - intros [H E]%keep_some Ec. apply fmap_is_some. eauto.
  - intros (x & -> & H)%fmap_some. case_bool_decide as E; [done|]. intros Ec. apply delete_is_some; [eauto|]. congruence.
  - intros (x & -> & H)%fmap_some E. apply (lk_vm_folder0 k x f H). by case_bool_decide.
  - intros (x & -> & H)%fmap_some. apply fmap_is_some. specialize (lk_vm_host0 k x H). by case_bool_decide.
  - intros Hm. apply fmap_is_some. auto.
  - intros H. apply fmap_is_some. eauto.
  - intros H. apply fmap_is_some. auto.
Qed.
Lemma delete_tags_links p d : links d → links (delete_tags p d).
Proof.
  intros L. destruct L. split; cbn; try assumption; intros *.
  - intros [H _]%keep_some. eauto.
  - intros [_ Ha]%elem_of_filter. auto.
  - intros [Hg Ha]%elem_of_filter. apply keep_is_some; [auto|]. intros t Ht. cbn in Hg. rewrite Ht in Hg. by rewrite Hg.
Qed.
Lemma delete_category_links cid d : links d → links (delete_category_row cid d).
Proof.
  intros L. unfold delete_category_row. pose proof (delete_tags_links (λ t, bool_decide (tg_category_id t = Some cid)) d L) as L1.
  destruct L1. split; cbn in *; try assumption; intros *.
  intros H Ec. pose proof H as [_ E]%keep_some. apply negb_true_iff, bool_decide_eq_false in E.
  apply delete_is_some; [eauto|congruence].
Qed.

(** The deletions of the model: the table and the rows they name. *)
Inductive deletion : (database → database) → string → (string → data → bool) → Prop :=
  | del_vms p : deletion (delete_vms p) "vms" (λ _ x, match x with DVm v => p v | _ => false end)
  | del_folders p : deletion (delete_folders p) "folders" (λ _ x, match x with DFolder f => p f | _ => false end)
  | del_host id : deletion (delete_host_row id) "hosts" (λ k _, String.eqb k id)
  | del_cluster id : deletion (delete_cluster_row id) "clusters" (λ k _, String.eqb k id)
  | del_tags p : deletion (delete_tags p) "tags" (λ _ x, match x with DTag t => p t | _ => false end)
  | del_category id : deletion (delete_category_row id) "tag_categories" (λ k _, String.eqb k id).

(** the columns of [t] with the given action, and the tables they refer to *)
Definition refers (t : string) (a : ondelete) : list (string * string) :=
  omap (λ k, if String.eqb (fk_table k) t && bool_decide (fk_action k = a) then Some (fk_column k, fk_refers k) else None) all_keys.
Lemma elem_of_refers t a c r : (c, r) ∈ refers t a ↔ mkFk t c r a ∈ foreign_keys (only_in_migrations metadata).
Proof.
  rewrite foreign_keys_known. unfold refers. rewrite list_elem_of_omap. split.
  - intros (k & Hk & E). destruct (String.eqb_spec (fk_table k) t); [|done]. cbn in E. case_bool_decide; [|done].
    destruct k. cbn in *. by simplify_eq.
  - intros Hk. exists (mkFk t c r a). split; [done|]. cbn. by rewrite String.eqb_refl, bool_decide_eq_true_2.
Qed.
(** ** The rows of each table after a deletion *)
Section after.
Context (d : database) (T : string) (p : string → data → bool).
Context (refers : string → ondelete → list (string * string)).
Context (elem_of_refers : ∀ t a c r, (c, r) ∈ refers t a ↔ mkFk t c r a ∈ foreign_keys (only_in_migrations metadata)).
Abbreviation gone := (gone (only_in_migrations metadata) d T p).
Abbreviation nulled := (nulled (only_in_migrations metadata) d T p).
Abbreviation remains := (remains (only_in_migrations metadata) d T p).
(** the row with this key is gone *)
Definition lost (r k : string) : Prop := ∃ y, gone r (k, y).
(** some cell of [x] in the columns [l] names a lost row *)
Definition names_lost (l : list (string * string)) (x : data) : Prop :=
  Exists (λ cr, ∃ v, cell x cr.1 = Some v ∧ lost cr.2 v) l.
Lemma gone_iff t x :
  gone t x ↔ x ∈ table_rows t d ∧ ((t = T ∧ p x.1 x.2 = true) ∨ names_lost (refers t CASCADE) x.2).
Proof.
  unfold names_lost. rewrite Exists_exists. split.
  - intros [|t' c r x' [k y] Hk Hx Hc Hy]; [by split; [|left]|]. split; [done|]. right.
    exists (c, r). split; [by apply elem_of_refers|]. exists k. split; [done|by exists y].
  - intros (Hx & [[-> Hp]|([c r] & Hk%elem_of_refers & v & Hc & y & Hy)]); [by apply gone_target|].
    by apply (gone_cascade _ _ _ _ t c r x (v, y)).
Qed.
Lemma nulled_iff t x c : nulled t x c ↔ Exists (λ cr, cr.1 = c ∧ ∃ v, cell x c = Some v ∧ lost cr.2 v) (refers t SET_NULL).
Proof.
  rewrite Exists_exists. split.
  - intros (r & [k y] & Hk & Hc & Hy). exists (c, r). split; [by apply elem_of_refers|]. split; [done|].
    exists k. split; [done|by exists y].
  - intros ([c' r] & Hk%elem_of_refers & E & v & Hc & y & Hy). cbn in *. subst c'. by exists r, (v, y).
Qed.
Lemma erase_ext q q' x : (∀ c, q c = true ↔ q' c = true) → erase q x = erase q' x.
Proof.
  intros H. assert (∀ c, q c = q' c) as E by (intros c; apply eq_bool_prop_intro; rewrite !Is_true_true; apply H).
  destruct x; cbn; by rewrite ?E.
Qed.
Lemma erase_none q x : (∀ c, q c = false) → erase q x = x.
Proof. intros H. destruct x as [| | |x|x| | | | | | |x|x| | | | | |x| |]; cbn; rewrite ?H; try done; by destruct x. Qed.

Section table.
Context (t : string) (d' : database).
(** a keyed table, row by row *)
Record keyed_after {A} (D : A → data) (m m' : gmap string A) : Prop := {
  ka_gone k a : m !! k = Some a → gone t (k, D a) → m' !! k = None;
  ka_stays k a : m !! k = Some a → ¬ gone t (k, D a) →
    ∃ a' q, m' !! k = Some a' ∧ (∀ c, q c = true ↔ nulled t (D a) c) ∧ D a' = erase q (D a);
  ka_new k : m !! k = None → m' !! k = None
}.
Lemma after_keyed {A} (D : A → data) (m m' : gmap string A) :
  table_rows t d = keyed D m → table_rows t d' = keyed D m' → keyed_after D m m' →
  ∀ x, x ∈ table_rows t d' ↔ remains t x.
Proof.
  intros E E' [G S N] [k x]. rewrite E', elem_of_keyed. cbn. unfold Integrity.remains. rewrite E. cbn.
  setoid_rewrite elem_of_keyed. cbn. split.
  - intros (a' & H' & ->). destruct (m !! k) as [a|] eqn:H; [|by rewrite (N k H) in H'].
    assert (¬ gone t (k, D a)) as Ng by (intros Hg; by rewrite (G k a H Hg) in H').
    destruct (S k a H Ng) as (a2 & q & H2 & Hq & Hd). simplify_eq. exists (D a), q. split_and!; [by exists a|done..].
  - intros (y & q & (a & H & ->) & Ng & Hq & ->). destruct (S k a H Ng) as (a2 & q2 & H2 & Hq2 & Hd).
    exists a2. split; [done|]. rewrite Hd. apply erase_ext. intros c. by rewrite Hq, Hq2.
Qed.
(** a table whose rows have nothing to null *)
Definition unnullable : Prop := Forall (λ cr, ∀ v, ¬ lost cr.2 v) (refers t SET_NULL).
Lemma unnullable_nil : refers t SET_NULL = [] → unnullable.
Proof. unfold unnullable. intros ->. constructor. Qed.
Lemma after_rows :
  unnullable → (∀ x, x ∈ table_rows t d' ↔ x ∈ table_rows t d ∧ ¬ gone t x) →
  ∀ x, x ∈ table_rows t d' ↔ remains t x.
Proof.
  intros U H [k x]. rewrite H. assert (∀ y c, ¬ nulled t y c) as Nn.
  { intros y c. rewrite nulled_iff, Exists_exists. intros ([c' r] & Hk & _ & v & _ & Hl).
    unfold unnullable in U. rewrite Forall_forall in U. by apply (U _ Hk v). }
  split.
  - intros [Hx Hg]. exists x, (λ _, false). split_and!; [done..| |by rewrite erase_none].
    intros c. split; [done|]. intros Hn. by destruct (Nn x c).
  - intros (y & q & Hy & Hg & Hq & E). cbn [fst snd] in Hy, Hg, E. subst x. rewrite erase_none; [done|].
    intros c. destruct (q c) eqn:Eq; [|done]. apply Hq in Eq. by destruct (Nn y c).
Qed.
End table.
(** a table no row of which names a lost row keeps them all *)
Lemma after_same t d' :
  table_rows t d' = table_rows t d → t ≠ T → Forall (λ cr, ∀ v, ¬ lost cr.2 v) (refers t CASCADE ++ refers t SET_NULL) →
  ∀ x, x ∈ table_rows t d' ↔ remains t x.
Proof.
  intros E N F [k x]. rewrite E. apply Forall_app in F as [Fc Fn]. rewrite Forall_forall in Fc, Fn.
  assert (∀ y, ¬ gone t y) as Ng.
  { intros y. rewrite gone_iff. intros (_ & [[? _]|H]); [done|]. unfold names_lost in H. apply Exists_exists in H as ([c r] & Hk & v & _ & Hl).
    by apply (Fc _ Hk v). }
  assert (∀ y c, ¬ nulled t y c) as Nn.
  { intros y c. rewrite nulled_iff, Exists_exists. intros ([c' r] & Hk & _ & v & _ & Hl). by apply (Fn _ Hk v). }
  split.
  - intros Hx. exists x, (λ _, false). split_and!; [done..| |by rewrite erase_none].
    intros c. split; [done|]. intros Hn. by destruct (Nn x c).
  - intros (y & q & Hy & Hg & Hq & E'). cbn [fst snd] in Hy, Hg, E'. subst x. rewrite erase_none; [done|].
    intros c. destruct (q c) eqn:Eq; [|done]. apply Hq in Eq. by destruct (Nn y c).
Qed.
(** the lists a VM embeds follow the VM *)
Lemma after_embedded {A} t (D : string → A → data) (children : Vm → list A) d' :
  refers t SET_NULL = [] → t ≠ T → refers t CASCADE = [("vm_id", "vms")] → (∀ k a, cell (D k a) "vm_id" = Some k) →
  (∀ v v' q, DVm v' = erase q (DVm v) → children v' = children v) →
  table_rows t d = embedded D children (vms d) → table_rows t d' = embedded D children (vms d') →
  keyed_after "vms" DVm (vms d) (vms d') → ∀ x, x ∈ table_rows t d' ↔ remains t x.
Proof.
  intros U N Rf HD Hc E E' [G S Nw]. apply after_rows; [by apply unnullable_nil|]. intros x. rewrite gone_iff, Rf, E, E'.
  rewrite !elem_of_embedded. split.
  - intros (k & v' & a & Hv' & Ha & ->). destruct (vms d !! k) as [v|] eqn:Hv; [|by rewrite (Nw k Hv) in Hv'].
    assert (¬ gone "vms" (k, DVm v)) as Ng by (intros Hg; by rewrite (G k v Hv Hg) in Hv').
    destruct (S k v Hv Ng) as (v2 & q & H2 & _ & Hd). simplify_eq. rewrite (Hc _ _ _ Hd) in Ha.
    split; [by exists k, v, a|]. intros (_ & [[? _]|H]); [done|]. apply Exists_cons in H as [(k' & Ek & y & Hy)|[]%Exists_nil].
    cbn [fst snd] in Ek, Hy. rewrite HD in Ek. injection Ek as <-. pose proof Hy as Hy'. apply gone_iff in Hy as [Hr _].
    apply elem_of_keyed in Hr as (w & Hw & E2). cbn [fst snd] in Hw, E2. congruence.
  - intros ((k & v & a & Hv & Ha & ->) & Hg). assert (¬ gone "vms" (k, DVm v)) as Ng.
    { intros Hy. apply Hg. split; [exists k, v, a; split_and!; assumption || reflexivity|]. right. apply Exists_cons. left.
      exists k. split; [apply HD|exists (DVm v); exact Hy]. }
    destruct (S k v Hv Ng) as (v2 & q & H2 & _ & Hd). exists k, v2, a. rewrite (Hc _ _ _ Hd). split_and!; assumption || reflexivity.
Qed.
(** which rows are lost *)
Lemma lost_keyed {A} (D : A → data) (m : gmap string A) r k :
  table_rows r d = keyed D m →
  lost r k ↔ ∃ a, m !! k = Some a ∧ ((r = T ∧ p k (D a) = true) ∨ names_lost (refers r CASCADE) (D a)).
Proof.
  intros E. unfold lost. setoid_rewrite gone_iff. rewrite E. setoid_rewrite elem_of_keyed. split.
  - intros (y & (a & H & Ey) & Hy). cbn [fst snd] in *. subst y. exists a. split; assumption.
  - intros (a & H & Hy). exists (D a). split; [exists a; split; [exact H|reflexivity]|exact Hy].
Qed.
(** rows that go with the one row they name, and rows that go with either of two *)
Lemma gone_with t x c r :
  refers t CASCADE = [(c, r)] → t ≠ T → x ∈ table_rows t d →
  gone t x ↔ ∃ v, cell x.2 c = Some v ∧ lost r v.
Proof.
  intros E N Hx. rewrite gone_iff, E. unfold names_lost. rewrite Exists_cons, Exists_nil. cbn [fst snd].
  split; [intros (_ & [[? _]|[H|[]]])|intros H]; [by destruct N|exact H|split; [exact Hx|right; left; exact H]].
Qed.
Lemma gone_with_either t x c r c' r' :
  refers t CASCADE = [(c, r); (c', r')] → t ≠ T → x ∈ table_rows t d →
  gone t x ↔ (∃ v, cell x.2 c = Some v ∧ lost r v) ∨ (∃ v, cell x.2 c' = Some v ∧ lost r' v).
Proof.
  intros E N Hx. rewrite gone_iff, E. unfold names_lost. rewrite !Exists_cons, Exists_nil. cbn [fst snd].
  split; [intros (_ & [[? _]|[H|[H|[]]]])|intros H]; [by destruct N|left; exact H|right; exact H|].
  split; [exact Hx|right]. destruct H; tauto.
Qed.
(** the tables filtered by a test of their rows *)
Lemma after_keep {A} t d' (D : A → data) (m : gmap string A) (b : A → bool) :
  refers t SET_NULL = [] → table_rows t d = keyed D m → table_rows t d' = keyed D (Prelude.keep b m) →
  (∀ k a, m !! k = Some a → b a = true ↔ ¬ gone t (k, D a)) →
  ∀ x, x ∈ table_rows t d' ↔ remains t x.
Proof.
  intros U E E' H. apply after_rows; [by apply unnullable_nil|]. intros [k x]. rewrite E, E', !elem_of_keyed. cbn [fst snd].
  setoid_rewrite lookup_keep. split.
  - intros (a & [Hk Hb] & ->). split; [by exists a|by apply (H k a Hk)].
  - intros [(a & Hk & ->) Hg]. exists a. split; [split; [exact Hk|by apply (H k a Hk)]|reflexivity].
Qed.
Lemma after_filter {A} t d' (D : A → data) (l l' : list A) :
  refers t SET_NULL = [] → table_rows t d = unkeyed D l → table_rows t d' = unkeyed D l' →
  (∀ a, a ∈ l' ↔ a ∈ l ∧ ¬ gone t ("", D a)) → (∀ x, x ∈ table_rows t d' ↔ remains t x).
Proof.
  intros U E E' H. apply after_rows; [by apply unnullable_nil|]. intros x. rewrite E, E', !elem_of_unkeyed. split.
  - intros (a & [Ha Hg]%H & ->). split; [by exists a|exact Hg].
  - intros [(a & Ha & ->) Hg]. exists a. split; [apply H; split; assumption|reflexivity].
Qed.
End after.

(** ** Each deletion *)
Lemma lookup_keep_if {A} (p : A → bool) (m : gmap string A) k :
  Prelude.keep (λ a, negb (p a)) m !! k = a ← m !! k; if p a then None else Some a.
Proof.
  apply option_eq. intros a. rewrite lookup_keep. destruct (m !! k) as [b|]; cbn; [|by split; [intros []|]].
  destruct (p b) eqn:E; split; [intros [[= <-] H]; by rewrite E in H|done|by intros [[= <-] _]|]. intros [= <-]. by rewrite E.
Qed.
Section deletions.
Context (d : database) (L : links d).
Abbreviation lost := (lost d).
Abbreviation after f T p := (∀ t, t ∈ tables → ∀ x, x ∈ table_rows t (f d) ↔ remains (only_in_migrations metadata) d T p t x).
Lemma lost_root {A} T p (D : A → data) (m : gmap string A) r k :
  table_rows r d = keyed D m → refers r CASCADE = [] →
  lost T p r k ↔ ∃ a, m !! k = Some a ∧ r = T ∧ p k (D a) = true.
Proof using Type.
  intros E R. rewrite (lost_keyed d T p refers elem_of_refers D m r k E), R. unfold names_lost. setoid_rewrite Exists_nil.
  split; intros (a & H & Ha); exists a; split; try exact H; [destruct Ha as [Ha|[]]; exact Ha|left; exact Ha].
Qed.
Lemma lost_clusters T p k : lost T p "clusters" k ↔ ∃ a, clusters d !! k = Some a ∧ "clusters" = T ∧ p k (DCluster a) = true.
Proof using Type. by apply lost_root. Qed.
Lemma lost_hosts T p k : lost T p "hosts" k ↔ ∃ a, hosts d !! k = Some a ∧ "hosts" = T ∧ p k (DHost a) = true.
Proof using Type. by apply lost_root. Qed.
Lemma lost_users T p k : lost T p "users" k ↔ ∃ a, users d !! k = Some a ∧ "users" = T ∧ p k (DUser a) = true.
Proof using Type. by apply lost_root. Qed.
Lemma lost_categories T p k :
  lost T p "tag_categories" k ↔ ∃ a, tag_categories d !! k = Some a ∧ "tag_categories" = T ∧ p k (DTagCategory a) = true.
Proof using Type. by apply lost_root. Qed.
Lemma lost_folders T p k :
  lost T p "folders" k ↔ ∃ a, folders d !! k = Some a ∧ (("folders" = T ∧ p k (DFolder a) = true) ∨
    (∃ v, f_cluster_id a = Some v ∧ lost T p "clusters" v) ∨ (∃ v, f_host_id a = Some v ∧ lost T p "hosts" v)).
Proof using Type.
  rewrite (lost_keyed d T p refers elem_of_refers DFolder (folders d)) by reflexivity. unfold names_lost.
  change (refers "folders" CASCADE) with [("cluster_id", "clusters"); ("host_id", "hosts")].
  setoid_rewrite Exists_cons. setoid_rewrite Exists_cons. setoid_rewrite Exists_nil. cbn [fst snd cell].
  split; intros (a & H & Ha); exists a; split; try exact H; tauto.
Qed.
Lemma lost_vms T p k :
  lost T p "vms" k ↔ ∃ a, vms d !! k = Some a ∧ (("vms" = T ∧ p k (DVm a) = true) ∨ lost T p "hosts" (v_host_id a)).
Proof using Type.
  rewrite (lost_keyed d T p refers elem_of_refers DVm (vms d)) by reflexivity. unfold names_lost.
  change (refers "vms" CASCADE) with [("host_id", "hosts")].
  setoid_rewrite Exists_cons. setoid_rewrite Exists_nil. cbn [fst snd cell].
  split; intros (a & H & Ha); exists a; split; try exact H.
  - destruct Ha as [Ha|[(v & [= <-] & Hv)|[]]]; [left; exact Ha|right; exact Hv].
  - destruct Ha as [Ha|Ha]; [left; exact Ha|right; left; eexists; split; [reflexivity|exact Ha]].
Qed.
Lemma lost_tags T p k :
  lost T p "tags" k ↔ ∃ a, tags d !! k = Some a ∧ (("tags" = T ∧ p k (DTag a) = true) ∨
    (∃ v, tg_category_id a = Some v ∧ lost T p "tag_categories" v)).
Proof using Type.
  rewrite (lost_keyed d T p refers elem_of_refers DTag (tags d)) by reflexivity. unfold names_lost.
  change (refers "tags" CASCADE) with [("category_id", "tag_categories")].
  setoid_rewrite Exists_cons. setoid_rewrite Exists_nil. cbn [fst snd cell].
  split; intros (a & H & Ha); exists a; split; try exact H; tauto.
Qed.
Ltac each_table := intros t Ht; unfold tables in Ht; rewrite !elem_of_cons, elem_of_nil in Ht;
  repeat (destruct Ht as [->|Ht]; [|]); [..|destruct Ht].
(** no column of a table names a lost row: all its references in [refers], each by a hypothesis *)
Ltac references := unfold unnullable; match goal with |- Forall _ ?l => let l' := eval vm_compute in l in change l with l' end;
  rewrite ?Forall_cons, ?Forall_nil; cbn [snd]; split_and?; first [assumption|exact I].
(** a table the deletion does not reach *)
Ltac untouched := solve [apply (after_same _ _ _ refers elem_of_refers); [reflexivity|discriminate|references]].
Ltac roots := intros v; rewrite ?lost_clusters, ?lost_hosts, ?lost_users, ?lost_categories; intros (a & _ & E & _); discriminate E.

(** the columns of a row to clear *)
Definition clear (f : string → bool) (o : option string) : option string :=
  match o with Some c => if f c then None else Some c | None => None end.
Definition cleared (cc ff : string → bool) (v : Vm) : Vm := v <| v_cluster_id ::= clear cc |> <| v_folder_id ::= clear ff |>.
Lemma cleared_none v : cleared (λ _, false) (λ _, false) v = v.
Proof. destruct v as [? ? ? c f]. unfold cleared, clear. cbn. by destruct c, f. Qed.
Lemma cleared_folder ff v :
  cleared (λ _, false) ff v = match v_folder_id v with Some f => if ff f then v <| v_folder_id := None |> else v | None => v end.
Proof. destruct v as [? ? ? c f]. unfold cleared, clear. cbn. by destruct c, f as [f|]; try destruct (ff f). Qed.
Lemma cleared_cluster cid cc ff v :
  (∀ c, v_cluster_id v = Some c → cc c = bool_decide (c = cid)) →
  cleared cc ff v =
  let v := cleared (λ _, false) ff v in if bool_decide (v_cluster_id v = Some cid) then v <| v_cluster_id := None |> else v.
Proof.
  destruct v as [? ? ? c f]. unfold cleared, clear. cbn. intros H. destruct c as [c|]; cbn; [|by rewrite bool_decide_eq_false_2].
  rewrite (H c eq_refl). destruct (decide (c = cid)) as [->|N]; [by rewrite !bool_decide_eq_true_2|]. rewrite !bool_decide_eq_false_2; congruence.
Qed.
(** *** What every deletion does alike *)
Section alike.
Context (T : string) (P : string → data → bool) (d' : database).
Abbreviation gone := (gone (only_in_migrations metadata) d T P).
Abbreviation remains := (remains (only_in_migrations metadata) d T P).
Lemma gone_row {A} (D : A → data) (m : gmap string A) t k a :
  table_rows t d = keyed D m → m !! k = Some a → gone t (k, D a) ↔ lost T P t k.
Proof using Type.
  intros E H. split; [by exists (D a)|]. intros [y Hy]. pose proof Hy as Hr.
  rewrite (gone_iff d T P refers elem_of_refers), E, elem_of_keyed in Hr. destruct Hr as [(b & Hb & Ey) _].
  cbn [fst snd] in Hb, Ey. subst y. by rewrite H in Hb; injection Hb as <-.
Qed.
Context (gv : string → bool).
Context (Lv : ∀ k, lost T P "vms" k ↔ gv k = true).
Lemma embedded_table {A} t (D : string → A → data) (children : Vm → list A) :
  refers t SET_NULL = [] → t ≠ T → refers t CASCADE = [("vm_id", "vms")] → (λ k a, cell (D k a) "vm_id") = (λ k _, Some k) →
  (λ v q, match erase q (DVm v) with DVm v' => children v' | _ => [] end) = (λ v _, children v) →
  table_rows t d = embedded D children (vms d) → table_rows t d' = embedded D children (vms d') →
  keyed_after d T P "vms" DVm (vms d) (vms d') → ∀ x, x ∈ table_rows t d' ↔ remains t x.
Proof using Type.
  intros U N R C E Er Er' K. apply (after_embedded d T P refers elem_of_refers t D children); try assumption.
  - intros k a. exact (f_equal (λ f, f k a) C).
  - intros v v' q H. rewrite <- (f_equal (λ f, f v q) E). by rewrite <- H.
Qed.
(** what hangs on the rows of [vms] *)
Lemma vm_tables :
  (∀ k, ¬ lost T P "tags" k) →
  T ∉ ["vm_snapshots"; "vm_metrics"; "vm_nics"; "vm_tags"; "vm_thumbnails"; "vm_disks"] →
  keyed_after d T P "vms" DVm (vms d) (vms d') →
  thumbnails d' = Prelude.keep (λ t, negb (gv (th_vm_id t))) (thumbnails d) →
  vm_metrics d' = List.filter (λ m, negb (gv (vm_vm_id m))) (vm_metrics d) →
  vm_tags d' = filter (λ vt, gv vt.1 = false) (vm_tags d) →
  ∀ t, t ∈ ["vm_snapshots"; "vm_metrics"; "vm_nics"; "vm_tags"; "vm_thumbnails"; "vm_disks"] →
  ∀ x, x ∈ table_rows t d' ↔ remains t x.
Proof using Lv.
  rewrite !not_elem_of_cons. intros Nt (N1 & N2 & N3 & N4 & N5 & N6 & _) K Et Em Ea t Ht.
  rewrite !elem_of_cons, elem_of_nil in Ht. repeat (destruct Ht as [->|Ht]; [|]); [..|destruct Ht].
  1: apply (embedded_table "vm_snapshots" DSnapshot v_snapshots); congruence || reflexivity || assumption.
  2: apply (embedded_table "vm_nics" DNic v_nics); congruence || reflexivity || assumption.
  4: apply (embedded_table "vm_disks" DDisk v_disks); congruence || reflexivity || assumption.
  - apply (after_filter d T P refers elem_of_refers _ _ DVmMetric (vm_metrics d) (vm_metrics d')); [reflexivity..|].
    intros a. rewrite Em, list_elem_of_In, filter_In, <- list_elem_of_In.
    assert (a ∈ vm_metrics d → gone "vm_metrics" ("", DVmMetric a) ↔ gv (vm_vm_id a) = true) as G.
    { intros Ha. rewrite (gone_with d T P refers elem_of_refers "vm_metrics" ("", DVmMetric a) "vm_id" "vms" eq_refl);
        [|congruence|apply elem_of_unkeyed; by exists a]. cbn [snd cell]. setoid_rewrite Lv. naive_solver. }
    rewrite negb_true_iff, <- not_true_iff_false. split; intros [Ha H]; (split; [exact Ha|]); by rewrite G in *.
  - apply (after_filter d T P refers elem_of_refers _ _ (λ a, DVmTag a.1 a.2) (elements (vm_tags d)) (elements (vm_tags d'))); [reflexivity..|].
    intros a. rewrite !elem_of_elements, Ea, elem_of_filter.
    assert (a ∈ vm_tags d → gone "vm_tags" ("", DVmTag a.1 a.2) ↔ gv a.1 = true) as G.
    { intros Ha. rewrite (gone_with_either d T P refers elem_of_refers "vm_tags" ("", DVmTag a.1 a.2) "vm_id" "vms" "tag_id" "tags" eq_refl);
        [|congruence|apply elem_of_unkeyed; exists a; by rewrite elem_of_elements]. cbn [snd cell]. setoid_rewrite Lv. split.
      - intros [(v & [= <-] & Hl)|(v & _ & Hl)]; [exact Hl|by apply Nt in Hl].
      - intros Hl. left. eauto. }
    rewrite <- not_true_iff_false. split; intros [H1 H2].
    + split; [exact H2|by rewrite G].
    + split; [by rewrite <- G|exact H1].
  - apply (after_keep d T P refers elem_of_refers _ _ DThumbnail (thumbnails d) (λ t, negb (gv (th_vm_id t)))); [reflexivity..|cbn [table_rows]; by rewrite Et|].
    intros k a Ha. rewrite (gone_with d T P refers elem_of_refers "vm_thumbnails" (k, DThumbnail a) "vm_id" "vms" eq_refl);
      [|congruence|apply elem_of_keyed; by exists a]. cbn [snd cell]. setoid_rewrite Lv. rewrite negb_true_iff, <- not_true_iff_false.
    naive_solver.
Qed.
Context (ff cc : string → bool).
Context (Lf : ∀ k, lost T P "folders" k ↔ ff k = true).
Context (Lc : ∀ k, lost T P "clusters" k ↔ cc k = true).
Lemma vms_rows :
  (∀ k, vms d' !! k = v ← vms d !! k;
     if gv k then None else Some (cleared cc ff v)) →
  keyed_after d T P "vms" DVm (vms d) (vms d').
Proof using Lv Lf Lc.
  intros H. split.
  - intros k v Hv Hg%(gone_row DVm (vms d) "vms" _ _ eq_refl Hv)%Lv. by rewrite H, Hv; cbn; rewrite Hg.
  - intros k v Hv Hg. rewrite (gone_row DVm (vms d) "vms" _ _ eq_refl Hv), Lv in Hg. apply not_true_is_false in Hg.
    rewrite H, Hv. cbn [mbind option_bind]. rewrite Hg. eexists _, (λ c, if String.eqb c "cluster_id" then
      match v_cluster_id v with Some c => cc c | None => false end else if String.eqb c "folder_id" then
      match v_folder_id v with Some c => ff c | None => false end else false). split; [reflexivity|]. split.
    + intros c. rewrite (nulled_iff d T P refers elem_of_refers).
      change (refers "vms" SET_NULL) with [("cluster_id", "clusters"); ("folder_id", "folders")].
      rewrite !Exists_cons, Exists_nil. cbn [fst snd]. setoid_rewrite Lf. setoid_rewrite Lc.
      destruct (String.eqb_spec c "cluster_id") as [->|N1]; [|destruct (String.eqb_spec c "folder_id") as [->|N2]].
      * cbn [cell]. destruct (v_cluster_id v); split; [naive_solver..|done|naive_solver].
      * cbn [cell]. destruct (v_folder_id v); split; [naive_solver..|done|naive_solver].
      * split; [done|]. intros [[<- _]|[[<- _]|[]]]; done.
    + cbn. f_equal. destruct v as [? ? ? c f]. unfold clear. cbn. by destruct c as [c|], f as [f|]; try destruct (cc c); try destruct (ff f).
  - intros k Hv. by rewrite H, Hv.
Qed.
End alike.

(** a table that loses exactly the rows asked for, and a lookup written as a test *)
Lemma pick {A} (m : gmap string A) (f : A → bool) k :
  (match m !! k with Some a => f a | None => false end) = true ↔ ∃ a, m !! k = Some a ∧ f a = true.
Proof. destruct (m !! k); naive_solver. Qed.
Lemma table_keep {A} T P t d' (D : A → data) (m : gmap string A) (f : A → bool) :
  refers t SET_NULL = [] → table_rows t d = keyed D m → table_rows t d' = keyed D (Prelude.keep (λ a, negb (f a)) m) →
  (∀ k a, m !! k = Some a → lost T P t k ↔ f a = true) →
  ∀ x, x ∈ table_rows t d' ↔ remains (only_in_migrations metadata) d T P t x.
Proof.
  intros U E E' H. apply (after_keep d T P refers elem_of_refers t d' D m (λ a, negb (f a)) U E E').
  intros k a Hk. rewrite (gone_row T P D m t k a E Hk), (H k a Hk), negb_true_iff, not_true_iff_false. done.
Qed.
(** a table one of whose rows is deleted by its key *)
Lemma table_delete {A} T P t d' (D : A → data) (m : gmap string A) id :
  unnullable d T P refers t → table_rows t d = keyed D m → table_rows t d' = keyed D (delete id m) →
  (∀ k a, m !! k = Some a → lost T P t k ↔ k = id) →
  ∀ x, x ∈ table_rows t d' ↔ remains (only_in_migrations metadata) d T P t x.
Proof.
  intros U E E' H. apply (after_rows d T P refers elem_of_refers t d' U). intros [k x].
  rewrite E, E', !elem_of_keyed. cbn [fst snd]. setoid_rewrite lookup_delete_Some. split.
  - intros (a & [N Hk] & ->). split; [by exists a|]. rewrite (gone_row T P D m t k a E Hk), (H k a Hk). congruence.
  - intros [(a & Hk & ->) Hg]. rewrite (gone_row T P D m t k a E Hk), (H k a Hk) in Hg. exists a. split; [|reflexivity].
    split; [congruence|exact Hk].
Qed.
Lemma folders_after p : after (delete_folders p) "folders" (λ _ x, match x with DFolder f => p f | _ => false end).
Proof.
  set (P := λ _ _, _). assert (∀ v, ¬ lost "folders" P "clusters" v) as Nc by roots. assert (∀ v, ¬ lost "folders" P "hosts" v) as Nh by roots.
  assert (∀ v, ¬ lost "folders" P "users" v) as Nu by roots. assert (∀ v, ¬ lost "folders" P "tag_categories" v) as Nk by roots.
  assert (∀ v, ¬ lost "folders" P "vms" v) as Nv.
  { intros v. rewrite lost_vms. intros (a & _ & [[E _]|H]); [discriminate E|by eapply Nh]. }
  assert (∀ v, ¬ lost "folders" P "tags" v) as Nt.
  { intros v. rewrite lost_tags. intros (a & _ & [[E _]|(c & _ & Hc)]); [discriminate E|by eapply Nk]. }
  set (gone := λ id, match folders d !! id with Some v => p v | None => false end).
  assert (∀ k, lost "folders" P "folders" k ↔ gone k = true) as Lf.
  { intros k. rewrite lost_folders. unfold gone. rewrite pick. split; intros (a & Ha & H); exists a; (split; [exact Ha|]).
    - destruct H as [[_ H]|[(c & _ & H)|(c & _ & H)]]; [exact H|by apply Nc in H|by apply Nh in H].
    - left. split; [reflexivity|exact H]. }
  assert (keyed_after d "folders" P "vms" DVm (vms d) (vms (delete_folders p d))) as K.
  { apply (vms_rows "folders" P (delete_folders p d) (λ _, false)) with (ff := gone) (cc := λ _, false); [..|exact Lf| |].
    - intros k. split; [by intros ?%Nv|done].
    - intros k. split; [by intros ?%Nc|done].
    - intros k. cbn. rewrite lookup_fmap. destruct (vms d !! k) as [v|]; [|done]. apply (f_equal Some). symmetry. apply cleared_folder. }
  each_table; try untouched.
  1: by apply (embedded_table "folders" P _ "vm_snapshots" DSnapshot v_snapshots).
  1: by apply (embedded_table "folders" P _ "vm_nics" DNic v_nics).
  1: by apply (embedded_table "folders" P _ "vm_disks" DDisk v_disks).
  1: by apply (after_keyed d "folders" P "vms" _ DVm (vms d) (vms (delete_folders p d))).
  apply (table_keep "folders" P "folders" _ DFolder (folders d) p); [reflexivity..|].
  intros k a Ha. rewrite Lf. unfold gone. by rewrite Ha.
Qed.
Lemma vms_after p : after (delete_vms p) "vms" (λ _ x, match x with DVm v => p v | _ => false end).
Proof.
  set (P := λ _ _, _). assert (∀ v, ¬ lost "vms" P "clusters" v) as Nc by roots. assert (∀ v, ¬ lost "vms" P "hosts" v) as Nh by roots.
  assert (∀ v, ¬ lost "vms" P "users" v) as Nu by roots. assert (∀ v, ¬ lost "vms" P "tag_categories" v) as Nk by roots.
  assert (∀ v, ¬ lost "vms" P "folders" v) as Nf.
  { intros v. rewrite lost_folders. intros (a & _ & [[E _]|[(c & _ & Hc)|(c & _ & Hc)]]); [discriminate E|by eapply Nc|by eapply Nh]. }
  assert (∀ v, ¬ lost "vms" P "tags" v) as Nt.
  { intros v. rewrite lost_tags. intros (a & _ & [[E _]|(c & _ & Hc)]); [discriminate E|by eapply Nk]. }
  set (gone := λ id, match vms d !! id with Some v => p v | None => false end).
  assert (∀ k, lost "vms" P "vms" k ↔ gone k = true) as Lv.
  { intros k. rewrite lost_vms. unfold gone. split.
    - intros (a & -> & [[_ Ha]|Hh]); [exact Ha|by apply Nh in Hh].
    - destruct (vms d !! k) as [a|]; [|done]. intros Ha. exists a. split; [done|]. left. split; [reflexivity|exact Ha]. }
  assert (keyed_after d "vms" P "vms" DVm (vms d) (vms (delete_vms p d))) as K.
  { apply (vms_rows "vms" P (delete_vms p d) gone Lv (λ _, false) (λ _, false)).
    - intros k. split; [by intros ?%Nf|done].
    - intros k. split; [by intros ?%Nc|done].
    - intros k. etrans; [apply lookup_keep_if|]. unfold gone. destruct (vms d !! k) as [v|]; [|reflexivity].
      cbn [mbind option_bind].
      by rewrite cleared_none. }
  each_table; try untouched.
  1-6: apply (vm_tables "vms" P _ gone Lv Nt); [by rewrite !not_elem_of_cons; split_and!; try apply not_elem_of_nil|exact K|reflexivity..|
    rewrite !elem_of_cons; tauto].
  by apply (after_keyed d "vms" P "vms" _ DVm (vms d) (vms (delete_vms p d))).
Qed.
(** rows lost with the one row they name *)
Lemma lost_with {A} T P t (D : A → data) (m : gmap string A) k a c r :
  table_rows t d = keyed D m → m !! k = Some a → refers t CASCADE = [(c, r)] → t ≠ T →
  lost T P t k ↔ ∃ v, cell (D a) c = Some v ∧ lost T P r v.
Proof.
  intros E Hk R N. rewrite <- (gone_row T P D m t k a E Hk). rewrite (gone_with d T P refers elem_of_refers t (k, D a) c r R N); [done|].
  rewrite E, elem_of_keyed. by exists a.
Qed.
Lemma lost_with_either {A} T P t (D : A → data) (m : gmap string A) k a c r c' r' :
  table_rows t d = keyed D m → m !! k = Some a → refers t CASCADE = [(c, r); (c', r')] → t ≠ T →
  lost T P t k ↔ (∃ v, cell (D a) c = Some v ∧ lost T P r v) ∨ (∃ v, cell (D a) c' = Some v ∧ lost T P r' v).
Proof.
  intros E Hk R N. rewrite <- (gone_row T P D m t k a E Hk).
  rewrite (gone_with_either d T P refers elem_of_refers t (k, D a) c r c' r' R N); [done|].
  rewrite E, elem_of_keyed. by exists a.
Qed.
(** **** A host *)
Section host.
Context (id : string).
Abbreviation P := (λ (k : string) (_ : data), String.eqb k id).
Abbreviation d' := (delete_host_row id d).
Abbreviation named o := (bool_decide (o = Some id)).
Lemma host_lost k : is_Some (hosts d !! k) → lost "hosts" P "hosts" k ↔ k = id.
Proof.
  intros [a Ha]. rewrite lost_hosts. split; [intros (_ & _ & _ & E%String.eqb_eq); exact E|].
  intros ->. exists a. split_and!; [exact Ha|reflexivity|apply String.eqb_refl].
Qed.
Lemma host_named o :
  (∀ h, o = Some h → is_Some (hosts d !! h)) → (∃ v, o = Some v ∧ lost "hosts" P "hosts" v) ↔ named o = true.
Proof.
  intros Ho. rewrite bool_decide_eq_true. split.
  - intros (v & -> & H). rewrite host_lost in H by eauto. by rewrite H.
  - intros ->. exists id. split; [reflexivity|]. apply host_lost; eauto.
Qed.
Lemma host_is h : is_Some (hosts d !! h) → (∃ v, Some h = Some v ∧ lost "hosts" P "hosts" v) ↔ String.eqb h id = true.
Proof. intros Hh. rewrite String.eqb_eq, <- (host_lost h Hh). split; [by intros (v & [= <-] & H)|eauto]. Qed.
Lemma host_folders k :
  lost "hosts" P "folders" k ↔ match folders d !! k with Some f => named (f_host_id f) | None => false end = true.
Proof using L.
  rewrite lost_folders, pick. split; intros (a & Ha & H); exists a; (split; [exact Ha|]).
  - destruct H as [[E _]|[(c & _ & H)|H]]; [discriminate E| |].
    + rewrite lost_clusters in H. destruct H as (_ & _ & E & _). discriminate E.
    + apply host_named; [|exact H]. intros h Hh. by eapply lk_folder_host.
  - right. right. apply host_named; [|exact H]. intros h Hh. by eapply lk_folder_host.
Qed.
Lemma host_vms k :
  lost "hosts" P "vms" k ↔ match vms d !! k with Some v => String.eqb (v_host_id v) id | None => false end = true.
Proof using L.
  rewrite lost_vms, pick. split; intros (a & Ha & H); exists a; (split; [exact Ha|]).
  - destruct H as [[E _]|H]; [discriminate E|]. rewrite String.eqb_eq. rewrite <- host_lost; [exact H|by eapply lk_vm_host].
  - right. apply host_lost; [by eapply lk_vm_host|]. by apply String.eqb_eq.
Qed.
Lemma host_vm_rows : keyed_after d "hosts" P "vms" DVm (vms d) (vms d').
Proof using L.
  apply (vms_rows "hosts" P d' _ host_vms _ (λ _, false) host_folders).
  - intros k. split; [|done]. rewrite lost_clusters. intros (_ & _ & E & _). discriminate E.
  - intros k. etrans; [apply (lookup_fmap _ (Prelude.keep _ (vms d)))|].
    etrans; [apply f_equal, lookup_keep_if|]. destruct (vms d !! k) as [v|]; [|reflexivity]. cbn [mbind option_bind].
    rewrite cleared_folder. by destruct (String.eqb (v_host_id v) id).
Qed.
Lemma host_after : after (delete_host_row id) "hosts" P.
Proof using L.
  assert (∀ v, ¬ lost "hosts" P "clusters" v) as Nc by roots. assert (∀ v, ¬ lost "hosts" P "users" v) as Nu by roots.
  assert (∀ v, ¬ lost "hosts" P "tag_categories" v) as Nk by roots.
  assert (∀ v, ¬ lost "hosts" P "tags" v) as Nt.
  { intros v. rewrite lost_tags. intros (a & _ & [[E _]|(c & _ & Hc)]); [discriminate E|by eapply Nk]. }
  each_table; try untouched.
  all: try (apply (vm_tables "hosts" P d' _ host_vms Nt); [by rewrite !not_elem_of_cons; split_and!; try apply not_elem_of_nil|exact host_vm_rows|reflexivity..|
    rewrite !elem_of_cons; tauto]).
  all: try by apply (after_keyed d "hosts" P "vms" d' DVm (vms d) (vms d')), host_vm_rows.
  - apply (table_keep "hosts" P "isos" d' DIso (isos d) (λ i, String.eqb (i_host_id i) id)); [reflexivity..|].
    intros k a Ha. etrans; [by apply (lost_with _ _ "isos" DIso (isos d) k a "host_id" "hosts")|]. apply host_is. by eapply lk_iso.
  - apply (table_keep "hosts" P "vlans" d' DVlan (vlans d) (λ v, named (vl_host_id v))); [reflexivity..|].
    intros k a Ha. etrans; [by apply (lost_with_either _ _ "vlans" DVlan (vlans d) k a "cluster_id" "clusters" "host_id" "hosts")|].
    rewrite <- host_named; [|intros h Hh; by eapply lk_vlan_host]. split; [intros [(c & _ & Hc%Nc)|H]; [destruct Hc|exact H]|by right].
  - apply (table_keep "hosts" P "folders" d' DFolder (folders d) (λ f, named (f_host_id f))); [reflexivity..|].
    intros k a Ha. rewrite host_folders. by rewrite Ha.
  - apply (table_keep "hosts" P "templates" d' DTemplate (templates d) (λ t, String.eqb (t_host_id t) id)); [reflexivity..|].
    intros k a Ha. etrans; [by apply (lost_with _ _ "templates" DTemplate (templates d) k a "host_id" "hosts")|]. apply host_is.
    by eapply lk_template.
  - apply (table_keep "hosts" P "tasks" d' DTask (tasks d) (λ k, String.eqb (k_host_id k) id)); [reflexivity..|].
    intros k a Ha. etrans; [by apply (lost_with _ _ "tasks" DTask (tasks d) k a "host_id" "hosts")|]. apply host_is. by eapply lk_task.
  - apply (after_filter d "hosts" P refers elem_of_refers _ _ DHostMetric (host_metrics d) (host_metrics d')); [reflexivity..|].
    intros a. etrans; [apply list_elem_of_In|]. etrans; [apply filter_In|]. rewrite <- list_elem_of_In, negb_true_iff, <- not_true_iff_false.
    assert (a ∈ host_metrics d → gone (only_in_migrations metadata) d "hosts" P "host_metrics" ("", DHostMetric a) ↔
      String.eqb (hm_host_id a) id = true) as G.
    { intros Ha. rewrite (gone_with d "hosts" P refers elem_of_refers "host_metrics" ("", DHostMetric a) "host_id" "hosts" eq_refl);
        [|discriminate|apply elem_of_unkeyed; by exists a]. apply host_is. by eapply lk_host_metric. }
    split; intros [Ha H]; (split; [exact Ha|]); by rewrite G in *.
  - apply (table_delete "hosts" P "hosts" d' DHost (hosts d) id); [references|reflexivity..|].
    intros k a Ha. apply host_lost. by exists a.
Qed.
End host.
(** **** A cluster *)
Section cluster.
Context (id : string).
Abbreviation P := (λ (k : string) (_ : data), String.eqb k id).
Abbreviation d' := (delete_cluster_row id d).
Abbreviation named o := (bool_decide (o = Some id)).
Lemma cluster_lost k :
  lost "clusters" P "clusters" k ↔ match clusters d !! k with Some _ => bool_decide (k = id) | None => false end = true.
Proof.
  rewrite lost_clusters, pick. setoid_rewrite bool_decide_eq_true.
  split; intros (a & Ha & H); exists a; (split; [exact Ha|]); [by apply String.eqb_eq, H|split; [reflexivity|by apply String.eqb_eq]].
Qed.
Lemma cluster_named o :
  (∀ h, o = Some h → is_Some (clusters d !! h)) → (∃ v, o = Some v ∧ lost "clusters" P "clusters" v) ↔ named o = true.
Proof.
  intros Ho. setoid_rewrite cluster_lost. rewrite bool_decide_eq_true. split.
  - intros (v & -> & H). destruct (clusters d !! v); [|discriminate H]. apply bool_decide_eq_true in H. by rewrite H.
  - intros ->. exists id. split; [reflexivity|]. destruct (Ho id eq_refl) as [c ->]. by apply bool_decide_eq_true.
Qed.
Lemma cluster_folders k :
  lost "clusters" P "folders" k ↔ match folders d !! k with Some f => named (f_cluster_id f) | None => false end = true.
Proof using L.
  rewrite lost_folders, pick. split; intros (a & Ha & H); exists a; (split; [exact Ha|]).
  - destruct H as [[E _]|[H|(c & _ & H)]]; [discriminate E| |].
    + apply cluster_named; [|exact H]. intros h Hh. by eapply lk_folder_cluster.
    + rewrite lost_hosts in H. destruct H as (_ & _ & E & _). discriminate E.
  - right. left. apply cluster_named; [|exact H]. intros h Hh. by eapply lk_folder_cluster.
Qed.
Lemma cluster_vm_rows : (∀ v, ¬ lost "clusters" P "vms" v) → keyed_after d "clusters" P "vms" DVm (vms d) (vms d').
Proof using L.
  intros Nv. eapply (vms_rows "clusters" P d' (λ _, false)); [|exact cluster_folders|exact cluster_lost|].
  - intros k. split; [by intros ?%Nv|done].
  - intros k. etrans; [apply (lookup_fmap _ (fmap _ (vms d)))|]. etrans; [apply f_equal, (lookup_fmap _ (vms d))|].
    destruct (vms d !! k) as [v|] eqn:Hk; [|reflexivity]. cbn [mbind option_bind]. apply (f_equal Some). symmetry.
    rewrite (cleared_cluster id); [cbv zeta; by rewrite cleared_folder|].
    intros c Hc. destruct (lk_vm_cluster d L k v c Hk Hc) as [x ->]. done.
Qed.
Lemma cluster_host_rows : (∀ v, ¬ lost "clusters" P "hosts" v) → keyed_after d "clusters" P "hosts" DHost (hosts d) (hosts d').
Proof using L.
  intros Nh. split.
  - intros k a Ha Hg%(gone_row "clusters" P DHost (hosts d) "hosts" k a eq_refl Ha). by apply Nh in Hg.
  - intros k a Ha _. eexists _, (λ c, String.eqb c "cluster_id" && named (h_cluster_id a)).
    split; [etrans; [apply (lookup_fmap _ (hosts d))|]; rewrite Ha; reflexivity|]. split.
    + intros c. rewrite (nulled_iff d "clusters" P refers elem_of_refers), andb_true_iff, String.eqb_eq.
      change (refers "hosts" SET_NULL) with [("cluster_id", "clusters")]. rewrite Exists_cons, Exists_nil. cbn [fst snd].
      rewrite <- cluster_named; [|intros h Hh; by eapply lk_host_cluster]. split.
      * intros [-> H]. left. split; [reflexivity|exact H].
      * intros [[<- H]|[]]. split; [reflexivity|exact H].
    + destruct a as [? ? c]. cbn. by destruct (named c).
  - intros k Ha. etrans; [apply (lookup_fmap _ (hosts d))|]. by rewrite Ha.
Qed.
Lemma cluster_after : after (delete_cluster_row id) "clusters" P.
Proof using L.
  assert (∀ v, ¬ lost "clusters" P "hosts" v) as Nh by roots. assert (∀ v, ¬ lost "clusters" P "users" v) as Nu by roots.
  assert (∀ v, ¬ lost "clusters" P "tag_categories" v) as Nk by roots.
  assert (∀ v, ¬ lost "clusters" P "vms" v) as Nv.
  { intros v. rewrite lost_vms. intros (a & _ & [[E _]|H]); [discriminate E|by eapply Nh]. }
  assert (∀ v, ¬ lost "clusters" P "tags" v) as Nt.
  { intros v. rewrite lost_tags. intros (a & _ & [[E _]|(c & _ & Hc)]); [discriminate E|by eapply Nk]. }
  pose proof (cluster_vm_rows Nv) as K.
  each_table; try untouched.
  - apply (table_delete "clusters" P "clusters" d' DCluster (clusters d) id); [references|reflexivity..|].
    intros k a Ha. rewrite cluster_lost, Ha. apply bool_decide_eq_true.
  - by apply (embedded_table "clusters" P d' "vm_snapshots" DSnapshot v_snapshots).
  - by apply (embedded_table "clusters" P d' "vm_nics" DNic v_nics).
  - by apply (embedded_table "clusters" P d' "vm_disks" DDisk v_disks).
  - by apply (after_keyed d "clusters" P "vms" d' DVm (vms d) (vms d')).
  - apply (table_keep "clusters" P "vlans" d' DVlan (vlans d) (λ v, named (vl_cluster_id v))); [reflexivity..|].
    intros k a Ha. etrans; [by apply (lost_with_either _ _ "vlans" DVlan (vlans d) k a "cluster_id" "clusters" "host_id" "hosts")|].
    rewrite <- cluster_named; [|intros h Hh; by eapply lk_vlan_cluster]. split; [intros [H|(c & _ & Hc%Nh)]; [exact H|destruct Hc]|by left].
  - apply (table_keep "clusters" P "folders" d' DFolder (folders d) (λ f, named (f_cluster_id f))); [reflexivity..|].
    intros k a Ha. rewrite cluster_folders. by rewrite Ha.
  - by apply (after_keyed d "clusters" P "hosts" d' DHost (hosts d) (hosts d')), cluster_host_rows.
Qed.
End cluster.
(** assignments go with their tag *)
Lemma tag_table T P d' gt :
  "vm_tags" ≠ T → (∀ k, ¬ lost T P "vms" k) → (∀ k, lost T P "tags" k ↔ gt k = true) →
  vm_tags d' = filter (λ vt, gt vt.2 = false) (vm_tags d) →
  ∀ x, x ∈ table_rows "vm_tags" d' ↔ remains (only_in_migrations metadata) d T P "vm_tags" x.
Proof.
  intros N Nv Lt Ea.
  apply (after_filter d T P refers elem_of_refers _ _ (λ a, DVmTag a.1 a.2) (elements (vm_tags d)) (elements (vm_tags d'))); [reflexivity..|].
  intros a. rewrite !elem_of_elements, Ea, elem_of_filter.
  assert (a ∈ vm_tags d → gone (only_in_migrations metadata) d T P "vm_tags" ("", DVmTag a.1 a.2) ↔ gt a.2 = true) as G.
  { intros Ha. rewrite (gone_with_either d T P refers elem_of_refers "vm_tags" ("", DVmTag a.1 a.2) "vm_id" "vms" "tag_id" "tags" eq_refl N);
      [|apply elem_of_unkeyed; exists a; by rewrite elem_of_elements]. cbn [snd cell]. setoid_rewrite Lt. split.
    - intros [(v & _ & Hl)|(v & [= <-] & Hl)]; [by apply Nv in Hl|exact Hl].
    - intros Hl. right. eauto. }
  rewrite <- not_true_iff_false. split; intros [H1 H2].
  - split; [exact H2|by rewrite G].
  - split; [by rewrite <- G|exact H1].
Qed.
Lemma tags_after p : after (delete_tags p) "tags" (λ _ x, match x with DTag t => p t | _ => false end).
Proof.
  set (P := λ _ _, _). set (d' := delete_tags p d).
  assert (∀ v, ¬ lost "tags" P "clusters" v) as Nc by roots. assert (∀ v, ¬ lost "tags" P "hosts" v) as Nh by roots.
  assert (∀ v, ¬ lost "tags" P "users" v) as Nu by roots. assert (∀ v, ¬ lost "tags" P "tag_categories" v) as Nk by roots.
  assert (∀ v, ¬ lost "tags" P "folders" v) as Nf.
  { intros v. rewrite lost_folders. intros (a & _ & [[E _]|[(c & _ & Hc)|(c & _ & Hc)]]); [discriminate E|by eapply Nc|by eapply Nh]. }
  assert (∀ v, ¬ lost "tags" P "vms" v) as Nv.
  { intros v. rewrite lost_vms. intros (a & _ & [[E _]|H]); [discriminate E|by eapply Nh]. }
  set (gt := λ id, match tags d !! id with Some t => p t | None => false end).
  assert (∀ k, lost "tags" P "tags" k ↔ gt k = true) as Lt.
  { intros k. rewrite lost_tags. unfold gt. rewrite pick. split; intros (a & Ha & H); exists a; (split; [exact Ha|]).
    - destruct H as [[_ H]|(c & _ & H)]; [exact H|by apply Nk in H].
    - left. split; [reflexivity|exact H]. }
  each_table; try untouched.
  - by apply (tag_table "tags" P d' gt).
  - apply (table_keep "tags" P "tags" d' DTag (tags d) p); [reflexivity..|]. intros k a Ha. rewrite Lt. unfold gt. by rewrite Ha.
Qed.
Lemma category_after id : after (delete_category_row id) "tag_categories" (λ k _, String.eqb k id).
Proof using L.
  set (P := λ _ _, _). set (d' := delete_category_row id d).
  assert (∀ v, ¬ lost "tag_categories" P "clusters" v) as Nc by roots. assert (∀ v, ¬ lost "tag_categories" P "hosts" v) as Nh by roots.
  assert (∀ v, ¬ lost "tag_categories" P "users" v) as Nu by roots.
  assert (∀ v, ¬ lost "tag_categories" P "folders" v) as Nf.
  { intros v. rewrite lost_folders. intros (a & _ & [[E _]|[(c & _ & Hc)|(c & _ & Hc)]]); [discriminate E|by eapply Nc|by eapply Nh]. }
  assert (∀ v, ¬ lost "tag_categories" P "vms" v) as Nv.
  { intros v. rewrite lost_vms. intros (a & _ & [[E _]|H]); [discriminate E|by eapply Nh]. }
  assert (∀ k, is_Some (tag_categories d !! k) → lost "tag_categories" P "tag_categories" k ↔ k = id) as Lk.
  { intros k [a Ha]. rewrite lost_categories. split; [intros (_ & _ & _ & E%String.eqb_eq); exact E|].
    intros ->. exists a. split_and!; [exact Ha|reflexivity|apply String.eqb_refl]. }
  set (on := λ t, bool_decide (tg_category_id t = Some id)).
  set (gt := λ k, match tags d !! k with Some t => on t | None => false end).
  assert (∀ k, lost "tag_categories" P "tags" k ↔ gt k = true) as Lt.
  { intros k. rewrite lost_tags. unfold gt. rewrite pick. unfold on. setoid_rewrite bool_decide_eq_true.
    split; intros (a & Ha & H); exists a; (split; [exact Ha|]).
    - destruct H as [[E _]|(c & Hc & H)]; [discriminate E|]. rewrite Lk in H by (by eapply lk_tag_category). by rewrite Hc, H.
    - right. exists id. split; [exact H|]. apply Lk; [by eapply lk_tag_category|reflexivity]. }
  each_table; try untouched.
  - by apply (tag_table "tag_categories" P d' gt).
  - apply (table_delete "tag_categories" P "tag_categories" d' DTagCategory (tag_categories d) id); [references|reflexivity..|].
    intros k a Ha. apply Lk. by exists a.
  - apply (table_keep "tag_categories" P "tags" d' DTag (tags d) on); [reflexivity..|]. intros k a Ha. rewrite Lt. unfold gt. by rewrite Ha.
Qed.
End deletions.

(** C34: a deletion does to every table what the migrations declare.  In the
    schema the five migrations build, each foreign key says what becomes of the
    rows that refer to a deleted one.  Deleting VMs, folders, a host, a
    cluster, tags or a tag category from a database without dangling references
    leaves in each table of that schema exactly the rows that neither were asked
    for nor hang, through any chain of [CASCADE] keys, on a row that goes - each
    as it was, but for the [SET NULL] columns that named a row now gone - and no
    reference dangles afterwards. *)
Theorem deletions_follow_schema s f T p d :
  schema_at 5 = Some s → deletion f T p → references_ok s d →
  (∀ t, is_Some (sch_tables s !! t) → ∀ x, x ∈ table_rows t (f d) ↔ remains s d T p t x) ∧ references_ok s (f d).
Proof.
  rewrite migrated_models. intros [= <-] H L%references_links. split.
  - intros t Ht%tables_known. revert t Ht. destruct H;
      auto using vms_after, folders_after, host_after, cluster_after, tags_after, category_after.
  - apply references_links. destruct H; auto using delete_vms_links, delete_folders_links, delete_host_links,
      delete_cluster_links, delete_tags_links, delete_category_links.
Qed.
Lemma references_ok_check d :
  forallb (λ k, forallb (has_row (fk_refers k) d) (cells (fk_table k) (fk_column k) d)) all_keys = true →
  references_ok (only_in_migrations metadata) d.
Proof.
  rewrite forallb_forall. intros H k Hk v Hv. apply foreign_keys_known in Hk. apply list_elem_of_In in Hk, Hv.
  specialize (H _ Hk). rewrite forallb_forall in H. by apply H.
Qed.
Lemma deletions_follow_schema_witness :
  let d := empty_db <| clusters := {["c1" := mkCluster "c1" "prod" "hyperv"]} |>
             <| folders := {["f1" := mkFolder "f1" (Some "c1") None "web"]} |>
             <| hosts := {["h1" := bare_host "h1" "abc" (Some "c1") "n" "hyperv"]} |> in
  let s := only_in_migrations metadata in
  (∀ x, x ∈ table_rows "hosts" (delete_cluster_row "c1" d) ↔ remains s d "clusters" (λ k _, String.eqb k "c1") "hosts" x) ∧
  hosts (delete_cluster_row "c1" d) = {["h1" := bare_host "h1" "abc" None "n" "hyperv"]} ∧
  folders (delete_cluster_row "c1" d) = ∅ ∧ references_ok s (delete_cluster_row "c1" d).
Proof.
  cbv zeta. set (d := _ <| hosts := _ |>).
  assert (references_ok (only_in_migrations metadata) d) as H by (apply references_ok_check; vm_compute; reflexivity).
  destruct (deletions_follow_schema (only_in_migrations metadata) (delete_cluster_row "c1") "clusters" (λ k _, String.eqb k "c1") d
    migrated_models (del_cluster "c1") H) as [H1 H2].
  split; [apply H1; vm_compute; eauto|]. split; [reflexivity|]. split; [reflexivity|exact H2].
Defined.
