(* ===== verification/RoutesOrg.v ===== *)
(** * Cluster, folder, VLAN, tag and principal routes
      ([app/api/routes/clusters.py], [folders.py], [vlans.py], [tags.py], [auth.py])

    Each handler loads its row (404), tests the caller's scope (403), runs the
    service operation, writes the audit event and serialises the result. *)
From S2P Require Import Prelude Py Clock Model World Store Rbac AuditLog Serializers Messaging Hosts Organization.
From S2P Require Import Networking Tags.
Open Scope string_scope.
Open Scope Z_scope.

(** the row a route loads, or its 404 *)
Definition found {A} (get : M (option A)) (what : string) : M A :=
  row ← get; match row with Some r => mret r | None => not_found what end.
(** [if not allowed: raise forbidden(msg)] *)
Definition require (allowed : bool) (msg : string) : M unit :=
  if allowed then mret tt else forbidden msg.
(** [if diff := changes(before, after): await record(..., details=diff)] *)
Definition record_diff (user : User) (action : string) (t : target) (before after : dict) : M unit :=
  match changes before after with
  | Some diff => record (Some user) action (Some t) None None (Some diff);; mret tt
  | None => mret tt
  end.
Definition str_of (o : option string) : json := match o with Some s => JStr s | None => JNull end.
(** [allowed or (body.cluster_id and ...) or (body.host_id and ...)] *)
Definition may_create_in (scope : VisibleScope) (cluster_id host_id : option string) : bool :=
  sc_all scope || (given_str cluster_id && sees_cluster scope cluster_id) ||
  (given_str host_id && sees_host scope (default "" host_id)).
(** visibility of a row that hangs off a cluster or a host *)
Definition placed_visible (scope : VisibleScope) (cluster_id host_id : option string) : bool :=
  sc_all scope || (is_some cluster_id && sees_cluster scope cluster_id) ||
  match host_id with Some h => sees_host scope h | None => false end.

(** ** Clusters *)
Record ClusterOut := mkClusterOut {
  clo_id : string; clo_name : string; clo_hypervisor : string; clo_host_count : nat; clo_vm_count : nat
}.
Definition in_cluster_row (d : database) (cid : string) (v : Vm) : bool :=
  match hosts d !! v_host_id v with Some h => bool_decide (h_cluster_id h = Some cid) | None => false end.
(** the group of one cluster: none when it has no host *)
Definition counts (d : database) (cid : string) : option (nat * nat) :=
  match rows (λ h, bool_decide (h_cluster_id h = Some cid)) (hosts d) with
  | [] => None
  | hs => Some (length hs, length (rows (in_cluster_row d cid) (vms d)))
  end.
Definition cluster_out (c : Cluster) (counts : string → option (nat * nat)) : ClusterOut :=
  let '(hc, vc) := default (O, O) (counts (cl_id c)) in
  mkClusterOut (cl_id c) (cl_name c) (cl_hypervisor c) hc vc.
Definition list_clusters (scope : VisibleScope) : M (list ClusterOut) :=
  query (λ d, (λ c, cluster_out c (counts d)) <$>
    List.filter (λ c, sees_cluster scope (Some (cl_id c)))
      (sort_by (λ a b, String.leb (cl_name a) (cl_name b)) (rows (λ _, true) (clusters d)))).
Definition add_cluster_route (scope : VisibleScope) (user : User) (name hypervisor : string) : M ClusterOut :=
  require (sc_all scope) "Only an administrator can create clusters";;
  cluster ← create_cluster name hypervisor;
  record (Some user) "cluster.create" (Some (TCluster cluster)) None None
    (Some [("hypervisor", JStr (cl_hypervisor cluster))]);;
  mret (cluster_out cluster (λ _, None)).
Definition get_cluster_route (scope : VisibleScope) (cluster_id : string) : M ClusterOut :=
  cluster ← found (get_cluster cluster_id) "Cluster";
  require (sees_cluster scope (Some (cl_id cluster))) no_access;;
  query (λ d, cluster_out cluster (counts d)).
Definition admin_cluster (scope : VisibleScope) (cluster_id : string) : M Cluster :=
  require (sc_all scope) "Only an administrator can manage clusters";;
  found (get_cluster cluster_id) "Cluster".
Definition edit_cluster (scope : VisibleScope) (user : User) (cluster_id name : string) : M ClusterOut :=
  cluster ← admin_cluster scope cluster_id;
  let before := cl_name cluster in
  cluster ← rename_cluster cluster name;
  record_diff user "cluster.rename" (TCluster cluster) [("name", JStr before)] [("name", JStr (cl_name cluster))];;
  query (λ d, cluster_out cluster (counts d)).
Definition remove_cluster (scope : VisibleScope) (user : User) (cluster_id : string) : M unit :=
  cluster ← admin_cluster scope cluster_id;
  record (Some user) "cluster.delete" (Some (TCluster cluster)) None None None;;
  delete_cluster cluster.

(** ** Folders *)
Definition folder_visible (scope : VisibleScope) (f : Folder) : bool :=
  placed_visible scope (f_cluster_id f) (f_host_id f).
(** the query filters [hostId] and [clusterId], when given *)
Definition col_filter (wanted col : option string) : bool :=
  match wanted with Some w => bool_decide (col = Some w) | None => true end.
Definition list_folders (scope : VisibleScope) (host_id cluster_id : option string) : M (list FolderOut) :=
  query (λ d, folder_out <$> List.filter (folder_visible scope)
    (sort_by (λ a b, String.leb (f_name a) (f_name b))
      (rows (λ f, col_filter host_id (f_host_id f) && col_filter cluster_id (f_cluster_id f)) (folders d)))).
Definition add_folder_route (scope : VisibleScope) (user : User) (name : string) (cluster_id host_id : option string)
  : M FolderOut :=
  require (may_create_in scope cluster_id host_id) "You cannot create a folder here";;
  folder ← create_folder name cluster_id host_id;
  record (Some user) "folder.create" (Some (TFolder folder)) None None None;;
  mret (folder_out folder).
Definition get_visible_folder (scope : VisibleScope) (folder_id : string) : M Folder :=
  folder ← found (get_folder folder_id) "Folder";
  require (folder_visible scope folder) no_access;;
  mret folder.
Definition patch_folder (scope : VisibleScope) (user : User) (folder_id name : string) : M FolderOut :=
  folder ← get_visible_folder scope folder_id;
  let before := f_name folder in
  folder ← rename_folder folder name;
  record_diff user "folder.rename" (TFolder folder) [("name", JStr before)] [("name", JStr (f_name folder))];;
  mret (folder_out folder).
(** [event.details = ...] on an event already added *)
Definition set_details (event : AuditEvent) (details : dict) : M unit :=
  exec (λ d, d <| audit_events ::= fmap (λ e, if String.eqb (ae_id e) (ae_id event)
                                              then e <| ae_details := Some details |> else e) |>).
Definition remove_folder (scope : VisibleScope) (user : User) (folder_id : string) : M unit :=
  folder ← get_visible_folder scope folder_id;
  event ← record (Some user) "folder.delete" (Some (TFolder folder)) None None None;
  detached ← delete_folder folder;
  set_details event [("vmsDetached", JInt (Z.of_nat detached))].

(** ** VLANs *)
Definition vlan_visible (scope : VisibleScope) (v : Vlan) : bool :=
  placed_visible scope (vl_cluster_id v) (vl_host_id v).
Definition get_vlans (scope : VisibleScope) (host_id cluster_id : option string) : M (list VlanOut) :=
  vlans ← list_vlans host_id cluster_id;
  mret (vlan_out <$> List.filter (vlan_visible scope) vlans).
Definition vlan_fields (v : Vlan) : dict :=
  [("name", JStr (vl_name v)); ("vlanId", JInt (vl_vlan_id v)); ("description", str_of (vl_description v));
   ("isDefault", JBool (vl_is_default v))].
Definition add_vlan (scope : VisibleScope) (user : User) (name : string) (vlan_id : Z) (description : option string)
    (is_default : bool) (cluster_id host_id : option string) : M VlanOut :=
  require (may_create_in scope cluster_id host_id) "You cannot create a VLAN here";;
  vlan ← create_vlan name vlan_id description is_default cluster_id host_id;
  record (Some user) "vlan.create" (Some (TVlan vlan)) None None (Some (vlan_fields vlan));;
  mret (vlan_out vlan).
Definition get_visible_vlan (scope : VisibleScope) (vlan_id : string) : M Vlan :=
  vlan ← found (get_vlan vlan_id) "VLAN";
  require (vlan_visible scope vlan) no_access;;
  mret vlan.
Definition patch_vlan (scope : VisibleScope) (user : User) (vlan_id : string) (name description : option string)
    (is_default : option bool) : M VlanOut :=
  vlan ← get_visible_vlan scope vlan_id;
  let before := vlan_fields vlan in
  vlan ← update_vlan vlan name description is_default;
  record_diff user "vlan.update" (TVlan vlan) before (vlan_fields vlan);;
  mret (vlan_out vlan).
Definition remove_vlan (scope : VisibleScope) (user : User) (vlan_id : string) : M unit :=
  vlan ← get_visible_vlan scope vlan_id;
  record (Some user) "vlan.delete" (Some (TVlan vlan)) None None (Some [("vlanId", JInt (vl_vlan_id vlan))]);;
  delete_vlan vlan.

(** ** Tag categories and tags *)
Definition require_tag_admin (scope : VisibleScope) : M unit :=
  require (sc_all scope) "Only an administrator can manage tags".
Definition get_tag_categories : M (list TagCategoryOut) :=
  cs ← list_categories; mret (tag_category_out <$> cs).
Definition add_tag_category (scope : VisibleScope) (user : User) (name : string) : M TagCategoryOut :=
  require_tag_admin scope;;
  category ← create_category name;
  record (Some user) "tag_category.create" (Some (TTagCategory category)) None None None;;
  mret (tag_category_out category).
Definition admin_category (scope : VisibleScope) (category_id : string) : M TagCategory :=
  require_tag_admin scope;;
  found (get_tag_category category_id) "Tag category".
Definition patch_tag_category (scope : VisibleScope) (user : User) (category_id name : string) : M TagCategoryOut :=
  category ← admin_category scope category_id;
  let before := tc_name category in
  category ← rename_category category name;
  record_diff user "tag_category.rename" (TTagCategory category)
    [("name", JStr before)] [("name", JStr (tc_name category))];;
  mret (tag_category_out category).
Definition remove_tag_category (scope : VisibleScope) (user : User) (category_id : string) : M unit :=
  category ← admin_category scope category_id;
  record (Some user) "tag_category.delete" (Some (TTagCategory category)) None None None;;
  delete_category category.

Definition get_tags (scope : VisibleScope) : M (list TagOut) :=
  ts ← list_tags scope; mret ((λ tn, tag_out tn.1 tn.2) <$> ts).
Definition tag_fields (t : Tag) : M dict :=
  category ← match tg_category_id t with Some c => get_tag_category c | None => mret None end;
  mret [("name", JStr (tg_name t)); ("category", str_of (tc_name <$> category)); ("color", JStr (tg_color t))].
Definition add_tag (scope : VisibleScope) (user : User) (name : string) (category_id : option string) (color : string)
  : M TagOut :=
  require_tag_admin scope;;
  tag ← create_tag name category_id color;
  fields ← tag_fields tag;
  record (Some user) "tag.create" (Some (TTag tag)) None None (Some fields);;
  mret (tag_out tag 0).
Definition admin_tag (scope : VisibleScope) (tag_id : string) : M Tag :=
  require_tag_admin scope;;
  found (get_tag tag_id) "Tag".
(** [category_id]: absent from the body, or given (and possibly null) *)
Definition patch_tag (scope : VisibleScope) (user : User) (tag_id : string) (name : option string)
    (category_id : option (option string)) (color : option string) : M TagOut :=
  tag ← admin_tag scope tag_id;
  before ← tag_fields tag;
  tag ← update_tag tag name (default None category_id) (is_some category_id) color;
  after ← tag_fields tag;
  record_diff user "tag.update" (TTag tag) before after;;
  n ← tag_vm_count scope (tg_id tag);
  mret (tag_out tag n).
Definition remove_tag (scope : VisibleScope) (user : User) (tag_id : string) : M unit :=
  tag ← admin_tag scope tag_id;
  record (Some user) "tag.delete" (Some (TTag tag)) None None None;;
  delete_tag tag.

(** ** The principal *)
Record ScopeOut := mkScopeOut { sco_level : string; sco_scope_id : option string }.
Record MeOut := mkMeOut {
  mo_id : string; mo_email : string; mo_display_name : option string; mo_roles : list string;
  mo_scopes : list ScopeOut
}.
Definition sorted_ids (s : gset string) : list string := sort_strings (elements s).
Definition me (user : User) (scope : VisibleScope) : MeOut :=
  let level l s := (λ i, mkScopeOut l (Some i)) <$> sorted_ids s in
  mkMeOut (u_id user) (u_email user) (u_display_name user) (user_roles user)
    (if sc_all scope then [mkScopeOut "global" None]
     else level "cluster" (sc_cluster_ids scope) ++ level "host" (sc_host_ids scope) ++
          level "folder" (sc_folder_ids scope))%list.
