(* ===== verification/RoutesHosts.v ===== *)
(** * Host and image routes ([app/api/routes/hosts.py], [images.py]) *)
From S2P Require Import Prelude Py Clock Model World Store Cache Rbac AuditLog Serializers Messaging Hosts.
From S2P Require Import Organization HostActions AgentStore AgentBinaries AgentInstall RoutesOrg.
Open Scope string_scope.
Open Scope Z_scope.

(** [hardware] is the validated inventory, [model_validate] its schema;
    [repo_root] and [presign] as in [AgentStore] *)
Section routes.
Context {hardware : Type} (model_validate : dict → option hardware).
Context (repo_root : path) (presign : string → string → string → Z → string).

(** [dict(rows).get(host_id, 0)] of the per-host counts *)
Definition vm_count_of (d : database) (host_id : string) : nat :=
  length (rows (λ v, String.eqb (v_host_id v) host_id) (vms d)).
Definition host_detail (h : Host) : M (HostDetailOut hardware) :=
  count ← query (λ d, vm_count_of d (h_id h));
  host_detail_out model_validate h count.
Definition list_hosts (scope : VisibleScope) (cluster_id : option string) : M (list HostOut) :=
  hs ← query (λ d, sort_by (λ a b, String.leb (h_name a) (h_name b))
                     (rows (λ h, col_filter cluster_id (h_cluster_id h)) (hosts d)));
  map_each (λ h, count ← query (λ d, vm_count_of d (h_id h)); host_out h count)
    (List.filter (λ h, sees_host scope (h_id h)) hs).
(** [scope.all or (cluster_id and scope.sees_cluster(cluster_id))] *)
Definition may_place_host (scope : VisibleScope) (cluster_id : option string) : bool :=
  sc_all scope || (given_str cluster_id && sees_cluster scope cluster_id).
Definition add_host_route (scope : VisibleScope) (user : User) (name : string) (cluster_id : option string)
    (hypervisor : string) : M (HostDetailOut hardware) :=
  require (may_place_host scope cluster_id) "You cannot add a host here";;
  h ← create_host name cluster_id hypervisor;
  record (Some user) "host.create" (Some (THost h)) None None (Some [("hypervisor", JStr (h_hypervisor h))]);;
  host_detail_out model_validate h 0.
(** [{id, name}] of a cluster for an audit diff *)
Definition cluster_ref (cluster_id : option string) : M json :=
  match cluster_id with
  | None => mret JNull
  | Some c => cluster ← get_cluster c; mret (JObj [("id", JStr c); ("name", str_of (cl_name <$> cluster))])
  end.
Definition get_visible_host (scope : VisibleScope) (host_id : string) : M Host :=
  h ← found (get_host host_id) "Host";
  require (sees_host scope (h_id h)) no_access;;
  mret h.
(** the row loaded for an administrator's operation *)
Definition get_admin_host (scope : VisibleScope) (host_id msg : string) : M Host :=
  h ← get_visible_host scope host_id;
  require (sc_all scope) msg;;
  mret h.
Definition get_host_route (scope : VisibleScope) (host_id : string) : M (HostDetailOut hardware) :=
  h ← get_visible_host scope host_id;
  host_detail h.

(** *** Update *)

(** the fields present in the body, each possibly null *)
Record HostUpdate := mkHostUpdate {
  hu_name : option (option string); hu_fqdn : option (option string); hu_cluster_id : option (option string)
}.
Definition name_fields (h : Host) : dict := [("name", JStr (h_name h)); ("fqdn", str_of (h_fqdn h))].
Definition move_part (scope : VisibleScope) (user : User) (h : Host) (cluster_id : option string) : M Host :=
  require (may_place_host scope cluster_id) "You cannot move this host";;
  before ← cluster_ref (h_cluster_id h);
  h ← move_host h cluster_id;
  after ← cluster_ref (h_cluster_id h);
  record_diff user "host.move" (THost h) [("cluster", before)] [("cluster", after)];;
  mret h.
(** [host.name]/[host.fqdn] assigned from the given, non-null fields *)
Definition renamed (body : HostUpdate) (h : Host) : M Host :=
  name ← match hu_name body with
         | Some (Some n) => col_str 255 (JStr (strip n)) ≫= not_null
         | _ => mret (h_name h)
         end;
  fqdn ← match hu_fqdn body with
         | Some (Some f) => col_str 255 (JStr (strip f))
         | _ => mret (h_fqdn h)
         end;
  mret (h <| h_name := name |> <| h_fqdn := fqdn |>).
Definition update_host (scope : VisibleScope) (user : User) (host_id : string) (body : HostUpdate)
  : M (HostDetailOut hardware) :=
  h ← get_visible_host scope host_id;
  h ← match hu_cluster_id body with Some c => move_part scope user h c | None => mret h end;
  let before := name_fields h in
  h ← renamed body h;
  put_host h;;
  record_diff user "host.update" (THost h) before (name_fields h);;
  host_detail h.

(** *** Removal *)
Definition open_tasks (d : database) (host_id : string) : list string :=
  k_id <$> rows (λ k, String.eqb (k_host_id k) host_id &&
                      negb (bool_decide (k_status k ∈ TERMINAL_TASK_STATUSES))) (tasks d).
Definition remove_host (scope : VisibleScope) (user : User) (host_id : string) : M unit :=
  h ← get_admin_host scope host_id "Only an administrator can remove hosts";
  vm_count ← query (λ d, vm_count_of d (h_id h));
  record (Some user) "host.delete" (Some (THost h)) None None (Some [("vmCount", JInt (Z.of_nat vm_count))]);;
  ids ← query (λ d, open_tasks d (h_id h));
  settle_task_events ids "failed" (Some "Host removed before the task finished");;
  delete_host h.

(** *** The agent *)
Record HostAgentConfigOut := mkAgentConfig { ac_host_id : string; ac_rabbitmq_url : string; ac_config_ini : string }.
Definition get_host_agent_config (scope : VisibleScope) (host_id : string) : M HostAgentConfigOut :=
  h ← get_admin_host scope host_id "Only an administrator can view agent credentials";
  h ← provision_host_agent_user h;
  url ← agent_amqp_url h;
  config ← render_agent_config h;
  mret (mkAgentConfig (h_short_id h) url config).
Record HostAgentInstallOut := mkAgentInstall {
  ai_url : string; ai_command : string; ai_expires_at : datetime; ai_filename : string
}.
Definition get_host_agent_install_url (scope : VisibleScope) (host_id : string) : M HostAgentInstallOut :=
  h ← get_admin_host scope host_id "Only an administrator can issue an agent installer URL";
  h ← provision_host_agent_user h;
  r ← build_agent_install_url h;
  let '(url, command, expires_at) := r in
  mret (mkAgentInstall url command expires_at (install_script_filename h)).
(** no session: the signed query string stands in for a login *)
Definition get_host_agent_install_script (host_id : string) (exp token : option string) : M (string * string) :=
  h ← found (get_host host_id) "Host";
  ok ← verify_scope ("host-install:" +:+ host_id) exp token;
  (if ok : bool then mret tt else api_error "FORBIDDEN" "Invalid or expired install token" 403);;
  h ← provision_host_agent_user h;
  build_agent_install_script repo_root presign h.
Definition update_host_agent (scope : VisibleScope) (user : User) (host_id : string) (binary_id : option string)
  : M TaskOut :=
  h ← get_admin_host scope host_id "Only an administrator can upgrade the agent";
  binary ← resolve_upgrade_binary h binary_id;
  task ← request_agent_upgrade repo_root presign h binary (u_email user);
  record (Some user) "host.update_agent" (Some (THost h)) None (Some task)
    (Some [("version", JStr (b_version binary))]);;
  mret (task_out task).
Definition host_action (scope : VisibleScope) (user : User) (host_id action : string) : M TaskOut :=
  h ← get_visible_host scope host_id;
  require (negb (bool_decide (action ∈ DISRUPTIVE_HOST_ACTIONS)) || sc_all scope)
    "Only an administrator can change a host's cluster or power state";;
  task ← request_host_action h action (u_email user);
  (if bool_decide (action ∈ READ_ONLY_HOST_ACTIONS) then mret tt
   else record (Some user) ("host." +:+ action) (Some (THost h)) None (Some task) None;; mret tt);;
  mret (task_out task).

(** *** What a host holds *)

(** the samples of the last [metrics_retention_seconds], oldest first *)
Definition list_host_metrics (scope : VisibleScope) (host_id : string) : M (list HostMetricSample) :=
  _ ← get_visible_host scope host_id;
  now ← now_utc;
  cfg ← get_settings;
  let since := instant now - seconds (metrics_retention_seconds cfg) in
  query (λ d, host_metric_out <$>
    sort_by (λ a b, instant (hm_ts a) <=? instant (hm_ts b))
      (List.filter (λ m, String.eqb (hm_host_id m) host_id && (since <=? instant (hm_ts m))) (host_metrics d))).
Definition by_name (l : list Vm) : list Vm := sort_by (λ a b, String.leb (v_name a) (v_name b)) l.
Definition list_host_vms (scope : VisibleScope) (host_id : string) : M (list VmOut) :=
  h ← get_visible_host scope host_id;
  online ← agent_connected h;
  vms ← query (λ d, by_name (rows (λ v, String.eqb (v_host_id v) host_id) (vms d)));
  states ← get_vm_states (v_id <$> vms);
  locks ← get_vm_locks (v_id <$> vms);
  query (λ d, (λ v, vm_out d v (assoc states (v_id v)) (assoc locks (v_id v)) (negb online)) <$> vms).
Definition templates_by_name (l : list Template) : list Template :=
  sort_by (λ a b, String.leb (t_name a) (t_name b)) l.
Definition isos_by_name (l : list Iso) : list Iso := sort_by (λ a b, String.leb (i_name a) (i_name b)) l.
Definition list_host_templates (scope : VisibleScope) (host_id : string) : M (list TemplateOut) :=
  _ ← get_visible_host scope host_id;
  query (λ d, template_out <$> templates_by_name (rows (λ t, String.eqb (t_host_id t) host_id) (templates d))).
Definition list_host_isos (scope : VisibleScope) (host_id : string) : M (list IsoOut) :=
  _ ← get_visible_host scope host_id;
  query (λ d, iso_out <$> isos_by_name (rows (λ i, String.eqb (i_host_id i) host_id) (isos d))).
End routes.

(** ** Images across hosts *)
Definition list_templates (scope : VisibleScope) : M (list TemplateOut) :=
  query (λ d, template_out <$> List.filter (λ t, sees_host scope (t_host_id t))
    (templates_by_name (rows (λ _, true) (templates d)))).
Definition list_isos (scope : VisibleScope) : M (list IsoOut) :=
  query (λ d, iso_out <$> List.filter (λ i, sees_host scope (i_host_id i))
    (isos_by_name (rows (λ _, true) (isos d)))).
