(* ===== verification/RoutesVms.v ===== *)
(** * VM, lock, task and audit routes ([app/api/routes/vms.py], [tasks.py], [audit.py]) *)
From S2P Require Import Prelude Py Clock Model World Store Cache Rbac AuditLog Normalize Serializers Messaging Hosts.
From S2P Require Import Organization Tags HostActions Vms RoutesOrg RoutesHosts.
Open Scope string_scope.
Open Scope Z_scope.

Definition ALLOWED_ACTIONS : list string := List.filter (λ a, negb (String.eqb a "delete")) (ACTION_MAP.*1).
(** of the given hosts, those whose agent is offline *)
Definition offline_host_ids (host_ids : list string) : M (list string) :=
  match host_ids with
  | [] => mret []
  | _ =>
      gets (λ w, h_id <$> rows (λ h, bool_decide (h_id h ∈ host_ids) &&
                                     negb (agent_connected_at (w_cfg w) (w_now w) h)) (hosts (w_db w)))
  end.
Definition host_offline (host_id : string) : M bool :=
  h ← get_host host_id;
  match h with Some h => c ← agent_connected h; mret (negb c) | None => mret false end.
(** the serialised VM with its overlay, lock and host *)
Definition vm_detail (vm : Vm) : M VmOut :=
  state ← get_vm_state (v_id vm);
  lock ← get_vm_lock (v_id vm);
  offline ← host_offline (v_host_id vm);
  query (λ d, vm_out d vm state lock offline).

(** ** Reading *)
Definition list_vms (scope : VisibleScope) (host_id folder_id state : option string) : M (list VmOut) :=
  vms ← query (λ d, List.filter (vm_visible scope)
    (by_name (rows (λ v, col_filter host_id (Some (v_host_id v)) && col_filter folder_id (v_folder_id v) &&
                         col_filter state (Some (v_state v))) (vms d))));
  states ← get_vm_states (v_id <$> vms);
  locks ← get_vm_locks (v_id <$> vms);
  offline ← offline_host_ids (v_host_id <$> vms);
  result ← query (λ d, (λ v, vm_out d v (assoc states (v_id v)) (assoc locks (v_id v))
                               (bool_decide (v_host_id v ∈ offline))) <$> vms);
  mret (match state with
        | Some s => List.filter (λ o, String.eqb (vo_state o) s) result
        | None => result
        end).
Definition get_visible_vm (scope : VisibleScope) (vm_id : string) : M Vm :=
  vm ← found (get_vm vm_id) "VM";
  require (vm_visible scope vm) no_access;;
  mret vm.
Definition get_vm_route (scope : VisibleScope) (vm_id : string) : M VmOut :=
  vm ← get_visible_vm scope vm_id;
  vm_detail vm.
Definition list_vm_metrics (scope : VisibleScope) (vm_id : string) : M (list VmMetricSample) :=
  _ ← get_visible_vm scope vm_id;
  now ← now_utc;
  cfg ← get_settings;
  let since := instant now - seconds (metrics_retention_seconds cfg) in
  query (λ d, vm_metric_out <$>
    sort_by (λ a b, instant (vm_ts a) <=? instant (vm_ts b))
      (List.filter (λ m, String.eqb (vm_vm_id m) vm_id && (since <=? instant (vm_ts m))) (vm_metrics d))).
(** the image served, with its capture time *)
Definition get_vm_thumbnail (scope : VisibleScope) (vm_id : string) : M VmThumbnail :=
  _ ← get_visible_vm scope vm_id;
  found (query (λ d, thumbnails d !! vm_id)) "Thumbnail".

(** ** Creation *)

(** [body.model_dump(mode="json", by_alias=True, exclude_none=True)] *)
Definition dump (fields : list (string * option json)) : dict :=
  omap (λ '(k, v), pair k <$> v) fields.
Definition dump_create (b : VmCreate) : dict := dump
  [("name", Some (JStr (vc_name b))); ("hostId", Some (JStr (vc_host_id b))); ("os", Some (JStr (vc_os b)));
   ("firmware", Some (JStr (vc_firmware b))); ("cpuCount", Some (JInt (vc_cpu_count b)));
   ("memoryMb", Some (JInt (vc_memory_mb b))); ("memoryDynamic", Some (JBool (vc_memory_dynamic b)));
   ("memoryMinMb", JInt <$> vc_memory_min_mb b); ("memoryMaxMb", JInt <$> vc_memory_max_mb b);
   ("destinationStorage", JStr <$> vc_destination_storage b); ("notes", JStr <$> vc_notes b);
   ("vlanId", JInt <$> vc_vlan_id b); ("switchName", JStr <$> vc_switch_name b);
   ("nestedVirtualization", Some (JBool (vc_nested_virtualization b)));
   ("haEnabled", Some (JBool (vc_ha_enabled b))); ("dvd", JStr <$> vc_dvd b);
   ("startNow", Some (JBool (vc_start_now b)));
   ("disks", Some (JList ((λ s, JObj [("name", JStr (ds_name s)); ("type", JStr (ds_type s));
                                      ("sizeGb", JInt (ds_size_gb s))]) <$> vc_disks b)))].
Definition dump_clone (b : VmClone) : dict := dump
  [("name", Some (JStr (vn_name b))); ("hostId", Some (JStr (vn_host_id b)));
   ("source", Some (JStr (vn_source b))); ("sourceVmId", JStr <$> vn_source_vm_id b);
   ("templateId", JStr <$> vn_template_id b); ("cpuCount", JInt <$> vn_cpu_count b);
   ("memoryMb", JInt <$> vn_memory_mb b); ("destinationStorage", JStr <$> vn_destination_storage b);
   ("notes", JStr <$> vn_notes b); ("vlanId", JInt <$> vn_vlan_id b);
   ("nestedVirtualization", Some (JBool (vn_nested_virtualization b)));
   ("haEnabled", Some (JBool (vn_ha_enabled b))); ("startNow", Some (JBool (vn_start_now b)));
   ("expandDisks", Some (JBool (vn_expand_disks b)))].
(** the host a new VM goes to *)
Definition target_host (scope : VisibleScope) (host_id : string) : M Host :=
  h ← found (get_host host_id) "Host";
  require (sees_host scope (h_id h)) "You cannot create a VM on this host";;
  mret h.
(** [VmCreateEnvelope(vm=vm_out(vm, lock=await get_vm_lock(vm.id)), task=task_out(task))] *)
Definition create_envelope (vm : Vm) (task : Task) : M (VmOut * TaskOut) :=
  lock ← get_vm_lock (v_id vm);
  query (λ d, (vm_out d vm None lock false, task_out task)).
Definition create_vm (scope : VisibleScope) (user : User) (b : VmCreate) : M (VmOut * TaskOut) :=
  h ← target_host scope (vc_host_id b);
  vt ← request_vm_create h b (u_email user);
  record (Some user) "vm.create" (Some (TVm vt.1)) None (Some vt.2) (Some (dump_create b));;
  create_envelope vt.1 vt.2.
Definition clone_vm (scope : VisibleScope) (user : User) (b : VmClone) : M (VmOut * TaskOut) :=
  h ← target_host scope (vn_host_id b);
  vt ← request_vm_clone b h (u_email user);
  source ← query (λ d, if String.eqb (vn_source b) "vm" then v_name <$> vms d !! default "" (vn_source_vm_id b)
                       else t_name <$> templates d !! default "" (vn_template_id b));
  let details := match source with
                 | Some name => dset (dump_clone b) "sourceName" (JStr name)
                 | None => dump_clone b
                 end in
  record (Some user) "vm.clone" (Some (TVm vt.1)) None (Some vt.2) (Some details);;
  create_envelope vt.1 vt.2.

(** ** Grouping *)
Definition folder_ref (folder_id : option string) : M json :=
  match folder_id with
  | None => mret JNull
  | Some f => folder ← get_folder f; mret (JObj [("id", JStr f); ("name", str_of (f_name <$> folder))])
  end.
Definition move_vm (scope : VisibleScope) (user : User) (vm_id : string) (folder_id : option string) : M VmOut :=
  vm ← get_visible_vm scope vm_id;
  before ← folder_ref (v_folder_id vm);
  vm ← move_vm_to_folder vm folder_id;
  after ← folder_ref (v_folder_id vm);
  record_diff user "vm.move_folder" (TVm vm) [("folder", before)] [("folder", after)];;
  vm_detail vm.
(** [sorted(t.name for t in vm.tags)] *)
Definition tag_names (d : database) (vm_id : string) : json :=
  JList (JStr <$> sort_strings (tg_name <$> rows (λ t, bool_decide ((vm_id, tg_id t) ∈ vm_tags d)) (tags d))).
Definition put_vm_tags (scope : VisibleScope) (user : User) (vm_id : string) (tag_ids : list string) : M VmOut :=
  vm ← get_visible_vm scope vm_id;
  before ← query (λ d, tag_names d (v_id vm));
  vm ← set_vm_tags vm tag_ids;
  after ← query (λ d, tag_names d (v_id vm));
  record_diff user "vm.tags" (TVm vm) [("tags", before)] [("tags", after)];;
  vm_detail vm.

(** ** Actions *)

(** [params]: the body's, empty without a body *)
Definition vm_action (scope : VisibleScope) (user : User) (vm_id action : string) (params : dict) : M TaskOut :=
  (if bool_decide (action ∈ ALLOWED_ACTIONS) then mret tt
   else api_error "UNKNOWN_ACTION" ("Unknown VM action '" +:+ action +:+ "'") 404);;
  vm ← get_visible_vm scope vm_id;
  task ← request_vm_action vm action (u_email user) params;
  (if bool_decide (action ∈ READ_ONLY_VM_ACTIONS) then mret tt
   else record (Some user) ("vm." +:+ action) (Some (TVm vm)) None (Some task)
          (match params with [] => None | _ => Some [("params", JObj params)] end);; mret tt);;
  mret (task_out task).
Definition delete_vm (scope : VisibleScope) (user : User) (vm_id : string) (remove_files : bool) : M TaskOut :=
  vm ← get_visible_vm scope vm_id;
  task ← request_vm_action vm "delete" (u_email user) [("remove_files", JBool remove_files)];
  record (Some user) "vm.delete" (Some (TVm vm)) None (Some task) (Some [("removeFiles", JBool remove_files)]);;
  mret (task_out task).
Definition forget_vm (scope : VisibleScope) (user : User) (vm_id : string) : M unit :=
  vm ← get_visible_vm scope vm_id;
  record (Some user) "vm.forget" (Some (TVm vm)) None None None;;
  remove_vm_from_inventory vm.

(** ** Locks *)
Record VmLockEntry := mkLockEntry {
  le_vm_id : string; le_vm_name : option string; le_lock : VmLock; le_ttl : Z; le_task_status : option string
}.
Definition list_locks (scope : VisibleScope) : M (list VmLockEntry) :=
  require (sc_all scope) "Only administrators can view VM locks";;
  locks ← list_vm_locks;
  query (λ d, (λ l, mkLockEntry (lr_vm_id l) (v_name <$> vms d !! lr_vm_id l) (lr_lock l) (lr_ttl l)
                      (k_status <$> tasks d !! lk_task_id (lr_lock l))) <$> locks).
Definition release_locks (scope : VisibleScope) (user : User) : M nat :=
  require (sc_all scope) "Only administrators can release VM locks";;
  released ← release_all_vm_locks;
  record (Some user) "vm.lock_release_all" None (Some "vm") None (Some [("released", JInt (Z.of_nat released))]);;
  mret released.
Definition release_lock (scope : VisibleScope) (user : User) (vm_id : string) : M bool :=
  require (sc_all scope) "Only administrators can release VM locks";;
  held ← get_vm_lock vm_id;
  released ← release_vm_lock vm_id None;
  (if released : bool then
     vm ← get_vm vm_id;
     match vm with
     | Some vm => record (Some user) "vm.lock_release" (Some (TVm vm)) None None
                    (Some [("lock", match held with Some l => JObj (lock_json l) | None => JNull end)]);; mret tt
     | None => mret tt
     end
   else mret tt);;
  mret released.

(** ** Tasks *)
Definition newest_first : list Task → list Task := sort_by (λ a b, k_created_at b <=? k_created_at a).
Definition task_visible (d : database) (scope : VisibleScope) (k : Task) : bool :=
  if String.eqb (k_target_type k) "host" then sees_host scope (k_host_id k)
  else if String.eqb (k_target_type k) "vm" then
    match vms d !! k_target_id k with
    | Some v => vm_visible scope v || sees_host scope (k_host_id k)
    | None => sees_host scope (k_host_id k)
    end
  else false.
Definition list_tasks (scope : VisibleScope) (vm_id host_id status : option string) (limit : nat) : M (list TaskOut) :=
  query (λ d,
    let selected := take limit (newest_first
      (rows (λ k, col_filter vm_id (Some (k_target_id k)) && col_filter host_id (Some (k_host_id k)) &&
                  col_filter status (Some (k_status k))) (tasks d))) in
    task_out <$> (if sc_all scope then selected else List.filter (task_visible d scope) selected)).
Definition get_task_route (scope : VisibleScope) (task_id : string) : M TaskDetailOut :=
  task ← found (get_task task_id) "Task";
  require (sc_all scope || sees_host scope (k_host_id task)) no_access;;
  mret (task_detail_out task).

(** ** What a listing shows *)

(** the overlay of a VM *)
Definition overlay (w : world) (id : string) : option string :=
  text_of (c_get (w_now w) (vm_state_key id) (w_cache w)).
(** the VM's host is known and its agent silent *)
Definition offline_at (w : world) (host_id : string) : bool :=
  match hosts (w_db w) !! host_id with
  | Some h => negb (agent_connected_at (w_cfg w) (w_now w) h)
  | None => false
  end.
(** what the API says of a row *)
Definition shown (w : world) (v : Vm) : VmOut :=
  vm_out (w_db w) v (overlay w (v_id v)) (lock_view w (v_id v)) (offline_at w (v_host_id v)).

Lemma assoc_omap {A} (F : string → option (string * A)) (g : string → option A) ids x :
  (∀ i, F i = pair i <$> g i) → x ∈ ids → assoc (omap F ids) x = g x.
Proof.
  intros HF. induction ids as [|i ids IH]; intros Hx; [by apply not_elem_of_nil in Hx|].
  cbn [omap list_omap]. rewrite HF. apply elem_of_cons in Hx as [->|Hx].
  - destruct (g i) as [a|] eqn:E; cbn; [by rewrite String.eqb_refl|].
    clear IH. induction ids as [|j ids IH]; [done|]. cbn [omap list_omap]. rewrite HF.
    destruct (g j) eqn:Ej; cbn; [|exact IH]. destruct (String.eqb_spec i j) as [->|]; [congruence|exact IH].
  - destruct (g i) as [a|] eqn:E; cbn; [|by apply IH]. destruct (String.eqb_spec x i) as [->|]; [by rewrite E|by apply IH].
Qed.
Lemma get_states_run ids w :
  w_cache_up w = true →
  ∃ l, get_vm_states ids w = (Ok l, w) ∧
    ∀ x, x ∈ ids → assoc l x = match overlay w x with Some s => if str_nonempty s then Some s else None | None => None end.
Proof.
  intros Up. unfold get_vm_states. destruct ids as [|i ids]; [exists []; split; [done|]; intros x Hx; by apply not_elem_of_nil in Hx|].
  rewrite peek_run by done. eexists. split; [reflexivity|]. intros x Hx. unfold overlay.
  apply (assoc_omap _ (λ x, match text_of (c_get (w_now w) (vm_state_key x) (w_cache w)) with
    | Some s => if str_nonempty s then Some s else None | None => None end)); [|done].
  intros j. destruct (text_of _) as [t|]; [|done]. by destruct (str_nonempty t).
Qed.
Lemma get_lock_run id w : w_cache_up w = true → locks_wf w → get_vm_lock id w = (Ok (lock_view w id), w).
Proof.
  intros Up Wf. unfold get_vm_lock. rewrite (run_ok _ _ _ _ _ (peek_run w Up _)).
  unfold lock_view. specialize (Wf id). destruct (c_get _ _ _) as [[t|l]|]; [by destruct (Wf t)|done..].
Qed.
Lemma get_locks_run ids w :
  w_cache_up w = true → locks_wf w →
  ∃ l, get_vm_locks ids w = (Ok l, w) ∧ ∀ x, x ∈ ids → assoc l x = lock_view w x.
Proof.
  intros Up Wf. unfold get_vm_locks.
  assert (map_each (λ id, l ← get_vm_lock id; mret (id, l)) ids w = (Ok ((λ id, (id, lock_view w id)) <$> ids), w)) as H.
  { induction ids as [|i ids IH]; [done|]. cbn [map_each]. rewrite run_assoc.
    rewrite (run_ok _ _ _ _ _ (get_lock_run i w Up Wf)), run_ret. by rewrite (run_ok _ _ _ _ _ IH). }
  rewrite (run_ok _ _ _ _ _ H). eexists. split; [reflexivity|]. intros x Hx.
  replace (omap _ _) with (omap (λ id, pair id <$> lock_view w id) ids);
    [by apply (assoc_omap _ (lock_view w))|].
  clear. induction ids as [|i ids IH]; [done|]. cbn. by rewrite IH.
Qed.
Lemma offline_hosts_run ids w :
  (∀ k h, hosts (w_db w) !! k = Some h → h_id h = k) →
  ∃ l, offline_host_ids ids w = (Ok l, w) ∧ ∀ x, x ∈ ids → bool_decide (x ∈ l) = offline_at w x.
Proof.
  intros Key. unfold offline_host_ids. destruct ids as [|i ids]; [exists []; split; [done|]; intros x Hx; by apply not_elem_of_nil in Hx|].
  eexists. split; [reflexivity|]. intros x Hx. unfold offline_at.
  apply Bool.eq_iff_eq_true. rewrite bool_decide_eq_true, list_elem_of_fmap. setoid_rewrite elem_of_rows.
  setoid_rewrite andb_true_iff. setoid_rewrite bool_decide_eq_true. split.
  - intros (h & -> & k & Hk & _ & Ho). by rewrite (Key k h Hk), Hk.
  - destruct (hosts (w_db w) !! x) as [h|] eqn:E; [|done]. intros Ho. exists h. pose proof (Key x h E). naive_solver.
Qed.
Lemma shown_override w v :
  vm_out (w_db w) v (match overlay w (v_id v) with Some s => if str_nonempty s then Some s else None | None => None end)
    (lock_view w (v_id v)) (offline_at w (v_host_id v)) = shown w v.
Proof. unfold shown, vm_out, effective_state. destruct (overlay w (v_id v)) as [[]|]; done. Qed.

(** C29: the VM listing is exact.  [GET /vms] changes nothing and returns, for
    the rows the caller can see and no others, the row as shown - overlay over
    row, [Unknown] under a silent host, the live lock - restricted to the given
    host and folder; with a [state] filter it returns those of them whose row
    {e and} whose shown state have that value. *)
Theorem vm_listing_exact w scope host_id folder_id state :
  w_cache_up w = true → locks_wf w → (∀ k h, hosts (w_db w) !! k = Some h → h_id h = k) →
  ∃ out, list_vms scope host_id folder_id state w = (Ok out, w) ∧
    ∀ o, o ∈ out ↔ ∃ k v, vms (w_db w) !! k = Some v ∧ o = shown w v ∧ vm_visible scope v = true ∧
      (∀ h, host_id = Some h → v_host_id v = h) ∧ (∀ f, folder_id = Some f → v_folder_id v = Some f) ∧
      (∀ s, state = Some s → v_state v = s ∧ vo_state o = s).
Proof.
  intros Up Wf Key. unfold list_vms. rewrite run_query. set (found := List.filter (vm_visible scope) _).
  destruct (get_states_run (v_id <$> found) w Up) as (states & Hs & Es). rewrite (run_ok _ _ _ _ _ Hs).
  destruct (get_locks_run (v_id <$> found) w Up Wf) as (locks & Hl & El). rewrite (run_ok _ _ _ _ _ Hl).
  destruct (offline_hosts_run (v_host_id <$> found) w Key) as (off & Ho & Eo). rewrite (run_ok _ _ _ _ _ Ho).
  rewrite run_query. eexists. split; [reflexivity|].
  replace (_ <$> found) with (shown w <$> found).
  2:{ apply list_fmap_ext. intros i v Hv%list_elem_of_lookup_2. rewrite Es, El, Eo; [by rewrite shown_override|..];
      by apply list_elem_of_fmap_2. }
  assert (∀ v, v ∈ found ↔ ∃ k, vms (w_db w) !! k = Some v ∧ vm_visible scope v = true ∧
    (∀ h, host_id = Some h → v_host_id v = h) ∧ (∀ f, folder_id = Some f → v_folder_id v = Some f) ∧
    (∀ s, state = Some s → v_state v = s)) as Hf.
  { intros v. unfold found, by_name. rewrite list_elem_of_In, filter_In, <- list_elem_of_In, elem_of_sort_by, elem_of_rows.
    setoid_rewrite andb_true_iff. setoid_rewrite andb_true_iff.
    assert (∀ a b, col_filter a b = true ↔ ∀ x, a = Some x → b = Some x) as Cf.
    { intros [x|] b; cbn; [rewrite bool_decide_eq_true; naive_solver|naive_solver]. }
    setoid_rewrite Cf. naive_solver. }
  intros o. destruct state as [st|].
  - rewrite list_elem_of_In, filter_In, <- list_elem_of_In, list_elem_of_fmap, String.eqb_eq. setoid_rewrite Hf. naive_solver.
  - rewrite list_elem_of_fmap. setoid_rewrite Hf. naive_solver.
Qed.
Definition listing_world : world :=
  vm_world <| w_db ::= λ d, d <| hosts := {["h1" := sample_host <| h_agent_last_seen := None |>]} |> |>.
Lemma vm_listing_exact_witness : ∃ out,
  list_vms (empty_scope <| sc_all := true |>) None None None vm_world = (Ok out, vm_world) ∧
  shown vm_world sample_vm ∈ out.
Proof.
  destruct (vm_listing_exact vm_world (empty_scope <| sc_all := true |>) None None None) as (out & Hr & Ho);
    [reflexivity|apply vm_world_ok| |].
  - intros k h H. cbn in H. apply lookup_singleton_Some in H as [<- <-]. reflexivity.
  - exists out. split; [exact Hr|]. apply Ho. exists "v1", sample_vm. repeat split; done.
Defined.
(** Under a silent host a VM is shown [Unknown], and the filter for that very
    state does not find it. *)
Lemma unknown_filter_misses :
  let ask st := (list_vms (empty_scope <| sc_all := true |>) None None st listing_world).1 in
  (∃ o, ask None = Ok [o] ∧ vo_state o = "Unknown") ∧ ask (Some "Unknown") = Ok [].
Proof. cbv zeta. split; [eexists; split; [vm_compute; reflexivity|reflexivity]|vm_compute; reflexivity]. Qed.

(** A task listed through its VM's folder cannot be opened by the same caller. *)
Lemma listed_task_forbidden w scope id k v :
  tasks (w_db w) !! id = Some k → k_target_type k = "vm" → vms (w_db w) !! k_target_id k = Some v →
  vm_visible scope v = true → sc_all scope = false → sees_host scope (k_host_id k) = false →
  task_visible (w_db w) scope k = true ∧
  get_task_route scope id w = (Raise (EApi (mkApiError "FORBIDDEN" no_access 403 None)), w).
Proof.
  intros Hk Ht Hv Hvis Hall Hh. split; [unfold task_visible; by rewrite Ht, Hv, Hvis|].
  unfold get_task_route, found, get_task. rewrite run_assoc, run_query, Hk. by rewrite run_ret, Hall, Hh.
Qed.
(** The limit applies before visibility: with a newer task of another host,
    asking for one task yields none. *)
Definition tasks_world : world :=
  let task id h t := queued_task id "restart" "host" h None h "op" t
                       (mkRequest id "restart" [] "op" (utc t)) in
  vm_world <| w_db ::= λ d, d <| tasks := {["t1" := task "t1" "h1" 1; "t2" := task "t2" "h2" 2]} |> |>.
Lemma limit_hides_tasks :
  let ask n := (list_tasks (mkScope false ∅ {["h1"]} ∅) None None None n tasks_world).1 in
  ask 1%nat = Ok [] ∧ ∃ k, ask 2%nat = Ok [k] ∧ ko_id k = "t1".
Proof. cbv zeta. split; [vm_compute; reflexivity|]. eexists. split; [vm_compute; reflexivity|reflexivity]. Qed.
