(* ===== verification/Access.v ===== *)
(** * The API as one request handler, and what a scoped caller can reach

    [request] is every state-changing endpoint with its parameters and
    [serve] one HTTP call: the principal's scope resolved, the handler run, the
    session committed or rolled back.  The theorem confines a principal without
    global rights to the hosts, VMs, folders and VLANs of its scope. *)
From S2P Require Import Prelude Py Clock Model World Store Cache Rbac AuditLog Serializers Messaging Hosts.
From S2P Require Import Organization Networking Tags HostActions AgentStore AgentBinaries AgentInstall Vms.
From S2P Require Import RoutesOrg RoutesHosts RoutesVms.
Open Scope string_scope.
Open Scope Z_scope.

(** ** Requests *)
Inductive request :=
  | AddCluster (name hypervisor : string) | EditCluster (id name : string) | RemoveCluster (id : string)
  | AddFolder (name : string) (cluster_id host_id : option string)
  | PatchFolder (id name : string) | RemoveFolder (id : string)
  | AddVlan (name : string) (vlan_id : Z) (description : option string) (is_default : bool)
      (cluster_id host_id : option string)
  | PatchVlan (id : string) (name description : option string) (is_default : option bool)
  | RemoveVlan (id : string)
  | AddTagCategory (name : string) | PatchTagCategory (id name : string) | RemoveTagCategory (id : string)
  | AddTag (name : string) (category_id : option string) (color : string)
  | PatchTag (id : string) (name : option string) (category_id : option (option string)) (color : option string)
  | RemoveTag (id : string)
  | AddHost (name : string) (cluster_id : option string) (hypervisor : string)
  | UpdateHost (id : string) (body : HostUpdate) | RemoveHost (id : string)
  | GetAgentConfig (id : string) | GetInstallUrl (id : string)
  | UpdateAgent (id : string) (binary_id : option string) | HostAction (id action : string)
  | CreateVm (body : VmCreate) | CloneVm (body : VmClone)
  | MoveVm (id : string) (folder_id : option string) | PutVmTags (id : string) (tag_ids : list string)
  | VmAction (id action : string) (params : dict) | DeleteVm (id : string) (remove_files : bool)
  | ForgetVm (id : string) | ReleaseLocks | ReleaseLock (id : string)
  | UploadBinary (up : Upload)
  | UpdateBinary (id : string) (notes : option (option string)) (is_active : option (option bool))
  | DeleteBinary (id : string) | RolloutBinary (id : string) (host_ids : option (list string)).

Section serve.
Context {hardware : Type} (model_validate : dict → option hardware).
Context (repo_root : path) (presign : string → string → string → Z → string).
Context (put_file : AgentStore → string → string → string → M unit) (remove_file : AgentStore → string → M unit).

Definition handle (scope : VisibleScope) (user : User) (r : request) : M unit :=
  match r with
  | AddCluster name hv => add_cluster_route scope user name hv;; mret tt
  | EditCluster id name => edit_cluster scope user id name;; mret tt
  | RemoveCluster id => remove_cluster scope user id
  | AddFolder name c h => add_folder_route scope user name c h;; mret tt
  | PatchFolder id name => patch_folder scope user id name;; mret tt
  | RemoveFolder id => remove_folder scope user id
  | AddVlan name tag descr dflt c h => add_vlan scope user name tag descr dflt c h;; mret tt
  | PatchVlan id name descr dflt => patch_vlan scope user id name descr dflt;; mret tt
  | RemoveVlan id => remove_vlan scope user id
  | AddTagCategory name => add_tag_category scope user name;; mret tt
  | PatchTagCategory id name => patch_tag_category scope user id name;; mret tt
  | RemoveTagCategory id => remove_tag_category scope user id
  | AddTag name c color => add_tag scope user name c color;; mret tt
  | PatchTag id name c color => patch_tag scope user id name c color;; mret tt
  | RemoveTag id => remove_tag scope user id
  | AddHost name c hv => add_host_route model_validate scope user name c hv;; mret tt
  | UpdateHost id body => update_host model_validate scope user id body;; mret tt
  | RemoveHost id => remove_host scope user id
  | GetAgentConfig id => get_host_agent_config scope id;; mret tt
  | GetInstallUrl id => get_host_agent_install_url scope id;; mret tt
  | UpdateAgent id b => update_host_agent repo_root presign scope user id b;; mret tt
  | HostAction id action => host_action scope user id action;; mret tt
  | CreateVm b => create_vm scope user b;; mret tt
  | CloneVm b => clone_vm scope user b;; mret tt
  | MoveVm id f => move_vm scope user id f;; mret tt
  | PutVmTags id ts => put_vm_tags scope user id ts;; mret tt
  | VmAction id action params => vm_action scope user id action params;; mret tt
  | DeleteVm id files => delete_vm scope user id files;; mret tt
  | ForgetVm id => forget_vm scope user id
  | ReleaseLocks => release_locks scope user;; mret tt
  | ReleaseLock id => release_lock scope user id;; mret tt
  | UploadBinary up => upload_agent_binary repo_root put_file scope user up;; mret tt
  | UpdateBinary id notes act => update_agent_binary scope user id notes act;; mret tt
  | DeleteBinary id => delete_agent_binary repo_root remove_file scope user id
  | RolloutBinary id hs => rollout_agent_binary repo_root presign scope user id hs;; mret tt
  end.
(** one call: the scope and the handler share the session *)
Definition serve (user : User) (r : request) : M unit :=
  session_scope (scope ← resolve_scope user; handle scope user r).
End serve.

(** ** Answers ([app/api/errors.py]) *)
Definition envelope (code message : string) (details : option dict) : json :=
  JObj [("error", JObj ([("code", JStr code); ("message", JStr message)] ++
                        match details with Some ((_ :: _) as d) => [("details", JObj d)] | _ => [] end)%list)].
(** an [ApiError] is answered as it says; anything else is logged and answered
    with the fixed internal error *)
Definition error_response (e : exn) : Z * json :=
  match e with
  | EApi e => (err_status e, envelope (err_code e) (err_message e) (err_details e))
  | _ => (500, envelope "INTERNAL" "Internal server error" None)
  end.

(** ** What a scope leaves alone *)

(** [d] still holds every row of [d0] outside the scope [s], and the catalogue
    tables are those of [d0] *)
Record spared (s : VisibleScope) (d0 d : database) : Prop := {
  sp_host k h : hosts d0 !! k = Some h → sees_host s k = false → hosts d !! k = Some h;
  sp_vm k v : vms d0 !! k = Some v → vm_visible s v = false → vms d !! k = Some v;
  sp_folder k f : folders d0 !! k = Some f → folder_visible s f = false → folders d !! k = Some f;
  sp_vlan k v : vlans d0 !! k = Some v → vlan_visible s v = false → vlans d !! k = Some v;
  sp_tagged k v t : vms d0 !! k = Some v → vm_visible s v = false → (k, t) ∈ vm_tags d ↔ (k, t) ∈ vm_tags d0;
  sp_task k t : tasks d0 !! k = Some t → tasks d !! k = Some t;
  sp_catalogue :
    (clusters d, tag_categories d, tags d, templates d, isos d, users d, grants d, agent_binaries d) =
    (clusters d0, tag_categories d0, tags d0, templates d0, isos d0, users d0, grants d0, agent_binaries d0)
}.
Lemma spared_refl s d : spared s d d.
Proof. by split. Qed.

(** ** Facts on results, and reads *)

(** what [m] returns, when it returns, satisfies [P] *)
Definition returns {A} (P : A → Prop) (m : M A) : Prop := ∀ w a w', m w = (Ok a, w') → P a.
Lemma returns_bind {A B} (P : B → Prop) (m : M A) (k : A → M B) : (∀ a, returns P (k a)) → returns P (m ≫= k).
Proof. intros H w b w' (a & w1 & _ & Hk)%bind_inv. by eapply H. Qed.
Lemma returns_ret {A} (P : A → Prop) a : P a → returns P (mret a).
Proof. by intros H w b w' (-> & _)%ret_inv. Qed.
Lemma returns_raise {A} (P : A → Prop) e : returns P (raise e).
Proof. by intros w a w'. Qed.
Lemma keeps_returns {A B} (T : world → world → Prop) `{!PreOrder T} (P : A → Prop) (m : M A) (k : A → M B) :
  keeps T m → returns P m → (∀ a, P a → keeps T (k a)) → keeps T (m ≫= k).
Proof.
  intros Hm Hr Hk w. unfold mbind, M_bind. specialize (Hm w).
  destruct (m w) as [[a|e] w'] eqn:E; cbn in *; [|done]. etrans; [exact Hm|]. apply Hk. by eapply Hr.
Qed.
Ltac returning := repeat lazymatch goal with
  | |- returns _ (mret _) => apply returns_ret
  | |- returns _ (raise _) => apply returns_raise
  | |- returns _ (api_error _ _ _) => apply returns_raise
  | |- returns _ (not_found _) => apply returns_raise
  | |- returns _ (_ ≫= _) => apply returns_bind; intros ?
  | |- returns _ (match ?x with _ => _ end) => destruct x
  end.
Lemma move_host_id h c : returns (λ h', h_id h' = h_id h) (move_host h c).
Proof. unfold move_host. apply returns_bind. intros t. destruct (_ && _); returning; done. Qed.
Lemma move_part_id scope user h c : returns (λ h', h_id h' = h_id h) (move_part scope user h c).
Proof.
  intros w h' w'. unfold move_part. intros ([] & w1 & _ & H)%bind_inv.
  apply bind_inv in H as (? & ? & _ & H). apply bind_inv in H as (r & ? & Hr & H).
  apply bind_inv in H as (? & ? & _ & H). apply bind_inv in H as (? & ? & _ & [<- _]%ret_inv).
  by eapply move_host_id.
Qed.
Lemma renamed_id body h : returns (λ h', h_id h' = h_id h) (renamed body h).
Proof. unfold renamed. returning; done. Qed.
Lemma credentials_id h : returns (λ hc, h_id hc.1 = h_id h) (ensure_host_agent_credentials h).
Proof. intros w [h' b] w' H. by eapply credentials_row. Qed.

Section reads.
Context {B : Type} (f : world → B) (Hf : ∀ w c, f (w <| w_cache := c |>) = f w).
Lemma same_vm_lock id : keeps (same f) (get_vm_lock id).
Proof using Hf. unfold get_vm_lock, peek. keep. by apply same_at_now. Qed.
Lemma same_vm_state id : keeps (same f) (get_vm_state id).
Proof using Hf. unfold get_vm_state, peek. by apply same_at_now. Qed.
Lemma same_acquire v t k u : keeps (same f) (acquire_vm_lock v t k u).
Proof using Hf. unfold acquire_vm_lock. keep. by apply same_at_now. Qed.
End reads.
#[export] Hint Extern 2 (keeps (same _) (get_vm_lock _)) => apply same_vm_lock; intros; reflexivity : frame.
#[export] Hint Extern 2 (keeps (same _) (get_vm_state _)) => apply same_vm_state; intros; reflexivity : frame.
#[export] Hint Extern 2 (keeps (same _) (acquire_vm_lock _ _ _ _)) => apply same_acquire; intros; reflexivity : frame.
Lemma same_online {B} (f : world → B) h : keeps (same f) (require_host_online h).
Proof. unfold require_host_online. keep. Qed.
Lemma same_storage {B} (f : world → B) h d : keeps (same f) (require_vm_storage_allowed h d).
Proof. unfold require_vm_storage_allowed. keep. Qed.
Lemma same_folder_ref {B} (f : world → B) o : keeps (same f) (folder_ref o).
Proof. unfold folder_ref. keep. Qed.
Lemma same_cluster_ref {B} (f : world → B) o : keeps (same f) (cluster_ref o).
Proof. unfold cluster_ref. keep. Qed.
Lemma same_require {B} (f : world → B) b m : keeps (same f) (require b m).
Proof. unfold require. keep. Qed.
#[export] Hint Resolve same_online same_storage same_folder_ref same_cluster_ref same_require : frame.
Lemma same_vm_detail v : keeps (same w_db) (vm_detail v).
Proof. unfold vm_detail, host_offline. keep. Qed.
Lemma same_host_detail_of {hw} (mv : dict → option hw) h : keeps (same w_db) (host_detail mv h).
Proof. unfold host_detail. keep. Qed.
Lemma same_envelope v t : keeps (same w_db) (create_envelope v t).
Proof. unfold create_envelope. keep. Qed.
#[export] Hint Resolve same_vm_detail same_host_detail_of same_envelope : frame.

Section confined.
Context (s : VisibleScope) (d0 : database) (W : sited d0) (V : vlans_ok d0).
(** the scope as [resolve_scope] leaves it: limited, and closed under the hosts of its clusters *)
Context (limited : sc_all s = false).
Context (covers : ∀ k h c, hosts d0 !! k = Some h → h_cluster_id h = Some c →
  sees_cluster s (Some c) = true → sees_host s k = true).
Notation I := (spared s d0).

(** the row the key names, if any, is within the scope *)
Definition open_host (k : string) : Prop := ∀ h, hosts d0 !! k = Some h → sees_host s k = true.
Definition open_vm (k : string) : Prop := ∀ v, vms d0 !! k = Some v → vm_visible s v = true.
Definition open_folder (k : string) : Prop := ∀ f, folders d0 !! k = Some f → folder_visible s f = true.
Definition open_vlan (k : string) : Prop := ∀ v, vlans d0 !! k = Some v → vlan_visible s v = true.

(** *** Writes that stay within *)
Lemma spare_audit d f : I d → I (d <| audit_events ::= f |>).
Proof. intros []. by split. Qed.
Lemma spare_put_host d h : open_host (h_id h) → I d → I (d <| hosts ::= <[h_id h := h]> |>).
Proof using Type.
  intros O []. split; try done. intros k r Hr Hv. cbn. rewrite lookup_insert_ne; [by apply sp_host0|].
  intros <-. rewrite (O r Hr) in Hv. done.
Qed.
Lemma spare_put_folder d f : open_folder (f_id f) → I d → I (d <| folders ::= <[f_id f := f]> |>).
Proof using Type.
  intros O []. split; try done. intros k r Hr Hv. cbn. rewrite lookup_insert_ne; [by apply sp_folder0|].
  intros <-. rewrite (O r Hr) in Hv. done.
Qed.
Lemma spare_put_vlan d v : open_vlan (vl_id v) → I d → I (d <| vlans ::= <[vl_id v := v]> |>).
Proof using Type.
  intros O []. split; try done. intros k r Hr Hv. cbn. rewrite lookup_insert_ne; [by apply sp_vlan0|].
  intros <-. rewrite (O r Hr) in Hv. done.
Qed.
Lemma spare_put_vm d v : open_vm (v_id v) → I d → I (d <| vms ::= <[v_id v := v]> |>).
Proof using Type.
  intros O []. split; try done. intros k r Hr Hv. cbn. rewrite lookup_insert_ne; [by eapply sp_vm0|].
  intros <-. rewrite (O r Hr) in Hv. done.
Qed.
Lemma spare_map_vms d (g : Vm → Vm) :
  (∀ k v, vms d0 !! k = Some v → vm_visible s v = false → g v = v) → I d → I (d <| vms ::= fmap g |>).
Proof using Type.
  intros G []. split; try done. intros k v Hk Hv. cbn. rewrite lookup_fmap, (sp_vm0 k v Hk Hv). cbn. f_equal. by eapply G.
Qed.
Lemma spare_map_vlans d (g : Vlan → Vlan) :
  (∀ k v, vlans d0 !! k = Some v → vlan_visible s v = false → g v = v) → I d → I (d <| vlans ::= fmap g |>).
Proof using Type.
  intros G []. split; try done. intros k v Hk Hv. cbn. rewrite lookup_fmap, (sp_vlan0 k v Hk Hv). cbn. f_equal. by eapply G.
Qed.
Lemma spare_delete_vlan d k : open_vlan k → I d → I (d <| vlans ::= delete k |>).
Proof using Type.
  intros O []. split; try done. intros k' r Hr Hv. cbn. rewrite lookup_delete_ne; [by apply sp_vlan0|].
  intros <-. rewrite (O r Hr) in Hv. done.
Qed.
Lemma spare_tags d k S : open_vm k → (∀ vt, vt ∈ S → vt.1 = k) →
  I d → I (d <| vm_tags ::= λ l, filter (λ vt, vt.1 ≠ k) l ∪ S |>).
Proof using Type.
  intros O HS []. split; try done. intros k' v t Hk Hv. cbn. rewrite elem_of_union, elem_of_filter. cbn.
  rewrite (sp_tagged0 k' v t Hk Hv). assert (k' ≠ k) as N by (intros ->; by rewrite (O v Hk) in Hv).
  split; [intros [[_ ?]|H%HS]; [done|by cbn in H]|by left].
Qed.
(** a new row takes a free key *)
Lemma spare_add_task k : keeps (safe I) (add_task k).
Proof using Type.
  intros w Hw. unfold add_task, add_row. rewrite run_query. destruct (tasks (w_db w) !! k_id k) eqn:E; [done|].
  destruct Hw. split; try done. intros i t Ht. cbn. rewrite lookup_insert_ne; [by apply sp_task0|].
  intros <-. apply sp_task0 in Ht. congruence.
Qed.
Lemma spare_add_vm v : keeps (safe I) (add_vm v).
Proof using Type.
  intros w Hw. unfold add_vm, add_row. rewrite run_query. destruct (vms (w_db w) !! v_id v) eqn:E; [done|].
  cbn [is_some]. unfold put_vm. rewrite run_query. destruct (slot_taken (w_db w) v); [done|].
  apply spare_put_vm; [|done]. intros r Hr. destruct (vm_visible s r) eqn:Ev; [done|].
  rewrite (sp_vm _ _ _ Hw _ _ Hr Ev) in E. done.
Qed.
Lemma free_host w k : I (w_db w) → hosts (w_db w) !! k = None → open_host k.
Proof using Type. intros Hw E r Hr. destruct (sees_host s k) eqn:Ev; [done|]. by rewrite (sp_host _ _ _ Hw _ _ Hr Ev) in E. Qed.
Lemma free_folder w k : I (w_db w) → folders (w_db w) !! k = None → open_folder k.
Proof using Type. intros Hw E r Hr. destruct (folder_visible s r) eqn:Ev; [done|]. by rewrite (sp_folder _ _ _ Hw _ _ Hr Ev) in E. Qed.
Lemma free_vlan w k : I (w_db w) → vlans (w_db w) !! k = None → open_vlan k.
Proof using Type. intros Hw E r Hr. destruct (vlan_visible s r) eqn:Ev; [done|]. by rewrite (sp_vlan _ _ _ Hw _ _ Hr Ev) in E. Qed.

(** *** Who is within *)
Lemma vm_on_visible_host v : sees_host s (v_host_id v) = true → vm_visible s v = true.
Proof using Type. intros H. unfold vm_visible. by rewrite H, orb_true_r. Qed.
(** a VM outside the scope is in no folder of it *)
Lemma outside_folder k v fid :
  vms d0 !! k = Some v → vm_visible s v = false → v_folder_id v = Some fid →
  ∃ f, folders d0 !! fid = Some f ∧ folder_visible s f = false.
Proof using W limited covers.
  intros Hk Hv Hf. destruct (wp_vm_folder d0 W k v fid Hk Hf) as (f & Hfo & Fit). exists f. split; [done|].
  destruct (wp_vm_placed d0 W k v Hk) as (h & Hh & Ec).
  unfold folder_visible, placed_visible, folder_fits in *. rewrite limited. cbn [orb].
  destruct (sees_host s (v_host_id v)) eqn:Eh; [by rewrite (vm_on_visible_host v Eh) in Hv|].
  pose proof (wp_folder_scoped d0 W fid f Hfo) as Sc. unfold folder_scoped in Sc.
  destruct (f_cluster_id f) as [c|] eqn:Efc, (f_host_id f) as [hid|]; try done; cbn.
  - destruct (sees_cluster s (Some c)) eqn:Es; [|done].
    rewrite (covers _ h c Hh) in Eh; [done|congruence|done].
  - destruct Fit as [_ [= ->]]. done.
Qed.
Lemma spare_delete_folders d p :
  (∀ k f, folders d0 !! k = Some f → folder_visible s f = false → p f = false) → I d → I (delete_folders p d).
Proof using W limited covers.
  intros P H. pose proof H as []. split; try done.
  - intros k v Hk Hv. unfold delete_folders. cbn. rewrite lookup_fmap, (sp_vm0 k v Hk Hv). cbn. f_equal.
    destruct (v_folder_id v) as [fid|] eqn:Ef; [|done]. destruct (outside_folder k v fid Hk Hv Ef) as (f & Hfo & Hfv).
    by rewrite (sp_folder0 fid f Hfo Hfv), (P fid f Hfo Hfv).
  - intros k f Hk Hv. apply delete_folders_folder. split; [by apply sp_folder0|by eapply P].
Qed.
Lemma spare_delete_vm d k : open_vm k → I d → I (delete_vms (λ v, String.eqb (v_id v) k) d).
Proof using W.
  intros O H. pose proof H as []. unfold delete_vms.
  assert (∀ i v, vms d0 !! i = Some v → vm_visible s v = false → String.eqb (v_id v) k = false) as N.
  { intros i v Hi Hv. apply String.eqb_neq. intros E. rewrite (wp_vm_key d0 W i v Hi) in E. subst.
    by rewrite (O v Hi) in Hv. }
  split; try done.
  - intros i v Hi Hv. cbn. apply lookup_keep. split; [by eapply sp_vm0|]. by rewrite (N i v Hi Hv).
  - intros i v t Hi Hv. cbn. rewrite elem_of_filter. cbn. rewrite (sp_tagged0 i v t Hi Hv), (sp_vm0 i v Hi Hv), (N i v Hi Hv).
    tauto.
Qed.

(** *** Computations that stay within *)
Lemma safe_record a action t ty task details : keeps (safe I) (record a action t ty task details).
Proof using Type. unfold record. safe. apply spare_audit. Qed.
Lemma safe_record_diff a action t before after : keeps (safe I) (record_diff a action t before after).
Proof using Type. unfold record_diff. split_match; [|safe]. apply keeps_bind; [apply _|apply safe_record|intros ?; safe]. Qed.
Lemma safe_set_details e details : keeps (safe I) (set_details e details).
Proof using Type. apply safe_exec. intros d. apply spare_audit. Qed.
Lemma safe_put_host h : open_host (h_id h) → keeps (safe I) (put_host h).
Proof using Type. intros O. apply safe_exec. intros d. by apply spare_put_host. Qed.
Lemma safe_put_folder f : open_folder (f_id f) → keeps (safe I) (put_folder f).
Proof using Type. intros O. apply safe_exec. intros d. by apply spare_put_folder. Qed.
Lemma safe_put_vlan v : open_vlan (vl_id v) → keeps (safe I) (put_vlan v).
Proof using Type. intros O. apply safe_exec. intros d. by apply spare_put_vlan. Qed.
Lemma safe_save_vm v : open_vm (v_id v) → keeps (safe I) (save_vm v).
Proof using Type. intros O. apply safe_exec. intros d. by apply spare_put_vm. Qed.

#[local] Hint Resolve safe_record safe_record_diff safe_set_details safe_put_host safe_put_folder safe_put_vlan
  safe_save_vm spare_add_task spare_add_vm : confine.
Ltac within := repeat first
  [ solve [eauto with confine nocore]
  | solve [apply safe_same; keep]
  | keep_step ].

(** *** The service operations *)
Lemma safe_add_host {B} h (k : unit → M B) :
  (open_host (h_id h) → keeps (safe I) (k tt)) → keeps (safe I) (add_host h ≫= k).
Proof using Type.
  intros Hk w Hw. unfold add_host, mbind, M_bind, add_row. rewrite run_query.
  destruct (hosts (w_db w) !! h_id h) eqn:E; [done|]. cbn [is_some].
  pose proof (free_host w (h_id h) Hw E) as O.
  pose proof (safe_put_host h O w Hw) as Hp. destruct (put_host h w) as [[[]|e] w1]; [|done]. by apply (Hk O).
Qed.
Lemma safe_add_folder f : keeps (safe I) (add_folder f).
Proof using Type.
  intros w Hw. unfold add_folder, add_row. rewrite run_query.
  destruct (folders (w_db w) !! f_id f) eqn:E; [done|]. cbn [is_some].
  by apply (safe_put_folder f (free_folder w _ Hw E)).
Qed.
Lemma safe_add_vlan v : keeps (safe I) (add_row vlans (vl_id v) (put_vlan v)).
Proof using Type.
  intros w Hw. unfold add_row. rewrite run_query.
  destruct (vlans (w_db w) !! vl_id v) eqn:E; [done|]. cbn [is_some].
  by apply (safe_put_vlan v (free_vlan w _ Hw E)).
Qed.
Lemma safe_provision h : open_host (h_id h) → keeps (safe I) (provision_host_agent_user h).
Proof using Type.
  intros O. unfold provision_host_agent_user.
  apply (keeps_returns _ (λ hc, h_id hc.1 = h_id h)); [within|apply credentials_id|].
  intros hc E. rewrite <- E in O. pose proof (safe_put_host hc.1 O) as P. within; exact P.
Qed.
Lemma safe_create_host name c hv : keeps (safe I) (create_host name c hv).
Proof using Type.
  unfold create_host, new_host_short_id. repeat (lazymatch goal with
    | |- keeps _ (add_host _ ≫= _) => fail
    | |- _ => first [solve [apply safe_same; keep]|keep_step] end).
  apply safe_add_host. intros O. pose proof (safe_provision _ O) as P. within.
Qed.
Lemma safe_move_host h c :
  sees_host s (h_id h) = true → open_host (h_id h) → keeps (safe I) (move_host h c).
Proof using W limited covers.
  intros Hs O. unfold move_host. within.
  - apply safe_exec. intros d. apply spare_map_vms. intros k v Hk Hv.
    destruct (String.eqb_spec (v_host_id v) (h_id h)) as [E|]; [|done].
    rewrite vm_on_visible_host in Hv; [done|congruence].
  - apply safe_exec. intros d. apply spare_delete_folders. intros k f Hk Hv. apply bool_decide_eq_false. intros E.
    unfold folder_visible, placed_visible in Hv. by rewrite E, Hs, orb_true_r in Hv.
Qed.
Lemma safe_create_folder name c h : keeps (safe I) (create_folder name c h).
Proof using Type. unfold create_folder. pose proof safe_add_folder. within; auto. Qed.
Lemma safe_rename_folder f name : open_folder (f_id f) → keeps (safe I) (rename_folder f name).
Proof using Type. intros O. unfold rename_folder. within. Qed.
Lemma safe_delete_folder f : open_folder (f_id f) → keeps (safe I) (delete_folder f).
Proof using W limited covers.
  intros O. unfold delete_folder. within. apply safe_exec. intros d. apply spare_delete_folders.
  intros k g Hk Hv. apply String.eqb_neq. intros E. rewrite (wp_folder_key d0 W k g Hk) in E. subst.
  by rewrite (O g Hk) in Hv.
Qed.
Lemma safe_move_vm v fid : open_vm (v_id v) → keeps (safe I) (move_vm_to_folder v fid).
Proof using Type. intros O. unfold move_vm_to_folder. within. Qed.
Lemma safe_clear_default c h :
  (∀ k v, vlans d0 !! k = Some v → vlan_visible s v = false → in_scope c h v = false) → keeps (safe I) (clear_default c h).
Proof using Type.
  intros P. apply safe_exec. intros d. apply spare_map_vlans. intros k v Hk Hv. by rewrite (P k v Hk Hv).
Qed.
Lemma safe_set_tags v ids : open_vm (v_id v) → keeps (safe I) (set_vm_tags v ids).
Proof using Type.
  intros O. unfold set_vm_tags, conflict. within.
  apply safe_exec. intros d. apply spare_tags; [exact O|]. intros vt. rewrite elem_of_list_to_set.
  by intros (t & -> & _)%list_elem_of_fmap.
Qed.
Lemma safe_request_action v action by_ params :
  open_vm (v_id v) → keeps (safe I) (request_vm_action v action by_ params).
Proof using Type.
  intros O. unfold request_vm_action, queue_vm_task, submit_vm_task, mk_request. within.
Qed.
Lemma safe_new_vm v h fn params by_ : keeps (safe I) (submit_new_vm v h fn params by_).
Proof using Type. unfold submit_new_vm, mk_request. within. Qed.
Lemma safe_create_vm h b by_ : keeps (safe I) (request_vm_create h b by_).
Proof using Type. unfold request_vm_create, vlan_nics. pose proof safe_new_vm. within; auto. Qed.
Lemma safe_clone_vm b h by_ : keeps (safe I) (request_vm_clone b h by_).
Proof using Type. unfold request_vm_clone, clone_from_vm, clone_from_template, vlan_nics. pose proof safe_new_vm. within; auto. Qed.
Lemma safe_remove_vm v : open_vm (v_id v) → keeps (safe I) (remove_vm_from_inventory v).
Proof using W.
  intros O. unfold remove_vm_from_inventory. within. apply safe_exec. intros d. by apply spare_delete_vm.
Qed.
Lemma safe_host_action h action by_ : keeps (safe I) (request_host_action h action by_).
Proof using Type. unfold request_host_action, mk_request. within. Qed.
#[local] Hint Resolve safe_provision safe_create_host safe_create_folder safe_rename_folder safe_delete_folder
  safe_move_vm safe_set_tags safe_request_action safe_create_vm safe_clone_vm safe_remove_vm safe_host_action
  safe_add_vlan : confine.

(** a VLAN outside the scope is in no scope the caller may write to *)
Lemma outside_vlan c h k v :
  Bool.eqb (given_str c) (given_str h) = false → may_create_in s c h = true →
  vlans d0 !! k = Some v → vlan_visible s v = false → in_scope c h v = false.
Proof using limited.
  unfold may_create_in, vlan_visible, placed_visible, in_scope, in_cluster, on_host, sees_cluster, sees_host, given_str.
  rewrite limited. cbn [orb]. intros Eg Hm _ Hv. apply orb_false_elim in Hv as [Hc Hh].
  assert (∀ x, id_in (Some x) (sc_cluster_ids s) = true → bool_decide (vl_cluster_id v = Some x) = false) as NC.
  { intros x Hx. apply bool_decide_eq_false. intros E. rewrite E in Hc. cbn in Hc, Hx. congruence. }
  assert (∀ x, bool_decide (x ∈ sc_host_ids s) = true → bool_decide (vl_host_id v = Some x) = false) as NH.
  { intros x Hx. apply bool_decide_eq_false. intros E. rewrite E in Hh. congruence. }
  destruct c as [c|], h as [h|]; cbn [default from_option id] in Hm; try destruct (str_nonempty c);
    try destruct (str_nonempty h); try done; cbn [andb orb] in Hm; rewrite ?orb_false_r in Hm; auto.
Qed.
Lemma safe_create_vlan name tag descr dflt c h :
  may_create_in s c h = true → keeps (safe I) (create_vlan name tag descr dflt c h).
Proof using limited.
  intros Hm. unfold create_vlan. destruct (Bool.eqb (given_str c) (given_str h)) eqn:Eg; [within|].
  assert (keeps (safe I) (clear_default c h)) as P.
  { apply safe_clear_default. intros k v. by apply outside_vlan. }
  pose proof safe_add_vlan. within; try exact P.
  match goal with |- keeps _ (add_row vlans ?i (put_vlan ?v)) => exact (safe_add_vlan v) end.
Qed.
Lemma safe_update_vlan k v name descr dflt :
  vlans d0 !! k = Some v → vlan_visible s v = true → keeps (safe I) (update_vlan v name descr dflt).
Proof using V limited.
  intros Hk Hv. assert (open_vlan (vl_id v)) as O.
  { intros u. rewrite (vo_key d0 V k v Hk), Hk. by intros [= <-]. }
  pose proof (vo_scoped d0 V k v Hk) as Sc.
  assert (keeps (safe I) (clear_default (vl_cluster_id v) (vl_host_id v))) as P.
  { apply safe_clear_default. intros i u. apply outside_vlan.
    - unfold vlan_scoped in Sc. destruct (vl_cluster_id v) as [[]|], (vl_host_id v) as [[]|]; cbn; naive_solver.
    - unfold vlan_visible, placed_visible in Hv. unfold may_create_in. rewrite limited in *. cbn in *.
      unfold vlan_scoped in Sc. destruct (vl_cluster_id v) as [[]|], (vl_host_id v) as [[]|]; cbn in *; naive_solver. }
  unfold update_vlan. cbv zeta. within;
    first [destruct descr; exact P | apply safe_put_vlan; destruct descr, dflt; exact O].
Qed.

(** *** Handlers, from the state the scope was resolved in *)
Definition confines {A} (m : M A) : Prop :=
  ∀ w, w_db w = d0 → wp m (λ _ w', I (w_db w')) (λ _ _, True) w.
Lemma confines_safe {A} (m : M A) : keeps (safe I) m → confines m.
Proof using Type.
  intros H w E. specialize (H w). unfold safe in H. rewrite E in H. specialize (H (spared_refl s d0)).
  unfold wp. by destruct (m w) as [[a|e] w'].
Qed.
Lemma confines_raise {A} e : confines (raise (A := A) e).
Proof using Type. by intros w _. Qed.
Lemma confines_assoc {A B C} (m : M A) (f : A → M B) (g : B → M C) :
  confines (m ≫= λ a, f a ≫= g) → confines ((m ≫= f) ≫= g).
Proof using Type. intros H w E. unfold wp. rewrite run_assoc. by apply H. Qed.
Lemma confines_ret {A B} (a : A) (k : A → M B) : confines (k a) → confines (mret a ≫= k).
Proof using Type. done. Qed.
Lemma confines_read {A B} (m : M A) (k : A → M B) :
  keeps (same w_db) m → (∀ a, confines (k a)) → confines (m ≫= k).
Proof using Type. intros Hm Hk w E. apply wp_read; [done|]. intros a w' _ E'. apply Hk. by rewrite E'. Qed.
Lemma confines_require {B} b msg (k : unit → M B) : (b = true → confines (k tt)) → confines (require b msg ≫= k).
Proof using Type. intros H. destruct b; [by apply H|]. by intros w _. Qed.
Lemma confines_found {A B} (table : database → gmap string A) id what (k : A → M B) :
  (∀ r, table d0 !! id = Some r → confines (k r)) → confines (found (query (λ d, table d !! id)) what ≫= k).
Proof using Type.
  intros H w E. unfold wp, found. rewrite run_assoc, run_query, E. destruct (table d0 !! id) eqn:Er; [by apply H|done].
Qed.

(** a refusal *)
Lemma confines_denied {B} msg (k : unit → M B) : confines (require (sc_all s) msg ≫= k).
Proof using limited. apply confines_require. by rewrite limited. Qed.

(** the rows a route loads *)
Lemma confines_host {B} id (k : Host → M B) :
  (∀ h, sees_host s (h_id h) = true → open_host (h_id h) → confines (k h)) → confines (get_visible_host s id ≫= k).
Proof using Type.
  intros H. apply confines_assoc. apply (confines_found hosts). intros h Hh. apply confines_assoc, confines_require.
  intros Hv. apply confines_ret, H; [done|]. by intros r _.
Qed.
Lemma confines_folder {B} id (k : Folder → M B) :
  (∀ f, open_folder (f_id f) → confines (k f)) → confines (get_visible_folder s id ≫= k).
Proof using W.
  intros H. apply confines_assoc. apply (confines_found folders). intros f Hf. apply confines_assoc, confines_require.
  intros Hv. apply confines_ret, H. intros g. rewrite (wp_folder_key d0 W _ _ Hf), Hf. by intros [= <-].
Qed.
Lemma confines_vlan {B} id (k : Vlan → M B) :
  (∀ v, vlans d0 !! id = Some v → vlan_visible s v = true → open_vlan (vl_id v) → confines (k v)) →
  confines (get_visible_vlan s id ≫= k).
Proof using V.
  intros H. apply confines_assoc. apply (confines_found vlans). intros v Hk. apply confines_assoc, confines_require.
  intros Hv. apply confines_ret, H; [done..|]. intros u. rewrite (vo_key d0 V _ _ Hk), Hk. by intros [= <-].
Qed.
Lemma confines_vm {B} id (k : Vm → M B) :
  (∀ v, open_vm (v_id v) → confines (k v)) → confines (get_visible_vm s id ≫= k).
Proof using W.
  intros H. apply confines_assoc. apply (confines_found vms). intros v Hk. apply confines_assoc, confines_require.
  intros Hv. apply confines_ret, H. intros u. rewrite (wp_vm_key d0 W _ _ Hk), Hk. by intros [= <-].
Qed.
Lemma confines_target {B} id (k : Host → M B) : (∀ h, confines (k h)) → confines (target_host s id ≫= k).
Proof using Type.
  intros H. apply confines_assoc. apply (confines_found hosts). intros h _. apply confines_assoc, confines_require.
  intros _. by apply confines_ret.
Qed.
(** the handler's shape, down to its first effect *)
Ltac enter := repeat lazymatch goal with
  | |- confines (require (sc_all _) _ ≫= _) => apply confines_denied
  | |- confines (raise _) => apply confines_raise
  | |- confines (get_visible_host _ _ ≫= _) => apply confines_host; intros ? ? ?
  | |- confines (get_visible_folder _ _ ≫= _) => apply confines_folder; intros ? ?
  | |- confines (get_visible_vlan _ _ ≫= _) => apply confines_vlan; intros ? ? ? ?
  | |- confines (get_visible_vm _ _ ≫= _) => apply confines_vm; intros ? ?
  | |- confines (target_host _ _ ≫= _) => apply confines_target; intros ?
  | |- confines ((_ ≫= _) ≫= _) => apply confines_assoc
  end.

(** *** Every handler *)
Lemma safe_update_host {hw} (mv : dict → option hw) user h body :
  sees_host s (h_id h) = true → open_host (h_id h) →
  keeps (safe I) (h ← match hu_cluster_id body with Some c => move_part s user h c | None => mret h end;
                  let before := name_fields h in
                  h ← renamed body h;
                  put_host h;;
                  record_diff user "host.update" (THost h) before (name_fields h);;
                  host_detail mv h).
Proof using W limited covers.
  intros Hs O. apply (keeps_returns _ (λ h', h_id h' = h_id h)).
  - destruct (hu_cluster_id body) as [c|]; [|within]. pose proof (safe_move_host h c Hs O) as P.
    unfold move_part. within.
  - destruct (hu_cluster_id body) as [c|]; [apply move_part_id|by apply returns_ret].
  - intros h1 E1. cbv zeta. apply (keeps_returns _ (λ h', h_id h' = h_id h1));
      [unfold renamed; within|apply renamed_id|].
    intros h2 E2. rewrite <- E1, <- E2 in O. within.
Qed.
Section handlers.
Context {hardware : Type} (model_validate : dict → option hardware).
Context (repo_root : path) (presign : string → string → string → Z → string).
Context (put_file : AgentStore → string → string → string → M unit) (remove_file : AgentStore → string → M unit).

Lemma handle_confines user r :
  confines (handle model_validate repo_root presign put_file remove_file s user r).
Proof using W V limited covers.
  destruct r; cbn [handle];
    try (unfold add_cluster_route, edit_cluster, remove_cluster, admin_cluster, add_tag_category, patch_tag_category,
      remove_tag_category, admin_category, add_tag, patch_tag, remove_tag, admin_tag, require_tag_admin, remove_host,
      get_host_agent_config, get_host_agent_install_url, update_host_agent, get_admin_host, release_locks, release_lock;
      solve [enter]);
    try (unfold upload_agent_binary, update_agent_binary, delete_agent_binary, rollout_agent_binary, require_admin;
      rewrite limited; by intros w _).
  - unfold add_folder_route. enter. apply confines_require. intros _. apply confines_safe. within.
  - unfold patch_folder. enter. apply confines_safe. within.
  - unfold remove_folder. enter. apply confines_safe. within.
  - unfold add_vlan. enter. apply confines_require. intros Hm. apply confines_safe.
    pose proof (safe_create_vlan name vlan_id description is_default cluster_id host_id Hm). within.
  - unfold patch_vlan. enter. apply confines_safe.
    pose proof (safe_update_vlan id v name description is_default H H0). within.
  - unfold remove_vlan. enter. apply confines_safe. unfold delete_vlan. within. apply safe_exec. intros d.
    by apply spare_delete_vlan.
  - unfold add_host_route. enter. apply confines_require. intros _. apply confines_safe. within.
  - unfold update_host. apply confines_assoc, confines_host. intros h Hs O. apply confines_safe, keeps_bind;
      [apply _|by apply safe_update_host|intros ?; within].
  - unfold host_action. enter. apply confines_safe. within.
  - unfold create_vm. enter. apply confines_safe. within.
  - unfold clone_vm. enter. apply confines_safe. within.
  - unfold move_vm. enter. apply confines_safe. within.
  - unfold put_vm_tags. enter. apply confines_safe. within.
  - unfold vm_action. enter. apply confines_read; [keep|]. intros _. enter. apply confines_safe. within.
  - unfold delete_vm. enter. apply confines_safe. within.
  - unfold forget_vm. enter. apply confines_safe. within.
Qed.
End handlers.
End confined.

(** ** The theorem *)
Lemma resolved_covers user w s k h c :
  sited (w_db w) → resolve_scope user w = (Ok s, w) → sc_all s = false →
  hosts (w_db w) !! k = Some h → h_cluster_id h = Some c → sees_cluster s (Some c) = true → sees_host s k = true.
Proof.
  intros W Hr Hl Hk Hc. destruct (resolve_scope_run user w) as (s' & Hr' & Hs). rewrite Hr in Hr'.
  injection Hr' as <-. destruct Hs as [[E _]|(_ & _ & Cs & Hs & _)]; [congruence|].
  unfold sees_cluster, sees_host. rewrite Hl. cbn. rewrite !bool_decide_eq_true, Cs, Hs. intros G. right.
  exists k, h, c. split_and!; try done. by apply (wp_host_key (w_db w) W).
Qed.

(** C2: a scoped principal cannot reach past its scope.  Whatever
    state-changing request a principal without global rights sends, and
    whatever it answers, every host, VM, folder and VLAN outside the scope its
    grants resolve to is byte for byte what it was, the tags of those VMs
    included; no task row is altered, and clusters, the tag catalogue, images,
    accounts, grants and agent builds are untouched. *)
Theorem scoped_requests_confined {hardware} (model_validate : dict → option hardware) repo_root presign put_file
    remove_file user r w :
  sited (w_db w) → vlans_ok (w_db w) → ¬ sees_all w user →
  ∃ s, resolve_scope user w = (Ok s, w) ∧ sc_all s = false ∧
    spared s (w_db w) (w_db (serve model_validate repo_root presign put_file remove_file user r w).2).
Proof.
  intros W V Hn. destruct (resolve_scope_run user w) as (s & Hr & Hs). exists s. split; [done|].
  destruct Hs as [[_ ?]|(Hl & _)]; [done|]. split; [done|].
  pose proof (handle_confines s (w_db w) W V Hl
    (λ k h c, resolved_covers user w s k h c W Hr Hl) model_validate repo_root presign put_file remove_file user r w eq_refl) as H.
  unfold serve, session_scope, savepoint. rewrite (run_ok _ _ _ _ _ Hr). unfold wp in H.
  destruct (handle _ _ _ _ _ s user r w) as [[a|e] w']; [exact H|]. apply spared_refl.
Qed.
(** two standalone hosts, one VM on each, and an operator of the first *)
Definition scope_world : world :=
  let host id := bare_host id id None id "hyperv" in
  let vm id h := sample_vm <| v_id := id |> <| v_vm_uuid := Some id |> <| v_host_id := h |> <| v_folder_id := None |> in
  sample_world <| w_db := empty_db <| hosts := {["h1" := host "h1"; "h2" := host "h2"]} |>
                                   <| vms := {["v1" := vm "v1" "h1"; "v2" := vm "v2" "h2"]} |>
                                   <| grants := {["g1" := mkScopeGrant "g1" "u1" "host" (Some "h1")]} |> |>.
Definition operator : User := mkUser "u1" "op@ovc" None true None.
Lemma scope_world_placed : sited (w_db scope_world).
Proof.
  split; intros *; cbn; try by rewrite lookup_empty.
  - intros [[<- <-]|[_ [<- <-]%lookup_singleton_Some]]%lookup_insert_Some; done.
  - intros [[<- <-]|[_ [<- <-]%lookup_singleton_Some]]%lookup_insert_Some; done.
  - intros [[<- <-]|[_ [<- <-]%lookup_singleton_Some]]%lookup_insert_Some; done.
  - intros [[<- <-]|[_ [<- <-]%lookup_singleton_Some]]%lookup_insert_Some; cbn; eexists; (split; [vm_compute; reflexivity|done]).
  - intros [[<- <-]|[_ [<- <-]%lookup_singleton_Some]]%lookup_insert_Some; done.
Qed.
Lemma vlans_ok_empty_of w : vlans (w_db w) = ∅ → vlans_ok (w_db w).
Proof. intros E. split; intros *; rewrite E, lookup_empty; done. Qed.
Lemma scope_world_limited : ¬ sees_all scope_world operator.
Proof.
  intros [H|(k & g & H & _ & Hl)]; [by apply not_elem_of_nil in H|].
  cbn in H. apply lookup_singleton_Some in H as [<- <-]. done.
Qed.
Lemma scoped_requests_confined_witness :
  let run r := (serve (λ _, Some tt) [] (λ _ _ _ _, "") (λ _ _ _ _, mret tt) (λ _ _, mret tt) operator r scope_world).2 in
  (h_name <$> hosts (w_db (run (UpdateHost "h1" (mkHostUpdate (Some (Some "renamed")) None None)))) !! "h1")
    = Some "renamed" ∧
  vms (w_db (run (ForgetVm "v2"))) !! "v2" = vms (w_db scope_world) !! "v2".
Proof.
  cbv zeta. split; [vm_compute; reflexivity|].
  destruct (scoped_requests_confined (λ _, Some tt) [] (λ _ _ _ _, "") (λ _ _ _ _, mret tt) (λ _ _, mret tt) operator
    (ForgetVm "v2") scope_world scope_world_placed (vlans_ok_empty_of scope_world eq_refl) scope_world_limited)
    as (s & Hs & _ & Hsp).
  apply (sp_vm _ _ _ Hsp "v2"); [vm_compute; reflexivity|].
  assert ((resolve_scope operator scope_world).1 = Ok (mkScope false ∅ {["h1"]} ∅)) as Hr by (vm_compute; reflexivity).
  rewrite Hs in Hr. injection Hr as ->.
  vm_compute. reflexivity.
Defined.
