(* ===== verification/Program.v ===== *)
(** * The backend as one transition system

    Every way the program acts on its world - an HTTP request, a message the
    worker consumes, a sweep, the start-up check, a sign-in, the clock - as one
    step relation.  [History] and [Soundness] state what every sequence of steps
    keeps. *)
From S2P Require Import Prelude Py Clock Model World Store Messaging Auth Normalize.
From S2P Require Import AgentStore AgentBinaries Consumers Sweeper Startup RoutesHosts Access.
Open Scope string_scope.
Open Scope Z_scope.

(** what a transfer of file contents and a read-only probe leave alone *)
Definition aside (w : world) := (w_seq w, w_uuid4 w, w_cfg w, w_now w, w_db w).
(** other transactions commit accounts and grants only *)
Definition users_only (race : database → database) : Prop :=
  ∀ d, ∃ us gs, race d = d <| users := us |> <| grants := gs |>.

Section program.
Context {hardware : Type} (model_validate : dict → option hardware) (validate_response : json → option AgentResponse).
Context (repo_root : path) (presign : string → string → string → Z → string).
Context (put_file : AgentStore → string → string → string → M unit) (remove_file : AgentStore → string → M unit).
Context (loads : string → option json) (verify : string → dict + string) (race : database → database).
Context (check_database check_schema : M unit).

(** what happens to the world next *)
Inductive step (w : world) : world → Prop :=
  | Served user r : step w (serve model_validate repo_root presign put_file remove_file user r w).2
  | SignedIn header : step w (session_scope (get_current_user race verify header) w).2
  | Installed host_id exp token : step w (session_scope (get_host_agent_install_script repo_root presign host_id exp token) w).2
  | Consumed host kind body : step w (deliver loads validate_response host kind body w).2
  | Expired : step w (timeout_sweeper_pass w).2
  | Trimmed : step w (metrics_retention_pass w).2
  | Pruned : step w (audit_retention_pass w).2
  | Started : step w (run_preflight check_database check_schema w).2
  (** time passes; agents and operators act on Valkey and on the broker, which come and go *)
  | Ticked t : 0 ≤ t → step w (w <| w_now ::= Z.add t |>)
  | Elsewhere c q b b' : step w (w <| w_cache := c |> <| w_mq := q |> <| w_cache_up := b |> <| w_broker_up := b' |>).

(** what the code relies on of the world around it *)
Record environment : Prop := {
  env_transfers s k c t : keeps (same aside) (put_file s k c t);
  env_removals s k : keeps (same aside) (remove_file s k);
  env_race : users_only race;
  env_database : keeps (same aside) check_database;
  env_schema : keeps (same aside) check_schema
}.
End program.

(** transfers, probes and other transactions that do nothing *)
Lemma quiet_environment : environment (λ _ _ _ _, mret tt) (λ _ _, mret tt) id (mret tt) (mret tt).
Proof.
  split; [intros; intros ?; reflexivity|intros; intros ?; reflexivity| |intros ?; reflexivity|intros ?; reflexivity].
  intros d. exists (users d), (grants d). by destruct d.
Qed.

(** ** Handlers of particular errors, and the constants a handler is made of *)
Section catches.
Context (T : world → world → Prop) `{!PreOrder T}.
Lemma keeps_catch_store {A} (m : M A) h : keeps T m → (∀ msg, keeps T (h msg)) → keeps T (catch_store m h).
Proof using All.
  intros Hm Hh w. specialize (Hm w). unfold catch_store. destruct (m w) as [[a|[]] w']; try exact Hm. etrans; [exact Hm|apply Hh].
Qed.
Lemma keeps_catch_api {A} (m : M A) h : keeps T m → (∀ e, keeps T (h e)) → keeps T (catch_api m h).
Proof using All.
  intros Hm Hh w. specialize (Hm w). unfold catch_api. destruct (m w) as [[a|[]] w']; try exact Hm. etrans; [exact Hm|apply Hh].
Qed.
Lemma keeps_catch_integrity {A} (m h : M A) : keeps T m → keeps T h → keeps T (catch_integrity m h).
Proof using All.
  intros Hm Hh w. specialize (Hm w). unfold catch_integrity. destruct (m w) as [[a|[]] w']; try exact Hm. etrans; [exact Hm|apply Hh].
Qed.
End catches.
Ltac open_head m := lazymatch m with ?f _ => open_head f | ?f => unfold f end.
Ltac catch_step := lazymatch goal with
  | |- keeps _ (catch_store _ _) => apply keeps_catch_store; [try apply _| |intros ?]
  | |- keeps _ (catch_api _ _) => apply keeps_catch_api; [try apply _| |intros ?]
  | |- keeps _ (catch_integrity _ _) => apply keeps_catch_integrity; [try apply _| |]
  end.
