(* ===== verification/History.v ===== *)
(** * What every history keeps of tasks and of the audit trail

    A preorder on worlds that each computation of the program respects; through
    any sequence of steps of [Program] it yields the life of a task row and the
    append-only audit trail. *)
From S2P Require Import Prelude Py Clock Model World Store Cache AuditLog Rbac Normalize Serializers Messaging.
From S2P Require Import Hosts Organization Networking Tags HostActions AgentStore AgentBinaries AgentInstall Auth.
From S2P Require Import Inventory Response Vms Sweeper Consumers Startup RoutesOrg RoutesHosts RoutesVms Access Program.
Open Scope string_scope.
Open Scope Z_scope.

(** ** What a row may become *)

(** how far a task is *)
Definition rank (status : string) : nat :=
  if String.eqb status "queued" then 0 else if String.eqb status "running" then 1 else 2.
Record evolves (k k' : Task) : Prop := {
  ev_identity :
    (k_id k', k_kind k', k_target_type k', k_target_id k', k_target_name k', k_host_id k', k_requested_by k',
     k_created_at k', k_request_payload k', k_correlation_id k') =
    (k_id k, k_kind k, k_target_type k, k_target_id k, k_target_name k, k_host_id k, k_requested_by k,
     k_created_at k, k_request_payload k, k_correlation_id k);
  ev_rank : (rank (k_status k) ≤ rank (k_status k'))%nat;
  ev_started t : k_started_at k = Some t → k_started_at k' = Some t
}.
#[export] Instance evolves_preorder : PreOrder evolves.
Proof.
  split; [by split|]. intros a b c [I1 R1 S1] [I2 R2 S2]. split; [congruence|lia|auto].
Qed.
(** everything but an outcome still pending, and its error, is as it was *)
Record frozen (e e' : AuditEvent) : Prop := {
  fz_identity :
    (ae_id e', ae_occurred_at e', ae_actor_type e', ae_actor_email e', ae_actor_name e', ae_action e', ae_target_type e',
     ae_target_id e', ae_target_name e', ae_host_id e', ae_cluster_id e', ae_task_id e', ae_details e') =
    (ae_id e, ae_occurred_at e, ae_actor_type e, ae_actor_email e, ae_actor_name e, ae_action e, ae_target_type e,
     ae_target_id e, ae_target_name e, ae_host_id e, ae_cluster_id e, ae_task_id e, ae_details e);
  fz_outcome : ae_outcome e ≠ "pending" → ae_outcome e' = ae_outcome e ∧ ae_error e' = ae_error e
}.
#[export] Instance frozen_preorder : PreOrder frozen.
Proof.
  split; [by split|]. intros a b c [I1 O1] [I2 O2]. split; [congruence|]. intros H. destruct (O1 H) as [E1 E2].
  destruct O2; [congruence|]. split; congruence.
Qed.
(** past the retention of the settings *)
Definition aged (w : world) (e : AuditEvent) : Prop :=
  0 < audit_retention_days (w_cfg w) ∧ instant (ae_occurred_at e) < w_now w - days (audit_retention_days (w_cfg w)).

Section history.
Context (w0 : world).
(** an id drawn since [w0] *)
Definition drawn (id : string) : Prop := ∃ n, (w_seq w0 ≤ n)%nat ∧ id = w_uuid4 w0 n.
Record hist (w : world) : Prop := {
  hi_fixed : w_uuid4 w = w_uuid4 w0 ∧ w_cfg w = w_cfg w0;
  hi_forward : (w_seq w0 ≤ w_seq w)%nat ∧ w_now w0 ≤ w_now w;
  hi_keyed id k : tasks (w_db w) !! id = Some k → k_id k = id;
  hi_tasks id k' : tasks (w_db w) !! id = Some k' →
    (∃ k, tasks (w_db w0) !! id = Some k ∧ evolves k k') ∨ drawn id;
  hi_events e : e ∈ audit_events (w_db w0) → ¬ drawn (ae_id e) → (∃ e', e' ∈ audit_events (w_db w) ∧ frozen e e') ∨ aged w e
}.
Definition core (w : world) := (w_uuid4 w, w_cfg w, w_now w, tasks (w_db w), audit_events (w_db w)).
(** one computation inside a step: the clock stands still *)
Definition under (w w' : world) : Prop := hist w → hist w' ∧ w_now w' = w_now w ∧ w_cfg w' = w_cfg w.
#[export] Instance under_preorder : PreOrder under.
Proof.
  split; [by intros x Hx|]. intros x y z H1 H2 Hx. destruct (H1 Hx) as (Hy & A1 & B1), (H2 Hy) as (Hz & A2 & B2).
  split_and!; [done|congruence..].
Qed.
Lemma hist_core w w' : core w' = core w → (w_seq w ≤ w_seq w')%nat → hist w → hist w'.
Proof.
  intros [= E1 E2 E3 E4 E5] Hs [F [G1 G2] K T V]. split; rewrite ?E1, ?E2, ?E3, ?E4, ?E5; try done.
  - split; [lia|done].
  - intros e He Hd. unfold aged. rewrite E2, E3. by apply V.
Qed.
Lemma under_core w w' : core w' = core w → (w_seq w ≤ w_seq w')%nat → under w w'.
Proof. intros E Hs Hw. split; [by eapply hist_core|]. by injection E. Qed.
Lemma under_same {A} (m : M A) : keeps (same (λ w, (w_seq w, core w))) m → keeps under m.
Proof. intros H w. specialize (H w). unfold same in H. injection H as E1 E2. apply under_core; [by unfold core; congruence|lia]. Qed.
Lemma under_aside {A} (m : M A) : keeps (same aside) m → keeps under m.
Proof. intros H. apply under_same. intros w. specialize (H w). unfold same, aside, core in *. congruence. Qed.
Lemma under_scope_at {A} (m : M A) w : under w (m w).2 → under w (session_scope m w).2.
Proof.
  intros H Hw. specialize (H Hw). unfold session_scope, savepoint. destruct (m w) as [[a|e] w'] eqn:E; [done|]. cbn in *.
  destruct H as ([F G _ _ _] & A1 & B1). split_and!; [|done..].
  destruct Hw as [_ _ K T V]. split; try done. intros ev Hev Hd. unfold aged. cbn. rewrite A1, B1. by apply V.
Qed.
Lemma under_scope {A} (m : M A) : keeps under m → keeps under (session_scope m).
Proof. intros H w. by apply under_scope_at. Qed.
Lemma under_new_id {A} (k : string → M A) : (∀ id, drawn id → keeps under (k id)) → keeps under (new_id ≫= k).
Proof.
  intros H w Hw. rewrite run_new_id. set (w1 := w <| w_seq ::= S |>).
  destruct (under_core w w1 eq_refl ltac:(cbn; lia) Hw) as (H1 & A1 & B1).
  assert (drawn (w_uuid4 w (w_seq w))) as Hid.
  { exists (w_seq w). destruct Hw as [[-> _] [? _] _ _ _]. done. }
  destruct (H _ Hid w1 H1) as (H2 & A2 & B2). split_and!; [done|congruence..].
Qed.
(** a change of the tables *)
Lemma under_exec f :
  (∀ w, hist w → hist (w <| w_db ::= f |>)) → keeps under (exec f).
Proof. intros H w Hw. cbn. split_and!; [by apply H|done..]. Qed.
Lemma put_task_hist k w :
  hist w → (drawn (k_id k) ∨ ∃ k0, tasks (w_db w) !! k_id k = Some k0 ∧ evolves k0 k) →
  hist (w <| w_db ::= λ d, d <| tasks ::= <[k_id k := k]> |> |>).
Proof.
  intros [F G K T V] Hk. split; try done; cbn.
  - intros id x. rewrite lookup_insert_Some. intros [[<- <-]|[_ H]]; [done|by apply K].
  - intros id x. rewrite lookup_insert_Some. intros [[<- <-]|[_ H]]; [|by apply T].
    destruct Hk as [Hd|(k0 & E0 & Ev)]; [by right|]. destruct (T _ _ E0) as [(k1 & E1 & Ev1)|Hd]; [left|by right].
    exists k1. split; [done|]. by etrans.
Qed.
Lemma under_add_task k : drawn (k_id k) → keeps under (add_task k).
Proof.
  intros Hd w Hw. unfold add_task, add_row. rewrite run_query. destruct (is_some _); [done|].
  cbn. split_and!; [|done..]. apply put_task_hist; [done|by left].
Qed.
(** events may be appended and changed within [frozen], never dropped *)
Lemma audit_hist f w :
  (∀ (l : list AuditEvent) e, e ∈ l → ¬ drawn (ae_id e) → ∃ e', e' ∈ f l ∧ frozen e e') → hist w → hist (w <| w_db ::= λ d, d <| audit_events ::= f |> |>).
Proof.
  intros Hf [F G K T V]. split; try done. intros e He Hd. destruct (V e He Hd) as [(e' & H' & Z)|Ha]; [left|by right].
  assert (ae_id e' = ae_id e) as Ei by (by destruct Z as [[= -> _] _]).
  destruct (Hf _ _ H') as (e'' & H'' & Z'); [by rewrite Ei|]. exists e''. split; [done|]. by etrans.
Qed.
Lemma map_frozen (g : AuditEvent → AuditEvent) (l : list AuditEvent) e :
  frozen e (g e) → e ∈ l → ∃ e', e' ∈ g <$> l ∧ frozen e e'.
Proof. intros Hg He. exists (g e). split; [by apply list_elem_of_fmap_2|done]. Qed.
Lemma settle_frozen ids o err e : frozen e (settle_event ids o err e).
Proof.
  unfold settle_event. destruct (ae_task_id e) as [t|] eqn:Et; [|reflexivity].
  destruct (bool_decide _ && _) eqn:E; [|reflexivity]. apply andb_true_iff in E as [_ E%String.eqb_eq].
  split; [by cbn; rewrite Et|done].
Qed.
Lemma under_settle ids o err : keeps under (settle_task_events ids o err).
Proof.
  unfold settle_task_events. destruct ids; [by intros w|]. apply under_exec. intros w. apply audit_hist.
  intros l e He _. apply map_frozen; [apply settle_frozen|done].
Qed.
(** only an event recorded since may still be given its details *)
Lemma under_details e details : drawn (ae_id e) → keeps under (set_details e details).
Proof.
  intros Hd. apply under_exec. intros w. apply audit_hist. intros l x Hx Hn. apply map_frozen; [|done].
  destruct (String.eqb_spec (ae_id x) (ae_id e)) as [E|]; [by rewrite E in Hn|reflexivity].
Qed.
Lemma under_record a action t ty task details : keeps under (record a action t ty task details).
Proof.
  unfold record. cbv zeta. destruct (str_nonempty _); [|by intros w].
  apply under_new_id. intros id _. apply keeps_bind; [apply _|apply under_same; keep|intros now].
  apply keeps_bind; [apply _| |intros _; apply under_same; keep]. apply under_exec. intros w. apply audit_hist.
  intros l e He _. exists e. split; [by apply elem_of_app; left|done].
Qed.
Lemma record_drawn a action t ty task details w e w' :
  hist w → record a action t ty task details w = (Ok e, w') → drawn (ae_id e).
Proof.
  intros [[F _] [G _] _ _ _]. unfold record. cbv zeta. destruct (str_nonempty _); [|by intros [=]].
  rewrite run_new_id, run_now, run_exec. intros [= <- _]. cbn. exists (w_seq w). by rewrite F.
Qed.
Lemma under_record_then {B} a action t ty task details (k : AuditEvent → M B) :
  (∀ e, drawn (ae_id e) → keeps under (k e)) → keeps under (record a action t ty task details ≫= k).
Proof.
  intros Hk w Hw. pose proof (under_record a action t ty task details w Hw) as H1. unfold mbind, M_bind.
  destruct (record a action t ty task details w) as [[e|x] w'] eqn:E; [|done]. cbn in H1. destruct H1 as (H1 & A1 & B1).
  destruct (Hk e (record_drawn _ _ _ _ _ _ _ _ _ Hw E) w' H1) as (H2 & A2 & B2). split_and!; [done|congruence..].
Qed.
Lemma under_savepoint {A} (m : M A) : keeps under m → keeps under (savepoint m).
Proof. apply under_scope. Qed.
Lemma under_best_effort m : keeps under m → keeps under (best_effort m).
Proof. intros H. unfold best_effort. apply keeps_try; [apply _|by apply under_savepoint|intros e; by apply under_same; keep]. Qed.
Lemma under_attempt m : keeps under m → keeps under (attempt m).
Proof. intros H. unfold attempt. apply keeps_try; [apply _|done|intros e; by apply under_same; keep]. Qed.
Lemma under_record_diff a action t before after : keeps under (record_diff a action t before after).
Proof.
  unfold record_diff. destruct (changes _ _); [|by apply under_same; keep].
  apply keeps_bind; [apply _|apply under_record|intros ?; by apply under_same; keep].
Qed.
Lemma under_id : keeps under new_id.
Proof. intros w. apply under_core; cbn; [done|lia]. Qed.
Lemma under_put_vm v : keeps under (put_vm v).
Proof. apply under_same. unfold put_vm. keep. Qed.
Lemma under_put_host h : keeps under (put_host h).
Proof. apply under_same. unfold put_host. keep. Qed.
Lemma under_at_now {A} (f : Z → gmap string centry → A * gmap string centry) : keeps under (at_now f).
Proof. apply under_same, same_at_now. by intros. Qed.
Lemma under_peek {A} (f : Z → gmap string centry → A) : keeps under (peek f).
Proof. unfold peek. apply under_at_now. Qed.
Lemma under_save_vm v : keeps under (save_vm v).
Proof. apply under_same. unfold save_vm. keep. Qed.
#[local] Hint Resolve under_record under_record_diff under_settle under_id under_put_vm under_put_host
  under_save_vm under_at_now under_peek : chron.
#[local] Hint Extern 1 (keeps under (add_task _)) => apply under_add_task; assumption : chron.
#[local] Hint Extern 1 (keeps under (set_details _ _)) => apply under_details; assumption : chron.
Ltac chron_step :=
  match goal with
  | |- keeps _ (new_id ≫= _) => apply under_new_id; intros ? ?
  | |- keeps _ (record _ _ _ _ _ _ ≫= _) => apply under_record_then; intros ? ?
  | |- keeps _ (session_scope _) => apply under_scope
  | |- keeps _ (savepoint _) => apply under_savepoint
  | |- keeps _ (best_effort _) => apply under_best_effort
  | |- keeps _ (attempt _) => apply under_attempt
  | |- _ => keep_step
  end.
Ltac chron := repeat first [solve [eauto with chron nocore] | solve [apply under_same; keep] | chron_step].
Lemma under_after_terminal host_id task resp : keeps under (after_terminal host_id task resp).
Proof.
  unfold after_terminal, stamp_agent_version, apply_host_action_response, upsert_template. chron.
  all: unfold template_id, template_row, host_exists, apply_response_state, release_task_lock, apply_create_state,
    apply_delete_state, apply_succeeded_state, apply_failed_state, apply_response_vm_status, response_item, vm_by_guid,
    release_vm_lock; chron.
Qed.
(** a response writes the row it found, one step further *)
Lemma finish_evolves repr resp k r now :
  evolves k (finish_task repr resp (k <| k_response_payload := r |>) now).
Proof.
  split; [done| |done]. assert (∀ s, (rank s ≤ 2)%nat) as Hr by (intros s; unfold rank; repeat case_match; lia).
  unfold finish_task. cbn. destruct (String.eqb (rs_status resp) "succeeded"); cbn; apply Hr.
Qed.
Lemma progress_evolves resp k r now :
  k_status k ∈ ["queued"; "running"] → evolves k (running_progress resp (k <| k_response_payload := r |>) now).
Proof.
  intros Hs. split; [done| |].
  - rewrite !elem_of_cons, elem_of_nil in Hs. cbn. destruct Hs as [->|[->|[]]]; cbn; lia.
  - cbn. by intros t ->.
Qed.
(** a computation that changes nothing hands on the facts about the state *)
Lemma under_read {A B} (m : M A) (k : A → M B) w :
  keeps (same (λ w, w)) m → (∀ a, under w (k a w).2) → under w ((m ≫= k) w).2.
Proof.
  intros Hm Hk. specialize (Hm w). unfold mbind, M_bind, same in *. destruct (m w) as [[a|e] w']; cbn in *; subst; [apply Hk|reflexivity].
Qed.
Lemma under_put_task {B} k (next : unit → M B) w :
  (drawn (k_id k) ∨ ∃ k0, tasks (w_db w) !! k_id k = Some k0 ∧ evolves k0 k) →
  keeps under (next tt) → under w ((put_task k ≫= next) w).2.
Proof.
  intros Hk Hn Hw. unfold put_task. rewrite run_exec.
  apply (Hn _ (put_task_hist k w Hw Hk)).
Qed.
Lemma under_response host_id resp : keeps under (apply_response host_id resp).
Proof.
  intros w Hw. revert Hw. unfold apply_response, get_task. rewrite run_query.
  destruct (tasks (w_db w) !! rs_id resp) as [k|] eqn:Ek; [|by apply (under_same (mret tt)); keep].
  destruct (negb _); [by apply (under_same (mret tt)); keep|].
  intros Hw. pose proof (hi_keyed w Hw _ _ Ek) as Eid. revert Hw.
  apply under_read; [keep|]. intros r. cbv zeta. apply under_read; [keep|]. intros now.
  destruct (_ && _) eqn:E.
  - apply andb_true_iff in E as [_ E%bool_decide_eq_true]. cbn in E. apply under_read; [unfold check_task; keep|]. intros [].
    intros Hw. split; [|done]. apply (put_task_hist _ w Hw). right. exists k.
    split; [cbn; by rewrite Eid|exact (progress_evolves r k (Some r) now E)].
  - apply under_read; [keep|]. intros repr. apply under_read; [unfold check_task; keep|]. intros [].
    apply under_put_task; [|chron; apply under_after_terminal].
    right. exists k. split; [cbn; by rewrite Eid|exact (finish_evolves repr r k (Some r) now)].
Qed.
#[local] Hint Resolve under_response : chron.
Lemma under_dispatch model_validate host_id kind payload : keeps under (dispatch model_validate host_id kind payload).
Proof.
  unfold dispatch, for_known_host, hardware_of_other, no_get, apply_agent_status, apply_vm_inventory, apply_host_inventory,
    apply_template_inventory, apply_iso_inventory, apply_host_metrics, apply_vm_metrics.
  chron.
  all: unfold if_truthy, inventory_scope_host_ids, list_deleted_vm_uuids, inventory_item, remove_unreported,
    upsert_thumbnails, add_template, add_iso, vm_metric_item, metrics_cutoff; chron.
  all: unfold inventory_guid, delete_in_flight, template_id, template_row, host_exists; chron.
Qed.
Lemma under_try {A} (m : M A) h : keeps under m → (∀ e, keeps under (h e)) → keeps under (try_except m h).
Proof. intros Hm Hh. apply keeps_try; [apply _|done..]. Qed.
Lemma under_deliver loads model_validate host_id kind body : keeps under (deliver loads model_validate host_id kind body).
Proof.
  unfold deliver, handle_message. apply under_try; [|intros e; apply under_same; keep].
  destruct (loads body); [|apply under_same; keep]. apply under_scope, under_dispatch.
Qed.
(** *** Sweeps *)
Lemma timed_out_evolves at_ k : evolves k (timed_out at_ k).
Proof.
  split; [done| |done]. assert (∀ s, (rank s ≤ 2)%nat) as Hr by (intros s; unfold rank; repeat case_match; lia). apply Hr.
Qed.
Lemma map_tasks_hist (g : Task → Task) w :
  (∀ k, evolves k (g k)) → hist w → hist (w <| w_db ::= λ d, d <| tasks ::= fmap g |> |>).
Proof.
  intros Hg [F G K T V]. split; try done; cbn; intros id x; rewrite lookup_fmap_Some; intros (k & <- & E).
  - pose proof (K _ _ E) as Ek. destruct (Hg k) as [I _ _]. injection I. congruence.
  - destruct (T _ _ E) as [(k0 & E0 & Ev)|Hd]; [left; exists k0; split; [done|by etrans]|by right].
Qed.
Lemma under_timeout_sweep : keeps under timeout_sweeper_pass.
Proof.
  unfold timeout_sweeper_pass, sweep_stale_tasks. apply under_try; [|intros e; apply under_same; keep].
  apply keeps_bind; [apply _|apply under_same; keep|intros now]. apply keeps_bind; [apply _|apply under_same; keep|intros cfg].
  apply under_scope. apply keeps_bind; [apply _|apply under_same; keep|intros stale].
  apply keeps_bind; [apply _| |intros ?; apply under_same; keep].
  unfold expire_tasks, release_tasks. destruct stale; [apply under_same; keep|].
  apply keeps_bind; [apply _|apply under_same; keep|intros at_].
  apply keeps_bind; [apply _| |intros ?; chron].
  apply under_exec. intros w. apply map_tasks_hist. intros k. destruct (bool_decide _); [apply timed_out_evolves|reflexivity].
Qed.
Lemma under_metrics_sweep : keeps under metrics_retention_pass.
Proof. unfold metrics_retention_pass. chron. Qed.
Lemma under_audit_sweep : keeps under audit_retention_pass.
Proof.
  intros w. unfold audit_retention_pass. rewrite run_settings. destruct (_ <=? 0) eqn:Er; [reflexivity|].
  assert (under w (session_scope (prune_events (audit_retention_days (w_cfg w))) w).2) as Hs.
  { apply under_scope_at. intros Hw. unfold prune_events. rewrite Er, run_now. cbn. split_and!; [|done..].
    destruct Hw as [F G K T V]. split; try done. intros e He Hd. destruct (V e He Hd) as [(e' & H' & Z)|Ha]; [|by right].
    destruct (instant (ae_occurred_at e') <? instant (utc (w_now w)) - days (audit_retention_days (w_cfg w))) eqn:Eo.
    - right. destruct Z as [I _]. injection I as ? It. apply Z.leb_gt in Er. apply Z.ltb_lt in Eo.
      split; [exact Er|]. rewrite <- It. rewrite instant_utc in Eo. exact Eo.
    - left. exists e'. split; [|done]. cbn. apply list_elem_of_In, filter_In. split; [by apply list_elem_of_In|]. by rewrite Eo. }
  unfold try_except, mbind, M_bind. destruct (session_scope _ w) as [[n|e] w']; exact Hs.
Qed.
(** *** Requests *)
Section requests.
Context {hardware : Type} (model_validate : dict → option hardware).
Context (repo_root : path) (presign : string → string → string → Z → string).
Context (put_file : AgentStore → string → string → string → M unit) (remove_file : AgentStore → string → M unit).
Context (transfers : ∀ s k c t, keeps (same aside) (put_file s k c t)).
Context (removals : ∀ s k, keeps (same aside) (remove_file s k)).
(** a host takes its tasks with it *)
Lemma under_delete_host_row id : keeps under (exec (delete_host_row id)).
Proof.
  apply under_exec. intros w [F G K T V]. split; try done; cbn; unfold Prelude.keep; intros k x; intros [H _]%map_lookup_filter_Some;
    [by apply K|by apply T].
Qed.
#[local] Hint Resolve under_delete_host_row : chron.
Ltac deep_step :=
  lazymatch goal with
  | |- keeps _ (put_file _ _ _ _) => apply under_aside, transfers
  | |- keeps _ (remove_file _ _) => apply under_aside, removals
  | |- keeps _ (exec _) => apply under_same; keep
  | |- keeps _ (let _ := _ in _) => cbv zeta
  | |- keeps _ (match _ with _ => _ end) => chron_step
  | |- keeps _ ?m => first [catch_step | chron_step | progress open_head m]
  end.
Ltac deep := repeat first [solve [eauto with chron nocore] | solve [apply under_same; eauto with frame nocore] | deep_step].
Lemma under_chunks chunks acc : keeps under (read_chunks chunks acc).
Proof. revert acc. induction chunks as [|[|c chunk] rest IH]; intros acc; cbn [read_chunks]; deep. Qed.
#[local] Hint Resolve under_chunks : chron.
Lemma under_handle scope user r :
  keeps under (handle model_validate repo_root presign put_file remove_file scope user r).
Proof.
  destruct r; cbn [handle]; deep.
Qed.
Lemma under_serve user r : keeps under (serve model_validate repo_root presign put_file remove_file user r).
Proof.
  unfold serve. apply under_scope, keeps_bind; [apply _|deep|intros ?; apply under_handle].
Qed.
Lemma under_install_script host_id exp token :
  keeps under (session_scope (get_host_agent_install_script repo_root presign host_id exp token)).
Proof. deep. Qed.
Context (race : database → database) (race_users : users_only race).
Lemma under_race : keeps under (exec race).
Proof. intros w. destruct (race_users (w_db w)) as (us & gs & E). apply under_core; [unfold core; cbn; by rewrite E|done]. Qed.
#[local] Hint Resolve under_race : chron.
Lemma under_sign_in verify header : keeps under (session_scope (get_current_user race verify header)).
Proof. deep. Qed.
Lemma under_ask {A} (f : broker → A) : keeps under (ask_broker f).
Proof. intros w. unfold ask_broker. by destruct (w_broker_up w). Qed.
#[local] Hint Resolve under_ask : chron.
(** the probes of the start-up check only read *)
Context (check_database check_schema : M unit).
Context (probe_database : keeps (same aside) check_database).
Context (probe_schema : keeps (same aside) check_schema).
Lemma under_preflight : keeps under (run_preflight check_database check_schema).
Proof.
  assert (Forall (keeps under) (steps check_database check_schema)) as Hs.
  { unfold steps. rewrite !Forall_cons. split_and!; first [by apply under_aside|by constructor|solve [deep]]. }
  unfold run_preflight. deep. rewrite Forall_forall in Hs. by apply Hs.
Qed.
End requests.
Lemma under_elsewhere w c q b b' : under w (w <| w_cache := c |> <| w_mq := q |> <| w_cache_up := b |> <| w_broker_up := b' |>).
Proof. by apply under_core. Qed.
Lemma hist_tick w t : 0 ≤ t → hist w → hist (w <| w_now ::= Z.add t |>).
Proof.
  intros Ht [F [G1 G2] K T V]. split; try done; cbn; [lia|]. intros e He Hd. destruct (V e He Hd) as [H|[H1 H2]]; [by left|right].
  split; [exact H1|]. cbn. lia.
Qed.
End history.
Lemma hist_refl w : (∀ id k, tasks (w_db w) !! id = Some k → k_id k = id) → hist w w.
Proof.
  intros K. split; try done.
  - intros id k E. left. by exists k.
  - intros e He _. left. by exists e.
Qed.

(** ** Every history *)
Section program.
Context {hardware : Type} (model_validate : dict → option hardware) (validate_response : json → option AgentResponse).
Context (repo_root : path) (presign : string → string → string → Z → string).
Context (put_file : AgentStore → string → string → string → M unit) (remove_file : AgentStore → string → M unit).
Context (loads : string → option json) (verify : string → dict + string) (race : database → database).
Context (check_database check_schema : M unit).

Abbreviation step := (step model_validate validate_response repo_root presign put_file remove_file loads verify race
  check_database check_schema).
Context (Env : environment put_file remove_file race check_database check_schema).
Lemma step_hist w0 w w' : step w w' → hist w0 w → hist w0 w'.
Proof using Type*.
  destruct Env as [transfers removals race_users probe_database probe_schema].
  destruct 1; intros Hw; try by apply hist_tick.
  - by apply (under_serve w0 model_validate repo_root presign put_file remove_file transfers removals user r w Hw).
  - by apply (under_sign_in w0 race race_users verify header w Hw).
  - by apply (under_install_script w0 repo_root presign host_id exp token w Hw).
  - by apply (under_deliver w0 loads validate_response host kind body w Hw).
  - by apply (under_timeout_sweep w0 w Hw).
  - by apply (under_metrics_sweep w0 w Hw).
  - by apply (under_audit_sweep w0 w Hw).
  - by apply (under_preflight w0 check_database check_schema probe_database probe_schema w Hw).
  - by apply (under_elsewhere w0 w c q b b' Hw).
Qed.
Lemma steps_hist w w' :
  (∀ id k, tasks (w_db w) !! id = Some k → k_id k = id) → rtc step w w' → hist w w'.
Proof using Type*.
  intros K H. enough (∀ w0, hist w0 w → hist w0 w') by (by apply H0, hist_refl). clear K.
  induction H as [|x y z Hs _ IH]; intros w0 Hx; [done|]. by apply IH, (step_hist w0 x).
Qed.

(** C38: the life of a task.  Through any history of requests, sign-ins,
    agent messages, sweeps, restarts and outages, a task row that is still
    there names the same work for the same target, host and requester as when
    it was queued; its status has only moved forward - queued, running, ended;
    and the moment it started, once set, is never rewritten. *)
Theorem task_history w w' id k k' :
  (∀ i x, tasks (w_db w) !! i = Some x → k_id x = i) → (∀ n, (w_seq w ≤ n)%nat → w_uuid4 w n ≠ id) →
  rtc step w w' → tasks (w_db w) !! id = Some k → tasks (w_db w') !! id = Some k' → evolves k k'.
Proof using Type*.
  intros K Fresh H Hk Hk'. destruct (hi_tasks w w' (steps_hist w w' K H) id k' Hk') as [(k0 & E & Hev)|(n & Hn & ->)];
    [congruence|by destruct (Fresh n Hn)].
Qed.

(** C39: the audit trail only grows.  Through any such history every recorded
    event is still there, every field as recorded - its moment, actor, action,
    target and details - with its outcome and error too once the outcome was
    settled; unless it is older than the retention of the settings.  The one
    request that writes details afterwards, the deletion of a folder, writes
    them to the event it has itself just recorded.  (Ids drawn later must not
    repeat that of the event.) *)
Theorem audit_append_only w w' e :
  (∀ i x, tasks (w_db w) !! i = Some x → k_id x = i) → (∀ n, (w_seq w ≤ n)%nat → w_uuid4 w n ≠ ae_id e) →
  rtc step w w' → e ∈ audit_events (w_db w) →
  (∃ e', e' ∈ audit_events (w_db w') ∧ frozen e e') ∨ aged w' e.
Proof using Type*.
  intros K Fresh H He. apply (hi_events w w' (steps_hist w w' K H) e He). intros (n & Hn & E). by apply (Fresh n Hn).
Qed.
End program.

(** an example: a host's message ends a task, it is late, a user asks again *)
Definition trail_event (id : string) (at_ : Z) (task : option string) (outcome : string) : AuditEvent :=
  {| ae_id := id; ae_occurred_at := utc at_; ae_actor_type := "user"; ae_actor_email := Some "op"; ae_actor_name := None;
     ae_action := "vm.start"; ae_target_type := "vm"; ae_target_id := Some "v1"; ae_target_name := Some "web";
     ae_host_id := Some "h1"; ae_cluster_id := None; ae_task_id := task; ae_outcome := outcome; ae_error := None;
     ae_details := None |}.
Definition trail_world : world :=
  sample_world <| w_db := empty_db <| tasks := {["t1" := sample_task "vm_start" "queued"]} |>
    <| audit_events := [trail_event "e1" 0 None "succeeded"; trail_event "e2" (w_now sample_world) (Some "t1") "pending"] |> |>.
(** the agent reports progress, falls silent for a day, and the sweeps run *)
Definition silence (w : world) : world :=
  (audit_retention_pass (timeout_sweeper_pass
    ((deliver (λ _, Some JNull) (λ _, Some (sample_response "running")) "h1" RESPONSE "" w).2
       <| w_now ::= Z.add (days 1) |>)).2).2.
Abbreviation sample_step :=
  (Program.step (λ _, Some tt) (λ _, Some (sample_response "running")) [] (λ _ _ _ _, "") (λ _ _ _ _, mret tt) (λ _ _, mret tt)
    (λ _, Some JNull) (λ _, inr "") id (mret tt) (mret tt)).
Lemma silence_steps w : rtc sample_step w (silence w).
Proof.
  eapply rtc_l; [by apply (Consumed _ _ _ _ _ _ _ _ _ _ _ _ "h1" RESPONSE "")|]. eapply rtc_l; [by apply (Ticked _ _ _ _ _ _ _ _ _ _ _ _ (days 1))|].
  eapply rtc_l; [apply Expired|]. eapply rtc_l; [apply Pruned|]. reflexivity.
Qed.
Lemma trail_keyed i x : tasks (w_db trail_world) !! i = Some x → k_id x = i.
Proof. cbn. by intros [<- <-]%lookup_singleton_Some. Qed.
Lemma task_history_witness :
  ∃ k', tasks (w_db (silence trail_world)) !! "t1" = Some k' ∧ k_status k' = "timeout" ∧ is_some (k_started_at k') = true ∧
    evolves (sample_task "vm_start" "queued") k'.
Proof.
  destruct (tasks (w_db (silence trail_world)) !! "t1") as [k'|] eqn:E; [|vm_compute in E; discriminate E].
  exists k'. split; [reflexivity|].
  assert (evolves (sample_task "vm_start" "queued") k') as H.
  { apply (task_history (λ _, Some tt) (λ _, Some (sample_response "running")) [] (λ _ _ _ _, "") (λ _ _ _ _, mret tt)
      (λ _ _, mret tt) (λ _, Some JNull) (λ _, inr "") id (mret tt) (mret tt)) with (w := trail_world)
      (w' := silence trail_world) (id := "t1");
      [exact quiet_environment|exact trail_keyed|intros n _; cbn; discriminate|apply silence_steps|reflexivity|exact E]. }
  vm_compute in E. injection E as <-. split_and!; [reflexivity..|exact H].
Defined.
Lemma audit_append_only_witness : let w' := silence trail_world in
  ae_outcome <$> audit_events (w_db w') = ["timeout"] ∧
  ((∃ e', e' ∈ audit_events (w_db w') ∧ frozen (trail_event "e1" 0 None "succeeded") e') ∨
   aged w' (trail_event "e1" 0 None "succeeded")).
Proof.
  cbv zeta. split; [vm_compute; reflexivity|].
  apply (audit_append_only (λ _, Some tt) (λ _, Some (sample_response "running")) [] (λ _ _ _ _, "") (λ _ _ _ _, mret tt)
    (λ _ _, mret tt) (λ _, Some JNull) (λ _, inr "") id (mret tt) (mret tt)) with (w := trail_world);
    [exact quiet_environment|exact trail_keyed|intros n _; cbn; discriminate|apply silence_steps|by left].
Defined.
