(* ===== verification/Soundness.v ===== *)
(** * What every history keeps of the tables

    Placement, VLANs and tags stay consistent under every step of [Program]:
    requests, agent messages - snapshots and responses included - sweeps and the
    start-up check.  Computations that only refresh rows are handled by one
    invariant relative to the state they start from ([worked]); the services
    that really move things by their own lemmas. *)
From S2P Require Import Prelude Py Clock Model World Store Cache AuditLog Rbac Normalize Serializers Messaging.
From S2P Require Import Hosts Organization Networking Tags HostActions AgentStore AgentBinaries AgentInstall Auth.
From S2P Require Import Inventory Response VmInventory Vms Sweeper Consumers Startup RoutesOrg RoutesHosts RoutesVms Access Program.
Open Scope string_scope.
Open Scope Z_scope.

Record sound (d : database) : Prop := {
  so_placed : sited d;
  so_vlans : vlans_ok d;
  so_tags : tags_ok d
}.
(** the tables it speaks of *)
Definition tables (d : database) :=
  (clusters d, hosts d, folders d, vms d, vlans d, tag_categories d, tags d, vm_tags d).
Class Framed (I : database → Prop) := framed d d' : tables d' = tables d → I d → I d'.
(** and what each part of it reads *)
Definition places (d : database) := (clusters d, hosts d, folders d, vms d).
Definition networks (d : database) := (clusters d, hosts d, vlans d).
Definition labels (d : database) := (vms d, tag_categories d, tags d, vm_tags d).
Lemma sited_places d d' : places d' = places d → sited d → sited d'.
Proof.
  intros [= E1 E2 E3 E4] W. split; intros *; rewrite ?E1, ?E2, ?E3, ?E4; try apply W.
  intros Hf. pose proof (wp_folder_scoped d W k f Hf) as S. unfold folder_scoped in *. by rewrite E1, E2.
Qed.
Lemma vlans_networks d d' : networks d' = networks d → vlans_ok d → vlans_ok d'.
Proof.
  intros [= E1 E2 E5]. apply vlans_ok_sub; intros k v; rewrite E5; [done|]. intros _. unfold vlan_scoped. by rewrite E1, E2.
Qed.
Lemma tags_labels d d' : labels d' = labels d → tags_ok d → tags_ok d'.
Proof.
  intros [= E4 E6 E7 E8]. apply tags_ok_sub.
  - unfold vms_keyed. by rewrite E4.
  - intros k c. by rewrite E6.
  - intros k t. rewrite E7, E6. auto.
  - intros v k. rewrite E8, E7, E4. auto.
Qed.
#[export] Instance sited_framed : Framed sited.
Proof. intros d d' E. apply sited_places. unfold tables, places in *. congruence. Qed.
#[export] Instance vlans_framed : Framed vlans_ok.
Proof. intros d d' E. apply vlans_networks. unfold tables, networks in *. congruence. Qed.
#[export] Instance tags_framed : Framed tags_ok.
Proof. intros d d' E. apply tags_labels. unfold tables, labels in *. congruence. Qed.
#[export] Instance sound_framed : Framed sound.
Proof. intros d d' E [P V T]. split; by eapply framed. Qed.
Lemma safe_framed I `{!Framed I} {A} (m : M A) : keeps (same (λ w, tables (w_db w))) m → keeps (safe I) m.
Proof. intros H w. specialize (H w). unfold same, safe in *. by apply framed. Qed.

(** ** Refreshing rows *)
Section worked.
Context (d0 : database).
(** a row of the machine runs where [d0] has its host and its folder *)
Definition housed (v : Vm) : Prop :=
  (∃ h, hosts d0 !! v_host_id v = Some h ∧ v_cluster_id v = h_cluster_id h) ∧
  ∀ fid, v_folder_id v = Some fid → ∃ f, folders d0 !! fid = Some f ∧ folder_fits f v.
(** a host where [d0] has it *)
Definition known (h : Host) : Prop := ∃ r, hosts d0 !! h_id h = Some r ∧ h_cluster_id r = h_cluster_id h.
Record worked (d : database) : Prop := {
  wk_tables : (clusters d, folders d, vlans d, tag_categories d, tags d) =
              (clusters d0, folders d0, vlans d0, tag_categories d0, tags d0);
  wk_dom k : is_Some (hosts d0 !! k) → is_Some (hosts d !! k);
  wk_host k h : hosts d !! k = Some h → h_id h = k ∧ known h;
  wk_vm k v : vms d !! k = Some v → v_id v = k ∧ housed v;
  wk_tagged v t : (v, t) ∈ vm_tags d → (v, t) ∈ vm_tags d0 ∧ is_Some (vms d !! v)
}.
Lemma worked_refl : sound d0 → worked d0.
Proof.
  intros [W V T]. split; try done.
  - intros k h Hh. pose proof (wp_host_key d0 W k h Hh) as E. split; [done|]. exists h. by rewrite E.
  - intros k v Hv. split; [by eapply wp_vm_key|]. split; [by eapply wp_vm_placed|]. intros fid. by apply (wp_vm_folder d0 W k).
  - intros v t H. split; [done|]. by apply (to_assigned d0 T v t).
Qed.
Lemma worked_sound d : sound d0 → worked d → sound d.
Proof.
  intros [W V T] [[= E1 E2 E3 E4 E5] D H M G].
  assert (∀ k r, hosts d0 !! k = Some r → ∃ h, hosts d !! k = Some h ∧ h_cluster_id h = h_cluster_id r) as Hh.
  { intros k r Hr. destruct (D k (ex_intro _ r Hr)) as [h Hk]. exists h. split; [done|].
    destruct (H k h Hk) as [<- (r' & Hr' & Ec)]. congruence. }
  split.
  - split; intros *; rewrite ?E1, ?E2; try apply W.
    + intros Hk. by apply H.
    + intros Hk. by apply M.
    + intros Hk Hc. destruct (H k h Hk) as [_ (r & Hr & Ec)].
      destruct (wp_host_cluster d0 W _ r c Hr) as (cl & Hcl & _); [congruence|]. by exists cl.
    + intros Hk. destruct (M k v Hk) as (_ & (h & Hr & Ec) & _). destruct (Hh _ _ Hr) as (h' & Hk' & Ec'). exists h'.
      split; [done|congruence].
    + intros Hf. pose proof (wp_folder_scoped d0 W k f Hf) as S. unfold folder_scoped in *. rewrite E1.
      destruct (f_cluster_id f), (f_host_id f) as [x|]; try done. destruct S as (r & Hr & Ec).
      destruct (Hh _ _ Hr) as (h' & Hk' & Ec'). exists h'. split; [done|congruence].
    + intros Hk. destruct (M k v Hk) as (_ & _ & F). apply F.
  - revert V. apply vlans_ok_sub; intros k v; rewrite E3; [done|]. intros _.
    apply vlan_scoped_mono; [by rewrite E1|]. intros h _. apply D.
  - revert T. apply tags_ok_sub.
    + intros _ k v Hk. by apply M.
    + intros k c. by rewrite E4.
    + intros k t. rewrite E5, E4. auto.
    + intros v k Hvk. destruct (G v k Hvk). rewrite E5. auto.
Qed.
#[export] Instance worked_framed : Framed worked.
Proof.
  intros d d' [= E1 E2 E3 E4 E5 E6 E7 E8] []. split; intros *; rewrite ?E1, ?E2, ?E3, ?E4, ?E5, ?E6, ?E7, ?E8; eauto.
Qed.
(** *** The writes *)
Lemma work_put_host h d : known h → worked d → worked (d <| hosts ::= <[h_id h := h]> |>).
Proof.
  intros K []. split; try done; cbn; intros k.
  - intros Hk. apply is_Some_insert. auto.
  - intros r. rewrite lookup_insert_Some. intros [[<- <-]|[_ Hr]]; [done|auto].
Qed.
Lemma work_put_vm v d : housed v → worked d → worked (d <| vms ::= <[v_id v := v]> |>).
Proof.
  intros K []. split; try done; cbn.
  - intros k r. rewrite lookup_insert_Some. intros [[<- <-]|[_ Hr]]; [done|auto].
  - intros u t H. destruct (wk_tagged0 u t H). split; [done|]. by apply is_Some_insert.
Qed.
Lemma work_delete_vms p d : worked d → worked (delete_vms p d).
Proof.
  intros []. split; try done; cbn.
  - intros k v [H _]%lookup_keep. auto.
  - intros v t. rewrite elem_of_filter. cbn. intros [Hg H]. destruct (wk_tagged0 v t H) as [? [x Hx]]. split; [done|].
    exists x. apply lookup_keep. rewrite Hx in Hg. by rewrite Hg.
Qed.
Lemma safe_put_host_known h : known h → keeps (safe worked) (put_host h).
Proof. intros K. apply safe_exec. intros d. by apply work_put_host. Qed.
Lemma safe_save_vm_housed v : housed v → keeps (safe worked) (save_vm v).
Proof. intros K. apply safe_exec. intros d. by apply work_put_vm. Qed.
Lemma safe_put_vm_housed v : housed v → keeps (safe worked) (put_vm v).
Proof.
  intros K w Hw. unfold put_vm. rewrite run_query. destruct (slot_taken _ _); [done|]. by apply work_put_vm.
Qed.
Lemma safe_add_vm_housed v : housed v → keeps (safe worked) (add_vm v).
Proof.
  intros K w Hw. unfold add_vm, add_row. rewrite run_query. destruct (is_some _); [done|]. by apply safe_put_vm_housed.
Qed.
Lemma safe_delete_vms p : keeps (safe worked) (exec (delete_vms p)).
Proof. apply safe_exec. intros d. apply work_delete_vms. Qed.

(** *** What a computation returns, from a worked state *)
Definition gives {A} (P : A → Prop) (m : M A) : Prop := ∀ w a w', worked (w_db w) → m w = (Ok a, w') → P a.
Lemma gives_returns {A} (P : A → Prop) (m : M A) : returns P m → gives P m.
Proof. intros H w a w' _. apply H. Qed.
Lemma gives_bind {A B} (P : A → Prop) (Q : B → Prop) (m : M A) (k : A → M B) :
  keeps (safe worked) m → gives P m → (∀ a, P a → gives Q (k a)) → gives Q (m ≫= k).
Proof.
  intros Hm HP HQ w b w' Hw (a & w1 & E1 & E2)%bind_inv. specialize (Hm w Hw). rewrite E1 in Hm.
  by apply (HQ a (HP _ _ _ Hw E1) w1 b w').
Qed.
Lemma keeps_gives {A B} (P : A → Prop) (m : M A) (k : A → M B) :
  gives P m → keeps (safe worked) m → (∀ a, P a → keeps (safe worked) (k a)) → keeps (safe worked) (m ≫= k).
Proof.
  intros HP Hm Hk w Hw. specialize (Hm w Hw). unfold mbind, M_bind. destruct (m w) as [[a|e] w'] eqn:E; [|done].
  by apply Hk; [eapply HP|].
Qed.
Lemma gives_get_host id : gives (from_option known True) (get_host id).
Proof. intros w o w' Hw [= <- _]. destruct (hosts (w_db w) !! id) as [h|] eqn:E; [|done]. by apply (wk_host _ Hw id). Qed.
Lemma gives_get_vm id : gives (from_option housed True) (get_vm id).
Proof. intros w o w' Hw [= <- _]. destruct (vms (w_db w) !! id) as [v|] eqn:E; [|done]. by apply (wk_vm _ Hw id). Qed.
Lemma gives_found {A} (P : A → Prop) (get : M (option A)) what :
  gives (from_option P True) get → gives P (found get what).
Proof. intros H w a w' Hw (o & w1 & E1 & E2)%bind_inv. destruct o as [r|]; [|done]. injection E2 as <- _. by apply (H w _ w1 Hw E1). Qed.
(** a row handed on by a test *)
Lemma gives_tested {A} (P : A → Prop) (m : M A) (test : A → M unit) : gives P m → gives P (r ← m; test r;; mret r).
Proof.
  intros H w a w' Hw (r & w1 & E1 & E)%bind_inv. apply bind_inv in E as ([] & w2 & _ & E). injection E as <- _. by eapply H.
Qed.
Lemma gives_found_host id what : gives known (found (get_host id) what).
Proof. apply gives_found, gives_get_host. Qed.
Lemma gives_visible_host s id : gives known (get_visible_host s id).
Proof. apply gives_tested, gives_found, gives_get_host. Qed.
Lemma gives_target_host s id : gives known (target_host s id).
Proof. apply gives_tested, gives_found, gives_get_host. Qed.
Lemma gives_admin_host s id msg : gives known (get_admin_host s id msg).
Proof. apply (gives_tested known (get_visible_host s id) (λ _, require (sc_all s) msg)), gives_visible_host. Qed.
Lemma gives_visible_vm s id : gives housed (get_visible_vm s id).
Proof. apply gives_tested, gives_found, gives_get_vm. Qed.
Lemma known_like h h' : h_id h' = h_id h → h_cluster_id h' = h_cluster_id h → known h → known h'.
Proof. intros E1 E2 (r & Hr & Ec). exists r. split; congruence. Qed.
Lemma gives_credentials h : known h → gives (λ hc, known hc.1) (ensure_host_agent_credentials h).
Proof. intros K w [h' b] w' _ (E1 & E2 & _)%credentials_row. by apply (known_like h). Qed.
Lemma gives_vm_by_guid host_id guid :
  gives (from_option (λ v, housed v ∧ v_host_id v = host_id) True) (vm_by_guid host_id guid).
Proof.
  intros w o w' Hw. unfold vm_by_guid. rewrite run_query. destruct (rows _ _) as [|v [|]] eqn:E; try done; intros [= <- _]; [done|].
  assert (v ∈ [v]) as Hv by (by left). rewrite <- E in Hv. apply elem_of_rows in Hv as (k & Hk & Hp).
  apply andb_true_iff in Hp as [_ Hp%String.eqb_eq]. cbn. split; [by apply (wk_vm _ Hw k)|done].
Qed.
(** a row the report of [h] may rewrite: of its cluster, or its own *)
Definition reach (h : Host) (v : Vm) : Prop := v_cluster_id v = h_cluster_id h ∧ (h_cluster_id h = None → v_host_id v = h_id h).
Lemma rehoused h base vm :
  known h → (∀ fid, v_folder_id base = Some fid → housed base ∧ reach h base) →
  v_folder_id vm = v_folder_id base → vm_home vm = (h_id h, h_cluster_id h) → housed vm.
Proof.
  intros (r & Hr & Er) Hf Ef [= E1 E2]. split; [exists r; rewrite E1, E2; auto|].
  intros fid Hfid. rewrite Ef in Hfid. destruct (Hf fid Hfid) as ([_ Hb] & Rc & Rh).
  destruct (Hb fid Hfid) as (f & Hk & Fit). exists f. split; [done|].
  unfold folder_fits in *. rewrite E1, E2. destruct (f_cluster_id f) as [c|]; [congruence|]. destruct Fit as [En Es].
  assert (h_cluster_id h = None) as En' by congruence. rewrite En'. split; [done|]. by rewrite <- (Rh En').
Qed.
Lemma gives_write_own vm raw item h partial :
  known h → housed vm ∧ v_host_id vm = h_id h → gives housed (write_vm_row vm raw item (h_id h) (h_cluster_id h) partial).
Proof.
  intros K [Hv E] w v w' _ (_ & [= _ _ Ef] & Hh)%write_vm_row_keys. apply (rehoused h vm); try done. intros _ _.
  split; [done|]. destruct Hv as [(h' & Hh' & Ec) _], K as (r & Hr & Er). rewrite E in Hh'. split; congruence.
Qed.
Lemma placeholder_housed id h n f c m dy ne ha no ni : known h → housed (placeholder_vm id h n f c m dy ne ha no ni).
Proof. intros (r & Hr & Er). split; [exists r; auto|done]. Qed.
Lemma safe_savepoint {A} (m : M A) : keeps (safe worked) m → keeps (safe worked) (savepoint m).
Proof. apply safe_scope. Qed.
End worked.
Create HintDb gives.
#[export] Hint Resolve gives_get_host gives_found_host gives_get_vm gives_visible_host gives_target_host gives_admin_host gives_visible_vm
  gives_credentials gives_vm_by_guid gives_write_own : gives.
Create HintDb toil.
#[export] Hint Resolve safe_put_host_known safe_save_vm_housed safe_put_vm_housed safe_add_vm_housed safe_delete_vms
  placeholder_housed : toil.
Ltac toil_step :=
  lazymatch goal with
  | |- keeps _ (session_scope _) => apply safe_scope
  | |- keeps _ (savepoint _) => apply safe_savepoint
  | |- keeps _ (exec (delete_vms _)) => apply safe_delete_vms
  | |- keeps _ (exec (λ d, delete_vms _ d)) => apply safe_exec; intros ?; apply work_delete_vms
  | |- keeps _ (exec _) => apply (safe_framed _); keep
  | |- keeps _ new_id => apply (safe_framed _); keep
  | |- keeps _ new_agent_rmq_password => apply (safe_framed _); keep
  | |- keeps _ (broker_op _) => apply (safe_framed _); keep
  | |- keeps _ (ask_broker _) => apply (safe_framed _); keep
  | |- keeps _ (put_host _) => apply safe_put_host_known
  | |- keeps _ (put_vm _) => apply safe_put_vm_housed
  | |- keeps _ (save_vm _) => apply safe_save_vm_housed
  | |- keeps _ (let _ := _ in _) => cbv zeta
  | |- keeps _ (match _ with _ => _ end) => keep_step
  | |- keeps _ (_ ≫= _) => first [eapply keeps_gives; [solve [eauto with gives nocore]| |intros ? ?] | keep_step]
  | |- keeps _ ?m => first [catch_step | keep_step | progress open_head m]
  end.
Ltac tidy := match goal with H : from_option ?P _ (Some ?x) |- _ => change (P x) in H; cbn beta in H end.
Ltac toil := repeat first
  [ tidy | assumption | match goal with H : housed _ ?v ∧ _ |- housed _ _ => exact (proj1 H) end | solve [apply (safe_framed _); eauto with frame nocore] | solve [eauto with toil nocore] | toil_step ].
Section toiling.
Context (d0 : database).
Abbreviation quiet m := (keeps (safe (worked d0)) m).
Lemma work_chunks chunks acc : quiet (read_chunks chunks acc).
Proof. revert acc. induction chunks as [|[|c chunk] rest IH]; intros acc; cbn [read_chunks]; toil. Qed.
Lemma work_ask {A} (f : broker → A) : quiet (ask_broker f).
Proof. intros w. unfold ask_broker. by destruct (w_broker_up w). Qed.
#[local] Hint Resolve work_chunks work_ask : toil.
Context {hardware : Type} (model_validate : dict → option hardware).
Context (repo_root : path) (presign : string → string → string → Z → string).
Context (put_file : AgentStore → string → string → string → M unit) (remove_file : AgentStore → string → M unit).
Context (transfers : ∀ s k c t, keeps (same aside) (put_file s k c t)).
Context (removals : ∀ s k, keeps (same aside) (remove_file s k)).
Lemma work_aside {A} (m : M A) : keeps (same aside) m → quiet m.
Proof. intros H. apply (safe_framed _). intros w. specialize (H w). unfold same, aside in *. congruence. Qed.
#[local] Hint Extern 1 (keeps _ (put_file _ _ _ _)) => apply work_aside, transfers : toil.
#[local] Hint Extern 1 (keeps _ (remove_file _ _)) => apply work_aside, removals : toil.

(** requests that move nothing *)
Definition refreshing (r : request) : bool :=
  match r with
  | GetAgentConfig _ | GetInstallUrl _ | UpdateAgent _ _ | HostAction _ _ | CreateVm _ | CloneVm _ | VmAction _ _ _
  | DeleteVm _ _ | ForgetVm _ | ReleaseLocks | ReleaseLock _ | UploadBinary _ | UpdateBinary _ _ _ | DeleteBinary _
  | RolloutBinary _ _ => true
  | _ => false
  end.
Lemma work_request s user r :
  refreshing r = true → quiet (handle model_validate repo_root presign put_file remove_file s user r).
Proof. destruct r; try done; intros _; cbn [handle]; toil. Qed.
Lemma work_install_script host_id exp token : quiet (get_host_agent_install_script repo_root presign host_id exp token).
Proof. toil. Qed.
Context (race : database → database) (race_users : users_only race).
Lemma work_race : quiet (exec race).
Proof. apply (safe_framed _). intros w. destruct (race_users (w_db w)) as (us & gs & E). unfold same. cbn. by rewrite E. Qed.
#[local] Hint Resolve work_race : toil.
Lemma work_sign_in verify header : quiet (get_current_user race verify header).
Proof. toil. Qed.

(** *** The worker *)
Lemma work_agent_status host_id p : quiet (apply_agent_status host_id p).
Proof. toil. Qed.
Lemma work_host_inventory host_id p : quiet (apply_host_inventory host_id p).
Proof. toil. Qed.
Lemma work_templates host_id p : quiet (apply_template_inventory host_id p).
Proof. toil. Qed.
Lemma work_isos host_id p : quiet (apply_iso_inventory host_id p).
Proof. toil. Qed.
Lemma work_host_metrics host_id p : quiet (apply_host_metrics host_id p).
Proof. toil. Qed.
Lemma work_vm_metrics host_id p : quiet (apply_vm_metrics host_id p).
Proof. toil. Qed.
Lemma work_response host_id resp : quiet (apply_response host_id resp).
Proof. toil. Qed.
Lemma work_timeout_sweep : quiet timeout_sweeper_pass.
Proof. toil. Qed.
Lemma work_metrics_sweep : quiet metrics_retention_pass.
Proof. toil. Qed.
Lemma work_audit_sweep : quiet audit_retention_pass.
Proof. toil. Qed.

(** *** The VM snapshot *)

Definition tracked (h : Host) (st : inv_state) (w : world) : Prop :=
  worked d0 (w_db w) ∧ ∀ u k v, assoc (in_existing st) u = Some k → vms (w_db w) !! k = Some v → reach h v.
Lemma existing_reach h w :
  worked d0 (w_db w) → known d0 h → tracked h (mkInv (existing_vms (scope_ids h (w_db w)) (w_db w)) ∅ []) w.
Proof.
  intros Hw K. split; [done|]. intros u k v E Hv. cbn in E. apply guid_map_spec in E as [E|(v' & Hin & _ & Eid)]; [done|].
  apply elem_of_rows in Hin as (k' & Hk' & Hp). destruct (wk_vm _ _ Hw k' v' Hk') as [Ek' [(h' & Hh' & Ec) _]].
  rewrite Eid in Ek'. subst k'. rewrite Hv in Hk'. injection Hk' as <-. apply andb_true_iff in Hp as [Hs%bool_decide_eq_true _].
  unfold scope_ids in Hs. destruct (h_cluster_id h) as [c|] eqn:Ecl.
  - apply list_elem_of_fmap in Hs as (h2 & He & (k2 & Hk2 & Hc%bool_decide_eq_true)%elem_of_rows).
    destruct (wk_host _ _ Hw k2 h2 Hk2) as [_ (r & Hr & Er)]. rewrite <- He in Hr. split; congruence.
  - apply list_elem_of_singleton in Hs. destruct K as (r & Hr & Er). rewrite Hs in Hh'. split; congruence.
Qed.
Lemma write_row_inv vm w w' :
  (set_vm_state (v_id vm) (v_state vm);; put_vm vm) w = (Ok tt, w') →
  w_db w' = w_db w <| vms ::= <[v_id vm := vm]> |>.
Proof.
  intros ([] & w1 & H1 & H2)%bind_inv.
  assert (keeps (same w_db) (set_vm_state (v_id vm) (v_state vm))) as F by keep.
  specialize (F w). unfold same in F. rewrite H1 in F. cbn in F. rewrite <- F.
  unfold put_vm in H2. rewrite run_query in H2. destruct (slot_taken _ _); [done|]. by injection H2 as <-.
Qed.
Lemma item_tracked h tomb st raw w st' w' :
  known d0 h → tracked h st w → inventory_item h tomb st raw w = (Ok st', w') → tracked h st' w'.
Proof.
  intros K [Hw Ht] H. apply (inventory_item_inv w) in H; [|done].
  destruct (reported_guid _ _) as [u|]; [|by destruct H as [-> ->]].
  destruct H as [(_ & _ & -> & ->)|(base & vm & w1 & _ & (k & Hbase) & Hk & Hhome & Hp & Hex & _)]; [done|].
  apply write_row_inv in Hp. apply vm_keys_eq in Hk as (Eid & _ & Ef). injection Hhome as E1 E2.
  assert (w_db w1 = w_db w ∧ ∀ fid, v_folder_id base = Some fid → housed d0 base ∧ reach h base) as [Ew Hf].
  { destruct Hbase as [(Hk & Hv & ->)|(_ & -> & ->)]; [|done]. split; [done|]. intros _ _.
    split; [by apply (wk_vm _ _ Hw k)|by eapply Ht]. }
  assert (housed d0 vm) as Hvm by (apply (rehoused d0 h base); unfold vm_home; congruence || done).
  assert (reach h vm) as Rv by (split; [congruence|done]).
  split; [rewrite Hp, Ew; by apply work_put_vm|]. intros u' k' v' Ha. rewrite Hp, Ew. cbn. rewrite lookup_insert_Some.
  intros [[<- <-]|[N Hv']]; [done|]. rewrite Hex, assoc_aset in Ha. destruct (String.eqb u' u); [congruence|by eapply Ht].
Qed.
Lemma snapshot_works host_id p : upholds (worked d0) (apply_vm_inventory host_id p).
Proof.
  intros w Hw. unfold apply_vm_inventory, get_host. apply wp_query.
  destruct (hosts (w_db w) !! host_id) as [h|] eqn:Eh; [|done]. assert (known d0 h) as K by (by apply (wk_host _ _ Hw host_id)).
  apply wp_read; [unfold inventory_scope_host_ids; keep|]. intros ids w0. rewrite scope_run. intros [= <- <-] _. apply wp_query.
  apply wp_read; [unfold list_deleted_vm_uuids, peek; keep|]. intros tomb w1 _ Ew1. apply wp_read; [keep|]. intros items w2 _ Ew2.
  apply wp_bind. unfold wp. destruct (fold_each items _ _ w2) as [[st|e] w3] eqn:Ef; [|done].
  assert (tracked h st w3) as [Hw3 _].
  { apply (fold_each_inv _ (λ _, tracked h)) in Ef; [done| |].
    - intros _ x s v s' v' _ Hi Hb. exact (item_tracked h tomb s x v s' v' K Hi Hb).
    - pose proof (existing_reach h w Hw K) as [_ T]. unfold tracked. rewrite Ew2, Ew1. done. }
  clear Ef. match goal with |- match ?m w3 with _ => _ end => enough (quiet m) as Q; [specialize (Q w3 Hw3); by destruct (m w3) as [[]]|] end.
  toil.
Qed.
Lemma upholds_quiet {A} (m : M A) : quiet m → upholds (worked d0) m.
Proof. intros H w Hw. specialize (H w Hw). unfold wp. by destruct (m w) as [[a|e] w']. Qed.
Lemma deliver_works loads validate host_id kind body : quiet (deliver loads validate host_id kind body).
Proof.
  unfold deliver, handle_message. apply keeps_try; [apply _| |intros e; toil]. destruct (loads body) as [p|]; [|toil].
  intros w Hw. apply upholds_scope; [|exact Hw]. unfold dispatch, for_known_host, hardware_of_other, no_get.
  destruct kind, p; first [apply snapshot_works|apply upholds_quiet].
  all: first [apply work_agent_status|apply work_host_inventory|apply work_templates|apply work_isos|apply work_host_metrics
             |apply work_vm_metrics|toil; apply work_response].
Qed.

(** *** The start-up check *)
Lemma gives_hosts p : gives d0 (Forall (known d0)) (query (λ d, rows p (hosts d))).
Proof.
  intros w l w' Hw [= <- _]. apply Forall_forall. intros h (k & Hk & _)%elem_of_rows. by apply (wk_host _ _ Hw k).
Qed.
Lemma gives_credited hs :
  Forall (known d0) hs → gives d0 (Forall (known d0)) (map_each (λ h, hc ← ensure_host_agent_credentials h; mret hc.1) hs).
Proof.
  induction 1 as [|h hs K _ IH]; cbn [map_each]; [intros w l w' _ [= <- _]; constructor|].
  eapply (gives_bind d0 (known d0)); [toil| |intros h' K'].
  - eapply (gives_bind d0 (λ hc, known d0 hc.1)); [toil|by apply gives_credentials|]. by intros hc Khc w a w' _ [= <- _].
  - eapply gives_bind; [toil|exact IH|]. intros l Hl w a w' _ [= <- _]. by constructor.
Qed.
Context (check_database check_schema : M unit).
Context (probe_database : keeps (same aside) check_database) (probe_schema : keeps (same aside) check_schema).
Lemma work_preflight : quiet (run_preflight check_database check_schema).
Proof.
  assert (quiet check_hosts_messaging) as Hm.
  { unfold check_hosts_messaging. apply safe_scope. eapply keeps_gives; [apply gives_hosts|toil|intros hs Khs].
    destruct hs as [|h hs]; [toil|]. set (l := h :: hs) in *. clearbody l. apply keeps_bind; [apply _|toil|intros _].
    apply keeps_bind; [apply _|toil|intros present]. destruct (missing_queues l present); [|toil].
    apply keeps_bind; [apply _|toil|intros cfg]. destruct (preflight_manage_rabbitmq_users cfg); [|toil].
    eapply keeps_gives; [by apply gives_credited|toil|intros hs' Khs']. rewrite Forall_forall in Khs'.
    apply keeps_bind; [apply _| |intros _; toil]. apply keeps_for_each; [apply _|]. intros x Hx. by apply safe_put_host_known, Khs'. }
  assert (Forall (keeps (safe (worked d0))) (steps check_database check_schema)) as Hs.
  { unfold steps. rewrite !Forall_cons. split_and!; first [by apply work_aside|by constructor|exact Hm|solve [toil]]. }
  unfold run_preflight. apply keeps_bind; [apply _|toil|intros cfg]. destruct (negb _); [toil|].
  apply keeps_for_each; [apply _|]. intros x Hx. rewrite Forall_forall in Hs. apply keeps_try; [apply _|by apply Hs|intros e; toil].
Qed.
End toiling.

(** ** Requests that move things *)
Lemma wp_found {A B} (table : database → gmap string A) id what (k : A → M B) Q w :
  (∀ r, table (w_db w) !! id = Some r → wp (k r) Q (λ _ _, True) w) →
  wp (found (query (λ d, table d !! id)) what ≫= k) Q (λ _ _, True) w.
Proof.
  intros H. unfold wp, found. rewrite run_assoc, run_query. destruct (table (w_db w) !! id) as [r|] eqn:E; [|done].
  rewrite run_ret. by apply H.
Qed.
Lemma wp_require {B} b msg (k : unit → M B) Q w :
  wp (k tt) Q (λ _ _, True) w → wp (require b msg ≫= k) Q (λ _ _, True) w.
Proof. by destruct b. Qed.
Lemma wp_assoc {A B C} (m : M A) (f : A → M B) (g : B → M C) Q R w :
  wp (m ≫= λ a, f a ≫= g) Q R w → wp ((m ≫= f) ≫= g) Q R w.
Proof. unfold wp. by rewrite run_assoc. Qed.
(** what follows an operation leaves the invariant alone *)
Lemma wp_then {A B} I (m : M A) (k : A → M B) w :
  wp m (λ _ w', I (w_db w')) (λ _ _, True) w → (∀ a, keeps (safe I) (k a)) →
  wp (m ≫= k) (λ _ w', I (w_db w')) (λ _ _, True) w.
Proof.
  intros Hm Hk. apply wp_bind. eapply wp_mono; [exact Hm| |done]. intros a w' Hw'. specialize (Hk a w' Hw').
  unfold wp. by destruct (k a w') as [[b|e] w''].
Qed.
(** what goes before it *)
Lemma wp_before {A B} I (m : M A) (k : A → M B) w :
  I (w_db w) → keeps (safe I) m → (∀ a w', I (w_db w') → wp (k a) (λ _ w', I (w_db w')) (λ _ _, True) w') →
  wp (m ≫= k) (λ _ w', I (w_db w')) (λ _ _, True) w.
Proof.
  intros Hw Hm Hk. apply wp_bind. specialize (Hm w Hw). unfold wp at 1. destruct (m w) as [[a|e] w']; [by apply Hk|done].
Qed.
Lemma framed_pass {A} I `{!Framed I} (m : M A) : keeps (same (λ w, tables (w_db w))) m → keeps (safe I) m.
Proof. apply safe_framed, _. Qed.
(** a computation that keeps a part of the tables, opened to its effects *)
Ltac still := repeat first [solve [eauto with frame nocore] | catch_step | keep_step | 
  lazymatch goal with |- keeps _ (let _ := _ in _) => cbv zeta | |- keeps _ ?m => progress open_head m end].
(** the rest of a handler: audit events, reads *)
Ltac after := apply (framed_pass _); still.
Ltac enter := repeat first
  [ progress cbn beta
  | lazymatch goal with
  | |- wp ((_ ≫= _) ≫= _) _ _ _ => apply wp_assoc
  | |- wp (require _ _ ≫= _) _ _ _ => apply wp_require
  | |- wp (mret _ ≫= _) _ _ _ => apply wp_bind, wp_ret
  | |- wp (let _ := _ in _) _ _ _ => cbv zeta
  end ].

Section moving.
Context {hardware : Type} (model_validate : dict → option hardware).
Context (repo_root : path) (presign : string → string → string → Z → string).
Context (put_file : AgentStore → string → string → string → M unit) (remove_file : AgentStore → string → M unit).
Abbreviation handle := (handle model_validate repo_root presign put_file remove_file).

Definition placing (r : request) : bool :=
  match r with
  | AddCluster _ _ | EditCluster _ _ | RemoveCluster _ | AddFolder _ _ _ | PatchFolder _ _ | RemoveFolder _
  | AddHost _ _ _ | UpdateHost _ _ | RemoveHost _ | MoveVm _ _ => true
  | _ => false
  end.
Definition networking (r : request) : bool :=
  match r with AddVlan _ _ _ _ _ _ | PatchVlan _ _ _ _ | RemoveVlan _ => true | _ => false end.
Definition labelling (r : request) : bool :=
  match r with
  | AddTagCategory _ | PatchTagCategory _ _ | RemoveTagCategory _ | AddTag _ _ _ | PatchTag _ _ _ _ | RemoveTag _
  | PutVmTags _ _ => true
  | _ => false
  end.
Lemma kinds_of_request r : refreshing r || placing r || networking r || labelling r = true.
Proof. by destruct r. Qed.

(** *** VLANs *)
Lemma networking_ok s user r : networking r = true → upholds vlans_ok (handle s user r).
Proof.
  destruct r; try done; intros _ w V; cbn [Access.handle].
  - unfold add_vlan. enter. apply wp_then; [by apply create_vlan_ok|intros a; after].
  - unfold patch_vlan, get_visible_vlan, get_vlan. enter. apply wp_found. intros v Hv. enter. 
    apply wp_then; [apply update_vlan_ok; [done|by rewrite (vo_key _ V _ v Hv)]|intros a; after].
  - unfold remove_vlan, get_visible_vlan, get_vlan. enter. apply wp_found. intros v Hv. enter.
    apply wp_before; [done|after|]. intros _ w' V'. unfold delete_vlan, wp. cbn. revert V'.
    apply vlans_ok_sub; cbn; [|done]. intros k u. rewrite lookup_delete_Some. by intros [_ H].
Qed.
Lemma networking_elsewhere s user r :
  networking r = true → keeps (same (λ w, (places (w_db w), labels (w_db w)))) (handle s user r).
Proof. destruct r; try done; intros _; cbn [Access.handle]; still. Qed.
(** *** Tags *)
Lemma labelling_ok s user r : labelling r = true → upholds tags_ok (handle s user r).
Proof.
  destruct r; try done; intros _ w T; cbn [Access.handle].
  - unfold add_tag_category, require_tag_admin. enter. apply wp_then; [by apply create_category_ok|intros a; after].
  - unfold patch_tag_category, admin_category, require_tag_admin, get_tag_category. enter. apply wp_found. intros c Hc. enter.
    apply wp_then; [apply rename_category_ok; [done|by rewrite (to_cat_key _ T _ c Hc)]|intros a; after].
  - unfold remove_tag_category, admin_category, require_tag_admin, get_tag_category. enter. apply wp_found. intros c Hc. enter.
    apply wp_before; [done|after|]. intros _ w' T'. unfold wp. cbn. by apply delete_category_ok.
  - unfold add_tag, require_tag_admin. enter. apply wp_then; [by apply create_tag_ok|intros a; after].
  - unfold patch_tag, admin_tag, require_tag_admin, get_tag. enter. apply wp_found. intros t Ht. enter.
    apply wp_read; [unfold tag_fields; still|]. intros before w1 _ E. enter.
    apply wp_then; [apply update_tag_ok; rewrite E; [done|by rewrite (to_tag_key _ T _ t Ht)]|intros a; after].
  - unfold remove_tag, admin_tag, require_tag_admin, get_tag. enter. apply wp_found. intros t Ht. enter.
    apply wp_before; [done|after|]. intros _ w' T'. unfold wp. cbn. by apply delete_tags_ok.
  - unfold put_vm_tags, get_visible_vm, get_vm. enter. apply wp_found. intros v Hv. enter. apply wp_query. enter.
    apply wp_then; [apply set_vm_tags_ok; [done|by rewrite (to_vm_key _ T _ v Hv)]|intros a; after].
Qed.
Lemma labelling_elsewhere s user r :
  labelling r = true → keeps (same (λ w, (places (w_db w), networks (w_db w)))) (handle s user r).
Proof. destruct r; try done; intros _; cbn [Access.handle]; still. Qed.
(** *** Clusters, hosts and folders *)
Lemma moved_row h c w h' w' :
  move_host h c w = (Ok h', w') → hosts (w_db w) !! h_id h = Some h → hosts (w_db w') !! h_id h' = Some h'.
Proof.
  unfold move_host. intros H Hh.
  apply bind_inv in H as (target & w1 & H1 & H).
  assert (w_db w1 = w_db w) as E1 by (destruct c; by injection H1 as _ <-).
  destruct (is_some c && _); [done|]. apply bind_inv in H as ([] & w2 & H2 & H).
  assert (w_db w2 = w_db w) as E2.
  { destruct target as [r|]; [destruct (negb _); [done|]|]; injection H2 as <-; done. }
  case_bool_decide; [injection H as <- <-; by rewrite E2|].
  unfold put_host in H. rewrite !run_exec, run_query in H. destruct (slot_clash _); [done|].
  rewrite run_ret, run_exec in H. injection H as <- <-. cbn. by rewrite lookup_insert_eq.
Qed.
Lemma sited_put_host h d :
  (∃ r, hosts d !! h_id h = Some r ∧ h_cluster_id r = h_cluster_id h) → sited d → sited (d <| hosts ::= <[h_id h := h]> |>).
Proof.
  intros (r & Hr & Er) W.
  assert (∀ k x, hosts d !! k = Some x → ∃ y, <[h_id h := h]> (hosts d) !! k = Some y ∧ h_cluster_id y = h_cluster_id x) as Hm.
  { intros k x Hx. destruct (decide (h_id h = k)) as [<-|N]; [|exists x; by rewrite lookup_insert_ne].
    exists h. rewrite lookup_insert_eq. split; congruence. }
  split; try apply W; cbn.
  - intros k x. rewrite lookup_insert_Some. intros [[<- <-]|[_ H]]; [done|by apply (wp_host_key d W)].
  - intros k x c. rewrite lookup_insert_Some. intros [[<- <-]|[_ H]] Hc; [|by apply (wp_host_cluster d W k x)].
    apply (wp_host_cluster d W (h_id h) r c Hr). congruence.
  - intros k v Hv. destruct (wp_vm_placed d W k v Hv) as (x & Hx & E). destruct (Hm _ _ Hx) as (y & Hy & Ey). exists y.
    split; [done|congruence].
  - intros k f Hf. pose proof (wp_folder_scoped d W k f Hf) as S. unfold folder_scoped in *. cbn.
    destruct (f_cluster_id f), (f_host_id f) as [x|]; try done. destruct S as (y & Hy & E).
    destruct (Hm _ _ Hy) as (z & Hz & Ez). exists z. split; [done|congruence].
Qed.
#[local] Instance any_reflexive : Reflexive (λ _ _ : string, True).
Proof. done. Qed.
(** the row a handler goes on with is the row of the table *)
Definition current (h : Host) (d : database) : Prop := sited d ∧ hosts d !! h_id h = Some h.
Lemma current_framed h : Framed (current h).
Proof. intros d d' E [W H]. split; [by apply (framed (I := sited) d)|]. unfold tables in E. congruence. Qed.
Lemma move_part_ok s user h c w :
  current h (w_db w) → wp (move_part s user h c) (λ h' w', current h' (w_db w')) (λ _ _, True) w.
Proof.
  intros [W Hid]. unfold move_part. enter.
  apply wp_read; [unfold cluster_ref; still|]. intros before w1 _ E1. apply wp_bind.
  eapply wp_mono with (Q := λ h' w', current h' (w_db w')) (R := λ _ _, True); [| |done].
  - pose proof (move_host_places (agree := λ _ _, True) h c w1) as P. rewrite E1 in P. specialize (P W Hid). unfold wp in *.
    destruct (move_host h c w1) as [[h'|e] w2] eqn:Em; [|done]. split; [exact P|].
    apply (moved_row h c w1 h' w2 Em). by rewrite E1.
  - intros h' w2 C2. apply wp_read; [unfold cluster_ref; still|]. intros after_ w3 _ E3. pose proof (current_framed h').
    apply wp_bind. match goal with |- wp ?m _ _ _ =>
      assert (keeps (safe (current h')) m) as F by (apply (framed_pass _); still); specialize (F w3); unfold wp;
      destruct (m w3) as [[[]|e] w4]; [|done] end.
    apply F. by rewrite E3.
Qed.
Lemma update_host_ok s user id body : upholds sited (update_host model_validate s user id body).
Proof.
  intros w W. unfold update_host, get_visible_host, get_host. enter. apply wp_found. intros h Hh. enter.
  assert (current h (w_db w)) as C by (split; [done|by rewrite (wp_host_key _ W _ h Hh)]).
  apply wp_bind. eapply wp_mono with (Q := λ h' w', current h' (w_db w')) (R := λ _ _, True); [| |done].
  { destruct (hu_cluster_id body) as [c|]; [by apply move_part_ok|by apply wp_ret]. }
  intros h' w2 [W2 H2]. apply wp_read; [unfold renamed; still|]. intros h2 w3 Hren E3.
  assert (h_id h2 = h_id h' ∧ h_cluster_id h2 = h_cluster_id h') as [Eid Ec].
  { unfold renamed in Hren. apply bind_inv in Hren as (? & ? & _ & Hren). apply bind_inv in Hren as (? & ? & _ & Hren).
    by injection Hren as <- _. }
  enter. apply wp_then; [|intros _; after]. unfold put_host, wp. cbn. rewrite E3. apply sited_put_host; [|done].
  exists h'. rewrite Eid. by split.
Qed.
Lemma placing_ok s user r : placing r = true → upholds sited (handle s user r).
Proof.
  destruct r; try done; intros _ w W; cbn [Access.handle].
  - unfold add_cluster_route. enter. apply wp_then; [by apply (create_cluster_places (agree := λ _ _, True))|intros a; after].
  - unfold edit_cluster, admin_cluster, get_cluster. enter. apply wp_found. intros c Hc. enter.
    apply wp_then; [apply rename_cluster_places; [done|by rewrite (wp_cluster_key _ W _ c Hc)]|intros a; after].
  - unfold remove_cluster, admin_cluster, get_cluster. enter. apply wp_found. intros c Hc. enter.
    apply wp_before; [done|after|]. intros _ w' W'. by apply (delete_cluster_places (agree := λ _ _, True)).
  - unfold add_folder_route. enter. apply wp_then; [by apply (create_folder_places (agree := λ _ _, True))|intros a; after].
  - unfold patch_folder, get_visible_folder, get_folder. enter. apply wp_found. intros f Hf. enter.
    apply wp_then; [apply rename_folder_places; [done|by rewrite (wp_folder_key _ W _ f Hf)]|intros a; after].
  - unfold remove_folder, get_visible_folder, get_folder. enter. apply wp_found. intros f Hf. enter.
    apply wp_before; [done|after|]. intros e w' W'. enter. apply wp_then; [by apply (delete_folder_places (agree := λ _ _, True))|intros a; after].
  - unfold add_host_route. enter. apply wp_then; [by apply (create_host_places (agree := λ _ _, True))|intros a; after].
  - apply wp_then; [by apply update_host_ok|intros a; after].
  - unfold remove_host, get_admin_host, get_visible_host, get_host. enter. apply wp_found. intros h Hh. enter.
    apply wp_query. apply wp_before; [done|after|]. intros e w' W'. apply wp_query. apply wp_before; [done|after|].
    intros _ w2 W2. by apply (delete_host_places (agree := λ _ _, True)).
  - unfold move_vm, get_visible_vm, get_vm. enter. apply wp_found. intros v Hv. enter.
    apply wp_read; [unfold folder_ref; still|]. intros before w1 _ E. enter.
    apply wp_then; [apply (move_vm_places (agree := λ _ _, True)); rewrite E; [done|by rewrite (wp_vm_key _ W _ v Hv)]|intros a; after].
Qed.
(** what placement does to another invariant *)
Section stable.
Context (I : database → Prop) `{!PlacementStable I} `{!Framed I}.
Ltac steady := repeat first
  [ solve [apply (safe_framed _); eauto with frame nocore]
  | lazymatch goal with
    | |- keeps _ (put_cluster _) => apply safe_exec; intros ?; apply ps_cluster
    | |- keeps _ (put_host _) => apply safe_exec; intros ?; apply ps_host
    | |- keeps _ (put_folder _) => apply safe_exec; intros ?; apply ps_folder
    | |- keeps _ (save_vm _) => apply safe_exec; intros ?; apply ps_vm
    | |- keeps _ (exec (move_rows _ _)) => apply safe_exec; intros ?; apply ps_move
    | |- keeps _ (exec (delete_folders _)) => apply safe_exec; intros ?; apply ps_delete_folders
    | |- keeps _ (exec (delete_host_row _)) => apply safe_exec; intros ?; apply ps_delete_host
    | |- keeps _ (exec (delete_cluster_row _)) => apply safe_exec; intros ?; apply ps_delete_cluster
    | |- keeps _ (exec _) => apply (safe_framed _); intros ?; reflexivity
    | |- keeps _ new_id => apply (safe_framed _); keep
    | |- keeps _ new_agent_rmq_password => apply (safe_framed _); keep
    | |- keeps _ (broker_op _) => apply (safe_framed _); keep
    | |- keeps _ (let _ := _ in _) => cbv zeta
    | |- keeps _ ?m => first [catch_step | keep_step | progress open_head m]
    end ].
Lemma placing_stable s user r : placing r = true → keeps (safe I) (handle s user r).
Proof using All. destruct r; try done; intros _; cbn [Access.handle]; steady. Qed.
End stable.

(** *** Any request *)
Context (transfers : ∀ s k c t, keeps (same aside) (put_file s k c t)).
Context (removals : ∀ s k, keeps (same aside) (remove_file s k)).
Lemma handle_sound s user r : upholds sound (handle s user r).
Proof using transfers removals.
  intros w H. pose proof H as [W V T]. pose proof (kinds_of_request r) as K. rewrite !orb_true_iff in K.
  assert (∀ P : database → Prop, upholds P (handle s user r) ∨ keeps (safe P) (handle s user r) → P (w_db w) →
    wp (handle s user r) (λ _ w', P (w_db w')) (λ _ _, True) w) as Part.
  { intros P [Hu|Hs] Hw; [by apply Hu|]. specialize (Hs w Hw). unfold wp. by destruct (handle s user r w) as [[]]. }
  destruct K as [[[K|K]|K]|K].
  - eapply wp_mono; [apply (Part (worked (w_db w)))| |done].
    + right. by apply work_request.
    + by apply worked_refl.
    + intros a w' Hw'. by apply (worked_sound (w_db w)).
  - pose proof (Part sited (or_introl (placing_ok s user r K)) W) as A.
    pose proof (Part vlans_ok (or_intror (placing_stable _ s user r K)) V) as B.
    pose proof (Part tags_ok (or_intror (placing_stable _ s user r K)) T) as C.
    unfold wp in *. destruct (handle s user r w) as [[] w']; [by split|done].
  - pose proof (Part vlans_ok (or_introl (networking_ok s user r K)) V) as B.
    pose proof (networking_elsewhere s user r K w) as F. pose proof (f_equal fst F) as E1. pose proof (f_equal snd F) as E2. clear F.
    cbn in E1, E2.
    unfold wp in *. destruct (handle s user r w) as [[] w']; [|done].
    split; [by apply (sited_places (w_db w))|done|by apply (tags_labels (w_db w))].
  - pose proof (Part tags_ok (or_introl (labelling_ok s user r K)) T) as B.
    pose proof (labelling_elsewhere s user r K w) as F. pose proof (f_equal fst F) as E1. pose proof (f_equal snd F) as E2. clear F.
    cbn in E1, E2.
    unfold wp in *. destruct (handle s user r w) as [[] w']; [|done].
    split; [by apply (sited_places (w_db w))|by apply (vlans_networks (w_db w))|done].
Qed.
Lemma serve_sound user r w :
  sound (w_db w) → sound (w_db (serve model_validate repo_root presign put_file remove_file user r w).2).
Proof using transfers removals.
  intros H. unfold serve. apply upholds_scope; [|done]. intros x Hx. apply wp_read; [unfold resolve_scope; keep|].
  intros s x' _ E. apply handle_sound. by rewrite E.
Qed.
End moving.

(** ** Every history *)
Section program.
Context {hardware : Type} (model_validate : dict → option hardware) (validate_response : json → option AgentResponse).
Context (repo_root : path) (presign : string → string → string → Z → string).
Context (put_file : AgentStore → string → string → string → M unit) (remove_file : AgentStore → string → M unit).
Context (loads : string → option json) (verify : string → dict + string) (race : database → database).
Context (check_database check_schema : M unit).
Abbreviation step := (step model_validate validate_response repo_root presign put_file remove_file loads verify race
  check_database check_schema).
Context (Env : environment put_file remove_file race check_database check_schema).
Lemma worked_step {A} (m : M A) w :
  sound (w_db w) → keeps (safe (worked (w_db w))) m → sound (w_db (m w).2).
Proof. intros H Hm. apply (worked_sound (w_db w)); [done|]. by apply Hm, worked_refl. Qed.
Lemma step_sound w w' : step w w' → sound (w_db w) → sound (w_db w').
Proof using Env.
  destruct Env as [transfers removals race_users probe_database probe_schema].
  intros Hs H. destruct Hs; try exact H; [by apply serve_sound|apply worked_step; [done|]..].
  - apply safe_scope. by apply work_sign_in.
  - apply safe_scope. apply work_install_script.
  - apply deliver_works.
  - apply work_timeout_sweep.
  - apply work_metrics_sweep.
  - apply work_audit_sweep.
  - by apply work_preflight.
Qed.

(** C40: the tables stay consistent whatever happens.  From a consistent
    database - the empty one, say - through any history of requests, sign-ins,
    agent messages of any content, sweeps, start-ups and outages: every host is
    in an existing cluster or in none, a machine's host exists and its
    denormalised cluster is its host's, a folder hangs off exactly one existing
    cluster or standalone host and a machine in a folder runs where the folder
    is; every VLAN belongs to exactly one existing cluster or host, its tag is
    in 1-4094 and defined once there, at most one VLAN of a scope being the
    default; tag and category names are valid and unique up to case, assignments
    relate existing rows and no machine has two tags of one category. *)
Theorem tables_consistent w w' : sound (w_db w) → rtc step w w' → sound (w_db w').
Proof using Env. intros H R. induction R as [|x y z Hs _ IH]; [done|]. by apply IH, (step_sound x). Qed.
End program.

(** ** An example *)
Lemma sound_empty : sound empty_db.
Proof. split; [apply well_placed_empty|apply vlans_ok_empty|apply tags_ok_empty]. Qed.
Definition admin : User := mkUser "u1" "root@ovc" None true (Some (admin_role default_settings)).
Definition report_bodies (s : string) : option json :=
  if String.eqb s "status" then Some (JObj [("hypervisor", JStr "kvm")])
  else if String.eqb s "vms" then Some (JObj [("vms", JList [JObj [("vmId", JStr "g1"); ("name", JStr "web")]])])
  else None.
Definition ask (r : request) (w : world) : world :=
  (serve (λ _, Some tt) [] (λ _ _ _ _, "") (λ _ _ _ _, mret tt) (λ _ _, mret tt) admin r w).2.
Definition tell (kind : QueueKind) (body : string) (w : world) : world :=
  (deliver report_bodies (λ _, None) "id-ii" kind body w).2.
Abbreviation day_step :=
  (Program.step (λ _, Some tt) (λ _, None) [] (λ _ _ _ _, "") (λ _ _ _ _, mret tt) (λ _ _, mret tt)
    report_bodies (λ _, inr "") id (mret tt) (mret tt)).
(** a cluster with one host, whose agent reports a machine ... *)
Definition morning : world :=
  ask (MoveVm "id-iiiiiiiiii" (Some "id-iiiiii")) (tell VM_INVENTORY "vms" (ask (AddVlan "lab" 10 None true (Some "id-") None)
    (ask (AddFolder "prod" (Some "id-") None) (ask (AddHost "n1" (Some "id-") "hyperv")
    (ask (AddCluster "east" "hyperv") sample_world))))).
(** ... and then another hypervisor *)
Definition evening : world := tell AGENT_STATUS "status" morning.
Lemma ask_step r w : day_step w (ask r w).
Proof. exact (Served _ _ _ _ _ _ _ _ _ _ _ w admin r). Qed.
Lemma tell_step kind body w : day_step w (tell kind body w).
Proof. exact (Consumed _ _ _ _ _ _ _ _ _ _ _ w "id-ii" kind body). Qed.
Lemma evening_steps : rtc day_step sample_world evening.
Proof.
  unfold evening, morning. repeat lazymatch goal with
  | |- rtc _ _ (ask ?r ?w) => apply (rtc_r _ w); [|exact (ask_step r w)]
  | |- rtc _ _ (tell ?k ?b ?w) => apply (rtc_r _ w); [|exact (tell_step k b w)]
  end. apply rtc_refl.
Qed.
Lemma tables_consistent_witness :
  sound (w_db evening) ∧
  v_folder_id <$> vms (w_db evening) !! "id-iiiiiiiiii" = Some (Some "id-iiiiii") ∧
  h_hypervisor <$> hosts (w_db evening) !! "id-ii" = Some "kvm" ∧
  cl_hypervisor <$> clusters (w_db evening) !! "id-" = Some "hyperv".
Proof.
  split; [|split; [|split]; vm_compute; reflexivity].
  apply (tables_consistent (λ _, Some tt) (λ _, None) [] (λ _ _ _ _, "") (λ _ _ _ _, mret tt) (λ _ _, mret tt)
    report_bodies (λ _, inr "") id (mret tt) (mret tt)) with (w := sample_world);
    [exact quiet_environment|exact sound_empty|exact evening_steps].
Defined.
(** An agent's report is not checked against the cluster of its host: after it
    the cluster holds a host of another hypervisor, which no request allows. *)
Lemma report_breaks_cluster : ¬ well_placed (w_db evening).
Proof.
  intros W.
  assert ((λ h, (h_cluster_id h, h_hypervisor h)) <$> hosts (w_db evening) !! "id-ii" = Some (Some "id-", "kvm"))
    as (h & Hh & [= Hc Hv])%fmap_Some by (vm_compute; reflexivity).
  assert (cl_hypervisor <$> clusters (w_db evening) !! "id-" = Some "hyperv") as (c & Hk & Ev)%fmap_Some
    by (vm_compute; reflexivity).
  destruct (wp_host_cluster _ W _ _ _ Hh (eq_sym Hc)) as (r & Hr & E). rewrite Hk in Hr. injection Hr as <-. congruence.
Qed.
